(* ===== verification/_CoqProject ===== *)
-Q . S2P
Prelude.v
States.v
Crc.v
CrcProps.v
Stdio.v
Strptime.v
Protocols.v
Xmodem.v
XmodemBlock.v
XmodemReceive.v
XmodemSend.v
XmodemSession.v
XmodemSafety.v
XmodemProps.v
Zmodem.v
ZmodemCodec.v
ZmodemHeader.v
ZmodemParse.v
ZmodemData.v
ZmodemProps.v
ZmodemMachine.v
ZmodemView.v
ZmodemReceiver.v
ZmodemSender.v
ZmodemSession.v
ZmodemStall.v
Utf8.v
Utf8Props.v
Codepage.v
Colors.v
Screen.v
ScreenList.v
ScreenState.v
ScreenLine.v
ScreenSpec.v
ScreenScroll.v
ScreenCursor.v
ScreenDraw.v
ScreenPrint.v
ScreenCommand.v
ScreenOpen.v
ScreenText.v
ScreenProps.v
Emulation.v
Vt100.v
Vt100Machine.v
EmulationInv.v
Vt100Safe.v
Vt100Ops.v
Vt100Total.v
Ansi.v
Vt52.v
Atascii.v
Avatar.v
Petscii.v
Debug.v
Terminal.v
TerminalSafe.v
TerminalParse.v
Vt100Sgr.v
Vt100Tabs.v
AnsiParse.v
TerminalText.v
EmulationProps.v
EmulatorsProps.v
Telnet.v
TelnetWrite.v
TelnetRead.v
TelnetProps.v
TelnetSafety.v
Kermit.v
KermitMachine.v
KermitCodec.v
KermitPacket.v
KermitProps.v
KermitFile.v
KermitAttributes.v
KermitWindow.v
KermitLimits.v
