(* ===== verification/Prelude.v ===== *)
(** * Qodem: file transfers, the telnet channel, the terminal emulations and the screen

    Qodem is a terminal program; its file transfers are state machines that a
    main loop feeds with the bytes that came in and that fill a buffer of bytes
    to go out, below them a telnet channel carries the bytes, and what is not a
    file goes byte by byte through a terminal emulation that draws into a list of
    lines, the scrollback.
    This development models those machines in C integer arithmetic
    (fixed widths, wrap-around and signedness written out), over an explicit
    store (the file statics of the C file, the statistics the protocols share, a
    small file system), and proves what makes them correct.

    ** Parts and files

    - Prelude: record update, machine integers, byte lists, the error monad
      [M] (a step ends in [Done], in a [Fault] such as an access out of bounds,
      a null pointer or a failed assertion, or in [Diverge]), its weakest
      precondition [wp], C buffers ([memcpy], [store], [load]).
    - Crc, CrcProps: calcrc (xmodem.c), compute_crc16, makecrc and compute_crc32
      (zmodem.c), makecrc and compute_crc16 (kermit.c).  The three check codes
      are instances of one class of linear codes, [LinearCode].
    - Stdio: the part of the C library the protocols call: files with a position
      on a disk that can be full, unreadable or read-only, or refuse a stat(), numbers
      printed and scanned, basename and dirname.
    - Strptime: lib/c/strptime.c as far as the formats of kermit.c need it, and
      struct tm and strftime() around it.
    - Protocols: protocols.c, protocols.h: the statistics and their setters, the
      end of a transfer, the CR/LF filter of the ASCII transfer.
    - Xmodem: xmodem.c, all of it: one definition per function, the two long
      handlers xmodem_receive and xmodem_send one definition per stage.
      XmodemBlock: frames, construct_block and verify_block.  XmodemReceive,
      XmodemSend: one call of the receiver and of the sender.  XmodemSession: the
      two machines on one line.  XmodemSafety: the receiver on arbitrary input.
      XmodemProps: the properties of the component.
    - Zmodem: the layers of zmodem.c under its state machine: statistics,
      timeouts, block size, encode_byte and its map, encode_zdata_bytes,
      decode_zdata_bytes, build_packet, parse_packet, receive_zdata.
      ZmodemCodec, ZmodemHeader, ZmodemParse, ZmodemData: lemmas on
      the escape code, 32-bit words, headers built, headers parsed, subpackets
      received.  ZmodemProps: the properties of these layers.
      ZmodemMachine: every handler of the receiver and of the sender, the two
      loops, zmodem() and zmodem_start().  ZmodemView: the part of the state that
      matters when nothing goes wrong, and a program logic over it.
      ZmodemReceiver, ZmodemSender: one call of each side.  ZmodemSession: the two
      machines on one line.  ZmodemStall: sessions that go wrong.
    - Kermit: the data and the operations of kermit.c: parameters and their
      negotiation, the data field codec, attributes, packets in and out, window
      slots, the file that is opened for a download, statistics and timeouts.
      KermitMachine: both windows, every state handler, the loop [kermit] and
      kermit_start and kermit_skip_file.  KermitCodec: the codec of the data
      field.  KermitPacket: frames, [decode_input_bytes] on them, the CRC.
      KermitProps: files, packets, negotiation.  KermitFile: the download file.
      KermitAttributes: the Attributes packet.  KermitWindow: the input window as
      a queue.  KermitLimits: timeouts and what breaks.
    - Telnet: netclient.c from raw_write() to rlogin_write(), and qodem_write() of
      qodem.c over it.  The socket is a script of what the next calls of send() do.
      TelnetWrite: telnet_write() against the stream of bytes it promises.
      TelnetRead: telnet_read() on such a stream.  TelnetProps: the channel, and
      what goes wrong.  TelnetSafety: telnet_read() on arbitrary input.
    - Utf8: utf8_encode() and utf8_decode() of codepage.c with its table, and the
      loops of vt100.c, host.c, script.c and console.c that decode a stream with
      them.  Utf8Props: the codec against the definition of UTF-8, and the loops.
    - States: states.h, the states of the program that the screen depends on.
    - Codepage: the tables of codepage.c and atascii.c, the names of the code pages
      and the two maps between bytes and code points.
    - Colors: colors.h and colors.c, attributes in a 16 bit word.
    - Screen: scrollback.c as far as the emulations draw with it, the first refresh
      and the status line of console.c, the resize of input.c.  The lines are
      nodes on a heap, linked both ways, with the pointers of the code into it;
      curses is a class, [Curses].  ScreenList, ScreenState: the linked list and
      the invariant of the state.  ScreenLine, ScreenSpec: the operations on one
      line and the screen as a list of rows.  ScreenScroll, ScreenCursor,
      ScreenDraw, ScreenPrint: what each group of operations does to the rows.
      ScreenCommand: sequences of operations.  ScreenOpen, ScreenText: the first
      screen, text.  ScreenProps: what faults, and the properties of the component.
    - Emulation: what the emulations share: their states as one record
      [emul_state] over the state of the screen, with the answers they send
      (qodem_write) and the events they raise, and generic_handle_control_char()
      and tty() of emulation.c.
      Vt100: the operations of vt100.c, one definition per function: character
      sets, modes, tab stops, cursor, editing, colors, reports.  Vt100Machine: the
      function vt100(), one definition per state of its scanner.  Ansi, Vt52,
      Atascii, Avatar, Petscii: the emulations of the files of these names; the
      last two can hand sequences to the ANSI emulation.  Debug: the hexadecimal
      dump of emulation.c.  Terminal:
      terminal_emulator() and reset_emulation() of emulation.c, the loop of
      console_process_incoming_data().
      EmulationInv, Vt100Safe, Vt100Ops, Vt100Total: the invariant, that each
      operation and each state of the scanner keeps it.  TerminalSafe: calls and
      streams, for ATASCII too.  TerminalParse, TerminalText:
      control sequences and text.  AnsiParse: the sequences of the ANSI emulation.
      Vt100Sgr: colors.  Vt100Tabs: tab stops.  EmulationProps: the properties of
      the emulations of vt100.c.  EmulatorsProps: those of the others.
    The protocols meet in the shared record [common] of Protocols: each keeps it
    in the field [shared] of its own state and reaches it through [lift].

    ** Correspondence

    A static variable is a field of the state record with the same name; a
    function is a definition with the same name; pointers to a buffer and its
    length are one list of bytes.  A block of memory that the code indexes freely
    stays a list of fixed length and every access is checked: the model faults
    where the code would leave the array.  An [assert] is [assertM].  Messages
    for the screen are kept as format strings with their arguments; log lines,
    dialogs and music are events.

    ** What the theorems show

    - Check codes: each routine is the polynomial remainder (or the bitwise
      code) it stands for, whatever the width of the register in C, and notices
      every burst within two bytes.
    - Xmodem: the frame that is sent, the frames that are accepted, safety of the
      receiver on every input but one, an EOT for a file of padding, on which it is
      shown not to return; and a refinement: sender and receiver joined by a
      lossless line copy the file, up to trailing padding.
    - Zmodem: every header and subpacket that is built is parsed back whatever
      the escapes, nothing damaged in two bytes is accepted, buffers suffice, the
      line stays free of flow control.  Two machines joined by a lossless line
      take a whole batch of files from one disk to the other and both end in
      COMPLETE, unless a file's last block is full where the window asks for an
      acknowledgement: then the receiver never leaves ZDATA, whatever time passes,
      and the sender repeats its ZEOF until its timeouts are used up.
    - Kermit: a file cut into packets comes back, a packet that is written is read
      behind any noise, damage is rejected, both sides negotiate the same
      well-formed parameters, attributes arrive, no existing file is harmed, and
      the window refines a queue of packets.
    - Telnet: what one end writes the other reads, in binary mode and for lines of
      text in ASCII mode, however sends and reads are cut; telnet_write() returns
      whatever send() does; telnet_read() is safe exactly as long as no
      subnegotiation is too long.
    - UTF-8: the encoder is inverted by the table, which accepts nothing but
      scalar values; the stream decoder of the emulations reads any text however
      it is cut into calls, that of the scripts loses text at a cut.
    - Screen: every operation the emulations draw with keeps the list of lines and
      its pointers well formed, whatever the order of the operations, and none
      faults while its arguments are in bounds; text that is typed is stored
      where the cursor is, regions scroll as rows, lines that leave the screen
      stay in the scrollback, which never outgrows its bound.
    - Emulations: from a fresh screen, once one of the emulations VT100, VT102,
      VT220, LINUX or XTERM is selected, no byte stream whose numbers are in range
      makes a call fault or run on, and the invariant of the screen holds after
      each call; printed parameters are scanned back; text is printed as itself;
      SGR sets the colors and says what becomes of bold; the tab stops are a set.  What the hypothesis on the
      stream excludes does fault: a seventeenth parameter, a column 0.  ATASCII is
      safe on every stream; the ANSI emulation reads back the numbers of a
      sequence, for its colors and for the cursor; a run of AVATAR is its text,
      and a tab of VT52 at the right margin never ends.
    - Defects: the properties that pin down behaviour the code does not mean to
      have (half a CRC accepted, an endless loop on a file of padding, the end of
      the input passed over, a queued header overwritten, data lost on a full
      disk, a negotiation without end, data sent twice) are theorems as well.

    ** Fuel and bounds

    [handler_loop] models the do-while loop of the entry points; [loop_fuel] turns
    are enough since every turn but the last uses up input or leaves a state for
    good, and the theorems on a call conclude [Done].  [eot_trim] has two turns per
    byte of the file and two more.  Table loops run their exact number of turns.
    The search for a new file name has one turn more than there are files, which
    [open_receive_file_safe] shows to be enough; the loops over a window have
    [ring_fuel] turns, one for each slot and one more, and [save_all] one for each
    packet in it.  The loops of Zmodem have the [loop_fuel] of ZmodemMachine, which
    grows with the input and the buffers; the theorems on sessions conclude that
    every call returns.  [write_from] of Telnet has a turn for each result of the
    script and two for each byte, [raw_loop] one for each result and two more;
    TelnetWrite shows both to be enough.  The loops of the screen over the heap have
    one turn for each line and one more; [pad_last] has the 256 cells of a line and
    one more; those over rows have one turn for each row.  The theorems on the
    screen conclude that the operation returns.  The loops of vt100.c run an exact
    number of turns ([each]).  The console prints until the emulation has no more
    characters: [fuel] of Terminal bounds that loop, and the tab of a TTY; one turn
    is enough for the emulations of vt100.c, which never have two characters for
    one byte, and a run of AVATAR takes two more than its count; the dump of the
    debugging emulation takes a turn for each column it moves to.

    ** Not modelled

    - The screens, dialogs and keyboard handlers of protocols.c and the console
      loop around the ASCII transfer: terminal I/O.
    - Debug logging (DLOG) and the music played at the end of a transfer.
    - localtime() and mktime(), which know the time zone, are parameters of the
      Kermit model ([environment]), as are the options read from the configuration
      file; the conversions of strptime() that no format of the program has.
    - Of the scrollback: drawing it with curses, the search, the keyboard of the
      viewer, saving it to a file.
    - The functions that turn keys into sequences.
    - The translation tables and their editors, the music parser, the phone book,
      the dialer and the host mode.  Of the network
      code connecting, listening, the ssh session and serial ports are calls of the
      system and of libraries.
    - lib/cryptlib, lib/pdcurses, lib/upnp: third-party code.
*)

From Stdlib Require Import ZArith Lia List Bool.
From stdpp Require Import base list numbers countable.

(** ** Record update

    [s <| f := v |>] is the record [s] with the field [f] replaced by [v].  A
    record declares itself updatable with an instance of [Eta], its own
    eta-expansion; the setter of a field is computed from it by pattern
    abstraction, so that every field of a record has its update for one
    declaration. *)

Class Eta (R : Type) := eta : R -> R.

Class FieldUpdate {R T : Type} (proj : R -> T) := field_update : (T -> T) -> R -> R.

Ltac build_update proj :=
  let f := fresh "f" in
  let r := fresh "r" in
  intros f r;
  match type of proj with
  | ?R -> _ =>
    let e := constr:(_ : Eta R) in
    let e := eval hnf in e in
    let body := eval cbv beta in (e r) in
    let body := eval pattern (proj r) in body in
    match body with
    | ?g _ => let b := eval cbv beta in (g (f (proj r))) in exact b
    end
  end.

#[export] Hint Extern 1 (FieldUpdate ?p) => build_update p : typeclass_instances.

Declare Scope qodem_scope.
Delimit Scope qodem_scope with q.
Open Scope qodem_scope.

Notation "s <| f := v |>" := (field_update (proj := f) (fun _ => v) s)
  (at level 1, left associativity, f at level 20, v at level 200) : qodem_scope.
Notation "s <| f ::= g |>" := (field_update (proj := f) g s)
  (at level 1, left associativity, f at level 20, g at level 200) : qodem_scope.

(** ** Machine integers

    A C integer is a [Z]; the reductions below are the conversions the code
    performs.  [unsigned char], [unsigned int] and [unsigned long] wrap modulo
    their width; [int] is two's complement of 32 bits. *)

Open Scope Z_scope.

Definition u8 (z : Z) : Z := z mod 2 ^ 8.
Definition u16 (z : Z) : Z := z mod 2 ^ 16.
Definition u32 (z : Z) : Z := z mod 2 ^ 32.
Definition u64 (z : Z) : Z := z mod 2 ^ 64.
Definition i16 (z : Z) : Z := (z + 2 ^ 15) mod 2 ^ 16 - 2 ^ 15.
Definition i32 (z : Z) : Z := (z + 2 ^ 31) mod 2 ^ 32 - 2 ^ 31.

(** A byte buffer is a list of values in [0, 256). *)
Definition is_byte (b : Z) : Prop := 0 <= b < 256.
Definition bytes (l : list Z) : Prop := Forall is_byte l.

#[global] Instance is_byte_dec b : Decision (is_byte b).
Proof. unfold is_byte. apply _. Defined.
#[global] Instance bytes_dec l : Decision (bytes l).
Proof. unfold bytes. apply _. Defined.

Create HintDb qodem.
Create Rewrite HintDb bits.

Lemma u8_byte z : is_byte (u8 z).
Proof. unfold is_byte, u8. apply Z.mod_pos_bound. reflexivity. Qed.

Lemma u8_id b : is_byte b -> u8 b = b.
Proof. unfold is_byte, u8. intros. apply Z.mod_small. lia. Qed.

Lemma u32_id z : 0 <= z < 2 ^ 32 -> u32 z = z.
Proof. unfold u32. apply Z.mod_small. Qed.

Lemma u64_id z : 0 <= z < 2 ^ 64 -> u64 z = z.
Proof. unfold u64. apply Z.mod_small. Qed.

Lemma i32_id z : - 2 ^ 31 <= z < 2 ^ 31 -> i32 z = z.
Proof. intros. unfold i32. rewrite Z.mod_small by lia. lia. Qed.

Lemma land_ff z : Z.land z 255 = z mod 256.
Proof. change 255 with (Z.ones 8). rewrite Z.land_ones by lia. reflexivity. Qed.

Lemma land_ff_byte b : is_byte b -> Z.land b 255 = b.
Proof. unfold is_byte. intros. rewrite land_ff. apply Z.mod_small. lia. Qed.

Lemma is_byte_land_ff z : is_byte (Z.land z 255).
Proof. unfold is_byte. rewrite land_ff. apply Z.mod_pos_bound. reflexivity. Qed.

Lemma bytes_nil : bytes [].
Proof. constructor. Qed.

Lemma bytes_cons b l : is_byte b -> bytes l -> bytes (b :: l).
Proof. by constructor. Qed.

Lemma bytes_app l1 l2 : bytes (l1 ++ l2) <-> bytes l1 /\ bytes l2.
Proof. apply Forall_app. Qed.

Lemma bytes_take n l : bytes l -> bytes (take n l).
Proof. apply Forall_take. Qed.

Lemma bytes_drop n l : bytes l -> bytes (drop n l).
Proof. apply Forall_drop. Qed.

Lemma bytes_replicate n b : is_byte b -> bytes (replicate n b).
Proof. apply Forall_replicate. Qed.

(** [bytes] of a concrete list, by evaluation. *)
Definition bytes_b (l : list Z) : bool := forallb (fun b => (0 <=? b) && (b <? 256)) l.
Lemma bytes_by_eval l : bytes_b l = true -> bytes l.
Proof.
  unfold bytes_b. intros H. apply Forall_forall. intros b Hb.
  rewrite forallb_forall in H. specialize (H b Hb).
  apply andb_prop in H as [H1 H2]. unfold is_byte. lia.
Qed.

#[export] Hint Resolve u8_byte is_byte_land_ff bytes_nil bytes_cons bytes_take
  bytes_drop bytes_replicate : qodem.

(** *** Bitwise equality

    [bitwise] proves an equation between bit operations by comparing the bits
    of both sides at an arbitrary position. *)

Lemma testbit_mod_pow2 z w i :
  0 <= w -> Z.testbit (z mod 2 ^ w) i = (i <? w) && Z.testbit z i.
Proof.
  intros Hw. destruct (Z.ltb_spec i w).
  - by rewrite Z.mod_pow2_bits_low.
  - rewrite Z.mod_pow2_bits_high by lia. done.
Qed.

Lemma testbit_high z w i : 0 <= z < 2 ^ w -> w <= i -> Z.testbit z i = false.
Proof.
  intros Hz Hi. destruct (Z.leb_spec 0 w).
  - rewrite <- (Z.mod_small z (2 ^ w)) by done.
    apply Z.mod_pow2_bits_high. lia.
  - rewrite Z.pow_neg_r in Hz by lia. lia.
Qed.

Lemma bounded_by_bits z w :
  0 <= w -> (forall i, w <= i -> Z.testbit z i = false) -> 0 <= z < 2 ^ w.
Proof.
  intros Hw Hb. rewrite <- (Z.mod_small z (2 ^ w)) at 1 2.
  - apply Z.mod_pos_bound. lia.
  - assert (z = z mod 2 ^ w) as ->; [|apply Z.mod_pos_bound; lia].
    apply Z.bits_inj'. intros i Hi. rewrite testbit_mod_pow2 by done.
    destruct (Z.ltb_spec i w); [done|]. by rewrite Hb.
Qed.

Lemma lxor_bound a b w :
  0 <= w -> 0 <= a < 2 ^ w -> 0 <= b < 2 ^ w -> 0 <= Z.lxor a b < 2 ^ w.
Proof.
  intros Hw Ha Hb. apply bounded_by_bits; [done|]. intros i Hi.
  rewrite Z.lxor_spec, (testbit_high a w), (testbit_high b w) by done. done.
Qed.

Lemma land_bound a b w : 0 <= w -> 0 <= b < 2 ^ w -> 0 <= Z.land a b < 2 ^ w.
Proof.
  intros Hw Hb. apply bounded_by_bits; [done|]. intros i Hi.
  rewrite Z.land_spec, (testbit_high b w) by done. apply andb_false_r.
Qed.

Lemma lor_bound a b w :
  0 <= w -> 0 <= a < 2 ^ w -> 0 <= b < 2 ^ w -> 0 <= Z.lor a b < 2 ^ w.
Proof.
  intros Hw Ha Hb. apply bounded_by_bits; [done|]. intros i Hi.
  rewrite Z.lor_spec, (testbit_high a w), (testbit_high b w) by done. done.
Qed.

#[export] Hint Rewrite Z.lxor_spec Z.land_spec Z.lor_spec Z.testbit_0_l
  andb_false_r andb_true_r andb_false_l andb_true_l orb_false_r orb_false_l
  xorb_false_r xorb_false_l : bits.

Ltac bitwise :=
  apply Z.bits_inj'; let i := fresh "i" in let Hi := fresh "Hi" in
  intros i Hi; autorewrite with bits.

(** A byte of [v] moved to position [k]. *)
Lemma testbit_byte_at v j k i :
  0 <= j -> 0 <= k ->
  Z.testbit (Z.shiftl (Z.land (Z.shiftr v j) 0xFF) k) i =
  (k <=? i) && (i <? k + 8) && Z.testbit v (i - k + j).
Proof.
  intros Hj Hk. destruct (Z.ltb_spec i 0) as [Hi|Hi].
  { rewrite Z.testbit_neg_r by done. by rewrite (proj2 (Z.leb_gt _ _)) by lia. }
  rewrite Z.shiftl_spec by done. destruct (Z.leb_spec k i) as [Hki|Hki]; cbn [andb].
  - rewrite land_ff. change 256 with (2 ^ 8). rewrite testbit_mod_pow2 by lia.
    rewrite Z.shiftr_spec by lia. f_equal. apply eq_true_iff_eq. rewrite !Z.ltb_lt. lia.
  - by rewrite Z.testbit_neg_r by lia.
Qed.

(** The four bytes of a 32-bit value, put back together. *)
Lemma bytes_of_u32 v :
  0 <= v < 2 ^ 32 ->
  v = Z.lor (Z.lor (Z.shiftl (Z.land (Z.shiftr v 24) 0xFF) 24) (Z.shiftl (Z.land (Z.shiftr v 16) 0xFF) 16))
            (Z.lor (Z.shiftl (Z.land (Z.shiftr v 8) 0xFF) 8) (Z.land v 0xFF)).
Proof.
  intros Hv. replace (Z.land v 0xFF) with (Z.shiftl (Z.land (Z.shiftr v 0) 0xFF) 0)
    by (by rewrite Z.shiftr_0_r, Z.shiftl_0_r).
  apply Z.bits_inj'. intros i Hi. rewrite !Z.lor_spec, !testbit_byte_at by lia.
  destruct (Z.leb_spec 32 i) as [H32|H32].
  { rewrite (testbit_high v 32) by done.
    destruct (Z.ltb_spec i (24 + 8)), (Z.ltb_spec i (16 + 8)), (Z.ltb_spec i (8 + 8)), (Z.ltb_spec i (0 + 8)); lia. }
  replace (i - 24 + 24) with i by lia. replace (i - 16 + 16) with i by lia.
  replace (i - 8 + 8) with i by lia. replace (i - 0 + 0) with i by lia.
  destruct (Z.leb_spec 24 i), (Z.leb_spec 16 i), (Z.leb_spec 8 i), (Z.leb_spec 0 i),
    (Z.ltb_spec i (24 + 8)), (Z.ltb_spec i (16 + 8)), (Z.ltb_spec i (8 + 8)), (Z.ltb_spec i (0 + 8));
    try lia; cbn [andb orb]; by rewrite ?orb_false_r.
Qed.

Lemma bytes_of_u16 v :
  0 <= v < 2 ^ 16 -> v = Z.lor (Z.shiftl (Z.land (Z.shiftr v 8) 0xFF) 8) (Z.land v 0xFF).
Proof.
  intros Hv. rewrite (bytes_of_u32 v) at 1 by lia.
  assert (Hz : forall k, 16 <= k -> Z.shiftr v k = 0).
  { intros k Hk. rewrite Z.shiftr_div_pow2 by lia. apply Z.div_small. split; [lia|].
    apply Z.lt_le_trans with (2 ^ 16); [lia|]. apply Z.pow_le_mono_r; lia. }
  by rewrite !Hz by lia.
Qed.

(** A decidable property of bytes is checked on the 256 of them. *)
Definition all_bytes : list Z := Z.of_nat <$> seq 0 256.

Lemma all_bytes_spec (P : Z -> bool) :
  forallb P all_bytes = true -> forall b, is_byte b -> P b = true.
Proof.
  intros H b Hb. rewrite forallb_forall in H. apply H.
  apply list_elem_of_In. unfold all_bytes. apply list_elem_of_fmap.
  exists (Z.to_nat b). unfold is_byte in Hb. split; [lia|].
  apply elem_of_seq. lia.
Qed.

Lemma all_bytes2_spec (P : Z -> Z -> bool) :
  forallb (fun a => forallb (P a) all_bytes) all_bytes = true ->
  forall a b, is_byte a -> is_byte b -> P a b = true.
Proof.
  intros H a b Ha Hb. apply (all_bytes_spec (P a)); [|done].
  by apply (all_bytes_spec (fun a => forallb (P a) all_bytes)).
Qed.

(** ** Effects

    The C functions read and write their module's static variables, may fail an
    [assert], call [abort], index outside a buffer or dereference a null
    pointer, and loop.  A computation is a function from the state to an
    [outcome]; [Diverge] is the result of a loop whose fuel ran out, so that a
    theorem about a result also says that the loops ended. *)

Inductive fault :=
| AssertFailed
| Aborted
| OutOfBounds
| NullPointer
| Indeterminate
| UseAfterFree.

Inductive outcome (A : Type) :=
| Done (a : A)
| Fault (why : fault)
| Diverge.
Arguments Done {A} a.
Arguments Fault {A} why.
Arguments Diverge {A}.

#[global] Instance fault_eq_dec : EqDecision fault.
Proof. solve_decision. Defined.

Definition M (S A : Type) : Type := S -> outcome (A * S).

#[global] Instance M_ret S : MRet (M S) := fun A a s => Done (a, s).
#[global] Instance M_bind S : MBind (M S) := fun A B k m s =>
  match m s with
  | Done (a, s') => k a s'
  | Fault w => Fault w
  | Diverge => Diverge
  end.

Definition get {S} : M S S := fun s => Done (s, s).
Definition gets {S A} (f : S -> A) : M S A := fun s => Done (f s, s).
Definition modify {S} (f : S -> S) : M S unit := fun s => Done (tt, f s).
Definition raise {S A} (w : fault) : M S A := fun _ => Fault w.
Definition diverge {S A} : M S A := fun _ => Diverge.
Definition assertM {S} (b : bool) : M S unit :=
  if b then mret tt else raise AssertFailed.
Definition whenM {S} (b : bool) (m : M S unit) : M S unit :=
  if b then m else mret tt.
(** The value of a pointer that the code dereferences. *)
Definition nonnull {S A} (o : option A) : M S A :=
  match o with Some a => mret a | None => raise NullPointer end.
(** An array read; outside the array it is undefined behaviour. *)
Definition load {S} (buf : list Z) (i : Z) : M S Z :=
  if i <? 0 then raise OutOfBounds
  else match buf !! Z.to_nat i with Some v => mret v | None => raise OutOfBounds end.

(** [m] run on part of a state. *)
Definition zoom {S T A} (proj : S -> T) (upd : T -> S -> S) (m : M T A) : M S A :=
  fun s => match m (proj s) with
           | Done (a, t) => Done (a, upd t s)
           | Fault w => Fault w
           | Diverge => Diverge
           end.

(** Total correctness: [m] from [s] ends without a fault in a result that
    satisfies the postcondition. *)
Definition wp {S A} (m : M S A) (s : S) (Q : A -> S -> Prop) : Prop :=
  match m s with Done (a, s') => Q a s' | _ => False end.

Section wp.
Context {S : Type}.

Lemma wp_ret {A} (a : A) (s : S) Q : Q a s -> wp (mret a) s Q.
Proof. done. Qed.

Lemma wp_bind {A B} (m : M S A) (k : A -> M S B) s Q :
  wp m s (fun a s' => wp (k a) s' Q) -> wp (m ≫= k) s Q.
Proof. unfold wp, mbind, M_bind. by destruct (m s) as [[]| |]. Qed.

Lemma wp_mono {A} (m : M S A) s (Q Q' : A -> S -> Prop) :
  wp m s Q -> (forall a s', Q a s' -> Q' a s') -> wp m s Q'.
Proof. unfold wp. destruct (m s) as [[]| |]; auto. Qed.

Lemma wp_gets {A} (f : S -> A) s Q : Q (f s) s -> wp (gets f) s Q.
Proof. done. Qed.

Lemma wp_get (s : S) Q : Q s s -> wp get s Q.
Proof. done. Qed.

Lemma wp_modify (f : S -> S) s Q : Q tt (f s) -> wp (modify f) s Q.
Proof. done. Qed.

Lemma wp_assert (b : bool) (s : S) Q : b = true -> Q tt s -> wp (assertM b) s Q.
Proof. by intros ->. Qed.

Lemma wp_when (b : bool) (m : M S unit) s Q :
  (b = true -> wp m s Q) -> (b = false -> Q tt s) -> wp (whenM b m) s Q.
Proof. destruct b; cbn; auto. Qed.

Lemma wp_if {A} (b : bool) (m1 m2 : M S A) s Q :
  (b = true -> wp m1 s Q) -> (b = false -> wp m2 s Q) ->
  wp (if b then m1 else m2) s Q.
Proof. destruct b; auto. Qed.

Lemma wp_nonnull {A} (o : option A) a (s : S) Q :
  o = Some a -> Q a s -> wp (nonnull o) s Q.
Proof. by intros ->. Qed.

Lemma wp_load buf i v (s : S) Q :
  0 <= i -> buf !! Z.to_nat i = Some v -> Q v s -> wp (load buf i) s Q.
Proof.
  intros Hi Hv HQ. unfold load. destruct (Z.ltb_spec i 0); [lia|].
  by rewrite Hv.
Qed.

Lemma wp_run {A} (m : M S A) s Q :
  wp m s Q -> exists a s', m s = Done (a, s') /\ Q a s'.
Proof. unfold wp. destruct (m s) as [[a s']| |]; naive_solver. Qed.

Lemma run_wp {A} (m : M S A) s (a : A) s' (Q : A -> S -> Prop) :
  m s = Done (a, s') -> wp m s Q -> Q a s'.
Proof. unfold wp. by intros ->. Qed.

Lemma wp_done {A} (m : M S A) s (a : A) s' (Q : A -> S -> Prop) :
  m s = Done (a, s') -> Q a s' -> wp m s Q.
Proof. unfold wp. by intros ->. Qed.

Lemma bind_done {A B} (m : M S A) (k : A -> M S B) s a s' :
  m s = Done (a, s') -> (m ≫= k) s = k a s'.
Proof. unfold mbind, M_bind. by intros ->. Qed.
End wp.

Create HintDb wp.

(** One symbolic execution step; calls of named functions are left to their
    own specifications. *)
Ltac wp_step :=
  lazymatch goal with
  | |- wp (_ ≫= _) _ _ => apply wp_bind
  | |- wp (mret _) _ _ => apply wp_ret
  | |- wp (gets _) _ _ => apply wp_gets
  | |- wp get _ _ => apply wp_get
  | |- wp (modify _) _ _ => apply wp_modify
  | |- wp (whenM _ _) _ _ => apply wp_when; intros
  | |- wp (if _ then _ else _) _ _ => apply wp_if; intros
  | |- wp (assertM _) _ _ => apply wp_assert
  | |- wp (let _ := _ in _) _ _ => cbv zeta
  end.
Ltac wp_steps := repeat (wp_step; cbv beta).

(** ** Buffers *)

(** [memcpy(buf + off, xs, length xs)]: faults when it runs over the end. *)
Definition blit (buf : list Z) (off : nat) (xs : list Z) : list Z :=
  take off buf ++ xs ++ drop (off + length xs) buf.

Definition memcpy {S} (buf : list Z) (off : Z) (xs : list Z) : M S (list Z) :=
  if (0 <=? off) && (off + Z.of_nat (length xs) <=? Z.of_nat (length buf))
  then mret (blit buf (Z.to_nat off) xs)
  else raise OutOfBounds.

(** [buf[i] = v] *)
Definition store {S} (buf : list Z) (i v : Z) : M S (list Z) :=
  memcpy buf i [v].

Lemma length_blit buf off xs :
  (off + length xs <= length buf)%nat -> length (blit buf off xs) = length buf.
Proof.
  intros. unfold blit. rewrite !length_app, length_take, length_drop. lia.
Qed.

Lemma bytes_blit buf off xs : bytes buf -> bytes xs -> bytes (blit buf off xs).
Proof.
  intros. unfold blit. rewrite !bytes_app. auto with qodem.
Qed.

Lemma take_blit buf off xs : (off <= length buf)%nat -> take off (blit buf off xs) = take off buf.
Proof.
  intros. unfold blit. rewrite take_app_le, take_take; [f_equal; lia|].
  rewrite length_take. lia.
Qed.

Lemma blit_segment buf off xs :
  (off <= length buf)%nat -> take (length xs) (drop off (blit buf off xs)) = xs.
Proof.
  intros. unfold blit. rewrite drop_app_ge by (rewrite length_take; lia).
  rewrite length_take. replace (off - off `min` length buf)%nat with 0%nat by lia.
  rewrite drop_0. apply take_app_length.
Qed.

Lemma blit_all buf xs : length xs = length buf -> blit buf 0 xs = xs.
Proof.
  intros H. unfold blit. rewrite take_0, Nat.add_0_l, H, drop_all. apply app_nil_r.
Qed.

Lemma wp_memcpy {S} buf off xs (s : S) (Q : list Z -> S -> Prop) :
  0 <= off -> off + Z.of_nat (length xs) <= Z.of_nat (length buf) ->
  Q (blit buf (Z.to_nat off) xs) s -> wp (memcpy buf off xs) s Q.
Proof.
  intros H1 H2 HQ. unfold memcpy.
  by rewrite (proj2 (Z.leb_le _ _) H1), (proj2 (Z.leb_le _ _) H2).
Qed.

#[export] Hint Resolve bytes_blit : qodem.

(** A C string is the list of its bytes, without the terminator. *)
Definition cstring : Type := list Z.
#[global] Instance cstring_eq_dec : EqDecision cstring := _.
#[global] Instance cstring_countable : Countable cstring := _.

(** The C string that starts a buffer: the bytes before the first null. *)
Fixpoint c_str (buf : list Z) : cstring :=
  match buf with
  | [] => []
  | b :: buf => if b =? 0 then [] else b :: c_str buf
  end.

(** ** Lists *)

(** The list without its longest suffix of [x]. *)
Definition strip_trailing (x : Z) (l : list Z) : list Z :=
  foldr (fun b acc => if (b =? x) && bool_decide (acc = []) then [] else b :: acc) [] l.

Lemma strip_trailing_snoc_eq x l : strip_trailing x (l ++ [x]) = strip_trailing x l.
Proof.
  unfold strip_trailing. rewrite foldr_app. cbn. by rewrite Z.eqb_refl.
Qed.

Lemma strip_trailing_snoc_ne x y l : y <> x -> strip_trailing x (l ++ [y]) = l ++ [y].
Proof.
  intros Hne. unfold strip_trailing. rewrite foldr_app. cbn.
  rewrite (proj2 (Z.eqb_neq y x) Hne). cbn.
  induction l as [|a l IH]; [done|]. cbn. rewrite IH.
  rewrite bool_decide_false by (by destruct l). by rewrite andb_false_r.
Qed.

Lemma strip_trailing_replicate x l n :
  strip_trailing x (l ++ replicate n x) = strip_trailing x l.
Proof.
  induction n as [|n IH]; [by rewrite app_nil_r|].
  by rewrite replicate_S_end, app_assoc, strip_trailing_snoc_eq.
Qed.

(** Every list is its stripped part followed by copies of the stripped value. *)
Lemma strip_trailing_split x l :
  exists n, l = strip_trailing x l ++ replicate n x.
Proof.
  induction l as [|y l [n IH]] using rev_ind; [by exists 0%nat|].
  destruct (decide (y = x)) as [->|Hne].
  - exists (S n). rewrite strip_trailing_snoc_eq, replicate_S_end, app_assoc, <- IH. done.
  - exists 0%nat. rewrite strip_trailing_snoc_ne by done. by rewrite app_nil_r.
Qed.

(** Cutting a list in pieces of [n] elements, the last one shorter. *)
Fixpoint chunks_fuel (fuel n : nat) (l : list Z) : list (list Z) :=
  match fuel with
  | O => []
  | S fuel => match l with [] => [] | _ => take n l :: chunks_fuel fuel n (drop n l) end
  end.
Definition chunks (n : nat) (l : list Z) : list (list Z) := chunks_fuel (length l) n l.

Lemma blit_0 buf xs : blit buf 0 xs = xs ++ drop (length xs) buf.
Proof. unfold blit. by rewrite take_0. Qed.

Lemma blit_app l1 l2 off xs k :
  off = (length l1 + k)%nat -> blit (l1 ++ l2) off xs = l1 ++ blit l2 k xs.
Proof.
  intros ->. unfold blit. rewrite take_app_add, <- app_assoc. f_equal. f_equal. f_equal.
  rewrite <- Nat.add_assoc. apply drop_app_add.
Qed.

Lemma blit_exact l1 l2 off xs :
  off = length l1 -> blit (l1 ++ l2) off xs = l1 ++ xs ++ drop (length xs) l2.
Proof. intros ->. rewrite (blit_app l1 l2 _ xs 0) by lia. by rewrite blit_0. Qed.

Lemma lookup_total_blit_lt buf off xs i :
  (i < off)%nat -> (off <= length buf)%nat -> blit buf off xs !!! i = buf !!! i.
Proof.
  intros Hi Hl. unfold blit. rewrite !list_lookup_total_alt.
  rewrite lookup_app_l by (rewrite length_take; lia).
  by rewrite lookup_take_lt.
Qed.

Lemma alter_insert {A} (f : A -> A) (k : nat) (l : list A) d : l !! k = Some d -> alter f k l = <[k := f d]> l.
Proof.
  intros Hd. apply list_eq. intros i. destruct (decide (i = k)) as [->|Hne].
  - rewrite list_lookup_alter_eq, list_lookup_insert_eq by (by apply lookup_lt_Some in Hd). by rewrite Hd.
  - by rewrite list_lookup_alter_ne, list_lookup_insert_ne by done.
Qed.
