(* ===== verification/States.v ===== *)
(** The enumerations that several components share (states.h, emulation.h, qodem.h,
    colors.h). *)

From stdpp Require Import base decidable prelude.

Module States.

(** states.h *)
Inductive Q_PROGRAM_STATE :=
| Q_STATE_INITIALIZATION | Q_STATE_DIALER | Q_STATE_MODEM_CONFIG | Q_STATE_PHONEBOOK
| Q_STATE_CONSOLE | Q_STATE_CONSOLE_MENU | Q_STATE_SCROLLBACK | Q_STATE_INFO
| Q_STATE_DOWNLOAD | Q_STATE_DOWNLOAD_MENU | Q_STATE_DOWNLOAD_PATHDIALOG
| Q_STATE_UPLOAD | Q_STATE_UPLOAD_BATCH | Q_STATE_UPLOAD_BATCH_DIALOG
| Q_STATE_UPLOAD_MENU | Q_STATE_UPLOAD_PATHDIALOG | Q_STATE_SCREENSAVER
| Q_STATE_EMULATION_MENU | Q_STATE_FUNCTION_KEY_EDITOR | Q_STATE_TRANSLATE_MENU
| Q_STATE_TRANSLATE_EDITOR_8BIT | Q_STATE_TRANSLATE_EDITOR_UNICODE | Q_STATE_CODEPAGE
| Q_STATE_SCRIPT_EXECUTE | Q_STATE_HOST | Q_STATE_EXIT.
#[global] Instance Q_PROGRAM_STATE_eq_dec : EqDecision Q_PROGRAM_STATE.
Proof. solve_decision. Defined.

(** emulation.h *)
Inductive Q_EMULATION :=
| Q_EMUL_TTY | Q_EMUL_ANSI | Q_EMUL_VT52 | Q_EMUL_VT100 | Q_EMUL_VT102 | Q_EMUL_VT220
| Q_EMUL_AVATAR | Q_EMUL_PETSCII | Q_EMUL_ATASCII | Q_EMUL_DEBUG
| Q_EMUL_LINUX | Q_EMUL_LINUX_UTF8 | Q_EMUL_XTERM | Q_EMUL_XTERM_UTF8.
#[global] Instance Q_EMULATION_eq_dec : EqDecision Q_EMULATION.
Proof. solve_decision. Defined.

Inductive Q_EMULATION_STATUS :=
| Q_EMUL_FSM_NO_CHAR_YET | Q_EMUL_FSM_ONE_CHAR | Q_EMUL_FSM_MANY_CHARS
| Q_EMUL_FSM_REPEAT_STATE.
#[global] Instance Q_EMULATION_STATUS_eq_dec : EqDecision Q_EMULATION_STATUS.
Proof. solve_decision. Defined.

(** qodem.h *)
Inductive Q_CAPTURE_TYPE :=
| Q_CAPTURE_TYPE_NORMAL | Q_CAPTURE_TYPE_RAW | Q_CAPTURE_TYPE_HTML | Q_CAPTURE_TYPE_ASK.
#[global] Instance Q_CAPTURE_TYPE_eq_dec : EqDecision Q_CAPTURE_TYPE.
Proof. solve_decision. Defined.

(** colors.h *)
Inductive Q_COLOR :=
| Q_COLOR_CONSOLE | Q_COLOR_CONSOLE_TEXT | Q_COLOR_CONSOLE_BACKGROUND | Q_COLOR_DEBUG_ECHO
| Q_COLOR_STATUS | Q_COLOR_STATUS_DISABLED | Q_COLOR_WINDOW_BORDER | Q_COLOR_WINDOW
| Q_COLOR_MENU_COMMAND | Q_COLOR_MENU_COMMAND_UNAVAILABLE | Q_COLOR_MENU_TEXT
| Q_COLOR_WINDOW_FIELD_HIGHLIGHTED | Q_COLOR_WINDOW_FIELD_TEXT_HIGHLIGHTED
| Q_COLOR_PHONEBOOK_ENTRY | Q_COLOR_PHONEBOOK_SELECTED | Q_COLOR_PHONEBOOK_SELECTED_TAGGED
| Q_COLOR_PHONEBOOK_TAGGED | Q_COLOR_PHONEBOOK_FIELD_TEXT | Q_COLOR_SCRIPT_RUNNING
| Q_COLOR_SCRIPT_FINISHED | Q_COLOR_SCRIPT_FINISHED_OK | Q_COLOR_HELP_BORDER
| Q_COLOR_HELP_BACKGROUND | Q_COLOR_HELP_BOLD | Q_COLOR_HELP_LINK | Q_COLOR_HELP_LINK_SELECTED
| Q_COLOR_MAX.
#[global] Instance Q_COLOR_eq_dec : EqDecision Q_COLOR.
Proof. solve_decision. Defined.

End States.
Export States.
