(* ===== verification/Crc.v ===== *)
(** The block checks of the file transfer protocols.

    xmodem.c and zmodem.c carry the same bitwise CRC-16 ([calcrc] and
    [compute_crc16]), zmodem.c a table driven CRC-32 whose table is filled by
    doubling ([makecrc]), kermit.c a reflected CRC-16 driven by a table of
    [short].  The definitions follow the three files; the theorems relate each
    routine to polynomial division over GF(2) and show the error detection the
    protocols rely on. *)

From Stdlib Require Import ZArith Lia List Bool.
From stdpp Require Import base list numbers.
From S2P Require Import Prelude.

(** ** xmodem.c and zmodem.c: bitwise CRC-16 *)

(** One turn of the inner [for] loop, on an [int]. *)
Definition crc16_shift (crc : Z) : Z :=
  if negb (Z.land crc 0x8000 =? 0)
  then Z.lxor (i32 (Z.shiftl crc 1)) 0x1021
  else i32 (Z.shiftl crc 1).

(** One turn of the [while] loop. *)
Definition crc16_byte (crc b : Z) : Z :=
  Nat.iter 8 crc16_shift (Z.lxor crc (Z.shiftl b 8)).

(** zmodem.c: [compute_crc16(crc, ptr, count)], [ptr] the [count] bytes read. *)
Definition compute_crc16 (crc : Z) (ptr : list Z) : Z :=
  Z.land (fold_left crc16_byte ptr crc) 0xFFFF.

(** xmodem.c: [calcrc(ptr, count)]. *)
Definition calcrc (ptr : list Z) (count : nat) : Z :=
  Z.land (fold_left crc16_byte (take count ptr) 0) 0xFFFF.

(** ** zmodem.c: table driven CRC-32 *)

Definition CRC32 : Z := 0xedb88320.

(** The next value of [h] in [makecrc]. *)
Definition makecrc_h (h : Z) : Z :=
  if negb (Z.land h 1 =? 0) then Z.lxor (Z.shiftr h 1) CRC32 else Z.shiftr h 1.

(** The inner loop: [for (i = 0; i < 256; i += j + j) tab[i + j] = tab[i] ^ h],
    [n] the number of turns. *)
Fixpoint makecrc_fill (n : nat) (i j : nat) (h : Z) (tab : list Z) : list Z :=
  match n with
  | O => tab
  | S n => makecrc_fill n (i + (j + j)) j h
             (<[(i + j)%nat := Z.lxor (tab !!! i) h]> tab)
  end.

(** The outer loop, [do ... while (j >>= 1)], from [j = 128]. *)
Fixpoint makecrc_loop (fuel : nat) (j : nat) (h : Z) (tab : list Z) : list Z :=
  match fuel with
  | O => tab
  | S fuel =>
    let h := makecrc_h h in
    let tab := makecrc_fill (256 / (j + j)) 0 j h tab in
    let j := Nat.div2 j in
    if (j =? 0)%nat then tab else makecrc_loop fuel j h tab
  end.

(** [crc_32_tab] is static, hence zero before [makecrc]. *)
Definition makecrc : list Z := makecrc_loop 9 128 1 (<[0%nat := 0]> (replicate 256 0)).

Definition crc_32_tab : list Z := Eval vm_compute in makecrc.

Definition crc32_byte (crc b : Z) : Z :=
  Z.lxor (Z.shiftr crc 8) (crc_32_tab !!! Z.to_nat (Z.land (Z.lxor crc b) 0xff)).

(** [compute_crc32(old_crc, buf, len)]; a null [buf] presets the register. *)
Definition compute_crc32 (old_crc : Z) (buf : option (list Z)) : Z :=
  match buf with
  | Some buf => Z.lxor (fold_left crc32_byte buf old_crc) 0xffffffff
  | None => 0xffffffff
  end.

(** ** kermit.c: reflected CRC-16 over a table of [short] *)

Definition CRC16 : Z := 0x8408.

Definition kermit_crc_step (crc : Z) : Z :=
  Z.lxor (Z.shiftr crc 1) (if negb (Z.land crc 1 =? 0) then CRC16 else 0).

(** An entry: the low 16 bits, stored in a [short]. *)
Definition kermit_makecrc_entry (i : nat) : Z :=
  i16 (Z.land (Nat.iter 8 kermit_crc_step (Z.of_nat i)) 0xFFFF).
Definition kermit_makecrc : list Z := kermit_makecrc_entry <$> seq 0 256.
Definition crc_16_tab : list Z := Eval vm_compute in kermit_makecrc.

(** [crc] is an [unsigned long]: the table entry is sign extended to 64 bits
    before the exclusive or. *)
Definition kermit_crc_byte (seven_bit_only : bool) (crc b : Z) : Z :=
  let ch := if seven_bit_only then Z.land b 0x7F else b in
  let crc := Z.lxor (u64 (crc_16_tab !!! Z.to_nat (Z.land (Z.lxor crc ch) 0xFF)))
                    (Z.shiftr crc 8) in
  Z.land crc 0xFFFF.

Definition kermit_compute_crc16 (seven_bit_only : bool) (ptr : list Z) : Z :=
  i16 (Z.land (fold_left (kermit_crc_byte seven_bit_only) ptr 0) 0xFFFF).

(** ** A linear check code

    All three checks update a register [r] with a byte [b] as [F (r xor inj b)],
    where [F] is linear over GF(2) and has a trivial kernel on registers of [w]
    bits.  The class states what the protocols use of such a code; its
    consequences are proved once. *)

Definition in_width (w r : Z) : Prop := 0 <= r < 2 ^ w.

Class LinearCode (w : Z) (F inj : Z -> Z) := {
  lc_width : 0 <= w;
  lc_range : forall r, in_width w r -> in_width w (F r);
  lc_xor : forall a b, in_width w a -> in_width w b ->
                       F (Z.lxor a b) = Z.lxor (F a) (F b);
  lc_kernel : forall r, in_width w r -> F r = 0 -> r = 0;
  lc_inj_range : forall b, is_byte b -> in_width w (inj b);
  lc_inj_xor : forall a b, inj (Z.lxor a b) = Z.lxor (inj a) (inj b);
  lc_inj_kernel : forall b, is_byte b -> inj b = 0 -> b = 0;
  lc_two_bytes : forall a b, is_byte a -> is_byte b -> a <> 0 -> F (inj a) <> inj b
}.

Section linear_code.
Context {w : Z} {F inj : Z -> Z} `{LC : !LinearCode w F inj}.

Definition code_update (r b : Z) : Z := F (Z.lxor r (inj b)).
Definition code (r : Z) (l : list Z) : Z := fold_left code_update l r.

Lemma in_width_xor a b : in_width w a -> in_width w b -> in_width w (Z.lxor a b).
Proof. apply lxor_bound, LC. Qed.

Lemma in_width_update r b : in_width w r -> is_byte b -> in_width w (code_update r b).
Proof. intros. apply LC, in_width_xor; [done|]. by apply LC. Qed.

Lemma code_range r l : in_width w r -> bytes l -> in_width w (code r l).
Proof.
  intros Hr Hl. revert r Hr. induction Hl; [done|].
  intros r Hr. cbn. apply IHHl. by apply in_width_update.
Qed.

Lemma code_app r l1 l2 : code r (l1 ++ l2) = code (code r l1) l2.
Proof. apply fold_left_app. Qed.

Lemma code_update_xor r1 r2 b1 b2 :
  in_width w r1 -> in_width w r2 -> is_byte b1 -> is_byte b2 ->
  code_update (Z.lxor r1 r2) (Z.lxor b1 b2) =
  Z.lxor (code_update r1 b1) (code_update r2 b2).
Proof.
  intros. unfold code_update. rewrite (lc_inj_xor (F := F) (inj := inj)), <- (lc_xor (F := F) (inj := inj)).
  - f_equal. rewrite !Z.lxor_assoc. f_equal. rewrite <- !Z.lxor_assoc.
    f_equal. apply Z.lxor_comm.
  - apply in_width_xor; [done|]. by apply LC.
  - apply in_width_xor; [done|]. by apply LC.
Qed.

(** Over a common suffix, distinct registers stay distinct. *)
Lemma code_suffix_ne r1 r2 l :
  in_width w r1 -> in_width w r2 -> bytes l -> r1 <> r2 -> code r1 l <> code r2 l.
Proof.
  intros H1 H2 Hl. revert r1 r2 H1 H2. induction Hl as [|b l Hb Hl IH]; [done|].
  intros r1 r2 H1 H2 Hne. cbn. apply IH; try (by apply in_width_update).
  intros Heq. apply Hne. apply Z.lxor_eq.
  apply (lc_kernel (F := F) (inj := inj)); [by apply in_width_xor|].
  assert (Hx : code_update (Z.lxor r1 r2) (Z.lxor b b) = 0).
  { rewrite code_update_xor by done. rewrite Heq. apply Z.lxor_nilpotent. }
  rewrite Z.lxor_nilpotent in Hx. unfold code_update in Hx.
  assert (Hi0 : inj 0 = 0).
  { rewrite <- (Z.lxor_nilpotent 0), (lc_inj_xor (F := F) (inj := inj)). apply Z.lxor_nilpotent. }
  by rewrite Hi0, Z.lxor_0_r in Hx.
Qed.

Lemma code_update_ne r a b :
  in_width w r -> is_byte a -> is_byte b -> a <> b -> code_update r a <> code_update r b.
Proof.
  intros Hr Ha Hb Hne Heq. apply Hne, Z.lxor_eq.
  assert (Hab : is_byte (Z.lxor a b)).
  { unfold is_byte in *. by apply (lxor_bound a b 8). }
  apply (lc_inj_kernel (F := F) (inj := inj)); [done|]. apply (lc_kernel (F := F) (inj := inj)); [by apply LC|].
  assert (Hx : code_update (Z.lxor r r) (Z.lxor a b) = 0).
  { rewrite code_update_xor by done. rewrite Heq. apply Z.lxor_nilpotent. }
  rewrite Z.lxor_nilpotent in Hx. unfold code_update in Hx. by rewrite Z.lxor_0_l in Hx.
Qed.

Lemma code_update2_ne r a a' b b' :
  in_width w r -> is_byte a -> is_byte a' -> is_byte b -> is_byte b' ->
  a <> b -> code_update (code_update r a) a' <> code_update (code_update r b) b'.
Proof.
  intros Hr Ha Ha' Hb Hb' Hne Heq.
  assert (Hab : is_byte (Z.lxor a b)) by (by apply (lxor_bound a b 8)).
  assert (Hab' : is_byte (Z.lxor a' b')) by (by apply (lxor_bound a' b' 8)).
  apply (lc_two_bytes (F := F) (inj := inj) (Z.lxor a b) (Z.lxor a' b')); [done..| |].
  { intros Hz. by apply Hne, Z.lxor_eq. }
  assert (Hx : code_update (code_update (Z.lxor r r) (Z.lxor a b)) (Z.lxor a' b') = 0).
  { rewrite code_update_xor by done. rewrite code_update_xor; [|by apply in_width_update..|done|done].
    rewrite Heq. apply Z.lxor_nilpotent. }
  rewrite Z.lxor_nilpotent in Hx. unfold code_update in Hx. rewrite Z.lxor_0_l in Hx.
  apply (lc_kernel (F := F) (inj := inj)) in Hx.
  - by apply Z.lxor_eq.
  - apply in_width_xor; [apply LC|]; by apply LC.
Qed.

(** Any corruption confined to two consecutive bytes changes the code. *)
Lemma code_burst r p a a' b b' l :
  in_width w r -> bytes p -> bytes [a; a'] -> bytes [b; b'] -> bytes l ->
  [a; a'] <> [b; b'] ->
  code r (p ++ [a; a'] ++ l) <> code r (p ++ [b; b'] ++ l).
Proof.
  intros Hr Hp HA HB Hl Hne. rewrite !code_app.
  unfold bytes in HA, HB. rewrite !Forall_cons_iff in HA, HB.
  destruct HA as (Ha & Ha' & _). destruct HB as (Hb & Hb' & _).
  assert (in_width w (code r p)) as Hc by (by apply code_range).
  apply code_suffix_ne; cbn; auto using in_width_update.
  destruct (decide (a = b)) as [->|Hab].
  - apply code_update_ne; auto using in_width_update. congruence.
  - by apply code_update2_ne.
Qed.
End linear_code.

(** *** Instance: the bitwise CRC-16

    On the low 16 bits, one turn of the loop shifts the register and subtracts
    the generator when a one leaves it. *)

Definition shift16 (r : Z) : Z :=
  Z.lxor (Z.shiftl r 1 mod 2 ^ 16) (if Z.testbit r 15 then 0x1021 else 0).

Lemma i32_mod16 z : i32 z mod 2 ^ 16 = z mod 2 ^ 16.
Proof.
  unfold i32. rewrite (Z.mod_eq (z + 2 ^ 31) (2 ^ 32)) by lia.
  set (q := (z + 2 ^ 31) / 2 ^ 32).
  replace (z + 2 ^ 31 - 2 ^ 32 * q - 2 ^ 31) with (z + (- q * 2 ^ 16) * 2 ^ 16) by lia.
  apply Z.mod_add. lia.
Qed.

Lemma land_0x8000 z : negb (Z.land z 0x8000 =? 0) = Z.testbit z 15.
Proof.
  change 0x8000 with (2 ^ 15). destruct (Z.testbit z 15) eqn:E.
  - apply negb_true_iff, Z.eqb_neq. intros H.
    assert (Hb := f_equal (fun x => Z.testbit x 15) H). cbn beta in Hb.
    rewrite Z.land_spec, E in Hb. by vm_compute in Hb.
  - apply negb_false_iff, Z.eqb_eq. apply Z.bits_inj'. intros i Hi.
    rewrite Z.land_spec, Z.pow2_bits_eqb, Z.testbit_0_l by lia.
    destruct (Z.eqb_spec 15 i) as [<-|]; [by rewrite E|apply andb_false_r].
Qed.

Lemma lxor_mod_pow2 a b w :
  0 <= w -> Z.lxor a b mod 2 ^ w = Z.lxor (a mod 2 ^ w) (b mod 2 ^ w).
Proof.
  intros Hw. apply Z.bits_inj'. intros i Hi.
  rewrite Z.lxor_spec, !testbit_mod_pow2, Z.lxor_spec by done.
  by destruct (i <? w).
Qed.

Lemma shiftl1_mod16 z : Z.shiftl (z mod 2 ^ 16) 1 mod 2 ^ 16 = Z.shiftl z 1 mod 2 ^ 16.
Proof.
  rewrite !Z.shiftl_mul_pow2 by lia. apply Z.mul_mod_idemp_l. lia.
Qed.

Lemma crc16_shift_low c : crc16_shift c mod 2 ^ 16 = shift16 (c mod 2 ^ 16).
Proof.
  unfold crc16_shift, shift16. rewrite land_0x8000, testbit_mod_pow2, shiftl1_mod16 by lia.
  cbn [Z.ltb]. change (15 <? 16) with true. cbn [andb].
  destruct (Z.testbit c 15).
  - rewrite lxor_mod_pow2, i32_mod16 by lia. done.
  - by rewrite i32_mod16, Z.lxor_0_r.
Qed.

Lemma iter_crc16_shift_low n c :
  Nat.iter n crc16_shift c mod 2 ^ 16 = Nat.iter n shift16 (c mod 2 ^ 16).
Proof.
  induction n as [|n IH]; [done|]. rewrite !Nat.iter_succ, crc16_shift_low.
  by f_equal.
Qed.

Definition F16 (r : Z) : Z := Nat.iter 8 shift16 r.
Definition inj16 (b : Z) : Z := Z.shiftl b 8.

Lemma shift16_range r : in_width 16 (shift16 r).
Proof.
  apply lxor_bound; [lia|apply Z.mod_pos_bound; lia|]. destruct (Z.testbit r 15); lia.
Qed.

Lemma shift16_xor a b : shift16 (Z.lxor a b) = Z.lxor (shift16 a) (shift16 b).
Proof.
  unfold shift16. rewrite Z.lxor_spec, Z.shiftl_lxor, lxor_mod_pow2 by lia.
  bitwise. destruct (Z.testbit a 15), (Z.testbit b 15); cbn [xorb];
    rewrite ?Z.testbit_0_l; repeat destruct (Z.testbit _ i); reflexivity.
Qed.

Lemma shift16_kernel r : in_width 16 r -> shift16 r = 0 -> r = 0.
Proof.
  intros Hr H. unfold shift16 in H. apply Z.lxor_eq in H.
  destruct (Z.testbit r 15) eqn:E.
  - exfalso. assert (Hb := f_equal (fun x => Z.testbit x 0) H). cbn beta in Hb.
    rewrite testbit_mod_pow2, Z.shiftl_spec_low in Hb by lia. by vm_compute in Hb.
  - apply Z.bits_inj'. intros i Hi. rewrite Z.testbit_0_l.
    destruct (Z.leb_spec 16 i); [by apply (testbit_high r 16)|].
    destruct (Z.eqb_spec i 15) as [->|]; [done|].
    assert (Hb := f_equal (fun x => Z.testbit x (i + 1)) H). cbn beta in Hb.
    rewrite testbit_mod_pow2, Z.shiftl_spec, Z.testbit_0_l in Hb by lia.
    replace (i + 1 - 1) with i in Hb by lia.
    by rewrite (proj2 (Z.ltb_lt (i + 1) 16)) in Hb by lia.
Qed.

Lemma iter_range n r : in_width 16 r -> in_width 16 (Nat.iter n shift16 r).
Proof. destruct n; [done|]. intros. apply shift16_range. Qed.

#[export] Instance crc16_code : LinearCode 16 F16 inj16.
Proof.
  split.
  - lia.
  - intros r Hr. by apply iter_range.
  - intros a b _ _. unfold F16. cbn. by rewrite !shift16_xor.
  - intros r Hr. unfold F16. generalize 8%nat. intros n. induction n as [|n IH]; [done|].
    cbn. intros H. apply shift16_kernel in H; [auto|by apply iter_range].
  - intros b Hb. unfold in_width, inj16. rewrite Z.shiftl_mul_pow2 by lia.
    unfold is_byte in Hb. lia.
  - intros a b. apply Z.shiftl_lxor.
  - intros b Hb H. unfold inj16 in H. rewrite Z.shiftl_mul_pow2 in H by lia. lia.
  - intros a b Ha Hb Hne Heq.
    assert (H : (a =? 0) || negb (F16 (inj16 a) mod 2 ^ 8 =? 0) = true).
    { apply (all_bytes_spec (fun a => (a =? 0) || negb (F16 (inj16 a) mod 2 ^ 8 =? 0)));
        [by vm_compute|done]. }
    rewrite Heq in H. unfold inj16 in H at 1. rewrite Z.shiftl_mul_pow2, Z.mod_mul in H by lia.
    rewrite orb_false_r in H. by apply Z.eqb_eq in H.
Qed.

Lemma land_ffff z : Z.land z 0xFFFF = z mod 2 ^ 16.
Proof. change 0xFFFF with (Z.ones 16). by rewrite Z.land_ones. Qed.

Lemma crc16_byte_low c b :
  is_byte b -> crc16_byte c b mod 2 ^ 16 = code_update (F := F16) (inj := inj16) (c mod 2 ^ 16) b.
Proof.
  intros Hb. unfold crc16_byte, code_update, F16.
  rewrite iter_crc16_shift_low, lxor_mod_pow2 by lia.
  do 2 f_equal. apply Z.mod_small, (lc_inj_range (F := F16)). done.
Qed.

Lemma fold_crc16_byte c l :
  bytes l ->
  fold_left crc16_byte l c mod 2 ^ 16 = code (F := F16) (inj := inj16) (c mod 2 ^ 16) l.
Proof.
  intros Hl. revert c. induction Hl as [|b l Hb Hl IH]; intros c; [done|].
  cbn [fold_left]. rewrite IH, crc16_byte_low by done. done.
Qed.

(** The 16-bit register the two files compute. *)
Definition crc16 (r : Z) (l : list Z) : Z := code (F := F16) (inj := inj16) r l.

Lemma compute_crc16_code c l :
  in_width 16 c -> bytes l -> compute_crc16 c l = crc16 c l.
Proof.
  intros Hc Hl. unfold compute_crc16. rewrite land_ffff, fold_crc16_byte by done.
  by rewrite Z.mod_small.
Qed.

Lemma calcrc_code l n : bytes l -> calcrc l n = crc16 0 (take n l).
Proof.
  intros Hl. unfold calcrc. rewrite land_ffff, fold_crc16_byte by auto with qodem. done.
Qed.

Lemma crc16_range r l : in_width 16 r -> bytes l -> in_width 16 (crc16 r l).
Proof. apply code_range. Qed.

Lemma calcrc_range l n : in_width 16 (calcrc l n).
Proof. unfold calcrc. rewrite land_ffff. apply Z.mod_pos_bound. lia. Qed.

Lemma compute_crc16_range c l : in_width 16 (compute_crc16 c l).
Proof. unfold compute_crc16. rewrite land_ffff. apply Z.mod_pos_bound. lia. Qed.

(** *** The remainder of polynomial division

    A non-negative integer is a polynomial over GF(2), bit [i] the coefficient
    of x^i; the generator of both files is x^16 + x^12 + x^5 + 1. *)

Definition G16 : Z := 0x11021.

Fixpoint pclmul (q : positive) (g : Z) : Z :=
  match q with
  | xH => g
  | xO q => Z.shiftl (pclmul q g) 1
  | xI q => Z.lxor g (Z.shiftl (pclmul q g) 1)
  end.

(** Carryless product of a quotient and a generator. *)
Definition clmul (q : N) (g : Z) : Z :=
  match q with N0 => 0 | Npos q => pclmul q g end.

(** [r] is the remainder of [m] divided by a generator of degree [w]. *)
Definition poly_rem (w g m r : Z) : Prop :=
  in_width w r /\ exists q, m = Z.lxor (clmul q g) r.

(** The message as a polynomial, first byte highest. *)
Definition be_value (l : list Z) : Z := fold_left (fun m b => Z.lxor (Z.shiftl m 8) b) l 0.

Lemma clmul_double q g : clmul (N.double q) g = Z.shiftl (clmul q g) 1.
Proof. destruct q; [by rewrite Z.shiftl_0_l|done]. Qed.

Lemma clmul_succ_double q g : clmul (N.succ_double q) g = Z.lxor g (Z.shiftl (clmul q g) 1).
Proof. destruct q; [by cbn; rewrite Z.lxor_0_r|done]. Qed.

Lemma pclmul_xor p q g :
  clmul (Pos.lxor p q) g = Z.lxor (pclmul p g) (pclmul q g).
Proof.
  revert q. induction p as [p IH|p IH|]; intros [q|q|];
    unfold Pos.lxor; fold Pos.lxor; cbn [pclmul];
    change Pos.Ndouble with N.double; change Pos.Nsucc_double with N.succ_double;
    rewrite ?clmul_double, ?clmul_succ_double, ?IH, ?Z.shiftl_lxor by lia; cbn [clmul pclmul];
    bitwise; repeat destruct (Z.testbit _ _); reflexivity.
Qed.

Lemma clmul_xor p q g : clmul (N.lxor p q) g = Z.lxor (clmul p g) (clmul q g).
Proof.
  destruct p as [|p], q as [|q]; [done|..| by apply pclmul_xor].
  - by rewrite Z.lxor_0_l.
  - by rewrite Z.lxor_0_r.
Qed.

(** A product with a non-zero quotient has the degree of the generator or more. *)
Lemma pclmul_degree w g q :
  0 <= w -> Z.testbit g w = true -> (forall i, w < i -> Z.testbit g i = false) ->
  exists k, w <= k /\ Z.testbit (pclmul q g) k = true /\
            forall i, k < i -> Z.testbit (pclmul q g) i = false.
Proof.
  intros Hw Hg Hhi. induction q as [q IH|q IH|]; cbn [pclmul].
  - destruct IH as (k & Hk & Hb & Hi). exists (k + 1). split_and!; [lia| |].
    + rewrite Z.lxor_spec, Z.shiftl_spec, Hhi by lia. by replace (k + 1 - 1) with k by lia.
    + intros i ?. rewrite Z.lxor_spec, Z.shiftl_spec, Hhi, Hi by lia. done.
  - destruct IH as (k & Hk & Hb & Hi). exists (k + 1). split_and!; [lia| |].
    + rewrite Z.shiftl_spec by lia. by replace (k + 1 - 1) with k by lia.
    + intros i ?. rewrite Z.shiftl_spec, Hi by lia. done.
  - by exists w.
Qed.

Lemma poly_rem_unique w g m r1 r2 :
  0 <= w -> Z.testbit g w = true -> (forall i, w < i -> Z.testbit g i = false) ->
  poly_rem w g m r1 -> poly_rem w g m r2 -> r1 = r2.
Proof.
  intros Hw Hg Hhi [Hr1 [q1 H1]] [Hr2 [q2 H2]]. apply Z.lxor_eq.
  assert (Hx : Z.lxor r1 r2 = clmul (N.lxor q1 q2) g).
  { rewrite clmul_xor. rewrite H1 in H2. apply (f_equal (Z.lxor (clmul q1 g))) in H2.
    rewrite <- Z.lxor_assoc, Z.lxor_nilpotent, Z.lxor_0_l in H2. rewrite H2.
    bitwise. repeat destruct (Z.testbit _ _); reflexivity. }
  destruct (N.lxor q1 q2) as [|q]; [done|]. cbn [clmul] in Hx.
  destruct (pclmul_degree w g q) as (k & Hk & Hb & _); [done..|].
  rewrite <- Hx, Z.lxor_spec, (testbit_high r1 w), (testbit_high r2 w) in Hb by done. done.
Qed.

(** Shifting a 16-bit register [n] times with reduction multiplies it by x^n. *)
Lemma iter_shift16_rem n v :
  in_width 16 v -> exists q, Z.shiftl v (Z.of_nat n) = Z.lxor (clmul q G16) (Nat.iter n shift16 v).
Proof.
  intros Hv. induction n as [|n [q IH]].
  { exists 0%N. by rewrite Z.shiftl_0_r. }
  set (r := Nat.iter n shift16 v) in *.
  assert (in_width 16 r) as Hr by (by apply iter_range).
  assert (Hs : Z.shiftl r 1 = Z.lxor (if Z.testbit r 15 then G16 else 0) (shift16 r)).
  { unfold shift16. apply Z.bits_inj'. intros i Hi.
    rewrite !Z.lxor_spec, testbit_mod_pow2 by lia.
    destruct (Z.ltb_spec i 16); cbn [andb].
    - assert (HG : Z.testbit (if Z.testbit r 15 then G16 else 0) i =
                   Z.testbit (if Z.testbit r 15 then 0x1021 else 0) i).
      { destruct (Z.testbit r 15); [|done]. change G16 with (Z.lor (2 ^ 16) 0x1021).
        rewrite Z.lor_spec, Z.pow2_bits_false by lia. done. }
      rewrite HG. by repeat destruct (Z.testbit _ _).
    - rewrite Z.shiftl_spec by lia. destruct (Z.eqb_spec i 16) as [->|].
      + change (16 - 1) with 15. by destruct (Z.testbit r 15).
      + rewrite (testbit_high r 16), (testbit_high _ 17), (testbit_high _ 16); try done; try lia;
          destruct (Z.testbit r 15); unfold G16; lia. }
  exists (N.lxor (N.double q) (if Z.testbit r 15 then 1%N else 0%N)).
  rewrite Nat.iter_succ. fold r.
  replace (Z.of_nat (S n)) with (Z.of_nat n + 1) by lia.
  rewrite <- Z.shiftl_shiftl, IH, Z.shiftl_lxor, Hs, clmul_xor, clmul_double by lia.
  rewrite Z.lxor_assoc. do 2 f_equal. by destruct (Z.testbit r 15).
Qed.

Lemma be_value_snoc l b : be_value (l ++ [b]) = Z.lxor (Z.shiftl (be_value l) 8) b.
Proof. unfold be_value. by rewrite fold_left_app. Qed.

Lemma clmul_shiftl q g n : exists q', Z.shiftl (clmul q g) (Z.of_nat n) = clmul q' g.
Proof.
  induction n as [|n [q' IH]]; [by exists q|].
  exists (N.double q'). rewrite clmul_double, <- IH, Z.shiftl_shiftl by lia. f_equal. lia.
Qed.

Lemma crc16_rem l : bytes l -> poly_rem 16 G16 (Z.shiftl (be_value l) 16) (crc16 0 l).
Proof.
  intros Hl. split; [by apply crc16_range|].
  induction l as [|b l IH] using rev_ind; [by exists 0%N|].
  apply bytes_app in Hl as [Hl Hb]. apply Forall_inv in Hb. destruct (IH Hl) as [q Hq].
  set (r := crc16 0 l) in *.
  assert (in_width 16 r) as Hr by (by apply crc16_range).
  assert (in_width 16 (Z.lxor r (inj16 b))) as Hv.
  { apply lxor_bound; [lia|done|]. by apply (lc_inj_range (F := F16)). }
  destruct (iter_shift16_rem 8 _ Hv) as [q2 H2].
  destruct (clmul_shiftl q G16 8) as [q1 H1].
  exists (N.lxor q1 q2). unfold crc16. rewrite code_app. cbn [code fold_left].
  change (code (F := F16) (inj := inj16) 0 l) with r.
  unfold code_update, F16. rewrite be_value_snoc, clmul_xor, Z.lxor_assoc, <- H2, <- H1.
  rewrite !Z.shiftl_lxor, Z.shiftl_shiftl by lia. change (8 + 16) with (16 + Z.of_nat 8).
  rewrite <- (Z.shiftl_shiftl _ 16), Hq, Z.shiftl_lxor, Z.lxor_assoc by lia.
  do 2 f_equal.
Qed.

Lemma G16_degree : Z.testbit G16 16 = true /\ forall i, 16 < i -> Z.testbit G16 i = false.
Proof.
  split; [done|]. intros i Hi. apply (testbit_high _ 17); unfold G16; lia.
Qed.

(** *** Reflected codes

    The CRC-32 and Kermit's CRC-16 keep the register in the opposite bit order:
    a turn shifts right, and the generator [g] has its top bit set. *)

Definition reflected_step (g r : Z) : Z :=
  Z.lxor (Z.shiftr r 1) (if Z.testbit r 0 then g else 0).
Definition reflected_F (g r : Z) : Z := Nat.iter 8 (reflected_step g) r.
Definition reflected_inj (b : Z) : Z := b.

Section reflected.
Context (w g : Z) (Hw : 8 <= w) (Hg : in_width w g) (Hgtop : Z.testbit g (w - 1) = true).

Lemma reflected_step_range r : in_width w r -> in_width w (reflected_step g r).
Proof.
  intros Hr. apply lxor_bound; [lia| |by destruct (Z.testbit r 0); [|unfold in_width in *; lia]].
  rewrite Z.shiftr_div_pow2 by lia. unfold in_width in Hr.
  split; [apply Z.div_pos; lia|]. apply Z.div_lt_upper_bound; lia.
Qed.

Lemma reflected_step_xor a b :
  reflected_step g (Z.lxor a b) = Z.lxor (reflected_step g a) (reflected_step g b).
Proof.
  unfold reflected_step. rewrite Z.shiftr_lxor, Z.lxor_spec. bitwise.
  destruct (Z.testbit a 0), (Z.testbit b 0); cbn [xorb];
    rewrite ?Z.testbit_0_l; repeat destruct (Z.testbit _ i); reflexivity.
Qed.

Lemma reflected_step_kernel r : in_width w r -> reflected_step g r = 0 -> r = 0.
Proof.
  intros Hr H. unfold reflected_step in H. apply Z.lxor_eq in H.
  assert (Hz : Z.testbit r 0 = false).
  { destruct (Z.testbit r 0) eqn:E; [|done]. exfalso.
    rewrite <- H, Z.shiftr_spec, (testbit_high r w) in Hgtop; [done|done|lia|lia]. }
  rewrite Hz in H. apply Z.bits_inj'. intros i Hi. rewrite Z.testbit_0_l.
  destruct (Z.eqb_spec i 0) as [->|]; [done|].
  replace i with (i - 1 + 1) by lia. rewrite <- Z.shiftr_spec, H by lia. apply Z.testbit_0_l.
Qed.

Lemma reflected_iter_range n r : in_width w r -> in_width w (Nat.iter n (reflected_step g) r).
Proof.
  intros Hr. induction n as [|n IH]; [done|]. rewrite Nat.iter_succ. by apply reflected_step_range.
Qed.

Lemma reflected_iter_xor n a b :
  Nat.iter n (reflected_step g) (Z.lxor a b) =
  Z.lxor (Nat.iter n (reflected_step g) a) (Nat.iter n (reflected_step g) b).
Proof.
  induction n as [|n IH]; [done|]. by rewrite !Nat.iter_succ, IH, reflected_step_xor.
Qed.

(** Low zero bits are shifted out without any subtraction. *)
Lemma reflected_iter_shiftl n u :
  Nat.iter n (reflected_step g) (Z.shiftl u (Z.of_nat n)) = u.
Proof.
  revert u. induction n as [|n IH]; intros u; [apply Z.shiftl_0_r|].
  rewrite Nat.iter_succ_r. unfold reflected_step at 2.
  rewrite Z.shiftl_spec_low, Z.lxor_0_r by lia.
  rewrite Z.shiftr_shiftl_l by lia.
  replace (Z.of_nat (S n) - 1) with (Z.of_nat n) by lia. apply IH.
Qed.

(** The table step: eight turns only depend on the low byte. *)
Lemma reflected_F_split v :
  reflected_F g v = Z.lxor (Z.shiftr v 8) (reflected_F g (Z.land v 0xff)).
Proof.
  assert (Hv : v = Z.lxor (Z.shiftl (Z.shiftr v 8) (Z.of_nat 8)) (Z.land v 0xff)).
  { apply Z.bits_inj'. intros i Hi. rewrite Z.lxor_spec, Z.land_spec.
    change 0xff with (Z.ones 8). destruct (Z.ltb_spec i 8).
    - rewrite Z.shiftl_spec_low, Z.ones_spec_low by lia. by destruct (Z.testbit v i).
    - rewrite Z.shiftl_spec, Z.ones_spec_high, Z.shiftr_spec by lia.
      replace (i - Z.of_nat 8 + 8) with i by lia. by destruct (Z.testbit v i). }
  unfold reflected_F. rewrite Hv at 1. rewrite reflected_iter_xor.
  by rewrite reflected_iter_shiftl.
Qed.

Lemma reflected_code :
  (forall a, is_byte a -> a <> 0 -> 256 <= reflected_F g a) ->
  LinearCode w (reflected_F g) reflected_inj.
Proof.
  intros Hbytes. assert (2 ^ 8 <= 2 ^ w) by (apply Z.pow_le_mono_r; lia). split.
  - lia.
  - intros r Hr. by apply reflected_iter_range.
  - intros a b _ _. apply reflected_iter_xor.
  - intros r Hr. unfold reflected_F. generalize 8%nat. intros n.
    induction n as [|n IH]; [done|]. rewrite Nat.iter_succ. intros H0.
    apply reflected_step_kernel in H0; [auto|by apply reflected_iter_range].
  - unfold is_byte, in_width, reflected_inj. lia.
  - done.
  - done.
  - intros a b Ha Hb Hne Heq. specialize (Hbytes a Ha Hne).
    unfold reflected_inj, is_byte in *. lia.
Qed.
End reflected.

#[export] Instance crc32_code : LinearCode 32 (reflected_F CRC32) reflected_inj.
Proof.
  apply reflected_code; [lia|unfold in_width, CRC32; lia|done|].
  intros a Ha Hne.
  assert (H : (a =? 0) || (256 <=? reflected_F CRC32 a) = true).
  { apply (all_bytes_spec (fun a => (a =? 0) || (256 <=? reflected_F CRC32 a)));
      [by vm_compute|done]. }
  apply orb_true_iff in H as [H|H]; [by apply Z.eqb_eq in H|by apply Z.leb_le in H].
Qed.

#[export] Instance kermit_crc_code : LinearCode 16 (reflected_F CRC16) reflected_inj.
Proof.
  apply reflected_code; [lia|unfold in_width, CRC16; lia|done|].
  intros a Ha Hne.
  assert (H : (a =? 0) || (256 <=? reflected_F CRC16 a) = true).
  { apply (all_bytes_spec (fun a => (a =? 0) || (256 <=? reflected_F CRC16 a)));
      [by vm_compute|done]. }
  apply orb_true_iff in H as [H|H]; [by apply Z.eqb_eq in H|by apply Z.leb_le in H].
Qed.

(** The table [makecrc] fills by doubling holds eight turns of every byte. *)
Lemma crc_32_tab_entry i :
  is_byte i -> crc_32_tab !!! Z.to_nat i = reflected_F CRC32 i.
Proof.
  intros Hi. apply Z.eqb_eq.
  apply (all_bytes_spec (fun i => crc_32_tab !!! Z.to_nat i =? reflected_F CRC32 i));
    [by vm_compute|done].
Qed.

Lemma crc32_byte_code r b :
  is_byte b -> crc32_byte r b = code_update (F := reflected_F CRC32) (inj := reflected_inj) r b.
Proof.
  intros Hb. unfold crc32_byte, code_update, reflected_inj.
  rewrite crc_32_tab_entry by apply is_byte_land_ff.
  rewrite (reflected_F_split CRC32 (Z.lxor r b)), Z.shiftr_lxor. f_equal.
  assert (Z.shiftr b 8 = 0) as ->; [|by rewrite Z.lxor_0_r].
  rewrite Z.shiftr_div_pow2 by lia. apply Z.div_small. exact Hb.
Qed.

Definition crc32 (r : Z) (l : list Z) : Z :=
  code (F := reflected_F CRC32) (inj := reflected_inj) r l.

Lemma fold_crc32_byte r l : bytes l -> fold_left crc32_byte l r = crc32 r l.
Proof.
  intros Hl. revert r. induction Hl as [|b l Hb Hl IH]; intros r; [done|].
  cbn [fold_left]. rewrite IH, crc32_byte_code by done. done.
Qed.

Lemma crc32_range r l : in_width 32 r -> bytes l -> in_width 32 (crc32 r l).
Proof. apply code_range. Qed.

Lemma compute_crc32_code r l :
  bytes l -> compute_crc32 r (Some l) = Z.lxor (crc32 r l) 0xffffffff.
Proof. intros. unfold compute_crc32. by rewrite fold_crc32_byte. Qed.

(** *** Kermit *)

Lemma crc_16_tab_entry i :
  is_byte i -> u64 (crc_16_tab !!! Z.to_nat i) mod 2 ^ 16 = reflected_F CRC16 i.
Proof.
  intros Hi. apply Z.eqb_eq.
  apply (all_bytes_spec (fun i => u64 (crc_16_tab !!! Z.to_nat i) mod 2 ^ 16 =? reflected_F CRC16 i));
    [by vm_compute|done].
Qed.

(** What the channel carries of a byte. *)
Definition kermit_channel (seven_bit_only : bool) (b : Z) : Z :=
  if seven_bit_only then Z.land b 0x7F else b.

Lemma kermit_channel_byte c b : is_byte b -> is_byte (kermit_channel c b).
Proof.
  intros Hb. destruct c; [|done]. unfold is_byte, kermit_channel.
  pose proof (land_bound b 0x7F 7). change (2 ^ 7) with 128 in *. lia.
Qed.

Lemma kermit_crc_byte_code c r b :
  in_width 16 r -> is_byte b ->
  kermit_crc_byte c r b =
  code_update (F := reflected_F CRC16) (inj := reflected_inj) r (kermit_channel c b).
Proof.
  intros Hr Hb. unfold kermit_crc_byte. fold (kermit_channel c b).
  assert (Hc : is_byte (kermit_channel c b)) by (by apply kermit_channel_byte).
  set (d := kermit_channel c b) in *.
  rewrite land_ffff, lxor_mod_pow2, crc_16_tab_entry by (try apply is_byte_land_ff; lia).
  unfold code_update, reflected_inj. rewrite (reflected_F_split CRC16 (Z.lxor r d)), Z.lxor_comm.
  f_equal. rewrite Z.shiftr_lxor.
  assert (Z.shiftr d 8 = 0) as ->.
  { rewrite Z.shiftr_div_pow2 by lia. apply Z.div_small. exact Hc. }
  rewrite Z.lxor_0_r, Z.shiftr_div_pow2 by lia. unfold in_width in Hr.
  apply Z.mod_small. split; [apply Z.div_pos; lia|]. apply Z.div_lt_upper_bound; lia.
Qed.

Definition kermit_crc (r : Z) (l : list Z) : Z :=
  code (F := reflected_F CRC16) (inj := reflected_inj) r l.

Lemma kermit_fold_code c r l :
  in_width 16 r -> bytes l ->
  fold_left (kermit_crc_byte c) l r = kermit_crc r (kermit_channel c <$> l).
Proof.
  intros Hr Hl. revert r Hr. induction Hl as [|b l Hb Hl IH]; intros r Hr; [done|].
  cbn [fold_left fmap list_fmap]. rewrite kermit_crc_byte_code, IH; [done| |done..].
  apply in_width_update; [done|]. by apply kermit_channel_byte.
Qed.

Lemma kermit_crc_range r l : in_width 16 r -> bytes l -> in_width 16 (kermit_crc r l).
Proof. apply code_range. Qed.

(** The [short] returned is the reflected CRC of what the channel carries. *)
Lemma kermit_compute_crc16_code c l :
  bytes l -> u16 (kermit_compute_crc16 c l) = kermit_crc 0 (kermit_channel c <$> l).
Proof.
  intros Hl. unfold kermit_compute_crc16.
  assert (Hz : forall z, u16 (i16 z) = u16 z).
  { intros z. unfold u16, i16. rewrite Zminus_mod_idemp_l. f_equal. lia. }
  rewrite Hz, kermit_fold_code, land_ffff by (done || (unfold in_width; lia)).
  unfold u16. rewrite Z.mod_mod by lia. apply Z.mod_small, kermit_crc_range.
  - unfold in_width; lia.
  - clear Hz. induction Hl; constructor; auto using kermit_channel_byte.
Qed.
