(* ===== verification/CrcProps.v ===== *)
(** What the check codes are, against textbook definitions, and what damage
    they are bound to notice. *)

From Stdlib Require Import ZArith Lia List Bool.
From stdpp Require Import base list numbers.
From S2P Require Import Prelude Crc.

(** C29: the CRC of Xmodem and Zmodem is the remainder of polynomial division: for
    every message, [calcrc] (xmodem.c) and [compute_crc16] (zmodem.c), which loop
    over a signed [int] without masking it, return the one 16-bit remainder of the
    message followed by 16 zero bits divided by x^16 + x^12 + x^5 + 1. *)
Theorem crc16_is_remainder (l : list Z) (r : Z) :
  bytes l ->
  (poly_rem 16 G16 (Z.shiftl (be_value l) 16) r <-> r = compute_crc16 0 l) /\
  calcrc l (length l) = compute_crc16 0 l.
Proof.
  intros Hl. rewrite compute_crc16_code, calcrc_code, firstn_all by (done || (unfold in_width; lia)).
  split; [|done]. split; [|intros ->; by apply crc16_rem].
  intros Hr. destruct G16_degree as [H1 H2].
  by apply (poly_rem_unique 16 G16 (Z.shiftl (be_value l) 16)); [lia|..|by apply crc16_rem].
Qed.

(** One turn of a bitwise CRC: shift right, and subtract [g] when a one left. *)
Definition bit_turn (g r : Z) : Z :=
  if Z.odd r then Z.lxor (r / 2) g else r / 2.

Lemma bit_turn_step g r : bit_turn g r = reflected_step g r.
Proof.
  unfold bit_turn, reflected_step. rewrite Z.bit0_odd, Z.shiftr_div_pow2 by lia.
  change (2 ^ 1) with 2. destruct (Z.odd r); [done|]. by rewrite Z.lxor_0_r.
Qed.

Definition bitwise_byte (g r b : Z) : Z := Nat.iter 8 (bit_turn g) (Z.lxor r b).
Definition bitwise_crc (g : Z) (r : Z) (l : list Z) : Z := fold_left (bitwise_byte g) l r.

Lemma iter_bit_turn g n v : Nat.iter n (bit_turn g) v = Nat.iter n (reflected_step g) v.
Proof. induction n as [|n IH]; [done|]. by rewrite !Nat.iter_succ, IH, bit_turn_step. Qed.

Lemma bitwise_byte_update g r b :
  bitwise_byte g r b = code_update (F := reflected_F g) (inj := reflected_inj) r b.
Proof. apply iter_bit_turn. Qed.

(** [f] a variable, so that the check of the step does not run it. *)
Lemma fold_left_cons {A B} (f : A -> B -> A) b l r : fold_left f (b :: l) r = fold_left f l (f r b).
Proof. done. Qed.

Lemma bitwise_crc_code g r l :
  bitwise_crc g r l = code (F := reflected_F g) (inj := reflected_inj) r l.
Proof.
  unfold bitwise_crc, code. revert r. induction l as [|b l IH]; intros r; [done|].
  by rewrite !fold_left_cons, bitwise_byte_update, IH.
Qed.

(** the table that [makecrc] fills by doubling gives the CRC-32 of the bitwise
    definition: [compute_crc32] on a preset register is the complement of eight
    turns per byte of the reflected polynomial; and the CRC of a message can be
    computed in pieces, the complement of the value of one undone before the next. *)
Theorem crc32_is_bitwise (l1 l2 : list Z) :
  bytes l1 -> bytes l2 ->
  compute_crc32 (compute_crc32 0 None) (Some l1) =
    Z.lxor (bitwise_crc CRC32 0xffffffff l1) 0xffffffff /\
  compute_crc32 (Z.lxor (compute_crc32 (compute_crc32 0 None) (Some l1)) 0xffffffff) (Some l2) =
    compute_crc32 (compute_crc32 0 None) (Some (l1 ++ l2)).
Proof.
  intros H1 H2. rewrite bitwise_crc_code, !compute_crc32_code by (rewrite ?bytes_app; done).
  unfold crc32. change (compute_crc32 0 None) with 0xffffffff. split; [reflexivity|].
  by rewrite Z.lxor_assoc, Z.lxor_nilpotent, Z.lxor_0_r, code_app.
Qed.

(** the table of Kermit holds [short]s, so entries with the top bit set are
    sign extended before they meet the register; the CRC comes out right all the
    same: the low 16 bits of [compute_crc16] (kermit.c) are the bitwise reflected
    CRC of the data, with seven bits per byte on a seven bit channel. *)
Theorem kermit_crc_is_bitwise (seven_bit_only : bool) (l : list Z) :
  bytes l ->
  u16 (kermit_compute_crc16 seven_bit_only l) =
    bitwise_crc 0x8408 0 ((fun b => if seven_bit_only then Z.land b 0x7F else b) <$> l).
Proof.
  intros Hl. rewrite kermit_compute_crc16_code, bitwise_crc_code by done. done.
Qed.

(** C30: a burst of errors within two neighbouring bytes is always noticed by each
    of the three codes (Kermit's on a line of eight bits). *)
Theorem bursts_noticed (pre post : list Z) (a a' b b' : Z) :
  bytes pre -> bytes post -> bytes [a; a'] -> bytes [b; b'] -> [a; a'] <> [b; b'] ->
  let x := pre ++ [a; a'] ++ post in let y := pre ++ [b; b'] ++ post in
  compute_crc16 0 x <> compute_crc16 0 y /\
  compute_crc32 (compute_crc32 0 None) (Some x) <> compute_crc32 (compute_crc32 0 None) (Some y) /\
  kermit_compute_crc16 false x <> kermit_compute_crc16 false y.
Proof.
  intros Hp Hq Ha Hb Hne x y.
  assert (Hx : bytes x) by (unfold x; by rewrite !bytes_app).
  assert (Hy : bytes y) by (unfold y; by rewrite !bytes_app).
  split; [|split].
  - rewrite !compute_crc16_code by (done || (unfold in_width; lia)).
    apply code_burst; [unfold in_width; lia|done..].
  - rewrite !compute_crc32_code by done. intros Heq.
    apply (f_equal (fun z => Z.lxor z 0xffffffff)) in Heq.
    rewrite !Z.lxor_assoc, Z.lxor_nilpotent, !Z.lxor_0_r in Heq. revert Heq.
    apply code_burst; [cbn; unfold in_width; lia|done..].
  - intros Heq. apply (f_equal u16) in Heq. rewrite !kermit_compute_crc16_code in Heq by done.
    assert (Hid : forall l, kermit_channel false <$> l = l) by (intros l; apply list_fmap_id).
    rewrite !Hid in Heq. revert Heq. apply code_burst; [unfold in_width; lia|done..].
Qed.

(** ** Instances *)

Lemma crc16_is_remainder_witness :
  (poly_rem 16 G16 (Z.shiftl (be_value [49; 50; 51]) 16) 0x9752 <-> 0x9752 = compute_crc16 0 [49; 50; 51]) /\
  calcrc [49; 50; 51] 3 = compute_crc16 0 [49; 50; 51].
Proof. apply (crc16_is_remainder [49; 50; 51] 0x9752). by apply bytes_by_eval. Defined.

Lemma crc32_is_bitwise_witness :
  compute_crc32 (compute_crc32 0 None) (Some [49; 50; 51; 52; 53; 54; 55; 56; 57]) =
    Z.lxor (bitwise_crc CRC32 0xffffffff [49; 50; 51; 52; 53; 54; 55; 56; 57]) 0xffffffff /\
  compute_crc32 (Z.lxor (compute_crc32 (compute_crc32 0 None) (Some [49; 50; 51; 52; 53; 54; 55; 56; 57])) 0xffffffff)
    (Some [1; 2]) =
    compute_crc32 (compute_crc32 0 None) (Some ([49; 50; 51; 52; 53; 54; 55; 56; 57] ++ [1; 2])).
Proof. apply crc32_is_bitwise; by apply bytes_by_eval. Defined.

Lemma kermit_crc_is_bitwise_witness :
  u16 (kermit_compute_crc16 true [200; 3; 255]) =
    bitwise_crc 0x8408 0 ((fun b => if true then Z.land b 0x7F else b) <$> [200; 3; 255]).
Proof. apply (kermit_crc_is_bitwise true). by apply bytes_by_eval. Defined.

Lemma bursts_noticed_witness :
  let x := [1] ++ [2; 3] ++ [4] in let y := [1] ++ [3; 2] ++ [4] in
  compute_crc16 0 x <> compute_crc16 0 y /\
  compute_crc32 (compute_crc32 0 None) (Some x) <> compute_crc32 (compute_crc32 0 None) (Some y) /\
  kermit_compute_crc16 false x <> kermit_compute_crc16 false y.
Proof. apply (bursts_noticed [1] [4] 2 3 3 2); first [by apply bytes_by_eval|done]. Defined.
