(* ===== verification/Stdio.v ===== *)
(** The part of the C library the transfer protocols use: stdio streams over a
    disk of named files.

    The model follows the documented behaviour of [fopen], [fread], [fwrite],
    [fseek], [ftell], [ftruncate], [feof] and [ferror].  A disk also records
    what can go wrong: files whose reads fail, names that cannot be created, names
    whose status cannot be read and the room left for new bytes. *)

From Stdlib Require Import ZArith Lia List Bool.
From stdpp Require Import base list numbers gmap sets strings.
From S2P Require Import Prelude.

Record disk := {
  d_files : gmap cstring (list Z);
  d_unreadable : gset cstring;
  d_readonly : gset cstring;
  d_nostat : gset cstring;
  d_space : Z
}.
#[export] Instance eta_disk : Eta disk := fun d =>
  {| d_files := d_files d; d_unreadable := d_unreadable d;
     d_readonly := d_readonly d; d_nostat := d_nostat d; d_space := d_space d |}.

(** An open stream; the bytes stay on the disk. *)
Record FILE := {
  f_name : cstring;
  f_pos : Z;
  f_eof : bool;
  f_err : bool
}.
#[export] Instance eta_FILE : Eta FILE := fun f =>
  {| f_name := f_name f; f_pos := f_pos f; f_eof := f_eof f; f_err := f_err f |}.

Definition f_data (d : disk) (f : FILE) : list Z := default [] (d_files d !! f_name f).
Definition f_size (d : disk) (f : FILE) : Z := Z.of_nat (length (f_data d f)).

Definition opened (name : cstring) : FILE :=
  {| f_name := name; f_pos := 0; f_eof := false; f_err := false |}.

(** [fopen(name, "rb")] *)
Definition fopen_rb (d : disk) (name : cstring) : option FILE :=
  match d_files d !! name with Some _ => Some (opened name) | None => None end.

(** [fopen(name, "w+b")]: creates or truncates. *)
Definition fopen_wb (d : disk) (name : cstring) : option (disk * FILE) :=
  if decide (name ∈ d_readonly d) then None
  else Some (d <| d_files ::= <[name := []]> |>, opened name).

(** [fopen(name, "r+b")]: an existing file for update. *)
Definition fopen_update (d : disk) (name : cstring) : option FILE :=
  if decide (name ∈ d_readonly d) then None else fopen_rb d name.

(** [stat(name, &st)]: the size of the file, [ENOENT] or another error. *)
Inductive stat_result := Stat_ok (size : Z) | Stat_enoent | Stat_error.
Definition stat (d : disk) (name : cstring) : stat_result :=
  if decide (name ∈ d_nostat d) then Stat_error
  else match d_files d !! name with
       | Some l => Stat_ok (Z.of_nat (length l))
       | None => Stat_enoent
       end.

(** [fread(ptr, 1, n, f)]: the bytes read. *)
Definition fread (d : disk) (f : FILE) (n : nat) : list Z * FILE :=
  if decide (f_name f ∈ d_unreadable d) then ([], f <| f_err := true |>)
  else
    let data := take n (drop (Z.to_nat (f_pos f)) (f_data d f)) in
    (data, f <| f_pos ::= Z.add (Z.of_nat (length data)) |>
             <| f_eof ::= orb (bool_decide (length data < n)%nat) |>).

(** A file grown with zero bytes up to [n]. *)
Definition extend (n : nat) (l : list Z) : list Z := l ++ replicate (n - length l) 0.

(** [fwrite(xs, 1, length xs, f)]: the number of bytes written. *)
Definition fwrite (d : disk) (f : FILE) (xs : list Z) : Z * disk * FILE :=
  let old := f_data d f in
  let room := Z.max 0 (f_size d f + d_space d - f_pos f) in
  let k := Z.to_nat (Z.min (Z.of_nat (length xs)) room) in
  let pos := Z.to_nat (f_pos f) in
  let new := take pos (extend pos old) ++ take k xs ++ drop (pos + k) old in
  (Z.of_nat k,
   d <| d_files ::= <[f_name f := new]> |>
     <| d_space ::= fun z => z - (Z.of_nat (length new) - Z.of_nat (length old)) |>,
   f <| f_pos ::= Z.add (Z.of_nat k) |>
     <| f_err ::= orb (bool_decide (k < length xs)%nat) |>).

(** [fseek(f, off, SEEK_END)]: the return code. *)
Definition fseek_end (d : disk) (f : FILE) (off : Z) : Z * FILE :=
  if f_size d f + off <? 0 then (-1, f)
  else (0, f <| f_pos := f_size d f + off |> <| f_eof := false |>).

(** [fseek(f, off, SEEK_SET)] to an offset that is not negative. *)
Definition fseek_set (f : FILE) (off : Z) : FILE := f <| f_pos := off |> <| f_eof := false |>.

Definition ftell (f : FILE) : Z := f_pos f.

(** [ftruncate(fileno(f), n)]: the return code. *)
Definition ftruncate (d : disk) (f : FILE) (n : Z) : Z * disk :=
  if n <? 0 then (-1, d)
  else (0, d <| d_files ::= <[f_name f := extend (Z.to_nat n) (take (Z.to_nat n) (f_data d f))]> |>).

(** [fread(&last_byte, 1, 1, f)] after [fseek(f, -1, SEEK_END)] leaves the byte
    alone when there is nothing to read. *)
Definition fgetc_into (d : disk) (f : FILE) (old : Z) : Z * Z * FILE :=
  match fread d f 1 with
  | (b :: _, f) => (1, b, f)
  | ([], f) => (0, old, f)
  end.

(** The bytes of a string literal. *)
Definition str (s : string) : list Z :=
  (fun c => Z.of_N (Ascii.N_of_ascii c)) <$> String.list_ascii_of_string s.

(** ** Numbers in text *)

(** The digits of [n] in base [b], as [snprintf] prints them ("%lu", "%lo");
    [fuel] bounds their number. *)
Fixpoint print_digits (fuel : nat) (b n : Z) (acc : list Z) : list Z :=
  match fuel with
  | O => acc
  | S fuel =>
    let acc := (48 + n mod b) :: acc in
    if n / b =? 0 then acc else print_digits fuel b (n / b) acc
  end.
Definition print_base (b n : Z) : list Z := print_digits 64 b n [].

Definition is_space (c : Z) : bool := (c =? 32) || ((9 <=? c) && (c <=? 13)).
Fixpoint skip_space (s : list Z) : list Z :=
  match s with [] => [] | c :: s' => if is_space c then skip_space s' else s end.

Fixpoint scan_digits (b : Z) (s : list Z) (acc : Z) : Z :=
  match s with
  | [] => acc
  | c :: s => if (48 <=? c) && (c <? 48 + b) then scan_digits b s (acc * b + (c - 48)) else acc
  end.

Definition scan_sign (s : list Z) : Z * list Z :=
  match s with
  | c :: s' => if c =? 45 then (-1, s') else if c =? 43 then (1, s') else (1, s)
  | [] => (1, s)
  end.

(** [atol(s)]; values out of range of [long] are not modelled. *)
Definition atol (s : list Z) : Z :=
  let '(sg, s) := scan_sign (skip_space s) in sg * scan_digits 10 s 0.

(** [strtol(s, NULL, 8)]; values out of range are not modelled. *)
Definition strtol8 (s : list Z) : Z :=
  let '(sg, s) := scan_sign (skip_space s) in sg * scan_digits 8 s 0.

(** [sscanf(s, "%lo", &v)]: [v] keeps its value when there is no digit. *)
Definition scan_octal (s : list Z) (old : Z) : Z :=
  let '(sg, s) := scan_sign (skip_space s) in
  match s with
  | c :: _ => if (48 <=? c) && (c <? 56) then u64 (sg * scan_digits 8 s 0) else old
  | [] => old
  end.

(** ["%04d"] of a number that is not negative. *)
Definition print_04d (i : nat) : list Z :=
  let d := print_base 10 (Z.of_nat i) in replicate (4 - length d) 48 ++ d.

(** ** Paths (libgen.h) *)

Definition SLASH : Z := 47.

(** The path up to and with its last slash, and the rest. *)
Fixpoint split_path (p : list Z) : option (list Z * list Z) :=
  match p with
  | [] => None
  | c :: p =>
    match split_path p with
    | Some (d, b) => Some (c :: d, b)
    | None => if c =? SLASH then Some ([c], p) else None
    end
  end.

Definition basename (path : cstring) : cstring :=
  match strip_trailing SLASH path with
  | [] => match path with [] => [46] | _ => [SLASH] end
  | p => match split_path p with Some (_, b) => b | None => p end
  end.

Definition dirname (path : cstring) : cstring :=
  match strip_trailing SLASH path with
  | [] => match path with [] => [46] | _ => [SLASH] end
  | p => match split_path p with
         | Some (d, _) => match strip_trailing SLASH d with [] => [SLASH] | d => d end
         | None => [46]
         end
  end.

(** common.h: the size of a buffer for a file name. *)
Definition FILENAME_SIZE : Z := 256.

(** ** Laws *)

(** Appending at the end of a file with room for the bytes. *)
Lemma fwrite_append d f data xs :
  d_files d !! f_name f = Some data -> f_pos f = Z.of_nat (length data) ->
  Z.of_nat (length xs) <= d_space d ->
  fwrite d f xs =
    (Z.of_nat (length xs),
     d <| d_files ::= <[f_name f := data ++ xs]> |>
       <| d_space ::= fun z => z - Z.of_nat (length xs) |>,
     f <| f_pos := Z.of_nat (length (data ++ xs)) |>).
Proof.
  intros Hd Hp Hs. unfold fwrite, f_size, f_data. rewrite Hd. cbn [default from_option id].
  rewrite Hp. replace (Z.min _ _) with (Z.of_nat (length xs)) by lia.
  rewrite !Nat2Z.id. unfold extend.
  rewrite Nat.sub_diag, app_nil_r, firstn_all, (firstn_all xs).
  rewrite drop_ge, app_nil_r by lia. rewrite bool_decide_false by lia.
  rewrite !length_app. destruct d, f; cbn in *. subst.
  do 2 f_equal; unfold field_update; cbn; do 2 f_equal; try lia.
Qed.

Lemma fread_chunk d f data n :
  d_files d !! f_name f = Some data -> f_name f ∉ d_unreadable d -> 0 <= f_pos f ->
  fread d f n =
    (take n (drop (Z.to_nat (f_pos f)) data),
     f <| f_pos ::= Z.add (Z.of_nat (length (take n (drop (Z.to_nat (f_pos f)) data)))) |>
       <| f_eof ::= orb (bool_decide (length (take n (drop (Z.to_nat (f_pos f)) data)) < n)%nat) |>).
Proof.
  intros Hd Hr Hp. unfold fread, f_data. rewrite decide_False by done. by rewrite Hd.
Qed.

Lemma extend_take n l : (n <= length l)%nat -> extend n (take n l) = take n l.
Proof.
  intros. unfold extend. rewrite length_take, Nat.min_l, Nat.sub_diag by done. apply app_nil_r.
Qed.

(** Truncating inside the file. *)
Lemma ftruncate_take d f n data :
  d_files d !! f_name f = Some data -> 0 <= n <= Z.of_nat (length data) ->
  ftruncate d f n = (0, d <| d_files ::= <[f_name f := take (Z.to_nat n) data]> |>).
Proof.
  intros Hd Hn. unfold ftruncate, f_data. rewrite Hd. cbn [default from_option id].
  rewrite (proj2 (Z.ltb_ge _ _)) by lia. by rewrite extend_take by lia.
Qed.

(** The status of a file that has one. *)
Lemma stat_file d name l :
  d_files d !! name = Some l -> name ∉ d_nostat d -> stat d name = Stat_ok (Z.of_nat (length l)).
Proof. intros Hd Hn. unfold stat. rewrite decide_False by done. by rewrite Hd. Qed.

(** Numbers printed and read back. *)
Lemma scan_print_digits b fuel n acc :
  2 <= b <= 10 -> 0 <= n < b ^ Z.of_nat fuel ->
  scan_digits b (print_digits fuel b n acc) 0 = scan_digits b acc n.
Proof.
  intros Hb. revert n acc. induction fuel as [|fuel IH]; intros n acc Hn; cbn [print_digits].
  { change (b ^ Z.of_nat 0) with 1 in Hn. by replace n with 0 by lia. }
  pose proof (Z.mod_pos_bound n b ltac:(lia)) as Hm.
  assert (Hd : n = n / b * b + n mod b) by (rewrite Z.mul_comm; apply Z.div_mod; lia).
  assert (Hs : forall v, scan_digits b (48 + n mod b :: acc) v = scan_digits b acc (v * b + n mod b)).
  { intros v. cbn [scan_digits]. rewrite (proj2 (Z.leb_le _ _)), (proj2 (Z.ltb_lt _ _)) by lia.
    cbn [andb]. f_equal. lia. }
  destruct (Z.eqb_spec (n / b) 0) as [E|E].
  - rewrite Hs. f_equal. lia.
  - rewrite IH, Hs; [f_equal; lia|].
    rewrite Nat2Z.inj_succ, Z.pow_succ_r in Hn by lia.
    split; [apply Z.div_pos; lia|apply Z.div_lt_upper_bound; lia].
Qed.

Lemma scan_print b n :
  2 <= b <= 10 -> 0 <= n < 2 ^ 64 -> scan_digits b (print_base b n) 0 = n.
Proof.
  intros Hb Hn. unfold print_base. rewrite scan_print_digits; [done|done|].
  split; [lia|]. eapply Z.lt_le_trans; [apply Hn|]. apply Z.pow_le_mono_l. lia.
Qed.

Lemma length_print_digits b fuel k n acc :
  2 <= b -> 0 <= n < b ^ Z.of_nat k -> (1 <= k)%nat ->
  (length (print_digits fuel b n acc) <= k + length acc)%nat.
Proof.
  intros Hb. revert k n acc. induction fuel as [|fuel IH]; intros k n acc Hn Hk; cbn [print_digits]; [lia|].
  destruct (Z.eqb_spec (n / b) 0) as [E|E]; [cbn; lia|].
  destruct k as [|[|k]]; [lia| |].
  - change (b ^ Z.of_nat 1) with (b * 1) in Hn. rewrite Z.div_small in E by lia. done.
  - eapply Nat.le_trans; [apply (IH (S k))|cbn; lia]; [|lia].
    rewrite (Nat2Z.inj_succ (S k)), Z.pow_succ_r in Hn by lia.
    split; [apply Z.div_pos; lia|apply Z.div_lt_upper_bound; lia].
Qed.

Lemma print_digit_range b fuel n acc :
  2 <= b <= 10 -> Forall (fun c => 48 <= c < 58) acc -> Forall (fun c => 48 <= c < 58) (print_digits fuel b n acc).
Proof.
  intros Hb. revert n acc. induction fuel as [|fuel IH]; intros n acc Ha; cbn [print_digits]; [done|].
  pose proof (Z.mod_pos_bound n b ltac:(lia)) as Hm.
  assert (H : Forall (fun c => 48 <= c < 58) (48 + n mod b :: acc)) by (constructor; [lia|done]).
  destruct (_ =? _); [done|by apply IH].
Qed.

(** Digits, and the text around a number. *)
Lemma print_digits_app b fuel n acc : print_digits fuel b n acc = print_digits fuel b n [] ++ acc.
Proof.
  revert n acc. induction fuel as [|fuel IH]; intros n acc; cbn [print_digits]; [done|].
  destruct (_ =? _); [done|]. rewrite IH, (IH _ [_]), <- app_assoc. done.
Qed.

Lemma print_digits_ne b fuel n acc : acc <> [] \/ fuel <> O -> print_digits fuel b n acc <> [].
Proof.
  revert n acc. induction fuel as [|fuel IH]; intros n acc H; cbn [print_digits]; [by destruct H|].
  destruct (_ =? _); [done|]. apply IH. by left.
Qed.

Lemma print_digits_below b fuel n acc :
  2 <= b -> Forall (fun c => 48 <= c < 48 + b) acc -> Forall (fun c => 48 <= c < 48 + b) (print_digits fuel b n acc).
Proof.
  intros Hb. revert n acc. induction fuel as [|fuel IH]; intros n acc Ha; cbn [print_digits]; [done|].
  pose proof (Z.mod_pos_bound n b ltac:(lia)) as Hm.
  assert (H : Forall (fun c => 48 <= c < 48 + b) (48 + n mod b :: acc)) by (constructor; [lia|done]).
  destruct (_ =? _); [done|by apply IH].
Qed.

Lemma print_base_cons b n :
  2 <= b <= 10 -> exists c l, print_base b n = c :: l /\ 48 <= c < 48 + b /\
    Forall (fun c => 48 <= c < 48 + b) (print_base b n).
Proof.
  intros Hb. pose proof (print_digits_below b 64 n [] ltac:(lia) ltac:(constructor)) as H. fold (print_base b n) in H.
  pose proof (print_digits_ne b 64 n [] ltac:(by right)) as Hne. fold (print_base b n) in Hne.
  destruct (print_base b n) as [|c l]; [done|]. exists c, l. split; [done|]. split; [by inversion H|done].
Qed.

(** Numbers as text: what is printed is read back. *)

Lemma print_base_digits b n :
  2 <= b <= 10 -> exists c l, print_base b n = c :: l /\ 48 <= c < 58 /\ Forall (fun c => c <> 0) (print_base b n).
Proof.
  intros Hb. destruct (print_base_cons b n Hb) as (c & l & E & Hc & Hl). exists c, l. split; [done|]. split; [lia|].
  eapply Forall_impl; [exact Hl|]. cbn. lia.
Qed.

Lemma scan_printed b n :
  2 <= b <= 10 -> 0 <= n < 2 ^ 64 ->
  (let '(sg, s) := scan_sign (skip_space (print_base b n)) in sg * scan_digits b s 0) = n.
Proof.
  intros Hb Hn. destruct (print_base_digits b n Hb) as (c & l & E & Hc & _).
  assert (Hsk : skip_space (print_base b n) = print_base b n).
  { rewrite E. cbn [skip_space]. unfold is_space. repeat (rewrite (proj2 (Z.eqb_neq _ _)) by lia).
    rewrite (proj2 (Z.leb_gt c 13)) by lia. by rewrite andb_false_r. }
  assert (Hsg : scan_sign (print_base b n) = (1, print_base b n)).
  { rewrite E. cbn [scan_sign]. by rewrite !(proj2 (Z.eqb_neq _ _)) by lia. }
  rewrite Hsk, Hsg, scan_print by done. lia.
Qed.

Lemma atol_print n : 0 <= n < 2 ^ 64 -> atol (print_base 10 n) = n.
Proof. intros H. exact (scan_printed 10 n ltac:(lia) H). Qed.
Lemma strtol8_print n : 0 <= n < 2 ^ 64 -> strtol8 (print_base 8 n) = n.
Proof. intros H. exact (scan_printed 8 n ltac:(lia) H). Qed.

Lemma scan_print_tail b n r :
  2 <= b <= 10 -> 0 <= n < 2 ^ 64 -> (forall c l, r = c :: l -> ~ 48 <= c < 48 + b) ->
  scan_digits b (print_base b n ++ r) 0 = n.
Proof.
  intros Hb Hn Hr. unfold print_base. rewrite <- print_digits_app, scan_print_digits; [|done|].
  - destruct r as [|c r]; [done|]. cbn [scan_digits]. specialize (Hr c r eq_refl).
    destruct (Z.leb_spec 48 c), (Z.ltb_spec c (48 + b)); cbn [andb]; [lia|done..].
  - split; [lia|]. eapply Z.lt_le_trans; [apply Hn|]. apply Z.pow_le_mono_l. lia.
Qed.

Lemma c_str_id l : Forall (fun c => c <> 0) l -> c_str l = l.
Proof.
  induction 1 as [|c l Hc _ IH]; [done|]. cbn [c_str]. by rewrite (proj2 (Z.eqb_neq _ _) Hc), IH.
Qed.

Lemma c_str_app l r : Forall (fun c => c <> 0) l -> c_str (l ++ 0 :: r) = l.
Proof.
  induction 1 as [|c l Hc _ IH]; [done|]. cbn [c_str app]. by rewrite (proj2 (Z.eqb_neq _ _) Hc), IH.
Qed.

(** *** Fresh names *)

Lemma print_04d_inj i j :
  Z.of_nat i < 2 ^ 64 -> Z.of_nat j < 2 ^ 64 -> print_04d i = print_04d j -> i = j.
Proof.
  intros Hi Hj H.
  assert (S0 : forall k l, scan_digits 10 (replicate k 48 ++ l) 0 = scan_digits 10 l 0).
  { intros k l. induction k as [|k IH]; [done|]. exact IH. }
  apply (f_equal (fun l => scan_digits 10 l 0)) in H. unfold print_04d in H.
  rewrite !S0, !scan_print in H by lia. lia.
Qed.

(** The names a search for a free name tries. *)
Definition numbered (base : list Z) (i : nat) : cstring := base ++ [46] ++ print_04d i.

Lemma numbered_inj base i j :
  Z.of_nat i < 2 ^ 64 -> Z.of_nat j < 2 ^ 64 -> numbered base i = numbered base j -> i = j.
Proof. intros Hi Hj H. unfold numbered in H. simplify_list_eq. by apply print_04d_inj. Qed.

Lemma length_numbered base i :
  Z.of_nat i < 2 ^ 64 -> (length (numbered base i) <= length base + 21)%nat.
Proof.
  intros Hi. unfold numbered, print_04d, print_base. rewrite !length_app, length_replicate. cbn [length].
  pose proof (length_print_digits 10 64 20 (Z.of_nat i) [] ltac:(lia)) as L. cbn [length] in L.
  assert (2 ^ 64 <= 10 ^ Z.of_nat 20) by (vm_compute; congruence). lia.
Qed.

(** Not all of more names than there are files are taken. *)
Lemma names_run_out (files : gmap cstring (list Z)) base k :
  Z.of_nat k <= 2 ^ 64 -> (forall j, (j < k)%nat -> is_Some (files !! numbered base j)) -> (k <= size files)%nat.
Proof.
  intros Hk H. set (l := numbered base <$> List.seq 0 k).
  assert (Hn : NoDup l).
  { apply NoDup_fmap_2_strong; [|apply NoDup_ListNoDup, seq_NoDup].
    intros x y Hx Hy. rewrite list_elem_of_In, in_seq in Hx, Hy. apply numbered_inj; lia. }
  assert (Hs : list_to_set l ⊆ dom files).
  { intros n Hin. rewrite elem_of_list_to_set in Hin. apply list_elem_of_fmap in Hin as (j & -> & Hj).
    rewrite list_elem_of_In, in_seq in Hj. apply elem_of_dom, H. lia. }
  apply subseteq_size in Hs. rewrite size_list_to_set, size_dom in Hs by done.
  unfold l in Hs. by rewrite length_fmap, length_seq in Hs.
Qed.
