(* ===== verification/Strptime.v ===== *)
(** lib/c/strptime.c: the conversions of strptime() that the program uses, and
    with them the part of <time.h> around it.

    The file is linked where the C library has no strptime() of its own; elsewhere
    the library's does the same with these conversions.  A format is the list of its
    conversions, blanks and other characters. *)

From Stdlib Require Import ZArith Lia List Bool.
From stdpp Require Import base list numbers.
From S2P Require Import Prelude Stdio.

Module Strptime.

(** ** struct tm *)

Record tm := {
  tm_sec : Z;
  tm_min : Z;
  tm_hour : Z;
  tm_mday : Z;
  tm_mon : Z;
  tm_year : Z;
  tm_isdst : Z
}.
#[export] Instance eta_tm : Eta tm := fun t =>
  {| tm_sec := tm_sec t; tm_min := tm_min t; tm_hour := tm_hour t; tm_mday := tm_mday t;
     tm_mon := tm_mon t; tm_year := tm_year t; tm_isdst := tm_isdst t |}.

(** A [struct tm] on the stack: [None] in the members nothing has written yet. *)
Record tm_variable := {
  v_sec : option Z;
  v_min : option Z;
  v_hour : option Z;
  v_mday : option Z;
  v_mon : option Z;
  v_year : option Z
}.
#[export] Instance eta_tm_variable : Eta tm_variable := fun t =>
  {| v_sec := v_sec t; v_min := v_min t; v_hour := v_hour t; v_mday := v_mday t;
     v_mon := v_mon t; v_year := v_year t |}.

Definition tm_unset : tm_variable :=
  {| v_sec := None; v_min := None; v_hour := None; v_mday := None; v_mon := None; v_year := None |}.

(** The value of a variable with all members written, daylight saving as given. *)
Definition tm_value (isdst : Z) (v : tm_variable) : option tm :=
  s ← v_sec v; m ← v_min v; h ← v_hour v; d ← v_mday v; n ← v_mon v; y ← v_year v;
  Some {| tm_sec := s; tm_min := m; tm_hour := h; tm_mday := d; tm_mon := n; tm_year := y; tm_isdst := isdst |}.

(** ** strptime() *)

Inductive conversion :=
| Century | Year_of_century | Month | Day | Hour | Minute | Second | White | Literal (c : Z).

Definition TM_YEAR_BASE : Z := 1900.
Definition is_digit (c : Z) : bool := (48 <=? c) && (c <=? 57).

(** The loop of [conv_num], at a digit. *)
Fixpoint conv_digits (ulim result rulim : Z) (buf : list Z) : Z * list Z :=
  match buf with
  | [] => (result, [])
  | ch :: buf =>
    let result := result * 10 + (ch - 48) in
    let rulim := rulim / 10 in
    match buf with
    | ch :: _ =>
      if (result * 10 <=? ulim) && negb (rulim =? 0) && is_digit ch
      then conv_digits ulim result rulim buf else (result, buf)
    | [] => (result, [])
    end
  end.

(** [conv_num(buf, &dest, llim, ulim)]: the end of the number, [None] without one in
    the limits, and [dest], which then keeps its value. *)
Definition conv_num (buf : list Z) (dest : Z) (llim ulim : Z) : option (list Z) * Z :=
  match buf with
  | ch :: _ =>
    if is_digit ch then
      let '(result, buf) := conv_digits ulim 0 ulim buf in
      if (result <? llim) || (ulim <? result) then (None, dest) else (Some buf, result)
    else (None, dest)
  | [] => (None, dest)
  end.

(** [conv_num(bp, &tm->member, llim, ulim)] *)
Definition conv_member (buf : list Z) (llim ulim : Z) (member : option Z) : option (list Z) * option Z :=
  match conv_num buf 0 llim ulim with
  | (Some bp, n) => (Some bp, Some n)
  | (None, _) => (None, member)
  end.

(** One conversion: [bp] after it, [split_year] and the variable. *)
Definition convert (c : conversion) (bp : list Z) (split_year : bool) (t : tm_variable) :
    option (list Z) * bool * tm_variable :=
  match c with
  | White => (Some (skip_space bp), split_year, t)
  | Literal c =>
    match bp with
    | b :: bp => if b =? c then (Some bp, split_year, t) else (None, split_year, t)
    | [] => (None, split_year, t)
    end
  | Century =>
    let '(bp, i) := conv_num bp 20 0 99 in
    let i := i * 100 - TM_YEAR_BASE in
    let i := if split_year then i + Z.rem (default 0 (v_year t)) 100 else i in
    (bp, true, t <| v_year := Some i |>)
  | Year_of_century =>
    let '(bp, i) := conv_num bp 0 0 99 in
    let i := if split_year then i + Z.quot (default 0 (v_year t)) 100 * 100
             else if i <=? 68 then i + 2000 - TM_YEAR_BASE else i + 1900 - TM_YEAR_BASE in
    (bp, true, t <| v_year := Some i |>)
  | Month => let '(bp, i) := conv_num bp 1 1 12 in (bp, split_year, t <| v_mon := Some (i - 1) |>)
  | Day => let '(bp, m) := conv_member bp 1 31 (v_mday t) in (bp, split_year, t <| v_mday := m |>)
  | Hour => let '(bp, m) := conv_member bp 0 23 (v_hour t) in (bp, split_year, t <| v_hour := m |>)
  | Minute => let '(bp, m) := conv_member bp 0 59 (v_min t) in (bp, split_year, t <| v_min := m |>)
  | Second => let '(bp, m) := conv_member bp 0 61 (v_sec t) in (bp, split_year, t <| v_sec := m |>)
  end.

Fixpoint convert_all (fmt : list conversion) (bp : list Z) (split_year : bool) (t : tm_variable) :
    option (list Z) * tm_variable :=
  match fmt with
  | [] => (Some bp, t)
  | c :: fmt =>
    match convert c bp split_year t with
    | (Some bp, split_year, t) => convert_all fmt bp split_year t
    | (None, _, t) => (None, t)
    end
  end.

(** [strptime(buf, fmt, &t)]: what is left of [buf], [None] for a null pointer, and
    the variable, whose members are written up to the failure. *)
Definition strptime (buf : list Z) (fmt : list conversion) (t : tm_variable) : option (list Z) * tm_variable :=
  convert_all fmt buf false t.

(** ** strftime() *)

(** ["%02d"] of a number below 100. *)
Definition two_digits (n : Z) : list Z := [48 + n / 10; 48 + n mod 10].

(** [strftime(.., "%Y%m%d %H:%M:%S", &t)] *)
Definition strftime (t : tm) : list Z :=
  print_base 10 (tm_year t + TM_YEAR_BASE) ++ two_digits (tm_mon t + 1) ++ two_digits (tm_mday t) ++ [32] ++
  two_digits (tm_hour t) ++ [58] ++ two_digits (tm_min t) ++ [58] ++ two_digits (tm_sec t).

(** ** A date that is printed is read back *)

(** The ranges of <time.h>, with four digits for the year. *)
Record calendar (t : tm) : Prop := {
  cal_sec : 0 <= tm_sec t <= 60;
  cal_min : 0 <= tm_min t <= 59;
  cal_hour : 0 <= tm_hour t <= 23;
  cal_mday : 1 <= tm_mday t <= 31;
  cal_mon : 0 <= tm_mon t <= 11;
  cal_year : 1000 <= tm_year t + TM_YEAR_BASE <= 9999
}.

Lemma digit_of n : 0 <= n < 10 -> is_digit (48 + n) = true.
Proof. unfold is_digit. lia. Qed.

(** Two digits are read as the number, whatever follows. *)
Lemma conv_two_digits n dest llim ulim rest :
  0 <= n < 100 -> 10 <= ulim < 100 -> llim <= n <= ulim ->
  conv_num (two_digits n ++ rest) dest llim ulim = (Some rest, n).
Proof.
  intros Hn Hu Hl. pose proof (Z.div_mod n 10) as Hd. pose proof (Z.mod_pos_bound n 10) as Hm.
  assert (Ha : 0 <= n / 10 < 10) by (split; [apply Z.div_pos|apply Z.div_lt_upper_bound]; lia).
  assert (Hr : ulim / 10 <> 0) by (pose proof (Z.div_le_lower_bound ulim 10 1); lia).
  assert (Hz : ulim / 10 / 10 = 0) by (rewrite Z.div_div by lia; apply Z.div_small; lia).
  unfold conv_num, two_digits. cbn [app]. rewrite digit_of by done. cbn [conv_digits].
  rewrite (proj2 (Z.leb_le _ _)), (proj2 (Z.eqb_neq _ _) Hr), digit_of by lia. cbn [andb negb].
  rewrite Hz. change (negb (0 =? 0)) with false. rewrite andb_false_r. cbn [andb].
  replace ((0 * 10 + (48 + n / 10 - 48)) * 10 + (48 + n mod 10 - 48)) with n by lia.
  destruct rest; by rewrite (proj2 (Z.ltb_ge _ _)), (proj2 (Z.ltb_ge _ _)) by lia.
Qed.

Lemma member_two_digits n llim ulim member rest :
  0 <= n < 100 -> 10 <= ulim < 100 -> llim <= n <= ulim ->
  conv_member (two_digits n ++ rest) llim ulim member = (Some rest, Some n).
Proof. intros. unfold conv_member. by rewrite conv_two_digits. Qed.

Lemma print_digits_step fuel b n acc :
  print_digits (S fuel) b n acc =
  if n / b =? 0 then (48 + n mod b) :: acc else print_digits fuel b (n / b) ((48 + n mod b) :: acc).
Proof. reflexivity. Qed.

Lemma four_digits y : 1000 <= y <= 9999 -> print_base 10 y = two_digits (y / 100) ++ two_digits (y mod 100).
Proof.
  intros Hy. unfold print_base.
  assert (E1 : y / 10 / 10 = y / 100) by (by rewrite Z.div_div by lia).
  assert (E2 : y / 10 / 10 / 10 = y / 1000) by (by rewrite !Z.div_div by lia).
  assert (E3 : y / 10 / 10 / 10 / 10 = 0) by (rewrite !Z.div_div by lia; apply Z.div_small; lia).
  pose proof (Z.div_le_lower_bound y 10 100). pose proof (Z.div_le_lower_bound y 100 10).
  pose proof (Z.div_le_lower_bound y 1000 1).
  do 4 rewrite print_digits_step.
  rewrite (proj2 (Z.eqb_neq (y / 10) 0)) by lia. rewrite (proj2 (Z.eqb_neq (y / 10 / 10) 0)) by lia.
  rewrite (proj2 (Z.eqb_neq (y / 10 / 10 / 10) 0)) by lia. rewrite E3. change (0 =? 0) with true. cbv iota.
  unfold two_digits. cbn [app].
  assert (F1 : y mod 100 / 10 = y / 10 mod 10).
  { pose proof (Z.div_mod y 100). pose proof (Z.div_mod (y / 10) 10). pose proof (Z.div_mod y 10).
    pose proof (Z.mod_pos_bound y 10). pose proof (Z.mod_pos_bound (y / 10) 10).
    symmetry. apply (Z.div_unique _ _ _ (y mod 10)); lia. }
  assert (F2 : (y mod 100) mod 10 = y mod 10) by (rewrite (Z.mod_mod_divide y 100 10); [done|by exists 10]).
  assert (F3 : y / 10 / 10 / 10 mod 10 = y / 100 / 10).
  { rewrite E1, Z.div_div by lia. apply Z.mod_small. split; [apply Z.div_pos; lia|apply Z.div_lt_upper_bound; lia]. }
  by rewrite F1, F2, F3, E1.
Qed.

Definition date_and_time : list conversion :=
  [Century; Year_of_century; Month; Day; White; Hour; Literal 58; Minute; Literal 58; Second].

Lemma strptime_strftime t v :
  calendar t ->
  strptime (strftime t) date_and_time v =
  (Some [], {| v_sec := Some (tm_sec t); v_min := Some (tm_min t); v_hour := Some (tm_hour t);
               v_mday := Some (tm_mday t); v_mon := Some (tm_mon t); v_year := Some (tm_year t) |}).
Proof.
  intros [H1 H2 H3 H4 H5 H6]. unfold strptime, strftime, date_and_time.
  set (y := tm_year t + TM_YEAR_BASE) in *. rewrite four_digits by done.
  assert (Hc : 10 <= y / 100 < 100) by (split; [apply Z.div_le_lower_bound|apply Z.div_lt_upper_bound]; lia).
  pose proof (Z.mod_pos_bound y 100) as Hm. pose proof (Z.div_mod y 100) as Hd.
  rewrite <- !app_assoc. cbn [convert_all convert]. rewrite conv_two_digits by lia. cbn [convert_all convert].
  rewrite conv_two_digits by lia. cbn [convert_all convert]. rewrite conv_two_digits by lia. cbn [convert_all convert].
  rewrite member_two_digits by lia. cbn [convert_all convert app skip_space is_space].
  change (is_space 32) with true. cbv iota.
  assert (Hs : skip_space (two_digits (tm_hour t) ++ 58 :: two_digits (tm_min t) ++ 58 :: two_digits (tm_sec t)) =
    two_digits (tm_hour t) ++ 58 :: two_digits (tm_min t) ++ 58 :: two_digits (tm_sec t)).
  { unfold two_digits. cbn [app skip_space]. unfold is_space. pose proof (Z.div_pos (tm_hour t) 10).
    rewrite (proj2 (Z.eqb_neq _ _)), (proj2 (Z.leb_gt (48 + tm_hour t / 10) 13)) by lia. by rewrite andb_false_r. }
  rewrite Hs, member_two_digits by lia. rewrite Z.eqb_refl. rewrite member_two_digits by lia. rewrite Z.eqb_refl.
  rewrite <- (app_nil_r (two_digits (tm_sec t))), member_two_digits by lia. cbn [convert_all].
  replace (tm_mon t + 1 - 1) with (tm_mon t) by lia. unfold field_update, TM_YEAR_BASE in *. cbn.
  do 4 f_equal. unfold y. fold y. f_equal.
  assert (E : y / 100 * 100 - 1900 = 100 * (y / 100 - 19)) by lia. rewrite E.
  rewrite (Z.mul_comm 100), Z.quot_mul by lia. lia.
Qed.

(** A printed date has 17 characters, none of them null. *)
Lemma two_digits_plain n : 0 <= n < 100 -> Forall (fun c => c <> 0) (two_digits n).
Proof.
  intros Hn. pose proof (Z.div_pos n 10). pose proof (Z.mod_pos_bound n 10).
  unfold two_digits. repeat constructor; lia.
Qed.

Lemma strftime_plain t : calendar t -> length (strftime t) = 17%nat /\ Forall (fun c => c <> 0) (strftime t).
Proof.
  intros [H1 H2 H3 H4 H5 H6]. unfold strftime. rewrite four_digits by done. split; [reflexivity|].
  assert (Hc : 0 <= (tm_year t + TM_YEAR_BASE) / 100 < 100)
    by (split; [apply Z.div_pos|apply Z.div_lt_upper_bound]; lia).
  pose proof (Z.mod_pos_bound (tm_year t + TM_YEAR_BASE) 100).
  repeat (apply Forall_app; split); try (apply two_digits_plain; lia); by repeat constructor.
Qed.

End Strptime.
