(* ===== verification/Protocols.v ===== *)
(** protocols.c: the transfer statistics every protocol updates, the end of a
    transfer, and the ASCII transfer. *)

From Stdlib Require Import ZArith Lia List Bool.
From stdpp Require Import base list numbers gmap strings.
From S2P Require Import Prelude Stdio.

(** ** Data types (protocols.h, forms.h) *)

Inductive Q_PROTOCOL :=
| Q_PROTOCOL_ASCII
| Q_PROTOCOL_KERMIT
| Q_PROTOCOL_XMODEM
| Q_PROTOCOL_XMODEM_CRC
| Q_PROTOCOL_XMODEM_RELAXED
| Q_PROTOCOL_XMODEM_1K
| Q_PROTOCOL_YMODEM
| Q_PROTOCOL_ZMODEM
| Q_PROTOCOL_XMODEM_1K_G
| Q_PROTOCOL_YMODEM_G.

Inductive Q_TRANSFER_STATE :=
| Q_TRANSFER_STATE_INIT
| Q_TRANSFER_STATE_FILE_INFO
| Q_TRANSFER_STATE_TRANSFER
| Q_TRANSFER_STATE_FILE_DONE
| Q_TRANSFER_STATE_ABORT
| Q_TRANSFER_STATE_END.

#[global] Instance Q_PROTOCOL_eq_dec : EqDecision Q_PROTOCOL.
Proof. solve_decision. Defined.
#[global] Instance Q_TRANSFER_STATE_eq_dec : EqDecision Q_TRANSFER_STATE.
Proof. solve_decision. Defined.

(** A message is the format string and the numbers it is applied to. *)
Definition message : Type := string * list Z.

(** [struct q_transfer_stats_struct]; the counters are [unsigned long]. *)
Record q_transfer_stats_struct := {
  qts_state : Q_TRANSFER_STATE;
  qts_protocol : Q_PROTOCOL;
  protocol_name : option string;
  qts_filename : option cstring;
  pathname : option cstring;
  last_message : option message;
  bytes_total : Z;
  bytes_transfer : Z;
  blocks : Z;
  block_size : Z;
  blocks_transfer : Z;
  error_count : Z;
  batch_bytes_total : Z;
  batch_bytes_transfer : Z;
  batch_start_time : Z;
  file_start_time : Z;
  end_time : Z
}.
#[export] Instance eta_stats : Eta q_transfer_stats_struct := fun s =>
  {| qts_state := qts_state s; qts_protocol := qts_protocol s;
     protocol_name := protocol_name s; qts_filename := qts_filename s;
     pathname := pathname s; last_message := last_message s;
     bytes_total := bytes_total s; bytes_transfer := bytes_transfer s;
     blocks := blocks s; block_size := block_size s;
     blocks_transfer := blocks_transfer s; error_count := error_count s;
     batch_bytes_total := batch_bytes_total s;
     batch_bytes_transfer := batch_bytes_transfer s;
     batch_start_time := batch_start_time s; file_start_time := file_start_time s;
     end_time := end_time s |}.

(** [struct file_info]: a name and the fields of its [struct stat] in use. *)
Record file_info := { fi_name : cstring; st_size : Z; st_mtime : Z; st_mode : Z }.

(** What leaves the program other than bytes on the wire and on the disk. *)
Inductive event :=
| Ev_log (format : string)
| Ev_notify (format : string)
| Ev_music_upload
| Ev_music_download
| Ev_utime (name : cstring) (t : Z)
| Ev_chmod (name : cstring) (mode : Z).

(** The program state the protocols share: the globals of protocols.c, the disk
    and the clock.  The [k]-th call of [time] reads [clock k]. *)
Record common := {
  q_transfer_stats : q_transfer_stats_struct;
  q_screen_dirty : bool;
  the_disk : disk;
  clock : nat -> Z;
  ticks : nat;
  events : list event;
  batch_upload_file_list : option (list file_info);
  q_download_location : option cstring;
  q_state_download : bool
}.
#[export] Instance eta_common : Eta common := fun c =>
  {| q_transfer_stats := q_transfer_stats c; q_screen_dirty := q_screen_dirty c;
     the_disk := the_disk c; clock := clock c; ticks := ticks c; events := events c;
     batch_upload_file_list := batch_upload_file_list c;
     q_download_location := q_download_location c;
     q_state_download := q_state_download c |}.

(** ** Operations on the shared state *)

Definition emit (e : event) : M common unit := modify (fun c => c <| events ::= cons e |>).

(** [time(&t)] *)
Definition time : M common Z :=
  t ← gets (fun c => clock c (ticks c));
  modify (fun c => c <| ticks ::= S |>);;
  mret t.

Definition stats (f : q_transfer_stats_struct -> q_transfer_stats_struct) : M common unit :=
  modify (fun c => c <| q_transfer_stats ::= f |>).

Definition set_transfer_stats_protocol_name (s : string) : M common unit :=
  stats (fun q => q <| protocol_name := Some s |>).
Definition set_transfer_stats_filename (s : cstring) : M common unit :=
  stats (fun q => q <| qts_filename := Some s |>).
Definition set_transfer_stats_pathname (s : option cstring) : M common unit :=
  stats (fun q => q <| pathname := s |>).
Definition set_transfer_stats_last_message (m : message) : M common unit :=
  stats (fun q => q <| last_message := Some m |>);;
  modify (fun c => c <| q_screen_dirty := true |>).

(** The log line of [stop_file_transfer]. *)
Definition stop_log_line (p : Q_PROTOCOL) (download : bool) (new_state : Q_TRANSFER_STATE) : string :=
  match p with
  | Q_PROTOCOL_ASCII | Q_PROTOCOL_XMODEM | Q_PROTOCOL_XMODEM_CRC
  | Q_PROTOCOL_XMODEM_RELAXED | Q_PROTOCOL_XMODEM_1K | Q_PROTOCOL_XMODEM_1K_G =>
    if download then
      if decide (new_state = Q_TRANSFER_STATE_ABORT)
      then "DOWNLOAD ABORTED: protocol %s, filename %s\n"
      else "DOWNLOAD FILE COMPLETE: protocol %s, filename %s, filesize %d\n"
    else
      if decide (new_state = Q_TRANSFER_STATE_ABORT)
      then "UPLOAD ABORTED: protocol %s, filename %s\n"
      else "UPLOAD FILE COMPLETE: protocol %s, filename %s, filesize %d\n"
  | _ =>
    if download then
      if decide (new_state = Q_TRANSFER_STATE_ABORT)
      then "DOWNLOAD ABORTED: protocol %s\n" else "DOWNLOAD END: protocol %s\n"
    else
      if decide (new_state = Q_TRANSFER_STATE_ABORT)
      then "UPLOAD ABORTED: protocol %s\n" else "UPLOAD END: protocol %s\n"
  end%string.

(** [stop_file_transfer] after the protocol's own stop function ran. *)
Definition finish_file_transfer (new_state : Q_TRANSFER_STATE) : M common unit :=
  stats (fun q => q <| qts_state := new_state |>);;
  modify (fun c => c <| q_screen_dirty := true |>);;
  now ← time;
  stats (fun q => q <| end_time := now |>);;
  modify (fun c => c <| batch_upload_file_list := None |>);;
  modify (fun c => c <| q_download_location := None |>);;
  p ← gets (fun c => qts_protocol (q_transfer_stats c));
  d ← gets q_state_download;
  emit (Ev_log (stop_log_line p d new_state)).

(** [protocol_process_data] hands data to a protocol only while the transfer is
    neither aborted nor ended. *)
Definition transfer_running (c : common) : bool :=
  match qts_state (q_transfer_stats c) with
  | Q_TRANSFER_STATE_ABORT | Q_TRANSFER_STATE_END => false
  | _ => true
  end.

(** The globals as the program starts, over a disk and a clock. *)
Definition initial_stats : q_transfer_stats_struct :=
  {| qts_state := Q_TRANSFER_STATE_INIT; qts_protocol := Q_PROTOCOL_ASCII;
     protocol_name := None; qts_filename := None; pathname := None; last_message := None;
     bytes_total := 0; bytes_transfer := 0; blocks := 0; block_size := 0;
     blocks_transfer := 0; error_count := 0; batch_bytes_total := 0;
     batch_bytes_transfer := 0; batch_start_time := 0; file_start_time := 0; end_time := 0 |}.
Definition initial_common (d : disk) (clk : nat -> Z) : common :=
  {| q_transfer_stats := initial_stats; q_screen_dirty := false; the_disk := d;
     clock := clk; ticks := 0; events := []; batch_upload_file_list := None;
     q_download_location := None; q_state_download := false |}.

(** A disk with the given files on which nothing fails. *)
Definition plain_disk (files : gmap cstring (list Z)) (space : Z) : disk :=
  {| d_files := files; d_unreadable := ∅; d_readonly := ∅; d_nostat := ∅; d_space := space |}.

(** ** ASCII transfer *)

Module Ascii.

Definition C_CR : Z := 0x0D.
Definition C_LF : Z := 0x0A.

Inductive CRLF_POLICY := CRLF_NONE | CRLF_STRIP | CRLF_ADD.

#[global] Instance policy_eq_dec : EqDecision CRLF_POLICY.
Proof. solve_decision. Defined.

(** One turn of the [while] loop: what is appended for an input byte. *)
Definition crlf_byte (cr_policy lf_policy : CRLF_POLICY) (b : Z) : list Z :=
  if b =? C_CR then
    match cr_policy with
    | CRLF_STRIP => []
    | CRLF_ADD => [b; C_LF]
    | CRLF_NONE => [b]
    end
  else if b =? C_LF then
    match lf_policy with
    | CRLF_STRIP => []
    | CRLF_ADD => [C_CR; b]
    | CRLF_NONE => [b]
    end
  else [b].

Fixpoint crlf_loop (cr_policy lf_policy : CRLF_POLICY) (input output : list Z) : list Z :=
  match input with
  | [] => output
  | b :: input => crlf_loop cr_policy lf_policy input (output ++ crlf_byte cr_policy lf_policy b)
  end.

(** [ascii_transfer_crlf_handling]: the output buffer. *)
Definition ascii_transfer_crlf_handling (input : list Z) (cr_policy lf_policy : CRLF_POLICY)
    : list Z :=
  if decide (cr_policy = CRLF_NONE /\ lf_policy = CRLF_NONE) then input
  else crlf_loop cr_policy lf_policy input [].

Lemma crlf_loop_concat cr lf input output :
  crlf_loop cr lf input output = output ++ mjoin (crlf_byte cr lf <$> input).
Proof.
  revert output. induction input as [|b input IH]; intros output; cbn.
  - by rewrite app_nil_r.
  - by rewrite IH, <- app_assoc.
Qed.

Lemma crlf_byte_none b : crlf_byte CRLF_NONE CRLF_NONE b = [b].
Proof. unfold crlf_byte. by repeat destruct (b =? _). Qed.

Lemma crlf_handling_concat input cr lf :
  ascii_transfer_crlf_handling input cr lf = mjoin (crlf_byte cr lf <$> input).
Proof.
  unfold ascii_transfer_crlf_handling. case_decide as H.
  - destruct H as [-> ->]. induction input as [|b input IH]; [done|].
    rewrite fmap_cons. cbn [mjoin list_join]. rewrite crlf_byte_none. cbn. by f_equal.
  - apply crlf_loop_concat.
Qed.
End Ascii.
