(* ===== verification/Xmodem.v ===== *)
(** xmodem.c: the Xmodem and Ymodem sender and receiver.

    The state is the file's static variables and the buffers of the current
    call; each C function is one definition, the long handlers
    [xmodem_receive] and [xmodem_send] one definition per stage, composed by
    the early returns of the code. *)

From Stdlib Require Import ZArith Lia List Bool.
From stdpp Require Import base list numbers gmap strings.
From S2P Require Import Prelude Crc Stdio Protocols.

Module Xmodem.

(** ** State *)

Definition C_SOH : Z := 0x01.
Definition C_STX : Z := 0x02.
Definition C_EOT : Z := 0x04.
Definition C_ACK : Z := 0x06.
Definition C_NAK : Z := 0x15.
Definition C_CAN : Z := 0x18.
Definition C_SUB : Z := 0x1A.
Definition CHAR_C : Z := 67.
Definition CHAR_G : Z := 71.

Definition XMODEM_MAX_BLOCK_SIZE : Z := 1024 + 5.

Inductive XMODEM_FLAVOR := X_NORMAL | X_CRC | X_RELAXED | X_1K | X_1K_G | Y_NORMAL | Y_G.

Inductive STATE :=
| INIT | PURGE_INPUT | FIRST_BLOCK | BLOCK | LAST_BLOCK | EOT_ACK | COMPLETE | ABORT
| YMODEM_BLOCK0 | YMODEM_BLOCK0_ACK1 | YMODEM_BLOCK0_ACK2.

#[global] Instance XMODEM_FLAVOR_eq_dec : EqDecision XMODEM_FLAVOR.
Proof. solve_decision. Defined.
#[global] Instance STATE_eq_dec : EqDecision STATE.
Proof. solve_decision. Defined.

(** [input] and [output] are the buffers of the current call of [xmodem], up to
    [*input_n] and [*output_n]. *)
Record xmodem_state := {
  shared : common;
  filename : option cstring;
  file : option FILE;
  current_block : list Z;
  current_block_n : Z;
  current_block_sequence_i : Z;
  current_block_number : Z;
  first_byte : Z;
  sending : bool;
  state : STATE;
  prior_state : STATE;
  timeout_length : Z;
  timeout_begin : Z;
  timeout_max : Z;
  timeout_count : Z;
  errors_max : Z;
  flavor : XMODEM_FLAVOR;
  upload_file_list : option (list file_info);
  upload_file_list_i : nat;
  download_path : option cstring;
  download_file_modtime : Z;
  block0_has_been_seen : bool;
  input : list Z;
  output : list Z;
  output_max : Z
}.
#[export] Instance eta_xmodem : Eta xmodem_state := fun s =>
  {| shared := shared s; filename := filename s; file := file s;
     current_block := current_block s; current_block_n := current_block_n s;
     current_block_sequence_i := current_block_sequence_i s;
     current_block_number := current_block_number s; first_byte := first_byte s;
     sending := sending s; state := state s; prior_state := prior_state s;
     timeout_length := timeout_length s; timeout_begin := timeout_begin s;
     timeout_max := timeout_max s; timeout_count := timeout_count s;
     errors_max := errors_max s; flavor := flavor s;
     upload_file_list := upload_file_list s; upload_file_list_i := upload_file_list_i s;
     download_path := download_path s; download_file_modtime := download_file_modtime s;
     block0_has_been_seen := block0_has_been_seen s;
     input := input s; output := output s; output_max := output_max s |}.

(** The static variables as the program starts. *)
Definition statics (c : common) : xmodem_state :=
  {| shared := c; filename := None; file := None; current_block := replicate 1029 0;
     current_block_n := 0; current_block_sequence_i := 1; current_block_number := 1;
     first_byte := C_NAK; sending := false; state := INIT; prior_state := INIT;
     timeout_length := 10; timeout_begin := 0; timeout_max := 10; timeout_count := 0;
     errors_max := 15; flavor := X_NORMAL; upload_file_list := None;
     upload_file_list_i := 0; download_path := None; download_file_modtime := 0;
     block0_has_been_seen := false; input := []; output := []; output_max := 0 |}.

Definition X (A : Type) : Type := M xmodem_state A.

(** ** Access *)

Definition lift {A} (m : M common A) : X A :=
  zoom shared (fun c s => s <| shared := c |>) m.
Definition on_stats (f : q_transfer_stats_struct -> q_transfer_stats_struct) : X unit :=
  lift (stats f).
Definition get_stats : X q_transfer_stats_struct := gets (fun s => q_transfer_stats (shared s)).
Definition last_msg (m : message) : X unit := lift (set_transfer_stats_last_message m).
Definition dirty : X unit := lift (modify (fun c => c <| Protocols.q_screen_dirty := true |>)).
Definition notify (f : string) : X unit := lift (emit (Ev_notify f)).
Definition set_disk (d : disk) : X unit := lift (modify (fun c => c <| the_disk := d |>)).
Definition get_disk : X disk := gets (fun s => the_disk (shared s)).

Definition set_state (v : STATE) : X unit := modify (fun s => s <| state := v |>).
Definition set_prior (v : STATE) : X unit := modify (fun s => s <| prior_state := v |>).
Definition set_file (v : option FILE) : X unit := modify (fun s => s <| file := v |>).
Definition set_filename (v : option cstring) : X unit := modify (fun s => s <| filename := v |>).

(** [*input_n = 0] *)
Definition clear_input : X unit := modify (fun s => s <| input := [] |>).
Definition input_n : X Z := gets (fun s => Z.of_nat (length (input s))).
(** [output[0] = ..; *output_n = ..]: the receiver writes from the start. *)
Definition put_output (xs : list Z) : X unit := modify (fun s => s <| output := xs |>).
(** [memcpy(output + *output_n, xs, n); *output_n += n] *)
Definition append_output (xs : list Z) : X unit :=
  o ← gets output; m ← gets output_max;
  if Z.of_nat (length o) + Z.of_nat (length xs) <=? m
  then put_output (o ++ xs) else raise OutOfBounds.

(** [current_block[i]], at an index the array has. *)
Definition cb (s : xmodem_state) (i : nat) : Z := current_block s !!! i.
(** [memcpy(current_block + off, xs, n)] *)
Definition put_block (off : Z) (xs : list Z) : X unit :=
  buf ← gets current_block;
  buf' ← memcpy buf off xs;
  modify (fun s => s <| current_block := buf' |>).
(** The bytes of the block that go out: [current_block[0 .. current_block_n)]. *)
Definition block_bytes (s : xmodem_state) : list Z :=
  take (Z.to_nat (current_block_n s)) (current_block s).

Definition is_ymodem (f : XMODEM_FLAVOR) : bool :=
  match f with Y_NORMAL | Y_G => true | _ => false end.
Definition is_g (f : XMODEM_FLAVOR) : bool :=
  match f with X_1K_G | Y_G => true | _ => false end.
Definition is_1k (f : XMODEM_FLAVOR) : bool :=
  match f with X_1K | X_1K_G | Y_NORMAL | Y_G => true | _ => false end.

(** ** Small functions *)

Definition clear_block : X unit :=
  modify (fun s => s <| current_block := replicate 1029 0 |> <| current_block_n := 0 |>).

Definition reset_timer : X unit :=
  t ← lift time;
  modify (fun s => s <| timeout_begin := t |>).

Definition xmodem_stop (save_partial : bool) : X unit :=
  s ← get;
  (if save_partial || sending s then mret tt
   else match file s with
        | None => mret tt
        | Some _ =>
          name ← nonnull (filename s);
          d ← get_disk;
          if decide (is_Some (d_files d !! name))
          then set_disk (d <| d_files ::= delete name |>)
          else notify "Error deleting file"
        end);;
  set_file None;;
  set_filename None.

Definition ymodem_stop (save_partial : bool) : X unit :=
  xmodem_stop save_partial;;
  modify (fun s => s <| download_path := None |>).

(** protocols.c: [stop_file_transfer].  The stop functions of the other
    protocols touch only the statics of their own files.  The batch upload list
    is freed, so [upload_file_list] dangles. *)
Definition stop_file_transfer (new_state : Q_TRANSFER_STATE) : X unit :=
  q ← get_stats;
  match qts_protocol q with
  | Q_PROTOCOL_XMODEM | Q_PROTOCOL_XMODEM_CRC | Q_PROTOCOL_XMODEM_RELAXED
  | Q_PROTOCOL_XMODEM_1K | Q_PROTOCOL_XMODEM_1K_G => xmodem_stop true
  | Q_PROTOCOL_YMODEM | Q_PROTOCOL_YMODEM_G => ymodem_stop true
  | Q_PROTOCOL_ASCII | Q_PROTOCOL_KERMIT | Q_PROTOCOL_ZMODEM => mret tt
  end;;
  lift (finish_file_transfer new_state);;
  modify (fun s => s <| upload_file_list := None |>).

Definition check_timeout : X bool :=
  now ← lift time;
  s ← get;
  if sending s && (now - timeout_begin s <? 2 * timeout_length s) then mret false
  else if timeout_length s <=? now - timeout_begin s then
    modify (fun s => s <| timeout_count ::= fun z => u32 (z + 1) |>);;
    on_stats (fun q => q <| error_count ::= fun z => u64 (z + 1) |>);;
    s ← get;
    (if timeout_max s <=? timeout_count s then
       last_msg ("TOO MANY TIMEOUTS, TRANSFER CANCELLED"%string, []);;
       whenM (negb (sending s)) (put_output [C_CAN]);;
       stop_file_transfer Q_TRANSFER_STATE_ABORT;;
       set_state ABORT
     else
       last_msg ("TIMEOUT"%string, []);;
       modify (fun s => s <| prior_state := state s |>);;
       set_state PURGE_INPUT);;
    reset_timer;;
    mret true
  else mret false.

(** ** Statistics *)

(** [stats_increment_blocks], on the statistics: [b0] is [input[0]]. *)
Definition count_block (sending : bool) (flavor : XMODEM_FLAVOR) (current_block_n b0 : Z)
    (q : q_transfer_stats_struct) : q_transfer_stats_struct * Z :=
  let grow_total (k : Z) (q : q_transfer_stats_struct) :=
    if negb sending && negb (is_ymodem flavor)
    then q <| bytes_total ::= fun z => u64 (z + k) |> else q in
  let q := if negb sending && negb (is_ymodem flavor)
           then q <| blocks ::= fun z => u64 (z + 1) |> else q in
  let q := q <| blocks_transfer ::= fun z => u64 (z + 1) |> in
  if is_1k flavor && (b0 =? C_STX) && negb sending then
    (grow_total 1024 (q <| bytes_transfer ::= fun z => u64 (z + 1024) |>), 1024)
  else if (1024 <=? current_block_n) && sending then
    (q <| bytes_transfer ::= fun z => u64 (z + 1024) |>, 1024)
  else
    (grow_total 128 (q <| bytes_transfer ::= fun z => u64 (z + 128) |>), 128).

(** The two special checks that follow. *)
Definition recount_blocks (sending : bool) (flavor : XMODEM_FLAVOR)
    (old_block_size new_block_size : Z) (q : q_transfer_stats_struct) : q_transfer_stats_struct :=
  if negb sending && is_ymodem flavor && (bytes_total q <? bytes_transfer q) then
    q <| bytes_transfer := bytes_total q |>
  else if negb (new_block_size =? old_block_size) && (sending || is_ymodem flavor) then
    let bytes_left := i32 (bytes_total q - bytes_transfer q) in
    if 0 <? bytes_left then
      let n := bytes_left / new_block_size +
               (if 0 <? bytes_left mod new_block_size then 1 else 0) in
      q <| blocks := u64 (n + blocks_transfer q) |> <| block_size := new_block_size |>
    else q
  else q.

Definition stats_increment_blocks (b0 : Z) : X unit :=
  s ← get;
  on_stats (fun q =>
    let '(q', new_block_size) := count_block (sending s) (flavor s) (current_block_n s) b0 q in
    recount_blocks (sending s) (flavor s) (i32 (block_size q)) new_block_size q');;
  dirty.

Definition downgrade_to_vanilla_xmodem : X unit :=
  lift (set_transfer_stats_protocol_name "Xmodem");;
  on_stats (fun q => q <| block_size := 128 |>);;
  f ← gets flavor;
  whenM (bool_decide (f = X_1K \/ f = X_1K_G))
    (on_stats (fun q =>
       q <| blocks := u64 (bytes_total q / 128 + (if 0 <? bytes_total q mod 128 then 1 else 0)) |>));;
  modify (fun s => s <| flavor := X_NORMAL |>).

Definition stats_increment_errors (m : message) : X unit :=
  last_msg m;;
  on_stats (fun q => q <| error_count ::= fun z => u64 (z + 1) |>);;
  q ← get_stats;
  emax ← gets errors_max;
  whenM (emax <=? error_count q)
    (last_msg ("TRANSFER_MAX_ERRORS"%string, []);;
     stop_file_transfer Q_TRANSFER_STATE_ABORT;;
     set_state ABORT).

Definition stats_file_complete_ok : X unit :=
  last_msg ("SUCCESS"%string, []);;
  on_stats (fun q => q <| bytes_transfer := bytes_total q |>);;
  set_state COMPLETE;;
  stop_file_transfer Q_TRANSFER_STATE_END;;
  t ← lift time;
  on_stats (fun q => q <| end_time := t |>);;
  s ← gets sending;
  lift (emit (if (s : bool) then Ev_music_upload else Ev_music_download)).

Definition stats_file_cancelled (m : message) : X unit :=
  last_msg m;;
  stop_file_transfer Q_TRANSFER_STATE_ABORT;;
  set_state ABORT.

Definition stats_new_file (name : cstring) (path : option cstring) (filesize nblocks : Z) : X unit :=
  on_stats (fun q => q <| batch_bytes_transfer ::= fun z => u64 (z + bytes_transfer q) |>
                       <| blocks_transfer := 0 |> <| bytes_transfer := 0 |> <| error_count := 0 |>);;
  last_msg (EmptyString, []);;
  lift (set_transfer_stats_filename name);;
  lift (set_transfer_stats_pathname path);;
  f ← gets flavor;
  on_stats (fun q => q <| bytes_total := u64 filesize |> <| blocks := u64 nblocks |>
                       <| block_size := if is_1k f then 1024 else 128 |>
                       <| qts_state := Q_TRANSFER_STATE_TRANSFER |>);;
  t ← lift time;
  on_stats (fun q => q <| file_start_time := t |>);;
  s ← gets sending;
  lift (emit (Ev_log (if (s : bool) then "UPLOAD: sending file %s/%s, %d bytes"
                      else "DOWNLOAD: receiving file %s/%s, %d bytes")%string)).

(** ** Sending a Ymodem batch *)

(** [upload_file_list[upload_file_list_i].name]: the list ends with a null
    name. *)
Definition upload_entry : X (option file_info) :=
  l ← gets upload_file_list;
  l ← nonnull l;
  i ← gets upload_file_list_i;
  if (i <? length l)%nat then mret (l !! i)
  else if (i =? length l)%nat then mret None
  else raise OutOfBounds.

Definition setup_for_next_file : X bool :=
  set_file None;;
  set_filename None;;
  e ← upload_entry;
  match e with
  | None =>
    on_stats (fun q => q <| batch_bytes_transfer ::= fun z => u64 (z + bytes_transfer q) |>);;
    mret true
  | Some e =>
    d ← get_disk;
    match fopen_rb d (fi_name e) with
    | None => mret false
    | Some f =>
      set_file (Some f);;
      reset_timer;;
      set_filename (Some (basename (fi_name e)));;
      let nblocks := st_size e / 1024 + (if 0 <? st_size e mod 1024 then 1 else 0) in
      stats_new_file (basename (fi_name e)) (Some (dirname (fi_name e))) (i32 (st_size e)) (i32 nblocks);;
      mret true
    end
  end.

(** ** Building blocks *)

(** The byte of a CRC or checksum at [current_block + 3 .. + n). *)
Definition data_bytes (s : xmodem_state) (n : nat) : list Z := take n (drop 3 (current_block s)).
Definition checksum_of (l : list Z) : Z := fold_left (fun c b => u8 (c + b)) l 0.

Definition put_crc (n : nat) : X unit :=
  s ← get;
  let crc := calcrc (drop 3 (current_block s)) n in
  put_block (Z.of_nat n + 3) [Z.land (Z.shiftr crc 8) 0xFF; Z.land crc 0xFF];;
  modify (fun s => s <| current_block_n := Z.of_nat n + 5 |>).

(** Appending the bytes of a string to the block being built. *)
Definition push_block (xs : list Z) : X unit :=
  n ← gets current_block_n;
  put_block n xs;;
  modify (fun s => s <| current_block_n ::= Z.add (Z.of_nat (length xs)) |>).
Definition skip_block (k : Z) : X unit := modify (fun s => s <| current_block_n ::= Z.add k |>).

Definition ymodem_construct_block_0 : X unit :=
  f ← gets flavor;
  assertM (is_ymodem f);;
  clear_block;;
  modify (fun s => s <| current_block_n := 3 |>);;
  e ← upload_entry;
  match e with
  | Some e =>
    name ← gets filename;
    name ← nonnull name;
    push_block name;;
    skip_block 1;;
    push_block (print_base 10 (u64 (st_size e)));;
    push_block [32];;
    push_block (print_base 8 (u64 (st_mtime e)));;
    skip_block 1
  | None => mret tt
  end;;
  n ← gets current_block_n;
  (if 128 + 5 - 2 <? n then put_crc 1024;; put_block 0 [C_STX]
   else put_crc 128;; put_block 0 [C_SOH]);;
  i ← gets current_block_sequence_i;
  put_block 1 [i; Z.land (0xFF - i) 0xFF];;
  modify (fun s => s <| current_block_sequence_i ::= fun z => u8 (z + 1) |>).

(** The part of [construct_block] that reads [n] bytes and pads with SUB;
    [None] after a read error, else the number of bytes read. *)
Definition read_data (n : nat) : X (option nat) :=
  s ← get;
  f ← nonnull (file s);
  d ← get_disk;
  let '(data, f) := fread d f n in
  set_file (Some f);;
  put_block 3 data;;
  if f_err f then
    notify "Error reading from file";;
    stats_file_cancelled ("DISK READ ERROR"%string, []);;
    mret None
  else
    whenM (f_eof f) (set_state LAST_BLOCK);;
    put_block (3 + Z.of_nat (length data)) (replicate (n - length data) C_SUB);;
    mret (Some (length data)).

(** Writing the sequence number, the end of [construct_block]. *)
Definition number_block : X bool :=
  i ← gets current_block_sequence_i;
  put_block 1 [i; u8 (0xFF - i)];;
  modify (fun s => s <| current_block_sequence_i ::= fun z => u8 (z + 1) |>
                     <| current_block_number ::= fun z => u32 (z + 1) |>);;
  mret true.

Definition construct_block : X bool :=
  f ← gets flavor;
  if bool_decide (f = X_RELAXED \/ f = X_NORMAL \/ f = X_CRC) then
    rc ← read_data 128;
    match rc with
    | None => mret false
    | Some _ =>
      (if decide (f = X_CRC) then put_crc 128
       else
         s ← get;
         put_block 131 [checksum_of (data_bytes s 128)];;
         modify (fun s => s <| current_block_n := 128 + 4 |>));;
      put_block 0 [C_SOH];;
      number_block
    end
  else
    rc ← read_data 1024;
    match rc with
    | None => mret false
    | Some rc =>
      (if (rc <=? 128)%nat then put_crc 128;; put_block 0 [C_SOH]
       else put_crc 1024;; put_block 0 [C_STX]);;
      number_block
    end.

(** ** Verifying blocks

    The checks of [verify_block], each the message of its failure. *)

Definition verify_size (s : xmodem_state) : option string :=
  let n := current_block_n s in
  let ok := match flavor s with
            | X_RELAXED | X_NORMAL => n =? 128 + 4
            | X_CRC => n =? 128 + 5
            | X_1K | X_1K_G | Y_NORMAL | Y_G => (n =? 1024 + 5) || (n =? 128 + 5)
            end in
  if ok then None else Some "SHORT/LONG BLOCK #%d"%string.

Definition verify_header (s : xmodem_state) : option string :=
  let ch := Z.land (cb s 0) 0xFF in
  let ok := match flavor s with
            | X_RELAXED | X_NORMAL | X_CRC => ch =? C_SOH
            | X_1K | X_1K_G | Y_NORMAL | Y_G => (ch =? C_SOH) || (ch =? C_STX)
            end in
  if ok then None else Some "HEADER ERROR IN BLOCK #%d"%string.

Definition verify_sequence (s : xmodem_state) : option string :=
  if negb (current_block_sequence_i s =? cb s 1) then Some "BAD BLOCK NUMBER IN BLOCK #%d"%string
  else if negb (cb s 1 + cb s 2 =? 0xFF) then Some "COMPLIMENT BYTE BAD IN BLOCK #%d"%string
  else None.

(** The CRC test of the code: an error is reported when both bytes differ. *)
Definition crc_rejected (s : xmodem_state) (n : nat) : bool :=
  let crc := calcrc (drop 3 (current_block s)) n in
  negb (Z.land (Z.shiftr crc 8) 0xFF =? Z.land (cb s (n + 3)) 0xFF) &&
  negb (Z.land crc 0xFF =? Z.land (cb s (n + 4)) 0xFF).

Definition verify_check (s : xmodem_state) : option string :=
  match flavor s with
  | X_NORMAL | X_RELAXED =>
    if negb (checksum_of (data_bytes s 128) =? Z.land (cb s 131) 0xFF)
    then Some "CHECKSUM ERROR IN BLOCK #%d"%string else None
  | X_CRC =>
    if crc_rejected s 128 then Some "CRC ERROR IN BLOCK #%d"%string else None
  | X_1K | X_1K_G | Y_NORMAL | Y_G =>
    if crc_rejected s (if cb s 0 =? C_SOH then 128 else 1024)
    then Some "CRC ERROR IN BLOCK #%d"%string else None
  end.

Definition verify_duplicate (s : xmodem_state) : option string :=
  if Z.land (cb s 1) 0xFF =? current_block_sequence_i s - 1
  then Some "DUPLICATE BLOCK #%d"%string else None.

Fixpoint first_failure (l : list (option string)) : option string :=
  match l with
  | [] => None
  | Some m :: _ => Some m
  | None :: l => first_failure l
  end.

Definition block_failure (s : xmodem_state) : option string :=
  first_failure [verify_size s; verify_header s; verify_sequence s; verify_check s;
                 verify_duplicate s].

Definition fail_block (m : string) : X bool :=
  n ← gets current_block_number;
  stats_increment_errors (m, [n]);;
  mret false.

(** The tail of [verify_block]: append the data to the file. *)
Definition save_block : X bool :=
  s ← get;
  let n := if cb s 0 =? C_SOH then 128%nat else 1024%nat in
  f ← nonnull (file s);
  d ← get_disk;
  let '(rc, d, f) := fwrite d f (data_bytes s n) in
  set_disk d;;
  set_file (Some f);;
  if negb (rc =? Z.of_nat n) then
    stats_increment_errors ("FILE WRITE ERROR, IS DISK FULL?"%string, []);;
    mret false
  else
    modify (fun s => s <| current_block_sequence_i ::= fun z => u8 (z + 1) |>
                       <| current_block_number ::= fun z => u32 (z + 1) |>);;
    mret true.

Definition verify_block : X bool :=
  s ← get;
  match block_failure s with
  | Some m => fail_block m
  | None => save_block
  end.

(** ** Ymodem block 0 *)

(** The checks of [ymodem_decode_block_0]; the high byte of the CRC of a short
    block is compared unmasked, which is the same on a byte. *)
Definition block_0_failure (s : xmodem_state) : option string :=
  let n := current_block_n s in
  first_failure
    [ (if (n =? 1024 + 5) || (n =? 128 + 5) then None else Some "SHORT/LONG BLOCK #%d"%string);
      (if (cb s 0 =? C_SOH) || (cb s 0 =? C_STX) then None
       else Some "HEADER ERROR IN BLOCK #%d"%string);
      verify_sequence s;
      (if crc_rejected s (if cb s 0 =? C_SOH then 128 else 1024)
       then Some "CRC ERROR IN BLOCK #%d"%string else None) ].

(** The loops that copy a field: at least one byte, up to a stop byte or
    [fuel] bytes.  The result is the field and the index of the stop byte. *)
Fixpoint read_field (fuel : nat) (stop : Z -> bool) (n : Z) : X (list Z * Z) :=
  match fuel with
  | O => mret ([], n)
  | S fuel =>
    buf ← gets current_block;
    c ← load buf n;
    c' ← load buf (n + 1);
    if (stop c' : bool) then mret ([c], n + 1)
    else
      r ← read_field fuel stop (n + 1);
      mret (c :: (fst r : list Z), snd r : Z)
  end.

(** [sprintf(full_filename, "%s/%s", download_path, filename)] into a buffer of
    [FILENAME_SIZE] bytes. *)
Definition full_filename (path name : cstring) : X cstring :=
  let full := path ++ [SLASH] ++ name in
  if (Z.of_nat (length full) <? FILENAME_SIZE) then mret full else raise OutOfBounds.

Definition stop_null (c : Z) : bool := c =? 0.
Definition stop_null_space (c : Z) : bool := (c =? 0) || (c =? 32).

Definition ymodem_decode_block_0 : X bool :=
  f ← gets flavor;
  assertM (is_ymodem f);;
  s ← get;
  match block_0_failure s with
  | Some m => fail_block m
  | None =>
    name ← read_field (Z.to_nat FILENAME_SIZE - 1) stop_null 3;
    let name_str := c_str (fst name) in
    modify (fun s => s <| current_block_n := snd name + 1 |> <| filename := Some name_str |>);;
    if (length name_str =? 0)%nat then mret true
    else
      path ← gets download_path;
      path ← nonnull path;
      full ← full_filename path name_str;
      d ← get_disk;
      match fopen_wb d full with
      | None =>
        set_file None;;
        stats_increment_errors ("FILE OPEN ERROR"%string, []);;
        mret false
      | Some (d, f) =>
        set_disk d;;
        set_file (Some f);;
        n ← gets current_block_n;
        len ← read_field (Z.to_nat FILENAME_SIZE - 1) stop_null_space n;
        put_block (snd len) [32];;
        let length := i32 (atol (c_str (fst len))) in
        let nblocks := Z.quot length 1024 + (if 0 <? Z.rem length 1024 then 1 else 0) in
        mtime ← read_field (Z.to_nat FILENAME_SIZE - 1) stop_null_space (snd len + 1);
        modify (fun s => s <| current_block_n := snd mtime |>
                           <| download_file_modtime ::= scan_octal (c_str (fst mtime)) |>);;
        p ← gets (fun s => pathname (q_transfer_stats (shared s)));
        stats_new_file name_str p length nblocks;;
        modify (fun s => s <| current_block_sequence_i ::= fun z => u8 (z + 1) |>);;
        mret true
      end
  end.

(** ** Receiving *)

Definition receive_init : X unit :=
  b ← gets first_byte;
  put_output [b];;
  f ← gets flavor;
  set_state (if bool_decide (f = X_NORMAL \/ f = X_RELAXED \/ f = Y_NORMAL \/ f = Y_G)
             then BLOCK else FIRST_BLOCK);;
  reset_timer;;
  clear_input.

(** The [FIRST_BLOCK] stage; [true] when the handler goes on to [BLOCK]. *)
Definition receive_first_block : X bool :=
  n ← input_n;
  if n =? 0 then
    now ← lift time;
    t ← gets timeout_begin;
    whenM (3 <? now - t)
      (modify (fun s => s <| timeout_count ::= fun z => u32 (z + 1) |>);;
       c ← gets timeout_count;
       (if 5 <=? c then
          stats_increment_errors ("FALLBACK TO NORMAL XMODEM"%string, []);;
          put_output [C_NAK];;
          set_prior BLOCK;;
          set_state PURGE_INPUT;;
          downgrade_to_vanilla_xmodem
        else stats_increment_errors ("TIMEOUT"%string, []));;
       reset_timer;;
       b ← gets first_byte;
       put_output [b]);;
    mret false
  else
    set_state BLOCK;;
    mret true.

(** No data yet in the [BLOCK] stage. *)
Definition receive_block_idle : X unit :=
  t ← check_timeout;
  st ← gets state;
  whenM (t && negb (bool_decide (st = ABORT)))
    (b ← gets first_byte;
     put_output [b];;
     n ← gets current_block_number;
     last_msg ("SENDING NAK #%d"%string, [n]);;
     whenM (n =? 1) (p ← gets prior_state; set_state p)).

(** One turn of the loop that removes the trailing SUBs; [last] is [last_byte],
    unset before the first read.  The result is the new [last_byte] and whether
    the loop goes on. *)
Definition eot_turn (last : option Z) : X (option Z * bool) :=
  f ← gets file;
  f ← nonnull f;
  d ← get_disk;
  let filesize := i32 (ftell f) in
  let '(rc, f) := fseek_end d f (-1) in
  whenM (negb (rc =? 0)) (notify "Error seeking in file");;
  let '(data, f) := fread d f 1 in
  let last := match data with b :: _ => Some b | [] => last end in
  whenM (bool_decide (data = [])) (notify "Error reading from file");;
  set_file (Some f);;
  match last with
  | None => raise Indeterminate
  | Some b =>
    if b =? C_SUB then
      let '(rc, d) := ftruncate d f (filesize - 1) in
      set_disk d;;
      whenM (negb (rc =? 0)) (notify "Error truncating file");;
      on_stats (fun q => q <| bytes_transfer ::= fun z => u64 (z - 1) |>
                           <| bytes_total ::= fun z => u64 (z - 1) |>);;
      mret (last, true)
    else
      put_output [C_ACK];;
      stats_file_complete_ok;;
      mret (last, false)
  end.

Fixpoint eot_trim (fuel : nat) (last : option Z) : X unit :=
  match fuel with
  | O => diverge
  | S fuel =>
    r ← eot_turn last;
    if snd r : bool then eot_trim fuel (fst r) else mret tt
  end.

(** Two turns remove one byte, and one turn ends the loop. *)
Definition eot_fuel (s : xmodem_state) : nat :=
  match file s with
  | Some f => 2 * length (f_data (the_disk (shared s)) f) + 2
  | None => 1
  end.

Definition receive_eot_ymodem : X unit :=
  f ← gets file;
  f ← nonnull f;
  d ← get_disk;
  q ← get_stats;
  set_disk (snd (ftruncate d f (bytes_total q)));;
  set_file None;;
  path ← gets download_path;
  path ← nonnull path;
  name ← gets filename;
  name ← nonnull name;
  full ← full_filename path name;
  t ← gets download_file_modtime;
  lift (emit (Ev_utime full t));;
  last_msg ("EOF"%string, []);;
  on_stats (fun q => q <| qts_state := Q_TRANSFER_STATE_FILE_DONE |>);;
  b ← gets first_byte;
  put_output [C_ACK; b];;
  modify (fun s => s <| block0_has_been_seen := false |>
                     <| current_block_sequence_i := 0 |> <| current_block_number := 1 |>).

(** The label [eot]. *)
Definition receive_eot : X unit :=
  clear_block;;
  s ← get;
  (if is_ymodem (flavor s) then receive_eot_ymodem else eot_trim (eot_fuel s) None);;
  clear_input.

(** Throw the block away and ask for it again. *)
Definition purge_block : X unit :=
  clear_block;; set_prior BLOCK;; set_state PURGE_INPUT;; clear_input.

Definition receive_block0 : X unit :=
  s ← get;
  let b0 := cb s 0 in
  if ((b0 =? C_STX) && (XMODEM_MAX_BLOCK_SIZE <=? current_block_n s)) ||
     ((b0 =? C_SOH) && (128 + 5 <=? current_block_n s))
  then
    ok ← ymodem_decode_block_0;
    if ok : bool then
      b ← gets first_byte;
      put_output [C_ACK; b];;
      modify (fun s => s <| block0_has_been_seen := true |>);;
      clear_block;;
      name ← gets filename;
      name ← nonnull name;
      whenM (length name =? 0)%nat (put_output [C_ACK];; stats_file_complete_ok);;
      clear_input
    else purge_block
  else clear_input.

(** [true] when more data is needed before the block can be verified. *)
Definition block_incomplete (s : xmodem_state) : bool :=
  let n := current_block_n s in
  match flavor s with
  | Y_NORMAL | Y_G | X_1K | X_1K_G =>
    ((cb s 0 =? C_STX) && (n <? XMODEM_MAX_BLOCK_SIZE)) || (n <? 128 + 5)
  | X_CRC => n <? 128 + 5
  | X_NORMAL | X_RELAXED => n <? 128 + 4
  end.

Definition receive_data : X unit :=
  s ← get;
  if block_incomplete s then clear_input
  else
    ok ← verify_block;
    if ok : bool then
      put_output [C_ACK];;
      s ← get;
      stats_increment_blocks (cb s 0);;
      clear_block;;
      clear_input
    else
      st ← gets state;
      if decide (st = ABORT) then clear_input else purge_block.

(** The Xmodem-1K/G and Ymodem/G path. *)
Definition receive_block_g : X unit :=
  s ← get;
  let n := if cb s 0 =? C_SOH then 128 + 5 else 1024 + 5 in
  if n <=? current_block_n s then raise AssertFailed
  else if Z.of_nat (length (input s)) + current_block_n s <? n then
    put_block (current_block_n s) (input s);;
    modify (fun s => s <| current_block_n ::= Z.add (Z.of_nat (length (input s))) |>);;
    clear_input;;
    s ← get;
    if (current_block_n s =? 1) && (cb s 0 =? C_EOT) then receive_eot else mret tt
  else
    let k := Z.to_nat (n - current_block_n s) in
    put_block (current_block_n s) (take k (input s));;
    modify (fun s => s <| input ::= drop k |> <| current_block_n := n |>);;
    ok ← verify_block;
    if ok : bool then
      s ← get;
      stats_increment_blocks (cb s 0);;
      clear_block
    else
      clear_block;;
      stats_file_cancelled ("Xmodem 1K/G error"%string, []);;
      clear_input.

Definition receive_block : X unit :=
  s ← get;
  let n := Z.of_nat (length (input s)) in
  if n =? 0 then receive_block_idle
  else
    reset_timer;;
    if (XMODEM_MAX_BLOCK_SIZE <? current_block_n s + n) && negb (is_g (flavor s)) then
      set_prior BLOCK;; set_state PURGE_INPUT;; clear_input
    else if is_g (flavor s) &&
            negb ((current_block_sequence_i s =? 0) && (current_block_number s =? 1)) then
      receive_block_g
    else if Z.of_nat (length (current_block s)) <? current_block_n s + n then purge_block
    else
      put_block (current_block_n s) (input s);;
      modify (fun s => s <| current_block_n ::= Z.add n |>);;
      s ← get;
      if (current_block_n s =? 1) && (cb s 0 =? C_EOT) then receive_eot
      else if is_ymodem (flavor s) && (current_block_sequence_i s =? 0) &&
              (current_block_number s =? 1) && negb (block0_has_been_seen s) then
        receive_block0
      else receive_data.

Definition receive_purge : X unit :=
  n ← input_n;
  whenM (n =? 0)
    (put_output [C_NAK];;
     p ← gets prior_state;
     set_state p;;
     b ← gets current_block_number;
     last_msg ("SENDING NAK #%d"%string, [b]));;
  clear_input.

Definition xmodem_receive : X unit :=
  st ← gets state;
  if decide (st = INIT) then receive_init
  else
    go ← (if decide (st = FIRST_BLOCK) then receive_first_block else mret true);
    if go : bool then
      st ← gets state;
      if decide (st = BLOCK) then receive_block
      else if decide (st = PURGE_INPUT) then receive_purge
      else clear_input
    else mret tt.

(** ** Sending

    Each stage returns [true] when the handler returned in it, [false] when
    control falls through to the next one. *)

Definition input0 (s : xmodem_state) : Z := nth 0 (input s) 0.
Definition input1 (s : xmodem_state) : Z := nth 1 (input s) 0.
(** [input[0] = C_ACK] *)
Definition fake_ack : X unit :=
  modify (fun s => s <| input ::= fun l => C_ACK :: drop 1 l |>).
Definition returns (m : X unit) : X bool := m;; mret true.

Definition stage (st : STATE) (m : X bool) : X bool :=
  now ← gets state;
  if decide (now = st) then m else mret false.
Definition then_stage (m1 m2 : X bool) : X bool :=
  r ← m1; if r : bool then mret true else m2.

Definition send_check_cancel : X bool :=
  s ← get;
  if (0 <? Z.of_nat (length (input s))) && (input0 s =? C_CAN) then
    returns (stats_file_cancelled ("TRANSFER CANCELLED BY RECEIVER"%string, []);; clear_input)
  else mret false.

Definition send_init : X bool :=
  last_msg ("WAITING FOR NAK"%string, []);;
  s ← get;
  if Z.of_nat (length (input s)) =? 0 then returns (check_timeout;; mret tt)
  else
    match flavor s with
    | X_RELAXED | X_NORMAL =>
      if input0 s =? first_byte s then
        set_state BLOCK;; last_msg (EmptyString, []);; fake_ack;; mret false
      else returns clear_input
    | X_CRC | X_1K | X_1K_G =>
      if input0 s =? first_byte s then
        set_state BLOCK;; last_msg (EmptyString, []);; fake_ack;; mret false
      else if input0 s =? C_NAK then
        last_msg (EmptyString, []);; downgrade_to_vanilla_xmodem;; fake_ack;;
        set_state BLOCK;; mret false
      else returns clear_input
    | Y_NORMAL | Y_G =>
      whenM (input0 s =? first_byte s) (set_state YMODEM_BLOCK0);;
      mret false
    end.

Definition send_block0 : X bool :=
  returns (
    ymodem_construct_block_0;;
    s ← get;
    assertM (bool_decide (output s = []));;
    append_output (block_bytes s);;
    whenM (bool_decide (filename s <> None)) (last_msg ("SENDING HEADER"%string, []));;
    set_state YMODEM_BLOCK0_ACK1;;
    reset_timer;;
    clear_input).

(** The first acknowledgement of block 0 came in. *)
Definition send_ack1_received : X unit :=
  s ← get;
  if decide (flavor s = Y_NORMAL) then
    set_state YMODEM_BLOCK0_ACK2;;
    whenM ((Z.of_nat (length (input s)) =? 2) && (input1 s =? first_byte s))
      (set_state BLOCK;; modify (fun s => s <| input := [C_ACK] |>))
  else set_state BLOCK;; clear_input.

Definition send_ack1 : X bool :=
  s ← get;
  let n := Z.of_nat (length (input s)) in
  if bool_decide (flavor s = Y_G) && bool_decide (filename s = None) then
    returns (stats_file_complete_ok;; clear_input)
  else if n =? 0 then returns (check_timeout;; mret tt)
  else
    let acked := ((1 <=? n) && ((input0 s =? C_ACK) && bool_decide (flavor s = Y_NORMAL))) ||
                 ((input0 s =? CHAR_G) && bool_decide (flavor s = Y_G)) in
    if acked && bool_decide (filename s = None) then
      returns (stats_file_complete_ok;; clear_input)
    else
      whenM acked send_ack1_received;;
      s ← get;
      if (Z.of_nat (length (input s)) =? 1) && (input0 s =? C_NAK) then
        returns (set_state YMODEM_BLOCK0;;
                 modify (fun s => s <| current_block_sequence_i := 0 |>);;
                 clear_input)
      else last_msg (EmptyString, []);; mret false.

Definition send_ack2 : X bool :=
  s ← get;
  let n := Z.of_nat (length (input s)) in
  if n =? 0 then returns (check_timeout;; mret tt)
  else
    whenM ((n =? 1) && (input0 s =? first_byte s)) (set_state BLOCK;; fake_ack);;
    last_msg (EmptyString, []);;
    mret false.

(** The previous block was acknowledged, or the flavor needs no
    acknowledgement. *)
Definition send_next_block : X unit :=
  reset_timer;;
  clear_block;;
  ok ← construct_block;
  if ok : bool then
    s ← get;
    whenM (negb (is_g (flavor s))) (assertM (bool_decide (output s = [])));;
    append_output (block_bytes s);;
    (if decide (state s = LAST_BLOCK) then
       on_stats (fun q => q <| bytes_transfer := bytes_total q |>);; dirty
     else stats_increment_blocks (input0 s));;
    clear_input
  else clear_input.

Definition send_block : X bool :=
  s ← get;
  let n := Z.of_nat (length (input s)) in
  if ((n =? 1) && (input0 s =? C_ACK)) || is_g (flavor s) then returns send_next_block
  else if (n =? 1) && (input0 s =? C_NAK) then
    returns (set_prior BLOCK;; set_state PURGE_INPUT;;
             stats_increment_errors ("NAK"%string, []);; clear_input)
  else if n =? 0 then
    returns (t ← check_timeout; whenM t (set_prior BLOCK;; set_state PURGE_INPUT))
  else
    returns (set_prior BLOCK;; set_state PURGE_INPUT;;
             stats_increment_errors ("LINE NOISE, !@#&*%U"%string, []);; clear_input).

Definition send_purge : X bool :=
  returns (
    reset_timer;;
    s ← get;
    whenM (Z.of_nat (length (input s)) =? 0)
      (whenM (bool_decide (prior_state s = BLOCK \/ prior_state s = LAST_BLOCK))
         (assertM (bool_decide (output s = []));; append_output (block_bytes s));;
       set_state (prior_state s));;
    clear_input).

Definition send_last_block : X bool :=
  s ← get;
  let n := Z.of_nat (length (input s)) in
  if ((n =? 1) && (input0 s =? C_ACK)) || is_g (flavor s) then
    returns (
      append_output [C_EOT];;
      set_state EOT_ACK;;
      last_msg ("SENDING EOT"%string, []);;
      on_stats (fun q => q <| blocks_transfer ::= fun z => u64 (z + 1) |>
                           <| bytes_transfer := bytes_total q |>);;
      dirty;;
      reset_timer;;
      clear_input)
  else if (n =? 1) && (input0 s =? C_NAK) then
    returns (set_prior LAST_BLOCK;; set_state PURGE_INPUT;;
             stats_increment_errors ("NAK"%string, []);; clear_input)
  else if n =? 0 then returns (check_timeout;; mret tt)
  else
    returns (set_prior LAST_BLOCK;; set_state PURGE_INPUT;;
             stats_increment_errors ("LINE NOISE, !@#&*%U"%string, [])).

(** Ymodem: the first file is done, get ready for the next one. *)
Definition send_next_file : X unit :=
  last_msg ("EOF"%string, []);;
  on_stats (fun q => q <| bytes_transfer := bytes_total q |>);;
  modify (fun s => s <| upload_file_list_i ::= S |>);;
  setup_for_next_file;;
  modify (fun s => s <| current_block_sequence_i := 0 |> <| current_block_number := 1 |>
                     <| timeout_count := 0 |>);;
  clear_block;;
  set_state INIT;;
  reset_timer;;
  n ← input_n;
  whenM (1 <? n) (modify (fun s => s <| input ::= drop 1 |>)).

Definition send_eot_ack : X bool :=
  s ← get;
  let n := Z.of_nat (length (input s)) in
  if n =? 0 then
    returns (t ← check_timeout; whenM t (append_output [C_EOT]))
  else if input0 s =? C_ACK then
    f ← nonnull (file s);
    set_file None;;
    if is_ymodem (flavor s) then returns send_next_file
    else stats_file_complete_ok;; mret false
  else mret false.

Definition xmodem_send : X unit :=
  r ← then_stage send_check_cancel
     (then_stage (stage INIT send_init)
     (then_stage (stage YMODEM_BLOCK0 send_block0)
     (then_stage (stage YMODEM_BLOCK0_ACK1 send_ack1)
     (then_stage (stage YMODEM_BLOCK0_ACK2 send_ack2)
     (then_stage (stage BLOCK send_block)
     (then_stage (stage PURGE_INPUT send_purge)
     (then_stage (stage LAST_BLOCK send_last_block)
                 (stage EOT_ACK send_eot_ack))))))));
  if r : bool then mret tt else clear_input.

(** ** Entry points *)

(** [do { handler } while (n > 0)] *)
Fixpoint handler_loop (fuel : nat) (handler : X unit) : X unit :=
  match fuel with
  | O => diverge
  | S fuel =>
    handler;;
    n ← input_n;
    if 0 <? n then handler_loop fuel handler else mret tt
  end.

(** Every turn but the last consumes a byte or leaves a state for good. *)
Definition loop_fuel (input : list Z) : nat := length input + 3.

(** [xmodem(input, input_n, remaining, output, output_n, output_max)]: the
    buffers are set in the state; the result tells whether [*remaining] was set
    to zero, that is, whether the input was consumed. *)
Definition xmodem (inp out : list Z) (out_max : Z) : X bool :=
  assertM (XMODEM_MAX_BLOCK_SIZE <? out_max);;
  modify (fun s => s <| input := inp |> <| output := out |> <| output_max := out_max |>);;
  s ← get;
  if decide (state s = ABORT) then mret false
  else if negb (sending s) then
    handler_loop (loop_fuel inp) xmodem_receive;; mret true
  else if out_max - Z.of_nat (length out) <? XMODEM_MAX_BLOCK_SIZE then mret false
  else handler_loop (loop_fuel inp) xmodem_send;; mret true.

Definition start_blocks (unit_size size : Z) : Z :=
  let b := size / unit_size in
  if 0 <? b mod unit_size then u64 (b + 1) else b.

(** The statistics and first byte of [xmodem_start]. *)
Definition start_statistics (size : Z) : X unit :=
  f ← gets flavor;
  match f with
  | X_RELAXED | X_NORMAL | X_CRC =>
    on_stats (fun q => q <| bytes_total := size |> <| blocks := start_blocks 128 size |>)
  | X_1K | X_1K_G =>
    on_stats (fun q => q <| bytes_total := size |> <| blocks := start_blocks 1024 size |>)
  | Y_NORMAL | Y_G => raise Aborted
  end.

Definition start_first_byte : X unit :=
  f ← gets flavor;
  on_stats (fun q => q <| block_size := if bool_decide (f = X_1K \/ f = X_1K_G) then 1024 else 128 |>);;
  match f with
  | X_RELAXED => modify (fun s => s <| timeout_max ::= fun z => u32 (z * 10) |> <| first_byte := C_NAK |>)
  | X_NORMAL => modify (fun s => s <| first_byte := C_NAK |>)
  | X_CRC | X_1K => modify (fun s => s <| first_byte := CHAR_C |>)
  | X_1K_G => modify (fun s => s <| first_byte := CHAR_G |>)
  | Y_NORMAL | Y_G => raise Aborted
  end;;
  last_msg (EmptyString, []).

(** Opening the file, after stat() for an upload; [false] when [xmodem_start]
    returns. *)
Definition start_open (in_filename : cstring) (send : bool) : X bool :=
  d ← get_disk;
  if send then
    match stat d in_filename with
    | Stat_ok _ =>
      let f := fopen_rb d in_filename in
      set_file f;;
      if f then reset_timer;; mret true else mret false
    | Stat_enoent | Stat_error => mret false
    end
  else
    match fopen_wb d in_filename with
    | None => set_file None;; mret false
    | Some (d, f) => set_disk d;; set_file (Some f);; mret true
    end.

(** The size once more for the statistics of an upload; [false] when
    [xmodem_start] returns. *)
Definition start_size (name : cstring) (send : bool) : X bool :=
  if send then
    d ← get_disk;
    match stat d name with
    | Stat_ok size => start_statistics size;; mret true
    | Stat_enoent | Stat_error => notify "Error stat()'ing file";; mret false
    end
  else mret true.

Definition xmodem_start (in_filename : cstring) (send : bool) (in_flavor : XMODEM_FLAVOR) : X bool :=
  set_state ABORT;;
  opened ← start_open in_filename send;
  if negb opened then mret false
  else
    set_filename (Some in_filename);;
    modify (fun s => s <| sending := send |> <| flavor := in_flavor |>);;
    set_state INIT;;
    modify (fun s => s <| current_block_sequence_i := 1 |> <| current_block_number := 1 |>
                       <| timeout_count := 0 |> <| timeout_max := 10 |>);;
    clear_block;;
    sized ← start_size in_filename send;
    if negb sized then mret false
    else start_first_byte;; mret true.

Definition ymodem_start (file_list : option (list file_info)) (path : cstring) (send : bool)
    (in_flavor : XMODEM_FLAVOR) : X bool :=
  set_state ABORT;;
  modify (fun s => s <| upload_file_list := file_list |> <| upload_file_list_i := 0%nat |>);;
  ok ← (if send then setup_for_next_file
        else
          modify (fun s => s <| download_path := Some path |>);;
          lift (set_transfer_stats_filename []);;
          lift (set_transfer_stats_pathname (Some path));;
          mret true);
  if ok : bool then
    modify (fun s => s <| sending := send |> <| flavor := in_flavor |>);;
    set_state INIT;;
    modify (fun s => s <| current_block_sequence_i := 0 |> <| current_block_number := 1 |>
                       <| block0_has_been_seen := false |> <| timeout_count := 0 |>
                       <| timeout_max := 10 |>);;
    clear_block;;
    on_stats (fun q => q <| block_size := 1024 |>);;
    modify (fun s => s <| first_byte := if decide (in_flavor = Y_NORMAL) then CHAR_C else CHAR_G |>);;
    last_msg (EmptyString, []);;
    mret true
  else mret false.

End Xmodem.
