(* ===== verification/XmodemBlock.v ===== *)
(** Blocks of Xmodem: what [construct_block] puts on the wire and what
    [verify_block] accepts. *)

From Stdlib Require Import ZArith Lia List Bool.
From stdpp Require Import base list numbers gmap strings.
From S2P Require Import Prelude Crc Stdio Protocols Xmodem.
Import Xmodem.

(** ** Symbolic execution of the Xmodem monad *)

(** Projections of updated records, computed without unfolding anything else. *)
Declare Reduction xproj := cbn beta iota zeta delta
    [field_update eta eta_xmodem eta_common eta_stats eta_disk eta_FILE
     shared filename file current_block current_block_n current_block_sequence_i
     current_block_number first_byte sending state prior_state timeout_length
     timeout_begin timeout_max timeout_count errors_max flavor upload_file_list
     upload_file_list_i download_path download_file_modtime block0_has_been_seen
     input output output_max
     q_transfer_stats q_screen_dirty the_disk clock ticks events
     batch_upload_file_list q_download_location q_state_download
     qts_state qts_protocol protocol_name qts_filename pathname last_message
     bytes_total bytes_transfer blocks block_size blocks_transfer error_count
     batch_bytes_total batch_bytes_transfer batch_start_time file_start_time end_time
     d_files d_unreadable d_readonly d_nostat d_space f_name f_pos f_eof f_err].
Ltac xsimpl := lazymatch goal with |- ?g => let g' := eval xproj in g in change g' end.
Ltac xsimpl_in H :=
  let t := type of H in let t' := eval xproj in t in change t' in H.
Ltac xsimpl_hyps := repeat match goal with H : ?t |- _ => progress xsimpl_in H end.

(** Two shared states that differ only in statistics, timers and events. *)
Record same_env (c c' : common) : Prop := {
  se_disk : the_disk c' = the_disk c;
  se_clock : clock c' = clock c;
  se_protocol : qts_protocol (q_transfer_stats c') = qts_protocol (q_transfer_stats c);
  se_state : qts_state (q_transfer_stats c') = qts_state (q_transfer_stats c)
}.

#[global] Instance same_env_preorder : PreOrder same_env.
Proof.
  split.
  - by intros c.
  - intros c1 c2 c3 [] []. split; congruence.
Qed.

Lemma wp_lift {A} (m : M common A) s (Q : A -> xmodem_state -> Prop) :
  wp m (shared s) (fun a c => Q a (s <| shared := c |>)) -> wp (lift m) s Q.
Proof. unfold wp, lift, zoom. by destruct (m (shared s)) as [[]| |]. Qed.

(** The statistics that decide who handles the data. *)
Definition same_phase (q q' : q_transfer_stats_struct) : Prop :=
  qts_protocol q' = qts_protocol q /\ qts_state q' = qts_state q.

(** A lifted computation that leaves the environment alone. *)
Definition quiet {A} (m : M common A) : Prop :=
  forall c, wp m c (fun _ c' => same_env c c').

Lemma wp_quiet {A} (m : M common A) s (Q : A -> xmodem_state -> Prop) :
  quiet m ->
  (forall a c, same_env (shared s) c -> Q a (s <| shared := c |>)) ->
  wp (lift m) s Q.
Proof.
  intros Hm HQ. apply wp_lift. eapply wp_mono; [apply Hm|]. intros a c Hc. by apply HQ.
Qed.

Lemma quiet_time : quiet time.
Proof. by intros c. Qed.
Lemma quiet_last_message m : quiet (set_transfer_stats_last_message m).
Proof. by intros c. Qed.
Lemma quiet_emit e : quiet (emit e).
Proof. by intros c. Qed.
Lemma quiet_dirty : quiet (modify (fun c => c <| q_screen_dirty := true |>)).
Proof. by intros c. Qed.
Lemma quiet_stats f : (forall q, same_phase q (f q)) -> quiet (stats f).
Proof. intros Hf c. destruct (Hf (q_transfer_stats c)). by split; cbn. Qed.

Create HintDb quiet.
#[export] Hint Resolve quiet_time quiet_last_message quiet_emit quiet_dirty quiet_stats : quiet.

Lemma wp_on_stats f s (Q : unit -> xmodem_state -> Prop) :
  (forall q, same_phase q (f q)) ->
  (forall c, same_env (shared s) c -> Q tt (s <| shared := c |>)) -> wp (on_stats f) s Q.
Proof. intros Hf HQ. apply wp_quiet; [by apply quiet_stats|]. intros []. apply HQ. Qed.

Lemma wp_last_msg m s (Q : unit -> xmodem_state -> Prop) :
  (forall c, same_env (shared s) c -> Q tt (s <| shared := c |>)) -> wp (last_msg m) s Q.
Proof. intros HQ. apply wp_quiet; [apply quiet_last_message|]. intros []. apply HQ. Qed.

Lemma wp_dirty s (Q : unit -> xmodem_state -> Prop) :
  (forall c, same_env (shared s) c -> Q tt (s <| shared := c |>)) -> wp dirty s Q.
Proof. intros HQ. apply wp_quiet; [apply quiet_dirty|]. intros []. apply HQ. Qed.

Lemma wp_notify m s (Q : unit -> xmodem_state -> Prop) :
  (forall c, same_env (shared s) c -> Q tt (s <| shared := c |>)) -> wp (notify m) s Q.
Proof. intros HQ. apply wp_quiet; [apply quiet_emit|]. intros []. apply HQ. Qed.

Lemma wp_reset_timer s (Q : unit -> xmodem_state -> Prop) :
  (forall c t, same_env (shared s) c -> Q tt (s <| shared := c |> <| timeout_begin := t |>)) ->
  wp reset_timer s Q.
Proof.
  intros HQ. unfold reset_timer. apply wp_bind, wp_quiet; [apply quiet_time|].
  intros t c Hc. apply wp_modify. by apply HQ.
Qed.

Lemma count_block_phase a b c d q : same_phase q (count_block a b c d q).1.
Proof.
  unfold count_block. by destruct a, (is_ymodem b), (is_1k b), (d =? C_STX), (1024 <=? c).
Qed.

Lemma recount_phase a b c d q : same_phase q (recount_blocks a b c d q).
Proof. unfold recount_blocks. cbv zeta. by repeat case_match. Qed.

Lemma wp_stats_increment_blocks b0 s (Q : unit -> xmodem_state -> Prop) :
  (forall c, same_env (shared s) c -> Q tt (s <| shared := c |>)) ->
  wp (stats_increment_blocks b0) s Q.
Proof.
  intros HQ. unfold stats_increment_blocks. apply wp_bind, wp_get, wp_bind, wp_on_stats.
  - intros q. destruct (count_block _ _ _ _ _) as [q' n] eqn:E.
    pose proof (count_block_phase (sending s) (flavor s) (current_block_n s) b0 q) as [H1 H2].
    rewrite E in H1, H2. cbn [fst] in H1, H2.
    destruct (recount_phase (sending s) (flavor s) (i32 (block_size q)) n q') as [H3 H4].
    split; congruence.
  - intros c Hc. apply wp_dirty. intros c' Hc'. xsimpl. apply HQ. xsimpl.
    etrans; [exact Hc|]. exact Hc'.
Qed.

Lemma wp_put_block off xs s (Q : unit -> xmodem_state -> Prop) :
  0 <= off -> off + Z.of_nat (length xs) <= Z.of_nat (length (current_block s)) ->
  Q tt (s <| current_block := blit (current_block s) (Z.to_nat off) xs |>) ->
  wp (put_block off xs) s Q.
Proof.
  intros H1 H2 HQ. unfold put_block. apply wp_bind, wp_gets, wp_bind, wp_memcpy; [done..|].
  by apply wp_modify.
Qed.

Lemma wp_append_output xs s (Q : unit -> xmodem_state -> Prop) :
  Z.of_nat (length (output s)) + Z.of_nat (length xs) <= output_max s ->
  Q tt (s <| output := output s ++ xs |>) -> wp (append_output xs) s Q.
Proof.
  intros H HQ. unfold append_output. apply wp_bind, wp_gets, wp_bind, wp_gets.
  rewrite (proj2 (Z.leb_le _ _) H). by apply wp_modify.
Qed.

(** One step, with the named operations above. *)
Ltac xstep :=
  first
    [ progress wp_step; cbv beta
    | lazymatch goal with
      | |- wp (last_msg _) _ _ => apply wp_last_msg; intros ? ?
      | |- wp dirty _ _ => apply wp_dirty; intros ? ?
      | |- wp (notify _) _ _ => apply wp_notify; intros ? ?
      | |- wp reset_timer _ _ => apply wp_reset_timer; intros ? ? ?
      | |- wp (stats_increment_blocks _) _ _ => apply wp_stats_increment_blocks; intros ? ?
      | |- wp (on_stats _) _ _ => apply wp_on_stats; [by intros []|intros ? ?]
      | |- wp (lift time) _ _ => apply wp_quiet; [apply quiet_time|intros ? ? ?]
      | |- wp (lift (emit _)) _ _ => apply wp_quiet; [apply quiet_emit|intros ? ? ?]
      | |- wp (set_state _) _ _ => apply wp_modify
      | |- wp (set_prior _) _ _ => apply wp_modify
      | |- wp (set_file _) _ _ => apply wp_modify
      | |- wp (set_filename _) _ _ => apply wp_modify
      | |- wp clear_input _ _ => apply wp_modify
      | |- wp (put_output _) _ _ => apply wp_modify
      | |- wp clear_block _ _ => apply wp_modify
      | |- wp input_n _ _ => apply wp_gets
      | |- wp get_disk _ _ => apply wp_gets
      | |- wp get_stats _ _ => apply wp_gets
      end ].
Ltac xsteps := repeat (xstep; xsimpl).

(** ** The frame of a block *)

(** The bytes of a block on the wire, data already padded. *)
Definition check_bytes (fl : XMODEM_FLAVOR) (data : list Z) : list Z :=
  match fl with
  | X_NORMAL | X_RELAXED => [checksum_of data]
  | _ => let crc := calcrc data (length data) in [Z.land (Z.shiftr crc 8) 0xFF; Z.land crc 0xFF]
  end.
Definition header_of (data : list Z) : Z := if (length data =? 128)%nat then C_SOH else C_STX.
Definition frame (fl : XMODEM_FLAVOR) (seq : Z) (data : list Z) : list Z :=
  header_of data :: seq :: u8 (0xFF - seq) :: data ++ check_bytes fl data.

(** What the sender reads per block, and how long the block is. *)
Definition chunk_size (fl : XMODEM_FLAVOR) : nat := if is_1k fl then 1024 else 128.
Definition data_size (fl : XMODEM_FLAVOR) (rc : nat) : nat :=
  if is_1k fl && negb (rc <=? 128)%nat then 1024 else 128.
Definition pad (n : nat) (data : list Z) : list Z := data ++ replicate (n - length data) C_SUB.
Definition block_data (fl : XMODEM_FLAVOR) (data : list Z) : list Z :=
  pad (data_size fl (length data)) data.

Lemma length_pad n data : (length data <= n)%nat -> length (pad n data) = n.
Proof. intros. unfold pad. rewrite length_app, length_replicate. lia. Qed.

Lemma data_size_cases fl rc : data_size fl rc = 128%nat \/ data_size fl rc = 1024%nat.
Proof. unfold data_size. destruct (_ && _); auto. Qed.

Lemma data_size_ge fl rc : (rc <= chunk_size fl)%nat -> (rc <= data_size fl rc)%nat.
Proof.
  unfold chunk_size, data_size. destruct (is_1k fl), (Nat.leb_spec rc 128); cbn; lia.
Qed.

Lemma length_block_data fl data :
  (length data <= chunk_size fl)%nat -> length (block_data fl data) = data_size fl (length data).
Proof. intros H. apply length_pad. by apply data_size_ge. Qed.

Lemma bytes_block_data fl data : bytes data -> bytes (block_data fl data).
Proof.
  intros H. apply bytes_app. split; [done|]. apply bytes_replicate. unfold is_byte, C_SUB. lia.
Qed.

Lemma calcrc_take l n : calcrc l n = calcrc (take n l) n.
Proof. unfold calcrc. by rewrite take_take, Nat.min_id. Qed.

(** A buffer of the size of [current_block]. *)
Lemma buffer_shape (buf : list Z) :
  length buf = 1029%nat ->
  exists a0 a1 a2 rest, buf = a0 :: a1 :: a2 :: rest /\ length rest = 1026%nat.
Proof.
  destruct buf as [|a0 [|a1 [|a2 rest]]]; intros H; try done.
  exists a0, a1, a2, rest. split; [done|]. cbn in H. lia.
Qed.

(** ** [construct_block] *)

Definition crc_bytes (data : list Z) : list Z :=
  let crc := calcrc data (length data) in [Z.land (Z.shiftr crc 8) 0xFF; Z.land crc 0xFF].

(** A buffer with room for a header, [data] and [rest]. *)
Definition buffer (a0 a1 a2 : Z) (data rest : list Z) : list Z := a0 :: a1 :: a2 :: data ++ rest.

Lemma length_buffer a0 a1 a2 data rest :
  length (buffer a0 a1 a2 data rest) = (3 + length data + length rest)%nat.
Proof. unfold buffer. cbn. rewrite length_app. lia. Qed.

Lemma blit_check a0 a1 a2 data rest check n :
  n = (3 + length data)%nat ->
  blit (buffer a0 a1 a2 data rest) n check =
    buffer a0 a1 a2 data (check ++ drop (length check) rest).
Proof.
  intros ->. unfold buffer. change (a0 :: a1 :: a2 :: data ++ rest) with (([a0; a1; a2] ++ data) ++ rest).
  rewrite blit_exact by (rewrite length_app; done). done.
Qed.

(** A file open for reading at a block boundary. *)
Record reading (s : xmodem_state) (f : FILE) (D : list Z) : Prop := {
  rd_file : file s = Some f;
  rd_data : d_files (the_disk (shared s)) !! f_name f = Some D;
  rd_ok : f_name f ∉ d_unreadable (the_disk (shared s));
  rd_pos : 0 <= f_pos f <= Z.of_nat (length D);
  rd_err : f_err f = false;
  rd_eof : f_eof f = false;
  rd_bytes : bytes D
}.

Definition chunk (fl : XMODEM_FLAVOR) (f : FILE) (D : list Z) : list Z :=
  take (chunk_size fl) (drop (Z.to_nat (f_pos f)) D).
Definition is_short (fl : XMODEM_FLAVOR) (c : list Z) : bool :=
  bool_decide (length c < chunk_size fl)%nat.

(** The stream after a chunk was read. *)
Definition advance (f : FILE) (c : list Z) (short : bool) : FILE :=
  f <| f_pos := f_pos f + Z.of_nat (length c) |> <| f_eof := short |>.

(** The state after a block is built. *)
Definition built (s : xmodem_state) (f : FILE) (c rest : list Z) : xmodem_state :=
  let fr := frame (flavor s) (current_block_sequence_i s) (block_data (flavor s) c) in
  let short := is_short (flavor s) c in
  s <| file := Some (advance f c short) |>
    <| current_block := fr ++ rest |>
    <| current_block_n := Z.of_nat (length fr) |>
    <| state := if short then LAST_BLOCK else state s |>
    <| current_block_sequence_i := u8 (current_block_sequence_i s + 1) |>
    <| current_block_number := u32 (current_block_number s + 1) |>.

Lemma fread_reading n s f D :
  reading s f D ->
  let c := take n (drop (Z.to_nat (f_pos f)) D) in
  fread (the_disk (shared s)) f n = (c, advance f c (bool_decide (length c < n)%nat)).
Proof.
  intros [Hf Hd Hok Hpos Herr Heof Hb] c. rewrite (fread_chunk _ f D) by (done || lia).
  fold c. f_equal. unfold advance. destruct f as [nm pos eof err]; cbn in *. subst eof err.
  unfold field_update; cbn. by rewrite orb_false_r, Z.add_comm.
Qed.

Lemma wp_read_data n s f D (Q : option nat -> xmodem_state -> Prop) :
  reading s f D -> length (current_block s) = 1029%nat -> (n + 3 <= 1029)%nat ->
  let c := take n (drop (Z.to_nat (f_pos f)) D) in
  let short := bool_decide (length c < n)%nat in
  Q (Some (length c))
    (s <| file := Some (advance f c short) |>
       <| state := if short then LAST_BLOCK else state s |>
       <| current_block :=
            blit (blit (current_block s) 3 c) (3 + length c) (replicate (n - length c) C_SUB) |>) ->
  wp (read_data n) s Q.
Proof.
  intros HR Hlen Hn c short HQ. pose proof (fread_reading n s f D HR) as Hread.
  destruct HR as [Hf Hd Hok Hpos Herr Heof Hb]. unfold read_data. xsteps.
  apply (wp_nonnull _ f); [done|]. xsteps.
  rewrite Hread. fold c. fold short.
  assert (Hc : (length c <= n)%nat) by (unfold c; rewrite length_take; lia).
  unfold advance in *. xsteps. apply wp_put_block; [lia|xsimpl; lia|]. xsimpl. rewrite Herr.
  assert (Hpad : forall s0, current_block s0 = blit (current_block s) 3 c ->
    Q (Some (length c)) (s0 <| current_block :=
      blit (blit (current_block s) 3 c) (3 + length c) (replicate (n - length c) C_SUB) |>) ->
    wp (put_block (3 + Z.of_nat (length c)) (replicate (n - length c) C_SUB);;
        mret (Some (length c))) s0 Q).
  { intros s0 Hs0 HQ0. apply wp_bind, wp_put_block; [lia| |].
    { rewrite Hs0, length_replicate, length_blit by lia. lia. }
    apply wp_ret. rewrite Hs0.
    by replace (Z.to_nat (3 + Z.of_nat (length c))) with (3 + length c)%nat by lia. }
  apply wp_bind, wp_when; intros Hs; revert HQ; rewrite Hs; intros HQ.
  - apply wp_modify. apply Hpad; [done|]. exact HQ.
  - apply Hpad; [done|]. destruct s; exact HQ.
Qed.

Lemma wp_put_crc n a0 a1 a2 data rest s (Q : unit -> xmodem_state -> Prop) :
  current_block s = buffer a0 a1 a2 data rest -> length data = n -> (2 <= length rest)%nat ->
  Q tt (s <| current_block := buffer a0 a1 a2 data (crc_bytes data ++ drop 2 rest) |>
          <| current_block_n := Z.of_nat n + 5 |>) ->
  wp (put_crc n) s Q.
Proof.
  intros Hb Hn Hr HQ. unfold put_crc. xsteps. apply wp_put_block; [lia| |].
  { rewrite Hb, length_buffer. cbn [length]. lia. }
  apply wp_modify. rewrite Hb. replace (drop 3 (buffer _ _ _ _ _)) with (data ++ rest) by done.
  rewrite calcrc_take, take_app_le by lia. rewrite <- calcrc_take.
  rewrite blit_check by lia. subst n. exact HQ.
Qed.

(** The end of [construct_block]: header, sequence number and complement. *)
Lemma wp_finish_block h a0 a1 a2 data rest s (Q : bool -> xmodem_state -> Prop) :
  current_block s = buffer a0 a1 a2 data rest ->
  Q true (s <| current_block :=
                 h :: current_block_sequence_i s :: u8 (0xFF - current_block_sequence_i s)
                   :: data ++ rest |>
            <| current_block_sequence_i := u8 (current_block_sequence_i s + 1) |>
            <| current_block_number := u32 (current_block_number s + 1) |>) ->
  wp (put_block 0 [h];; number_block) s Q.
Proof.
  intros Hb HQ. apply wp_bind, wp_put_block; [lia| |].
  { rewrite Hb, length_buffer. cbn [length]. lia. }
  unfold number_block. xsteps. apply wp_put_block; [lia| |].
  { xsimpl. rewrite length_blit; rewrite Hb, length_buffer; cbn [length]; lia. }
  xsteps. rewrite Hb. exact HQ.
Qed.

Lemma pad_split n c : (length c <= 128)%nat -> (128 <= n)%nat ->
  pad n c = pad 128 c ++ replicate (n - 128) C_SUB.
Proof.
  intros H1 H2. unfold pad. rewrite <- app_assoc, <- replicate_add. do 2 f_equal. lia.
Qed.

(** Reading a chunk and padding it leaves the padded data after the header. *)
Lemma padded_buffer a0 a1 a2 buf c n :
  (length c <= n)%nat ->
  blit (blit (a0 :: a1 :: a2 :: buf) 3 c) (3 + length c) (replicate (n - length c) C_SUB) =
  buffer a0 a1 a2 (pad n c) (drop n buf).
Proof.
  intros Hc. change (a0 :: a1 :: a2 :: buf) with (buffer a0 a1 a2 [] buf).
  rewrite blit_check by done. change (buffer a0 a1 a2 [] (c ++ drop (length c) buf)) with
    (buffer a0 a1 a2 c (drop (length c) buf)).
  rewrite blit_check by done. rewrite length_replicate, drop_drop.
  unfold buffer, pad. rewrite <- app_assoc. by replace (length c + (n - length c))%nat with n by lia.
Qed.

(** What is left of [construct_block] after the data was read. *)
Definition finish (fl : XMODEM_FLAVOR) (rc : nat) : X bool :=
  if bool_decide (fl = X_RELAXED \/ fl = X_NORMAL \/ fl = X_CRC) then
    (if decide (fl = X_CRC) then put_crc 128
     else
       s ← get;
       put_block 131 [checksum_of (data_bytes s 128)];;
       modify (fun s => s <| current_block_n := 128 + 4 |>));;
    put_block 0 [C_SOH];;
    number_block
  else
    (if (rc <=? 128)%nat then put_crc 128;; put_block 0 [C_SOH]
     else put_crc 1024;; put_block 0 [C_STX]);;
    number_block.

(** The postcondition of a finished block. *)
Definition finished (s : xmodem_state) (data : list Z) (Q : bool -> xmodem_state -> Prop) : Prop :=
  let fr := frame (flavor s) (current_block_sequence_i s) data in
  forall rest', length (fr ++ rest') = length (current_block s) ->
    Q true (s <| current_block := fr ++ rest' |>
              <| current_block_n := Z.of_nat (length fr) |>
              <| current_block_sequence_i := u8 (current_block_sequence_i s + 1) |>
              <| current_block_number := u32 (current_block_number s + 1) |>).

Lemma length_check_bytes fl data :
  length (check_bytes fl data) =
    match fl with X_NORMAL | X_RELAXED => 1%nat | _ => 2%nat end.
Proof. by destruct fl. Qed.

Lemma length_frame fl seq data :
  length (frame fl seq data) = (3 + length data + length (check_bytes fl data))%nat.
Proof. unfold frame. cbn [length]. rewrite length_app. lia. Qed.

Lemma wp_finish_frame fl h a0 a1 a2 data rest n s (Q : bool -> xmodem_state -> Prop) :
  flavor s = fl -> current_block s = buffer a0 a1 a2 data rest -> header_of data = h ->
  (2 <= length rest)%nat -> finished s data Q ->
  let check := check_bytes fl data in
  n = 3 + Z.of_nat (length data) + Z.of_nat (length check) ->
  wp (put_block 0 [h];; number_block)
    (s <| current_block := buffer a0 a1 a2 data (check ++ drop (length check) rest) |>
       <| current_block_n := n |>) Q.
Proof.
  intros <- Hb Hh Hr HQ check ->. eapply wp_finish_block; [done|]. xsimpl.
  specialize (HQ (drop (length check) rest)). rewrite length_app, length_frame in HQ.
  pose proof (length_check_bytes (flavor s) data) as Hck. fold check in HQ, Hck.
  rewrite Hb, length_buffer, length_drop in HQ. rewrite !Nat2Z.inj_add in HQ.
  unfold frame in HQ. fold check in HQ. rewrite Hh in HQ. cbn [app] in HQ.
  rewrite <- app_assoc in HQ. apply HQ. destruct (flavor s); lia.
Qed.

Lemma header_128 data : length data = 128%nat -> header_of data = C_SOH.
Proof. unfold header_of. by intros ->. Qed.

Lemma header_1024 data : length data = 1024%nat -> header_of data = C_STX.
Proof. unfold header_of. by intros ->. Qed.

Definition uses_crc (fl : XMODEM_FLAVOR) : bool :=
  match fl with X_NORMAL | X_RELAXED => false | _ => true end.

Lemma check_bytes_crc fl data : uses_crc fl = true -> check_bytes fl data = crc_bytes data.
Proof. by destruct fl. Qed.
Lemma check_bytes_sum fl data : uses_crc fl = false -> check_bytes fl data = [checksum_of data].
Proof. by destruct fl. Qed.

Lemma wp_finish_crc n h a0 a1 a2 data rest s (Q : bool -> xmodem_state -> Prop) :
  uses_crc (flavor s) = true -> current_block s = buffer a0 a1 a2 data rest ->
  length data = n -> header_of data = h -> (2 <= length rest)%nat -> finished s data Q ->
  wp (put_crc n;; put_block 0 [h];; number_block) s Q.
Proof.
  intros Hfl Hb Hn Hh Hr HQ. apply wp_bind. eapply wp_put_crc; [exact Hb|done|lia|].
  pose proof (wp_finish_frame (flavor s) h a0 a1 a2 data rest (Z.of_nat n + 5) s Q) as H.
  cbv zeta in H. rewrite check_bytes_crc in H by done. apply H; try done.
  change (length (crc_bytes data)) with 2%nat. lia.
Qed.

Lemma wp_finish_sum a0 a1 a2 data rest s (Q : bool -> xmodem_state -> Prop) :
  uses_crc (flavor s) = false -> current_block s = buffer a0 a1 a2 data rest ->
  length data = 128%nat -> (2 <= length rest)%nat -> finished s data Q ->
  wp ((s ← get;
       put_block 131 [checksum_of (data_bytes s 128)];;
       modify (fun s => s <| current_block_n := 128 + 4 |>));;
      put_block 0 [C_SOH];; number_block) s Q.
Proof.
  intros Hfl Hb Hn Hr HQ. apply wp_bind, wp_bind, wp_get, wp_bind, wp_put_block; [lia| |].
  { rewrite Hb, length_buffer. cbn [length]. lia. }
  apply wp_modify.
  pose proof (wp_finish_frame (flavor s) C_SOH a0 a1 a2 data rest (128 + 4) s Q) as H.
  cbv zeta in H. rewrite check_bytes_sum in H by done.
  unfold data_bytes. rewrite Hb, blit_check by lia.
  change (drop 3 (buffer a0 a1 a2 data rest)) with (data ++ rest).
  rewrite take_app_le, take_ge by lia. apply H; auto using header_128.
  cbn [length]. lia.
Qed.

Lemma wp_assoc {A B C} (m : X A) (k : A -> X B) (h : B -> X C) s Q :
  wp (a ← m; k a ≫= h) s Q -> wp ((m ≫= k) ≫= h) s Q.
Proof. unfold wp, mbind, M_bind. by destruct (m s) as [[]| |]. Qed.

Lemma buffer_app a0 a1 a2 d1 d2 rest :
  buffer a0 a1 a2 (d1 ++ d2) rest = buffer a0 a1 a2 d1 (d2 ++ rest).
Proof. unfold buffer. by rewrite <- app_assoc. Qed.

Lemma wp_finish c a0 a1 a2 rest s (Q : bool -> xmodem_state -> Prop) :
  (length c <= chunk_size (flavor s))%nat ->
  current_block s = buffer a0 a1 a2 (pad (chunk_size (flavor s)) c) rest ->
  (2 <= length rest)%nat ->
  finished s (block_data (flavor s) c) Q -> wp (finish (flavor s) (length c)) s Q.
Proof.
  intros Hc Hb Hr HQ. pose proof (length_pad _ _ Hc) as Hpl.
  unfold block_data, data_size, finish, chunk_size in *.
  destruct (bool_decide_reflect
    (flavor s = X_RELAXED \/ flavor s = X_NORMAL \/ flavor s = X_CRC)) as [Hfl|Hfl].
  - assert (H1 : is_1k (flavor s) = false) by (destruct Hfl as [-> |[-> | ->]]; done).
    rewrite H1 in *. cbn [andb] in HQ. case_decide as Hx.
    + eapply wp_finish_crc; [by rewrite Hx|exact Hb|done|by apply header_128|done|done].
    + apply (wp_finish_sum a0 a1 a2 (pad 128 c) rest s Q); try done.
      destruct (flavor s); naive_solver.
  - assert (H1 : is_1k (flavor s) = true) by (destruct (flavor s); naive_solver).
    assert (H2 : uses_crc (flavor s) = true) by (destruct (flavor s); naive_solver).
    rewrite H1 in *. cbn [andb] in HQ. destruct (Nat.leb_spec (length c) 128) as [Hs|Hs];
      cbn [negb] in HQ; apply wp_assoc.
    + pose proof (length_pad _ _ Hs) as Hps. rewrite pad_split, buffer_app in Hb by lia.
      eapply wp_finish_crc; [done|exact Hb|done|by apply header_128| |done].
      rewrite length_app. lia.
    + eapply wp_finish_crc; [done|exact Hb|done|by apply header_1024|done|done].
Qed.

Lemma construct_block_split :
  forall s, construct_block s =
    (rc ← read_data (chunk_size (flavor s));
     match rc with None => mret false | Some rc => finish (flavor s) rc end) s.
Proof.
  intros s. unfold construct_block, finish, chunk_size.
  rewrite (bind_done _ _ s (flavor s) s) by done.
  destruct (flavor s); done.
Qed.

(** [construct_block] reads the next chunk and leaves its frame in the block. *)
Lemma wp_construct_block s f D (Q : bool -> xmodem_state -> Prop) :
  reading s f D -> length (current_block s) = 1029%nat ->
  (forall rest, let s' := built s f (chunk (flavor s) f D) rest in
    length (current_block s') = 1029%nat -> Q true s') ->
  wp construct_block s Q.
Proof.
  intros HR Hlen HQ.
  destruct (buffer_shape _ Hlen) as (a0 & a1 & a2 & buf & Hbuf & Hbl).
  unfold wp. rewrite construct_block_split. apply wp_bind.
  assert (Hk : (chunk_size (flavor s) + 3 <= 1027)%nat)
    by (unfold chunk_size; destruct (is_1k _); lia).
  eapply wp_read_data; [done|done|lia|]. cbv beta iota.
  fold (chunk (flavor s) f D). set (c := chunk (flavor s) f D) in *.
  assert (Hc : (length c <= chunk_size (flavor s))%nat)
    by (unfold c, chunk; rewrite length_take; lia).
  fold (is_short (flavor s) c).
  match goal with |- wp _ ?s1 _ => set (s1' := s1) end.
  change (flavor s) with (flavor s1').
  apply (wp_finish c a0 a1 a2 (drop (chunk_size (flavor s)) buf)).
  - done.
  - unfold s1'. xsimpl. by rewrite Hbuf, padded_buffer.
  - rewrite length_drop. lia.
  - intros rest Hrest. apply (HQ rest). unfold built. xsimpl. etrans; [exact Hrest|].
    unfold s1'. xsimpl. rewrite length_blit; rewrite ?length_replicate, length_blit by lia; lia.
Qed.

(** ** [verify_block] *)

Lemma checksum_byte data : is_byte (checksum_of data).
Proof.
  unfold checksum_of. induction data as [|b data IH] using rev_ind.
  - by unfold is_byte.
  - rewrite fold_left_app. apply u8_byte.
Qed.

Lemma bytes_check_bytes fl data : bytes (check_bytes fl data).
Proof.
  destruct fl; repeat apply bytes_cons; auto with qodem; apply checksum_byte.
Qed.

(** The data lengths a receiver of a flavor accepts. *)
Definition legal_data (fl : XMODEM_FLAVOR) (data : list Z) : Prop :=
  length data = 128%nat \/ is_1k fl = true /\ length data = 1024%nat.

Lemma legal_block_data fl c : (length c <= chunk_size fl)%nat -> legal_data fl (block_data fl c).
Proof.
  intros H. unfold legal_data. rewrite length_block_data by done. unfold data_size.
  destruct (is_1k fl), (length c <=? 128)%nat; cbn; auto.
Qed.

Definition crc_hi (data : list Z) : Z := Z.land (Z.shiftr (calcrc data (length data)) 8) 0xFF.
Definition crc_lo (data : list Z) : Z := Z.land (calcrc data (length data)) 0xFF.

(** The check bytes the code takes for good: the checksum, or a CRC of which
    one byte is right. *)
Definition check_accepted (fl : XMODEM_FLAVOR) (data chk : list Z) : Prop :=
  if uses_crc fl then
    exists c1 c2, chk = [c1; c2] /\ (c1 = crc_hi data \/ c2 = crc_lo data)
  else chk = [checksum_of data].

Lemma check_bytes_accepted fl data : check_accepted fl data (check_bytes fl data).
Proof.
  unfold check_accepted. destruct (uses_crc fl) eqn:E.
  - rewrite check_bytes_crc by done. exists (crc_hi data), (crc_lo data). split; [done|]. by left.
  - by apply check_bytes_sum.
Qed.

Definition check_length (fl : XMODEM_FLAVOR) : nat := if uses_crc fl then 2 else 1.

Lemma buffer_lookup a0 a1 a2 data rest i :
  buffer a0 a1 a2 data rest !!! (3 + (length data + i))%nat = rest !!! i.
Proof.
  unfold buffer. change (a0 :: a1 :: a2 :: data ++ rest) with ([a0; a1; a2] ++ data ++ rest).
  rewrite !list_lookup_total_alt, !lookup_app_r by (cbn [length]; lia).
  do 2 f_equal. cbn [length]. lia.
Qed.

Lemma drop_3_buffer a0 a1 a2 data rest : drop 3 (buffer a0 a1 a2 data rest) = data ++ rest.
Proof. done. Qed.

(** The tests of [verify_block] on a block laid out as [h, q1, q2, data, rest]. *)
Section verify.
Context (s : xmodem_state) (h q1 q2 : Z) (data rest : list Z).
Hypothesis Hbuf : current_block s = buffer h q1 q2 data rest.
Hypothesis Hlen : (length data + length rest)%nat = 1026%nat.

Lemma data_bytes_buffer : data_bytes s (length data) = data.
Proof.
  unfold data_bytes. rewrite Hbuf, drop_3_buffer, take_app_le, take_ge by lia. done.
Qed.

Lemma crc_rejected_buffer :
  bytes rest ->
  crc_rejected s (length data) = false <->
    rest !!! 0%nat = crc_hi data \/ rest !!! 1%nat = crc_lo data.
Proof.
  intros Hb. unfold crc_rejected. unfold cb. rewrite Hbuf, drop_3_buffer.
  rewrite calcrc_take, take_app_le by lia. rewrite <- calcrc_take.
  replace (length data + 3)%nat with (3 + (length data + 0))%nat by lia.
  replace (length data + 4)%nat with (3 + (length data + 1))%nat by lia.
  rewrite !buffer_lookup. fold (crc_hi data) (crc_lo data).
  assert (Hbyte : forall i, is_byte (rest !!! i)).
  { intros i. rewrite list_lookup_total_alt. destruct (rest !! i) as [b|] eqn:E.
    - by eapply Forall_lookup_1 in E.
    - by unfold is_byte. }
  rewrite !land_ff_byte by apply Hbyte. rewrite andb_false_iff, !negb_false_iff, !Z.eqb_eq.
  split; intros [|]; auto.
Qed.

Lemma cb_0 : cb s 0 = h.
Proof. unfold cb. by rewrite Hbuf. Qed.
Lemma cb_1 : cb s 1 = q1.
Proof. unfold cb. by rewrite Hbuf. Qed.
Lemma cb_2 : cb s 2 = q2.
Proof. unfold cb. by rewrite Hbuf. Qed.

Lemma verify_sequence_buffer :
  verify_sequence s = None <-> q1 = current_block_sequence_i s /\ q1 + q2 = 0xFF.
Proof.
  unfold verify_sequence. rewrite cb_1, cb_2.
  destruct (Z.eqb_spec (current_block_sequence_i s) q1), (Z.eqb_spec (q1 + q2) 0xFF);
    cbn; naive_solver lia.
Qed.

Lemma verify_header_buffer :
  is_byte h ->
  verify_header s = None <-> h = C_SOH \/ is_1k (flavor s) = true /\ h = C_STX.
Proof.
  intros Hh. unfold verify_header. rewrite cb_0, land_ff_byte by done.
  destruct (flavor s), (Z.eqb_spec h C_SOH), (Z.eqb_spec h C_STX); cbn; naive_solver.
Qed.

Lemma verify_check_alt :
  verify_check s = None <->
    if uses_crc (flavor s)
    then crc_rejected s (if is_1k (flavor s) && negb (cb s 0 =? C_SOH)%Z then 1024 else 128) = false
    else checksum_of (data_bytes s 128) = Z.land (cb s 131) 0xFF.
Proof.
  unfold verify_check. destruct (flavor s); cbn [uses_crc is_1k andb].
  1,3: destruct (Z.eqb_spec (checksum_of (data_bytes s 128)) (Z.land (cb s 131) 0xFF));
    cbn; naive_solver.
  1: by destruct (crc_rejected s 128).
  all: destruct (cb s 0 =? C_SOH); cbn [negb]; by destruct (crc_rejected s _).
Qed.

Lemma verify_check_buffer :
  length data = (if is_1k (flavor s) && negb (h =? C_SOH)%Z then 1024 else 128)%nat ->
  bytes rest ->
  verify_check s = None <->
    check_accepted (flavor s) data (take (check_length (flavor s)) rest).
Proof.
  intros Hdata Hb. pose proof (crc_rejected_buffer Hb) as Hcrc.
  pose proof data_bytes_buffer as Hdb.
  assert (Hrest : (2 <= length rest)%nat) by (destruct (_ && _); lia).
  rewrite verify_check_alt, cb_0, <- Hdata. unfold check_accepted, check_length.
  destruct rest as [|c1 [|c2 rest']] eqn:Er; [cbn in Hrest; lia..|].
  destruct (uses_crc (flavor s)) eqn:Hu.
  - rewrite Hcrc. split.
    + intros H. by exists c1, c2.
    + intros (d1 & d2 & [= -> ->] & H). exact H.
  - assert (Hd : length data = 128%nat) by (destruct (flavor s); done).
    rewrite Hd in Hdb. rewrite Hdb. unfold cb. rewrite Hbuf.
    replace 131%nat with (3 + (length data + 0))%nat by lia. rewrite buffer_lookup.
    change ((c1 :: c2 :: rest') !!! 0%nat) with c1. rewrite land_ff_byte by by inversion Hb.
    cbn [take]. split; [by intros ->|by intros [= ->]].
Qed.
End verify.

(** The block sizes a flavor takes. *)
Definition size_ok (fl : XMODEM_FLAVOR) (n : Z) : bool :=
  if is_1k fl then (n =? 1024 + 5) || (n =? 128 + 5) else n =? 128 + 3 + Z.of_nat (check_length fl).

Lemma verify_size_spec s : verify_size s = None <-> size_ok (flavor s) (current_block_n s) = true.
Proof.
  unfold verify_size, size_ok.
  by destruct (flavor s); cbn [is_1k check_length uses_crc Z.of_nat]; destruct (_ =? _)%Z; cbn;
    try destruct (_ =? _)%Z.
Qed.

Lemma first_failure_none l : first_failure l = None <-> Forall (fun o => o = None) l.
Proof.
  induction l as [|[m|] l IH]; cbn; rewrite ?Forall_cons_iff; naive_solver.
Qed.

(** The duplicate test never fires after the sequence test passed. *)
Lemma duplicate_after_sequence s :
  is_byte (cb s 1) -> verify_sequence s = None -> verify_duplicate s = None.
Proof.
  unfold verify_sequence, verify_duplicate. intros Hb.
  destruct (Z.eqb_spec (current_block_sequence_i s) (cb s 1)) as [->|]; [|done].
  rewrite land_ff_byte by done. intros _. by rewrite (proj2 (Z.eqb_neq _ _)) by lia.
Qed.

Lemma block_failure_none s :
  is_byte (cb s 1) ->
  block_failure s = None <->
    verify_size s = None /\ verify_header s = None /\ verify_sequence s = None /\
    verify_check s = None.
Proof.
  intros Hb. unfold block_failure. rewrite first_failure_none, !Forall_cons_iff.
  pose proof (duplicate_after_sequence s Hb). rewrite Forall_nil. naive_solver.
Qed.

Definition accepted_block (s : xmodem_state) (data chk rest : list Z) : Prop :=
  current_block s = buffer (header_of data) (current_block_sequence_i s)
                      (0xFF - current_block_sequence_i s) data (chk ++ rest) /\
  legal_data (flavor s) data /\ check_accepted (flavor s) data chk.

Lemma length_accepted fl data chk :
  check_accepted fl data chk -> length chk = check_length fl.
Proof.
  unfold check_accepted, check_length. destruct (uses_crc fl).
  - by intros (? & ? & -> & _).
  - by intros ->.
Qed.

Lemma block_failure_accepted s :
  bytes (current_block s) -> length (current_block s) = 1029%nat ->
  block_failure s = None <->
    size_ok (flavor s) (current_block_n s) = true /\
    exists data chk rest, accepted_block s data chk rest.
Proof.
  intros Hb Hl. destruct (buffer_shape _ Hl) as (h & q1 & q2 & buf & Hbuf & Hbl).
  rewrite Hbuf in Hb. apply Forall_cons_iff in Hb as [Hh Hb].
  apply Forall_cons_iff in Hb as [H1 Hb]. apply Forall_cons_iff in Hb as [H2 Hb].
  set (k := (if is_1k (flavor s) && negb (h =? C_SOH)%Z then 1024 else 128)%nat).
  assert (Hk : (k <= 1024)%nat) by (unfold k; destruct (_ && _); lia).
  assert (Hbuf' : current_block s = buffer h q1 q2 (take k buf) (drop k buf)).
  { unfold buffer. by rewrite take_drop. }
  assert (Hlk : length (take k buf) = k) by (rewrite length_take; lia).
  assert (Hlr : (length (take k buf) + length (drop k buf) = 1026)%nat)
    by (rewrite length_take, length_drop; lia).
  rewrite block_failure_none by by rewrite (cb_1 _ _ _ _ _ _ Hbuf').
  rewrite verify_size_spec, (verify_header_buffer s h q1 q2 _ _ Hbuf') by done.
  rewrite (verify_sequence_buffer s h q1 q2 _ _ Hbuf').
  rewrite (verify_check_buffer s h q1 q2 _ _ Hbuf' Hlr) by auto using bytes_drop.
  split.
  - intros (Hn & Hhd & [Hq1 Hq2] & Hchk). split; [done|].
    exists (take k buf), (take (check_length (flavor s)) (drop k buf)),
      (drop (check_length (flavor s)) (drop k buf)).
    split; [|split; [|done]].
    + rewrite take_drop, Hbuf'. f_equal; [|done|lia].
      unfold header_of. rewrite Hlk. unfold k. destruct Hhd as [-> | [-> ->]]; [|done].
      by rewrite andb_false_r.
    + unfold legal_data. rewrite Hlk. unfold k. destruct (is_1k _), (h =? C_SOH)%Z; auto.
  - intros (Hn & data & chk & rest & Hacc & Hleg & Hchk). split; [done|].
    pose proof Hacc as Hacc'. rewrite Hbuf in Hacc. injection Hacc as Eh E1 E2 E3.
    assert (Hd : length data = k /\ (h = C_SOH \/ is_1k (flavor s) = true /\ h = C_STX)).
    { rewrite Eh. unfold k. rewrite Eh.
      destruct Hleg as [Hd | [-> Hd]];
        unfold header_of; rewrite Hd; cbn; rewrite ?andb_false_r; auto. }
    destruct Hd as [Hd Hhd]. split; [done|]. split; [lia|].
    rewrite E3, <- Hd, take_app_length, drop_app_length.
    by rewrite <- (length_accepted _ _ _ Hchk), take_app_length.
Qed.

(** *** Saving the data *)

(** A stream at the end of its file, with room on the disk. *)
Record writing (s : xmodem_state) (f : FILE) (D : list Z) (room : Z) : Prop := {
  wr_file : file s = Some f;
  wr_data : d_files (the_disk (shared s)) !! f_name f = Some D;
  wr_ok : f_name f ∉ d_unreadable (the_disk (shared s));
  wr_pos : f_pos f = Z.of_nat (length D);
  wr_room : room <= d_space (the_disk (shared s))
}.

Definition disk_append (d : disk) (name : cstring) (D data : list Z) : disk :=
  d <| d_files ::= <[name := D ++ data]> |> <| d_space ::= fun z => z - Z.of_nat (length data) |>.

(** The state after the data of a good block was written. *)
Definition saved (s : xmodem_state) (f : FILE) (D data : list Z) : xmodem_state :=
  s <| shared := (shared s) <| the_disk := disk_append (the_disk (shared s)) (f_name f) D data |> |>
    <| file := Some (f <| f_pos := Z.of_nat (length (D ++ data)) |>) |>
    <| current_block_sequence_i := u8 (current_block_sequence_i s + 1) |>
    <| current_block_number := u32 (current_block_number s + 1) |>.

Lemma accepted_data_bytes s data chk rest :
  accepted_block s data chk rest ->
  data_bytes s (if cb s 0 =? C_SOH then 128%nat else 1024%nat) = data.
Proof.
  intros (Hbuf & Hleg & _). rewrite (cb_0 s _ _ _ _ _ Hbuf).
  unfold data_bytes. rewrite Hbuf, drop_3_buffer.
  destruct Hleg as [Hd | [_ Hd]]; unfold header_of; rewrite Hd; cbn;
    rewrite take_app_le, take_ge by lia; done.
Qed.

Lemma wp_save_block s f D data chk rest (Q : bool -> xmodem_state -> Prop) :
  accepted_block s data chk rest -> writing s f D (Z.of_nat (length data)) ->
  Q true (saved s f D data) -> wp save_block s Q.
Proof.
  intros Ha [Hf Hd Hok Hp Hr] HQ. pose proof (accepted_data_bytes _ _ _ _ Ha) as Hdb.
  unfold save_block. apply wp_bind, wp_get. cbv zeta. rewrite Hdb.
  apply wp_bind, (wp_nonnull _ f); [done|]. apply wp_bind, wp_gets.
  rewrite (fwrite_append _ _ D) by done.
  assert (Hn : Z.of_nat (length data) =? Z.of_nat (if cb s 0 =? C_SOH then 128 else 1024) = true).
  { destruct Ha as (Hbuf & Hleg & _). rewrite (cb_0 s _ _ _ _ _ Hbuf).
    destruct Hleg as [E | [_ E]]; unfold header_of; by rewrite E. }
  rewrite Hn. cbn [negb]. apply wp_bind, wp_lift, wp_modify, wp_bind, wp_modify.
  apply wp_bind, wp_modify, wp_ret. exact HQ.
Qed.

(** [verify_block] on a good block. *)
Lemma wp_verify_block s f D data chk rest (Q : bool -> xmodem_state -> Prop) :
  bytes (current_block s) -> length (current_block s) = 1029%nat ->
  size_ok (flavor s) (current_block_n s) = true -> accepted_block s data chk rest ->
  writing s f D (Z.of_nat (length data)) ->
  Q true (saved s f D data) -> wp verify_block s Q.
Proof.
  intros Hb Hl Hn Ha Hw HQ. unfold verify_block. apply wp_bind, wp_get.
  rewrite (proj2 (block_failure_accepted s Hb Hl)) by eauto 6.
  by eapply wp_save_block.
Qed.
