(* ===== verification/XmodemReceive.v ===== *)
(** The Xmodem receiver: blocks, the end of the file and the loop that removes
    the padding. *)

From Stdlib Require Import ZArith Lia List Bool.
From stdpp Require Import base list numbers gmap strings.
From S2P Require Import Prelude Crc Stdio Protocols Xmodem XmodemBlock.
Import Xmodem.

(** protocols.c, [protocol_process_data], on its Xmodem and Ymodem cases: data
    reaches the protocol only while the transfer runs. *)
Definition protocol_process_data (inp out : list Z) (out_max : Z) : X bool :=
  run ← gets (fun s => transfer_running (shared s));
  if run : bool then xmodem inp out out_max
  else
    modify (fun s => s <| input := inp |> <| output := out |> <| output_max := out_max |>);;
    mret false.

(** The flavors with one block, one acknowledgement. *)
Definition acked (fl : XMODEM_FLAVOR) : bool := negb (is_ymodem fl) && negb (is_g fl).

(** ** A block comes in *)

(** The other files of a disk. *)
Definition others (name : cstring) (d : disk) : gmap cstring (list Z) := delete name (d_files d).

(** A receiver at a block boundary: the name and contents of its file, the
    sequence number it waits for, the room on its disk and the other files. *)
Record receiver (fl : XMODEM_FLAVOR) (name : cstring) (D : list Z) (seq room : Z)
    (fs : gmap cstring (list Z)) (r : xmodem_state) : Prop := {
  re_others : others name (the_disk (shared r)) = fs;
  re_running : transfer_running (shared r) = true;
  re_flavor : flavor r = fl;
  re_sending : sending r = false;
  re_len : length (current_block r) = 1029%nat;
  re_n : current_block_n r = 0;
  re_bytes : bytes (current_block r);
  re_seq : current_block_sequence_i r = seq;
  re_file : exists f, f_name f = name /\ writing r f D room
}.

Lemma running_same_env c c' : same_env c c' -> transfer_running c' = transfer_running c.
Proof. intros []. unfold transfer_running. by rewrite se_state. Qed.

Lemma handler_loop_once fuel handler s (Q : unit -> xmodem_state -> Prop) :
  wp handler s (fun _ s' => input s' = [] /\ Q tt s') -> wp (handler_loop (S fuel) handler) s Q.
Proof.
  intros H. cbn [handler_loop]. apply wp_bind. eapply wp_mono; [exact H|].
  intros [] s' [Hi HQ]. apply wp_bind, wp_gets. rewrite Hi. by apply wp_ret.
Qed.

(** One turn of the handler uses the whole input. *)
Lemma wp_xmodem_once inp out m s (Q : bool -> xmodem_state -> Prop) :
  transfer_running (shared s) = true -> XMODEM_MAX_BLOCK_SIZE < m - Z.of_nat (length out) ->
  state s <> ABORT ->
  let s0 := s <| input := inp |> <| output := out |> <| output_max := m |> in
  wp (if sending s then xmodem_send else xmodem_receive) s0
     (fun _ s' => input s' = [] /\ Q true s') ->
  wp (protocol_process_data inp out m) s Q.
Proof.
  intros Hrun Hm Hst s0 H. unfold protocol_process_data. apply wp_bind, wp_gets.
  rewrite Hrun. unfold xmodem.
  apply wp_bind, wp_assert; [lia|]. apply wp_bind, wp_modify, wp_bind, wp_get. xsimpl.
  rewrite decide_False by done. fold s0. destruct (sending s).
  - rewrite (proj2 (Z.ltb_ge _ _)) by (cbn; lia). cbn [negb]. apply wp_bind.
    unfold loop_fuel. rewrite Nat.add_succ_r. apply handler_loop_once. exact H.
  - cbn [negb]. apply wp_bind. unfold loop_fuel. rewrite Nat.add_succ_r.
    apply handler_loop_once. exact H.
Qed.

Lemma frame_accepted fl s data rest :
  flavor s = fl -> is_byte (current_block_sequence_i s) -> legal_data fl data ->
  current_block s = frame fl (current_block_sequence_i s) data ++ rest ->
  accepted_block s data (check_bytes fl data) rest.
Proof.
  intros Hfl Hq Hleg Hb. split; [|split].
  - rewrite Hb. unfold frame, buffer. cbn [app]. rewrite <- app_assoc.
    rewrite u8_id by (unfold is_byte in *; lia). done.
  - by rewrite Hfl.
  - rewrite Hfl. apply check_bytes_accepted.
Qed.

Lemma length_frame_check fl seq data :
  length (frame fl seq data) = (3 + length data + check_length fl)%nat.
Proof. rewrite length_frame, length_check_bytes. by destruct fl. Qed.

Lemma frame_size_ok fl seq data :
  legal_data fl data -> size_ok fl (Z.of_nat (length (frame fl seq data))) = true.
Proof.
  intros H. rewrite length_frame_check. unfold size_ok, check_length, legal_data in *.
  destruct fl; cbn [is_1k uses_crc] in *; destruct H as [-> | [? ->]]; done.
Qed.

Lemma frame_bounds fl seq data :
  legal_data fl data ->
  132 <= Z.of_nat (length (frame fl seq data)) <= XMODEM_MAX_BLOCK_SIZE.
Proof.
  intros H. rewrite length_frame_check. unfold check_length, legal_data, XMODEM_MAX_BLOCK_SIZE in *.
  destruct (uses_crc fl), H as [-> | [? ->]]; lia.
Qed.

Lemma bytes_frame fl seq data : is_byte seq -> bytes data -> bytes (frame fl seq data).
Proof.
  intros Hq Hd. unfold frame. repeat apply bytes_cons; auto with qodem.
  - unfold header_of. destruct (_ =? _)%nat; unfold is_byte, C_SOH, C_STX; lia.
  - apply bytes_app. split; [done|]. apply bytes_check_bytes.
Qed.

Lemma frame_complete fl seq data s rest :
  flavor s = fl -> legal_data fl data -> current_block s = frame fl seq data ++ rest ->
  current_block_n s = Z.of_nat (length (frame fl seq data)) -> block_incomplete s = false.
Proof.
  intros Hfl Hleg Hb Hn. unfold block_incomplete.
  assert (H0 : cb s 0 = header_of data) by (unfold cb; by rewrite Hb).
  rewrite H0, Hn, Hfl, length_frame_check.
  destruct Hleg as [Hd | [Hk Hd]]; unfold header_of; rewrite Hd;
    destruct fl; cbn [check_length uses_crc is_1k] in *; try done.
Qed.

(** The receiver's side of the disk is kept by what leaves the environment
    alone. *)
Lemma writing_same_env s s' f D room :
  same_env (shared s) (shared s') -> file s' = file s ->
  writing s f D room -> writing s' f D room.
Proof. intros [] Hf []. split; congruence. Qed.

Lemma writing_saved s f D data room :
  writing s f D room -> Z.of_nat (length data) <= room ->
  writing (saved s f D data) (f <| f_pos := Z.of_nat (length (D ++ data)) |>) (D ++ data)
    (room - Z.of_nat (length data)).
Proof.
  intros [Hf Hd Hok Hp Hr] Hl. split; unfold saved, disk_append; xsimpl; try done.
  - apply lookup_insert_eq.
  - lia.
Qed.

Lemma writing_less s f D room room' :
  writing s f D room -> room' <= room -> writing s f D room'.
Proof. intros [] H. split; try done. lia. Qed.

(** A whole frame, in the block that was empty, is written and acknowledged. *)
Lemma wp_receive_frame fl f D data seq room fs r (Q : unit -> xmodem_state -> Prop) :
  acked fl = true -> legal_data fl data -> bytes data -> is_byte seq ->
  transfer_running (shared r) = true -> flavor r = fl -> sending r = false ->
  length (current_block r) = 1029%nat -> bytes (current_block r) -> current_block_n r = 0 ->
  current_block_sequence_i r = seq -> others (f_name f) (the_disk (shared r)) = fs ->
  writing r f D room -> Z.of_nat (length data) <= room ->
  input r = frame fl seq data -> state r = BLOCK ->
  (forall r', receiver fl (f_name f) (D ++ data) (u8 (seq + 1)) (room - Z.of_nat (length data)) fs r' ->
     state r' = BLOCK -> output r' = [C_ACK] -> input r' = [] -> Q tt r') ->
  wp receive_block r Q.
Proof.
  intros Hack Hleg Hdb Hq Hrun Hfl Hsend Hlen Hbb Hn Hseq Hfs Hw Hroom Hin Hst HQ.
  pose proof (frame_bounds fl seq data Hleg) as Hfb.
  pose proof (frame_size_ok fl seq data Hleg) as Hsz.
  unfold receive_block. apply wp_bind, wp_get. cbv zeta. rewrite Hin.
  rewrite (proj2 (Z.eqb_neq _ _)) by lia. apply wp_bind. xstep. xsimpl.
  rewrite Hn, Hfl, Hseq, Hlen.
  unfold acked in Hack. apply andb_prop in Hack as [Hy Hg].
  apply negb_true_iff in Hy, Hg. rewrite Hg.
  rewrite (proj2 (Z.ltb_ge _ _)) by lia. cbn [andb negb].
  rewrite (proj2 (Z.ltb_ge _ _)) by (unfold XMODEM_MAX_BLOCK_SIZE in Hfb; lia).
  apply wp_bind, wp_put_block; [lia|xsimpl; unfold XMODEM_MAX_BLOCK_SIZE in Hfb; lia|].
  apply wp_bind, wp_modify, wp_bind, wp_get. xsimpl.
  rewrite Hn, Z.add_0_r, (proj2 (Z.eqb_neq _ 1)) by lia. cbn [andb].
  rewrite Hfl, Hy. cbn [andb].
  unfold receive_data. apply wp_bind, wp_get.
  match goal with |- wp _ ?s1 _ => set (s' := s1) end.
  assert (Hcb : current_block s' =
    frame fl (current_block_sequence_i s') data ++ drop (length (frame fl seq data)) (current_block r)).
  { unfold s'. xsimpl. rewrite ?Hn, Hseq. change (Z.to_nat 0) with 0%nat. apply blit_0. }
  assert (Hn' : current_block_n s' = Z.of_nat (length (frame fl seq data)))
    by (unfold s'; xsimpl; lia).
  rewrite (frame_complete fl (current_block_sequence_i s') data s' _) by
    (try done; unfold s'; xsimpl; by rewrite Hseq).
  apply wp_bind.
  eapply (wp_verify_block s' f D data _ _); [..|eapply frame_accepted; [exact Hfl| |exact Hleg|exact Hcb]| |].
  - unfold s'. xsimpl. apply bytes_blit; [done|]. by apply bytes_frame.
  - unfold s'. xsimpl. rewrite length_blit; [done|]. unfold XMODEM_MAX_BLOCK_SIZE in Hfb. lia.
  - rewrite Hn'. change (flavor s') with (flavor r). by rewrite Hfl.
  - change (is_byte (current_block_sequence_i r)). by rewrite Hseq.
  - eapply writing_less; [|exact Hroom]. by apply (writing_same_env r).
  - xsteps. apply HQ; try done. split; try done.
    + destruct H0 as [Hd _ _ _]. destruct H as [Hd' _ _ _]. xsimpl. rewrite Hd.
      unfold others, saved, disk_append. xsimpl. rewrite delete_insert_eq, <- Hfs.
      unfold others. by rewrite <- Hd'.
    + xsimpl. rewrite (running_same_env _ _ H0).
      change (transfer_running c = true). by rewrite (running_same_env _ _ H).
    + apply bytes_replicate. by unfold is_byte.
    + change (u8 (current_block_sequence_i r + 1) = u8 (seq + 1)). by rewrite Hseq.
    + exists (f <| f_pos := Z.of_nat (length (D ++ data)) |>). split; [done|].
      apply (writing_same_env (saved s' f D data)); [exact H0|done|].
      apply writing_saved; [|done]. by apply (writing_same_env r).
Qed.

(** The same through [xmodem_receive], first block or not. *)
Lemma wp_receiver_frame fl name D data seq room fs r m (Q : bool -> xmodem_state -> Prop) :
  acked fl = true -> legal_data fl data -> bytes data -> is_byte seq ->
  Z.of_nat (length data) <= room -> XMODEM_MAX_BLOCK_SIZE < m ->
  receiver fl name D seq room fs r -> state r = BLOCK \/ state r = FIRST_BLOCK ->
  (forall r', receiver fl name (D ++ data) (u8 (seq + 1)) (room - Z.of_nat (length data)) fs r' ->
     state r' = BLOCK -> output r' = [C_ACK] -> Q true r') ->
  wp (protocol_process_data (frame fl seq data) [] m) r Q.
Proof.
  intros Hack Hleg Hdb Hq Hroom Hm [Hfs Hrun Hfl Hsend Hlen Hn Hbb Hseq (f & Hname & Hw)] Hst HQ.
  pose proof (frame_bounds fl seq data Hleg) as Hfb.
  apply wp_xmodem_once; [done|cbn; lia|destruct Hst as [-> | ->]; done|]. rewrite Hsend.
  assert (Hblock : forall r0, shared r0 = shared r -> flavor r0 = fl -> sending r0 = false ->
    length (current_block r0) = 1029%nat -> bytes (current_block r0) -> current_block_n r0 = 0 ->
    current_block_sequence_i r0 = seq -> file r0 = file r -> input r0 = frame fl seq data ->
    state r0 = BLOCK -> wp receive_block r0 (fun _ s' => input s' = [] /\ Q true s')).
  { intros r0 Hsh ? ? ? ? ? ? Hf0 ? ?.
    eapply (wp_receive_frame fl f D data seq room fs); try done.
    - by rewrite Hsh.
    - by rewrite Hname, Hsh.
    - apply (writing_same_env r); [by rewrite Hsh|done..].
    - intros r' Hr' Hs' Ho Hi. split; [done|]. apply HQ; try done. by rewrite <- Hname. }
  unfold xmodem_receive. apply wp_bind, wp_gets. xsimpl.
  rewrite decide_False by (destruct Hst as [-> | ->]; done).
  destruct Hst as [E|E]; rewrite E; apply wp_bind.
  - rewrite decide_False by done. apply wp_ret, wp_bind, wp_gets. xsimpl. rewrite E.
    rewrite decide_True by done. by apply Hblock.
  - rewrite decide_True by done. unfold receive_first_block. apply wp_bind, wp_gets. xsimpl.
    rewrite (proj2 (Z.eqb_neq _ _)) by lia. apply wp_bind, wp_modify, wp_ret.
    apply wp_bind, wp_gets. xsimpl. rewrite decide_True by done. by apply Hblock.
Qed.

(** The first call sends the byte that starts the transfer. *)
Lemma wp_receiver_init fl name D seq room fs r m (Q : bool -> xmodem_state -> Prop) :
  XMODEM_MAX_BLOCK_SIZE < m -> receiver fl name D seq room fs r -> state r = INIT ->
  (forall r', receiver fl name D seq room fs r' -> state r' = BLOCK \/ state r' = FIRST_BLOCK ->
     output r' = [first_byte r] -> Q true r') ->
  wp (protocol_process_data [] [] m) r Q.
Proof.
  intros Hm [Hfs Hrun Hfl Hsend Hlen Hn Hbb Hseq (f & Hname & Hw)] Hst HQ.
  apply wp_xmodem_once; [done|cbn; lia|by rewrite Hst|]. rewrite Hsend.
  unfold xmodem_receive. apply wp_bind, wp_gets. xsimpl. rewrite Hst, decide_True by done.
  unfold receive_init. xsteps. split; [done|].
  apply HQ; [|xsimpl; case_bool_decide; auto|done].
  split; try done.
  - xsimpl. destruct H as [Hd _ _ _]. by rewrite Hd.
  - xsimpl. by rewrite (running_same_env _ _ H).
  - exists f. split; [done|]. by apply (writing_same_env r).
Qed.

(** ** The end of the file *)

Definition disk_set (d : disk) (name : cstring) (data : list Z) : disk :=
  d <| d_files ::= <[name := data]> |>.

Lemma disk_set_set d name a b : disk_set (disk_set d name a) name b = disk_set d name b.
Proof. unfold disk_set, field_update; cbn. by rewrite insert_insert_eq. Qed.

Lemma wp_stop_save s (Q : unit -> xmodem_state -> Prop) :
  Q tt (s <| file := None |> <| filename := None |>) -> wp (xmodem_stop true) s Q.
Proof. intros HQ. unfold xmodem_stop. apply wp_bind, wp_get. cbn [orb]. xsteps. exact HQ. Qed.

(** The block and the input of two states agree. *)
Record same_shape (s s' : xmodem_state) : Prop := {
  ss_flavor : flavor s' = flavor s;
  ss_sending : sending s' = sending s;
  ss_block : current_block s' = current_block s;
  ss_n : current_block_n s' = current_block_n s;
  ss_input : input s' = input s
}.

#[global] Instance same_shape_preorder : PreOrder same_shape.
Proof. split; [by intros s|]. intros s1 s2 s3 [] []. split; congruence. Qed.

(** The part of the state a finished transfer is judged by. *)
Record completed (d : disk) (out : list Z) (s0 s : xmodem_state) : Prop := {
  cp_state : state s = COMPLETE;
  cp_disk : the_disk (shared s) = d;
  cp_output : output s = out;
  cp_shape : same_shape s0 s;
  cp_end : qts_state (q_transfer_stats (shared s)) = Q_TRANSFER_STATE_END
}.

Lemma completed_from d out s0 s1 s :
  same_shape s0 s1 -> completed d out s1 s -> completed d out s0 s.
Proof. intros H []. split; try done. by etrans. Qed.

Lemma wp_stop_file_transfer st s (Q : unit -> xmodem_state -> Prop) :
  (forall s', state s' = state s -> the_disk (shared s') = the_disk (shared s) ->
     output s' = output s -> same_shape s s' ->
     qts_state (q_transfer_stats (shared s')) = st -> Q tt s') ->
  wp (stop_file_transfer st) s Q.
Proof.
  intros HQ. unfold stop_file_transfer. apply wp_bind, wp_gets, wp_bind.
  assert (Hrest : forall s1, state s1 = state s -> the_disk (shared s1) = the_disk (shared s) ->
     output s1 = output s -> same_shape s s1 ->
     wp (lift (finish_file_transfer st);;
         modify (fun s => s <| upload_file_list := None |>)) s1 Q).
  { intros s1 ? ? ? []. apply wp_bind, wp_lift. by apply HQ. }
  destruct (qts_protocol _); try by apply Hrest.
  all: unfold ymodem_stop; repeat apply wp_bind; apply wp_stop_save; try apply wp_modify;
    by apply Hrest.
Qed.

Lemma wp_complete_ok s (Q : unit -> xmodem_state -> Prop) :
  (forall s', completed (the_disk (shared s)) (output s) s s' -> Q tt s') ->
  wp stats_file_complete_ok s Q.
Proof.
  intros HQ. unfold stats_file_complete_ok. xsteps.
  apply wp_stop_file_transfer. intros s' Hs Hd Ho [] Hq. xsteps.
  match goal with |- Q ?u _ => destruct u end. apply HQ.
  destruct H, H0, H1, H2, H3. xsimpl_hyps. split; xsimpl; try congruence. by split.
Qed.

(** One turn of [eot_trim] on a non-empty file: the last byte is read, the
    stream is left at the end. *)
Lemma wp_eot_turn last f D b s (Q : option Z * bool -> xmodem_state -> Prop) :
  file s = Some f -> d_files (the_disk (shared s)) !! f_name f = Some (D ++ [b]) ->
  f_name f ∉ d_unreadable (the_disk (shared s)) ->
  1 <= f_pos f <= Z.of_nat (length D) + 2 -> Z.of_nat (length D) + 2 < 2 ^ 31 ->
  (b <> C_SUB ->
   forall s', completed (the_disk (shared s)) [C_ACK] s s' -> Q (Some b, false) s') ->
  (b = C_SUB ->
   forall s' f', file s' = Some f' -> f_name f' = f_name f ->
     f_pos f' = Z.of_nat (length D) + 1 -> same_shape s s' ->
     the_disk (shared s') = disk_set (the_disk (shared s)) (f_name f)
        (take (Z.to_nat (f_pos f - 1)) (D ++ [b])) -> Q (Some C_SUB, true) s') ->
  wp (eot_turn last) s Q.
Proof.
  intros Hf Hd Hok Hp Hl HQ1 HQ2. unfold eot_turn.
  apply wp_bind, wp_gets, wp_bind. eapply wp_nonnull; [done|].
  apply wp_bind, wp_gets. cbv zeta. unfold fseek_end, f_size, f_data.
  rewrite Hd. cbn [default from_option id]. rewrite length_app. cbn [length].
  rewrite (proj2 (Z.ltb_ge _ _)) by lia. cbn beta iota.
  change (negb (0 =? 0)) with false. cbn [whenM]. apply wp_bind, wp_ret.
  rewrite (fread_chunk _ _ (D ++ [b])) by (xsimpl; first [exact Hd | exact Hok | lia]). xsimpl.
  replace (Z.to_nat (Z.of_nat (length D + 1) + -1)) with (length D) by lia.
  rewrite drop_app_length. change (take 1 [b]) with [b].
  rewrite !bool_decide_false by (cbn [length]; first [lia | done]). cbn [whenM length].
  apply wp_bind, wp_ret, wp_bind, wp_modify.
  destruct (Z.eqb_spec b C_SUB) as [->|Hne].
  - unfold ftell. rewrite i32_id by lia.
    rewrite (ftruncate_take _ _ _ (D ++ [C_SUB])) by
      (first [exact Hd | rewrite length_app; cbn [length]; lia]).
    xsimpl. apply wp_bind, wp_lift, wp_modify. change (negb (0 =? 0)) with false.
    cbn [whenM]. apply wp_bind, wp_ret. xsteps. xsimpl_in H. eapply HQ2; try done; xsimpl.
    + lia.
    + destruct H as [H _ _ _]. xsimpl_in H. exact H.
  - apply wp_bind, wp_modify, wp_bind, wp_complete_ok. intros s' Hs'. apply wp_ret.
    apply HQ1; [done|]. refine (completed_from _ _ s _ s' _ Hs'). by split.
Qed.

(** The loop from a stream at the end of its file, or one byte past it. *)
Lemma wp_eot_trim d0 D : forall fuel last f s (Q : unit -> xmodem_state -> Prop),
  file s = Some f -> the_disk (shared s) = disk_set d0 (f_name f) D ->
  f_name f ∉ d_unreadable d0 -> Z.of_nat (length D) + 1 < 2 ^ 31 ->
  strip_trailing C_SUB D <> [] ->
  Z.of_nat (length D) <= f_pos f <= Z.of_nat (length D) + 1 ->
  (2 * length D + Z.to_nat (f_pos f - Z.of_nat (length D)) <= fuel)%nat ->
  (forall s', completed (disk_set d0 (f_name f) (strip_trailing C_SUB D)) [C_ACK] s s' ->
     Q tt s') ->
  wp (eot_trim fuel last) s Q.
Proof.
  intros fuel. revert D. induction fuel as [|fuel IH]; intros D last f s Q Hf Hd Hok Hl Hne Hp Hfuel HQ;
    destruct D as [|b D _] using rev_ind; try done; rewrite length_app in *; cbn [length] in *.
  { lia. }
  cbn [eot_trim]. apply wp_bind, (wp_eot_turn last f D b s _ Hf).
  - rewrite Hd. unfold disk_set. xsimpl. apply lookup_insert_eq.
  - by rewrite Hd.
  - lia.
  - lia.
  - intros Hb s' Hs'. apply wp_ret, HQ. rewrite strip_trailing_snoc_ne by done. by rewrite <- Hd.
  - intros -> s' f' Hf' Hn' Hp' Hi' Hd'. cbn [fst snd]. rewrite strip_trailing_snoc_eq in Hne, HQ.
    rewrite Hd, disk_set_set in Hd'.
    destruct (decide (f_pos f = Z.of_nat (length D) + 1)) as [E|E].
    + replace (Z.to_nat (f_pos f - 1)) with (length D) in Hd' by lia.
      rewrite take_app_length in Hd'.
      apply (IH D _ f'); rewrite ?Hn'; try done; try lia.
      intros s2 H2. apply HQ. by apply (completed_from _ _ s s').
    + replace (Z.to_nat (f_pos f - 1)) with (length (D ++ [C_SUB])) in Hd'
        by (rewrite length_app; cbn [length]; lia).
      rewrite take_ge in Hd' by lia.
      apply (IH (D ++ [C_SUB]) _ f'); rewrite ?Hn', ?length_app, ?strip_trailing_snoc_eq;
        cbn [length]; try done; try lia.
      intros s2 H2. apply HQ. by apply (completed_from _ _ s s').
Qed.

(** An empty block and no input left. *)
Definition cleared (s : xmodem_state) : xmodem_state :=
  s <| current_block := replicate 1029 0 |> <| current_block_n := 0 |> <| input := [] |>.

Lemma cleared_shape s s' :
  flavor s' = flavor s -> sending s' = sending s -> same_shape (cleared s) (cleared s').
Proof. by split. Qed.

(** [receive_eot] for Xmodem, reached by an EOT in an empty block. *)
Lemma wp_receive_eot f D room s (Q : unit -> xmodem_state -> Prop) :
  is_ymodem (flavor s) = false -> writing s f D room ->
  Z.of_nat (length D) + 1 < 2 ^ 31 -> strip_trailing C_SUB D <> [] ->
  (forall s', completed (disk_set (the_disk (shared s)) (f_name f) (strip_trailing C_SUB D))
                [C_ACK] (cleared s) s' -> Q tt s') ->
  wp receive_eot s Q.
Proof.
  intros Hy [Hf Hd Hok Hp _] Hl Hne HQ. unfold receive_eot.
  apply wp_bind, wp_modify, wp_bind, wp_get. xsimpl. rewrite Hy. apply wp_bind.
  apply (wp_eot_trim (the_disk (shared s)) D _ _ f); xsimpl; try done.
  - unfold disk_set. destruct (the_disk (shared s)); cbn in *. unfold field_update; cbn.
    by rewrite insert_id.
  - lia.
  - unfold eot_fuel. xsimpl. rewrite Hf. unfold f_data. rewrite Hd. cbn. lia.
  - intros s' [Hs Hdk Ho [] He]. apply wp_modify, HQ. by split.
Qed.

Lemma eot_in_block buf : blit buf (Z.to_nat 0) [C_EOT] !!! 0%nat =? C_EOT = true.
Proof. change (Z.to_nat 0) with 0%nat. by rewrite blit_0. Qed.

Lemma eot_length : Z.of_nat (length [C_EOT]) = 1.
Proof. done. Qed.

Lemma wp_receive_block_eot f D s (Q : unit -> xmodem_state -> Prop) :
  acked (flavor s) = true -> input s = [C_EOT] -> current_block_n s = 0 ->
  length (current_block s) = 1029%nat -> writing s f D 0 ->
  Z.of_nat (length D) + 1 < 2 ^ 31 -> strip_trailing C_SUB D <> [] ->
  (forall s', completed (disk_set (the_disk (shared s)) (f_name f) (strip_trailing C_SUB D))
                [C_ACK] (cleared s) s' -> Q tt s') ->
  wp receive_block s Q.
Proof.
  intros Hack Hin Hn Hlen Hw Hl Hne HQ.
  apply andb_prop in Hack as [Hy Hg]. apply negb_true_iff in Hy, Hg.
  unfold receive_block. apply wp_bind, wp_get. cbv zeta. rewrite Hin, eot_length.
  rewrite (proj2 (Z.eqb_neq 1 0)) by lia. apply wp_bind. xstep. xsimpl.
  rewrite Hn, Hg, Hlen. rewrite (proj2 (Z.ltb_ge XMODEM_MAX_BLOCK_SIZE (0 + 1))) by done.
  rewrite (proj2 (Z.ltb_ge (Z.of_nat 1029) (0 + 1))) by done. cbn [andb].
  apply wp_bind, wp_put_block; [lia|xsimpl; rewrite Hlen, eot_length; lia|].
  apply wp_bind, wp_modify, wp_bind, wp_get. xsimpl. rewrite Hn.
  unfold cb. xsimpl.
  rewrite (proj2 (Z.eqb_eq (1 + 0) 1)) by done. rewrite eot_in_block. cbn [andb]. 
  xsimpl_in H. apply (wp_receive_eot f D 0); xsimpl; [done| |done|done|].
  - by apply (writing_same_env s).
  - intros s' Hs'. destruct H as [H _ _ _]. apply HQ. rewrite <- H.
    refine (completed_from _ _ _ _ _ _ Hs'). by apply cleared_shape.
Qed.

Lemma wp_receiver_eot fl name D seq room fs r m (Q : bool -> xmodem_state -> Prop) :
  acked fl = true -> XMODEM_MAX_BLOCK_SIZE < m -> receiver fl name D seq room fs r ->
  0 <= room -> state r = BLOCK -> Z.of_nat (length D) + 1 < 2 ^ 31 -> strip_trailing C_SUB D <> [] ->
  (forall r', completed (disk_set (the_disk (shared r)) name (strip_trailing C_SUB D)) [C_ACK]
       (cleared r) r' ->
     Q true r') ->
  wp (protocol_process_data [C_EOT] [] m) r Q.
Proof.
  intros Hack Hm [Hfs Hrun Hfl Hsend Hlen Hn Hbb Hseq (f & Hname & Hw)] Hroom Hst Hl Hne HQ.
  apply wp_xmodem_once; [done|cbn; lia|by rewrite Hst|]. rewrite Hsend.
  unfold xmodem_receive. apply wp_bind, wp_gets. xsimpl. rewrite Hst, decide_False by done.
  rewrite decide_False by done. apply wp_bind, wp_ret, wp_bind, wp_gets. xsimpl.
  rewrite Hst, decide_True by done. apply (wp_receive_block_eot f D); xsimpl; try done.
  - rewrite Hfl. exact Hack.
  - eapply writing_less; [|exact Hroom]. by apply (writing_same_env r).
  - intros s' Hs'. split; [apply Hs'|]. apply HQ. rewrite <- Hname.
    refine (completed_from _ _ _ _ _ _ Hs'). by apply cleared_shape.
Qed.
