(* ===== verification/XmodemSend.v ===== *)
(** The Xmodem sender: the stages of its handler between two blocks. *)

From Stdlib Require Import ZArith Lia List Bool.
From stdpp Require Import base list numbers gmap strings.
From S2P Require Import Prelude Crc Stdio Protocols Xmodem XmodemBlock XmodemReceive.
Import Xmodem.

(** ** Stages *)

Lemma wp_skip st m1 m2 s (Q : bool -> xmodem_state -> Prop) :
  state s <> st -> wp m2 s Q -> wp (then_stage (stage st m1) m2) s Q.
Proof.
  intros Hst H. unfold then_stage, stage. apply wp_bind, wp_bind, wp_gets.
  rewrite decide_False by done. by apply wp_ret.
Qed.

Lemma wp_enter st m1 m2 s (Q : bool -> xmodem_state -> Prop) :
  state s = st -> wp m1 s (fun r s' => if r : bool then Q true s' else wp m2 s' Q) ->
  wp (then_stage (stage st m1) m2) s Q.
Proof.
  intros Hst H. unfold then_stage, stage. apply wp_bind, wp_bind, wp_gets.
  rewrite decide_True by done. eapply wp_mono; [exact H|]. intros [] s' HQ; [|done].
  by apply wp_ret.
Qed.

Lemma wp_enter_last st m s (Q : bool -> xmodem_state -> Prop) :
  state s = st -> wp m s Q -> wp (stage st m) s Q.
Proof. intros Hst H. unfold stage. apply wp_bind, wp_gets. by rewrite decide_True. Qed.

Lemma wp_skip_last st m s (Q : bool -> xmodem_state -> Prop) :
  state s <> st -> Q false s -> wp (stage st m) s Q.
Proof. intros Hst H. unfold stage. apply wp_bind, wp_gets. by rewrite decide_False. Qed.

Lemma wp_not_cancelled m s (Q : bool -> xmodem_state -> Prop) :
  input0 s <> C_CAN -> wp m s Q -> wp (then_stage send_check_cancel m) s Q.
Proof.
  intros Hi H. unfold then_stage, send_check_cancel. apply wp_bind, wp_bind, wp_get.
  rewrite (proj2 (Z.eqb_neq _ _) Hi), andb_false_r. by apply wp_ret.
Qed.

Lemma wp_returns m s (Q : bool -> xmodem_state -> Prop) :
  wp m s (fun _ s' => Q true s') -> wp (returns m) s Q.
Proof. intros H. unfold returns. apply wp_bind. eapply wp_mono; [exact H|]. done. Qed.

(** The handler on an input of one byte that is not CAN, in each state. *)
Section stages.
Context (s : xmodem_state) (Q : unit -> xmodem_state -> Prop).
Hypothesis Hcan : input0 s <> C_CAN.

Lemma wp_send_in_block :
  state s = BLOCK -> wp send_block s (fun r s' => r = true /\ Q tt s') -> wp xmodem_send s Q.
Proof.
  intros Hst H. unfold xmodem_send. apply wp_bind, wp_not_cancelled; [done|].
  do 4 (apply wp_skip; [by rewrite Hst|]). apply wp_enter; [done|].
  eapply wp_mono; [exact H|]. intros r s' [-> HQ]. by apply wp_ret.
Qed.

Lemma wp_send_in_last_block :
  state s = LAST_BLOCK -> wp send_last_block s (fun r s' => r = true /\ Q tt s') ->
  wp xmodem_send s Q.
Proof.
  intros Hst H. unfold xmodem_send. apply wp_bind, wp_not_cancelled; [done|].
  do 6 (apply wp_skip; [by rewrite Hst|]). apply wp_enter; [done|].
  eapply wp_mono; [exact H|]. intros r s' [-> HQ]. by apply wp_ret.
Qed.

Lemma wp_send_in_eot_ack :
  state s = EOT_ACK ->
  wp send_eot_ack s (fun r s' => r = false /\ Q tt (s' <| input := [] |>)) -> wp xmodem_send s Q.
Proof.
  intros Hst H. unfold xmodem_send. apply wp_bind, wp_not_cancelled; [done|].
  do 7 (apply wp_skip; [by rewrite Hst|]). apply wp_enter_last; [done|].
  eapply wp_mono; [exact H|]. intros r s' [-> HQ]. by apply wp_modify.
Qed.

(** [INIT] falls through to [BLOCK]. *)
Lemma wp_send_in_init :
  state s = INIT ->
  wp send_init s (fun r s' => r = false /\ state s' = BLOCK /\
    wp send_block s' (fun r s'' => r = true /\ Q tt s'')) ->
  wp xmodem_send s Q.
Proof.
  intros Hst H. unfold xmodem_send. apply wp_bind, wp_not_cancelled; [done|].
  apply wp_enter; [done|]. eapply wp_mono; [exact H|]. intros r s' (-> & Hst' & HQ).
  do 3 (apply wp_skip; [by rewrite Hst'|]). apply wp_enter; [done|].
  eapply wp_mono; [exact HQ|]. intros r s'' [-> HQ']. by apply wp_ret.
Qed.
End stages.

(** ** A block goes out *)

(** What the sender keeps between two calls. *)
Record sender (fl : XMODEM_FLAVOR) (seq : Z) (ds : disk) (s : xmodem_state) : Prop := {
  sn_disk : the_disk (shared s) = ds;
  sn_running : transfer_running (shared s) = true;
  sn_flavor : flavor s = fl;
  sn_sending : sending s = true;
  sn_len : length (current_block s) = 1029%nat;
  sn_seq : current_block_sequence_i s = seq
}.

Lemma reading_same_env s s' f D :
  same_env (shared s) (shared s') -> file s' = file s -> reading s f D -> reading s' f D.
Proof. intros [] Hf []. split; try done; congruence. Qed.

Lemma length_chunk fl f D :
  length (chunk fl f D) = (chunk_size fl `min` (length D - Z.to_nat (f_pos f)))%nat.
Proof. unfold chunk. by rewrite length_take, length_drop. Qed.

Lemma reading_advance s s' f D :
  same_env (shared s) (shared s') ->
  file s' = Some (advance f (chunk (flavor s) f D) false) ->
  reading s f D -> reading s' (advance f (chunk (flavor s) f D) false) D.
Proof.
  intros [] Hf [? ? ? Hp ? ? ?]. pose proof (length_chunk (flavor s) f D).
  unfold advance in *. split; xsimpl; try done; try congruence. lia.
Qed.

(** The sender after the chunk at [f_pos f]. *)
Definition sent (fl : XMODEM_FLAVOR) (seq : Z) (ds : disk) (f : FILE) (D : list Z) (s' : xmodem_state) : Prop :=
  let c := chunk fl f D in
  let short := is_short fl c in
  sender fl (u8 (seq + 1)) ds s' /\
  state s' = (if short then LAST_BLOCK else BLOCK) /\
  output s' = frame fl seq (block_data fl c) /\
  input s' = [] /\
  file s' = Some (advance f c short) /\
  (short = false -> reading s' (advance f c false) D).

Lemma wp_send_next_block fl seq ds f D s (Q : unit -> xmodem_state -> Prop) :
  acked fl = true -> sender fl seq ds s -> reading s f D -> state s = BLOCK -> output s = [] ->
  XMODEM_MAX_BLOCK_SIZE < output_max s ->
  (forall s', sent fl seq ds f D s' -> Q tt s') -> wp send_next_block s Q.
Proof.
  intros Hack [Hdk Hrun Hfl Hsend Hlen Hseq] HR Hst Hout Hmax HQ.
  apply andb_prop in Hack as [_ Hg]. apply negb_true_iff in Hg.
  unfold send_next_block. apply wp_bind. xstep. xsimpl.
  apply wp_bind, wp_modify, wp_bind.
  apply (wp_construct_block _ f D);
    [by apply (reading_same_env s)|xsimpl; by rewrite length_replicate|].
  intros rest s1 Hl'. cbn beta iota.
  set (ch := chunk (flavor s) f D) in *. set (short := is_short (flavor s) ch) in *.
  assert (Hbb : block_bytes s1 = frame fl seq (block_data fl ch)).
  { unfold s1, block_bytes, built. xsimpl. rewrite Nat2Z.id, take_app_length. by rewrite <- Hfl, <- Hseq. }
  assert (Hfile : file s1 = Some (advance f ch short)) by done.
  assert (Hst1 : state s1 = if short then LAST_BLOCK else BLOCK)
    by (rewrite <- Hst; done).
  assert (Hsh1 : same_env (shared s) (shared s1)) by done.
  assert (Hfl1 : flavor s1 = fl) by done. assert (Hsend1 : sending s1 = true) by done.
  assert (Hseq1 : current_block_sequence_i s1 = u8 (seq + 1)) by (rewrite <- Hseq; done).
  assert (Hout1 : output s1 = []) by done.
  assert (Hmax1 : XMODEM_MAX_BLOCK_SIZE < output_max s1) by done.
  clearbody s1. assert (Hleg : legal_data fl (block_data fl ch)).
  { apply legal_block_data. unfold ch, chunk. rewrite Hfl, length_take. lia. }
  pose proof (frame_bounds fl seq _ Hleg) as Hfb.
  apply wp_bind, wp_get. rewrite Hfl1, Hg, Hbb. cbn [negb whenM].
  apply wp_bind, wp_assert; [by rewrite bool_decide_true|].
  apply wp_bind, wp_append_output; [rewrite Hout1; cbn [length]; lia|].
  rewrite Hout1. cbn [app].
  assert (Hend : forall cm, same_env (shared s1) cm ->
    Q tt (s1 <| output := frame fl seq (block_data fl ch) |> <| shared := cm |> <| input := [] |>)).
  { intros cm Hcm. apply HQ. unfold sent. rewrite <- Hfl. fold ch. rewrite <- Hfl in *. fold short.
    split; [|split; [|split; [|split; [|split]]]]; xsimpl; try done.
    - split; xsimpl; try done; [destruct Hsh1, Hcm; congruence|].
      rewrite (running_same_env _ _ Hcm). by rewrite (running_same_env _ _ Hsh1).
    - intros Hs. apply (reading_advance s); xsimpl; try done; [by etrans|].
      by rewrite Hfile, Hs. }
  apply wp_bind. case_decide; xsteps; apply Hend; xsimpl_hyps; [by etrans|done].
Qed.

Lemma wp_send_block_acked fl seq ds f D s (Q : bool -> xmodem_state -> Prop) :
  acked fl = true -> sender fl seq ds s -> reading s f D -> state s = BLOCK -> output s = [] ->
  XMODEM_MAX_BLOCK_SIZE < output_max s -> input s = [C_ACK] ->
  (forall s', sent fl seq ds f D s' -> Q true s') -> wp send_block s Q.
Proof.
  intros Hack Hs HR Hst Hout Hmax Hin HQ. unfold send_block. apply wp_bind, wp_get. cbv zeta.
  unfold input0. rewrite Hin. apply wp_returns. by apply (wp_send_next_block fl seq ds f D).
Qed.

(** ** The calls of a session *)

Lemma sender_inputs fl seq ds s inp m : sender fl seq ds s ->
  sender fl seq ds (s <| input := inp |> <| output := [] |> <| output_max := m |>).
Proof. by intros []. Qed.

Lemma wp_sender_call inp fl seq ds s m (Q : bool -> xmodem_state -> Prop) :
  sender fl seq ds s -> XMODEM_MAX_BLOCK_SIZE < m -> state s <> ABORT ->
  wp xmodem_send (s <| input := inp |> <| output := [] |> <| output_max := m |>)
    (fun _ s' => input s' = [] /\ Q true s') ->
  wp (protocol_process_data inp [] m) s Q.
Proof.
  intros [] Hm Hst H. apply wp_xmodem_once; [done|cbn; lia|done|].
  by rewrite sn_sending0.
Qed.

(** The byte the receiver starts the transfer with. *)
Definition start_byte (fl : XMODEM_FLAVOR) : Z := if uses_crc fl then CHAR_C else C_NAK.

Lemma wp_send_init_start fl s (Q : bool -> xmodem_state -> Prop) :
  acked fl = true -> flavor s = fl -> first_byte s = start_byte fl -> input s = [start_byte fl] ->
  (forall c, same_env (shared s) c ->
     Q false (s <| shared := c |> <| state := BLOCK |> <| input := [C_ACK] |>)) ->
  wp send_init s Q.
Proof.
  intros Hack Hfl Hfb Hin HQ. unfold send_init. apply wp_bind. xstep. apply wp_bind, wp_get.
  xsimpl. unfold input0, fake_ack. xsimpl. rewrite Hin, Hfl, Hfb. cbn [length nth].
  change (Z.of_nat 1 =? 0) with false. cbv iota. rewrite Z.eqb_refl.
  destruct fl; try done; apply wp_bind, wp_modify; apply wp_bind; xstep;
    apply wp_bind, wp_modify, wp_ret;
    match goal with |- Q false ?x =>
      replace x with (s <| shared := c0 |> <| state := BLOCK |> <| input := [C_ACK] |>)
        by (unfold field_update; cbn; by rewrite Hin) end;
    xsimpl_hyps; apply (HQ c0); by etrans.
Qed.

Lemma wp_sender_first fl seq ds f D s m (Q : bool -> xmodem_state -> Prop) :
  acked fl = true -> sender fl seq ds s -> reading s f D -> state s = INIT ->
  first_byte s = start_byte fl -> XMODEM_MAX_BLOCK_SIZE < m ->
  (forall s', sent fl seq ds f D s' -> Q true s') ->
  wp (protocol_process_data [start_byte fl] [] m) s Q.
Proof.
  intros Hack Hs HR Hst Hfb Hm HQ. apply (wp_sender_call _ fl seq ds); [done|done|by rewrite Hst|].
  apply wp_send_in_init; [unfold input0; xsimpl; by destruct fl|done|].
  apply (wp_send_init_start fl); [done|by apply Hs|done|done|].
  intros c Hc. split; [done|]. split; [done|].
  apply (wp_send_block_acked fl seq ds f D); try done.
  - destruct Hs. split; try done; xsimpl; [xsimpl_in Hc; destruct Hc; congruence|].
    by rewrite (running_same_env _ _ Hc).
  - by apply (reading_same_env s).
  - intros s' Hs'. split; [done|]. split; [apply Hs'|by apply HQ].
Qed.

Lemma wp_sender_ack fl seq ds f D s m (Q : bool -> xmodem_state -> Prop) :
  acked fl = true -> sender fl seq ds s -> reading s f D -> state s = BLOCK ->
  XMODEM_MAX_BLOCK_SIZE < m ->
  (forall s', sent fl seq ds f D s' -> Q true s') ->
  wp (protocol_process_data [C_ACK] [] m) s Q.
Proof.
  intros Hack Hs HR Hst Hm HQ. apply (wp_sender_call _ fl seq ds); [done|done|by rewrite Hst|].
  apply wp_send_in_block; [done|done|].
  apply (wp_send_block_acked fl seq ds f D); try done; [by apply sender_inputs| |].
  - by apply (reading_same_env s).
  - intros s' Hs'. split; [done|]. split; [apply Hs'|by apply HQ].
Qed.

Lemma wp_sender_eot fl seq ds s m (Q : bool -> xmodem_state -> Prop) :
  acked fl = true -> sender fl seq ds s -> state s = LAST_BLOCK -> XMODEM_MAX_BLOCK_SIZE < m ->
  (forall s', sender fl seq ds s' -> state s' = EOT_ACK -> output s' = [C_EOT] -> file s' = file s ->
     Q true s') ->
  wp (protocol_process_data [C_ACK] [] m) s Q.
Proof.
  intros Hack Hs Hst Hm HQ. apply (wp_sender_call _ fl seq ds); [done|done|by rewrite Hst|].
  apply wp_send_in_last_block; [done|done|].
  unfold send_last_block. apply wp_bind, wp_get. cbv zeta. unfold input0. xsimpl.
  change ((Z.of_nat (length [C_ACK]) =? 1) && (nth 0 [C_ACK] 0 =? C_ACK)) with true.
  cbn [orb]. apply wp_returns. apply wp_bind, wp_append_output.
  { unfold XMODEM_MAX_BLOCK_SIZE in Hm. cbn. lia. }
  xsteps. split; [done|]. split; [done|]. apply HQ; try done.
  xsimpl_hyps. destruct Hs. split; try done; xsimpl.
  { destruct H, H0, H1, H2. congruence. }
  rewrite (running_same_env _ _ H2), (running_same_env _ _ H1), (running_same_env _ _ H0).
  by rewrite (running_same_env _ _ H).
Qed.

Lemma wp_sender_done fl seq ds s m (Q : bool -> xmodem_state -> Prop) :
  acked fl = true -> sender fl seq ds s -> state s = EOT_ACK -> XMODEM_MAX_BLOCK_SIZE < m ->
  is_Some (file s) ->
  (forall s', completed (the_disk (shared s)) [] (s <| input := [] |>) s' -> Q true s') ->
  wp (protocol_process_data [C_ACK] [] m) s Q.
Proof.
  intros Hack Hs Hst Hm [f Hf] HQ. apply (wp_sender_call _ fl seq ds); [done|done|by rewrite Hst|].
  apply wp_send_in_eot_ack; [done|done|].
  apply andb_prop in Hack as [Hy _]. apply negb_true_iff in Hy.
  unfold send_eot_ack. apply wp_bind, wp_get. cbv zeta. unfold input0. xsimpl.
  change (Z.of_nat (length [C_ACK]) =? 0) with false. change (nth 0 [C_ACK] 0 =? C_ACK) with true.
  cbv iota. apply wp_bind, (wp_nonnull _ f); [done|]. apply wp_bind, wp_modify.
  destruct Hs. rewrite sn_flavor0, Hy. apply wp_bind, wp_complete_ok. intros s' [Hs Hd Ho [] He].
  apply wp_ret. split; [done|]. split; [done|]. apply HQ. by split.
Qed.
