(* ===== verification/XmodemSession.v ===== *)
(** A whole Xmodem transfer: a sender and a receiver joined by a line that
    loses nothing. *)

From Stdlib Require Import ZArith Lia List Bool.
From stdpp Require Import base list numbers gmap strings.
From S2P Require Import Prelude Crc Stdio Protocols Xmodem XmodemBlock XmodemReceive XmodemSend.
Import Xmodem.

(** ** The line

    One round hands the bytes in flight to the receiver and its answer to the
    sender; the sender's answer is in flight for the next round. *)
Fixpoint exchange (rounds : nat) (m : Z) (r s : xmodem_state) (flight : list Z) :
    outcome (xmodem_state * xmodem_state * list Z) :=
  match rounds with
  | O => Done (r, s, flight)
  | S rounds =>
    match protocol_process_data flight [] m r with
    | Done (_, r) =>
      match protocol_process_data (output r) [] m s with
      | Done (_, s) => exchange rounds m r s (output s)
      | Fault w => Fault w
      | Diverge => Diverge
      end
    | Fault w => Fault w
    | Diverge => Diverge
    end
  end.

(** ** Starting *)

Lemma wp_start_first_byte fl s (Q : unit -> xmodem_state -> Prop) :
  acked fl = true -> flavor s = fl ->
  (forall c t, same_env (shared s) c ->
     Q tt (s <| timeout_max := t |> <| first_byte := start_byte fl |> <| shared := c |>)) ->
  wp start_first_byte s Q.
Proof.
  intros Hack Hfl HQ. unfold start_first_byte. apply wp_bind, wp_gets, wp_bind. xstep.
  rewrite Hfl. destruct fl; try done; apply wp_bind, wp_modify; xsteps; xsimpl_hyps;
    assert (Hc : same_env (shared s) c0) by (by etrans); destruct s; eapply (HQ c0 _ Hc).
Qed.

Lemma wp_xmodem_start_receive fl name s (Q : bool -> xmodem_state -> Prop) :
  acked fl = true -> transfer_running (shared s) = true ->
  name ∉ d_readonly (the_disk (shared s)) -> name ∉ d_unreadable (the_disk (shared s)) ->
  (forall r, receiver fl name [] 1 (d_space (the_disk (shared s)))
     (others name (the_disk (shared s))) r ->
     state r = INIT -> first_byte r = start_byte fl -> Q true r) ->
  wp (xmodem_start name false fl) s Q.
Proof.
  intros Hack Hrun Hro Hur HQ. unfold xmodem_start, start_open, fopen_wb. apply wp_bind, wp_modify.
  apply wp_bind, wp_bind, wp_gets. xsimpl. rewrite decide_False by done.
  apply wp_bind, wp_lift, wp_modify, wp_bind, wp_modify, wp_ret. cbn [negb].
  do 4 (apply wp_bind, wp_modify). apply wp_bind, wp_modify.
  unfold start_size. apply wp_bind, wp_ret. cbn [negb]. apply wp_bind.
  apply (wp_start_first_byte fl); [done|done|]. intros c t Hc. apply wp_ret.
  xsimpl_hyps. apply HQ; try done. split; try done; xsimpl.
  - destruct Hc as [Hd _ _ _]. xsimpl_in Hd. unfold others. rewrite Hd. xsimpl.
    by rewrite delete_insert_eq.
  - by rewrite (running_same_env _ _ Hc).
  - apply bytes_replicate. by unfold is_byte.
  - exists (opened name). split; [done|]. destruct Hc as [Hd _ _ _]. xsimpl_in Hd.
    split; xsimpl; rewrite ?Hd; xsimpl; try done. apply lookup_insert_eq.
Qed.

Lemma wp_start_statistics fl size s (Q : unit -> xmodem_state -> Prop) :
  acked fl = true -> flavor s = fl ->
  (forall c, same_env (shared s) c -> Q tt (s <| shared := c |>)) ->
  wp (start_statistics size) s Q.
Proof.
  intros Hack Hfl HQ. unfold start_statistics. apply wp_bind, wp_gets. rewrite Hfl.
  destruct fl; try done; apply wp_on_stats; auto; by intros [].
Qed.

Lemma wp_xmodem_start_send fl name D s (Q : bool -> xmodem_state -> Prop) :
  acked fl = true -> transfer_running (shared s) = true ->
  d_files (the_disk (shared s)) !! name = Some D -> bytes D ->
  name ∉ d_unreadable (the_disk (shared s)) -> name ∉ d_nostat (the_disk (shared s)) ->
  (forall s', sender fl 1 (the_disk (shared s)) s' -> reading s' (opened name) D ->
     state s' = INIT -> first_byte s' = start_byte fl -> Q true s') ->
  wp (xmodem_start name true fl) s Q.
Proof.
  intros Hack Hrun Hd Hb Hur Hns HQ. unfold xmodem_start, start_open, fopen_rb. apply wp_bind, wp_modify.
  apply wp_bind, wp_bind, wp_gets. xsimpl. rewrite (stat_file _ _ D) by done. rewrite Hd.
  apply wp_bind, wp_modify, wp_bind. xstep. apply wp_ret. cbn [negb].
  do 4 (apply wp_bind, wp_modify). apply wp_bind, wp_modify.
  unfold start_size. apply wp_bind, wp_bind, wp_gets. xsimpl.
  rewrite (stat_file _ _ D) by (by rewrite (se_disk _ _ H)).
  apply wp_bind. apply (wp_start_statistics fl); [done|done|]. intros c1 Hc1. apply wp_ret. cbn [negb]. apply wp_bind.
  apply (wp_start_first_byte fl); [done|done|]. intros c2 t2 Hc2. apply wp_ret.
  xsimpl_hyps. assert (Hc : same_env (shared s) c2) by (do 2 (etrans; [eassumption|]); done).
  apply HQ; try done; [split; try done; xsimpl; [apply Hc|by rewrite (running_same_env _ _ Hc)]|].
  - destruct Hc as [Hdk _ _ _]. split; xsimpl; rewrite ?Hdk; cbn; try done. lia.
Qed.

(** ** The transfer *)

(** What both sides end in. *)
Definition delivered (m : Z) (name : cstring) (D : list Z) (fs : gmap cstring (list Z)) (ds : disk)
    (o : outcome (xmodem_state * xmodem_state * list Z)) : Prop :=
  exists r s, o = Done (r, s, []) /\ state r = COMPLETE /\ state s = COMPLETE /\
    d_files (the_disk (shared r)) !! name = Some (strip_trailing C_SUB D) /\
    others name (the_disk (shared r)) = fs /\ the_disk (shared s) = ds.

Lemma exchange_round n m r s flight (P : outcome (xmodem_state * xmodem_state * list Z) -> Prop) :
  wp (protocol_process_data flight [] m) r (fun _ r' =>
    wp (protocol_process_data (output r') [] m) s (fun _ s' =>
      P (exchange n m r' s' (output s')))) ->
  P (exchange (S n) m r s flight).
Proof.
  intros H. cbn [exchange]. apply wp_run in H as (b & r' & -> & H).
  by apply wp_run in H as (b' & s' & -> & H).
Qed.

(** The rounds after the last block: the sender ends the file, the receiver
    strips it. *)
Lemma exchange_end fl name D room fs seq seq' ds m r s f :
  acked fl = true -> XMODEM_MAX_BLOCK_SIZE < m -> receiver fl name D seq room fs r ->
  0 <= room -> state r = BLOCK -> Z.of_nat (length D) + 1 < 2 ^ 31 ->
  strip_trailing C_SUB D <> [] ->
  sender fl seq' ds s -> state s = EOT_ACK -> file s = Some f ->
  delivered m name D fs ds (exchange 1 m r s [C_EOT]).
Proof.
  intros Hack Hm Hr Hroom Hst Hl Hne Hs Hst' Hf. apply exchange_round.
  eapply wp_receiver_eot; try done. intros r' [Hr1 Hr2 Hr3 Hr4 _]. rewrite Hr3.
  eapply (wp_sender_done fl seq' ds); [done..|by rewrite Hf|]. intros s' [Hs1 Hs2 Hs3 Hs4 _].
  exists r', s'. cbn [exchange]. rewrite Hs3. split; [done|]. split; [done|]. split; [done|].
  rewrite Hr2, Hs2. destruct Hr, Hs. unfold others, disk_set. xsimpl.
  split; [apply lookup_insert_eq|]. split; [|done]. by rewrite delete_insert_eq.
Qed.

Lemma take_chunk fl f D :
  0 <= f_pos f <= Z.of_nat (length D) ->
  take (Z.to_nat (f_pos f)) D ++ chunk fl f D =
  take (Z.to_nat (f_pos f + Z.of_nat (length (chunk fl f D)))) D.
Proof.
  intros Hp. rewrite length_chunk. unfold chunk. rewrite take_take_drop.
  destruct (Nat.min_spec (chunk_size fl) (length D - Z.to_nat (f_pos f))) as [[? ->] | [? ->]].
  - f_equal. lia.
  - rewrite !take_ge by lia. done.
Qed.

Lemma block_data_full fl c : length c = chunk_size fl -> block_data fl c = c.
Proof.
  intros H. unfold block_data, pad, data_size. rewrite H. unfold chunk_size.
  destruct (is_1k fl); cbn; by rewrite app_nil_r.
Qed.

Lemma bytes_chunk fl f D : bytes D -> bytes (chunk fl f D).
Proof. intros. unfold chunk. auto with qodem. Qed.

(** From a block in flight to the end. *)
Lemma exchange_blocks fl name D m fs ds : forall n r s f seq room,
  acked fl = true -> bytes D -> strip_trailing C_SUB D <> [] ->
  Z.of_nat (length D) + 1025 < 2 ^ 31 -> XMODEM_MAX_BLOCK_SIZE < m -> is_byte seq ->
  0 <= f_pos f <= Z.of_nat (length D) ->
  receiver fl name (take (Z.to_nat (f_pos f)) D) seq room fs r ->
  state r = BLOCK \/ state r = FIRST_BLOCK ->
  Z.of_nat (length D) - f_pos f + 1024 <= room ->
  sent fl seq ds f D s -> n = ((length D - Z.to_nat (f_pos f)) / chunk_size fl)%nat ->
  delivered m name D fs ds (exchange (n + 2) m r s (output s)).
Proof.
  intros n. induction n as [n IH] using lt_wf_ind.
  intros r s f seq room Hack HD Hne Hl Hm Hq Hp Hr Hst Hroom (Hs & Hst' & Hout & Hin & Hf & Hrd) Hn.
  set (c := chunk fl f D) in *. pose proof (length_chunk fl f D) as Hlc. fold c in Hlc.
  assert (Hc : (length c <= chunk_size fl)%nat) by lia.
  assert (Hcs : (chunk_size fl = 128 \/ chunk_size fl = 1024)%nat)
    by (unfold chunk_size; destruct (is_1k fl); auto).
  assert (Hds : (length (block_data fl c) <= 1024)%nat).
  { rewrite length_block_data by done. destruct (data_size_cases fl (length c)) as [-> | ->]; lia. }
  rewrite Hout. replace (n + 2)%nat with (S (n + 1)) by lia. apply exchange_round.
  eapply (wp_receiver_frame fl name _ (block_data fl c) seq room fs); try done.
  { by apply legal_block_data. }
  { by apply bytes_block_data, bytes_chunk. }
  { lia. }
  intros r1 Hr1 Hst1 Hout1. rewrite Hout1.
  destruct (is_short fl c) eqn:Hshort; unfold is_short in Hshort.
  - apply bool_decide_eq_true in Hshort.
    eapply (wp_sender_eot fl _ ds); try done. intros s1 Hs1 Hst1' Hout1' Hf1. rewrite Hout1'.
    assert (n = 0)%nat as -> by (rewrite Hn; apply Nat.div_small; lia).
    assert (Hall : take (Z.to_nat (f_pos f)) D ++ block_data fl c =
      D ++ replicate (data_size fl (length c) - length c) C_SUB).
    { unfold block_data, pad. rewrite app_assoc. f_equal. unfold c.
      rewrite take_chunk by done. apply take_ge. fold c. lia. }
    rewrite Hall in Hr1.
    assert (Hstrip : forall k, strip_trailing C_SUB (D ++ replicate k C_SUB) = strip_trailing C_SUB D)
      by (intros; apply strip_trailing_replicate).
    unfold delivered. rewrite <- (Hstrip (data_size fl (length c) - length c)%nat).
    eapply (exchange_end fl name _ _ fs _ _ ds); try done.
    + lia.
    + rewrite length_app, length_replicate.
      destruct (data_size_cases fl (length c)) as [-> | ->]; lia.
    + by rewrite Hstrip.
    + by rewrite Hf1.
  - apply bool_decide_eq_false in Hshort. assert (Hlen : length c = chunk_size fl) by lia.
    assert (Hn' : (1 <= n)%nat).
    { rewrite Hn. apply Nat.div_le_lower_bound; lia. }
    rewrite (block_data_full _ _ Hlen) in *.
    eapply (wp_sender_ack fl _ ds); try done. { by apply Hrd. } intros s1 Hs1.
    replace (n + 1)%nat with (n - 1 + 2)%nat by lia.
    apply (IH (n - 1)%nat ltac:(lia) r1 s1 (advance f c false) (u8 (seq + 1))
             (room - Z.of_nat (length c)));
      try done; unfold advance; xsimpl; try lia.
    + apply u8_byte.
    + unfold c in Hr1. by rewrite take_chunk in Hr1 by done.
    + by left.
    + set (rest := (length D - Z.to_nat (f_pos f + Z.of_nat (length c)))%nat).
      replace (length D - Z.to_nat (f_pos f))%nat with (rest + 1 * chunk_size fl)%nat in Hn
        by (unfold rest; lia).
      rewrite Nat.div_add in Hn by lia. lia.
Qed.

(** Without the status of the file an upload does not start. *)
Lemma xmodem_start_no_stat name fl s :
  name ∈ d_nostat (the_disk (shared s)) \/ d_files (the_disk (shared s)) !! name = None ->
  xmodem_start name true fl s = Done (false, s <| state := ABORT |>).
Proof.
  intros H. unfold xmodem_start, start_open, set_state. rewrite (bind_done _ _ s tt (s <| state := ABORT |>)) by done.
  assert (E : match stat (the_disk (shared s)) name with Stat_ok _ => False | _ => True end).
  { unfold stat. case_decide; [done|]. destruct H as [H|H]; [done|]. by rewrite H. }
  unfold mbind, M_bind, get_disk, gets. cbn [the_disk shared].
  change (the_disk (shared (s <| state := ABORT |>))) with (the_disk (shared s)). by destruct (stat _ _).
Qed.

(** C2: An Xmodem transfer over a line that loses nothing delivers the file: for
    every flavor with acknowledged blocks (plain, relaxed, CRC and 1K; not the
    streaming G flavor) and every file that does not consist of padding bytes only
    and is smaller than 2 GB, when the sender can open, stat and read the file and
    the receiver can create its own and has room for it, after the two
    [xmodem_start] calls and one round per full block plus three both sides are in
    [COMPLETE], the receiver's file holds the sender's bytes without the trailing
    SUBs, and no other file changed on either side. *)
Theorem xmodem_transfer fl rname sname D r0 s0 m :
  acked fl = true ->
  transfer_running (shared r0) = true -> transfer_running (shared s0) = true ->
  rname ∉ d_readonly (the_disk (shared r0)) -> rname ∉ d_unreadable (the_disk (shared r0)) ->
  sname ∉ d_unreadable (the_disk (shared s0)) -> sname ∉ d_nostat (the_disk (shared s0)) ->
  d_files (the_disk (shared s0)) !! sname = Some D -> bytes D ->
  strip_trailing C_SUB D <> [] ->
  Z.of_nat (length D) + 1025 < 2 ^ 31 ->
  Z.of_nat (length D) + 1024 <= d_space (the_disk (shared r0)) ->
  XMODEM_MAX_BLOCK_SIZE < m ->
  wp (xmodem_start rname false fl) r0 (fun ok r => ok = true /\
    wp (xmodem_start sname true fl) s0 (fun ok s => ok = true /\
      delivered m rname D (others rname (the_disk (shared r0))) (the_disk (shared s0))
        (exchange (length D / chunk_size fl + 3) m r s []))).
Proof.
  intros Hack Hrun Hrun' Hro Hur Hus Hns HD HbD Hne Hl Hroom Hm.
  eapply wp_xmodem_start_receive; [done..|]. intros r Hr Hst Hfb. split; [done|].
  eapply wp_xmodem_start_send; [done..|]. intros s Hs Hrd Hst' Hfb'. split; [done|].
  replace (length D / chunk_size fl + 3)%nat with (S (length D / chunk_size fl + 2)) by lia.
  apply exchange_round. eapply wp_receiver_init; [done..|]. intros r1 Hr1 Hst1 Hout1.
  rewrite Hout1, Hfb. eapply wp_sender_first; [done..|]. intros s1 Hs1.
  apply (exchange_blocks fl rname D m _ _ _ r1 s1 (opened sname) 1
    (d_space (the_disk (shared r0)))); try done; cbn [f_pos opened]; unfold is_byte; try lia.
  by rewrite Z2Nat.inj_0, Nat.sub_0_r.
Qed.

(** A file of 200 bytes with padding bytes at its end, over Xmodem-1K. *)
Definition sample_file : list Z := (Z.of_nat <$> seq 1 196) ++ [26; 5; 26; 26].
Definition sample_receiver : xmodem_state :=
  statics (initial_common (plain_disk ∅ 100000) (fun _ => 0)).
Definition sample_sender (D : list Z) : xmodem_state :=
  statics (initial_common (plain_disk {[ [97] := D ]} 100000) (fun _ => 0)).

Lemma xmodem_transfer_witness :
  wp (xmodem_start [98] false X_1K) sample_receiver (fun ok r => ok = true /\
    wp (xmodem_start [97] true X_1K) (sample_sender sample_file) (fun ok s => ok = true /\
      delivered 2000 [98] sample_file ∅
        (plain_disk {[ [97] := sample_file ]} 100000) (exchange 3 2000 r s []))).
Proof.
  refine (xmodem_transfer X_1K [98] [97] sample_file sample_receiver (sample_sender sample_file) 2000
    _ _ _ _ _ _ _ _ _ _ _ _ _); try (vm_compute; done).
  all: first [apply bool_decide_unpack; vm_compute; exact I | by apply bytes_by_eval].
Defined.
