(* ===== verification/XmodemSafety.v ===== *)
(** The Xmodem receiver is safe: whatever bytes arrive, in whatever pieces, the
    handler neither runs over its block buffer nor uses a closed file, and it
    returns, but for an EOT that ends a file of padding. *)

From Stdlib Require Import ZArith Lia List Bool.
From stdpp Require Import base list numbers gmap strings.
From S2P Require Import Prelude Crc Stdio Protocols Xmodem XmodemBlock XmodemReceive.
Import Xmodem.

(** ** The invariant *)

(** The block buffer of a receiver, and the one byte it answers with. *)
Record block_ok (s : xmodem_state) : Prop := {
  bo_acked : acked (flavor s) = true;
  bo_receiving : sending s = false;
  bo_len : length (current_block s) = 1029%nat;
  bo_bytes : bytes (current_block s);
  bo_n : 0 <= current_block_n s <= 1029;
  bo_output : (length (output s) <= 1)%nat
}.

(** The file is open at its end. *)
Definition open_file (s : xmodem_state) : Prop :=
  exists f D, file s = Some f /\ d_files (the_disk (shared s)) !! f_name f = Some D /\
    f_name f ∉ d_unreadable (the_disk (shared s)) /\ f_pos f = Z.of_nat (length D).

(** While the transfer runs the file is open. *)
Definition rinv (s : xmodem_state) : Prop :=
  block_ok s /\ (transfer_running (shared s) = true -> open_file s).

(** [s'] has the block of [s]; if its transfer still runs, so does the one of
    [s], with the same file. *)
Record keeps (s s' : xmodem_state) : Prop := {
  kp_acked : acked (flavor s) = true -> acked (flavor s') = true;
  kp_sending : sending s' = sending s;
  kp_block : current_block s' = current_block s;
  kp_n : current_block_n s' = current_block_n s;
  kp_output : (length (output s) <= 1)%nat -> (length (output s') <= 1)%nat;
  kp_input : input s = [] -> input s' = [];
  kp_disk : the_disk (shared s') = the_disk (shared s);
  kp_running : transfer_running (shared s') = true ->
    transfer_running (shared s) = true /\ file s' = file s
}.

Lemma keeps_rinv s s' : keeps s s' -> rinv s -> rinv s'.
Proof.
  intros [] [[] Hf]. split.
  - split; rewrite ?kp_block0, ?kp_n0, ?kp_sending0; auto.
  - intros Hrun. destruct (kp_running0 Hrun) as [Hrun' Hf']. specialize (Hf Hrun').
    unfold open_file in *. by rewrite Hf', kp_disk0.
Qed.

#[global] Instance keeps_preorder : PreOrder keeps.
Proof.
  split.
  - intros s. by split.
  - intros s1 s2 s3 [] []. split; try congruence; auto.
    intros H. destruct (kp_running1 H) as [H1 H2]. destruct (kp_running0 H1) as [H3 H4].
    split; congruence.
Qed.

(** ** Computations that keep the block and the file *)

Definition keeping {A} (m : X A) : Prop := forall s, wp m s (fun _ s' => keeps s s').

Lemma keeping_bind {A B} (m : X A) (k : A -> X B) :
  keeping m -> (forall a, keeping (k a)) -> keeping (m ≫= k).
Proof.
  intros Hm Hk s. apply wp_bind. eapply wp_mono; [apply Hm|]. intros a s' H.
  eapply wp_mono; [apply Hk|]. intros b s'' H'. etrans; [exact H|exact H'].
Qed.

Lemma keeping_ret {A} (a : A) : keeping (mret a).
Proof. intros s. by apply wp_ret. Qed.
Lemma keeping_get : keeping get.
Proof. intros s. by apply wp_get. Qed.
Lemma keeping_gets {A} (f : xmodem_state -> A) : keeping (gets f).
Proof. intros s. by apply wp_gets. Qed.
Lemma keeping_modify f : (forall s, keeps s (f s)) -> keeping (modify f).
Proof. intros Hf s. by apply wp_modify. Qed.
Lemma keeping_when b m : keeping m -> keeping (whenM b m).
Proof. intros Hm. destruct b; [done|]. apply keeping_ret. Qed.
Lemma keeping_if {A} (b : bool) (m1 m2 : X A) :
  keeping m1 -> keeping m2 -> keeping (if b then m1 else m2).
Proof. by destruct b. Qed.
Lemma keeping_decide {A} P `{Decision P} (m1 m2 : X A) :
  keeping m1 -> keeping m2 -> keeping (if decide P then m1 else m2).
Proof. by destruct (decide P). Qed.

Lemma keeping_quiet {A} (m : M common A) : quiet m -> keeping (lift m).
Proof.
  intros Hm s. apply wp_quiet; [done|]. intros a c Hc. split; try done; xsimpl.
  - apply Hc.
  - by rewrite (running_same_env _ _ Hc).
Qed.

Lemma keeping_on_stats f : (forall q, same_phase q (f q)) -> keeping (on_stats f).
Proof. intros Hf. apply keeping_quiet. by apply quiet_stats. Qed.

Lemma keeping_stop st :
  st = Q_TRANSFER_STATE_ABORT \/ st = Q_TRANSFER_STATE_END -> keeping (stop_file_transfer st).
Proof.
  intros Hst s. unfold stop_file_transfer. apply wp_bind, wp_gets, wp_bind.
  assert (Hrest : forall s1, current_block s1 = current_block s -> sending s1 = sending s ->
     flavor s1 = flavor s -> current_block_n s1 = current_block_n s ->
     the_disk (shared s1) = the_disk (shared s) ->
     output s1 = output s -> input s1 = input s ->
     wp (lift (finish_file_transfer st);;
         modify (fun s => s <| upload_file_list := None |>)) s1 (fun _ s' => keeps s s')).
  { intros s1 ? ? Hf ? ? Ho Hi. apply wp_bind, wp_lift. split; try done.
    - cbn. by rewrite Hf.
    - cbn. by rewrite Ho.
    - cbn. by rewrite Hi.
    - unfold transfer_running. cbn. by destruct Hst as [-> | ->]. }
  destruct (qts_protocol _); try by apply Hrest.
  all: unfold ymodem_stop; repeat apply wp_bind; apply wp_stop_save; try apply wp_modify;
    by apply Hrest.
Qed.

Create HintDb keeping discriminated.
#[export] Hint Constants Opaque : keeping.

(** Follow the structure of a computation. *)
Ltac keep :=
  repeat first
    [ progress intros
    | solve [auto with keeping nocore]
    | lazymatch goal with
      | |- keeping (mret _) => apply keeping_ret
      | |- keeping get => apply keeping_get
      | |- keeping (gets _) => apply keeping_gets
      | |- keeping (stop_file_transfer _) => apply keeping_stop; by auto
      | |- keeping (_ ≫= _) => apply keeping_bind
      | |- keeping (whenM _ _) => apply keeping_when
      | |- keeping (if decide _ then _ else _) => apply keeping_decide
      | |- keeping (if _ then _ else _) => apply keeping_if
      | |- keeping (modify _) => apply keeping_modify; intros; by split
      | |- keeping (lift _) => apply keeping_quiet; solve [auto with quiet]
      | |- keeping (on_stats _) => apply keeping_on_stats; intros []; by split
      end ].

Lemma keeping_reset_timer : keeping reset_timer.
Proof. unfold reset_timer. keep. Qed.
Lemma keeping_last_msg m : keeping (last_msg m).
Proof. unfold last_msg. keep. Qed.
Lemma keeping_set_state v : keeping (set_state v).
Proof. unfold set_state. keep. Qed.
Lemma keeping_set_prior v : keeping (set_prior v).
Proof. unfold set_prior. keep. Qed.
Lemma keeping_put_output x : keeping (put_output [x]).
Proof. unfold put_output. apply keeping_modify. intros s. by split. Qed.
Lemma keeping_clear_input : keeping clear_input.
Proof. unfold clear_input. keep. Qed.
#[export] Hint Resolve keeping_reset_timer keeping_last_msg keeping_set_state keeping_set_prior
  keeping_put_output keeping_clear_input : keeping.

Lemma keeping_increment_errors m : keeping (stats_increment_errors m).
Proof. unfold stats_increment_errors, get_stats. keep. Qed.
Lemma keeping_increment_blocks b : keeping (stats_increment_blocks b).
Proof.
  intros s. apply wp_stats_increment_blocks. intros c Hc. split; try done; xsimpl.
  - apply Hc.
  - by rewrite (running_same_env _ _ Hc).
Qed.
Lemma keeping_check_timeout : keeping check_timeout.
Proof.
  unfold check_timeout. keep.
Qed.

Lemma keeping_downgrade : keeping downgrade_to_vanilla_xmodem.
Proof.
  unfold downgrade_to_vanilla_xmodem. apply keeping_bind; [|intros; keep].
  apply keeping_quiet, quiet_stats. by intros [].
Qed.
#[export] Hint Resolve keeping_increment_errors keeping_increment_blocks keeping_check_timeout
  keeping_downgrade : keeping.

Lemma keeping_input_n : keeping input_n.
Proof. apply keeping_gets. Qed.
Lemma keeping_time : keeping (lift time).
Proof. apply keeping_quiet, quiet_time. Qed.
#[export] Hint Resolve keeping_input_n keeping_time : keeping.

Lemma keeping_receive_init : keeping receive_init.
Proof. unfold receive_init. keep. Qed.
Lemma keeping_receive_first_block : keeping receive_first_block.
Proof. unfold receive_first_block. keep. Qed.
Lemma keeping_receive_block_idle : keeping receive_block_idle.
Proof. unfold receive_block_idle. keep. Qed.
Lemma keeping_receive_purge : keeping receive_purge.
Proof. unfold receive_purge. keep. Qed.

(** A computation that keeps the invariant. *)
Definition preserving {A} (m : X A) : Prop := forall s, rinv s -> wp m s (fun _ s' => rinv s').

Lemma preserving_keeping {A} (m : X A) : keeping m -> preserving m.
Proof.
  intros Hm s Hs. eapply wp_mono; [apply Hm|]. intros a s' H. exact (keeps_rinv _ _ H Hs).
Qed.

Lemma preserving_bind {A B} (m : X A) (k : A -> X B) :
  preserving m -> (forall a, preserving (k a)) -> preserving (m ≫= k).
Proof.
  intros Hm Hk s Hs. apply wp_bind. eapply wp_mono; [by apply Hm|]. intros a s' H. by apply Hk.
Qed.

(** A computation that also uses up the input. *)
Definition consuming (m : X unit) : Prop :=
  forall s, rinv s -> wp m s (fun _ s' => rinv s' /\ input s' = []).

Lemma consuming_bind {A} (m : X A) (k : A -> X unit) :
  preserving m -> (forall a, consuming (k a)) -> consuming (m ≫= k).
Proof.
  intros Hm Hk s Hs. apply wp_bind. eapply wp_mono; [by apply Hm|]. intros a s' H. by apply Hk.
Qed.

Lemma consuming_clear_input : consuming clear_input.
Proof.
  intros s Hs. apply wp_modify. split; [|done]. eapply keeps_rinv; [|exact Hs]. by split.
Qed.

Lemma preserving_clear_block : preserving clear_block.
Proof.
  intros s [[] Hf]. apply wp_modify. split; [|done]. split; try done; xsimpl.
  apply bytes_replicate. by unfold is_byte.
Qed.

(** Use up the input at the end of a computation. *)
Ltac consume :=
  repeat first
    [ progress intros
    | apply consuming_clear_input
    | apply consuming_bind;
      [first [apply preserving_clear_block | apply preserving_keeping; solve [keep]]|] ].

Lemma consuming_purge_block : consuming purge_block.
Proof. unfold purge_block. consume. Qed.

(** ** Writing a block *)

(** [fwrite] at the end of a file, with room or without. *)
Lemma fwrite_at_end d f D xs :
  d_files d !! f_name f = Some D -> f_pos f = Z.of_nat (length D) ->
  exists k d' f', fwrite d f xs = (Z.of_nat k, d', f') /\
    f_name f' = f_name f /\ d_unreadable d' = d_unreadable d /\
    d_files d' = <[f_name f := D ++ take k xs]> (d_files d) /\
    f_pos f' = Z.of_nat (length (D ++ take k xs)) /\ (k <= length xs)%nat.
Proof.
  intros Hd Hp. unfold fwrite, f_size, f_data. rewrite Hd, Hp. cbn [default from_option id].
  set (k := Z.to_nat (Z.min (Z.of_nat (length xs))
    (Z.max 0 (Z.of_nat (length D) + d_space d - Z.of_nat (length D))))).
  rewrite Nat2Z.id. unfold extend. rewrite Nat.sub_diag. cbn [replicate].
  rewrite app_nil_r, firstn_all, (drop_ge D) by lia. rewrite app_nil_r.
  eexists k, _, _. split; [reflexivity|]. cbn. repeat split; try done; [|lia].
  unfold field_update; cbn. rewrite Hp, length_app, length_take. lia.
Qed.

(** A running receiver. *)
Definition live (s : xmodem_state) : Prop :=
  block_ok s /\ transfer_running (shared s) = true /\ open_file s.

Lemma live_rinv s : live s -> rinv s.
Proof. by intros (? & _ & ?). Qed.

Lemma preserving_fail_block m : preserving (fail_block m).
Proof. apply preserving_keeping. unfold fail_block. keep. Qed.

Lemma wp_save_block_live s : live s -> wp save_block s (fun _ s' => rinv s').
Proof.
  intros ([] & Hrun & f & D & Hf & Hd & Hok & Hp). unfold save_block.
  apply wp_bind, wp_get. cbv zeta. apply wp_bind, (wp_nonnull _ f); [done|].
  apply wp_bind, wp_gets.
  destruct (fwrite_at_end (the_disk (shared s)) f D
    (data_bytes s (if cb s 0 =? C_SOH then 128 else 1024)) Hd Hp)
    as (k & d' & f' & -> & Hn & Hu & Hfs & Hp' & Hk).
  apply wp_bind, wp_lift, wp_modify, wp_bind, wp_modify. xsimpl.
  match goal with |- wp _ ?s1 _ => assert (Hr : rinv s1) end.
  { split; [by split|]. intros _. exists f', (D ++ take k (data_bytes s
      (if cb s 0 =? C_SOH then 128 else 1024))). xsimpl.
    rewrite Hfs, Hu, Hn. split; [done|]. split; [apply lookup_insert_eq|]. done. }
  match goal with |- wp (if ?b then _ else _) _ _ => destruct b end.
  - revert Hr. apply preserving_keeping. keep.
  - apply wp_bind, wp_modify, wp_ret. eapply keeps_rinv; [|exact Hr]. by split.
Qed.

Lemma wp_verify_block_live s : live s -> wp verify_block s (fun _ s' => rinv s').
Proof.
  intros Hs. unfold verify_block. apply wp_bind, wp_get. destruct (block_failure s).
  - apply preserving_fail_block. by apply live_rinv.
  - by apply wp_save_block_live.
Qed.

Definition consumed (s : xmodem_state) : Prop := rinv s /\ input s = [].

Lemma wp_receive_data_live s : live s -> wp receive_data s (fun _ s' => consumed s').
Proof.
  intros Hs. unfold receive_data. apply wp_bind, wp_get. destruct (block_incomplete s).
  - apply consuming_clear_input. by apply live_rinv.
  - apply wp_bind. eapply wp_mono; [by apply wp_verify_block_live|]. intros ok s' Hs'.
    revert Hs'. apply (fun H : consuming _ => H s'). destruct ok; [consume|].
    apply consuming_bind; [apply preserving_keeping; keep|intros st].
    case_decide; [apply consuming_clear_input|apply consuming_purge_block].
Qed.

(** What ends the loop of [receive_eot]: the file has a byte to keep, and its
    size fits an [int]. *)
Definition eot_ends (s : xmodem_state) : Prop :=
  forall f D, file s = Some f -> d_files (the_disk (shared s)) !! f_name f = Some D ->
    strip_trailing C_SUB D <> [] /\ Z.of_nat (length D) + 1 < 2 ^ 31.

Lemma wp_receive_eot_live s :
  live s -> eot_ends s -> wp receive_eot s (fun _ s' => consumed s').
Proof.
  intros ([] & Hrun & f & D & Hf & Hd & Hok & Hp) He. destruct (He f D Hf Hd) as [Hne Hl].
  pose proof bo_acked0 as Hy. apply andb_prop in Hy as [Hy _]. apply negb_true_iff in Hy.
  apply (wp_receive_eot f D (d_space (the_disk (shared s))) s); try done.
  intros s' [_ _ Ho [] Hend]. split; [|done]. split.
  - split; rewrite ?ss_block, ?ss_n, ?ss_sending, ?ss_flavor, ?Ho; unfold cleared; xsimpl; try done.
    apply bytes_replicate. by unfold is_byte.
  - unfold transfer_running. by rewrite Hend.
Qed.

(** ** The loop at the end of a file of padding *)

(** The file holds padding only, and at least one byte of it was read. *)
Definition all_padding (s : xmodem_state) (last : option Z) : Prop :=
  exists f n, file s = Some f /\
    d_files (the_disk (shared s)) !! f_name f = Some (replicate n C_SUB) /\
    f_name f ∉ d_unreadable (the_disk (shared s)) /\
    Z.of_nat n <= f_pos f <= Z.of_nat n + 1 /\ Z.of_nat n + 1 < 2 ^ 31 /\
    (n = 0%nat -> last = Some C_SUB).

Lemma wp_eot_turn_empty f s (Q : option Z * bool -> xmodem_state -> Prop) :
  file s = Some f -> d_files (the_disk (shared s)) !! f_name f = Some [] ->
  f_name f ∉ d_unreadable (the_disk (shared s)) -> 0 <= f_pos f <= 1 ->
  (forall s' f', file s' = Some f' -> f_name f' = f_name f -> f_pos f' = f_pos f ->
     d_files (the_disk (shared s')) !! f_name f = Some [] ->
     d_unreadable (the_disk (shared s')) = d_unreadable (the_disk (shared s)) ->
     Q (Some C_SUB, true) s') ->
  wp (eot_turn (Some C_SUB)) s Q.
Proof.
  intros Hf Hd Hok Hp HQ. unfold eot_turn. apply wp_bind, wp_gets, wp_bind.
  eapply wp_nonnull; [done|]. apply wp_bind, wp_gets. cbv zeta.
  unfold fseek_end, f_size, f_data. rewrite Hd. cbn [default from_option id length].
  change (Z.of_nat 0 + -1 <? 0) with true. cbn beta iota. cbn [negb whenM].
  apply wp_bind. change (negb (-1 =? 0)) with true. cbn [whenM]. xstep.
  rewrite (fread_chunk _ _ []) by (xsimpl; first [exact Hd | exact Hok | lia]).
  rewrite drop_nil, take_nil. cbn [length]. change (bool_decide (([] : list Z) = [])) with true.
  cbn [whenM]. apply wp_bind. xstep. apply wp_bind, wp_modify.
  change (C_SUB =? C_SUB) with true. cbn iota.
  unfold ftell. rewrite i32_id by lia.
  assert (Ht : exists rc d', ftruncate (the_disk (shared s))
        (f <| f_pos ::= Z.add (Z.of_nat 0) |> <| f_eof ::= orb (bool_decide (0 < 1)%nat) |>)
        (f_pos f - 1) = (rc, d') /\ d_files d' !! f_name f = Some [] /\
        d_unreadable d' = d_unreadable (the_disk (shared s))).
  { unfold ftruncate. destruct (Z.ltb_spec (f_pos f - 1) 0).
    - by exists (-1), (the_disk (shared s)).
    - eexists _, _. split; [reflexivity|]. split; [|done]. unfold f_data. xsimpl. rewrite Hd.
      replace (f_pos f - 1) with 0 by lia. cbn. apply lookup_insert_eq. }
  destruct Ht as (rc & d' & -> & Hd' & Hu'). apply wp_bind, wp_lift, wp_modify, wp_bind, wp_when;
    intros _; [xstep|]; xsteps; xsimpl_hyps;
    (eapply HQ; [reflexivity|reflexivity|xsimpl; lia|..]; xsimpl;
     repeat match goal with E : same_env _ _ |- _ => apply se_disk in E; rewrite E end; done).
Qed.

(** A computation that does not return: it diverges ([None]) or fails with [w]. *)
Definition fails {A} (w : option fault) (m : X A) (s : xmodem_state) : Prop :=
  match w with None => m s = Diverge | Some w => m s = Fault w end.

Lemma fails_left {A B} w (m : X A) (k : A -> X B) s : fails w m s -> fails w (m ≫= k) s.
Proof. unfold fails, mbind, M_bind. by destruct w; intros ->. Qed.

Lemma fails_right {A B} w (m : X A) (k : A -> X B) s :
  wp m s (fun a s' => fails w (k a) s') -> fails w (m ≫= k) s.
Proof. unfold fails, wp, mbind, M_bind. destruct w; by destruct (m s) as [[]| |]. Qed.

Lemma eot_trim_padding fuel last s : all_padding s last -> eot_trim fuel last s = Diverge.
Proof.
  revert last s. induction fuel as [|fuel IH]; [done|].
  intros last s (f & n & Hf & Hd & Hok & Hp & Hn & Hl). cbn [eot_trim]. apply (fails_right None).
  destruct n as [|n].
  - rewrite Hl by done. apply (wp_eot_turn_empty f); try done. intros s' f' Hf' Hn' Hp' Hd' Hu'.
    cbn [fst snd]. apply IH. exists f', 0%nat. rewrite Hn', Hp', Hd', Hu'. auto 8.
  - rewrite replicate_S_end in Hd.
    eapply (wp_eot_turn last f (replicate n C_SUB) C_SUB);
      [done|done|done|rewrite length_replicate; lia..|done|].
    intros _ s' f' Hf' Hn' Hp' _ Hd'. cbn [fst snd]. apply IH.
    rewrite length_replicate in Hp'. rewrite <- replicate_S_end, take_replicate in Hd'.
    exists f', (Z.to_nat (f_pos f - 1) `min` S n)%nat.
    rewrite Hn', Hd'. unfold disk_set. xsimpl.
    split; [done|]. split; [apply lookup_insert_eq|]. split; [done|]. split; [lia|]. by split; [lia|].
Qed.

(** Data reaches the block only when it fits. *)
Lemma wp_receive_block_live s :
  live s -> bytes (input s) ->
  (input s = [C_EOT] -> current_block_n s = 0 -> eot_ends s) ->
  wp receive_block s (fun _ s' => consumed s').
Proof.
  intros Hl Hb He. pose proof (live_rinv s Hl) as Hr.
  unfold receive_block. apply wp_bind, wp_get. cbv zeta.
  destruct (Z.eqb_spec (Z.of_nat (length (input s))) 0) as [Hn|Hn].
  - assert (Hi : input s = []) by (destruct (input s); [done|cbn in Hn; lia]).
    eapply wp_mono; [apply keeping_receive_block_idle|]. intros [] s' H.
    split; [exact (keeps_rinv _ _ H Hr)|by apply H].
  - apply wp_bind. xstep. xsimpl.
    set (s1 := s <| shared := c |> <| timeout_begin := t |>).
    assert (Hl1 : live s1).
    { destruct Hl as ([] & Hrun & f & D & ? & ? & ? & ?). pose proof (se_disk _ _ H) as Hdk.
      split; [by split|]. split; [unfold s1; xsimpl; by rewrite (running_same_env _ _ H)|].
      exists f, D. unfold s1. xsimpl. by rewrite Hdk. }
    assert (He1 : input s = [C_EOT] -> current_block_n s = 0 -> eot_ends s1).
    { intros H1 H2. specialize (He H1 H2). intros f D. unfold s1. xsimpl.
      destruct H as [Hdk _ _ _]. rewrite Hdk. apply He. }
    assert (Hr1 := live_rinv s1 Hl1). destruct Hl as [[Hack _ Hlen Hbb Hbn _] _].
    apply andb_prop in Hack as [Hy Hg]. apply negb_true_iff in Hy, Hg. rewrite Hg. cbn [andb negb].
    rewrite andb_true_r. match goal with |- wp (if ?b then _ else _) _ _ => destruct b end.
    { revert Hr1. apply (fun H : consuming _ => H s1). consume. }
    match goal with |- wp (if ?b then _ else _) _ _ => destruct b eqn:Hfit end.
    { by apply consuming_purge_block. }
    apply Z.ltb_ge in Hfit. rewrite Hlen in Hfit.
    apply wp_bind, wp_put_block; [lia|unfold s1; xsimpl; lia|].
    apply wp_bind, wp_modify, wp_bind, wp_get. unfold s1. xsimpl. rewrite Hy. cbn [andb].
    match goal with |- wp _ ?x _ => set (s2 := x) end.
    assert (Hl2 : live s2).
    { destruct Hl1 as ([] & Hrun & Hf). split; [|by split]. unfold s2. split; xsimpl; try done.
      - rewrite length_blit; lia.
      - by apply bytes_blit.
      - lia. }
    match goal with |- wp (if ?b then _ else _) _ _ => destruct b eqn:Heot end.
    + apply wp_receive_eot_live; [done|]. apply andb_prop in Heot as [H1 H2].
      apply Z.eqb_eq in H1. apply Z.eqb_eq in H2. unfold cb, s2, s1 in H2. xsimpl_in H2.
      assert (Hn0 : current_block_n s = 0) by lia. apply He1; [|done].
      rewrite Hn0 in H2. destruct (input s) as [|x [|y l]]; cbn [length] in *; try lia.
      change (Z.to_nat 0) with 0%nat in H2. rewrite blit_0 in H2. cbn in H2. by subst x.
    + by apply wp_receive_data_live.
Qed.

Lemma wp_first_block_idle s :
  input s = [] -> wp receive_first_block s (fun go s' => go = false /\ keeps s s').
Proof.
  intros Hi. unfold receive_first_block. apply wp_bind, wp_gets. rewrite Hi. cbn [length].
  change (Z.of_nat 0 =? 0) with true. cbv iota.
  apply wp_bind. eapply wp_mono; [apply keeping_time|]. intros now s1 H1.
  apply wp_bind, wp_gets, wp_bind.
  match goal with |- wp ?m s1 _ => assert (Hm : keeping m) by keep end.
  eapply wp_mono; [apply Hm|]. intros [] s2 H2. apply wp_ret. split; [done|]. etrans; [exact H1|exact H2].
Qed.

(** The stages that take the data of a block. *)
Definition collecting (s : xmodem_state) : Prop := state s = BLOCK \/ state s = FIRST_BLOCK.

Lemma wp_receive_live s :
  live s -> bytes (input s) ->
  (collecting s -> input s = [C_EOT] -> current_block_n s = 0 -> eot_ends s) ->
  wp xmodem_receive s (fun _ s' => consumed s').
Proof.
  intros Hl Hb He. pose proof (live_rinv s Hl) as Hr.
  unfold xmodem_receive. apply wp_bind, wp_gets. case_decide as Hinit.
  { revert Hr. apply (fun H : consuming _ => H s). unfold receive_init. consume. }
  assert (Hrest : forall s1, live s1 -> (state s1 = BLOCK -> collecting s) -> input s1 = input s ->
    current_block_n s1 = current_block_n s -> file s1 = file s ->
    the_disk (shared s1) = the_disk (shared s) ->
    wp (st ← gets state;
        if decide (st = BLOCK) then receive_block
        else if decide (st = PURGE_INPUT) then receive_purge else clear_input)
      s1 (fun _ s' => consumed s')).
  { intros s1 Hl1 Hc1 Hi1 Hn1 Hf1 Hd1. apply wp_bind, wp_gets. case_decide as Hb1.
    - apply wp_receive_block_live; [done|by rewrite Hi1|]. rewrite Hi1, Hn1. specialize (He (Hc1 Hb1)).
      unfold eot_ends in *. by rewrite Hf1, Hd1.
    - apply live_rinv in Hl1. case_decide; [|by apply consuming_clear_input].
      revert Hl1. apply (fun H : consuming _ => H s1). unfold receive_purge. consume. }
  apply wp_bind. case_decide as Hfb; [|apply wp_ret, Hrest; try done; by left].
  destruct (decide (input s = [])) as [Hi|Hi].
  - eapply wp_mono; [by apply wp_first_block_idle|]. intros go s' [-> Hk]. apply wp_ret.
    split; [exact (keeps_rinv _ _ Hk Hr)|by apply Hk].
  - unfold receive_first_block. apply wp_bind, wp_gets.
    rewrite (proj2 (Z.eqb_neq _ _)) by (destruct (input s); [done|cbn; lia]).
    apply wp_bind, wp_modify, wp_ret, Hrest; try done; [|by right].
    destruct Hl as ([] & Hrun & Hf). by split; [split|].
Qed.

(** ** The end of a file of padding *)

(** The received file has no byte to keep. *)
Definition padding_only (s : xmodem_state) (D : list Z) : Prop :=
  exists f, file s = Some f /\ d_files (the_disk (shared s)) !! f_name f = Some D /\ strip_trailing C_SUB D = [].

(** [last_byte] is read before it is set when there is no byte at all. *)
Definition trap (D : list Z) : option fault :=
  match D with [] => Some Indeterminate | _ :: _ => None end.

Lemma eot_turn_unset f s :
  file s = Some f -> d_files (the_disk (shared s)) !! f_name f = Some [] ->
  f_name f ∉ d_unreadable (the_disk (shared s)) -> 0 <= f_pos f -> eot_turn None s = Fault Indeterminate.
Proof.
  intros Hf Hd Hok Hp. apply (fails_right (Some Indeterminate)). apply wp_gets.
  apply (fails_right (Some Indeterminate)). eapply wp_nonnull; [done|].
  apply (fails_right (Some Indeterminate)). apply wp_gets. cbv zeta.
  unfold fseek_end, f_size, f_data. rewrite Hd. cbn [default from_option id length].
  change (Z.of_nat 0 + -1 <? 0) with true. cbn beta iota. change (negb (-1 =? 0)) with true. cbn [whenM].
  apply (fails_right (Some Indeterminate)). xstep.
  rewrite (fread_chunk _ _ []) by (xsimpl; first [exact Hd | exact Hok | lia]).
  rewrite drop_nil, take_nil. cbn [length]. change (bool_decide (([] : list Z) = [])) with true. cbn [whenM].
  apply (fails_right (Some Indeterminate)). xstep. apply (fails_right (Some Indeterminate)), wp_modify. done.
Qed.

Lemma eot_trapped D s :
  live s -> padding_only s D -> Z.of_nat (length D) + 1 < 2 ^ 31 -> fails (trap D) receive_eot s.
Proof.
  intros ([] & Hrun & f & D' & Hf & Hd & Hok & Hp) (f' & Hf' & HD & Hst) Hl.
  rewrite Hf in Hf'. injection Hf' as <-. rewrite HD in Hd. injection Hd as <-.
  apply andb_prop in bo_acked0 as [Hy _]. apply negb_true_iff in Hy.
  destruct (strip_trailing_split C_SUB D) as [n En]. rewrite Hst in En. cbn [app] in En.
  assert (Hn : n = length D) by (by rewrite En, length_replicate).
  unfold receive_eot. apply fails_right, wp_modify, fails_right, wp_get. xsimpl. rewrite Hy. apply fails_left.
  destruct D as [|b D].
  - unfold eot_fuel. xsimpl. rewrite Hf, Nat.add_succ_r. cbn [eot_trim trap]. apply fails_left.
    apply (eot_turn_unset f); [done..|]. rewrite Hp. cbn. lia.
  - apply eot_trim_padding. exists f, n. xsimpl. rewrite <- En. cbn [length] in *. split_and!; try done; try lia.
Qed.

(** The same behind the bookkeeping of the block. *)
Lemma receive_block_trapped D s :
  live s -> input s = [C_EOT] -> current_block_n s = 0 -> padding_only s D ->
  Z.of_nat (length D) + 1 < 2 ^ 31 -> fails (trap D) receive_block s.
Proof.
  intros Hl Hin Hn HD Hlen. unfold receive_block. apply fails_right, wp_get. cbv zeta. rewrite Hin, eot_length.
  change (1 =? 0) with false. cbv iota. apply fails_right. xstep. xsimpl.
  destruct Hl as ([] & Hrun & f & D' & Hf & Hd & Hok & Hp).
  pose proof bo_acked0 as Hg. apply andb_prop in Hg as [_ Hg]. apply negb_true_iff in Hg.
  rewrite Hn, Hg, bo_len0. change (XMODEM_MAX_BLOCK_SIZE <? 0 + 1) with false.
  change (Z.of_nat 1029 <? 0 + 1) with false. cbn [andb].
  apply fails_right, wp_put_block; [lia|xsimpl; rewrite bo_len0, eot_length; lia|].
  apply fails_right, wp_modify, fails_right, wp_get. xsimpl. rewrite Hn. unfold cb. xsimpl.
  change (1 + 0 =? 1) with true. rewrite eot_in_block. cbn [andb].
  pose proof (se_disk _ _ H) as Hdk. apply eot_trapped; [|by destruct HD as (f' & ?); exists f'; xsimpl; rewrite Hdk|done].
  split.
  { split; xsimpl; try done; [rewrite length_blit by (rewrite bo_len0; cbn; lia); done|apply bytes_blit; [done|by apply bytes_by_eval]|lia]. }
  xsimpl. split; [by rewrite (running_same_env _ _ H)|]. exists f, D'. xsimpl. by rewrite Hdk.
Qed.

(** An EOT for a receiver whose file, at the start of a block, has no byte to keep. *)
Definition trapped (s : xmodem_state) (inp D : list Z) : Prop :=
  transfer_running (shared s) = true /\ collecting s /\ inp = [C_EOT] /\ current_block_n s = 0 /\ padding_only s D.

Lemma trapped_fails s inp D m :
  rinv s -> XMODEM_MAX_BLOCK_SIZE < m -> Z.of_nat (length D) + 1 < 2 ^ 31 -> trapped s inp D ->
  fails (trap D) (protocol_process_data inp [] m) s.
Proof.
  intros Hr Hm Hl (Hrun & Hst & -> & Hn & HD). unfold protocol_process_data.
  apply fails_right, wp_gets. rewrite Hrun. unfold xmodem.
  apply fails_right, wp_assert; [lia|]. apply fails_right, wp_modify, fails_right, wp_get.
  set (s0 := s <| input := _ |> <| output := _ |> <| output_max := m |>).
  change (state s0) with (state s). change (sending s0) with (sending s).
  rewrite decide_False by (destruct Hst; congruence). destruct Hr as [Hb Hf]. rewrite (bo_receiving s Hb). cbn [negb].
  assert (Hl0 : live s0) by (destruct Hb; split; [by split; try done; cbn; lia|split; [done|by apply Hf]]).
  apply fails_left. unfold loop_fuel. rewrite Nat.add_succ_r. cbn [handler_loop]. apply fails_left.
  unfold xmodem_receive. apply fails_right, wp_gets. change (state s0) with (state s).
  rewrite decide_False by (destruct Hst; congruence). apply fails_right.
  assert (Hgo : forall s1, live s1 -> input s1 = [C_EOT] -> current_block_n s1 = 0 -> padding_only s1 D ->
    state s1 = BLOCK -> fails (trap D) (st ← gets state;
        if decide (st = BLOCK) then receive_block
        else if decide (st = PURGE_INPUT) then receive_purge else clear_input) s1).
  { intros s1 H1 H2 H3 H4 H5. apply fails_right, wp_gets. rewrite H5, decide_True by done. by apply receive_block_trapped. }
  case_decide as Hfb.
  - unfold receive_first_block. apply wp_bind, wp_gets. change (Z.of_nat (length (input s0)) =? 0) with false. cbv iota.
    apply wp_bind, wp_modify, wp_ret, Hgo; try done.
    destruct Hl0 as ([] & ? & ?). by split; [split|].
  - apply wp_ret, Hgo; try done. by destruct Hst.
Qed.

(** The received file fits an [int], as the code counts its size. *)
Definition size_fits (s : xmodem_state) : Prop :=
  forall f D, file s = Some f -> d_files (the_disk (shared s)) !! f_name f = Some D -> Z.of_nat (length D) + 1 < 2 ^ 31.

