(* ===== verification/XmodemProps.v ===== *)
(** What the Xmodem code promises block by block, and where it falls short of
    it: the frame of a block, the test of a received one, the strength of the
    check bytes and the loop at the end of a file. *)

From Stdlib Require Import ZArith Lia List Bool.
From stdpp Require Import base list numbers gmap strings.
From S2P Require Import Prelude Crc Stdio Protocols Xmodem XmodemBlock XmodemReceive XmodemSafety XmodemSession.
Import Xmodem.

(** ** The loop at the end of a file of padding *)

(** The loop that strips the padding never ends on a file of padding only: an
    EOT that arrives when the received file is a positive number of SUBs, as after
    the transfer of an empty file, keeps the receiver in the loop for any number
    of turns. *)
Theorem receive_eot_never_ends f n s :
  (0 < n)%nat -> Z.of_nat n + 1 < 2 ^ 31 -> writing s f (replicate n C_SUB) 0 -> forall fuel, eot_trim fuel None s = Diverge.
Proof.
  intros Hn Hl [Hf Hd Hok Hp _] fuel. apply eot_trim_padding.
  exists f, n. rewrite length_replicate in Hp. split; [done|]. split; [done|].
  split; [done|]. split; [lia|]. split; [lia|]. lia.
Qed.

(** Otherwise the loop ends: with any file that has a byte to keep, a receiver
    that gets the EOT leaves its file with the trailing SUBs, and nothing else,
    removed, answers ACK and completes. *)
Theorem receive_eot_strips f D s :
  is_ymodem (flavor s) = false -> writing s f D 0 ->
  Z.of_nat (length D) + 1 < 2 ^ 31 -> strip_trailing C_SUB D <> [] ->
  wp receive_eot s (fun _ s' =>
    state s' = COMPLETE /\ output s' = [C_ACK] /\ input s' = [] /\
    d_files (the_disk (shared s')) =
      <[f_name f := strip_trailing C_SUB D]> (d_files (the_disk (shared s)))).
Proof.
  intros Hy Hw Hl Hne. apply (wp_receive_eot f D 0); try done.
  intros s' [Hs Hd Ho [] _]. by rewrite Hd.
Qed.

(** ** Blocks *)

(** What the sender puts in a block: [construct_block] reads the next 128 (or
    1024) bytes of the file and leaves in [current_block] the frame of these bytes
    padded with SUB: SOH or STX, the sequence number and its complement, the data,
    and the checksum or CRC of the data.  A short read makes it the last block. *)
Theorem construct_block_frame s f D :
  reading s f D -> length (current_block s) = 1029%nat ->
  let c := chunk (flavor s) f D in
  wp construct_block s (fun ok s' =>
    ok = true /\
    block_bytes s' = frame (flavor s) (current_block_sequence_i s) (block_data (flavor s) c) /\
    state s' = (if is_short (flavor s) c then LAST_BLOCK else state s) /\
    current_block_sequence_i s' = u8 (current_block_sequence_i s + 1) /\
    file s' = Some (advance f c (is_short (flavor s) c))).
Proof.
  intros HR Hl c. apply (wp_construct_block s f D); [done..|]. intros rest s' Hl'.
  split; [done|]. split; [|done]. unfold s', block_bytes, built. xsimpl.
  by rewrite Nat2Z.id, take_app_length.
Qed.

(** The part of an error that the file sees: none. *)
Lemma wp_fail_block m s :
  wp (fail_block m) s (fun ok s' => ok = false /\ the_disk (shared s') = the_disk (shared s)).
Proof.
  assert (Hk : keeping (fail_block m)) by (unfold fail_block; keep).
  unfold fail_block. apply wp_bind, wp_gets, wp_bind.
  eapply wp_mono; [apply keeping_increment_errors|]. intros [] s' H. apply wp_ret.
  split; [done|apply H].
Qed.

(** The verdict and the effect of [verify_block]. *)
Lemma wp_verify_outcome s f D :
  bytes (current_block s) -> length (current_block s) = 1029%nat -> writing s f D 1024 ->
  wp verify_block s (fun ok s' =>
    (ok = true <-> size_ok (flavor s) (current_block_n s) = true /\
                   exists data chk rest, accepted_block s data chk rest) /\
    (forall data chk rest, ok = true -> accepted_block s data chk rest -> s' = saved s f D data) /\
    (ok = false -> the_disk (shared s') = the_disk (shared s))).
Proof.
  intros Hb Hl Hw. pose proof (block_failure_accepted s Hb Hl) as Hiff.
  destruct (block_failure s) as [m|] eqn:Hbf.
  - unfold verify_block. apply wp_bind, wp_get. rewrite Hbf.
    eapply wp_mono; [apply wp_fail_block|]. intros ok s' [-> Hd]. split; [|done].
    split; [done|]. intros H. by apply Hiff in H.
  - destruct (proj1 Hiff eq_refl) as [Hn (data & chk & rest & Ha)].
    assert (Hw' : forall data' chk' rest', accepted_block s data' chk' rest' ->
      writing s f D (Z.of_nat (length data'))).
    { intros data' chk' rest' (_ & Hleg & _). eapply writing_less; [exact Hw|].
      destruct Hleg as [-> | [_ ->]]; lia. }
    apply (wp_verify_block s f D data chk rest);
      [exact Hb|exact Hl|exact Hn|exact Ha|by eapply Hw'|].
    split; [|split; [|done]]; [split; eauto|].
    intros data' chk' rest' _ Ha'. rewrite <- (accepted_data_bytes _ _ _ _ Ha').
    by rewrite (accepted_data_bytes _ _ _ _ Ha).
Qed.

(** C28 What the receiver takes for a block: [verify_block] accepts exactly the
    buffers of a legal size that hold a header, the expected sequence number, its
    complement, data of the length the header announces and check bytes it takes
    for good; it then appends the data to the file and counts the block, and on
    any other buffer it reports an error and leaves every file as it is. *)
Theorem verify_block_spec s f D :
  bytes (current_block s) -> length (current_block s) = 1029%nat -> writing s f D 1024 ->
  wp verify_block s (fun ok s' =>
    (ok = true <-> size_ok (flavor s) (current_block_n s) = true /\
                   exists data chk rest, accepted_block s data chk rest) /\
    (forall data chk rest, ok = true -> accepted_block s data chk rest -> s' = saved s f D data) /\
    (ok = false -> the_disk (shared s') = the_disk (shared s))).
Proof. apply wp_verify_outcome. Qed.

(** The CRC test takes half a CRC for a whole one: a block of any CRC flavor
    whose check bytes are the right high byte and a low byte of any value is
    accepted and written to the file. *)
Theorem half_crc_accepted s f D data c2 rest :
  uses_crc (flavor s) = true -> legal_data (flavor s) data -> bytes data -> is_byte c2 ->
  is_byte (current_block_sequence_i s) -> bytes rest ->
  current_block s = buffer (header_of data) (current_block_sequence_i s)
                      (0xFF - current_block_sequence_i s) data (crc_hi data :: c2 :: rest) ->
  length (current_block s) = 1029%nat -> current_block_n s = 3 + Z.of_nat (length data) + 2 ->
  writing s f D 1024 ->
  wp verify_block s (fun ok s' => ok = true /\ s' = saved s f D data).
Proof.
  intros Hu Hleg Hd Hc2 Hq Hr Hb Hl Hn Hw.
  assert (Ha : accepted_block s data [crc_hi data; c2] rest).
  { split; [done|]. split; [done|]. unfold check_accepted. rewrite Hu.
    exists (crc_hi data), c2. split; [done|]. by left. }
  apply (wp_verify_block s f D data [crc_hi data; c2] rest); [|exact Hl| |exact Ha| |by split].
  - rewrite Hb. unfold buffer. apply bytes_cons; [|apply bytes_cons; [done|apply bytes_cons]].
    + unfold header_of. destruct (_ =? _)%nat; unfold is_byte, C_SOH, C_STX; lia.
    + unfold is_byte in *. lia.
    + apply bytes_app. split; [done|]. apply bytes_cons; [apply is_byte_land_ff|by apply bytes_cons].
  - rewrite Hn. unfold size_ok, legal_data, check_length in *. rewrite Hu.
    destruct Hleg as [-> | [-> ->]]; [|done]. by destruct (is_1k (flavor s)).
  - eapply writing_less; [exact Hw|]. destruct Hleg as [-> | [_ ->]]; lia.
Qed.

Fixpoint sum (l : list Z) : Z := match l with [] => 0 | b :: l => b + sum l end.

Lemma sum_app l1 l2 : sum (l1 ++ l2) = sum l1 + sum l2.
Proof. induction l1 as [|b l1 IH]; cbn; [done|]. rewrite IH. lia. Qed.

Lemma checksum_sum l : checksum_of l = sum l mod 256.
Proof.
  unfold checksum_of. enough (H : forall c, is_byte c ->
    fold_left (fun c b => u8 (c + b)) l c = (c + sum l) mod 256) by (apply H; unfold is_byte; lia).
  induction l as [|b l IH]; intros c Hc; cbn.
  - rewrite Z.add_0_r, Z.mod_small by done. done.
  - rewrite IH by apply u8_byte. unfold u8. change (2 ^ 8) with 256.
    rewrite Z.add_mod_idemp_l by lia. f_equal. lia.
Qed.

Lemma checksum_one_byte l1 l2 b b' :
  is_byte b -> is_byte b' -> checksum_of (l1 ++ b :: l2) = checksum_of (l1 ++ b' :: l2) -> b = b'.
Proof.
  rewrite !checksum_sum, !sum_app. cbn. intros Hb Hb' H.
  unfold is_byte in *. replace (sum l1 + (b + sum l2)) with (b + (sum l1 + sum l2)) in H by lia.
  replace (sum l1 + (b' + sum l2)) with (b' + (sum l1 + sum l2)) in H by lia.
  set (k := sum l1 + sum l2) in *. clearbody k.
  pose proof (Z.div_mod (b + k) 256 ltac:(lia)). pose proof (Z.div_mod (b' + k) 256 ltac:(lia)). lia.
Qed.

(** The checksum of plain Xmodem catches every change of one data byte: a block
    that differs from the sent frame in one byte of its data is refused, and no
    file changes. *)
Theorem one_byte_rejected s f D l1 b b' l2 rest :
  uses_crc (flavor s) = false -> length (l1 ++ b :: l2) = 128%nat -> b <> b' ->
  bytes (current_block s) -> length (current_block s) = 1029%nat ->
  is_byte b ->
  current_block s = buffer C_SOH (current_block_sequence_i s) (0xFF - current_block_sequence_i s)
                      (l1 ++ b' :: l2) (checksum_of (l1 ++ b :: l2) :: rest) ->
  writing s f D 1024 ->
  wp verify_block s (fun ok s' => ok = false /\ the_disk (shared s') = the_disk (shared s)).
Proof.
  intros Hu Hlen Hne Hb Hl Hbyte Hbuf Hw.
  eapply wp_mono; [by apply (wp_verify_outcome s f D)|]. intros ok s' (Hiff & _ & Hd).
  enough (ok = false) by auto. destruct ok; [|done]. exfalso.
  destruct (proj1 Hiff eq_refl) as [_ (data & chk & rest' & Hbuf' & Hleg & Hc)].
  unfold check_accepted in Hc. rewrite Hu in Hc.
  assert (H1 : is_1k (flavor s) = false) by (destruct (flavor s); done).
  assert (Hlen' : length data = 128%nat) by (destruct Hleg as [?|[? _]]; congruence).
  rewrite Hbuf in Hbuf'. injection Hbuf' as _ E. subst chk.
  apply app_inj_1 in E as [<- E]; [|rewrite length_app in *; cbn [length] in *; lia].
  injection E as E _. apply Hne. apply (checksum_one_byte l1 l2); [done| |done].
  rewrite Hbuf in Hb. unfold buffer in Hb. do 3 apply Forall_cons_iff in Hb as [_ Hb].
  apply bytes_app in Hb as [Hb _]. apply bytes_app in Hb as [_ Hb]. by inversion Hb.
Qed.

(** ** Instances *)

(** A receiver of flavor [fl] whose file holds [D], with [block] in its buffer. *)
Definition sample_rx (fl : XMODEM_FLAVOR) (D block : list Z) : xmodem_state :=
  (statics (initial_common (plain_disk {[ [98] := D ]} 2000) (fun _ => 0)))
    <| file := Some ((opened [98]) <| f_pos := Z.of_nat (length D) |>) |>
    <| flavor := fl |> <| state := BLOCK |>
    <| current_block := block ++ replicate (1029 - length block) 0 |>
    <| current_block_n := Z.of_nat (length block) |>.

Definition sample_rx_file (D : list Z) : FILE := (opened [98]) <| f_pos := Z.of_nat (length D) |>.

Lemma sample_writing fl D block room :
  room <= 2000 -> writing (sample_rx fl D block) (sample_rx_file D) D room.
Proof.
  intros Hr. split; [done| |by apply not_elem_of_empty|done|exact Hr].
  apply lookup_insert_eq.
Qed.

Definition sample_block_data : list Z := Z.of_nat <$> seq 1 128.
Definition sample_header (data : list Z) : list Z := header_of data :: 1 :: 254 :: data.

Lemma verify_block_spec_witness :
  let s := sample_rx X_CRC [7] (sample_header sample_block_data ++ check_bytes X_CRC sample_block_data) in
  wp verify_block s (fun ok s' =>
    (ok = true <-> size_ok (flavor s) (current_block_n s) = true /\
                   exists data chk rest, accepted_block s data chk rest) /\
    (forall data chk rest, ok = true -> accepted_block s data chk rest ->
       s' = saved s (sample_rx_file [7]) [7] data) /\
    (ok = false -> the_disk (shared s') = the_disk (shared s))).
Proof.
  intros s. apply (verify_block_spec s (sample_rx_file [7]) [7]);
    [by apply bytes_by_eval|vm_compute; reflexivity|by apply sample_writing].
Defined.

Lemma receive_eot_strips_witness :
  let s := sample_rx X_CRC [7; 26; 8; 26; 26] [] in
  wp receive_eot s (fun _ s' =>
    state s' = COMPLETE /\ output s' = [C_ACK] /\ input s' = [] /\
    d_files (the_disk (shared s')) =
      <[f_name (sample_rx_file [7; 26; 8; 26; 26]) := strip_trailing C_SUB [7; 26; 8; 26; 26]]>
        (d_files (the_disk (shared s)))).
Proof.
  intros s. apply (receive_eot_strips (sample_rx_file [7; 26; 8; 26; 26]) [7; 26; 8; 26; 26] s);
    [done|by apply sample_writing|vm_compute; reflexivity|vm_compute; discriminate].
Defined.

Lemma receive_eot_never_ends_witness :
  eot_trim 1000 None (sample_rx X_NORMAL (replicate 128 C_SUB) []) = Diverge.
Proof.
  apply (receive_eot_never_ends (sample_rx_file (replicate 128 C_SUB)) 128);
    [lia|vm_compute; reflexivity|by apply sample_writing].
Defined.

Lemma construct_block_frame_witness :
  let s := (sample_rx X_1K [1; 2; 26; 4] []) <| file := Some (opened [98]) |> in
  let c := chunk X_1K (opened [98]) [1; 2; 26; 4] in
  wp construct_block s (fun ok s' =>
    ok = true /\ block_bytes s' = frame X_1K 1 (block_data X_1K c) /\
    state s' = (if is_short X_1K c then LAST_BLOCK else state s) /\
    current_block_sequence_i s' = u8 (1 + 1) /\
    file s' = Some (advance (opened [98]) c (is_short X_1K c))).
Proof.
  intros s. apply (construct_block_frame s (opened [98]) [1; 2; 26; 4]); [|vm_compute; reflexivity].
  split; first [done | by apply bytes_by_eval | vm_compute; split; discriminate | apply lookup_insert_eq].
Defined.

Lemma half_crc_accepted_witness :
  let s := sample_rx X_CRC [7] (sample_header sample_block_data ++ [crc_hi sample_block_data; 0]) in
  wp verify_block s (fun ok s' => ok = true /\ s' = saved s (sample_rx_file [7]) [7] sample_block_data).
Proof.
  intros s. apply (half_crc_accepted s (sample_rx_file [7]) [7] sample_block_data 0 (replicate 896 0));
    [done|by left|by apply bytes_by_eval|done|done|by apply bytes_by_eval| | | |by apply sample_writing];
    vm_compute; reflexivity.
Defined.

Lemma one_byte_rejected_witness :
  let s := sample_rx X_NORMAL [7]
             (header_of sample_block_data :: 1 :: 254 :: ([9] ++ drop 1 sample_block_data) ++
              [checksum_of sample_block_data]) in
  wp verify_block s (fun ok s' => ok = false /\ the_disk (shared s') = the_disk (shared s)).
Proof.
  intros s. apply (one_byte_rejected s (sample_rx_file [7]) [7] [] 1 9 (drop 1 sample_block_data)
    (replicate 897 0));
    [done|done|done|by apply bytes_by_eval|vm_compute; reflexivity|done|vm_compute; reflexivity
    |by apply sample_writing].
Defined.

Lemma sample_receiver_ok D :
  Z.of_nat (length D) + 1 < 2 ^ 31 -> rinv (sample_rx X_CRC D []) /\ size_fits (sample_rx X_CRC D []).
Proof.
  intros Hl. assert (Hd : d_files (the_disk (shared (sample_rx X_CRC D []))) !! [98] = Some D) by apply lookup_insert_eq.
  split.
  - split; [split; [done|done|vm_compute; reflexivity|by apply bytes_by_eval|vm_compute; split; discriminate|vm_compute; lia]|].
    intros _. exists (sample_rx_file D), D.
    destruct (sample_writing X_CRC D [] 0 ltac:(lia)) as [H1 H2 H3 H4 _]. auto.
  - intros f D' Hf HD. injection Hf as <-. assert (E : Some D' = Some D) by (etrans; [symmetry; exact HD|exact Hd]). by injection E as ->.
Qed.

