(* ===== verification/Zmodem.v ===== *)
(** zmodem.c: the byte and packet layers of Zmodem, the statistics of a transfer
    and the state that collects a data subpacket.

    The state is the file's static variables and the output buffer of the
    current call. *)

From Stdlib Require Import ZArith Lia List Bool.
From stdpp Require Import base list numbers gmap strings.
From S2P Require Import Prelude Crc Stdio Protocols.

Module Zmodem.

(** ** Constants and state *)

Definition C_CR : Z := 0x0D.
Definition C_LF : Z := 0x0A.
Definition C_XON : Z := 0x11.
Definition C_XOFF : Z := 0x13.
Definition C_CAN : Z := 0x18.

Definition ZPAD : Z := 42.
Definition ZCRCE : Z := 104.
Definition ZCRCG : Z := 105.
Definition ZCRCQ : Z := 106.
Definition ZCRCW : Z := 107.

Definition P_ZRQINIT : Z := 0.
Definition P_ZRINIT : Z := 1.
Definition P_ZSINIT : Z := 2.
Definition P_ZACK : Z := 3.
Definition P_ZFILE : Z := 4.
Definition P_ZSKIP : Z := 5.
Definition P_ZNAK : Z := 6.
Definition P_ZABORT : Z := 7.
Definition P_ZFIN : Z := 8.
Definition P_ZRPOS : Z := 9.
Definition P_ZDATA : Z := 10.
Definition P_ZEOF : Z := 11.
Definition P_ZFERR : Z := 12.
Definition P_ZCRC : Z := 13.
Definition P_ZCHALLENGE : Z := 14.
Definition P_ZCOMPL : Z := 15.
Definition P_ZCAN : Z := 16.
Definition P_ZFREECNT : Z := 17.
Definition P_ZCOMMAND : Z := 18.

Definition TX_CAN_FULL_DUPLEX : Z := 0x01.
Definition TX_CAN_OVERLAP_IO : Z := 0x02.
Definition TX_CAN_BREAK : Z := 0x04.
Definition TX_CAN_DECRYPT : Z := 0x08.
Definition TX_CAN_LZW : Z := 0x10.
Definition TX_CAN_CRC32 : Z := 0x20.
Definition TX_ESCAPE_CTRL : Z := 0x40.
Definition TX_ESCAPE_8BIT : Z := 0x80.

Definition ZMODEM_BLOCK_SIZE : Z := 1024.
Definition ZMODEM_MAX_BLOCK_SIZE : Z := 2 * (1024 + 4 + 1).
Definition HEX_PACKET_LENGTH : Z := 20.
Definition WINDOW_SIZE_RELIABLE : Z := 32.
Definition WINDOW_SIZE_UNRELIABLE : Z := 4.

Inductive STATE :=
| INIT | COMPLETE | ABORT | ZDATA
| ZRINIT | ZRINIT_WAIT | ZCHALLENGE | ZCHALLENGE_WAIT | ZRPOS | ZRPOS_WAIT | ZSKIP | ZCRC | ZCRC_WAIT
| ZRQINIT | ZRQINIT_WAIT | ZSINIT | ZSINIT_WAIT | ZFILE | ZFILE_WAIT | ZEOF | ZEOF_WAIT | ZFIN | ZFIN_WAIT.

#[global] Instance STATE_eq_dec : EqDecision STATE.
Proof. solve_decision. Defined.

(** [struct ZMODEM_STATUS] *)
Record ZMODEM_STATUS := {
  state : STATE;
  prior_state : STATE;
  flags : Z;
  use_crc32 : bool;
  sending : bool;
  file_name : option cstring;
  file_size : Z;
  file_modtime : Z;
  file_position : Z;
  file_stream : option FILE;
  file_crc32 : Z;
  status_block_size : Z;
  ack_required : bool;
  waiting_for_ack : bool;
  streaming_zdata : bool;
  timeout_length : Z;
  timeout_begin : Z;
  timeout_max : Z;
  timeout_count : Z;
  confirmed_bytes : Z;
  last_confirmed_bytes : Z;
  reliable_link : bool;
  file_position_downgrade : Z;
  blocks_ack_count : Z;
  consecutive_errors : Z;
  file_fullname : cstring
}.
#[export] Instance eta_status : Eta ZMODEM_STATUS := fun s =>
  {| state := state s; prior_state := prior_state s; flags := flags s;
     use_crc32 := use_crc32 s; sending := sending s; file_name := file_name s;
     file_size := file_size s; file_modtime := file_modtime s;
     file_position := file_position s; file_stream := file_stream s;
     file_crc32 := file_crc32 s; status_block_size := status_block_size s;
     ack_required := ack_required s; waiting_for_ack := waiting_for_ack s;
     streaming_zdata := streaming_zdata s; timeout_length := timeout_length s;
     timeout_begin := timeout_begin s; timeout_max := timeout_max s;
     timeout_count := timeout_count s; confirmed_bytes := confirmed_bytes s;
     last_confirmed_bytes := last_confirmed_bytes s; reliable_link := reliable_link s;
     file_position_downgrade := file_position_downgrade s;
     blocks_ack_count := blocks_ack_count s; consecutive_errors := consecutive_errors s;
     file_fullname := file_fullname s |}.

(** [struct zmodem_packet]; [pdata] is the whole array. *)
Record zmodem_packet := {
  ptype : Z;
  argument : Z;
  pkt_crc32 : bool;
  crc16 : Z;
  crc32 : Z;
  pdata : list Z;
  data_n : Z;
  crc_buffer : list Z
}.
#[export] Instance eta_packet : Eta zmodem_packet := fun p =>
  {| ptype := ptype p; argument := argument p; pkt_crc32 := pkt_crc32 p;
     crc16 := crc16 p; crc32 := crc32 p; pdata := pdata p; data_n := data_n p;
     crc_buffer := crc_buffer p |}.

Definition zero_packet : zmodem_packet :=
  {| ptype := 0; argument := 0; pkt_crc32 := false; crc16 := 0; crc32 := 0;
     pdata := replicate (Z.to_nat ZMODEM_MAX_BLOCK_SIZE) 0; data_n := 0;
     crc_buffer := replicate 5 0 |}.

(** A buffer that packets are appended to: the array, the bytes in use and the
    bound handed to the functions. *)
Record outbuf := { ob : list Z; ob_n : Z; ob_max : Z }.
#[export] Instance eta_outbuf : Eta outbuf := fun b =>
  {| ob := ob b; ob_n := ob_n b; ob_max := ob_max b |}.

(** The options of [q_status] that the protocol looks at; the [k]-th number drawn
    from /dev/random is [entropy k]. *)
Record zmodem_options := {
  zmodem_zchallenge : bool;
  zmodem_escape_ctrl : bool;
  entropy : nat -> Z
}.
Definition plain_options : zmodem_options :=
  {| zmodem_zchallenge := false; zmodem_escape_ctrl := false; entropy := fun _ => 0 |}.

(** [outbound_packet] is the array with its [outbound_packet_n]; [can_count] is a
    static variable of [zmodem_send]. *)
Record zmodem_state := {
  shared : common;
  status : ZMODEM_STATUS;
  packet : zmodem_packet;
  packet_buffer : list Z;
  packet_buffer_n : Z;
  encode_byte_map : list Z;
  upload_file_list : option (list file_info);
  upload_file_list_i : nat;
  download_path : option cstring;
  output : outbuf;
  outbound_packet : outbuf;
  zchallenge_value : Z;
  can_count : Z;
  options : zmodem_options;
  draws : nat
}.
#[export] Instance eta_zmodem : Eta zmodem_state := fun s =>
  {| shared := shared s; status := status s; packet := packet s;
     packet_buffer := packet_buffer s; packet_buffer_n := packet_buffer_n s;
     encode_byte_map := encode_byte_map s; upload_file_list := upload_file_list s;
     upload_file_list_i := upload_file_list_i s; download_path := download_path s;
     output := output s; outbound_packet := outbound_packet s;
     zchallenge_value := zchallenge_value s; can_count := can_count s; options := options s;
     draws := draws s |}.

(** The initial values of the static variables.  The initializer of [status]
    has one value less than the structure has numbers: the [Q_TRUE] meant for
    [reliable_link] lands in [last_confirmed_bytes]. *)
Definition initial_status : ZMODEM_STATUS :=
  {| state := INIT; prior_state := INIT; flags := 0; use_crc32 := true; sending := false;
     file_name := None; file_size := 0; file_modtime := 0; file_position := 0; file_stream := None;
     file_crc32 := 0xffffffff; status_block_size := ZMODEM_BLOCK_SIZE; ack_required := false;
     waiting_for_ack := false; streaming_zdata := false; timeout_length := 10; timeout_begin := 0;
     timeout_max := 5; timeout_count := 0; confirmed_bytes := 0; last_confirmed_bytes := 1;
     reliable_link := false; file_position_downgrade := 0; blocks_ack_count := 0;
     consecutive_errors := 0; file_fullname := [] |}.

(** An empty buffer of [n] bytes. *)
Definition empty_outbuf (n : Z) : outbuf := {| ob := replicate (Z.to_nat n) 0; ob_n := 0; ob_max := n |}.

Definition statics_with (o : zmodem_options) (c : common) (room : Z) : zmodem_state :=
  {| shared := c; status := initial_status; packet := zero_packet;
     packet_buffer := replicate (Z.to_nat ZMODEM_MAX_BLOCK_SIZE) 0; packet_buffer_n := 0;
     encode_byte_map := replicate 256 0; upload_file_list := None; upload_file_list_i := 0;
     download_path := None; output := empty_outbuf room;
     outbound_packet := empty_outbuf ZMODEM_MAX_BLOCK_SIZE; zchallenge_value := 0; can_count := 0;
     options := o; draws := 0 |}.
Definition statics : common -> Z -> zmodem_state := statics_with plain_options.

Definition ZM (A : Type) : Type := M zmodem_state A.

Definition lift {A} (m : M common A) : ZM A := zoom shared (fun c s => s <| shared := c |>) m.
Definition on_stats (f : q_transfer_stats_struct -> q_transfer_stats_struct) : ZM unit :=
  lift (stats f).
Definition last_msg (m : message) : ZM unit := lift (set_transfer_stats_last_message m).
Definition on_status (f : ZMODEM_STATUS -> ZMODEM_STATUS) : ZM unit :=
  modify (fun s => s <| status ::= f |>).
Definition on_packet (f : zmodem_packet -> zmodem_packet) : ZM unit :=
  modify (fun s => s <| packet ::= f |>).
Definition set_state (v : STATE) : ZM unit := on_status (fun st => st <| state := v |>).
Definition dirty : ZM unit := lift (modify (fun c => c <| q_screen_dirty := true |>)).

(** ** Hexadecimal *)

Definition hex_digit (v : Z) : Z := if v <? 10 then 48 + v else 97 + (v - 10).

Definition hexify_string (input : list Z) : list Z :=
  flat_map (fun b => [hex_digit (Z.shiftr (Z.land b 0xF0) 4); hex_digit (Z.land b 0x0F)]) input.

Definition tolower (c : Z) : Z := if (65 <=? c) && (c <=? 90) then c + 32 else c.

Definition hex_value (c : Z) : option Z :=
  let ch := tolower c in
  if (48 <=? ch) && (ch <=? 57) then Some (ch - 48)
  else if (97 <=? ch) && (ch <=? 102) then Some (ch - 97 + 0x0A)
  else None.

(** [dehexify_string] on an even number of digits. *)
Fixpoint dehexify_string (input : list Z) : option (list Z) :=
  match input with
  | [] => Some []
  | c1 :: c2 :: input =>
    match hex_value c1, hex_value c2 with
    | Some h, Some l =>
      match dehexify_string input with
      | Some rest => Some (Z.lor (u8 (Z.shiftl h 4)) l :: rest)
      | None => None
      end
    | _, _ => None
    end
  | [_] => None
  end.

(** ** Bytes layer *)

Definition has_flag (fl bit : Z) : bool := negb (Z.land fl bit =? 0).

(** Whether [setup_encode_byte_map] marks [ch] for encoding. *)
Definition encode_char (fl ch : Z) : bool :=
  (ch =? C_CAN) || (ch =? C_XON) || (ch =? C_XOFF) ||
  (ch =? Z.lor C_XON 0x80) || (ch =? Z.lor C_XOFF 0x80) ||
  ((ch <? 0x20) && has_flag fl TX_ESCAPE_CTRL) ||
  ((0x80 <=? ch) && (ch <? 0xA0)) ||
  (negb (Z.land ch 0x80 =? 0) && has_flag fl TX_ESCAPE_8BIT).

Definition map_entry (fl ch : Z) : Z :=
  if encode_char fl ch then Z.lor ch 0x40
  else if ch =? 0x7F then 108
  else if ch =? 0xFF then 109
  else ch.

Definition build_map (fl : Z) : list Z := map_entry fl <$> all_bytes.
#[global] Arguments build_map : simpl never.

Definition setup_encode_byte_map : ZM unit :=
  modify (fun s => s <| encode_byte_map := build_map (flags (status s)) |>).

(** [output[*output_n] = ch; *output_n = *output_n + 1] *)
Definition push (ch : Z) : M outbuf unit :=
  b ← get;
  buf ← store (ob b) (ob_n b) ch;
  modify (fun b => b <| ob := buf |> <| ob_n ::= Z.add 1 |>).

Definition encode_byte (map : list Z) (ch : Z) : M outbuf unit :=
  let new_ch := map !!! Z.to_nat ch in
  b ← get;
  assertM (ob_n b + 2 <=? ob_max b);;
  if negb (new_ch =? ch) then push C_CAN;; push new_ch else push ch.

Fixpoint encode_bytes (map : list Z) (l : list Z) : M outbuf unit :=
  match l with
  | [] => mret tt
  | ch :: l => encode_byte map ch;; encode_bytes map l
  end.

(** The data of a packet. *)
Definition packet_data (p : zmodem_packet) : list Z := take (Z.to_nat (data_n p)) (pdata p).

Definition le_bytes32 (v : Z) : list Z :=
  [Z.land v 0xFF; Z.land (Z.shiftr v 8) 0xFF; Z.land (Z.shiftr v 16) 0xFF; Z.land (Z.shiftr v 24) 0xFF].
Definition be_bytes16 (v : Z) : list Z := [Z.land (Z.shiftr v 8) 0xFF; Z.land v 0xFF].

(** [~] on a [uint32_t] *)
Definition lnot32 (v : Z) : Z := Z.lxor v 0xffffffff.

(** The check bytes of [encode_zdata_bytes]: the CRC-32 is run byte by byte, the
    complement of each call undone. *)
Definition zdata_crc32 (data : list Z) (crc_type : Z) : Z :=
  let step crc b := lnot32 (compute_crc32 crc (Some [b])) in
  lnot32 (step (fold_left step data (compute_crc32 0 None)) crc_type).
Definition zdata_crc16 (data : list Z) (crc_type : Z) : Z :=
  compute_crc16 (compute_crc16 0 data) [crc_type].

Definition zdata_check (p : zmodem_packet) (crc_type : Z) : list Z :=
  if pkt_crc32 p && negb (ptype p =? P_ZSINIT)
  then le_bytes32 (zdata_crc32 (packet_data p) crc_type)
  else be_bytes16 (zdata_crc16 (packet_data p) crc_type).

Definition encode_zdata_bytes (map : list Z) (p : zmodem_packet) (crc_type : Z) : M outbuf unit :=
  encode_bytes map (packet_data p);;
  push C_CAN;;
  push crc_type;;
  encode_bytes map (zdata_check p crc_type);;
  whenM (crc_type =? ZCRCW) (push C_XON).

Definition is_crc_escape (c : Z) : bool :=
  (c =? ZCRCE) || (c =? ZCRCG) || (c =? ZCRCQ) || (c =? ZCRCW).

(** The quick scan for a CRC escape at the top of [decode_zdata_bytes]. *)
Fixpoint zdata_scan (input : list Z) : bool :=
  match input with
  | [] => false
  | b :: input =>
    if b =? C_CAN then
      match input with
      | [] => false
      | c :: input => if is_crc_escape c then true else zdata_scan input
      end
    else zdata_scan input
  end.

(** How the big loop of [decode_zdata_bytes] ends. *)
Inductive zdata_end :=
| ZD_DONE (crc_type : Z) (rest : list Z)
| ZD_MORE
| ZD_CANCELLED.

(** The character an escape stands for; [None] when it stands for none. *)
Definition unescape (c : Z) : option Z :=
  if c =? 108 then Some 0x7F
  else if c =? 109 then Some 0xFF
  else if negb (Z.land c 0x40 =? 0) then Some (Z.land c 0xBF)
  else None.

(** The big loop: [doing] is the CRC escape once it was seen, [crc] and [out]
    the bytes collected so far, [crc_len] the value of [j] that ends it.  After a
    CRC escape the loop steps back and meets the escape byte again, as the first
    byte of [crc_buffer]. *)
Fixpoint zdata_loop (crc_len : nat) (input : list Z) (doing : option Z) (crc out : list Z) :
    zdata_end * list Z * list Z :=
  match input with
  | [] => (ZD_MORE, crc, out)
  | b :: input =>
    if b =? C_CAN then
      match input with
      | [] => (ZD_MORE, crc, out)
      | c :: input' =>
        if is_crc_escape c then
          match doing with
          | Some _ => (ZD_MORE, crc, out)
          | None => zdata_loop crc_len input (Some c) crc out
          end
        else
          match unescape c with
          | Some x =>
            match doing with
            | Some t =>
              if (length crc + 1 =? crc_len)%nat then (ZD_DONE t input', crc ++ [x], out)
              else zdata_loop crc_len input' doing (crc ++ [x]) out
            | None => zdata_loop crc_len input' doing crc (out ++ [x])
            end
          | None =>
            if c =? C_CAN then (ZD_CANCELLED, crc, out)
            else zdata_loop crc_len input' doing crc out
          end
      end
    else
      match doing with
      | Some t =>
        if (length crc + 1 =? crc_len)%nat then (ZD_DONE t input, crc ++ [b], out)
        else zdata_loop crc_len input doing (crc ++ [b]) out
      | None => zdata_loop crc_len input doing crc (out ++ [b])
      end
  end.

(** ** Stopping *)

Definition zmodem_stop (save_partial : bool) : ZM unit :=
  s ← get;
  (if save_partial || sending (status s) then mret tt
   else match file_stream (status s) with
        | None => mret tt
        | Some _ =>
          name ← nonnull (file_name (status s));
          if decide (is_Some (d_files (the_disk (shared s)) !! name))
          then lift (modify (fun c => c <| the_disk ::= fun d => d <| d_files ::= delete name |> |>))
          else lift (emit (Ev_notify "Error deleting file"))
        end);;
  on_status (fun st => st <| file_stream := None |> <| file_name := None |>);;
  modify (fun s => s <| download_path := None |>).

(** protocols.c: [stop_file_transfer].  The batch upload list is freed. *)
Definition stop_file_transfer (new_state : Q_TRANSFER_STATE) : ZM unit :=
  q ← gets (fun s => q_transfer_stats (shared s));
  whenM (bool_decide (qts_protocol q = Q_PROTOCOL_ZMODEM)) (zmodem_stop true);;
  lift (finish_file_transfer new_state);;
  modify (fun s => s <| upload_file_list := None |>).

(** ** Decoding a subpacket *)

(** [decode_zdata_bytes(packet_buffer, &packet_buffer_n, packet.data +
    packet.data_n, &packet.data_n, .., packet.crc_buffer)], its only call. *)
Definition decode_zdata_bytes : ZM bool :=
  s ← get;
  let input := take (Z.to_nat (packet_buffer_n s)) (packet_buffer s) in
  let off := data_n (packet s) in
  assertM (packet_buffer_n s <=? 2 * (ZMODEM_MAX_BLOCK_SIZE - off));;
  if negb (zdata_scan input) then mret false
  else
    let '(e, crc, out) := zdata_loop (if pkt_crc32 (packet s) then 5 else 3) input None [] [] in
    data ← memcpy (pdata (packet s)) off out;
    on_packet (fun p => p <| pdata := data |> <| data_n := Z.of_nat (length out) |>
                          <| crc_buffer ::= fun b => blit b 0 crc |>);;
    match e with
    | ZD_MORE => mret false
    | ZD_CANCELLED =>
      set_state ABORT;;
      last_msg ("TRANSFER CANCELLED BY SENDER"%string, []);;
      stop_file_transfer Q_TRANSFER_STATE_ABORT;;
      mret false
    | ZD_DONE t rest =>
      let i := packet_buffer_n s - Z.of_nat (length rest) in
      i ← (if t =? ZCRCW then
             x ← load (packet_buffer s) i;
             mret (if x =? C_XON then i + 1 else i)
           else mret i);
      if packet_buffer_n s <? i then raise OutOfBounds
      else
        modify (fun s => s <| packet_buffer ::= fun b => blit b 0 (drop (Z.to_nat i) input) |>
                           <| packet_buffer_n ::= fun n => n - i |>);;
        mret true
    end.

(** ** Progress dialog *)

Definition stats_increment_blocks : ZM unit :=
  st ← gets status;
  on_stats (fun q => q
    <| block_size := status_block_size st |>
    <| blocks_transfer :=
         file_position st / ZMODEM_BLOCK_SIZE +
         (if 0 <? file_position st mod ZMODEM_BLOCK_SIZE then 1 else 0) |>);;
  dirty;;
  on_status (fun st => st <| consecutive_errors := 0 |>).

Definition stats_increment_errors (m : message) : ZM unit :=
  last_msg m;;
  on_stats (fun q => q <| error_count ::= fun z => u64 (z + 1) |>);;
  on_status (fun st => st <| consecutive_errors ::= fun z => i32 (z + 1) |>);;
  st ← gets status;
  on_stats (fun q => q <| block_size := status_block_size st |>);;
  on_status (fun st => st <| reliable_link := false |>);;
  st ← gets status;
  whenM ((15 <=? consecutive_errors st) && negb (bool_decide (state st = ZDATA)))
    (last_msg ("LINE NOISE, !@#&*%U"%string, []);;
     stop_file_transfer Q_TRANSFER_STATE_ABORT;;
     set_state ABORT).

(** Move up to a larger block size if things are going better. *)
Definition block_size_up : ZM unit :=
  st ← gets status;
  whenM (8196 <? confirmed_bytes st - file_position_downgrade st)
    (on_status (fun st => st <| status_block_size ::= fun z =>
       let z := i32 (z * 2) in if ZMODEM_BLOCK_SIZE <? z then ZMODEM_BLOCK_SIZE else z |>));;
  on_status (fun st => st <| last_confirmed_bytes := confirmed_bytes st |>).

(** Move down to a smaller block size if things are going badly. *)
Definition block_size_down : ZM unit :=
  st ← gets status;
  let outstanding_packets :=
    Z.quot (i32 (confirmed_bytes st - last_confirmed_bytes st)) (status_block_size st) in
  whenM ((3 <=? outstanding_packets) && (32 <? status_block_size st))
    (on_status (fun st => st <| status_block_size ::= fun z => Z.quot z 2 |>
                             <| file_position_downgrade := confirmed_bytes st |>));;
  st ← gets status;
  whenM ((10 <=? outstanding_packets) && (status_block_size st =? 32))
    (set_state ABORT;;
     stop_file_transfer Q_TRANSFER_STATE_ABORT;;
     last_msg ("LINE NOISE, !@#&*%U"%string, []));;
  on_status (fun st => st <| blocks_ack_count := WINDOW_SIZE_UNRELIABLE |>
                          <| last_confirmed_bytes := confirmed_bytes st |>).

Definition stats_new_file (name : cstring) (filesize : Z) : ZM unit :=
  on_stats (fun q => q <| blocks_transfer := 0 |> <| bytes_transfer := 0 |> <| error_count := 0 |>);;
  on_status (fun st => st <| confirmed_bytes := 0 |> <| last_confirmed_bytes := 0 |>);;
  last_msg (EmptyString, []);;
  on_stats (fun q => q
    <| bytes_total := u64 filesize |>
    <| blocks := u64 (Z.quot filesize ZMODEM_BLOCK_SIZE +
                      (if 0 <? Z.rem filesize ZMODEM_BLOCK_SIZE then 1 else 0)) |>);;
  lift (set_transfer_stats_filename (basename name));;
  lift (set_transfer_stats_pathname (Some (dirname name)));;
  on_stats (fun q => q <| qts_state := Q_TRANSFER_STATE_TRANSFER |>);;
  dirty;;
  t ← lift time;
  on_stats (fun q => q <| file_start_time := t |>);;
  st ← gets status;
  lift (emit (Ev_log (if sending st then "UPLOAD: sending file %s/%s, %d bytes"
                      else "DOWNLOAD: receiving file %s/%s, %d bytes")%string)).

Definition reset_timer : ZM unit :=
  t ← lift time;
  on_status (fun st => st <| timeout_begin := t |>).

Definition check_timeout : ZM bool :=
  now ← lift time;
  st ← gets status;
  if timeout_length st <=? now - timeout_begin st then
    on_status (fun st => st <| timeout_count ::= fun z => i32 (z + 1) |>);;
    st ← gets status;
    (if timeout_max st <=? timeout_count st then
       stats_increment_errors ("TOO MANY TIMEOUTS, TRANSFER CANCELLED"%string, []);;
       stop_file_transfer Q_TRANSFER_STATE_ABORT;;
       set_state ABORT
     else stats_increment_errors ("TIMEOUT"%string, []));;
    reset_timer;;
    mret true
  else mret false.

(** [upload_file_list[upload_file_list_i]]; the list ends with a null name. *)
Definition upload_entry : ZM (option file_info) :=
  l ← gets upload_file_list;
  l ← nonnull l;
  i ← gets upload_file_list_i;
  if (i <? length l)%nat then mret (l !! i)
  else if (i =? length l)%nat then mret None
  else raise OutOfBounds.

Definition setup_for_next_file : ZM bool :=
  on_status (fun st => st <| file_stream := None |> <| file_name := None |>);;
  e ← upload_entry;
  match e with
  | None =>
    on_stats (fun q => q <| batch_bytes_transfer := batch_bytes_total q |>);;
    dirty;;
    set_state ZFIN;;
    mret true
  | Some e =>
    on_status (fun st => st <| file_modtime := st_mtime e |> <| file_size := u32 (st_size e) |>);;
    d ← gets (fun s => the_disk (shared s));
    match fopen_rb d (fi_name e) with
    | None =>
      set_state ABORT;;
      stop_file_transfer Q_TRANSFER_STATE_ABORT;;
      last_msg ("DISK I/O ERROR"%string, []);;
      mret false
    | Some f =>
      on_status (fun st => st <| file_stream := Some f |> <| file_name := Some (basename (fi_name e)) |>);;
      stats_new_file (fi_name e) (i32 (st_size e));;
      st ← gets status;
      whenM (negb (bool_decide (state st = ABORT)))
        (on_stats (fun q => q <| qts_state := Q_TRANSFER_STATE_TRANSFER |>);; set_state ZFILE);;
      mret true
    end
  end.

(** ** Packet layer *)

(** The types whose argument goes out in little-endian order. *)
Definition sent_little_endian (type : Z) : bool :=
  (type =? P_ZRPOS) || (type =? P_ZEOF) || (type =? P_ZCRC) || (type =? P_ZCOMPL) ||
  (type =? P_ZFREECNT) || (type =? P_ZSINIT).
(** The types whose argument is swapped on reception. *)
Definition parsed_little_endian (type : Z) : bool :=
  (type =? P_ZRPOS) || (type =? P_ZEOF) || (type =? P_ZCRC) || (type =? P_ZCOMPL) ||
  (type =? P_ZFREECNT).

Definition argument_bytes (type argument : Z) : list Z :=
  if sent_little_endian type then le_bytes32 argument else rev (le_bytes32 argument).
Definition header_bytes (type argument : Z) : list Z := u8 type :: argument_bytes type argument.

(** Whether a header goes out in hexadecimal. *)
Definition header_is_hex (st : ZMODEM_STATUS) (type : Z) : bool :=
  let do_hex :=
    if (type =? P_ZRQINIT) || (type =? P_ZRINIT) || (type =? P_ZSINIT) ||
       (type =? P_ZCHALLENGE) || (type =? P_ZRPOS) then true
    else has_flag (flags st) TX_ESCAPE_CTRL || has_flag (flags st) TX_ESCAPE_8BIT in
  let do_hex := if (type =? P_ZSINIT) && sending st && use_crc32 st then false else do_hex in
  if (type =? P_ZCRC) && negb (sending st) then true else do_hex.

(** Whether XON follows a hexadecimal header. *)
Definition xon_after (type : Z) : bool := negb ((type =? P_ZFIN) || (type =? P_ZACK)).

(** [data_packet[off ..] = xs] *)
Definition poke (off : Z) (xs : list Z) : M outbuf unit :=
  b ← get;
  buf ← memcpy (ob b) off xs;
  modify (fun b => b <| ob := buf |>).
Definition grow (k : Z) : M outbuf unit := modify (fun b => b <| ob_n ::= Z.add k |>).

Definition build_hex (header : list Z) (type : Z) : M outbuf unit :=
  poke 0 [ZPAD; ZPAD; C_CAN; 66];;
  poke 4 (hexify_string header);;
  grow HEX_PACKET_LENGTH;;
  poke 14 (hexify_string (be_bytes16 (compute_crc16 0 header)));;
  poke 18 [C_CR; Z.lor C_LF 0x80];;
  whenM (xon_after type) (push C_XON).

(** The check bytes of a binary header. *)
Definition header_check (use32 : bool) (header : list Z) : list Z :=
  if use32 then le_bytes32 (compute_crc32 (compute_crc32 0 None) (Some header))
  else be_bytes16 (compute_crc16 0 header).

Definition build_binary (map : list Z) (use32 : bool) (header : list Z) : M outbuf unit :=
  poke 0 [ZPAD; C_CAN; if use32 then 67 else 65];;
  grow 3;;
  encode_bytes map header;;
  encode_bytes map (header_check use32 header).

Definition on_output {A} (m : M outbuf A) : ZM A := zoom output (fun b s => s <| output := b |>) m.

Definition build_packet (type argument : Z) : ZM unit :=
  st ← gets status;
  on_packet (fun p => p <| ptype := type |> <| pkt_crc32 := use_crc32 st |> <| data_n := 0 |>);;
  let header := header_bytes type argument in
  (if header_is_hex st type then
     on_packet (fun p => p <| pkt_crc32 := false |>);;
     on_output (build_hex header type)
   else
     let altered := (type =? P_ZSINIT) && negb (has_flag (flags st) TX_ESCAPE_CTRL) in
     whenM altered (on_status (fun s => s <| flags ::= fun z => Z.lor z TX_ESCAPE_CTRL |>);;
                    setup_encode_byte_map);;
     map ← gets encode_byte_map;
     on_output (build_binary map (use_crc32 st) header);;
     whenM altered (on_status (fun s => s <| flags := u32 (flags st) |>);; setup_encode_byte_map));;
  b ← gets output;
  assertM (ob_n b <=? ob_max b).

(** *** Parsing *)

Inductive ZM_PARSE_PACKET := ZM_PP_INVALID | ZM_PP_NODATA | ZM_PP_CRCERROR | ZM_PP_OK.

#[global] Instance ZM_PARSE_PACKET_eq_dec : EqDecision ZM_PARSE_PACKET.
Proof. solve_decision. Defined.

Definition big_to_little_endian (x : Z) : Z :=
  Z.lor (Z.lor (Z.land (Z.shiftr x 24) 0xFF) (Z.land (Z.shiftr x 8) 0xFF00))
        (Z.lor (Z.land (u32 (Z.shiftl x 8)) 0xFF0000) (Z.land (u32 (Z.shiftl x 24)) 0xFF000000)).

(** The leading bytes that satisfy [f], and the rest. *)
Fixpoint skip_while (f : Z -> bool) (l : list Z) : nat * list Z :=
  match l with
  | [] => (0%nat, [])
  | b :: l' => if f b then let '(n, r) := skip_while f l' in (S n, r) else (0%nat, l)
  end.

(** Byte [i] of a binary header, stored in the packet. *)
Definition header_field (use32 : bool) (i : Z) (ch : Z) (p : zmodem_packet) : zmodem_packet :=
  if i =? 0 then p <| ptype := ch |>
  else if i <? 5 then p <| argument ::= fun a => Z.lor a (Z.shiftl ch (32 - 8 * i)) |>
  else if use32 then p <| crc32 ::= fun c => Z.lor c (Z.shiftl ch (8 * (i - 5))) |>
  else p <| crc16 ::= fun c => Z.lor c (Z.shiftl ch (16 - 8 * (i - 4))) |>.

(** The loop over the [total] bytes of a binary header: the packet, the bytes
    that enter the CRC, the input left and the early return if there is one. *)
Fixpoint header_loop (use32 : bool) (total i : Z) (got_can : bool) (input : list Z)
    (p : zmodem_packet) (hdr : list Z) :
    zmodem_packet * list Z * list Z * option ZM_PARSE_PACKET :=
  if i =? total then (p, hdr, input, None)
  else
    match input with
    | [] => (p, hdr, [], Some ZM_PP_NODATA)
    | b :: input' =>
      if b =? C_CAN then header_loop use32 total i true input' p hdr
      else
        match (if got_can then unescape b else Some b) with
        | None => (p, hdr, input, Some (if use32 then ZM_PP_NODATA else ZM_PP_INVALID))
        | Some ch =>
          header_loop use32 total (i + 1) false input' (header_field use32 i ch p)
            (if i <? 5 then hdr ++ [ch] else hdr)
        end
    end.

(** The value of bytes in big-endian order. *)
Fixpoint be_number (l : list Z) (acc : Z) : Z :=
  match l with [] => acc | b :: l => be_number l (Z.lor (Z.shiftl acc 8) b) end.

(** A hexadecimal header, [input] after the 'B'. *)
Definition parse_hex (input : list Z) (p : zmodem_packet) :
    zmodem_packet * list Z * list Z * option ZM_PARSE_PACKET :=
  if (length input <? 14 + 2)%nat then (p, [], input, Some ZM_PP_NODATA)
  else
    let p := p <| pkt_crc32 := false |> in
    match dehexify_string (take 2 input) with
    | None => (p, [], input, Some ZM_PP_INVALID)
    | Some t =>
      let p := p <| ptype := be_number t 0 |> in
      match dehexify_string (take 8 (drop 2 input)) with
      | None => (p, [], input, Some ZM_PP_INVALID)
      | Some a =>
        let p := p <| argument := be_number a 0 |> in
        match dehexify_string (take 4 (drop 10 input)) with
        | None => (p, [], input, Some ZM_PP_INVALID)
        | Some c =>
          let p := p <| crc16 := be_number c 0 |> in
          let hdr := [u8 (ptype p); Z.land (Z.shiftr (argument p) 24) 0xFF;
                      Z.land (Z.shiftr (argument p) 16) 0xFF;
                      Z.land (Z.shiftr (argument p) 8) 0xFF; Z.land (argument p) 0xFF] in
          let rest := drop 16 input in
          if xon_after (ptype p) then
            match rest with
            | [] => (p, hdr, rest, Some ZM_PP_NODATA)
            | _ :: rest => (p, hdr, rest, None)
            end
          else (p, hdr, rest, None)
        end
      end
    end.

(** A binary header, [input] from the 'A' or 'C'. *)
Definition parse_binary (use32 : bool) (input : list Z) (p : zmodem_packet) :
    zmodem_packet * list Z * list Z * option ZM_PARSE_PACKET :=
  if (length input <? (if use32 then 10 else 8))%nat then (p, [], input, Some ZM_PP_NODATA)
  else
    header_loop use32 (if use32 then 9 else 7) 0 false (drop 1 input)
      (if use32 then p <| pkt_crc32 := true |> <| argument := 0 |> <| crc32 := 0 |>
       else p <| pkt_crc32 := false |> <| argument := 0 |> <| crc16 := 0 |>) [].

(** Finding the header: the bytes before the first ZPAD, and the first byte that
    is not a ZPAD after it. *)
Inductive header_start :=
| HS_NONE (discard : Z)
| HS_AT (discard : Z) (input : list Z).

Definition find_header (input : list Z) : header_start :=
  let '(n, rest) := skip_while (fun b => negb (b =? ZPAD)) input in
  match rest with
  | [] => HS_NONE (Z.of_nat n)
  | _ => HS_AT (Z.of_nat n) (snd (skip_while (fun b => b =? ZPAD) rest))
  end.

Definition valid_type (t : Z) : bool := (0 <=? t) && (t <=? P_ZCOMMAND).
Definition type_has_data (t : Z) : bool :=
  (t =? P_ZSINIT) || (t =? P_ZFILE) || (t =? P_ZDATA) || (t =? P_ZCOMMAND).

(** What follows the fields of a header: type, byte order, CRC, data. *)
Definition accept_header (hdr : list Z) : ZM ZM_PARSE_PACKET :=
  p ← gets packet;
  if negb (valid_type (ptype p)) then mret ZM_PP_INVALID
  else
    whenM (parsed_little_endian (ptype p))
      (on_packet (fun p => p <| argument ::= big_to_little_endian |>));;
    let good :=
      if pkt_crc32 p
      then compute_crc32 (compute_crc32 0 None) (Some hdr) =? crc32 p
      else compute_crc16 0 hdr =? crc16 p in
    if negb good then
      stats_increment_errors ("CRC ERROR"%string, []);;
      mret ZM_PP_CRCERROR
    else
      whenM (type_has_data (ptype p))
        (on_status (fun st => st <| prior_state := state st |> <| state := ZDATA |>);;
         on_packet (fun p => p <| data_n := 0 |> <| crc16 := 0 |>
                               <| crc32 := compute_crc32 0 None |>));;
      mret ZM_PP_OK.

(** [parse_packet(input, input_n, &discard)]: the return code and [discard]. *)
Definition parse_packet (input : list Z) : ZM (ZM_PARSE_PACKET * Z) :=
  modify (fun s => s <| packet := zero_packet |>);;
  match input with
  | [] => raise Indeterminate
  | _ =>
    match find_header input with
    | HS_NONE d => mret (ZM_PP_NODATA, d)
    | HS_AT d [] => mret (ZM_PP_NODATA, d)
    | HS_AT d (b :: rest) =>
      if negb (b =? C_CAN) then mret (ZM_PP_INVALID, d + 1)
      else
        match rest with
        | [] => mret (ZM_PP_NODATA, d)
        | kind :: rest' =>
          let parsed :=
            if kind =? 65 then Some (parse_binary false rest zero_packet)
            else if kind =? 66 then Some (parse_hex rest' zero_packet)
            else if kind =? 67 then Some (parse_binary true rest zero_packet)
            else None in
          match parsed with
          | None => mret (ZM_PP_INVALID, d + 1)
          | Some (p, hdr, remaining, early) =>
            modify (fun s => s <| packet := p |>);;
            match early with
            | Some code => mret (code, d)
            | None =>
              code ← accept_header hdr;
              mret (code, if decide (code = ZM_PP_OK)
                          then Z.of_nat (length input) - Z.of_nat (length remaining) else d)
            end
          end
        end
    end
  end.

(** ** Collecting a subpacket: the state ZDATA *)

(** The value of the received check bytes, and the one computed over the data
    and the CRC escape. *)
Definition le_number32 (l : list Z) : Z :=
  Z.lor (Z.lor (Z.shiftl (l !!! 3%nat) 24) (Z.shiftl (l !!! 2%nat) 16))
        (Z.lor (Z.shiftl (l !!! 1%nat) 8) (l !!! 0%nat)).

Definition zdata_crc_check : ZM bool :=
  p ← gets packet;
  data ← store (pdata p) (data_n p) (crc_buffer p !!! 0%nat);
  on_packet (fun p => p <| pdata := data |>);;
  let covered := take (Z.to_nat (data_n p + 1)) data in
  if pkt_crc32 p then
    let crc := compute_crc32 (compute_crc32 0 None) (Some covered) in
    on_packet (fun p => p <| crc32 := crc |>);;
    mret (le_number32 (drop 1 (crc_buffer p)) =? crc)
  else
    let crc := compute_crc16 (crc16 p) covered in
    on_packet (fun p => p <| crc16 := crc |>);;
    mret (Z.lor (Z.shiftl (crc_buffer p !!! 1%nat) 8) (crc_buffer p !!! 2%nat) =? crc).

(** A good subpacket of a file goes to the disk; [true] when it ended the
    frame. *)
Definition zdata_write (end_of_packet acknowledge : bool) : ZM bool :=
  s ← get;
  f ← nonnull (file_stream (status s));
  let '(rc, d, f) := fwrite (the_disk (shared s)) f (packet_data (packet s)) in
  lift (modify (fun c => c <| the_disk := d |>));;
  let n := data_n (packet s) in
  on_status (fun st => st <| file_stream := Some f |> <| file_position ::= Z.add n |>
                          <| status_block_size := n |>);;
  on_stats (fun q => q <| bytes_transfer ::= fun z => u64 (z + n) |>);;
  stats_increment_blocks;;
  on_packet (fun p => p <| data_n := 0 |> <| crc16 := 0 |> <| crc32 := compute_crc32 0 None |>);;
  st ← gets status;
  whenM acknowledge (build_packet P_ZACK (big_to_little_endian (u32 (file_position st))));;
  (if end_of_packet then set_state ZRPOS_WAIT else mret tt);;
  mret end_of_packet.

(** A bad one is asked for again; [true] when the handler returns. *)
Definition zdata_bad : ZM bool :=
  st ← gets status;
  if decide (prior_state st = ZRPOS_WAIT) then
    stats_increment_errors ("CRC ERROR"%string, []);;
    modify (fun s => s <| packet_buffer_n := 0 |>);;
    st ← gets status;
    build_packet P_ZRPOS (u32 (file_position st));;
    set_state ZRPOS_WAIT;;
    mret true
  else if decide (prior_state st = ZRINIT_WAIT) then
    stats_increment_errors ("CRC ERROR"%string, []);;
    modify (fun s => s <| packet_buffer_n := 0 |>);;
    build_packet P_ZNAK 0;;
    set_state ZRINIT_WAIT;;
    mret true
  else mret false.

(** The state after the subpacket. *)
Definition zdata_next : ZM bool :=
  s ← get;
  if decide (prior_state (status s) = ZRINIT_WAIT) then
    let t := ptype (packet s) in
    if t =? P_ZFILE then set_state ZFILE;; mret false
    else if t =? P_ZSINIT then set_state ZRINIT_WAIT;; build_packet P_ZACK 0;; mret true
    else if t =? P_ZCOMMAND then set_state ZRINIT_WAIT;; build_packet P_ZCOMPL 1;; mret true
    else set_state ZDATA;; mret false
  else set_state ZDATA;; mret false.

(** [receive_zdata] *)
Definition receive_zdata : ZM bool :=
  ok ← decode_zdata_bytes;
  if negb ok then
    n ← gets packet_buffer_n;
    whenM (0 <? n) (on_packet (fun p => p <| data_n := 0 |>));;
    mret true
  else
    p ← gets packet;
    let t := crc_buffer p !!! 0%nat in
    if negb (is_crc_escape t) then
      set_state ABORT;;
      stop_file_transfer Q_TRANSFER_STATE_ABORT;;
      mret true
    else
      let end_of_packet := (t =? ZCRCE) || (t =? ZCRCW) in
      let acknowledge := (t =? ZCRCW) || (t =? ZCRCQ) in
      good ← zdata_crc_check;
      st ← gets status;
      if (good : bool) then
        ended ← (if decide (prior_state st = ZRPOS_WAIT)
                 then zdata_write end_of_packet acknowledge else mret false);
        if (ended : bool) then mret false else zdata_next
      else
        ret ← zdata_bad;
        if (ret : bool) then mret true else zdata_next.

End Zmodem.
