(* ===== verification/ZmodemCodec.v ===== *)
(** The byte layer of Zmodem: what [encode_byte] puts on the line, and that
    [decode_zdata_bytes] takes it back; the 32-bit argument of a header as four bytes. *)

From Stdlib Require Import ZArith Lia List Bool.
From stdpp Require Import base list numbers gmap strings.
From S2P Require Import Prelude Crc Stdio Protocols Zmodem.
Import Zmodem.

(** ** Symbolic execution *)

(** Updated records put in constructor form, nothing else unfolded. *)
Declare Reduction zproj := cbv beta iota zeta delta
  [field_update eta eta_zmodem eta_status eta_packet eta_outbuf eta_common eta_stats eta_disk eta_FILE
   shared status packet packet_buffer packet_buffer_n encode_byte_map upload_file_list
   upload_file_list_i download_path output outbound_packet zchallenge_value can_count options draws
   state prior_state flags use_crc32 sending file_name file_size file_modtime file_position
   file_stream file_crc32 status_block_size ack_required waiting_for_ack streaming_zdata
   timeout_length timeout_begin timeout_max timeout_count confirmed_bytes last_confirmed_bytes
   reliable_link file_position_downgrade blocks_ack_count consecutive_errors file_fullname
   ptype argument pkt_crc32 crc16 crc32 pdata data_n crc_buffer ob ob_n ob_max
   q_transfer_stats q_screen_dirty the_disk clock ticks events
   batch_upload_file_list q_download_location q_state_download
   qts_state qts_protocol protocol_name qts_filename pathname last_message
   bytes_total bytes_transfer blocks block_size blocks_transfer error_count
   batch_bytes_total batch_bytes_transfer batch_start_time file_start_time end_time
   d_files d_unreadable d_readonly d_nostat d_space f_name f_pos f_eof f_err].

(** Equality of two updated records. *)
Ltac record_norm :=
  lazymatch goal with
  | |- ?x = ?y =>
    let x' := eval zproj in x in let y' := eval zproj in y in change (x' = y')
  end.
Ltac record_eq := record_norm; reflexivity.

(** A postcondition at an equal state. *)
Lemma post_eq {A S} (Q : A -> S -> Prop) a x y : Q a y -> y = x -> Q a x.
Proof. by intros H <-. Qed.

(** ** Writing to a buffer *)

(** A buffer with an array of its announced size. *)
Definition buf_ok (b : outbuf) : Prop :=
  length (ob b) = Z.to_nat (ob_max b) /\ 0 <= ob_n b <= ob_max b.

(** The bytes in use. *)
Definition ob_bytes (b : outbuf) : list Z := take (Z.to_nat (ob_n b)) (ob b).

(** [b'] is [b] with [xs] appended. *)
Definition appended (b : outbuf) (xs : list Z) (b' : outbuf) : Prop :=
  buf_ok b' /\ ob_max b' = ob_max b /\ ob_bytes b' = ob_bytes b ++ xs.

Lemma length_ob_bytes b : buf_ok b -> Z.of_nat (length (ob_bytes b)) = ob_n b.
Proof. intros [Hl Hn]. unfold ob_bytes. rewrite length_take. lia. Qed.

Lemma appended_n b xs b' : buf_ok b -> appended b xs b' -> ob_n b' = ob_n b + Z.of_nat (length xs).
Proof.
  intros Hb (Hb' & _ & He). pose proof (length_ob_bytes b Hb). pose proof (length_ob_bytes b' Hb').
  rewrite He, length_app in *. lia.
Qed.

Lemma appended_nil b : buf_ok b -> appended b [] b.
Proof. intros H. split; [done|]. split; [done|]. by rewrite app_nil_r. Qed.

Lemma appended_trans b xs b' ys b'' :
  appended b xs b' -> appended b' ys b'' -> appended b (xs ++ ys) b''.
Proof.
  intros (_ & H1 & H2) (H3 & H4 & H5). split; [done|]. split; [congruence|].
  by rewrite H5, H2, app_assoc.
Qed.

Lemma wp_push ch b (Q : unit -> outbuf -> Prop) :
  buf_ok b -> ob_n b + 1 <= ob_max b ->
  (forall b', appended b [ch] b' -> Q tt b') -> wp (push ch) b Q.
Proof.
  intros [Hl Hn] Hm HQ. unfold push, store. apply wp_bind, wp_get, wp_bind, wp_memcpy; [lia|cbn; lia|].
  apply wp_modify, HQ. unfold appended, buf_ok, ob_bytes, field_update; cbn.
  rewrite length_blit by (cbn; lia). split; [lia|]. split; [done|].
  replace (Z.to_nat (1 + ob_n b)) with (Z.to_nat (ob_n b) + 1)%nat by lia.
  rewrite <- take_take_drop, take_blit by lia. f_equal.
  change 1%nat with (length [ch]) at 1. apply blit_segment. lia.
Qed.

(** Sequences of writes. *)
Lemma wp_append_seq (m1 : M outbuf unit) (m2 : M outbuf unit) xs ys b (Q : unit -> outbuf -> Prop) :
  wp m1 b (fun _ b' => appended b xs b') ->
  (forall b', appended b xs b' -> wp m2 b' (fun _ b'' => appended b' ys b'')) ->
  (forall b'', appended b (xs ++ ys) b'' -> Q tt b'') -> wp (m1;; m2) b Q.
Proof.
  intros H1 H2 HQ. apply wp_bind. eapply wp_mono; [exact H1|]. intros [] b' Hb'. cbn beta.
  eapply wp_mono; [by apply H2|]. intros [] b'' Hb''. apply HQ. by eapply appended_trans.
Qed.

(** ** The map *)

(** The map depends on two flags only. *)
Definition map_entry_of (ctrl bit8 : bool) (ch : Z) : Z :=
  map_entry (Z.lor (if ctrl then TX_ESCAPE_CTRL else 0) (if bit8 then TX_ESCAPE_8BIT else 0)) ch.

Lemma map_entry_flags fl ch :
  map_entry fl ch = map_entry_of (has_flag fl TX_ESCAPE_CTRL) (has_flag fl TX_ESCAPE_8BIT) ch.
Proof.
  unfold map_entry_of, map_entry, encode_char.
  by destruct (has_flag fl TX_ESCAPE_CTRL), (has_flag fl TX_ESCAPE_8BIT).
Qed.

Lemma build_map_lookup fl ch : is_byte ch -> build_map fl !!! Z.to_nat ch = map_entry fl ch.
Proof.
  intros Hch. unfold build_map, all_bytes, is_byte in *. rewrite list_lookup_total_alt.
  rewrite !list_lookup_fmap, lookup_seq_lt by lia. cbn. by rewrite Z2Nat.id by lia.
Qed.

(** What an encoded byte looks like on the line. *)
Definition enc (fl ch : Z) : list Z :=
  if map_entry fl ch =? ch then [ch] else [C_CAN; map_entry fl ch].
Definition encs (fl : Z) (l : list Z) : list Z := flat_map (enc fl) l.

(** The facts about one byte, by evaluation over the four kinds of map. *)
Definition entry_good (ctrl bit8 : bool) (ch : Z) : bool :=
  let e := map_entry_of ctrl bit8 ch in
  (0 <=? e) && (e <? 256) &&
  (if e =? ch then negb (ch =? C_CAN) && negb (ch =? C_XON) && negb (ch =? C_XOFF)
   else negb (e =? C_CAN) && negb (e =? C_XON) && negb (e =? C_XOFF) && negb (is_crc_escape e) &&
        bool_decide (unescape e = Some ch)).

Lemma entry_good_all ctrl bit8 ch : is_byte ch -> entry_good ctrl bit8 ch = true.
Proof.
  intros H. apply (all_bytes_spec (entry_good ctrl bit8)); [|done].
  destruct ctrl, bit8; vm_compute; reflexivity.
Qed.

(** A byte goes out as itself, when it is none of CAN, XON and XOFF, or as CAN and
    a byte that stands for it. *)
Lemma enc_cases fl ch :
  is_byte ch ->
  (enc fl ch = [ch] /\ ch <> C_CAN /\ ch <> C_XON /\ ch <> C_XOFF) \/
  (exists e, enc fl ch = [C_CAN; e] /\ is_byte e /\ e <> C_CAN /\ e <> C_XON /\ e <> C_XOFF /\
     is_crc_escape e = false /\ unescape e = Some ch).
Proof.
  intros H. unfold enc. rewrite map_entry_flags.
  pose proof (entry_good_all (has_flag fl TX_ESCAPE_CTRL) (has_flag fl TX_ESCAPE_8BIT) ch H) as Hg.
  unfold entry_good in Hg. apply andb_prop in Hg as [Hg1 Hg]. apply andb_prop in Hg1 as [Hg1 Hg2].
  destruct (_ =? ch).
  - left. rewrite !andb_true_iff, !negb_true_iff, !Z.eqb_neq in Hg. tauto.
  - right. eexists. rewrite !andb_true_iff, !negb_true_iff, !Z.eqb_neq, bool_decide_eq_true in Hg.
    split; [done|]. unfold is_byte. split; [lia|]. tauto.
Qed.

Lemma length_enc fl ch : (1 <= length (enc fl ch) <= 2)%nat.
Proof. unfold enc. destruct (_ =? _); cbn; lia. Qed.

Lemma encs_cons fl ch l : encs fl (ch :: l) = enc fl ch ++ encs fl l.
Proof. done. Qed.

Lemma length_encs fl l : (length l <= length (encs fl l) <= 2 * length l)%nat.
Proof.
  induction l as [|ch l IH]; [cbn; lia|]. rewrite encs_cons, length_app. cbn [length]. pose proof (length_enc fl ch). lia.
Qed.

Lemma bytes_encs fl l : bytes l -> bytes (encs fl l).
Proof.
  induction 1 as [|ch l Hch _ IH]; [constructor|]. rewrite encs_cons. apply bytes_app. split; [|done].
  destruct (enc_cases fl ch Hch) as [[-> _]|(e & -> & He & _)].
  - auto with qodem.
  - apply bytes_cons; [by unfold is_byte, C_CAN|]. auto with qodem.
Qed.

Lemma wp_encode_byte fl ch b (Q : unit -> outbuf -> Prop) :
  is_byte ch -> buf_ok b -> ob_n b + 2 <= ob_max b ->
  (forall b', appended b (enc fl ch) b' -> Q tt b') -> wp (encode_byte (build_map fl) ch) b Q.
Proof.
  intros Hch Hb Hm HQ. unfold encode_byte. cbv zeta. apply wp_bind, wp_get, wp_bind, wp_assert; [lia|].
  rewrite build_map_lookup by done. unfold enc in HQ.
  destruct (Z.eqb_spec (map_entry fl ch) ch) as [E|E]; cbn [negb].
  - apply wp_push; [done|lia|]. exact HQ.
  - apply (wp_append_seq _ _ [C_CAN] [map_entry fl ch]).
    + apply wp_push; [done|lia|done].
    + intros b' Hb'. pose proof (appended_n _ _ _ Hb Hb') as Hn. cbn in Hn.
      destruct Hb' as (Hb' & Hmax & _). apply wp_push; [done|lia|done].
    + exact HQ.
Qed.

Lemma wp_encode_bytes fl l : forall b (Q : unit -> outbuf -> Prop),
  bytes l -> buf_ok b -> ob_n b + 2 * Z.of_nat (length l) <= ob_max b ->
  (forall b', appended b (encs fl l) b' -> Q tt b') -> wp (encode_bytes (build_map fl) l) b Q.
Proof.
  induction l as [|ch l IH]; intros b Q Hl Hb Hm HQ; cbn [encode_bytes].
  - apply wp_ret, HQ. by apply appended_nil.
  - apply Forall_cons_iff in Hl as [Hch Hl]. cbn [length] in Hm.
    apply (wp_append_seq _ _ (enc fl ch) (encs fl l)).
    + apply wp_encode_byte; [done|done|lia|done].
    + intros b' Hb'. pose proof (appended_n _ _ _ Hb Hb') as Hn. pose proof (length_enc fl ch).
      destruct Hb' as (Hb' & Hmax & _). apply IH; [done|done|lia|done].
    + exact HQ.
Qed.

(** ** Subpackets *)

(** A subpacket on the line. *)
Definition zdata_frame (fl : Z) (p : zmodem_packet) (t : Z) : list Z :=
  encs fl (packet_data p) ++ [C_CAN; t] ++ encs fl (zdata_check p t) ++
  (if t =? ZCRCW then [C_XON] else []).

Lemma bytes_le_bytes32 v : bytes (le_bytes32 v).
Proof. unfold le_bytes32. repeat apply bytes_cons; auto with qodem. Qed.
Lemma bytes_be_bytes16 v : bytes (be_bytes16 v).
Proof. unfold be_bytes16. repeat apply bytes_cons; auto with qodem. Qed.

Lemma bytes_zdata_check p t : bytes (zdata_check p t).
Proof. unfold zdata_check. destruct (_ && _); [apply bytes_le_bytes32|apply bytes_be_bytes16]. Qed.

Definition check_len (p : zmodem_packet) : nat :=
  if pkt_crc32 p && negb (ptype p =? P_ZSINIT) then 4 else 2.

Lemma length_zdata_check p t : length (zdata_check p t) = check_len p.
Proof. unfold zdata_check, check_len. by destruct (_ && _). Qed.

(** The room a subpacket needs. *)
Definition zdata_room (p : zmodem_packet) (t : Z) : Z :=
  2 * Z.of_nat (length (packet_data p)) + 2 + 2 * Z.of_nat (check_len p) +
  (if t =? ZCRCW then 1 else 0).

Lemma wp_encode_zdata fl p t b (Q : unit -> outbuf -> Prop) :
  bytes (packet_data p) -> buf_ok b -> ob_n b + zdata_room p t <= ob_max b ->
  (forall b', appended b (zdata_frame fl p t) b' -> Q tt b') ->
  wp (encode_zdata_bytes (build_map fl) p t) b Q.
Proof.
  intros Hd Hb Hm HQ. unfold encode_zdata_bytes, zdata_room in *.
  pose proof (length_zdata_check p t) as Hlc. pose proof (length_encs fl (packet_data p)).
  pose proof (length_encs fl (zdata_check p t)).
  set (xon := if t =? ZCRCW then 1 else 0) in Hm.
  assert (Hxon : 0 <= xon) by (unfold xon; destruct (t =? ZCRCW); lia).
  assert (Hroom : forall xs b', appended b xs b' ->
    buf_ok b' /\ ob_n b' = ob_n b + Z.of_nat (length xs) /\ ob_max b' = ob_max b).
  { intros xs b' Hx. pose proof (appended_n _ _ _ Hb Hx). destruct Hx as (? & ? & _). auto. }
  apply (wp_append_seq _ _ (encs fl (packet_data p))
    ([C_CAN] ++ [t] ++ encs fl (zdata_check p t) ++ (if t =? ZCRCW then [C_XON] else []))); [..|exact HQ].
  { apply wp_encode_bytes; [done|done|lia|done]. }
  intros b1 (Hb1 & Hn1 & Hm1)%Hroom.
  apply (wp_append_seq _ _ [C_CAN] ([t] ++ encs fl (zdata_check p t) ++ (if t =? ZCRCW then [C_XON] else [])));
    [|intros b2 H2|done].
  { apply wp_push; [done|lia|done]. }
  pose proof (appended_n _ _ _ Hb1 H2) as Hn2. destruct H2 as (Hb2 & Hm2 & _). cbn [length] in Hn2.
  apply (wp_append_seq _ _ [t] (encs fl (zdata_check p t) ++ (if t =? ZCRCW then [C_XON] else [])));
    [|intros b3 H3|done].
  { apply wp_push; [done|lia|done]. }
  pose proof (appended_n _ _ _ Hb2 H3) as Hn3. destruct H3 as (Hb3 & Hm3 & _). cbn [length] in Hn3.
  apply (wp_append_seq _ _ (encs fl (zdata_check p t)) (if t =? ZCRCW then [C_XON] else []));
    [|intros b4 H4|done].
  { apply wp_encode_bytes; [apply bytes_zdata_check|done|lia|done]. }
  pose proof (appended_n _ _ _ Hb3 H4) as Hn4. destruct H4 as (Hb4 & Hm4 & _).
  apply wp_when; intros Ht; rewrite Ht.
  - apply wp_push; [done| |done]. unfold xon in *. rewrite Ht in *. lia.
  - by apply appended_nil.
Qed.

(** *** Decoding *)

Definition is_can (b : Z) : bool := b =? C_CAN.

Lemma zdata_loop_enc k fl ch rest doing crc out :
  is_byte ch ->
  zdata_loop k (enc fl ch ++ rest) doing crc out =
  match doing with
  | Some t =>
    if (length crc + 1 =? k)%nat then (ZD_DONE t rest, crc ++ [ch], out)
    else zdata_loop k rest doing (crc ++ [ch]) out
  | None => zdata_loop k rest doing crc (out ++ [ch])
  end.
Proof.
  intros Hch. destruct (enc_cases fl ch Hch) as [(-> & Hc & _)|(e & -> & _ & _ & _ & _ & He & Hu)].
  - cbn [app zdata_loop]. by rewrite (proj2 (Z.eqb_neq _ _) Hc).
  - cbn [app zdata_loop]. rewrite Z.eqb_refl, He, Hu. done.
Qed.

Lemma zdata_loop_data k fl l : forall rest crc out,
  bytes l ->
  zdata_loop k (encs fl l ++ rest) None crc out = zdata_loop k rest None crc (out ++ l).
Proof.
  induction l as [|ch l IH]; intros rest crc out Hl.
  - by rewrite app_nil_r.
  - apply Forall_cons_iff in Hl as [Hch Hl].
    rewrite encs_cons, <- app_assoc, zdata_loop_enc by done. rewrite IH by done.
    by rewrite <- app_assoc.
Qed.

Lemma zdata_loop_check k fl t l : forall rest crc out,
  bytes l -> (l <> [])%list -> (length crc + length l = k)%nat ->
  zdata_loop k (encs fl l ++ rest) (Some t) crc out = (ZD_DONE t rest, crc ++ l, out).
Proof.
  induction l as [|ch l IH]; intros rest crc out Hl Hne Hk; [done|].
  apply Forall_cons_iff in Hl as [Hch Hl]. cbn [length] in Hk.
  rewrite encs_cons, <- app_assoc, zdata_loop_enc by done.
  destruct (Nat.eqb_spec (length crc + 1) k) as [E|E].
  - destruct l; [done|cbn in Hk; lia].
  - destruct l as [|ch' l]; [cbn in Hk; lia|].
    rewrite IH; [by rewrite <- app_assoc|done|done|rewrite length_app; cbn in *; lia].
Qed.

(** The loop undoes the encoding: the data, then the escape and the check
    bytes. *)
Lemma zdata_loop_frame fl data t check rest :
  bytes data -> is_crc_escape t = true -> bytes check -> check <> [] ->
  zdata_loop (S (length check)) (encs fl data ++ [C_CAN; t] ++ encs fl check ++ rest) None [] [] =
  (ZD_DONE t rest, t :: check, data).
Proof.
  intros Hd Ht Hc Hne. rewrite zdata_loop_data by done. cbn [app zdata_loop].
  rewrite Z.eqb_refl, Ht.
  assert (Hcan : (t =? C_CAN) = false).
  { unfold is_crc_escape in Ht. destruct (Z.eqb_spec t C_CAN) as [->|]; done. }
  rewrite Hcan. cbn [length]. destruct check as [|c check]; [done|]. cbn [Nat.add Nat.eqb length].
  rewrite (zdata_loop_check _ fl t (c :: check)); [done..|]. cbn [length]. lia.
Qed.

Lemma zdata_scan_enc fl ch rest : is_byte ch -> zdata_scan (enc fl ch ++ rest) = zdata_scan rest.
Proof.
  intros Hch. destruct (enc_cases fl ch Hch) as [(-> & Hc & _)|(e & -> & _ & _ & _ & _ & He & _)].
  - cbn [app zdata_scan]. by rewrite (proj2 (Z.eqb_neq _ _) Hc).
  - cbn [app zdata_scan]. by rewrite Z.eqb_refl, He.
Qed.

Lemma zdata_scan_frame fl data t rest :
  bytes data -> is_crc_escape t = true -> zdata_scan (encs fl data ++ [C_CAN; t] ++ rest) = true.
Proof.
  intros Hd Ht. induction Hd as [|ch data Hch _ IH].
  - cbn. by rewrite Ht.
  - by rewrite encs_cons, <- app_assoc, zdata_scan_enc.
Qed.

(** *** Check bytes *)

Lemma lnot32_compute crc b : lnot32 (compute_crc32 crc (Some [b])) = crc32_byte crc b.
Proof.
  unfold lnot32, compute_crc32. cbn [fold_left].
  by rewrite Z.lxor_assoc, Z.lxor_nilpotent, Z.lxor_0_r.
Qed.

Lemma fold_lnot32 l r :
  fold_left (fun crc b => lnot32 (compute_crc32 crc (Some [b]))) l r = fold_left crc32_byte l r.
Proof.
  revert r. induction l as [|b l IH]; intros r; cbn [fold_left]; [done|].
  by rewrite lnot32_compute, IH.
Qed.

(** The detour through complements is the CRC-32 of the data and the escape. *)
Lemma zdata_crc32_spec data t :
  zdata_crc32 data t = compute_crc32 (compute_crc32 0 None) (Some (data ++ [t])).
Proof.
  unfold zdata_crc32. cbv zeta. rewrite fold_lnot32, lnot32_compute.
  unfold compute_crc32 at 2. by rewrite fold_left_app.
Qed.

Lemma zdata_crc16_spec data t :
  bytes data -> is_byte t -> zdata_crc16 data t = compute_crc16 0 (data ++ [t]).
Proof.
  intros Hd Ht. unfold zdata_crc16.
  assert (H0 : in_width 16 0) by (unfold in_width; lia).
  assert (bytes [t]) by auto with qodem.
  rewrite (compute_crc16_code 0 (data ++ [t])) by (done || by apply bytes_app).
  rewrite compute_crc16_code by (done || apply compute_crc16_range).
  rewrite compute_crc16_code by done. unfold crc16. symmetry. apply code_app.
Qed.

Lemma le_number32_bytes v : 0 <= v < 2 ^ 32 -> le_number32 (le_bytes32 v) = v.
Proof. intros Hv. unfold le_number32, le_bytes32. symmetry. by apply bytes_of_u32. Qed.

Lemma compute_crc32_range l : bytes l -> 0 <= compute_crc32 (compute_crc32 0 None) (Some l) < 2 ^ 32.
Proof.
  intros Hl. rewrite compute_crc32_code by done. apply lxor_bound; [lia| |lia].
  apply crc32_range; [|done]. cbn. unfold in_width. lia.
Qed.

(** What the receiver computes over the data and the escape is what the sender
    put in the check bytes. *)
Definition check_value (use32 : bool) (data : list Z) (t : Z) : Z :=
  if use32 then compute_crc32 (compute_crc32 0 None) (Some (data ++ [t]))
  else compute_crc16 0 (data ++ [t]).

Definition uses32 (p : zmodem_packet) : bool := pkt_crc32 p && negb (ptype p =? P_ZSINIT).

Lemma zdata_check_value p t :
  bytes (packet_data p) -> is_byte t ->
  zdata_check p t =
    if uses32 p then le_bytes32 (check_value true (packet_data p) t)
    else be_bytes16 (check_value false (packet_data p) t).
Proof.
  intros Hd Ht. unfold zdata_check, check_value, uses32.
  by rewrite zdata_crc32_spec, zdata_crc16_spec.
Qed.

(** ** Words of four bytes *)

Definition word (b3 b2 b1 b0 : Z) : Z :=
  Z.lor (Z.lor (Z.shiftl b3 24) (Z.shiftl b2 16)) (Z.lor (Z.shiftl b1 8) b0).

Lemma testbit_byte b k i :
  is_byte b -> 0 <= k -> Z.testbit (Z.shiftl b k) i = (k <=? i) && (i <? k + 8) && Z.testbit b (i - k).
Proof.
  intros Hb Hk. rewrite <- (land_ff_byte b Hb) at 1. rewrite <- (Z.shiftr_0_r b) at 1.
  rewrite testbit_byte_at by lia. by rewrite Z.add_0_r.
Qed.

Lemma testbit_word b3 b2 b1 b0 i :
  is_byte b3 -> is_byte b2 -> is_byte b1 -> is_byte b0 -> 0 <= i ->
  Z.testbit (word b3 b2 b1 b0) i =
    if i <? 8 then Z.testbit b0 i else if i <? 16 then Z.testbit b1 (i - 8)
    else if i <? 24 then Z.testbit b2 (i - 16) else if i <? 32 then Z.testbit b3 (i - 24) else false.
Proof.
  intros H3 H2 H1 H0 Hi. unfold word. rewrite <- (Z.shiftl_0_r b0) at 1.
  rewrite !Z.lor_spec, !testbit_byte by (done || lia). rewrite Z.sub_0_r.
  destruct (Z.ltb_spec i 8), (Z.ltb_spec i 16), (Z.ltb_spec i 24), (Z.ltb_spec i 32),
    (Z.leb_spec 24 i), (Z.ltb_spec i (24 + 8)), (Z.leb_spec 16 i), (Z.ltb_spec i (16 + 8)),
    (Z.leb_spec 8 i), (Z.ltb_spec i (8 + 8)), (Z.leb_spec 0 i), (Z.ltb_spec i (0 + 8));
    try lia; cbn [andb orb]; by rewrite ?orb_false_r.
Qed.

Lemma word_range b3 b2 b1 b0 :
  is_byte b3 -> is_byte b2 -> is_byte b1 -> is_byte b0 -> 0 <= word b3 b2 b1 b0 < 2 ^ 32.
Proof.
  intros H3 H2 H1 H0. apply bounded_by_bits; [lia|]. intros i Hi.
  rewrite testbit_word by (done || lia).
  destruct (Z.ltb_spec i 8), (Z.ltb_spec i 16), (Z.ltb_spec i 24), (Z.ltb_spec i 32); lia || done.
Qed.

(** Byte [k / 8] of a word. *)
Lemma word_byte b3 b2 b1 b0 k b :
  is_byte b3 -> is_byte b2 -> is_byte b1 -> is_byte b0 ->
  (k, b) ∈ [(0, b0); (8, b1); (16, b2); (24, b3)] ->
  Z.land (Z.shiftr (word b3 b2 b1 b0) k) 0xFF = b.
Proof.
  intros H3 H2 H1 H0 Hk.
  assert (Hkb : is_byte b /\ 0 <= k) by
    (rewrite !elem_of_cons, elem_of_nil in Hk; destruct Hk as [[= -> ->]|[[= -> ->]|[[= -> ->]|[[= -> ->]|[]]]]]; split; done || lia).
  apply Z.bits_inj'. intros i Hi. rewrite land_ff. change 256 with (2 ^ 8).
  rewrite testbit_mod_pow2, Z.shiftr_spec, testbit_word by (done || lia).
  destruct (Z.ltb_spec i 8); cbn [andb].
  - rewrite !elem_of_cons, elem_of_nil in Hk.
    destruct Hk as [[= -> ->]|[[= -> ->]|[[= -> ->]|[[= -> ->]|[]]]]];
      repeat match goal with |- context [?a <? ?b] => destruct (Z.ltb_spec a b); try lia end;
      f_equal; lia.
  - destruct Hkb as [Hb _]. by rewrite (testbit_high b 8) by (done || lia).
Qed.

Lemma land_mask x k : 0 <= k -> Z.land x (Z.shiftl 0xFF k) = Z.shiftl (Z.land (Z.shiftr x k) 0xFF) k.
Proof.
  intros Hk. bitwise. rewrite testbit_byte_at by lia.
  rewrite (testbit_byte 0xFF) by (unfold is_byte; lia).
  destruct (Z.leb_spec k i), (Z.ltb_spec i (k + 8)); cbn [andb]; rewrite ?andb_false_r; try done.
  replace (i - k + k) with i by lia.
  change 255 with (Z.ones 8). rewrite Z.ones_spec_low by lia. apply andb_true_r.
Qed.

Lemma shifted_byte w j k :
  0 <= j -> 0 <= k -> k + j + 8 <= 32 ->
  Z.land (Z.shiftr (u32 (Z.shiftl w j)) (k + j)) 0xFF = Z.land (Z.shiftr w k) 0xFF.
Proof.
  intros Hj Hk Hb. rewrite !land_ff. change 256 with (2 ^ 8). apply Z.bits_inj'. intros i Hi.
  rewrite !testbit_mod_pow2 by lia. destruct (Z.ltb_spec i 8); cbn [andb]; [|done].
  rewrite !Z.shiftr_spec by lia. unfold u32. rewrite testbit_mod_pow2 by lia.
  rewrite (proj2 (Z.ltb_lt _ _)) by lia. cbn [andb]. rewrite Z.shiftl_spec by lia. f_equal. lia.
Qed.

(** [big_to_little_endian] reverses the bytes. *)
Lemma big_to_little_word b3 b2 b1 b0 :
  is_byte b3 -> is_byte b2 -> is_byte b1 -> is_byte b0 ->
  big_to_little_endian (word b3 b2 b1 b0) = word b0 b1 b2 b3.
Proof.
  intros H3 H2 H1 H0. unfold big_to_little_endian. set (w := word b3 b2 b1 b0).
  change 0xFF00 with (Z.shiftl 0xFF 8). change 0xFF0000 with (Z.shiftl 0xFF 16).
  change 0xFF000000 with (Z.shiftl 0xFF 24). rewrite !land_mask by lia.
  rewrite Z.shiftr_shiftr by lia. change (8 + 8) with 16.
  change (Z.shiftr (u32 (Z.shiftl w 8)) 16) with (Z.shiftr (u32 (Z.shiftl w 8)) (8 + 8)).
  change (Z.shiftr (u32 (Z.shiftl w 24)) 24) with (Z.shiftr (u32 (Z.shiftl w 24)) (0 + 24)).
  rewrite !shifted_byte by lia. unfold w.
  rewrite (word_byte b3 b2 b1 b0 24 b3), (word_byte b3 b2 b1 b0 16 b2),
    (word_byte b3 b2 b1 b0 8 b1), (word_byte b3 b2 b1 b0 0 b0) by (done || set_solver).
  unfold word. rewrite Z.lor_comm. f_equal; apply Z.lor_comm.
Qed.
