(* ===== verification/ZmodemHeader.v ===== *)
(** Zmodem headers: what [build_packet] writes and [parse_packet] reads. *)

From Stdlib Require Import ZArith Lia List Bool.
From stdpp Require Import base list numbers gmap strings.
From S2P Require Import Prelude Crc Stdio Protocols Zmodem ZmodemCodec.
Import Zmodem.

(** ** Building *)

(** The array of [b] starts with [pre]. *)
Definition starts (b : outbuf) (pre : list Z) : Prop := exists rest, ob b = pre ++ rest.

Lemma wp_poke off xs pre b (Q : unit -> outbuf -> Prop) :
  starts b pre -> off = Z.of_nat (length pre) ->
  (length pre + length xs <= length (ob b))%nat ->
  (forall b', starts b' (pre ++ xs) -> length (ob b') = length (ob b) ->
     ob_n b' = ob_n b -> ob_max b' = ob_max b -> Q tt b') ->
  wp (poke off xs) b Q.
Proof.
  intros [rest Hb] -> Hl HQ. unfold poke. apply wp_bind, wp_get, wp_bind, wp_memcpy; [lia|lia|].
  apply wp_modify, HQ; try done.
  - exists (drop (length xs) rest). cbn. rewrite Hb, Nat2Z.id, blit_exact by done. by rewrite app_assoc.
  - cbn. apply length_blit. lia.
Qed.

Definition hex_header (header : list Z) (type : Z) : list Z :=
  [ZPAD; ZPAD; C_CAN; 66] ++ hexify_string header ++
  hexify_string (be_bytes16 (compute_crc16 0 header)) ++ [C_CR; Z.lor C_LF 0x80] ++
  (if xon_after type then [C_XON] else []).

Definition binary_header (fl : Z) (use32 : bool) (header : list Z) : list Z :=
  [ZPAD; C_CAN; if use32 then 67 else 65] ++ encs fl header ++ encs fl (header_check use32 header).

Lemma length_hexify l : length (hexify_string l) = (2 * length l)%nat.
Proof. unfold hexify_string. induction l; cbn in *; lia. Qed.

(** An empty buffer with room for any header. *)
Definition fresh (b : outbuf) : Prop := buf_ok b /\ ob_n b = 0 /\ 32 <= ob_max b.

Lemma starts_nil b : starts b [].
Proof. by exists (ob b). Qed.

Lemma wp_build_hex header type b (Q : unit -> outbuf -> Prop) :
  fresh b -> length header = 5%nat ->
  (forall b', buf_ok b' -> ob_max b' = ob_max b -> ob_bytes b' = hex_header header type -> Q tt b') ->
  wp (build_hex header type) b Q.
Proof.
  intros ([Hl Hn] & H0 & Hm) Hh HQ. unfold build_hex.
  pose proof (length_hexify header) as Hx. rewrite Hh in Hx.
  apply wp_bind, (wp_poke _ _ []); [apply starts_nil|done|cbn; lia|].
  intros b1 S1 L1 N1 M1.
  apply wp_bind, (wp_poke _ _ _ _ _ S1); [done|rewrite Hx; cbn; lia|]. intros b2 S2 L2 N2 M2.
  apply wp_bind, wp_modify. set (b2' := b2 <| ob_n ::= _ |>).
  assert (S2' : starts b2' (([] ++ [ZPAD; ZPAD; C_CAN; 66]) ++ hexify_string header)) by done.
  assert (L2' : length (ob b2') = length (ob b2)) by done.
  assert (N2' : ob_n b2' = 20) by (unfold b2', field_update, HEX_PACKET_LENGTH; cbn; lia).
  assert (M2' : ob_max b2' = ob_max b2) by done. clearbody b2'.
  apply wp_bind, (wp_poke _ _ _ _ _ S2'); [rewrite !length_app, Hx; done| |].
  { rewrite !length_app, Hx, length_hexify. cbn. lia. }
  intros b3 S3 L3 N3 M3.
  apply wp_bind, (wp_poke _ _ _ _ _ S3); [rewrite !length_app, Hx, length_hexify; done| |].
  { rewrite !length_app, Hx, length_hexify. cbn. lia. }
  intros b4 [rest Hr] L4 N4 M4.
  assert (Hb4 : buf_ok b4) by (split; lia).
  assert (E4 : ob_bytes b4 = [ZPAD; ZPAD; C_CAN; 66] ++ hexify_string header ++
    hexify_string (be_bytes16 (compute_crc16 0 header)) ++ [C_CR; Z.lor C_LF 0x80]).
  { unfold ob_bytes. rewrite Hr. rewrite take_app_length'.
    - by rewrite <- !app_assoc.
    - rewrite !length_app, Hx, length_hexify. cbn. lia. }
  apply wp_when; intros Hxon; unfold hex_header in HQ; rewrite Hxon in HQ.
  - apply wp_push; [done|lia|]. intros b5 (Hb5 & M5 & E5). apply HQ; [done|lia|].
    rewrite E5, E4. by rewrite <- !app_assoc.
  - apply HQ; [done|lia|]. by rewrite E4, app_nil_r.
Qed.

Lemma length_header_check use32 header :
  length (header_check use32 header) = if use32 then 4%nat else 2%nat.
Proof. by destruct use32. Qed.

Lemma bytes_header_check use32 header : bytes (header_check use32 header).
Proof. destruct use32; [apply bytes_le_bytes32|apply bytes_be_bytes16]. Qed.

Lemma wp_build_binary fl use32 header b (Q : unit -> outbuf -> Prop) :
  fresh b -> length header = 5%nat -> bytes header ->
  (forall b', buf_ok b' -> ob_max b' = ob_max b -> ob_bytes b' = binary_header fl use32 header -> Q tt b') ->
  wp (build_binary (build_map fl) use32 header) b Q.
Proof.
  intros ([Hl Hn] & H0 & Hm) Hh Hb HQ. unfold build_binary.
  apply wp_bind, (wp_poke _ _ []); [apply starts_nil|done|cbn; lia|]. intros b1 [rest S1] L1 N1 M1.
  apply wp_bind, wp_modify. set (b1' := b1 <| ob_n ::= _ |>).
  assert (N1' : ob_n b1' = 3) by (unfold b1', field_update; cbn; lia).
  assert (Hok : buf_ok b1') by (split; unfold b1', field_update; cbn; lia).
  assert (E1 : ob_bytes b1' = [ZPAD; C_CAN; if use32 then 67 else 65]).
  { unfold ob_bytes. rewrite N1'. change (ob b1') with (ob b1). by rewrite S1. }
  assert (M1' : ob_max b1' = ob_max b) by (unfold b1', field_update; cbn; lia). clearbody b1'.
  pose proof (length_encs fl header) as Hlen. pose proof (length_header_check use32 header) as Hlc.
  apply (wp_append_seq _ _ (encs fl header) (encs fl (header_check use32 header))).
  - apply wp_encode_bytes; [done|done|lia|done].
  - intros b2 H2. pose proof (appended_n _ _ _ Hok H2). destruct H2 as (? & ? & _).
    apply wp_encode_bytes; [apply bytes_header_check|done| |done].
    rewrite Hlc. destruct use32; lia.
  - intros b3 (Hb3 & M3 & E3). apply HQ; [done|lia|]. rewrite E3, E1. done.
Qed.

(** *** The whole of [build_packet] *)

Lemma bytes_argument type arg : bytes (argument_bytes type arg).
Proof.
  unfold argument_bytes. destruct (sent_little_endian type); [apply bytes_le_bytes32|].
  unfold bytes. apply Forall_rev. apply bytes_le_bytes32.
Qed.

Lemma bytes_header type arg : bytes (header_bytes type arg).
Proof. apply bytes_cons; [apply u8_byte|apply bytes_argument]. Qed.

Lemma length_header type arg : length (header_bytes type arg) = 5%nat.
Proof. unfold header_bytes, argument_bytes. by destruct (sent_little_endian type). Qed.

(** The header on the line: hexadecimal, or binary under the map of the flags. *)
Definition header_flags (st : ZMODEM_STATUS) (type : Z) : Z :=
  if (type =? P_ZSINIT) && negb (has_flag (flags st) TX_ESCAPE_CTRL)
  then Z.lor (flags st) TX_ESCAPE_CTRL else flags st.
Definition header_frame (st : ZMODEM_STATUS) (type arg : Z) : list Z :=
  if header_is_hex st type then hex_header (header_bytes type arg) type
  else binary_header (header_flags st type) (use_crc32 st) (header_bytes type arg).

(** The sender's side of the state between two packets. *)
Record ready (s : zmodem_state) : Prop := {
  rd_output : fresh (output s);
  rd_map : encode_byte_map s = build_map (flags (status s));
  rd_flags : 0 <= flags (status s) < 2 ^ 32
}.

Definition announced (type : Z) (hex : bool) (st : ZMODEM_STATUS) (p : zmodem_packet) : zmodem_packet :=
  p <| ptype := type |> <| pkt_crc32 := if hex then false else use_crc32 st |> <| data_n := 0 |>.

Lemma wp_on_output m s (Q : unit -> zmodem_state -> Prop) :
  wp m (output s) (fun _ b => Q tt (s <| output := b |>)) -> wp (on_output m) s Q.
Proof. unfold wp, on_output, zoom. destruct (m (output s)) as [[[] b]| |]; auto. Qed.

Lemma wp_build_packet type arg s (Q : unit -> zmodem_state -> Prop) :
  ready s ->
  (forall b', buf_ok b' -> ob_max b' = ob_max (output s) ->
     ob_bytes b' = header_frame (status s) type arg ->
     Q tt (s <| packet := announced type (header_is_hex (status s) type) (status s) (packet s) |>
             <| output := b' |>)) ->
  wp (build_packet type arg) s Q.
Proof.
  intros [Hf Hmap Hfl] HQ. unfold build_packet.
  pose proof (bytes_header type arg) as Hb. pose proof (length_header type arg) as Hl.
  apply wp_bind, wp_gets, wp_bind, wp_modify. unfold header_frame in HQ.
  destruct (header_is_hex (status s) type).
  - apply wp_bind, wp_bind, wp_modify, wp_on_output.
    apply wp_build_hex; [exact Hf|done|]. intros b' [Hb'l Hb'n] Hm He.
    apply wp_bind, wp_gets, wp_assert; [apply Z.leb_le, (proj2 Hb'n)|].
    specialize (HQ b' (conj Hb'l Hb'n) Hm He). apply (post_eq _ _ _ _ HQ). unfold announced. record_eq.
  - unfold header_flags in HQ. apply wp_bind.
    destruct ((type =? P_ZSINIT) && negb (has_flag (flags (status s)) TX_ESCAPE_CTRL)).
    + apply wp_bind, wp_bind, wp_modify, wp_modify, wp_bind, wp_gets, wp_bind, wp_on_output.
      cbn [encode_byte_map flags status output field_update].
      apply wp_build_binary; [exact Hf|done|done|]. intros b' [Hb'l Hb'n] Hm He.
      apply wp_bind, wp_modify, wp_modify.
      apply wp_bind, wp_gets, wp_assert; [apply Z.leb_le, (proj2 Hb'n)|].
      specialize (HQ b' (conj Hb'l Hb'n) Hm He).
      apply (post_eq _ _ _ _ HQ). unfold announced. clear -Hmap Hfl.
      destruct s as [? [] ? ? ? map]; cbn in Hmap, Hfl. subst map. record_norm.
      by rewrite u32_id.
    + apply wp_bind, wp_ret, wp_bind, wp_gets, wp_bind, wp_on_output.
      match goal with |- wp (build_binary ?m _ _) _ _ => change m with (encode_byte_map s) end.
      rewrite Hmap.
      apply wp_build_binary; [exact Hf|done|done|]. intros b' [Hb'l Hb'n] Hm He.
      apply wp_ret, wp_bind, wp_gets, wp_assert; [apply Z.leb_le, (proj2 Hb'n)|].
      specialize (HQ b' (conj Hb'l Hb'n) Hm He).
      apply (post_eq _ _ _ _ HQ). unfold announced. record_eq.
Qed.

(** ** Parsing *)

(** The bytes of a binary header, stored one after the other. *)
Fixpoint store_fields (use32 : bool) (i : Z) (l : list Z) (p : zmodem_packet) : zmodem_packet :=
  match l with
  | [] => p
  | ch :: l => store_fields use32 (i + 1) l (header_field use32 i ch p)
  end.

Lemma header_loop_enc use32 total i fl ch rest p hdr :
  is_byte ch -> i <> total ->
  header_loop use32 total i false (enc fl ch ++ rest) p hdr =
  header_loop use32 total (i + 1) false rest (header_field use32 i ch p)
    (if i <? 5 then hdr ++ [ch] else hdr).
Proof.
  intros Hch Hi.
  destruct (enc_cases fl ch Hch) as [(-> & Hc & _)|(e & -> & _ & Hce & _ & _ & _ & Hu)];
    cbn [app]; cbn [header_loop]; rewrite (proj2 (Z.eqb_neq _ _) Hi).
  - by rewrite (proj2 (Z.eqb_neq _ _) Hc).
  - rewrite Z.eqb_refl. by rewrite (proj2 (Z.eqb_neq _ _) Hce), Hu.
Qed.

Lemma header_loop_done use32 total got rest p hdr :
  header_loop use32 total total got rest p hdr = (p, hdr, rest, None).
Proof. destruct rest; cbn [header_loop]; by rewrite Z.eqb_refl. Qed.

Lemma header_loop_encs use32 total fl l : forall i rest p hdr,
  bytes l -> total = i + Z.of_nat (length l) -> 0 <= i ->
  header_loop use32 total i false (encs fl l ++ rest) p hdr =
  (store_fields use32 i l p, hdr ++ take (5 - Z.to_nat i) l, rest, None).
Proof.
  induction l as [|ch l IH]; intros i rest p hdr Hl Ht Hi.
  - cbn [length Z.of_nat] in Ht. rewrite Z.add_0_r in Ht. subst i. rewrite take_nil, app_nil_r.
    apply header_loop_done.
  - apply Forall_cons_iff in Hl as [Hch Hl]. cbn [length] in Ht.
    rewrite encs_cons, <- app_assoc, header_loop_enc by (done || lia).
    rewrite IH by (done || lia). cbn [store_fields]. f_equal. f_equal. f_equal.
    destruct (Z.ltb_spec i 5).
    + replace (5 - Z.to_nat i)%nat with (S (5 - Z.to_nat (i + 1))) by lia. cbn [take].
      by rewrite <- app_assoc.
    + replace (5 - Z.to_nat i)%nat with 0%nat by lia.
      replace (5 - Z.to_nat (i + 1))%nat with 0%nat by lia. done.
Qed.

(** *** Hexadecimal *)

Lemma hex_digit_value v : 0 <= v < 16 -> hex_value (hex_digit v) = Some v.
Proof.
  intros Hv. assert (H : v ∈ (Z.of_nat <$> seq 0 16)).
  { apply list_elem_of_fmap. exists (Z.to_nat v). split; [lia|]. apply elem_of_seq. lia. }
  cbn in H. rewrite !elem_of_cons, elem_of_nil in H.
  repeat destruct H as [->|H]; done.
Qed.

Definition hex_good (b : Z) : bool :=
  bool_decide (hex_value (hex_digit (Z.shiftr (Z.land b 0xF0) 4)) = Some (Z.shiftr b 4)) &&
  bool_decide (hex_value (hex_digit (Z.land b 0x0F)) = Some (Z.land b 0x0F)) &&
  (Z.lor (u8 (Z.shiftl (Z.shiftr b 4) 4)) (Z.land b 0x0F) =? b).

Lemma hex_good_all b : is_byte b -> hex_good b = true.
Proof. apply all_bytes_spec. vm_compute. reflexivity. Qed.

(** [dehexify_string] undoes [hexify_string]. *)
Lemma dehexify_hexify l : bytes l -> dehexify_string (hexify_string l) = Some l.
Proof.
  induction 1 as [|b l Hb _ IH]; [done|].
  change (hexify_string (b :: l)) with (hex_digit (Z.shiftr (Z.land b 0xF0) 4) ::
    hex_digit (Z.land b 0x0F) :: hexify_string l).
  cbn [dehexify_string]. pose proof (hex_good_all b Hb) as H. unfold hex_good in H.
  rewrite !andb_true_iff, !bool_decide_eq_true, Z.eqb_eq in H. destruct H as [[-> ->] H].
  by rewrite IH, H.
Qed.

Lemma hexify_app l1 l2 : hexify_string (l1 ++ l2) = hexify_string l1 ++ hexify_string l2.
Proof. unfold hexify_string. apply flat_map_app. Qed.
