(* ===== verification/ZmodemParse.v ===== *)
(** Zmodem headers from one side to the other: [parse_packet] reads what
    [build_packet] writes, and turns damage away. *)

From Stdlib Require Import ZArith Lia List Bool.
From stdpp Require Import base list numbers gmap strings.
From S2P Require Import Prelude Crc Stdio Protocols Zmodem ZmodemCodec ZmodemHeader.
Import Zmodem.

(** ** Numbers and their bytes *)

Definition byte_of (v k : Z) : Z := Z.land (Z.shiftr v k) 0xFF.

Lemma byte_of_byte v k : is_byte (byte_of v k).
Proof. unfold byte_of. auto with qodem. Qed.
#[local] Hint Resolve byte_of_byte : core.

Lemma word_bytes v : 0 <= v < 2 ^ 32 -> word (byte_of v 24) (byte_of v 16) (byte_of v 8) (byte_of v 0) = v.
Proof. intros Hv. symmetry. unfold byte_of. rewrite Z.shiftr_0_r. by apply bytes_of_u32. Qed.

Lemma be_number_word a b c d : be_number [a; b; c; d] 0 = word a b c d.
Proof.
  cbn [be_number]. unfold word. rewrite Z.shiftl_0_l, Z.lor_0_l.
  rewrite !Z.shiftl_lor, !Z.shiftl_shiftl by lia. cbn [Z.add Pos.add Pos.succ].
  by rewrite !Z.lor_assoc.
Qed.

Lemma be_number_pair a b : be_number [a; b] 0 = Z.lor (Z.shiftl a 8) b.
Proof. cbn [be_number]. by rewrite Z.shiftl_0_l, Z.lor_0_l. Qed.

(** The argument as the receiver reads it off the line, most significant byte
    first. *)
Definition line_argument (type arg : Z) : Z :=
  if sent_little_endian type then big_to_little_endian arg else arg.

Lemma argument_line type arg :
  0 <= arg < 2 ^ 32 ->
  let v := line_argument type arg in
  0 <= v < 2 ^ 32 /\ argument_bytes type arg = [byte_of v 24; byte_of v 16; byte_of v 8; byte_of v 0].
Proof.
  intros Ha. unfold line_argument, argument_bytes. destruct (sent_little_endian type); cbv zeta.
  - rewrite <- (word_bytes arg Ha) at 1 2 4 5 6 7. rewrite big_to_little_word by done.
    split; [by apply word_range|]. unfold le_bytes32.
    assert (E : forall k b, (k, b) ∈ [(0, byte_of arg 24); (8, byte_of arg 16); (16, byte_of arg 8); (24, byte_of arg 0)] ->
      byte_of (word (byte_of arg 0) (byte_of arg 8) (byte_of arg 16) (byte_of arg 24)) k = b)
      by (intros k b Hk; by apply word_byte).
    rewrite (E 24 (byte_of arg 0)), (E 16 (byte_of arg 8)), (E 8 (byte_of arg 16)), (E 0 (byte_of arg 24))
      by (rewrite !elem_of_cons; tauto).
    unfold byte_of. by rewrite Z.shiftr_0_r.
  - split; [done|]. unfold le_bytes32, byte_of. by rewrite Z.shiftr_0_r.
Qed.

(** The receiver swaps the types the sender swapped, ZSINIT apart. *)
Definition received_argument (type arg : Z) : Z :=
  if type =? P_ZSINIT then big_to_little_endian arg else arg.

Lemma swap_swap arg : 0 <= arg < 2 ^ 32 -> big_to_little_endian (big_to_little_endian arg) = arg.
Proof. intros Ha. rewrite <- (word_bytes arg Ha). by rewrite !big_to_little_word by done. Qed.

Lemma swap_range x : 0 <= big_to_little_endian x < 2 ^ 32.
Proof.
  apply (bounded_by_bits _ 32); [done|]. intros j Hj. unfold big_to_little_endian.
  rewrite !Z.lor_spec, !Z.land_spec, (testbit_high 0xFF 32), (testbit_high 0xFF00 32), (testbit_high 0xFF0000 32),
    (testbit_high 0xFF000000 32) by (done || lia). by rewrite !andb_false_r.
Qed.

Lemma line_received type arg :
  0 <= arg < 2 ^ 32 ->
  (if parsed_little_endian type then big_to_little_endian (line_argument type arg)
   else line_argument type arg) = received_argument type arg.
Proof.
  intros Ha. unfold line_argument, received_argument, sent_little_endian.
  change (_ || _ || _ || _ || _ || (type =? P_ZSINIT)) with (parsed_little_endian type || (type =? P_ZSINIT)).
  destruct (parsed_little_endian type) eqn:E; cbn [orb].
  - rewrite swap_swap by done. destruct (Z.eqb_spec type P_ZSINIT) as [->|]; [done|done].
  - done.
Qed.

(** ** Reading the fields *)

Section header_fields.
Context (ty arg : Z) (u : bool) (v16 v32 : Z) (d : list Z) (n : Z) (cb : list Z).
Let pkt ty arg v16 v32 := Build_zmodem_packet ty arg u v16 v32 d n cb.

Lemma header_field_type b ch : header_field b 0 ch (pkt ty arg v16 v32) = pkt ch arg v16 v32.
Proof. reflexivity. Qed.

Lemma header_field_arg b i ch :
  0 < i < 5 ->
  header_field b i ch (pkt ty arg v16 v32) = pkt ty (Z.lor arg (Z.shiftl ch (32 - 8 * i))) v16 v32.
Proof.
  intros Hi. unfold header_field. rewrite (proj2 (Z.eqb_neq _ _)), (proj2 (Z.ltb_lt _ _)) by lia.
  reflexivity.
Qed.

Lemma header_field_crc b i ch :
  5 <= i ->
  header_field b i ch (pkt ty arg v16 v32) =
  if b then pkt ty arg v16 (Z.lor v32 (Z.shiftl ch (8 * (i - 5))))
  else pkt ty arg (Z.lor v16 (Z.shiftl ch (16 - 8 * (i - 4)))) v32.
Proof.
  intros Hi. unfold header_field. rewrite (proj2 (Z.eqb_neq _ _)), (proj2 (Z.ltb_ge _ _)) by lia.
  by destruct b.
Qed.
End header_fields.

Lemma store_header_32 t a3 a2 a1 a0 c0 c1 c2 c3 p :
  argument p = 0 -> crc32 p = 0 ->
  store_fields true 0 [t; a3; a2; a1; a0; c0; c1; c2; c3] p =
  p <| ptype := t |> <| argument := word a3 a2 a1 a0 |> <| crc32 := le_number32 [c0; c1; c2; c3] |>.
Proof.
  destruct p as [? arg ? ? c ? ? ?]. cbn [argument crc32]. intros -> ->.
  cbn [store_fields Z.add Pos.add Pos.succ].
  rewrite header_field_type, !header_field_arg, !header_field_crc by lia.
  assert (E1 : Z.lor (Z.lor (Z.lor (Z.lor 0 (Z.shiftl a3 24)) (Z.shiftl a2 16)) (Z.shiftl a1 8))
    (Z.shiftl a0 0) = word a3 a2 a1 a0) by (unfold word; by rewrite Z.shiftl_0_r, Z.lor_0_l, !Z.lor_assoc).
  assert (E2 : Z.lor (Z.lor (Z.lor (Z.lor 0 (Z.shiftl c0 0)) (Z.shiftl c1 8)) (Z.shiftl c2 16)) (Z.shiftl c3 24) =
    le_number32 [c0; c1; c2; c3]).
  { rewrite Z.shiftl_0_r, Z.lor_0_l. apply Z.bits_inj'. intros i _. unfold le_number32. cbn [lookup_total list_lookup_total].
    rewrite !Z.lor_spec. by destruct (Z.testbit c0 i), (Z.testbit (Z.shiftl c3 24) i),
      (Z.testbit (Z.shiftl c2 16) i), (Z.testbit (Z.shiftl c1 8) i). }
  exact (f_equal2 (fun a c => Build_zmodem_packet t a _ _ c _ _ _) E1 E2).
Qed.

Lemma store_header_16 t a3 a2 a1 a0 c1 c0 p :
  argument p = 0 -> crc16 p = 0 ->
  store_fields false 0 [t; a3; a2; a1; a0; c1; c0] p =
  p <| ptype := t |> <| argument := word a3 a2 a1 a0 |> <| crc16 := Z.lor (Z.shiftl c1 8) c0 |>.
Proof.
  destruct p as [? arg ? c ? ? ? ?]. cbn [argument crc16]. intros -> ->.
  cbn [store_fields Z.add Pos.add Pos.succ].
  rewrite header_field_type, !header_field_arg, !header_field_crc by lia.
  assert (E1 : Z.lor (Z.lor (Z.lor (Z.lor 0 (Z.shiftl a3 24)) (Z.shiftl a2 16)) (Z.shiftl a1 8))
    (Z.shiftl a0 0) = word a3 a2 a1 a0) by (unfold word; by rewrite Z.shiftl_0_r, Z.lor_0_l, !Z.lor_assoc).
  assert (E2 : Z.lor (Z.lor 0 (Z.shiftl c1 (16 - 8 * (5 - 4)))) (Z.shiftl c0 (16 - 8 * (6 - 4))) =
    Z.lor (Z.shiftl c1 8) c0) by (by rewrite Z.lor_0_l, Z.shiftl_0_r).
  exact (f_equal2 (fun a c => Build_zmodem_packet t a _ c _ _ _ _) E1 E2).
Qed.

(** The packet of a header as the receiver has it before the swap. *)
Definition line_packet (use32 : bool) (type arg : Z) : zmodem_packet :=
  let h := header_bytes type arg in
  let p := zero_packet <| pkt_crc32 := use32 |> in
  if use32
  then p <| ptype := type |> <| argument := line_argument type arg |>
         <| crc32 := compute_crc32 (compute_crc32 0 None) (Some h) |>
  else p <| ptype := type |> <| argument := line_argument type arg |>
         <| crc16 := compute_crc16 0 h |>.

Lemma valid_type_byte t : valid_type t = true -> is_byte t.
Proof. unfold valid_type, is_byte, P_ZCOMMAND. lia. Qed.

Lemma store_header use32 type arg :
  is_byte type -> 0 <= arg < 2 ^ 32 ->
  store_fields use32 0 (header_bytes type arg ++ header_check use32 (header_bytes type arg))
    (if use32 then zero_packet <| pkt_crc32 := true |> <| argument := 0 |> <| crc32 := 0 |>
     else zero_packet <| pkt_crc32 := false |> <| argument := 0 |> <| crc16 := 0 |>) =
  line_packet use32 type arg.
Proof.
  intros Ht Ha. pose proof (bytes_header type arg) as Hb.
  destruct (argument_line type arg Ha) as [Hr He].
  assert (Hh : header_bytes type arg = [type; byte_of (line_argument type arg) 24;
      byte_of (line_argument type arg) 16; byte_of (line_argument type arg) 8;
      byte_of (line_argument type arg) 0])
    by (unfold header_bytes; by rewrite He, u8_id).
  unfold line_packet. revert Hh Hb. generalize (header_bytes type arg). intros h Hh Hb.
  destruct use32; cbn [header_check]; rewrite Hh at 1; cbn [app].
  - unfold le_bytes32. rewrite store_header_32 by done. rewrite word_bytes by done.
    change [?a; ?b; ?c; ?d] with (le_bytes32 (compute_crc32 (compute_crc32 0 None) (Some h))).
    rewrite le_number32_bytes by (by apply compute_crc32_range). reflexivity.
  - unfold be_bytes16. rewrite store_header_16 by done. rewrite word_bytes by done.
    rewrite <- bytes_of_u16 by apply compute_crc16_range. reflexivity.
Qed.

Lemma parse_binary_frame fl use32 type arg rest :
  is_byte type -> 0 <= arg < 2 ^ 32 ->
  parse_binary use32 (drop 2 (binary_header fl use32 (header_bytes type arg)) ++ rest) zero_packet =
  (line_packet use32 type arg, header_bytes type arg, rest, None).
Proof.
  intros Ht Ha. rewrite <- (store_header use32) by done. unfold binary_header.
  pose proof (bytes_header type arg) as Hb. pose proof (length_header type arg) as Hh.
  revert Hh Hb. generalize (header_bytes type arg). intros h Hh Hb.
  pose proof (length_header_check use32 h) as Hc. pose proof (length_encs fl h) as Heh.
  pose proof (length_encs fl (header_check use32 h)) as Hec.
  assert (E : forall k, drop 2 ([ZPAD; C_CAN; k] ++ encs fl h ++ encs fl (header_check use32 h)) ++ rest =
    k :: encs fl (h ++ header_check use32 h) ++ rest).
  { intros k. unfold encs. rewrite flat_map_app, <- app_assoc. cbn [app drop]. by rewrite <- ?app_assoc. }
  rewrite E. unfold parse_binary.
  rewrite (proj2 (Nat.ltb_ge _ _)).
  2: { cbn [length]. pose proof (length_encs fl (h ++ header_check use32 h)) as Hx.
       rewrite !length_app in *. destruct use32; lia. }
  change (drop 1 (?x :: ?l)) with l.
  rewrite header_loop_encs; [..|lia].
  - rewrite take_app_length' by (rewrite Hh; done). reflexivity.
  - apply bytes_app. split; [done|apply bytes_header_check].
  - rewrite length_app, Hh, Hc. by destruct use32.
Qed.

Lemma take_drop_app {A} (n m : nat) (l1 l2 l3 : list A) :
  length l1 = n -> length l2 = m -> take m (drop n (l1 ++ l2 ++ l3)) = l2.
Proof. intros <- <-. by rewrite drop_app_length, take_app_length. Qed.

Lemma parse_hex_frame t v crc p rest :
  is_byte t -> 0 <= v < 2 ^ 32 -> 0 <= crc < 2 ^ 16 ->
  let vb := [byte_of v 24; byte_of v 16; byte_of v 8; byte_of v 0] in
  parse_hex (hexify_string (t :: vb) ++ hexify_string (be_bytes16 crc) ++ [C_CR; Z.lor C_LF 0x80] ++
             (if xon_after t then [C_XON] else []) ++ rest) p =
  (p <| pkt_crc32 := false |> <| ptype := t |> <| argument := v |> <| crc16 := crc |>, t :: vb, rest, None).
Proof.
  intros Ht Hv Hc vb. change (t :: vb) with ([t] ++ vb) at 1. rewrite hexify_app, <- app_assoc.
  set (h1 := hexify_string [t]). set (h2 := hexify_string vb). set (h3 := hexify_string (be_bytes16 crc)).
  assert (H1 : length h1 = 2%nat) by (apply (length_hexify [t])).
  assert (H2 : length h2 = 8%nat) by (apply (length_hexify vb)).
  assert (H3 : length h3 = 4%nat) by (apply length_hexify).
  set (tail := [C_CR; Z.lor C_LF 0x80] ++ _).
  assert (Hl : (16 <= length (h1 ++ h2 ++ h3 ++ tail))%nat)
    by (rewrite !length_app, H1, H2, H3; cbn; lia).
  assert (T1 : take 2 (h1 ++ h2 ++ h3 ++ tail) = h1) by (by apply take_app_length').
  assert (T2 : take 8 (drop 2 (h1 ++ h2 ++ h3 ++ tail)) = h2) by (by apply take_drop_app).
  assert (T3 : take 4 (drop 10 (h1 ++ h2 ++ h3 ++ tail)) = h3).
  { rewrite (app_assoc h1). apply take_drop_app; [rewrite length_app; lia|done]. }
  assert (T4 : drop 16 (h1 ++ h2 ++ h3 ++ tail) = (if xon_after t then [C_XON] else []) ++ rest).
  { unfold tail. rewrite (app_assoc h1), (app_assoc (h1 ++ h2)), app_assoc.
    apply drop_app_length'. rewrite !length_app, H1, H2, H3. done. }
  unfold parse_hex. rewrite (proj2 (Nat.ltb_ge _ _)) by lia. rewrite T1, T2, T3, T4.
  assert (D1 : dehexify_string h1 = Some [t]) by (apply dehexify_hexify, bytes_cons; [done|constructor]).
  assert (D2 : dehexify_string h2 = Some vb) by (apply dehexify_hexify; repeat apply bytes_cons; auto with qodem).
  assert (D3 : dehexify_string h3 = Some (be_bytes16 crc)) by (apply dehexify_hexify, bytes_be_bytes16).
  rewrite D1, D2, D3. clear T1 T2 T3 T4 D1 D2 D3.
  assert (N2 : be_number vb 0 = v) by (unfold vb; rewrite be_number_word; by apply word_bytes).
  assert (N3 : be_number (be_bytes16 crc) 0 = crc)
    by (unfold be_bytes16; rewrite be_number_pair; symmetry; by apply bytes_of_u16).
  rewrite N2, N3. change (be_number [t] 0) with t.
  assert (Hu : u8 t = t) by (by apply u8_id). revert Hu. unfold vb, byte_of. rewrite Z.shiftr_0_r. intros Hu.
  set (q := p <| pkt_crc32 := false |> <| ptype := t |> <| argument := v |> <| crc16 := crc |>).
  set (tl := [Z.land (Z.shiftr v 24) 0xFF; Z.land (Z.shiftr v 16) 0xFF; Z.land (Z.shiftr v 8) 0xFF;
              Z.land v 0xFF]).
  transitivity (q, u8 t :: tl, rest, @None ZM_PARSE_PACKET); [|by rewrite Hu].
  change (xon_after (ptype _)) with (xon_after t). destruct (xon_after t); reflexivity.
Qed.

(** ** Accepting a header *)

(** The state once a good header was read. *)
Definition header_received (u : bool) (type arg : Z) (s : zmodem_state) : zmodem_state :=
  let p := (line_packet u type arg) <| argument := received_argument type arg |> in
  if type_has_data type
  then s <| status ::= fun st => st <| prior_state := state st |> <| state := ZDATA |> |>
         <| packet := p <| data_n := 0 |> <| crc16 := 0 |> <| crc32 := compute_crc32 0 None |> |>
  else s <| packet := p |>.

Lemma line_packet_fields u type arg :
  let p := line_packet u type arg in
  ptype p = type /\ pkt_crc32 p = u /\ argument p = line_argument type arg.
Proof. by destruct u. Qed.

(** The comparison of [accept_header]. *)
Definition crc_good (hdr : list Z) (p : zmodem_packet) : bool :=
  if pkt_crc32 p then compute_crc32 (compute_crc32 0 None) (Some hdr) =? crc32 p
  else compute_crc16 0 hdr =? crc16 p.

Lemma line_packet_good u type arg : crc_good (header_bytes type arg) (line_packet u type arg) = true.
Proof.
  unfold crc_good. destruct u.
  - change (pkt_crc32 _) with true. apply Z.eqb_refl.
  - change (pkt_crc32 _) with false. apply Z.eqb_refl.
Qed.

Lemma wp_accept_good u type arg s (Q : ZM_PARSE_PACKET -> zmodem_state -> Prop) :
  valid_type type = true -> 0 <= arg < 2 ^ 32 ->
  Q ZM_PP_OK (header_received u type arg s) ->
  wp (accept_header (header_bytes type arg)) (s <| packet := line_packet u type arg |>) Q.
Proof.
  intros Hv Ha HQ. pose proof (line_packet_good u type arg) as Hg. unfold crc_good in Hg.
  pose proof (line_received type arg Ha) as Hr.
  destruct (line_packet_fields u type arg) as (H1 & H2 & H3).
  unfold header_received in HQ. revert HQ Hg H1 H2 H3. generalize (line_packet u type arg).
  intros p HQ Hg H1 H2 H3. unfold accept_header.
  apply wp_bind, wp_gets. change (packet (s <| packet := p |>)) with p. rewrite H1, Hv. cbn [negb].
  cbv zeta. rewrite Hg. cbn [negb]. rewrite <- Hr, <- H3 in HQ. clear Hr Hg.
  destruct (parsed_little_endian type).
  - apply wp_bind, wp_modify. destruct (type_has_data type).
    + apply wp_bind, wp_bind, wp_modify, wp_modify, wp_ret. apply (post_eq _ _ _ _ HQ). record_eq.
    + apply wp_bind, wp_ret, wp_ret. apply (post_eq _ _ _ _ HQ). record_eq.
  - apply wp_bind, wp_ret. destruct (type_has_data type).
    + apply wp_bind, wp_bind, wp_modify, wp_modify, wp_ret. apply (post_eq _ _ _ _ HQ).
      destruct p. record_eq.
    + apply wp_bind, wp_ret, wp_ret. apply (post_eq _ _ _ _ HQ). destruct p. record_eq.
Qed.

(** ** The whole of [parse_packet] *)

Lemma header_frame_start st type arg :
  header_frame st type arg =
    if header_is_hex st type then [ZPAD; ZPAD; C_CAN; 66] ++ drop 4 (header_frame st type arg)
    else [ZPAD; C_CAN; if use_crc32 st then 67 else 65] ++ drop 3 (header_frame st type arg).
Proof. unfold header_frame. by destruct (header_is_hex st type). Qed.

Lemma parse_hex_header type arg rest :
  is_byte type -> 0 <= arg < 2 ^ 32 ->
  parse_hex (drop 4 (hex_header (header_bytes type arg) type) ++ rest) zero_packet =
  (line_packet false type arg, header_bytes type arg, rest, None).
Proof.
  intros Ht Ha. destruct (argument_line type arg Ha) as [Hr He].
  pose proof (compute_crc16_range 0 (header_bytes type arg)) as Hc.
  assert (Hh : header_bytes type arg = type :: [byte_of (line_argument type arg) 24;
      byte_of (line_argument type arg) 16; byte_of (line_argument type arg) 8;
      byte_of (line_argument type arg) 0])
    by (unfold header_bytes; by rewrite He, u8_id).
  unfold line_packet, hex_header. revert Hc. generalize (compute_crc16 0 (header_bytes type arg)).
  intros crc Hc. rewrite Hh. clear Hh He.
  pose proof (parse_hex_frame type _ crc zero_packet rest Ht Hr Hc) as H. cbv zeta in H.
  refine (eq_trans (f_equal (fun l => parse_hex l zero_packet) _) H).
  change (drop 4 ([ZPAD; ZPAD; C_CAN; 66] ++ ?l)) with l. by rewrite <- !app_assoc.
Qed.

Lemma parse_packet_hex p hdr remaining input s (Q : ZM_PARSE_PACKET * Z -> zmodem_state -> Prop) :
  parse_hex input zero_packet = (p, hdr, remaining, None) ->
  wp (accept_header hdr) (s <| packet := p |>) (fun c s' =>
    Q (c, if decide (c = ZM_PP_OK) then 4 + Z.of_nat (length input) - Z.of_nat (length remaining) else 0) s') ->
  wp (parse_packet ([ZPAD; ZPAD; C_CAN; 66] ++ input)) s Q.
Proof.
  intros Hp HQ. unfold parse_packet. apply wp_bind, wp_modify. cbn [app].
  change (find_header (ZPAD :: ZPAD :: C_CAN :: 66 :: input)) with (HS_AT 0 (C_CAN :: 66 :: input)).
  cbv iota beta zeta. change (negb (C_CAN =? C_CAN)) with false. cbv iota.
  change (66 =? 65) with false. change (66 =? 66) with true. cbv iota. rewrite Hp.
  apply wp_bind, wp_modify, wp_bind. change ((s <| packet := zero_packet |>) <| packet := p |>) with (s <| packet := p |>).
  eapply wp_mono; [exact HQ|]. intros c s' H. apply wp_ret. cbv beta in H.
  match goal with |- Q (c, ?x) _ => match type of H with Q (c, ?y) _ => replace x with y; [exact H|] end end.
  destruct (decide _); [|done]. cbn [length]. lia.
Qed.

Lemma parse_packet_binary (u : bool) p hdr remaining input s (Q : ZM_PARSE_PACKET * Z -> zmodem_state -> Prop) :
  parse_binary u ((if u then 67 else 65) :: input) zero_packet = (p, hdr, remaining, None) ->
  wp (accept_header hdr) (s <| packet := p |>) (fun c s' =>
    Q (c, if decide (c = ZM_PP_OK) then 3 + Z.of_nat (length input) - Z.of_nat (length remaining) else 0) s') ->
  wp (parse_packet ([ZPAD; C_CAN; if u then 67 else 65] ++ input)) s Q.
Proof.
  intros Hp HQ. unfold parse_packet. apply wp_bind, wp_modify. cbn [app].
  change (find_header (ZPAD :: C_CAN :: (if u then 67 else 65) :: input))
    with (HS_AT 0 (C_CAN :: (if u then 67 else 65) :: input)).
  cbv iota beta zeta. change (negb (C_CAN =? C_CAN)) with false. cbv iota.
  match goal with |- wp (match ?x with _ => _ end) _ _ =>
    replace x with (Some (p, hdr, remaining, @None ZM_PARSE_PACKET))
      by (rewrite <- Hp; by destruct u) end.
  apply wp_bind, wp_modify, wp_bind. change ((s <| packet := zero_packet |>) <| packet := p |>) with (s <| packet := p |>).
  eapply wp_mono; [exact HQ|]. intros c s' H. apply wp_ret. cbv beta in H.
  match goal with |- Q (c, ?x) _ => match type of H with Q (c, ?y) _ => replace x with y; [exact H|] end end.
  destruct (decide _); [|done]. cbn [length]. lia.
Qed.

Lemma wp_parse_line st type arg rest s (Q : ZM_PARSE_PACKET * Z -> zmodem_state -> Prop) :
  valid_type type = true -> 0 <= arg < 2 ^ 32 ->
  Q (ZM_PP_OK, Z.of_nat (length (header_frame st type arg)))
    (header_received (if header_is_hex st type then false else use_crc32 st) type arg s) ->
  wp (parse_packet (header_frame st type arg ++ rest)) s Q.
Proof.
  intros Hv Ha HQ. pose proof (valid_type_byte type Hv) as Ht.
  rewrite header_frame_start. rewrite header_frame_start in HQ. unfold header_frame in *.
  destruct (header_is_hex st type); rewrite <- app_assoc.
  - eapply parse_packet_hex; [by apply parse_hex_header|].
    apply wp_accept_good; [done|done|]. rewrite length_app in HQ. rewrite length_app. rewrite decide_True by done.
    match goal with |- Q (_, ?x) _ => match type of HQ with Q (_, ?y) _ => replace x with y; [exact HQ|] end end.
    cbn [length]. lia.
  - eapply parse_packet_binary.
    + etrans; [|apply (parse_binary_frame (header_flags st type) (use_crc32 st) type arg rest Ht Ha)].
      done.
    + apply wp_accept_good; [done|done|]. rewrite length_app in HQ. rewrite length_app. rewrite decide_True by done.
      match goal with |- Q (_, ?x) _ => match type of HQ with Q (_, ?y) _ => replace x with y; [exact HQ|] end end.
      cbn [length]. lia.
Qed.

Lemma wp_parse_frame st type arg rest s (Q : ZM_PARSE_PACKET * Z -> zmodem_state -> Prop) :
  valid_type type = true -> 0 <= arg < 2 ^ 32 ->
  (forall u, Q (ZM_PP_OK, Z.of_nat (length (header_frame st type arg))) (header_received u type arg s)) ->
  wp (parse_packet (header_frame st type arg ++ rest)) s Q.
Proof. intros Hv Ha HQ. by apply wp_parse_line. Qed.
