(* ===== verification/ZmodemData.v ===== *)
(** Zmodem data subpackets from sender to receiver: what [encode_zdata_bytes]
    writes, [decode_zdata_bytes] and [receive_zdata] take back to the file. *)

From Stdlib Require Import ZArith Lia List Bool.
From stdpp Require Import base list numbers gmap strings.
From S2P Require Import Prelude Crc Stdio Protocols Zmodem ZmodemCodec ZmodemHeader.
Import Zmodem.

(** ** Decoding a subpacket in the input buffer *)

(** A subpacket on the line: data, escape and check bytes, under the flags [fl]. *)
Definition sub_frame (fl : Z) (data : list Z) (t : Z) (check : list Z) : list Z :=
  encs fl data ++ [C_CAN; t] ++ encs fl check ++ (if t =? ZCRCW then [C_XON] else []).

(** What [encode_zdata_bytes] writes is one. *)
Lemma zdata_frame_sub fl p t : zdata_frame fl p t = sub_frame fl (packet_data p) t (zdata_check p t).
Proof. done. Qed.

Definition check_size (use32 : bool) : nat := if use32 then 4 else 2.

(** The subpacket is complete in the buffer, [rest] what follows it, and nothing
    of it was decoded yet. *)
Record incoming (fl : Z) (data : list Z) (t : Z) (check rest : list Z) (s : zmodem_state) : Prop := {
  ic_input : take (Z.to_nat (packet_buffer_n s)) (packet_buffer s) = sub_frame fl data t check ++ rest;
  ic_n : 0 <= packet_buffer_n s <= Z.of_nat (length (packet_buffer s));
  ic_max : Z.of_nat (length (packet_buffer s)) = ZMODEM_MAX_BLOCK_SIZE;
  ic_data : bytes data;
  ic_check : bytes check;
  ic_size : Z.of_nat (length data) < ZMODEM_MAX_BLOCK_SIZE;
  ic_t : is_crc_escape t = true;
  ic_len : length check = check_size (pkt_crc32 (packet s));
  ic_empty : data_n (packet s) = 0;
  ic_crc16 : crc16 (packet s) = 0;
  ic_array : Z.of_nat (length (pdata (packet s))) = ZMODEM_MAX_BLOCK_SIZE;
  ic_crc_buffer : length (crc_buffer (packet s)) = 5%nat
}.

(** The packet and the input after it was decoded. *)
Definition decoded (data : list Z) (t : Z) (check rest : list Z) (s : zmodem_state) : zmodem_state :=
  s <| packet ::= fun q => q <| pdata := blit (pdata q) 0 data |>
                            <| data_n := Z.of_nat (length data) |>
                            <| crc_buffer ::= fun b => blit b 0 (t :: check) |> |>
    <| packet_buffer ::= fun b => blit b 0 rest |>
    <| packet_buffer_n := Z.of_nat (length rest) |>.

Lemma crc_escape_byte t : is_crc_escape t = true -> is_byte t.
Proof.
  unfold is_crc_escape, is_byte. rewrite !orb_true_iff, !Z.eqb_eq.
  unfold ZCRCE, ZCRCG, ZCRCQ, ZCRCW. lia.
Qed.

Lemma check_size_pos u : (0 < check_size u <= 4)%nat.
Proof. destruct u; cbn; lia. Qed.

Lemma load_prefix buf n xs y ys i s (Q : Z -> zmodem_state -> Prop) :
  take n buf = xs ++ y :: ys -> i = Z.of_nat (length xs) -> Q y s -> wp (load buf i) s Q.
Proof.
  intros Ht -> HQ. eapply (wp_load _ _ y); [lia| |done]. rewrite Nat2Z.id.
  assert (H : take n buf !! length xs = Some y)
    by (rewrite Ht; by apply list_lookup_middle).
  apply lookup_take_Some in H. apply H.
Qed.

(** [decode_zdata_bytes] takes the subpacket off the buffer. *)
Lemma wp_decode_zdata fl data t check rest s (Q : bool -> zmodem_state -> Prop) :
  incoming fl data t check rest s -> Q true (decoded data t check rest s) -> wp decode_zdata_bytes s Q.
Proof.
  intros [Hin Hn Hmax Hd Hck Hsz Ht Hlc He H16 Ha Hcb] HQ. unfold decode_zdata_bytes.
  pose proof (check_size_pos (pkt_crc32 (packet s))) as Hcs.
  apply wp_bind, wp_get. cbv zeta. rewrite Hin.
  apply wp_bind, wp_assert; [rewrite He; lia|].
  assert (Hsplit : sub_frame fl data t check ++ rest = encs fl data ++ [C_CAN; t] ++ encs fl check ++
    ((if t =? ZCRCW then [C_XON] else []) ++ rest)) by (unfold sub_frame; by rewrite <- !app_assoc).
  rewrite Hsplit, zdata_scan_frame by done. cbn [negb].
  assert (Hlen : (if pkt_crc32 (packet s) then 5 else 3)%nat = S (length check))
    by (rewrite Hlc; by destruct (pkt_crc32 (packet s))).
  rewrite Hlen, zdata_loop_frame; [|done|done|done|by intros ->; cbn in *; lia].
  cbv iota beta. rewrite He.
  apply wp_bind, wp_memcpy; [lia|lia|]. apply wp_bind, wp_modify.
  set (pre := encs fl data ++ [C_CAN; t] ++ encs fl check).
  set (tail := if t =? ZCRCW then [C_XON] else []) in *.
  assert (Hpre : encs fl data ++ [C_CAN; t] ++ encs fl check ++ tail ++ rest = pre ++ tail ++ rest)
    by (unfold pre; by rewrite <- !app_assoc).
  rewrite Hpre in *. rewrite Hsplit in Hin.
  assert (Hl : packet_buffer_n s = Z.of_nat (length pre) + Z.of_nat (length tail) + Z.of_nat (length rest)).
  { pose proof (f_equal length Hin) as Hl. rewrite length_take, !length_app in Hl. lia. }
  set (s1 := s <| packet ::= _ |>).
  assert (Hi : wp (if t =? ZCRCW then
      x ← load (packet_buffer s) (packet_buffer_n s - Z.of_nat (length (tail ++ rest)));
      mret (if x =? C_XON then packet_buffer_n s - Z.of_nat (length (tail ++ rest)) + 1
            else packet_buffer_n s - Z.of_nat (length (tail ++ rest)))
    else mret (packet_buffer_n s - Z.of_nat (length (tail ++ rest)))) s1
    (fun i s' => s' = s1 /\ i = Z.of_nat (length (pre ++ tail)))).
  { rewrite !length_app. unfold tail in *. destruct (t =? ZCRCW); cbn [length] in *.
    - apply wp_bind. eapply (load_prefix _ (Z.to_nat (packet_buffer_n s)) pre C_XON rest);
        [exact Hin|lia|]. apply wp_ret. cbn. split; [done|lia].
    - apply wp_ret. split; [done|lia]. }
  apply wp_bind. eapply wp_mono; [exact Hi|]. intros i s' [-> ->]. clear Hi.
  rewrite (proj2 (Z.ltb_ge _ _)) by (rewrite length_app; lia).
  apply wp_bind, wp_modify, wp_ret. rewrite Nat2Z.id, app_assoc, drop_app_length.
  match goal with |- Q true ?x => replace x with (decoded data t check rest s); [exact HQ|] end.
  unfold decoded, s1, field_update; cbn. f_equal. rewrite length_app. lia.
Qed.

(** ** The check *)

(** The check bytes as the receiver compares them. *)
Definition check_number (use32 : bool) (check : list Z) : Z :=
  if use32 then le_number32 check else Z.lor (Z.shiftl (check !!! 0%nat) 8) (check !!! 1%nat).
Definition check_ok (use32 : bool) (data : list Z) (t : Z) (check : list Z) : bool :=
  check_number use32 check =? check_value use32 data t.

(** What the sender sends is good. *)
Lemma check_ok_sent p t :
  bytes (packet_data p) -> is_byte t -> check_ok (uses32 p) (packet_data p) t (zdata_check p t) = true.
Proof.
  intros Hd Ht. unfold check_ok. apply Z.eqb_eq. rewrite (zdata_check_value p t Hd Ht).
  assert (Hb : bytes (packet_data p ++ [t])) by (apply bytes_app; auto with qodem).
  destruct (uses32 p); cbn [check_number check_value].
  - apply le_number32_bytes. by apply compute_crc32_range.
  - symmetry. apply bytes_of_u16, compute_crc16_range.
Qed.

(** [zdata_crc_check] compares, and leaves the data. *)
Lemma wp_crc_check_decoded fl data t check rest s (Q : bool -> zmodem_state -> Prop) :
  incoming fl data t check rest s ->
  (forall q, packet_data q = data -> data_n q = Z.of_nat (length data) ->
     ptype q = ptype (packet s) -> pkt_crc32 q = pkt_crc32 (packet s) ->
     length (pdata q) = length (pdata (packet s)) -> length (crc_buffer q) = length (crc_buffer (packet s)) ->
     (exists more, pdata q = data ++ more) ->
     Q (check_ok (pkt_crc32 (packet s)) data t check) ((decoded data t check rest s) <| packet := q |>)) ->
  wp zdata_crc_check (decoded data t check rest s) Q.
Proof.
  intros [Hin Hn Hmax Hd Hck Hsz Ht Hlc He H16 Ha Hcb] HQ.
  pose proof (crc_escape_byte t Ht) as Htb. pose proof (check_size_pos (pkt_crc32 (packet s))) as H5.
  assert (Hc : exists c5, crc_buffer (packet (decoded data t check rest s)) = (t :: check) ++ c5).
  { exists (drop (S (length check)) (crc_buffer (packet s))).
    change (crc_buffer (packet (decoded data t check rest s))) with
      (blit (crc_buffer (packet s)) 0 (t :: check)). by rewrite blit_0. }
  destruct Hc as (c5 & Hc). set (cbuf := crc_buffer (packet (decoded data t check rest s))) in *.
  assert (Hdata : pdata (packet (decoded data t check rest s)) = blit (pdata (packet s)) 0 data) by done.
  unfold zdata_crc_check, store. apply wp_bind, wp_gets, wp_bind.
  assert (Hld : length (blit (pdata (packet s)) 0 data) = length (pdata (packet s)))
    by (apply length_blit; lia).
  apply wp_memcpy.
  { cbn. lia. }
  { rewrite Hdata, Hld. cbn [data_n packet decoded field_update length]. cbn. lia. }
  fold cbuf. rewrite Hc. change ((t :: check) ++ c5) with (t :: check ++ c5).
  change ((t :: check ++ c5) !!! 0%nat) with t. rewrite Hdata.
  change (data_n (packet (decoded data t check rest s))) with (Z.of_nat (length data)).
  rewrite blit_0, Nat2Z.id, blit_exact by done. cbn [length].
  set (arr := data ++ [t] ++ _).
  assert (Hcov : take (Z.to_nat (Z.of_nat (length data) + 1)) arr = data ++ [t]).
  { unfold arr. rewrite app_assoc, take_app_length'; [done|]. rewrite length_app. cbn. lia. }
  apply wp_bind, wp_modify. cbv zeta. rewrite Hcov.
  change (pkt_crc32 (packet (decoded data t check rest s))) with (pkt_crc32 (packet s)).
  change (crc16 (packet (decoded data t check rest s))) with (crc16 (packet s)). rewrite H16.
  assert (Hq : forall q, data_n q = Z.of_nat (length data) -> pdata q = arr -> packet_data q = data).
  { intros q Hdn Hpd. unfold packet_data at 1. rewrite Hdn, Hpd, Nat2Z.id. unfold arr.
    apply take_app_length. }
  assert (Hnum : check_number (pkt_crc32 (packet s)) (drop 1 (t :: check ++ c5)) =
                 check_number (pkt_crc32 (packet s)) check).
  { cbn [drop]. rewrite drop_0. revert Hlc. destruct (pkt_crc32 (packet s)); cbn [check_size];
      intros Hlc; unfold check_number, le_number32; by rewrite !lookup_total_app_l by lia. }
  assert (Harr : length arr = length (pdata (packet s))).
  { rewrite <- Hld, blit_0. unfold arr. rewrite !length_app, length_drop, length_drop. cbn [length]. lia. }
  assert (Hcb' : length (blit (crc_buffer (packet s)) 0 (t :: check)) = length (crc_buffer (packet s)))
    by (apply length_blit; cbn [length]; lia).
  assert (Hmore : exists more, arr = data ++ more) by (by eexists).
  unfold check_ok in HQ. rewrite <- Hnum in HQ.
  destruct (pkt_crc32 (packet s)) eqn:E; apply wp_bind, wp_modify, wp_ret.
  - match goal with |- Q _ ?x => change x with ((decoded data t check rest s) <| packet := packet x |>) end.
    apply HQ; [by apply Hq|done..].
  - match goal with |- Q _ ?x => change x with ((decoded data t check rest s) <| packet := packet x |>) end.
    apply HQ; [by apply Hq|done..].
Qed.

(** ** What the handler touches *)

Lemma wp_zlift {A} (m : M common A) s (Q : A -> zmodem_state -> Prop) :
  wp m (shared s) (fun a c => Q a (s <| shared := c |>)) -> wp (lift m) s Q.
Proof. unfold wp, lift, zoom. destruct (m (shared s)) as [[a c]| |]; auto. Qed.

(** The progress dialog and the error counters may differ, nothing else. *)
Record same_work (s s' : zmodem_state) : Prop := {
  sw_disk : the_disk (shared s') = the_disk (shared s);
  sw_packet : packet s' = packet s;
  sw_buffer : packet_buffer s' = packet_buffer s;
  sw_buffer_n : packet_buffer_n s' = packet_buffer_n s;
  sw_map : encode_byte_map s' = encode_byte_map s;
  sw_output : output s' = output s;
  sw_state : state (status s') = state (status s);
  sw_prior : prior_state (status s') = prior_state (status s);
  sw_flags : flags (status s') = flags (status s);
  sw_crc32 : use_crc32 (status s') = use_crc32 (status s);
  sw_sending : sending (status s') = sending (status s);
  sw_stream : file_stream (status s') = file_stream (status s);
  sw_position : file_position (status s') = file_position (status s)
}.

Lemma wp_increment_blocks s (Q : unit -> zmodem_state -> Prop) :
  (forall s', same_work s s' -> Q tt s') -> wp stats_increment_blocks s Q.
Proof.
  intros HQ. unfold stats_increment_blocks. apply wp_bind, wp_gets, wp_bind, wp_zlift, wp_modify.
  apply wp_bind, wp_zlift, wp_modify, wp_modify. apply HQ. by split.
Qed.

(** An error in the middle of a subpacket never aborts the transfer. *)
Lemma wp_increment_errors m s (Q : unit -> zmodem_state -> Prop) :
  state (status s) = ZDATA -> (forall s', same_work s s' -> Q tt s') ->
  wp (stats_increment_errors m) s Q.
Proof.
  intros Hz HQ. unfold stats_increment_errors.
  apply wp_bind, wp_zlift. unfold set_transfer_stats_last_message. apply wp_bind, wp_modify, wp_modify.
  apply wp_bind, wp_zlift, wp_modify, wp_bind, wp_modify, wp_bind, wp_gets, wp_bind, wp_zlift, wp_modify.
  apply wp_bind, wp_modify, wp_bind, wp_gets.
  apply wp_when; intros H.
  - exfalso. apply andb_true_iff in H as [_ H]. apply negb_true_iff, bool_decide_eq_false in H.
    apply H. exact Hz.
  - apply HQ. by split.
Qed.

(** A receiver in the middle of the file of the stream [f]. *)
Record receiving (f : FILE) (s : zmodem_state) : Prop := {
  rc_state : state (status s) = ZDATA;
  rc_prior : prior_state (status s) = ZRPOS_WAIT;
  rc_stream : file_stream (status s) = Some f;
  rc_ready : ready s
}.

Definition ends_frame (t : Z) : bool := (t =? ZCRCE) || (t =? ZCRCW).
Definition wants_ack (t : Z) : bool := (t =? ZCRCW) || (t =? ZCRCQ).

(** The input that is left. *)
Definition pending (s : zmodem_state) : list Z := take (Z.to_nat (packet_buffer_n s)) (packet_buffer s).

(** What [receive_zdata] has done with the data of a good subpacket. *)
Record delivered (f : FILE) (data : list Z) (t : Z) (s s' : zmodem_state) : Prop := {
  dl_disk : the_disk (shared s') = snd (fst (fwrite (the_disk (shared s)) f data));
  dl_stream : file_stream (status s') = Some (snd (fwrite (the_disk (shared s)) f data));
  dl_position : file_position (status s') = file_position (status s) + Z.of_nat (length data);
  dl_state : state (status s') = if ends_frame t then ZRPOS_WAIT else ZDATA;
  dl_ack : ob_bytes (output s') =
    if wants_ack t
    then header_frame (status s) P_ZACK
           (big_to_little_endian (u32 (file_position (status s) + Z.of_nat (length data))))
    else []
}.

Lemma header_frame_same st st' type arg :
  flags st' = flags st -> use_crc32 st' = use_crc32 st -> sending st' = sending st ->
  header_frame st' type arg = header_frame st type arg.
Proof.
  intros Hf Hu Hs. unfold header_frame, header_flags, header_is_hex. by rewrite Hf, Hu, Hs.
Qed.

Lemma fresh_empty b : fresh b -> ob_bytes b = [].
Proof. intros (_ & H & _). unfold ob_bytes. by rewrite H. Qed.

Lemma wp_zdata_write f data t s (Q : bool -> zmodem_state -> Prop) :
  receiving f s -> packet_data (packet s) = data ->
  data_n (packet s) = Z.of_nat (length data) ->
  (forall s', delivered f data t s s' -> prior_state (status s') = ZRPOS_WAIT ->
     pending s' = pending s -> Q (ends_frame t) s') ->
  wp (zdata_write (ends_frame t) (wants_ack t)) s Q.
Proof.
  intros [Hst Hpr Hfs Hrd] Hpd Hdn HQ. unfold zdata_write.
  apply wp_bind, wp_get, wp_bind, (wp_nonnull _ f); [done|]. rewrite Hpd.
  destruct (fwrite (the_disk (shared s)) f data) as [[rc d'] f'] eqn:Hw.
  apply wp_bind, wp_zlift, wp_modify. cbv zeta. rewrite Hdn.
  apply wp_bind, wp_modify, wp_bind, wp_zlift, wp_modify, wp_bind, wp_increment_blocks.
  intros s1 [E1 E2 E3 E4 E5 E6 E7 E8 E9 E10 E11 E12 E13].
  apply wp_bind, wp_modify, wp_bind, wp_gets.
  set (s2 := s1 <| packet ::= _ |>).
  assert (Hpos : file_position (status s2) = file_position (status s) + Z.of_nat (length data)).
  { change (status s2) with (status s1). rewrite E13. apply Z.add_comm. }
  assert (Hrd2 : ready s2).
  { destruct Hrd as [R1 R2 R3]. split.
    - change (output s2) with (output s1). rewrite E6. exact R1.
    - change (encode_byte_map s2) with (encode_byte_map s1). change (status s2) with (status s1).
      rewrite E5, E9. exact R2.
    - change (status s2) with (status s1). rewrite E9. exact R3. }
  assert (Hhf : forall a, header_frame (status s2) P_ZACK a = header_frame (status s) P_ZACK a)
    by (intros a; by apply header_frame_same).
  assert (Hdisk : the_disk (shared s1) = snd (fst (fwrite (the_disk (shared s)) f data)))
    by (rewrite E1, Hw; done).
  assert (Hfile : file_stream (status s1) = Some (snd (fwrite (the_disk (shared s)) f data)))
    by (rewrite E12, Hw; done).
  assert (Hpr1 : prior_state (status s1) = ZRPOS_WAIT) by (etrans; [exact E8|exact Hpr]).
  assert (Hpend : pending s1 = pending s) by (unfold pending; by rewrite E3, E4).
  assert (Hfin : forall p b, ob_bytes b = (if wants_ack t
      then header_frame (status s) P_ZACK
             (big_to_little_endian (u32 (file_position (status s) + Z.of_nat (length data)))) else []) ->
    wp ((if ends_frame t then set_state ZRPOS_WAIT else mret tt);; mret (ends_frame t))
      (s2 <| packet := p |> <| output := b |>) Q).
  { intros p b Hb. destruct (ends_frame t) eqn:E.
    - apply wp_bind, wp_modify, wp_ret, HQ; [|exact Hpr1|exact Hpend].
      + split; [exact Hdisk|exact Hfile|exact Hpos|by rewrite E|exact Hb].
    - apply wp_bind, wp_ret, wp_ret, HQ; [|exact Hpr1|exact Hpend].
      + split; [exact Hdisk|exact Hfile|exact Hpos| |exact Hb].
        rewrite E. etrans; [exact E7|exact Hst].  }
  apply wp_bind, wp_when; intros Ha; rewrite Ha in Hfin.
  - apply wp_build_packet; [exact Hrd2|]. intros b' Hb' _ Hb. rewrite Hhf, Hpos in Hb.
    specialize (Hfin (announced P_ZACK (header_is_hex (status s2) P_ZACK) (status s2) (packet s2)) b' Hb).
    exact Hfin.
  - specialize (Hfin (packet s2) (output s2)).
    assert (E : s2 <| packet := packet s2 |> <| output := output s2 |> = s2) by (by destruct s2).
    rewrite E in Hfin. apply Hfin. apply fresh_empty, Hrd2.
Qed.

(** ** The handler *)

Lemma pending_decoded fl data t check rest s :
  incoming fl data t check rest s -> pending (decoded data t check rest s) = rest.
Proof.
  intros [Hin Hn _ _ _ _ _ _ _ _ _ _]. unfold pending.
  change (packet_buffer_n (decoded data t check rest s)) with (Z.of_nat (length rest)).
  change (packet_buffer (decoded data t check rest s)) with (blit (packet_buffer s) 0 rest).
  rewrite Nat2Z.id, blit_0. apply take_app_length.
Qed.

(** [receive_zdata] up to the verdict on the check bytes. *)
Lemma wp_receive_verdict fl data t check rest s (Q : bool -> zmodem_state -> Prop) :
  incoming fl data t check rest s ->
  (forall q, packet_data q = data -> data_n q = Z.of_nat (length data) ->
     ptype q = ptype (packet s) -> pkt_crc32 q = pkt_crc32 (packet s) ->
     length (pdata q) = length (pdata (packet s)) -> length (crc_buffer q) = length (crc_buffer (packet s)) ->
     (exists more, pdata q = data ++ more) ->
     let s' := (decoded data t check rest s) <| packet := q |> in
     if check_ok (pkt_crc32 (packet s)) data t check
     then wp (ended ← (if decide (prior_state (status s') = ZRPOS_WAIT)
                       then zdata_write (ends_frame t) (wants_ack t) else mret false);
              if (ended : bool) then mret false else zdata_next) s' Q
     else wp (ret ← zdata_bad; if (ret : bool) then mret true else zdata_next) s' Q) ->
  wp receive_zdata s Q.
Proof.
  intros Hi HQ. unfold receive_zdata.
  apply wp_bind, (wp_decode_zdata fl data t check rest s _ Hi). cbn [negb].
  apply wp_bind, wp_gets. cbv zeta.
  assert (Ht : crc_buffer (packet (decoded data t check rest s)) !!! 0%nat = t).
  { change (crc_buffer (packet (decoded data t check rest s))) with
      (blit (crc_buffer (packet s)) 0 (t :: check)). by rewrite blit_0. }
  rewrite Ht. rewrite (ic_t _ _ _ _ _ _ Hi). cbn [negb].
  apply wp_bind, (wp_crc_check_decoded fl data t check rest s _ Hi).
  intros q Hq Hn Ht' Hc' Hl Hb Hm. specialize (HQ q Hq Hn Ht' Hc' Hl Hb Hm). cbv zeta in HQ.
  apply wp_bind, wp_gets. destruct (check_ok (pkt_crc32 (packet s)) data t check); exact HQ.
Qed.

Lemma wp_receive_good fl data t check rest f s (Q : bool -> zmodem_state -> Prop) :
  incoming fl data t check rest s -> check_ok (pkt_crc32 (packet s)) data t check = true ->
  receiving f s ->
  (forall s', delivered f data t s s' -> pending s' = rest -> Q false s') ->
  wp receive_zdata s Q.
Proof.
  intros Hi Hg Hr HQ. apply (wp_receive_verdict fl data t check rest s Q Hi). intros q Hq Hn _ _ _ _ _.
  cbv zeta. rewrite Hg. destruct Hr as [R1 R2 R3 [R7 R8 R9]].
  set (s1 := (decoded data t check rest s) <| packet := q |>).
  assert (Hp : pending s1 = rest) by (apply (pending_decoded fl data t check rest s Hi)).
  rewrite decide_True by exact R2.
  apply wp_bind, (wp_zdata_write f data t s1);
    [exact (Build_receiving f s1 R1 R2 R3 (Build_ready s1 R7 R8 R9))|exact Hq|exact Hn|].
  intros s2 Hd Hpr Hpe.
  destruct (ends_frame t) eqn:E.
  - apply wp_ret, HQ; [|congruence]. destruct Hd. by split.
  - unfold zdata_next. apply wp_bind, wp_get. rewrite decide_False by (rewrite Hpr; done).
    apply wp_bind, wp_modify, wp_ret, HQ; [|exact (eq_trans Hpe Hp)].
    destruct Hd as [D1 D2 D3 D4 D5]. split; [exact D1|exact D2|exact D3|by rewrite E|exact D5].
Qed.

Lemma wp_receive_bad fl data t check rest s (Q : bool -> zmodem_state -> Prop) :
  incoming fl data t check rest s -> check_ok (pkt_crc32 (packet s)) data t check = false ->
  state (status s) = ZDATA -> prior_state (status s) = ZRPOS_WAIT -> ready s ->
  (forall s', the_disk (shared s') = the_disk (shared s) ->
     file_stream (status s') = file_stream (status s) ->
     file_position (status s') = file_position (status s) ->
     state (status s') = ZRPOS_WAIT -> pending s' = [] ->
     ob_bytes (output s') = header_frame (status s) P_ZRPOS (u32 (file_position (status s))) ->
     Q true s') ->
  wp receive_zdata s Q.
Proof.
  intros Hi Hg Hst Hpr [R1 R2 R3] HQ. apply (wp_receive_verdict fl data t check rest s Q Hi).
  intros q Hq Hn _ _ _ _ _. cbv zeta. rewrite Hg. unfold zdata_bad.
  apply wp_bind, wp_bind, wp_gets. rewrite decide_True by exact Hpr.
  apply wp_bind, wp_increment_errors; [exact Hst|].
  intros s1 [E1 E2 E3 E4 E5 E6 E7 E8 E9 E10 E11 E12 E13].
  apply wp_bind, wp_modify, wp_bind, wp_gets.
  set (s2 := s1 <| packet_buffer_n := 0 |>).
  assert (Hrd : ready s2).
  { split.
    - change (output s2) with (output s1). rewrite E6. exact R1.
    - change (encode_byte_map s2) with (encode_byte_map s1). change (status s2) with (status s1).
      rewrite E5, E9. exact R2.
    - change (status s2) with (status s1). rewrite E9. exact R3. }
  apply wp_bind, wp_build_packet; [exact Hrd|]. intros b' Hb' _ Hb.
  rewrite (header_frame_same (status s)) in Hb; [|exact E9|exact E10|exact E11].
  change (file_position (status s2)) with (file_position (status s1)) in Hb. rewrite E13 in Hb.
  apply wp_bind, wp_modify, wp_ret, wp_ret, HQ; [exact E1|exact E12|exact E13|done|done|exact Hb].
Qed.
