(* ===== verification/ZmodemProps.v ===== *)
(** What the byte and packet layers of Zmodem guarantee, and where they do not. *)

From Stdlib Require Import ZArith Lia List Bool.
From stdpp Require Import base list numbers gmap strings.
From S2P Require Import Prelude Crc Stdio Protocols Zmodem ZmodemCodec ZmodemHeader ZmodemParse ZmodemData.
Import Zmodem.

(** ** Data from sender to receiver *)

(** A receiver between two subpackets, its arrays of the declared sizes. *)
Record collecting (f : FILE) (s : zmodem_state) : Prop := {
  cl_receiving : receiving f s;
  cl_n : 0 <= packet_buffer_n s <= Z.of_nat (length (packet_buffer s));
  cl_max : Z.of_nat (length (packet_buffer s)) = ZMODEM_MAX_BLOCK_SIZE;
  cl_empty : data_n (packet s) = 0;
  cl_crc16 : crc16 (packet s) = 0;
  cl_array : Z.of_nat (length (pdata (packet s))) = ZMODEM_MAX_BLOCK_SIZE;
  cl_crc_buffer : length (crc_buffer (packet s)) = 5%nat
}.

Lemma collecting_incoming f s fl data t check rest :
  collecting f s -> pending s = sub_frame fl data t check ++ rest ->
  bytes data -> bytes check -> is_crc_escape t = true -> length check = check_size (pkt_crc32 (packet s)) ->
  Z.of_nat (length data) < ZMODEM_MAX_BLOCK_SIZE ->
  incoming fl data t check rest s.
Proof. intros [[] ? ? ? ? ? ?] Hp ? ? ? ? ?. by split. Qed.

(** C7: a data subpacket arrives.  Whatever the sender's escape flags, whatever
    CRC is in use and whatever follows on the line, [encode_zdata_bytes] writes a
    line within [zdata_room] bytes that [receive_zdata] takes off its input
    exactly: the data goes to the file stream, the position moves by its length,
    the state is the one the CRC escape asks for, and a ZACK with the new position
    answers ZCRCW and ZCRCQ alone. *)
Theorem zdata_transfer (fl t : Z) (p : zmodem_packet) (b : outbuf) :
  bytes (packet_data p) -> Z.of_nat (length (packet_data p)) < ZMODEM_MAX_BLOCK_SIZE ->
  is_crc_escape t = true -> buf_ok b -> ob_n b + zdata_room p t <= ob_max b ->
  wp (encode_zdata_bytes (build_map fl) p t) b (fun _ b' =>
    exists line, ob_bytes b' = ob_bytes b ++ line /\
    forall f rest rx, collecting f rx -> pkt_crc32 (packet rx) = uses32 p -> pending rx = line ++ rest ->
      wp receive_zdata rx (fun ret rx' =>
        ret = false /\ delivered f (packet_data p) t rx rx' /\ pending rx' = rest)).
Proof.
  intros Hd Hn Ht Hb Hroom. apply wp_encode_zdata; [done|done|done|].
  intros b' (Hb' & _ & He). exists (zdata_frame fl p t). split; [done|].
  intros f rest rx Hc Hu Hp. pose proof (crc_escape_byte t Ht) as Htb.
  apply (wp_receive_good fl (packet_data p) t (zdata_check p t) rest f).
  - apply (collecting_incoming f); [done|done|done|apply bytes_zdata_check|done| |done].
    rewrite Hu, length_zdata_check. unfold check_len, check_size, uses32. by destruct (_ && _).
  - rewrite Hu. by apply check_ok_sent.
  - apply Hc.
  - intros s' Hs' Hr. done.
Qed.

(** ** Damage *)

(** An error that does not exhaust the retries is counted. *)
Lemma wp_counted m s (Q : unit -> zmodem_state -> Prop) :
  -1 <= consecutive_errors (status s) < 14 ->
  (forall s', state (status s') = state (status s) ->
     consecutive_errors (status s') = consecutive_errors (status s) + 1 ->
     file_stream (status s') = file_stream (status s) ->
     the_disk (shared s') = the_disk (shared s) -> Q tt s') ->
  wp (stats_increment_errors m) s Q.
Proof.
  intros Hc HQ. unfold stats_increment_errors.
  apply wp_bind, wp_zlift. unfold set_transfer_stats_last_message. apply wp_bind, wp_modify, wp_modify.
  apply wp_bind, wp_zlift, wp_modify, wp_bind, wp_modify, wp_bind, wp_gets, wp_bind, wp_zlift, wp_modify.
  apply wp_bind, wp_modify, wp_bind, wp_gets.
  assert (Hi : i32 (consecutive_errors (status s) + 1) = consecutive_errors (status s) + 1)
    by (apply i32_id; lia).
  apply wp_when; intros H.
  - exfalso. apply andb_true_iff in H as [H _]. apply Z.leb_le in H.
    change (15 <= i32 (consecutive_errors (status s) + 1)) in H. lia.
  - by apply HQ.
Qed.

Lemma header_burst (u : bool) pre a a' b b' post :
  bytes pre -> bytes [a; a'] -> bytes [b; b'] -> bytes post -> [a; a'] <> [b; b'] ->
  if u then compute_crc32 (compute_crc32 0 None) (Some (pre ++ [b; b'] ++ post)) <>
            compute_crc32 (compute_crc32 0 None) (Some (pre ++ [a; a'] ++ post))
  else compute_crc16 0 (pre ++ [b; b'] ++ post) <> compute_crc16 0 (pre ++ [a; a'] ++ post).
Proof.
  intros Hp Ha Hb Hq Hne.
  assert (H : forall x, bytes x -> bytes (pre ++ x ++ post)) by (intros x Hx; by rewrite !bytes_app).
  destruct u.
  - rewrite !compute_crc32_code by auto. intros Heq.
    apply (f_equal (fun z => Z.lxor z 0xffffffff)) in Heq.
    rewrite !Z.lxor_assoc, Z.lxor_nilpotent, !Z.lxor_0_r in Heq. symmetry in Heq. revert Heq.
    apply code_burst; [cbn; unfold in_width; lia|done..].
  - rewrite !compute_crc16_code by (auto || (unfold in_width; lia)).
    apply not_eq_sym, code_burst; [unfold in_width; lia|done..].
Qed.

Lemma check_value_burst u pre a a' b b' post t :
  bytes pre -> bytes [a; a'] -> bytes [b; b'] -> bytes post -> is_byte t -> [a; a'] <> [b; b'] ->
  check_value u (pre ++ [a; a'] ++ post) t <> check_value u (pre ++ [b; b'] ++ post) t.
Proof.
  intros Hp Ha Hb Hq Ht Hne. unfold check_value. rewrite <- !app_assoc.
  pose proof (header_burst u pre b b' a a' (post ++ [t]) Hp Hb Ha) as H.
  assert (Hpt : bytes (post ++ [t])) by (apply bytes_app; auto with qodem).
  specialize (H Hpt (not_eq_sym Hne)). by destruct u.
Qed.

(** C27: damage to two neighbouring bytes of a subpacket never reaches the file.
    The receiver leaves the disk, the stream and the position alone, drops its
    input and answers with a ZRPOS header that carries its position. *)
Theorem zdata_damage_rejected (fl t : Z) (p : zmodem_packet) (pre post : list Z) (a a' b b' : Z)
    (rest : list Z) (f : FILE) (rx : zmodem_state) :
  packet_data p = pre ++ [a; a'] ++ post -> bytes (packet_data p) -> bytes [b; b'] ->
  Z.of_nat (length (packet_data p)) < ZMODEM_MAX_BLOCK_SIZE -> [a; a'] <> [b; b'] ->
  is_crc_escape t = true -> collecting f rx -> pkt_crc32 (packet rx) = uses32 p ->
  pending rx = sub_frame fl (pre ++ [b; b'] ++ post) t (zdata_check p t) ++ rest ->
  wp receive_zdata rx (fun ret rx' =>
    ret = true /\ the_disk (shared rx') = the_disk (shared rx) /\
    file_stream (status rx') = Some f /\ file_position (status rx') = file_position (status rx) /\
    state (status rx') = ZRPOS_WAIT /\ pending rx' = [] /\
    ob_bytes (output rx') = header_frame (status rx) P_ZRPOS (u32 (file_position (status rx)))).
Proof.
  intros Hp Hd Hb Hn Hne Ht Hc Hu Hin. pose proof (crc_escape_byte t Ht) as Htb.
  assert (Hbytes : bytes pre /\ bytes [a; a'] /\ bytes post) by (rewrite Hp, !bytes_app in Hd; done).
  destruct Hbytes as (Hpre & Haa & Hpost).
  assert (Hdd : bytes (pre ++ [b; b'] ++ post)) by (by rewrite !bytes_app).
  pose proof (cl_receiving _ _ Hc) as [R1 R2 R3 R4].
  apply (wp_receive_bad fl (pre ++ [b; b'] ++ post) t (zdata_check p t) rest).
  - apply (collecting_incoming f); [done|done|done|apply bytes_zdata_check|done| |].
    + rewrite Hu, length_zdata_check. unfold check_len, check_size, uses32. by destruct (_ && _).
    + rewrite Hp, !length_app in Hn. rewrite !length_app. cbn [length] in *. lia.
  - rewrite Hu. pose proof (check_ok_sent p t Hd Htb) as Hg. unfold check_ok in *.
    apply Z.eqb_eq in Hg. rewrite Hg, Hp. apply Z.eqb_neq. by apply check_value_burst.
  - exact R1.
  - exact R2.
  - exact R4.
  - intros s' H1 H2 H3 H4 H5 H6. rewrite H2, R3. auto 10.
Qed.

(** [outbound_packet], whose size is ZMODEM_MAX_BLOCK_SIZE, is large enough
    for any subpacket [send_zdata] queues in it, to the byte: a full block of
    ZMODEM_BLOCK_SIZE bytes that does not end the frame, or a shorter one that
    ends it with ZCRCW.  Neither the assertion of [encode_byte] nor the unchecked
    stores of [encode_zdata_bytes] fail, whatever the data and the flags. *)
Theorem outbound_packet_suffices (fl t : Z) (p : zmodem_packet) :
  bytes (packet_data p) -> is_crc_escape t = true ->
  Z.of_nat (length (packet_data p)) + (if t =? ZCRCW then 1 else 0) <= ZMODEM_BLOCK_SIZE ->
  wp (encode_zdata_bytes (build_map fl) p t) (empty_outbuf ZMODEM_MAX_BLOCK_SIZE) (fun _ b' =>
    ob_bytes b' = sub_frame fl (packet_data p) t (zdata_check p t) /\ ob_n b' <= ZMODEM_MAX_BLOCK_SIZE).
Proof.
  intros Hd Ht Hn.
  assert (Hok : buf_ok (empty_outbuf ZMODEM_MAX_BLOCK_SIZE)).
  { split; [unfold empty_outbuf; cbn [ob ob_max]; by rewrite length_replicate|]. change (0 <= 0 <= ZMODEM_MAX_BLOCK_SIZE). unfold ZMODEM_MAX_BLOCK_SIZE. lia. }
  apply wp_encode_zdata; [done|exact Hok| |].
  - unfold zdata_room, check_len. change (ob_n _) with 0.
    change (ob_max _) with ZMODEM_MAX_BLOCK_SIZE. unfold ZMODEM_MAX_BLOCK_SIZE, ZMODEM_BLOCK_SIZE in *.
    destruct (_ && _), (t =? ZCRCW); lia.
  - intros b' ([_ Hb'] & Hm & He). split.
    + rewrite He. unfold ob_bytes. change (ob_n (empty_outbuf _)) with 0. done.
    + rewrite Hm in Hb'. apply Hb'.
Qed.

(** ** Headers *)

(** C10: a header built by one side is parsed by the other, whatever the
    sender's flags and encoding (hexadecimal, binary with 16 or 32 bit CRC) and
    whatever follows on the line: [parse_packet] reports success, consumes the
    header and nothing more, and delivers the type and the argument; a type
    with data moves the receiver to ZDATA.  (The argument of ZSINIT alone comes
    out with its bytes reversed: see [received_argument].) *)
Theorem header_roundtrip (type arg : Z) (rest : list Z) (tx rx : zmodem_state) :
  ready tx -> valid_type type = true -> 0 <= arg < 2 ^ 32 ->
  wp (build_packet type arg) tx (fun _ tx' =>
    let line := ob_bytes (output tx') in
    wp (parse_packet (line ++ rest)) rx (fun r rx' =>
      r = (ZM_PP_OK, Z.of_nat (length line)) /\
      ptype (packet rx') = type /\ argument (packet rx') = received_argument type arg /\
      state (status rx') = (if type_has_data type then ZDATA else state (status rx)) /\
      shared rx' = shared rx)).
Proof.
  intros Hr Hv Ha. apply wp_build_packet; [done|]. intros b' Hb' Hm He.
  cbv zeta. change (output _) with b'. rewrite He.
  apply wp_parse_frame; [done|done|]. intros u. split; [done|].
  destruct (line_packet_fields u type arg) as (H1 & _). revert H1. unfold header_received.
  generalize (line_packet u type arg). intros p H1.
  destruct (type_has_data type); by repeat split.
Qed.

(** damage to two neighbouring bytes of a header never passes for a header:
    when the fields and the header bytes come from [pre ++ [b; b'] ++ post] and the
    CRC (16 or 32 bits) from [pre ++ [a; a'] ++ post], [accept_header] reports a CRC
    error, counts it and changes neither the state of the transfer nor its file. *)
Theorem header_damage_rejected (pre post : list Z) (a a' b b' : Z) (s : zmodem_state) :
  bytes (pre ++ [a; a'] ++ post) -> bytes [b; b'] -> [a; a'] <> [b; b'] ->
  (if pkt_crc32 (packet s)
   then crc32 (packet s) = compute_crc32 (compute_crc32 0 None) (Some (pre ++ [a; a'] ++ post))
   else crc16 (packet s) = compute_crc16 0 (pre ++ [a; a'] ++ post)) ->
  valid_type (ptype (packet s)) = true -> -1 <= consecutive_errors (status s) < 14 ->
  wp (accept_header (pre ++ [b; b'] ++ post)) s (fun code s' =>
    code = ZM_PP_CRCERROR /\ state (status s') = state (status s) /\
    consecutive_errors (status s') = consecutive_errors (status s) + 1 /\
    file_stream (status s') = file_stream (status s) /\
    the_disk (shared s') = the_disk (shared s)).
Proof.
  intros Ha Hb Hne Hcrc Hv Hce. apply bytes_app in Ha as [Hpre Ha]. apply bytes_app in Ha as [Ha Hpost].
  unfold accept_header. apply wp_bind, wp_gets. rewrite Hv. cbn [negb]. cbv zeta.
  assert (Hbad : (if pkt_crc32 (packet s)
      then compute_crc32 (compute_crc32 0 None) (Some (pre ++ [b; b'] ++ post)) =? crc32 (packet s)
      else compute_crc16 0 (pre ++ [b; b'] ++ post) =? crc16 (packet s)) = false).
  { destruct (pkt_crc32 (packet s)); apply Z.eqb_neq; rewrite Hcrc.
    - intros Heq. by apply (header_burst true pre a a' b b' post).
    - intros Heq. by apply (header_burst false pre a a' b b' post). }
  rewrite Hbad. cbn [negb].
  assert (Hs : forall s1, status s1 = status s -> shared s1 = shared s ->
    wp (stats_increment_errors ("CRC ERROR"%string, []);; mret ZM_PP_CRCERROR) s1 (fun code s' =>
      code = ZM_PP_CRCERROR /\ state (status s') = state (status s) /\
      consecutive_errors (status s') = consecutive_errors (status s) + 1 /\
      file_stream (status s') = file_stream (status s) /\
      the_disk (shared s') = the_disk (shared s))).
  { intros s1 H1 H2. apply wp_bind, wp_counted; rewrite ?H1; [done|]. intros s' E1 E2 E3 E4.
    apply wp_ret. by rewrite E1, E2, E3, E4, ?H1, ?H2. }
  apply wp_bind, wp_when; intros _; [apply wp_modify|]; by apply Hs.
Qed.

(** ** What travels on the line *)

(** No XON and no XOFF, no control character but CAN when [ctrl], and every CAN
    followed by a byte that is no CAN. *)
Fixpoint line_safe (ctrl : bool) (l : list Z) : bool :=
  match l with
  | [] => true
  | b :: l =>
    negb (b =? C_XON) && negb (b =? C_XOFF) &&
    (negb ctrl || (b =? C_CAN) || (0x20 <=? b)) &&
    (if b =? C_CAN then match l with [] => false | c :: _ => negb (c =? C_CAN) end else true) &&
    line_safe ctrl l
  end.

Definition entry_safe (ctrl bit8 : bool) (ch : Z) : bool :=
  let e := map_entry_of ctrl bit8 ch in
  let ok x := negb (x =? C_CAN) && negb (x =? C_XON) && negb (x =? C_XOFF) && (negb ctrl || (0x20 <=? x)) in
  ok e.

Lemma entry_safe_all ctrl bit8 ch : is_byte ch -> entry_safe ctrl bit8 ch = true.
Proof.
  intros H. apply (all_bytes_spec (entry_safe ctrl bit8)); [|done].
  destruct ctrl, bit8; vm_compute; reflexivity.
Qed.

Lemma line_safe_cons ctrl b l :
  b <> C_CAN -> b <> C_XON -> b <> C_XOFF -> negb ctrl || (0x20 <=? b) = true ->
  line_safe ctrl (b :: l) = line_safe ctrl l.
Proof.
  intros H1 H2 H3 H4. cbn [line_safe].
  rewrite (proj2 (Z.eqb_neq _ _) H1), (proj2 (Z.eqb_neq _ _) H2), (proj2 (Z.eqb_neq _ _) H3).
  rewrite orb_false_r, H4. done.
Qed.

Lemma line_safe_enc fl ch l :
  is_byte ch -> line_safe (has_flag fl TX_ESCAPE_CTRL) (enc fl ch ++ l) =
                line_safe (has_flag fl TX_ESCAPE_CTRL) l.
Proof.
  intros Hch. pose proof (entry_safe_all (has_flag fl TX_ESCAPE_CTRL) (has_flag fl TX_ESCAPE_8BIT) ch Hch) as Hs.
  unfold entry_safe in Hs. cbv zeta in Hs. rewrite <- map_entry_flags in Hs.
  rewrite !andb_true_iff, !negb_true_iff, !Z.eqb_neq in Hs. destruct Hs as [[[H1 H2] H3] H4].
  unfold enc. destruct (Z.eqb_spec (map_entry fl ch) ch) as [E|E]; cbn [app].
  - rewrite E in *. by apply line_safe_cons.
  - transitivity (line_safe (has_flag fl TX_ESCAPE_CTRL) (map_entry fl ch :: l)).
    + cbn [line_safe]. rewrite (proj2 (Z.eqb_neq _ _) H1). rewrite Z.eqb_refl. cbn [negb].
      change (C_CAN =? C_XON) with false. change (C_CAN =? C_XOFF) with false.
      cbn [negb andb]. by rewrite orb_true_r.
    + by apply line_safe_cons.
Qed.

(** encoded data is safe on a line with software flow control: it contains no
    XON, no XOFF, never two CANs in a row (so it can not be taken for a
    cancellation) and, when control characters are escaped, no control character
    but CAN.  It takes at most two bytes for one. *)
Theorem encoded_line_safe (fl : Z) (l : list Z) (b : outbuf) :
  bytes l -> buf_ok b -> ob_n b + 2 * Z.of_nat (length l) <= ob_max b ->
  wp (encode_bytes (build_map fl) l) b (fun _ b' =>
    exists line, ob_bytes b' = ob_bytes b ++ line /\
      line_safe (has_flag fl TX_ESCAPE_CTRL) line = true /\
      (length l <= length line <= 2 * length l)%nat).
Proof.
  intros Hl Hb Hn. apply wp_encode_bytes; [done|done|done|]. intros b' (_ & _ & He).
  exists (encs fl l). split; [done|]. split; [|apply length_encs].
  clear -Hl. induction Hl as [|ch l Hch _ IH]; [done|].
  rewrite encs_cons, line_safe_enc by done. exact IH.
Qed.

(** Escaping the eighth bit does not remove it: under TX_ESCAPE_8BIT a byte
    with the high bit set goes out as bytes of which one has it set. *)
Theorem escape_8bit_keeps_it (fl ch : Z) (b : outbuf) :
  has_flag fl TX_ESCAPE_8BIT = true -> 0x80 <= ch < 256 -> buf_ok b -> ob_n b + 2 <= ob_max b ->
  wp (encode_byte (build_map fl) ch) b (fun _ b' =>
    exists line c, ob_bytes b' = ob_bytes b ++ line /\ c ∈ line /\ 0x80 <= c).
Proof.
  intros Hfl Hch Hb Hn. apply wp_encode_byte; [unfold is_byte; lia|done|done|].
  intros b' (_ & _ & He). exists (enc fl ch), (map_entry fl ch). split; [done|].
  assert (H : (ch <? 0x80) || (0x80 <=? map_entry_of (has_flag fl TX_ESCAPE_CTRL) true ch) = true).
  { apply (all_bytes_spec (fun ch => (ch <? 0x80) || (0x80 <=? map_entry_of _ true ch)));
      [destruct (has_flag fl TX_ESCAPE_CTRL); vm_compute; reflexivity|unfold is_byte; lia]. }
  assert (Hm : 0x80 <= map_entry fl ch) by (rewrite map_entry_flags, Hfl; lia). split; [|exact Hm].
  unfold enc. destruct (Z.eqb_spec (map_entry fl ch) ch) as [->|]; set_solver.
Qed.

(** ** Where the code goes wrong *)

(** [decode_zdata_bytes] looks for the XON after a ZCRCW subpacket without
    checking that it has arrived: when the subpacket ends the input and the byte
    left over behind it in the array is XON, it takes one byte more than there is
    and the length handed to [memmove] wraps around. *)
Theorem decode_zcrcw_overrun (fl : Z) (data check stale : list Z) (s : zmodem_state) :
  packet_buffer s = encs fl data ++ [C_CAN; ZCRCW] ++ encs fl check ++ C_XON :: stale ->
  packet_buffer_n s = Z.of_nat (length (encs fl data ++ [C_CAN; ZCRCW] ++ encs fl check)) ->
  bytes data -> bytes check -> length check = check_size (pkt_crc32 (packet s)) ->
  data_n (packet s) = 0 -> Z.of_nat (length (packet_buffer s)) = ZMODEM_MAX_BLOCK_SIZE ->
  Z.of_nat (length data) <= Z.of_nat (length (pdata (packet s))) ->
  decode_zdata_bytes s = Fault OutOfBounds.
Proof.
  intros Hbuf Hn Hd Hc Hlc He Hmax Ha. pose proof (check_size_pos (pkt_crc32 (packet s))) as Hcs.
  set (pre := encs fl data ++ [C_CAN; ZCRCW] ++ encs fl check) in *.
  assert (Hb' : packet_buffer s = pre ++ C_XON :: stale)
    by (rewrite Hbuf; unfold pre; by rewrite <- !app_assoc).
  assert (Hl : (length pre < length (packet_buffer s))%nat) by (rewrite Hb', length_app; cbn; lia).
  assert (Hpre : pre = encs fl data ++ [C_CAN; ZCRCW] ++ encs fl check ++ [])
    by (unfold pre; by rewrite app_nil_r).
  unfold decode_zdata_bytes. rewrite (bind_done _ _ s s s) by done. cbv beta zeta.
  rewrite Hn, Nat2Z.id.
  assert (Ht : take (length pre) (packet_buffer s) = pre) by (rewrite Hb'; apply take_app_length).
  rewrite Ht, He.
  rewrite (bind_done _ _ s tt s).
  2: { unfold assertM. rewrite (proj2 (Z.leb_le _ _)); [done|]. lia. }
  rewrite Hpre, zdata_scan_frame by done. cbn [negb].
  assert (Hlen : (if pkt_crc32 (packet s) then 5 else 3)%nat = S (length check))
    by (rewrite Hlc; by destruct (pkt_crc32 (packet s))).
  rewrite Hlen, zdata_loop_frame; [|done|done|done|by intros ->; cbn in *; lia].
  cbv iota beta. rewrite <- Hpre.
  set (arr := blit (pdata (packet s)) (Z.to_nat 0) data).
  rewrite (bind_done _ _ s arr s).
  2: { unfold memcpy. destruct (_ && _) eqn:E; [done|lia]. }
  set (s1 := s <| packet ::= fun p => p <| pdata := arr |> <| data_n := Z.of_nat (length data) |>
    <| crc_buffer ::= fun b => blit b 0 (ZCRCW :: check) |> |>).
  rewrite (bind_done _ _ s tt s1) by done. change (ZCRCW =? ZCRCW) with true. cbv iota. cbn [length]. rewrite Z.sub_0_r.
  rewrite (bind_done _ _ s1 (Z.of_nat (length pre) + 1) s1).
  2: { rewrite (bind_done _ _ s1 C_XON s1); [done|].
       unfold load. rewrite (proj2 (Z.ltb_ge _ _)), Nat2Z.id, Hb' by lia.
       by rewrite list_lookup_middle. }
  by rewrite (proj2 (Z.ltb_lt _ _)) by lia.
Qed.

(** A header built while another one waits in the output buffer destroys it:
    [build_packet] stores a hexadecimal ZACK at the start of the buffer, whatever
    is there, and counts its 20 bytes behind what was there. *)
Theorem second_header_overwrites (arg : Z) (s : zmodem_state) :
  0 <= ob_n (output s) -> Z.of_nat (length (ob (output s))) = ob_max (output s) ->
  ob_n (output s) + HEX_PACKET_LENGTH <= ob_max (output s) ->
  header_is_hex (status s) P_ZACK = true ->
  wp (build_packet P_ZACK arg) s (fun _ s' =>
    take 20 (ob (output s')) = hex_header (header_bytes P_ZACK arg) P_ZACK /\
    ob_n (output s') = ob_n (output s) + HEX_PACKET_LENGTH).
Proof.
  intros Hn Hl Hroom Hhex. unfold build_packet, HEX_PACKET_LENGTH in *.
  pose proof (length_header P_ZACK arg) as Hh.
  apply wp_bind, wp_gets, wp_bind, wp_modify. rewrite Hhex.
  apply wp_bind, wp_bind, wp_modify, wp_on_output. unfold build_hex.
  match goal with |- wp _ ?b _ => change b with (output s) end. revert Hh. generalize (header_bytes P_ZACK arg). intros h Hh.
  pose proof (length_hexify h) as Hx. rewrite Hh in Hx.
  apply wp_bind, (wp_poke _ _ []); [apply starts_nil|done|cbn; lia|]. intros b1 S1 L1 N1 M1.
  apply wp_bind, (wp_poke _ _ _ _ _ S1); [done|rewrite Hx; cbn; lia|]. intros b2 S2 L2 N2 M2.
  apply wp_bind, wp_modify. set (b2' := b2 <| ob_n ::= _ |>).
  assert (S2' : starts b2' (([] ++ [ZPAD; ZPAD; C_CAN; 66]) ++ hexify_string h)) by done.
  assert (L2' : length (ob b2') = length (ob b2)) by done.
  assert (N2' : ob_n b2' = ob_n (output s) + 20)
    by (unfold b2', field_update, HEX_PACKET_LENGTH; cbn [ob_n eta eta_outbuf]; lia).
  assert (M2' : ob_max b2' = ob_max b2) by done. clearbody b2'.
  apply wp_bind, (wp_poke _ _ _ _ _ S2'); [rewrite !length_app, Hx; done| |].
  { rewrite !length_app, Hx, length_hexify. cbn. lia. }
  intros b3 S3 L3 N3 M3.
  apply wp_bind, (wp_poke _ _ _ _ _ S3); [rewrite !length_app, Hx, length_hexify; done| |].
  { rewrite !length_app, Hx, length_hexify. cbn. lia. }
  intros b4 [rest Hr] L4 N4 M4. apply wp_when; [done|intros _].
  apply wp_bind, wp_gets, wp_assert; [change (output _) with b4; lia|].
  change (take 20 (ob b4) = hex_header h P_ZACK /\ ob_n b4 = ob_n (output s) + 20). split; [|lia].
  rewrite Hr. unfold hex_header. change (xon_after P_ZACK) with false. rewrite app_nil_r.
  rewrite take_app_length'; [by rewrite <- !app_assoc|].
  rewrite !length_app, Hx, length_hexify. done.
Qed.

(** The byte count of [fwrite] is ignored: on a full disk a subpacket is
    lost, yet the receiver counts it and its ZACK tells the sender that the bytes
    are safe. *)
Theorem full_disk_acknowledged (fl : Z) (data check rest : list Z) (f : FILE) (s : zmodem_state) :
  collecting f s -> pending s = sub_frame fl data ZCRCW check ++ rest ->
  bytes data -> bytes check -> length check = check_size (pkt_crc32 (packet s)) ->
  check_ok (pkt_crc32 (packet s)) data ZCRCW check = true ->
  Z.of_nat (length data) < ZMODEM_MAX_BLOCK_SIZE ->
  0 <= f_pos f -> f_pos f = f_size (the_disk (shared s)) f -> d_space (the_disk (shared s)) = 0 ->
  wp receive_zdata s (fun ret s' =>
    ret = false /\ f_data (the_disk (shared s')) f = f_data (the_disk (shared s)) f /\
    file_position (status s') = file_position (status s) + Z.of_nat (length data) /\
    ob_bytes (output s') =
      header_frame (status s) P_ZACK
        (big_to_little_endian (u32 (file_position (status s) + Z.of_nat (length data))))).
Proof.
  intros Hc Hp Hd Hck Hlc Hok Hn H0 Hpos Hsp.
  apply (wp_receive_good fl data ZCRCW check rest f);
    [by apply (collecting_incoming f)|done|apply Hc|].
  intros s' [D1 D2 D3 D4 D5] Hr. split; [done|]. split; [|by split].
  rewrite D1. unfold fwrite. cbn [fst snd]. unfold f_data at 1. cbn.
  rewrite lookup_insert_eq. cbn [default from_option id].
  rewrite <- Hpos, Hsp. replace (Z.min _ _) with (Z.min (Z.of_nat (length data)) 0) by lia.
  rewrite Z.min_r by lia. cbn [Z.to_nat take]. rewrite Nat.add_0_r.
  unfold f_size in Hpos. rewrite Hpos, Nat2Z.id. unfold extend.
  rewrite Nat.sub_diag, app_nil_r, firstn_all, drop_all. change (take (Z.to_nat 0) data) with (@nil Z). by rewrite app_nil_r.
Qed.

(** ** Instances *)

Definition padded (n : Z) (l : list Z) : list Z := l ++ replicate (Z.to_nat n - length l) 0.

Definition sample_stream : FILE := (opened [98]) <| f_pos := 3 |>.

(** A receiver in the middle of a file of three bytes, with [line] in its buffer. *)
Definition sample_rx (fl space : Z) (line : list Z) : zmodem_state :=
  (statics (initial_common (plain_disk {[ [98] := [1; 2; 3] ]} space) (fun _ => 0)) 4096)
    <| status ::= fun st => st <| state := ZDATA |> <| prior_state := ZRPOS_WAIT |>
         <| file_stream := Some sample_stream |> <| file_position := 3 |> <| flags := fl |> |>
    <| encode_byte_map := build_map fl |>
    <| packet ::= fun p => p <| pkt_crc32 := true |> |>
    <| packet_buffer := padded ZMODEM_MAX_BLOCK_SIZE line |>
    <| packet_buffer_n := Z.of_nat (length line) |>.

Definition sample_packet (data : list Z) : zmodem_packet :=
  zero_packet <| ptype := P_ZDATA |> <| pkt_crc32 := true |>
    <| pdata := padded ZMODEM_MAX_BLOCK_SIZE data |> <| data_n := Z.of_nat (length data) |>.

Definition sample_data : list Z := [24; 17; 65; 255; 145; 127; 0].
Definition sample_check (t : Z) : list Z := zdata_check (sample_packet sample_data) t.

Lemma empty_outbuf_ok n : 0 <= n -> buf_ok (empty_outbuf n).
Proof.
  intros Hn. split; [unfold empty_outbuf; cbn [ob ob_max]; by rewrite length_replicate|].
  change (0 <= 0 <= n). lia.
Qed.

Lemma sample_collecting fl space line :
  0 <= fl < 2 ^ 32 -> Z.of_nat (length line) <= ZMODEM_MAX_BLOCK_SIZE ->
  collecting sample_stream (sample_rx fl space line) /\ pending (sample_rx fl space line) = line.
Proof.
  intros Hfl Hl. assert (Hp : Z.of_nat (length (padded ZMODEM_MAX_BLOCK_SIZE line)) = ZMODEM_MAX_BLOCK_SIZE).
  { unfold padded. rewrite length_app, length_replicate. unfold ZMODEM_MAX_BLOCK_SIZE in *. lia. }
  split.
  - split; [split; [done|done|done|]|..|done|done|by vm_compute|done].
    + split; [|done|done]. split; [by apply (empty_outbuf_ok 4096)|]. split; [done|]. done.
    + change (packet_buffer _) with (padded ZMODEM_MAX_BLOCK_SIZE line).
      change (packet_buffer_n _) with (Z.of_nat (length line)). lia.
    + exact Hp.
  - unfold pending. change (packet_buffer _) with (padded ZMODEM_MAX_BLOCK_SIZE line).
    change (packet_buffer_n _) with (Z.of_nat (length line)). rewrite Nat2Z.id. apply take_app_length.
Qed.

Lemma zdata_transfer_witness :
  wp (encode_zdata_bytes (build_map 0) (sample_packet sample_data) ZCRCW) (empty_outbuf 40) (fun _ b' =>
    exists line, ob_bytes b' = [] ++ line /\
    forall f rest rx, collecting f rx -> pkt_crc32 (packet rx) = true -> pending rx = line ++ rest ->
      wp receive_zdata rx (fun ret rx' =>
        ret = false /\ delivered f (packet_data (sample_packet sample_data)) ZCRCW rx rx' /\ pending rx' = rest))
  /\ collecting sample_stream (sample_rx 0 100 (sub_frame 0 sample_data ZCRCW (sample_check ZCRCW) ++ [1; 2])).
Proof.
  split; [|by apply sample_collecting; vm_compute].
  apply (zdata_transfer 0 ZCRCW (sample_packet sample_data) (empty_outbuf 40)); 
    first [by apply bytes_by_eval | vm_compute; done].
Defined.

Definition damaged_rx : zmodem_state :=
  sample_rx 0 100 (sub_frame 0 ([24; 17; 65] ++ [254; 145] ++ [127; 0]) ZCRCG (sample_check ZCRCG) ++ [1; 2]).

Lemma zdata_damage_rejected_witness :
  wp receive_zdata damaged_rx (fun ret rx' =>
    ret = true /\ the_disk (shared rx') = the_disk (shared damaged_rx) /\
    file_stream (status rx') = Some sample_stream /\
    file_position (status rx') = file_position (status damaged_rx) /\
    state (status rx') = ZRPOS_WAIT /\ pending rx' = [] /\
    ob_bytes (output rx') =
      header_frame (status damaged_rx) P_ZRPOS (u32 (file_position (status damaged_rx)))).
Proof.
  refine (zdata_damage_rejected 0 ZCRCG (sample_packet sample_data) [24; 17; 65] [127; 0] 255 145 254 145
    [1; 2] sample_stream damaged_rx _ _ _ _ _ _ _ _ _); first [by apply bytes_by_eval | vm_compute; done | by apply sample_collecting; vm_compute].
Defined.

Lemma outbound_packet_suffices_witness :
  wp (encode_zdata_bytes (build_map 0) (sample_packet (replicate 1024 24)) ZCRCG)
    (empty_outbuf ZMODEM_MAX_BLOCK_SIZE) (fun _ b' =>
    ob_bytes b' = sub_frame 0 (packet_data (sample_packet (replicate 1024 24))) ZCRCG
                    (zdata_check (sample_packet (replicate 1024 24)) ZCRCG) /\
    ob_n b' <= ZMODEM_MAX_BLOCK_SIZE).
Proof.
  apply (outbound_packet_suffices 0 ZCRCG (sample_packet (replicate 1024 24)));
    first [by apply bytes_by_eval | vm_compute; done].
Defined.

Lemma encoded_line_safe_witness :
  wp (encode_bytes (build_map TX_ESCAPE_CTRL) sample_data) (empty_outbuf 14) (fun _ b' =>
    exists line, ob_bytes b' = [] ++ line /\ line_safe true line = true /\ (7 <= length line <= 14)%nat).
Proof.
  apply (encoded_line_safe TX_ESCAPE_CTRL sample_data (empty_outbuf 14));
    first [by apply bytes_by_eval | vm_compute; done].
Defined.

Lemma escape_8bit_keeps_it_witness :
  wp (encode_byte (build_map TX_ESCAPE_8BIT) 0xA1) (empty_outbuf 2) (fun _ b' =>
    exists line c, ob_bytes b' = [] ++ line /\ c ∈ line /\ 0x80 <= c).
Proof.
  apply (escape_8bit_keeps_it TX_ESCAPE_8BIT 0xA1 (empty_outbuf 2)); vm_compute; done.
Defined.

Lemma decode_zcrcw_overrun_witness :
  decode_zdata_bytes
    ((sample_rx 0 100 (sub_frame 0 sample_data ZCRCW (sample_check ZCRCW)))
       <| packet_buffer_n ::= fun n => n - 1 |>) = Fault OutOfBounds.
Proof.
  apply (decode_zcrcw_overrun 0 sample_data (sample_check ZCRCW)
    (replicate (Z.to_nat ZMODEM_MAX_BLOCK_SIZE - length (sub_frame 0 sample_data ZCRCW (sample_check ZCRCW))) 0));
    first [by apply bytes_by_eval | vm_compute; done].
Defined.

Lemma second_header_overwrites_witness :
  let s := (sample_rx TX_ESCAPE_CTRL 100 []) <| output ::= fun b => b <| ob_n := 20 |> |> in
  wp (build_packet P_ZACK 77) s (fun _ s' =>
    take 20 (ob (output s')) = hex_header (header_bytes P_ZACK 77) P_ZACK /\ ob_n (output s') = 20 + 20).
Proof. apply second_header_overwrites; vm_compute; done. Defined.

Definition full_rx : zmodem_state :=
  sample_rx 0 0 (sub_frame 0 sample_data ZCRCW (sample_check ZCRCW) ++ [9]).

Lemma full_disk_acknowledged_witness :
  wp receive_zdata full_rx (fun ret s' =>
    ret = false /\ f_data (the_disk (shared s')) sample_stream = f_data (the_disk (shared full_rx)) sample_stream /\
    file_position (status s') = file_position (status full_rx) + Z.of_nat (length sample_data) /\
    ob_bytes (output s') =
      header_frame (status full_rx) P_ZACK
        (big_to_little_endian (u32 (file_position (status full_rx) + Z.of_nat (length sample_data))))).
Proof.
  refine (full_disk_acknowledged 0 sample_data (sample_check ZCRCW) [9] sample_stream full_rx
    _ _ _ _ _ _ _ _ _ _); first [by apply bytes_by_eval | vm_compute; done | by apply sample_collecting; vm_compute].
Defined.

Lemma header_roundtrip_witness :
  let tx := sample_rx 0 0 [] in
  wp (build_packet P_ZRPOS 70000) tx (fun _ tx' =>
    let line := ob_bytes (output tx') in
    wp (parse_packet (line ++ [1; 2])) (sample_rx 0 0 []) (fun r rx' =>
      r = (ZM_PP_OK, Z.of_nat (length line)) /\
      ptype (packet rx') = P_ZRPOS /\ argument (packet rx') = received_argument P_ZRPOS 70000 /\
      state (status rx') = (if type_has_data P_ZRPOS then ZDATA else state (status (sample_rx 0 0 []))) /\
      shared rx' = shared (sample_rx 0 0 []))).
Proof.
  apply (header_roundtrip P_ZRPOS 70000 [1; 2] (sample_rx 0 0 []) (sample_rx 0 0 [])); [|done|done].
  by apply (proj1 (sample_collecting 0 0 [] ltac:(done) ltac:(done))).
Defined.

Lemma header_damage_rejected_witness :
  let s := (sample_rx 0 0 []) <| packet ::= fun p => p <| ptype := P_ZEOF |>
    <| crc32 := compute_crc32 (compute_crc32 0 None) (Some ([P_ZEOF] ++ [1; 2] ++ [0; 0])) |> |> in
  wp (accept_header ([P_ZEOF] ++ [2; 2] ++ [0; 0])) s (fun code s' =>
    code = ZM_PP_CRCERROR /\ state (status s') = state (status s) /\
    consecutive_errors (status s') = consecutive_errors (status s) + 1 /\
    file_stream (status s') = file_stream (status s) /\
    the_disk (shared s') = the_disk (shared s)).
Proof.
  intros s. apply (header_damage_rejected [P_ZEOF] [0; 0] 1 2 2 2 s);
    first [by apply bytes_by_eval | reflexivity | done | vm_compute; done].
Defined.
