(* ===== verification/ZmodemMachine.v ===== *)
(** zmodem.c: the state machine of Zmodem: the handlers of the receiver and of the
    sender, the two loops that run them, the entry point and the start of a
    transfer. *)

From Stdlib Require Import ZArith Lia List Bool.
From stdpp Require Import base list numbers gmap strings.
From S2P Require Import Prelude Crc Stdio Protocols Zmodem.
Import Zmodem.

Module ZMachine.

(** ** Common steps *)

Definition clear_packet_buffer : ZM unit := modify (fun s => s <| packet_buffer_n := 0 |>).
Definition say (m : string) : ZM unit := last_msg (m, []).

(** The end of a transfer that went wrong; the handler returns [Q_TRUE]. *)
Definition not_compliant : ZM bool :=
  set_state ABORT;; stop_file_transfer Q_TRANSFER_STATE_ABORT;; mret true.
Definition abort_with (m : string) : ZM bool :=
  set_state ABORT;; say m;; stop_file_transfer Q_TRANSFER_STATE_ABORT;; mret true.

(** [packet_buffer_n -= discard], the rest moved to the front. *)
Definition discard_bytes (discard : Z) : ZM unit :=
  whenM (0 <? discard)
    (s ← get;
     if packet_buffer_n s <? discard then raise OutOfBounds
     else
       let rest := drop (Z.to_nat discard) (take (Z.to_nat (packet_buffer_n s)) (packet_buffer s)) in
       modify (fun s => s <| packet_buffer ::= fun b => blit b 0 rest |>
                          <| packet_buffer_n ::= fun n => n - discard |>)).

Definition next_header : ZM ZM_PARSE_PACKET :=
  s ← get;
  r ← parse_packet (take (Z.to_nat (packet_buffer_n s)) (packet_buffer s));
  discard_bytes (snd r);;
  mret (fst r).

Definition garbled_header : ZM bool :=
  stats_increment_errors ("GARBLED HEADER"%string, []);;
  clear_packet_buffer;;
  build_packet P_ZNAK 0;;
  mret true.

(** The frame of the handlers that wait for a header: [garbled] on a bad one,
    [on_header] on a good one, [on_timeout] when nothing came for too long. *)
Definition wait_for (garbled on_header : ZM bool) (on_timeout : ZM unit) : ZM bool :=
  n ← gets packet_buffer_n;
  if 0 <? n then
    rc ← next_header;
    match rc with
    | ZM_PP_CRCERROR | ZM_PP_INVALID => garbled
    | ZM_PP_NODATA => mret true
    | ZM_PP_OK => on_header
    end
  else
    timeout ← check_timeout;
    if timeout : bool then on_timeout;; mret false else mret true.

(** The answer to ZNAK: send again. *)
Definition nak (again : STATE) : ZM bool :=
  stats_increment_errors ("ZNAK"%string, []);; set_state again;; mret false.

Definition reset_crc : ZM unit :=
  on_packet (fun p => p <| crc16 := 0 |> <| crc32 := compute_crc32 0 None |>).

(** Record the prior state and switch to data processing. *)
Definition collect_data (prior : STATE) : ZM unit :=
  on_status (fun st => st <| prior_state := prior |> <| state := ZDATA |>);;
  on_packet (fun p => p <| data_n := 0 |>);;
  reset_crc.

(** [status.flags |= bit] when the argument of the header has it. *)
Definition take_flag (bit : Z) : ZM unit :=
  p ← gets packet;
  whenM (has_flag (argument p) bit) (on_status (fun st => st <| flags ::= fun f => Z.lor f bit |>)).

(** ** Files *)

Definition set_fullname (name : list Z) : ZM unit :=
  if Z.of_nat (length name) <? FILENAME_SIZE
  then on_status (fun st => st <| file_fullname := name |>)
  else raise OutOfBounds.

(** [download_path "/" status.file_name] *)
Definition download_name : ZM (list Z) :=
  path ← gets download_path; path ← nonnull path;
  st ← gets status;
  name ← nonnull (file_name st);
  mret (path ++ [SLASH] ++ name).

(** The search for a name that is not taken: [false] on another error. *)
Fixpoint find_new_name (fuel i : nat) (base : list Z) : ZM bool :=
  match fuel with
  | O => diverge
  | S fuel =>
    set_fullname (numbered base i);;
    s ← get;
    match stat (the_disk (shared s)) (file_fullname (status s)) with
    | Stat_enoent => mret true
    | Stat_error => mret false
    | Stat_ok _ => find_new_name fuel (S i) base
    end
  end.
Definition new_name : ZM bool :=
  base ← download_name;
  d ← gets (fun s => the_disk (shared s));
  find_new_name (S (size (d_files d))) 0 base.

(** Open [file_fullname] and go to its end; [false] when it cannot be opened. *)
Definition open_file (existing : bool) : ZM bool :=
  s ← get;
  let d := the_disk (shared s) in
  let name := file_fullname (status s) in
  let opened := if existing then match fopen_update d name with Some f => Some (d, f) | None => None end
                else fopen_wb d name in
  match opened with
  | None => mret false
  | Some (d, f) =>
    lift (modify (fun c => c <| the_disk := d |>));;
    on_status (fun st => st <| file_stream := Some (snd (fseek_end d f 0)) |>);;
    mret true
  end.

(** The CRC of a file over its first [limit] bytes, or all of it: the loop reads
    a byte at a time until the end of the file is met. *)
Fixpoint file_crc_loop (fuel : nat) (d : disk) (f : FILE) (limit : option Z) (total crc : Z) :
    option (FILE * Z * Z) :=
  match fuel with
  | O => None
  | S fuel =>
    if f_eof f || match limit with Some n => n <=? total | None => false end then Some (f, total, crc)
    else
      let '(data, f) := fread d f 1 in
      file_crc_loop fuel d f limit (i32 (total + Z.of_nat (length data))) (lnot32 (compute_crc32 crc (Some data)))
  end.

(** Sets [file_crc32], returns the number of bytes; the stream ends where
    [file_position] says. *)
Definition compute_file_crc (limit : option Z) : ZM Z :=
  s ← get;
  f ← nonnull (file_stream (status s));
  let d := the_disk (shared s) in
  match file_crc_loop (S (S (length (f_data d f)))) d (fseek_set f 0) limit 0 (compute_crc32 0 None) with
  | None => diverge
  | Some (f, total, crc) =>
    on_status (fun st => st <| file_crc32 := lnot32 crc |>
                            <| file_stream := Some (fseek_set f (file_position st)) |>);;
    mret total
  end.

(** A file is done: the log line, the name and the stream are dropped. *)
Definition drop_file (log : string) : ZM unit :=
  lift (emit (Ev_log log));;
  st ← gets status;
  assertM (bool_decide (is_Some (file_name st)));;
  on_status (fun st => st <| file_name := None |> <| file_stream := None |>).
Definition set_times : ZM unit :=
  st ← gets status;
  lift (emit (Ev_utime (file_fullname st) (file_modtime st))).

(** ** Receiver *)

Definition receive_zchallenge : ZM bool :=
  s ← get;
  modify (fun s => s <| zchallenge_value := u32 (entropy (options s) (draws s)) |> <| draws ::= S |>);;
  v ← gets zchallenge_value;
  build_packet P_ZCHALLENGE v;;
  set_state ZCHALLENGE_WAIT;;
  clear_packet_buffer;;
  mret false.

Definition receive_zchallenge_wait : ZM bool :=
  wait_for garbled_header
    (s ← get;
     let t := ptype (packet s) in
     if t =? P_ZACK then
       if argument (packet s) =? zchallenge_value s then
         say "ZCHALLENGE -- OK";; say "ZRINIT";; set_state ZRINIT;; reset_crc;; mret false
       else
         stats_increment_errors ("ZCHALLENGE -- ERROR"%string, []);; not_compliant
     else if t =? P_ZNAK then nak ZCHALLENGE
     else if t =? P_ZRQINIT then say "ZRQINIT";; set_state ZCHALLENGE;; mret false
     else not_compliant)
    (set_state ZCHALLENGE).

Definition receive_zcrc : ZM bool :=
  total ← compute_file_crc None;
  build_packet P_ZCRC total;;
  set_state ZCRC_WAIT;;
  clear_packet_buffer;;
  mret false.

(** The file on the disk is another one: a new one is created. *)
Definition zcrc_other_file : ZM bool :=
  found ← new_name;
  if negb found then abort_with "DISK I/O ERROR"
  else
    on_status (fun st => st <| file_position := 0 |>);;
    ok ← open_file false;
    if negb ok then on_status (fun st => st <| file_stream := None |>);; abort_with "CANNOT CREATE FILE"
    else
      st ← gets status;
      stats_new_file (file_fullname st) (i32 (file_size st));;
      set_state ZRPOS;;
      mret false.

Definition receive_zcrc_wait : ZM bool :=
  wait_for garbled_header
    (s ← get;
     let st := status s in
     let t := ptype (packet s) in
     if t =? P_ZCRC then
       if argument (packet s) =? file_crc32 st then
         set_state (if file_size st =? file_position st then ZSKIP else ZRPOS);; mret false
       else zcrc_other_file
     else if t =? P_ZNAK then nak ZCRC
     else if t =? P_ZFILE then
       stats_increment_errors ("Sender does not understand ZCRC!"%string, []);; set_state ZRPOS;; mret false
     else not_compliant)
    (set_state ZCRC).

Definition receive_zrinit : ZM bool :=
  s ← get;
  let o := Z.lor TX_CAN_FULL_DUPLEX TX_CAN_OVERLAP_IO in
  let o := if use_crc32 (status s) then Z.lor o TX_CAN_CRC32 else o in
  let o := if zmodem_escape_ctrl (options s) then Z.lor o TX_ESCAPE_CTRL else o in
  on_status (fun st => st <| flags := o |>);;
  build_packet P_ZRINIT o;;
  set_state ZRINIT_WAIT;;
  clear_packet_buffer;;
  mret false.

(** Special case: a ZSKIP is sent again instead of a ZRINIT if the last thing
    asked for was a ZSKIP. *)
Definition back_to_zrinit : ZM unit :=
  st ← gets status;
  set_state (if decide (prior_state st = ZSKIP) then ZSKIP else ZRINIT).

Definition receive_zrinit_wait : ZM bool :=
  wait_for garbled_header
    (s ← get;
     let t := ptype (packet s) in
     if t =? P_ZFIN then say "ZFIN";; build_packet P_ZFIN 0;; set_state ZFIN_WAIT;; mret false
     else if t =? P_ZRQINIT then say "ZRINIT";; set_state ZRINIT;; reset_crc;; mret false
     else if t =? P_ZSINIT then
       say "ZSINIT";; take_flag TX_ESCAPE_CTRL;; take_flag TX_ESCAPE_8BIT;; setup_encode_byte_map;;
       collect_data ZRINIT_WAIT;; mret false
     else if t =? P_ZCOMMAND then say "ERROR: ZCOMMAND NOT SUPPORTED";; mret false
     else if t =? P_ZFILE then say "ZFILE";; collect_data ZRINIT_WAIT;; mret false
     else if t =? P_ZNAK then
       stats_increment_errors ("ZNAK"%string, []);; back_to_zrinit;; mret false
     else not_compliant)
    back_to_zrinit.

Definition receive_zrpos : ZM bool :=
  st ← gets status;
  build_packet P_ZRPOS (u32 (file_position st));;
  set_state ZRPOS_WAIT;;
  clear_packet_buffer;;
  mret false.

(** The end of a file. *)
Definition receive_zeof : ZM bool :=
  on_stats (fun q => q <| qts_state := Q_TRANSFER_STATE_FILE_DONE |>);;
  say "ZEOF";;
  s ← get;
  if file_position (status s) =? argument (packet s) then
    f ← nonnull (file_stream (status s));
    set_times;;
    drop_file "DOWNLOAD FILE COMPLETE: protocol %s, filename %s, filesize %d";;
    build_packet P_ZRINIT 0;;
    say "ZRINIT";;
    set_state ZRINIT_WAIT;;
    mret false
  else
    stats_increment_errors ("BAD FILE POSITION FROM SENDER"%string, []);; set_state ZRPOS;; mret false.

Definition receive_zrpos_wait : ZM bool :=
  wait_for
    (st ← gets status;
     if decide (prior_state st = ZRPOS_WAIT) then mret false else garbled_header)
    (s ← get;
     let t := ptype (packet s) in
     if t =? P_ZEOF then receive_zeof
     else if t =? P_ZDATA then say "ZDATA";; collect_data ZRPOS_WAIT;; mret false
     else if t =? P_ZNAK then nak ZRPOS
     else not_compliant)
    (set_state ZRPOS).

(** [%u] and [%lo] of [sscanf]: the value and the input left; [None] when there is
    no digit. *)
Definition scan_number (base : Z) (s : list Z) : option (Z * list Z) :=
  let '(sg, s) := scan_sign (skip_space s) in
  let digit c := (48 <=? c) && (c <? 48 + base) in
  match s with
  | c :: _ => if digit c then Some (sg * scan_digits base s 0, snd (skip_while digit s)) else None
  | [] => None
  end.

(** The file information of a ZFILE subpacket: the name, then the size and the
    modification time in text; the other numbers are only logged. *)
Definition file_information : ZM unit :=
  data ← gets (fun s => pdata (packet s));
  let name := c_str data in
  let text := drop (length name + 1) data in
  if bool_decide (length name = length data \/ length (c_str text) = length text) then raise OutOfBounds
  else
    on_status (fun st => st <| file_name := Some name |>);;
    match scan_number 10 (c_str text) with
    | None => mret tt
    | Some (size, rest) =>
      on_status (fun st => st <| file_size := u32 size |>);;
      match scan_number 8 rest with
      | None => mret tt
      | Some (mtime, _) => on_status (fun st => st <| file_modtime := u64 mtime |>)
      end
    end.

(** What to do about the file: [None] after an error, otherwise whether it
    exists. *)
Definition choose_file : ZM (option bool) :=
  full ← download_name;
  set_fullname full;;
  s ← get;
  match stat (the_disk (shared s)) full with
  | Stat_error => abort_with "DISK I/O ERROR";; mret None
  | Stat_enoent =>
    on_status (fun st => st <| file_position := 0 |>);; say "ZRPOS";; set_state ZRPOS;; mret (Some false)
  | Stat_ok n =>
    on_status (fun st => st <| file_position := n |>);;
    st ← gets status;
    if file_size st <? n then
      found ← new_name;
      if (found : bool) then
        on_status (fun st => st <| file_position := 0 |>);; set_state ZRPOS;; mret (Some false)
      else abort_with "DISK I/O ERROR";; mret None
    else if (file_size st =? n) || (0 <? file_size st) then
      say "ZCRC";; set_state ZCRC;; mret (Some true)
    else
      say "ZRPOS";; set_state ZRPOS;; mret (Some true)
  end.

Definition receive_zfile : ZM bool :=
  file_information;;
  e ← choose_file;
  match e with
  | None => mret true
  | Some existing =>
    ok ← open_file existing;
    if negb ok then on_status (fun st => st <| file_stream := None |>);; abort_with "CANNOT CREATE FILE"
    else
      st ← gets status;
      stats_new_file (file_fullname st) (i32 (file_size st));;
      on_stats (fun q => q <| bytes_transfer := u64 (file_position st) |>);;
      mret false
  end.

Definition receive_zskip : ZM bool :=
  s ← get;
  f ← nonnull (file_stream (status s));
  set_times;;
  drop_file "DOWNLOAD FILE COMPLETE: protocol %s, filename %s, filesize %d";;
  build_packet P_ZSKIP 0;;
  on_stats (fun q => q <| qts_state := Q_TRANSFER_STATE_FILE_DONE |>);;
  say "ZSKIP";;
  on_status (fun st => st <| prior_state := ZSKIP |> <| state := ZRINIT_WAIT |>);;
  clear_packet_buffer;;
  mret false.

(** The end of a batch. *)
Definition complete (music : event) : ZM unit :=
  set_state COMPLETE;;
  say "SUCCESS";;
  stop_file_transfer Q_TRANSFER_STATE_END;;
  now ← lift time;
  on_stats (fun q => q <| end_time := now |>);;
  lift (emit music).

(** Add the input to [packet_buffer]: the input there was no room for. *)
Definition fill_packet_buffer (input : list Z) : ZM (list Z) :=
  s ← get;
  let room := ZMODEM_MAX_BLOCK_SIZE - packet_buffer_n s in
  let now := if room <? Z.of_nat (length input) then take (Z.to_nat room) input else input in
  buf ← memcpy (packet_buffer s) (packet_buffer_n s) now;
  modify (fun s => s <| packet_buffer := buf |> <| packet_buffer_n ::= Z.add (Z.of_nat (length now)) |>);;
  mret (drop (length now) input).

(** This state is where everyone begins. *)
Definition receive_init : ZM bool :=
  s ← get;
  if zmodem_zchallenge (options s) then say "ZCHALLENGE";; set_state ZCHALLENGE;; mret false
  else say "ZRINIT";; set_state ZRINIT;; reset_crc;; mret false.

(** The [switch] of [zmodem_receive]. *)
Definition receive_switch (x : STATE) : ZM bool :=
  match x with
  | INIT => receive_init
  | ZCHALLENGE => receive_zchallenge
  | ZCHALLENGE_WAIT => receive_zchallenge_wait
  | ZCRC => receive_zcrc
  | ZCRC_WAIT => receive_zcrc_wait
  | ZRINIT => receive_zrinit
  | ZRINIT_WAIT => receive_zrinit_wait
  | ZRPOS => receive_zrpos
  | ZRPOS_WAIT => receive_zrpos_wait
  | ZFILE => receive_zfile
  | ZSKIP => receive_zskip
  | ZDATA => receive_zdata
  | ZFIN_WAIT => complete Ev_music_download;; mret true
  | ABORT | COMPLETE => mret true
  | ZFILE_WAIT | ZSINIT | ZSINIT_WAIT | ZRQINIT | ZRQINIT_WAIT | ZFIN | ZEOF | ZEOF_WAIT => raise Aborted
  end.
Definition receive_state : ZM bool := st ← gets status; receive_switch (state st).

Fixpoint receive_loop (fuel : nat) (input : list Z) : ZM unit :=
  match fuel with
  | O => diverge
  | S fuel =>
    input ← fill_packet_buffer input;
    done ← receive_state;
    if done : bool then mret tt else receive_loop fuel input
  end.

(** The turns of a loop: a turn that is not the last takes bytes from the buffer
    or goes from one state to the next. *)
Definition loop_fuel (s : zmodem_state) (input : list Z) : nat :=
  8 * (length input + Z.to_nat (packet_buffer_n s)) + 64.

Definition zmodem_receive (input : list Z) : ZM unit :=
  s ← get;
  receive_loop (loop_fuel s input) input.

(** ** Sender *)

Definition send_header (type argument : Z) (next : STATE) : ZM bool :=
  build_packet type argument;;
  set_state next;;
  clear_packet_buffer;;
  mret false.

Definition send_zrqinit : ZM bool := send_header P_ZRQINIT 0 ZRQINIT_WAIT.

Definition send_zrqinit_wait : ZM bool :=
  wait_for garbled_header
    (s ← get;
     let t := ptype (packet s) in
     if t =? P_ZRINIT then
       say "ZRINIT";;
       take_flag TX_ESCAPE_CTRL;; take_flag TX_ESCAPE_8BIT;; take_flag TX_CAN_FULL_DUPLEX;;
       take_flag TX_CAN_OVERLAP_IO;; take_flag TX_CAN_BREAK;; take_flag TX_CAN_DECRYPT;; take_flag TX_CAN_LZW;;
       take_flag TX_CAN_CRC32;;
       whenM (has_flag (argument (packet s)) TX_CAN_CRC32) (on_status (fun st => st <| use_crc32 := true |>));;
       setup_encode_byte_map;;
       set_state ZSINIT;;
       mret false
     else if t =? P_ZCHALLENGE then build_packet P_ZACK (argument (packet s));; mret false
     else if t =? P_ZNAK then nak ZRQINIT
     else not_compliant)
    (set_state ZRQINIT).

(** [encode_zdata_bytes] into the output and into [outbound_packet]. *)
Definition encode_output (crc_type : Z) : ZM unit :=
  s ← get;
  on_output (encode_zdata_bytes (encode_byte_map s) (packet s) crc_type).
Definition encode_outbound (crc_type : Z) : ZM unit :=
  s ← get;
  zoom outbound_packet (fun b s => s <| outbound_packet := b |>)
    (encode_zdata_bytes (encode_byte_map s) (packet s) crc_type).
(** Make sure we continue to use the right CRC. *)
Definition right_crc : ZM unit :=
  st ← gets status; on_packet (fun p => p <| pkt_crc32 := use_crc32 st |>).

(** Data put into the packet: [packet.data] from its start and [data_n]. *)
Definition put_data (xs : list Z) : ZM unit :=
  p ← gets packet;
  data ← memcpy (pdata p) 0 xs;
  on_packet (fun p => p <| pdata := data |>).

Definition send_zsinit : ZM bool :=
  s ← get;
  (if negb (has_flag (flags (status s)) TX_ESCAPE_CTRL) && zmodem_escape_ctrl (options s) then
     build_packet P_ZSINIT TX_ESCAPE_CTRL;;
     set_state ZSINIT_WAIT;;
     say "ZSINIT";;
     put_data [0];;
     on_packet (fun p => p <| data_n := 1 |> <| pkt_crc32 := false |>);;
     encode_output ZCRCW
   else
     say "ZFILE";;
     set_state ZFILE);;
  clear_packet_buffer;;
  mret false.

Definition send_zsinit_wait : ZM bool :=
  wait_for garbled_header
    (s ← get;
     let t := ptype (packet s) in
     if t =? P_ZACK then say "ZACK";; say "ZFILE";; set_state ZFILE;; mret false
     else if t =? P_ZNAK then nak ZSINIT
     else not_compliant)
    (set_state ZSINIT).

(** ["%d"] of an [int]. *)
Definition print_int (v : Z) : list Z :=
  if i32 v <? 0 then 45 :: print_base 10 (- i32 v) else print_base 10 (i32 v).
(** ["%s %d %lo 0 0 1 %d"], the name, the size, the time and the size. *)
Definition file_line (st : ZMODEM_STATUS) (name : cstring) : list Z :=
  name ++ [32] ++ print_int (file_size st) ++ [32] ++ print_base 8 (u64 (file_modtime st)) ++
  str " 0 0 1 " ++ print_int (file_size st).

Definition send_zfile : ZM bool :=
  build_packet P_ZFILE 0;;
  set_state ZFILE_WAIT;;
  st ← gets status;
  name ← nonnull (file_name st);
  let line := take (Z.to_nat (ZMODEM_MAX_BLOCK_SIZE - 2)) (file_line st name) in
  put_data (line ++ [0]);;
  p ← gets packet;
  data ← store (pdata p) (Z.of_nat (length name)) 0;
  on_packet (fun p => p <| pdata := data |> <| data_n := Z.of_nat (length line) + 1 |>);;
  right_crc;;
  encode_output ZCRCW;;
  clear_packet_buffer;;
  mret false.

(** [fseek(status.file_stream, status.file_position, SEEK_SET)] *)
Definition seek_position (pos : Z) : ZM unit :=
  st ← gets status;
  f ← nonnull (file_stream st);
  on_status (fun st => st <| file_position := pos |> <| file_stream := Some (fseek_set f pos) |>).

(** The header of a data frame at the current position. *)
Definition zdata_start : ZM unit :=
  st ← gets status;
  build_packet P_ZDATA (big_to_little_endian (u32 (file_position st))).

(** A file was sent or skipped. *)
Definition next_file : ZM unit :=
  st ← gets status;
  on_stats (fun q => q <| batch_bytes_transfer ::= fun z => u64 (z + file_size st) |>
                       <| qts_state := Q_TRANSFER_STATE_FILE_DONE |>);;
  say "ZRINIT";;
  f ← nonnull (file_stream st);
  drop_file "UPLOAD FILE COMPLETE: protocol %s, filename %s, filesize %d";;
  modify (fun s => s <| upload_file_list_i ::= S |>);;
  ok ← setup_for_next_file;
  mret tt.

Definition send_zfile_wait : ZM bool :=
  wait_for garbled_header
    (s ← get;
     let t := ptype (packet s) in
     let arg := argument (packet s) in
     if t =? P_ZRPOS then
       say "ZRPOS";;
       if file_size (status s) <? arg then not_compliant
       else
         seek_position arg;;
         zdata_start;;
         on_status (fun st => st <| prior_state := ZFILE_WAIT |> <| state := ZDATA |> <| ack_required := false |>);;
         mret false
     else if t =? P_ZNAK then nak ZFILE
     else if t =? P_ZCRC then
       say "ZCRC";;
       total ← compute_file_crc (Some arg);
       st ← gets status;
       build_packet P_ZCRC (file_crc32 st);;
       mret false
     else if t =? P_ZSKIP then say "ZSKIP";; next_file;; mret false
     else not_compliant)
    (set_state ZFILE).

(** *** The state ZDATA of the sender

    Each stage ends in [Some done] where the handler returns. *)

Definition drop_output : ZM unit :=
  modify (fun s => s <| outbound_packet ::= fun b => b <| ob_n := 0 |> |> <| output ::= fun b => b <| ob_n := 0 |> |>).

Definition to_zeof : ZM (option bool) := say "ZEOF";; set_state ZEOF;; mret (Some false).

Definition zdata_zskip : ZM (option bool) :=
  drop_output;; right_crc;; encode_output ZCRCW;; to_zeof.

(** ZRPOS: the first one tells of an error, the second one answers the ZCRCW. *)
Definition zdata_zrpos : ZM (option bool) :=
  s ← get;
  let arg := argument (packet s) in
  let got_error := negb (ack_required (status s)) in
  (if got_error then
     stats_increment_errors ("CRC ERROR"%string, []);;
     on_status (fun st => st <| ack_required := true |> <| waiting_for_ack := false |>);;
     drop_output;;
     on_status (fun st => st <| streaming_zdata := false |>);;
     clear_packet_buffer
   else on_status (fun st => st <| ack_required := false |> <| waiting_for_ack := false |>));;
  st ← gets status;
  if arg <=? file_size st then
    on_status (fun st => st <| confirmed_bytes := i32 arg |>);;
    whenM got_error block_size_down;;
    st ← gets status;
    if got_error && bool_decide (state st = ABORT) then mret (Some true)
    else
      seek_position arg;;
      on_stats (fun q => q <| bytes_transfer := u64 arg |>);;
      zdata_start;;
      mret None
  else done ← not_compliant; mret (Some done).

Definition zdata_zack : ZM (option bool) :=
  s ← get;
  let pos := big_to_little_endian (argument (packet s)) in
  on_status (fun st => st <| ack_required := false |> <| waiting_for_ack := false |>);;
  st ← gets status;
  if file_size st <? pos then to_zeof
  else
    seek_position pos;;
    on_status (fun st => st <| confirmed_bytes := i32 pos |>);;
    block_size_up;;
    st ← gets status;
    if file_position st =? file_size st then to_zeof
    else
      on_stats (fun q => q <| bytes_transfer := u64 (file_position st) |>);;
      whenM (negb (streaming_zdata st)) (zdata_start;; on_status (fun st => st <| streaming_zdata := true |>));;
      mret None.

(** Check the input buffer first. *)
Definition zdata_input : ZM (option bool) :=
  n ← gets packet_buffer_n;
  if 0 <? n then
    rc ← next_header;
    match rc with
    | ZM_PP_CRCERROR | ZM_PP_INVALID => done ← garbled_header; mret (Some done)
    | ZM_PP_NODATA => mret (Some true)
    | ZM_PP_OK =>
      t ← gets (fun s => ptype (packet s));
      if t =? P_ZSKIP then zdata_zskip
      else if t =? P_ZRPOS then zdata_zrpos
      else if t =? P_ZACK then zdata_zack
      else if t =? P_ZNAK then
        stats_increment_errors ("ZNAK"%string, []);; set_state ZRPOS;; mret None
      else done ← not_compliant; mret (Some done)
    end
  else
    st ← gets status;
    if waiting_for_ack st then
      timeout ← check_timeout;
      if (timeout : bool) then
        on_status (fun st => st <| ack_required := true |> <| waiting_for_ack := false |>);; mret None
      else mret (Some true)
    else mret None.

(** The CRC escape of a block. *)
Definition zdata_escape (last_block : bool) : ZM Z :=
  if last_block then mret ZCRCW
  else
    on_status (fun st => st <| blocks_ack_count ::= fun n => u32 (n - 1) |>);;
    st ← gets status;
    if blocks_ack_count st =? 0 then
      on_status (fun st => st
        <| blocks_ack_count := if reliable_link st then WINDOW_SIZE_RELIABLE else WINDOW_SIZE_UNRELIABLE |>
        <| waiting_for_ack := true |> <| streaming_zdata := true |>);;
      mret ZCRCQ
    else mret ZCRCG.

(** The next block of the file, into the output or, for want of room, into
    [outbound_packet]: whether it went there. *)
Definition zdata_block : ZM bool :=
  s ← get;
  let st := status s in
  f ← nonnull (file_stream st);
  if (negb (f_eof f) || (ftell f =? file_size st)) && (ob_n (outbound_packet s) =? 0) then
    let spare := ob_max (output s) - ob_n (output s) <? 2 * status_block_size st in
    say "ZDATA";;
    let '(data, f) := fread (the_disk (shared s)) f (Z.to_nat (status_block_size st)) in
    on_status (fun st => st <| file_stream := Some f |>);;
    put_data data;;
    let rc := Z.of_nat (length data) in
    let last_block := (rc <? status_block_size st) || (rc =? 0) in
    (if last_block then
       on_status (fun st => st <| file_position := file_size st |>);;
       on_stats (fun q => q <| bytes_transfer := u64 (file_size st) |>)
     else
       on_status (fun st => st <| file_position ::= fun p => p + status_block_size st |>);;
       on_stats (fun q => q <| bytes_transfer ::= fun b => u64 (b + status_block_size st) |>));;
    on_packet (fun p => p <| data_n := rc |>);;
    stats_increment_blocks;;
    t ← zdata_escape last_block;
    right_crc;;
    (if spare then encode_outbound t else encode_output t);;
    whenM last_block (on_status (fun st => st <| waiting_for_ack := true |>));;
    mret spare
  else mret false.

(** An empty ZCRCW on recovery. *)
Definition zdata_recovery : ZM unit :=
  on_packet (fun p => p <| data_n := 0 |>);;
  s ← get;
  let sent := on_status (fun st => st <| waiting_for_ack := true |>) in
  if (0 <? ob_n (outbound_packet s)) && (32 <? ZMODEM_MAX_BLOCK_SIZE - ob_n (outbound_packet s)) then
    right_crc;; encode_outbound ZCRCW;; sent
  else if 32 <? ob_max (output s) - ob_n (output s) then
    right_crc;; encode_output ZCRCW;; sent
  else mret tt.

Definition send_zdata : ZM bool :=
  early ← zdata_input;
  match early with
  | Some done => mret done
  | None =>
    st ← gets status;
    spare ← (if negb (waiting_for_ack st) then
               if negb (ack_required st) then zdata_block else zdata_recovery;; mret false
             else mret false);
    mret (negb spare)
  end.

Definition send_zeof : ZM bool :=
  st ← gets status; send_header P_ZEOF (file_size st) ZEOF_WAIT.

Definition send_zeof_wait : ZM bool :=
  wait_for garbled_header
    (s ← get;
     let t := ptype (packet s) in
     if t =? P_ZRINIT then next_file;; mret false
     else if t =? P_ZNAK then nak ZEOF
     else not_compliant)
    (set_state ZEOF).

Definition send_zfin : ZM bool := send_header P_ZFIN 0 ZFIN_WAIT.

(** Over and out: [output[0 .. 1]], [*output_n = 2]. *)
Definition over_and_out : ZM unit :=
  on_output (poke 0 [79; 79];; modify (fun b => b <| ob_n := 2 |>)).

Definition send_zfin_wait : ZM bool :=
  wait_for garbled_header
    (s ← get;
     let t := ptype (packet s) in
     if t =? P_ZFIN then over_and_out;; complete Ev_music_upload;; mret false
     else if t =? P_ZNAK then nak ZFIN
     else if t =? P_ZRINIT then
       stats_increment_errors ("ZRINIT"%string, []);; set_state ZFIN;; mret false
     else not_compliant)
    (set_state ZFIN).

(** Scan for 4 consecutive CANs; [can_count] is never cleared otherwise. *)
Fixpoint scan_cans (l : list Z) : ZM unit :=
  match l with
  | [] => mret tt
  | b :: l =>
    modify (fun s => s <| can_count ::= fun n => if b =? C_CAN then i32 (n + 1) else 0 |>);;
    n ← gets can_count;
    whenM (4 <=? n)
      (set_state ABORT;; say "TRANSFER CANCELLED BY RECEIVER";; stop_file_transfer Q_TRANSFER_STATE_ABORT);;
    scan_cans l
  end.

(** Dispatch whatever is in [outbound_packet]. *)
Definition dispatch_outbound : ZM unit :=
  s ← get;
  let b := outbound_packet s in
  let n := Z.min (ob_max (output s) - ob_n (output s)) (ob_n b) in
  whenM (0 <? n)
    (let sent := take (Z.to_nat n) (ob b) in
     let rest := drop (Z.to_nat n) (take (Z.to_nat (ob_n b)) (ob b)) in
     out ← memcpy (ob (output s)) (ob_n (output s)) sent;
     modify (fun s => s <| output ::= fun o => o <| ob := out |> <| ob_n ::= Z.add n |> |>
                        <| outbound_packet ::= fun b => b <| ob := blit (ob b) 0 rest |> <| ob_n ::= fun k => k - n |> |>)).

(** The [switch] of [zmodem_send]. *)
Definition send_switch (x : STATE) : ZM bool :=
  match x with
  | INIT => set_state ZRQINIT;; say "ZRQINIT";; mret false
  | ZSINIT => send_zsinit
  | ZSINIT_WAIT => send_zsinit_wait
  | ZRQINIT => send_zrqinit
  | ZRQINIT_WAIT => send_zrqinit_wait
  | ZFILE => send_zfile
  | ZFILE_WAIT => send_zfile_wait
  | ZDATA => send_zdata
  | ZEOF => send_zeof
  | ZEOF_WAIT => send_zeof_wait
  | ZFIN => send_zfin
  | ZFIN_WAIT => send_zfin_wait
  | ABORT | COMPLETE => mret true
  | ZCRC | ZCRC_WAIT | ZRINIT | ZRINIT_WAIT | ZRPOS | ZRPOS_WAIT | ZCHALLENGE | ZCHALLENGE_WAIT | ZSKIP =>
    raise Aborted
  end.
Definition send_state : ZM bool := st ← gets status; send_switch (state st).

Fixpoint send_loop (fuel : nat) (input : list Z) : ZM unit :=
  match fuel with
  | O => diverge
  | S fuel =>
    input ← fill_packet_buffer input;
    s ← get;
    scan_cans (take (Z.to_nat (packet_buffer_n s)) (packet_buffer s));;
    n ← gets (fun s => ob_n (outbound_packet s));
    if 0 <? n then dispatch_outbound
    else
      done ← send_state;
      if done : bool then mret tt else send_loop fuel input
  end.

Definition zmodem_send (input : list Z) : ZM unit :=
  s ← get;
  send_loop (loop_fuel s input) input.

(** ** Entry points *)

(** [zmodem(input, input_n, output, output_n, output_max)] *)
Definition zmodem (input : list Z) (out : outbuf) : ZM unit :=
  modify (fun s => s <| output := out |>);;
  assertM (ZMODEM_MAX_BLOCK_SIZE <? ob_max out);;
  st ← gets status;
  if bool_decide (state st = ABORT \/ state st = COMPLETE) then mret tt
  else
    whenM (negb (bool_decide (input = []))) reset_timer;;
    (if negb (sending st) then zmodem_receive input else zmodem_send input);;
    n ← gets (fun s => ob_n (output s));
    whenM (0 <? n) reset_timer.

(** protocols.c: [protocol_process_data], for Zmodem.  A transfer that was aborted
    or ended is not called any more. *)
Definition protocol_process_data (input : list Z) (out : outbuf) : ZM unit :=
  run ← gets (fun s => transfer_running (shared s));
  if run : bool then zmodem input out else modify (fun s => s <| output := out |>).

Inductive ZMODEM_FLAVOR := Z_CRC16 | Z_CRC32.
#[global] Instance ZMODEM_FLAVOR_eq_dec : EqDecision ZMODEM_FLAVOR.
Proof. solve_decision. Defined.

Definition zmodem_start (file_list : option (list file_info)) (path : cstring) (send : bool)
    (flavor : ZMODEM_FLAVOR) : ZM bool :=
  assertM (if send then bool_decide (is_Some file_list) else bool_decide (file_list = None));;
  set_state ABORT;;
  modify (fun s => s <| upload_file_list := file_list |> <| upload_file_list_i := 0%nat |>);;
  on_status (fun st => st <| sending := send |>);;
  ok ← (if send then setup_for_next_file
        else
          modify (fun s => s <| download_path := Some path |>);;
          lift (set_transfer_stats_filename []);;
          lift (set_transfer_stats_pathname (Some path));;
          mret true);
  if negb ok then mret false
  else
    (if decide (flavor = Z_CRC32)
     then whenM (negb send) (on_status (fun st => st <| use_crc32 := true |>))
     else on_status (fun st => st <| use_crc32 := false |>));;
    set_state INIT;;
    on_stats (fun q => q <| block_size := ZMODEM_BLOCK_SIZE |>);;
    on_status (fun st => st <| confirmed_bytes := 0 |> <| last_confirmed_bytes := 0 |>
                            <| consecutive_errors := 0 |> <| reliable_link := true |>
                            <| blocks_ack_count := WINDOW_SIZE_RELIABLE |> <| streaming_zdata := false |>);;
    last_msg (EmptyString, []);;
    clear_packet_buffer;;
    modify (fun s => s <| outbound_packet ::= fun b => b <| ob_n := 0 |> |>);;
    reset_timer;;
    on_status (fun st => st <| timeout_count := 0 |>);;
    setup_encode_byte_map;;
    mret true.

End ZMachine.
