(* ===== verification/ZmodemView.v ===== *)
(** A view of the Zmodem machine for transfers without trouble: the components of
    the state that decide what happens next, and a program logic over them.

    [step m v Q] says that [m], from any state that is in order and looks like
    [v], ends in a state that is in order and looks like what [Q] asks for.  The
    statistics, the clock and the unused part of the buffers are left out. *)

From Stdlib Require Import ZArith Lia List Bool.
From stdpp Require Import base list numbers gmap strings.
From S2P Require Import Prelude Crc Stdio Protocols Zmodem ZmodemCodec ZmodemHeader ZmodemParse ZmodemData ZmodemMachine.
Import Zmodem ZMachine.

(** ** The view *)

Record zview := {
  v_disk : disk; v_state : STATE; v_prior : STATE; v_crc : bool; v_sending : bool;
  v_name : option cstring; v_full : cstring; v_size : Z; v_pos : Z; v_stream : option FILE;
  v_block : Z; v_ack : bool; v_wait : bool; v_streaming : bool; v_count : Z; v_reliable : bool;
  v_packet : zmodem_packet; v_in : list Z; v_out : list Z; v_room : Z;
  v_list : option (list file_info); v_next : nat; v_path : option cstring; v_cans : Z
}.
#[export] Instance eta_view : Eta zview := fun v =>
  {| v_disk := v_disk v; v_state := v_state v; v_prior := v_prior v; v_crc := v_crc v; v_sending := v_sending v;
     v_name := v_name v; v_full := v_full v; v_size := v_size v; v_pos := v_pos v; v_stream := v_stream v;
     v_block := v_block v; v_ack := v_ack v; v_wait := v_wait v; v_streaming := v_streaming v;
     v_count := v_count v; v_reliable := v_reliable v; v_packet := v_packet v; v_in := v_in v;
     v_out := v_out v; v_room := v_room v; v_list := v_list v; v_next := v_next v; v_path := v_path v;
     v_cans := v_cans v |}.

(** Updated views in constructor form. *)
Declare Reduction vproj := cbv beta iota zeta delta
  [field_update eta eta_view eta_packet fst snd
   v_disk v_state v_prior v_crc v_sending v_name v_full v_size v_pos v_stream v_block v_ack v_wait v_streaming
   v_count v_reliable v_packet v_in v_out v_room v_list v_next v_path v_cans
   ptype argument pkt_crc32 crc16 crc32 pdata data_n crc_buffer].
Definition view (s : zmodem_state) : zview :=
  {| v_disk := the_disk (shared s); v_state := state (status s); v_prior := prior_state (status s);
     v_crc := use_crc32 (status s); v_sending := sending (status s); v_name := file_name (status s);
     v_full := file_fullname (status s); v_size := file_size (status s); v_pos := file_position (status s);
     v_stream := file_stream (status s); v_block := status_block_size (status s); v_ack := ack_required (status s);
     v_wait := waiting_for_ack (status s); v_streaming := streaming_zdata (status s);
     v_count := blocks_ack_count (status s); v_reliable := reliable_link (status s); v_packet := packet s;
     v_in := pending s; v_out := ob_bytes (output s); v_room := ob_max (output s);
     v_list := upload_file_list s; v_next := upload_file_list_i s; v_path := download_path s;
     v_cans := can_count s |}.

(** Flags that ask for no escapes. *)
Definition plain (fl : Z) : Prop :=
  0 <= fl < 2 ^ 32 /\ has_flag fl TX_ESCAPE_CTRL = false /\ has_flag fl TX_ESCAPE_8BIT = false.

(** The state is in order: the buffers have their sizes, no escapes are asked for,
    no ten seconds pass or have passed, nothing waits in [outbound_packet].  Before the start is
    done ([running] is false) the timer and the map are not set. *)
Record base_of (running : bool) (s : zmodem_state) : Prop := {
  b_buffer : Z.of_nat (length (packet_buffer s)) = ZMODEM_MAX_BLOCK_SIZE;
  b_n : 0 <= packet_buffer_n s <= ZMODEM_MAX_BLOCK_SIZE;
  b_map : running = true -> encode_byte_map s = build_map 0;
  b_flags : plain (flags (status s));
  b_challenge : zmodem_zchallenge (options s) = false;
  b_escape : zmodem_escape_ctrl (options s) = false;
  b_clock : forall i j, clock (shared s) i - clock (shared s) j < 10;
  b_length : timeout_length (status s) = 10;
  b_timeouts : timeout_count (status s) = 0 /\ timeout_max (status s) = 5;
  b_timer : running = true -> exists k, timeout_begin (status s) = clock (shared s) k;
  b_output : buf_ok (output s);
  b_room : 2100 <= ob_max (output s);
  b_outbound : ob_n (outbound_packet s) = 0;
  b_data : Z.of_nat (length (pdata (packet s))) = ZMODEM_MAX_BLOCK_SIZE;
  b_check : length (crc_buffer (packet s)) = 5%nat
}.
Arguments b_buffer {_} _ _.
Arguments b_n {_} _ _.
Arguments b_map {_} _ _ _.
Arguments b_flags {_} _ _.
Arguments b_challenge {_} _ _.
Arguments b_escape {_} _ _.
Arguments b_clock {_} _ _.
Arguments b_length {_} _ _.
Arguments b_timeouts {_} _ _.
Arguments b_timer {_} _ _ _.
Arguments b_output {_} _ _.
Arguments b_room {_} _ _.
Arguments b_outbound {_} _ _.
Arguments b_data {_} _ _.
Arguments b_check {_} _ _.
Notation base := (base_of true).

(** ** The logic *)

Definition step_of (running : bool) {A} (m : ZM A) (v : zview) (Q : A -> zview -> Prop) : Prop :=
  forall s, base_of running s -> view s = v -> wp m s (fun a s' => base_of running s' /\ Q a (view s')).
Notation step := (step_of true).

Lemma view_eq (P : zview -> Prop) x y z : x = z -> y = z -> P y -> P x.
Proof. by intros -> ->. Qed.
(** [H] proves the goal once the views of both are in this form. *)
Ltac vexact H :=
  lazymatch goal with
  | |- step_of ?r ?m ?x ?Q =>
    lazymatch type of H with step_of _ _ ?y _ =>
      let z := eval vproj in x in refine (view_eq (fun w => step_of r m w Q) x y z (eq_refl z) (eq_refl z) H) end
  | |- ?Q ?a ?x =>
    lazymatch type of H with _ _ ?y =>
      let z := eval vproj in x in refine (view_eq (fun w => Q a w) x y z (eq_refl z) (eq_refl z) H) end
  end.

Lemma step_ret {R} {A} (a : A) v (Q : A -> zview -> Prop) : Q a v -> step_of R (mret a) v Q.
Proof. intros H s B <-. by apply wp_ret. Qed.

Lemma step_bind {R} {A B} (m : ZM A) (k : A -> ZM B) v (Q : B -> zview -> Prop) :
  step_of R m v (fun a v' => step_of R (k a) v' Q) -> step_of R (m ≫= k) v Q.
Proof.
  intros H s B0 V. apply wp_bind. eapply wp_mono; [by apply H|]. intros a s' [B1 H1]. by apply H1.
Qed.

Lemma step_mono {R} {A} (m : ZM A) v (Q Q' : A -> zview -> Prop) :
  step_of R m v Q -> (forall a v', Q a v' -> Q' a v') -> step_of R m v Q'.
Proof.
  intros H HQ s B V. eapply wp_mono; [by apply H|]. intros a s' [B' H']. split; [done|]. by apply HQ.
Qed.

Lemma step_gets {R} {A} (f : zmodem_state -> A) v (Q : A -> zview -> Prop) :
  (forall s, base_of R s -> view s = v -> Q (f s) v) -> step_of R (gets f) v Q.
Proof. intros H s B V. apply wp_gets. split; [done|]. rewrite V. by apply H. Qed.

Lemma step_get {R} v (Q : zmodem_state -> zview -> Prop) :
  (forall s, base_of R s -> view s = v -> Q s v) -> step_of R get v Q.
Proof. intros H s B V. apply wp_get. split; [done|]. rewrite V. by apply H. Qed.

Lemma step_modify {R} f v g (Q : unit -> zview -> Prop) :
  (forall s, base_of R s -> base_of R (f s)) -> (forall s, view (f s) = g (view s)) -> Q tt (g v) -> step_of R (modify f) v Q.
Proof. intros Hb Hv HQ s B <-. apply wp_modify. split; [by apply Hb|]. by rewrite Hv. Qed.

Lemma step_when {R} (b : bool) m v (Q : unit -> zview -> Prop) :
  (b = true -> step_of R m v Q) -> (b = false -> Q tt v) -> step_of R (whenM b m) v Q.
Proof. destruct b; cbn; intros H1 H2; [by apply H1|apply step_ret; by apply H2]. Qed.

Lemma step_assert {R} (b : bool) v (Q : unit -> zview -> Prop) : b = true -> Q tt v -> step_of R (assertM b) v Q.
Proof. intros -> HQ. by apply (step_ret tt). Qed.

Lemma step_nonnull {R} {A} (o : option A) a v (Q : A -> zview -> Prop) : o = Some a -> Q a v -> step_of R (nonnull o) v Q.
Proof. intros -> HQ. by apply (step_ret a). Qed.

(** A [modify] whose effect on the view is [g]. *)
Ltac keeps_base := intros ? []; split; done.
Ltac vmodify g := apply (step_modify _ _ g); [keeps_base|done|].

Lemma step_set_state {R} x v (Q : unit -> zview -> Prop) : Q tt (v <| v_state := x |>) -> step_of R (set_state x) v Q.
Proof. intros H. by vmodify (fun v => v <| v_state := x |>). Qed.

Lemma pending_empty s : packet_buffer_n s = 0 -> pending s = [].
Proof. unfold pending. by intros ->. Qed.

Lemma step_clear {R} v (Q : unit -> zview -> Prop) : Q tt (v <| v_in := [] |>) -> step_of R clear_packet_buffer v Q.
Proof.
  intros H. apply (step_modify _ _ (fun v => v <| v_in := [] |>)); [|done|done].
  intros ? []; split; try done; cbn; lia.
Qed.

(** Steps on the shared state that leave the disk and the clock alone. *)
Definition hushed {A} (m : M common A) : Prop :=
  forall c, wp m c (fun _ c' => the_disk c' = the_disk c /\ clock c' = clock c).

Lemma hushed_bind {A B} (m : M common A) (k : A -> M common B) :
  hushed m -> (forall a, hushed (k a)) -> hushed (m ≫= k).
Proof.
  intros Hm Hk c. apply wp_bind. eapply wp_mono; [apply Hm|]. intros a c1 [H1 H2].
  eapply wp_mono; [apply Hk|]. intros b c2 [H3 H4]. split; congruence.
Qed.

Lemma shared_view s c : the_disk c = the_disk (shared s) -> view (s <| shared := c |>) = view s.
Proof.
  intros H. unfold view. change (the_disk (shared (s <| shared := c |>))) with (the_disk c). by rewrite H.
Qed.

Lemma shared_base {R} s c : clock c = clock (shared s) -> base_of R s -> base_of R (s <| shared := c |>).
Proof.
  intros H []. split; try done; change (shared (s <| shared := c |>)) with c;
    change (status (s <| shared := c |>)) with (status s); by rewrite ?H.
Qed.

Lemma step_lift {R} {A} (m : M common A) v (Q : A -> zview -> Prop) :
  hushed m -> (forall a, Q a v) -> step_of R (lift m) v Q.
Proof.
  intros Hm HQ s B <-. apply wp_zlift. eapply wp_mono; [apply Hm|]. intros a c [H1 H2].
  split; [by apply shared_base|]. by rewrite shared_view.
Qed.

Lemma step_say {R} m v (Q : unit -> zview -> Prop) : Q tt v -> step_of R (say m) v Q.
Proof. intros H. apply step_lift; [done|by intros []]. Qed.
Lemma step_on_stats {R} f v (Q : unit -> zview -> Prop) : Q tt v -> step_of R (on_stats f) v Q.
Proof. intros H. apply step_lift; [done|by intros []]. Qed.
Lemma step_emit {R} e v (Q : unit -> zview -> Prop) : Q tt v -> step_of R (lift (emit e)) v Q.
Proof. intros H. apply step_lift; [done|by intros []]. Qed.
Lemma step_dirty {R} v (Q : unit -> zview -> Prop) : Q tt v -> step_of R dirty v Q.
Proof. intros H. apply step_lift; [done|by intros []]. Qed.

(** Changes of the status that the view does not show. *)
Lemma step_status_hidden {R} f v (Q : unit -> zview -> Prop) :
  (forall s, base_of R s -> base_of R (s <| status ::= f |>)) -> (forall s, view (s <| status ::= f |>) = view s) ->
  Q tt v -> step_of R (on_status f) v Q.
Proof. intros Hb Hv HQ. by apply (step_modify _ _ (fun v => v)). Qed.
Ltac hidden := apply step_status_hidden; [keeps_base|done|].

Lemma step_set_disk {R} d v (Q : unit -> zview -> Prop) :
  Q tt (v <| v_disk := d |>) -> step_of R (lift (modify (fun c => c <| the_disk := d |>))) v Q.
Proof. intros HQ s B <-. apply wp_zlift, wp_modify. split; [destruct B; by split|exact HQ]. Qed.

Lemma step_increment_blocks {R} v (Q : unit -> zview -> Prop) : Q tt v -> step_of R stats_increment_blocks v Q.
Proof.
  intros HQ. unfold stats_increment_blocks. apply step_bind, step_gets. intros st _ _.
  apply step_bind, step_on_stats, step_bind, step_dirty. by hidden.
Qed.

(** ** Time *)

Lemma step_reset_timer v (Q : unit -> zview -> Prop) : Q tt v -> step reset_timer v Q.
Proof.
  intros HQ s B <-. unfold reset_timer, time. apply wp_bind, wp_zlift, wp_bind, wp_gets, wp_bind, wp_modify, wp_ret, wp_modify.
  split; [|exact HQ]. destruct B. split; try done. by eexists.
Qed.

Lemma step_check_timeout v (Q : bool -> zview -> Prop) : Q false v -> step check_timeout v Q.
Proof.
  intros HQ s B <-. unfold check_timeout, time.
  apply wp_bind, wp_zlift, wp_bind, wp_gets, wp_bind, wp_modify, wp_ret, wp_bind, wp_gets.
  destruct (b_timer s B eq_refl) as [k Hk]. pose proof (b_clock s B (ticks (shared s)) k) as Hc.
  match goal with |- wp (if ?c then _ else _) _ _ => destruct c eqn:E end.
  { apply Z.leb_le in E. change (timeout_length (status s) <= clock (shared s) (ticks (shared s)) - timeout_begin (status s)) in E.
    rewrite (b_length s B), Hk in E. lia. }
  apply wp_ret. split; [|exact HQ]. by apply shared_base.
Qed.

(** ** Headers *)

Definition hex_type (type : Z) : bool :=
  (type =? P_ZRQINIT) || (type =? P_ZRINIT) || (type =? P_ZSINIT) || (type =? P_ZCHALLENGE) || (type =? P_ZRPOS).
(** A header without escapes; [u] is the width of the CRC. *)
Definition hframe (u : bool) (type arg : Z) : list Z :=
  if hex_type type then hex_header (header_bytes type arg) type
  else binary_header 0 u (header_bytes type arg).
Definition hcrc (u : bool) (type : Z) : bool := if hex_type type then false else u.

Lemma plain_map fl : plain fl -> build_map fl = build_map 0.
Proof.
  intros (_ & H1 & H2). unfold build_map. apply list_fmap_ext. intros i c _.
  rewrite !map_entry_flags, H1, H2. done.
Qed.

Lemma plain_encs fl l : plain fl -> encs fl l = encs 0 l.
Proof.
  intros (_ & H1 & H2). unfold encs. induction l as [|c l IH]; [done|]. cbn [flat_map]. rewrite IH. f_equal.
  unfold enc. by rewrite (map_entry_flags fl), (map_entry_flags 0), H1, H2.
Qed.

Lemma plain_hex st type :
  plain (flags st) -> type <> P_ZSINIT -> type <> P_ZCRC -> header_is_hex st type = hex_type type.
Proof.
  intros (_ & H1 & H2) Hs Hc. unfold header_is_hex, hex_type. rewrite H1, H2.
  rewrite (proj2 (Z.eqb_neq _ _) Hs), (proj2 (Z.eqb_neq _ _) Hc). cbn [andb orb]. by destruct (_ || _).
Qed.

Lemma plain_frame st type arg :
  plain (flags st) -> type <> P_ZSINIT -> type <> P_ZCRC ->
  header_frame st type arg = hframe (use_crc32 st) type arg.
Proof.
  intros Hp Hs Hc. unfold header_frame, hframe. rewrite plain_hex by done. unfold header_flags.
  rewrite (proj2 (Z.eqb_neq _ _) Hs). cbn [andb]. unfold binary_header. by rewrite !(plain_encs (flags st)).
Qed.

Lemma output_view s b :
  view (s <| output := b |>) = (view s) <| v_out := ob_bytes b |> <| v_room := ob_max b |>.
Proof. reflexivity. Qed.

Definition announced_as (u : bool) (type : Z) (p : zmodem_packet) : zmodem_packet :=
  p <| ptype := type |> <| pkt_crc32 := hcrc u type |> <| data_n := 0 |>.

Lemma step_build type arg v (Q : unit -> zview -> Prop) :
  type <> P_ZSINIT -> type <> P_ZCRC -> v_out v = [] ->
  Q tt (v <| v_packet ::= announced_as (v_crc v) type |> <| v_out := hframe (v_crc v) type arg |>) ->
  step (build_packet type arg) v Q.
Proof.
  intros Hs Hc Ho HQ s B <-. change (ob_bytes (output s) = []) in Ho.
  assert (Hn : ob_n (output s) = 0).
  { pose proof (length_ob_bytes _ (b_output s B)) as H. rewrite Ho in H. cbn in H. lia. }
  assert (Hr : ready s).
  { split; [split; [apply B|split; [done|pose proof (b_room s B); lia]]|by rewrite (b_map s B eq_refl), (plain_map (flags (status s))) by apply B|apply (b_flags s B)]. }
  apply wp_build_packet; [done|]. intros b' Hb' Hm He.
  rewrite plain_frame in He by (done || apply B).
  unfold announced. rewrite plain_hex by (done || apply B).
  split.
  - destruct B. split; try done. change (2100 <= ob_max b'). by rewrite Hm.
  - apply (post_eq (fun (_ : unit) => Q tt) tt _ _ HQ).
    rewrite (output_view (s <| packet := _ |>)), He, Hm. reflexivity.
Qed.

(** The packet of a header that was received. *)
Definition received (u : bool) (type arg : Z) : zmodem_packet :=
  let p := (line_packet (hcrc u type) type arg) <| argument := received_argument type arg |> in
  if type_has_data type then p <| data_n := 0 |> <| crc16 := 0 |> <| crc32 := compute_crc32 0 None |> else p.
Definition header_view (u : bool) (type arg : Z) (rest : list Z) (v : zview) : zview :=
  let v := v <| v_in := rest |> <| v_packet := received u type arg |> in
  if type_has_data type then v <| v_prior := v_state v |> <| v_state := ZDATA |> else v.

Lemma line_packet_sizes u type arg :
  pdata (line_packet u type arg) = pdata zero_packet /\ crc_buffer (line_packet u type arg) = crc_buffer zero_packet.
Proof. by destruct u. Qed.

Lemma pending_length s : base s -> Z.of_nat (length (pending s)) = packet_buffer_n s.
Proof. intros B. unfold pending. rewrite length_take. pose proof (b_buffer s B). pose proof (b_n s B). lia. Qed.

Lemma step_next_header u type arg rest v (Q : ZM_PARSE_PACKET -> zview -> Prop) :
  valid_type type = true -> type <> P_ZSINIT -> type <> P_ZCRC -> 0 <= arg < 2 ^ 32 ->
  v_in v = hframe u type arg ++ rest ->
  Q ZM_PP_OK (header_view u type arg rest v) -> step next_header v Q.
Proof.
  intros Hv Hs Hc Ha Hin HQ s B <-. change (pending s = hframe u type arg ++ rest) in Hin.
  pose proof (pending_length s B) as Hl. rewrite Hin, length_app in Hl.
  set (st := (status s) <| use_crc32 := u |>).
  assert (Hst : plain (flags st)) by apply B.
  assert (Hf : hframe u type arg = header_frame st type arg) by (by rewrite plain_frame).
  unfold next_header. apply wp_bind, wp_get. fold (pending s). rewrite Hin, Hf.
  apply wp_bind, wp_parse_line; [done|done|]. rewrite plain_hex by done. change (use_crc32 st) with u.
  fold (hcrc u type). rewrite <- Hf. apply wp_bind.
  set (n := Z.of_nat (length (hframe u type arg))) in *.
  set (s1 := header_received (hcrc u type) type arg s).
  assert (E1 : packet_buffer s1 = packet_buffer s) by (unfold s1, header_received; by destruct (type_has_data type)).
  assert (E2 : packet_buffer_n s1 = packet_buffer_n s) by (unfold s1, header_received; by destruct (type_has_data type)).
  assert (Hn : 0 < n).
  { unfold n, hframe. destruct (hex_type type); unfold hex_header, binary_header; rewrite length_app; cbn [length]; lia. }
  cbn [snd fst]. unfold discard_bytes. rewrite (proj2 (Z.ltb_lt _ _) Hn). cbn [whenM].
  apply wp_bind, wp_get. rewrite E2, E1. rewrite (proj2 (Z.ltb_ge _ _)) by lia.
  assert (Hrest : drop (Z.to_nat n) (take (Z.to_nat (packet_buffer_n s)) (packet_buffer s)) = rest).
  { fold (pending s). rewrite Hin. unfold n. rewrite Nat2Z.id. apply drop_app_length. }
  cbv zeta. rewrite Hrest. apply wp_modify, wp_ret.
  set (s2 := s1 <| packet_buffer ::= _ |> <| packet_buffer_n ::= _ |>).
  assert (F1 : packet_buffer s2 = blit (packet_buffer s) 0 rest) by (change (packet_buffer s2) with (blit (packet_buffer s1) 0 rest); by rewrite E1).
  assert (F2 : packet_buffer_n s2 = Z.of_nat (length rest)).
  { change (packet_buffer_n s2) with (packet_buffer_n s1 - n). rewrite E2. lia. }
  assert (F3 : pending s2 = rest) by (unfold pending; rewrite F1, F2, Nat2Z.id, blit_0; apply take_app_length).
  pose proof (b_buffer s B) as Hbuf. pose proof (b_n s B) as Hbn.
  assert (F4 : Z.of_nat (length (packet_buffer s2)) = ZMODEM_MAX_BLOCK_SIZE) by (rewrite F1, length_blit; lia).
  assert (F5 : 0 <= packet_buffer_n s2 <= ZMODEM_MAX_BLOCK_SIZE) by lia.
  destruct (line_packet_sizes (hcrc u type) type arg) as [P1 P2].
  assert (Hz : length (pdata zero_packet) = Z.to_nat ZMODEM_MAX_BLOCK_SIZE /\ length (crc_buffer zero_packet) = 5%nat) by done.
  split.
  - destruct B. unfold s2, s1, header_received in *. destruct (type_has_data type); split; try done;
      repeat match goal with |- context [pdata (packet ?x)] => change (pdata (packet x)) with (pdata (line_packet (hcrc u type) type arg)) end;
      repeat match goal with |- context [crc_buffer (packet ?x)] => change (crc_buffer (packet x)) with (crc_buffer (line_packet (hcrc u type) type arg)) end;
      rewrite ?P1, ?P2; try apply Hz; rewrite (proj1 Hz); by rewrite Z2Nat.id.
  - apply (post_eq (fun (_ : unit) => Q ZM_PP_OK) tt _ _ HQ). unfold view. rewrite F3.
    unfold s2, s1, header_received, header_view, received. destruct (type_has_data type); reflexivity.
Qed.

(** ** Waiting *)

Lemma hframe_length u type arg : (4 <= length (hframe u type arg))%nat.
Proof.
  unfold hframe. destruct (hex_type type); unfold hex_header, binary_header; rewrite !length_app; cbn [length]; [lia|].
  pose proof (length_encs 0 (header_bytes type arg)) as H. rewrite length_header in H. lia.
Qed.

Lemma at_in s v : view s = v -> pending s = v_in v.
Proof. by intros <-. Qed.

Lemma step_wait_header u type arg rest v garbled on_header on_timeout (Q : bool -> zview -> Prop) :
  valid_type type = true -> type <> P_ZSINIT -> type <> P_ZCRC -> 0 <= arg < 2 ^ 32 ->
  v_in v = hframe u type arg ++ rest ->
  step on_header (header_view u type arg rest v) Q -> step (wait_for garbled on_header on_timeout) v Q.
Proof.
  intros Hv Hs Hc Ha Hin HQ. unfold wait_for. apply step_bind, step_gets. intros s B V.
  pose proof (pending_length s B) as Hl. rewrite (at_in s v V), Hin, length_app in Hl.
  pose proof (hframe_length u type arg) as H4.
  rewrite (proj2 (Z.ltb_lt 0 _)) by lia. apply step_bind. by apply (step_next_header u type arg rest).
Qed.

Lemma step_wait_idle v garbled on_header on_timeout (Q : bool -> zview -> Prop) :
  v_in v = [] -> Q true v -> step (wait_for garbled on_header on_timeout) v Q.
Proof.
  intros Hin HQ. unfold wait_for. apply step_bind, step_gets. intros s B V.
  pose proof (pending_length s B) as Hl. rewrite (at_in s v V), Hin in Hl. cbn [length] in Hl.
  rewrite (proj2 (Z.ltb_ge 0 _)) by lia. apply step_bind, step_check_timeout. by apply step_ret.
Qed.

(** ** Input *)

(** The input goes into the buffer as far as there is room. *)
Lemma step_fill_part k input v (Q : list Z -> zview -> Prop) :
  Z.of_nat (length (v_in v)) + Z.of_nat k = ZMODEM_MAX_BLOCK_SIZE ->
  Q (drop k input) (v <| v_in := v_in v ++ take k input |>) -> step (fill_packet_buffer input) v Q.
Proof.
  intros Hk HQ s B <-. change (v_in (view s)) with (pending s) in *.
  pose proof (pending_length s B) as Hp. pose proof (b_buffer s B) as Hb. pose proof (b_n s B) as Hn.
  unfold fill_packet_buffer. apply wp_bind, wp_get. cbv zeta.
  replace (ZMODEM_MAX_BLOCK_SIZE - packet_buffer_n s) with (Z.of_nat k) by lia. rewrite Nat2Z.id.
  assert (Hnow : (if Z.of_nat k <? Z.of_nat (length input) then take k input else input) = take k input).
  { destruct (Z.ltb_spec (Z.of_nat k) (Z.of_nat (length input))); [done|]. symmetry. apply take_ge. lia. }
  assert (Hlen : (length (take k input) <= k)%nat) by (rewrite length_take; lia).
  rewrite Hnow. apply wp_bind, wp_memcpy; [lia|lia|]. apply wp_bind, wp_modify, wp_ret.
  replace (drop (length (take k input)) input) with (drop k input).
  2:{ rewrite length_take. destruct (Nat.le_ge_cases k (length input)); [by rewrite Nat.min_l|].
      rewrite Nat.min_r, !drop_ge by lia. done. }
  set (now := take k input) in *. set (s1 := s <| packet_buffer := _ |> <| packet_buffer_n ::= _ |>).
  assert (F : pending s1 = pending s ++ now).
  { unfold pending at 1. change (packet_buffer_n s1) with (Z.of_nat (length now) + packet_buffer_n s).
    change (packet_buffer s1) with (blit (packet_buffer s) (Z.to_nat (packet_buffer_n s)) now).
    unfold blit. fold (pending s). rewrite app_assoc. apply take_app_length'. rewrite length_app. lia. }
  split.
  - destruct B. split; try done.
    + change (packet_buffer s1) with (blit (packet_buffer s) (Z.to_nat (packet_buffer_n s)) now).
      rewrite length_blit; lia.
    + change (packet_buffer_n s1) with (Z.of_nat (length now) + packet_buffer_n s). lia.
  - apply (post_eq (fun (_ : unit) => Q (drop k input)) tt _ _ HQ). unfold view. rewrite F. reflexivity.
Qed.

Lemma step_fill input v (Q : list Z -> zview -> Prop) :
  Z.of_nat (length (v_in v)) + Z.of_nat (length input) <= ZMODEM_MAX_BLOCK_SIZE ->
  Q [] (v <| v_in := v_in v ++ input |>) -> step (fill_packet_buffer input) v Q.
Proof.
  intros Hl HQ. apply (step_fill_part (Z.to_nat (ZMODEM_MAX_BLOCK_SIZE - Z.of_nat (length (v_in v))))); [lia|].
  by rewrite take_ge, drop_ge by lia.
Qed.

(** ** Writing a subpacket *)

Lemma step_encode_output t v (Q : unit -> zview -> Prop) :
  bytes (packet_data (v_packet v)) ->
  Z.of_nat (length (v_out v)) + zdata_room (v_packet v) t <= v_room v ->
  Q tt (v <| v_out := v_out v ++ zdata_frame 0 (v_packet v) t |>) -> step (encode_output t) v Q.
Proof.
  intros Hd Hr HQ s B <-. change (v_packet (view s)) with (packet s) in *. change (v_out (view s)) with (ob_bytes (output s)) in *.
  pose proof (length_ob_bytes _ (b_output s B)) as Hl. change (v_room (view s)) with (ob_max (output s)) in *.
  unfold encode_output. apply wp_bind, wp_get. rewrite (b_map s B eq_refl). apply wp_on_output, wp_encode_zdata; [done|apply B|lia|].
  intros b' (Hb' & Hm & He). split.
  - destruct B. split; try done. change (2100 <= ob_max b'). by rewrite Hm.
  - apply (post_eq (fun (_ : unit) => Q tt) tt _ _ HQ). rewrite output_view, He, Hm. reflexivity.
Qed.

(** Changes of the packet, by name. *)
Definition with_crc (u : bool) (p : zmodem_packet) : zmodem_packet := p <| pkt_crc32 := u |>.
Definition with_data (xs : list Z) (p : zmodem_packet) : zmodem_packet := p <| pdata := xs |>.
Definition with_n (n : Z) (p : zmodem_packet) : zmodem_packet := p <| data_n := n |>.
Definition cleared (p : zmodem_packet) : zmodem_packet :=
  p <| data_n := 0 |> <| crc16 := 0 |> <| crc32 := compute_crc32 0 None |>.

Lemma step_right_crc v (Q : unit -> zview -> Prop) :
  Q tt (v <| v_packet ::= with_crc (v_crc v) |>) -> step right_crc v Q.
Proof.
  intros HQ. unfold right_crc. apply step_bind, step_gets. intros s B V.
  assert (E : use_crc32 (status s) = v_crc v) by (by rewrite <- V). rewrite E.
  by vmodify (fun w => w <| v_packet ::= with_crc (v_crc v) |>).
Qed.

Lemma step_put_data xs v (Q : unit -> zview -> Prop) :
  Z.of_nat (length xs) <= ZMODEM_MAX_BLOCK_SIZE ->
  (forall more, Q tt (v <| v_packet ::= with_data (xs ++ more) |>)) -> step (put_data xs) v Q.
Proof.
  intros Hl HQ s B <-. unfold put_data. pose proof (b_data s B) as Hd.
  apply wp_bind, wp_gets, wp_bind, wp_memcpy; [lia|lia|]. apply wp_modify. split.
  - destruct B. split; try done. cbn. rewrite length_blit; lia.
  - rewrite Z2Nat.inj_0, blit_0. exact (HQ (drop (length xs) (pdata (packet s)))).
Qed.

Lemma step_data_n n v (Q : unit -> zview -> Prop) :
  Q tt (v <| v_packet ::= with_n n |>) -> step (on_packet (fun p => p <| data_n := n |>)) v Q.
Proof. intros H. by vmodify (fun v => v <| v_packet ::= with_n n |>). Qed.

(** ** Taking a subpacket *)

(** A packet that collects a subpacket. *)
Definition collecting (u : bool) (p : zmodem_packet) : Prop := data_n p = 0 /\ crc16 p = 0 /\ pkt_crc32 p = u.

Lemma step_collect prior v (Q : unit -> zview -> Prop) :
  Q tt (v <| v_prior := prior |> <| v_state := ZDATA |>
          <| v_packet ::= cleared |>) ->
  step (collect_data prior) v Q.
Proof.
  intros HQ. unfold collect_data, reset_crc. apply step_bind.
  vmodify (fun v => v <| v_prior := prior |> <| v_state := ZDATA |>). apply step_bind, step_data_n.
  by vmodify (fun v => v <| v_packet ::= fun p => p <| crc16 := 0 |> <| crc32 := compute_crc32 0 None |> |>).
Qed.

(** The check bytes of a subpacket that is neither of ZSINIT nor damaged. *)
Definition good_check (u : bool) (data : list Z) (t : Z) (check : list Z) : Prop :=
  bytes check /\ length check = check_size u /\ check_ok u data t check = true.

Lemma good_check_sent p t :
  ptype p <> P_ZSINIT -> bytes (packet_data p) -> is_byte t ->
  good_check (pkt_crc32 p) (packet_data p) t (zdata_check p t).
Proof.
  intros Hp Hd Ht. pose proof (check_ok_sent p t Hd Ht) as Hok.
  assert (Hu : uses32 p = pkt_crc32 p).
  { unfold uses32. rewrite (proj2 (Z.eqb_neq _ _) Hp). apply andb_true_r. }
  rewrite Hu in Hok. split; [apply bytes_zdata_check|]. split; [|done].
  rewrite length_zdata_check. unfold check_len. rewrite (proj2 (Z.eqb_neq _ _) Hp), andb_true_r.
  by destruct (pkt_crc32 p).
Qed.

Lemma view_incoming u data t check rest s :
  base s -> v_in (view s) = sub_frame 0 data t check ++ rest -> collecting u (packet s) -> bytes data ->
  Z.of_nat (length data) < ZMODEM_MAX_BLOCK_SIZE -> is_crc_escape t = true -> good_check u data t check ->
  incoming 0 data t check rest s.
Proof.
  intros B Hin (H1 & H2 & <-) Hd Hl Ht (Hc1 & Hc2 & _). pose proof (b_buffer s B). pose proof (b_n s B).
  split; try done; try apply B; lia.
Qed.

(** The verdict on a good subpacket, and the rest of [receive_zdata] after it. *)
Lemma step_receive_verdict u data t check rest v (Q : bool -> zview -> Prop) :
  v_in v = sub_frame 0 data t check ++ rest -> collecting u (v_packet v) -> bytes data ->
  Z.of_nat (length data) < ZMODEM_MAX_BLOCK_SIZE -> is_crc_escape t = true -> good_check u data t check ->
  (forall q, packet_data q = data -> data_n q = Z.of_nat (length data) -> ptype q = ptype (v_packet v) ->
     pkt_crc32 q = u -> (exists more, pdata q = data ++ more) ->
     step (ended ← (if decide (v_prior v = ZRPOS_WAIT) then zdata_write (ends_frame t) (wants_ack t) else mret false);
           if (ended : bool) then mret false else zdata_next)
       (v <| v_in := rest |> <| v_packet := q |>) Q) ->
  step receive_zdata v Q.
Proof.
  intros Hin Hp Hd Hl Ht Hg HQ s B <-.
  pose proof (view_incoming u data t check rest s B Hin Hp Hd Hl Ht Hg) as Hi.
  destruct Hp as (P1 & P2 & P3). change (packet s) with (v_packet (view s)) in *.
  apply (wp_receive_verdict 0 data t check rest s _ Hi). intros q Q1 Q2 Q3 Q4 Q5 Q6 Q7. cbv zeta.
  change (packet s) with (v_packet (view s)). rewrite P3, (proj2 (proj2 Hg)).
  set (s1 := (decoded data t check rest s) <| packet := q |>).
  assert (F : pending s1 = rest) by (apply (pending_decoded 0 data t check rest s Hi)).
  specialize (HQ q Q1 Q2 Q3 (eq_trans Q4 P3) Q7).
  apply (HQ s1).
  - pose proof (ic_input _ _ _ _ _ _ Hi) as Hlen. apply (f_equal length) in Hlen.
    rewrite length_take, length_app in Hlen.
    destruct B. split; try done.
    + change (packet_buffer s1) with (blit (packet_buffer s) 0 rest). rewrite length_blit; lia.
    + change (packet_buffer_n s1) with (Z.of_nat (length rest)). lia.
    + change (packet s1) with q. by rewrite Q5.
    + change (packet s1) with q. by rewrite Q6.
  - unfold view. rewrite F. reflexivity.
Qed.

(** A receiver that collects data takes a block to the file. *)
Lemma step_receive_block u f data t check rest v (Q : bool -> zview -> Prop) :
  v_prior v = ZRPOS_WAIT -> v_state v = ZDATA -> v_stream v = Some f -> v_out v = [] ->
  v_in v = sub_frame 0 data t check ++ rest -> collecting u (v_packet v) -> bytes data ->
  Z.of_nat (length data) < ZMODEM_MAX_BLOCK_SIZE -> is_crc_escape t = true -> good_check u data t check ->
  (forall q, (v_crc v = u -> collecting u q) ->
     Q false (v <| v_in := rest |> <| v_packet := q |>
       <| v_disk := snd (fst (fwrite (v_disk v) f data)) |> <| v_stream := Some (snd (fwrite (v_disk v) f data)) |>
       <| v_pos := v_pos v + Z.of_nat (length data) |> <| v_block := Z.of_nat (length data) |>
       <| v_state := if ends_frame t then ZRPOS_WAIT else ZDATA |>
       <| v_out := if wants_ack t
                   then hframe (v_crc v) P_ZACK (big_to_little_endian (u32 (v_pos v + Z.of_nat (length data)))) else [] |>)) ->
  step receive_zdata v Q.
Proof.
  intros Hpr Hst Hf Ho Hin Hp Hd Hl Ht Hg HQ.
  apply (step_receive_verdict u data t check rest v); try done.
  intros q Q1 Q2 _ Q4 _. rewrite decide_True by done. apply step_bind. unfold zdata_write.
  apply step_bind, step_get. intros s B V.
  assert (Ef : file_stream (status s) = Some f) by (change (v_stream (view s) = Some f); by rewrite V).
  assert (Ed : the_disk (shared s) = v_disk v) by (change (v_disk (view s) = v_disk v); by rewrite V).
  assert (Ep : packet s = q) by (change (v_packet (view s) = q); by rewrite V).
  apply step_bind, (step_nonnull _ f); [done|]. rewrite Ed, Ep, Q1, Q2.
  destruct (fwrite (v_disk v) f data) as [[rc d'] f'] eqn:Hw. cbn [fst snd] in HQ. clear s B V Ef Ed Ep.
  apply step_bind, step_set_disk. cbv zeta. apply step_bind.
  vmodify (fun w => w <| v_stream := Some f' |> <| v_pos ::= Z.add (Z.of_nat (length data)) |> <| v_block := Z.of_nat (length data) |>).
  apply step_bind, step_on_stats, step_bind, step_increment_blocks, step_bind.
  vmodify (fun v => v <| v_packet ::= fun p => p <| data_n := 0 |> <| crc16 := 0 |> <| crc32 := compute_crc32 0 None |> |>).
  set (q' := q <| data_n := 0 |> <| crc16 := 0 |> <| crc32 := compute_crc32 0 None |>).
  rewrite (Z.add_comm (v_pos v)) in HQ.
  assert (Hfin : forall q2, (v_crc v = u -> collecting u q2) ->
    step ((if ends_frame t then set_state ZRPOS_WAIT else mret tt);; mret (ends_frame t))
      (v <| v_in := rest |> <| v_packet := q2 |> <| v_disk := d' |> <| v_stream := Some f' |>
         <| v_pos ::= Z.add (Z.of_nat (length data)) |> <| v_block := Z.of_nat (length data) |>
         <| v_out := if wants_ack t
                   then hframe (v_crc v) P_ZACK (big_to_little_endian (u32 (Z.of_nat (length data) + v_pos v))) else [] |>)
      (fun ended v' => step (if ended then mret false else zdata_next) v' Q)).
  { intros q2 H2. specialize (HQ q2 H2). destruct (ends_frame t).
    - apply step_bind, step_set_state, step_ret, step_ret. vexact HQ.
    - apply step_bind, step_ret, step_ret. unfold zdata_next. apply step_bind, step_get. intros s B V.
      assert (Ep : prior_state (status s) = ZRPOS_WAIT) by (change (v_prior (view s) = ZRPOS_WAIT); by rewrite V).
      rewrite decide_False by (by rewrite Ep). apply step_bind, step_set_state, step_ret. vexact HQ. }
  apply step_bind, step_gets. intros s B V.
  assert (Ep : file_position (status s) = Z.of_nat (length data) + v_pos v)
    by (change (v_pos (view s) = Z.of_nat (length data) + v_pos v); by rewrite V).
  rewrite Ep. clear s B V Ep. apply step_bind.
  destruct (wants_ack t); cbn [whenM].
  - apply step_build; [done|done|exact Ho|].
    assert (Hq : v_crc v = u -> collecting u (announced_as (v_crc v) P_ZACK q')) by (intros Hu; by split).
    specialize (Hfin _ Hq). vexact Hfin.
  - apply step_ret. assert (Hq : v_crc v = u -> collecting u q') by (intros _; by split).
    specialize (Hfin _ Hq). rewrite <- Ho in Hfin. vexact Hfin.
Qed.

(** ** The scan for CANs *)

(** The count after [l]; [None] when it reaches four. *)
Fixpoint cans (n : Z) (l : list Z) : option Z :=
  match l with
  | [] => Some n
  | b :: l => let n := if b =? C_CAN then n + 1 else 0 in if 4 <=? n then None else cans n l
  end.

Lemma cans_app l1 l2 n : cans n (l1 ++ l2) = match cans n l1 with Some n' => cans n' l2 | None => None end.
Proof.
  revert n. induction l1 as [|b l1 IH]; intros n; [done|]. cbn [app cans]. destruct (4 <=? _); [done|apply IH].
Qed.

Lemma cans_clear l n : Forall (fun b => b <> C_CAN) l -> l <> [] -> cans n l = Some 0.
Proof.
  intros H Hne. destruct H as [|b l Hb Hl]; [done|]. cbn [cans]. rewrite (proj2 (Z.eqb_neq _ _) Hb). cbn. clear Hne.
  induction Hl as [|c l Hc _ IH]; [done|]. cbn [cans]. by rewrite (proj2 (Z.eqb_neq _ _) Hc).
Qed.

Lemma cans_encs fl l n : bytes l -> l <> [] -> 0 <= n <= 1 -> cans n (encs fl l) = Some 0.
Proof.
  intros Hl. revert n. induction Hl as [|c l Hc _ IH]; intros n Hne Hn; [done|].
  rewrite encs_cons, cans_app.
  assert (E : cans n (enc fl c) = Some 0).
  { destruct (enc_cases fl c Hc) as [(-> & H & _)|(e & -> & _ & H & _)]; cbn [cans].
    - by rewrite (proj2 (Z.eqb_neq _ _) H).
    - rewrite Z.eqb_refl, (proj2 (Z.leb_gt 4 _)) by lia. by rewrite (proj2 (Z.eqb_neq _ _) H). }
  rewrite E. destruct l as [|c' l]; [done|]. apply IH; [done|lia].
Qed.

Lemma hexify_not_can l : Forall (fun b => b <> C_CAN) (hexify_string l).
Proof.
  assert (H : forall v, 0 <= v -> hex_digit v <> C_CAN).
  { intros v Hv. unfold hex_digit, C_CAN. destruct (v <? 10); lia. }
  induction l as [|b l IH]; [constructor|]. apply Forall_cons. split.
  { apply H. apply Z.shiftr_nonneg, Z.land_nonneg. by right. }
  apply Forall_cons. split; [|exact IH]. apply H, Z.land_nonneg. by right.
Qed.

Lemma cans_hframe u type arg : cans 0 (hframe u type arg) = Some 0.
Proof.
  pose proof (bytes_header type arg) as Hb. pose proof (length_header type arg) as Hl.
  unfold hframe. destruct (hex_type type).
  - unfold hex_header. rewrite cans_app. change (cans 0 [ZPAD; ZPAD; C_CAN; 66]) with (Some 0). cbv iota.
    apply cans_clear.
    + rewrite !Forall_app. split; [apply hexify_not_can|]. split; [apply hexify_not_can|].
      split; [by repeat constructor|]. destruct (xon_after type); by repeat constructor.
    + intros [H _]%app_eq_nil. apply (f_equal length) in H. by rewrite length_hexify, Hl in H.
  - unfold binary_header. rewrite cans_app.
    assert (E : cans 0 [ZPAD; C_CAN; if u then 67 else 65] = Some 0) by (by destruct u). rewrite E, cans_app.
    rewrite cans_encs; [|done|intros H; by rewrite H in Hl|lia]. apply cans_encs; [apply bytes_header_check| |lia].
    intros H. pose proof (length_header_check u (header_bytes type arg)) as Hc. rewrite H in Hc. by destruct u.
Qed.

Lemma step_scan_cans l : forall v n (Q : unit -> zview -> Prop),
  cans (v_cans v) l = Some n -> 0 <= v_cans v < 4 -> Q tt (v <| v_cans := n |>) -> step (scan_cans l) v Q.
Proof.
  induction l as [|b l IH]; intros v n Q Hc Hv HQ.
  - cbn in Hc. injection Hc as <-. apply step_ret. by destruct v.
  - cbn [scan_cans]. cbn [cans] in Hc.
    set (n1 := if b =? C_CAN then v_cans v + 1 else 0) in *.
    assert (Hn1 : 0 <= n1) by (unfold n1; destruct (b =? C_CAN); lia).
    assert (E1 : (if b =? C_CAN then i32 (v_cans v + 1) else 0) = n1).
    { unfold n1. destruct (b =? C_CAN); [|done]. apply i32_id. lia. }
    destruct (Z.leb_spec 4 n1) as [H4|H4]; [done|].
    apply step_bind, (step_modify _ _ (fun v => v <| v_cans ::= fun n => if b =? C_CAN then i32 (n + 1) else 0 |>));
      [keeps_base|done|].
    apply step_bind, step_gets. intros s B V.
    assert (En : can_count s = n1) by (etrans; [exact (f_equal v_cans V)|exact E1]).
    rewrite En, (proj2 (Z.leb_gt _ _) H4). cbn [whenM]. apply step_bind, step_ret.
    match goal with |- step _ ?w _ => set (v1 := w); assert (E2 : v_cans v1 = n1) by exact E1 end.
    apply (IH v1 n).
    + by rewrite E2.
    + lia.
    + vexact HQ.
Qed.

(** ** The loops *)

Lemma step_receive_turn k n input v (Q : unit -> zview -> Prop) :
  Z.of_nat (length (v_in v)) + Z.of_nat k = ZMODEM_MAX_BLOCK_SIZE ->
  step receive_state (v <| v_in := v_in v ++ take k input |>)
    (fun done v' => if done : bool then Q tt v' else step (receive_loop n (drop k input)) v' Q) ->
  step (receive_loop (S n) input) v Q.
Proof.
  intros Hl H. cbn [receive_loop]. apply step_bind, (step_fill_part k); [done|]. apply step_bind.
  eapply step_mono; [exact H|]. intros [] v' HQ; [by apply step_ret|done].
Qed.

Lemma step_send_turn n input v (Q : unit -> zview -> Prop) :
  Z.of_nat (length (v_in v)) + Z.of_nat (length input) <= ZMODEM_MAX_BLOCK_SIZE ->
  v_cans v = 0 -> cans 0 (v_in v ++ input) = Some 0 ->
  step send_state (v <| v_in := v_in v ++ input |>)
    (fun done v' => if done : bool then Q tt v' else step (send_loop n []) v' Q) ->
  step (send_loop (S n) input) v Q.
Proof.
  intros Hl H0 Hc H. cbn [send_loop]. apply step_bind, step_fill; [done|].
  set (v1 := v <| v_in := v_in v ++ input |>) in *. assert (E1 : v_cans v1 = 0) by exact H0.
  apply step_bind, step_get. intros s B V. fold (pending s).
  assert (Ep : pending s = v_in v ++ input) by exact (at_in s _ V). rewrite Ep.
  clear s B V Ep. apply step_bind, (step_scan_cans _ _ 0); [by rewrite E1|lia|].
  apply step_bind, step_gets. intros s B _. rewrite (b_outbound s B). change (0 <? 0) with false. cbv iota.
  apply step_bind, (step_mono _ _ (fun done v' => if done : bool then Q tt v' else step (send_loop n []) v' Q)).
  2: intros [] v' HQ; [by apply step_ret|done].
  replace (v1 <| v_cans := 0 |>) with v1 by (rewrite <- E1; by destruct v). exact H.
Qed.

Lemma step_zmodem input m v (Q : unit -> zview -> Prop) :
  v_state v <> ABORT -> v_state v <> COMPLETE -> 2100 <= m ->
  (forall n, (64 <= n)%nat ->
     step (if v_sending v then send_loop n input else receive_loop n input)
       (v <| v_out := [] |> <| v_room := m |>) Q) ->
  step (zmodem input (empty_outbuf m)) v Q.
Proof.
  intros H1 H2 Hm H. unfold zmodem.
  apply step_bind, (step_modify _ _ (fun v => v <| v_out := [] |> <| v_room := m |>)).
  { intros s []. split; try done. split; cbn; rewrite ?length_replicate; lia. }
  { done. }
  apply step_bind, step_assert.
  { apply Z.ltb_lt. change (ob_max (empty_outbuf m)) with m. unfold ZMODEM_MAX_BLOCK_SIZE. lia. }
  apply step_bind, step_gets. intros s B V.
  assert (Es : state (status s) = v_state v) by exact (f_equal v_state V).
  assert (Ed : sending (status s) = v_sending v) by exact (f_equal v_sending V).
  rewrite Es, Ed, bool_decide_eq_false_2 by tauto. clear s B V Es Ed.
  set (v0 := v <| v_out := [] |> <| v_room := m |>) in *.
  apply step_bind, step_when.
  1: intros _; apply step_reset_timer.
  2: intros _.
  all: apply step_bind, (step_mono _ _ Q).
  2, 4: intros [] v' HQ; apply step_bind, step_gets; intros s B V; apply step_when; intros _; [by apply step_reset_timer|done].
  all: destruct (v_sending v); cbn [negb]; unfold zmodem_send, zmodem_receive; apply step_bind, step_get;
    intros s B V; apply H; unfold loop_fuel; lia.
Qed.
