(* ===== verification/ZmodemReceiver.v ===== *)
(** The Zmodem receiver, one call of [zmodem] at a time, in a transfer without
    trouble. *)

From Stdlib Require Import ZArith Lia List Bool.
From stdpp Require Import base list numbers gmap strings.
From S2P Require Import Prelude Crc Stdio Protocols Zmodem ZmodemCodec ZmodemHeader ZmodemParse ZmodemData ZmodemMachine ZmodemView.
Import Zmodem ZMachine.

(** ** One turn *)

(** The turn of the receiver in the state [x]. *)
Lemma step_receive_part x k n input v (Q : unit -> zview -> Prop) :
  v_state v = x -> Z.of_nat (length (v_in v)) + Z.of_nat k = ZMODEM_MAX_BLOCK_SIZE -> (0 < n)%nat ->
  step (receive_switch x) (v <| v_in := v_in v ++ take k input |>)
    (fun done v' => if done : bool then Q tt v' else step (receive_loop (pred n) (drop k input)) v' Q) ->
  step (receive_loop n input) v Q.
Proof.
  intros Hx Hl Hn H. destruct n as [|n]; [lia|]. apply (step_receive_turn k); [done|].
  unfold receive_state. apply step_bind, step_gets. intros s _ V.
  by rewrite (eq_trans (f_equal v_state V) Hx : state (status s) = x).
Qed.

Lemma step_receive_at x n input v (Q : unit -> zview -> Prop) :
  v_state v = x -> Z.of_nat (length (v_in v)) + Z.of_nat (length input) <= ZMODEM_MAX_BLOCK_SIZE -> (0 < n)%nat ->
  step (receive_switch x) (v <| v_in := v_in v ++ input |>)
    (fun done v' => if done : bool then Q tt v' else step (receive_loop (pred n) []) v' Q) ->
  step (receive_loop n input) v Q.
Proof.
  intros Hx Hl Hn H. apply (step_receive_part x (Z.to_nat (ZMODEM_MAX_BLOCK_SIZE - Z.of_nat (length (v_in v))))); [done|lia|done|].
  by rewrite take_ge, drop_ge by lia.
Qed.

Lemma in_nil v : v <| v_in := v_in v ++ [] |> = v.
Proof. rewrite app_nil_r. by destruct v. Qed.

Lemma nil_fits v : v_in v = [] -> Z.of_nat (length (v_in v)) <= ZMODEM_MAX_BLOCK_SIZE.
Proof. intros ->. done. Qed.

(** A later turn has no new input. *)
Lemma step_receive_on x n v (Q : unit -> zview -> Prop) :
  v_state v = x -> Z.of_nat (length (v_in v)) <= ZMODEM_MAX_BLOCK_SIZE -> (0 < n)%nat ->
  step (receive_switch x) v
    (fun done v' => if done : bool then Q tt v' else step (receive_loop (pred n) []) v' Q) ->
  step (receive_loop n []) v Q.
Proof.
  intros Hx Hl Hn H. apply (step_receive_at x); [done|cbn [length]; lia|done|]. by rewrite in_nil.
Qed.

(** ** Opening the session *)

(** The options in a ZRINIT. *)
Definition offer (u : bool) : Z := if u then 0x23 else 0x03.

Lemma step_reset_crc v (Q : unit -> zview -> Prop) :
  (forall p, Q tt (v <| v_packet := p |>)) -> step reset_crc v Q.
Proof.
  intros H. unfold reset_crc.
  vmodify (fun v => v <| v_packet ::= fun p => p <| crc16 := 0 |> <| crc32 := compute_crc32 0 None |> |>). apply H.
Qed.

Lemma step_receive_zrinit v (Q : bool -> zview -> Prop) :
  v_out v = [] ->
  (forall p, Q false (v <| v_packet := p |> <| v_out := hframe (v_crc v) P_ZRINIT (offer (v_crc v)) |>
                        <| v_state := ZRINIT_WAIT |> <| v_in := [] |>)) ->
  step receive_zrinit v Q.
Proof.
  intros Ho HQ. unfold receive_zrinit. apply step_bind, step_get. intros s B V.
  rewrite (f_equal v_crc V : use_crc32 (status s) = v_crc v), (b_escape s B). cbv zeta.
  match goal with |- context [build_packet P_ZRINIT ?o] => set (fl := o) end.
  assert (Ef : fl = offer (v_crc v)) by (unfold fl; by destruct (v_crc v)). rewrite Ef.
  apply step_bind, (step_modify _ _ (fun v => v)); [|done|].
  { intros s' []. split; try done. by destruct (v_crc v). }
  apply step_bind, step_build; [done|done|done|]. apply step_bind, step_set_state, step_bind, step_clear, step_ret.
  set (p := announced_as (v_crc v) P_ZRINIT (v_packet v)). specialize (HQ p). vexact HQ.
Qed.

(** The first call: ZRINIT goes out. *)
Lemma receiver_begins m v (Q : unit -> zview -> Prop) :
  v_state v = INIT -> v_sending v = false -> v_in v = [] -> 2100 <= m ->
  (forall p, Q tt (v <| v_packet := p |> <| v_room := m |> <| v_out := hframe (v_crc v) P_ZRINIT (offer (v_crc v)) |>
                     <| v_state := ZRINIT_WAIT |> <| v_in := [] |>)) ->
  step (zmodem [] (empty_outbuf m)) v Q.
Proof.
  intros Hst Hs Hin Hm HQ. apply step_zmodem; [by rewrite Hst|by rewrite Hst|done|]. intros n Hn. rewrite Hs.
  pose proof (nil_fits v Hin) as Hl.
  apply (step_receive_on INIT); [done|done|lia|]. cbn [receive_switch]. unfold receive_init.
  apply step_bind, step_get. intros s B _. rewrite (b_challenge s B). clear s B.
  apply step_bind, step_say, step_bind, step_set_state, step_bind, step_reset_crc. intros p1. apply step_ret.
  apply (step_receive_on ZRINIT); [done|exact Hl|lia|]. cbn [receive_switch].
  apply step_receive_zrinit; [done|]. intros p2.
  apply (step_receive_on ZRINIT_WAIT); [done|by apply nil_fits|lia|]. cbn [receive_switch]. unfold receive_zrinit_wait.
  apply step_wait_idle; [done|]. specialize (HQ p2). vexact HQ.
Qed.

(** *** Asking again *)

Lemma hframe_bound u type arg : (length (hframe u type arg) <= 21)%nat.
Proof.
  pose proof (length_header type arg) as Hl. unfold hframe. destruct (hex_type type).
  - unfold hex_header. rewrite !length_app, !length_hexify, Hl. destruct (xon_after type); cbn; lia.
  - unfold binary_header. rewrite !length_app. pose proof (length_encs 0 (header_bytes type arg)) as H1.
    pose proof (length_encs 0 (header_check u (header_bytes type arg))) as H2.
    pose proof (length_header_check u (header_bytes type arg)) as Hc. rewrite Hl in H1. rewrite Hc in H2.
    cbn [length]. destruct u; lia.
Qed.

(** The turn that finds a header in the input. *)
Lemma step_receive_header x garbled on_header on_timeout u type arg rest n input v (Q : unit -> zview -> Prop) :
  v_state v = x -> receive_switch x = wait_for garbled on_header on_timeout ->
  v_in v = [] -> input = hframe u type arg ++ rest -> Z.of_nat (length input) <= ZMODEM_MAX_BLOCK_SIZE -> (0 < n)%nat ->
  valid_type type = true -> type <> P_ZSINIT -> type <> P_ZCRC -> 0 <= arg < 2 ^ 32 ->
  step on_header (header_view u type arg rest v)
    (fun done v' => if done : bool then Q tt v' else step (receive_loop (pred n) []) v' Q) ->
  step (receive_loop n input) v Q.
Proof.
  intros Hx Hw Hin -> Hl Hn Hv Hs Hc Ha H. apply (step_receive_at x); [done|rewrite Hin; cbn [length]; lia|done|].
  rewrite Hw. apply (step_wait_header u type arg rest); [done..|change (v_in _) with (v_in v ++ hframe u type arg ++ rest); by rewrite Hin|].
  unfold header_view in *. destruct (type_has_data type); vexact H.
Qed.

(** ZRQINIT is answered with another ZRINIT. *)
Lemma receiver_asked m v u (Q : unit -> zview -> Prop) :
  v_state v = ZRINIT_WAIT -> v_sending v = false -> v_in v = [] -> 2100 <= m ->
  (forall p, Q tt (v <| v_packet := p |> <| v_room := m |> <| v_out := hframe (v_crc v) P_ZRINIT (offer (v_crc v)) |>
                     <| v_state := ZRINIT_WAIT |> <| v_in := [] |>)) ->
  step (zmodem (hframe u P_ZRQINIT 0) (empty_outbuf m)) v Q.
Proof.
  intros Hst Hs Hin Hm HQ. apply step_zmodem; [by rewrite Hst|by rewrite Hst|done|]. intros n Hn. rewrite Hs.
  pose proof (hframe_bound u P_ZRQINIT 0) as Hb.
  eapply (step_receive_header ZRINIT_WAIT _ _ _ u P_ZRQINIT 0 []);
    [exact Hst|reflexivity|exact Hin|by rewrite app_nil_r|unfold ZMODEM_MAX_BLOCK_SIZE; lia|lia|done..|].
  apply step_bind, step_get. intros s B V.
  assert (E : ptype (packet s) = P_ZRQINIT) by (etrans; [exact (f_equal (fun v => ptype (v_packet v)) V)|by destruct u]).
  rewrite E. cbn [Z.eqb P_ZRQINIT P_ZFIN]. clear s B V E.
  apply step_bind, step_say, step_bind, step_set_state, step_bind, step_reset_crc. intros p1. apply step_ret.
  apply (step_receive_on ZRINIT); [done|by apply nil_fits|lia|]. cbn [receive_switch].
  apply step_receive_zrinit; [done|]. intros p2.
  apply (step_receive_on ZRINIT_WAIT); [done|by apply nil_fits|lia|]. cbn [receive_switch]. unfold receive_zrinit_wait.
  apply step_wait_idle; [done|]. specialize (HQ p2). vexact HQ.
Qed.

(** ** A new file *)

Lemma skip_while_all f l r : Forall (fun c => f c = true) l -> (forall c r', r = c :: r' -> f c = false) ->
  snd (skip_while f (l ++ r)) = r.
Proof.
  intros Hl Hr. induction Hl as [|c l Hc _ IH].
  - destruct r as [|c r]; [done|]. cbn [app skip_while]. by rewrite (Hr c r).
  - cbn [app skip_while]. rewrite Hc. destruct (skip_while f (l ++ r)) as [k r']. exact IH.
Qed.

Lemma scan_number_printed b n r :
  2 <= b <= 10 -> 0 <= n < 2 ^ 64 -> (forall c l, r = c :: l -> ~ 48 <= c < 48 + b) ->
  scan_number b (print_base b n ++ r) = Some (n, r).
Proof.
  intros Hb Hn Hr. unfold scan_number. destruct (print_base_cons b n Hb) as (c & l & E & Hc & Hall).
  pose proof (scan_print_tail b n r Hb Hn Hr) as Hscan.
  assert (Hsk : skip_space (print_base b n ++ r) = print_base b n ++ r).
  { rewrite E. cbn [app skip_space]. unfold is_space. repeat (rewrite (proj2 (Z.eqb_neq _ _)) by lia).
    rewrite (proj2 (Z.leb_gt c 13)) by lia. by rewrite andb_false_r. }
  assert (Hsg : scan_sign (print_base b n ++ r) = (1, print_base b n ++ r)).
  { rewrite E. cbn [app scan_sign]. by rewrite !(proj2 (Z.eqb_neq _ _)) by lia. }
  rewrite Hsk, Hsg.
  assert (Hd : (fun c => (48 <=? c) && (c <? 48 + b)) c = true) by lia. cbv beta in Hd.
  rewrite skip_while_all.
  - rewrite E in *. cbn [app] in *. rewrite Hd, Hscan. f_equal. f_equal. lia.
  - eapply Forall_impl; [exact Hall|]. intros c' H'. cbv beta in H'. lia.
  - intros c' r' ->. specialize (Hr c' r' eq_refl). lia.
Qed.

Lemma skip_space_scan b s : scan_number b (32 :: s) = scan_number b s.
Proof. done. Qed.

(** The text of a ZFILE subpacket after the name. *)
Definition file_text (size mtime : Z) : list Z :=
  print_int size ++ [32] ++ print_base 8 (u64 mtime) ++ str " 0 0 1 " ++ print_int size.

Lemma print_int_base n : 0 <= n < 2 ^ 31 -> print_int n = print_base 10 n.
Proof. intros H. unfold print_int. rewrite i32_id by lia. by rewrite (proj2 (Z.ltb_ge _ 0)) by lia. Qed.

Lemma file_text_nonzero size mtime : 0 <= size < 2 ^ 31 -> Forall (fun c => c <> 0) (file_text size mtime).
Proof.
  intros Hs. unfold file_text. rewrite !print_int_base by done.
  assert (H : forall b n, 2 <= b <= 10 -> Forall (fun c => c <> 0) (print_base b n)).
  { intros b n Hb. destruct (print_base_cons b n Hb) as (c & l & _ & _ & Hl). eapply Forall_impl; [exact Hl|]. cbn. lia. }
  assert (Hc : Forall (fun c => c <> 0) (str " 0 0 1 ")) by (apply (bool_decide_unpack _); by vm_compute).
  rewrite !Forall_app. split; [apply H; lia|]. split; [by repeat constructor|]. split; [apply H; lia|].
  split; [exact Hc|apply H; lia].
Qed.

(** The fields of the ZFILE data, read back. *)
Lemma step_file_information name size mtime more v (Q : unit -> zview -> Prop) :
  pdata (v_packet v) = name ++ 0 :: file_text size mtime ++ 0 :: more ->
  Forall (fun c => c <> 0) name -> 0 <= size < 2 ^ 31 ->
  Q tt (v <| v_name := Some name |> <| v_size := size |>) -> step file_information v Q.
Proof.
  intros Hp Hn Hs HQ. unfold file_information. apply step_bind, step_gets. intros s B V.
  rewrite (eq_trans (f_equal (fun v => pdata (v_packet v)) V) Hp : pdata (packet s) = _). clear s B V.
  pose proof (file_text_nonzero size mtime Hs) as Ht.
  rewrite c_str_app by done. cbv zeta.
  assert (Hd : drop (length name + 1) (name ++ 0 :: file_text size mtime ++ 0 :: more) = file_text size mtime ++ 0 :: more).
  { rewrite (cons_middle 0), app_assoc, drop_app_length'; [done|]. rewrite length_app. done. }
  rewrite Hd, c_str_app by done. rewrite bool_decide_eq_false_2.
  2:{ rewrite !length_app. cbn [length]. lia. }
  apply step_bind. vmodify (fun v => v <| v_name := Some name |>).
  unfold file_text at 1. rewrite print_int_base by done.
  rewrite scan_number_printed by (try lia; intros c l [= <- _]; lia).
  apply step_bind. vmodify (fun v => v <| v_size := u32 size |>). rewrite u32_id by lia.
  cbn [app]. rewrite skip_space_scan.
  assert (Hm : 0 <= u64 mtime < 2 ^ 64) by (apply Z.mod_pos_bound; reflexivity).
  rewrite scan_number_printed; [|lia|done|intros c l [= <- _]; lia].
  hidden. exact HQ.
Qed.

Lemma step_set_fullname name v (Q : unit -> zview -> Prop) :
  Z.of_nat (length name) < FILENAME_SIZE -> Q tt (v <| v_full := name |>) -> step (set_fullname name) v Q.
Proof.
  intros Hl HQ. unfold set_fullname. rewrite (proj2 (Z.ltb_lt _ _) Hl).
  by vmodify (fun v => v <| v_full := name |>).
Qed.

Lemma step_download_name path name v (Q : list Z -> zview -> Prop) :
  v_path v = Some path -> v_name v = Some name -> Q (path ++ [SLASH] ++ name) v -> step download_name v Q.
Proof.
  intros Hp Hn HQ. unfold download_name. apply step_bind, step_gets. intros s _ V.
  rewrite (eq_trans (f_equal v_path V) Hp : download_path s = Some path). clear s V.
  apply step_bind, (step_nonnull _ path); [done|]. apply step_bind, step_gets. intros s _ V.
  rewrite (eq_trans (f_equal v_name V) Hn : file_name (status s) = Some name).
  apply step_bind, (step_nonnull _ name); [done|]. by apply step_ret.
Qed.

Lemma step_stats_new_file {R} name size v (Q : unit -> zview -> Prop) : Q tt v -> step_of R (stats_new_file name size) v Q.
Proof.
  intros HQ. unfold stats_new_file. apply step_bind, step_on_stats, step_bind. hidden.
  apply step_bind, step_lift; [done|]. intros []. apply step_bind, step_on_stats.
  apply step_bind, step_lift; [done|]. intros []. apply step_bind, step_lift; [done|]. intros [].
  apply step_bind, step_on_stats, step_bind, step_dirty, step_bind, step_lift; [done|]. intros t.
  apply step_bind, step_on_stats, step_bind, step_gets. intros st _ _. by apply step_emit.
Qed.

(** A name on the disk that is not taken and can be written. *)
Definition free_name (d : disk) (full : cstring) : Prop :=
  d_files d !! full = None /\ full ∉ d_readonly d /\ full ∉ d_nostat d.

Lemma fseek_end_created d full : snd (fseek_end (d <| d_files ::= <[full := []]> |>) (opened full) 0) = opened full.
Proof.
  unfold fseek_end, f_size, f_data. change (d_files (d <| d_files ::= <[full := []]> |>)) with (<[full := []]> (d_files d)).
  change (f_name (opened full)) with full. by rewrite lookup_insert_eq.
Qed.

(** [receive_zfile] creates the file. *)
Lemma step_receive_zfile path name size mtime more v (Q : bool -> zview -> Prop) :
  let full := path ++ [SLASH] ++ name in
  v_path v = Some path -> pdata (v_packet v) = name ++ 0 :: file_text size mtime ++ 0 :: more ->
  Forall (fun c => c <> 0) name -> 0 <= size < 2 ^ 31 -> Z.of_nat (length full) < FILENAME_SIZE ->
  free_name (v_disk v) full ->
  Q false (v <| v_name := Some name |> <| v_size := size |> <| v_full := full |> <| v_pos := 0 |> <| v_state := ZRPOS |>
             <| v_disk := (v_disk v) <| d_files ::= <[full := []]> |> |> <| v_stream := Some (opened full) |>) ->
  step receive_zfile v Q.
Proof.
  intros full Hpath Hp Hn Hs Hl (F1 & F2 & F3) HQ. unfold receive_zfile.
  apply step_bind, (step_file_information name size mtime more); [done..|].
  apply step_bind. unfold choose_file. apply step_bind, (step_download_name path name); [done|done|]. fold full.
  apply step_bind, step_set_fullname; [done|]. apply step_bind, step_get. intros s _ V.
  rewrite (f_equal v_disk V : the_disk (shared s) = v_disk v). clear s V.
  assert (Hstat : stat (v_disk v) full = Stat_enoent) by (unfold stat; by rewrite decide_False, F1).
  rewrite Hstat. apply step_bind. vmodify (fun v => v <| v_pos := 0 |>).
  apply step_bind, step_say, step_bind, step_set_state, step_ret.
  apply step_bind. unfold open_file. apply step_bind, step_get. intros s _ V.
  rewrite (f_equal v_disk V : the_disk (shared s) = v_disk v), (f_equal v_full V : file_fullname (status s) = full).
  clear s V. cbv zeta iota. unfold fopen_wb. rewrite decide_False by done. cbv beta iota.
  apply step_bind, step_set_disk. rewrite fseek_end_created.
  apply step_bind. vmodify (fun v => v <| v_stream := Some (opened full) |>). apply step_ret.
  cbn [negb]. apply step_bind, step_gets. intros s _ _. apply step_bind, step_stats_new_file, step_bind, step_on_stats, step_ret.
  vexact HQ.
Qed.

Lemma step_receive_zrpos v (Q : bool -> zview -> Prop) :
  v_out v = [] ->
  (forall p, Q false (v <| v_packet := p |> <| v_out := hframe (v_crc v) P_ZRPOS (u32 (v_pos v)) |>
                        <| v_state := ZRPOS_WAIT |> <| v_in := [] |>)) ->
  step receive_zrpos v Q.
Proof.
  intros Ho HQ. unfold receive_zrpos. apply step_bind, step_gets. intros s _ V.
  rewrite (f_equal v_pos V : file_position (status s) = v_pos v). clear s V.
  apply step_bind, step_build; [done|done|done|]. apply step_bind, step_set_state, step_bind, step_clear, step_ret.
  specialize (HQ (announced_as (v_crc v) P_ZRPOS (v_packet v))). vexact HQ.
Qed.

(** A file announced and taken: the data of the ZFILE subpacket. *)
Definition file_data (name : cstring) (size mtime : Z) : list Z := name ++ 0 :: file_text size mtime ++ [0].
Definition zfile_frame (u : bool) (data check : list Z) : list Z :=
  hframe u P_ZFILE 0 ++ sub_frame 0 data ZCRCW check.

Lemma collecting_received u type arg : type = P_ZFILE \/ type = P_ZDATA -> collecting (hcrc u type) (received u type arg).
Proof. by intros [-> | ->]; destruct u. Qed.

Lemma receiver_takes_file u m path name size mtime check v (Q : unit -> zview -> Prop) :
  let full := path ++ [SLASH] ++ name in let data := file_data name size mtime in
  v_state v = ZRINIT_WAIT -> v_sending v = false -> v_in v = [] -> 2100 <= m -> v_path v = Some path ->
  bytes data -> good_check u data ZCRCW check -> Z.of_nat (length (zfile_frame u data check)) <= ZMODEM_MAX_BLOCK_SIZE ->
  Forall (fun c => c <> 0) name -> 0 <= size < 2 ^ 31 -> Z.of_nat (length full) < FILENAME_SIZE ->
  free_name (v_disk v) full ->
  (forall p, Q tt (v <| v_prior := ZRINIT_WAIT |> <| v_name := Some name |> <| v_size := size |> <| v_full := full |> <| v_pos := 0 |> <| v_state := ZRPOS_WAIT |>
             <| v_disk := (v_disk v) <| d_files ::= <[full := []]> |> |> <| v_stream := Some (opened full) |>
             <| v_packet := p |> <| v_out := hframe (v_crc v) P_ZRPOS 0 |> <| v_in := [] |> <| v_room := m |>)) ->
  step (zmodem (zfile_frame u data check) (empty_outbuf m)) v Q.
Proof.
  intros full data Hst Hs Hin Hm Hpath Hd Hg Hl Hn Hsize Hfull Hfree HQ.
  apply step_zmodem; [by rewrite Hst|by rewrite Hst|done|]. intros n Hn64. rewrite Hs.
  eapply (step_receive_header ZRINIT_WAIT _ _ _ u P_ZFILE 0);
    [exact Hst|reflexivity|exact Hin|reflexivity|exact Hl|lia|done..|].
  apply step_bind, step_get. intros s _ V.
  assert (E : ptype (packet s) = P_ZFILE) by (etrans; [exact (f_equal (fun v => ptype (v_packet v)) V)|by destruct u]).
  rewrite E. cbn [Z.eqb Pos.eqb P_ZFIN P_ZRQINIT P_ZSINIT P_ZCOMMAND P_ZFILE]. clear s V E.
  apply step_bind, step_say, step_bind, step_collect, step_ret.
  assert (Hframe : Z.of_nat (length (sub_frame 0 data ZCRCW check)) <= ZMODEM_MAX_BLOCK_SIZE)
    by (unfold zfile_frame in Hl; rewrite length_app in Hl; lia).
  assert (Hdata : Z.of_nat (length data) < ZMODEM_MAX_BLOCK_SIZE).
  { unfold sub_frame in Hframe. rewrite !length_app in Hframe. pose proof (length_encs 0 data). cbn [length] in Hframe. lia. }
  apply (step_receive_on ZDATA); [done|exact Hframe|lia|]. cbn [receive_switch].
  apply (step_receive_verdict u data ZCRCW check []); [by rewrite app_nil_r|by destruct u|exact Hd|exact Hdata|done|exact Hg|].
  intros q Q1 Q2 Q3 Q4 [more Q5]. apply step_bind.
  rewrite decide_False by done. apply step_ret. unfold zdata_next. apply step_bind, step_get. intros s _ V.
  rewrite (f_equal v_prior V : prior_state (status s) = ZRINIT_WAIT), (f_equal v_packet V : packet s = q).
  assert (Et : ptype q = P_ZFILE) by (rewrite Q3; by destruct u).
  rewrite decide_True, Et by done. clear s V. cbv zeta. cbn [Z.eqb Pos.eqb P_ZFILE].
  apply step_bind, step_set_state, step_ret.
  apply (step_receive_on ZFILE); [done|by apply nil_fits|lia|]. cbn [receive_switch].
  apply (step_receive_zfile path name size mtime more); [done| |done|done|done|exact Hfree|].
  { change (pdata q = name ++ 0 :: file_text size mtime ++ 0 :: more). rewrite Q5. unfold data, file_data.
    rewrite <- app_assoc. cbn [app]. rewrite <- app_assoc. done. }
  apply (step_receive_on ZRPOS); [done|by apply nil_fits|lia|]. cbn [receive_switch].
  apply step_receive_zrpos; [done|]. intros p.
  apply (step_receive_on ZRPOS_WAIT); [done|by apply nil_fits|lia|]. cbn [receive_switch]. unfold receive_zrpos_wait.
  apply step_wait_idle; [done|]. specialize (HQ p). vexact HQ.
Qed.

(** ** The data of the file *)

(** A disk with the bytes [got] saved under [full]. *)
Definition saved (d : disk) (full : cstring) (got : list Z) : disk :=
  d <| d_files ::= <[full := got]> |> <| d_space ::= fun z => z - Z.of_nat (length got) |>.

(** A stream at the end of a file of [n] bytes. *)
Definition at_end (full : cstring) (n : Z) : FILE := (opened full) <| f_pos := n |>.

Lemma fwrite_saved d full got data :
  Z.of_nat (length (got ++ data)) <= d_space d ->
  fwrite (saved d full got) (at_end full (Z.of_nat (length got))) data =
    (Z.of_nat (length data), saved d full (got ++ data), at_end full (Z.of_nat (length (got ++ data)))).
Proof.
  intros Hs. rewrite length_app in Hs. rewrite (fwrite_append _ _ got).
  - f_equal. f_equal. unfold saved. destruct d. unfold field_update; cbn in *. f_equal.
    + by rewrite insert_insert_eq.
    + rewrite length_app. lia.
  - apply lookup_insert_eq.
  - done.
  - destruct d; cbn in *. lia.
Qed.

(** A receiver that has the bytes [got] of the file [full]; [d] was the disk
    before, [x] is ZRPOS_WAIT between frames and ZDATA in one. *)
Record taking (u : bool) (d : disk) (path full name : cstring) (got : list Z) (x : STATE) (v : zview) : Prop := {
  tk_state : v_state v = x;
  tk_sending : v_sending v = false;
  tk_in : v_in v = [];
  tk_crc : v_crc v = u;
  tk_name : v_name v = Some name;
  tk_pos : v_pos v = Z.of_nat (length got);
  tk_stream : v_stream v = Some (at_end full (Z.of_nat (length got)));
  tk_disk : v_disk v = saved d full got;
  tk_path : v_path v = Some path;
  tk_data : x = ZDATA -> v_prior v = ZRPOS_WAIT /\ collecting u (v_packet v)
}.

(** What goes back for a block. *)
Definition block_answer (u : bool) (t : Z) (pos : Z) : list Z :=
  if wants_ack t then hframe u P_ZACK (big_to_little_endian pos) else [].

(** In ZDATA without input. *)
Lemma step_receive_nothing u v (Q : bool -> zview -> Prop) :
  v_in v = [] -> collecting u (v_packet v) -> Q true v -> step receive_zdata v Q.
Proof.
  intros Hin (Hn & _) HQ s B V. pose proof (pending_length s B) as Hl.
  rewrite (at_in s v V), Hin in Hl. cbn [length] in Hl.
  assert (Ep : pending s = []) by (by rewrite (at_in s v V)). unfold pending in Ep.
  rewrite <- V in Hn. change (data_n (packet s) = 0) in Hn.
  unfold receive_zdata, decode_zdata_bytes. apply wp_bind, wp_bind, wp_get. cbv zeta. rewrite Ep, Hn, <- Hl.
  apply wp_bind, wp_assert; [done|]. cbn [zdata_scan negb]. apply wp_ret. apply wp_bind, wp_gets.
  rewrite <- Hl. change (0 <? Z.of_nat 0) with false. cbn [whenM]. apply wp_bind, wp_ret, wp_ret. by rewrite V.
Qed.

(** A turn of the receiver that has a block in its buffer. *)
Lemma receiver_block u d path full name got data t check k v (Q : unit -> zview -> Prop) :
  v_in v = sub_frame 0 data t check -> taking u d path full name got ZDATA (v <| v_in := [] |>) -> v_out v = [] -> (0 < k)%nat ->
  bytes data -> Z.of_nat (length data) < ZMODEM_MAX_BLOCK_SIZE -> is_crc_escape t = true -> good_check u data t check ->
  Z.of_nat (length (got ++ data)) < 2 ^ 32 -> Z.of_nat (length (got ++ data)) <= d_space d ->
  (forall v', taking u d path full name (got ++ data) (if ends_frame t then ZRPOS_WAIT else ZDATA) v' ->
     v_out v' = block_answer u t (Z.of_nat (length (got ++ data))) -> Q tt v') ->
  step receive_zdata v (fun done v' => if done : bool then Q tt v' else step (receive_loop k []) v' Q).
Proof.
  intros Hin [T1 T2 T3 T4 T5 T6 T7 T8 T10p T9] Ho Hk Hd Hl Ht Hg H32 Hs HQ. destruct (T9 eq_refl) as [T10 T11].
  change (v_disk v = saved d full got) in T8.
  apply (step_receive_block u (at_end full (Z.of_nat (length got))) data t check []); [exact T10|exact T1|exact T7|exact Ho|by rewrite app_nil_r|exact T11|done..|].
  intros q Hq. specialize (Hq T4). rewrite T8, fwrite_saved by done. cbn [fst snd].
  assert (Hpos : v_pos v + Z.of_nat (length data) = Z.of_nat (length (got ++ data))).
  { rewrite length_app. change (v_pos v = Z.of_nat (length got)) in T6. lia. }
  rewrite Hpos, u32_id by lia. rewrite (T4 : v_crc v = u).
  set (v1 := v <| v_in := [] |> <| v_packet := q |> <| v_disk := saved d full (got ++ data) |>
    <| v_stream := Some (at_end full (Z.of_nat (length (got ++ data)))) |> <| v_pos := Z.of_nat (length (got ++ data)) |>
    <| v_block := Z.of_nat (length data) |> <| v_state := if ends_frame t then ZRPOS_WAIT else ZDATA |>
    <| v_out := block_answer u t (Z.of_nat (length (got ++ data))) |>).
  assert (HT : taking u d path full name (got ++ data) (if ends_frame t then ZRPOS_WAIT else ZDATA) v1) by (by split).
  specialize (HQ v1 HT eq_refl).
  match goal with |- step _ ?w _ => replace w with v1 by reflexivity end.
  destruct HT as [T1' T2' T3' T4' T5' T6' T7' T8' T10p' T9'].
  destruct (ends_frame t).
  - apply (step_receive_on ZRPOS_WAIT); [done|by apply nil_fits|done|]. cbn [receive_switch]. unfold receive_zrpos_wait.
    by apply step_wait_idle.
  - apply (step_receive_on ZDATA); [done|by apply nil_fits|done|]. cbn [receive_switch].
    by apply (step_receive_nothing u).
Qed.

Lemma take_app_beyond {A} (n : nat) (l1 l2 : list A) : (length l1 <= n)%nat -> take n (l1 ++ l2) = l1 ++ take (n - length l1) l2.
Proof. intros H. by rewrite take_app, take_ge. Qed.
Lemma drop_app_beyond {A} (n : nat) (l1 l2 : list A) : (length l1 <= n)%nat -> drop n (l1 ++ l2) = drop (n - length l1) l2.
Proof. intros H. by rewrite drop_app, drop_ge. Qed.

(** A block that continues a frame. *)
Lemma receiver_continues u d path full name got data t check m v (Q : unit -> zview -> Prop) :
  taking u d path full name got ZDATA v -> 2100 <= m ->
  bytes data -> Z.of_nat (length data) < ZMODEM_MAX_BLOCK_SIZE -> is_crc_escape t = true -> good_check u data t check ->
  Z.of_nat (length (sub_frame 0 data t check)) <= ZMODEM_MAX_BLOCK_SIZE ->
  Z.of_nat (length (got ++ data)) < 2 ^ 32 -> Z.of_nat (length (got ++ data)) <= d_space d ->
  (forall v', taking u d path full name (got ++ data) (if ends_frame t then ZRPOS_WAIT else ZDATA) v' ->
     v_out v' = block_answer u t (Z.of_nat (length (got ++ data))) -> Q tt v') ->
  step (zmodem (sub_frame 0 data t check) (empty_outbuf m)) v Q.
Proof.
  intros T Hm Hd Hl Ht Hg Hf H32 Hs HQ. destruct T as [T1 T2 T3 T4 T5 T6 T7 T8 T10p T9].
  apply step_zmodem; [by rewrite T1|by rewrite T1|done|]. intros n Hn. rewrite T2.
  apply (step_receive_at ZDATA); [done|change (v_in _) with (v_in v); rewrite T3; cbn [length]; lia|lia|]. cbn [receive_switch].
  eapply (receiver_block u d path full name got data t check); [|by split|done|lia|done..].
  change (v_in v ++ sub_frame 0 data t check = sub_frame 0 data t check). by rewrite T3.
Qed.

(** A block that begins a frame: the header and the block may not fit the buffer
    at once. *)
Lemma receiver_starts u d path full name got data t check pos m v (Q : unit -> zview -> Prop) :
  taking u d path full name got ZRPOS_WAIT v -> 2100 <= m -> 0 <= pos < 2 ^ 32 ->
  bytes data -> Z.of_nat (length data) < ZMODEM_MAX_BLOCK_SIZE -> is_crc_escape t = true -> good_check u data t check ->
  Z.of_nat (length (sub_frame 0 data t check)) <= ZMODEM_MAX_BLOCK_SIZE ->
  Z.of_nat (length (got ++ data)) < 2 ^ 32 -> Z.of_nat (length (got ++ data)) <= d_space d ->
  (forall v', taking u d path full name (got ++ data) (if ends_frame t then ZRPOS_WAIT else ZDATA) v' ->
     v_out v' = block_answer u t (Z.of_nat (length (got ++ data))) -> Q tt v') ->
  step (zmodem (hframe u P_ZDATA pos ++ sub_frame 0 data t check) (empty_outbuf m)) v Q.
Proof.
  intros T Hm Hp Hd Hl Ht Hg Hf H32 Hs HQ. destruct T as [T1 T2 T3 T4 T5 T6 T7 T8 T10p T9].
  pose proof (hframe_bound u P_ZDATA pos) as Hb.
  apply step_zmodem; [by rewrite T1|by rewrite T1|done|]. intros n Hn. rewrite T2.
  set (h := hframe u P_ZDATA pos) in *. set (f := sub_frame 0 data t check) in *.
  set (k := Z.to_nat ZMODEM_MAX_BLOCK_SIZE).
  assert (Hk : Z.of_nat k = ZMODEM_MAX_BLOCK_SIZE) by done.
  apply (step_receive_part ZRPOS_WAIT k); [done|change (v_in _) with (v_in v); rewrite T3; cbn [length]; lia|lia|].
  assert (Hkh : (length h <= k)%nat) by (unfold ZMODEM_MAX_BLOCK_SIZE in Hk; lia).
  rewrite take_app_beyond, drop_app_beyond by done. set (j := (k - length h)%nat).
  cbn [receive_switch]. unfold receive_zrpos_wait.
  apply (step_wait_header u P_ZDATA pos (take j f)); [done..|change (v_in v ++ h ++ take j f = h ++ take j f); by rewrite T3|].
  apply step_bind, step_get. intros s _ V.
  assert (E : ptype (packet s) = P_ZDATA) by (etrans; [exact (f_equal (fun v => ptype (v_packet v)) V)|by destruct u]).
  rewrite E. cbn [Z.eqb Pos.eqb P_ZEOF P_ZDATA]. clear s V E.
  apply step_bind, step_say, step_bind, step_collect, step_ret.
  assert (Hj : (length (take j f) + length (drop j f) = length f)%nat) by (rewrite <- length_app; by rewrite take_drop).
  match goal with |- step _ ?w _ => set (v1 := w) end.
  assert (Hin : v_in v1 = take j f) by done.
  apply (step_receive_at ZDATA); [done|rewrite Hin; lia|lia|]. cbn [receive_switch].
  eapply (receiver_block u d path full name got data t check); [| |done|lia|done..].
  - change (v_in v1 ++ drop j f = f). by rewrite Hin, take_drop.
  - split; try done. intros _. split; [done|]. by apply (collecting_received u P_ZDATA pos); right.
Qed.

(** ** The end of the file and of the session *)

Lemma step_assert_name name v (Q : unit -> zview -> Prop) log :
  v_name v = Some name ->
  Q tt (v <| v_name := None |> <| v_stream := None |>) -> step (drop_file log) v Q.
Proof.
  intros Hn HQ. unfold drop_file. apply step_bind, step_emit, step_bind, step_gets. intros s _ V.
  rewrite (eq_trans (f_equal v_name V) Hn : file_name (status s) = Some name).
  apply step_bind, step_assert; [by apply bool_decide_eq_true_2|].
  by vmodify (fun v => v <| v_name := None |> <| v_stream := None |>).
Qed.

(** ZEOF with the size of what was received closes the file. *)
Lemma receiver_ends_file u d path full name got m v (Q : unit -> zview -> Prop) :
  taking u d path full name got ZRPOS_WAIT v -> 2100 <= m -> Z.of_nat (length got) < 2 ^ 32 ->
  (forall v', v_state v' = ZRINIT_WAIT -> v_sending v' = false -> v_in v' = [] -> v_crc v' = u -> v_path v' = Some path ->
     v_disk v' = saved d full got -> v_out v' = hframe u P_ZRINIT 0 -> Q tt v') ->
  step (zmodem (hframe u P_ZEOF (Z.of_nat (length got))) (empty_outbuf m)) v Q.
Proof.
  intros [T1 T2 T3 T4 T5 T6 T7 T8 T10p T9] Hm H32 HQ.
  pose proof (hframe_bound u P_ZEOF (Z.of_nat (length got))) as Hb.
  apply step_zmodem; [by rewrite T1|by rewrite T1|done|]. intros n Hn. rewrite T2.
  eapply (step_receive_header ZRPOS_WAIT _ _ _ u P_ZEOF (Z.of_nat (length got)) []);
    [exact T1|reflexivity|exact T3|by rewrite app_nil_r|unfold ZMODEM_MAX_BLOCK_SIZE; lia|lia|done..|lia|].
  apply step_bind, step_get. intros s _ V.
  assert (E : ptype (packet s) = P_ZEOF) by (etrans; [exact (f_equal (fun v => ptype (v_packet v)) V)|by destruct u]).
  rewrite E. cbn [Z.eqb Pos.eqb P_ZEOF]. clear s V E. unfold receive_zeof.
  apply step_bind, step_on_stats, step_bind, step_say, step_bind, step_get. intros s _ V.
  assert (Ea : argument (packet s) = Z.of_nat (length got)) by (etrans; [exact (f_equal (fun v => argument (v_packet v)) V)|by destruct u]).
  rewrite Ea, (eq_trans (f_equal v_pos V) T6 : file_position (status s) = _), Z.eqb_refl,
    (eq_trans (f_equal v_stream V) T7 : file_stream (status s) = _). clear s V Ea.
  apply step_bind; eapply step_nonnull; [done|]. apply step_bind. unfold set_times. apply step_bind, step_gets. intros s _ _.
  apply step_emit, step_bind, (step_assert_name name); [exact T5|].
  apply step_bind, step_build; [done|done|done|]. apply step_bind, step_say, step_bind, step_set_state, step_ret.
  apply (step_receive_on ZRINIT_WAIT); [done|by apply nil_fits|lia|]. cbn [receive_switch]. unfold receive_zrinit_wait.
  apply step_wait_idle; [done|]. by apply HQ.
Qed.

Lemma step_stop x v (Q : unit -> zview -> Prop) :
  (forall name stream path l, Q tt (v <| v_name := name |> <| v_stream := stream |> <| v_path := path |> <| v_list := l |>)) ->
  step (stop_file_transfer x) v Q.
Proof.
  intros HQ. unfold stop_file_transfer. apply step_bind, step_gets. intros s _ _. apply step_bind, step_when; intros _.
  - unfold zmodem_stop. apply step_bind, step_get. intros s' _ _. cbn [orb]. apply step_bind, step_ret, step_bind.
    vmodify (fun v => v <| v_stream := None |> <| v_name := None |>). vmodify (fun v => v <| v_path := None |>).
    apply step_bind, step_lift; [done|]. intros []. vmodify (fun v => v <| v_list := None |>).
    specialize (HQ None None None None). vexact HQ.
  - apply step_bind, step_lift; [done|]. intros []. vmodify (fun v => v <| v_list := None |>).
    specialize (HQ (v_name v) (v_stream v) (v_path v) None). vexact HQ.
Qed.

Lemma step_complete e v (Q : unit -> zview -> Prop) :
  (forall name stream path l, Q tt (v <| v_state := COMPLETE |> <| v_name := name |> <| v_stream := stream |> <| v_path := path |> <| v_list := l |>)) ->
  step (complete e) v Q.
Proof.
  intros HQ. unfold complete. apply step_bind, step_set_state, step_bind, step_say, step_bind, step_stop.
  intros name stream path l. apply step_bind, step_lift; [done|]. intros t. apply step_bind, step_on_stats, step_emit. apply HQ.
Qed.

(** ZFIN is answered with ZFIN and ends the session. *)
Lemma receiver_finishes u m v (Q : unit -> zview -> Prop) :
  v_state v = ZRINIT_WAIT -> v_sending v = false -> v_in v = [] -> v_crc v = u -> 2100 <= m ->
  (forall v', v_state v' = COMPLETE -> v_disk v' = v_disk v -> v_out v' = hframe u P_ZFIN 0 -> Q tt v') ->
  step (zmodem (hframe u P_ZFIN 0) (empty_outbuf m)) v Q.
Proof.
  intros Hst Hs Hin Hu Hm HQ. pose proof (hframe_bound u P_ZFIN 0) as Hb.
  apply step_zmodem; [by rewrite Hst|by rewrite Hst|done|]. intros n Hn. rewrite Hs.
  eapply (step_receive_header ZRINIT_WAIT _ _ _ u P_ZFIN 0 []);
    [exact Hst|reflexivity|exact Hin|by rewrite app_nil_r|unfold ZMODEM_MAX_BLOCK_SIZE; lia|lia|done..|].
  apply step_bind, step_get. intros s _ V.
  assert (E : ptype (packet s) = P_ZFIN) by (etrans; [exact (f_equal (fun v => ptype (v_packet v)) V)|by destruct u]).
  rewrite E. cbn [Z.eqb Pos.eqb P_ZFIN]. clear s V E.
  apply step_bind, step_say, step_bind, step_build; [done|done|done|]. apply step_bind, step_set_state, step_ret.
  apply (step_receive_on ZFIN_WAIT); [done|by apply nil_fits|lia|]. cbn [receive_switch].
  apply step_bind, step_complete. intros name stream path l. apply step_ret. apply HQ; [done|done|].
  change (hframe (v_crc v) P_ZFIN 0 = hframe u P_ZFIN 0). by rewrite Hu.
Qed.
