(* ===== verification/ZmodemSender.v ===== *)
(** The Zmodem sender, one call of [zmodem] at a time, in a transfer without
    trouble. *)

From Stdlib Require Import ZArith Lia List Bool.
From stdpp Require Import base list numbers gmap strings.
From S2P Require Import Prelude Crc Stdio Protocols Zmodem ZmodemCodec ZmodemHeader ZmodemParse ZmodemData ZmodemMachine ZmodemView ZmodemReceiver.
Import Zmodem ZMachine.

(** ** One turn *)

Lemma step_send_at x n input v (Q : unit -> zview -> Prop) :
  v_state v = x -> Z.of_nat (length (v_in v)) + Z.of_nat (length input) <= ZMODEM_MAX_BLOCK_SIZE -> (0 < n)%nat ->
  v_cans v = 0 -> cans 0 (v_in v ++ input) = Some 0 ->
  step (send_switch x) (v <| v_in := v_in v ++ input |>)
    (fun done v' => if done : bool then Q tt v' else step (send_loop (pred n) []) v' Q) ->
  step (send_loop n input) v Q.
Proof.
  intros Hx Hl Hn H0 Hc H. destruct n as [|n]; [lia|]. apply step_send_turn; [done..|].
  unfold send_state. apply step_bind, step_gets. intros s _ V.
  by rewrite (eq_trans (f_equal v_state V) Hx : state (status s) = x).
Qed.

(** A turn with nothing in the buffer. *)
Lemma step_send_on x n v (Q : unit -> zview -> Prop) :
  v_state v = x -> v_in v = [] -> (0 < n)%nat -> v_cans v = 0 ->
  step (send_switch x) v
    (fun done v' => if done : bool then Q tt v' else step (send_loop (pred n) []) v' Q) ->
  step (send_loop n []) v Q.
Proof.
  intros Hx Hi Hn H0 H. apply (step_send_at x); [done|rewrite Hi; cbn; unfold ZMODEM_MAX_BLOCK_SIZE; lia|done|done|by rewrite Hi|].
  by rewrite in_nil.
Qed.

(** The turn that finds a header in the input. *)
Lemma step_send_header x garbled on_header on_timeout u type arg n v (Q : unit -> zview -> Prop) :
  v_state v = x -> send_switch x = wait_for garbled on_header on_timeout ->
  v_in v = [] -> (0 < n)%nat -> v_cans v = 0 ->
  valid_type type = true -> type <> P_ZSINIT -> type <> P_ZCRC -> 0 <= arg < 2 ^ 32 ->
  step on_header (header_view u type arg [] v)
    (fun done v' => if done : bool then Q tt v' else step (send_loop (pred n) []) v' Q) ->
  step (send_loop n (hframe u type arg)) v Q.
Proof.
  intros Hx Hw Hin Hn H0 Hv Hs Hc Ha H. pose proof (hframe_bound u type arg) as Hb.
  apply (step_send_at x); [done|rewrite Hin; cbn [length]; unfold ZMODEM_MAX_BLOCK_SIZE; lia|done|done| |].
  { rewrite Hin. apply cans_hframe. }
  rewrite Hw. apply (step_wait_header u type arg []); [done..| |].
  { change (v_in v ++ hframe u type arg = hframe u type arg ++ []). by rewrite Hin, app_nil_r. }
  unfold header_view in *. destruct (type_has_data type); vexact H.
Qed.

(** The header a handler waits for, in the packet. *)
Lemma received_type u type arg v s :
  view s = header_view u type arg [] v -> ptype (packet s) = type.
Proof.
  intros V. etrans; [exact (f_equal (fun v => ptype (v_packet v)) V)|]. unfold header_view, received.
  destruct (line_packet_fields (hcrc u type) type arg) as (H & _). by destruct (type_has_data type).
Qed.
Lemma received_arg u type arg v s :
  type <> P_ZSINIT -> view s = header_view u type arg [] v -> argument (packet s) = arg.
Proof.
  intros Ht V. etrans; [exact (f_equal (fun v => argument (v_packet v)) V)|]. unfold header_view, received, received_argument.
  rewrite (proj2 (Z.eqb_neq _ _) Ht). by destruct (type_has_data type).
Qed.

Lemma hframe_hex u u' type arg : hex_type type = true -> hframe u type arg = hframe u' type arg.
Proof. intros H. unfold hframe. by rewrite H. Qed.

(** ** Opening the session *)

Lemma step_send_zheader type arg next v (Q : bool -> zview -> Prop) :
  type <> P_ZSINIT -> type <> P_ZCRC -> v_out v = [] ->
  (forall p, Q false (v <| v_packet := p |> <| v_out := hframe (v_crc v) type arg |> <| v_state := next |> <| v_in := [] |>)) ->
  step (send_header type arg next) v Q.
Proof.
  intros Hs Hc Ho HQ. unfold send_header. apply step_bind, step_build; [done|done|done|].
  apply step_bind, step_set_state, step_bind, step_clear, step_ret.
  specialize (HQ (announced_as (v_crc v) type (v_packet v))). vexact HQ.
Qed.

(** The first call: the ZRINIT that came is thrown away, ZRQINIT goes out. *)
Lemma sender_begins u arg m v (Q : unit -> zview -> Prop) :
  v_state v = INIT -> v_sending v = true -> v_in v = [] -> v_cans v = 0 -> 2100 <= m ->
  (forall p, Q tt (v <| v_packet := p |> <| v_room := m |> <| v_out := hframe (v_crc v) P_ZRQINIT 0 |>
                     <| v_state := ZRQINIT_WAIT |> <| v_in := [] |>)) ->
  step (zmodem (hframe u P_ZRINIT arg) (empty_outbuf m)) v Q.
Proof.
  intros Hst Hs Hin H0 Hm HQ. apply step_zmodem; [by rewrite Hst|by rewrite Hst|done|]. intros n Hn. rewrite Hs.
  pose proof (hframe_bound u P_ZRINIT arg) as Hb.
  apply (step_send_at INIT); [done|change (v_in _) with (v_in v); rewrite Hin; cbn [length]; unfold ZMODEM_MAX_BLOCK_SIZE; lia|lia|done| |].
  { change (v_in _) with (v_in v). rewrite Hin. apply cans_hframe. }
  cbn [send_switch]. apply step_bind, step_set_state, step_bind, step_say, step_ret.
  apply (step_send_at ZRQINIT); [done| |lia|done| |].
  { change (v_in _) with (v_in v ++ hframe u P_ZRINIT arg). rewrite Hin. cbn [length app]. unfold ZMODEM_MAX_BLOCK_SIZE. lia. }
  { change (v_in _) with (v_in v ++ hframe u P_ZRINIT arg). rewrite Hin, app_nil_r. apply cans_hframe. }
  cbn [send_switch]. apply step_send_zheader; [done|done|done|]. intros p.
  apply (step_send_on ZRQINIT_WAIT); [done|done|lia|done|]. cbn [send_switch]. unfold send_zrqinit_wait.
  apply step_wait_idle; [done|]. specialize (HQ p). vexact HQ.
Qed.

(** *** The options of the receiver *)

Lemma has_flag_lor a b c : Z.land b c = 0 -> has_flag (Z.lor a b) c = has_flag a c.
Proof. intros H. unfold has_flag. by rewrite Z.land_lor_distr_l, H, Z.lor_0_r. Qed.

Lemma plain_lor fl bit :
  plain fl -> 0 <= bit < 2 ^ 32 -> Z.land bit TX_ESCAPE_CTRL = 0 -> Z.land bit TX_ESCAPE_8BIT = 0 -> plain (Z.lor fl bit).
Proof.
  intros (H1 & H2 & H3) Hb B1 B2. split; [|by rewrite !has_flag_lor].
  split; [apply Z.lor_nonneg; lia|]. apply (bounded_by_bits _ 32); [done|]. intros i Hi.
  rewrite Z.lor_spec, (testbit_high fl 32), (testbit_high bit 32) by done. done.
Qed.

Lemma step_take_flag bit v (Q : unit -> zview -> Prop) :
  (Z.land (argument (v_packet v)) bit =? 0) = true \/
  (0 <= bit < 2 ^ 32 /\ Z.land bit TX_ESCAPE_CTRL = 0 /\ Z.land bit TX_ESCAPE_8BIT = 0) ->
  Q tt v -> step (take_flag bit) v Q.
Proof.
  intros H HQ. unfold take_flag. apply step_bind, step_gets. intros s _ V.
  rewrite (f_equal v_packet V : packet s = v_packet v). apply step_when; intros Hf; [|done].
  destruct H as [H|(B0 & B1 & B2)]; [unfold has_flag in Hf; by rewrite H in Hf|].
  apply step_status_hidden; [|done|done]. intros s' []. split; try done. by apply plain_lor.
Qed.

Lemma step_take_options {A} u arg (rest : ZM A) v (Q : A -> zview -> Prop) :
  v_packet v = received u P_ZRINIT arg -> (arg = offer true \/ arg = offer false) ->
  step rest v Q ->
  step (take_flag TX_ESCAPE_CTRL;; take_flag TX_ESCAPE_8BIT;; take_flag TX_CAN_FULL_DUPLEX;;
        take_flag TX_CAN_OVERLAP_IO;; take_flag TX_CAN_BREAK;; take_flag TX_CAN_DECRYPT;; take_flag TX_CAN_LZW;;
        take_flag TX_CAN_CRC32;; rest) v Q.
Proof.
  intros Hp Ho H.
  assert (E : argument (v_packet v) = arg) by (rewrite Hp; by destruct u).
  do 2 (apply step_bind, step_take_flag; [left; rewrite E; by destruct Ho as [-> | ->]|]).
  do 6 (apply step_bind, step_take_flag; [by right|]). exact H.
Qed.

Lemma step_setup_map v (Q : unit -> zview -> Prop) : Q tt v -> step setup_encode_byte_map v Q.
Proof.
  intros HQ. unfold setup_encode_byte_map. apply (step_modify _ _ (fun v => v)); [|done|done].
  intros s []. split; try done. intros _. change (build_map (flags (status s)) = build_map 0). by apply plain_map.
Qed.

(** ZRINIT is taken: the options are those of the receiver. *)
Lemma step_send_zinit u v (Q : bool -> zview -> Prop) :
  v_in v = hframe u P_ZRINIT (offer u) -> (u = false -> v_crc v = false) ->
  (forall p, Q false (v <| v_packet := p |> <| v_in := [] |> <| v_crc := u |> <| v_state := ZSINIT |>)) ->
  step send_zrqinit_wait v Q.
Proof.
  intros Hin Hc HQ. unfold send_zrqinit_wait.
  apply (step_wait_header u P_ZRINIT (offer u) []); [done..|by destruct u|by rewrite app_nil_r|].
  apply step_bind, step_get. intros s _ V.
  rewrite (received_type u P_ZRINIT (offer u) v s V). cbn [Z.eqb Pos.eqb P_ZRINIT].
  rewrite (received_arg u P_ZRINIT (offer u) v s) by done. clear s V.
  apply step_bind, step_say, (step_take_options u (offer u)); [done|by destruct u; [left|right]|].
  set (q := received u P_ZRINIT (offer u)). specialize (HQ q).
  destruct u; cbn [whenM].
  - change (has_flag (offer true) TX_CAN_CRC32) with true. cbn [whenM]. apply step_bind.
    vmodify (fun v => v <| v_crc := true |>). apply step_bind, step_setup_map, step_bind, step_set_state, step_ret. vexact HQ.
  - change (has_flag (offer false) TX_CAN_CRC32) with false. cbn [whenM]. apply step_bind, step_ret.
    apply step_bind, step_setup_map, step_bind, step_set_state, step_ret.
    assert (HQ' : Q false (v <| v_packet := q |> <| v_in := [] |> <| v_crc := v_crc v |> <| v_state := ZSINIT |>)) by (by rewrite (Hc eq_refl)).
    vexact HQ'.
Qed.

Lemma step_send_zsinit v (Q : bool -> zview -> Prop) :
  Q false (v <| v_state := ZFILE |> <| v_in := [] |>) -> step send_zsinit v Q.
Proof.
  intros HQ. unfold send_zsinit. apply step_bind, step_get. intros s B _. rewrite (b_escape s B), andb_false_r. clear s B.
  apply step_bind, step_bind, step_say, step_set_state, step_bind, step_clear, step_ret. exact HQ.
Qed.

(** *** The offer of the file *)

Lemma length_print_int n : 0 <= n < 2 ^ 31 -> (length (print_int n) <= 10)%nat.
Proof.
  intros H. rewrite print_int_base by done. unfold print_base.
  apply (length_print_digits 10 64 10 n []); [done| |lia]. split; [lia|]. etrans; [apply H|done].
Qed.
Lemma length_print_octal n : 0 <= n < 2 ^ 64 -> (length (print_base 8 n) <= 22)%nat.
Proof.
  intros H. unfold print_base. apply (length_print_digits 8 64 22 n []); [done| |lia]. split; [lia|]. etrans; [apply H|done].
Qed.

Lemma print_digit_bytes b n : 2 <= b <= 10 -> bytes (print_base b n).
Proof.
  intros Hb. destruct (print_base_cons b n Hb) as (_ & _ & _ & _ & H). eapply Forall_impl; [exact H|].
  intros c Hc. cbv beta in Hc. unfold is_byte. lia.
Qed.

Lemma length_file_text size mtime : 0 <= size < 2 ^ 31 -> (length (file_text size mtime) <= 50)%nat.
Proof.
  intros Hs. unfold file_text. rewrite !length_app. pose proof (length_print_int size Hs).
  assert (Hm : 0 <= u64 mtime < 2 ^ 64) by (apply Z.mod_pos_bound; reflexivity). pose proof (length_print_octal (u64 mtime) Hm).
  change (length [32]) with 1%nat. change (length (str " 0 0 1 ")) with 7%nat. lia.
Qed.

Lemma bytes_file_text size mtime : 0 <= size < 2 ^ 31 -> bytes (file_text size mtime).
Proof.
  intros Hs. unfold file_text. rewrite !print_int_base by done. rewrite !bytes_app.
  repeat split; try (by apply print_digit_bytes); try (by apply bytes_by_eval).
Qed.

Lemma bytes_file_data name size mtime : bytes name -> 0 <= size < 2 ^ 31 -> bytes (file_data name size mtime).
Proof.
  intros Hn Hs. unfold file_data. rewrite bytes_app. split; [done|]. apply bytes_cons; [done|].
  rewrite bytes_app. split; [by apply bytes_file_text|by apply bytes_by_eval].
Qed.

Lemma length_file_data name size mtime :
  0 <= size < 2 ^ 31 -> (length (file_data name size mtime) <= length name + 52)%nat.
Proof.
  intros Hs. unfold file_data. rewrite length_app. cbn [length]. rewrite length_app. cbn [length].
  pose proof (length_file_text size mtime Hs). lia.
Qed.

Lemma step_store name y rest v (Q : list Z -> zview -> Prop) :
  Q (name ++ 0 :: rest) v -> step (store (name ++ y :: rest) (Z.of_nat (length name)) 0) v Q.
Proof.
  intros HQ s B V. unfold store. apply wp_memcpy; [cbn [length]; lia|rewrite length_app; cbn [length]; lia|].
  rewrite Nat2Z.id, blit_exact by done. cbn [length drop]. split; [done|]. by rewrite V.
Qed.

(** [send_zfile]: the header and the file information. *)
Lemma step_send_zfile u name size m v (Q : bool -> zview -> Prop) :
  v_name v = Some name -> v_size v = size -> v_crc v = u -> v_out v = [] -> v_room v = m -> 2100 <= m ->
  bytes name -> Z.of_nat (length name) < FILENAME_SIZE -> 0 <= size < 2 ^ 31 ->
  (forall p mtime check, good_check u (file_data name (size) mtime) ZCRCW check ->
     Q false (v <| v_packet := p |> <| v_out := zfile_frame u (file_data name (size) mtime) check |>
                <| v_state := ZFILE_WAIT |> <| v_in := [] |>)) ->
  step send_zfile v Q.
Proof.
  intros Hname <- Hu Ho Hm Hm2 Hb Hl Hsz HQ. unfold send_zfile. unfold FILENAME_SIZE in Hl.
  apply step_bind, step_build; [done|done|done|]. apply step_bind, step_set_state, step_bind, step_gets. intros s _ V.
  rewrite (eq_trans (f_equal v_name V) Hname : file_name (status s) = Some name).
  apply step_bind, (step_nonnull _ name); [done|]. cbv zeta.
  set (mtime := file_modtime (status s)).
  assert (Hline : file_line (status s) name = name ++ 32 :: file_text (v_size v) mtime).
  { unfold file_line. by rewrite (f_equal v_size V : file_size (status s) = v_size v). }
  rewrite Hline. clear Hline. clearbody mtime. clear s V.
  pose proof (length_file_text (v_size v) mtime Hsz) as Ht.
  pose proof (bytes_file_data name (v_size v) mtime Hb Hsz) as Hbd.
  set (text := file_text (v_size v) mtime) in *. set (line := name ++ 32 :: text).
  assert (Hll : Z.of_nat (length line) = Z.of_nat (length name) + 1 + Z.of_nat (length text))
    by (unfold line; rewrite length_app; cbn [length]; lia).
  rewrite take_ge by (unfold ZMODEM_MAX_BLOCK_SIZE; lia).
  apply step_bind, step_put_data.
  { rewrite length_app. cbn [length]. unfold ZMODEM_MAX_BLOCK_SIZE. lia. }
  intros more. assert (Hpd : (line ++ [0]) ++ more = name ++ 32 :: (text ++ 0 :: more)).
  { unfold line. by rewrite <- !app_assoc. }
  rewrite Hpd. apply step_bind, step_gets. intros s B V.
  pose proof (f_equal (fun v => pdata (v_packet v)) V : pdata (packet s) = name ++ 32 :: (text ++ 0 :: more)) as Hps.
  rewrite Hps.
  assert (Hlen : Z.of_nat (length (name ++ 32 :: text ++ 0 :: more)) = ZMODEM_MAX_BLOCK_SIZE).
  { rewrite <- Hps. apply B. }
  apply step_bind, step_store. clear s B V Hps.
  assert (Hlen0 : Z.of_nat (length (name ++ 0 :: text ++ 0 :: more)) = ZMODEM_MAX_BLOCK_SIZE)
    by (rewrite <- Hlen, !length_app; done).
  set (bs := name ++ 0 :: text ++ 0 :: more) in *.
  apply step_bind, (step_modify _ _ (fun v => v <| v_packet ::= fun p => with_n (Z.of_nat (length line) + 1) (with_data bs p) |>)).
  { intros s []. split; try done. }
  { done. }
  apply step_bind, step_right_crc.
  assert (Hdata : take (Z.to_nat (Z.of_nat (length line) + 1)) bs = file_data name (v_size v) mtime).
  { assert (Ebs : bs = file_data name (v_size v) mtime ++ more).
    { unfold bs, file_data. fold text. rewrite <- app_assoc. cbn [app]. by rewrite <- app_assoc. }
    rewrite Ebs. apply take_app_length'. unfold file_data. fold text. rewrite length_app. cbn [length].
    rewrite length_app. cbn [length]. lia. }
  match goal with |- step _ ?w Q => set (v1 := w) end.
  assert (Hp : packet_data (v_packet v1) = file_data name (v_size v) mtime) by exact Hdata.
  assert (Ht1 : ptype (v_packet v1) = P_ZFILE) by done.
  assert (Hc1 : pkt_crc32 (v_packet v1) = u) by exact Hu.
  assert (Hroom1 : v_room v1 = m) by exact Hm.
  assert (Hout1 : v_out v1 = hframe u P_ZFILE 0) by (change (v_out v1) with (hframe (v_crc v) P_ZFILE 0); by rewrite Hu).
  pose proof (hframe_bound u P_ZFILE 0) as Hfb. pose proof (length_file_data name (v_size v) mtime Hsz) as Hdl.
  assert (Hck : (check_len (v_packet v1) <= 4)%nat) by (unfold check_len; destruct (_ && _); lia).
  apply step_bind, step_encode_output.
  { by rewrite Hp. }
  { unfold zdata_room. rewrite Hp, Hroom1, Hout1. rewrite Z.eqb_refl. lia. }
  rewrite zdata_frame_sub, Hout1, Hp.
  assert (Hg : good_check u (file_data name (v_size v) mtime) ZCRCW (zdata_check (v_packet v1) ZCRCW)).
  { rewrite <- Hp, <- Hc1. apply good_check_sent; [by rewrite Ht1|by rewrite Hp|done]. }
  apply step_bind, step_clear, step_ret.
  specialize (HQ (v_packet v1) mtime _ Hg). subst v1. vexact HQ.
Qed.

(** The call that answers ZRINIT with the offer of the file. *)
Lemma sender_offers u name m v (Q : unit -> zview -> Prop) :
  v_state v = ZRQINIT_WAIT -> v_sending v = true -> v_in v = [] -> v_cans v = 0 -> (u = false -> v_crc v = false) -> v_name v = Some name ->
  2100 <= m -> bytes name -> Z.of_nat (length name) < FILENAME_SIZE -> 0 <= v_size v < 2 ^ 31 ->
  (forall p mtime check, good_check u (file_data name (v_size v) mtime) ZCRCW check ->
     Q tt (v <| v_crc := u |> <| v_packet := p |> <| v_room := m |>
             <| v_out := zfile_frame u (file_data name (v_size v) mtime) check |>
             <| v_state := ZFILE_WAIT |> <| v_in := [] |>)) ->
  step (zmodem (hframe u P_ZRINIT (offer u)) (empty_outbuf m)) v Q.
Proof.
  intros Hst Hs Hin H0 Hc Hname Hm Hb Hl Hsz HQ. apply step_zmodem; [by rewrite Hst|by rewrite Hst|done|]. intros n Hn. rewrite Hs.
  pose proof (hframe_bound u P_ZRINIT (offer u)) as Hfb.
  apply (step_send_at ZRQINIT_WAIT); [done| |lia|done| |].
  { change (v_in _) with (v_in v). rewrite Hin. cbn [length]. unfold ZMODEM_MAX_BLOCK_SIZE. lia. }
  { change (v_in _) with (v_in v). rewrite Hin. apply cans_hframe. }
  cbn [send_switch]. apply (step_send_zinit u); [change (v_in v ++ hframe u P_ZRINIT (offer u) = hframe u P_ZRINIT (offer u)); by rewrite Hin|done|].
  intros p1. apply (step_send_on ZSINIT); [done|done|lia|done|]. cbn [send_switch]. apply step_send_zsinit.
  apply (step_send_on ZFILE); [done|done|lia|done|]. cbn [send_switch].
  apply (step_send_zfile u name (v_size v) m); [done|done|done|done|done|done|done|done|exact Hsz|]. intros p mtime check Hg.
  apply (step_send_on ZFILE_WAIT); [done|done|lia|done|]. cbn [send_switch]. unfold send_zfile_wait.
  apply step_wait_idle; [done|]. specialize (HQ p mtime check Hg). vexact HQ.
Qed.

(** ** The data of the file *)

Section one_file.
(** The width of the CRC, the file on the sender's disk, its name for the receiver,
    its bytes, where it is in the upload list, and that disk. *)
Context (u : bool) (src name : cstring) (D : list Z) (l : list file_info) (i : nat) (ds : disk).

(** A sender that has opened the file, before its data is asked for. *)
Record offering (x : STATE) (streaming : bool) (count : Z) (v : zview) : Prop := {
  of_state : v_state v = x;
  of_sending : v_sending v = true;
  of_in : v_in v = [];
  of_cans : v_cans v = 0;
  of_name : v_name v = Some name;
  of_size : v_size v = Z.of_nat (length D);
  of_stream : exists f, v_stream v = Some f /\ f_name f = src;
  of_disk : d_files (v_disk v) !! src = Some D /\ src ∉ d_unreadable (v_disk v);
  of_block : v_block v = ZMODEM_BLOCK_SIZE;
  of_wait : v_wait v = false;
  of_streaming : v_streaming v = streaming;
  of_count : v_count v = count;
  of_reliable : v_reliable v = true;
  of_list : v_list v = Some l /\ v_next v = i;
  of_same : v_disk v = ds
}.

(** A sender in ZDATA at the position [pos]; [count] blocks are left before the
    next ZCRCQ. *)
Record feeding (pos : Z) (wait streaming : bool) (count : Z) (v : zview) : Prop := {
  fd_state : v_state v = ZDATA;
  fd_sending : v_sending v = true;
  fd_in : v_in v = [];
  fd_cans : v_cans v = 0;
  fd_crc : v_crc v = u;
  fd_name : v_name v = Some name;
  fd_size : v_size v = Z.of_nat (length D);
  fd_pos : v_pos v = pos;
  fd_stream : exists f, v_stream v = Some f /\ f_name f = src /\ (wait = false -> f_pos f = pos /\ f_eof f = false);
  fd_disk : d_files (v_disk v) !! src = Some D /\ src ∉ d_unreadable (v_disk v);
  fd_block : v_block v = ZMODEM_BLOCK_SIZE;
  fd_ack : v_ack v = false;
  fd_wait : v_wait v = wait;
  fd_streaming : v_streaming v = streaming;
  fd_count : v_count v = count;
  fd_reliable : v_reliable v = true;
  fd_type : ptype (v_packet v) <> P_ZSINIT;
  fd_list : v_list v = Some l /\ v_next v = i;
  fd_same : v_disk v = ds
}.

(** The next block at [pos], and the escape that ends it. *)
Definition block_at (pos : Z) : list Z := take 1024 (drop (Z.to_nat pos) D).
Definition block_escape (pos count : Z) : Z :=
  if Z.of_nat (length (block_at pos)) <? ZMODEM_BLOCK_SIZE then ZCRCW
  else if count - 1 =? 0 then ZCRCQ else ZCRCG.

Lemma block_escape_good pos count : is_crc_escape (block_escape pos count) = true.
Proof. unfold block_escape. destruct (_ <? _); [done|]. by destruct (_ =? _). Qed.

Lemma length_block_at pos : (length (block_at pos) <= 1024)%nat.
Proof. unfold block_at. rewrite length_take. lia. Qed.

Lemma bytes_block_at pos : bytes D -> bytes (block_at pos).
Proof. intros H. by apply bytes_take, bytes_drop. Qed.

Lemma step_zdata_escape pos count v (Q : Z -> zview -> Prop) :
  v_count v = count -> 1 <= count <= 32 -> v_reliable v = true ->
  (let last := Z.of_nat (length (block_at pos)) <? ZMODEM_BLOCK_SIZE in
   Q (block_escape pos count)
     (if last then v
      else if count - 1 =? 0 then v <| v_count := 32 |> <| v_wait := true |> <| v_streaming := true |>
      else v <| v_count := count - 1 |>)) ->
  step (zdata_escape (Z.of_nat (length (block_at pos)) <? ZMODEM_BLOCK_SIZE)) v Q.
Proof.
  intros Hc Hr Hrel HQ. unfold zdata_escape, block_escape in *. cbv zeta in HQ.
  destruct (Z.of_nat (length (block_at pos)) <? ZMODEM_BLOCK_SIZE); [by apply step_ret|].
  apply step_bind. vmodify (fun v => v <| v_count ::= fun n => u32 (n - 1) |>).
  assert (E : u32 (v_count v - 1) = count - 1) by (rewrite Hc; apply u32_id; lia).
  apply step_bind, step_gets. intros s _ V.
  rewrite (eq_trans (f_equal v_count V) E : blocks_ack_count (status s) = count - 1). clear s V.
  destruct (count - 1 =? 0).
  - apply step_bind, (step_modify _ _ (fun v => v <| v_count := if v_reliable v then 32 else 4 |> <| v_wait := true |> <| v_streaming := true |>));
      [keeps_base|done|].
    apply step_ret.
    assert (HQ' : Q ZCRCQ (v <| v_count := if v_reliable v then 32 else 4 |> <| v_wait := true |> <| v_streaming := true |>)) by (by rewrite Hrel).
    vexact HQ'.
  - apply step_ret. rewrite <- E in HQ. vexact HQ.
Qed.

(** A block goes out. *)
Lemma step_block_out data t last v (Q : bool -> zview -> Prop) :
  v_crc v = u -> packet_data (v_packet v) = data -> bytes data -> ptype (v_packet v) <> P_ZSINIT -> is_crc_escape t = true ->
  Z.of_nat (length (v_out v)) + 2 * Z.of_nat (length data) + 10 + (if t =? ZCRCW then 1 else 0) <= v_room v ->
  (forall check q, good_check u data t check -> ptype q = ptype (v_packet v) ->
     Q false (v <| v_packet := q |> <| v_out := v_out v ++ sub_frame 0 data t check |> <| v_wait ::= orb last |>)) ->
  step (right_crc;; encode_output t;; whenM last (on_status (fun st => st <| waiting_for_ack := true |>));; mret false) v Q.
Proof.
  intros Hu Hdata Hb Hp Ht Hroom HQ. apply step_bind, step_right_crc. rewrite Hu.
  set (q := with_crc u (v_packet v)). set (v1 := v <| v_packet := q |>).
  change (step (encode_output t;; whenM last (on_status (fun st => st <| waiting_for_ack := true |>));; mret false) v1 Q).
  assert (Hq : packet_data q = data) by exact Hdata.
  assert (Hck : (check_len q <= 4)%nat) by (unfold check_len; destruct (_ && _); lia).
  assert (E1 : v_packet v1 = q) by done. assert (E2 : v_out v1 = v_out v) by done.
  apply step_bind, step_encode_output; rewrite E1.
  { by rewrite Hq. }
  { rewrite E2. change (v_room v1) with (v_room v). unfold zdata_room. rewrite Hq. lia. }
  rewrite zdata_frame_sub, Hq, E2.
  assert (Hg : good_check u data t (zdata_check q t)).
  { rewrite <- Hq. apply good_check_sent; [exact Hp|by rewrite Hq|by apply crc_escape_byte]. }
  specialize (HQ (zdata_check q t) q Hg eq_refl).
  apply step_bind, (step_mono _ _ (fun _ w => w = v1 <| v_out := v_out v ++ sub_frame 0 data t (zdata_check q t) |>
    <| v_wait ::= orb last |>)).
  { destruct last; cbn [whenM orb]; [by vmodify (fun v => v <| v_wait := true |>)|by apply step_ret]. }
  intros _ ? ->. apply step_ret. exact HQ.
Qed.

Lemma moved_stream f g h :
  let f' := f <| f_pos ::= g |> <| f_eof ::= h |> in
  f_name f' = f_name f /\ f_pos f' = g (f_pos f) /\ f_eof f' = h (f_eof f).
Proof. done. Qed.

Lemma step_zdata_block pos streaming count v (Q : bool -> zview -> Prop) :
  feeding pos false streaming count v -> 0 <= pos <= Z.of_nat (length D) -> bytes D -> 1 <= count <= 32 ->
  Z.of_nat (length (v_out v)) <= 21 -> 2100 <= v_room v ->
  let data := block_at pos in let t := block_escape pos count in
  (forall check v', good_check u data t check ->
     feeding (if t =? ZCRCW then Z.of_nat (length D) else pos + 1024)
       (negb (t =? ZCRCG)) (streaming || (t =? ZCRCQ))
       (if t =? ZCRCW then count else if t =? ZCRCQ then 32 else count - 1) v' ->
     v_out v' = v_out v ++ sub_frame 0 data t check -> Q false v') ->
  step zdata_block v Q.
Proof.
  intros [T1 T2 T3 T4 T5 T6 T7 T8 (f & T9 & T9n & T9p) [T10 T10r] T11 T12 T13 T14 T15 T16 T17 T18 T19] Hp HD Hc Ho Hm data t HQ.
  destruct (T9p eq_refl) as [Fp Fe]. unfold zdata_block. apply step_bind, step_get. intros s B V.
  rewrite (eq_trans (f_equal v_stream V) T9 : file_stream (status s) = Some f).
  apply step_bind, (step_nonnull _ f); [done|]. rewrite Fe. cbn [negb orb]. rewrite (b_outbound s B). cbn [Z.eqb andb].
  rewrite (eq_trans (f_equal v_block V) T11 : status_block_size (status s) = ZMODEM_BLOCK_SIZE).
  pose proof (length_ob_bytes _ (b_output s B)) as Hob.
  rewrite (f_equal v_out V : ob_bytes (output s) = v_out v) in Hob.
  pose proof (f_equal v_room V : ob_max (output s) = v_room v) as Hmax.
  assert (Hspare : (ob_max (output s) - ob_n (output s) <? 2 * ZMODEM_BLOCK_SIZE) = false).
  { apply Z.ltb_ge. unfold ZMODEM_BLOCK_SIZE. lia. }
  rewrite Hspare. cbv zeta. apply step_bind, step_say.
  rewrite (f_equal v_disk V : the_disk (shared s) = v_disk v).
  change (Z.to_nat ZMODEM_BLOCK_SIZE) with 1024%nat.
  rewrite (fread_chunk _ f D) by (rewrite ?T9n; done || lia). rewrite Fp. fold (block_at pos). fold data.
  clear Hob Hmax Hspare.
  set (f' := f <| f_pos ::= _ |> <| f_eof ::= _ |>).
  apply step_bind. vmodify (fun v => v <| v_stream := Some f' |>).
  pose proof (length_block_at pos) as Hlen. fold data in Hlen.
  apply step_bind, step_put_data; [unfold ZMODEM_MAX_BLOCK_SIZE; lia|]. intros more.
  assert (Hlast : ((Z.of_nat (length data) <? ZMODEM_BLOCK_SIZE) || (Z.of_nat (length data) =? 0)) = (Z.of_nat (length data) <? ZMODEM_BLOCK_SIZE)).
  { unfold ZMODEM_BLOCK_SIZE. destruct (Z.ltb_spec (Z.of_nat (length data)) 1024); [done|]. apply Z.eqb_neq. lia. }
  rewrite Hlast. clear Hlast. set (last := Z.of_nat (length data) <? ZMODEM_BLOCK_SIZE).
  match goal with |- step _ ?w Q => set (v1 := w) end.
  set (v2 := v1 <| v_pos := if last then v_size v else v_pos v + v_block v |>).
  apply step_bind, (step_mono _ _ (fun _ w => w = v2)).
  { unfold v2, v1. destruct last; apply step_bind.
    - vmodify (fun v => v <| v_pos := v_size v |>). by apply step_on_stats.
    - vmodify (fun v => v <| v_pos ::= fun p => p + v_block v |>). by apply step_on_stats. }
  intros _ ? ->. clear s B V. apply step_bind, step_data_n, step_bind, step_increment_blocks.
  set (q := with_n (Z.of_nat (length data)) (with_data (data ++ more) (v_packet v))).
  assert (Hq : packet_data q = data) by (apply take_app_length'; exact (Nat2Z.id (length data))).
  assert (Hq2 : ptype q = ptype (v_packet v)) by done.
  apply step_bind, (step_zdata_escape pos count); [exact T15|done|exact T16|]. cbv zeta. fold data last t.
  match goal with |- step _ ?w Q => set (v3 := w) end.
  assert (Ev : v_packet v3 = q /\ v_out v3 = v_out v /\ v_room v3 = v_room v /\ v_crc v3 = u).
  { unfold v3. destruct last; [done|]. by destruct (count - 1 =? 0). }
  destruct Ev as (E1 & E2 & E3 & E4). clearbody q.
  assert (Hroom : 2 * Z.of_nat (length data) + (if t =? ZCRCW then 1 else 0) <= 2048).
  { unfold t, block_escape. fold data. unfold ZMODEM_BLOCK_SIZE. destruct (Z.ltb_spec (Z.of_nat (length data)) 1024).
    - cbn. lia.
    - destruct (count - 1 =? 0); cbn; lia. }
  apply (step_block_out data t last); [done|by rewrite E1|by apply bytes_block_at|by rewrite E1, Hq2|apply block_escape_good|rewrite E2, E3; lia|].
  intros check q' Hg Hq'. rewrite E2. apply (HQ check); [done| |done].
  assert (Htw : (t =? ZCRCW) = last /\ (t =? ZCRCG) = (if last then false else negb (count - 1 =? 0)) /\
    (t =? ZCRCQ) = (if last then false else count - 1 =? 0)).
  { unfold t, block_escape. fold data last. destruct last; [done|]. by destruct (count - 1 =? 0). }
  destruct Htw as (-> & -> & ->).
  assert (Hlen' : last = false -> Z.of_nat (length data) = 1024).
  { intros H. apply Z.ltb_ge in H. unfold ZMODEM_BLOCK_SIZE in H. lia. }
  assert (Hpos : v_pos v3 = if last then Z.of_nat (length D) else pos + 1024).
  { unfold v3, v2. destruct last; [exact T7|].
    destruct (count - 1 =? 0); change (v_pos v + v_block v = pos + 1024); rewrite T11, T8; done. }
  assert (Hst : v_stream v3 = Some f') by (unfold v3, v2; destruct last; [done|by destruct (count - 1 =? 0)]).
  assert (Hw : last || v_wait v3 = negb (if last then false else negb (count - 1 =? 0))).
  { unfold v3, v2. destruct last; [done|]. destruct (count - 1 =? 0); [done|exact T13]. }
  assert (Hs : v_streaming v3 = streaming || (if last then false else count - 1 =? 0)).
  { unfold v3, v2. destruct last; [by rewrite orb_false_r|]. destruct (count - 1 =? 0); [by rewrite orb_true_r|by rewrite orb_false_r]. }
  assert (Hct : v_count v3 = if last then count else if last then count else if count - 1 =? 0 then 32 else count - 1).
  { unfold v3, v2. destruct last; [exact T15|]. by destruct (count - 1 =? 0). }
  assert (Hrest : v_state v3 = ZDATA /\ v_sending v3 = true /\ v_in v3 = [] /\ v_cans v3 = 0 /\ v_crc v3 = u /\ v_name v3 = Some name /\
    v_size v3 = Z.of_nat (length D) /\ v_disk v3 = v_disk v /\ v_block v3 = ZMODEM_BLOCK_SIZE /\ v_ack v3 = false /\ v_reliable v3 = true /\
    (v_list v3 = Some l /\ v_next v3 = i) /\ v_disk v3 = ds).
  { unfold v3, v2. destruct last; [|destruct (count - 1 =? 0)];
      exact (conj T1 (conj T2 (conj T3 (conj T4 (conj T5 (conj T6 (conj T7 (conj eq_refl (conj T11 (conj T12 (conj T16 (conj T18 T19)))))))))))). }
  destruct Hrest as (R1 & R2 & R3 & R4 & R5 & R6 & R7 & R8 & R9 & R10 & R11 & R12 & R13).
  split; try assumption.
  - destruct (moved_stream f (Z.add (Z.of_nat (length data))) (orb (bool_decide (length data < 1024)%nat))) as (F1 & F2 & F3).
    fold f' in F1, F2, F3. exists f'. split; [exact Hst|]. split; [by rewrite F1|]. intros Hwf. rewrite F2, F3, Fp, Fe.
    destruct last eqn:El; [done|]. specialize (Hlen' eq_refl). split; [lia|].
    rewrite orb_false_r. apply bool_decide_eq_false. lia.
  - change (d_files (v_disk v3) !! src = Some D /\ src ∉ d_unreadable (v_disk v3)). by rewrite R8.
  - change (v_count v3 = if last then count else if (if last then false else count - 1 =? 0) then 32 else count - 1).
    rewrite Hct. by destruct last.
  - change (ptype q' <> P_ZSINIT). by rewrite Hq', E1, Hq2.
Qed.

(** What goes out for a block. *)
Definition next_pos (pos count : Z) : Z :=
  if block_escape pos count =? ZCRCW then Z.of_nat (length D) else pos + 1024.
Definition next_count (pos count : Z) : Z :=
  if block_escape pos count =? ZCRCW then count else if block_escape pos count =? ZCRCQ then 32 else count - 1.
Definition fed (pos count : Z) (streaming : bool) (v : zview) : Prop :=
  feeding (next_pos pos count) (negb (block_escape pos count =? ZCRCG)) (streaming || (block_escape pos count =? ZCRCQ))
    (next_count pos count) v.

(** A turn in ZDATA with a block to send. *)
Lemma sender_block pos streaming count k v (Q : unit -> zview -> Prop) :
  feeding pos false streaming count v -> 0 <= pos <= Z.of_nat (length D) -> bytes D -> 1 <= count <= 32 ->
  Z.of_nat (length (v_out v)) <= 21 -> 2100 <= v_room v ->
  (forall check v', good_check u (block_at pos) (block_escape pos count) check -> fed pos count streaming v' ->
     v_out v' = v_out v ++ sub_frame 0 (block_at pos) (block_escape pos count) check -> Q tt v') ->
  step (spare ← zdata_block; mret (negb spare)) v
    (fun done v' => if done : bool then Q tt v' else step (send_loop k []) v' Q).
Proof.
  intros T Hp HD Hc Ho Hm HQ. apply step_bind, (step_zdata_block pos streaming count); [done..|].
  intros check v' Hg Hv Hout. apply step_ret. by apply (HQ check).
Qed.

Lemma step_no_input pos streaming count v (Q : bool -> zview -> Prop) :
  feeding pos false streaming count v ->
  step (spare ← zdata_block; mret (negb spare)) v Q -> step send_zdata v Q.
Proof.
  intros T HQ. unfold send_zdata, zdata_input. apply step_bind, step_bind, step_gets. intros s B V.
  pose proof (pending_length s B) as Hl. rewrite (at_in s v V), (fd_in _ _ _ _ _ T) in Hl. cbn [length] in Hl.
  rewrite (proj2 (Z.ltb_ge 0 _)) by lia. clear s B V Hl. apply step_bind, step_gets. intros s _ V.
  rewrite (eq_trans (f_equal v_wait V) (fd_wait _ _ _ _ _ T) : waiting_for_ack (status s) = false). apply step_ret. clear s V.
  cbv beta iota. apply step_bind, step_gets. intros s _ V.
  rewrite (eq_trans (f_equal v_wait V) (fd_wait _ _ _ _ _ T) : waiting_for_ack (status s) = false),
    (eq_trans (f_equal v_ack V) (fd_ack _ _ _ _ _ T) : ack_required (status s) = false). exact HQ.
Qed.

(** A call without input sends the next block. *)
Lemma sender_continues pos streaming count m v (Q : unit -> zview -> Prop) :
  feeding pos false streaming count v -> 0 <= pos <= Z.of_nat (length D) -> bytes D -> 1 <= count <= 32 -> 2100 <= m ->
  (forall check v', good_check u (block_at pos) (block_escape pos count) check -> fed pos count streaming v' ->
     v_out v' = sub_frame 0 (block_at pos) (block_escape pos count) check -> Q tt v') ->
  step (zmodem [] (empty_outbuf m)) v Q.
Proof.
  intros T Hp HD Hc Hm HQ. pose proof T as [T1 T2 T3 T4 T5 T6 T7 T8 T9 T10 T11 T12 T13 T14 T15 T16 T17 T18 T19].
  apply step_zmodem; [by rewrite T1|by rewrite T1|done|]. intros n Hn. rewrite T2.
  apply (step_send_on ZDATA); [done|done|lia|done|]. cbn [send_switch].
  apply (step_no_input pos streaming count); [by split|].
  apply (sender_block pos streaming count); [by split|done|done|done|done|done|].
  intros check v' Hg Hv Hout. by apply (HQ check).
Qed.

Lemma step_seek f pos v (Q : unit -> zview -> Prop) :
  v_stream v = Some f -> Q tt (v <| v_pos := pos |> <| v_stream := Some (fseek_set f pos) |>) -> step (seek_position pos) v Q.
Proof.
  intros Hf HQ. unfold seek_position. apply step_bind, step_gets. intros s _ V.
  rewrite (eq_trans (f_equal v_stream V) Hf : file_stream (status s) = Some f).
  apply step_bind, (step_nonnull _ f); [done|]. by vmodify (fun v => v <| v_pos := pos |> <| v_stream := Some (fseek_set f pos) |>).
Qed.

Lemma step_zdata_start v (Q : unit -> zview -> Prop) :
  v_out v = [] ->
  Q tt (v <| v_packet ::= announced_as (v_crc v) P_ZDATA |> <| v_out := hframe (v_crc v) P_ZDATA (big_to_little_endian (u32 (v_pos v))) |>) ->
  step zdata_start v Q.
Proof.
  intros Ho HQ. unfold zdata_start. apply step_bind, step_gets. intros s _ V.
  rewrite (f_equal v_pos V : file_position (status s) = v_pos v). by apply step_build.
Qed.

(** ZRPOS at the start of the file: the data begins. *)
Lemma sender_positions streaming count m v (Q : unit -> zview -> Prop) :
  offering ZFILE_WAIT streaming count v -> v_crc v = u -> bytes D -> Z.of_nat (length D) < 2 ^ 32 -> 1 <= count <= 32 -> 2100 <= m ->
  (forall check v', good_check u (block_at 0) (block_escape 0 count) check -> fed 0 count streaming v' ->
     v_out v' = hframe u P_ZDATA 0 ++ sub_frame 0 (block_at 0) (block_escape 0 count) check -> Q tt v') ->
  step (zmodem (hframe u P_ZRPOS 0) (empty_outbuf m)) v Q.
Proof.
  intros [T1 T2 T3 T4 T6 T7 (f & T9 & T9n) T10 T11 T13 T14 T15 T16 T18 T19] T5 HD H32 Hc Hm HQ.
  apply step_zmodem; [by rewrite T1|by rewrite T1|done|]. intros n Hn. rewrite T2.
  eapply (step_send_header ZFILE_WAIT _ _ _ u P_ZRPOS 0);
    [exact T1|reflexivity|exact T3|lia|exact T4|done..|].
  apply step_bind, step_get. intros s _ V.
  rewrite (received_type _ _ _ _ s V), (received_arg u P_ZRPOS 0 _ s ltac:(done) V).
  rewrite (eq_trans (f_equal v_size V) T7 : file_size (status s) = Z.of_nat (length D)).
  cbn [Z.eqb Pos.eqb P_ZRPOS]. rewrite (proj2 (Z.ltb_ge _ _)) by lia. clear s V.
  apply step_bind, step_say, step_bind, (step_seek f 0); [exact T9|].
  apply step_bind, step_zdata_start; [done|].
  apply step_bind. vmodify (fun v => v <| v_prior := ZFILE_WAIT |> <| v_state := ZDATA |> <| v_ack := false |>). apply step_ret.
  assert (Ehdr : hframe (v_crc v) P_ZDATA (big_to_little_endian (u32 0)) = hframe u P_ZDATA 0) by (by rewrite T5).
  pose proof (hframe_bound u P_ZDATA 0) as Hfb. rewrite <- Ehdr in Hfb, HQ. clear Ehdr.
  match goal with |- step _ ?w _ => set (v1 := w) end.
  assert (Hf : feeding 0 false streaming count v1).
  { split; try assumption; try done. by exists (fseek_set f 0). }
  assert (Hout : v_out v1 = hframe (v_crc v) P_ZDATA (big_to_little_endian (u32 0))) by done.
  assert (Hrm : v_room v1 = m) by done. clearbody v1. rewrite <- Hout in Hfb, HQ.
  pose proof Hf as [U1 _ U3 U4 _ _ _ _ _ _ _ _ _ _ _ _ _ _].
  apply (step_send_on ZDATA); [done|done|lia|done|]. cbn [send_switch].
  apply (step_no_input 0 streaming count); [done|].
  apply (sender_block 0 streaming count); [done|lia|done|lia|lia|lia|exact HQ].
Qed.

Lemma step_block_size_up v (Q : unit -> zview -> Prop) :
  v_block v = ZMODEM_BLOCK_SIZE -> Q tt v -> step block_size_up v Q.
Proof.
  intros Hb HQ. unfold block_size_up. apply step_bind, step_gets. intros s _ _.
  apply step_bind, (step_mono _ _ (fun _ w => w = v)); [|intros _ ? ->; by hidden].
  apply step_when; [intros _|done].
  apply (step_modify _ _ (fun v => v <| v_block ::= fun z => let z := i32 (z * 2) in if ZMODEM_BLOCK_SIZE <? z then ZMODEM_BLOCK_SIZE else z |>));
    [keeps_base|done|].
  transitivity (v <| v_block := ZMODEM_BLOCK_SIZE |>); [|rewrite <- Hb; by destruct v].
  transitivity (v <| v_block := let z := i32 (v_block v * 2) in if ZMODEM_BLOCK_SIZE <? z then ZMODEM_BLOCK_SIZE else z |>); [done|].
  by rewrite Hb.
Qed.

Lemma step_send_zeof v (Q : bool -> zview -> Prop) :
  v_out v = [] ->
  (forall p, Q false (v <| v_packet := p |> <| v_out := hframe (v_crc v) P_ZEOF (v_size v) |> <| v_state := ZEOF_WAIT |> <| v_in := [] |>)) ->
  step send_zeof v Q.
Proof.
  intros Ho HQ. unfold send_zeof. apply step_bind, step_gets. intros s _ V.
  rewrite (f_equal v_size V : file_size (status s) = v_size v). by apply step_send_zheader.
Qed.

(** A sender that waits for the answer to its ZEOF. *)
Record ended (streaming : bool) (count : Z) (v : zview) : Prop := {
  en_state : v_state v = ZEOF_WAIT;
  en_sending : v_sending v = true;
  en_in : v_in v = [];
  en_cans : v_cans v = 0;
  en_crc : v_crc v = u;
  en_name : v_name v = Some name;
  en_stream : exists f, v_stream v = Some f;
  en_block : v_block v = ZMODEM_BLOCK_SIZE;
  en_wait : v_wait v = false;
  en_streaming : v_streaming v = streaming;
  en_count : v_count v = count;
  en_reliable : v_reliable v = true;
  en_disk : v_disk v = ds;
  en_list : v_list v = Some l /\ v_next v = i
}.

(** ZACK in ZDATA. *)
Lemma step_zack pos streaming count v (Q : option bool -> zview -> Prop) :
  v_in v = hframe u P_ZACK (big_to_little_endian pos) -> feeding pos true streaming count (v <| v_in := [] |>) ->
  0 <= pos <= Z.of_nat (length D) -> Z.of_nat (length D) < 2 ^ 32 ->
  (pos <> Z.of_nat (length D) -> streaming = true) ->
  (forall f q, ptype q <> P_ZSINIT ->
     let v' := v <| v_in := [] |> <| v_packet := q |> <| v_ack := false |> <| v_wait := false |> <| v_pos := pos |> <| v_stream := Some (fseek_set f pos) |> in
     v_stream v = Some f ->
     if pos =? Z.of_nat (length D) then Q (Some false) (v' <| v_state := ZEOF |>) else Q None v') ->
  step zdata_input v Q.
Proof.
  intros Hin [T1 T2 T3 T4 T5 T6 T7 T8 (f & T9 & T9n & _) T10 T11 T12 T13 T14 T15 T16 T17 T18 T19] Hp H32 Hstr HQ.
  unfold zdata_input. apply step_bind, step_gets. intros s B V. pose proof (pending_length s B) as Hl.
  pose proof (hframe_length u P_ZACK (big_to_little_endian pos)) as H4.
  rewrite (at_in s v V), Hin in Hl. rewrite (proj2 (Z.ltb_lt 0 _)) by lia. clear s B V Hl.
  pose proof (swap_range pos) as Hsr.
  apply step_bind, (step_next_header u P_ZACK (big_to_little_endian pos) []); [done..|lia|by rewrite app_nil_r|].
  cbv iota. apply step_bind, step_gets. intros s _ V. rewrite (received_type _ _ _ _ s V).
  cbn [Z.eqb Pos.eqb P_ZSKIP P_ZRPOS P_ZACK]. clear s V. unfold zdata_zack. apply step_bind, step_get. intros s _ V.
  rewrite (received_arg u P_ZACK _ _ s ltac:(done) V), swap_swap by lia. cbv zeta. clear s V.
  set (q := received u P_ZACK (big_to_little_endian pos)).
  assert (Hq : ptype q <> P_ZSINIT) by (by destruct u). specialize (HQ f q Hq). cbv zeta in HQ. specialize (HQ T9).
  subst q. clear Hq.
  apply step_bind. vmodify (fun v => v <| v_ack := false |> <| v_wait := false |>).
  apply step_bind, step_gets. intros s _ V. rewrite (eq_trans (f_equal v_size V) T7 : file_size (status s) = Z.of_nat (length D)).
  rewrite (proj2 (Z.ltb_ge _ _)) by lia. clear s V. apply step_bind, (step_seek f pos); [exact T9|].
  apply step_bind. hidden. apply step_bind, step_block_size_up; [exact T11|].
  apply step_bind, step_gets. intros s _ V.
  rewrite (eq_trans (f_equal v_size V) T7 : file_size (status s) = Z.of_nat (length D)), (f_equal v_pos V : file_position (status s) = pos).
  destruct (Z.eqb_spec pos (Z.of_nat (length D))) as [E|E].
  - unfold to_zeof. apply step_bind, step_say, step_bind, step_set_state, step_ret. vexact HQ.
  - apply step_bind, step_on_stats.
    rewrite (eq_trans (f_equal v_streaming V) (eq_trans T14 (Hstr E)) : streaming_zdata (status s) = true).
    apply step_bind, step_ret, step_ret. vexact HQ.
Qed.

(** The ZACK of the last block: ZEOF goes out. *)
Lemma sender_ends streaming count m v (Q : unit -> zview -> Prop) :
  feeding (Z.of_nat (length D)) true streaming count v -> Z.of_nat (length D) < 2 ^ 32 -> 2100 <= m ->
  (forall v', ended streaming count v' -> v_out v' = hframe u P_ZEOF (Z.of_nat (length D)) -> Q tt v') ->
  step (zmodem (hframe u P_ZACK (big_to_little_endian (Z.of_nat (length D)))) (empty_outbuf m)) v Q.
Proof.
  intros T H32 Hm HQ. pose proof T as [T1 T2 T3 T4 T5 T6 T7 T8 T9 T10 T11 T12 T13 T14 T15 T16 T17 T18 T19].
  set (h := hframe u P_ZACK (big_to_little_endian (Z.of_nat (length D)))).
  assert (Hfb : (length h <= 21)%nat) by apply hframe_bound.
  apply step_zmodem; [by rewrite T1|by rewrite T1|done|]. intros n Hn. rewrite T2.
  apply (step_send_at ZDATA); [done|change (v_in _) with (v_in v); rewrite T3; cbn [length]; unfold ZMODEM_MAX_BLOCK_SIZE; lia|lia|done| |].
  { change (v_in _) with (v_in v). rewrite T3. apply cans_hframe. }
  cbn [send_switch]. unfold send_zdata. apply step_bind, (step_zack (Z.of_nat (length D)) streaming count);
    [change (v_in v ++ h = h); by rewrite T3| |lia|done|done|].
  { split; try assumption; try done. }
  intros f q Hq. cbv zeta. intros Hf. rewrite Z.eqb_refl. apply step_ret.
  apply (step_send_on ZEOF); [done|done|lia|done|]. cbn [send_switch]. apply step_send_zeof; [done|]. intros p.
  apply (step_send_on ZEOF_WAIT); [done|done|lia|done|]. cbn [send_switch]. unfold send_zeof_wait.
  apply step_wait_idle; [done|]. apply HQ.
  - split; try assumption; try done. by eexists.
  - change (hframe (v_crc v) P_ZEOF (v_size v) = hframe u P_ZEOF (Z.of_nat (length D))). by rewrite T5, T7.
Qed.

(** The ZACK inside a frame: the next block goes out. *)
Lemma sender_acked pos count m v (Q : unit -> zview -> Prop) :
  feeding pos true true count v -> 0 <= pos < Z.of_nat (length D) -> Z.of_nat (length D) < 2 ^ 32 -> bytes D -> 1 <= count <= 32 -> 2100 <= m ->
  (forall check v', good_check u (block_at pos) (block_escape pos count) check -> fed pos count true v' ->
     v_out v' = sub_frame 0 (block_at pos) (block_escape pos count) check -> Q tt v') ->
  step (zmodem (hframe u P_ZACK (big_to_little_endian pos)) (empty_outbuf m)) v Q.
Proof.
  intros T Hp H32 HD Hc Hm HQ. pose proof T as [T1 T2 T3 T4 T5 T6 T7 T8 (f0 & _ & T9n & _) T10 T11 T12 T13 T14 T15 T16 T17 T18 T19].
  set (h := hframe u P_ZACK (big_to_little_endian pos)).
  assert (Hfb : (length h <= 21)%nat) by apply hframe_bound.
  apply step_zmodem; [by rewrite T1|by rewrite T1|done|]. intros n Hn. rewrite T2.
  apply (step_send_at ZDATA); [done|change (v_in _) with (v_in v); rewrite T3; cbn [length]; unfold ZMODEM_MAX_BLOCK_SIZE; lia|lia|done| |].
  { change (v_in _) with (v_in v). rewrite T3. apply cans_hframe. }
  cbn [send_switch]. unfold send_zdata. apply step_bind, (step_zack pos true count);
    [change (v_in v ++ h = h); by rewrite T3| |lia|done|done|].
  { destruct T. split; try assumption; try done. }
  intros f q Hq. cbv zeta. intros Hf. rewrite (proj2 (Z.eqb_neq _ _)) by lia.
  match goal with |- step _ ?w _ => set (v1 := w) end.
  assert (T' : feeding pos false true count v1).
  { split; try assumption; try done. exists (fseek_set f pos). split; [done|]. split; [|done].
    destruct (fd_stream _ _ _ _ _ T) as (f1 & E1 & E2 & _). change (v_stream v = Some f) in Hf. rewrite Hf in E1. by injection E1 as ->. }
  assert (Hout : v_out v1 = []) by done. assert (Hrm : v_room v1 = m) by done. clearbody v1.
  apply step_bind, step_gets. intros s _ V.
  rewrite (eq_trans (f_equal v_wait V) (fd_wait _ _ _ _ _ T') : waiting_for_ack (status s) = false),
    (eq_trans (f_equal v_ack V) (fd_ack _ _ _ _ _ T') : ack_required (status s) = false).
  apply (sender_block pos true count); [done|lia|done|done|rewrite Hout; done|lia|].
  intros check v' Hg Hv Hv2. apply (HQ check); [done|done|]. by rewrite Hv2, Hout.
Qed.

(** ** After the file *)

Lemma step_next_entry {R} n v (Q : option file_info -> zview -> Prop) :
  v_list v = Some l -> v_next v = n -> (n <= length l)%nat -> Q (l !! n) v -> step_of R upload_entry v Q.
Proof.
  intros Hl <- Hn HQ. unfold upload_entry. apply step_bind, step_gets. intros s _ V.
  rewrite (eq_trans (f_equal v_list V) Hl : upload_file_list s = Some l). clear s V.
  apply step_bind, (step_nonnull _ l); [done|]. apply step_bind, step_gets. intros s _ V.
  rewrite (f_equal v_next V : upload_file_list_i s = v_next v).
  destruct (Nat.ltb_spec (v_next v) (length l)); [by apply step_ret|].
  assert (E : v_next v = length l) by lia. rewrite E, Nat.eqb_refl. apply step_ret.
  rewrite E in HQ. by rewrite lookup_ge_None_2 in HQ.
Qed.

(** The file is closed; [step_setup] goes on with the next entry. *)
Lemma step_next_file v (Q : unit -> zview -> Prop) :
  v_name v = Some name -> (exists f, v_stream v = Some f) -> 
  step setup_for_next_file (v <| v_name := None |> <| v_stream := None |> <| v_next ::= S |>) (fun _ v' => Q tt v') ->
  step next_file v Q.
Proof.
  intros Hn [f Hf] HQ. unfold next_file. apply step_bind, step_gets. intros s _ V.
  rewrite (eq_trans (f_equal v_stream V) Hf : file_stream (status s) = Some f).
  apply step_bind, step_on_stats, step_bind, step_say, step_bind, (step_nonnull _ f); [done|].
  apply step_bind, (step_assert_name name); [exact Hn|]. apply step_bind.
  vmodify (fun v => v <| v_next ::= S |>). apply step_bind. eapply step_mono; [exact HQ|].
  intros b v' H. by apply step_ret.
Qed.

Lemma step_setup_none v (Q : bool -> zview -> Prop) :
  v_list v = Some l -> v_next v = length l ->
  Q true (v <| v_stream := None |> <| v_name := None |> <| v_state := ZFIN |>) -> step setup_for_next_file v Q.
Proof.
  intros Hl Hi HQ. unfold setup_for_next_file. apply step_bind.
  vmodify (fun v => v <| v_stream := None |> <| v_name := None |>).
  apply step_bind, (step_next_entry (length l)); [exact Hl|exact Hi|done|]. rewrite lookup_ge_None_2 by done.
  apply step_bind, step_on_stats, step_bind, step_dirty, step_bind, step_set_state, step_ret. exact HQ.
Qed.

Lemma step_setup_some {R} e v (Q : bool -> zview -> Prop) :
  v_list v = Some l -> l !! v_next v = Some e -> is_Some (d_files (v_disk v) !! fi_name e) ->
  0 <= st_size e < 2 ^ 32 ->
  Q true (v <| v_size := st_size e |> <| v_stream := Some (opened (fi_name e)) |> <| v_name := Some (basename (fi_name e)) |>
             <| v_state := if decide (v_state v = ABORT) then ABORT else ZFILE |>) ->
  step_of R setup_for_next_file v Q.
Proof.
  intros Hl He [data Hd] Hs HQ. unfold setup_for_next_file. apply step_bind.
  vmodify (fun v => v <| v_stream := None |> <| v_name := None |>).
  apply step_bind, (step_next_entry (v_next v)); [exact Hl|done|apply lookup_lt_Some in He; lia|]. rewrite He. apply step_bind.
  vmodify (fun v => v <| v_size := u32 (st_size e) |>). rewrite u32_id by done.
  apply step_bind, step_gets. intros s _ V. rewrite (f_equal v_disk V : the_disk (shared s) = v_disk v). clear s V.
  unfold fopen_rb. rewrite Hd. apply step_bind.
  vmodify (fun v => v <| v_stream := Some (opened (fi_name e)) |> <| v_name := Some (basename (fi_name e)) |>).
  apply step_bind, step_stats_new_file, step_bind, step_gets. intros s _ V.
  rewrite (f_equal v_state V : state (status s) = v_state v). clear s V.
  destruct (decide (v_state v = ABORT)) as [E|E].
  - rewrite bool_decide_eq_true_2 by done. cbn [negb whenM]. apply step_bind, step_ret, step_ret. rewrite <- E in HQ. vexact HQ.
  - rewrite bool_decide_eq_false_2 by done. cbn [negb whenM].
    apply step_bind, step_bind, step_on_stats, step_set_state, step_ret. vexact HQ.
Qed.

End one_file.

(** ZRINIT after the last file: ZFIN goes out. *)
Lemma sender_finishes u name l i d streaming count m v (Q : unit -> zview -> Prop) :
  ended u name l i d streaming count v -> S i = length l -> 2100 <= m ->
  (forall v', v_state v' = ZFIN_WAIT -> v_sending v' = true -> v_in v' = [] -> v_cans v' = 0 ->
     v_crc v' = u -> v_disk v' = d -> v_out v' = hframe u P_ZFIN 0 -> Q tt v') ->
  step (zmodem (hframe u P_ZRINIT 0) (empty_outbuf m)) v Q.
Proof.
  intros [T1 T2 T3 T4 T5 T6 T9 T11 T13 T14 T15 T16 T17 [T18 T19]] Hi Hm HQ.
  apply step_zmodem; [by rewrite T1|by rewrite T1|done|]. intros n Hn. rewrite T2.
  eapply (step_send_header ZEOF_WAIT _ _ _ u P_ZRINIT 0); [exact T1|reflexivity|exact T3|lia|exact T4|done..|].
  apply step_bind, step_get. intros s _ V. rewrite (received_type _ _ _ _ s V). cbn [Z.eqb Pos.eqb P_ZRINIT]. clear s V.
  apply step_bind, (step_next_file name); [exact T6|exact T9|].
  apply (step_setup_none l); [exact T18|change (S (v_next v) = length l); by rewrite T19|]. apply step_ret.
  apply (step_send_on ZFIN); [done|exact eq_refl|lia|exact T4|]. cbn [send_switch]. apply step_send_zheader; [done|done|done|]. intros p.
  apply (step_send_on ZFIN_WAIT); [done|done|lia|exact T4|]. cbn [send_switch]. unfold send_zfin_wait.
  apply step_wait_idle; [done|]. apply HQ; [done|exact T2|done|exact T4|exact T5|exact T17|].
  change (hframe (v_crc v) P_ZFIN 0 = hframe u P_ZFIN 0). by rewrite T5.
Qed.

(** ZRINIT with more files in the list: the next one is offered. *)
Lemma sender_offers_next u name l i d streaming count e D m v (Q : unit -> zview -> Prop) :
  ended u name l i d streaming count v -> l !! S i = Some e -> 2100 <= m ->
  let name' := basename (fi_name e) in
  d_files d !! fi_name e = Some D -> fi_name e ∉ d_unreadable d -> st_size e = Z.of_nat (length D) ->
  Z.of_nat (length D) < 2 ^ 31 -> bytes name' -> Z.of_nat (length name') < FILENAME_SIZE ->
  (forall mtime check v', good_check u (file_data name' (Z.of_nat (length D)) mtime) ZCRCW check ->
     offering (fi_name e) name' D l (S i) d ZFILE_WAIT streaming count v' -> v_crc v' = u ->
     v_out v' = zfile_frame u (file_data name' (Z.of_nat (length D)) mtime) check -> Q tt v') ->
  step (zmodem (hframe u P_ZRINIT 0) (empty_outbuf m)) v Q.
Proof.
  intros [T1 T2 T3 T4 T5 T6 T9 T11 T13 T14 T15 T16 T17 [T18 T19]] He Hm name' HD Hr Hsz H31 Hb Hl HQ.
  apply step_zmodem; [by rewrite T1|by rewrite T1|done|]. intros n Hn. rewrite T2.
  eapply (step_send_header ZEOF_WAIT _ _ _ u P_ZRINIT 0); [exact T1|reflexivity|exact T3|lia|exact T4|done..|].
  apply step_bind, step_get. intros s _ V. rewrite (received_type _ _ _ _ s V). cbn [Z.eqb Pos.eqb P_ZRINIT]. clear s V.
  apply step_bind, (step_next_file name); [exact T6|exact T9|].
  apply (step_setup_some l e); [exact T18|change (l !! S (v_next v) = Some e); by rewrite T19| |rewrite Hsz; lia|].
  { change (is_Some (d_files (v_disk v) !! fi_name e)). rewrite T17, HD. by eexists. }
  rewrite decide_False by (change (v_state v <> ABORT); by rewrite T1).
  apply step_ret. apply (step_send_on ZFILE); [done|done|lia|exact T4|]. cbn [send_switch].
  apply (step_send_zfile u name' (Z.of_nat (length D)) m); [done|exact Hsz|exact T5|done|done|done|done|done|lia|].
  intros p mtime check Hg.
  apply (step_send_on ZFILE_WAIT); [done|done|lia|exact T4|]. cbn [send_switch]. unfold send_zfile_wait.
  apply step_wait_idle; [done|]. apply (HQ mtime check); [done| |exact T5|done].
  split; try assumption; try done.
  - by exists (opened (fi_name e)).
  - change (d_files (v_disk v) !! fi_name e = Some D /\ fi_name e ∉ d_unreadable (v_disk v)). by rewrite T17.
  - split; [exact T18|]. change (S (v_next v) = S i). by rewrite T19.
Qed.

Lemma step_over_and_out v (Q : unit -> zview -> Prop) :
  v_out v = [] -> 2100 <= v_room v -> Q tt (v <| v_out := [79; 79] |>) -> step over_and_out v Q.
Proof.
  intros Ho Hr HQ s B <-. change (ob_bytes (output s) = []) in Ho. change (2100 <= ob_max (output s)) in Hr.
  pose proof (b_output s B) as [Hb1 Hb2]. unfold over_and_out. apply wp_on_output, wp_bind. unfold poke.
  apply wp_bind, wp_get, wp_bind, wp_memcpy; [lia|cbn [length]; lia|]. apply wp_modify, wp_modify.
  set (b := (output s) <| ob := _ |> <| ob_n := 2 |>).
  assert (Hbb : ob_bytes b = [79; 79]).
  { change (take (Z.to_nat 2) (blit (ob (output s)) (Z.to_nat 0) [79; 79]) = [79; 79]). change (Z.to_nat 0) with 0%nat. by rewrite blit_0. }
  assert (Hok : buf_ok b).
  { unfold buf_ok, b. cbn. rewrite length_blit; cbn [length]; lia. }
  split.
  - destruct B. split; try done.
  - change (view (s <| output := b |>)) with (view (s <| output := b |>)). rewrite output_view, Hbb. exact HQ.
Qed.

(** ZFIN: the sender says goodbye. *)
Lemma sender_done u m v (Q : unit -> zview -> Prop) :
  v_state v = ZFIN_WAIT -> v_sending v = true -> v_in v = [] -> v_cans v = 0 -> 2100 <= m ->
  (forall v', v_state v' = COMPLETE -> v_disk v' = v_disk v -> v_out v' = [79; 79] -> Q tt v') ->
  step (zmodem (hframe u P_ZFIN 0) (empty_outbuf m)) v Q.
Proof.
  intros T1 T2 T3 T4 Hm HQ.
  apply step_zmodem; [by rewrite T1|by rewrite T1|done|]. intros n Hn. rewrite T2.
  eapply (step_send_header ZFIN_WAIT _ _ _ u P_ZFIN 0); [exact T1|reflexivity|exact T3|lia|exact T4|done..|].
  apply step_bind, step_get. intros s _ V. rewrite (received_type _ _ _ _ s V). cbn [Z.eqb Pos.eqb P_ZFIN]. clear s V.
  apply step_bind, step_over_and_out; [done|exact Hm|]. apply step_bind, step_complete. intros nm st pa li. apply step_ret.
  apply (step_send_on COMPLETE); [done|done|lia|exact T4|]. cbn [send_switch]. apply step_ret. by apply HQ.
Qed.
