(* ===== verification/ZmodemSession.v ===== *)
(** Two Zmodem machines on one line: a batch of files arrives. *)

From Stdlib Require Import ZArith Lia List Bool.
From stdpp Require Import base list numbers gmap strings.
From S2P Require Import Prelude Crc Stdio Protocols Zmodem ZmodemCodec ZmodemHeader ZmodemParse ZmodemData ZmodemMachine ZmodemView ZmodemReceiver ZmodemSender.
Import Zmodem ZMachine.

(** ** The line *)

(** Rounds of the two machines on a line that loses nothing: the receiver gets the
    [flight], the sender what the receiver wrote; the result is the new flight. *)
Fixpoint exchange (rounds : nat) (m : Z) (r s : zmodem_state) (flight : list Z) :
    outcome (zmodem_state * zmodem_state * list Z) :=
  match rounds with
  | O => Done (r, s, flight)
  | S rounds =>
    match zmodem flight (empty_outbuf m) r with
    | Done (_, r) =>
      match zmodem (ob_bytes (output r)) (empty_outbuf m) s with
      | Done (_, s) => exchange rounds m r s (ob_bytes (output s))
      | Fault w => Fault w
      | Diverge => Diverge
      end
    | Fault w => Fault w
    | Diverge => Diverge
    end
  end.

(** A whole session: both sides are started, then [rounds] rounds. *)
Definition session (rounds : nat) (m : Z) (flavor : ZMODEM_FLAVOR) (path : cstring) (files : list file_info)
    (cr cs : common) : outcome (zmodem_state * zmodem_state * list Z) :=
  match zmodem_start None path false flavor (statics cr m) with
  | Done (_, r) =>
    match zmodem_start (Some files) [] true flavor (statics cs m) with
    | Done (_, s) => exchange rounds m r s []
    | Fault w => Fault w
    | Diverge => Diverge
    end
  | Fault w => Fault w
  | Diverge => Diverge
  end.

(** ** Reaching an end *)

Section line.
Context (m : Z) (final : zview -> zview -> list Z -> Prop).

(** From these views the exchange gets to [final]. *)
Definition meets (vr vs : zview) (flight : list Z) : Prop :=
  forall r s, base r -> base s -> view r = vr -> view s = vs ->
    exists n r' s' flight', exchange n m r s flight = Done (r', s', flight') /\ base r' /\ base s' /\
      final (view r') (view s') flight'.

Lemma meets_now vr vs flight : final vr vs flight -> meets vr vs flight.
Proof. intros H r s Br Bs <- <-. by exists 0%nat, r, s, flight. Qed.

Lemma meets_round vr vs flight :
  step (zmodem flight (empty_outbuf m)) vr (fun _ vr' =>
    step (zmodem (v_out vr') (empty_outbuf m)) vs (fun _ vs' => meets vr' vs' (v_out vs'))) ->
  meets vr vs flight.
Proof.
  intros H r s Br Bs Vr Vs. specialize (H r Br Vr). unfold wp in H.
  destruct (zmodem flight (empty_outbuf m) r) as [[[] r1]| |] eqn:Er; [|done..]. destruct H as [Br1 H].
  specialize (H s Bs Vs). unfold wp in H. change (v_out (view r1)) with (ob_bytes (output r1)) in H.
  destruct (zmodem (ob_bytes (output r1)) (empty_outbuf m) s) as [[[] s1]| |] eqn:Es; [|done..]. destruct H as [Bs1 H].
  destruct (H r1 s1 Br1 Bs1 eq_refl eq_refl) as (n & r' & s' & fl & He & H').
  exists (S n), r', s', fl. split; [|exact H']. cbn [exchange]. by rewrite Er, Es.
Qed.

End line.

(** ** One file *)

(** The blocks sent since the start of the session decide when ZCRCQ falls due: a
    file whose last block is full and falls on it stalls. *)
Definition stalls_at (before size : Z) : bool :=
  (0 <? size) && (size mod 1024 =? 0) && ((before + size / 1024) mod 32 =? 0).

Section one_file.
Context (m : Z) (final : zview -> zview -> list Z -> Prop).
Context (u : bool) (src name : cstring) (D : list Z) (l : list file_info) (i : nat) (path full : cstring) (d ds : disk).
Hypothesis (Hm : 2100 <= m) (HD : bytes D) (Hsize : Z.of_nat (length D) < 2 ^ 31) (Hroom : Z.of_nat (length D) <= d_space d).

Definition count_at (b : Z) : Z := 32 - b mod 32.

Lemma count_range b : 1 <= count_at b <= 32.
Proof. unfold count_at. pose proof (Z.mod_pos_bound b 32). lia. Qed.

Lemma count_due b : count_at b - 1 =? 0 = ((b + 1) mod 32 =? 0).
Proof.
  unfold count_at. pose proof (Z.div_mod b 32). pose proof (Z.mod_pos_bound b 32). pose proof (Z.div_mod (b + 1) 32).
  pose proof (Z.mod_pos_bound (b + 1) 32). apply eq_bool_prop_intro. rewrite !Is_true_true, !Z.eqb_eq.
  split; intros E; nia.
Qed.

Lemma count_next b : (if count_at b - 1 =? 0 then 32 else count_at b - 1) = count_at (b + 1).
Proof.
  rewrite count_due. unfold count_at. pose proof (Z.div_mod b 32). pose proof (Z.mod_pos_bound b 32).
  pose proof (Z.div_mod (b + 1) 32). pose proof (Z.mod_pos_bound (b + 1) 32).
  destruct (Z.eqb_spec ((b + 1) mod 32) 0); nia.
Qed.

Lemma block_short pos : 0 <= pos <= Z.of_nat (length D) ->
  Z.of_nat (length (block_at D pos)) = Z.min 1024 (Z.of_nat (length D) - pos).
Proof. intros Hp. unfold block_at. rewrite length_take, length_drop. lia. Qed.

Lemma got_more pos : 0 <= pos <= Z.of_nat (length D) ->
  take (Z.to_nat pos) D ++ block_at D pos = take (Z.to_nat (Z.min (pos + 1024) (Z.of_nat (length D)))) D.
Proof.
  intros Hp. unfold block_at. destruct (Z.le_ge_cases (pos + 1024) (Z.of_nat (length D))) as [H|H].
  - rewrite Z.min_l by lia. replace (Z.to_nat (pos + 1024)) with (Z.to_nat pos + 1024)%nat by lia.
    rewrite <- (take_drop (Z.to_nat pos) D) at 3. rewrite take_app_ge; rewrite length_take_le by lia; [|lia].
    do 2 f_equal. lia.
  - rewrite Z.min_r by lia. rewrite Nat2Z.id, firstn_all. rewrite (take_ge (drop _ _)) by (rewrite length_drop; lia).
    apply take_drop.
Qed.

Lemma frame_fits pos count check :
  good_check u (block_at D pos) (block_escape D pos count) check ->
  Z.of_nat (length (sub_frame 0 (block_at D pos) (block_escape D pos count) check)) <= ZMODEM_MAX_BLOCK_SIZE.
Proof.
  intros (_ & Hc & _). unfold sub_frame. rewrite !length_app. pose proof (length_encs 0 (block_at D pos)).
  pose proof (length_encs 0 check). pose proof (check_size_pos u). pose proof (length_block_at D pos).
  unfold block_escape, ZMODEM_BLOCK_SIZE, ZMODEM_MAX_BLOCK_SIZE. cbn [length].
  destruct (Z.ltb_spec (Z.of_nat (length (block_at D pos))) 1024); [cbn; lia|].
  destruct (count - 1 =? 0); cbn; lia.
Qed.

(** A block on its way: what the receiver has, the flight, and what the sender
    waits for. *)
Record under_way (pos b : Z) (streaming : bool) (x : STATE) (vr vs : zview) (flight : list Z) : Prop := {
  uw_pos : 0 <= pos <= Z.of_nat (length D);
  uw_aligned : pos mod 1024 = 0;
  uw_receiver : taking u d path full name (take (Z.to_nat pos) D) x vr;
  uw_sender : fed u src name D l i ds pos (count_at b) streaming vs;
  uw_flight : exists check, good_check u (block_at D pos) (block_escape D pos (count_at b)) check /\
    let frame := sub_frame 0 (block_at D pos) (block_escape D pos (count_at b)) check in
    (x = ZRPOS_WAIT /\ flight = hframe u P_ZDATA 0 ++ frame) \/ (x = ZDATA /\ flight = frame)
}.

(** The receiver takes it. *)
Lemma block_taken pos b streaming x vr vs flight (Q : unit -> zview -> Prop) :
  under_way pos b streaming x vr vs flight ->
  (forall v', let t := block_escape D pos (count_at b) in
     let next := Z.min (pos + 1024) (Z.of_nat (length D)) in
     taking u d path full name (take (Z.to_nat next) D) (if ends_frame t then ZRPOS_WAIT else ZDATA) v' ->
     v_out v' = block_answer u t next -> Q tt v') ->
  step (zmodem flight (empty_outbuf m)) vr Q.
Proof.
  intros [Hp Ha HT _ (check & Hg & Hfl)] HQ. cbv zeta in Hfl, HQ.
  pose proof (got_more pos Hp) as Hgot. pose proof (length_block_at D pos) as Hlb.
  set (next := Z.min (pos + 1024) (Z.of_nat (length D))) in *.
  assert (Hnext : Z.of_nat (length (take (Z.to_nat next) D)) = next) by (rewrite length_take; lia).
  rewrite <- Hgot in Hnext, HQ. rewrite <- Hnext in HQ.
  assert (Hsz : Z.of_nat (length (block_at D pos)) < ZMODEM_MAX_BLOCK_SIZE) by (unfold ZMODEM_MAX_BLOCK_SIZE; lia).
  pose proof (frame_fits _ _ _ Hg) as Hff. pose proof (block_escape_good D pos (count_at b)) as Het.
  destruct Hfl as [[-> ->]|[-> ->]].
  - apply (receiver_starts u d path full name (take (Z.to_nat pos) D) (block_at D pos) (block_escape D pos (count_at b)) check 0 m);
      [exact HT|done|done|by apply bytes_block_at|done|done|done|done|lia|lia|exact HQ].
  - apply (receiver_continues u d path full name (take (Z.to_nat pos) D) (block_at D pos) (block_escape D pos (count_at b)) check m);
      [exact HT|done|by apply bytes_block_at|done|done|done|done|lia|lia|exact HQ].
Qed.

(** What is true of a block that is not the last: it is full, and [pos + 1024] is
    in the file. *)
Lemma escape_cases pos b :
  0 <= pos <= Z.of_nat (length D) ->
  let t := block_escape D pos (count_at b) in
  (t = ZCRCW /\ Z.of_nat (length D) < pos + 1024 /\ next_count D pos (count_at b) = count_at b /\ next_pos D pos (count_at b) = Z.of_nat (length D)) \/
  (pos + 1024 <= Z.of_nat (length D) /\ next_count D pos (count_at b) = count_at (b + 1) /\ next_pos D pos (count_at b) = pos + 1024 /\
   t = if (b + 1) mod 32 =? 0 then ZCRCQ else ZCRCG).
Proof.
  intros Hp t. pose proof (block_short pos Hp) as Hs. unfold next_count, next_pos, t, block_escape, ZMODEM_BLOCK_SIZE.
  destruct (Z.ltb_spec (Z.of_nat (length (block_at D pos))) 1024).
  - left. repeat split; try done. lia.
  - right. rewrite <- count_due, <- count_next. split; [lia|]. by destruct (count_at b - 1 =? 0).
Qed.

Lemma add_block_mod pos : (pos + 1024) mod 1024 = pos mod 1024.
Proof. replace (pos + 1024) with (pos + 1 * 1024) by lia. by apply Z.mod_add. Qed.
Lemma add_block_div pos : (pos + 1024) / 1024 = pos / 1024 + 1.
Proof. replace (pos + 1024) with (pos + 1 * 1024) by lia. by apply Z.div_add. Qed.

(** The end of the file: both sides as they are when ZEOF is on the line. *)
Definition file_ends (before : Z) (vr vs : zview) : Prop :=
  taking u d path full name D (if stalls_at before (Z.of_nat (length D)) then ZDATA else ZRPOS_WAIT) vr /\
  exists streaming, ended u name l i ds streaming (count_at (before + Z.of_nat (length D) / 1024)) vs.

Lemma stalls_step before pos :
  0 <= pos -> pos mod 1024 = 0 -> pos + 1024 = Z.of_nat (length D) ->
  stalls_at before (Z.of_nat (length D)) = ((before + pos / 1024 + 1) mod 32 =? 0).
Proof.
  intros Hp Ha <-. unfold stalls_at. rewrite (proj2 (Z.ltb_lt 0 _)) by lia.
  by rewrite add_block_mod, add_block_div, Ha, Z.add_assoc.
Qed.

(** The blocks go over one by one. *)
Lemma data_flows before :
  (forall vr vs, file_ends before vr vs -> meets m final vr vs (hframe u P_ZEOF (Z.of_nat (length D)))) ->
  forall k pos b streaming x vr vs flight,
    Z.of_nat (length D) - pos < 1024 * Z.of_nat k -> b = before + pos / 1024 ->
    (pos = Z.of_nat (length D) -> 0 < pos -> b mod 32 <> 0) ->
    under_way pos b streaming x vr vs flight -> meets m final vr vs flight.
Proof.
  intros Hend k. induction k as [|k IH]; intros pos b streaming x vr vs flight Hk Hb Hlast U; [destruct U; lia|].
  pose proof U as [Hp Ha _ Hs _]. apply meets_round. apply (block_taken pos b streaming x vr vs flight); [done|].
  intros vr'. cbv zeta. intros HT Ho. rewrite Ho. unfold fed in Hs.
  destruct (escape_cases pos b Hp) as [(Et & Hlt & Ec & En)|(Hle & Ec & En & Et)]; rewrite Et in *; rewrite Ec, En in Hs.
  - rewrite Z.min_r in HT |- * by lia. rewrite Nat2Z.id, firstn_all in HT.
    apply (sender_ends u src name D l i ds _ _ m _ _ Hs); [lia|done|]. intros vs' He Hz. rewrite Hz. apply Hend. split.
    + assert (Hst : stalls_at before (Z.of_nat (length D)) = false); [|by rewrite Hst].
      unfold stalls_at. destruct (Z.ltb_spec 0 (Z.of_nat (length D))) as [H0|H0]; [|done]. cbn [andb].
      destruct (Z.eqb_spec (Z.of_nat (length D) mod 1024) 0) as [H1|H1]; [|done]. cbn [andb].
      assert (Epos : pos = Z.of_nat (length D)).
      { pose proof (Z.div_mod pos 1024). pose proof (Z.div_mod (Z.of_nat (length D)) 1024). nia. }
      apply Z.eqb_neq. rewrite <- Epos, <- Hb. apply Hlast; lia.
    + eexists. replace (before + Z.of_nat (length D) / 1024) with b; [exact He|].
      rewrite Hb. f_equal. pose proof (Z.div_mod pos 1024). pose proof (Z.div_mod (Z.of_nat (length D)) 1024).
      pose proof (Z.mod_pos_bound (Z.of_nat (length D)) 1024). nia.
  - rewrite Z.min_l in HT |- * by lia.
    assert (Ha' : (pos + 1024) mod 1024 = 0) by (by rewrite add_block_mod).
    assert (Hb' : b + 1 = before + (pos + 1024) / 1024).
    { rewrite Hb, add_block_div. lia. }
    destruct (Z.eqb_spec ((b + 1) mod 32) 0) as [E|E].
    + cbn [Z.eqb Pos.eqb ZCRCG ZCRCQ negb orb] in Hs. rewrite orb_true_r in Hs. cbn in HT.
      destruct (Z.eq_dec (pos + 1024) (Z.of_nat (length D))) as [Elen|Elen].
      * rewrite Elen in Hs, HT |- *. rewrite Nat2Z.id, firstn_all in HT.
        apply (sender_ends u src name D l i ds _ _ m _ _ Hs); [lia|done|]. intros vs' He Hz. rewrite Hz. apply Hend. split.
        -- rewrite (stalls_step before pos), <- Hb, E by (done || lia). exact HT.
        -- eexists. rewrite <- Elen, <- Hb'. exact He.
      * apply (sender_acked u src name D l i ds _ _ m _ _ Hs); [lia|lia|done|apply count_range|done|].
        intros check v' Hg Hv Hout. rewrite Hout. apply (IH (pos + 1024) (b + 1) true ZDATA); [lia|done|lia|].
        split; [lia|done|done|exact Hv|]. exists check. split; [done|]. by right.
    + cbn [Z.eqb Pos.eqb ZCRCG ZCRCQ negb orb] in Hs. rewrite orb_false_r in Hs. cbn in HT.
      apply (sender_continues u src name D l i ds _ _ _ m _ _ Hs); [lia|done|apply count_range|done|].
      intros check v' Hg Hv Hout. rewrite Hout. apply (IH (pos + 1024) (b + 1) streaming ZDATA); [lia|done|done|].
      split; [lia|done|done|exact Hv|]. exists check. split; [done|]. by right.
Qed.

Lemma saved_nothing full' : d <| d_files ::= <[full' := []]> |> = saved d full' [].
Proof. unfold saved. destruct d. unfold field_update; cbn. f_equal. lia. Qed.

(** From the offer of the file on the line to its end. *)
Lemma file_flows before streaming mtime check vr vs :
  (forall vr vs, file_ends before vr vs -> meets m final vr vs (hframe u P_ZEOF (Z.of_nat (length D)))) ->
  full = path ++ [SLASH] ++ name -> Forall (fun c => c <> 0) name -> bytes name ->
  Z.of_nat (length full) < FILENAME_SIZE -> free_name d full ->
  v_state vr = ZRINIT_WAIT -> v_sending vr = false -> v_in vr = [] -> v_path vr = Some path -> v_crc vr = u -> v_disk vr = d ->
  offering src name D l i ds ZFILE_WAIT streaming (count_at before) vs -> v_crc vs = u ->
  good_check u (file_data name (Z.of_nat (length D)) mtime) ZCRCW check ->
  meets m final vr vs (zfile_frame u (file_data name (Z.of_nat (length D)) mtime) check).
Proof.
  intros Hend Hfull Hnz Hnb Hfl Hfree R1 R2 R3 R4 R5 R6 Ho Hu Hg. apply meets_round.
  assert (Hs : 0 <= Z.of_nat (length D) < 2 ^ 31) by lia.
  pose proof (length_file_data name _ mtime Hs) as Hlen. pose proof (hframe_bound u P_ZFILE 0) as Hfb.
  assert (Hnl : Z.of_nat (length name) < 256) by (rewrite Hfull, !length_app in Hfl; unfold FILENAME_SIZE in Hfl; lia).
  assert (Hframe : Z.of_nat (length (zfile_frame u (file_data name (Z.of_nat (length D)) mtime) check)) <= ZMODEM_MAX_BLOCK_SIZE).
  { unfold zfile_frame, sub_frame. rewrite !length_app. destruct Hg as (_ & Hc & _). pose proof (check_size_pos u).
    pose proof (length_encs 0 (file_data name (Z.of_nat (length D)) mtime)). pose proof (length_encs 0 check).
    unfold ZMODEM_MAX_BLOCK_SIZE. cbn [length Z.eqb Pos.eqb ZCRCW]. lia. }
  apply (receiver_takes_file u m path name (Z.of_nat (length D)) mtime check);
    [done..|by apply bytes_file_data|done|done|done|done|by rewrite <- Hfull|by rewrite R6, <- Hfull|].
  intros p. rewrite <- Hfull, R6, R5, saved_nothing. cbn [v_out].
  match goal with |- context [v_out ?w] => set (vr' := w) end.
  assert (HT : taking u d path full name [] ZRPOS_WAIT vr') by (split; [exact eq_refl|exact R2|exact eq_refl|exact R5|exact eq_refl..|exact R4|discriminate]).
  assert (Hout : v_out vr' = hframe u P_ZRPOS 0) by exact eq_refl. clearbody vr'. rewrite Hout.
  apply (sender_positions u src name D l i ds streaming (count_at before) m); [done|done|done|lia|apply count_range|done|].
  intros ck v' Hgc Hv Hvo. rewrite Hvo.
  apply (data_flows before Hend (Z.to_nat (Z.of_nat (length D) / 1024 + 1)) 0 before streaming ZRPOS_WAIT).
  - pose proof (Z.div_mod (Z.of_nat (length D)) 1024). pose proof (Z.mod_pos_bound (Z.of_nat (length D)) 1024).
    pose proof (Z.div_pos (Z.of_nat (length D)) 1024). rewrite Z2Nat.id by lia. lia.
  - change (0 / 1024) with 0. lia.
  - lia.
  - split; [lia|done|exact HT|exact Hv|]. exists ck. split; [done|]. by left.
Qed.

End one_file.

(** ** A batch *)

(** The bytes of an entry of the upload list, and where they go. *)
Definition content (ds : disk) (e : file_info) : list Z := default [] (d_files ds !! fi_name e).
Definition target (path : cstring) (e : file_info) : cstring := path ++ [SLASH] ++ basename (fi_name e).

(** An entry that can be read, whose size is the one in the list, and whose name
    fits. *)
Record sendable (ds : disk) (path : cstring) (e : file_info) : Prop := {
  sd_file : is_Some (d_files ds !! fi_name e);
  sd_readable : fi_name e ∉ d_unreadable ds;
  sd_size : st_size e = Z.of_nat (length (content ds e));
  sd_bound : Z.of_nat (length (content ds e)) < 2 ^ 31;
  sd_bytes : bytes (content ds e);
  sd_name : bytes (basename (fi_name e)) /\ Forall (fun c => c <> 0) (basename (fi_name e));
  sd_length : Z.of_nat (length (target path e)) < FILENAME_SIZE
}.

(** The receiver's disk after the files; what they need; whether one stalls. *)
Definition receive_all (ds : disk) (path : cstring) (es : list file_info) (d : disk) : disk :=
  foldl (fun d e => saved d (target path e) (content ds e)) d es.
Definition bytes_of (ds : disk) (es : list file_info) : Z :=
  foldr (fun e n => Z.of_nat (length (content ds e)) + n) 0 es.
Fixpoint flows (ds : disk) (before : Z) (es : list file_info) : bool :=
  match es with
  | [] => true
  | e :: es =>
    let size := Z.of_nat (length (content ds e)) in
    negb (stalls_at before size) && flows ds (before + size / 1024) es
  end.

Lemma free_after d f data g : free_name d g -> f <> g -> free_name (saved d f data) g.
Proof.
  intros (H1 & H2 & H3) Hne. unfold free_name, saved. destruct d. cbn in *. split; [by rewrite lookup_insert_ne|done].
Qed.

Lemma target_basename path e e' : target path e = target path e' -> basename (fi_name e) = basename (fi_name e').
Proof. unfold target. intros H. apply app_inv_head in H. by injection H. Qed.

Lemma bytes_of_nonneg ds es : 0 <= bytes_of ds es.
Proof. induction es as [|e es IH]; cbn; [done|]. fold (bytes_of ds es). lia. Qed.

Lemma bytes_of_cons ds e es : bytes_of ds (e :: es) = Z.of_nat (length (content ds e)) + bytes_of ds es.
Proof. done. Qed.

Section batch.
Context (m : Z) (u : bool) (path : cstring) (ds : disk) (l : list file_info) (last : disk).
Hypothesis (Hm : 2100 <= m) (Hall : Forall (sendable ds path) l).

(** Both sides are done. *)
Definition finished (vr vs : zview) (flight : list Z) : Prop :=
  v_state vr = COMPLETE /\ v_state vs = COMPLETE /\ v_disk vr = last /\ v_disk vs = ds /\ flight = [79; 79].

(** The receiver between files. *)
Record between (d : disk) (v : zview) : Prop := {
  bt_state : v_state v = ZRINIT_WAIT;
  bt_sending : v_sending v = false;
  bt_in : v_in v = [];
  bt_path : v_path v = Some path;
  bt_crc : v_crc v = u;
  bt_disk : v_disk v = d
}.

Lemma batch_flows : forall rest i e d before streaming mtime check vr vs,
  drop i l = e :: rest -> receive_all ds path (e :: rest) d = last -> flows ds before (e :: rest) = true ->
  Forall (fun e => free_name d (target path e)) (e :: rest) -> NoDup ((fun e => basename (fi_name e)) <$> e :: rest) ->
  bytes_of ds (e :: rest) <= d_space d ->
  between d vr -> offering (fi_name e) (basename (fi_name e)) (content ds e) l i ds ZFILE_WAIT streaming (count_at before) vs ->
  v_crc vs = u ->
  good_check u (file_data (basename (fi_name e)) (Z.of_nat (length (content ds e))) mtime) ZCRCW check ->
  meets m finished vr vs (zfile_frame u (file_data (basename (fi_name e)) (Z.of_nat (length (content ds e))) mtime) check).
Proof.
  intros rest. induction rest as [|e' rest IH]; intros i e d before streaming mtime check vr vs
    Hdrop Hlast Hflow Hfree Hnd Hspace [B1 B2 B3 B4 B5 B6] Ho Hu Hg.
  all: assert (Hi : l !! i = Some e) by (rewrite <- (Nat.add_0_r i), <- lookup_drop, Hdrop; done).
  all: destruct (Forall_lookup_1 _ _ _ _ Hall Hi) as [S1 S2 S3 S4 S5 [S6 S6'] S7].
  all: cbn [flows] in Hflow; apply andb_prop in Hflow as [Hns Hflow]; apply negb_true_iff in Hns.
  all: apply Forall_cons in Hfree as [Hf Hfree]; rewrite bytes_of_cons in Hspace.
  all: match type of Hspace with _ + bytes_of _ ?r <= _ => pose proof (bytes_of_nonneg ds r) as Hrest end.
  all: apply (file_flows m finished u (fi_name e) (basename (fi_name e)) (content ds e) l i path (target path e) d ds
    Hm S5 S4 ltac:(lia) before streaming); try done.
  all: intros vr1 vs1 [HT [st He]]; rewrite Hns in HT; apply meets_round.
  all: apply (receiver_ends_file u d path _ _ _ m _ _ HT); [done|lia|]; intros vr2 R1 R2 R3 R4 R5 R6 Hout; rewrite Hout.
  - assert (Hl : S i = length l).
    { apply (f_equal length) in Hdrop. rewrite length_drop in Hdrop. cbn in Hdrop. lia. }
    apply (sender_finishes u _ l i ds _ _ m _ _ He); [done|done|]. intros vs2 T1 T2 T3 T4 T5 T6 Hz. rewrite Hz.
    apply meets_round, (receiver_finishes u m); [done..|]. intros vr3 R7 R8 Hz3. rewrite Hz3.
    apply (sender_done u m); [done..|]. intros vs3 T7 T8 Hz4. apply meets_now.
    repeat split; try done; [rewrite R8, R6; exact Hlast|congruence].
  - assert (Hi' : l !! S i = Some e').
    { rewrite <- (Nat.add_1_r i), <- lookup_drop, Hdrop. done. }
    destruct (Forall_lookup_1 _ _ _ _ Hall Hi') as [S1' S2' S3' S4' S5' [S8 S8'] S7'].
    destruct S1' as [D' HD']. assert (Ec : content ds e' = D') by (unfold content; by rewrite HD').
    apply (sender_offers_next u _ l i ds _ _ e' (content ds e') m _ _ He);
      [done|done|by rewrite Ec|done|done|done|done|unfold target in S7'; rewrite !length_app in S7'; lia|].
    intros mtime' check' vs2 Hg' Ho' Hu' Hz. rewrite Hz.
    apply (IH (S i) e' (saved d (target path e) (content ds e)) (before + Z.of_nat (length (content ds e)) / 1024) st mtime' check');
      try done.
    + rewrite <- (Nat.add_1_r i), <- drop_drop, Hdrop. done.
    + rewrite fmap_cons in Hnd. apply NoDup_cons in Hnd as [Hnd _]. rewrite Forall_forall in Hfree |- *. intros e2 Hin.
      apply free_after; [by apply Hfree|]. intros E%target_basename. apply Hnd. rewrite E.
      by apply (list_elem_of_fmap_2 (fun e => basename (fi_name e))).
    + rewrite fmap_cons in Hnd. by apply NoDup_cons in Hnd as [_ Hnd].
    + change (bytes_of ds (e' :: rest) <= d_space d - Z.of_nat (length (content ds e))). lia.
Qed.
End batch.

(** ** The start of a session *)

(** A shared state in which no ten seconds pass between any two looks at the clock. *)
Definition quick (c : common) : Prop := forall i j, clock c i - clock c j < 10.

Lemma pending_statics c m : pending (statics c m) = [].
Proof. done. Qed.

(** The end of [zmodem_start]: the timer and the map are set. *)
Lemma start_runs v (Q : bool -> zview -> Prop) s :
  base_of false s -> view s = v -> Q true v ->
  wp (reset_timer;; on_status (fun st => st <| timeout_count := 0 |>);; setup_encode_byte_map;; mret true) s
    (fun a s' => base s' /\ Q a (view s')).
Proof.
  intros B <- HQ. unfold reset_timer, time, on_status, setup_encode_byte_map.
  apply wp_bind, wp_bind, wp_zlift, wp_bind, wp_gets, wp_bind, wp_modify, wp_ret, wp_modify, wp_bind, wp_modify, wp_bind, wp_modify, wp_ret.
  split; [|exact HQ]. destruct B. split; try done.
  - intros _. by apply plain_map.
  - by destruct b_timeouts.
  - intros _. by eexists.
Qed.

(** The view after the start. *)
Definition started (u : bool) (v : zview) : zview :=
  v <| v_crc := u |> <| v_state := INIT |> <| v_reliable := true |> <| v_count := 32 |> <| v_streaming := false |> <| v_in := [] |>.

Lemma wp_step {A B} (m : ZM A) (k : A -> ZM B) v s (Q : B -> zmodem_state -> Prop) :
  base_of false s -> view s = v ->
  step_of false m v (fun a v' => forall s', base_of false s' -> view s' = v' -> wp (k a) s' Q) ->
  wp (m ≫= k) s Q.
Proof.
  intros Bs V H. apply wp_bind. eapply wp_mono; [by apply H|]. intros a s' [B' H']. by apply H'.
Qed.

(** The steps of [zmodem_start] after the first file or the path is set. *)
Definition start_tail (send : bool) (flavor : ZMODEM_FLAVOR) : ZM bool :=
  (if decide (flavor = Z_CRC32)
   then whenM (negb send) (on_status (fun st => st <| use_crc32 := true |>))
   else on_status (fun st => st <| use_crc32 := false |>));;
  set_state INIT;;
  on_stats (fun q => q <| block_size := ZMODEM_BLOCK_SIZE |>);;
  on_status (fun st => st <| confirmed_bytes := 0 |> <| last_confirmed_bytes := 0 |>
                          <| consecutive_errors := 0 |> <| reliable_link := true |>
                          <| blocks_ack_count := WINDOW_SIZE_RELIABLE |> <| streaming_zdata := false |>);;
  last_msg (EmptyString, []);;
  clear_packet_buffer;;
  modify (fun s => s <| outbound_packet ::= fun b => b <| ob_n := 0 |> |>);;
  reset_timer;;
  on_status (fun st => st <| timeout_count := 0 |>);;
  setup_encode_byte_map;;
  mret true.

Lemma start_ends (send : bool) flavor v s (Q : bool -> zview -> Prop) :
  base_of false s -> view s = v ->
  Q true (started (if decide (flavor = Z_CRC32) then (if send then v_crc v else true) else false) v) ->
  wp (start_tail send flavor) s (fun a s' => base s' /\ Q a (view s')).
Proof.
  intros Bs V HQ. unfold start_tail.
  set (u := if decide (flavor = Z_CRC32) then (if send then v_crc v else true) else false) in *.
  apply (wp_step _ _ v); [done|done|]. apply (step_mono _ _ (fun (_ : unit) (w : zview) => w = v <| v_crc := u |>)).
  { unfold u. destruct (decide (flavor = Z_CRC32)); [destruct send; cbn [negb whenM]|].
    - apply step_ret. by destruct v.
    - by vmodify (fun v => v <| v_crc := true |>).
    - by vmodify (fun v => v <| v_crc := false |>). }
  clearbody u. intros _ ? -> s1 B1 V1. apply (wp_step _ _ _ _ _ B1 V1), step_set_state. intros s2 B2 V2.
  apply (wp_step _ _ _ _ _ B2 V2), step_on_stats. intros s3 B3 V3. apply (wp_step _ _ _ _ _ B3 V3).
  vmodify (fun v => v <| v_reliable := true |> <| v_count := 32 |> <| v_streaming := false |>). intros s4 B4 V4.
  apply (wp_step _ _ _ _ _ B4 V4), step_say. intros s5 B5 V5. apply (wp_step _ _ _ _ _ B5 V5), step_clear. intros s6 B6 V6.
  apply (wp_step _ _ _ _ _ B6 V6). apply (step_modify _ _ (fun v => v)); [keeps_base|done|]. intros s7 B7 V7.
  by apply (start_runs _ _ s7 B7 V7).
Qed.

Lemma statics_base c m : quick c -> 2100 <= m -> base_of false (statics c m).
Proof.
  intros Hq Hm. split; try done.
  - split; [apply length_replicate|cbn; lia].
Qed.

(** The receiver after its start. *)
Lemma receiver_started flavor path c m :
  quick c -> 2100 <= m -> exists r, zmodem_start None path false flavor (statics c m) = Done (true, r) /\ base r /\
    v_state (view r) = INIT /\ v_sending (view r) = false /\ v_in (view r) = [] /\ v_path (view r) = Some path /\
    v_crc (view r) = bool_decide (flavor = Z_CRC32) /\ v_disk (view r) = the_disk c.
Proof.
  intros Hq Hm. pose proof (statics_base c m Hq Hm) as B0.
  assert (H : wp (zmodem_start None path false flavor) (statics c m) (fun a r => base r /\ (a = true /\
    v_state (view r) = INIT /\ v_sending (view r) = false /\ v_in (view r) = [] /\ v_path (view r) = Some path /\
    v_crc (view r) = bool_decide (flavor = Z_CRC32) /\ v_disk (view r) = the_disk c))).
  { unfold zmodem_start. apply wp_bind, wp_assert; [done|].
    apply (wp_step _ _ _ _ _ B0 eq_refl), step_set_state. intros s1 B1 V1.
    apply (wp_step _ _ _ _ _ B1 V1). vmodify (fun v => v <| v_list := None |> <| v_next := 0%nat |>). intros s2 B2 V2.
    apply (wp_step _ _ _ _ _ B2 V2). vmodify (fun v => v <| v_sending := false |>). intros s3 B3 V3.
    apply (wp_step _ _ _ _ _ B3 V3), step_bind. vmodify (fun v => v <| v_path := Some path |>).
    apply step_bind, step_lift; [done|]. intros []. apply step_bind, step_lift; [done|]. intros []. apply step_ret. intros s4 B4 V4.
    cbn [negb]. fold (start_tail false flavor). apply (start_ends false flavor _ _ (fun a w => a = true /\ v_state w = INIT /\
      v_sending w = false /\ v_in w = [] /\ v_path w = Some path /\ v_crc w = bool_decide (flavor = Z_CRC32) /\ v_disk w = the_disk c) B4 V4).
    by destruct flavor. }
  apply wp_run in H as (a & r & Hr & Br & -> & H). exists r. done.
Qed.

(** The sender after its start, with the first file open. *)
Lemma sender_started flavor e l D c m :
  quick c -> 2100 <= m -> d_files (the_disk c) !! fi_name e = Some D -> fi_name e ∉ d_unreadable (the_disk c) ->
  st_size e = Z.of_nat (length D) -> Z.of_nat (length D) < 2 ^ 31 ->
  exists s, zmodem_start (Some (e :: l)) [] true flavor (statics c m) = Done (true, s) /\ base s /\
    offering (fi_name e) (basename (fi_name e)) D (e :: l) 0 (the_disk c) INIT false 32 (view s) /\
    v_crc (view s) = bool_decide (flavor = Z_CRC32).
Proof.
  intros Hq Hm HD Hr Hsz H31. pose proof (statics_base c m Hq Hm) as B0.
  assert (H : wp (zmodem_start (Some (e :: l)) [] true flavor) (statics c m) (fun a s => base s /\ (a = true /\
    offering (fi_name e) (basename (fi_name e)) D (e :: l) 0 (the_disk c) INIT false 32 (view s) /\
    v_crc (view s) = bool_decide (flavor = Z_CRC32)))).
  { unfold zmodem_start. apply wp_bind, wp_assert; [done|].
    apply (wp_step _ _ _ _ _ B0 eq_refl), step_set_state. intros s1 B1 V1.
    apply (wp_step _ _ _ _ _ B1 V1). vmodify (fun v => v <| v_list := Some (e :: l) |> <| v_next := 0%nat |>). intros s2 B2 V2.
    apply (wp_step _ _ _ _ _ B2 V2). vmodify (fun v => v <| v_sending := true |>). intros s3 B3 V3.
    apply (wp_step _ _ _ _ _ B3 V3), (step_setup_some (e :: l) e);
      [done|done|change (is_Some (d_files (the_disk c) !! fi_name e)); by rewrite HD|rewrite Hsz; lia|].
    rewrite decide_True by done. intros s4 B4 V4. cbn [negb]. fold (start_tail true flavor).
    apply (start_ends true flavor _ _ (fun a w => a = true /\
      offering (fi_name e) (basename (fi_name e)) D (e :: l) 0 (the_disk c) INIT false 32 w /\
      v_crc w = bool_decide (flavor = Z_CRC32)) B4 V4).
    split; [done|]. split; [|by destruct flavor].
    split; try done. by exists (opened (fi_name e)). }
  apply wp_run in H as (a & s & Hs & Bs & -> & H). exists s. done.
Qed.

(** ** A session *)

(** The first rounds: ZRINIT, ZRQINIT, ZRINIT, and the first file on the line. *)
Lemma opening_flows final m u path ds e l d vr vs :
  2100 <= m -> sendable ds path e ->
  v_state vr = INIT -> v_sending vr = false -> v_in vr = [] -> v_path vr = Some path -> v_crc vr = u -> v_disk vr = d ->
  offering (fi_name e) (basename (fi_name e)) (content ds e) (e :: l) 0 ds INIT false 32 vs -> (u = false -> v_crc vs = false) ->
  (forall mtime check vr vs, between u path d vr ->
     offering (fi_name e) (basename (fi_name e)) (content ds e) (e :: l) 0 ds ZFILE_WAIT false (count_at 0) vs -> v_crc vs = u ->
     good_check u (file_data (basename (fi_name e)) (Z.of_nat (length (content ds e))) mtime) ZCRCW check ->
     meets m final vr vs (zfile_frame u (file_data (basename (fi_name e)) (Z.of_nat (length (content ds e))) mtime) check)) ->
  meets m final vr vs [].
Proof.
  intros Hm [S1 S2 S3 S4 S5 [S6 S6'] S7] R1 R2 R3 R4 R5 R6 [T1 T2 T3 T4 T6 T7 T9 T10 T11 T13 T14 T15 T16 T18 T19] Hu Hnext.
  apply meets_round, receiver_begins; [done..|]. intros p1.
  match goal with |- context [v_out ?w] => set (vr1 := w) end.
  assert (Er : v_out vr1 = hframe u P_ZRINIT (offer u)) by (change (hframe (v_crc vr) P_ZRINIT (offer (v_crc vr)) = hframe u P_ZRINIT (offer u)); by rewrite R5).
  rewrite Er. apply (sender_begins u); [done..|]. intros p2.
  match goal with |- context [v_out ?w] => set (vs1 := w) end.
  assert (Es : v_out vs1 = hframe u P_ZRQINIT 0) by (by apply hframe_hex). rewrite Es.
  apply meets_round, receiver_asked; [done..|]. intros p3.
  match goal with |- context [v_out ?w] => set (vr2 := w) end.
  assert (Er2 : v_out vr2 = hframe u P_ZRINIT (offer u)) by (change (hframe (v_crc vr) P_ZRINIT (offer (v_crc vr)) = hframe u P_ZRINIT (offer u)); by rewrite R5).
  rewrite Er2.
  apply (sender_offers u (basename (fi_name e)) m); [done..|exact Hu|done|done|done| |rewrite (T7 : v_size vs1 = _); lia|].
  { unfold target in S7. rewrite !length_app in S7. lia. }
  intros p4 mtime check. rewrite (T7 : v_size vs1 = Z.of_nat (length (content ds e))). intros Hg.
  match goal with |- meets _ _ _ ?w _ => set (vs2 := w) end.
  change (v_out vs2) with (zfile_frame u (file_data (basename (fi_name e)) (Z.of_nat (length (content ds e))) mtime) check).
  apply (Hnext mtime check); [| |exact eq_refl|exact Hg].
  - split; [exact eq_refl|exact R2|exact eq_refl|exact R4|exact R5|exact R6].
  - split; [exact eq_refl|exact T2|exact eq_refl|exact T4|exact T6|exact T7|exact T9|exact T10|exact T11|exact T13|exact T14|exact T15|exact T16|exact T18|exact T19].
Qed.

(** Where the files of a batch are afterwards. *)
Lemma receive_all_other ds path es d f :
  f ∉ (target path <$> es) -> d_files (receive_all ds path es d) !! f = d_files d !! f.
Proof.
  revert d. induction es as [|e es IH]; intros d Hf; [done|]. rewrite fmap_cons, not_elem_of_cons in Hf. destruct Hf as [Hne Hf].
  cbn [receive_all foldl]. fold (receive_all ds path es (saved d (target path e) (content ds e))).
  rewrite IH by done. by apply lookup_insert_ne.
Qed.

Lemma receive_all_arrived ds path es d e :
  NoDup ((fun e => basename (fi_name e)) <$> es) -> e ∈ es ->
  d_files (receive_all ds path es d) !! target path e = Some (content ds e).
Proof.
  revert d. induction es as [|e' es IH]; intros d Hnd Hin; [by apply not_elem_of_nil in Hin|].
  rewrite fmap_cons, NoDup_cons in Hnd. destruct Hnd as [Hne Hnd].
  cbn [receive_all foldl]. fold (receive_all ds path es (saved d (target path e') (content ds e'))).
  apply elem_of_cons in Hin as [->|Hin]; [|by apply IH].
  rewrite receive_all_other; [apply lookup_insert_eq|].
  intros (e2 & E & H2)%list_elem_of_fmap. apply Hne. apply target_basename in E. rewrite E.
  by apply (list_elem_of_fmap_2 (fun e => basename (fi_name e))).
Qed.

(** C1: a batch sent by one Qodem to another over a line that loses nothing
    arrives: started with the same flavor, with names that are free, room on the
    disk, clocks on which no ten seconds pass and no file that stalls the window, both machines come to COMPLETE after
    some number of rounds, every file is on the receiver's disk under its base
    name in the download directory with exactly the sender's bytes, no other file
    of the receiver has changed and the sender's disk is as it was. *)
Theorem zmodem_batch_arrives m flavor path es cr cs :
  let ds := the_disk cs in let d := the_disk cr in
  quick cr -> quick cs -> 2100 <= m -> es <> [] -> Forall (sendable ds path) es -> flows ds 0 es = true ->
  Forall (fun e => free_name d (target path e)) es -> NoDup ((fun e => basename (fi_name e)) <$> es) ->
  bytes_of ds es <= d_space d ->
  exists rounds r s, session rounds m flavor path es cr cs = Done (r, s, [79; 79]) /\
    state (status r) = COMPLETE /\ state (status s) = COMPLETE /\ the_disk (shared s) = ds /\
    (forall e, e ∈ es -> d_files (the_disk (shared r)) !! target path e = Some (content ds e)) /\
    (forall f, f ∉ (target path <$> es) -> d_files (the_disk (shared r)) !! f = d_files d !! f).
Proof.
  intros ds d Hqr Hqs Hm Hne Hall Hflow Hfree Hnd Hspace. destruct es as [|e l]; [done|]. clear Hne.
  destruct (receiver_started flavor path cr m Hqr Hm) as (r & Hr & Br & R1 & R2 & R3 & R4 & R5 & R6).
  destruct (Forall_inv Hall) as [[D HD] S2 S3 S4 _ _ _]. assert (Ec : content ds e = D) by (unfold content; by rewrite HD).
  rewrite Ec in S3, S4.
  destruct (sender_started flavor e l D cs m Hqs Hm HD S2 S3 S4) as (s & Hs & Bs & Ho & Hc). rewrite <- Ec in Ho.
  assert (Hmeet : meets m (finished ds (receive_all ds path (e :: l) d)) (view r) (view s) []).
  { apply (opening_flows _ m (bool_decide (flavor = Z_CRC32)) path ds e l d); try done; [by apply Forall_inv in Hall|intros Hu; by rewrite <- Hu|].
    intros mtime check vr vs Hb Ho' Hu Hg.
    by apply (batch_flows m _ path ds (e :: l) _ Hm Hall l 0 e d 0 false mtime check). }
  destruct (Hmeet r s Br Bs eq_refl eq_refl) as (n & r' & s' & fl & He & _ & _ & F1 & F2 & F3 & F4 & ->).
  exists n, r', s'. split; [unfold session; by rewrite Hr, Hs|]. split; [done|]. split; [done|]. split; [done|].
  change (the_disk (shared r')) with (v_disk (view r')). rewrite F3. split.
  - intros e' Hin. by apply receive_all_arrived.
  - intros f Hf. by apply receive_all_other.
Qed.

(** A batch of two files, the first from a directory, and an empty disk. *)
Definition sample_entry (name : string) (size : Z) : file_info :=
  {| fi_name := str name; st_size := size; st_mtime := 1000; st_mode := 420 |}.
Definition sample_sender : common := initial_common (plain_disk {[ str "up/a.bin" := [0; 24; 255; 42]; str "b" := [] ]} 0) (fun _ => 7).
Definition sample_receiver : common := initial_common (plain_disk ∅ 100) (fun _ => 9).

Lemma zmodem_batch_arrives_witness :
  let es := [sample_entry "up/a.bin" 4; sample_entry "b" 0] in
  exists rounds r s, session rounds 4096 Z_CRC32 (str "d") es sample_receiver sample_sender = Done (r, s, [79; 79]) /\
    state (status r) = COMPLETE /\ state (status s) = COMPLETE /\ the_disk (shared s) = the_disk sample_sender /\
    (forall e, e ∈ es -> d_files (the_disk (shared r)) !! target (str "d") e = Some (content (the_disk sample_sender) e)) /\
    (forall f, f ∉ (target (str "d") <$> es) -> d_files (the_disk (shared r)) !! f = d_files (the_disk sample_receiver) !! f).
Proof.
  apply (zmodem_batch_arrives 4096 Z_CRC32 (str "d") [sample_entry "up/a.bin" 4; sample_entry "b" 0] sample_receiver sample_sender).
  - intros i j. apply Z.ltb_lt. reflexivity.
  - intros i j. apply Z.ltb_lt. reflexivity.
  - lia.
  - done.
  - apply Forall_cons; split; [|apply Forall_cons; split; [|constructor]].
    all: split; [by eexists|by vm_compute|done|done|by apply bytes_by_eval|split; [by apply bytes_by_eval|]|done].
    all: by repeat constructor.
  - reflexivity.
  - repeat constructor; try done; by vm_compute.
  - apply NoDup_cons; split; [|by apply NoDup_singleton]. by intros [=]%list_elem_of_singleton.
  - vm_compute; discriminate.
Defined.
