(* ===== verification/ZmodemStall.v ===== *)
(** Transfers that go wrong: a file whose last block is full and falls on the
    window's ZCRCQ never completes, with or without timeouts, and a ZNAK during the
    data kills the sender. *)

From Stdlib Require Import ZArith Lia List Bool.
From stdpp Require Import base list numbers gmap strings.
From S2P Require Import Prelude Crc Stdio Protocols Zmodem ZmodemCodec ZmodemHeader ZmodemParse ZmodemData ZmodemMachine ZmodemView ZmodemReceiver ZmodemSender ZmodemSession.
Import Zmodem ZMachine.

(** The receiver collects a subpacket and has the sender's ZEOF in its buffer. *)
Record stuck_receiver (u : bool) (size : Z) (v : zview) : Prop := {
  sk_state : v_state v = ZDATA;
  sk_sending : v_sending v = false;
  sk_in : v_in v = hframe u P_ZEOF size;
  sk_n : data_n (v_packet v) = 0
}.
Record stuck_sender (v : zview) : Prop := {
  ss_state : v_state v = ZEOF_WAIT;
  ss_sending : v_sending v = true;
  ss_in : v_in v = [];
  ss_cans : v_cans v = 0
}.

Lemma zdata_scan_encs fl l rest : bytes l -> zdata_scan (encs fl l ++ rest) = zdata_scan rest.
Proof. intros H. induction H as [|c l Hc _ IH]; [done|]. by rewrite encs_cons, <- app_assoc, zdata_scan_enc. Qed.

Lemma no_escape_in_zeof u size : zdata_scan (hframe u P_ZEOF size) = false.
Proof.
  unfold hframe. change (hex_type P_ZEOF) with false. cbv iota. unfold binary_header.
  assert (E : forall r, zdata_scan ([ZPAD; C_CAN; if u then 67 else 65] ++ r) = zdata_scan r) by (by destruct u).
  rewrite E, zdata_scan_encs by apply bytes_header. rewrite <- (app_nil_r (encs _ _)). by rewrite zdata_scan_encs by apply bytes_header_check.
Qed.

(** A receiver in ZDATA without an escape in its buffer waits. *)
Lemma step_receive_waits v (Q : bool -> zview -> Prop) :
  zdata_scan (v_in v) = false -> data_n (v_packet v) = 0 -> Q true (v <| v_packet ::= with_n 0 |>) -> Q true v ->
  step receive_zdata v Q.
Proof.
  intros Hs Hn HQ0 HQ s B <-. change (v_in (view s)) with (pending s) in Hs. change (data_n (packet s) = 0) in Hn.
  pose proof (b_n s B) as Hb. unfold receive_zdata, decode_zdata_bytes.
  apply wp_bind, wp_bind, wp_get. cbv zeta. fold (pending s). rewrite Hs, Hn. cbn [negb].
  apply wp_bind, wp_assert; [lia|]. apply wp_ret. apply wp_bind, wp_gets, wp_bind, wp_when; intros _.
  - apply wp_modify, wp_ret. split; [destruct B; by split|exact HQ0].
  - by apply wp_ret.
Qed.

Lemma receiver_stays u size m v (Q : unit -> zview -> Prop) :
  stuck_receiver u size v -> 2100 <= m -> (forall v', stuck_receiver u size v' -> v_out v' = [] -> Q tt v') ->
  step (zmodem [] (empty_outbuf m)) v Q.
Proof.
  intros [T1 T2 T3 T4] Hm HQ. pose proof (hframe_bound u P_ZEOF size) as Hb.
  apply step_zmodem; [by rewrite T1|by rewrite T1|done|]. intros n Hn. rewrite T2.
  apply (step_receive_on ZDATA); [done|change (v_in _) with (v_in v); rewrite T3; unfold ZMODEM_MAX_BLOCK_SIZE; lia|lia|].
  cbn [receive_switch]. apply step_receive_waits; [change (zdata_scan (v_in v) = false); rewrite T3; apply no_escape_in_zeof|exact T4|..];
    by apply HQ.
Qed.

(** The round that brings ZEOF to a receiver in ZDATA. *)
Lemma receiver_stalls u d path full name got size m v (Q : unit -> zview -> Prop) :
  taking u d path full name got ZDATA v -> 2100 <= m ->
  (forall v', stuck_receiver u size v' -> v_out v' = [] -> Q tt v') ->
  step (zmodem (hframe u P_ZEOF size) (empty_outbuf m)) v Q.
Proof.
  intros [T1 T2 T3 _ _ _ _ _ _ T9] Hm HQ. pose proof (hframe_bound u P_ZEOF size) as Hb.
  destruct (T9 eq_refl) as [_ (Hn & _)].
  apply step_zmodem; [by rewrite T1|by rewrite T1|done|]. intros k Hk. rewrite T2.
  apply (step_receive_at ZDATA); [done|change (v_in _) with (v_in v); rewrite T3; cbn [length]; unfold ZMODEM_MAX_BLOCK_SIZE; lia|lia|].
  change (v_in (v <| v_out := [] |> <| v_room := m |>)) with (v_in v). rewrite T3. cbn [app receive_switch].
  apply step_receive_waits; [apply no_escape_in_zeof|exact Hn|..]; by apply HQ.
Qed.

Lemma sender_stays m v (Q : unit -> zview -> Prop) :
  stuck_sender v -> 2100 <= m -> (forall v', stuck_sender v' -> v_out v' = [] -> Q tt v') ->
  step (zmodem [] (empty_outbuf m)) v Q.
Proof.
  intros [T1 T2 T3 T4] Hm HQ. apply step_zmodem; [by rewrite T1|by rewrite T1|done|]. intros n Hn. rewrite T2.
  apply (step_send_on ZEOF_WAIT); [exact T1|exact T3|lia|exact T4|]. cbn [send_switch]. unfold send_zeof_wait.
  apply step_wait_idle; [exact T3|]. by apply HQ.
Qed.

Lemma ended_stuck u name l i d streaming count v : ended u name l i d streaming count v -> stuck_sender v.
Proof. by intros []. Qed.

(** ** Round after round *)

Lemma exchange_add n k m r s flight r' s' flight' :
  exchange n m r s flight = Done (r', s', flight') -> exchange (n + k) m r s flight = exchange k m r' s' flight'.
Proof.
  revert r s flight. induction n as [|n IH]; intros r s flight H; [by injection H as -> -> ->|]. cbn [exchange Nat.add] in *.
  destruct (zmodem flight _ r) as [[[] r1]| |]; [|done..].
  destruct (zmodem (ob_bytes (output r1)) _ s) as [[[] s1]| |]; [|done..]. by apply IH.
Qed.

Lemma session_add n k m flavor path es cr cs r s flight :
  session n m flavor path es cr cs = Done (r, s, flight) ->
  session (n + k) m flavor path es cr cs = exchange k m r s flight.
Proof.
  unfold session. destruct (zmodem_start None _ _ _ _) as [[? r0]| |]; [|done..].
  destruct (zmodem_start (Some _) _ _ _ _) as [[? s0]| |]; [|done..]. apply exchange_add.
Qed.

Lemma one_round m r s flight (Q : zview -> zview -> Prop) :
  base r -> base s ->
  step (zmodem flight (empty_outbuf m)) (view r) (fun _ vr =>
    step (zmodem (v_out vr) (empty_outbuf m)) (view s) (fun _ vs => v_out vs = [] /\ Q vr vs)) ->
  exists r' s', exchange 1 m r s flight = Done (r', s', []) /\ base r' /\ base s' /\ Q (view r') (view s').
Proof.
  intros Br Bs H. specialize (H r Br eq_refl). unfold wp in H. cbn [exchange].
  destruct (zmodem flight (empty_outbuf m) r) as [[[] r1]| |]; [|done..]. destruct H as [Br1 H].
  specialize (H s Bs eq_refl). unfold wp in H. change (v_out (view r1)) with (ob_bytes (output r1)) in H.
  destruct (zmodem (ob_bytes (output r1)) (empty_outbuf m) s) as [[[] s1]| |]; [|done..]. destruct H as (Bs1 & Hz & H).
  change (v_out (view s1)) with (ob_bytes (output s1)) in Hz. rewrite Hz. by exists r1, s1.
Qed.

(** Once both are stuck they stay so. *)
Lemma stuck_forever u size m k : 2100 <= m -> forall r s, base r -> base s ->
  stuck_receiver u size (view r) -> stuck_sender (view s) ->
  exists r' s', exchange k m r s [] = Done (r', s', []) /\ state (status r') = ZDATA /\ state (status s') = ZEOF_WAIT.
Proof.
  intros Hm. induction k as [|k IH]; intros r s Br Bs Hr Hs.
  - exists r, s. split; [done|]. split; [exact (sk_state _ _ _ Hr)|exact (ss_state _ Hs)].
  - destruct (one_round m r s [] (fun vr vs => stuck_receiver u size vr /\ stuck_sender vs) Br Bs) as (r1 & s1 & E & Br1 & Bs1 & Hr1 & Hs1).
    { apply (receiver_stays u size m _ _ Hr Hm). intros vr Hr' Hz. rewrite Hz.
      apply (sender_stays m _ _ Hs Hm). by intros vs Hs' Hz'. }
    change (S k) with (1 + k)%nat. rewrite (exchange_add 1 k _ _ _ _ _ _ _ E). by apply IH.
Qed.

(** ** Time passes

    From here on any time may pass between two calls; during a call the clock
    stands still. *)

(** Neither the progress dialog nor the state and the file of the transfer count. *)
Record same_timer (s s' : zmodem_state) : Prop := {
  st_clock : clock (shared s') = clock (shared s);
  st_disk : the_disk (shared s') = the_disk (shared s);
  st_buffer : packet_buffer s' = packet_buffer s;
  st_buffer_n : packet_buffer_n s' = packet_buffer_n s;
  st_map : encode_byte_map s' = encode_byte_map s;
  st_output : output s' = output s;
  st_outbound : outbound_packet s' = outbound_packet s;
  st_flags : flags (status s') = flags (status s);
  st_crc32 : use_crc32 (status s') = use_crc32 (status s);
  st_size : file_size (status s') = file_size (status s);
  st_sending : sending (status s') = sending (status s);
  st_begin : timeout_begin (status s') = timeout_begin (status s);
  st_length : timeout_length (status s') = timeout_length (status s);
  st_max : timeout_max (status s') = timeout_max (status s);
  st_count : timeout_count (status s') = timeout_count (status s);
  st_running : transfer_running (shared s') = true -> transfer_running (shared s) = true
}.

Lemma same_timer_refl s : same_timer s s.
Proof. by split. Qed.
Lemma same_timer_trans s1 s2 s3 : same_timer s1 s2 -> same_timer s2 s3 -> same_timer s1 s3.
Proof. intros [] []. split; try congruence. auto. Qed.

(** Giving up: the transfer runs no more. *)
Lemma wp_give_up s (Q : unit -> zmodem_state -> Prop) :
  (forall s', same_timer s s' -> transfer_running (shared s') = false -> Q tt s') ->
  wp (stop_file_transfer Q_TRANSFER_STATE_ABORT) s Q.
Proof.
  intros HQ. unfold stop_file_transfer.
  assert (Hstop : forall s1, same_timer s s1 -> wp (lift (finish_file_transfer Q_TRANSFER_STATE_ABORT);;
    modify (fun s => s <| upload_file_list := None |>)) s1 Q).
  { intros s1 H1. apply wp_bind, wp_zlift. unfold finish_file_transfer, stats, time, emit.
    repeat first [apply wp_bind | apply wp_modify | apply wp_gets | apply wp_ret]. apply HQ; [|done].
    destruct H1. split; try done. }
  apply wp_bind, wp_gets, wp_bind, wp_when; intros _; [|apply Hstop, same_timer_refl].
  unfold zmodem_stop. apply wp_bind, wp_get, wp_bind. cbn [orb]. apply wp_ret, wp_bind, wp_modify, wp_modify.
  apply Hstop. by split.
Qed.

Lemma wp_count_error msg s (Q : unit -> zmodem_state -> Prop) :
  (forall s', same_timer s s' -> Q tt s') -> wp (stats_increment_errors msg) s Q.
Proof.
  intros HQ. unfold stats_increment_errors.
  apply wp_bind, wp_zlift. unfold set_transfer_stats_last_message. apply wp_bind, wp_modify, wp_modify.
  apply wp_bind, wp_zlift, wp_modify, wp_bind, wp_modify, wp_bind, wp_gets, wp_bind, wp_zlift, wp_modify.
  apply wp_bind, wp_modify, wp_bind, wp_gets. apply wp_when; intros _; [|apply HQ; by split].
  apply wp_bind, wp_zlift. unfold set_transfer_stats_last_message. apply wp_bind, wp_modify, wp_modify.
  apply wp_bind, wp_give_up. intros s1 H1 _. apply wp_modify, HQ.
  eapply same_timer_trans; [|eapply same_timer_trans; [exact H1|by split]]. by split.
Qed.

(** The timer of a sender, [c] time-outs counted, at the time [t]. *)
Record timer_at (t c : Z) (s : zmodem_state) : Prop := {
  tm_clock : clock (shared s) = fun _ => t;
  tm_length : timeout_length (status s) = 10;
  tm_max : timeout_max (status s) = 5;
  tm_count : timeout_count (status s) = c;
  tm_left : transfer_running (shared s) = true -> c < 5;
  tm_range : 0 <= c <= 5
}.

(** What a time-out leaves alone. *)
Record same_frame (s s' : zmodem_state) : Prop := {
  sf_buffer : packet_buffer s' = packet_buffer s;
  sf_buffer_n : packet_buffer_n s' = packet_buffer_n s;
  sf_map : encode_byte_map s' = encode_byte_map s;
  sf_output : output s' = output s;
  sf_outbound : outbound_packet s' = outbound_packet s;
  sf_flags : flags (status s') = flags (status s);
  sf_crc32 : use_crc32 (status s') = use_crc32 (status s);
  sf_size : file_size (status s') = file_size (status s);
  sf_sending : sending (status s') = sending (status s)
}.

Lemma wp_timer_early t c s (Q : bool -> zmodem_state -> Prop) :
  timer_at t c s -> t - timeout_begin (status s) < 10 ->
  (forall s', same_timer s s' -> state (status s') = state (status s) ->
     transfer_running (shared s') = transfer_running (shared s) -> Q false s') -> wp check_timeout s Q.
Proof.
  intros [T1 T2 _ _ _ _] Hl HQ. unfold check_timeout, time.
  apply wp_bind, wp_zlift, wp_bind, wp_gets, wp_bind, wp_modify, wp_ret, wp_bind, wp_gets.
  set (s0 := s <| shared := _ |>). change (status s0) with (status s). rewrite T1, T2.
  rewrite (proj2 (Z.leb_gt _ _)) by done. by apply wp_ret, HQ.
Qed.

Lemma wp_timer_late t c s (Q : bool -> zmodem_state -> Prop) :
  timer_at t c s -> transfer_running (shared s) = true -> 10 <= t - timeout_begin (status s) ->
  (forall s', same_frame s s' -> timer_at t (c + 1) s' -> timeout_begin (status s') = t -> Q true s') ->
  wp check_timeout s Q.
Proof.
  intros [T1 T2 T3 T4 T5 T6] Hrun Hl HQ. specialize (T5 Hrun). unfold check_timeout, time.
  apply wp_bind, wp_zlift, wp_bind, wp_gets, wp_bind, wp_modify, wp_ret, wp_bind, wp_gets.
  set (s0 := s <| shared := _ |>). change (status s0) with (status s). rewrite T1, T2.
  rewrite (proj2 (Z.leb_le _ _)) by done.
  apply wp_bind, wp_modify, wp_bind, wp_gets. set (s1 := s0 <| status ::= _ |>).
  assert (C1 : timeout_count (status s1) = c + 1).
  { change (i32 (timeout_count (status s) + 1) = c + 1). rewrite T4, i32_id by lia. done. }
  change (timeout_max (status s1)) with (timeout_max (status s)). rewrite T3, C1.
  assert (Hend : forall s2, same_timer s1 s2 -> (5 <= c + 1 -> transfer_running (shared s2) = false) ->
    wp (reset_timer;; mret true) s2 Q).
  { intros s2 [] Hstop. unfold reset_timer, time. apply wp_bind, wp_bind, wp_zlift, wp_bind, wp_gets, wp_bind, wp_modify, wp_ret, wp_modify, wp_ret.
    assert (Ec : clock (shared s2) = fun _ => t) by (rewrite st_clock0; exact T1).
    apply HQ; [by split| |].
    - split; try done; cbn.
      + by rewrite st_length0.
      + by rewrite st_max0.
      + by rewrite st_count0.
      + intros H. destruct (Z.lt_ge_cases (c + 1) 5) as [|H5]; [done|].
        specialize (Hstop H5). change (transfer_running (shared s2) = true) in H. congruence.
      + lia.
    - change (clock (shared s2) (ticks (shared s2)) = t). by rewrite Ec. }
  apply wp_bind. destruct (Z.leb_spec 5 (c + 1)) as [H5|H5].
  - apply wp_bind, wp_count_error. intros s2 H2. apply wp_bind, wp_give_up. intros s3 H3 Hn. apply wp_modify, Hend; [|done].
    eapply same_timer_trans; [exact H2|]. eapply same_timer_trans; [exact H3|by split].
  - apply wp_count_error. intros s2 H2. apply Hend; [done|lia].
Qed.

(** *** The sender *)

(** A sender that waits for the answer to its ZEOF. *)
Record patient (s : zmodem_state) : Prop := {
  pa_state : state (status s) = ZEOF_WAIT;
  pa_sending : sending (status s) = true;
  pa_n : packet_buffer_n s = 0;
  pa_buffer : Z.of_nat (length (packet_buffer s)) = ZMODEM_MAX_BLOCK_SIZE;
  pa_map : encode_byte_map s = build_map (flags (status s));
  pa_flags : plain (flags (status s));
  pa_outbound : ob_n (outbound_packet s) = 0
}.

Lemma wp_fill_nil s (Q : list Z -> zmodem_state -> Prop) :
  packet_buffer_n s = 0 -> Z.of_nat (length (packet_buffer s)) = ZMODEM_MAX_BLOCK_SIZE -> Q [] s ->
  wp (fill_packet_buffer []) s Q.
Proof.
  intros Hn Hl HQ. unfold fill_packet_buffer. apply wp_bind, wp_get. cbv zeta. rewrite Hn.
  change (ZMODEM_MAX_BLOCK_SIZE - 0 <? _) with false. cbv iota.
  apply wp_bind, wp_memcpy; [lia|cbn [length]; lia|]. apply wp_bind, wp_modify, wp_ret.
  assert (E : s <| packet_buffer := blit (packet_buffer s) (Z.to_nat 0) [] |> <| packet_buffer_n ::= Z.add (Z.of_nat (length (@nil Z))) |> = s).
  { destruct s. unfold field_update, blit. cbn in *. by rewrite drop_0. }
  rewrite E. exact HQ.
Qed.

Lemma wp_send_turn n s (Q : unit -> zmodem_state -> Prop) :
  packet_buffer_n s = 0 -> Z.of_nat (length (packet_buffer s)) = ZMODEM_MAX_BLOCK_SIZE ->
  ob_n (outbound_packet s) = 0 ->
  wp (send_switch (state (status s))) s (fun done s' => if done : bool then Q tt s' else wp (send_loop n []) s' Q) ->
  wp (send_loop (S n) []) s Q.
Proof.
  intros Hn Hl Ho H. cbn [send_loop]. apply wp_bind, wp_fill_nil; [done|done|]. apply wp_bind, wp_get. rewrite Hn.
  apply wp_bind, wp_ret, wp_bind, wp_gets. rewrite Ho. change (0 <? 0) with false. cbv iota.
  apply wp_bind. unfold send_state. apply wp_bind, wp_gets. eapply wp_mono; [exact H|].
  intros [] s' HQ; [by apply wp_ret|exact HQ].
Qed.

Lemma patient_same s s' : same_frame s s' -> state (status s') = ZEOF_WAIT -> patient s -> patient s'.
Proof. intros [] Hst []. split; congruence. Qed.

Lemma same_timer_frame s s' : same_timer s s' -> same_frame s s'.
Proof. intros []. by split. Qed.

Lemma timer_same t c s s' :
  same_timer s s' -> timer_at t c s -> timer_at t c s'.
Proof. intros [] []. split; try congruence. auto. Qed.

(** The sender asks the clock; when ten seconds are over ZEOF goes out once more. *)
Lemma wp_waiting_turn n t c s (Q : unit -> zmodem_state -> Prop) :
  patient s -> timer_at t c s -> t - timeout_begin (status s) < 10 ->
  (forall s', same_timer s s' -> patient s' -> transfer_running (shared s') = transfer_running (shared s) -> Q tt s') ->
  wp (send_loop (S n) []) s Q.
Proof.
  intros P T Hl HQ. apply wp_send_turn; [apply P|apply P|apply P|]. rewrite (pa_state s P). cbn [send_switch].
  unfold send_zeof_wait, wait_for. apply wp_bind, wp_gets. rewrite (pa_n s P). change (0 <? 0) with false. cbv iota.
  apply wp_bind, (wp_timer_early t c); [done|done|]. intros s' H1 H2 H3. apply wp_ret, HQ; [done| |done].
  apply (patient_same s); [by apply same_timer_frame|by rewrite H2, (pa_state s P)|done].
Qed.

Lemma wp_late_turn n t c s (Q : unit -> zmodem_state -> Prop) :
  patient s -> timer_at t c s -> transfer_running (shared s) = true -> 10 <= t - timeout_begin (status s) ->
  fresh (output s) ->
  (forall s', patient s' -> timer_at t (c + 1) s' -> timeout_begin (status s') = t -> buf_ok (output s') ->
     ob_bytes (output s') = hframe (use_crc32 (status s)) P_ZEOF (file_size (status s)) -> Q tt s') ->
  wp (send_loop (S (S (S n))) []) s Q.
Proof.
  intros P T Hrun Hl Hf HQ. apply wp_send_turn; [apply P|apply P|apply P|]. rewrite (pa_state s P). cbn [send_switch].
  unfold send_zeof_wait at 1, wait_for. apply wp_bind, wp_gets. rewrite (pa_n s P). change (0 <? 0) with false. cbv iota.
  apply wp_bind, (wp_timer_late t c); [done|done|done|]. intros s1 F1 T1 B1. apply wp_bind, wp_modify, wp_ret.
  set (s2 := s1 <| status ::= _ |>). destruct P as [P1 P2 P3 P4 P5 P6 P7]. pose proof F1 as [].
  apply wp_send_turn; [change (packet_buffer_n s1 = 0); congruence|change (packet_buffer s2) with (packet_buffer s1); congruence|
    change (outbound_packet s2) with (outbound_packet s1); congruence|].
  change (state (status s2)) with ZEOF. cbn [send_switch]. unfold send_zeof, send_header. apply wp_bind, wp_gets, wp_bind.
  apply wp_build_packet.
  { split; [change (fresh (output s1)); by rewrite sf_output0|change (encode_byte_map s1 = build_map (flags (status s1))); congruence|
      change (flags (status s2)) with (flags (status s1)); rewrite sf_flags0; apply P6]. }
  intros b' Hb' _ Eb. apply wp_bind, wp_modify, wp_bind, wp_modify, wp_ret.
  rewrite plain_frame in Eb by (done || (change (flags (status s2)) with (flags (status s1)); by rewrite sf_flags0)).
  match goal with |- wp _ ?x _ => set (s3 := x) end.
  assert (P3' : patient s3).
  { split; [reflexivity|change (sending (status s1) = true); congruence|reflexivity|
      change (packet_buffer s3) with (packet_buffer s1); congruence|
      change (encode_byte_map s1 = build_map (flags (status s1))); congruence|
      change (flags (status s3)) with (flags (status s1)); by rewrite sf_flags0|
      change (outbound_packet s3) with (outbound_packet s1); congruence]. }
  assert (T3 : timer_at t (c + 1) s3) by (destruct T1; by split).
  apply (wp_waiting_turn _ t (c + 1)); [done|done|change (timeout_begin (status s3)) with (timeout_begin (status s1)); lia|].
  intros s4 H4 P4' _. apply HQ; [done|by apply (timer_same _ _ s3)|by rewrite (st_begin _ _ H4)| |].
  - by rewrite (st_output _ _ H4).
  - rewrite (st_output _ _ H4). change (output s3) with b'. rewrite Eb.
    change (hframe (use_crc32 (status s1)) P_ZEOF (file_size (status s1)) =
      hframe (use_crc32 (status s)) P_ZEOF (file_size (status s))). congruence.
Qed.

(** A call of the sender at the time [t]. *)
Definition at_time (t : Z) (s : zmodem_state) : zmodem_state := s <| shared ::= fun c => c <| clock := fun _ => t |> |>.

Lemma sender_call t c m s (Q : unit -> zmodem_state -> Prop) :
  patient s -> timer_at t c s -> 2100 <= m ->
  (forall s', patient s' -> timer_at t c s' -> ob_bytes (output s') = [] -> timeout_begin (status s') = timeout_begin (status s) ->
     transfer_running (shared s') = transfer_running (shared s) ->
     (transfer_running (shared s) = true -> t - timeout_begin (status s) < 10) -> Q tt s') ->
  (forall s' u size, transfer_running (shared s) = true -> patient s' -> timer_at t (c + 1) s' ->
     ob_bytes (output s') = hframe u P_ZEOF size -> timeout_begin (status s') = t -> Q tt s') ->
  wp (protocol_process_data [] (empty_outbuf m)) s Q.
Proof.
  intros P T Hm HQ0 HQ1. unfold protocol_process_data. apply wp_bind, wp_gets.
  destruct (transfer_running (shared s)) eqn:Hrun.
  2: { apply wp_modify, HQ0; try done; [by destruct P|by destruct T]. }
  unfold zmodem. apply wp_bind, wp_modify. set (s0 := s <| output := _ |>).
  assert (P0 : patient s0) by (by destruct P). assert (T0 : timer_at t c s0) by (by destruct T).
  apply wp_bind, wp_assert.
  { apply Z.ltb_lt. change (ob_max (empty_outbuf m)) with m. unfold ZMODEM_MAX_BLOCK_SIZE. lia. }
  apply wp_bind, wp_gets. rewrite (pa_state s0 P0). rewrite bool_decide_eq_false_2 by (by intros [|]).
  apply wp_bind, wp_ret. rewrite (pa_sending s0 P0). cbn [negb]. apply wp_bind.
  unfold zmodem_send. apply wp_bind, wp_get. unfold loop_fuel. rewrite (Nat.add_comm _ 64). cbn [Nat.add].
  assert (Hf : fresh (output s0)) by (split; [split; cbn; rewrite ?length_replicate; lia|split; [done|cbn; lia]]).
  destruct (Z.lt_ge_cases (t - timeout_begin (status s)) 10) as [Hl|Hl].
  - apply (wp_waiting_turn _ t c); [done|done|done|]. intros s1 H1 P1 R1. apply wp_bind, wp_gets.
    rewrite (st_output _ _ H1). change (0 <? ob_n (output s0)) with false. cbn [whenM]. apply wp_ret.
    apply HQ0; [done|by apply (timer_same _ _ s0)|by rewrite (st_output _ _ H1)|by rewrite (st_begin _ _ H1)|by rewrite R1|done].
  - apply (wp_late_turn _ t c); [done..|]. intros s1 P1 T1 B1 _ E1. apply wp_bind, wp_gets, wp_when; intros _.
    + unfold reset_timer, time. apply wp_bind, wp_zlift, wp_bind, wp_gets, wp_bind, wp_modify, wp_ret, wp_modify.
      eapply HQ1; [done|by destruct P1|by destruct T1|exact E1|].
      change (clock (shared s1) (ticks (shared s1)) = t). by rewrite (tm_clock _ _ _ T1).
    + by eapply HQ1; [..|exact E1|].
Qed.

(** *** The receiver *)

(** Bytes that are no CRC escape and do not hide one. *)
Definition no_escape (l : list Z) : Prop := forall rest, zdata_scan (l ++ rest) = zdata_scan rest.

Lemma no_escape_zeof u size : no_escape (hframe u P_ZEOF size).
Proof.
  intros rest. unfold hframe. change (hex_type P_ZEOF) with false. cbv iota. unfold binary_header.
  assert (E : forall r, zdata_scan ([ZPAD; C_CAN; if u then 67 else 65] ++ r) = zdata_scan r) by (by destruct u).
  rewrite <- !app_assoc, E, zdata_scan_encs by apply bytes_header. by rewrite zdata_scan_encs by apply bytes_header_check.
Qed.

Lemma no_escape_app l l' : no_escape l -> no_escape l' -> no_escape (l ++ l').
Proof. intros H H' rest. by rewrite <- app_assoc, H, H'. Qed.

Lemma no_escape_scan l : no_escape l -> zdata_scan l = false.
Proof. intros H. rewrite <- (app_nil_r l), H. done. Qed.

(** A receiver in ZDATA with headers in its buffer, [n] bytes at most. *)
Record deaf (n : Z) (d : disk) (s : zmodem_state) : Prop := {
  df_state : state (status s) = ZDATA;
  df_sending : sending (status s) = false;
  df_pending : no_escape (pending s);
  df_n : 0 <= packet_buffer_n s <= n;
  df_buffer : Z.of_nat (length (packet_buffer s)) = ZMODEM_MAX_BLOCK_SIZE;
  df_data : data_n (packet s) = 0;
  df_disk : the_disk (shared s) = d
}.

Lemma receiver_turn n d input m s (Q : unit -> zmodem_state -> Prop) :
  deaf n d s -> no_escape input -> n + Z.of_nat (length input) <= ZMODEM_MAX_BLOCK_SIZE -> output s = empty_outbuf m ->
  (forall s', deaf (n + Z.of_nat (length input)) d s' -> ob_bytes (output s') = [] -> Q tt s') ->
  wp (zmodem_receive input;; n ← gets (fun s => ob_n (output s)); whenM (0 <? n) reset_timer) s Q.
Proof.
  intros [D1 D2 D3 D4 D5 D6 D7] Hi Hl Ho HQ. apply wp_bind. unfold zmodem_receive. apply wp_bind, wp_get. unfold loop_fuel.
  rewrite (Nat.add_comm _ 64). cbn [Nat.add receive_loop]. apply wp_bind. unfold fill_packet_buffer.
  apply wp_bind, wp_get. cbv zeta. rewrite (proj2 (Z.ltb_ge _ _)) by lia.
  apply wp_bind, wp_memcpy; [lia|lia|]. apply wp_bind, wp_modify, wp_ret.
  set (s2 := s <| packet_buffer := _ |> <| packet_buffer_n ::= _ |>).
  assert (F : pending s2 = pending s ++ input).
  { unfold pending at 1. change (packet_buffer_n s2) with (Z.of_nat (length input) + packet_buffer_n s).
    change (packet_buffer s2) with (blit (packet_buffer s) (Z.to_nat (packet_buffer_n s)) input).
    unfold blit. fold (pending s). rewrite app_assoc. apply take_app_length'. unfold pending. rewrite length_app, length_take. lia. }
  assert (Hd : deaf (n + Z.of_nat (length input)) d s2).
  { split; try done.
    - rewrite F. by apply no_escape_app.
    - change (packet_buffer_n s2) with (Z.of_nat (length input) + packet_buffer_n s). lia.
    - change (packet_buffer s2) with (blit (packet_buffer s) (Z.to_nat (packet_buffer_n s)) input). rewrite length_blit; lia. }
  apply wp_bind. unfold receive_state. apply wp_bind, wp_gets. rewrite (df_state _ _ _ Hd). cbn [receive_switch].
  unfold receive_zdata, decode_zdata_bytes. apply wp_bind, wp_bind, wp_get. cbv zeta. fold (pending s2).
  rewrite (no_escape_scan _ (df_pending _ _ _ Hd)), (df_data _ _ _ Hd). cbn [negb].
  apply wp_bind, wp_assert; [pose proof (df_n _ _ _ Hd); lia|]. apply wp_ret. apply wp_bind, wp_gets, wp_bind.
  assert (Hend : forall (more : ZM unit) s3, deaf (n + Z.of_nat (length input)) d s3 -> output s3 = output s ->
    wp (mret true) s3 (fun done s' => wp (if done : bool then mret tt else more) s'
      (fun _ s' => wp (n ← gets (fun s => ob_n (output s)); whenM (0 <? n) reset_timer) s' Q))).
  { intros more s3 H3 O3. apply wp_ret, wp_ret, wp_bind, wp_gets. rewrite O3, Ho.
    change (0 <? ob_n (empty_outbuf m)) with false. apply wp_ret, HQ; [done|]. by rewrite O3, Ho. }
  apply wp_when; intros _; [apply wp_modify|]; (apply Hend; [|done]); [by destruct Hd|done].
Qed.

Lemma receiver_call n d input m s (Q : unit -> zmodem_state -> Prop) :
  deaf n d s -> 2100 <= m -> no_escape input -> n + Z.of_nat (length input) <= ZMODEM_MAX_BLOCK_SIZE ->
  (forall s', deaf (n + Z.of_nat (length input)) d s' -> ob_bytes (output s') = [] -> Q tt s') ->
  wp (protocol_process_data input (empty_outbuf m)) s Q.
Proof.
  intros D Hm Hi Hl HQ. unfold protocol_process_data. apply wp_bind, wp_gets.
  destruct (transfer_running (shared s)).
  2: { apply wp_modify, HQ; [|done]. destruct D. split; try done; cbn; lia. }
  unfold zmodem. apply wp_bind, wp_modify, wp_bind, wp_assert.
  { apply Z.ltb_lt. change (ob_max (empty_outbuf m)) with m. unfold ZMODEM_MAX_BLOCK_SIZE. lia. }
  apply wp_bind, wp_gets. set (s0 := s <| output := _ |>). assert (D0 : deaf n d s0) by (by destruct D).
  rewrite (df_state _ _ _ D0), (df_sending _ _ _ D0), bool_decide_eq_false_2 by (by intros [|]). cbn [negb].
  apply wp_bind, wp_when; intros _; [|by apply (receiver_turn n d input m)].
  unfold reset_timer, time. apply wp_bind, wp_zlift, wp_bind, wp_gets, wp_bind, wp_modify, wp_ret, wp_modify.
  apply (receiver_turn n d input m); try done. by destruct D0.
Qed.

(** *** Both *)

(** Rounds of which the receiver's and the sender's time is given. *)
Fixpoint exchange_at (times : list (Z * Z)) (m : Z) (r s : zmodem_state) (flight : list Z) :
    outcome (zmodem_state * zmodem_state * list Z) :=
  match times with
  | [] => Done (r, s, flight)
  | (tr, ts) :: times =>
    match protocol_process_data flight (empty_outbuf m) (at_time tr r) with
    | Done (_, r) =>
      match protocol_process_data (ob_bytes (output r)) (empty_outbuf m) (at_time ts s) with
      | Done (_, s) => exchange_at times m r s (ob_bytes (output s))
      | Fault w => Fault w
      | Diverge => Diverge
      end
    | Fault w => Fault w
    | Diverge => Diverge
    end
  end.

(** The sender's time goes on by ten seconds or more from round to round. *)
Fixpoint ten_seconds_apart (from : Z) (times : list (Z * Z)) : Prop :=
  match times with
  | [] => True
  | (_, t) :: times => from + 10 <= t /\ ten_seconds_apart t times
  end.

Lemma timer_moves t t' c s : timer_at t c s -> timer_at t' c (at_time t' s).
Proof. intros []. by split. Qed.

Lemma deaf_rounds m d : 2100 <= m -> forall times c n r s flight,
  deaf n d r -> patient s -> (forall t, timer_at t c (at_time t s)) ->
  no_escape flight -> n + Z.of_nat (length flight) <= 21 * (c + 1) -> 0 <= c <= 5 ->
  exists r' s' flight', exchange_at times m r s flight = Done (r', s', flight') /\
    state (status r') = ZDATA /\ the_disk (shared r') = d /\ state (status s') = ZEOF_WAIT /\
    (transfer_running (shared s) = false -> transfer_running (shared s') = false) /\
    (ten_seconds_apart (timeout_begin (status s)) times -> 5 - c <= Z.of_nat (length times) ->
     transfer_running (shared s') = false).
Proof.
  intros Hm times. induction times as [|[tr ts] times IH]; intros c n r s flight Hr Hs Ht Hf Hn Hc.
  - exists r, s, flight. split; [done|]. split; [apply Hr|]. split; [apply Hr|]. split; [apply Hs|]. split; [done|].
    intros _ H5. cbn in H5. destruct (transfer_running (shared s)) eqn:E; [|done].
    pose proof (tm_left _ _ _ (Ht 0) E). lia.
  - cbn [exchange_at]. assert (Hr0 : deaf n d (at_time tr r)) by (by destruct Hr). assert (Hs0 : patient (at_time ts s)) by (by destruct Hs).
    apply (receiver_call n d flight m (at_time tr r)
      (fun _ r1 => deaf (n + Z.of_nat (length flight)) d r1 /\ ob_bytes (output r1) = [])) in Hr0;
      [|done|done|unfold ZMODEM_MAX_BLOCK_SIZE; lia|done].
    apply wp_run in Hr0 as ([] & r1 & -> & Hr1 & ->).
    apply (sender_call ts c m (at_time ts s) (fun _ s1 => exists c1, patient s1 /\ timer_at ts c1 s1 /\
      no_escape (ob_bytes (output s1)) /\ Z.of_nat (length (ob_bytes (output s1))) <= 21 * (c1 - c) /\ c <= c1 /\
      (transfer_running (shared s) = false -> transfer_running (shared s1) = false) /\
      (timeout_begin (status s) + 10 <= ts -> transfer_running (shared s) = true -> c1 = c + 1 /\ timeout_begin (status s1) = ts)))
      in Hs0; [|apply Ht|done|..].
    + apply wp_run in Hs0 as ([] & s1 & -> & c1 & P1 & T1 & F1 & L1 & C1 & R1 & B1).
      destruct (IH c1 _ r1 s1 (ob_bytes (output s1)) Hr1 P1 ltac:(intros t; by apply (timer_moves ts)) F1 ltac:(lia)
        ltac:(pose proof (tm_range _ _ _ T1); lia)) as (r' & s' & fl & E & E1 & E2 & E3 & E4 & E5).
      exists r', s', fl. split; [exact E|]. split; [done|]. split; [done|]. split; [done|]. split; [auto|].
      intros [Hlate Hrest] Hlen. destruct (transfer_running (shared s)) eqn:Er; [|auto].
      destruct (B1 Hlate eq_refl) as [-> B]. apply E5; [by rewrite B|cbn [length] in Hlen; lia].
    + intros s1 P1 T1 O1 B1 R1 L1. exists c. rewrite O1. split; [done|]. split; [done|]. split; [by intros rest|].
      split; [cbn [length]; lia|]. split; [lia|]. split; [intros H; by rewrite R1|].
      intros Hlate Hrun. specialize (L1 Hrun). change (timeout_begin (status (at_time ts s))) with (timeout_begin (status s)) in L1. lia.
    + intros s1 u size Hrun P1 T1 O1 B1. exists (c + 1). rewrite O1. split; [done|]. split; [done|].
      split; [apply no_escape_zeof|]. pose proof (hframe_bound u P_ZEOF size). split; [lia|]. split; [lia|].
      split; [intros Hstop; change (transfer_running (shared s) = true) in Hrun; congruence|done].
Qed.

Lemma stuck_deaf u size r :
  base r -> stuck_receiver u size (view r) -> deaf 21 (the_disk (shared r)) r.
Proof.
  intros B [S1 S2 S3 S4]. pose proof (b_n r B) as Hn. pose proof (b_buffer r B) as Hb. change (pending r = hframe u P_ZEOF size) in S3.
  split; try done.
  - rewrite S3. apply no_escape_zeof.
  - pose proof (hframe_bound u P_ZEOF size) as H. rewrite <- S3 in H. unfold pending in H. rewrite length_take in H. lia.
Qed.

Lemma stuck_patient s : base s -> stuck_sender (view s) -> patient s /\ forall t, timer_at t 0 (at_time t s).
Proof.
  intros B [S1 S2 S3 _]. destruct (b_timeouts s B) as [T1 T2]. pose proof (b_n s B) as Hn. pose proof (b_buffer s B) as Hb.
  change (pending s = []) in S3. split.
  - split; [exact S1|exact S2| |exact Hb| |apply B|apply B].
    + apply (f_equal length) in S3. unfold pending in S3. rewrite length_take in S3. cbn [length] in S3. lia.
    + rewrite (b_map s B eq_refl). symmetry. apply plain_map, B.
  - intros t. split; [done|exact (b_length s B)|exact T2|exact T1|lia|lia].
Qed.


(** A file of 32 blocks. *)
Definition full_file : list Z := replicate (Z.to_nat 32768) 65.
Definition full_entry : file_info := sample_entry "f" 32768.
Definition full_sender : common := initial_common (plain_disk {[ str "f" := full_file ]} 0) (fun _ => 7).
Definition roomy_receiver : common := initial_common (plain_disk ∅ 40000) (fun _ => 9).

Lemma full_content : content (the_disk full_sender) full_entry = full_file.
Proof. reflexivity. Qed.
Lemma full_length : Z.of_nat (length full_file) = 32768.
Proof. unfold full_file. by rewrite length_replicate, Z2Nat.id. Qed.


(** ** A ZNAK during the data *)

(** The sender alone, fed from the line. *)
Fixpoint fed_bytes (inputs : list (list Z)) (s : zmodem_state) : outcome zmodem_state :=
  match inputs with
  | [] => Done s
  | input :: inputs =>
    match zmodem input (empty_outbuf 4096) s with
    | Done (_, s) => fed_bytes inputs s
    | Fault w => Fault w
    | Diverge => Diverge
    end
  end.

(** a receiver that asks for the file and then answers the data with a ZNAK makes
    the sender call [abort]: [send_zdata] goes to ZRPOS, a state the sender's
    switch has no case for. *)
Theorem znak_aborts_sender :
  exists s1 s2, zmodem_start (Some [sample_entry "b" 0]) [] true Z_CRC16 (statics sample_sender 4096) = Done (true, s1) /\
    fed_bytes [[]; hframe false P_ZRINIT 0; hframe false P_ZRPOS 0] s1 = Done s2 /\ state (status s2) = ZDATA /\
    fed_bytes [hframe false P_ZNAK 0; []] s2 = Fault Aborted.
Proof.
  assert (H : match zmodem_start (Some [sample_entry "b" 0]) [] true Z_CRC16 (statics sample_sender 4096) with
    | Done (true, s1) =>
      match fed_bytes [[]; hframe false P_ZRINIT 0; hframe false P_ZRPOS 0] s1 with
      | Done s2 => state (status s2) = ZDATA /\ fed_bytes [hframe false P_ZNAK 0; []] s2 = Fault Aborted
      | _ => False
      end
    | _ => False
    end) by (vm_compute; done).
  destruct (zmodem_start _ _ _ _ _) as [[[] s1]| |]; [|done..]. exists s1.
  destruct (fed_bytes _ s1) as [s2| |]; [|done..]. by exists s2.
Qed.
