(* ===== verification/Utf8.v ===== *)
(** codepage.c: the UTF-8 encoder and decoder, and the loops of vt100.c, host.c,
    script.c and console.c that decode a stream of bytes. *)

From Stdlib Require Import ZArith Lia List Bool.
From stdpp Require Import base list numbers.
From S2P Require Import Prelude.

Module Utf8.

(** codepage.h *)
Definition UTF8_ACCEPT : Z := 0.
Definition UTF8_REJECT : Z := 1.

(** [utf8_encode(ch, utf8_buffer)]: the bytes stored; [ch] is a signed wchar_t. *)
Definition utf8_encode (ch : Z) : list Z :=
  if ch <=? 0x7F then [u8 ch]
  else if ch <=? 0x7FF then
    [Z.lor 0xC0 (Z.land (Z.shiftr ch 6) 0x1F); Z.lor 0x80 (Z.land ch 0x3F)]
  else if ch <=? 0xFFFF then
    [Z.lor 0xE0 (Z.land (Z.shiftr ch 12) 0x0F); Z.lor 0x80 (Z.land (Z.shiftr ch 6) 0x3F); Z.lor 0x80 (Z.land ch 0x3F)]
  else if ch <=? 0x10FFFF then
    [Z.lor 0xF0 (Z.land (Z.shiftr ch 18) 0x07); Z.lor 0x80 (Z.land (Z.shiftr ch 12) 0x3F);
     Z.lor 0x80 (Z.land (Z.shiftr ch 6) 0x3F); Z.lor 0x80 (Z.land ch 0x3F)]
  else [].

Definition utf8d : list Z :=
  [0; 0; 0; 0; 0; 0; 0; 0; 0; 0; 0; 0; 0; 0; 0; 0; 0; 0; 0; 0; 0; 0; 0; 0; 0; 0; 0; 0; 0; 0; 0; 0;
   0; 0; 0; 0; 0; 0; 0; 0; 0; 0; 0; 0; 0; 0; 0; 0; 0; 0; 0; 0; 0; 0; 0; 0; 0; 0; 0; 0; 0; 0; 0; 0;
   0; 0; 0; 0; 0; 0; 0; 0; 0; 0; 0; 0; 0; 0; 0; 0; 0; 0; 0; 0; 0; 0; 0; 0; 0; 0; 0; 0; 0; 0; 0; 0;
   0; 0; 0; 0; 0; 0; 0; 0; 0; 0; 0; 0; 0; 0; 0; 0; 0; 0; 0; 0; 0; 0; 0; 0; 0; 0; 0; 0; 0; 0; 0; 0;
   1; 1; 1; 1; 1; 1; 1; 1; 1; 1; 1; 1; 1; 1; 1; 1; 9; 9; 9; 9; 9; 9; 9; 9; 9; 9; 9; 9; 9; 9; 9; 9;
   7; 7; 7; 7; 7; 7; 7; 7; 7; 7; 7; 7; 7; 7; 7; 7; 7; 7; 7; 7; 7; 7; 7; 7; 7; 7; 7; 7; 7; 7; 7; 7;
   8; 8; 2; 2; 2; 2; 2; 2; 2; 2; 2; 2; 2; 2; 2; 2; 2; 2; 2; 2; 2; 2; 2; 2; 2; 2; 2; 2; 2; 2; 2; 2;
   0xa; 0x3; 0x3; 0x3; 0x3; 0x3; 0x3; 0x3; 0x3; 0x3; 0x3; 0x3; 0x3; 0x4; 0x3; 0x3;
   0xb; 0x6; 0x6; 0x6; 0x5; 0x8; 0x8; 0x8; 0x8; 0x8; 0x8; 0x8; 0x8; 0x8; 0x8; 0x8;
   0x0; 0x1; 0x2; 0x3; 0x5; 0x8; 0x7; 0x1; 0x1; 0x1; 0x4; 0x6; 0x1; 0x1; 0x1; 0x1;
   1; 1; 1; 1; 1; 1; 1; 1; 1; 1; 1; 1; 1; 1; 1; 1; 1; 0; 1; 1; 1; 1; 1; 0; 1; 0; 1; 1; 1; 1; 1; 1;
   1; 2; 1; 1; 1; 1; 1; 2; 1; 2; 1; 1; 1; 1; 1; 1; 1; 1; 1; 1; 1; 1; 1; 2; 1; 1; 1; 1; 1; 1; 1; 1;
   1; 2; 1; 1; 1; 1; 1; 1; 1; 2; 1; 1; 1; 1; 1; 1; 1; 1; 1; 1; 1; 1; 1; 3; 1; 3; 1; 1; 1; 1; 1; 1;
   1; 3; 1; 1; 1; 1; 1; 3; 1; 3; 1; 1; 1; 1; 1; 1; 1; 3; 1; 1; 1; 1; 1; 1; 1; 1; 1; 1; 1; 1; 1; 1].

(** The decoder: [state] and [codep]. *)
Record decoder := { d_state : Z; d_char : Z }.
Definition start : decoder := {| d_state := UTF8_ACCEPT; d_char := 0 |}.

Definition utf8_decode (d : decoder) (byte : Z) : decoder :=
  let type := utf8d !!! Z.to_nat byte in
  {| d_char := if negb (d_state d =? UTF8_ACCEPT)
               then Z.lor (Z.land byte 0x3f) (u32 (Z.shiftl (d_char d) 6))
               else Z.land (Z.shiftr 0xff type) byte;
     d_state := utf8d !!! Z.to_nat (256 + d_state d * 16 + type) |}.

(** vt100() and line_buffer_char(): one byte; [last] is the state before it. *)
Definition take_byte (d : decoder) (byte : Z) : decoder * option Z :=
  let d' := utf8_decode d byte in
  if (d_state d =? d_state d') && negb (d_state d' =? UTF8_ACCEPT)
  then ({| d_state := 0; d_char := d_char d' |}, None)
  else if negb (d_state d' =? UTF8_ACCEPT) then (d', None)
  else (d', Some (d_char d')).

Fixpoint take_bytes (d : decoder) (l : list Z) : decoder * list Z :=
  match l with
  | [] => (d, [])
  | b :: l =>
    let '(d, c) := take_byte d b in
    let '(d, cs) := take_bytes d l in
    (d, match c with Some c => c :: cs | None => cs end)
  end.

(** script_process_data() and the paste of console.c: [last] is the state before
    the whole buffer. *)
Fixpoint take_buffer (last : Z) (d : decoder) (l : list Z) : decoder * list Z :=
  match l with
  | [] => (d, [])
  | b :: l =>
    let d := utf8_decode d b in
    if (last =? d_state d) && negb (d_state d =? UTF8_ACCEPT)
    then take_buffer last {| d_state := 0; d_char := d_char d |} l
    else if negb (d_state d =? UTF8_ACCEPT) then take_buffer last d l
    else let '(d', cs) := take_buffer last d l in (d', d_char d :: cs)
  end.
Definition read_buffer (d : decoder) (l : list Z) : decoder * list Z := take_buffer (d_state d) d l.

(** ** What the decoder is to do *)

(** A Unicode scalar value. *)
Definition scalar (c : Z) : Prop := 0 <= c <= 0x10FFFF /\ ~ (0xD800 <= c <= 0xDFFF).

(** The transitions, as ranges of bytes. *)
Definition within (lo hi b : Z) : bool := (lo <=? b) && (b <=? hi).
Definition next (s b : Z) : Z :=
  if s =? 0 then
    if b <=? 0x7F then 0
    else if within 0xC2 0xDF b then 2
    else if b =? 0xE0 then 4
    else if within 0xE1 0xEC b || within 0xEE 0xEF b then 3
    else if b =? 0xED then 5
    else if b =? 0xF0 then 6
    else if within 0xF1 0xF3 b then 7
    else if b =? 0xF4 then 8
    else 1
  else if s =? 2 then if within 0x80 0xBF b then 0 else 1
  else if s =? 3 then if within 0x80 0xBF b then 2 else 1
  else if s =? 4 then if within 0xA0 0xBF b then 2 else 1
  else if s =? 5 then if within 0x80 0x9F b then 2 else 1
  else if s =? 6 then if within 0x90 0xBF b then 3 else 1
  else if s =? 7 then if within 0x80 0xBF b then 3 else 1
  else if s =? 8 then if within 0x80 0x8F b then 3 else 1
  else 1.

(** The one character that a sequence of bytes stands for. *)
Fixpoint decode_one (d : decoder) (l : list Z) : option Z :=
  match l with
  | [] => None
  | b :: l =>
    let d := utf8_decode d b in
    if d_state d =? UTF8_ACCEPT then match l with [] => Some (d_char d) | _ => None end
    else if d_state d =? UTF8_REJECT then None
    else decode_one d l
  end.

(** ** The table *)

Definition states : list Z := [0; 1; 2; 3; 4; 5; 6; 7; 8].

Lemma table_next : forallb (fun s => forallb (fun b =>
  (utf8d !!! Z.to_nat (256 + s * 16 + utf8d !!! Z.to_nat b) =? next s b) && bool_decide (next s b ∈ states)) all_bytes) states = true.
Proof. by vm_compute. Qed.

Lemma decode_state d b : d_state d ∈ states -> is_byte b ->
  d_state (utf8_decode d b) = next (d_state d) b /\ next (d_state d) b ∈ states.
Proof.
  intros Hs Hb. pose proof table_next as H. rewrite forallb_forall in H. specialize (H (d_state d) (proj1 (list_elem_of_In _ _) Hs)).
  apply (all_bytes_spec _ H) in Hb. apply andb_prop in Hb as [H1%Z.eqb_eq H2%bool_decide_eq_true]. by split.
Qed.

(** The bits of a byte that count, by what it is. *)
Definition lead_bits (b : Z) : Z :=
  if b <=? 0x7F then b else if within 0xC2 0xDF b then b - 0xC0
  else if within 0xE0 0xEF b then b - 0xE0 else if within 0xF0 0xF4 b then b - 0xF0 else 0.

Lemma table_lead : forallb (fun b => (next 0 b =? 1) || (Z.land (Z.shiftr 0xff (utf8d !!! Z.to_nat b)) b =? lead_bits b)) all_bytes = true.
Proof. by vm_compute. Qed.
Lemma table_tail : forallb (fun b => negb (within 0x80 0xBF b) || (Z.land b 0x3f =? b - 0x80)) all_bytes = true.
Proof. by vm_compute. Qed.

End Utf8.
