(* ===== verification/Utf8Props.v ===== *)
(** The properties of the UTF-8 codec and of the loops that use it. *)

From Stdlib Require Import ZArith Lia List Bool.
From stdpp Require Import base list numbers.
From S2P Require Import Prelude Utf8.
Import Utf8.

(** ** Arithmetic of the two directions *)

Lemma land_ones_mod a n : 0 <= n -> Z.land a (Z.ones n) = a mod 2 ^ n.
Proof. apply Z.land_ones. Qed.

(** A marker above a field of [n] bits is added. *)
Lemma lor_marker m a n : 0 <= n -> 0 <= a < 2 ^ n -> m mod 2 ^ n = 0 -> Z.lor m a = m + a.
Proof.
  intros Hn Ha Hm. assert (Z.land m a = 0) as E; [|pose proof (Z.add_lor_land m a); lia].
  apply Z.bits_inj'. intros i Hi. rewrite Z.land_spec, Z.bits_0. destruct (Z.lt_ge_cases i n).
  - rewrite <- (Z.mod_pow2_bits_low m n i) by lia. by rewrite Hm, Z.bits_0.
  - rewrite (testbit_high a n i) by lia. apply andb_false_r.
Qed.

Lemma field m s mask n ch : 0 <= n -> mask = Z.ones n -> 0 <= s -> m mod 2 ^ n = 0 ->
  Z.lor m (Z.land (Z.shiftr ch s) mask) = m + (ch / 2 ^ s) mod 2 ^ n.
Proof.
  intros Hn -> Hs Hm. rewrite Z.land_ones, Z.shiftr_div_pow2 by lia. apply (lor_marker m _ n); [done| |done].
  apply Z.mod_pos_bound. lia.
Qed.
Lemma field0 m mask n ch : 0 <= n -> mask = Z.ones n -> m mod 2 ^ n = 0 -> Z.lor m (Z.land ch mask) = m + ch mod 2 ^ n.
Proof. intros. rewrite <- (Z.shiftr_0_r ch), (field m 0 mask n) by done. by rewrite Z.shiftr_0_r, Z.pow_0_r, Z.div_1_r. Qed.

(** The encoder in arithmetic. *)
Lemma encode_arith c : 0 <= c <= 0x10FFFF ->
  utf8_encode c =
    if c <=? 0x7F then [c]
    else if c <=? 0x7FF then [0xC0 + c / 64; 0x80 + c mod 64]
    else if c <=? 0xFFFF then [0xE0 + c / 4096; 0x80 + c / 64 mod 64; 0x80 + c mod 64]
    else [0xF0 + c / 262144; 0x80 + c / 4096 mod 64; 0x80 + c / 64 mod 64; 0x80 + c mod 64].
Proof.
  intros Hc. unfold utf8_encode.
  rewrite (field 0xC0 6 0x1F 5), (field 0xE0 12 0x0F 4), (field 0xF0 18 0x07 3), (field 0x80 6 0x3F 6), (field 0x80 12 0x3F 6), (field0 0x80 0x3F 6) by done.
  change (2 ^ 6) with 64. change (2 ^ 12) with 4096. change (2 ^ 18) with 262144. change (2 ^ 5) with 32. change (2 ^ 4) with 16. change (2 ^ 3) with 8.
  destruct (Z.leb_spec c 0x7F); [rewrite u8_id; [done|unfold is_byte; lia]|].
  destruct (Z.leb_spec c 0x7FF); [rewrite (Z.mod_small (c / 64) 32); [done|]; split; [apply Z.div_pos|apply Z.div_lt_upper_bound]; lia|].
  destruct (Z.leb_spec c 0xFFFF); [rewrite (Z.mod_small (c / 4096) 16); [done|]; split; [apply Z.div_pos|apply Z.div_lt_upper_bound]; lia|].
  destruct (Z.leb_spec c 0x10FFFF); [|lia]. rewrite (Z.mod_small (c / 262144) 8); [done|]. split; [apply Z.div_pos|apply Z.div_lt_upper_bound]; lia.
Qed.

Lemma a_state s : 0 <= s <= 8 -> s ∈ states.
Proof. intros H. apply list_elem_of_In. unfold states. cbn [In]. lia. Qed.

(** A lead byte and a continuation byte. *)
Lemma decode_lead b : is_byte b -> next 0 b <> 1 ->
  utf8_decode start b = {| d_state := next 0 b; d_char := lead_bits b |}.
Proof.
  intros Hb Hn. pose proof (all_bytes_spec _ table_lead b Hb) as H. apply orb_prop in H as [H%Z.eqb_eq|H%Z.eqb_eq]; [done|].
  destruct (decode_state start b) as [Hs _]; [by apply a_state|done|]. cbn [start d_state] in Hs.
  unfold utf8_decode in *. cbn [start d_state d_char UTF8_ACCEPT] in *. by rewrite Hs, H.
Qed.

Lemma decode_tail s c b : s ∈ states -> s <> 0 -> within 0x80 0xBF b = true -> 0 <= c < 2 ^ 20 ->
  utf8_decode {| d_state := s; d_char := c |} b = {| d_state := next s b; d_char := c * 64 + (b - 0x80) |}.
Proof.
  intros Hs H0 Hb Hc. assert (Hb' : is_byte b) by (unfold within, is_byte in *; lia).
  destruct (decode_state {| d_state := s; d_char := c |} b Hs Hb') as [E _].
  pose proof (all_bytes_spec _ table_tail b Hb') as H. cbv beta in H. rewrite Hb in H. apply Z.eqb_eq in H.
  unfold utf8_decode in *. cbn [d_state d_char] in *. rewrite E. f_equal. rewrite (proj2 (Z.eqb_neq s UTF8_ACCEPT) H0). cbn [negb].
  rewrite H, Z.shiftl_mul_pow2, u32_id by lia. rewrite Z.lor_comm. apply (lor_marker _ _ 6); [lia|unfold within in Hb; lia|].
  apply Z.mod_mul. lia.
Qed.

(** ** One character *)

Lemma decode_one_lead b l : is_byte b ->
  decode_one start (b :: l) =
    if next 0 b =? 0 then match l with [] => Some (lead_bits b) | _ => None end
    else if next 0 b =? 1 then None
    else decode_one {| d_state := next 0 b; d_char := lead_bits b |} l.
Proof.
  intros Hb. cbn [decode_one]. destruct (Z.eq_dec (next 0 b) 1) as [E|E].
  - destruct (decode_state start b) as [Hs _]; [by apply a_state|done|]. change (d_state start) with 0 in Hs. by rewrite Hs, E.
  - by rewrite (decode_lead b Hb E).
Qed.

Lemma decode_one_tail s c b l : s ∈ states -> 1 < s -> 0 <= c < 2 ^ 20 -> is_byte b ->
  decode_one {| d_state := s; d_char := c |} (b :: l) =
    if next s b =? 0 then match l with [] => Some (c * 64 + (b - 0x80)) | _ => None end
    else if next s b =? 1 then None
    else decode_one {| d_state := next s b; d_char := c * 64 + (b - 0x80) |} l.
Proof.
  intros Hs H1 Hc Hb. cbn [decode_one]. destruct (Z.eq_dec (next s b) 1) as [E|E].
  - destruct (decode_state {| d_state := s; d_char := c |} b Hs Hb) as [Hd _]. cbn [d_state] in Hd. by rewrite Hd, E.
  - rewrite decode_tail; [done|done|lia| |done].
    unfold next, within in *. repeat case_match; try done; lia.
Qed.

(** The sequences of each lead byte, by arithmetic. *)
Definition tail2 (c : Z) (l : list Z) : option Z :=
  match l with [b] => if within 0x80 0xBF b then Some (c * 64 + (b - 0x80)) else None | _ => None end.
Definition tail3 (lo hi c : Z) (l : list Z) : option Z :=
  match l with b :: l => if within lo hi b then tail2 (c * 64 + (b - 0x80)) l else None | [] => None end.
Definition tail4 (lo hi c : Z) (l : list Z) : option Z :=
  match l with b :: l => if within lo hi b then tail3 0x80 0xBF (c * 64 + (b - 0x80)) l else None | [] => None end.

Lemma state2 c l : bytes l -> 0 <= c < 2 ^ 20 -> decode_one {| d_state := 2; d_char := c |} l = tail2 c l.
Proof.
  intros Hl Hc. destruct l as [|b l]; [done|]. pose proof (Forall_inv Hl) as Hb; apply Forall_inv_tail in Hl.
  rewrite decode_one_tail; [|by apply a_state|done|done|done].
  unfold next, tail2. cbn [Z.eqb Pos.eqb]. by destruct (within 0x80 0xBF b), l.
Qed.

Lemma state3 s lo hi c l : s ∈ states -> 1 < s -> (forall b, next s b = if within lo hi b then 2 else 1) ->
  0x80 <= lo -> hi <= 0xBF -> bytes l -> 0 <= c < 2 ^ 10 -> decode_one {| d_state := s; d_char := c |} l = tail3 lo hi c l.
Proof.
  intros Hs H1 Hn Hlo Hhi Hl Hc. destruct l as [|b l]; [done|]. pose proof (Forall_inv Hl) as Hb; apply Forall_inv_tail in Hl.
  rewrite decode_one_tail by (done || lia). rewrite Hn. cbn [tail3]. destruct (within lo hi b) eqn:E; [|done].
  cbn [Z.eqb Pos.eqb]. apply state2; [done|]. unfold within in E. lia.
Qed.

Lemma state4 s lo hi c l : s ∈ states -> 1 < s -> (forall b, next s b = if within lo hi b then 3 else 1) ->
  0x80 <= lo -> hi <= 0xBF -> bytes l -> 0 <= c < 8 -> decode_one {| d_state := s; d_char := c |} l = tail4 lo hi c l.
Proof.
  intros Hs H1 Hn Hlo Hhi Hl Hc. destruct l as [|b l]; [done|]. pose proof (Forall_inv Hl) as Hb; apply Forall_inv_tail in Hl.
  rewrite decode_one_tail by (done || lia). rewrite Hn. cbn [tail4]. destruct (within lo hi b) eqn:E; [|done].
  cbn [Z.eqb Pos.eqb]. apply state3; [by apply a_state|done|done|done|done|done|]. unfold within in E. lia.
Qed.

(** A first byte and what it asks for. *)
Definition by_lead (b : Z) (l : list Z) : option Z :=
  if b <=? 0x7F then match l with [] => Some b | _ => None end
  else if within 0xC2 0xDF b then tail2 (b - 0xC0) l
  else if b =? 0xE0 then tail3 0xA0 0xBF 0 l
  else if b =? 0xED then tail3 0x80 0x9F 13 l
  else if within 0xE1 0xEF b then tail3 0x80 0xBF (b - 0xE0) l
  else if b =? 0xF0 then tail4 0x90 0xBF 0 l
  else if within 0xF1 0xF3 b then tail4 0x80 0xBF (b - 0xF0) l
  else if b =? 0xF4 then tail4 0x80 0x8F 4 l
  else None.

(** Comparisons that the context decides. *)
Ltac decide_ranges := repeat (match goal with
  | |- context [?a <=? ?b] => first [rewrite (proj2 (Z.leb_le a b)) by lia | rewrite (proj2 (Z.leb_gt a b)) by lia]
  | |- context [?a =? ?b] => first [rewrite (proj2 (Z.eqb_eq a b)) by lia | rewrite (proj2 (Z.eqb_neq a b)) by lia]
  end; cbn [andb orb]).

Lemma decode_by_lead b l : is_byte b -> bytes l -> decode_one start (b :: l) = by_lead b l.
Proof.
  intros Hb Hl. rewrite decode_one_lead by done. unfold is_byte in Hb.
  assert (H : b <= 0x7F \/ 0xC2 <= b <= 0xDF \/ b = 0xE0 \/ b = 0xED \/ (0xE1 <= b <= 0xEF /\ b <> 0xED) \/ b = 0xF0 \/ 0xF1 <= b <= 0xF3 \/
    b = 0xF4 \/ (0x80 <= b < 0xC2 \/ 0xF4 < b)) by lia.
  destruct H as [H|[H|[->|[->|[H|[->|[H|[->|H]]]]]]]].
  - unfold next, by_lead, lead_bits, within. cbn [Z.eqb Pos.eqb]. by decide_ranges.
  - assert (next 0 b = 2) as -> by (unfold next, within; cbn [Z.eqb Pos.eqb]; by decide_ranges).
    unfold by_lead, lead_bits, within. decide_ranges. cbn [Z.eqb Pos.eqb]. apply state2; [done|lia].
  - apply (state3 4 0xA0 0xBF 0); [by apply a_state|done..].
  - apply (state3 5 0x80 0x9F 13); [by apply a_state|done..].
  - assert (next 0 b = 3) as -> by (unfold next, within; cbn [Z.eqb Pos.eqb]; destruct (Z.leb_spec b 0xEC); by decide_ranges).
    unfold by_lead, lead_bits, within. decide_ranges. cbn [Z.eqb Pos.eqb]. apply state3; [by apply a_state|done|done|done|done|done|lia].
  - apply (state4 6 0x90 0xBF 0); [by apply a_state|done..].
  - assert (next 0 b = 7) as -> by (unfold next, within; cbn [Z.eqb Pos.eqb]; by decide_ranges).
    unfold by_lead, lead_bits, within. decide_ranges. cbn [Z.eqb Pos.eqb]. apply state4; [by apply a_state|done|done|done|done|done|lia].
  - apply (state4 8 0x80 0x8F 4); [by apply a_state|done..].
  - assert (next 0 b = 1) as -> by (unfold next, within; cbn [Z.eqb Pos.eqb]; destruct H; by decide_ranges).
    unfold by_lead, within. cbn [Z.eqb Pos.eqb]. destruct H; by decide_ranges.
Qed.

(** A code point in digits of six bits. *)
Lemma digits c : 0 <= c ->
  exists q1 q2 q3 r0 r1 r2, c = 64 * q1 + r0 /\ q1 = 64 * q2 + r1 /\ q2 = 64 * q3 + r2 /\
    0 <= r0 < 64 /\ 0 <= r1 < 64 /\ 0 <= r2 < 64 /\ 0 <= q3 /\
    c / 64 = q1 /\ c mod 64 = r0 /\ c / 4096 = q2 /\ c / 64 mod 64 = r1 /\ c / 262144 = q3 /\ c / 4096 mod 64 = r2.
Proof.
  intros Hc. exists (c / 64), (c / 4096), (c / 262144), (c mod 64), (c / 64 mod 64), (c / 4096 mod 64).
  change 4096 with (64 * 64). change 262144 with (64 * 64 * 64). rewrite <- !Z.div_div by lia.
  pose proof (Z.div_mod c 64). pose proof (Z.div_mod (c / 64) 64). pose proof (Z.div_mod (c / 64 / 64) 64).
  pose proof (Z.mod_pos_bound c 64). pose proof (Z.mod_pos_bound (c / 64) 64). pose proof (Z.mod_pos_bound (c / 64 / 64) 64).
  pose proof (Z.div_pos (c / 64 / 64) 64). pose proof (Z.div_pos (c / 64) 64). pose proof (Z.div_pos c 64). split_and!; lia.
Qed.

Lemma decode_encode c : scalar c -> decode_one start (utf8_encode c) = Some c.
Proof.
  intros [Hc Hs]. rewrite encode_arith by done.
  destruct (digits c) as (q1 & q2 & q3 & r0 & r1 & r2 & E1 & E2 & E3 & B0 & B1 & B2 & B3 & -> & -> & -> & -> & -> & ->); [lia|].
  assert (Hb : forall l, Forall (fun b => 0 <= b < 256) l -> bytes l) by done.
  destruct (Z.leb_spec c 0x7F); [|destruct (Z.leb_spec c 0x7FF); [|destruct (Z.leb_spec c 0xFFFF)]];
    (rewrite decode_by_lead; [|unfold is_byte; lia|repeat constructor; unfold is_byte; lia]); unfold by_lead, tail4, tail3, tail2, within.
  - by decide_ranges.
  - decide_ranges. f_equal. lia.
  - assert (Hq : q2 = 0 \/ q2 = 13 \/ (1 <= q2 <= 15 /\ q2 <> 13)) by lia.
    destruct Hq as [->|[->|Hq]]; decide_ranges; f_equal; lia.
  - assert (Hq : q3 = 0 \/ 1 <= q3 <= 3 \/ q3 = 4) by lia.
    destruct Hq as [->|[Hq| ->]]; decide_ranges; f_equal; lia.
Qed.

Lemma encode_decode l c : bytes l -> decode_one start l = Some c -> scalar c /\ l = utf8_encode c.
Proof.
  intros Hl H. destruct l as [|b l]; [done|].
  rewrite decode_by_lead in H by (by inversion Hl). pose proof (Forall_inv Hl) as Hb. unfold is_byte in Hb.
  assert (Hsc : scalar c -> (b :: l = if c <=? 0x7F then [c]
    else if c <=? 0x7FF then [0xC0 + c / 64; 0x80 + c mod 64]
    else if c <=? 0xFFFF then [0xE0 + c / 4096; 0x80 + c / 64 mod 64; 0x80 + c mod 64]
    else [0xF0 + c / 262144; 0x80 + c / 4096 mod 64; 0x80 + c / 64 mod 64; 0x80 + c mod 64]) -> scalar c /\ b :: l = utf8_encode c).
  { intros Hs E. split; [done|]. rewrite encode_arith; [done|apply Hs]. }
  apply Hsc; clear Hsc; [|destruct (decide (0 <= c)) as [H0|H0];
    [destruct (digits c H0) as (q1 & q2 & q3 & r0 & r1 & r2 & E1 & E2 & E3 & B0 & B1 & B2 & B3 & -> & -> & -> & -> & -> & ->)|]].
  all: unfold by_lead, tail4, tail3, tail2, within, scalar in *; clear Hl.
  all: repeat (match type of H with context [match ?x with _ => _ end] => destruct x eqn:? end; try done).
  all: injection H as <-.
  all: try lia.
  all: decide_ranges; repeat f_equal; lia.
Qed.

(** C25: the decoder's table accepts exactly the encodings of the Unicode scalar
    values: a sequence of bytes is one character for [utf8_decode] if and only if
    it is what [utf8_encode] makes of that character, so nothing overlong, no
    surrogate and nothing above U+10FFFF gets through. *)
Theorem utf8_exact l c : bytes l -> decode_one start l = Some c <-> scalar c /\ l = utf8_encode c.
Proof. intros Hl. split; [by apply encode_decode|]. intros [Hs ->]. by apply decode_encode. Qed.

Lemma utf8_exact_witness :
  decode_one start [0xE2; 0x82; 0xAC] = Some 0x20AC <-> scalar 0x20AC /\ [0xE2; 0x82; 0xAC] = utf8_encode 0x20AC.
Proof. apply (utf8_exact [0xE2; 0x82; 0xAC] 0x20AC). by apply bytes_by_eval. Defined.

(** ** A stream of characters *)

Lemma no_repeat : forallb (fun s => forallb (fun b => (s <=? 1) || negb (next s b =? s)) all_bytes) states = true.
Proof. by vm_compute. Qed.

Lemma next_moves s b : s ∈ states -> is_byte b -> 1 < s -> next s b <> s.
Proof.
  intros Hs Hb H1. pose proof no_repeat as H. rewrite forallb_forall in H. specialize (H s (proj1 (list_elem_of_In _ _) Hs)).
  apply (all_bytes_spec _ H) in Hb. apply orb_prop in Hb as [Hb%Z.leb_le|Hb%negb_true_iff%Z.eqb_neq]; [lia|done].
Qed.

(** Between characters the code point of the last one does not matter. *)
Lemma fresh_char d b : d_state d = 0 -> utf8_decode d b = utf8_decode start b.
Proof. destruct d as [s c]. cbn [d_state]. by intros ->. Qed.
Lemma fresh_one d l : d_state d = 0 -> decode_one d l = decode_one start l.
Proof. intros H. destruct l as [|b l]; [done|]. cbn [decode_one]. by rewrite fresh_char. Qed.

(** Both loops pass over a character that is all there. *)
Lemma take_one l : forall d c rest, d_state d ∈ states -> d_state d <> 1 -> bytes l -> decode_one d l = Some c ->
  take_bytes d (l ++ rest) = let '(d', cs) := take_bytes {| d_state := 0; d_char := c |} rest in (d', c :: cs).
Proof.
  induction l as [|b l IH]; intros d c rest Hs H1 Hl H; [done|]. pose proof (Forall_inv Hl) as Hb. apply Forall_inv_tail in Hl.
  destruct (decode_state d b Hs Hb) as [En Hn]. cbn [decode_one] in H. cbn [app take_bytes]. unfold take_byte.
  destruct (Z.eqb_spec (d_state (utf8_decode d b)) UTF8_ACCEPT) as [E|E].
  - destruct l; [|done]. assert (Hc : d_char (utf8_decode d b) = c) by congruence. rewrite andb_false_r. cbn [negb app].
    destruct (utf8_decode d b) as [s0 c0]. cbn [d_state d_char] in E, Hc. by subst s0 c0.
  - destruct (Z.eqb_spec (d_state (utf8_decode d b)) UTF8_REJECT) as [E1|E1]; [done|].
    assert (Hne : d_state d <> d_state (utf8_decode d b)).
    { rewrite En. rewrite En in E, E1. intros E2. destruct (Z.eq_dec (d_state d) 0) as [E0|E0]; [unfold UTF8_ACCEPT in E; congruence|].
      apply (next_moves (d_state d) b); [done|done| |congruence]. apply list_elem_of_In in Hs. unfold states in Hs. cbn [In] in Hs. lia. }
    rewrite (proj2 (Z.eqb_neq _ _) Hne). cbn [andb negb].
    rewrite (IH (utf8_decode d b) c rest); [by destruct (take_bytes _ rest)|by rewrite En|exact E1|done|done].
Qed.

Lemma buffer_one l : forall d c rest, d_state d ∈ states -> bytes l -> decode_one d l = Some c ->
  take_buffer 0 d (l ++ rest) = let '(d', cs) := take_buffer 0 {| d_state := 0; d_char := c |} rest in (d', c :: cs).
Proof.
  induction l as [|b l IH]; intros d c rest Hs Hl H; [done|]. pose proof (Forall_inv Hl) as Hb. apply Forall_inv_tail in Hl.
  destruct (decode_state d b Hs Hb) as [En Hn]. cbn [decode_one] in H. cbn [app take_buffer].
  destruct (Z.eqb_spec (d_state (utf8_decode d b)) UTF8_ACCEPT) as [E|E].
  - destruct l; [|done]. assert (Hc : d_char (utf8_decode d b) = c) by congruence. rewrite andb_false_r. cbn [negb app].
    destruct (utf8_decode d b) as [s0 c0]. cbn [d_state d_char] in E, Hc. by subst s0 c0.
  - rewrite (proj2 (Z.eqb_neq 0 _)) by (intros E0; by rewrite <- E0 in E). cbn [andb negb].
    destruct (Z.eqb_spec (d_state (utf8_decode d b)) UTF8_REJECT) as [E1|E1]; [done|].
    by rewrite (IH (utf8_decode d b) c rest) by (done || by rewrite En).
Qed.

Definition encode_text (cs : list Z) : list Z := flat_map utf8_encode cs.

Lemma bytes_encode c : scalar c -> bytes (utf8_encode c).
Proof.
  intros [Hc _]. rewrite encode_arith by done.
  destruct (digits c) as (q1 & q2 & q3 & r0 & r1 & r2 & E1 & E2 & E3 & B0 & B1 & B2 & B3 & -> & -> & -> & -> & -> & ->); [lia|].
  repeat case_match; repeat constructor; lia.
Qed.

(** C26: text that is sent as UTF-8 is read back by the byte-wise loop of the
    terminal and of the host mode, character by character, however the bytes come
    in: the decoder is between characters afterwards. *)
Theorem utf8_text_arrives cs d :
  Forall scalar cs -> d_state d = 0 ->
  exists d', take_bytes d (encode_text cs) = (d', cs) /\ d_state d' = 0.
Proof.
  intros Hcs. revert d. induction Hcs as [|c cs Hc _ IH]; intros d Hd; [by exists d|].
  unfold encode_text. cbn [flat_map]. rewrite (take_one _ d c); [|rewrite Hd; by apply a_state|rewrite Hd; done|by apply bytes_encode|
    rewrite fresh_one by done; by apply decode_encode].
  destruct (IH {| d_state := 0; d_char := c |} eq_refl) as (d' & E & Hd'). unfold encode_text in E. rewrite E. by exists d'.
Qed.

Lemma utf8_text_arrives_witness :
  exists d', take_bytes start (encode_text [0x41; 0xE9; 0x20AC; 0x1F600]) = (d', [0x41; 0xE9; 0x20AC; 0x1F600]) /\ d_state d' = 0.
Proof. apply (utf8_text_arrives [0x41; 0xE9; 0x20AC; 0x1F600] start); [|done]. repeat constructor; cbn; lia. Defined.

Lemma utf8_buffer_arrives cs d :
  Forall scalar cs -> d_state d = 0 ->
  exists d', read_buffer d (encode_text cs) = (d', cs) /\ d_state d' = 0.
Proof.
  intros Hcs Hd. unfold read_buffer. rewrite Hd. revert d Hd. induction Hcs as [|c cs Hc _ IH]; intros d Hd; [by exists d|].
  unfold encode_text. cbn [flat_map]. rewrite (buffer_one _ d c); [|rewrite Hd; by apply a_state|by apply bytes_encode|
    rewrite fresh_one by done; by apply decode_encode].
  destruct (IH {| d_state := 0; d_char := c |} eq_refl) as (d' & E & Hd'). unfold encode_text in E. rewrite E. by exists d'.
Qed.

(** ** What the loops lose *)

Lemma rejected_stays d b : d_state d = 1 -> is_byte b -> d_state (utf8_decode d b) = 1.
Proof. intros Hd Hb. destruct (decode_state d b) as [-> _]; [rewrite Hd; by apply a_state|done|]. by rewrite Hd. Qed.

(** a byte that starts no character takes the byte after it along, whatever it
    is: the loop finds the error only at the second byte. *)
Theorem bad_byte_swallows_next d b x l :
  d_state d = 0 -> is_byte b -> is_byte x -> next 0 b = 1 ->
  exists c, take_bytes d (b :: x :: l) = take_bytes {| d_state := 0; d_char := c |} l.
Proof.
  intros Hd Hb Hx Hn. destruct (decode_state d b) as [E1 _]; [rewrite Hd; by apply a_state|done|]. rewrite Hd, Hn in E1.
  pose proof (rejected_stays _ x E1 Hx) as E2. exists (d_char (utf8_decode (utf8_decode d b) x)).
  cbn [take_bytes]. unfold take_byte. rewrite Hd, E1. cbn [Z.eqb Pos.eqb negb andb UTF8_ACCEPT]. rewrite E1, E2.
  cbn [Z.eqb Pos.eqb negb andb UTF8_ACCEPT].
  by destruct (take_bytes _ l).
Qed.

Lemma bad_byte_swallows_next_witness :
  exists c, take_bytes start [0xC0; 0x1B; 0x41] = take_bytes {| d_state := 0; d_char := c |} [0x41].
Proof. apply (bad_byte_swallows_next start 0xC0 0x1B [0x41]); try done; unfold is_byte; lia. Defined.

Lemma buffer_rejected last l : forall d, last <> 1 -> d_state d = 1 -> bytes l -> exists d', take_buffer last d l = (d', []).
Proof.
  induction l as [|b l IH]; intros d Hne Hd Hl; [by exists d|]. pose proof (Forall_inv Hl) as Hb. apply Forall_inv_tail in Hl.
  cbn [take_buffer]. pose proof (rejected_stays d b Hd Hb) as E. rewrite E, (proj2 (Z.eqb_neq _ _) Hne). cbn [andb negb Z.eqb UTF8_ACCEPT]. by apply IH.
Qed.

(** when a character of two bytes is cut between two buffers of a script's
    output, the next character of two bytes is lost and so is all that follows it
    in the buffer: the loop compares with the state before the buffer. *)
Theorem cut_character_loses_text c1 c2 rest :
  0x80 <= c1 <= 0x7FF -> 0x80 <= c2 <= 0x7FF -> bytes rest ->
  exists d1 d2, read_buffer start (take 1 (utf8_encode c1)) = (d1, []) /\
    read_buffer d1 (drop 1 (utf8_encode c1) ++ utf8_encode c2 ++ rest) = (d2, [c1]).
Proof.
  intros H1 H2 Hr. rewrite !encode_arith by lia.
  destruct (digits c1) as (p1 & p2 & p3 & s0 & s1 & s2 & F1 & F2 & F3 & G0 & G1 & G2 & G3 & -> & -> & -> & -> & -> & ->); [lia|].
  destruct (digits c2) as (q1 & q2 & q3 & r0 & r1 & r2 & E1 & E2 & E3 & B0 & B1 & B2 & B3 & -> & -> & -> & -> & -> & ->); [lia|].
  decide_ranges. cbn [take drop app].
  assert (Hlead : forall d q, d_state d = 0 -> 2 <= q <= 31 -> utf8_decode d (0xC0 + q) = {| d_state := 2; d_char := q |}).
  { intros d q Hd Hq. rewrite fresh_char by done. assert (next 0 (0xC0 + q) = 2) as E by (unfold next, within; cbn [Z.eqb Pos.eqb]; by decide_ranges).
    rewrite decode_lead; [|unfold is_byte; lia|by rewrite E]. rewrite E. f_equal. unfold lead_bits, within. decide_ranges. lia. }
  unfold read_buffer. cbn [take_buffer]. rewrite Hlead by (done || lia). cbn [start d_state Z.eqb Pos.eqb andb negb UTF8_ACCEPT].
  eexists. assert (Ht : utf8_decode {| d_state := 2; d_char := p1 |} (0x80 + s0) = {| d_state := 0; d_char := c1 |}).
  { rewrite decode_tail; [|by apply a_state|done|unfold within; by decide_ranges|lia]. unfold next, within. cbn [Z.eqb Pos.eqb]. decide_ranges. f_equal. lia. }
  cbn [take_buffer d_state]. rewrite Ht. cbn [d_state Z.eqb Pos.eqb andb negb UTF8_ACCEPT d_char].
  rewrite Hlead by (done || lia). cbn [d_state Z.eqb Pos.eqb andb negb UTF8_ACCEPT d_char].
  assert (Hx : d_state (utf8_decode {| d_state := 0; d_char := q1 |} (0x80 + r0)) = 1).
  { destruct (decode_state {| d_state := 0; d_char := q1 |} (0x80 + r0)) as [-> _]; [by apply a_state|unfold is_byte; lia|].
    unfold next, within. cbn [d_state Z.eqb Pos.eqb]. by decide_ranges. }
  rewrite Hx. cbn [Z.eqb Pos.eqb andb negb UTF8_ACCEPT].
  destruct (buffer_rejected 2 rest (utf8_decode {| d_state := 0; d_char := q1 |} (0x80 + r0))) as (d' & ->); [done|done|done|].
  by eexists.
Qed.

Lemma cut_character_loses_text_witness :
  exists d1 d2, read_buffer start (take 1 (utf8_encode 0xE9)) = (d1, []) /\
    read_buffer d1 (drop 1 (utf8_encode 0xE9) ++ utf8_encode 0xE8 ++ [0x41; 0x42]) = (d2, [0xE9]).
Proof. apply (cut_character_loses_text 0xE9 0xE8 [0x41; 0x42]); [lia|lia|by apply bytes_by_eval]. Defined.
