(* ===== verification/Codepage.v ===== *)
(** codepage.c: the 8-bit character sets, their conversion to and from Unicode, and
    their names.  The tables are those of the code, a blank in a table being a byte
    that the set leaves undefined. *)

From Stdlib Require Import ZArith Lia List Bool.
From stdpp Require Import base list numbers strings.
From S2P Require Import Prelude States.

Module Codepage.

(** ** Tables *)

(** PC VGA. *)
Definition cp437_chars : list Z :=
  [0x2007; 0x263A; 0x263B; 0x2665; 0x2666; 0x2663; 0x2660; 0x2022;
   0x25D8; 0x25CB; 0x25D9; 0x2642; 0x2640; 0x266A; 0x266B; 0x263C;
   0x25B6; 0x25C0; 0x2195; 0x203C; 0x00B6; 0x00A7; 0x25AC; 0x21A8;
   0x2191; 0x2193; 0x2192; 0x2190; 0x221F; 0x2194; 0x25B2; 0x25BC;
   0x0020; 0x0021; 0x0022; 0x0023; 0x0024; 0x0025; 0x0026; 0x0027;
   0x0028; 0x0029; 0x002a; 0x002b; 0x002c; 0x002d; 0x002e; 0x002f;
   0x0030; 0x0031; 0x0032; 0x0033; 0x0034; 0x0035; 0x0036; 0x0037;
   0x0038; 0x0039; 0x003a; 0x003b; 0x003c; 0x003d; 0x003e; 0x003f;
   0x0040; 0x0041; 0x0042; 0x0043; 0x0044; 0x0045; 0x0046; 0x0047;
   0x0048; 0x0049; 0x004a; 0x004b; 0x004c; 0x004d; 0x004e; 0x004f;
   0x0050; 0x0051; 0x0052; 0x0053; 0x0054; 0x0055; 0x0056; 0x0057;
   0x0058; 0x0059; 0x005a; 0x005b; 0x005c; 0x005d; 0x005e; 0x005f;
   0x0060; 0x0061; 0x0062; 0x0063; 0x0064; 0x0065; 0x0066; 0x0067;
   0x0068; 0x0069; 0x006a; 0x006b; 0x006c; 0x006d; 0x006e; 0x006f;
   0x0070; 0x0071; 0x0072; 0x0073; 0x0074; 0x0075; 0x0076; 0x0077;
   0x0078; 0x0079; 0x007a; 0x007b; 0x007c; 0x007d; 0x007e; 0x2302;
   0x00c7; 0x00fc; 0x00e9; 0x00e2; 0x00e4; 0x00e0; 0x00e5; 0x00e7;
   0x00ea; 0x00eb; 0x00e8; 0x00ef; 0x00ee; 0x00ec; 0x00c4; 0x00c5;
   0x00c9; 0x00e6; 0x00c6; 0x00f4; 0x00f6; 0x00f2; 0x00fb; 0x00f9;
   0x00ff; 0x00d6; 0x00dc; 0x00a2; 0x00a3; 0x00a5; 0x20a7; 0x0192;
   0x00e1; 0x00ed; 0x00f3; 0x00fa; 0x00f1; 0x00d1; 0x00aa; 0x00ba;
   0x00bf; 0x2310; 0x00ac; 0x00bd; 0x00bc; 0x00a1; 0x00ab; 0x00bb;
   0x2591; 0x2592; 0x2593; 0x2502; 0x2524; 0x2561; 0x2562; 0x2556;
   0x2555; 0x2563; 0x2551; 0x2557; 0x255d; 0x255c; 0x255b; 0x2510;
   0x2514; 0x2534; 0x252c; 0x251c; 0x2500; 0x253c; 0x255e; 0x255f;
   0x255a; 0x2554; 0x2569; 0x2566; 0x2560; 0x2550; 0x256c; 0x2567;
   0x2568; 0x2564; 0x2565; 0x2559; 0x2558; 0x2552; 0x2553; 0x256b;
   0x256a; 0x2518; 0x250c; 0x2588; 0x2584; 0x258c; 0x2590; 0x2580;
   0x03b1; 0x00df; 0x0393; 0x03c0; 0x03a3; 0x03c3; 0x00b5; 0x03c4;
   0x03a6; 0x0398; 0x03a9; 0x03b4; 0x221e; 0x03c6; 0x03b5; 0x2229;
   0x2261; 0x00b1; 0x2265; 0x2264; 0x2320; 0x2321; 0x00f7; 0x2248;
   0x00b0; 0x2219; 0x00b7; 0x221a; 0x207f; 0x00b2; 0x25a0; 0x00a0].

Definition iso8859_1_chars : list Z :=
  [0x2007; 0x263A; 0x263B; 0x2665; 0x2666; 0x2663; 0x2660; 0x2022;
   0x25D8; 0x25CB; 0x25D9; 0x2642; 0x2640; 0x266A; 0x266B; 0x263C;
   0x25B6; 0x25C0; 0x2195; 0x203C; 0x00B6; 0x00A7; 0x25AC; 0x21A8;
   0x2191; 0x2193; 0x2192; 0x2190; 0x221F; 0x2194; 0x25B2; 0x25BC;
   0x0020; 0x0021; 0x0022; 0x0023; 0x0024; 0x0025; 0x0026; 0x0027;
   0x0028; 0x0029; 0x002a; 0x002b; 0x002c; 0x002d; 0x002e; 0x002f;
   0x0030; 0x0031; 0x0032; 0x0033; 0x0034; 0x0035; 0x0036; 0x0037;
   0x0038; 0x0039; 0x003a; 0x003b; 0x003c; 0x003d; 0x003e; 0x003f;
   0x0040; 0x0041; 0x0042; 0x0043; 0x0044; 0x0045; 0x0046; 0x0047;
   0x0048; 0x0049; 0x004a; 0x004b; 0x004c; 0x004d; 0x004e; 0x004f;
   0x0050; 0x0051; 0x0052; 0x0053; 0x0054; 0x0055; 0x0056; 0x0057;
   0x0058; 0x0059; 0x005a; 0x005b; 0x005c; 0x005d; 0x005e; 0x005f;
   0x0060; 0x0061; 0x0062; 0x0063; 0x0064; 0x0065; 0x0066; 0x0067;
   0x0068; 0x0069; 0x006a; 0x006b; 0x006c; 0x006d; 0x006e; 0x006f;
   0x0070; 0x0071; 0x0072; 0x0073; 0x0074; 0x0075; 0x0076; 0x0077;
   0x0078; 0x0079; 0x007a; 0x007b; 0x007c; 0x007d; 0x007e; 0x007f;
   0x0080; 0x0081; 0x0082; 0x0083; 0x0084; 0x0085; 0x0086; 0x0087;
   0x0088; 0x0089; 0x008a; 0x008b; 0x008c; 0x008d; 0x008e; 0x008f;
   0x0090; 0x0091; 0x0092; 0x0093; 0x0094; 0x0095; 0x0096; 0x0097;
   0x0098; 0x0099; 0x009a; 0x009b; 0x009c; 0x009d; 0x009e; 0x009f;
   0x00a0; 0x00a1; 0x00a2; 0x00a3; 0x00a4; 0x00a5; 0x00a6; 0x00a7;
   0x00a8; 0x00a9; 0x00aa; 0x00ab; 0x00ac; 0x00ad; 0x00ae; 0x00af;
   0x00b0; 0x00b1; 0x00b2; 0x00b3; 0x00b4; 0x00b5; 0x00b6; 0x00b7;
   0x00b8; 0x00b9; 0x00ba; 0x00bb; 0x00bc; 0x00bd; 0x00be; 0x00bf;
   0x00c0; 0x00c1; 0x00c2; 0x00c3; 0x00c4; 0x00c5; 0x00c6; 0x00c7;
   0x00c8; 0x00c9; 0x00ca; 0x00cb; 0x00cc; 0x00cd; 0x00ce; 0x00cf;
   0x00d0; 0x00d1; 0x00d2; 0x00d3; 0x00d4; 0x00d5; 0x00d6; 0x00d7;
   0x00d8; 0x00d9; 0x00da; 0x00db; 0x00dc; 0x00dd; 0x00de; 0x00df;
   0x00e0; 0x00e1; 0x00e2; 0x00e3; 0x00e4; 0x00e5; 0x00e6; 0x00e7;
   0x00e8; 0x00e9; 0x00ea; 0x00eb; 0x00ec; 0x00ed; 0x00ee; 0x00ef;
   0x00f0; 0x00f1; 0x00f2; 0x00f3; 0x00f4; 0x00f5; 0x00f6; 0x00f7;
   0x00f8; 0x00f9; 0x00fa; 0x00fb; 0x00fc; 0x00fd; 0x00fe; 0x00ff].

(** VT52 drawing characters. *)
Definition vt52_special_graphics_chars : list Z :=
  [0x0000; 0x0001; 0x0002; 0x0003; 0x0004; 0x0005; 0x0006; 0x0007;
   0x0008; 0x0009; 0x000A; 0x000B; 0x000C; 0x000D; 0x000E; 0x000F;
   0x0010; 0x0011; 0x0012; 0x0013; 0x0014; 0x0015; 0x0016; 0x0017;
   0x0018; 0x0019; 0x001A; 0x001B; 0x001C; 0x001D; 0x001E; 0x001F;
   0x0020; 0x0021; 0x0022; 0x0023; 0x0024; 0x0025; 0x0026; 0x0027;
   0x0028; 0x0029; 0x002A; 0x002B; 0x002C; 0x002D; 0x002E; 0x002F;
   0x0030; 0x0031; 0x0032; 0x0033; 0x0034; 0x0035; 0x0036; 0x0037;
   0x0038; 0x0039; 0x003A; 0x003B; 0x003C; 0x003D; 0x003E; 0x003F;
   0x0040; 0x0041; 0x0042; 0x0043; 0x0044; 0x0045; 0x0046; 0x0047;
   0x0048; 0x0049; 0x004A; 0x004B; 0x004C; 0x004D; 0x004E; 0x004F;
   0x0050; 0x0051; 0x0052; 0x0053; 0x0054; 0x0055; 0x0056; 0x0057;
   0x0058; 0x0059; 0x005A; 0x005B; 0x005C; 0x005D; 0x0020; 0x0020;
   0x0020; 0x2588; 0x215F; 0x2592; 0x2592; 0x2592; 0x00B0; 0x00B1;
   0x2190; 0x2026; 0x00F7; 0x2193; 0x23BA; 0x23BA; 0x23BB; 0x23BB;
   0x2500; 0x2500; 0x23BC; 0x23BC; 0x2080; 0x2081; 0x2082; 0x2083;
   0x2084; 0x2085; 0x2086; 0x2087; 0x2088; 0x2089; 0x00B6; 0x0020].

(** The national sets of the VT100 and the VT220, and their graphics. *)
Definition dec_us_chars : list Z :=
  [0x0000; 0x0001; 0x0002; 0x0003; 0x0004; 0x0005; 0x0006; 0x0007;
   0x0008; 0x0009; 0x000A; 0x000B; 0x000C; 0x000D; 0x000E; 0x000F;
   0x0010; 0x0011; 0x0012; 0x0013; 0x0014; 0x0015; 0x0016; 0x0017;
   0x0018; 0x0019; 0x001A; 0x001B; 0x001C; 0x001D; 0x001E; 0x001F;
   0x0020; 0x0021; 0x0022; 0x0023; 0x0024; 0x0025; 0x0026; 0x0027;
   0x0028; 0x0029; 0x002A; 0x002B; 0x002C; 0x002D; 0x002E; 0x002F;
   0x0030; 0x0031; 0x0032; 0x0033; 0x0034; 0x0035; 0x0036; 0x0037;
   0x0038; 0x0039; 0x003A; 0x003B; 0x003C; 0x003D; 0x003E; 0x003F;
   0x0040; 0x0041; 0x0042; 0x0043; 0x0044; 0x0045; 0x0046; 0x0047;
   0x0048; 0x0049; 0x004A; 0x004B; 0x004C; 0x004D; 0x004E; 0x004F;
   0x0050; 0x0051; 0x0052; 0x0053; 0x0054; 0x0055; 0x0056; 0x0057;
   0x0058; 0x0059; 0x005A; 0x005B; 0x005C; 0x005D; 0x005E; 0x005F;
   0x0060; 0x0061; 0x0062; 0x0063; 0x0064; 0x0065; 0x0066; 0x0067;
   0x0068; 0x0069; 0x006A; 0x006B; 0x006C; 0x006D; 0x006E; 0x006F;
   0x0070; 0x0071; 0x0072; 0x0073; 0x0074; 0x0075; 0x0076; 0x0077;
   0x0078; 0x0079; 0x007A; 0x007B; 0x007C; 0x007D; 0x007E; 0x0020].

Definition dec_special_graphics_chars : list Z :=
  [0x0000; 0x0001; 0x0002; 0x0003; 0x0004; 0x0005; 0x0006; 0x0007;
   0x0008; 0x0009; 0x000A; 0x000B; 0x000C; 0x000D; 0x000E; 0x000F;
   0x0010; 0x0011; 0x0012; 0x0013; 0x0014; 0x0015; 0x0016; 0x0017;
   0x0018; 0x0019; 0x001A; 0x001B; 0x001C; 0x001D; 0x001E; 0x001F;
   0x0020; 0x0021; 0x0022; 0x0023; 0x0024; 0x0025; 0x0026; 0x0027;
   0x0028; 0x0029; 0x002A; 0x002B; 0x002C; 0x002D; 0x002E; 0x002F;
   0x0030; 0x0031; 0x0032; 0x0033; 0x0034; 0x0035; 0x0036; 0x0037;
   0x0038; 0x0039; 0x003A; 0x003B; 0x003C; 0x003D; 0x003E; 0x003F;
   0x0040; 0x0041; 0x0042; 0x0043; 0x0044; 0x0045; 0x0046; 0x0047;
   0x0048; 0x0049; 0x004A; 0x004B; 0x004C; 0x004D; 0x004E; 0x004F;
   0x0050; 0x0051; 0x0052; 0x0053; 0x0054; 0x0055; 0x0056; 0x0057;
   0x0058; 0x0059; 0x005A; 0x005B; 0x005C; 0x005D; 0x005E; 0x005F;
   0x2666; 0x2592; 0x2409; 0x240C; 0x240D; 0x240A; 0x00B0; 0x00B1;
   0x2424; 0x240B; 0x2518; 0x2510; 0x250C; 0x2514; 0x253C; 0x23BA;
   0x23BB; 0x2500; 0x23BC; 0x23BD; 0x251C; 0x2524; 0x2534; 0x252C;
   0x2502; 0x2264; 0x2265; 0x03C0; 0x2260; 0x00A3; 0x00B7; 0x0020].

Definition dec_supplemental_chars : list Z :=
  [0x0080; 0x0081; 0x0082; 0x0083; 0x0084; 0x0085; 0x0086; 0x0087;
   0x0088; 0x0089; 0x008A; 0x008B; 0x008C; 0x008D; 0x008E; 0x008F;
   0x0090; 0x0091; 0x0092; 0x0093; 0x0094; 0x0095; 0x0096; 0x0097;
   0x0098; 0x0099; 0x009A; 0x009B; 0x009C; 0x009D; 0x009E; 0x009F;
   0x0020; 0x00A1; 0x00A2; 0x00A3; 0x00A8; 0x00A5; 0x0020; 0x00A7;
   0x00A4; 0x00A9; 0x00AA; 0x00AB; 0x0020; 0x0020; 0x0020; 0x0020;
   0x00B0; 0x00B1; 0x00B2; 0x00B3; 0x0020; 0x00B5; 0x00B6; 0x00B7;
   0x0020; 0x00B9; 0x00BA; 0x00BB; 0x00BC; 0x00BD; 0x0020; 0x00BF;
   0x00C0; 0x00C1; 0x00C2; 0x00C3; 0x00C4; 0x00C5; 0x00C6; 0x00C7;
   0x00C8; 0x00C9; 0x00CA; 0x00CB; 0x00CC; 0x00CD; 0x00CE; 0x00CF;
   0x0020; 0x00D1; 0x00D2; 0x00D3; 0x00D4; 0x00D5; 0x00D6; 0x0157;
   0x00D8; 0x00D9; 0x00DA; 0x00DB; 0x00DC; 0x0178; 0x0020; 0x00DF;
   0x00E0; 0x00E1; 0x00E2; 0x00E3; 0x00E4; 0x00E5; 0x00E6; 0x00E7;
   0x00E8; 0x00E9; 0x00EA; 0x00EB; 0x00EC; 0x00ED; 0x00EE; 0x00EF;
   0x0020; 0x00F1; 0x00F2; 0x00F3; 0x00F4; 0x00F5; 0x00F6; 0x0153;
   0x00F8; 0x00F9; 0x00FA; 0x00FB; 0x00FC; 0x00FF; 0x0020; 0x0020].

Definition dec_uk_chars : list Z :=
  [0x0000; 0x0001; 0x0002; 0x0003; 0x0004; 0x0005; 0x0006; 0x0007;
   0x0008; 0x0009; 0x000A; 0x000B; 0x000C; 0x000D; 0x000E; 0x000F;
   0x0010; 0x0011; 0x0012; 0x0013; 0x0014; 0x0015; 0x0016; 0x0017;
   0x0018; 0x0019; 0x001A; 0x001B; 0x001C; 0x001D; 0x001E; 0x001F;
   0x0020; 0x0021; 0x0022; 0x00A3; 0x0024; 0x0025; 0x0026; 0x0027;
   0x0028; 0x0029; 0x002A; 0x002B; 0x002C; 0x002D; 0x002E; 0x002F;
   0x0030; 0x0031; 0x0032; 0x0033; 0x0034; 0x0035; 0x0036; 0x0037;
   0x0038; 0x0039; 0x003A; 0x003B; 0x003C; 0x003D; 0x003E; 0x003F;
   0x0040; 0x0041; 0x0042; 0x0043; 0x0044; 0x0045; 0x0046; 0x0047;
   0x0048; 0x0049; 0x004A; 0x004B; 0x004C; 0x004D; 0x004E; 0x004F;
   0x0050; 0x0051; 0x0052; 0x0053; 0x0054; 0x0055; 0x0056; 0x0057;
   0x0058; 0x0059; 0x005A; 0x005B; 0x005C; 0x005D; 0x005E; 0x005F;
   0x0060; 0x0061; 0x0062; 0x0063; 0x0064; 0x0065; 0x0066; 0x0067;
   0x0068; 0x0069; 0x006A; 0x006B; 0x006C; 0x006D; 0x006E; 0x006F;
   0x0070; 0x0071; 0x0072; 0x0073; 0x0074; 0x0075; 0x0076; 0x0077;
   0x0078; 0x0079; 0x007A; 0x007B; 0x007C; 0x007D; 0x007E; 0x0020].

Definition dec_nl_chars : list Z :=
  [0x0000; 0x0001; 0x0002; 0x0003; 0x0004; 0x0005; 0x0006; 0x0007;
   0x0008; 0x0009; 0x000A; 0x000B; 0x000C; 0x000D; 0x000E; 0x000F;
   0x0010; 0x0011; 0x0012; 0x0013; 0x0014; 0x0015; 0x0016; 0x0017;
   0x0018; 0x0019; 0x001A; 0x001B; 0x001C; 0x001D; 0x001E; 0x001F;
   0x0020; 0x0021; 0x0022; 0x00A3; 0x0024; 0x0025; 0x0026; 0x0027;
   0x0028; 0x0029; 0x002A; 0x002B; 0x002C; 0x002D; 0x002E; 0x002F;
   0x0030; 0x0031; 0x0032; 0x0033; 0x0034; 0x0035; 0x0036; 0x0037;
   0x0038; 0x0039; 0x003A; 0x003B; 0x003C; 0x003D; 0x003E; 0x003F;
   0x00BE; 0x0041; 0x0042; 0x0043; 0x0044; 0x0045; 0x0046; 0x0047;
   0x0048; 0x0049; 0x004A; 0x004B; 0x004C; 0x004D; 0x004E; 0x004F;
   0x0050; 0x0051; 0x0052; 0x0053; 0x0054; 0x0055; 0x0056; 0x0057;
   0x0058; 0x0059; 0x005A; 0x0133; 0x00BD; 0x007C; 0x005E; 0x005F;
   0x0060; 0x0061; 0x0062; 0x0063; 0x0064; 0x0065; 0x0066; 0x0067;
   0x0068; 0x0069; 0x006A; 0x006B; 0x006C; 0x006D; 0x006E; 0x006F;
   0x0070; 0x0071; 0x0072; 0x0073; 0x0074; 0x0075; 0x0076; 0x0077;
   0x0078; 0x0079; 0x007A; 0x00A8; 0x0066; 0x00BC; 0x00B4; 0x0020].

Definition dec_fi_chars : list Z :=
  [0x0000; 0x0001; 0x0002; 0x0003; 0x0004; 0x0005; 0x0006; 0x0007;
   0x0008; 0x0009; 0x000A; 0x000B; 0x000C; 0x000D; 0x000E; 0x000F;
   0x0010; 0x0011; 0x0012; 0x0013; 0x0014; 0x0015; 0x0016; 0x0017;
   0x0018; 0x0019; 0x001A; 0x001B; 0x001C; 0x001D; 0x001E; 0x001F;
   0x0020; 0x0021; 0x0022; 0x0023; 0x0024; 0x0025; 0x0026; 0x0027;
   0x0028; 0x0029; 0x002A; 0x002B; 0x002C; 0x002D; 0x002E; 0x002F;
   0x0030; 0x0031; 0x0032; 0x0033; 0x0034; 0x0035; 0x0036; 0x0037;
   0x0038; 0x0039; 0x003A; 0x003B; 0x003C; 0x003D; 0x003E; 0x003F;
   0x0040; 0x0041; 0x0042; 0x0043; 0x0044; 0x0045; 0x0046; 0x0047;
   0x0048; 0x0049; 0x004A; 0x004B; 0x004C; 0x004D; 0x004E; 0x004F;
   0x0050; 0x0051; 0x0052; 0x0053; 0x0054; 0x0055; 0x0056; 0x0057;
   0x0058; 0x0059; 0x005A; 0x00C4; 0x00D6; 0x00C5; 0x00DC; 0x005F;
   0x00E9; 0x0061; 0x0062; 0x0063; 0x0064; 0x0065; 0x0066; 0x0067;
   0x0068; 0x0069; 0x006A; 0x006B; 0x006C; 0x006D; 0x006E; 0x006F;
   0x0070; 0x0071; 0x0072; 0x0073; 0x0074; 0x0075; 0x0076; 0x0077;
   0x0078; 0x0079; 0x007A; 0x00E4; 0x00F6; 0x00E5; 0x00FC; 0x0020].

Definition dec_fr_chars : list Z :=
  [0x0000; 0x0001; 0x0002; 0x0003; 0x0004; 0x0005; 0x0006; 0x0007;
   0x0008; 0x0009; 0x000A; 0x000B; 0x000C; 0x000D; 0x000E; 0x000F;
   0x0010; 0x0011; 0x0012; 0x0013; 0x0014; 0x0015; 0x0016; 0x0017;
   0x0018; 0x0019; 0x001A; 0x001B; 0x001C; 0x001D; 0x001E; 0x001F;
   0x0020; 0x0021; 0x0022; 0x00A3; 0x0024; 0x0025; 0x0026; 0x0027;
   0x0028; 0x0029; 0x002A; 0x002B; 0x002C; 0x002D; 0x002E; 0x002F;
   0x0030; 0x0031; 0x0032; 0x0033; 0x0034; 0x0035; 0x0036; 0x0037;
   0x0038; 0x0039; 0x003A; 0x003B; 0x003C; 0x003D; 0x003E; 0x003F;
   0x00E0; 0x0041; 0x0042; 0x0043; 0x0044; 0x0045; 0x0046; 0x0047;
   0x0048; 0x0049; 0x004A; 0x004B; 0x004C; 0x004D; 0x004E; 0x004F;
   0x0050; 0x0051; 0x0052; 0x0053; 0x0054; 0x0055; 0x0056; 0x0057;
   0x0058; 0x0059; 0x005A; 0x00B0; 0x00E7; 0x00A7; 0x005E; 0x005F;
   0x0060; 0x0061; 0x0062; 0x0063; 0x0064; 0x0065; 0x0066; 0x0067;
   0x0068; 0x0069; 0x006A; 0x006B; 0x006C; 0x006D; 0x006E; 0x006F;
   0x0070; 0x0071; 0x0072; 0x0073; 0x0074; 0x0075; 0x0076; 0x0077;
   0x0078; 0x0079; 0x007A; 0x00E9; 0x00F9; 0x00E8; 0x00A8; 0x0020].

Definition dec_fr_CA_chars : list Z :=
  [0x0000; 0x0001; 0x0002; 0x0003; 0x0004; 0x0005; 0x0006; 0x0007;
   0x0008; 0x0009; 0x000A; 0x000B; 0x000C; 0x000D; 0x000E; 0x000F;
   0x0010; 0x0011; 0x0012; 0x0013; 0x0014; 0x0015; 0x0016; 0x0017;
   0x0018; 0x0019; 0x001A; 0x001B; 0x001C; 0x001D; 0x001E; 0x001F;
   0x0020; 0x0021; 0x0022; 0x0023; 0x0024; 0x0025; 0x0026; 0x0027;
   0x0028; 0x0029; 0x002A; 0x002B; 0x002C; 0x002D; 0x002E; 0x002F;
   0x0030; 0x0031; 0x0032; 0x0033; 0x0034; 0x0035; 0x0036; 0x0037;
   0x0038; 0x0039; 0x003A; 0x003B; 0x003C; 0x003D; 0x003E; 0x003F;
   0x00E0; 0x0041; 0x0042; 0x0043; 0x0044; 0x0045; 0x0046; 0x0047;
   0x0048; 0x0049; 0x004A; 0x004B; 0x004C; 0x004D; 0x004E; 0x004F;
   0x0050; 0x0051; 0x0052; 0x0053; 0x0054; 0x0055; 0x0056; 0x0057;
   0x0058; 0x0059; 0x005A; 0x00E2; 0x00E7; 0x00EA; 0x00EE; 0x005F;
   0x00F4; 0x0061; 0x0062; 0x0063; 0x0064; 0x0065; 0x0066; 0x0067;
   0x0068; 0x0069; 0x006A; 0x006B; 0x006C; 0x006D; 0x006E; 0x006F;
   0x0070; 0x0071; 0x0072; 0x0073; 0x0074; 0x0075; 0x0076; 0x0077;
   0x0078; 0x0079; 0x007A; 0x00E9; 0x00F9; 0x00E8; 0x00FB; 0x0020].

Definition dec_de_chars : list Z :=
  [0x0000; 0x0001; 0x0002; 0x0003; 0x0004; 0x0005; 0x0006; 0x0007;
   0x0008; 0x0009; 0x000A; 0x000B; 0x000C; 0x000D; 0x000E; 0x000F;
   0x0010; 0x0011; 0x0012; 0x0013; 0x0014; 0x0015; 0x0016; 0x0017;
   0x0018; 0x0019; 0x001A; 0x001B; 0x001C; 0x001D; 0x001E; 0x001F;
   0x0020; 0x0021; 0x0022; 0x0023; 0x0024; 0x0025; 0x0026; 0x0027;
   0x0028; 0x0029; 0x002A; 0x002B; 0x002C; 0x002D; 0x002E; 0x002F;
   0x0030; 0x0031; 0x0032; 0x0033; 0x0034; 0x0035; 0x0036; 0x0037;
   0x0038; 0x0039; 0x003A; 0x003B; 0x003C; 0x003D; 0x003E; 0x003F;
   0x00A7; 0x0041; 0x0042; 0x0043; 0x0044; 0x0045; 0x0046; 0x0047;
   0x0048; 0x0049; 0x004A; 0x004B; 0x004C; 0x004D; 0x004E; 0x004F;
   0x0050; 0x0051; 0x0052; 0x0053; 0x0054; 0x0055; 0x0056; 0x0057;
   0x0058; 0x0059; 0x005A; 0x00C4; 0x00D6; 0x00DC; 0x005E; 0x005F;
   0x0060; 0x0061; 0x0062; 0x0063; 0x0064; 0x0065; 0x0066; 0x0067;
   0x0068; 0x0069; 0x006A; 0x006B; 0x006C; 0x006D; 0x006E; 0x006F;
   0x0070; 0x0071; 0x0072; 0x0073; 0x0074; 0x0075; 0x0076; 0x0077;
   0x0078; 0x0079; 0x007A; 0x00E4; 0x00F6; 0x00FC; 0x00DF; 0x0020].

Definition dec_it_chars : list Z :=
  [0x0000; 0x0001; 0x0002; 0x0003; 0x0004; 0x0005; 0x0006; 0x0007;
   0x0008; 0x0009; 0x000A; 0x000B; 0x000C; 0x000D; 0x000E; 0x000F;
   0x0010; 0x0011; 0x0012; 0x0013; 0x0014; 0x0015; 0x0016; 0x0017;
   0x0018; 0x0019; 0x001A; 0x001B; 0x001C; 0x001D; 0x001E; 0x001F;
   0x0020; 0x0021; 0x0022; 0x00A3; 0x0024; 0x0025; 0x0026; 0x0027;
   0x0028; 0x0029; 0x002A; 0x002B; 0x002C; 0x002D; 0x002E; 0x002F;
   0x0030; 0x0031; 0x0032; 0x0033; 0x0034; 0x0035; 0x0036; 0x0037;
   0x0038; 0x0039; 0x003A; 0x003B; 0x003C; 0x003D; 0x003E; 0x003F;
   0x00A7; 0x0041; 0x0042; 0x0043; 0x0044; 0x0045; 0x0046; 0x0047;
   0x0048; 0x0049; 0x004A; 0x004B; 0x004C; 0x004D; 0x004E; 0x004F;
   0x0050; 0x0051; 0x0052; 0x0053; 0x0054; 0x0055; 0x0056; 0x0057;
   0x0058; 0x0059; 0x005A; 0x00B0; 0x00E7; 0x00E9; 0x005E; 0x005F;
   0x00F9; 0x0061; 0x0062; 0x0063; 0x0064; 0x0065; 0x0066; 0x0067;
   0x0068; 0x0069; 0x006A; 0x006B; 0x006C; 0x006D; 0x006E; 0x006F;
   0x0070; 0x0071; 0x0072; 0x0073; 0x0074; 0x0075; 0x0076; 0x0077;
   0x0078; 0x0079; 0x007A; 0x00E0; 0x00F2; 0x00E8; 0x00EC; 0x0020].

Definition dec_no_chars : list Z :=
  [0x0000; 0x0001; 0x0002; 0x0003; 0x0004; 0x0005; 0x0006; 0x0007;
   0x0008; 0x0009; 0x000A; 0x000B; 0x000C; 0x000D; 0x000E; 0x000F;
   0x0010; 0x0011; 0x0012; 0x0013; 0x0014; 0x0015; 0x0016; 0x0017;
   0x0018; 0x0019; 0x001A; 0x001B; 0x001C; 0x001D; 0x001E; 0x001F;
   0x0020; 0x0021; 0x0022; 0x0023; 0x0024; 0x0025; 0x0026; 0x0027;
   0x0028; 0x0029; 0x002A; 0x002B; 0x002C; 0x002D; 0x002E; 0x002F;
   0x0030; 0x0031; 0x0032; 0x0033; 0x0034; 0x0035; 0x0036; 0x0037;
   0x0038; 0x0039; 0x003A; 0x003B; 0x003C; 0x003D; 0x003E; 0x003F;
   0x00C4; 0x0041; 0x0042; 0x0043; 0x0044; 0x0045; 0x0046; 0x0047;
   0x0048; 0x0049; 0x004A; 0x004B; 0x004C; 0x004D; 0x004E; 0x004F;
   0x0050; 0x0051; 0x0052; 0x0053; 0x0054; 0x0055; 0x0056; 0x0057;
   0x0058; 0x0059; 0x005A; 0x00C6; 0x00D8; 0x00C5; 0x00DC; 0x005F;
   0x00E4; 0x0061; 0x0062; 0x0063; 0x0064; 0x0065; 0x0066; 0x0067;
   0x0068; 0x0069; 0x006A; 0x006B; 0x006C; 0x006D; 0x006E; 0x006F;
   0x0070; 0x0071; 0x0072; 0x0073; 0x0074; 0x0075; 0x0076; 0x0077;
   0x0078; 0x0079; 0x007A; 0x00E6; 0x00F8; 0x00E5; 0x00FC; 0x0020].

Definition dec_es_chars : list Z :=
  [0x0000; 0x0001; 0x0002; 0x0003; 0x0004; 0x0005; 0x0006; 0x0007;
   0x0008; 0x0009; 0x000A; 0x000B; 0x000C; 0x000D; 0x000E; 0x000F;
   0x0010; 0x0011; 0x0012; 0x0013; 0x0014; 0x0015; 0x0016; 0x0017;
   0x0018; 0x0019; 0x001A; 0x001B; 0x001C; 0x001D; 0x001E; 0x001F;
   0x0020; 0x0021; 0x0022; 0x00A3; 0x0024; 0x0025; 0x0026; 0x0027;
   0x0028; 0x0029; 0x002A; 0x002B; 0x002C; 0x002D; 0x002E; 0x002F;
   0x0030; 0x0031; 0x0032; 0x0033; 0x0034; 0x0035; 0x0036; 0x0037;
   0x0038; 0x0039; 0x003A; 0x003B; 0x003C; 0x003D; 0x003E; 0x003F;
   0x00A7; 0x0041; 0x0042; 0x0043; 0x0044; 0x0045; 0x0046; 0x0047;
   0x0048; 0x0049; 0x004A; 0x004B; 0x004C; 0x004D; 0x004E; 0x004F;
   0x0050; 0x0051; 0x0052; 0x0053; 0x0054; 0x0055; 0x0056; 0x0057;
   0x0058; 0x0059; 0x005A; 0x00A1; 0x00D1; 0x00BF; 0x005E; 0x005F;
   0x0060; 0x0061; 0x0062; 0x0063; 0x0064; 0x0065; 0x0066; 0x0067;
   0x0068; 0x0069; 0x006A; 0x006B; 0x006C; 0x006D; 0x006E; 0x006F;
   0x0070; 0x0071; 0x0072; 0x0073; 0x0074; 0x0075; 0x0076; 0x0077;
   0x0078; 0x0079; 0x007A; 0x00B0; 0x00F1; 0x00E7; 0x007E; 0x0020].

Definition dec_sv_chars : list Z :=
  [0x0000; 0x0001; 0x0002; 0x0003; 0x0004; 0x0005; 0x0006; 0x0007;
   0x0008; 0x0009; 0x000A; 0x000B; 0x000C; 0x000D; 0x000E; 0x000F;
   0x0010; 0x0011; 0x0012; 0x0013; 0x0014; 0x0015; 0x0016; 0x0017;
   0x0018; 0x0019; 0x001A; 0x001B; 0x001C; 0x001D; 0x001E; 0x001F;
   0x0020; 0x0021; 0x0022; 0x0023; 0x0024; 0x0025; 0x0026; 0x0027;
   0x0028; 0x0029; 0x002A; 0x002B; 0x002C; 0x002D; 0x002E; 0x002F;
   0x0030; 0x0031; 0x0032; 0x0033; 0x0034; 0x0035; 0x0036; 0x0037;
   0x0038; 0x0039; 0x003A; 0x003B; 0x003C; 0x003D; 0x003E; 0x003F;
   0x00C9; 0x0041; 0x0042; 0x0043; 0x0044; 0x0045; 0x0046; 0x0047;
   0x0048; 0x0049; 0x004A; 0x004B; 0x004C; 0x004D; 0x004E; 0x004F;
   0x0050; 0x0051; 0x0052; 0x0053; 0x0054; 0x0055; 0x0056; 0x0057;
   0x0058; 0x0059; 0x005A; 0x00C4; 0x00D6; 0x00C5; 0x00DC; 0x005F;
   0x00E9; 0x0061; 0x0062; 0x0063; 0x0064; 0x0065; 0x0066; 0x0067;
   0x0068; 0x0069; 0x006A; 0x006B; 0x006C; 0x006D; 0x006E; 0x006F;
   0x0070; 0x0071; 0x0072; 0x0073; 0x0074; 0x0075; 0x0076; 0x0077;
   0x0078; 0x0079; 0x007A; 0x00E4; 0x00F6; 0x00E5; 0x00FC; 0x0020].

Definition dec_swiss_chars : list Z :=
  [0x0000; 0x0001; 0x0002; 0x0003; 0x0004; 0x0005; 0x0006; 0x0007;
   0x0008; 0x0009; 0x000A; 0x000B; 0x000C; 0x000D; 0x000E; 0x000F;
   0x0010; 0x0011; 0x0012; 0x0013; 0x0014; 0x0015; 0x0016; 0x0017;
   0x0018; 0x0019; 0x001A; 0x001B; 0x001C; 0x001D; 0x001E; 0x001F;
   0x0020; 0x0021; 0x0022; 0x00F9; 0x0024; 0x0025; 0x0026; 0x0027;
   0x0028; 0x0029; 0x002A; 0x002B; 0x002C; 0x002D; 0x002E; 0x002F;
   0x0030; 0x0031; 0x0032; 0x0033; 0x0034; 0x0035; 0x0036; 0x0037;
   0x0038; 0x0039; 0x003A; 0x003B; 0x003C; 0x003D; 0x003E; 0x003F;
   0x00E0; 0x0041; 0x0042; 0x0043; 0x0044; 0x0045; 0x0046; 0x0047;
   0x0048; 0x0049; 0x004A; 0x004B; 0x004C; 0x004D; 0x004E; 0x004F;
   0x0050; 0x0051; 0x0052; 0x0053; 0x0054; 0x0055; 0x0056; 0x0057;
   0x0058; 0x0059; 0x005A; 0x00E9; 0x00E7; 0x00EA; 0x00EE; 0x00E8;
   0x00F4; 0x0061; 0x0062; 0x0063; 0x0064; 0x0065; 0x0066; 0x0067;
   0x0068; 0x0069; 0x006A; 0x006B; 0x006C; 0x006D; 0x006E; 0x006F;
   0x0070; 0x0071; 0x0072; 0x0073; 0x0074; 0x0075; 0x0076; 0x0077;
   0x0078; 0x0079; 0x007A; 0x00E4; 0x00F6; 0x00FC; 0x00FB; 0x0020].

Definition cp720_chars : list Z :=
  [0x2007; 0x263A; 0x263B; 0x2665; 0x2666; 0x2663; 0x2660; 0x2022;
   0x25D8; 0x25CB; 0x25D9; 0x2642; 0x2640; 0x266A; 0x266B; 0x263C;
   0x25B6; 0x25C0; 0x2195; 0x203C; 0x00B6; 0x00A7; 0x25AC; 0x21A8;
   0x2191; 0x2193; 0x2192; 0x2190; 0x221F; 0x2194; 0x25B2; 0x25BC;
   0x0020; 0x0021; 0x0022; 0x0023; 0x0024; 0x0025; 0x0026; 0x0027;
   0x0028; 0x0029; 0x002a; 0x002b; 0x002c; 0x002d; 0x002e; 0x002f;
   0x0030; 0x0031; 0x0032; 0x0033; 0x0034; 0x0035; 0x0036; 0x0037;
   0x0038; 0x0039; 0x003a; 0x003b; 0x003c; 0x003d; 0x003e; 0x003f;
   0x0040; 0x0041; 0x0042; 0x0043; 0x0044; 0x0045; 0x0046; 0x0047;
   0x0048; 0x0049; 0x004a; 0x004b; 0x004c; 0x004d; 0x004e; 0x004f;
   0x0050; 0x0051; 0x0052; 0x0053; 0x0054; 0x0055; 0x0056; 0x0057;
   0x0058; 0x0059; 0x005a; 0x005b; 0x005c; 0x005d; 0x005e; 0x005f;
   0x0060; 0x0061; 0x0062; 0x0063; 0x0064; 0x0065; 0x0066; 0x0067;
   0x0068; 0x0069; 0x006a; 0x006b; 0x006c; 0x006d; 0x006e; 0x006f;
   0x0070; 0x0071; 0x0072; 0x0073; 0x0074; 0x0075; 0x0076; 0x0077;
   0x0078; 0x0079; 0x007a; 0x007b; 0x007c; 0x007d; 0x007e; 0x2302;
   32; 32; 0x00e9; 0x00e2; 32; 0x00e0; 32; 0x00e7;
   0x00ea; 0x00eb; 0x00e8; 0x00ef; 0x00ee; 32; 32; 32;
   32; 0x0651; 0x0652; 0x00f4; 0x00a4; 0x0640; 0x00fb; 0x00f9;
   0x0621; 0x0622; 0x0623; 0x0624; 0x00a3; 0x0625; 0x0626; 0x0627;
   0x0628; 0x0629; 0x062a; 0x062b; 0x062c; 0x062d; 0x062e; 0x062f;
   0x0630; 0x0631; 0x0632; 0x0633; 0x0634; 0x0635; 0x00ab; 0x00bb;
   0x2591; 0x2592; 0x2593; 0x2502; 0x2524; 0x2561; 0x2562; 0x2556;
   0x2555; 0x2563; 0x2551; 0x2557; 0x255D; 0x255C; 0x255B; 0x2510;
   0x2514; 0x2534; 0x252C; 0x251C; 0x2500; 0x253C; 0x255E; 0x255F;
   0x255A; 0x2554; 0x2569; 0x2566; 0x2560; 0x2550; 0x256C; 0x2567;
   0x2568; 0x2564; 0x2565; 0x2559; 0x2558; 0x2552; 0x2553; 0x256B;
   0x256A; 0x2518; 0x250C; 0x2588; 0x2584; 0x258C; 0x2590; 0x2580;
   0x0636; 0x0637; 0x0638; 0x0639; 0x063A; 0x0641; 0x00B5; 0x0642;
   0x0643; 0x0644; 0x0645; 0x0646; 0x0647; 0x0648; 0x0649; 0x064A;
   0x2261; 0x064b; 0x064C; 0x064D; 0x064E; 0x064F; 0x0650; 0x2248;
   0x00B0; 0x2219; 0x00B7; 0x221A; 0x207F; 0x00B2; 0x25A0; 0x00A0].

Definition cp737_chars : list Z :=
  [0x2007; 0x263A; 0x263B; 0x2665; 0x2666; 0x2663; 0x2660; 0x2022;
   0x25D8; 0x25CB; 0x25D9; 0x2642; 0x2640; 0x266A; 0x266B; 0x263C;
   0x25B6; 0x25C0; 0x2195; 0x203C; 0x00B6; 0x00A7; 0x25AC; 0x21A8;
   0x2191; 0x2193; 0x2192; 0x2190; 0x221F; 0x2194; 0x25B2; 0x25BC;
   0x0020; 0x0021; 0x0022; 0x0023; 0x0024; 0x0025; 0x0026; 0x0027;
   0x0028; 0x0029; 0x002a; 0x002b; 0x002c; 0x002d; 0x002e; 0x002f;
   0x0030; 0x0031; 0x0032; 0x0033; 0x0034; 0x0035; 0x0036; 0x0037;
   0x0038; 0x0039; 0x003a; 0x003b; 0x003c; 0x003d; 0x003e; 0x003f;
   0x0040; 0x0041; 0x0042; 0x0043; 0x0044; 0x0045; 0x0046; 0x0047;
   0x0048; 0x0049; 0x004a; 0x004b; 0x004c; 0x004d; 0x004e; 0x004f;
   0x0050; 0x0051; 0x0052; 0x0053; 0x0054; 0x0055; 0x0056; 0x0057;
   0x0058; 0x0059; 0x005a; 0x005b; 0x005c; 0x005d; 0x005e; 0x005f;
   0x0060; 0x0061; 0x0062; 0x0063; 0x0064; 0x0065; 0x0066; 0x0067;
   0x0068; 0x0069; 0x006a; 0x006b; 0x006c; 0x006d; 0x006e; 0x006f;
   0x0070; 0x0071; 0x0072; 0x0073; 0x0074; 0x0075; 0x0076; 0x0077;
   0x0078; 0x0079; 0x007a; 0x007b; 0x007c; 0x007d; 0x007e; 0x2302;
   0x0391; 0x0392; 0x0393; 0x0394; 0x0395; 0x0396; 0x0397; 0x0398;
   0x0399; 0x039a; 0x039b; 0x039c; 0x039d; 0x039e; 0x039f; 0x03a0;
   0x03a1; 0x03a3; 0x03a4; 0x03a5; 0x03a6; 0x03a7; 0x03a8; 0x03a9;
   0x03b1; 0x03b2; 0x03b3; 0x03b4; 0x03b5; 0x03b6; 0x03b7; 0x03b8;
   0x03b9; 0x03ba; 0x03bb; 0x03bc; 0x03bd; 0x03be; 0x03bf; 0x03c0;
   0x03c1; 0x03c3; 0x03c2; 0x03c4; 0x03c5; 0x03c6; 0x03c7; 0x03c8;
   0x2591; 0x2592; 0x2593; 0x2502; 0x2524; 0x2561; 0x2562; 0x2556;
   0x2555; 0x2563; 0x2551; 0x2557; 0x255d; 0x255c; 0x255b; 0x2510;
   0x2514; 0x2534; 0x252c; 0x251c; 0x2500; 0x253c; 0x255e; 0x255f;
   0x255a; 0x2554; 0x2569; 0x2566; 0x2560; 0x2550; 0x256c; 0x2567;
   0x2568; 0x2564; 0x2565; 0x2559; 0x2558; 0x2552; 0x2553; 0x256b;
   0x256a; 0x2518; 0x250c; 0x2588; 0x2584; 0x258c; 0x2590; 0x2580;
   0x03c9; 0x03ac; 0x03ad; 0x03ae; 0x03ca; 0x03af; 0x03cc; 0x03cd;
   0x03cb; 0x03ce; 0x0386; 0x0388; 0x0389; 0x038a; 0x038c; 0x038e;
   0x038f; 0x00b1; 0x2265; 0x2264; 0x03aa; 0x03ab; 0x00f7; 0x2248;
   0x00b0; 0x2219; 0x00b7; 0x221a; 0x207f; 0x00b2; 0x25a0; 0x00a0].

Definition cp775_chars : list Z :=
  [0x2007; 0x263A; 0x263B; 0x2665; 0x2666; 0x2663; 0x2660; 0x2022;
   0x25D8; 0x25CB; 0x25D9; 0x2642; 0x2640; 0x266A; 0x266B; 0x263C;
   0x25B6; 0x25C0; 0x2195; 0x203C; 0x00B6; 0x00A7; 0x25AC; 0x21A8;
   0x2191; 0x2193; 0x2192; 0x2190; 0x221F; 0x2194; 0x25B2; 0x25BC;
   0x0020; 0x0021; 0x0022; 0x0023; 0x0024; 0x0025; 0x0026; 0x0027;
   0x0028; 0x0029; 0x002a; 0x002b; 0x002c; 0x002d; 0x002e; 0x002f;
   0x0030; 0x0031; 0x0032; 0x0033; 0x0034; 0x0035; 0x0036; 0x0037;
   0x0038; 0x0039; 0x003a; 0x003b; 0x003c; 0x003d; 0x003e; 0x003f;
   0x0040; 0x0041; 0x0042; 0x0043; 0x0044; 0x0045; 0x0046; 0x0047;
   0x0048; 0x0049; 0x004a; 0x004b; 0x004c; 0x004d; 0x004e; 0x004f;
   0x0050; 0x0051; 0x0052; 0x0053; 0x0054; 0x0055; 0x0056; 0x0057;
   0x0058; 0x0059; 0x005a; 0x005b; 0x005c; 0x005d; 0x005e; 0x005f;
   0x0060; 0x0061; 0x0062; 0x0063; 0x0064; 0x0065; 0x0066; 0x0067;
   0x0068; 0x0069; 0x006a; 0x006b; 0x006c; 0x006d; 0x006e; 0x006f;
   0x0070; 0x0071; 0x0072; 0x0073; 0x0074; 0x0075; 0x0076; 0x0077;
   0x0078; 0x0079; 0x007a; 0x007b; 0x007c; 0x007d; 0x007e; 0x2302;
   0x0106; 0x00fc; 0x00e9; 0x0101; 0x00e4; 0x0123; 0x00e5; 0x0107;
   0x0142; 0x0113; 0x0156; 0x0157; 0x012b; 0x0179; 0x00c4; 0x00c5;
   0x00c9; 0x00e6; 0x00c6; 0x014d; 0x00f6; 0x0122; 0x00a2; 0x015a;
   0x015b; 0x00d6; 0x00dc; 0x00f8; 0x00a3; 0x00d8; 0x00d7; 0x00a4;
   0x0100; 0x012a; 0x00f3; 0x017b; 0x017c; 0x017a; 0x201d; 0x00a6;
   0x00a9; 0x00ae; 0x00ac; 0x00bd; 0x00bc; 0x0141; 0x00ab; 0x00bb;
   0x2591; 0x2592; 0x2593; 0x2502; 0x2524; 0x0104; 0x010c; 0x0118;
   0x0116; 0x2563; 0x2551; 0x2557; 0x255d; 0x012e; 0x0160; 0x2510;
   0x2514; 0x2534; 0x252c; 0x251c; 0x2500; 0x253c; 0x0172; 0x016a;
   0x255a; 0x2554; 0x2569; 0x2566; 0x2560; 0x2550; 0x256c; 0x017d;
   0x0105; 0x010d; 0x0119; 0x0117; 0x012f; 0x0161; 0x0173; 0x016b;
   0x017e; 0x2518; 0x250c; 0x2588; 0x2584; 0x258c; 0x2590; 0x2580;
   0x00d3; 0x00df; 0x014c; 0x0143; 0x00f5; 0x00d5; 0x00b5; 0x0144;
   0x0136; 0x0137; 0x013b; 0x013c; 0x0146; 0x0112; 0x0145; 0x2019;
   0x00ad; 0x00b1; 0x201c; 0x00be; 0x00b6; 0x00a7; 0x00f7; 0x201e;
   0x00b0; 0x2219; 0x00b7; 0x00b9; 0x00b3; 0x00b2; 0x25a0; 0x00a0].

Definition cp850_chars : list Z :=
  [0x2007; 0x263A; 0x263B; 0x2665; 0x2666; 0x2663; 0x2660; 0x2022;
   0x25D8; 0x25CB; 0x25D9; 0x2642; 0x2640; 0x266A; 0x266B; 0x263C;
   0x25B6; 0x25C0; 0x2195; 0x203C; 0x00B6; 0x00A7; 0x25AC; 0x21A8;
   0x2191; 0x2193; 0x2192; 0x2190; 0x221F; 0x2194; 0x25B2; 0x25BC;
   0x0020; 0x0021; 0x0022; 0x0023; 0x0024; 0x0025; 0x0026; 0x0027;
   0x0028; 0x0029; 0x002a; 0x002b; 0x002c; 0x002d; 0x002e; 0x002f;
   0x0030; 0x0031; 0x0032; 0x0033; 0x0034; 0x0035; 0x0036; 0x0037;
   0x0038; 0x0039; 0x003a; 0x003b; 0x003c; 0x003d; 0x003e; 0x003f;
   0x0040; 0x0041; 0x0042; 0x0043; 0x0044; 0x0045; 0x0046; 0x0047;
   0x0048; 0x0049; 0x004a; 0x004b; 0x004c; 0x004d; 0x004e; 0x004f;
   0x0050; 0x0051; 0x0052; 0x0053; 0x0054; 0x0055; 0x0056; 0x0057;
   0x0058; 0x0059; 0x005a; 0x005b; 0x005c; 0x005d; 0x005e; 0x005f;
   0x0060; 0x0061; 0x0062; 0x0063; 0x0064; 0x0065; 0x0066; 0x0067;
   0x0068; 0x0069; 0x006a; 0x006b; 0x006c; 0x006d; 0x006e; 0x006f;
   0x0070; 0x0071; 0x0072; 0x0073; 0x0074; 0x0075; 0x0076; 0x0077;
   0x0078; 0x0079; 0x007a; 0x007b; 0x007c; 0x007d; 0x007e; 0x2302;
   0x00c7; 0x00fc; 0x00e9; 0x00e2; 0x00e4; 0x00e0; 0x00e5; 0x00e7;
   0x00ea; 0x00eb; 0x00e8; 0x00ef; 0x00ee; 0x00ec; 0x00c4; 0x00c5;
   0x00c9; 0x00e6; 0x00c6; 0x00f4; 0x00f6; 0x00f2; 0x00fb; 0x00f9;
   0x00ff; 0x00d6; 0x00dc; 0x00f8; 0x00a3; 0x00d8; 0x00d7; 0x0192;
   0x00e1; 0x00ed; 0x00f3; 0x00fa; 0x00f1; 0x00d1; 0x00aa; 0x00ba;
   0x00bf; 0x00ae; 0x00ac; 0x00bd; 0x00bc; 0x00a1; 0x00ab; 0x00bb;
   0x2591; 0x2592; 0x2593; 0x2502; 0x2524; 0x00c1; 0x00c2; 0x00c0;
   0x00a9; 0x2563; 0x2551; 0x2557; 0x255d; 0x00a2; 0x00a5; 0x2510;
   0x2514; 0x2534; 0x252c; 0x251c; 0x2500; 0x253c; 0x00e3; 0x00c3;
   0x255a; 0x2554; 0x2569; 0x2566; 0x2560; 0x2550; 0x256c; 0x00a4;
   0x00f0; 0x00d0; 0x00ca; 0x00cb; 0x00c8; 0x0131; 0x00cd; 0x00ce;
   0x00cf; 0x2518; 0x250c; 0x2588; 0x2584; 0x00a6; 0x00cc; 0x2580;
   0x00d3; 0x00df; 0x00d4; 0x00d2; 0x00f5; 0x00d5; 0x00b5; 0x00fe;
   0x00de; 0x00da; 0x00db; 0x00d9; 0x00fd; 0x00dd; 0x00af; 0x00b4;
   0x00ad; 0x00b1; 0x2017; 0x00be; 0x00b6; 0x00a7; 0x00f7; 0x00b8;
   0x00b0; 0x00a8; 0x00b7; 0x00b9; 0x00b3; 0x00b2; 0x25a0; 0x00a0].

Definition cp852_chars : list Z :=
  [0x2007; 0x263A; 0x263B; 0x2665; 0x2666; 0x2663; 0x2660; 0x2022;
   0x25D8; 0x25CB; 0x25D9; 0x2642; 0x2640; 0x266A; 0x266B; 0x263C;
   0x25B6; 0x25C0; 0x2195; 0x203C; 0x00B6; 0x00A7; 0x25AC; 0x21A8;
   0x2191; 0x2193; 0x2192; 0x2190; 0x221F; 0x2194; 0x25B2; 0x25BC;
   0x0020; 0x0021; 0x0022; 0x0023; 0x0024; 0x0025; 0x0026; 0x0027;
   0x0028; 0x0029; 0x002a; 0x002b; 0x002c; 0x002d; 0x002e; 0x002f;
   0x0030; 0x0031; 0x0032; 0x0033; 0x0034; 0x0035; 0x0036; 0x0037;
   0x0038; 0x0039; 0x003a; 0x003b; 0x003c; 0x003d; 0x003e; 0x003f;
   0x0040; 0x0041; 0x0042; 0x0043; 0x0044; 0x0045; 0x0046; 0x0047;
   0x0048; 0x0049; 0x004a; 0x004b; 0x004c; 0x004d; 0x004e; 0x004f;
   0x0050; 0x0051; 0x0052; 0x0053; 0x0054; 0x0055; 0x0056; 0x0057;
   0x0058; 0x0059; 0x005a; 0x005b; 0x005c; 0x005d; 0x005e; 0x005f;
   0x0060; 0x0061; 0x0062; 0x0063; 0x0064; 0x0065; 0x0066; 0x0067;
   0x0068; 0x0069; 0x006a; 0x006b; 0x006c; 0x006d; 0x006e; 0x006f;
   0x0070; 0x0071; 0x0072; 0x0073; 0x0074; 0x0075; 0x0076; 0x0077;
   0x0078; 0x0079; 0x007a; 0x007b; 0x007c; 0x007d; 0x007e; 0x2302;
   0x00c7; 0x00fc; 0x00e9; 0x00e2; 0x00e4; 0x016f; 0x0107; 0x00e7;
   0x0142; 0x00eb; 0x0150; 0x0151; 0x00ee; 0x0179; 0x00c4; 0x0106;
   0x00c9; 0x0139; 0x013a; 0x00f4; 0x00f6; 0x013d; 0x013e; 0x015a;
   0x015b; 0x00d6; 0x00dc; 0x0164; 0x0165; 0x0141; 0x00d7; 0x010d;
   0x00e1; 0x00ed; 0x00f3; 0x00fa; 0x0104; 0x0105; 0x017d; 0x017e;
   0x0118; 0x0119; 0x00ac; 0x017a; 0x010c; 0x015f; 0x00ab; 0x00bb;
   0x2591; 0x2592; 0x2593; 0x2502; 0x2524; 0x00c1; 0x00c2; 0x011a;
   0x015e; 0x2563; 0x2551; 0x2557; 0x255d; 0x017b; 0x017c; 0x2510;
   0x2514; 0x2534; 0x252c; 0x251c; 0x2500; 0x253c; 0x0102; 0x0103;
   0x255a; 0x2554; 0x2569; 0x2566; 0x2560; 0x2550; 0x256c; 0x00a4;
   0x0111; 0x0110; 0x010e; 0x00cb; 0x010f; 0x0147; 0x00cd; 0x00ce;
   0x011b; 0x2518; 0x250c; 0x2588; 0x2584; 0x0162; 0x016e; 0x2580;
   0x00d3; 0x00df; 0x00d4; 0x0143; 0x0144; 0x0148; 0x0160; 0x0161;
   0x0154; 0x00da; 0x0155; 0x0170; 0x00fd; 0x00dd; 0x0163; 0x00b4;
   0x00ad; 0x02dd; 0x02db; 0x02c7; 0x02d8; 0x00a7; 0x00f7; 0x00b8;
   0x00b0; 0x00a8; 0x02d9; 0x0171; 0x0158; 0x0159; 0x25a0; 0x00a0].

Definition cp857_chars : list Z :=
  [0x2007; 0x263A; 0x263B; 0x2665; 0x2666; 0x2663; 0x2660; 0x2022;
   0x25D8; 0x25CB; 0x25D9; 0x2642; 0x2640; 0x266A; 0x266B; 0x263C;
   0x25B6; 0x25C0; 0x2195; 0x203C; 0x00B6; 0x00A7; 0x25AC; 0x21A8;
   0x2191; 0x2193; 0x2192; 0x2190; 0x221F; 0x2194; 0x25B2; 0x25BC;
   0x0020; 0x0021; 0x0022; 0x0023; 0x0024; 0x0025; 0x0026; 0x0027;
   0x0028; 0x0029; 0x002a; 0x002b; 0x002c; 0x002d; 0x002e; 0x002f;
   0x0030; 0x0031; 0x0032; 0x0033; 0x0034; 0x0035; 0x0036; 0x0037;
   0x0038; 0x0039; 0x003a; 0x003b; 0x003c; 0x003d; 0x003e; 0x003f;
   0x0040; 0x0041; 0x0042; 0x0043; 0x0044; 0x0045; 0x0046; 0x0047;
   0x0048; 0x0049; 0x004a; 0x004b; 0x004c; 0x004d; 0x004e; 0x004f;
   0x0050; 0x0051; 0x0052; 0x0053; 0x0054; 0x0055; 0x0056; 0x0057;
   0x0058; 0x0059; 0x005a; 0x005b; 0x005c; 0x005d; 0x005e; 0x005f;
   0x0060; 0x0061; 0x0062; 0x0063; 0x0064; 0x0065; 0x0066; 0x0067;
   0x0068; 0x0069; 0x006a; 0x006b; 0x006c; 0x006d; 0x006e; 0x006f;
   0x0070; 0x0071; 0x0072; 0x0073; 0x0074; 0x0075; 0x0076; 0x0077;
   0x0078; 0x0079; 0x007a; 0x007b; 0x007c; 0x007d; 0x007e; 0x2302;
   0x00c7; 0x00fc; 0x00e9; 0x00e2; 0x00e4; 0x00e0; 0x00e5; 0x00e7;
   0x00ea; 0x00eb; 0x00e8; 0x00ef; 0x00ee; 0x0131; 0x00c4; 0x00c5;
   0x00c9; 0x00e6; 0x00c6; 0x00f4; 0x00f6; 0x00f2; 0x00fb; 0x00f9;
   0x0130; 0x00d6; 0x00dc; 0x00f8; 0x00a3; 0x00d8; 0x015e; 0x015f;
   0x00e1; 0x00ed; 0x00f3; 0x00fa; 0x00f1; 0x00d1; 0x011e; 0x011f;
   0x00bf; 0x00ae; 0x00ac; 0x00bd; 0x00bc; 0x00a1; 0x00ab; 0x00bb;
   0x2591; 0x2592; 0x2593; 0x2502; 0x2524; 0x00c1; 0x00c2; 0x00c0;
   0x00a9; 0x2563; 0x2551; 0x2557; 0x255d; 0x00a2; 0x00a5; 0x2510;
   0x2514; 0x2534; 0x252c; 0x251c; 0x2500; 0x253c; 0x00e3; 0x00c3;
   0x255a; 0x2554; 0x2569; 0x2566; 0x2560; 0x2550; 0x256c; 0x00a4;
   0x00ba; 0x00aa; 0x00ca; 0x00cb; 0x00c8; 32; 0x00cd; 0x00ce;
   0x00cf; 0x2518; 0x250c; 0x2588; 0x2584; 0x00a6; 0x00cc; 0x2580;
   0x00d3; 0x00df; 0x00d4; 0x00d2; 0x00f5; 0x00d5; 0x00b5; 32;
   0x00d7; 0x00da; 0x00db; 0x00d9; 0x00ec; 0x00ff; 0x00af; 0x00b4;
   0x00ad; 0x00b1; 32; 0x00be; 0x00b6; 0x00a7; 0x00f7; 0x00b8;
   0x00b0; 0x00a8; 0x00b7; 0x00b9; 0x00b3; 0x00b2; 0x25a0; 0x00a0].

Definition cp858_chars : list Z :=
  [0x2007; 0x263A; 0x263B; 0x2665; 0x2666; 0x2663; 0x2660; 0x2022;
   0x25D8; 0x25CB; 0x25D9; 0x2642; 0x2640; 0x266A; 0x266B; 0x263C;
   0x25B6; 0x25C0; 0x2195; 0x203C; 0x00B6; 0x00A7; 0x25AC; 0x21A8;
   0x2191; 0x2193; 0x2192; 0x2190; 0x221F; 0x2194; 0x25B2; 0x25BC;
   0x0020; 0x0021; 0x0022; 0x0023; 0x0024; 0x0025; 0x0026; 0x0027;
   0x0028; 0x0029; 0x002a; 0x002b; 0x002c; 0x002d; 0x002e; 0x002f;
   0x0030; 0x0031; 0x0032; 0x0033; 0x0034; 0x0035; 0x0036; 0x0037;
   0x0038; 0x0039; 0x003a; 0x003b; 0x003c; 0x003d; 0x003e; 0x003f;
   0x0040; 0x0041; 0x0042; 0x0043; 0x0044; 0x0045; 0x0046; 0x0047;
   0x0048; 0x0049; 0x004a; 0x004b; 0x004c; 0x004d; 0x004e; 0x004f;
   0x0050; 0x0051; 0x0052; 0x0053; 0x0054; 0x0055; 0x0056; 0x0057;
   0x0058; 0x0059; 0x005a; 0x005b; 0x005c; 0x005d; 0x005e; 0x005f;
   0x0060; 0x0061; 0x0062; 0x0063; 0x0064; 0x0065; 0x0066; 0x0067;
   0x0068; 0x0069; 0x006a; 0x006b; 0x006c; 0x006d; 0x006e; 0x006f;
   0x0070; 0x0071; 0x0072; 0x0073; 0x0074; 0x0075; 0x0076; 0x0077;
   0x0078; 0x0079; 0x007a; 0x007b; 0x007c; 0x007d; 0x007e; 0x2302;
   0x00c7; 0x00fc; 0x00e9; 0x00e2; 0x00e4; 0x00e0; 0x00e5; 0x00e7;
   0x00ea; 0x00eb; 0x00e8; 0x00ef; 0x00ee; 0x00ec; 0x00c4; 0x00c5;
   0x00c9; 0x00e6; 0x00c6; 0x00f4; 0x00f6; 0x00f2; 0x00fb; 0x00f9;
   0x00ff; 0x00d6; 0x00dc; 0x00f8; 0x00a3; 0x00d8; 0x00d7; 0x0192;
   0x00e1; 0x00ed; 0x00f3; 0x00fa; 0x00f1; 0x00d1; 0x00aa; 0x00ba;
   0x00bf; 0x00ae; 0x00ac; 0x00bd; 0x00bc; 0x00a1; 0x00ab; 0x00bb;
   0x2591; 0x2592; 0x2593; 0x2502; 0x2524; 0x00c1; 0x00c2; 0x00c0;
   0x00a9; 0x2563; 0x2551; 0x2557; 0x255d; 0x00a2; 0x00a5; 0x2510;
   0x2514; 0x2534; 0x252c; 0x251c; 0x2500; 0x253c; 0x00e3; 0x00c3;
   0x255a; 0x2554; 0x2569; 0x2566; 0x2560; 0x2550; 0x256c; 0x00a4;
   0x00f0; 0x00d0; 0x00ca; 0x00cb; 0x00c8; 0x20ac; 0x00cd; 0x00ce;
   0x00cf; 0x2518; 0x250c; 0x2588; 0x2584; 0x00a6; 0x00cc; 0x2580;
   0x00d3; 0x00df; 0x00d4; 0x00d2; 0x00f5; 0x00d5; 0x00b5; 0x00fe;
   0x00de; 0x00da; 0x00db; 0x00d9; 0x00fd; 0x00dd; 0x00af; 0x00b4;
   0x00ad; 0x00b1; 0x2017; 0x00be; 0x00b6; 0x00a7; 0x00f7; 0x00b8;
   0x00b0; 0x00a8; 0x00b7; 0x00b9; 0x00b3; 0x00b2; 0x25a0; 0x00a0].

Definition cp860_chars : list Z :=
  [0x2007; 0x263A; 0x263B; 0x2665; 0x2666; 0x2663; 0x2660; 0x2022;
   0x25D8; 0x25CB; 0x25D9; 0x2642; 0x2640; 0x266A; 0x266B; 0x263C;
   0x25B6; 0x25C0; 0x2195; 0x203C; 0x00B6; 0x00A7; 0x25AC; 0x21A8;
   0x2191; 0x2193; 0x2192; 0x2190; 0x221F; 0x2194; 0x25B2; 0x25BC;
   0x0020; 0x0021; 0x0022; 0x0023; 0x0024; 0x0025; 0x0026; 0x0027;
   0x0028; 0x0029; 0x002a; 0x002b; 0x002c; 0x002d; 0x002e; 0x002f;
   0x0030; 0x0031; 0x0032; 0x0033; 0x0034; 0x0035; 0x0036; 0x0037;
   0x0038; 0x0039; 0x003a; 0x003b; 0x003c; 0x003d; 0x003e; 0x003f;
   0x0040; 0x0041; 0x0042; 0x0043; 0x0044; 0x0045; 0x0046; 0x0047;
   0x0048; 0x0049; 0x004a; 0x004b; 0x004c; 0x004d; 0x004e; 0x004f;
   0x0050; 0x0051; 0x0052; 0x0053; 0x0054; 0x0055; 0x0056; 0x0057;
   0x0058; 0x0059; 0x005a; 0x005b; 0x005c; 0x005d; 0x005e; 0x005f;
   0x0060; 0x0061; 0x0062; 0x0063; 0x0064; 0x0065; 0x0066; 0x0067;
   0x0068; 0x0069; 0x006a; 0x006b; 0x006c; 0x006d; 0x006e; 0x006f;
   0x0070; 0x0071; 0x0072; 0x0073; 0x0074; 0x0075; 0x0076; 0x0077;
   0x0078; 0x0079; 0x007a; 0x007b; 0x007c; 0x007d; 0x007e; 0x2302;
   0x00c7; 0x00fc; 0x00e9; 0x00e2; 0x00e3; 0x00e0; 0x00c1; 0x00e7;
   0x00ea; 0x00ca; 0x00e8; 0x00cd; 0x00d4; 0x00ec; 0x00c3; 0x00c2;
   0x00c9; 0x00c0; 0x00c8; 0x00f4; 0x00f5; 0x00f2; 0x00da; 0x00f9;
   0x00cc; 0x00d5; 0x00dc; 0x00a2; 0x00a3; 0x00d9; 0x20a7; 0x00d3;
   0x00e1; 0x00ed; 0x00f3; 0x00fa; 0x00f1; 0x00d1; 0x00aa; 0x00ba;
   0x00bf; 0x00d2; 0x00ac; 0x00bd; 0x00bc; 0x00a1; 0x00ab; 0x00bb;
   0x2591; 0x2592; 0x2593; 0x2502; 0x2524; 0x2561; 0x2562; 0x2556;
   0x2555; 0x2563; 0x2551; 0x2557; 0x255d; 0x255c; 0x255b; 0x2510;
   0x2514; 0x2534; 0x252c; 0x251c; 0x2500; 0x253c; 0x255e; 0x255f;
   0x255a; 0x2554; 0x2569; 0x2566; 0x2560; 0x2550; 0x256c; 0x2567;
   0x2568; 0x2564; 0x2565; 0x2559; 0x2558; 0x2552; 0x2553; 0x256b;
   0x256a; 0x2518; 0x250c; 0x2588; 0x2584; 0x258c; 0x2590; 0x2580;
   0x03b1; 0x00df; 0x0393; 0x03c0; 0x03a3; 0x03c3; 0x00b5; 0x03c4;
   0x03a6; 0x0398; 0x03a9; 0x03b4; 0x221e; 0x03c6; 0x03b5; 0x2229;
   0x2261; 0x00b1; 0x2265; 0x2264; 0x2320; 0x2321; 0x00f7; 0x2248;
   0x00b0; 0x2219; 0x00b7; 0x221a; 0x207f; 0x00b2; 0x25a0; 0x00a0].

Definition cp862_chars : list Z :=
  [0x2007; 0x263A; 0x263B; 0x2665; 0x2666; 0x2663; 0x2660; 0x2022;
   0x25D8; 0x25CB; 0x25D9; 0x2642; 0x2640; 0x266A; 0x266B; 0x263C;
   0x25B6; 0x25C0; 0x2195; 0x203C; 0x00B6; 0x00A7; 0x25AC; 0x21A8;
   0x2191; 0x2193; 0x2192; 0x2190; 0x221F; 0x2194; 0x25B2; 0x25BC;
   0x0020; 0x0021; 0x0022; 0x0023; 0x0024; 0x0025; 0x0026; 0x0027;
   0x0028; 0x0029; 0x002a; 0x002b; 0x002c; 0x002d; 0x002e; 0x002f;
   0x0030; 0x0031; 0x0032; 0x0033; 0x0034; 0x0035; 0x0036; 0x0037;
   0x0038; 0x0039; 0x003a; 0x003b; 0x003c; 0x003d; 0x003e; 0x003f;
   0x0040; 0x0041; 0x0042; 0x0043; 0x0044; 0x0045; 0x0046; 0x0047;
   0x0048; 0x0049; 0x004a; 0x004b; 0x004c; 0x004d; 0x004e; 0x004f;
   0x0050; 0x0051; 0x0052; 0x0053; 0x0054; 0x0055; 0x0056; 0x0057;
   0x0058; 0x0059; 0x005a; 0x005b; 0x005c; 0x005d; 0x005e; 0x005f;
   0x0060; 0x0061; 0x0062; 0x0063; 0x0064; 0x0065; 0x0066; 0x0067;
   0x0068; 0x0069; 0x006a; 0x006b; 0x006c; 0x006d; 0x006e; 0x006f;
   0x0070; 0x0071; 0x0072; 0x0073; 0x0074; 0x0075; 0x0076; 0x0077;
   0x0078; 0x0079; 0x007a; 0x007b; 0x007c; 0x007d; 0x007e; 0x2302;
   0x05d0; 0x05d1; 0x05d2; 0x05d3; 0x05d4; 0x05d5; 0x05d6; 0x05d7;
   0x05d8; 0x05d9; 0x05da; 0x05db; 0x05dc; 0x05dd; 0x05de; 0x05df;
   0x05e0; 0x05e1; 0x05e2; 0x05e3; 0x05e4; 0x05e5; 0x05e6; 0x05e7;
   0x05e8; 0x05e9; 0x05ea; 0x00a2; 0x00a3; 0x00a5; 0x20a7; 0x0192;
   0x00e1; 0x00ed; 0x00f3; 0x00fa; 0x00f1; 0x00d1; 0x00aa; 0x00ba;
   0x00bf; 0x2310; 0x00ac; 0x00bd; 0x00bc; 0x00a1; 0x00ab; 0x00bb;
   0x2591; 0x2592; 0x2593; 0x2502; 0x2524; 0x2561; 0x2562; 0x2556;
   0x2555; 0x2563; 0x2551; 0x2557; 0x255d; 0x255c; 0x255b; 0x2510;
   0x2514; 0x2534; 0x252c; 0x251c; 0x2500; 0x253c; 0x255e; 0x255f;
   0x255a; 0x2554; 0x2569; 0x2566; 0x2560; 0x2550; 0x256c; 0x2567;
   0x2568; 0x2564; 0x2565; 0x2559; 0x2558; 0x2552; 0x2553; 0x256b;
   0x256a; 0x2518; 0x250c; 0x2588; 0x2584; 0x258c; 0x2590; 0x2580;
   0x03b1; 0x00df; 0x0393; 0x03c0; 0x03a3; 0x03c3; 0x00b5; 0x03c4;
   0x03a6; 0x0398; 0x03a9; 0x03b4; 0x221e; 0x03c6; 0x03b5; 0x2229;
   0x2261; 0x00b1; 0x2265; 0x2264; 0x2320; 0x2321; 0x00f7; 0x2248;
   0x00b0; 0x2219; 0x00b7; 0x221a; 0x207f; 0x00b2; 0x25a0; 0x00a0].

Definition cp863_chars : list Z :=
  [0x2007; 0x263A; 0x263B; 0x2665; 0x2666; 0x2663; 0x2660; 0x2022;
   0x25D8; 0x25CB; 0x25D9; 0x2642; 0x2640; 0x266A; 0x266B; 0x263C;
   0x25B6; 0x25C0; 0x2195; 0x203C; 0x00B6; 0x00A7; 0x25AC; 0x21A8;
   0x2191; 0x2193; 0x2192; 0x2190; 0x221F; 0x2194; 0x25B2; 0x25BC;
   0x0020; 0x0021; 0x0022; 0x0023; 0x0024; 0x0025; 0x0026; 0x0027;
   0x0028; 0x0029; 0x002a; 0x002b; 0x002c; 0x002d; 0x002e; 0x002f;
   0x0030; 0x0031; 0x0032; 0x0033; 0x0034; 0x0035; 0x0036; 0x0037;
   0x0038; 0x0039; 0x003a; 0x003b; 0x003c; 0x003d; 0x003e; 0x003f;
   0x0040; 0x0041; 0x0042; 0x0043; 0x0044; 0x0045; 0x0046; 0x0047;
   0x0048; 0x0049; 0x004a; 0x004b; 0x004c; 0x004d; 0x004e; 0x004f;
   0x0050; 0x0051; 0x0052; 0x0053; 0x0054; 0x0055; 0x0056; 0x0057;
   0x0058; 0x0059; 0x005a; 0x005b; 0x005c; 0x005d; 0x005e; 0x005f;
   0x0060; 0x0061; 0x0062; 0x0063; 0x0064; 0x0065; 0x0066; 0x0067;
   0x0068; 0x0069; 0x006a; 0x006b; 0x006c; 0x006d; 0x006e; 0x006f;
   0x0070; 0x0071; 0x0072; 0x0073; 0x0074; 0x0075; 0x0076; 0x0077;
   0x0078; 0x0079; 0x007a; 0x007b; 0x007c; 0x007d; 0x007e; 0x2302;
   0x00c7; 0x00fc; 0x00e9; 0x00e2; 0x00c2; 0x00e0; 0x00b6; 0x00e7;
   0x00ea; 0x00eb; 0x00e8; 0x00ef; 0x00ee; 0x2017; 0x00c0; 0x00a7;
   0x00c9; 0x00c8; 0x00ca; 0x00f4; 0x00cb; 0x00cf; 0x00fb; 0x00f9;
   0x00a4; 0x00d4; 0x00dc; 0x00a2; 0x00a3; 0x00d9; 0x00db; 0x0192;
   0x00a6; 0x00b4; 0x00f3; 0x00fa; 0x00a8; 0x00b8; 0x00b3; 0x00af;
   0x00ce; 0x2310; 0x00ac; 0x00bd; 0x00bc; 0x00be; 0x00ab; 0x00bb;
   0x2591; 0x2592; 0x2593; 0x2502; 0x2524; 0x2561; 0x2562; 0x2556;
   0x2555; 0x2563; 0x2551; 0x2557; 0x255d; 0x255c; 0x255b; 0x2510;
   0x2514; 0x2534; 0x252c; 0x251c; 0x2500; 0x253c; 0x255e; 0x255f;
   0x255a; 0x2554; 0x2569; 0x2566; 0x2560; 0x2550; 0x256c; 0x2567;
   0x2568; 0x2564; 0x2565; 0x2559; 0x2558; 0x2552; 0x2553; 0x256b;
   0x256a; 0x2518; 0x250c; 0x2588; 0x2584; 0x258c; 0x2590; 0x2580;
   0x03b1; 0x00df; 0x0393; 0x03c0; 0x03a3; 0x03c3; 0x00b5; 0x03c4;
   0x03a6; 0x0398; 0x03a9; 0x03b4; 0x221e; 0x03c6; 0x03b5; 0x2229;
   0x2261; 0x00b1; 0x2265; 0x2264; 0x2320; 0x2321; 0x00f7; 0x2248;
   0x00b0; 0x2219; 0x00b7; 0x221a; 0x207f; 0x00b2; 0x25a0; 0x00a0].

Definition cp866_chars : list Z :=
  [0x2007; 0x263A; 0x263B; 0x2665; 0x2666; 0x2663; 0x2660; 0x2022;
   0x25D8; 0x25CB; 0x25D9; 0x2642; 0x2640; 0x266A; 0x266B; 0x263C;
   0x25B6; 0x25C0; 0x2195; 0x203C; 0x00B6; 0x00A7; 0x25AC; 0x21A8;
   0x2191; 0x2193; 0x2192; 0x2190; 0x221F; 0x2194; 0x25B2; 0x25BC;
   0x0020; 0x0021; 0x0022; 0x0023; 0x0024; 0x0025; 0x0026; 0x0027;
   0x0028; 0x0029; 0x002a; 0x002b; 0x002c; 0x002d; 0x002e; 0x002f;
   0x0030; 0x0031; 0x0032; 0x0033; 0x0034; 0x0035; 0x0036; 0x0037;
   0x0038; 0x0039; 0x003a; 0x003b; 0x003c; 0x003d; 0x003e; 0x003f;
   0x0040; 0x0041; 0x0042; 0x0043; 0x0044; 0x0045; 0x0046; 0x0047;
   0x0048; 0x0049; 0x004a; 0x004b; 0x004c; 0x004d; 0x004e; 0x004f;
   0x0050; 0x0051; 0x0052; 0x0053; 0x0054; 0x0055; 0x0056; 0x0057;
   0x0058; 0x0059; 0x005a; 0x005b; 0x005c; 0x005d; 0x005e; 0x005f;
   0x0060; 0x0061; 0x0062; 0x0063; 0x0064; 0x0065; 0x0066; 0x0067;
   0x0068; 0x0069; 0x006a; 0x006b; 0x006c; 0x006d; 0x006e; 0x006f;
   0x0070; 0x0071; 0x0072; 0x0073; 0x0074; 0x0075; 0x0076; 0x0077;
   0x0078; 0x0079; 0x007a; 0x007b; 0x007c; 0x007d; 0x007e; 0x2302;
   0x0410; 0x0411; 0x0412; 0x0413; 0x0414; 0x0415; 0x0416; 0x0417;
   0x0418; 0x0419; 0x041a; 0x041b; 0x041c; 0x041d; 0x041e; 0x041f;
   0x0420; 0x0421; 0x0422; 0x0423; 0x0424; 0x0425; 0x0426; 0x0427;
   0x0428; 0x0429; 0x042a; 0x042b; 0x042c; 0x042d; 0x042e; 0x042f;
   0x0430; 0x0431; 0x0432; 0x0433; 0x0434; 0x0435; 0x0436; 0x0437;
   0x0438; 0x0439; 0x043a; 0x043b; 0x043c; 0x043d; 0x043e; 0x043f;
   0x2591; 0x2592; 0x2593; 0x2502; 0x2524; 0x2561; 0x2562; 0x2556;
   0x2555; 0x2563; 0x2551; 0x2557; 0x255d; 0x255c; 0x255b; 0x2510;
   0x2514; 0x2534; 0x252c; 0x251c; 0x2500; 0x253c; 0x255e; 0x255f;
   0x255a; 0x2554; 0x2569; 0x2566; 0x2560; 0x2550; 0x256c; 0x2567;
   0x2568; 0x2564; 0x2565; 0x2559; 0x2558; 0x2552; 0x2553; 0x256b;
   0x256a; 0x2518; 0x250c; 0x2588; 0x2584; 0x258c; 0x2590; 0x2580;
   0x0440; 0x0441; 0x0442; 0x0443; 0x0444; 0x0445; 0x0446; 0x0447;
   0x0448; 0x0449; 0x044a; 0x044b; 0x044c; 0x044d; 0x044e; 0x044f;
   0x0401; 0x0451; 0x0404; 0x0454; 0x0407; 0x0457; 0x040e; 0x045e;
   0x00b0; 0x2219; 0x00b7; 0x221a; 0x2116; 0x00a4; 0x25a0; 0x00a0].

Definition cp1250_chars : list Z :=
  [0x2007; 0x263A; 0x263B; 0x2665; 0x2666; 0x2663; 0x2660; 0x2022;
   0x25D8; 0x25CB; 0x25D9; 0x2642; 0x2640; 0x266A; 0x266B; 0x263C;
   0x25B6; 0x25C0; 0x2195; 0x203C; 0x00B6; 0x00A7; 0x25AC; 0x21A8;
   0x2191; 0x2193; 0x2192; 0x2190; 0x221F; 0x2194; 0x25B2; 0x25BC;
   0x0020; 0x0021; 0x0022; 0x0023; 0x0024; 0x0025; 0x0026; 0x0027;
   0x0028; 0x0029; 0x002a; 0x002b; 0x002c; 0x002d; 0x002e; 0x002f;
   0x0030; 0x0031; 0x0032; 0x0033; 0x0034; 0x0035; 0x0036; 0x0037;
   0x0038; 0x0039; 0x003a; 0x003b; 0x003c; 0x003d; 0x003e; 0x003f;
   0x0040; 0x0041; 0x0042; 0x0043; 0x0044; 0x0045; 0x0046; 0x0047;
   0x0048; 0x0049; 0x004a; 0x004b; 0x004c; 0x004d; 0x004e; 0x004f;
   0x0050; 0x0051; 0x0052; 0x0053; 0x0054; 0x0055; 0x0056; 0x0057;
   0x0058; 0x0059; 0x005a; 0x005b; 0x005c; 0x005d; 0x005e; 0x005f;
   0x0060; 0x0061; 0x0062; 0x0063; 0x0064; 0x0065; 0x0066; 0x0067;
   0x0068; 0x0069; 0x006a; 0x006b; 0x006c; 0x006d; 0x006e; 0x006f;
   0x0070; 0x0071; 0x0072; 0x0073; 0x0074; 0x0075; 0x0076; 0x0077;
   0x0078; 0x0079; 0x007a; 0x007b; 0x007c; 0x007d; 0x007e; 0x2302;
   0x20AC; 32; 0x201A; 32; 0x201E; 0x2026; 0x2020; 0x2021;
   32; 0x2030; 0x0160; 0x2039; 0x015A; 0x0164; 0x017D; 0x0179;
   32; 0x2018; 0x2019; 0x201C; 0x201D; 0x2022; 0x2013; 0x2014;
   32; 0x2122; 0x0161; 0x203A; 0x015B; 0x0165; 0x017E; 0x017A;
   0x00A0; 0x02C7; 0x02D8; 0x0141; 0x00A4; 0x0104; 0x00A6; 0x00A7;
   0x00A8; 0x00A9; 0x015E; 0x00AB; 0x00AC; 0x00AD; 0x00AE; 0x017B;
   0x00B0; 0x00B1; 0x02DB; 0x0142; 0x00B4; 0x00B5; 0x00B6; 0x00B7;
   0x00B8; 0x0105; 0x015F; 0x00BB; 0x013D; 0x02DD; 0x013E; 0x017C;
   0x0154; 0x00C1; 0x00C2; 0x0102; 0x00C4; 0x0139; 0x0106; 0x00C7;
   0x010C; 0x00C9; 0x0118; 0x00CB; 0x011A; 0x00CD; 0x00CE; 0x010E;
   0x0110; 0x0143; 0x0147; 0x00D3; 0x00D4; 0x0150; 0x00D6; 0x00D7;
   0x0158; 0x016E; 0x00DA; 0x0170; 0x00DC; 0x00DD; 0x0162; 0x00DF;
   0x0155; 0x00E1; 0x00E2; 0x0103; 0x00E4; 0x013A; 0x0107; 0x00E7;
   0x010D; 0x00E9; 0x0119; 0x00EB; 0x011B; 0x00ED; 0x00EE; 0x010F;
   0x0111; 0x0144; 0x0148; 0x00F3; 0x00F4; 0x0151; 0x00F6; 0x00F7;
   0x0159; 0x016F; 0x00FA; 0x0171; 0x00FC; 0x00FD; 0x0163; 0x02D9].

Definition cp1251_chars : list Z :=
  [0x2007; 0x263A; 0x263B; 0x2665; 0x2666; 0x2663; 0x2660; 0x2022;
   0x25D8; 0x25CB; 0x25D9; 0x2642; 0x2640; 0x266A; 0x266B; 0x263C;
   0x25B6; 0x25C0; 0x2195; 0x203C; 0x00B6; 0x00A7; 0x25AC; 0x21A8;
   0x2191; 0x2193; 0x2192; 0x2190; 0x221F; 0x2194; 0x25B2; 0x25BC;
   0x0020; 0x0021; 0x0022; 0x0023; 0x0024; 0x0025; 0x0026; 0x0027;
   0x0028; 0x0029; 0x002a; 0x002b; 0x002c; 0x002d; 0x002e; 0x002f;
   0x0030; 0x0031; 0x0032; 0x0033; 0x0034; 0x0035; 0x0036; 0x0037;
   0x0038; 0x0039; 0x003a; 0x003b; 0x003c; 0x003d; 0x003e; 0x003f;
   0x0040; 0x0041; 0x0042; 0x0043; 0x0044; 0x0045; 0x0046; 0x0047;
   0x0048; 0x0049; 0x004a; 0x004b; 0x004c; 0x004d; 0x004e; 0x004f;
   0x0050; 0x0051; 0x0052; 0x0053; 0x0054; 0x0055; 0x0056; 0x0057;
   0x0058; 0x0059; 0x005a; 0x005b; 0x005c; 0x005d; 0x005e; 0x005f;
   0x0060; 0x0061; 0x0062; 0x0063; 0x0064; 0x0065; 0x0066; 0x0067;
   0x0068; 0x0069; 0x006a; 0x006b; 0x006c; 0x006d; 0x006e; 0x006f;
   0x0070; 0x0071; 0x0072; 0x0073; 0x0074; 0x0075; 0x0076; 0x0077;
   0x0078; 0x0079; 0x007a; 0x007b; 0x007c; 0x007d; 0x007e; 0x2302;
   0x0402; 0x0403; 0x201A; 0x0453; 0x201E; 0x2026; 0x2020; 0x2021;
   0x20AC; 0x2030; 0x0409; 0x2039; 0x040A; 0x040C; 0x040B; 0x040F;
   0x0452; 0x2018; 0x2019; 0x201C; 0x201D; 0x2022; 0x2013; 0x2014;
   32; 0x2122; 0x0459; 0x203A; 0x045A; 0x045C; 0x045B; 0x045F;
   0x00A0; 0x040E; 0x045E; 0x0408; 0x00A4; 0x0490; 0x00A6; 0x00A7;
   0x0401; 0x00A9; 0x0404; 0x00AB; 0x00AC; 0x00AD; 0x00AE; 0x0407;
   0x00B0; 0x00B1; 0x0406; 0x0456; 0x0491; 0x00B5; 0x00B6; 0x00B7;
   0x0451; 0x2116; 0x0454; 0x00BB; 0x0458; 0x0405; 0x0455; 0x0457;
   0x0410; 0x0411; 0x0412; 0x0413; 0x0414; 0x0415; 0x0416; 0x0417;
   0x0418; 0x0419; 0x041A; 0x041B; 0x041C; 0x041D; 0x041E; 0x041F;
   0x0420; 0x0421; 0x0422; 0x0423; 0x0424; 0x0425; 0x0426; 0x0427;
   0x0428; 0x0429; 0x042A; 0x042B; 0x042C; 0x042D; 0x042E; 0x042F;
   0x0430; 0x0431; 0x0432; 0x0433; 0x0434; 0x0435; 0x0436; 0x0437;
   0x0438; 0x0439; 0x043A; 0x043B; 0x043C; 0x043D; 0x043E; 0x043F;
   0x0440; 0x0441; 0x0442; 0x0443; 0x0444; 0x0445; 0x0446; 0x0447;
   0x0448; 0x0449; 0x044A; 0x044B; 0x044C; 0x044D; 0x044E; 0x044F].

Definition cp1252_chars : list Z :=
  [0x2007; 0x263A; 0x263B; 0x2665; 0x2666; 0x2663; 0x2660; 0x2022;
   0x25D8; 0x25CB; 0x25D9; 0x2642; 0x2640; 0x266A; 0x266B; 0x263C;
   0x25B6; 0x25C0; 0x2195; 0x203C; 0x00B6; 0x00A7; 0x25AC; 0x21A8;
   0x2191; 0x2193; 0x2192; 0x2190; 0x221F; 0x2194; 0x25B2; 0x25BC;
   0x0020; 0x0021; 0x0022; 0x0023; 0x0024; 0x0025; 0x0026; 0x0027;
   0x0028; 0x0029; 0x002a; 0x002b; 0x002c; 0x002d; 0x002e; 0x002f;
   0x0030; 0x0031; 0x0032; 0x0033; 0x0034; 0x0035; 0x0036; 0x0037;
   0x0038; 0x0039; 0x003a; 0x003b; 0x003c; 0x003d; 0x003e; 0x003f;
   0x0040; 0x0041; 0x0042; 0x0043; 0x0044; 0x0045; 0x0046; 0x0047;
   0x0048; 0x0049; 0x004a; 0x004b; 0x004c; 0x004d; 0x004e; 0x004f;
   0x0050; 0x0051; 0x0052; 0x0053; 0x0054; 0x0055; 0x0056; 0x0057;
   0x0058; 0x0059; 0x005a; 0x005b; 0x005c; 0x005d; 0x005e; 0x005f;
   0x0060; 0x0061; 0x0062; 0x0063; 0x0064; 0x0065; 0x0066; 0x0067;
   0x0068; 0x0069; 0x006a; 0x006b; 0x006c; 0x006d; 0x006e; 0x006f;
   0x0070; 0x0071; 0x0072; 0x0073; 0x0074; 0x0075; 0x0076; 0x0077;
   0x0078; 0x0079; 0x007a; 0x007b; 0x007c; 0x007d; 0x007e; 0x2302;
   0x20AC; 32; 0x201A; 0x0192; 0x201E; 0x2026; 0x2020; 0x2021;
   0x02C6; 0x2030; 0x0160; 0x2039; 0x0152; 32; 0x017D; 32;
   32; 0x2018; 0x2019; 0x201C; 0x201D; 0x2022; 0x2013; 0x2014;
   0x02DC; 0x2122; 0x0161; 0x203A; 0x0153; 32; 0x017E; 0x0178;
   0x00A0; 0x00A1; 0x00A2; 0x00A3; 0x00A4; 0x00A5; 0x00A6; 0x00A7;
   0x00A8; 0x00A9; 0x00AA; 0x00AB; 0x00AC; 0x00AD; 0x00AE; 0x00AF;
   0x00B0; 0x00B1; 0x00B2; 0x00B3; 0x00B4; 0x00B5; 0x00B6; 0x00B7;
   0x00B8; 0x00B9; 0x00BA; 0x00BB; 0x00BC; 0x00BD; 0x00BE; 0x00BF;
   0x00C0; 0x00C1; 0x00C2; 0x00C3; 0x00C4; 0x00C5; 0x00C6; 0x00C7;
   0x00C8; 0x00C9; 0x00CA; 0x00CB; 0x00CC; 0x00CD; 0x00CE; 0x00CF;
   0x00D0; 0x00D1; 0x00D2; 0x00D3; 0x00D4; 0x00D5; 0x00D6; 0x00D7;
   0x00D8; 0x00D9; 0x00DA; 0x00DB; 0x00DC; 0x00DD; 0x00DE; 0x00DF;
   0x00E0; 0x00E1; 0x00E2; 0x00E3; 0x00E4; 0x00E5; 0x00E6; 0x00E7;
   0x00E8; 0x00E9; 0x00EA; 0x00EB; 0x00EC; 0x00ED; 0x00EE; 0x00EF;
   0x00F0; 0x00F1; 0x00F2; 0x00F3; 0x00F4; 0x00F5; 0x00F6; 0x00F7;
   0x00F8; 0x00F9; 0x00FA; 0x00FB; 0x00FC; 0x00FD; 0x00FE; 0x00FF].

Definition koi8_r_chars : list Z :=
  [0x2007; 0x263A; 0x263B; 0x2665; 0x2666; 0x2663; 0x2660; 0x2022;
   0x25D8; 0x25CB; 0x25D9; 0x2642; 0x2640; 0x266A; 0x266B; 0x263C;
   0x25B6; 0x25C0; 0x2195; 0x203C; 0x00B6; 0x00A7; 0x25AC; 0x21A8;
   0x2191; 0x2193; 0x2192; 0x2190; 0x221F; 0x2194; 0x25B2; 0x25BC;
   0x0020; 0x0021; 0x0022; 0x0023; 0x0024; 0x0025; 0x0026; 0x0027;
   0x0028; 0x0029; 0x002a; 0x002b; 0x002c; 0x002d; 0x002e; 0x002f;
   0x0030; 0x0031; 0x0032; 0x0033; 0x0034; 0x0035; 0x0036; 0x0037;
   0x0038; 0x0039; 0x003a; 0x003b; 0x003c; 0x003d; 0x003e; 0x003f;
   0x0040; 0x0041; 0x0042; 0x0043; 0x0044; 0x0045; 0x0046; 0x0047;
   0x0048; 0x0049; 0x004a; 0x004b; 0x004c; 0x004d; 0x004e; 0x004f;
   0x0050; 0x0051; 0x0052; 0x0053; 0x0054; 0x0055; 0x0056; 0x0057;
   0x0058; 0x0059; 0x005a; 0x005b; 0x005c; 0x005d; 0x005e; 0x005f;
   0x0060; 0x0061; 0x0062; 0x0063; 0x0064; 0x0065; 0x0066; 0x0067;
   0x0068; 0x0069; 0x006a; 0x006b; 0x006c; 0x006d; 0x006e; 0x006f;
   0x0070; 0x0071; 0x0072; 0x0073; 0x0074; 0x0075; 0x0076; 0x0077;
   0x0078; 0x0079; 0x007a; 0x007b; 0x007c; 0x007d; 0x007e; 0x2302;
   0x2500; 0x2502; 0x250C; 0x2510; 0x2514; 0x2518; 0x251C; 0x2524;
   0x252C; 0x2534; 0x253C; 0x2580; 0x2584; 0x2588; 0x258C; 0x2590;
   0x2591; 0x2592; 0x2593; 0x2320; 0x25A0; 0x2219; 0x221A; 0x2248;
   0x2264; 0x2265; 0x00A0; 0x2321; 0x00B0; 0x00B2; 0x00B7; 0x00F7;
   0x2550; 0x2551; 0x2552; 0x0451; 0x2553; 0x2554; 0x2555; 0x2556;
   0x2557; 0x2558; 0x2559; 0x255A; 0x255B; 0x255C; 0x255D; 0x255E;
   0x255F; 0x2560; 0x2561; 0x0401; 0x2562; 0x2563; 0x2564; 0x2565;
   0x2566; 0x2567; 0x2568; 0x2569; 0x256A; 0x256B; 0x256C; 0x00A9;
   0x044E; 0x0430; 0x0431; 0x0446; 0x0434; 0x0435; 0x0444; 0x0433;
   0x0445; 0x0438; 0x0439; 0x043A; 0x043B; 0x043C; 0x043D; 0x043E;
   0x043F; 0x044F; 0x0440; 0x0441; 0x0442; 0x0443; 0x0436; 0x0432;
   0x044C; 0x044B; 0x0437; 0x0448; 0x044D; 0x0449; 0x0447; 0x044A;
   0x042E; 0x0410; 0x0411; 0x0426; 0x0414; 0x0415; 0x0424; 0x0413;
   0x0425; 0x0418; 0x0419; 0x041A; 0x041B; 0x041C; 0x041D; 0x041E;
   0x041F; 0x042F; 0x0420; 0x0421; 0x0422; 0x0423; 0x0416; 0x0412;
   0x042C; 0x042B; 0x0417; 0x0428; 0x042D; 0x0429; 0x0427; 0x042A].

Definition koi8_u_chars : list Z :=
  [0x2007; 0x263A; 0x263B; 0x2665; 0x2666; 0x2663; 0x2660; 0x2022;
   0x25D8; 0x25CB; 0x25D9; 0x2642; 0x2640; 0x266A; 0x266B; 0x263C;
   0x25B6; 0x25C0; 0x2195; 0x203C; 0x00B6; 0x00A7; 0x25AC; 0x21A8;
   0x2191; 0x2193; 0x2192; 0x2190; 0x221F; 0x2194; 0x25B2; 0x25BC;
   0x0020; 0x0021; 0x0022; 0x0023; 0x0024; 0x0025; 0x0026; 0x0027;
   0x0028; 0x0029; 0x002a; 0x002b; 0x002c; 0x002d; 0x002e; 0x002f;
   0x0030; 0x0031; 0x0032; 0x0033; 0x0034; 0x0035; 0x0036; 0x0037;
   0x0038; 0x0039; 0x003a; 0x003b; 0x003c; 0x003d; 0x003e; 0x003f;
   0x0040; 0x0041; 0x0042; 0x0043; 0x0044; 0x0045; 0x0046; 0x0047;
   0x0048; 0x0049; 0x004a; 0x004b; 0x004c; 0x004d; 0x004e; 0x004f;
   0x0050; 0x0051; 0x0052; 0x0053; 0x0054; 0x0055; 0x0056; 0x0057;
   0x0058; 0x0059; 0x005a; 0x005b; 0x005c; 0x005d; 0x005e; 0x005f;
   0x0060; 0x0061; 0x0062; 0x0063; 0x0064; 0x0065; 0x0066; 0x0067;
   0x0068; 0x0069; 0x006a; 0x006b; 0x006c; 0x006d; 0x006e; 0x006f;
   0x0070; 0x0071; 0x0072; 0x0073; 0x0074; 0x0075; 0x0076; 0x0077;
   0x0078; 0x0079; 0x007a; 0x007b; 0x007c; 0x007d; 0x007e; 0x2302;
   0x2500; 0x2502; 0x250C; 0x2510; 0x2514; 0x2518; 0x251C; 0x2524;
   0x252C; 0x2534; 0x253C; 0x2580; 0x2584; 0x2588; 0x258C; 0x2590;
   0x2591; 0x2592; 0x2593; 0x2320; 0x25A0; 0x2219; 0x221A; 0x2248;
   0x2264; 0x2265; 0x00A0; 0x2321; 0x00B0; 0x00B2; 0x00B7; 0x00F7;
   0x2550; 0x2551; 0x2552; 0x0451; 0x0454; 0x2554; 0x0456; 0x0457;
   0x2557; 0x2558; 0x2559; 0x255A; 0x255B; 0x0491; 0x255D; 0x255E;
   0x255F; 0x2560; 0x2561; 0x0401; 0x0404; 0x2563; 0x0406; 0x0407;
   0x2566; 0x2567; 0x2568; 0x2569; 0x256A; 0x0490; 0x256C; 0x00A9;
   0x044E; 0x0430; 0x0431; 0x0446; 0x0434; 0x0435; 0x0444; 0x0433;
   0x0445; 0x0438; 0x0439; 0x043A; 0x043B; 0x043C; 0x043D; 0x043E;
   0x043F; 0x044F; 0x0440; 0x0441; 0x0442; 0x0443; 0x0436; 0x0432;
   0x044C; 0x044B; 0x0437; 0x0448; 0x044D; 0x0449; 0x0447; 0x044A;
   0x042E; 0x0410; 0x0411; 0x0426; 0x0414; 0x0415; 0x0424; 0x0413;
   0x0425; 0x0418; 0x0419; 0x041A; 0x041B; 0x041C; 0x041D; 0x041E;
   0x041F; 0x042F; 0x0420; 0x0421; 0x0422; 0x0423; 0x0416; 0x0412;
   0x042C; 0x042B; 0x0417; 0x0428; 0x042D; 0x0429; 0x0427; 0x042A].

(** atascii.c *)
Definition atascii_chars : list Z :=
  [0x2665; 0x251C; 0x23B9; 0x2518; 0x2524; 0x2510; 0x2571; 0x2572;
   0x25E2; 0x2597; 0x25E3; 0x259D; 0x2598; 0x23BA; 0x23BD; 0x2596;
   0x2663; 0x250C; 0x2500; 0x253C; 0x25CF; 0x2584; 0x23B8; 0x252C;
   0x2534; 0x258C; 0x2514; 0x241B; 0x2191; 0x2193; 0x2190; 0x2192;
   0x0020; 0x0021; 0x0022; 0x0023; 0x0024; 0x0025; 0x0026; 0x0027;
   0x0028; 0x0029; 0x002A; 0x002B; 0x002C; 0x002D; 0x002E; 0x002F;
   0x0030; 0x0031; 0x0032; 0x0033; 0x0034; 0x0035; 0x0036; 0x0037;
   0x0038; 0x0039; 0x003A; 0x003B; 0x003C; 0x003D; 0x003E; 0x003F;
   0x0040; 0x0041; 0x0042; 0x0043; 0x0044; 0x0045; 0x0046; 0x0047;
   0x0048; 0x0049; 0x004A; 0x004B; 0x004C; 0x004D; 0x004E; 0x004F;
   0x0050; 0x0051; 0x0052; 0x0053; 0x0054; 0x0055; 0x0056; 0x0057;
   0x0058; 0x0059; 0x005A; 0x005B; 0x005C; 0x005D; 0x005E; 0x005F;
   0x2666; 0x0061; 0x0062; 0x0063; 0x0064; 0x0065; 0x0066; 0x0067;
   0x0068; 0x0069; 0x006A; 0x006B; 0x006C; 0x006D; 0x006E; 0x006F;
   0x0070; 0x0071; 0x0072; 0x0073; 0x0074; 0x0075; 0x0076; 0x0077;
   0x0078; 0x0079; 0x007A; 0x2660; 0x007C; 0x2196; 0x25C0; 0x25B6].

(** ** Codepages *)

Inductive Q_CODEPAGE :=
| Q_CODEPAGE_CP437 | Q_CODEPAGE_ISO8859_1 | Q_CODEPAGE_CP720 | Q_CODEPAGE_CP737 | Q_CODEPAGE_CP775
| Q_CODEPAGE_CP850 | Q_CODEPAGE_CP852 | Q_CODEPAGE_CP857 | Q_CODEPAGE_CP858 | Q_CODEPAGE_CP860
| Q_CODEPAGE_CP862 | Q_CODEPAGE_CP863 | Q_CODEPAGE_CP866 | Q_CODEPAGE_CP1250 | Q_CODEPAGE_CP1251
| Q_CODEPAGE_CP1252 | Q_CODEPAGE_KOI8_R | Q_CODEPAGE_KOI8_U | Q_CODEPAGE_DEC | Q_CODEPAGE_PETSCII
| Q_CODEPAGE_ATASCII.
#[global] Instance Q_CODEPAGE_eq_dec : EqDecision Q_CODEPAGE.
Proof. solve_decision. Defined.

Definition codepage_string (codepage : Q_CODEPAGE) : string :=
  match codepage with
  | Q_CODEPAGE_CP437 => "CP437" | Q_CODEPAGE_ISO8859_1 => "ISO 8859-1" | Q_CODEPAGE_DEC => "DEC"
  | Q_CODEPAGE_PETSCII => "PETSCII" | Q_CODEPAGE_ATASCII => "ATASCII"
  | Q_CODEPAGE_CP720 => "CP720" | Q_CODEPAGE_CP737 => "CP737" | Q_CODEPAGE_CP775 => "CP775"
  | Q_CODEPAGE_CP850 => "CP850" | Q_CODEPAGE_CP852 => "CP852" | Q_CODEPAGE_CP857 => "CP857"
  | Q_CODEPAGE_CP858 => "CP858" | Q_CODEPAGE_CP860 => "CP860" | Q_CODEPAGE_CP862 => "CP862"
  | Q_CODEPAGE_CP863 => "CP863" | Q_CODEPAGE_CP866 => "CP866" | Q_CODEPAGE_CP1250 => "CP1250"
  | Q_CODEPAGE_CP1251 => "CP1251" | Q_CODEPAGE_CP1252 => "CP1252" | Q_CODEPAGE_KOI8_R => "KOI8_R"
  | Q_CODEPAGE_KOI8_U => "KOI8_U"
  end.

(** [strcasecmp] in the C locale. *)
Definition tolower (c : Ascii.ascii) : Ascii.ascii :=
  let n := Ascii.nat_of_ascii c in
  if (65 <=? n)%nat && (n <=? 90)%nat then Ascii.ascii_of_nat (n + 32) else c.
Fixpoint strcasecmp (a b : string) : bool :=
  match a, b with
  | EmptyString, EmptyString => true
  | String x a, String y b => Ascii.eqb (tolower x) (tolower y) && strcasecmp a b
  | _, _ => false
  end.

(** The names that match regardless of case, in the order of the code. *)
Definition codepage_names : list (Q_CODEPAGE * string) :=
  [(Q_CODEPAGE_DEC, "DEC"); (Q_CODEPAGE_PETSCII, "PETSCII"); (Q_CODEPAGE_ATASCII, "ATASCII");
   (Q_CODEPAGE_CP437, "CP437"); (Q_CODEPAGE_CP720, "CP720"); (Q_CODEPAGE_CP737, "CP737");
   (Q_CODEPAGE_CP775, "CP775"); (Q_CODEPAGE_CP850, "CP850"); (Q_CODEPAGE_CP852, "CP852");
   (Q_CODEPAGE_CP857, "CP857"); (Q_CODEPAGE_CP858, "CP858"); (Q_CODEPAGE_CP860, "CP860");
   (Q_CODEPAGE_CP862, "CP862"); (Q_CODEPAGE_CP863, "CP863"); (Q_CODEPAGE_CP866, "CP866");
   (Q_CODEPAGE_CP1250, "CP1250"); (Q_CODEPAGE_CP1251, "CP1251"); (Q_CODEPAGE_CP1252, "CP1252");
   (Q_CODEPAGE_CP1250, "Windows-1250"); (Q_CODEPAGE_CP1251, "Windows-1251");
   (Q_CODEPAGE_CP1252, "Windows-1252"); (Q_CODEPAGE_KOI8_R, "KOI8_R"); (Q_CODEPAGE_KOI8_U, "KOI8_U");
   (Q_CODEPAGE_KOI8_R, "KOI8-R"); (Q_CODEPAGE_KOI8_U, "KOI8-U")]%string.

Definition codepage_from_string (string : string) : Q_CODEPAGE :=
  if String.eqb string "ISO 8859-1" then Q_CODEPAGE_ISO8859_1
  else if String.eqb string "ISO-8859-1" then Q_CODEPAGE_ISO8859_1
  else match List.find (fun p => strcasecmp string p.2) codepage_names with
       | Some (codepage, _) => codepage
       | None => Q_CODEPAGE_DEC
       end.

(** The table of a codepage that has one. *)
Definition codepage_table (codepage : Q_CODEPAGE) : option (list Z) :=
  match codepage with
  | Q_CODEPAGE_CP437 => Some cp437_chars | Q_CODEPAGE_ISO8859_1 => Some iso8859_1_chars
  | Q_CODEPAGE_CP720 => Some cp720_chars | Q_CODEPAGE_CP737 => Some cp737_chars
  | Q_CODEPAGE_CP775 => Some cp775_chars | Q_CODEPAGE_CP850 => Some cp850_chars
  | Q_CODEPAGE_CP852 => Some cp852_chars | Q_CODEPAGE_CP857 => Some cp857_chars
  | Q_CODEPAGE_CP858 => Some cp858_chars | Q_CODEPAGE_CP860 => Some cp860_chars
  | Q_CODEPAGE_CP862 => Some cp862_chars | Q_CODEPAGE_CP863 => Some cp863_chars
  | Q_CODEPAGE_CP866 => Some cp866_chars | Q_CODEPAGE_CP1250 => Some cp1250_chars
  | Q_CODEPAGE_CP1251 => Some cp1251_chars | Q_CODEPAGE_CP1252 => Some cp1252_chars
  | Q_CODEPAGE_KOI8_R => Some koi8_r_chars | Q_CODEPAGE_KOI8_U => Some koi8_u_chars
  | Q_CODEPAGE_DEC | Q_CODEPAGE_PETSCII | Q_CODEPAGE_ATASCII => None
  end.

(** [ch] is an unsigned char. *)
Definition codepage_map_char (codepage : Q_CODEPAGE) (emulation : Q_EMULATION) (ch : Z) : Z :=
  match codepage with
  | Q_CODEPAGE_PETSCII | Q_CODEPAGE_ATASCII => ch
  | Q_CODEPAGE_DEC => if bool_decide (emulation = Q_EMUL_VT52) then cp437_chars !!! Z.to_nat ch else ch
  | _ => match codepage_table codepage with Some t => t !!! Z.to_nat ch | None => ch end
  end.

(** [for (i = 0; ...; i++) if (table[i] == ch) { *success = Q_TRUE; return i; }]; then
    0 and not [*success]. *)
Definition search_table (table : list Z) (ch : Z) : Z * bool :=
  match list_find (eq ch) table with
  | Some (i, _) => (Z.of_nat i, true)
  | None => (0, false)
  end.

Definition codepage_unmap_byte (ch : Z) (codepage : Q_CODEPAGE) : outcome (Z * bool) :=
  match codepage with
  | Q_CODEPAGE_DEC => Fault AssertFailed
  | Q_CODEPAGE_PETSCII => Fault Aborted
  | Q_CODEPAGE_ATASCII => Done (search_table atascii_chars (Z.land ch 0x7F))
  | _ => match codepage_table codepage with
         | Some t => Done (search_table t ch)
         | None => Fault Aborted
         end
  end.

(** emulation.c: the codepage that an emulation starts with. *)
Definition default_codepage (emulation : Q_EMULATION) : Q_CODEPAGE :=
  match emulation with
  | Q_EMUL_TTY => Q_CODEPAGE_ISO8859_1
  | Q_EMUL_VT52 | Q_EMUL_VT100 | Q_EMUL_VT102 | Q_EMUL_VT220 | Q_EMUL_LINUX_UTF8
  | Q_EMUL_XTERM_UTF8 => Q_CODEPAGE_DEC
  | Q_EMUL_DEBUG | Q_EMUL_ANSI | Q_EMUL_AVATAR | Q_EMUL_LINUX | Q_EMUL_XTERM => Q_CODEPAGE_CP437
  | Q_EMUL_PETSCII => Q_CODEPAGE_PETSCII
  | Q_EMUL_ATASCII => Q_CODEPAGE_ATASCII
  end.

(** codepage_keyboard_handler(): the codepage that a letter selects, in an emulation
    that may change it. *)
Definition codepage_letters : list Q_CODEPAGE :=
  [Q_CODEPAGE_CP437; Q_CODEPAGE_ISO8859_1; Q_CODEPAGE_CP720; Q_CODEPAGE_CP737; Q_CODEPAGE_CP775;
   Q_CODEPAGE_CP850; Q_CODEPAGE_CP852; Q_CODEPAGE_CP857; Q_CODEPAGE_CP858; Q_CODEPAGE_CP860;
   Q_CODEPAGE_CP862; Q_CODEPAGE_CP863; Q_CODEPAGE_CP866; Q_CODEPAGE_CP1250; Q_CODEPAGE_CP1251;
   Q_CODEPAGE_CP1252; Q_CODEPAGE_KOI8_R; Q_CODEPAGE_KOI8_U].

Definition selectable (emulation : Q_EMULATION) : bool :=
  match emulation with
  | Q_EMUL_TTY | Q_EMUL_DEBUG | Q_EMUL_ANSI | Q_EMUL_AVATAR | Q_EMUL_LINUX | Q_EMUL_XTERM => true
  | _ => false
  end.

Definition codepage_key (emulation : Q_EMULATION) (keystroke : Z) : option Q_CODEPAGE :=
  if negb (selectable emulation) then None
  else if (65 <=? keystroke) && (keystroke <=? 82) then codepage_letters !! Z.to_nat (keystroke - 65)
  else if (97 <=? keystroke) && (keystroke <=? 114) then codepage_letters !! Z.to_nat (keystroke - 97)
  else None.

End Codepage.
