(* ===== verification/Colors.v ===== *)
(** screen.c, colors.c: from logical colours to curses attributes and back.

    curses is a parameter, the class [Curses]: its attribute bits and the two macros
    that pack a colour pair into an attribute. *)

From Stdlib Require Import ZArith Lia List Bool.
From stdpp Require Import base list numbers strings.
From S2P Require Import Prelude Stdio States.

Module Colors.

(** ** curses *)

Class Curses := {
  A_NORMAL : Z; A_UNDERLINE : Z; A_REVERSE : Z; A_BLINK : Z; A_BOLD : Z; A_PROTECT : Z;
  A_DIM : Z; A_INVIS : Z; A_COLOR : Z;
  COLOR_PAIR : Z -> Z;
  PAIR_NUMBER : Z -> Z
}.

(** The colour numbers (input.h), in the numbering of ncurses. *)
Definition Q_COLOR_BLACK : Z := 0.
Definition Q_COLOR_RED : Z := 1.
Definition Q_COLOR_GREEN : Z := 2.
Definition Q_COLOR_YELLOW : Z := 3.
Definition Q_COLOR_BLUE : Z := 4.
Definition Q_COLOR_MAGENTA : Z := 5.
Definition Q_COLOR_CYAN : Z := 6.
Definition Q_COLOR_WHITE : Z := 7.

(** One entry of colors.cfg. *)
Record q_text_color_struct := { bold : bool; fg : Z; bg : Z }.

Section Colors.
Context {C : Curses}.

(** [attr & mask] tested for zero. *)
Definition has (attr mask : Z) : bool := negb (Z.land attr mask =? 0).

Definition NO_COLOR_MASK : Z := Z.lnot A_COLOR.

Definition screen_color (q_text_colors : Q_COLOR -> q_text_color_struct) (q_color : Q_COLOR) : Z :=
  i16 (Z.lor (Z.shiftl (fg (q_text_colors q_color)) 3) (bg (q_text_colors q_color))).

Definition screen_attr (q_text_colors : Q_COLOR -> q_text_color_struct) (q_color : Q_COLOR) : Z :=
  if bold (q_text_colors q_color) then Z.lor A_NORMAL A_BOLD else A_NORMAL.

Definition color_from_attr (attr : Z) : Z := i16 (PAIR_NUMBER attr).

Definition color_to_attr (color : Z) : Z := COLOR_PAIR color.

Definition scrollback_full_attr (q_text_colors : Q_COLOR -> q_text_color_struct) (q_color : Q_COLOR) : Z :=
  Z.lor (color_to_attr (screen_color q_text_colors q_color)) (screen_attr q_text_colors q_color).

(** The emulations whose colours are left as they are. *)
Definition braindead (emulation : Q_EMULATION) : bool :=
  bool_decide (emulation = Q_EMUL_TTY) || bool_decide (emulation = Q_EMUL_VT52) ||
  bool_decide (emulation = Q_EMUL_DEBUG).

(** The [assert] that A_REVERSE is off holds by construction: every branch that
    reaches it with the bit set clears it. *)
Definition vt100_check_reverse_color (emulation : Q_EMULATION) (color : Z) (reverse : bool) : Z :=
  if braindead emulation then color else
  let attrs := Z.land color NO_COLOR_MASK in
  let old_color := color_from_attr color in
  let old_color_bg := Z.land old_color 0x07 in
  let old_color_fg := Z.shiftr (Z.land old_color 0x38) 3 in
  let do_flip := xorb reverse (has attrs A_REVERSE) in
  let attrs := if has attrs A_REVERSE then Z.land attrs (Z.lnot A_REVERSE) else attrs in
  let flip_color :=
    if do_flip then Z.lor old_color_fg (Z.shiftl old_color_bg 3) else old_color in
  Z.lor (color_to_attr flip_color) attrs.

(** *** HTML *)

Definition bitmask_to_html_map : list string :=
  ["#000000"; "#AB0000"; "#00AB00"; "#996600"; "#0000AB"; "#990099"; "#009999"; "#ABABAB"]%string.

Definition bitmask_to_html_map_bright : list string :=
  ["#545454"; "#FF6666"; "#66FF66"; "#FFFF66"; "#6666FF"; "#FF66FF"; "#66FFFF"; "#FFFFFF"]%string.

Definition html_color {S} (map : list string) (i : Z) : M S string :=
  if i <? 0 then raise OutOfBounds
  else match map !! Z.to_nat i with Some t => mret t | None => raise OutOfBounds end.

Definition quoted (s : string) : string :=
  let quote := String (Ascii.ascii_of_nat 34) EmptyString in quote +:+ s +:+ quote.

Definition color_to_html {S} (attr : Z) : M S string :=
  let fg := i16 (Z.shiftr (PAIR_NUMBER attr) 3) in
  let bg := i16 (Z.land (PAIR_NUMBER attr) 0x07) in
  let text_decoration :=
    if has attr A_BLINK && has attr A_UNDERLINE then "blink, underline"%string
    else if has attr A_UNDERLINE then "underline"%string
    else if has attr A_BLINK then "blink"%string else "none"%string in
  let map_of_fg := if has attr A_BOLD then bitmask_to_html_map_bright else bitmask_to_html_map in
  '(fg_text, bg_text) ←
    (if has attr A_REVERSE then
       f ← html_color bitmask_to_html_map bg; b ← html_color map_of_fg fg; mret (f, b)
     else
       b ← html_color bitmask_to_html_map bg; f ← html_color map_of_fg fg; mret (f, b));
  mret ("style=" +:+ quoted ("color: " +:+ fg_text +:+ "; background-color: " +:+ bg_text +:+
        "; text-decoration: " +:+ text_decoration +:+ "; font-weight: normal"))%string.

End Colors.
End Colors.
