(* ===== verification/Screen.v ===== *)
(** scrollback.c: the lines of the scrollback buffer, the cursor, and every operation
    that the emulations use to draw.  Also the two routines that change the size of
    the screen: set_status_line() of console.c and handle_resize() of input.c.

    The doubly linked list lives in a store of lines indexed by address, so that the
    links, the four pointers into the list and the lines that are freed are those of
    the code: following a null pointer is [NullPointer], reading a line that was freed
    is [UseAfterFree], and an index outside the 256 cells of a line is [OutOfBounds]. *)

From Stdlib Require Import ZArith Lia List Bool.
From stdpp Require Import base list numbers gmap strings pretty.
From S2P Require Import Prelude Stdio States Colors Codepage.
Import Colors Codepage.

Module Screen.

(** ** Data *)

Definition Q_MAX_LINE_LENGTH : Z := 256.

(** A line; its search colours are left out, no operation here uses them.  The
    field [line_length] is [length] of the code. *)
Record q_scrolline_struct := {
  line_length : Z;
  colors : list Z;
  chars : list Z;
  next : option positive;
  prev : option positive;
  dirty : bool;
  double_width : bool;
  double_height : Z;
  reverse_color : bool
}.
#[export] Instance eta_q_scrolline_struct : Eta q_scrolline_struct := fun l =>
  {| line_length := line_length l; colors := colors l; chars := chars l; next := next l;
     prev := prev l; dirty := dirty l; double_width := double_width l;
     double_height := double_height l; reverse_color := reverse_color l |}.

(** The fields of [q_status] that drawing reads or writes. *)
Record q_status_struct := {
  emulation : Q_EMULATION;
  scrollback_lines : Z;
  cursor_x : Z;
  cursor_y : Z;
  scroll_region_top : Z;
  scroll_region_bottom : Z;
  origin_mode : bool;
  insert_mode : bool;
  line_wrap : bool;
  reverse_video : bool;
  display_null : bool;
  line_feed_on_cr : bool;
  assume_80_columns : bool;
  atascii_has_wide_font : bool;
  petscii_has_wide_font : bool;
  scrollback_enabled : bool;
  status_visible : bool;
  quicklearn : bool;
  capture : bool;
  capture_type : Q_CAPTURE_TYPE;
  capture_x : Z;
  capture_flush_time : Z
}.
#[export] Instance eta_q_status_struct : Eta q_status_struct := fun q =>
  {| emulation := emulation q; scrollback_lines := scrollback_lines q; cursor_x := cursor_x q;
     cursor_y := cursor_y q; scroll_region_top := scroll_region_top q;
     scroll_region_bottom := scroll_region_bottom q; origin_mode := origin_mode q;
     insert_mode := insert_mode q; line_wrap := line_wrap q; reverse_video := reverse_video q;
     display_null := display_null q; line_feed_on_cr := line_feed_on_cr q;
     assume_80_columns := assume_80_columns q; atascii_has_wide_font := atascii_has_wide_font q;
     petscii_has_wide_font := petscii_has_wide_font q; scrollback_enabled := scrollback_enabled q;
     status_visible := status_visible q; quicklearn := quicklearn q; capture := capture q;
     capture_type := capture_type q; capture_x := capture_x q;
     capture_flush_time := capture_flush_time q |}.

(** What is written to the capture file: text, or one wide character. *)
Inductive capture_item := Text (s : string) | Wide (c : Z).

(** What else a drawing operation does to the world. *)
Inductive screen_event :=
| Beep
| Script_character (c : Z)
| Quicklearn_character (c : Z)
| Size_sent.

(** The store of lines and the pointers into it. *)
Record scrollback := {
  store_of : gmap positive q_scrolline_struct;
  brk : positive;
  q_scrollback_buffer : option positive;
  q_scrollback_last : option positive;
  q_scrollback_current : option positive;
  q_scrollback_position : option positive
}.
#[export] Instance eta_scrollback : Eta scrollback := fun b =>
  {| store_of := store_of b; brk := brk b; q_scrollback_buffer := q_scrollback_buffer b;
     q_scrollback_last := q_scrollback_last b; q_scrollback_current := q_scrollback_current b;
     q_scrollback_position := q_scrollback_position b |}.

Record screen_state := {
  q_status : q_status_struct;
  buffer : scrollback;
  vt100_wrap_line_flag : bool;
  old_color : Z;
  q_current_color : Z;
  q_emulation_right_margin : Z;
  q_scrollback_max : Z;
  q_program_state : Q_PROGRAM_STATE;
  q_in_handle_resize : bool;
  WIDTH : Z;
  HEIGHT : Z;
  STATUS_HEIGHT : Z;
  q_text_colors : Q_COLOR -> q_text_color_struct;
  now : Z;
  capture_file : list capture_item;
  events : list screen_event
}.
#[export] Instance eta_screen_state : Eta screen_state := fun s =>
  {| q_status := q_status s; buffer := buffer s; vt100_wrap_line_flag := vt100_wrap_line_flag s;
     old_color := old_color s; q_current_color := q_current_color s;
     q_emulation_right_margin := q_emulation_right_margin s; q_scrollback_max := q_scrollback_max s;
     q_program_state := q_program_state s; q_in_handle_resize := q_in_handle_resize s;
     WIDTH := WIDTH s; HEIGHT := HEIGHT s; STATUS_HEIGHT := STATUS_HEIGHT s;
     q_text_colors := q_text_colors s; now := now s; capture_file := capture_file s;
     events := events s |}.

Definition SM := M screen_state.

Definition status {A} (f : q_status_struct -> A) : SM A := gets (fun s => f (q_status s)).
Definition on_status (f : q_status_struct -> q_status_struct) : SM unit :=
  modify (fun s => s <| q_status ::= f |>).
Definition pointer (f : scrollback -> option positive) : SM (option positive) :=
  gets (fun s => f (buffer s)).
Definition on_buffer (f : scrollback -> scrollback) : SM unit := modify (fun s => s <| buffer ::= f |>).
Definition emit (e : screen_event) : SM unit := modify (fun s => s <| events ::= fun l => l ++ [e] |>).

(** ** The store *)

Definition deref (p : option positive) : SM q_scrolline_struct :=
  match p with
  | None => raise NullPointer
  | Some a =>
    s ← get;
    match store_of (buffer s) !! a with
    | Some l => mret l
    | None => raise UseAfterFree
    end
  end.

(** [*p = l] *)
Definition assign (p : option positive) (l : q_scrolline_struct) : SM unit :=
  deref p;;
  match p with
  | Some a => on_buffer (fun b => b <| store_of ::= insert a l |>)
  | None => mret tt
  end.

(** [p->...] updated. *)
Definition update (p : option positive) (f : q_scrolline_struct -> q_scrolline_struct) : SM unit :=
  l ← deref p; assign p (f l).

Definition Xmalloc (l : q_scrolline_struct) : SM (option positive) :=
  b ← gets buffer;
  on_buffer (fun b => b <| store_of ::= insert (brk b) l |> <| brk := Pos.succ (brk b) |>);;
  mret (Some (brk b)).

Definition Xfree (p : option positive) : SM unit :=
  deref p;;
  match p with
  | Some a => on_buffer (fun b => b <| store_of ::= delete a |>)
  | None => mret tt
  end.

(** [p->chars[i] = v] and [p->colors[i] = v] *)
Definition set_char (p : option positive) (i v : Z) : SM unit :=
  l ← deref p; chars' ← store (chars l) i v; assign p (l <| chars := chars' |>).
Definition set_color (p : option positive) (i v : Z) : SM unit :=
  l ← deref p; colors' ← store (colors l) i v; assign p (l <| colors := colors' |>).

(** Loops: [for (i = lo; i < hi; i++)], and a loop whose body may return. *)
Fixpoint forM {A} (l : list A) (f : A -> SM unit) : SM unit :=
  match l with [] => mret tt | a :: l => f a;; forM l f end.
Definition for_up (lo hi : Z) (f : Z -> SM unit) : SM unit := forM (seqZ lo (hi - lo)) f.
Fixpoint times (n : nat) (f : SM bool) : SM unit :=
  match n with O => mret tt | S n => go ← f; if go : bool then times n f else mret tt end.

Section Screen.
Context {C : Curses}.

Definition full_attr (q_color : Q_COLOR) : SM Z :=
  gets (fun s => scrollback_full_attr (q_text_colors s) q_color).

Definition current : SM q_scrolline_struct := p ← pointer q_scrollback_current; deref p.
Definition set_current (p : option positive) : SM unit :=
  on_buffer (fun b => b <| q_scrollback_current := p |>).

(** ** Lines *)

(** [while (row >= 0) { if (line->prev == NULL) break; line = line->prev; row--; }],
    [n] being [row + 1]; the result has what is left of [row + 1]. *)
Fixpoint climb (n : nat) (line : option positive) : SM (option positive * nat) :=
  match n with
  | O => mret (line, O)
  | S n' =>
    l ← deref line;
    match prev l with
    | None => mret (line, S n')
    | Some a => climb n' (Some a)
    end
  end.

Definition find_top_scrollback_line : SM (option positive) :=
  s ← get;
  let row := HEIGHT s - 1 - (if status_visible (q_status s) then STATUS_HEIGHT s else 0) in
  assertM (0 <? row);;
  '(line, remaining) ← climb (Z.to_nat (row + 1)) (q_scrollback_position (buffer s));
  if (remaining =? 0)%nat then
    l ← deref line;
    match next l with Some a => mret (Some a) | None => mret line end
  else mret line.

(** A new line, as insert_scrollback_line() and new_scrollback_line() fill it. *)
Definition blank_line : SM q_scrolline_struct :=
  s ← get;
  console ← full_attr Q_COLOR_CONSOLE_TEXT;
  let reversed := reverse_video (q_status s) in
  mret {| line_length := if reversed then WIDTH s else 0;
          colors := replicate 256 (if reversed then console else 0);
          chars := replicate 256 32;
          next := None; prev := None; dirty := true; double_width := false;
          double_height := 0; reverse_color := reversed |}.

(** The buffer is full, or lines that scroll away are not kept. *)
Definition roll_over : SM bool :=
  gets (fun s =>
    ((0 <? q_scrollback_max s) && (q_scrollback_max s <=? scrollback_lines (q_status s))) ||
    (negb (scrollback_enabled (q_status s)) && negb (q_in_handle_resize s) &&
     (u32 (HEIGHT s - STATUS_HEIGHT s - 1) <? scrollback_lines (q_status s)))).

Definition first_line (p : option positive) : SM unit :=
  on_buffer (fun b => b <| q_scrollback_buffer := p |> <| q_scrollback_position := p |>
                        <| q_scrollback_last := p |> <| q_scrollback_current := p |>).

Definition is_null (p : option positive) : bool := negb (bool_decide (is_Some p)).

Definition insert_scrollback_line (insert_point : option positive) : SM unit :=
  assertM (negb (is_null insert_point));;
  l ← blank_line;
  new_line ← Xmalloc l;
  s ← get;
  (if is_null (q_scrollback_buffer (buffer s)) then first_line new_line
   else
     at_point ← deref insert_point;
     update new_line (fun l => l <| prev := prev at_point |> <| next := insert_point |>);;
     update insert_point (fun l => l <| prev := new_line |>);;
     whenM (bool_decide (q_program_state s = Q_STATE_CONSOLE) ||
            bool_decide (q_program_state s = Q_STATE_SCRIPT_EXECUTE) ||
            bool_decide (q_program_state s = Q_STATE_HOST) ||
            bool_decide (q_program_state s = Q_STATE_DIALER) ||
            bool_decide (q_program_state s = Q_STATE_DOWNLOAD))
       (p ← pointer q_scrollback_position;
        at_position ← deref p;
        on_buffer (fun b => b <| q_scrollback_position := prev at_position |>)));;
  full ← roll_over;
  if full : bool then
    last ← pointer q_scrollback_last;
    l ← deref last;
    on_buffer (fun b => b <| q_scrollback_last := prev l |>);;
    update (prev l) (fun l => l <| next := None |>);;
    Xfree last;;
    p ← pointer q_scrollback_position;
    whenM (bool_decide (p = last))
      (l ← deref p; on_buffer (fun b => b <| q_scrollback_position := prev l |>))
  else on_status (fun q => q <| scrollback_lines ::= fun n => u32 (n + 1) |>).

(** The lines before the roll: link the new line in. *)
Definition append_line (new_line : option positive) : SM unit :=
  last ← pointer q_scrollback_last;
  update new_line (fun l => l <| prev := last |>);;
  update last (fun l => l <| next := new_line |>);;
  on_buffer (fun b => b <| q_scrollback_last := new_line |>);;
  s ← get;
  whenM (bool_decide (q_program_state s = Q_STATE_CONSOLE) ||
         bool_decide (q_program_state s = Q_STATE_DOWNLOAD) ||
         bool_decide (q_program_state s = Q_STATE_SCRIPT_EXECUTE) ||
         bool_decide (q_program_state s = Q_STATE_HOST) ||
         bool_decide (q_program_state s = Q_STATE_DIALER) ||
         bool_decide (q_program_state s = Q_STATE_EMULATION_MENU))
    (on_buffer (fun b => b <| q_scrollback_position := new_line |>)).

(** Roll the first line of the buffer off. *)
Definition drop_first_line : SM unit :=
  first ← pointer q_scrollback_buffer;
  l ← deref first;
  on_buffer (fun b => b <| q_scrollback_buffer := next l |>);;
  update (next l) (fun l => l <| prev := None |>);;
  Xfree first.

(** Roll the top line of the visible area off. *)
Definition drop_top_line (top_line : option positive) : SM unit :=
  l ← deref top_line;
  update (next l) (fun n => n <| prev := prev l |>);;
  l ← deref top_line;
  whenM (negb (is_null (prev l))) (update (prev l) (fun p => p <| next := next l |>));;
  Xfree top_line.

Definition new_scrollback_line : SM unit :=
  l ← blank_line;
  s ← get;
  console ← full_attr Q_COLOR_CONSOLE_TEXT;
  let l :=
    if bool_decide (emulation (q_status s) = Q_EMUL_DEBUG)
    then l <| colors := replicate 256 (Z.lor A_REVERSE console) |> else l in
  new_line ← Xmalloc l;
  top_line ←
    (if is_null (q_scrollback_buffer (buffer s)) then first_line new_line;; mret None
     else top_line ← find_top_scrollback_line; append_line new_line;; mret top_line);
  full ← roll_over;
  if full : bool then
    enabled ← status scrollback_enabled;
    if enabled : bool then drop_first_line else drop_top_line top_line
  else on_status (fun q => q <| scrollback_lines ::= fun n => u32 (n + 1) |>).

(** ** Capture *)

Definition fprintf (t : string) : SM unit := modify (fun s => s <| capture_file ::= fun f => f ++ [Text t] |>).
Definition fprintf_lc (c : Z) : SM unit := modify (fun s => s <| capture_file ::= fun f => f ++ [Wide c] |>).

Definition newline : string := String (Ascii.ascii_of_nat 10) EmptyString.

Definition captures (t : Q_CAPTURE_TYPE) : SM bool :=
  status (fun q => bool_decide (capture_type q = t)).

(** The line end that HTML and normal captures get. *)
Definition capture_newline : SM unit :=
  html ← captures Q_CAPTURE_TYPE_HTML; normal ← captures Q_CAPTURE_TYPE_NORMAL;
  whenM (html || normal) (fprintf newline).

Definition capture_flush : SM unit :=
  t ← gets now; on_status (fun q => q <| capture_flush_time := t |>).

(** A line end that also brings the capture back to column 0. *)
Definition capture_line_end : SM unit :=
  on ← status capture;
  whenM on (capture_newline;; capture_flush;; on_status (fun q => q <| capture_x := 0 |>)).

(** ** Printing *)

(** The next line becomes the current one, and is appended when it is missing. *)
Definition to_next_line : SM unit :=
  l ← current;
  whenM (is_null (next l)) new_scrollback_line;;
  l ← current;
  set_current (next l).

Definition wrap_current_line : SM unit :=
  to_next_line;;
  s ← get;
  whenM (cursor_y (q_status s) <? HEIGHT s - STATUS_HEIGHT s - 1)
    (on_status (fun q => q <| cursor_y ::= Z.succ |>));;
  on_status (fun q => q <| cursor_x := 0 |>);;
  capture_line_end.

(** Spaces up to column [x] of the line at [p], in the colour of the console. *)
Definition pad_line (p : option positive) (x : Z) : SM unit :=
  l ← deref p;
  console ← full_attr Q_COLOR_CONSOLE_TEXT;
  for_up (line_length l) x (fun i =>
    set_char p i 32;; set_color p i console;; update p (fun l => l <| line_length := x |>)).

(** The right margin of the emulation, before a double-width line halves it. *)
Definition emulation_margin (s : screen_state) : Z :=
  let q := q_status s in
  match emulation q with
  | Q_EMUL_ANSI | Q_EMUL_AVATAR | Q_EMUL_TTY => if assume_80_columns q then 79 else WIDTH s - 1
  | Q_EMUL_ATASCII => if atascii_has_wide_font q then 39 else 79
  | Q_EMUL_PETSCII => if petscii_has_wide_font q then 39 else 79
  | _ => if 0 <? q_emulation_right_margin s then q_emulation_right_margin s else WIDTH s - 1
  end.

Definition halve_margin (l : q_scrolline_struct) (right_margin : Z) : Z :=
  if double_width l then Z.quot (right_margin + 1) 2 - 1 else right_margin.

Definition vt100_like (e : Q_EMULATION) : bool :=
  match e with
  | Q_EMUL_VT100 | Q_EMUL_VT102 | Q_EMUL_VT220 | Q_EMUL_LINUX | Q_EMUL_LINUX_UTF8
  | Q_EMUL_XTERM | Q_EMUL_XTERM_UTF8 => true
  | _ => false
  end.

Definition set_wrap_flag (b : bool) : SM unit := modify (fun s => s <| vt100_wrap_line_flag := b |>).

(** The line wrapping conditions; the result is [wrap_the_line]. *)
Definition check_wrap (right_margin : Z) : SM bool :=
  s ← get;
  let q := q_status s in
  if cursor_x q =? right_margin then
    if vt100_like (emulation q) then
      whenM (line_wrap q)
        (if vt100_wrap_line_flag s then set_wrap_flag false;; wrap_current_line else set_wrap_flag true);;
      mret false
    else mret (line_wrap q)
  else
    whenM (cursor_x q <=? right_margin) (set_wrap_flag false);;
    mret false.

(** [memmove(&buf[dst], &buf[src], n)] *)
Definition memmove (buf : list Z) (dst src n : Z) : SM (list Z) :=
  if (0 <=? dst) && (0 <=? src) && (0 <=? n) && (dst + n <=? Z.of_nat (length buf)) && (src + n <=? Z.of_nat (length buf))
  then mret (blit buf (Z.to_nat dst) (take (Z.to_nat n) (drop (Z.to_nat src) buf)))
  else raise OutOfBounds.

(** Put the character into the current line. *)
Definition put_cell (character : Z) : SM unit :=
  p ← pointer q_scrollback_current;
  l ← deref p;
  s ← get;
  let x := cursor_x (q_status s) in
  let color := q_current_color s in
  if x <? line_length l then
    if insert_mode (q_status s) then
      chars' ← memmove (chars l) (x + 1) x (Q_MAX_LINE_LENGTH - x - 1);
      colors' ← memmove (colors l) (x + 1) x (Q_MAX_LINE_LENGTH - x - 1);
      assign p (l <| chars := chars' |> <| colors := colors' |>);;
      set_char p x character;;
      set_color p x color;;
      whenM (line_length l <? Q_MAX_LINE_LENGTH) (update p (fun l => l <| line_length ::= Z.succ |>))
    else
      set_color p x color;; set_char p x character
  else
    set_color p (line_length l) color;;
    set_char p (line_length l) character;;
    update p (fun l => l <| line_length ::= Z.succ |>).

(** Double-width text takes two columns of a capture. *)
Definition capture_double (l : q_scrolline_struct) : SM bool :=
  e ← status emulation;
  mret (double_width l && negb (bool_decide (e = Q_EMUL_PETSCII)) && negb (bool_decide (e = Q_EMUL_ATASCII))).

Definition capture_html (color_changed : bool) (character : Z) : SM unit :=
  whenM color_changed
    (c ← gets q_current_color;
     tag ← color_to_html c;
     fprintf ("</font><font " +:+ tag +:+ ">")%string);;
  if character =? 32 then fprintf "&nbsp;"
  else if character =? 60 then fprintf "&lt;"
  else if character =? 62 then fprintf "&gt;"
  else if character <? 0x7F then fprintf (String (Ascii.ascii_of_nat (Z.to_nat (u8 character))) EmptyString)
  else fprintf ("&#" +:+ pretty character +:+ ";")%string.

Definition capture_character (color_changed : bool) (character : Z) : SM unit :=
  on ← status capture;
  whenM on
    (l ← current;
     double ← capture_double l;
     html ← captures Q_CAPTURE_TYPE_HTML;
     normal ← captures Q_CAPTURE_TYPE_NORMAL;
     q ← status id;
     whenM (capture_x q <? cursor_x q)
       (for_up 0 (cursor_x q - capture_x q) (fun _ =>
          fprintf (if html then "&nbsp;" else " ")%string;;
          whenM double (fprintf " "));;
        on_status (fun q => q <| capture_x := cursor_x q |>));;
     (if html : bool then capture_html color_changed character
      else whenM normal (fprintf_lc character));;
     on_status (fun q => q <| capture_x ::= Z.succ |>);;
     whenM double (fprintf " ";; on_status (fun q => q <| capture_x ::= Z.succ |>));;
     t ← gets now;
     q ← status id;
     whenM (capture_flush_time q <? t) capture_flush).

Definition mark_current_dirty : SM unit :=
  p ← pointer q_scrollback_current; update p (fun l => l <| dirty := true |>).

(** To the script that runs, and to the script that is being recorded. *)
Definition tell_script (c : Z) : SM unit :=
  s ← get;
  whenM (bool_decide (q_program_state s = Q_STATE_SCRIPT_EXECUTE)) (emit (Script_character c));;
  whenM (quicklearn (q_status s)) (emit (Quicklearn_character c)).

(** Wrap, store the character, capture it, move on. *)
Definition print_at (right_margin character : Z) : SM unit :=
  wrap_the_line ← check_wrap right_margin;
  put_cell character;;
  s ← get;
  let color_changed := negb (q_current_color s =? old_color s) in
  modify (fun s => s <| old_color := q_current_color s |>);;
  capture_character color_changed character;;
  s ← get;
  whenM (negb (vt100_wrap_line_flag s))
    (on_status (fun q => q <| cursor_x ::= fun x => if right_margin <? x + 1 then x else x + 1 |>));;
  whenM wrap_the_line wrap_current_line.

(** The part of print_character() after BEL and NUL are dealt with. *)
Definition print_visible (character : Z) : SM unit :=
  mark_current_dirty;;
  tell_script character;;
  l ← current;
  right_margin ← gets (fun s => halve_margin l (emulation_margin s));
  print_at right_margin character.

Definition print_character (character : Z) : SM unit :=
  p ← pointer q_scrollback_current;
  x ← status cursor_x;
  pad_line p x;;
  modify (fun s => if old_color s =? 0xdeadbeef then s <| old_color := q_current_color s |> else s);;
  if character =? 0x07 then emit Beep
  else if character =? 0x00 then
    shown ← status display_null;
    whenM shown (print_visible 32)
  else print_visible character.

(** ** The cursor *)

(** Outside the scrolling region a motion that honours it does nothing. *)
Definition above_region (q : q_status_struct) : bool := cursor_y q <? scroll_region_top q.
Definition below_region (q : q_status_struct) : bool := scroll_region_bottom q <? cursor_y q.

(** Any motion takes the cursor off the right margin. *)
Definition leave_margin (count : Z) : SM unit := whenM (0 <? count) (set_wrap_flag false).

Definition cursor_up_step (honor_scroll_region : bool) : SM bool :=
  q ← status id;
  if honor_scroll_region && above_region q then mret false
  else
    let top := if honor_scroll_region then scroll_region_top q else 0 in
    whenM (top <? cursor_y q)
      (on_status (fun q => q <| cursor_y ::= Z.pred |>);;
       l ← current; set_current (prev l));;
    mret true.

Definition cursor_up (count : Z) (honor_scroll_region : bool) : SM unit :=
  leave_margin count;;
  times (Z.to_nat count) (cursor_up_step honor_scroll_region).

(** [for (j = cursor_x; j > current->length;)]: the last line grows until the
    current one, which is the same, is long enough.  A line has 256 cells, so that
    257 turns end the loop or take it out of bounds. *)
Fixpoint pad_last (fuel : nat) (x : Z) : SM unit :=
  match fuel with
  | O => diverge
  | S fuel =>
    l ← current;
    if line_length l <? x then
      last ← pointer q_scrollback_last;
      m ← deref last;
      console ← full_attr Q_COLOR_CONSOLE_TEXT;
      set_color last (line_length m) console;;
      update last (fun m => m <| line_length ::= Z.succ |>);;
      pad_last fuel x
    else mret tt
  end.

Definition cursor_down_step (honor_scroll_region : bool) : SM bool :=
  s ← get;
  let q := q_status s in
  if honor_scroll_region && below_region q then mret false
  else
    let bottom := if honor_scroll_region then scroll_region_bottom q else HEIGHT s - STATUS_HEIGHT s - 1 in
    whenM (cursor_y q <? bottom)
      (on_status (fun q => q <| cursor_y ::= Z.succ |>);;
       l ← current;
       if is_null (next l) then
         new_scrollback_line;;
         l ← current;
         set_current (next l);;
         pad_last 257 (cursor_x q)
       else set_current (next l));;
    capture_line_end;;
    mret true.

Definition cursor_down (count : Z) (honor_scroll_region : bool) : SM unit :=
  leave_margin count;;
  times (Z.to_nat count) (cursor_down_step honor_scroll_region).

Definition cursor_left_step (honor_scroll_region : bool) : SM bool :=
  q ← status id;
  if honor_scroll_region && (above_region q || below_region q) then mret false
  else whenM (0 <? cursor_x q) (on_status (fun q => q <| cursor_x ::= Z.pred |>));; mret true.

Definition cursor_left (count : Z) (honor_scroll_region : bool) : SM unit :=
  leave_margin count;;
  times (Z.to_nat count) (cursor_left_step honor_scroll_region).

(** The right margin of cursor_right() and cursor_position(). *)
Definition motion_margin : SM Z :=
  l ← current;
  gets (fun s => halve_margin l
    (if 0 <? q_emulation_right_margin s then q_emulation_right_margin s else WIDTH s - 1)).

Definition cursor_right_step (right_margin : Z) (honor_scroll_region : bool) : SM bool :=
  s ← get;
  let q := q_status s in
  if honor_scroll_region && (above_region q || below_region q) then mret false
  else
    whenM (cursor_x q <? right_margin)
      (let p := q_scrollback_current (buffer s) in
       l ← deref p;
       whenM (line_length l <=? cursor_x q)
         (set_color p (line_length l) (q_current_color s);;
          set_char p (line_length l) 32;;
          update p (fun l => l <| line_length ::= Z.succ |>));;
       on_status (fun q => q <| cursor_x ::= Z.succ |>));;
    mret true.

Definition cursor_right (count : Z) (honor_scroll_region : bool) : SM unit :=
  leave_margin count;;
  right_margin ← motion_margin;
  times (Z.to_nat count) (cursor_right_step right_margin honor_scroll_region).

Definition cursor_position (row col : Z) : SM unit :=
  assertM (0 <=? col);;
  assertM (0 <=? row);;
  right_margin ← motion_margin;
  s ← get;
  let x := Z.min col (WIDTH s - 1) in
  let x := if (0 <? q_emulation_right_margin s) && (q_emulation_right_margin s <? x) then right_margin else x in
  on_status (fun q => q <| cursor_x := x |>);;
  let row := if origin_mode (q_status s) then row + scroll_region_top (q_status s) else row in
  let y := cursor_y (q_status s) in
  (if y <? row then cursor_down (row - y) false
   else whenM (row <? y) (cursor_up (y - row) false));;
  set_wrap_flag false.

(** ** Filling and erasing *)

(** The VT100 family erases to the colour of the console, the others to the
    current colour. *)
Definition erase_color (s : screen_state) : Z :=
  match emulation (q_status s) with
  | Q_EMUL_VT100 | Q_EMUL_VT102 | Q_EMUL_VT220 => scrollback_full_attr (q_text_colors s) Q_COLOR_CONSOLE_TEXT
  | _ => color_to_attr (color_from_attr (q_current_color s))
  end.

(** One cell of the line at [p]; a protected one is left alone when asked to. *)
Definition fill_cell (p : option positive) (character : Z) (honor_protected : bool) (i : Z) : SM unit :=
  protected ← (if honor_protected then
                 l ← deref p; c ← load (colors l) i; mret (has c A_PROTECT)
               else mret false);
  whenM (negb protected)
    (set_char p i character;; color ← gets erase_color; set_color p i color).

Definition fill_line_with_character (start end_ character : Z) (honor_protected : bool) : SM unit :=
  if end_ <? start then mret tt else
  p ← pointer q_scrollback_current;
  update p (fun l => l <| dirty := true |>);;
  pad_line p start;;
  l ← deref p;
  for_up (line_length l) start (fill_cell p character false);;
  for_up start (end_ + 1) (fill_cell p character honor_protected);;
  s ← get;
  update p (fun l => if line_length l <? end_ then l <| line_length := end_ + 1 |> else l);;
  update p (fun l => if WIDTH s <? line_length l then l <| line_length := WIDTH s |> else l).

Definition erase_line (start end_ : Z) (honor_protected : bool) : SM unit :=
  fill_line_with_character start end_ 32 honor_protected.

(** The line [rows] below [line]; missing lines are appended. *)
Fixpoint line_below (rows : nat) (line : option positive) : SM (option positive) :=
  match rows with
  | O => mret line
  | S rows =>
    l ← deref line;
    whenM (is_null (next l)) new_scrollback_line;;
    l ← deref line;
    line_below rows (next l)
  end.

(** [f] on the lines of the rows [rows], with [q_scrollback_current] at each; a line
    is appended before a row that is missing, except after [last]. *)
Fixpoint over_rows (rows : list Z) (last : Z) (line : option positive) (f : SM unit) : SM unit :=
  match rows with
  | [] => mret tt
  | i :: rows =>
    set_current line;;
    f;;
    l ← deref line;
    whenM (is_null (next l) && (i <? last)) new_scrollback_line;;
    l ← deref line;
    over_rows rows last (next l) f
  end.

Definition on_rows (start_row end_row : Z) (f : SM unit) : SM unit :=
  original_current_line ← pointer q_scrollback_current;
  top ← find_top_scrollback_line;
  start_line ← line_below (Z.to_nat start_row) top;
  over_rows (seqZ start_row (end_row + 1 - start_row)) end_row start_line f;;
  set_current original_current_line.

Definition erase_screen (start_row start_col end_row end_col : Z) (honor_protected : bool) : SM unit :=
  if (start_row <? 0) || (start_col <? 0) || (end_row <? 0) || (end_col <? 0) ||
     (end_row <? start_row) || (end_col <? start_col)
  then mret tt
  else on_rows start_row end_row (erase_line start_col end_col honor_protected).

(** ** Scrolling *)

(** Cells [left] to [right - 1] of line [src] over those of line [dst], with the
    line's length and attributes; a short line is padded first when [pad] says so. *)
Definition copy_line (left right : Z) (pad : q_scrolline_struct -> q_scrolline_struct -> bool)
    (dst src : option positive) : SM unit :=
  d ← deref dst;
  m ← deref src;
  whenM (pad d m) (pad_line dst right);;
  d ← deref dst;
  m ← deref src;
  if (0 <=? left) && (left <=? right) && (right <=? Z.of_nat (length (chars m))) then
    chars' ← memcpy (chars d) left (take (Z.to_nat (right - left)) (drop (Z.to_nat left) (chars m)));
    colors' ← memcpy (colors d) left (take (Z.to_nat (right - left)) (drop (Z.to_nat left) (colors m)));
    assign dst (d <| chars := chars' |> <| colors := colors' |> <| line_length := line_length m |>
                  <| double_width := double_width m |> <| double_height := double_height m |>
                  <| reverse_color := reverse_color m |> <| dirty := true |>)
  else raise OutOfBounds.

(** [n] lines copied up, until there are no more lines to copy from. *)
Fixpoint copy_up (n : nat) (left right : Z) (new_top_line top_line : option positive) : SM unit :=
  match n with
  | O => mret tt
  | S n =>
    copy_line left right (fun d m => line_length d <? line_length m) new_top_line top_line;;
    d ← deref new_top_line;
    m ← deref top_line;
    if is_null (next m) then mret tt else copy_up n left right (next d) (next m)
  end.

Definition rectangle_scroll_up (top left bottom right count : Z) : SM unit :=
  if bottom <=? top then mret tt
  else if right <=? left then mret tt
  else if bottom + 1 - top <=? count then erase_screen top left bottom (right - 1) false
  else
    line ← find_top_scrollback_line;
    new_top_line ← line_below (Z.to_nat top) line;
    top_line ← line_below (Z.to_nat count) new_top_line;
    let remaining := bottom + 1 - top - count in
    copy_up (Z.to_nat remaining) left right new_top_line top_line;;
    erase_screen (top + remaining) left bottom (right - 1) false.

Definition scrolling_region_scroll_up (region_top region_bottom count : Z) : SM unit :=
  rectangle_scroll_up region_top 0 region_bottom Q_MAX_LINE_LENGTH count.

Definition scroll_up (count : Z) : SM unit :=
  s ← get; scrolling_region_scroll_up 0 (HEIGHT s - STATUS_HEIGHT s - 1) count.

(** The line [rows] above [line]; a missing line is inserted. *)
Fixpoint line_above (rows : nat) (line : option positive) : SM (option positive) :=
  match rows with
  | O => mret line
  | S rows =>
    l ← deref line;
    whenM (is_null (prev l)) (insert_scrollback_line line);;
    l ← deref line;
    line_above rows (prev l)
  end.

Fixpoint copy_down (n : nat) (left right : Z) (new_bottom_line bottom_line : option positive) : SM unit :=
  match n with
  | O => mret tt
  | S n =>
    copy_line left right (fun d _ => line_length d <? left) new_bottom_line bottom_line;;
    d ← deref new_bottom_line;
    m ← deref bottom_line;
    copy_down n left right (prev d) (prev m)
  end.

Definition rectangle_scroll_down (top left bottom right count : Z) : SM unit :=
  if bottom <=? top then mret tt
  else if right <=? left then mret tt
  else if bottom + 1 - top <=? count then erase_screen top left bottom (right - 1) false
  else
    line ← find_top_scrollback_line;
    new_bottom_line ← line_below (Z.to_nat bottom) line;
    bottom_line ← line_above (Z.to_nat count) new_bottom_line;
    let remaining := bottom + 1 - top - count in
    copy_down (Z.to_nat remaining) left right new_bottom_line bottom_line;;
    erase_screen top left (top + count - 1) (right - 1) false.

Definition scrolling_region_scroll_down (region_top region_bottom count : Z) : SM unit :=
  rectangle_scroll_down region_top 0 region_bottom Q_MAX_LINE_LENGTH count.

Definition scroll_down (count : Z) : SM unit :=
  s ← get; scrolling_region_scroll_down 0 (HEIGHT s - STATUS_HEIGHT s - 1) count.

(** ** Line ends *)

(** [n] lines from [line] upwards are marked dirty. *)
Fixpoint mark_dirty (n : nat) (line : option positive) : SM unit :=
  match n with
  | O => mret tt
  | S n =>
    match line with
    | None => mret tt
    | Some _ =>
      update line (fun l => l <| dirty := true |>);;
      l ← deref line;
      mark_dirty n (prev l)
    end
  end.

Definition cursor_linefeed (new_line_mode : bool) : SM unit :=
  on ← status capture;
  whenM on
    (capture_newline;;
     s ← get;
     whenM (negb (capture_flush_time (q_status s) =? now s)) capture_flush);;
  s ← get;
  let q := q_status s in
  (if cursor_y q <? scroll_region_bottom q then
     on_status (fun q => q <| cursor_y ::= Z.succ |>);; to_next_line
   else if (scroll_region_bottom q =? HEIGHT s - STATUS_HEIGHT s - 1) && (scroll_region_top q =? 0) then
     to_next_line;;
     p ← pointer q_scrollback_current;
     update p (fun l => l <| line_length := if reverse_video q then WIDTH s else cursor_x q |>);;
     position ← pointer q_scrollback_position;
     mark_dirty (Z.to_nat (HEIGHT s - STATUS_HEIGHT s - 1)) position
   else scrolling_region_scroll_up (scroll_region_top q) (scroll_region_bottom q) 1);;
  whenM new_line_mode (on_status (fun q => q <| cursor_x := 0 |>));;
  set_wrap_flag false;;
  tell_script 0x0A.

Definition cursor_carriage_return : SM unit :=
  on_status (fun q => q <| cursor_x := 0 |>);;
  lf ← status line_feed_on_cr;
  whenM lf (cursor_linefeed false);;
  set_wrap_flag false;;
  tell_script 0x0D.

Definition cursor_formfeed : SM unit :=
  s ← get;
  for_up (cursor_y (q_status s)) (2 * (HEIGHT s - STATUS_HEIGHT s - 1) + 1) (fun _ => cursor_linefeed false);;
  s ← get;
  erase_screen 0 0 (HEIGHT s - STATUS_HEIGHT s - 1) (WIDTH s - 1) false;;
  cursor_position 0 0.

(** ** Editing a line *)

Definition delete_one : SM unit :=
  p ← pointer q_scrollback_current;
  l ← deref p;
  x ← status cursor_x;
  chars' ← memmove (chars l) x (x + 1) (Q_MAX_LINE_LENGTH - x - 1);
  colors' ← memmove (colors l) x (x + 1) (Q_MAX_LINE_LENGTH - x - 1);
  assign p (l <| chars := chars' |> <| colors := colors' |>
              <| line_length ::= fun n => if x <? n then n - 1 else n |>).

Definition delete_character (count : Z) : SM unit :=
  for_up 0 count (fun _ => delete_one);;
  mark_current_dirty.

Definition insert_cells (count : Z) : SM unit :=
  p ← pointer q_scrollback_current;
  l ← deref p;
  s ← get;
  let x := cursor_x (q_status s) in
  chars' ← memmove (chars l) (x + count) x (Q_MAX_LINE_LENGTH - x - count);
  colors' ← memmove (colors l) (x + count) x (Q_MAX_LINE_LENGTH - x - count);
  assign p (l <| chars := chars' |> <| colors := colors' |>);;
  for_up 0 count (fun _ =>
    set_char p x 32;; set_color p x (q_current_color s);;
    update p (fun l => if line_length l <? Q_MAX_LINE_LENGTH then l <| line_length ::= Z.succ |> else l)).

Definition insert_blanks (count : Z) : SM unit :=
  insert_cells count;;
  mark_current_dirty.

(** ** Attributes of lines *)

Definition set_double_width (double_width_ : bool) : SM unit :=
  p ← pointer q_scrollback_current;
  update p (fun l => l <| double_width := double_width_ |> <| double_height := 0 |>).

Definition set_double_height (double_height_ : Z) : SM unit :=
  p ← pointer q_scrollback_current;
  update p (fun l => l <| double_width := true |> <| double_height := double_height_ |>).

Definition set_single_width (start_row end_row : Z) : SM unit :=
  if (start_row <? 0) || (end_row <? 0) || (end_row <? start_row) then mret tt
  else on_rows start_row end_row (set_double_width false).

(** One row of invert_scrollback_colors(). *)
Definition invert_row : SM unit :=
  p ← pointer q_scrollback_current;
  update p (fun l => l <| dirty := true |> <| reverse_color ::= negb |>);;
  l ← deref p;
  s ← get;
  whenM (line_length l <? WIDTH s) (erase_line (line_length l) (WIDTH s - 1) false).

Definition invert_scrollback_colors : SM unit :=
  s ← get;
  let bottom := HEIGHT s - STATUS_HEIGHT s - 1 in
  original_current_line ← pointer q_scrollback_current;
  top ← find_top_scrollback_line;
  over_rows (seqZ 0 (bottom + 1)) bottom top invert_row;;
  set_current original_current_line.

Definition deinvert_scrollback_colors : SM unit := invert_scrollback_colors.

(** Alt-L "clear": the lines above the screen are freed. *)
Fixpoint free_until (fuel : nat) (top line : option positive) : SM unit :=
  match fuel with
  | O => diverge
  | S fuel =>
    if bool_decide (line = top) then mret tt
    else
      l ← deref line;
      Xfree line;;
      on_status (fun q => q <| scrollback_lines ::= fun n => u32 (n - 1) |>);;
      free_until fuel top (next l)
  end.

Definition clear_scrollback : SM unit :=
  top ← find_top_scrollback_line;
  s ← get;
  free_until (S (size (store_of (buffer s)))) top (q_scrollback_buffer (buffer s));;
  update top (fun l => l <| prev := None |>);;
  on_buffer (fun b => b <| q_scrollback_buffer := top |>).

(** ** The first screen *)

(** A line of the header of console_refresh(): its characters, mapped, in the colour of
    the console.  The texts are messages of the program, arguments here. *)
Definition header_line (text : list Z) : SM unit :=
  new_scrollback_line;;
  last ← pointer q_scrollback_last;
  update last (fun l => l <| line_length := Z.of_nat (length text) |>);;
  forM (zip (seqZ 0 (Z.of_nat (length text))) text) (fun '(i, character) =>
    set_char last i character;; color ← full_attr Q_COLOR_CONSOLE; set_color last i color).

(** The line to type on, and the cursor in its row. *)
Definition initial_line (row : Z) : SM unit :=
  new_scrollback_line;;
  on_buffer (fun b => b <| q_scrollback_current := q_scrollback_last b |>);;
  on_buffer (fun b => b <| q_scrollback_position := q_scrollback_current b |>);;
  on_status (fun q => q <| cursor_y := row |> <| cursor_x := 0 |>).

(** The first call of console_refresh(). *)
Definition first_screen (xterm_mode : bool) (compiled written terminal : list Z) : SM unit :=
  if xterm_mode then initial_line 0
  else
    let mapped := map (fun c => cp437_chars !!! Z.to_nat (u8 c)) in
    header_line (mapped compiled);;
    header_line (mapped written);;
    new_scrollback_line;;
    header_line (mapped terminal);;
    width ← gets WIDTH;
    header_line (replicate (Z.to_nat width) (cp437_chars !!! 0xCD%nat));;
    initial_line 5.

(** ** The size of the screen *)

Definition set_status_line (make_visible : bool) : SM unit :=
  s ← get;
  let q := q_status s in
  let full := u32 (HEIGHT s) <=? scrollback_lines q in
  (if negb make_visible then
     whenM (scroll_region_bottom q =? HEIGHT s - STATUS_HEIGHT s - 1)
       (on_status (fun q => q <| scroll_region_bottom := HEIGHT s - 1 |>));;
     on_status (fun q => q <| status_visible := false |>);;
     modify (fun s => s <| STATUS_HEIGHT := 0 |>);;
     whenM full (on_status (fun q => q <| cursor_y ::= Z.succ |>))
   else
     on_status (fun q => q <| status_visible := true |>);;
     modify (fun s => s <| STATUS_HEIGHT := 1 |>);;
     whenM (scroll_region_bottom q =? HEIGHT s - 1)
       (on_status (fun q => q <| scroll_region_bottom := HEIGHT s - 1 - 1 |>));;
     (if cursor_y q =? HEIGHT s - 1 then on_status (fun q => q <| cursor_y ::= Z.pred |>)
      else whenM ((cursor_y q =? HEIGHT s - 1 - 1) && full) (on_status (fun q => q <| cursor_y ::= Z.pred |>))));;
  emit Size_sent.

(** [while (scrollback_lines < lines) new_scrollback_line();] *)
Fixpoint grow_to (fuel : nat) (lines : Z) : SM unit :=
  match fuel with
  | O => diverge
  | S fuel =>
    n ← status scrollback_lines;
    if n <? u32 lines then new_scrollback_line;; grow_to fuel lines else mret tt
  end.

Definition handle_resize (new_height new_width : Z) : SM unit :=
  modify (fun s => s <| q_in_handle_resize := true |>);;
  s ← get;
  let lines := new_height - STATUS_HEIGHT s in
  (if scrollback_lines (q_status s) <? u32 lines then
     grow_to (S (Z.to_nat lines)) lines;;
     on_buffer (fun b => b <| q_scrollback_position := q_scrollback_last b |>
                           <| q_scrollback_current := q_scrollback_last b |>);;
     on_status (fun q => q <| scroll_region_top := 0 |> <| scroll_region_bottom := lines - 1 |>
                           <| cursor_x := 0 |> <| cursor_y := lines - 1 |>)
   else
     on_status (fun q => q <| cursor_y ::= fun y => y + (new_height - HEIGHT s) |>
                           <| scroll_region_bottom ::= fun b => b + (new_height - HEIGHT s) |>));;
  modify (fun s => s <| WIDTH := new_width |> <| HEIGHT := new_height |>);;
  on_status (fun q => q <| cursor_x ::= fun x => Z.min x (new_width - 1) |>);;
  emit Size_sent;;
  modify (fun s => s <| q_in_handle_resize := false |>).

End Screen.
End Screen.
