(* ===== verification/ScreenList.v ===== *)
(** The doubly linked list of scrollback lines as a list of line data: what it means
    for the store to hold a list, operations on one line, and the walk to the top of
    the screen. *)

From Stdlib Require Import ZArith Lia List Bool.
From stdpp Require Import base list numbers gmap.
From S2P Require Import Prelude Stdio States Colors Screen.
Import Colors Screen.

Module ScreenList.

Notation line := q_scrolline_struct.

(** The data [d] of a line, with its links. *)
Definition relink (p n : option positive) (d : line) : line := d <| next := n |> <| prev := p |>.

(** A line has 256 cells; its length is within them. *)
Record line_ok (d : line) : Prop := {
  ok_chars : length (chars d) = 256%nat;
  ok_colors : length (colors d) = 256%nat;
  ok_length : 0 <= line_length d <= 256
}.

Definition before {A} (ls : list A) (k : nat) : option A :=
  match k with O => None | S j => ls !! j end.

(** The store holds exactly the lines with data [ds], at the addresses [ls], linked
    both ways; the view is at the last one and the current line is number [cur]. *)
Record holds (b : scrollback) (ls : list positive) (ds : list line) (cur : nat) : Prop := {
  holds_nodup : NoDup ls;
  holds_length : length ls = length ds;
  holds_lines : forall k a d, ls !! k = Some a -> ds !! k = Some d ->
    store_of b !! a = Some (relink (before ls k) (ls !! S k) d) /\ line_ok d;
  holds_domain : forall a, is_Some (store_of b !! a) -> a ∈ ls;
  holds_brk : forall a, a ∈ ls -> (a < brk b)%positive;
  holds_first : q_scrollback_buffer b = ls !! 0%nat;
  holds_last : q_scrollback_last b = last ls;
  holds_position : q_scrollback_position b = last ls;
  holds_current : q_scrollback_current b = ls !! cur;
  holds_cur : (cur < length ls)%nat
}.

Lemma relink_relink p n p' n' d : relink p n (relink p' n' d) = relink p n d.
Proof. done. Qed.

Lemma line_ok_relink p n d : line_ok d -> line_ok (relink p n d).
Proof. by intros []. Qed.

(** Every address has its data. *)
Lemma holds_data b ls ds cur k a :
  holds b ls ds cur -> ls !! k = Some a -> exists d, ds !! k = Some d.
Proof.
  intros H Ha. apply lookup_lt_is_Some. rewrite <- (holds_length _ _ _ _ H).
  by apply lookup_lt_Some in Ha.
Qed.

Lemma holds_address b ls ds cur k d :
  holds b ls ds cur -> ds !! k = Some d -> exists a, ls !! k = Some a.
Proof.
  intros H Hd. apply lookup_lt_is_Some. rewrite (holds_length _ _ _ _ H).
  by apply lookup_lt_Some in Hd.
Qed.

(** Moving the current line. *)
Lemma holds_move b ls ds cur k p :
  holds b ls ds cur -> ls !! k = p -> is_Some p ->
  holds (b <| q_scrollback_current := p |>) ls ds k.
Proof.
  intros [] Hk [a Ha]. subst p. split; try assumption; [done|].
  by apply lookup_lt_Some in Ha.
Qed.

(** Writing one line. *)
Lemma holds_write b ls ds cur k a d :
  holds b ls ds cur -> ls !! k = Some a -> line_ok d ->
  holds (b <| store_of ::= insert a (relink (before ls k) (ls !! S k) d) |>) ls (<[k := d]> ds) cur.
Proof.
  intros H Ha Hd. destruct H. split; try assumption.
  - by rewrite length_insert.
  - intros j a' d' Ha' Hd'. cbn. destruct (decide (j = k)) as [->|Hne].
    + rewrite Ha in Ha'. injection Ha' as <-. rewrite lookup_insert_eq.
      rewrite list_lookup_insert_eq in Hd' by (apply lookup_lt_Some in Ha; lia).
      by injection Hd' as <-.
    + rewrite lookup_insert_ne.
      * rewrite list_lookup_insert_ne in Hd' by done. by apply holds_lines0.
      * intros ->. apply Hne. by eapply NoDup_lookup.
  - cbn. intros a' [l Hl]. destruct (decide (a' = a)) as [->|Hne].
    + by eapply list_elem_of_lookup_2.
    + rewrite lookup_insert_ne in Hl by done. apply holds_domain0. by exists l.
Qed.

(** ** One line *)

Lemma buffer_set s b : buffer (s <| buffer := b |>) = b.
Proof. done. Qed.

Lemma holds_deref b ls ds cur k p d (s : screen_state) :
  holds b ls ds cur -> ls !! k = p -> ds !! k = Some d -> buffer s = b ->
  deref p s = Done (relink (before ls k) (ls !! S k) d, s) /\ line_ok d.
Proof.
  intros H Hp Hd Hb. destruct (holds_address _ _ _ _ _ _ H Hd) as [a Ha].
  rewrite Ha in Hp. subst p. destruct (holds_lines _ _ _ _ H _ _ _ Ha Hd) as [Hs Hok].
  split; [|done]. unfold deref, mbind, M_bind, get. by rewrite Hb, Hs.
Qed.

(** Where a line is: its address and its neighbours. *)
Definition place : Type := option positive * option positive * option positive.
Definition at_place (ls : list positive) (k : nat) (pl : place) : Prop :=
  let '(p, q, n) := pl in ls !! k = p /\ before ls k = q /\ ls !! S k = n.
Definition place_of (ls : list positive) (k : nat) : place := (ls !! k, before ls k, ls !! S k).

(** On a store that holds a list, [m] turns the data of the line at a place from [d]
    to [d'] and does nothing else. *)
Definition acts (s : screen_state) (pl : place) (m : SM unit) (d d' : line) : Prop :=
  forall b ls ds cur k, holds b ls ds cur -> at_place ls k pl -> ds !! k = Some d ->
  exists b', m (s <| buffer := b |>) = Done (tt, s <| buffer := b' |>) /\
             holds b' ls (<[k := d']> ds) cur.

Section acts.
Context (s : screen_state) (p q n : option positive).
Notation acts := (acts s (p, q, n)).

Lemma acts_ret d : acts (mret tt) d d.
Proof.
  intros b ls ds cur k H Hp Hd. exists b. split; [done|]. by rewrite list_insert_id.
Qed.

Lemma acts_seq m1 m2 d d1 d2 : acts m1 d d1 -> acts m2 d1 d2 -> acts (m1;; m2) d d2.
Proof.
  intros H1 H2 b ls ds cur k H Hp Hd.
  destruct (H1 _ _ _ _ _ H Hp Hd) as (b1 & E1 & Hb1).
  assert (Hd1 : <[k := d1]> ds !! k = Some d1)
    by (apply list_lookup_insert_eq; by apply lookup_lt_Some in Hd).
  destruct (H2 _ _ _ _ _ Hb1 Hp Hd1) as (b2 & E2 & Hb2).
  exists b2. rewrite list_insert_insert_eq in Hb2. split; [|done].
  by rewrite (bind_done _ _ _ _ _ E1).
Qed.

Lemma acts_deref (k : line -> SM unit) d d' :
  (line_ok d -> acts (k (relink q n d)) d d') -> acts (l ← deref p; k l) d d'.
Proof.
  intros Hk b ls ds cur i H Hp Hd. pose proof Hp as (Hi & Hq & Hn).
  destruct (holds_deref _ _ _ _ _ _ _ (s <| buffer := b |>) H Hi Hd (buffer_set s b)) as [E Hok].
  destruct (Hk Hok _ _ _ _ _ H Hp Hd) as (b' & E' & Hb'). exists b'.
  split; [|done]. rewrite Hq, Hn in E. by rewrite (bind_done _ _ _ _ _ E).
Qed.

Lemma acts_gets {A} (f : screen_state -> A) (k : A -> SM unit) d d' :
  (forall b, f (s <| buffer := b |>) = f s) -> acts (k (f s)) d d' ->
  acts (a ← gets f; k a) d d'.
Proof.
  intros Hf Hk b ls ds cur i H Hp Hd. destruct (Hk _ _ _ _ _ H Hp Hd) as (b' & E & Hb').
  exists b'. split; [|done]. unfold gets, mbind, M_bind. by rewrite Hf.
Qed.

Lemma acts_get (k : screen_state -> SM unit) d d' :
  (forall b, acts (k (s <| buffer := b |>)) d d') -> acts (a ← get; k a) d d'.
Proof. intros Hk b ls ds cur i H Hp Hd. apply (Hk b _ _ _ _ _ H Hp Hd). Qed.

Lemma acts_pure {A} (m : SM A) (k : A -> SM unit) a d d' :
  (forall b, m (s <| buffer := b |>) = Done (a, s <| buffer := b |>)) -> acts (k a) d d' ->
  acts (a ← m; k a) d d'.
Proof.
  intros Hm Hk b ls ds cur i H Hp Hd. destruct (Hk _ _ _ _ _ H Hp Hd) as (b' & E & Hb').
  exists b'. split; [|done]. by rewrite (bind_done _ _ _ _ _ (Hm b)).
Qed.

Lemma acts_when (c : bool) m d d' :
  (c = true -> acts m d d') -> (c = false -> d' = d) -> acts (whenM c m) d d'.
Proof. destruct c; cbn; intros H1 H2; [auto|rewrite H2 by done; apply acts_ret]. Qed.

Lemma acts_assign d d' : line_ok d' -> acts (assign p (relink q n d')) d d'.
Proof.
  intros Hok b ls ds cur k H (Hp & Hq & Hn) Hd.
  destruct (holds_deref _ _ _ _ _ _ _ (s <| buffer := b |>) H Hp Hd (buffer_set s b)) as [E _].
  destruct (holds_address _ _ _ _ _ _ H Hd) as [a Ha].
  unfold assign. rewrite (bind_done _ _ _ _ _ E). rewrite Ha in Hp. subst p q n.
  eexists. split; [reflexivity|]. by apply (holds_write _ _ _ _ _ _ _ H Ha).
Qed.

Lemma acts_update (f : line -> line) d :
  f (relink q n d) = relink q n (f d) -> (line_ok d -> line_ok (f d)) -> acts (update p f) d (f d).
Proof.
  intros Hf Hok. apply acts_deref. intros Hd. rewrite Hf. apply acts_assign. auto.
Qed.

(** The cells of a line. *)
Definition put_char (i v : Z) (d : line) : line := d <| chars ::= fun l => <[Z.to_nat i := v]> l |>.
Definition put_color (i v : Z) (d : line) : line := d <| colors ::= fun l => <[Z.to_nat i := v]> l |>.

Lemma blit_one buf i v : (i < length buf)%nat -> blit buf i [v] = <[i := v]> buf.
Proof.
  intros. unfold blit. rewrite insert_take_drop by done. cbn. by rewrite Nat.add_1_r.
Qed.

Lemma store_at {S} buf i v (t : S) :
  0 <= i < Z.of_nat (length buf) -> store buf i v t = Done (<[Z.to_nat i := v]> buf, t).
Proof.
  intros Hi. unfold store, memcpy. cbn [length].
  rewrite (proj2 (Z.leb_le 0 i)), (proj2 (Z.leb_le _ _)) by lia. cbn.
  rewrite blit_one by lia. done.
Qed.

Lemma acts_set_char i v d : 0 <= i < 256 -> acts (set_char p i v) d (put_char i v d).
Proof.
  intros Hi. apply acts_deref. intros Hok.
  eapply acts_pure.
  - intros b. apply store_at. change (chars (relink q n d)) with (chars d).
    rewrite (ok_chars _ Hok). lia.
  - apply (acts_assign d (put_char i v d)). destruct Hok. split; [|done|done].
    unfold put_char. cbn. by rewrite length_insert.
Qed.

Lemma acts_set_color i v d : 0 <= i < 256 -> acts (set_color p i v) d (put_color i v d).
Proof.
  intros Hi. apply acts_deref. intros Hok.
  eapply acts_pure.
  - intros b. apply store_at. change (colors (relink q n d)) with (colors d).
    rewrite (ok_colors _ Hok). lia.
  - apply (acts_assign d (put_color i v d)). destruct Hok. split; [done| |done].
    unfold put_color. cbn. by rewrite length_insert.
Qed.

(** A loop over cells folds the data function of its body. *)
Lemma acts_forM {A} (xs : list A) (f : A -> SM unit) (g : A -> line -> line) d :
  (forall x d, x ∈ xs -> acts (f x) d (g x d)) ->
  acts (forM xs f) d (foldl (fun d x => g x d) d xs).
Proof.
  revert d. induction xs as [|x xs IH]; intros d Hf; cbn; [apply acts_ret|].
  eapply acts_seq; [apply Hf; left|]. apply IH. intros y d' Hy. apply Hf. by right.
Qed.

Lemma acts_for_up lo hi (f : Z -> SM unit) (g : Z -> line -> line) d :
  (forall i d, lo <= i < hi -> acts (f i) d (g i d)) ->
  acts (for_up lo hi f) d (foldl (fun d i => g i d) d (seqZ lo (hi - lo))).
Proof.
  intros Hf. apply acts_forM. intros i d' Hi. apply Hf. apply elem_of_seqZ in Hi. lia.
Qed.
End acts.

(** ** Cells *)

(** What is stored in cell [i], and what is seen there: beyond its length a line is
    blank. *)
Definition raw (d : line) (i : Z) : Z * Z := (chars d !!! Z.to_nat i, colors d !!! Z.to_nat i).
Definition cell (console : Z) (d : line) (i : Z) : Z * Z :=
  if i <? line_length d then raw d i else (32, console).

(** The parts of a line that are not cells or links. *)
Definition same_flags (d d' : line) : Prop :=
  dirty d = dirty d' /\ double_width d = double_width d' /\ double_height d = double_height d' /\
  reverse_color d = reverse_color d'.

#[global] Instance same_flags_equiv : Equivalence same_flags.
Proof. split; unfold same_flags; [done|intros ?? (?&?&?&?); by split_and!|intros ??? (?&?&?&?) (?&?&?&?); split_and!; congruence]. Qed.

(** Cell [i] changed by [h]. *)
Definition on_cell (h : Z * Z -> Z * Z) (i : Z) (d : line) : line :=
  put_color i (h (raw d i)).2 (put_char i (h (raw d i)).1 d).

Definition fill_with (h : Z * Z -> Z * Z) (lo hi : Z) (d : line) : line :=
  foldl (fun d i => on_cell h i d) d (seqZ lo (hi - lo)).

Lemma on_cell_ok h i d : line_ok d -> line_ok (on_cell h i d).
Proof.
  intros []. unfold on_cell, put_color, put_char. split; cbn; [by rewrite length_insert..|done].
Qed.

Lemma raw_on_cell h i j d :
  line_ok d -> 0 <= i < 256 -> 0 <= j ->
  raw (on_cell h i d) j = if j =? i then h (raw d i) else raw d j.
Proof.
  intros [Hc Hk _] Hi Hj. unfold on_cell, put_color, put_char, raw. cbn.
  destruct (Z.eqb_spec j i) as [->|Hne].
  - rewrite !list_lookup_total_insert_eq by lia. by destruct (h _).
  - by rewrite !list_lookup_total_insert_ne by lia.
Qed.

(** A fold of cell changes over a range changes each cell of the range once. *)
Lemma fill_with_spec h lo hi d :
  line_ok d -> 0 <= lo -> hi <= 256 ->
  line_ok (fill_with h lo hi d) /\ line_length (fill_with h lo hi d) = line_length d /\
  same_flags d (fill_with h lo hi d) /\
  forall j, 0 <= j -> raw (fill_with h lo hi d) j = if (lo <=? j) && (j <? hi) then h (raw d j) else raw d j.
Proof.
  intros Hok Hlo Hhi. unfold fill_with.
  assert (Hall : forall xs d, NoDup xs -> (forall x, x ∈ xs -> 0 <= x < 256) -> line_ok d ->
    let d' := foldl (fun d i => on_cell h i d) d xs in
    line_ok d' /\ line_length d' = line_length d /\ same_flags d d' /\
    forall j, 0 <= j -> raw d' j = if bool_decide (j ∈ xs) then h (raw d j) else raw d j).
  { clear. intros xs. induction xs as [|x xs IH]; intros d Hnd Hxs Hok; cbn zeta; cbn [foldl].
    { split_and!; [done|done|done|]. intros j _. by rewrite bool_decide_false by apply not_elem_of_nil. }
    apply NoDup_cons in Hnd as [Hx Hnd].
    assert (Hbx : 0 <= x < 256) by (apply Hxs; left).
    destruct (IH (on_cell h x d) Hnd) as (H1 & H2 & H3 & H4).
    { intros y Hy. apply Hxs. by right. } { by apply on_cell_ok. }
    split_and!; [done|by rewrite H2|by etransitivity; [|exact H3]|].
    intros j Hj. rewrite H4 by done. rewrite raw_on_cell by done.
    destruct (Z.eqb_spec j x) as [->|Hne].
    - rewrite bool_decide_false by done. by rewrite bool_decide_true by left.
    - destruct (decide (j ∈ xs)) as [Hin|Hin].
      + by rewrite !bool_decide_true by (try right; done).
      + rewrite !bool_decide_false; [done| |done]. by rewrite elem_of_cons; intros [?|?]. }
  destruct (Hall (seqZ lo (hi - lo)) d) as (H1 & H2 & H3 & H4); [apply NoDup_seqZ| |done|].
  { intros x Hx. apply elem_of_seqZ in Hx. lia. }
  split_and!; [done..|]. intros j Hj. rewrite H4 by done.
  destruct (Z.leb_spec lo j), (Z.ltb_spec j hi); cbn [andb];
    (rewrite bool_decide_true by (apply elem_of_seqZ; lia)) ||
    (rewrite bool_decide_false by (rewrite elem_of_seqZ; lia)); done.
Qed.

(** The line padded with blanks up to column [x]. *)
Definition pad_data (console x : Z) (d : line) : line :=
  if line_length d <? x then (fill_with (fun _ => (32, console)) (line_length d) x d) <| line_length := x |>
  else d.

Lemma pad_data_spec console x d :
  line_ok d -> 0 <= x <= 256 ->
  line_ok (pad_data console x d) /\ line_length (pad_data console x d) = Z.max (line_length d) x /\
  same_flags d (pad_data console x d) /\
  forall j, 0 <= j -> cell console (pad_data console x d) j = cell console d j.
Proof.
  intros Hok Hx. unfold pad_data. destruct (Z.ltb_spec (line_length d) x).
  - destruct (fill_with_spec (fun _ => (32, console)) (line_length d) x d Hok) as ([] & H2 & H3 & H4);
      [apply Hok|lia|].
    set (d' := fill_with _ _ _ _) in *.
    split_and!; [split; [done|done|cbn; lia]|cbn; lia|exact H3|].
    intros j Hj. unfold cell. change (line_length (d' <| line_length := x |>)) with x.
    change (raw (d' <| line_length := x |>) j) with (raw d' j). rewrite H4 by done.
    destruct (Z.ltb_spec j x), (Z.ltb_spec j (line_length d)), (Z.leb_spec (line_length d) j); cbn [andb]; lia || done.
  - split_and!; [done|lia|done|done].
Qed.

Section lines.
Context {C : Curses}.
Context (s : screen_state) (p q n : option positive).
Notation acts := (acts s (p, q, n)).
Notation console := (scrollback_full_attr (q_text_colors s) Q_COLOR_CONSOLE_TEXT).

(** Setting a cell whose colour is known is one cell change. *)
Lemma acts_put_cell i ch color d :
  0 <= i < 256 -> acts (set_char p i ch;; set_color p i color) d (on_cell (fun _ => (ch, color)) i d).
Proof. intros Hi. eapply acts_seq; [by apply acts_set_char|by apply acts_set_color]. Qed.

Lemma fold_on_length h x xs d :
  foldl (fun d i => on_cell h i d) (d <| line_length := x |>) xs =
  (foldl (fun d i => on_cell h i d) d xs) <| line_length := x |>.
Proof. revert d. induction xs as [|i xs IH]; intros d; [done|]. exact (IH (on_cell h i d)). Qed.

Lemma fold_length h x xs d :
  xs <> [] ->
  foldl (fun d i => (on_cell h i d) <| line_length := x |>) d xs =
  (foldl (fun d i => on_cell h i d) d xs) <| line_length := x |>.
Proof.
  revert d. induction xs as [|i xs IH]; [done|]. intros d _. destruct xs as [|k xs]; [done|].
  cbn [foldl] in IH |- *. rewrite IH by done.
  exact (f_equal (fun l => l <| line_length := x |>) (fold_on_length h x (k :: xs) (on_cell h i d))).
Qed.

Lemma acts_pad_line x d : line_ok d -> 0 <= x <= 256 -> acts (pad_line p x) d (pad_data console x d).
Proof.
  intros Hok Hx. unfold pad_line. apply acts_deref. intros _.
  change (line_length (relink q n d)) with (line_length d).
  apply acts_gets; [done|]. unfold pad_data.
  destruct (Z.ltb_spec (line_length d) x) as [Hlt|Hge].
  - unfold fill_with. rewrite <- fold_length.
    2: { intros Hnil. apply (f_equal length) in Hnil. rewrite length_seqZ in Hnil. cbn in Hnil. lia. }
    apply (acts_for_up s p q n (line_length d) x _
             (fun i d => (on_cell (fun _ => (32, console)) i d) <| line_length := x |>)).
    intros i e Hi. pose proof (ok_length _ Hok).
    eapply acts_seq; [apply acts_set_char; lia|]. eapply acts_seq; [apply acts_set_color; lia|].
    apply (acts_update s p q n (fun l => l <| line_length := x |>)); [done|].
    intros []. by split.
  - unfold for_up. rewrite seqZ_nil by lia. apply acts_ret.
Qed.
End lines.

(** ** The shape of the list *)

(** Appending a line. *)
Lemma holds_append b ls ds cur d st :
  holds b ls ds cur -> line_ok d ->
  (forall k a e, ls !! k = Some a -> ds !! k = Some e ->
     st !! a = Some (relink (before ls k) ((ls ++ [brk b]) !! S k) e)) ->
  st !! brk b = Some (relink (last ls) None d) ->
  (forall a, is_Some (st !! a) -> a ∈ ls ++ [brk b]) ->
  holds {| store_of := st; brk := Pos.succ (brk b); q_scrollback_buffer := q_scrollback_buffer b;
           q_scrollback_last := Some (brk b); q_scrollback_current := q_scrollback_current b;
           q_scrollback_position := Some (brk b) |} (ls ++ [brk b]) (ds ++ [d]) cur.
Proof.
  intros H Hd Hold Hnew Hdom. pose proof (holds_cur _ _ _ _ H) as Hcur.
  pose proof (holds_length _ _ _ _ H) as Hlen.
  assert (Hfresh : brk b ∉ ls) by (intros Hin; apply (holds_brk _ _ _ _ H) in Hin; lia).
  split; cbn.
  - apply NoDup_app. split_and!; [by apply H| |apply NoDup_singleton].
    intros x Hx Hy. apply list_elem_of_singleton in Hy. by subst x.
  - rewrite !length_app. cbn. lia.
  - intros k a e Ha He. destruct (decide (k < length ls)%nat) as [Hk|Hk].
    + rewrite lookup_app_l in Ha by done. rewrite lookup_app_l in He by lia.
      split; [|by eapply (holds_lines _ _ _ _ H)]. rewrite (Hold _ _ _ Ha He). do 2 f_equal.
      destruct k as [|k]; [done|]. cbn. by rewrite lookup_app_l by lia.
    + assert (k = length ls) as ->.
      { apply lookup_lt_Some in Ha. rewrite length_app in Ha. cbn in Ha. lia. }
      rewrite lookup_app_r, Nat.sub_diag in Ha by lia. injection Ha as <-.
      rewrite Hlen, lookup_app_r, Nat.sub_diag in He by lia. injection He as <-.
      split; [|done]. rewrite Hnew. do 2 f_equal.
      * destruct (length ls) as [|m] eqn:El; [lia|]. cbn.
        rewrite lookup_app_l by lia. rewrite last_lookup, El. done.
      * rewrite lookup_ge_None_2; [done|]. rewrite length_app. cbn. lia.
  - done.
  - intros a Ha. apply elem_of_app in Ha as [Ha|Ha].
    + apply (holds_brk _ _ _ _ H) in Ha. lia.
    + apply list_elem_of_singleton in Ha. subst. lia.
  - rewrite (holds_first _ _ _ _ H). by rewrite lookup_app_l by lia.
  - by rewrite last_snoc.
  - by rewrite last_snoc.
  - rewrite (holds_current _ _ _ _ H). by rewrite lookup_app_l by lia.
  - rewrite length_app. lia.
Qed.

Lemma before_delete {A} (ls : list A) k j :
  before (delete k ls) j =
  if decide (j <= k)%nat then before ls j else ls !! j.
Proof.
  destruct j as [|j]; cbn; [done|]. destruct (decide (S j <= k)%nat).
  - by rewrite list_lookup_delete_lt by lia.
  - by rewrite list_lookup_delete_ge by lia.
Qed.

(** Taking line [k] out; it is neither the last nor the current one. *)
Lemma holds_delete b ls ds cur k st first :
  holds b ls ds cur -> (S k < length ls)%nat -> cur <> k ->
  (forall j a e, j <> k -> ls !! j = Some a -> ds !! j = Some e ->
     st !! a = Some (relink (if decide (j = S k) then before ls k else before ls j)
                            (if decide (S j = k) then ls !! S k else ls !! S j) e)) ->
  (forall a, is_Some (st !! a) -> a ∈ ls /\ ls !! k <> Some a) ->
  first = (if decide (k = 0)%nat then ls !! 1%nat else ls !! 0%nat) ->
  holds (b <| store_of := st |> <| q_scrollback_buffer := first |>) (delete k ls) (delete k ds)
        (if decide (cur < k)%nat then cur else pred cur).
Proof.
  intros H Hk Hne Hst Hdom Hfirst. pose proof (holds_length _ _ _ _ H) as Hlen.
  pose proof (holds_cur _ _ _ _ H) as Hcur.
  assert (Hlast : last (delete k ls) = last ls).
  { rewrite !last_lookup, length_delete by (apply lookup_lt_is_Some; lia).
    rewrite list_lookup_delete_ge by lia. f_equal. lia. }
  split; cbn.
  - apply (sublist_NoDup (delete k ls) ls); [by apply H|apply sublist_delete].
  - rewrite !length_delete by (apply lookup_lt_is_Some; lia). lia.
  - intros j a e Ha He.
    assert (Hj : exists i, i <> k /\ ls !! i = Some a /\ ds !! i = Some e /\
      i = (if decide (j < k)%nat then j else S j)).
    { destruct (decide (j < k)%nat).
      - rewrite list_lookup_delete_lt in Ha by lia. rewrite list_lookup_delete_lt in He by lia. exists j. split_and!; [lia|done..].
      - rewrite list_lookup_delete_ge in Ha by lia. rewrite list_lookup_delete_ge in He by lia. exists (S j). split_and!; [lia|done..]. }
    destruct Hj as (i & Hik & Ha' & He' & Hi). split; [|by eapply (holds_lines _ _ _ _ H)].
    rewrite (Hst _ _ _ Hik Ha' He'). do 2 f_equal.
    + rewrite before_delete. destruct (decide (j < k)%nat); subst i.
      * rewrite decide_False by lia. by rewrite decide_True by lia.
      * destruct (decide (S j = S k)).
        -- assert (j = k) as -> by lia. by rewrite decide_True by lia.
        -- rewrite decide_False by lia. done.
    + destruct (decide (j < k)%nat); subst i.
      * destruct (decide (S j = k)) as [<-|].
        -- by rewrite list_lookup_delete_ge by lia.
        -- by rewrite list_lookup_delete_lt by lia.
      * rewrite decide_False by lia. by rewrite list_lookup_delete_ge by lia.
  - intros a Ha. destruct (Hdom a Ha) as [Hin Hnk].
    apply list_elem_of_lookup in Hin as [i Hi]. apply list_elem_of_lookup.
    assert (i <> k) by congruence. destruct (decide (i < k)%nat).
    + exists i. by rewrite list_lookup_delete_lt.
    + exists (pred i). rewrite list_lookup_delete_ge by lia. by replace (S (pred i)) with i by lia.
  - intros a Ha. apply (holds_brk _ _ _ _ H). apply list_elem_of_lookup in Ha as [i Hi]. apply list_elem_of_lookup.
    destruct (decide (i < k)%nat).
    + exists i. by rewrite list_lookup_delete_lt in Hi.
    + exists (S i). by rewrite list_lookup_delete_ge in Hi by lia.
  - rewrite Hfirst. destruct (decide (k = 0)%nat) as [->|].
    + by rewrite list_lookup_delete_ge by lia.
    + by rewrite list_lookup_delete_lt by lia.
  - rewrite Hlast. apply H.
  - rewrite Hlast. apply H.
  - rewrite (holds_current _ _ _ _ H). destruct (decide (cur < k)%nat).
    + by rewrite list_lookup_delete_lt by lia.
    + rewrite list_lookup_delete_ge by lia. f_equal. lia.
  - rewrite length_delete by (apply lookup_lt_is_Some; lia). destruct (decide (cur < k)%nat); lia.
Qed.

End ScreenList.
