(* ===== verification/ScreenState.v ===== *)
(** The walk to the top of the screen and the growth of the scrollback: what
    find_top_scrollback_line(), new_scrollback_line() and the walks of the drawing
    operations do to the list that the store holds. *)

From Stdlib Require Import ZArith Lia List Bool.
From stdpp Require Import base list numbers gmap.
From S2P Require Import Prelude Stdio States Colors Screen ScreenList.
Import Colors Screen ScreenList.

Module ScreenState.

Section ScreenState.
Context {C : Curses}.

(** ** The configuration *)

(** Rows of the screen above the status line. *)
Definition rows (s : screen_state) : Z := HEIGHT s - STATUS_HEIGHT s.
Definition nrows (s : screen_state) : nat := Z.to_nat (rows s).

(** States in which new lines are followed by the view. *)
Definition follows (p : Q_PROGRAM_STATE) : bool :=
  bool_decide (p = Q_STATE_CONSOLE) || bool_decide (p = Q_STATE_DOWNLOAD) ||
  bool_decide (p = Q_STATE_SCRIPT_EXECUTE) || bool_decide (p = Q_STATE_HOST) ||
  bool_decide (p = Q_STATE_DIALER) || bool_decide (p = Q_STATE_EMULATION_MENU).

(** What drawing relies on: at least two rows, at most 256 columns, a buffer that
    holds the screen, margins and a scrolling region on it, a colour of the 64. *)
Record config_ok (s : screen_state) : Prop := {
  cfg_rows : 2 <= rows s;
  cfg_height : HEIGHT s < 2 ^ 31;
  cfg_status_height : 0 <= STATUS_HEIGHT s;
  cfg_status : status_visible (q_status s) = false -> STATUS_HEIGHT s = 0;
  cfg_width : 1 <= WIDTH s <= 256;
  cfg_margin : q_emulation_right_margin s < 256;
  cfg_max : rows s <= q_scrollback_max s < 2 ^ 31;
  cfg_resize : q_in_handle_resize s = false;
  cfg_state : follows (q_program_state s) = true;
  cfg_region_top : 0 <= scroll_region_top (q_status s);
  cfg_region : scroll_region_top (q_status s) <= scroll_region_bottom (q_status s) < rows s;
  cfg_color : 0 <= PAIR_NUMBER (q_current_color s) < 64
}.

(** The state after a change of the buffer alone. *)
Definition drawn (s : screen_state) (b : scrollback) (n : Z) : screen_state :=
  s <| buffer := b |> <| q_status := (q_status s) <| scrollback_lines := n |> |>.

Lemma drawn_drawn s b n b' n' : drawn (drawn s b n) b' n' = drawn s b' n'.
Proof. done. Qed.

Lemma drawn_same s : drawn s (buffer s) (scrollback_lines (q_status s)) = s.
Proof. by destruct s as [[]]. Qed.

(** ** Reading the links *)

(** Every address of the list is that of a line with the right links. *)
Definition reads (st : gmap positive line) (ls : list positive) : Prop :=
  forall k a, ls !! k = Some a ->
  exists e, st !! a = Some e /\ prev e = before ls k /\ next e = ls !! S k.

Lemma holds_reads b ls ds cur : holds b ls ds cur -> reads (store_of b) ls.
Proof.
  intros H k a Ha. destruct (holds_data _ _ _ _ _ _ H Ha) as [d Hd].
  destruct (holds_lines _ _ _ _ H _ _ _ Ha Hd) as [Hs _]. by eexists.
Qed.

Lemma reads_fresh st ls a l : reads st ls -> a ∉ ls -> reads (<[a := l]> st) ls.
Proof.
  intros H Ha k a' Ha'. destruct (H _ _ Ha') as (e & He & Hl). exists e. split; [|done].
  rewrite lookup_insert_ne; [done|]. intros ->. apply Ha. by eapply list_elem_of_lookup_2.
Qed.

Lemma deref_reads s ls k a :
  reads (store_of (buffer s)) ls -> ls !! k = Some a ->
  exists e, deref (Some a) s = Done (e, s) /\ prev e = before ls k /\ next e = ls !! S k.
Proof.
  intros H Ha. destruct (H _ _ Ha) as (e & He & Hl). exists e. split; [|done].
  unfold deref, mbind, M_bind, get. by rewrite He.
Qed.

Lemma climb_spec s ls n k a :
  reads (store_of (buffer s)) ls -> ls !! k = Some a ->
  climb n (Some a) s =
  Done (if decide (n <= k)%nat then (ls !! (k - n)%nat, 0%nat) else (ls !! 0%nat, (n - k)%nat), s).
Proof.
  intros H. revert k a. induction n as [|n IH]; intros k a Ha.
  { cbn. by rewrite Nat.sub_0_r, Ha. }
  cbn [climb]. destruct (deref_reads _ _ _ _ H Ha) as (e & E & Hp & Hn).
  rewrite (bind_done _ _ _ _ _ E), Hp. destruct k as [|k]; cbn [before].
  { rewrite decide_False by lia. by rewrite Ha. }
  destruct (ls !! k) as [a'|] eqn:Ha'; [|apply lookup_ge_None in Ha'; apply lookup_lt_Some in Ha; lia].
  rewrite (IH _ _ Ha'). destruct (decide (n <= k)%nat).
  - by rewrite decide_True by lia.
  - by rewrite decide_False by lia.
Qed.

Definition top_of {A} (s : screen_state) (ls : list A) : nat := (length ls - nrows s)%nat.

Lemma find_top_spec s ls :
  config_ok s -> reads (store_of (buffer s)) ls -> ls <> [] ->
  q_scrollback_position (buffer s) = last ls ->
  find_top_scrollback_line s = Done (ls !! top_of s ls, s).
Proof.
  intros Hc H Hne Hpos. unfold find_top_scrollback_line, get, mbind at 1, M_bind at 1.
  assert (HR : HEIGHT s - 1 - (if status_visible (q_status s) then STATUS_HEIGHT s else 0) = rows s - 1).
  { unfold rows. destruct (status_visible (q_status s)) eqn:E; [lia|]. rewrite (cfg_status _ Hc E). lia. }
  rewrite HR. pose proof (cfg_rows _ Hc) as Hrows.
  unfold assertM. rewrite (proj2 (Z.ltb_lt _ _)) by lia.
  assert (Hlen : (0 < length ls)%nat) by (destruct ls; [done|cbn; lia]).
  destruct (ls !! pred (length ls)) as [a|] eqn:Ha; [|apply lookup_ge_None in Ha; lia].
  rewrite Hpos, last_lookup, Ha.
  replace (rows s - 1 + 1) with (rows s) by lia.
  pose proof (climb_spec s ls (nrows s) _ _ H Ha) as E. unfold nrows in E.
  change ((mret tt : SM unit) s) with (Done (tt, s)). cbv beta iota.
  unfold mbind at 1, M_bind at 1. cbn [mret M_ret].
  unfold mbind at 1, M_bind at 1. rewrite E. unfold top_of, nrows.
  destruct (decide (Z.to_nat (rows s) <= pred (length ls))%nat) as [Hle|Hle].
  - cbn [Nat.eqb].
    destruct (ls !! (pred (length ls) - Z.to_nat (rows s))%nat) as [a1|] eqn:Ha1;
      [|apply lookup_ge_None in Ha1; lia].
    destruct (deref_reads _ _ _ _ H Ha1) as (e & E1 & _ & Hn).
    rewrite (bind_done _ _ _ _ _ E1), Hn.
    replace (S (pred (length ls) - Z.to_nat (rows s)))%nat with (length ls - Z.to_nat (rows s))%nat by lia.
    destruct (ls !! (length ls - Z.to_nat (rows s))%nat) eqn:Ha2; [done|apply lookup_ge_None in Ha2; lia].
  - destruct (Nat.eqb_spec (Z.to_nat (rows s) - pred (length ls)) 0); [lia|].
    cbn. replace (length ls - Z.to_nat (rows s))%nat with 0%nat by lia. done.
Qed.

(** ** Growth *)

Definition console (s : screen_state) : Z := scrollback_full_attr (q_text_colors s) Q_COLOR_CONSOLE_TEXT.

(** A new line. *)
Definition blank (s : screen_state) : line :=
  let reversed := reverse_video (q_status s) in
  {| line_length := if reversed then WIDTH s else 0;
     colors := replicate 256 (if bool_decide (emulation (q_status s) = Q_EMUL_DEBUG)
                              then Z.lor A_REVERSE (console s) else if reversed then console s else 0);
     chars := replicate 256 32;
     next := None; prev := None; dirty := true; double_width := false;
     double_height := 0; reverse_color := reversed |}.

Lemma blank_ok s : config_ok s -> line_ok (blank s).
Proof.
  intros Hc. pose proof (cfg_width _ Hc). split;
    [exact (length_replicate 256 32)|exact (length_replicate 256 _)|]. cbn. destruct (reverse_video _); lia.
Qed.

(** The buffer is full, or keeps nothing beyond the screen. *)
Definition full (s : screen_state) (n : nat) : bool :=
  (q_scrollback_max s <=? Z.of_nat n) ||
  (negb (scrollback_enabled (q_status s)) && (nrows s <=? n)%nat).

(** The line that a new line pushes out of a full buffer. *)
Definition pushed (s : screen_state) (n : nat) : nat :=
  if scrollback_enabled (q_status s) then 0%nat else (n - nrows s)%nat.

Definition without {A} (c : bool) (k : nat) (l : list A) : list A := if c then delete k l else l.

Lemma delete_app_lt {A} k (l1 l2 : list A) :
  (k < length l1)%nat -> delete k (l1 ++ l2) = delete k l1 ++ l2.
Proof.
  intros Hk. rewrite !delete_take_drop, take_app_le, drop_app_le by lia. by rewrite app_assoc.
Qed.

Lemma roll_over_spec s n :
  config_ok s -> scrollback_lines (q_status s) = Z.of_nat n -> roll_over s = Done (full s n, s).
Proof.
  intros Hc Hn. unfold roll_over, gets, full. rewrite Hn, (cfg_resize _ Hc).
  pose proof (cfg_rows _ Hc) as HR. pose proof (cfg_max _ Hc). pose proof (cfg_height _ Hc).
  pose proof (cfg_status_height _ Hc). unfold nrows, rows in *.
  rewrite u32_id by lia. rewrite (proj2 (Z.ltb_lt 0 (q_scrollback_max s))) by lia.
  do 3 f_equal. destruct (scrollback_enabled _); cbn; [done|].
  destruct (Z.ltb_spec (HEIGHT s - STATUS_HEIGHT s - 1) (Z.of_nat n)),
    (Nat.leb_spec (Z.to_nat (HEIGHT s - STATUS_HEIGHT s)) n); lia || done.
Qed.

(** [update] on a line of the store. *)
Lemma update_at s a l (f : line -> line) :
  store_of (buffer s) !! a = Some l ->
  update (Some a) f s = Done (tt, s <| buffer ::= fun b => b <| store_of ::= insert a (f l) |> |>).
Proof.
  intros Hl. unfold update, assign, deref, mbind, M_bind, get. rewrite Hl. cbn. by rewrite Hl.
Qed.

Lemma append_line_spec s ls ds cur d :
  config_ok s -> holds (buffer s) ls ds cur -> line_ok d -> next d = None -> prev d = None ->
  exists b', append_line (Some (brk (buffer s)))
      (s <| buffer ::= fun b => b <| store_of ::= insert (brk b) d |> <| brk := Pos.succ (brk b) |> |>)
    = Done (tt, s <| buffer := b' |>) /\ holds b' (ls ++ [brk (buffer s)]) (ds ++ [d]) cur.
Proof.
  intros Hc H Hd Hnext Hprev. set (a := brk (buffer s)).
  pose proof (holds_cur _ _ _ _ H) as Hcur.
  destruct (ls !! pred (length ls)) as [z|] eqn:Hz; [|apply lookup_ge_None in Hz; lia].
  destruct (holds_data _ _ _ _ _ _ H Hz) as [dz Hdz].
  destruct (holds_lines _ _ _ _ H _ _ _ Hz Hdz) as [Hsz Hokz].
  assert (Hlast : q_scrollback_last (buffer s) = Some z)
    by (rewrite (holds_last _ _ _ _ H), last_lookup; done).
  assert (Hza : z <> a).
  { intros ->. assert (a ∈ ls) as Hin by by eapply list_elem_of_lookup_2.
    apply (holds_brk _ _ _ _ H) in Hin. unfold a in Hin. lia. }
  unfold append_line, pointer, gets. unfold mbind at 1, M_bind at 1.
  set (s1 := s <| buffer ::= _ |>).
  change (q_scrollback_last (buffer s1)) with (q_scrollback_last (buffer s)). rewrite Hlast.
  assert (E1 : store_of (buffer s1) !! a = Some d) by apply lookup_insert_eq.
  rewrite (bind_done _ _ _ _ _ (update_at s1 a d _ E1)).
  set (s2 := s1 <| buffer ::= _ |>).
  assert (E2 : store_of (buffer s2) !! z = Some (relink (before ls (pred (length ls))) (ls !! S (pred (length ls))) dz)).
  { cbn. rewrite !lookup_insert_ne by done. done. }
  rewrite (bind_done _ _ _ _ _ (update_at s2 z _ _ E2)).
  unfold on_buffer, modify, get. unfold mbind at 1, M_bind at 1. cbv beta iota.
  unfold mbind at 1, M_bind at 1. cbv beta iota.
  match goal with |- context [whenM ?c _ _] => replace c with (follows (q_program_state s)) by done end.
  rewrite (cfg_state _ Hc). cbn [whenM].
  pose (dz' := relink (before ls (pred (length ls))) (Some a) dz).
  pose (st := <[z := dz']> (<[a := d <| prev := Some z |>]> (<[a := d]> (store_of (buffer s))))).
  exists {| store_of := st; brk := Pos.succ a; q_scrollback_buffer := q_scrollback_buffer (buffer s);
            q_scrollback_last := Some a; q_scrollback_current := q_scrollback_current (buffer s);
            q_scrollback_position := Some a |}.
  split; [reflexivity|].
  apply (holds_append (buffer s) ls ds cur d st H Hd); unfold st, dz'.
  - intros k x e Hx He. destruct (holds_lines _ _ _ _ H _ _ _ Hx He) as [Hs _].
    destruct (decide (x = z)) as [->|Hxz].
    + assert (k = pred (length ls)) as -> by (eapply NoDup_lookup; [apply H|done|done]).
      rewrite lookup_insert_eq. rewrite Hdz in He. injection He as <-.
      replace (S (pred (length ls))) with (length ls) by lia.
      rewrite lookup_app_r, Nat.sub_diag by lia. done.
    + assert (x <> a).
      { intros ->. assert (a ∈ ls) as Hin by by eapply list_elem_of_lookup_2.
        apply (holds_brk _ _ _ _ H) in Hin. unfold a in Hin. lia. }
      rewrite !lookup_insert_ne by done. rewrite Hs. do 2 f_equal.
      assert (S k < length ls)%nat.
      { apply lookup_lt_Some in Hx as Hk. destruct (decide (S k = length ls)) as [Hk'|]; [|lia].
        exfalso. apply Hxz. replace (pred (length ls)) with k in Hz by lia. congruence. }
      by rewrite lookup_app_l by lia.
  - rewrite lookup_insert_ne, lookup_insert_eq by done. rewrite last_lookup, Hz.
    f_equal. destruct d. cbn in *. subst. done.
  - intros x Hx. apply elem_of_app. destruct (decide (x = a)) as [->|Hxa]; [right; left|].
    left. destruct (decide (x = z)) as [->|Hxz]; [by eapply list_elem_of_lookup_2|].
    rewrite !lookup_insert_ne in Hx by done. by apply (holds_domain _ _ _ _ H).
Qed.

Lemma Xfree_at s a l :
  store_of (buffer s) !! a = Some l ->
  Xfree (Some a) s = Done (tt, s <| buffer ::= fun b => b <| store_of ::= delete a |> |>).
Proof. intros Hl. unfold Xfree, deref, mbind, M_bind, get. by rewrite Hl. Qed.

Lemma deref_at s a l : store_of (buffer s) !! a = Some l -> deref (Some a) s = Done (l, s).
Proof. intros Hl. unfold deref, mbind, M_bind, get. by rewrite Hl. Qed.

(** The store after line [k] was cut out of the list. *)
Lemma cut_out b ls ds cur k (st : gmap positive line) :
  holds b ls ds cur ->
  (forall j a e, j <> k -> ls !! j = Some a -> ds !! j = Some e ->
     st !! a = Some (relink (if decide (j = S k) then before ls k else before ls j)
                            (if decide (S j = k) then ls !! S k else ls !! S j) e)) ->
  (forall a, ls !! k = Some a -> st !! a = None) ->
  (forall a, a ∉ ls -> st !! a = None) ->
  forall a, is_Some (st !! a) -> a ∈ ls /\ ls !! k <> Some a.
Proof.
  intros H _ Hk Hout a [e He]. split.
  - destruct (decide (a ∈ ls)) as [|Hn]; [done|]. rewrite (Hout _ Hn) in He. done.
  - intros Ha. rewrite (Hk _ Ha) in He. done.
Qed.

Lemma drop_first_spec s ls ds cur :
  holds (buffer s) ls ds cur -> (2 <= length ls)%nat -> cur <> 0%nat ->
  exists b', drop_first_line s = Done (tt, s <| buffer := b' |>) /\
             holds b' (delete 0%nat ls) (delete 0%nat ds) (pred cur).
Proof.
  intros H Hlen Hcur.
  destruct (ls !! 0%nat) as [a0|] eqn:H0; [|apply lookup_ge_None in H0; lia].
  destruct (ls !! 1%nat) as [a1|] eqn:H1; [|apply lookup_ge_None in H1; lia].
  destruct (holds_data _ _ _ _ _ _ H H0) as [d0 Hd0]. destruct (holds_data _ _ _ _ _ _ H H1) as [d1 Hd1].
  destruct (holds_lines _ _ _ _ H _ _ _ H0 Hd0) as [S0 _]. destruct (holds_lines _ _ _ _ H _ _ _ H1 Hd1) as [S1 _].
  assert (Hne : a0 <> a1) by (intros ->; assert (0%nat = 1%nat) by (eapply NoDup_lookup; [apply H|done|done]); lia).
  unfold drop_first_line, pointer, gets. unfold mbind at 1, M_bind at 1.
  rewrite (holds_first _ _ _ _ H), H0. rewrite (bind_done _ _ _ _ _ (deref_at _ _ _ S0)).
  unfold on_buffer, modify. unfold mbind at 1, M_bind at 1.
  change (next (relink (before ls 0) (ls !! 1%nat) d0)) with (ls !! 1%nat). rewrite H1.
  set (s1 := s <| buffer ::= _ |>).
  rewrite (bind_done _ _ _ _ _ (update_at s1 a1 _ _ S1)). set (s2 := s1 <| buffer ::= _ |>).
  assert (E0 : store_of (buffer s2) !! a0 = Some (relink (before ls 0) (ls !! 1%nat) d0))
    by (cbn; by rewrite lookup_insert_ne).
  rewrite (Xfree_at s2 a0 _ E0).
  pose (st := delete a0 (<[a1 := relink None (ls !! 2%nat) d1]> (store_of (buffer s)))).
  exists ((buffer s) <| store_of := st |> <| q_scrollback_buffer := Some a1 |>).
  split; [reflexivity|].
  replace (pred cur) with (if decide (cur < 0)%nat then cur else pred cur) by (by rewrite decide_False by lia).
  assert (Hst : forall j a e, j <> 0%nat -> ls !! j = Some a -> ds !! j = Some e ->
    st !! a = Some (relink (if decide (j = 1%nat) then before ls 0 else before ls j)
                           (if decide (S j = 0%nat) then ls !! 1%nat else ls !! S j) e)).
  { intros j a e Hj Ha He. rewrite (decide_False (P := S j = 0%nat)) by lia.
    destruct (holds_lines _ _ _ _ H _ _ _ Ha He) as [Hs _]. unfold st.
    assert (a <> a0) by (intros ->; apply Hj; eapply NoDup_lookup; [apply H|done|done]).
    rewrite lookup_delete_ne by done. destruct (decide (j = 1%nat)) as [->|Hj1].
    - assert (a = a1) as -> by congruence. assert (e = d1) as -> by congruence. by rewrite lookup_insert_eq.
    - rewrite lookup_insert_ne; [done|]. intros ->. apply Hj1. eapply NoDup_lookup; [apply H|done|done]. }
  apply (holds_delete _ ls ds cur 0%nat st); [done|lia|done|exact Hst| |by rewrite decide_True].
  apply (cut_out _ _ _ _ _ _ H Hst).
  - intros a Ha. assert (a = a0) as -> by congruence. apply lookup_delete_eq.
  - intros a Ha. unfold st. apply lookup_delete_None. right. rewrite lookup_insert_ne.
    + destruct (store_of (buffer s) !! a) eqn:E; [|done]. exfalso. apply Ha. by apply (holds_domain _ _ _ _ H).
    + intros ->. apply Ha. by eapply list_elem_of_lookup_2.
Qed.

Lemma drop_top_spec s ls ds cur k a :
  holds (buffer s) ls ds cur -> ls !! S k = Some a -> (S (S k) < length ls)%nat -> cur <> S k ->
  exists b', drop_top_line (Some a) s = Done (tt, s <| buffer := b' |>) /\
             holds b' (delete (S k) ls) (delete (S k) ds) (if decide (cur < S k)%nat then cur else pred cur).
Proof.
  intros H Ha Hlen Hcur.
  destruct (ls !! k) as [a0|] eqn:H0; [|apply lookup_ge_None in H0; lia].
  destruct (ls !! S (S k)) as [a1|] eqn:H1; [|apply lookup_ge_None in H1; lia].
  destruct (holds_data _ _ _ _ _ _ H Ha) as [d Hd].
  destruct (holds_data _ _ _ _ _ _ H H0) as [d0 Hd0]. destruct (holds_data _ _ _ _ _ _ H H1) as [d1 Hd1].
  destruct (holds_lines _ _ _ _ H _ _ _ Ha Hd) as [S_ _].
  destruct (holds_lines _ _ _ _ H _ _ _ H0 Hd0) as [S0 _]. destruct (holds_lines _ _ _ _ H _ _ _ H1 Hd1) as [S1 _].
  assert (Hinj : forall i j x, ls !! i = Some x -> ls !! j = Some x -> i = j)
    by (intros; eapply NoDup_lookup; [apply H|done|done]).
  assert (N0 : a0 <> a) by (intros ->; specialize (Hinj _ _ _ H0 Ha); lia).
  assert (N1 : a1 <> a) by (intros ->; specialize (Hinj _ _ _ H1 Ha); lia).
  assert (N2 : a0 <> a1) by (intros ->; specialize (Hinj _ _ _ H0 H1); lia).
  unfold drop_top_line. rewrite (bind_done _ _ _ _ _ (deref_at _ _ _ S_)).
  change (next (relink (before ls (S k)) (ls !! S (S k)) d)) with (ls !! S (S k)). rewrite H1.
  rewrite (bind_done _ _ _ _ _ (update_at s a1 _ _ S1)). set (s1 := s <| buffer ::= _ |>).
  assert (Ea : store_of (buffer s1) !! a = Some (relink (before ls (S k)) (ls !! S (S k)) d))
    by (cbn; by rewrite lookup_insert_ne).
  rewrite (bind_done _ _ _ _ _ (deref_at _ _ _ Ea)).
  change (prev (relink (before ls (S k)) (ls !! S (S k)) d)) with (ls !! k). rewrite H0. cbn [is_null].
  assert (E0 : store_of (buffer s1) !! a0 = Some (relink (before ls k) (ls !! S k) d0))
    by (cbn; by rewrite lookup_insert_ne).
  unfold is_null. rewrite bool_decide_true by done. cbn [negb whenM].
  rewrite (bind_done _ _ _ _ _ (update_at s1 a0 _ _ E0)). set (s2 := s1 <| buffer ::= _ |>).
  assert (Ea2 : store_of (buffer s2) !! a = Some (relink (before ls (S k)) (ls !! S (S k)) d))
    by (cbn; by rewrite !lookup_insert_ne).
  rewrite (Xfree_at s2 a _ Ea2).
  pose (st := delete a (<[a0 := relink (before ls k) (ls !! S (S k)) d0]>
                         (<[a1 := relink (ls !! k) (ls !! S (S (S k))) d1]> (store_of (buffer s))))).
  exists ((buffer s) <| store_of := st |> <| q_scrollback_buffer := ls !! 0%nat |>).
  split.
  { do 2 f_equal. rewrite <- (holds_first _ _ _ _ H). unfold st. reflexivity. }
  assert (Hst : forall j x e, j <> S k -> ls !! j = Some x -> ds !! j = Some e ->
    st !! x = Some (relink (if decide (j = S (S k)) then before ls (S k) else before ls j)
                           (if decide (S j = S k) then ls !! S (S k) else ls !! S j) e)).
  { intros j x e Hj Hx He. destruct (holds_lines _ _ _ _ H _ _ _ Hx He) as [Hs _]. unfold st.
    rewrite lookup_delete_ne by (intros ->; apply Hj; by eapply Hinj).
    destruct (decide (x = a0)) as [->|X0].
    - assert (j = k) as -> by by eapply Hinj. rewrite lookup_insert_eq, decide_False, decide_True by lia.
      congruence.
    - assert (j <> k) by congruence. rewrite lookup_insert_ne, (decide_False (P := S j = S k)) by (done || lia).
      destruct (decide (x = a1)) as [->|X1].
      + assert (j = S (S k)) as -> by by eapply Hinj. rewrite lookup_insert_eq, decide_True by done.
        cbn [before]. congruence.
      + rewrite lookup_insert_ne by done. rewrite decide_False; [done|]. intros ->. congruence. }
  apply (holds_delete _ ls ds cur (S k) st); [done|lia|done|exact Hst| |by rewrite decide_False by lia].
  apply (cut_out _ _ _ _ _ _ H Hst).
  - intros x Hx. assert (x = a) as -> by congruence. apply lookup_delete_eq.
  - intros x Hx. unfold st. apply lookup_delete_None. right.
    assert (forall i y, ls !! i = Some y -> y <> x)
      by (intros i y Hy ->; apply Hx; by eapply list_elem_of_lookup_2).
    rewrite !lookup_insert_ne by eauto.
    destruct (store_of (buffer s) !! x) eqn:E; [|done]. exfalso. apply Hx. by apply (holds_domain _ _ _ _ H).
Qed.

(** new_scrollback_line(): a blank line at the end; when the buffer is full the line
    [pushed] goes, which must be neither the current one nor, when lines are not
    kept, the first. *)
Lemma new_line_spec s ls ds cur :
  config_ok s -> holds (buffer s) ls ds cur ->
  scrollback_lines (q_status s) = Z.of_nat (length ls) ->
  Z.of_nat (length ls) <= q_scrollback_max s ->
  (full s (length ls) = true -> cur <> pushed s (length ls)) ->
  (scrollback_enabled (q_status s) = false -> (nrows s <= length ls)%nat -> (nrows s < length ls)%nat) ->
  let f := full s (length ls) in let k := pushed s (length ls) in
  exists b', new_scrollback_line s = Done (tt, drawn s b' (Z.of_nat (if f then length ls else S (length ls)))) /\
    holds b' (without f k ls ++ [brk (buffer s)]) (without f k ds ++ [blank s])
             (if f then if decide (cur < k)%nat then cur else pred cur else cur).
Proof.
  intros Hc H Hn Hmax Hcur Hkept f k.
  pose proof (holds_cur _ _ _ _ H) as Hlen. pose proof (holds_length _ _ _ _ H) as Hds.
  pose proof (cfg_rows _ Hc) as HR. pose proof (cfg_max _ Hc) as HM.
  assert (Hfirst : is_null (q_scrollback_buffer (buffer s)) = false).
  { rewrite (holds_first _ _ _ _ H). unfold is_null. rewrite bool_decide_true; [done|].
    apply lookup_lt_is_Some. lia. }
  set (a := brk (buffer s)).
  assert (Hfresh : a ∉ ls) by (intros Hin; apply (holds_brk _ _ _ _ H) in Hin; unfold a in Hin; lia).
  set (s1 := s <| buffer ::= fun b => b <| store_of ::= insert (brk b) (blank s) |> <| brk := Pos.succ (brk b) |> |>).
  assert (Hstart : new_scrollback_line s =
    (top_line ← (top_line ← find_top_scrollback_line; append_line (Some a);; mret top_line);
     full ← roll_over;
     if full : bool then
       enabled ← status scrollback_enabled;
       if enabled : bool then drop_first_line else drop_top_line top_line
     else on_status (fun q => q <| scrollback_lines ::= fun n => u32 (n + 1) |>)) s1).
  { unfold new_scrollback_line. unfold blank_line, full_attr, Xmalloc, on_buffer, modify, gets, get.
    unfold mbind, M_bind, mret, M_ret. rewrite Hfirst. unfold s1, blank, a.
    by destruct (bool_decide (emulation (q_status s) = Q_EMUL_DEBUG)). }
  rewrite Hstart. clear Hstart.
  assert (Htop : find_top_scrollback_line s1 = Done (ls !! top_of s ls, s1)).
  { apply (find_top_spec s1 ls); [by destruct Hc; split| | |].
    - apply reads_fresh; [by eapply holds_reads|done].
    - intros ->. cbn in Hlen. lia.
    - apply (holds_position _ _ _ _ H). }
  destruct (append_line_spec s ls ds cur (blank s) Hc H (blank_ok s Hc) eq_refl eq_refl) as (b1 & E1 & Hb1).
  assert (E : (top_line ← find_top_scrollback_line; append_line (Some a);; mret top_line) s1
              = Done (ls !! top_of s ls, s <| buffer := b1 |>)).
  { rewrite (bind_done _ _ _ _ _ Htop), (bind_done _ _ _ _ _ E1). done. }
  rewrite (bind_done _ _ _ _ _ E).
  assert (Hroll : roll_over (s <| buffer := b1 |>) = Done (f, s <| buffer := b1 |>)).
  { rewrite (roll_over_spec (s <| buffer := b1 |>) (length ls)); [reflexivity|by destruct Hc; split|done]. }
  rewrite (bind_done _ _ _ _ _ Hroll). destruct f eqn:Ef; unfold f in Ef.
  - unfold status, gets. unfold mbind at 1, M_bind at 1.
    change (scrollback_enabled (q_status (s <| buffer := b1 |>))) with (scrollback_enabled (q_status s)).
    specialize (Hcur Ef). unfold k, pushed in *. destruct (scrollback_enabled (q_status s)) eqn:Een.
    + pose proof (drop_first_spec (s <| buffer := b1 |>) (ls ++ [a]) (ds ++ [blank s]) cur) as D.
      destruct (D Hb1) as (b2 & E2 & Hb2); [|done|].
      { rewrite length_app. cbn. lia. }
      exists b2. rewrite E2. split.
      * rewrite <- Hn. change (s <| buffer := b1 |> <| buffer := b2 |>) with (s <| buffer := b2 |>).
        do 2 f_equal. by destruct s as [[]].
      * rewrite decide_False by lia. unfold without.
        rewrite !delete_app_lt in Hb2 by lia. done.
    + assert (Hlt : (nrows s < length ls)%nat).
      { apply Hkept; [done|]. unfold full in Ef. rewrite Een in Ef. unfold nrows in *.
        apply orb_prop in Ef as [Ef|Ef]; [apply Z.leb_le in Ef; lia|]. by apply Nat.leb_le in Ef. }
      assert (Hk : top_of s ls = S (pred (length ls - nrows s))) by (unfold top_of; lia).
      destruct (ls !! top_of s ls) as [t|] eqn:Ht;
        [|apply lookup_ge_None in Ht; unfold top_of, nrows in *; lia].
      pose proof (drop_top_spec (s <| buffer := b1 |>) (ls ++ [a]) (ds ++ [blank s]) cur (pred (length ls - nrows s)) t) as D.
      destruct (D Hb1) as (b2 & E2 & Hb2).
      { rewrite lookup_app_l by (unfold nrows in *; lia). by rewrite <- Hk. }
      { rewrite length_app. cbn. unfold nrows in *. lia. } { lia. }
      exists b2. rewrite E2. split.
      * rewrite <- Hn. change (s <| buffer := b1 |> <| buffer := b2 |>) with (s <| buffer := b2 |>).
        do 2 f_equal. by destruct s as [[]].
      * rewrite <- Hk in Hb2. unfold top_of in Hb2. unfold without.
        rewrite !delete_app_lt in Hb2 by (unfold nrows in *; lia). done.
  - exists b1. split; [|done]. unfold on_status, modify. do 2 f_equal.
    unfold drawn. assert (u32 (Z.of_nat (length ls) + 1) = Z.of_nat (S (length ls))) as <-.
    { rewrite u32_id; [lia|]. lia. }
    rewrite <- Hn. reflexivity.
Qed.

End ScreenState.
End ScreenState.
