(* ===== verification/ScreenLine.v ===== *)
(** Drawing on one line: each operation of scrollback.c that changes a single line is
    a function on the data of the line, and what that function does to its cells. *)

From Stdlib Require Import ZArith Lia List Bool.
From stdpp Require Import base list numbers gmap.
From S2P Require Import Prelude Stdio States Colors Screen ScreenList ScreenState.
Import Colors Screen ScreenList ScreenState.

Module ScreenLine.

Section ScreenLine.
Context {C : Curses}.

(** [m] on the current line. *)
Definition acts_current (s : screen_state) (m : SM unit) (d d' : line) : Prop :=
  forall b ls ds k, holds b ls ds k -> ds !! k = Some d ->
  exists b', m (s <| buffer := b |>) = Done (tt, s <| buffer := b' |>) /\
             holds b' ls (<[k := d']> ds) k.

Lemma acts_at_current s (m : option positive -> SM unit) d d' :
  (forall p q n, acts s (p, q, n) (m p) d d') ->
  acts_current s (p ← pointer q_scrollback_current; m p) d d'.
Proof.
  intros Hm b ls ds k H Hd.
  destruct (Hm (ls !! k) (before ls k) (ls !! S k) b ls ds k k H) as (b' & E & Hb'); [done|done|].
  exists b'. split; [|done]. unfold pointer, gets, mbind, M_bind.
  change (q_scrollback_current (buffer (s <| buffer := b |>))) with (q_scrollback_current b).
  by rewrite (holds_current _ _ _ _ H).
Qed.

Lemma acts_current_seq s m1 m2 d d1 d2 :
  acts_current s m1 d d1 -> acts_current s m2 d1 d2 -> acts_current s (m1;; m2) d d2.
Proof.
  intros H1 H2 b ls ds k H Hd. destruct (H1 _ _ _ _ H Hd) as (b1 & E1 & Hb1).
  assert (Hd1 : <[k := d1]> ds !! k = Some d1)
    by (apply list_lookup_insert_eq; by apply lookup_lt_Some in Hd).
  destruct (H2 _ _ _ _ Hb1 Hd1) as (b2 & E2 & Hb2).
  exists b2. rewrite list_insert_insert_eq in Hb2. split; [|done].
  by rewrite (bind_done _ _ _ _ _ E1).
Qed.

Lemma acts_current_ret s d : acts_current s (mret tt) d d.
Proof. intros b ls ds k H Hd. exists b. split; [done|]. by rewrite list_insert_id. Qed.

Lemma acts_current_gets {A} s (f : screen_state -> A) (k : A -> SM unit) d d' :
  (forall b, f (s <| buffer := b |>) = f s) -> acts_current s (k (f s)) d d' ->
  acts_current s (a ← gets f; k a) d d'.
Proof.
  intros Hf Hk b ls ds i H Hd. destruct (Hk _ _ _ _ H Hd) as (b' & E & Hb').
  exists b'. split; [|done]. unfold gets, mbind, M_bind. by rewrite Hf.
Qed.

Section place.
Context (s : screen_state) (p q n : option positive).
Notation acts := (acts s (p, q, n)).

Lemma acts_update_to (f : line -> line) d d' :
  f d = d' -> f (relink q n d) = relink q n (f d) -> line_ok (f d) -> acts (update p f) d d'.
Proof. intros <- Hf Hok. by apply acts_update. Qed.

(** ** Filling *)

Definition protected_cell (honor : bool) (c : Z * Z) : bool := honor && has c.2 A_PROTECT.
Definition erase_cell (character : Z) (honor : bool) (c : Z * Z) : Z * Z :=
  if protected_cell honor c then c else (character, erase_color s).

Lemma on_cell_id h i d : line_ok d -> 0 <= i < 256 -> h (raw d i) = raw d i -> on_cell h i d = d.
Proof.
  intros [Hc Hk _] Hi Hh. unfold on_cell. rewrite Hh. unfold raw, put_char, put_color. cbn.
  destruct d as [ll co ch nx pv di dw dh rc]. cbn in *.
  unfold field_update. f_equal; apply list_insert_id, list_lookup_lookup_total_lt; lia.
Qed.

Lemma load_cell {S} buf i (t : S) :
  0 <= i < Z.of_nat (length buf) -> load buf i t = Done (buf !!! Z.to_nat i, t).
Proof.
  intros Hi. unfold load. rewrite (proj2 (Z.ltb_ge i 0)) by lia.
  rewrite (list_lookup_lookup_total_lt buf) by lia. done.
Qed.

Lemma erase_color_buffer b : erase_color (s <| buffer := b |>) = erase_color s.
Proof. done. Qed.

Lemma acts_fill_cell character honor i d :
  line_ok d -> 0 <= i < 256 ->
  acts (fill_cell p character honor i) d (on_cell (erase_cell character honor) i d).
Proof.
  intros Hok Hi. unfold fill_cell.
  assert (Hcell : forall prot, protected_cell honor (raw d i) = prot ->
    acts (whenM (negb prot) (set_char p i character;; color ← gets erase_color; set_color p i color))
         d (on_cell (erase_cell character honor) i d)).
  { intros prot Hp. destruct prot; cbn [negb whenM].
    - rewrite on_cell_id; [apply acts_ret|done|done|]. unfold erase_cell. by rewrite Hp.
    - unfold on_cell, erase_cell. rewrite Hp. cbn [fst snd].
      eapply acts_seq; [by apply acts_set_char|]. apply acts_gets; [done|]. by apply acts_set_color. }
  destruct honor; cbn [andb].
  - intros b ls ds cur k H Hpl Hd.
    destruct (Hcell _ eq_refl _ _ _ _ _ H Hpl Hd) as (b' & E & Hb'). exists b'. split; [|done].
    destruct Hpl as (Hp & Hq & Hn).
    destruct (holds_deref _ _ _ _ _ _ _ (s <| buffer := b |>) H Hp Hd (buffer_set s b)) as [Ed _].
    assert (Hl : load (colors d) i (s <| buffer := b |>) = Done (colors d !!! Z.to_nat i, s <| buffer := b |>))
      by (apply load_cell; rewrite (ok_colors _ Hok); lia).
    unfold mbind at 1, M_bind at 1. rewrite (bind_done _ _ _ _ _ Ed).
    change (colors (relink (before ls k) (ls !! S k) d)) with (colors d).
    rewrite (bind_done _ _ _ _ _ Hl).
    exact E.
  - apply (Hcell false). done.
Qed.

(** fill_line_with_character() *)
Definition fill_data (start end_ character : Z) (honor : bool) (d : line) : line :=
  let d := pad_data (console s) start (d <| dirty := true |>) in
  let d := fill_with (erase_cell character honor) start (end_ + 1) d in
  let d := if line_length d <? end_ then d <| line_length := end_ + 1 |> else d in
  if WIDTH s <? line_length d then d <| line_length := WIDTH s |> else d.

Lemma fold_ext {A B} (f g : A -> B -> A) a xs :
  (forall a x, f a x = g a x) -> foldl f a xs = foldl g a xs.
Proof. intros H. revert a. induction xs as [|x xs IH]; intros a; [done|]. cbn. by rewrite H. Qed.

Lemma acts_fill_range character honor lo hi d :
  line_ok d -> 0 <= lo -> hi <= 256 ->
  acts (for_up lo hi (fill_cell p character honor)) d (fill_with (erase_cell character honor) lo hi d).
Proof.
  intros Hok Hlo Hhi. unfold fill_with, for_up.
  assert (Hxs : forall x, x ∈ seqZ lo (hi - lo) -> 0 <= x < 256) by (intros x Hx; apply elem_of_seqZ in Hx; lia).
  revert d Hok Hxs. induction (seqZ lo (hi - lo)) as [|x xs IH]; intros d Hok Hxs; cbn; [apply acts_ret|].
  eapply acts_seq; [apply acts_fill_cell; [done|apply Hxs; left]|].
  apply IH; [by apply on_cell_ok|]. intros y Hy. apply Hxs. by right.
Qed.

Lemma acts_conditional_length (c : line -> bool) x d :
  (forall d, c (relink q n d) = c d) -> (c d = true -> 0 <= x <= 256) -> line_ok d ->
  acts (update p (fun l => if c l then l <| line_length := x |> else l)) d
       (if c d then d <| line_length := x |> else d).
Proof.
  intros Hc Hx Hok. apply (acts_update s p q n (fun l => if c l then l <| line_length := x |> else l)).
  - rewrite Hc. by destruct (c d).
  - intros _. destruct (c d); [|done]. destruct Hok. split; [done|done|]. cbn. auto.
Qed.
End place.

Lemma fill_data_spec s start end_ character honor d :
  line_ok d -> 0 <= start <= end_ -> end_ < 256 -> 1 <= WIDTH s <= 256 ->
  let d' := fill_data s start end_ character honor d in
  line_ok d' /\
  line_length d' = Z.min (WIDTH s)
    (if Z.max (line_length d) start <? end_ then end_ + 1 else Z.max (line_length d) start) /\
  (forall j, 0 <= j -> raw d' j =
     let c := raw (pad_data (console s) start d) j in
     if (start <=? j) && (j <=? end_) then erase_cell s character honor c else c) /\
  dirty d' = true /\ double_width d' = double_width d /\ double_height d' = double_height d /\
  reverse_color d' = reverse_color d.
Proof.
  intros Hok Hse He HW d'. unfold d', fill_data. clear d'.
  assert (Hok1 : line_ok (d <| dirty := true |>)) by (destruct Hok; by split).
  destruct (pad_data_spec (console s) start _ Hok1 ltac:(lia)) as (Hok2 & Hl2 & Hf2 & _).
  assert (Hraw : forall j, raw (pad_data (console s) start (d <| dirty := true |>)) j =
                           raw (pad_data (console s) start d) j).
  { intros j. unfold pad_data. change (line_length (d <| dirty := true |>)) with (line_length d).
    destruct (line_length d <? start); [|done]. unfold fill_with. cbn [line_length].
    change (raw (?e <| line_length := start |>) j) with (raw e j).
    assert (Hd : forall xs e, foldl (fun d i => on_cell (fun _ => (32, console s)) i d) (e <| dirty := true |>) xs
      = (foldl (fun d i => on_cell (fun _ => (32, console s)) i d) e xs) <| dirty := true |>).
    { intros xs. induction xs as [|x xs IH]; intros e; [done|]. exact (IH (on_cell _ x e)). }
    unfold raw. by rewrite Hd. }
  set (d1 := pad_data _ _ (d <| dirty := true |>)) in *.
  destruct (fill_with_spec (erase_cell s character honor) start (end_ + 1) d1 Hok2) as (Hok3 & Hl3 & Hf3 & Hr3);
    [lia..|].
  set (d2 := fill_with _ _ _ d1) in *. cbn zeta.
  change (line_length (d <| dirty := true |>)) with (line_length d) in Hl2. rewrite Hl2 in Hl3.
  assert (Hflags : same_flags (d <| dirty := true |>) d2) by (by etransitivity).
  destruct Hflags as (F1 & F2 & F3 & F4). rewrite Hl3.
  set (b1 := Z.max (line_length d) start <? end_).
  set (d3 := if b1 then d2 <| line_length := end_ + 1 |> else d2).
  assert (Hl4 : line_length d3 = if b1 then end_ + 1 else Z.max (line_length d) start)
    by (unfold d3; destruct b1; [done|exact Hl3]).
  pose proof (ok_length _ Hok) as Hlen.
  assert (Hr : forall j, raw (if WIDTH s <? line_length d3 then d3 <| line_length := WIDTH s |> else d3) j = raw d2 j)
    by (intros j; unfold d3; by destruct (WIDTH s <? _), b1).
  split_and!.
  - destruct Hok3. split; [unfold d3; by destruct (WIDTH s <? _), b1..|].
    destruct (Z.ltb_spec (WIDTH s) (line_length d3)) as [H|H]; [cbn; lia|].
    rewrite Hl4 in *. destruct b1; lia.
  - destruct (Z.ltb_spec (WIDTH s) (line_length d3)) as [H|H]; [cbn|]; rewrite Hl4 in *; destruct b1; lia.
  - intros j Hj. rewrite Hr, Hr3, Hraw by done. cbn zeta.
    replace (j <? end_ + 1) with (j <=? end_) by (apply eq_true_iff_eq; rewrite Z.leb_le, Z.ltb_lt; lia). done.
  - unfold d3. destruct (WIDTH s <? _), b1; cbn; by rewrite <- F1.
  - unfold d3. destruct (WIDTH s <? _), b1; cbn; by rewrite <- F2.
  - unfold d3. destruct (WIDTH s <? _), b1; cbn; by rewrite <- F3.
  - unfold d3. destruct (WIDTH s <? _), b1; cbn; by rewrite <- F4.
Qed.

Lemma acts_fill s start end_ character honor d :
  line_ok d -> 0 <= start <= end_ -> end_ < 256 -> 1 <= WIDTH s <= 256 ->
  acts_current s (fill_line_with_character start end_ character honor) d
               (fill_data s start end_ character honor d).
Proof.
  intros Hok Hse He HW. unfold fill_line_with_character.
  rewrite (proj2 (Z.ltb_ge end_ start)) by lia.
  apply (acts_at_current s (fun p => _)). intros p q n.
  assert (Hok1 : line_ok (d <| dirty := true |>)) by (destruct Hok; by split).
  destruct (pad_data_spec (console s) start _ Hok1 ltac:(lia)) as (Hok2 & Hl2 & _).
  eapply acts_seq; [apply (acts_update s p q n (fun l => l <| dirty := true |>)); [done|by intros]|].
  eapply acts_seq; [apply acts_pad_line; [done|lia]|].
  apply acts_deref. intros _.
  change (line_length (relink q n ?d)) with (line_length d).
  fold (console s). set (d1 := pad_data _ _ _) in *.
  eapply acts_seq.
  { unfold for_up at 1. rewrite seqZ_nil by (rewrite Hl2; lia). apply acts_ret. }
  eapply acts_seq; [apply acts_fill_range; [done|lia..]|].
  destruct (fill_with_spec (erase_cell s character honor) start (end_ + 1) d1 Hok2) as (Hok3 & Hl3 & _); [lia..|].
  set (d2 := fill_with _ _ _ _) in *.
  apply acts_get. intros b. eapply acts_seq.
  { apply (acts_conditional_length s p q n (fun l => line_length l <? end_) (end_ + 1)); [done|lia|done]. }
  apply (acts_conditional_length s p q n (fun l => WIDTH s <? line_length l) (WIDTH s)); [done|lia|].
  cbn beta. destruct (line_length d2 <? end_); [|done]. destruct Hok3. split; [done|done|cbn; lia].
Qed.

(** ** Moving cells *)

Definition moved (buf : list Z) (dst src n : Z) : list Z :=
  blit buf (Z.to_nat dst) (take (Z.to_nat n) (drop (Z.to_nat src) buf)).

Lemma memmove_at buf dst src n (t : screen_state) :
  0 <= dst -> 0 <= src -> 0 <= n -> dst + n <= Z.of_nat (length buf) -> src + n <= Z.of_nat (length buf) ->
  memmove buf dst src n t = Done (moved buf dst src n, t).
Proof.
  intros. unfold memmove. rewrite !(proj2 (Z.leb_le _ _)) by lia. done.
Qed.

Lemma length_moved buf dst src n :
  0 <= dst -> 0 <= src -> 0 <= n -> dst + n <= Z.of_nat (length buf) -> src + n <= Z.of_nat (length buf) ->
  length (moved buf dst src n) = length buf.
Proof. intros. apply length_blit. rewrite length_take, length_drop. lia. Qed.

Lemma lookup_moved buf dst src n j :
  0 <= dst -> 0 <= src -> 0 <= n -> dst + n <= Z.of_nat (length buf) -> src + n <= Z.of_nat (length buf) ->
  0 <= j ->
  moved buf dst src n !!! Z.to_nat j =
  if (dst <=? j) && (j <? dst + n) then buf !!! Z.to_nat (j - dst + src) else buf !!! Z.to_nat j.
Proof.
  intros. unfold moved, blit.
  assert (Hl : length (take (Z.to_nat n) (drop (Z.to_nat src) buf)) = Z.to_nat n)
    by (rewrite length_take, length_drop; lia).
  rewrite Hl, !list_lookup_total_alt.
  assert (Ht : length (take (Z.to_nat dst) buf) = Z.to_nat dst) by (rewrite length_take; lia).
  destruct (Z.leb_spec dst j); cbn [andb].
  - rewrite lookup_app_r by lia. rewrite Ht. destruct (Z.ltb_spec j (dst + n)).
    + rewrite lookup_app_l by lia. rewrite lookup_take_lt by lia. rewrite lookup_drop. do 2 f_equal. lia.
    + rewrite lookup_app_r by lia. rewrite Hl, lookup_drop. do 2 f_equal. lia.
  - rewrite lookup_app_l by lia. by rewrite lookup_take_lt by lia.
Qed.

Definition move_cells (dst src n : Z) (d : line) : line :=
  d <| chars ::= fun l => moved l dst src n |> <| colors ::= fun l => moved l dst src n |>.

Definition fits (dst src n : Z) : Prop := 0 <= dst /\ 0 <= src /\ 0 <= n /\ dst + n <= 256 /\ src + n <= 256.

Lemma move_cells_ok dst src n d : line_ok d -> fits dst src n -> line_ok (move_cells dst src n d).
Proof. intros [Hc Hk Hl] (?&?&?&?&?). split; cbn; [rewrite length_moved; lia..|done]. Qed.

Lemma raw_move_cells dst src n j d :
  line_ok d -> fits dst src n -> 0 <= j ->
  raw (move_cells dst src n d) j =
  if (dst <=? j) && (j <? dst + n) then raw d (j - dst + src) else raw d j.
Proof.
  intros [Hc Hk _] (?&?&?&?&?) Hj. unfold raw. cbn.
  rewrite !lookup_moved by (rewrite ?Hc, ?Hk; lia). by destruct (_ && _).
Qed.

Section place2.
Context (s : screen_state) (p q n : option positive).
Notation acts := (acts s (p, q, n)).

(** Both rows of a line moved, and the line updated by [f]. *)
Lemma acts_move dst src m (f : line -> line) d :
  line_ok d -> fits dst src m -> (forall d, f (relink q n d) = relink q n (f d)) ->
  line_ok (f (move_cells dst src m d)) ->
  acts (chars' ← memmove (chars (relink q n d)) dst src m;
        colors' ← memmove (colors (relink q n d)) dst src m;
        assign p (f ((relink q n d) <| chars := chars' |> <| colors := colors' |>)))
       d (f (move_cells dst src m d)).
Proof.
  intros [Hc Hk _] (?&?&?&?&?) Hf Hok.
  eapply acts_pure.
  { intros b. apply memmove_at; try lia;
    change (chars (relink q n d)) with (chars d); lia. }
  eapply acts_pure.
  { intros b. apply memmove_at; try lia;
    change (colors (relink q n d)) with (colors d); lia. }
  change ((relink q n d) <| chars := moved (chars (relink q n d)) dst src m |>
            <| colors := moved (colors (relink q n d)) dst src m |>)
    with (relink q n (move_cells dst src m d)).
  rewrite Hf. by apply acts_assign.
Qed.
End place2.

(** ** Printing *)

Definition at_most_max (l : Z) : Z := if l <? Q_MAX_LINE_LENGTH then l + 1 else l.

Definition put_data (s : screen_state) (character : Z) (d : line) : line :=
  let x := cursor_x (q_status s) in
  let cell := fun _ : Z * Z => (character, q_current_color s) in
  if x <? line_length d then
    if insert_mode (q_status s)
    then (on_cell cell x (move_cells (x + 1) x (255 - x) d)) <| line_length := at_most_max (line_length d) |>
    else on_cell cell x d
  else (on_cell cell (line_length d) d) <| line_length := line_length d + 1 |>.

Lemma acts_put s character d :
  line_ok d -> 0 <= cursor_x (q_status s) < 256 ->
  (line_length d <= cursor_x (q_status s) -> line_length d < 256) ->
  acts_current s (put_cell character) d (put_data s character d).
Proof.
  intros Hok Hx Hl. unfold put_cell. apply (acts_at_current s (fun p => _)). intros p q n.
  pose proof (ok_length _ Hok) as Hlen. unfold put_data.
  apply acts_deref. intros _. apply acts_get. intros b.
  change (line_length (relink q n d)) with (line_length d).
  change (q_status (s <| buffer := b |>)) with (q_status s).
  change (q_current_color (s <| buffer := b |>)) with (q_current_color s).
  set (x := cursor_x (q_status s)) in *. cbn zeta. destruct (Z.ltb_spec x (line_length d)) as [Hlt|Hge].
  - destruct (insert_mode (q_status s)).
    + assert (Hfit : fits (x + 1) x (255 - x)) by (repeat split; lia).
      pose proof (move_cells_ok _ _ _ _ Hok Hfit) as Hok1.
      replace (Q_MAX_LINE_LENGTH - x - 1) with (255 - x) by (unfold Q_MAX_LINE_LENGTH; lia).
      assert (Hrest : acts s (p, q, n) (set_char p x character;; set_color p x (q_current_color s);;
          whenM (line_length d <? Q_MAX_LINE_LENGTH) (update p (fun l => l <| line_length ::= Z.succ |>)))
          (move_cells (x + 1) x (255 - x) d)
          ((on_cell (fun _ => (character, q_current_color s)) x (move_cells (x + 1) x (255 - x) d))
             <| line_length := at_most_max (line_length d) |>)).
      { eapply acts_seq; [apply acts_set_char; lia|]. eapply acts_seq; [apply acts_set_color; lia|].
        unfold at_most_max. destruct (Z.ltb_spec (line_length d) Q_MAX_LINE_LENGTH) as [Hm|Hm]; cbn [whenM].
        - eapply (acts_update_to s p q n (fun l => l <| line_length ::= Z.succ |>)); [reflexivity|done|].
          pose proof (on_cell_ok (fun _ => (character, q_current_color s)) x _ Hok1) as []. split; [done|done|]. cbn in *. unfold Q_MAX_LINE_LENGTH in Hm. lia.
        - apply acts_ret. }
      clear Hlen.
      eapply acts_pure.
      { intros b0. apply memmove_at; change (chars (relink q n d)) with (chars d); rewrite ?(ok_chars _ Hok); lia. }
      eapply acts_pure.
      { intros b0. apply memmove_at; change (colors (relink q n d)) with (colors d); rewrite ?(ok_colors _ Hok); lia. }
      eapply acts_seq; [|exact Hrest].
      exact (acts_assign s p q n d (move_cells (x + 1) x (255 - x) d) Hok1).
    + eapply acts_seq; [apply acts_set_color; lia|]. apply (acts_set_char s p q n x character). lia.
  - eapply acts_seq; [apply acts_set_color; lia|].
    eapply acts_seq; [apply (acts_set_char s p q n (line_length d) character); lia|].
    eapply (acts_update_to s p q n (fun l => l <| line_length ::= Z.succ |>)); [reflexivity|done|].
    pose proof (on_cell_ok (fun _ => (character, q_current_color s)) (line_length d) _ Hok) as [].
    split; [done|done|]. cbn in *. lia.
Qed.

(** ** Editing *)

Definition delete_data (x : Z) (d : line) : line :=
  (move_cells x (x + 1) (255 - x) d) <| line_length ::= fun n => if x <? n then n - 1 else n |>.

Lemma delete_data_ok x d : line_ok d -> 0 <= x < 256 -> line_ok (delete_data x d).
Proof.
  intros Hok Hx. pose proof (ok_length _ Hok). assert (Hfit : fits x (x + 1) (255 - x)) by (repeat split; lia).
  destruct (move_cells_ok _ _ _ _ Hok Hfit) as [H1 H2 _]. unfold delete_data. split; [done|done|]. cbn.
  destruct (Z.ltb_spec x (line_length d)); lia.
Qed.

Lemma acts_delete_one s d :
  line_ok d -> 0 <= cursor_x (q_status s) < 256 ->
  acts_current s delete_one d (delete_data (cursor_x (q_status s)) d).
Proof.
  intros Hok Hx. apply (acts_at_current s (fun p => _)). intros p q n.
  apply acts_deref. intros _. unfold status. apply acts_gets; [done|]. cbv beta.
  set (x := cursor_x (q_status s)) in *.
  replace (Q_MAX_LINE_LENGTH - x - 1) with (255 - x) by (unfold Q_MAX_LINE_LENGTH; lia).
  assert (Hfit : fits x (x + 1) (255 - x)) by (repeat split; lia).
  apply (acts_move s p q n x (x + 1) (255 - x)
           (fun l => l <| line_length ::= fun n => if x <? n then n - 1 else n |>)); [done..|].
  by apply delete_data_ok.
Qed.

Definition dirtied (d : line) : line := d <| dirty := true |>.

Lemma acts_mark_dirty s d : line_ok d -> acts_current s mark_current_dirty d (dirtied d).
Proof.
  intros Hok. apply (acts_at_current s (fun p => _)). intros p q n.
  apply (acts_update s p q n (fun l => l <| dirty := true |>)); [done|by intros []].
Qed.

Lemma acts_current_for s {A} (xs : list A) (m : SM unit) (g : line -> line) d :
  (forall d, line_ok d -> acts_current s m d (g d) /\ line_ok (g d)) -> line_ok d ->
  acts_current s (forM xs (fun _ => m)) d (Nat.iter (length xs) g d) /\ line_ok (Nat.iter (length xs) g d).
Proof.
  intros Hm. revert d. induction xs as [|x xs IH]; intros d Hok; [split; [apply acts_current_ret|done]|].
  destruct (Hm d Hok) as [H1 H2]. destruct (IH (g d) H2) as [H3 H4].
  cbn [length]. rewrite Nat.iter_succ_r. split; [|done]. cbn [forM]. by eapply acts_current_seq.
Qed.

Lemma acts_delete_character s count d :
  line_ok d -> 0 <= cursor_x (q_status s) < 256 ->
  let g := delete_data (cursor_x (q_status s)) in
  acts_current s (delete_character count) d (dirtied (Nat.iter (Z.to_nat count) g d)) /\
  line_ok (Nat.iter (Z.to_nat count) g d).
Proof.
  intros Hok Hx g.
  destruct (acts_current_for s (seqZ 0 (count - 0)) delete_one g d) as [H1 H2]; [|done|].
  { intros e He. split; [by apply acts_delete_one|by apply delete_data_ok]. }
  rewrite length_seqZ, Z.sub_0_r in H1, H2. split; [|done].
  unfold delete_character, for_up. rewrite Z.sub_0_r. eapply acts_current_seq; [exact H1|].
  by apply acts_mark_dirty.
Qed.

(** One blank of insert_blanks(): always at the cursor. *)
Definition blank_data (x color : Z) (d : line) : line :=
  (on_cell (fun _ => (32, color)) x d) <| line_length ::= at_most_max |>.

Lemma blank_data_ok x color d : line_ok d -> line_ok (blank_data x color d).
Proof.
  intros Hok. pose proof (on_cell_ok (fun _ => (32, color)) x _ Hok) as []. pose proof (ok_length _ Hok).
  split; [done|done|]. cbn. unfold at_most_max, Q_MAX_LINE_LENGTH.
  destruct (Z.ltb_spec (line_length d) 256); lia.
Qed.

Definition blanks_data (x count color : Z) (d : line) : line :=
  Nat.iter (Z.to_nat count) (blank_data x color) (move_cells (x + count) x (256 - x - count) d).
Definition insert_data (x count color : Z) (d : line) : line := dirtied (blanks_data x count color d).

Lemma iter_blank_ok x color k d : line_ok d -> line_ok (Nat.iter k (blank_data x color) d).
Proof.
  intros Hok. induction k as [|k IH]; [done|]. rewrite Nat.iter_succ. by apply blank_data_ok.
Qed.

Lemma acts_one_blank s p q n x color d :
  line_ok d -> 0 <= x < 256 ->
  acts s (p, q, n)
    (set_char p x 32;; set_color p x color;;
     update p (fun l => if line_length l <? Q_MAX_LINE_LENGTH then l <| line_length ::= Z.succ |> else l))
    d (blank_data x color d).
Proof.
  intros Hok Hx.
  eapply acts_seq; [apply acts_set_char; lia|]. eapply acts_seq; [apply acts_set_color; lia|].
  change (put_color x color (put_char x 32 d)) with (on_cell (fun _ => (32, color)) x d).
  assert (Hup : (if line_length (on_cell (fun _ => (32, color)) x d) <? Q_MAX_LINE_LENGTH
                 then (on_cell (fun _ => (32, color)) x d) <| line_length ::= Z.succ |>
                 else on_cell (fun _ => (32, color)) x d) = blank_data x color d).
  { unfold blank_data, at_most_max. change (line_length (on_cell _ x d)) with (line_length d).
    destruct (line_length d <? Q_MAX_LINE_LENGTH) eqn:E; unfold field_update; cbn; by rewrite E. }
  eapply acts_update_to; [exact Hup| |].
  - change (line_length (relink q n ?e)) with (line_length e). by destruct (line_length _ <? _).
  - rewrite Hup. by apply blank_data_ok.
Qed.

Lemma acts_insert_cells s count d :
  line_ok d -> 0 <= cursor_x (q_status s) < 256 -> 0 <= count -> cursor_x (q_status s) + count <= 256 ->
  acts_current s (insert_cells count) d (blanks_data (cursor_x (q_status s)) count (q_current_color s) d).
Proof.
  intros Hok Hx Hc Hxc. apply (acts_at_current s (fun p => _)). intros p q n.
  apply acts_deref. intros _. apply acts_get. intros b0.
  change (q_status (s <| buffer := b0 |>)) with (q_status s).
  change (q_current_color (s <| buffer := b0 |>)) with (q_current_color s).
  set (x := cursor_x (q_status s)) in *. set (color := q_current_color s). cbn zeta.
  assert (Hfit : fits (x + count) x (256 - x - count)) by (repeat split; lia).
  pose proof (move_cells_ok _ _ _ _ Hok Hfit) as Hok1.
  replace (Q_MAX_LINE_LENGTH - x - count) with (256 - x - count) by (unfold Q_MAX_LINE_LENGTH; lia).
  eapply acts_pure.
  { intros b. apply memmove_at; change (chars (relink q n d)) with (chars d); rewrite ?(ok_chars _ Hok); lia. }
  eapply acts_pure.
  { intros b. apply memmove_at; change (colors (relink q n d)) with (colors d); rewrite ?(ok_colors _ Hok); lia. }
  eapply acts_seq.
  { exact (acts_assign s p q n d (move_cells (x + count) x (256 - x - count) d) Hok1). }
  unfold for_up, blanks_data. rewrite Z.sub_0_r.
  replace (Z.to_nat count) with (length (seqZ 0 count)) by (by rewrite length_seqZ).
  revert Hok1. generalize (move_cells (x + count) x (256 - x - count) d) as e.
  induction (seqZ 0 count) as [|y xs IH]; intros e He; [apply acts_ret|].
  cbn [forM length]. rewrite Nat.iter_succ_r. eapply acts_seq; [by apply acts_one_blank|].
  by apply IH, blank_data_ok.
Qed.

Lemma insert_data_ok x count color d :
  line_ok d -> 0 <= x < 256 -> 0 <= count -> x + count <= 256 -> line_ok (insert_data x count color d).
Proof.
  intros Hok Hx Hc Hxc. assert (line_ok (blanks_data x count color d)) as []; [|by split].
  apply iter_blank_ok, move_cells_ok; [done|]. repeat split; lia.
Qed.

Lemma acts_insert_blanks s count d :
  line_ok d -> 0 <= cursor_x (q_status s) < 256 -> 0 <= count -> cursor_x (q_status s) + count <= 256 ->
  acts_current s (insert_blanks count) d (insert_data (cursor_x (q_status s)) count (q_current_color s) d).
Proof.
  intros Hok Hx Hc Hxc. unfold insert_blanks.
  eapply acts_current_seq; [by apply acts_insert_cells|]. apply acts_mark_dirty.
  apply iter_blank_ok, move_cells_ok; [done|]. repeat split; lia.
Qed.

(** ** Flags and lengths *)

Lemma acts_update_current s (f : line -> line) d :
  (forall q n, f (relink q n d) = relink q n (f d)) -> line_ok (f d) ->
  acts_current s (p ← pointer q_scrollback_current; update p f) d (f d).
Proof.
  intros Hf Hok. apply (acts_at_current s (fun p => _)). intros p q n.
  by apply acts_update_to.
Qed.

(** A blank after the end of the line, as cursor_right() writes it. *)
Definition extend_data (color : Z) (d : line) : line :=
  (on_cell (fun _ => (32, color)) (line_length d) d) <| line_length := line_length d + 1 |>.

Lemma extend_data_ok color d : line_ok d -> line_length d < 256 -> line_ok (extend_data color d).
Proof.
  intros Hok Hl. pose proof (ok_length _ Hok).
  pose proof (on_cell_ok (fun _ => (32, color)) (line_length d) _ Hok) as []. split; [done|done|]. cbn. lia.
Qed.

Lemma acts_extend s p q n color d :
  line_ok d -> line_length d < 256 ->
  acts s (p, q, n) (set_color p (line_length d) color;; set_char p (line_length d) 32;;
                    update p (fun l => l <| line_length ::= Z.succ |>)) d (extend_data color d).
Proof.
  intros Hok Hl. pose proof (ok_length _ Hok).
  eapply acts_seq; [apply acts_set_color; lia|]. eapply acts_seq; [apply acts_set_char; lia|].
  eapply (acts_update_to s p q n (fun l => l <| line_length ::= Z.succ |>)); [reflexivity|done|].
  exact (extend_data_ok color d Hok Hl).
Qed.


End ScreenLine.
End ScreenLine.
