(* ===== verification/ScreenSpec.v ===== *)
(** The screen as a list of lines: the drawing operations as functions on that list,
    the current line and the cursor. *)

From Stdlib Require Import ZArith Lia List Bool.
From stdpp Require Import base list numbers gmap.
From S2P Require Import Prelude Stdio States Colors Screen ScreenList ScreenState ScreenLine.
Import Colors Screen ScreenList ScreenState ScreenLine.

Module ScreenSpec.

Section ScreenSpec.
Context {C : Curses}.

(** ** What drawing leaves alone *)

Definition no_lines : scrollback :=
  {| store_of := ∅; brk := 1%positive; q_scrollback_buffer := None; q_scrollback_last := None;
     q_scrollback_current := None; q_scrollback_position := None |}.

(** The state without the lines, the cursor, the capture and the events. *)
Definition frame (s : screen_state) : screen_state :=
  s <| buffer := no_lines |> <| vt100_wrap_line_flag := false |> <| old_color := 0 |>
    <| capture_file := [] |> <| events := [] |>
    <| q_status ::= fun q => q <| scrollback_lines := 0 |> <| cursor_x := 0 |> <| cursor_y := 0 |>
                               <| capture_x := 0 |> <| capture_flush_time := 0 |> |>.

Lemma config_ok_frame s s' : config_ok s -> frame s' = frame s -> config_ok s'.
Proof.
  intros Hc Hf.
  assert (Hrows : rows s' = rows s) by (change (rows (frame s') = rows (frame s)); by rewrite Hf).
  split; rewrite ?Hrows.
  - apply Hc.
  - change (HEIGHT (frame s') < 2 ^ 31). rewrite Hf. apply Hc.
  - change (0 <= STATUS_HEIGHT (frame s')). rewrite Hf. apply Hc.
  - change (status_visible (q_status (frame s')) = false -> STATUS_HEIGHT (frame s') = 0). rewrite Hf. apply Hc.
  - change (1 <= WIDTH (frame s') <= 256). rewrite Hf. apply Hc.
  - change (q_emulation_right_margin (frame s') < 256). rewrite Hf. apply Hc.
  - change (rows s <= q_scrollback_max (frame s') < 2 ^ 31). rewrite Hf. apply Hc.
  - change (q_in_handle_resize (frame s') = false). rewrite Hf. apply Hc.
  - change (follows (q_program_state (frame s')) = true). rewrite Hf. apply Hc.
  - change (0 <= scroll_region_top (q_status (frame s'))). rewrite Hf. apply Hc.
  - change (scroll_region_top (q_status (frame s')) <= scroll_region_bottom (q_status (frame s')) < rows s).
    rewrite Hf. apply Hc.
  - change (0 <= PAIR_NUMBER (q_current_color (frame s')) < 64). rewrite Hf. apply Hc.
Qed.

Lemma config_drawn s b n : config_ok s -> config_ok (drawn s b n).
Proof. intros Hc. by apply (config_ok_frame s). Qed.

Lemma config_buffer s b : config_ok s -> config_ok (s <| buffer := b |>).
Proof. intros Hc. by apply (config_ok_frame s). Qed.

(** The lines of the buffer are [ds]; the current one is number [cur]. *)
Record shows (s : screen_state) (ds : list line) (cur : nat) : Prop := {
  sh_config : config_ok s;
  sh_holds : exists ls, holds (buffer s) ls ds cur;
  sh_lines : scrollback_lines (q_status s) = Z.of_nat (length ds);
  sh_max : Z.of_nat (length ds) <= q_scrollback_max s;
  sh_kept : scrollback_enabled (q_status s) = false -> (nrows s < length ds)%nat
}.

Lemma shows_cur s ds cur : shows s ds cur -> (cur < length ds)%nat.
Proof. intros [_ [ls H] _ _ _]. rewrite <- (holds_length _ _ _ _ H). by apply H. Qed.

Lemma shows_line s ds cur k d : shows s ds cur -> ds !! k = Some d -> line_ok d.
Proof.
  intros [_ [ls H] _ _ _] Hd. destruct (holds_address _ _ _ _ _ _ H Hd) as [a Ha].
  by destruct (holds_lines _ _ _ _ H _ _ _ Ha Hd).
Qed.

Lemma shows_current s ds cur : shows s ds cur -> exists d, ds !! cur = Some d /\ line_ok d.
Proof.
  intros H. destruct (ds !! cur) as [d|] eqn:Hd.
  - exists d. split; [done|]. by eapply shows_line.
  - apply lookup_ge_None in Hd. apply shows_cur in H. lia.
Qed.

(** A state with the same lines. *)
Lemma shows_frame s s' ds cur :
  shows s ds cur -> frame s' = frame s -> buffer s' = buffer s ->
  scrollback_lines (q_status s') = scrollback_lines (q_status s) -> shows s' ds cur.
Proof.
  intros [] Hf Hb Hl. split.
  - by apply (config_ok_frame s).
  - by rewrite Hb.
  - by rewrite Hl.
  - change (q_scrollback_max s') with (q_scrollback_max (frame s')). rewrite Hf. done.
  - change (scrollback_enabled (q_status (frame s')) = false -> (nrows (frame s') < length ds)%nat).
    rewrite Hf. done.
Qed.

(** A state in which only the buffer and the number of lines differ. *)
Lemma shows_drawn s ds cur b ls ds' cur' n :
  shows s ds cur -> holds b ls ds' cur' -> n = Z.of_nat (length ds') -> n <= q_scrollback_max s ->
  (scrollback_enabled (q_status s) = false -> (nrows s < length ds')%nat) ->
  shows (drawn s b n) ds' cur'.
Proof.
  intros [] Hb -> Hmax Hk. split; [by apply config_drawn|by exists ls|done..].
Qed.

Lemma shows_buffer s ds cur b ls ds' cur' :
  shows s ds cur -> holds b ls ds' cur' -> length ds' = length ds -> shows (s <| buffer := b |>) ds' cur'.
Proof.
  intros [] Hb Hl. split; [by apply config_buffer|by exists ls|by rewrite Hl..].
Qed.

Lemma buffer_same s : s <| buffer := buffer s |> = s.
Proof. by destruct s. Qed.

(** [m] on the current line of a screen. *)
Lemma wp_current s ds cur d d' m (Q : unit -> screen_state -> Prop) :
  shows s ds cur -> ds !! cur = Some d -> acts_current s m d d' ->
  (forall b, shows (s <| buffer := b |>) (<[cur := d']> ds) cur -> Q tt (s <| buffer := b |>)) ->
  wp m s Q.
Proof.
  intros H Hd Hm HQ. destruct (sh_holds _ _ _ H) as [ls Hls].
  destruct (Hm _ _ _ _ Hls Hd) as (b & E & Hb). rewrite buffer_same in E.
  apply (wp_done _ _ _ _ _ E). apply HQ.
  apply (shows_buffer s ds cur b ls); [done|done|by rewrite length_insert].
Qed.

(** ** New lines *)

Definition grow (s : screen_state) (ds : list line) : list line :=
  without (full s (length ds)) (pushed s (length ds)) ds ++ [blank s].

Lemma length_without {A} (c : bool) k (l : list A) :
  (k < length l)%nat -> length (without c k l) = (if c then pred (length l) else length l).
Proof. intros Hk. destruct c; cbn; [|done]. rewrite length_delete; [lia|]. by apply lookup_lt_is_Some. Qed.

Lemma pushed_lt s n : config_ok s -> (0 < n)%nat -> (pushed s n < n)%nat.
Proof.
  intros Hc Hn. pose proof (cfg_rows _ Hc). unfold pushed, nrows.
  destruct (scrollback_enabled _); lia.
Qed.

(** A screen that is not yet full of lines just gets longer. *)
Lemma not_full s ds cur : shows s ds cur -> (length ds < nrows s)%nat -> full s (length ds) = false.
Proof.
  intros H Hl. pose proof (sh_config _ _ _ H) as Hc. pose proof (cfg_rows _ Hc). pose proof (cfg_max _ Hc).
  unfold full. apply orb_false_intro.
  - apply Z.leb_gt. unfold nrows in Hl. lia.
  - destruct (scrollback_enabled (q_status s)) eqn:E; [done|].
    pose proof (sh_kept _ _ _ H E). lia.
Qed.

(** Appending a line keeps the addresses of the others; the current line must not be
    pushed out. *)
Lemma new_line_shows s ls ds cur :
  shows s ds cur -> holds (buffer s) ls ds cur ->
  (full s (length ds) = true -> cur <> pushed s (length ds)) ->
  exists b n, new_scrollback_line s = Done (tt, drawn s b n) /\
    holds b (without (full s (length ds)) (pushed s (length ds)) ls ++ [brk (buffer s)]) (grow s ds)
      (if full s (length ds) then if decide (cur < pushed s (length ds))%nat then cur else pred cur else cur) /\
    shows (drawn s b n) (grow s ds)
      (if full s (length ds) then if decide (cur < pushed s (length ds))%nat then cur else pred cur else cur).
Proof.
  intros H Hls Hcur. pose proof (sh_config _ _ _ H) as Hc.
  pose proof (holds_length _ _ _ _ Hls) as Hlen. pose proof (shows_cur _ _ _ H) as Hc0.
  destruct (new_line_spec s ls ds cur Hc Hls) as (b & E & Hb).
  - by rewrite Hlen, (sh_lines _ _ _ H).
  - rewrite Hlen. apply (sh_max _ _ _ H).
  - by rewrite Hlen.
  - intros He _. rewrite Hlen. by apply (sh_kept _ _ _ H).
  - rewrite Hlen in E, Hb. eexists b, _. split; [exact E|]. split; [exact Hb|].
    assert (Hg : length (grow s ds) = if full s (length ds) then length ds else S (length ds)).
    { unfold grow. rewrite length_app, length_without by (apply pushed_lt; [done|lia]).
      cbn. destruct (full s (length ds)); lia. }
    eapply (shows_drawn s ds cur); [done|exact Hb|by rewrite Hg| |].
    + pose proof (sh_max _ _ _ H). destruct (full s (length ds)) eqn:Ef; [lia|].
      unfold full in Ef. apply orb_false_iff in Ef as [Ef _]. apply Z.leb_gt in Ef. lia.
    + intros He. pose proof (sh_kept _ _ _ H He). rewrite Hg. destruct (full s (length ds)); lia.
Qed.

Lemma current_at s ls ds cur d :
  holds (buffer s) ls ds cur -> ds !! cur = Some d ->
  current s = Done (relink (before ls cur) (ls !! S cur) d, s).
Proof.
  intros H Hd. unfold current, pointer, gets, mbind, M_bind. rewrite (holds_current _ _ _ _ H).
  by destruct (holds_deref _ _ _ _ _ _ _ s H eq_refl Hd eq_refl) as [E _].
Qed.

Lemma is_null_at (ls : list positive) k : is_null (ls !! k) = negb (k <? length ls)%nat.
Proof.
  unfold is_null. f_equal. destruct (Nat.ltb_spec k (length ls)) as [Hk|Hk].
  - apply bool_decide_true. by apply lookup_lt_is_Some.
  - apply bool_decide_false. rewrite lookup_ge_None_2 by done. by intros [].
Qed.

Lemma length_grow s ds :
  config_ok s -> ds <> [] -> length (grow s ds) = if full s (length ds) then length ds else S (length ds).
Proof.
  intros Hc Hne. assert (0 < length ds)%nat by (destruct ds; [done|cbn; lia]).
  unfold grow. rewrite length_app, length_without by (apply pushed_lt; [done|lia]).
  cbn. destruct (full s (length ds)); lia.
Qed.

(** The line after the current one, appended when the current one is the last. *)
Definition advance (s : screen_state) (ds : list line) (cur : nat) : list line * nat :=
  if (S cur <? length ds)%nat then (ds, S cur) else (grow s ds, pred (length (grow s ds))).

Lemma last_not_pushed s ds cur :
  shows s ds cur -> full s (length ds) = true -> (length ds <= S cur)%nat -> (pushed s (length ds) < cur)%nat.
Proof.
  intros H Hf Hl. pose proof (sh_config _ _ _ H) as Hc. pose proof (cfg_rows _ Hc). pose proof (cfg_max _ Hc).
  unfold pushed. unfold full in Hf. unfold nrows in *. destruct (scrollback_enabled (q_status s)) eqn:E.
  - cbn [negb andb] in Hf. rewrite orb_false_r in Hf. apply Z.leb_le in Hf. lia.
  - pose proof (sh_kept _ _ _ H E). unfold nrows in *. lia.
Qed.

Lemma wp_to_next_line s ds cur (Q : unit -> screen_state -> Prop) :
  shows s ds cur ->
  (forall b n, shows (drawn s b n) (advance s ds cur).1 (advance s ds cur).2 -> Q tt (drawn s b n)) ->
  wp to_next_line s Q.
Proof.
  intros H HQ. destruct (sh_holds _ _ _ H) as [ls Hls]. destruct (shows_current _ _ _ H) as (d & Hd & Hok).
  pose proof (holds_length _ _ _ _ Hls) as Hlen. pose proof (shows_cur _ _ _ H) as Hcur.
  unfold to_next_line, advance in *.
  apply wp_bind. apply (wp_done _ _ _ _ _ (current_at _ _ _ _ _ Hls Hd)).
  change (next (relink ?q ?n d)) with n. rewrite is_null_at, Hlen.
  destruct (Nat.ltb_spec (S cur) (length ds)) as [Hlt|Hge]; cbn [negb whenM].
  - apply wp_bind, wp_ret, wp_bind. apply (wp_done _ _ _ _ _ (current_at _ _ _ _ _ Hls Hd)).
    change (next (relink ?q ?n d)) with n. apply wp_modify.
    pose proof (HQ ((buffer s) <| q_scrollback_current := ls !! S cur |>) (scrollback_lines (q_status s))) as HQ'.
    assert (E : drawn s ((buffer s) <| q_scrollback_current := ls !! S cur |>) (scrollback_lines (q_status s)) =
                s <| buffer ::= fun b => b <| q_scrollback_current := ls !! S cur |> |>) by by destruct s as [[]].
    rewrite E in HQ'. apply HQ'. rewrite <- E.
    eapply (shows_drawn s ds cur); [done| | |rewrite (sh_lines _ _ _ H); apply (sh_max _ _ _ H)|apply (sh_kept _ _ _ H)].
    + apply (holds_move _ _ _ _ (S cur) _ Hls eq_refl). apply lookup_lt_is_Some. lia.
    + apply (sh_lines _ _ _ H).
  - destruct (new_line_shows s ls ds cur H Hls) as (b & n & E & Hb & Hs).
    { intros Hf. pose proof (last_not_pushed _ _ _ H Hf Hge). lia. }
    apply wp_bind. apply (wp_done _ _ _ _ _ E). apply wp_bind.
    set (ls' := without _ _ ls ++ _) in *. set (cur' := if full s _ then _ else _) in *.
    pose proof (length_grow s ds (sh_config _ _ _ H) ltac:(by destruct ds)) as Hg.
    assert (Hcur' : S cur' = pred (length (grow s ds))).
    { rewrite Hg. unfold cur'. destruct (full s (length ds)) eqn:Ef; [|lia].
      pose proof (last_not_pushed _ _ _ H Ef Hge). rewrite decide_False by lia. lia. }
    destruct (shows_current _ _ _ Hs) as (d' & Hd' & _).
    assert (Hb' : holds (buffer (drawn s b n)) ls' (grow s ds) cur') by exact Hb.
    apply (wp_done _ _ _ _ _ (current_at _ _ _ _ _ Hb' Hd')).
    change (next (relink ?q ?n d')) with n. apply wp_modify.
    apply (HQ (b <| q_scrollback_current := ls' !! S cur' |>) n). cbn [fst snd]. rewrite <- Hcur'.
    eapply (shows_drawn s ds cur); [done| |by apply (sh_lines _ _ _ Hs)| |by apply (sh_kept _ _ _ Hs)].
    + apply (holds_move _ _ _ _ (S cur') _ Hb eq_refl). apply lookup_lt_is_Some.
      rewrite (holds_length _ _ _ _ Hb). lia.
    + pose proof (sh_max _ _ _ Hs) as Hm. rewrite <- (sh_lines _ _ _ Hs) in Hm. exact Hm.
Qed.

(** ** Rows of lines *)

(** The list, long enough for [m] lines. *)
Definition extend (s : screen_state) (ds : list line) (m : nat) : list line :=
  ds ++ replicate (m - length ds) (blank s).

(** [g] on the lines [k] to [k + m - 1]. *)
Definition on_range (g : line -> line) (k m : nat) (ds : list line) : list line :=
  imap (fun i d => if decide (k <= i < k + m)%nat then g d else d) ds.

Lemma extend_enough s ds m : (m <= length ds)%nat -> extend s ds m = ds.
Proof. intros Hm. unfold extend. replace (m - length ds)%nat with 0%nat by lia. apply app_nil_r. Qed.

Lemma length_extended s ds m : length (extend s ds m) = Nat.max (length ds) m.
Proof. unfold extend. rewrite length_app, length_replicate. lia. Qed.

Lemma extend_extend s ds m m' : (m <= m')%nat -> extend s (extend s ds m) m' = extend s ds m'.
Proof.
  intros Hm. unfold extend. rewrite <- app_assoc, <- replicate_add, length_app, length_replicate.
  do 2 f_equal. lia.
Qed.

Lemma extend_insert s ds m k d :
  (k < length ds)%nat -> extend s (<[k := d]> ds) m = <[k := d]> (extend s ds m).
Proof. intros Hk. unfold extend. rewrite length_insert. by rewrite insert_app_l. Qed.

Lemma length_on_range g k m ds : length (on_range g k m ds) = length ds.
Proof. apply length_imap. Qed.

Lemma lookup_on_range g k m ds i :
  on_range g k m ds !! i = (fun d => if decide (k <= i < k + m)%nat then g d else d) <$> ds !! i.
Proof. unfold on_range. by rewrite list_lookup_imap. Qed.

Lemma on_range_zero g k ds : on_range g k 0 ds = ds.
Proof.
  apply list_eq. intros i. rewrite lookup_on_range. destruct (ds !! i); [|done].
  unfold fmap, option_fmap, option_map. by rewrite decide_False by lia.
Qed.

Lemma on_range_step g k m ds d :
  ds !! k = Some d -> on_range g (S k) m (<[k := g d]> ds) = on_range g k (S m) ds.
Proof.
  intros Hd. apply list_eq. intros i. rewrite !lookup_on_range.
  destruct (decide (i = k)) as [->|Hne].
  - rewrite list_lookup_insert_eq by (by apply lookup_lt_Some in Hd). rewrite Hd.
    unfold fmap, option_fmap, option_map.
    rewrite decide_False by lia. by rewrite decide_True by lia.
  - rewrite list_lookup_insert_ne by done. destruct (ds !! i); [|done].
    unfold fmap, option_fmap, option_map.
    destruct (decide (S k <= i < S k + m)%nat), (decide (k <= i < k + S m)%nat); lia || done.
Qed.

Lemma grow_extend s ds cur :
  shows s ds cur -> (length ds < nrows s)%nat -> grow s ds = extend s ds (S (length ds)).
Proof.
  intros H Hl. unfold grow. rewrite (not_full _ _ _ H Hl). cbn [without].
  unfold extend. by replace (S (length ds) - length ds)%nat with 1%nat by lia.
Qed.

(** Appending a line to a buffer that does not fill the screen. *)
Lemma new_line_short s ls ds cur :
  shows s ds cur -> holds (buffer s) ls ds cur -> (length ds < nrows s)%nat ->
  exists b n a, new_scrollback_line s = Done (tt, drawn s b n) /\
    holds b (ls ++ [a]) (extend s ds (S (length ds))) cur /\
    shows (drawn s b n) (extend s ds (S (length ds))) cur.
Proof.
  intros H Hls Hl. pose proof (not_full _ _ _ H Hl) as Hf.
  destruct (new_line_shows s ls ds cur H Hls) as (b & n & E & Hb & Hs); [by rewrite Hf|].
  rewrite Hf in Hb, Hs. cbn [without] in Hb. rewrite (grow_extend _ _ _ H Hl) in Hb, Hs.
  by exists b, n, (brk (buffer s)).
Qed.

Lemma deref_line s ls ds cur k d :
  holds (buffer s) ls ds cur -> ds !! k = Some d ->
  deref (ls !! k) s = Done (relink (before ls k) (ls !! S k) d, s).
Proof.
  intros H Hd. by destruct (holds_deref _ _ _ _ _ _ _ s H eq_refl Hd eq_refl) as [E _].
Qed.

Lemma lookup_lt_nat {A} (l : list A) k : (k < length l)%nat -> exists d, l !! k = Some d.
Proof. intros Hk. by apply lookup_lt_is_Some in Hk. Qed.

(** The line below, appended when the screen has room for it. *)
Lemma next_line_exists s ls ds cur k d :
  shows s ds cur -> holds (buffer s) ls ds cur -> ds !! k = Some d ->
  (S k < Nat.max (length ds) (nrows s))%nat ->
  exists b n t, whenM (is_null (ls !! S k)) new_scrollback_line s = Done (tt, drawn s b n) /\
    holds b (ls ++ t) (extend s ds (S (S k))) cur /\ shows (drawn s b n) (extend s ds (S (S k))) cur /\
    deref (ls !! k) (drawn s b n) =
      Done (relink (before (ls ++ t) k) ((ls ++ t) !! S k) d, drawn s b n).
Proof.
  intros H Hls Hd Hk. pose proof (holds_length _ _ _ _ Hls) as Hlen.
  pose proof (lookup_lt_Some _ _ _ Hd) as Hkl. rewrite is_null_at, Hlen.
  destruct (Nat.ltb_spec (S k) (length ds)) as [Hlt|Hge]; cbn [negb whenM].
  - exists (buffer s), (scrollback_lines (q_status s)), []. rewrite drawn_same, app_nil_r, extend_enough by lia.
    split_and!; [done|done|done|by eapply deref_line].
  - assert (S k = length ds) as Heq by lia.
    destruct (new_line_short s ls ds cur H Hls) as (b & n & a & E & Hb & Hs); [lia|].
    exists b, n, [a]. rewrite Heq. split_and!; [done|done|done|].
    assert (Hd' : extend s ds (S (length ds)) !! k = Some d) by (unfold extend; by rewrite lookup_app_l by lia).
    pose proof (deref_line (drawn s b n) (ls ++ [a]) _ cur k d Hb Hd') as E2.
    rewrite lookup_app_l in E2 by lia. by rewrite Heq in E2.
Qed.

Lemma line_below_spec r : forall s ls ds cur k,
  shows s ds cur -> holds (buffer s) ls ds cur -> (k < length ds)%nat ->
  (k + r < Nat.max (length ds) (nrows s))%nat ->
  exists b n t, line_below r (ls !! k) s = Done ((ls ++ t) !! (k + r)%nat, drawn s b n) /\
    holds b (ls ++ t) (extend s ds (S (k + r))) cur /\ shows (drawn s b n) (extend s ds (S (k + r))) cur.
Proof.
  induction r as [|r IH]; intros s ls ds cur k H Hls Hk Hr.
  { exists (buffer s), (scrollback_lines (q_status s)), [].
    rewrite drawn_same, app_nil_r, Nat.add_0_r, extend_enough by lia. by split. }
  destruct (lookup_lt_nat ds k Hk) as [d Hd].
  destruct (next_line_exists s ls ds cur k d H Hls Hd) as (b & n & t & E & Hb & Hs & E2); [lia|].
  cbn [line_below]. rewrite (bind_done _ _ _ _ _ (deref_line _ _ _ _ _ _ Hls Hd)).
  change (next (relink ?q ?n d)) with n. rewrite (bind_done _ _ _ _ _ E), (bind_done _ _ _ _ _ E2).
  change (next (relink ?q ?n d)) with n.
  destruct (IH (drawn s b n) (ls ++ t) (extend s ds (S (S k))) cur (S k) Hs Hb) as (b' & n' & t' & E' & Hb' & Hs').
  - rewrite length_extended. lia.
  - rewrite length_extended. change (nrows (drawn s b n)) with (nrows s). lia.
  - exists b', n', (t ++ t'). rewrite drawn_drawn in E', Hs'. rewrite !app_assoc.
    change (extend (drawn s b n)) with (extend s) in Hb', Hs'.
    rewrite extend_extend in Hb', Hs' by lia. replace (S k + r)%nat with (k + S r)%nat in * by lia. done.
Qed.

Lemma seqZ_cons' i m : seqZ i (Z.of_nat (S m)) = i :: seqZ (i + 1) (Z.of_nat m).
Proof. rewrite seqZ_cons by lia. do 2 f_equal; lia. Qed.

(** Moving the current line of a screen. *)
Lemma set_current_at s ls ds cur k :
  shows s ds cur -> holds (buffer s) ls ds cur -> (k < length ds)%nat ->
  exists b, set_current (ls !! k) s = Done (tt, drawn s b (scrollback_lines (q_status s))) /\
    holds b ls ds k /\ shows (drawn s b (scrollback_lines (q_status s))) ds k.
Proof.
  intros H Hls Hk. exists ((buffer s) <| q_scrollback_current := ls !! k |>).
  assert (Hb : holds ((buffer s) <| q_scrollback_current := ls !! k |>) ls ds k).
  { apply (holds_move _ _ _ _ k _ Hls eq_refl). apply lookup_lt_is_Some.
    by rewrite (holds_length _ _ _ _ Hls). }
  split_and!; [by destruct s as [[]]|done|].
  eapply (shows_drawn s ds cur); [done|exact Hb|apply (sh_lines _ _ _ H)| |apply (sh_kept _ _ _ H)].
  rewrite (sh_lines _ _ _ H). apply (sh_max _ _ _ H).
Qed.

Lemma over_rows_spec f g s :
  (forall b n d, line_ok d -> acts_current (drawn s b n) f d (g d)) ->
  forall m b0 n0 ls ds cur k i last,
  shows (drawn s b0 n0) ds cur -> holds b0 ls ds cur -> (k < length ds)%nat ->
  (k + m <= Nat.max (length ds) (nrows s))%nat -> last = i + Z.of_nat m - 1 ->
  exists b n t cur', over_rows (seqZ i (Z.of_nat m)) last (ls !! k) f (drawn s b0 n0) = Done (tt, drawn s b n) /\
    holds b (ls ++ t) (on_range g k m (extend s ds (k + m))) cur' /\
    shows (drawn s b n) (on_range g k m (extend s ds (k + m))) cur'.
Proof.
  intros Hf. induction m as [|m IH]; intros b0 n0 ls ds cur k i last H Hls Hk Hm Hlast.
  { exists b0, n0, [], cur. rewrite app_nil_r, on_range_zero, Nat.add_0_r, extend_enough by lia. by split. }
  rewrite seqZ_cons'. cbn [over_rows].
  destruct (lookup_lt_nat ds k Hk) as [d Hd]. pose proof (shows_line _ _ _ _ _ H Hd) as Hok.
  destruct (set_current_at (drawn s b0 n0) ls ds cur k H Hls Hk) as (b1 & E1 & Hb1 & Hs1).
  rewrite drawn_drawn in E1, Hs1. rewrite (bind_done _ _ _ _ _ E1).
  change (scrollback_lines (q_status (drawn s b0 n0))) with n0 in *.
  destruct (Hf b1 n0 d Hok _ _ _ _ Hb1 Hd) as (b2 & E2 & Hb2).
  change ((drawn s b1 n0) <| buffer := b1 |>) with (drawn s b1 n0) in E2.
  change ((drawn s b1 n0) <| buffer := b2 |>) with (drawn s b2 n0) in E2.
  assert (Hs2 : shows (drawn s b2 n0) (<[k := g d]> ds) k).
  { apply (shows_buffer (drawn s b1 n0) ds k b2 ls); [done|done|by rewrite length_insert]. }
  rewrite (bind_done _ _ _ _ _ E2).
  assert (Hd2 : <[k := g d]> ds !! k = Some (g d)) by (by apply list_lookup_insert_eq).
  rewrite (bind_done _ _ _ _ _ (deref_line (drawn s b2 n0) ls _ _ _ _ Hb2 Hd2)).
  change (next (relink ?q ?n (g d))) with n.
  assert (Hstep : exists b3 n3 t, (whenM (is_null (ls !! S k) && (i <? last)) new_scrollback_line;;
      l ← deref (ls !! k); over_rows (seqZ (i + 1) (Z.of_nat m)) last (next l) f) (drawn s b2 n0) =
      over_rows (seqZ (i + 1) (Z.of_nat m)) last ((ls ++ t) !! S k) f (drawn s b3 n3) /\
      let ds3 := if (m =? 0)%nat then <[k := g d]> ds else extend s (<[k := g d]> ds) (S (S k)) in
      holds b3 (ls ++ t) ds3 k /\ shows (drawn s b3 n3) ds3 k).
  { destruct m as [|m].
    - exists b2, n0, []. rewrite app_nil_r. rewrite (proj2 (Z.ltb_ge i last)) by lia.
      rewrite andb_false_r. cbn [whenM Nat.eqb]. split; [|by split].
      rewrite (bind_done (mret tt) _ (drawn s b2 n0) tt (drawn s b2 n0) eq_refl).
      by rewrite (bind_done _ _ _ _ _ (deref_line (drawn s b2 n0) ls _ _ _ _ Hb2 Hd2)).
    - rewrite (proj2 (Z.ltb_lt i last)) by lia. rewrite andb_true_r. cbn [Nat.eqb].
      destruct (next_line_exists (drawn s b2 n0) ls _ k k (g d) Hs2 Hb2 Hd2) as (b3 & n3 & t & E3 & Hb3 & Hs3 & E4).
      { rewrite length_insert. change (nrows (drawn s b2 n0)) with (nrows s). lia. }
      rewrite drawn_drawn in E3, Hs3, E4. exists b3, n3, t.
      rewrite (bind_done _ _ _ _ _ E3), (bind_done _ _ _ _ _ E4). split; [done|]. by split. }
  destruct Hstep as (b3 & n3 & t & E3 & Hb3 & Hs3). rewrite E3. clear E3.
  destruct m as [|m].
  - cbn [Nat.eqb] in *. exists b3, n3, t, k. replace (k + 1)%nat with (S k) by lia.
    rewrite extend_enough by lia.
    rewrite <- (on_range_step g k 0 ds d Hd), on_range_zero. by split.
  - cbn [Nat.eqb] in *.
    destruct (IH b3 n3 (ls ++ t) _ k (S k) (i + 1) last Hs3 Hb3) as (b4 & n4 & t4 & cur4 & E4 & Hb4 & Hs4).
    + rewrite length_extended. lia.
    + rewrite length_extended, length_insert. lia.
    + lia.
    + exists b4, n4, (t ++ t4), cur4. rewrite app_assoc.
      assert (Heq : on_range g (S k) (S m) (extend s (extend s (<[k:=g d]> ds) (S (S k))) (S k + S m)) =
                    on_range g k (S (S m)) (extend s ds (k + S (S m)))).
      { rewrite extend_extend by lia. rewrite extend_insert by done.
        replace (S k + S m)%nat with (k + S (S m))%nat by lia.
        apply on_range_step. unfold extend. by rewrite lookup_app_l. }
      rewrite Heq in Hb4, Hs4. by split.
Qed.

Lemma find_top_at s ls ds cur :
  shows s ds cur -> holds (buffer s) ls ds cur ->
  find_top_scrollback_line s = Done (ls !! top_of s ds, s).
Proof.
  intros H Hls. pose proof (holds_length _ _ _ _ Hls) as Hlen. pose proof (shows_cur _ _ _ H).
  rewrite (find_top_spec s ls); [unfold top_of; by rewrite Hlen|apply H| | |apply Hls].
  - by eapply holds_reads.
  - intros ->. cbn in Hlen. lia.
Qed.

Lemma top_row_lt s ds cur r :
  shows s ds cur -> (r < nrows s)%nat -> (top_of s ds + r < Nat.max (length ds) (nrows s))%nat.
Proof. intros H Hr. pose proof (shows_cur _ _ _ H). unfold top_of. lia. Qed.

(** The operation [f] on the rows [start_row] to [end_row] of the screen. *)
Definition rows_data (s : screen_state) (g : line -> line) (start_row end_row : Z) (ds : list line) : list line :=
  on_range g (top_of s ds + Z.to_nat start_row) (Z.to_nat (end_row + 1 - start_row))
    (extend s ds (top_of s ds + Z.to_nat (end_row + 1))).

Lemma wp_on_rows s ds cur f g start_row end_row (Q : unit -> screen_state -> Prop) :
  shows s ds cur -> 0 <= start_row <= end_row -> end_row < rows s ->
  (forall b n d, line_ok d -> acts_current (drawn s b n) f d (g d)) ->
  (forall b n, shows (drawn s b n) (rows_data s g start_row end_row ds) cur -> Q tt (drawn s b n)) ->
  wp (on_rows start_row end_row f) s Q.
Proof.
  intros H Hrow Hend Hf HQ. destruct (sh_holds _ _ _ H) as [ls Hls].
  pose proof (holds_length _ _ _ _ Hls) as Hlen. pose proof (shows_cur _ _ _ H) as Hcur.
  pose proof (cfg_rows _ (sh_config _ _ _ H)) as HR.
  set (r0 := Z.to_nat start_row). set (m := Z.to_nat (end_row + 1 - start_row)).
  unfold on_rows, pointer. apply wp_bind, wp_gets, wp_bind.
  apply (wp_done _ _ _ _ _ (find_top_at _ _ _ _ H Hls)). apply wp_bind.
  pose proof (top_row_lt s ds cur r0 H ltac:(unfold r0, nrows; lia)) as Hr0.
  destruct (line_below_spec r0 s ls ds cur (top_of s ds) H Hls) as (b1 & n1 & t1 & E1 & Hb1 & Hs1).
  { unfold top_of, nrows. lia. } { done. }
  apply (wp_done _ _ _ _ _ E1). apply wp_bind.
  set (ds1 := extend s ds (S (top_of s ds + r0))) in *.
  destruct (over_rows_spec f g s Hf m b1 n1 (ls ++ t1) ds1 cur (top_of s ds + r0) start_row end_row Hs1 Hb1)
    as (b2 & n2 & t2 & cur2 & E2 & Hb2 & Hs2).
  { unfold ds1. rewrite length_extended. lia. }
  { unfold ds1. rewrite length_extended. unfold top_of, r0, m, nrows in *. lia. }
  { unfold m. lia. }
  rewrite <- Z2Nat.id with (n := end_row + 1 - start_row) by lia.
  apply (wp_done _ _ _ _ _ E2).
  assert (Hds : on_range g (top_of s ds + r0) m (extend s ds1 (top_of s ds + r0 + m)) =
                rows_data s g start_row end_row ds).
  { unfold rows_data, ds1. fold r0 m. rewrite extend_extend by (unfold m; lia). do 2 f_equal.
    unfold r0, m. lia. }
  rewrite Hds in Hb2, Hs2.
  assert (Hc2 : (cur < length (rows_data s g start_row end_row ds))%nat)
    by (unfold rows_data; rewrite length_on_range, length_extended; lia).
  destruct (set_current_at (drawn s b2 n2) ((ls ++ t1) ++ t2) _ cur2 cur Hs2 Hb2 Hc2) as (b3 & E3 & Hb3 & Hs3).
  rewrite (holds_current _ _ _ _ Hls).
  rewrite <- app_assoc, lookup_app_l in E3 by lia.
  apply (wp_done _ _ _ _ _ E3). by apply HQ.
Qed.

(** erase_screen() *)
Lemma wp_erase_screen s ds cur start_row start_col end_row end_col honor (Q : unit -> screen_state -> Prop) :
  shows s ds cur -> 0 <= start_row -> 0 <= start_col -> end_row < rows s -> end_col < 256 ->
  (forall b n, shows (drawn s b n)
     (if (end_row <? start_row) || (end_col <? start_col) then ds
      else rows_data s (fill_data s start_col end_col 32 honor) start_row end_row ds) cur -> Q tt (drawn s b n)) ->
  wp (erase_screen start_row start_col end_row end_col honor) s Q.
Proof.
  intros H Hr Hc Hr' Hc' HQ. unfold erase_screen.
  rewrite (proj2 (Z.ltb_ge start_row 0)), (proj2 (Z.ltb_ge start_col 0)) by lia. cbn [orb].
  destruct (Z.ltb_spec end_row start_row) as [Hlt|Hge].
  { rewrite !orb_true_r. cbn [orb] in *. apply wp_ret. rewrite <- (drawn_same s). apply HQ. by rewrite drawn_same. }
  destruct (Z.ltb_spec end_col start_col) as [Hlt|Hge'].
  { rewrite !orb_true_r. cbn [orb] in *. apply wp_ret. rewrite <- (drawn_same s). apply HQ. by rewrite drawn_same. }
  rewrite (proj2 (Z.ltb_ge end_row 0)), (proj2 (Z.ltb_ge end_col 0)) by lia. cbn [orb] in *.
  apply (wp_on_rows s ds cur _ (fill_data s start_col end_col 32 honor)); [done|lia|lia| |exact HQ].
  intros b n d Hok. unfold erase_line.
  change (fill_data s start_col) with (fill_data (drawn s b n) start_col).
  apply acts_fill; [done|lia|lia|].
  change (WIDTH (drawn s b n)) with (WIDTH s). apply (cfg_width _ (sh_config _ _ _ H)).
Qed.

End ScreenSpec.
End ScreenSpec.
