(* ===== verification/ScreenScroll.v ===== *)
(** Scrolling: the copies of rectangle_scroll_up() and rectangle_scroll_down() on the
    list of lines. *)

From Stdlib Require Import ZArith Lia List Bool.
From stdpp Require Import base list numbers gmap.
From S2P Require Import Prelude Stdio States Colors Screen ScreenList ScreenState ScreenLine ScreenSpec.
Import Colors Screen ScreenList ScreenState ScreenLine ScreenSpec.

Module ScreenScroll.

Section ScreenScroll.
Context {C : Curses}.

(** ** One line over another *)

Definition part (left right : Z) (l : list Z) : list Z :=
  take (Z.to_nat (right - left)) (drop (Z.to_nat left) l).

(** Cells [left] to [right - 1] of [m] over those of [d], with the length and the
    attributes of [m]. *)
Definition overlay (left right : Z) (d m : line) : line :=
  {| line_length := line_length m;
     colors := blit (colors d) (Z.to_nat left) (part left right (colors m));
     chars := blit (chars d) (Z.to_nat left) (part left right (chars m));
     next := next d; prev := prev d; dirty := true; double_width := double_width m;
     double_height := double_height m; reverse_color := reverse_color m |}.

Lemma length_part left right l :
  0 <= left <= right -> right <= Z.of_nat (length l) -> length (part left right l) = Z.to_nat (right - left).
Proof. intros. unfold part. rewrite length_take, length_drop. lia. Qed.

Lemma overlay_ok left right d m :
  line_ok d -> line_ok m -> 0 <= left <= right -> right <= 256 -> line_ok (overlay left right d m).
Proof.
  intros [Hc Hk _] [Hc' Hk' Hl'] H1 H2. split; cbn; [| |done].
  - rewrite length_blit; [done|]. rewrite length_part; lia.
  - rewrite length_blit; [done|]. rewrite length_part; lia.
Qed.

Lemma raw_overlay left right d m j :
  line_ok d -> line_ok m -> 0 <= left <= right -> right <= 256 -> 0 <= j ->
  raw (overlay left right d m) j = if (left <=? j) && (j <? right) then raw m j else raw d j.
Proof.
  intros [Hc Hk _] [Hc' Hk' _] H1 H2 Hj. unfold raw. cbn.
  assert (Hblit : forall l l' : list Z, length l = 256%nat -> length l' = 256%nat ->
    blit l (Z.to_nat left) (part left right l') !!! Z.to_nat j =
    if (left <=? j) && (j <? right) then l' !!! Z.to_nat j else l !!! Z.to_nat j).
  { intros l l' Hl Hl'. unfold blit. rewrite length_part by lia. rewrite !list_lookup_total_alt.
    assert (Ht : length (take (Z.to_nat left) l) = Z.to_nat left) by (rewrite length_take; lia).
    destruct (Z.leb_spec left j); cbn [andb].
    - rewrite lookup_app_r by lia. rewrite Ht. destruct (Z.ltb_spec j right).
      + rewrite lookup_app_l by (rewrite length_part; lia). unfold part.
        rewrite lookup_take_lt by lia. rewrite lookup_drop. do 2 f_equal. lia.
      + rewrite lookup_app_r by (rewrite length_part; lia). rewrite length_part, lookup_drop by lia.
        do 2 f_equal. lia.
    - rewrite lookup_app_l by lia. by rewrite lookup_take_lt by lia. }
  rewrite !Hblit by done. by destruct (_ && _).
Qed.

(** copy_line() on the list: the padding first, which the source sees when it is the
    same line. *)
Definition copy_step (con : Z) (left right : Z) (pad : line -> line -> bool) (i j : nat)
    (ds : list line) : list line :=
  match ds !! i, ds !! j with
  | Some d, Some m =>
    let ds1 := if pad d m then <[i := pad_data con right d]> ds else ds in
    match ds1 !! i, ds1 !! j with
    | Some d, Some m => <[i := overlay left right d m]> ds1
    | _, _ => ds1
    end
  | _, _ => ds
  end.

Lemma length_copy_step con left right pad i j ds : length (copy_step con left right pad i j ds) = length ds.
Proof.
  unfold copy_step. destruct (ds !! i) as [d|], (ds !! j) as [m|]; try done.
  set (ds1 := if pad d m then _ else ds).
  assert (Hl : length ds1 = length ds) by (unfold ds1; destruct (pad d m); by rewrite ?length_insert).
  cbn zeta. destruct (ds1 !! i), (ds1 !! j); by rewrite ?length_insert.
Qed.

Definition links_apart (pad : line -> line -> bool) : Prop :=
  forall p n p' n' d m, pad (relink p n d) (relink p' n' m) = pad d m.

Lemma memcpy_part l left right (l' : list Z) (t : screen_state) :
  length l = 256%nat -> length l' = 256%nat -> 0 <= left <= right -> right <= 256 ->
  memcpy l left (part left right l') t = Done (blit l (Z.to_nat left) (part left right l'), t).
Proof.
  intros Hl Hl' H1 H2. unfold memcpy. rewrite length_part by lia.
  by rewrite !(proj2 (Z.leb_le _ _)) by lia.
Qed.

Lemma copy_line_spec s ls ds cur left right pad i j :
  holds (buffer s) ls ds cur -> (i < length ds)%nat -> (j < length ds)%nat ->
  0 <= left <= right -> right <= 256 -> links_apart pad ->
  exists b, copy_line left right pad (ls !! i) (ls !! j) s = Done (tt, s <| buffer := b |>) /\
            holds b ls (copy_step (console s) left right pad i j ds) cur.
Proof.
  intros H Hi Hj Hlr Hr Hpad.
  destruct (lookup_lt_nat ds i Hi) as [d Hd]. destruct (lookup_lt_nat ds j Hj) as [m Hm].
  unfold copy_line, copy_step. rewrite Hd, Hm.
  rewrite (bind_done _ _ _ _ _ (deref_line _ _ _ _ _ _ H Hd)), (bind_done _ _ _ _ _ (deref_line _ _ _ _ _ _ H Hm)).
  rewrite Hpad.
  set (ds1 := if pad d m then <[i := pad_data (console s) right d]> ds else ds).
  assert (Hstep : exists b1, whenM (pad d m) (pad_line (ls !! i) right) s = Done (tt, s <| buffer := b1 |>) /\
    holds b1 ls ds1 cur).
  { unfold ds1. destruct (pad d m); cbn [whenM].
    - destruct (holds_deref _ _ _ _ _ _ _ s H eq_refl Hd eq_refl) as [_ Hok].
      pose proof (acts_pad_line s (ls !! i) (before ls i) (ls !! S i) right d Hok ltac:(lia)) as Ha.
      destruct (Ha _ _ _ _ i H) as (b1 & E1 & Hb1); [done|done|].
      rewrite buffer_same in E1. by exists b1.
    - exists (buffer s). by rewrite buffer_same. }
  destruct Hstep as (b1 & E1 & Hb1). rewrite (bind_done _ _ _ _ _ E1).
  assert (Hl1 : length ds1 = length ds) by (unfold ds1; destruct (pad d m); by rewrite ?length_insert).
  destruct (lookup_lt_nat ds1 i ltac:(lia)) as [d1 Hd1]. destruct (lookup_lt_nat ds1 j ltac:(lia)) as [m1 Hm1].
  rewrite Hd1, Hm1.
  destruct (holds_deref _ _ _ _ _ _ _ (s <| buffer := b1 |>) Hb1 eq_refl Hd1 (buffer_set s b1)) as [Ed Hokd].
  destruct (holds_deref _ _ _ _ _ _ _ (s <| buffer := b1 |>) Hb1 eq_refl Hm1 (buffer_set s b1)) as [Em Hokm].
  rewrite (bind_done _ _ _ _ _ Ed), (bind_done _ _ _ _ _ Em).
  change (chars (relink ?p ?n ?e)) with (chars e). change (colors (relink ?p ?n ?e)) with (colors e).
  rewrite !(proj2 (Z.leb_le _ _)) by (rewrite ?(ok_chars _ Hokm); lia). cbn [andb].
  fold (part left right (chars m1)). fold (part left right (colors m1)).
  rewrite (bind_done _ _ _ _ _ (memcpy_part (chars d1) left right (chars m1) (s <| buffer := b1 |>)
             (ok_chars _ Hokd) (ok_chars _ Hokm) Hlr Hr)).
  rewrite (bind_done _ _ _ _ _ (memcpy_part (colors d1) left right (colors m1) (s <| buffer := b1 |>)
             (ok_colors _ Hokd) (ok_colors _ Hokm) Hlr Hr)).
  pose proof (acts_assign s (ls !! i) (before ls i) (ls !! S i) d1 (overlay left right d1 m1)
                (overlay_ok _ _ _ _ Hokd Hokm Hlr Hr)) as Ha.
  destruct (Ha _ _ _ _ i Hb1) as (b2 & E2 & Hb2); [done|done|]. exists b2. by split.
Qed.

(** ** Rows up *)

Definition pad_up (d m : line) : bool := line_length d <? line_length m.
Definition pad_down (left : Z) (d m : line) : bool := line_length d <? left.

Fixpoint copy_up_data (con : Z) (left right : Z) (n i j : nat) (ds : list line) : list line :=
  match n with
  | O => ds
  | S n =>
    let ds := copy_step con left right pad_up i j ds in
    if (S j <? length ds)%nat then copy_up_data con left right n (S i) (S j) ds else ds
  end.

Lemma length_copy_up_data con left right n : forall i j ds, length (copy_up_data con left right n i j ds) = length ds.
Proof.
  induction n as [|n IH]; intros i j ds; [done|]. cbn [copy_up_data]. rewrite length_copy_step.
  destruct (_ <? _)%nat; by rewrite ?IH, length_copy_step.
Qed.

Lemma copy_up_spec left right n : forall s ls ds cur i j,
  holds (buffer s) ls ds cur -> (i < length ds)%nat -> (j < length ds)%nat -> (i <= j)%nat ->
  0 <= left <= right -> right <= 256 ->
  exists b, copy_up n left right (ls !! i) (ls !! j) s = Done (tt, s <| buffer := b |>) /\
            holds b ls (copy_up_data (console s) left right n i j ds) cur.
Proof.
  induction n as [|n IH]; intros s ls ds cur i j H Hi Hj Hij Hlr Hr.
  { exists (buffer s). by rewrite buffer_same. }
  cbn [copy_up copy_up_data].
  destruct (copy_line_spec s ls ds cur left right pad_up i j H Hi Hj Hlr Hr) as (b & E & Hb); [done|].
  change (fun d m : line => line_length d <? line_length m) with pad_up.
  rewrite (bind_done _ _ _ _ _ E).
  set (ds1 := copy_step (console s) left right pad_up i j ds) in *.
  assert (Hl1 : length ds1 = length ds) by apply length_copy_step.
  destruct (lookup_lt_nat ds1 i ltac:(lia)) as [d Hd]. destruct (lookup_lt_nat ds1 j ltac:(lia)) as [m Hm].
  destruct (holds_deref _ _ _ _ _ _ _ (s <| buffer := b |>) Hb eq_refl Hd (buffer_set s b)) as [Ed _].
  destruct (holds_deref _ _ _ _ _ _ _ (s <| buffer := b |>) Hb eq_refl Hm (buffer_set s b)) as [Em _].
  rewrite (bind_done _ _ _ _ _ Ed), (bind_done _ _ _ _ _ Em).
  change (next (relink ?p ?n ?e)) with n. rewrite is_null_at, (holds_length _ _ _ _ Hb).
  destruct (Nat.ltb_spec (S j) (length ds1)) as [Hlt|Hge]; cbn [negb].
  - pose proof (IH (s <| buffer := b |>) ls ds1 cur (S i) (S j)) as D.
    destruct (D Hb) as (b2 & E2 & Hb2); [lia..|].
    exists b2. split; [exact E2|exact Hb2].
  - exists b. by split.
Qed.

Lemma top_of_extend s ds m :
  (m <= Nat.max (length ds) (nrows s))%nat -> top_of s (extend s ds m) = top_of s ds.
Proof. intros Hm. unfold top_of. rewrite length_extended. lia. Qed.

Lemma top_of_length s (ds ds' : list line) : length ds' = length ds -> top_of s ds' = top_of s ds.
Proof. intros H. unfold top_of. by rewrite H. Qed.

Definition blank_rows (s : screen_state) (left right start_row end_row : Z) (ds : list line) : list line :=
  if (end_row <? start_row) || (right - 1 <? left) then ds
  else rows_data s (fill_data s left (right - 1) 32 false) start_row end_row ds.

(** rectangle_scroll_up() *)
Definition scroll_up_data (s : screen_state) (top left bottom right count : Z) (ds : list line) : list line :=
  if (bottom <=? top) || (right <=? left) then ds
  else if bottom + 1 - top <=? count then blank_rows s left right top bottom ds
  else
    let t := top_of s ds in
    let ds1 := extend s ds (S (t + Z.to_nat top + Z.to_nat count)) in
    let ds2 := copy_up_data (console s) left right (Z.to_nat (bottom + 1 - top - count))
                 (t + Z.to_nat top) (t + Z.to_nat top + Z.to_nat count) ds1 in
    blank_rows s left right (top + (bottom + 1 - top - count)) bottom ds2.

Lemma wp_blank_rows s ds cur left right start_row end_row (Q : unit -> screen_state -> Prop) :
  shows s ds cur -> 0 <= start_row -> 0 <= left -> end_row < rows s -> right <= 256 ->
  (forall b n, shows (drawn s b n) (blank_rows s left right start_row end_row ds) cur -> Q tt (drawn s b n)) ->
  wp (erase_screen start_row left end_row (right - 1) false) s Q.
Proof.
  intros H ? ? ? ? HQ. apply (wp_erase_screen s ds cur); [done|lia..|exact HQ].
Qed.

Lemma wp_rectangle_scroll_up s ds cur top left bottom right count (Q : unit -> screen_state -> Prop) :
  shows s ds cur -> 0 <= top -> bottom < rows s -> 0 <= left -> right <= 256 -> 0 <= count ->
  (forall b n, shows (drawn s b n) (scroll_up_data s top left bottom right count ds) cur -> Q tt (drawn s b n)) ->
  wp (rectangle_scroll_up top left bottom right count) s Q.
Proof.
  intros H Ht Hb Hl Hr Hc HQ. unfold rectangle_scroll_up, scroll_up_data in *.
  destruct (Z.leb_spec bottom top) as [Hbt|Hbt]; cbn [orb] in HQ.
  { apply wp_ret. rewrite <- (drawn_same s). apply HQ. by rewrite drawn_same. }
  destruct (Z.leb_spec right left) as [Hrl|Hrl].
  { apply wp_ret. rewrite <- (drawn_same s). apply HQ. by rewrite drawn_same. }
  destruct (Z.leb_spec (bottom + 1 - top) count) as [Hall|Hsome].
  { apply (wp_blank_rows s ds cur); [done|lia..|exact HQ]. }
  destruct (sh_holds _ _ _ H) as [ls Hls]. pose proof (holds_length _ _ _ _ Hls) as Hlen.
  pose proof (shows_cur _ _ _ H) as Hcur. set (t := top_of s ds) in *.
  assert (HR : nrows s = Z.to_nat (rows s)) by done. assert (Htt : t = (length ds - nrows s)%nat) by done.
  apply wp_bind, (wp_done _ _ _ _ _ (find_top_at _ _ _ _ H Hls)), wp_bind. fold t.
  destruct (line_below_spec (Z.to_nat top) s ls ds cur t H Hls) as (b1 & n1 & t1 & E1 & Hb1 & Hs1); [lia..|].
  apply (wp_done _ _ _ _ _ E1), wp_bind.
  set (ds1 := extend s ds (S (t + Z.to_nat top))) in *.
  assert (Hl1 : length ds1 = Nat.max (length ds) (S (t + Z.to_nat top))) by apply length_extended.
  destruct (line_below_spec (Z.to_nat count) (drawn s b1 n1) (ls ++ t1) ds1 cur (t + Z.to_nat top) Hs1 Hb1)
    as (b2 & n2 & t2 & E2 & Hb2 & Hs2).
  { lia. } { change (nrows (drawn s b1 n1)) with (nrows s). lia. }
  apply (wp_done _ _ _ _ _ E2). clear E1 E2.
  assert (Hls1 : length (ls ++ t1) = length ds1) by apply (holds_length _ _ _ _ Hb1). clear Hb1 Hs1.
  change (extend (drawn s b1 n1)) with (extend s) in Hb2, Hs2.
  unfold ds1 in Hb2, Hs2. rewrite extend_extend in Hb2, Hs2 by lia.
  rewrite drawn_drawn in Hs2 |- *. apply wp_bind. cbv zeta.
  rewrite <- (lookup_app_l (ls ++ t1) t2 (t + Z.to_nat top)) by lia.
  set (ds2 := extend s ds (S (t + Z.to_nat top + Z.to_nat count))) in *.
  assert (Hl2 : length ds2 = Nat.max (length ds) (S (t + Z.to_nat top + Z.to_nat count))) by apply length_extended.
  destruct (copy_up_spec left right (Z.to_nat (bottom + 1 - top - count)) (drawn s b2 n2) ((ls ++ t1) ++ t2) ds2 cur
              (t + Z.to_nat top) (t + Z.to_nat top + Z.to_nat count) Hb2) as (b3 & E3 & Hb3); [lia..|].
  apply (wp_done _ _ _ _ _ E3).
  change ((drawn s b2 n2) <| buffer := b3 |>) with (drawn s b3 n2).
  change (console (drawn s b2 n2)) with (console s) in Hb3.
  set (ds3 := copy_up_data _ _ _ _ _ _ ds2) in *.
  assert (Hl3 : length ds3 = length ds2) by apply length_copy_up_data.
  assert (Hs3 : shows (drawn s b3 n2) ds3 cur) by (apply (shows_buffer (drawn s b2 n2) ds2 cur b3 _ ds3 cur Hs2 Hb3 Hl3)).
  apply (wp_blank_rows (drawn s b3 n2) ds3 cur); [done|lia|lia|done|lia|].
  intros b n Hs. rewrite drawn_drawn in Hs |- *. apply HQ. exact Hs.
Qed.


(** ** Rows down *)

Fixpoint copy_down_data (con left right : Z) (n i j : nat) (ds : list line) : list line :=
  match n with
  | O => ds
  | S n => copy_down_data con left right n (pred i) (pred j) (copy_step con left right (pad_down left) i j ds)
  end.

Lemma length_copy_down_data con left right n :
  forall i j ds, length (copy_down_data con left right n i j ds) = length ds.
Proof.
  induction n as [|n IH]; intros i j ds; [done|]. cbn [copy_down_data]. by rewrite IH, length_copy_step.
Qed.

Lemma copy_down_spec left right n : forall s ls ds cur i j p q,
  holds (buffer s) ls ds cur -> (i < length ds)%nat -> (j <= i)%nat -> (n <= S j)%nat ->
  0 <= left <= right -> right <= 256 -> ((0 < n)%nat -> p = ls !! i /\ q = ls !! j) ->
  exists b, copy_down n left right p q s = Done (tt, s <| buffer := b |>) /\
            holds b ls (copy_down_data (console s) left right n i j ds) cur.
Proof.
  induction n as [|n IH]; intros s ls ds cur i j p q H Hi Hij Hn Hlr Hr Hpq.
  { exists (buffer s). by rewrite buffer_same. }
  cbn [copy_down copy_down_data]. destruct Hpq as [-> ->]; [lia|].
  destruct (copy_line_spec s ls ds cur left right (pad_down left) i j H Hi) as (b & E & Hb); [lia|lia|lia|done|].
  change (fun d _ : line => line_length d <? left) with (pad_down left).
  rewrite (bind_done _ _ _ _ _ E).
  set (ds1 := copy_step _ _ _ _ i j ds) in *.
  assert (Hl1 : length ds1 = length ds) by apply length_copy_step.
  destruct (lookup_lt_nat ds1 i ltac:(lia)) as [d Hd]. destruct (lookup_lt_nat ds1 j ltac:(lia)) as [m Hm].
  destruct (holds_deref _ _ _ _ _ _ _ (s <| buffer := b |>) Hb eq_refl Hd (buffer_set s b)) as [Ed _].
  destruct (holds_deref _ _ _ _ _ _ _ (s <| buffer := b |>) Hb eq_refl Hm (buffer_set s b)) as [Em _].
  rewrite (bind_done _ _ _ _ _ Ed), (bind_done _ _ _ _ _ Em).
  change (prev (relink ?p ?n ?e)) with p.
  pose proof (IH (s <| buffer := b |>) ls ds1 cur (pred i) (pred j) (before ls i) (before ls j)) as D.
  destruct (D Hb) as (b2 & E2 & Hb2); [lia..| |].
  { intros Hpos. destruct i, j; [lia..|done]. }
  exists b2. split; [exact E2|exact Hb2].
Qed.

Lemma line_above_spec r : forall s ls ds cur k,
  holds (buffer s) ls ds cur -> (k < length ds)%nat -> (r <= k)%nat ->
  line_above r (ls !! k) s = Done (ls !! (k - r)%nat, s).
Proof.
  induction r as [|r IH]; intros s ls ds cur k H Hk Hr; [by rewrite Nat.sub_0_r|].
  destruct (lookup_lt_nat ds k Hk) as [d Hd]. cbn [line_above].
  pose proof (deref_line _ _ _ _ _ _ H Hd) as E. rewrite (bind_done _ _ _ _ _ E).
  change (prev (relink ?p ?n ?e)) with p. destruct k as [|k]; [lia|]. cbn [before].
  rewrite is_null_at, (holds_length _ _ _ _ H), (proj2 (Nat.ltb_lt k (length ds))) by lia.
  cbn [negb whenM]. rewrite (bind_done (mret tt) _ s tt s eq_refl), (bind_done _ _ _ _ _ E).
  change (prev (relink ?p ?n ?e)) with p. cbn [before]. rewrite (IH s ls ds cur k H) by lia.
  by rewrite Nat.sub_succ.
Qed.

(** rectangle_scroll_down() *)
Definition scroll_down_data (s : screen_state) (top left bottom right count : Z) (ds : list line) : list line :=
  if (bottom <=? top) || (right <=? left) then ds
  else if bottom + 1 - top <=? count then blank_rows s left right top bottom ds
  else
    let t := top_of s ds in
    let ds1 := extend s ds (S (t + Z.to_nat bottom)) in
    let ds2 := copy_down_data (console s) left right (Z.to_nat (bottom + 1 - top - count))
                 (t + Z.to_nat bottom) (t + Z.to_nat bottom - Z.to_nat count) ds1 in
    blank_rows s left right top (top + count - 1) ds2.

Lemma wp_rectangle_scroll_down s ds cur top left bottom right count (Q : unit -> screen_state -> Prop) :
  shows s ds cur -> 0 <= top -> bottom < rows s -> 0 <= left -> right <= 256 -> 0 <= count ->
  (forall b n, shows (drawn s b n) (scroll_down_data s top left bottom right count ds) cur -> Q tt (drawn s b n)) ->
  wp (rectangle_scroll_down top left bottom right count) s Q.
Proof.
  intros H Ht Hb Hl Hr Hc HQ. unfold rectangle_scroll_down, scroll_down_data in *.
  destruct (Z.leb_spec bottom top) as [Hbt|Hbt]; cbn [orb] in HQ.
  { apply wp_ret. rewrite <- (drawn_same s). apply HQ. by rewrite drawn_same. }
  destruct (Z.leb_spec right left) as [Hrl|Hrl].
  { apply wp_ret. rewrite <- (drawn_same s). apply HQ. by rewrite drawn_same. }
  destruct (Z.leb_spec (bottom + 1 - top) count) as [Hall|Hsome].
  { apply (wp_blank_rows s ds cur); [done|lia..|exact HQ]. }
  destruct (sh_holds _ _ _ H) as [ls Hls]. pose proof (holds_length _ _ _ _ Hls) as Hlen.
  pose proof (shows_cur _ _ _ H) as Hcur. set (t := top_of s ds) in *.
  assert (HR : nrows s = Z.to_nat (rows s)) by done. assert (Htt : t = (length ds - nrows s)%nat) by done.
  apply wp_bind, (wp_done _ _ _ _ _ (find_top_at _ _ _ _ H Hls)), wp_bind. fold t.
  destruct (line_below_spec (Z.to_nat bottom) s ls ds cur t H Hls) as (b1 & n1 & t1 & E1 & Hb1 & Hs1); [lia..|].
  apply (wp_done _ _ _ _ _ E1), wp_bind. clear E1.
  set (ds1 := extend s ds (S (t + Z.to_nat bottom))) in *.
  assert (Hl1 : length ds1 = Nat.max (length ds) (S (t + Z.to_nat bottom))) by apply length_extended.
  pose proof (line_above_spec (Z.to_nat count) (drawn s b1 n1) (ls ++ t1) ds1 cur (t + Z.to_nat bottom) Hb1) as E2.
  specialize (E2 ltac:(lia) ltac:(lia)). apply (wp_done _ _ _ _ _ E2), wp_bind. clear E2. cbv zeta.
  pose proof (copy_down_spec left right (Z.to_nat (bottom + 1 - top - count)) (drawn s b1 n1) (ls ++ t1) ds1 cur
    (t + Z.to_nat bottom) (t + Z.to_nat bottom - Z.to_nat count) ((ls ++ t1) !! (t + Z.to_nat bottom)%nat)
    ((ls ++ t1) !! (t + Z.to_nat bottom - Z.to_nat count)%nat) Hb1) as D.
  destruct D as (b3 & E3 & Hb3); [lia..|done|].
  apply (wp_done _ _ _ _ _ E3).
  change ((drawn s b1 n1) <| buffer := b3 |>) with (drawn s b3 n1).
  change (console (drawn s b1 n1)) with (console s) in Hb3.
  set (ds3 := copy_down_data _ _ _ _ _ _ ds1) in *.
  assert (Hl3 : length ds3 = length ds1) by apply length_copy_down_data.
  assert (Hs3 : shows (drawn s b3 n1) ds3 cur) by (apply (shows_buffer (drawn s b1 n1) ds1 cur b3 _ ds3 cur Hs1 Hb3 Hl3)).
  apply (wp_blank_rows (drawn s b3 n1) ds3 cur); [done|lia|lia| |lia|].
  { change (top + count - 1 < rows s). lia. }
  intros b n Hs. rewrite drawn_drawn in Hs |- *. apply HQ. exact Hs.
Qed.

End ScreenScroll.
End ScreenScroll.
