(* ===== verification/ScreenCursor.v ===== *)
(** The cursor on the screen: the current line is always the one in the row of the
    cursor, through motions, line ends and printing. *)

From Stdlib Require Import ZArith Lia List Bool.
From stdpp Require Import base list numbers gmap strings pretty.
From S2P Require Import Prelude Stdio States Colors Screen ScreenList ScreenState ScreenLine ScreenSpec ScreenScroll.
Import Colors Screen ScreenList ScreenState ScreenLine ScreenSpec ScreenScroll.

Module ScreenCursor.

Section ScreenCursor.
Context {C : Curses}.

(** ** What goes to the capture and to the scripts *)

(** Nothing that is drawn or that drawing depends on changed. *)
Record silent (s s' : screen_state) : Prop := {
  silent_frame : frame s' = frame s;
  silent_buffer : buffer s' = buffer s;
  silent_lines : scrollback_lines (q_status s') = scrollback_lines (q_status s);
  silent_x : cursor_x (q_status s') = cursor_x (q_status s);
  silent_y : cursor_y (q_status s') = cursor_y (q_status s);
  silent_wrap : vt100_wrap_line_flag s' = vt100_wrap_line_flag s
}.

Lemma silent_refl s : silent s s.
Proof. done. Qed.

Lemma silent_trans s s' s'' : silent s s' -> silent s' s'' -> silent s s''.
Proof. intros [] []. split; congruence. Qed.

(** [m] only writes to the capture or tells a script. *)
Definition quiet {A} (m : SM A) (s : screen_state) : Prop := wp m s (fun _ s' => silent s s').

Lemma quiet_use {A} (m : SM A) s (Q : A -> screen_state -> Prop) :
  quiet m s -> (forall a s', silent s s' -> Q a s') -> wp m s Q.
Proof. intros Hm HQ. eapply wp_mono; [exact Hm|]. auto. Qed.

Lemma quiet_bind {A B} (m : SM A) (k : A -> SM B) s :
  quiet m s -> (forall a s', silent s s' -> quiet (k a) s') -> quiet (m ≫= k) s.
Proof.
  intros Hm Hk. apply wp_bind. eapply wp_mono; [exact Hm|]. intros a s' Hs.
  eapply wp_mono; [exact (Hk a s' Hs)|]. intros b s'' Hs'. exact (silent_trans _ _ _ Hs Hs').
Qed.

Lemma silently_ret {A} (a : A) s : quiet (mret a) s.
Proof. apply wp_ret, silent_refl. Qed.

Lemma silently_gets {A} (f : screen_state -> A) s : quiet (gets f) s.
Proof. apply wp_gets, silent_refl. Qed.

Lemma quiet_modify (f : screen_state -> screen_state) s : silent s (f s) -> quiet (modify f) s.
Proof. intros H. apply wp_modify, H. Qed.

Lemma silently_gets_bind {A B} (f : screen_state -> A) (k : A -> SM B) s : quiet (k (f s)) s -> quiet (gets f ≫= k) s.
Proof. done. Qed.

Lemma quiet_get_bind {B} (k : screen_state -> SM B) s : quiet (k s) s -> quiet (get ≫= k) s.
Proof. done. Qed.

Lemma silently_when (b : bool) (m : SM unit) s : (b = true -> quiet m s) -> quiet (whenM b m) s.
Proof. destruct b; cbn; [auto|]. intros _. apply (silently_ret tt). Qed.

Lemma quiet_forM {A} (xs : list A) (f : A -> SM unit) s :
  (forall x s', silent s s' -> quiet (f x) s') -> quiet (forM xs f) s.
Proof.
  revert s. induction xs as [|x xs IH]; intros s Hf; [apply (silently_ret tt)|]. cbn.
  apply quiet_bind; [by apply Hf, silent_refl|]. intros _ s' Hs. apply IH.
  intros y s'' Hs'. apply Hf. exact (silent_trans _ _ _ Hs Hs').
Qed.

Ltac quiet_step :=
  match goal with
  | |- quiet (gets _ ≫= _) _ => apply silently_gets_bind
  | |- quiet (status _ ≫= _) _ => apply silently_gets_bind
  | |- quiet (get ≫= _) _ => apply quiet_get_bind
  | |- quiet (_ ≫= _) _ => apply quiet_bind; [|intros]
  | |- quiet (mret _) _ => apply silently_ret
  | |- quiet (gets _) _ => apply silently_gets
  | |- quiet (status _) _ => apply silently_gets
  | |- quiet (whenM _ _) _ => apply silently_when; intros
  | |- quiet (modify _) _ => apply quiet_modify; done
  | |- quiet (on_status _) _ => apply quiet_modify; done
  | |- quiet (fprintf _) _ => apply quiet_modify; done
  | |- quiet (fprintf_lc _) _ => apply quiet_modify; done
  | |- quiet (emit _) _ => apply quiet_modify; done
  | |- quiet (if ?b then _ else _) _ => destruct b
  | |- quiet get _ => exact (wp_get _ _ (silent_refl _))
  end.
Ltac quiet := repeat quiet_step.

Lemma capture_flush_quiet s : quiet capture_flush s.
Proof. unfold capture_flush. quiet. Qed.

Lemma capture_newline_quiet s : quiet capture_newline s.
Proof. unfold capture_newline, captures. quiet. Qed.

Lemma capture_line_end_quiet s : quiet capture_line_end s.
Proof.
  unfold capture_line_end. quiet; [apply capture_newline_quiet|apply capture_flush_quiet].
Qed.

(** What cursor_linefeed() writes to the capture. *)
Lemma capture_feed_quiet s :
  quiet (whenM (capture (q_status s)) (capture_newline;;
     s ← get; whenM (negb (capture_flush_time (q_status s) =? now s)) capture_flush)) s.
Proof. quiet; [apply capture_newline_quiet|apply capture_flush_quiet]. Qed.

Lemma tell_script_quiet c s : quiet (tell_script c) s.
Proof. unfold tell_script. quiet. Qed.

Lemma html_color_quiet (map : list string) i s :
  length map = 8%nat -> 0 <= i < 8 -> quiet (html_color map i) s.
Proof.
  intros Hm Hi. unfold html_color. rewrite (proj2 (Z.ltb_ge i 0)) by lia.
  destruct (map !! Z.to_nat i) eqn:E; [apply silently_ret|]. apply lookup_ge_None in E. lia.
Qed.

Lemma color_to_html_quiet attr s : 0 <= PAIR_NUMBER attr < 64 -> quiet (color_to_html attr) s.
Proof.
  intros Hp. unfold color_to_html.
  assert (Hfg : 0 <= i16 (Z.shiftr (PAIR_NUMBER attr) 3) < 8).
  { rewrite Z.shiftr_div_pow2 by lia. change (2 ^ 3) with 8.
    assert (0 <= PAIR_NUMBER attr / 8 < 8) by (split; [apply Z.div_pos; lia|apply Z.div_lt_upper_bound; lia]).
    unfold i16. rewrite Z.mod_small by lia. lia. }
  assert (Hbg : 0 <= i16 (Z.land (PAIR_NUMBER attr) 7) < 8).
  { change 7 with (Z.ones 3). rewrite Z.land_ones by lia.
    pose proof (Z.mod_pos_bound (PAIR_NUMBER attr) (2 ^ 3) ltac:(lia)).
    unfold i16. rewrite Z.mod_small by lia. lia. }
  assert (Hmap : length (if has attr A_BOLD then bitmask_to_html_map_bright else bitmask_to_html_map) = 8%nat)
    by by destruct (has attr A_BOLD).
  quiet; try (by apply html_color_quiet). by destruct a.
Qed.

Lemma config_silent s s' : config_ok s -> silent s s' -> config_ok s'.
Proof. intros Hc Hs. apply (config_ok_frame s); [done|apply Hs]. Qed.

Lemma capture_html_quiet changed c s : config_ok s -> quiet (capture_html changed c) s.
Proof.
  intros Hc. unfold capture_html. quiet. apply color_to_html_quiet, Hc.
Qed.

(** Reading the current line. *)
Lemma current_quiet s ds cur : shows s ds cur -> quiet current s.
Proof.
  intros H. destruct (sh_holds _ _ _ H) as [ls Hls]. destruct (shows_current _ _ _ H) as (d & Hd & _).
  unfold quiet. apply (wp_done _ _ _ _ _ (current_at _ _ _ _ _ Hls Hd)). apply silent_refl.
Qed.

Lemma shows_silent s s' ds cur : shows s ds cur -> silent s s' -> shows s' ds cur.
Proof. intros H []. by apply (shows_frame s). Qed.

Lemma capture_character_quiet changed c s ds cur : shows s ds cur -> quiet (capture_character changed c) s.
Proof.
  intros H. pose proof (sh_config _ _ _ H) as Hc. unfold capture_character.
  quiet; eauto 10 using config_silent, capture_html_quiet, capture_flush_quiet, current_quiet.
  all: try (unfold captures, capture_double; quiet).
  all: try (apply quiet_forM; intros; quiet).
Qed.

(** ** The cursor on its line *)

Definition row_index (s : screen_state) (ds : list line) : nat :=
  (top_of s ds + Z.to_nat (cursor_y (q_status s)))%nat.

(** The lines of the buffer are [ds], and the current line is the one in the row of
    the cursor. *)
Record on_screen (s : screen_state) (ds : list line) : Prop := {
  os_shows : shows s ds (row_index s ds);
  os_y : 0 <= cursor_y (q_status s) < rows s;
  os_x : 0 <= cursor_x (q_status s) < 256
}.

(** A drawing operation from [s] came to [s'], with lines [ds], cursor [(x, y)] and
    wrap flag [w]. *)
Record reaches (s s' : screen_state) (ds : list line) (x y : Z) (w : bool) : Prop := {
  re_frame : frame s' = frame s;
  re_screen : on_screen s' ds;
  re_x : cursor_x (q_status s') = x;
  re_y : cursor_y (q_status s') = y;
  re_wrap : vt100_wrap_line_flag s' = w
}.

Lemma rows_frame s s' : frame s' = frame s -> rows s' = rows s.
Proof. intros Hf. change (rows (frame s') = rows (frame s)). by rewrite Hf. Qed.

Lemma nrows_frame s s' : frame s' = frame s -> nrows s' = nrows s.
Proof. intros Hf. unfold nrows. by rewrite (rows_frame _ _ Hf). Qed.

Lemma top_of_frame {A} s s' (ds : list A) : frame s' = frame s -> top_of s' ds = top_of s ds.
Proof. intros Hf. unfold top_of. by rewrite (nrows_frame _ _ Hf). Qed.

Lemma os_config s ds : on_screen s ds -> config_ok s.
Proof. intros H. apply (sh_config _ _ _ (os_shows _ _ H)). Qed.

Lemma reaches_refl s ds :
  on_screen s ds ->
  reaches s s ds (cursor_x (q_status s)) (cursor_y (q_status s)) (vt100_wrap_line_flag s).
Proof. by split. Qed.

Lemma reaches_trans s s' s'' ds ds' x y w x' y' w' :
  reaches s s' ds x y w -> reaches s' s'' ds' x' y' w' -> reaches s s'' ds' x' y' w'.
Proof. intros [] []. split; congruence || done. Qed.

(** A screen from its parts. *)
Lemma reaches_intro s s' ds cur x y w :
  frame s' = frame s -> shows s' ds cur ->
  cursor_x (q_status s') = x -> cursor_y (q_status s') = y -> vt100_wrap_line_flag s' = w ->
  cur = (top_of s ds + Z.to_nat y)%nat -> 0 <= y < rows s -> 0 <= x < 256 ->
  reaches s s' ds x y w.
Proof.
  intros Hf Hs <- <- <- Hc Hy Hx. split; [done| |done..]. split; [|by rewrite (rows_frame _ _ Hf)|done].
  unfold row_index. rewrite (top_of_frame _ _ ds Hf). by rewrite <- Hc.
Qed.

Lemma reaches_silent s s' s'' ds x y w : reaches s s' ds x y w -> silent s' s'' -> reaches s s'' ds x y w.
Proof.
  intros [Hf [Hs Hy Hx] Ex Ey Ew] Hq. pose proof Hq as [Qf Qb Ql Qx Qy Qw]. split; [congruence| |congruence..].
  split.
  - unfold row_index. rewrite Qy, (top_of_frame _ _ ds Qf). by eapply shows_silent.
  - rewrite Qy, (rows_frame _ _ Qf). done.
  - by rewrite Qx.
Qed.

(** ** Motion *)

Lemma wp_times n f s (I : nat -> screen_state -> Prop) :
  I 0%nat s ->
  (forall k t, (k < n)%nat -> I k t -> wp f t (fun (go : bool) t' => if go then I (S k) t' else I n t')) ->
  wp (times n f) s (fun _ t => I n t).
Proof.
  revert s I. induction n as [|n IH]; intros s I H0 Hf; [by apply wp_ret|]. cbn [times].
  apply wp_bind. eapply wp_mono; [apply (Hf 0%nat s); [lia|done]|]. intros go t Ht. destruct go.
  - apply (IH t (fun k => I (S k))); [done|]. intros k u Hk Hu. apply Hf; [lia|done].
  - by apply wp_ret.
Qed.

(** After [k] steps up from [y], no further than [floor]. *)
Definition up_to (floor y : Z) (k : nat) : Z := if y <? floor then y else Z.max floor (y - Z.of_nat k).
Definition down_to (ceiling y : Z) (k : nat) : Z := if ceiling <? y then y else Z.min ceiling (y + Z.of_nat k).

Lemma set_wrap_flag_reaches s t ds x y w b :
  reaches s t ds x y w -> reaches s (t <| vt100_wrap_line_flag := b |>) ds x y b.
Proof.
  intros [Hf [Hs Hy Hx] Ex Ey _]. split; [done| |done..]. split; [|done|done].
  by apply (shows_frame t).
Qed.

(** Leaving the margin. *)
Definition wrap_after (count : Z) (w : bool) : bool := if 0 <? count then false else w.

Lemma wp_leave_margin s ds count (Q : unit -> screen_state -> Prop) :
  on_screen s ds ->
  (forall t, reaches s t ds (cursor_x (q_status s)) (cursor_y (q_status s))
               (wrap_after count (vt100_wrap_line_flag s)) -> Q tt t) ->
  wp (leave_margin count) s Q.
Proof.
  intros H HQ. unfold leave_margin, wrap_after in *. apply wp_when; intros Hc; rewrite Hc in HQ.
  - apply wp_modify, HQ. by eapply set_wrap_flag_reaches, reaches_refl.
  - by apply HQ, reaches_refl.
Qed.

Lemma region_frame s s' :
  frame s' = frame s ->
  scroll_region_top (q_status s') = scroll_region_top (q_status s) /\
  scroll_region_bottom (q_status s') = scroll_region_bottom (q_status s).
Proof.
  intros Hf. split.
  - change (scroll_region_top (q_status (frame s')) = scroll_region_top (q_status (frame s))). by rewrite Hf.
  - change (scroll_region_bottom (q_status (frame s')) = scroll_region_bottom (q_status (frame s))). by rewrite Hf.
Qed.

(** One row up. *)
Lemma wp_row_up s ds (Q : unit -> screen_state -> Prop) :
  on_screen s ds -> 0 < cursor_y (q_status s) ->
  (forall t, reaches s t ds (cursor_x (q_status s)) (cursor_y (q_status s) - 1) (vt100_wrap_line_flag s) -> Q tt t) ->
  wp (on_status (fun q => q <| cursor_y ::= Z.pred |>);; l ← current; set_current (prev l)) s Q.
Proof.
  intros [Hs Hy Hx] Hpos HQ. destruct (sh_holds _ _ _ Hs) as [ls Hls].
  destruct (shows_current _ _ _ Hs) as (d & Hd & _). set (cur := row_index s ds) in *.
  assert (Hcur : cur = (top_of s ds + Z.to_nat (cursor_y (q_status s)))%nat) by done.
  pose proof (shows_cur _ _ _ Hs) as Hlt.
  set (s1 := s <| q_status ::= fun q => q <| cursor_y ::= Z.pred |> |>).
  assert (Hs1 : shows s1 ds cur) by (by apply (shows_frame s)).
  apply wp_bind, wp_modify. fold s1. apply wp_bind.
  apply (wp_done _ _ _ _ _ (current_at s1 ls ds cur d Hls Hd)). change (prev (relink ?p ?n d)) with p.
  destruct cur as [|c] eqn:Ec; [lia|]. cbn [before].
  destruct (set_current_at s1 ls ds (S c) c Hs1 Hls) as (b & E & Hb & Hs2); [lia|].
  apply (wp_done _ _ _ _ _ E), HQ. apply (reaches_intro s _ ds c); [done|done|done|done|done|lia..].
Qed.

Lemma wp_cursor_up s ds count (honor : bool) (Q : unit -> screen_state -> Prop) :
  on_screen s ds ->
  let floor := if honor then scroll_region_top (q_status s) else 0 in
  (forall t, reaches s t ds (cursor_x (q_status s)) (up_to floor (cursor_y (q_status s)) (Z.to_nat count))
               (wrap_after count (vt100_wrap_line_flag s)) -> Q tt t) ->
  wp (cursor_up count honor) s Q.
Proof.
  intros H floor HQ. unfold cursor_up. apply wp_bind, (wp_leave_margin s ds); [done|]. intros t0 Ht0.
  set (w := wrap_after count (vt100_wrap_line_flag s)) in *.
  pose proof (os_y _ _ H) as Hy. pose proof (os_config _ _ H) as Hc.
  assert (Hfloor : 0 <= floor) by (unfold floor; destruct honor; [apply (cfg_region_top _ Hc)|lia]).
  eapply wp_mono.
  { apply (wp_times _ _ _ (fun k t => reaches s t ds (cursor_x (q_status s)) (up_to floor (cursor_y (q_status s)) k) w)).
    - assert (up_to floor (cursor_y (q_status s)) 0 = cursor_y (q_status s)) as ->; [|done].
      unfold up_to. destruct (Z.ltb_spec (cursor_y (q_status s)) floor); lia.
    - intros k t Hk Ht. unfold cursor_up_step. apply wp_bind, wp_gets. cbv beta.
      pose proof Ht as [Hf Hos Hx' Hy' Hw']. destruct (region_frame _ _ Hf) as [Hrt _].
      assert (Hfl : (if honor then scroll_region_top (q_status t) else 0) = floor) by (unfold floor; by rewrite Hrt).
      unfold above_region, id. rewrite Hrt, Hy'.
      apply wp_if; intros Hab.
      + apply andb_prop in Hab as [-> Hab]. fold floor in Hab. apply Z.ltb_lt in Hab.
        apply wp_ret.
        assert (up_to floor (cursor_y (q_status s)) (Z.to_nat count) = up_to floor (cursor_y (q_status s)) k) as ->; [|done].
        unfold up_to in Hab |- *. destruct (Z.ltb_spec (cursor_y (q_status s)) floor); lia.
      + assert (Hin : (cursor_y (q_status s) <? floor) = false).
        { apply Z.ltb_ge. apply andb_false_iff in Hab. unfold up_to in Hab.
          destruct (Z.ltb_spec (cursor_y (q_status s)) floor) as [Hlt|]; [|done].
          unfold floor in *. destruct honor; [|lia]. destruct Hab as [Hab|Hab]; [done|]. apply Z.ltb_ge in Hab. lia. }
        cbv zeta. rewrite <- Hrt, Hfl. apply wp_bind.
        unfold up_to in *. rewrite Hin in *. apply wp_when; intros Hlt.
        * apply Z.ltb_lt in Hlt. apply (wp_row_up t ds); [done|lia|]. intros u Hu. apply wp_ret.
          eapply reaches_trans; [exact Ht|]. rewrite Hx', Hy', Hw' in Hu.
          replace (Z.max floor (cursor_y (q_status s) - Z.of_nat (S k)))
            with (Z.max floor (cursor_y (q_status s) - Z.of_nat k) - 1) by lia. done.
        * apply Z.ltb_ge in Hlt. apply wp_ret.
          replace (Z.max floor (cursor_y (q_status s) - Z.of_nat (S k)))
            with (Z.max floor (cursor_y (q_status s) - Z.of_nat k)) by lia. done. }
  intros [] t Ht. by apply HQ.
Qed.

(** The line that cursor_down() appends: blank up to the column of the cursor, in the
    colour of the console. *)
Definition padded (con x : Z) (d : line) : line :=
  if line_length d <? x
  then (fill_with (fun c => (c.1, con)) (line_length d) x d) <| line_length := x |> else d.

Lemma pad_one con d :
  line_ok d -> line_length d < 256 ->
  put_color (line_length d) con d = on_cell (fun c => (c.1, con)) (line_length d) d.
Proof.
  intros Hok Hl. pose proof (ok_length _ Hok). destruct Hok as [Hc _ _].
  unfold on_cell. cbn [fst snd].
  assert (put_char (line_length d) (raw d (line_length d)).1 d = d) as ->; [|done].
  unfold put_char, raw. cbn [fst].
  destruct d as [ll co ch nx pv di dw dh rc]. cbn in *. unfold field_update. f_equal.
  apply list_insert_id, list_lookup_lookup_total_lt. lia.
Qed.

Lemma padded_ok con x d : line_ok d -> 0 <= x <= 256 -> line_ok (padded con x d).
Proof.
  intros Hok Hx. pose proof (ok_length _ Hok). unfold padded.
  destruct (Z.ltb_spec (line_length d) x); [|done].
  destruct (fill_with_spec (fun c => (c.1, con)) (line_length d) x d Hok) as ([] & _); [lia..|].
  split; [done|done|cbn; lia].
Qed.

Lemma padded_step con x d :
  line_ok d -> line_length d < x -> x <= 256 ->
  padded con x ((on_cell (fun c => (c.1, con)) (line_length d) d) <| line_length := line_length d + 1 |>) = padded con x d.
Proof.
  intros Hok Hl Hx. unfold padded. rewrite (proj2 (Z.ltb_lt (line_length d) x)) by done.
  cbn [line_length]. change (line_length (?e <| line_length := ?n |>)) with n.
  unfold fill_with at 2. rewrite (seqZ_cons (line_length d)) by lia. cbn [foldl].
  replace (Z.succ (line_length d)) with (line_length d + 1) by lia.
  replace (Z.pred (x - line_length d)) with (x - (line_length d + 1)) by lia.
  destruct (Z.ltb_spec (line_length d + 1) x).
  - unfold fill_with. by rewrite (fold_on_length (fun c => (c.1, con))).
  - rewrite seqZ_nil by lia. cbn [foldl]. by replace (line_length d + 1) with x by lia.
Qed.

Lemma pad_last_spec x fuel : forall s ls ds cur d,
  holds (buffer s) ls ds cur -> S cur = length ds -> ds !! cur = Some d -> 0 <= x <= 256 ->
  (Z.to_nat (x - line_length d) < fuel)%nat ->
  exists b, pad_last fuel x s = Done (tt, s <| buffer := b |>) /\
            holds b ls (<[cur := padded (console s) x d]> ds) cur.
Proof.
  induction fuel as [|fuel IH]; intros s ls ds cur d H Hcur Hd Hx Hf; [lia|].
  cbn [pad_last]. rewrite (bind_done _ _ _ _ _ (current_at _ _ _ _ _ H Hd)).
  change (line_length (relink ?p ?n d)) with (line_length d).
  destruct (holds_deref _ _ _ _ _ _ _ s H eq_refl Hd eq_refl) as [E Hok].
  pose proof (ok_length _ Hok) as Hlen.
  destruct (Z.ltb_spec (line_length d) x) as [Hlt|Hge].
  - unfold pointer, gets. unfold mbind at 1, M_bind at 1.
    assert (Hlast : q_scrollback_last (buffer s) = ls !! cur).
    { rewrite (holds_last _ _ _ _ H), last_lookup, (holds_length _ _ _ _ H). f_equal. lia. }
    rewrite Hlast, (bind_done _ _ _ _ _ E).
    change (line_length (relink ?p ?n d)) with (line_length d).
    unfold full_attr, gets. unfold mbind at 1, M_bind at 1. fold (console s).
    set (d1 := (on_cell (fun c => (c.1, console s)) (line_length d) d) <| line_length := line_length d + 1 |>).
    assert (Hok1 : line_ok d1).
    { pose proof (on_cell_ok (fun c => (c.1, console s)) (line_length d) _ Hok) as []. split; [done|done|cbn; lia]. }
    pose proof (acts_set_color s (ls !! cur) (before ls cur) (ls !! S cur) (line_length d) (console s) d ltac:(lia)) as A1.
    destruct (A1 _ _ _ _ cur H) as (b1 & E1 & Hb1); [done|done|]. rewrite buffer_same in E1.
    rewrite (bind_done _ _ _ _ _ E1).
    rewrite pad_one in Hb1 by (done || lia).
    pose proof (acts_update_to s (ls !! cur) (before ls cur) (ls !! S cur)
      (fun m => m <| line_length ::= Z.succ |>) (on_cell (fun c => (c.1, console s)) (line_length d) d) d1
      eq_refl eq_refl Hok1) as A2.
    destruct (A2 _ _ _ _ cur Hb1) as (b2 & E2 & Hb2); [done|apply list_lookup_insert_eq; lia|].
    rewrite (bind_done _ _ _ _ _ E2). rewrite list_insert_insert_eq in Hb2.
    pose proof (IH (s <| buffer := b2 |>) ls (<[cur := d1]> ds) cur d1) as D.
    destruct (D Hb2) as (b3 & E3 & Hb3).
    + by rewrite length_insert.
    + apply list_lookup_insert_eq. lia.
    + done.
    + change (line_length d1) with (line_length d + 1). lia.
    + exists b3. split; [exact E3|]. rewrite list_insert_insert_eq in Hb3.
      change (console (s <| buffer := b2 |>)) with (console s) in Hb3.
      unfold d1 in Hb3. rewrite padded_step in Hb3 by (done || lia). exact Hb3.
  - exists (buffer s). rewrite buffer_same. split; [done|].
    unfold padded. rewrite (proj2 (Z.ltb_ge _ _)) by lia. by rewrite list_insert_id.
Qed.

(** The lines, long enough for [m], the new ones padded as cursor_down() does. *)
Definition extend_padded (s : screen_state) (ds : list line) (m : nat) : list line :=
  ds ++ replicate (m - length ds) (padded (console s) (cursor_x (q_status s)) (blank s)).

Lemma length_extend_padded s ds m : length (extend_padded s ds m) = Nat.max (length ds) m.
Proof. unfold extend_padded. rewrite length_app, length_replicate. lia. Qed.

Lemma extend_padded_enough s ds m : (m <= length ds)%nat -> extend_padded s ds m = ds.
Proof. intros Hm. unfold extend_padded. replace (m - length ds)%nat with 0%nat by lia. apply app_nil_r. Qed.

Lemma extend_padded_twice s ds m m' :
  (m <= m')%nat -> extend_padded s (extend_padded s ds m) m' = extend_padded s ds m'.
Proof.
  intros Hm. unfold extend_padded. rewrite <- app_assoc, <- replicate_add, length_app, length_replicate.
  do 2 f_equal. lia.
Qed.

(** A row that is not the last one has a line below it or room for one. *)
Lemma row_below s ds :
  on_screen s ds -> cursor_y (q_status s) < rows s - 1 ->
  (S (row_index s ds) < length ds)%nat \/ (S (row_index s ds) = length ds /\ (length ds < nrows s)%nat).
Proof.
  intros [Hs Hy Hx] Hlt. pose proof (shows_cur _ _ _ Hs) as Hcur.
  unfold row_index, top_of, nrows in *. lia.
Qed.

Lemma top_of_extend_padded s ds m :
  (m <= Nat.max (length ds) (nrows s))%nat -> top_of s (extend_padded s ds m) = top_of s ds.
Proof. intros Hm. unfold top_of. rewrite length_extend_padded. lia. Qed.

Lemma wp_row_down s ds (Q : unit -> screen_state -> Prop) :
  on_screen s ds -> cursor_y (q_status s) < rows s - 1 ->
  (forall t, reaches s t (extend_padded s ds (S (S (row_index s ds)))) (cursor_x (q_status s))
               (cursor_y (q_status s) + 1) (vt100_wrap_line_flag s) -> Q tt t) ->
  wp (on_status (fun q => q <| cursor_y ::= Z.succ |>);;
      l ← current;
      if is_null (next l) then
        new_scrollback_line;;
        l ← current;
        set_current (next l);;
        pad_last 257 (cursor_x (q_status s))
      else set_current (next l)) s Q.
Proof.
  intros H Hlt HQ. pose proof (row_below _ _ H Hlt) as Hrow. destruct H as [Hs Hy Hx].
  destruct (sh_holds _ _ _ Hs) as [ls Hls]. destruct (shows_current _ _ _ Hs) as (d & Hd & _).
  pose proof (holds_length _ _ _ _ Hls) as Hlen.
  assert (Hcur : row_index s ds = (top_of s ds + Z.to_nat (cursor_y (q_status s)))%nat) by done.
  set (cur := row_index s ds) in *.
  set (s1 := s <| q_status ::= fun q => q <| cursor_y ::= Z.succ |> |>).
  assert (Hs1 : shows s1 ds cur) by (by apply (shows_frame s)).
  apply wp_bind, wp_modify. fold s1. apply wp_bind.
  apply (wp_done _ _ _ _ _ (current_at s1 ls ds cur d Hls Hd)). change (next (relink ?p ?n d)) with n.
  rewrite is_null_at, Hlen. destruct Hrow as [Hin|[Hend Hroom]].
  - rewrite (proj2 (Nat.ltb_lt _ _) Hin). cbn [negb].
    destruct (set_current_at s1 ls ds cur (S cur) Hs1 Hls Hin) as (b & E & Hb & Hs2).
    apply (wp_done _ _ _ _ _ E), HQ. rewrite extend_padded_enough by lia.
    apply (reaches_intro s _ ds (S cur)); [done|done|done|cbn; lia|done|lia..].
  - rewrite (proj2 (Nat.ltb_ge _ _)) by lia. cbn [negb].
    destruct (new_line_short s1 ls ds cur Hs1 Hls Hroom) as (b & n & a & E & Hb & Hs2).
    apply wp_bind, (wp_done _ _ _ _ _ E), wp_bind.
    set (ds1 := extend s1 ds (S (length ds))) in *.
    assert (Hds1 : ds1 = ds ++ [blank s]).
    { unfold ds1, extend. by replace (S (length ds) - length ds)%nat with 1%nat by lia. }
    assert (Hd1 : ds1 !! cur = Some d) by (rewrite Hds1, lookup_app_l by lia; done).
    apply (wp_done _ _ _ _ _ (current_at (drawn s1 b n) (ls ++ [a]) ds1 cur d Hb Hd1)).
    change (next (relink ?p ?n d)) with n. apply wp_bind.
    assert (Hl1 : length ds1 = S (length ds)) by (rewrite Hds1, length_app; cbn; lia).
    destruct (set_current_at (drawn s1 b n) (ls ++ [a]) ds1 cur (S cur) Hs2 Hb) as (b2 & E2 & Hb2 & Hs3); [lia|].
    apply (wp_done _ _ _ _ _ E2). rewrite drawn_drawn in *.
    set (n2 := scrollback_lines (q_status (drawn s1 b n))) in *.
    pose proof (pad_last_spec (cursor_x (q_status s)) 257 (drawn s1 b2 n2) (ls ++ [a]) ds1 (S cur) (blank s) Hb2) as D.
    destruct D as (b3 & E3 & Hb3); [lia| |lia| |].
    { rewrite Hds1, Hend, lookup_app_r, Nat.sub_diag by lia. done. }
    { pose proof (ok_length _ (blank_ok s (sh_config _ _ _ Hs))). lia. }
    apply (wp_done _ _ _ _ _ E3), HQ.
    assert (Hfin : <[S cur := padded (console (drawn s1 b2 n2)) (cursor_x (q_status s)) (blank s)]> ds1 =
                   extend_padded s ds (S (S cur))).
    { rewrite Hds1, Hend. unfold extend_padded.
      replace (S (length ds) - length ds)%nat with 1%nat by lia.
      rewrite insert_app_r_alt by lia. by rewrite Nat.sub_diag. }
    rewrite Hfin in Hb3.
    apply (reaches_intro s _ _ (S cur)); [done| |done|cbn; lia|done| |lia..].
    + apply (shows_buffer (drawn s1 b2 n2) ds1 (S cur) b3 (ls ++ [a])); [done|exact Hb3|].
      rewrite length_extend_padded. lia.
    + rewrite top_of_extend_padded by lia. lia.
Qed.

Lemma quiet_after s t u ds x y w {A} (m : SM A) (Q : A -> screen_state -> Prop) :
  reaches s t ds x y w -> t = u -> quiet m t -> (forall a u, reaches s u ds x y w -> Q a u) -> wp m u Q.
Proof.
  intros Ht <- Hm HQ. apply (quiet_use _ _ _ Hm). intros a u Hu. apply HQ. by eapply reaches_silent.
Qed.

(** The last line that cursor_down() needs. *)
Definition down_data (s : screen_state) (y : Z) (ds : list line) : list line :=
  extend_padded s ds (S (top_of s ds + Z.to_nat y)).

Lemma wp_cursor_down s ds count (honor : bool) (Q : unit -> screen_state -> Prop) :
  on_screen s ds ->
  let ceiling := if honor then scroll_region_bottom (q_status s) else rows s - 1 in
  let y := down_to ceiling (cursor_y (q_status s)) (Z.to_nat count) in
  (forall t, reaches s t (down_data s y ds) (cursor_x (q_status s)) y
               (wrap_after count (vt100_wrap_line_flag s)) -> Q tt t) ->
  wp (cursor_down count honor) s Q.
Proof.
  intros H ceiling yn HQ. unfold cursor_down. apply wp_bind, (wp_leave_margin s ds); [done|]. intros t0 Ht0.
  set (w := wrap_after count (vt100_wrap_line_flag s)) in *.
  pose proof (os_y _ _ H) as Hy. pose proof (os_config _ _ H) as Hc.
  pose proof (shows_cur _ _ _ (os_shows _ _ H)) as Hcur. unfold row_index in Hcur.
  assert (Hceil : ceiling <= rows s - 1) by (unfold ceiling; destruct honor; [pose proof (cfg_region _ Hc); lia|lia]).
  set (y0 := cursor_y (q_status s)) in *.
  set (I := fun (k : nat) t => reaches s t (down_data s (down_to ceiling y0 k) ds) (cursor_x (q_status s)) (down_to ceiling y0 k) w).
  assert (Hdown : forall k, y0 <= down_to ceiling y0 k <= rows s - 1).
  { intros k. unfold down_to. destruct (Z.ltb_spec ceiling y0); lia. }
  eapply wp_mono.
  { apply (wp_times _ _ _ I).
    - unfold I. assert (down_to ceiling y0 0 = y0) as ->.
      { unfold down_to. destruct (Z.ltb_spec ceiling y0); lia. }
      unfold down_data. rewrite extend_padded_enough by lia. done.
    - intros k t Hk Ht. unfold cursor_down_step. apply wp_bind, wp_get. cbv beta zeta.
      pose proof Ht as [Hf Hos Hx' Hy' Hw']. destruct (region_frame _ _ Hf) as [_ Hrb].
      assert (Hce : (if honor then scroll_region_bottom (q_status t) else HEIGHT t - STATUS_HEIGHT t - 1) = ceiling).
      { unfold ceiling. rewrite Hrb. fold (rows t). by rewrite (rows_frame _ _ Hf). }
      rewrite Hce. unfold below_region. rewrite Hrb, Hy'.
      apply wp_if; intros Hab.
      + apply andb_prop in Hab as [-> Hab]. fold ceiling in Hab. apply Z.ltb_lt in Hab.
        apply wp_ret. unfold I.
        assert (down_to ceiling y0 (Z.to_nat count) = down_to ceiling y0 k) as ->; [|done].
        unfold down_to in Hab |- *. destruct (Z.ltb_spec ceiling y0); lia.
      + assert (Hin : (ceiling <? y0) = false).
        { apply Z.ltb_ge. apply andb_false_iff in Hab. unfold down_to in Hab.
          destruct (Z.ltb_spec ceiling y0) as [Hlt|]; [|done].
          unfold ceiling in *. destruct honor; [|lia]. destruct Hab as [Hab|Hab]; [done|]. apply Z.ltb_ge in Hab. lia. }
        apply wp_bind, wp_when; intros Hlt.
        * apply Z.ltb_lt in Hlt. rewrite <- Hy' in Hlt.
          apply (wp_row_down t _ _ Hos); [rewrite (rows_frame _ _ Hf); lia|]. intros u Hu.
          rewrite Hx', Hy', Hw' in Hu.
          assert (Hu' : I (S k) u).
          { unfold I. assert (Hyk : down_to ceiling y0 (S k) = down_to ceiling y0 k + 1).
            { rewrite Hy' in Hlt. unfold down_to in *. rewrite Hin in *. lia. }
            rewrite Hyk. pose proof (reaches_trans _ _ _ _ _ _ _ _ _ _ _ Ht Hu) as Hsu.
            assert (Hds : extend_padded t (down_data s (down_to ceiling y0 k) ds)
                            (S (S (row_index t (down_data s (down_to ceiling y0 k) ds)))) =
                          down_data s (down_to ceiling y0 k + 1) ds); [|by rewrite Hds in Hsu].
            unfold row_index. rewrite Hy', (top_of_frame _ _ _ Hf). unfold down_data.
            pose proof (Hdown k).
            rewrite top_of_extend_padded by (unfold top_of, nrows; lia).
            assert (Hpad : forall l m, extend_padded t l m = extend_padded s l m).
            { intros l m. unfold extend_padded. rewrite Hx'.
              assert (console t = console s) as -> by (change (console (frame t) = console (frame s)); by rewrite Hf).
              assert (blank t = blank s) as ->; [|done].
              change (blank (frame t) = blank (frame s)). by rewrite Hf. }
            rewrite Hpad, extend_padded_twice by lia. f_equal. lia. }
          apply wp_bind, (quiet_use _ _ _ (capture_line_end_quiet u)). intros _ v Hv. apply wp_ret.
          unfold I in *. by eapply reaches_silent.
        * apply Z.ltb_ge in Hlt.
          apply wp_bind, (quiet_use _ _ _ (capture_line_end_quiet t)). intros _ v Hv. apply wp_ret.
          unfold I in *.
          assert (down_to ceiling y0 (S k) = down_to ceiling y0 k) as ->.
          { unfold down_to in *. rewrite Hin in *. lia. }
          by eapply reaches_silent. }
  intros [] t Ht. by apply HQ.
Qed.

End ScreenCursor.
End ScreenCursor.
