(* ===== verification/ScreenDraw.v ===== *)
(** Motion along the line, addressing, line ends and printing, on the list of lines. *)

From Stdlib Require Import ZArith Lia List Bool.
From stdpp Require Import base list numbers gmap strings.
From S2P Require Import Prelude Stdio States Colors Screen ScreenList ScreenState ScreenLine ScreenSpec ScreenScroll ScreenCursor.
Import Colors Screen ScreenList ScreenState ScreenLine ScreenSpec ScreenScroll ScreenCursor.

Module ScreenDraw.

Section ScreenDraw.
Context {C : Curses}.

(** ** Rules *)

(** An operation on the current line. *)
Lemma wp_on_line s ds d d' m (Q : unit -> screen_state -> Prop) :
  on_screen s ds -> ds !! row_index s ds = Some d -> acts_current s m d d' ->
  (forall t, reaches s t (<[row_index s ds := d']> ds) (cursor_x (q_status s)) (cursor_y (q_status s))
               (vt100_wrap_line_flag s) -> Q tt t) ->
  wp m s Q.
Proof.
  intros [Hs Hy Hx] Hd Hm HQ. apply (wp_current s ds (row_index s ds) d d'); [done..|].
  intros b Hb. apply HQ. apply (reaches_intro s _ _ (row_index s ds)); [done|done|done|done|done| |done|done].
  unfold row_index. f_equal. symmetry. apply top_of_length. apply length_insert.
Qed.

(** The current line of a screen. *)
Lemma os_line s ds : on_screen s ds -> exists d, ds !! row_index s ds = Some d /\ line_ok d.
Proof. intros H. apply (shows_current s), H. Qed.

(** An operation on lines that neither scrolls nor moves the cursor. *)
Lemma reaches_drawn s ds ds' b n :
  on_screen s ds -> shows (drawn s b n) ds' (row_index s ds) -> top_of s ds' = top_of s ds ->
  reaches s (drawn s b n) ds' (cursor_x (q_status s)) (cursor_y (q_status s)) (vt100_wrap_line_flag s).
Proof.
  intros [Hs Hy Hx] Hs' Ht. apply (reaches_intro s _ _ (row_index s ds)); [done|done|done|done|done| |done|done].
  unfold row_index. by rewrite Ht.
Qed.

Lemma reaches_status s ds x y w t x' :
  reaches s t ds x y w -> 0 <= x' < 256 ->
  reaches s (t <| q_status ::= fun q => q <| cursor_x := x' |> |>) ds x' y w.
Proof.
  intros [Hf [Hs Hy Hx] Ex Ey Ew] Hx'. split; [done| |done|done|done]. split; [|done|done].
  by apply (shows_frame t).
Qed.

Lemma wp_set_x s ds t x y w x' (Q : unit -> screen_state -> Prop) :
  reaches s t ds x y w -> 0 <= x' < 256 ->
  (forall u, reaches s u ds x' y w -> Q tt u) ->
  wp (on_status (fun q => q <| cursor_x := x' |>)) t Q.
Proof. intros Ht Hx HQ. apply wp_modify, HQ. by eapply reaches_status. Qed.

(** ** Left and right *)

(** Left and right motions that honour the region stay where they are outside it. *)
Definition outside (honor : bool) (q : q_status_struct) : bool := honor && (above_region q || below_region q).

Lemma outside_frame honor s s' :
  frame s' = frame s -> cursor_y (q_status s') = cursor_y (q_status s) ->
  outside honor (q_status s') = outside honor (q_status s).
Proof.
  intros Hf Hy. destruct (region_frame _ _ Hf) as [H1 H2].
  unfold outside, above_region, below_region. by rewrite H1, H2, Hy.
Qed.

Lemma wp_cursor_left s ds count honor (Q : unit -> screen_state -> Prop) :
  on_screen s ds ->
  (forall t, reaches s t ds
     (if outside honor (q_status s) then cursor_x (q_status s)
      else Z.max 0 (cursor_x (q_status s) - Z.of_nat (Z.to_nat count)))
     (cursor_y (q_status s)) (wrap_after count (vt100_wrap_line_flag s)) -> Q tt t) ->
  wp (cursor_left count honor) s Q.
Proof.
  intros H HQ. unfold cursor_left. apply wp_bind, (wp_leave_margin s ds); [done|]. intros t0 Ht0.
  pose proof (os_x _ _ H) as Hx.
  set (w := wrap_after count (vt100_wrap_line_flag s)) in *.
  set (x := fun k : nat => if outside honor (q_status s) then cursor_x (q_status s)
                           else Z.max 0 (cursor_x (q_status s) - Z.of_nat k)) in *.
  eapply wp_mono.
  { apply (wp_times _ _ _ (fun k t => reaches s t ds (x k) (cursor_y (q_status s)) w)).
    - assert (x 0%nat = cursor_x (q_status s)) as ->; [|done]. unfold x. destruct (outside _ _); lia.
    - intros k t Hk Ht. unfold cursor_left_step. apply wp_bind, wp_gets. unfold id. cbv beta.
      pose proof Ht as [Hf Hos Hx' Hy' Hw'].
      fold (outside honor (q_status t)). rewrite (outside_frame honor _ _ Hf Hy').
      unfold x in *. destruct (outside honor (q_status s)); [by apply wp_ret|].
      apply wp_bind, wp_when; intros Hp; rewrite Hx' in Hp.
      + apply Z.ltb_lt in Hp. apply wp_modify, wp_ret.
        replace (Z.max 0 (cursor_x (q_status s) - Z.of_nat (S k)))
          with (Z.pred (cursor_x (q_status t))) by lia.
        apply (reaches_status _ _ _ _ _ _ (Z.pred (cursor_x (q_status t))) Ht). lia.
      + apply Z.ltb_ge in Hp. apply wp_ret.
        by replace (Z.max 0 (cursor_x (q_status s) - Z.of_nat (S k)))
          with (Z.max 0 (cursor_x (q_status s) - Z.of_nat k)) by lia. }
  intros [] t Ht. by apply HQ.
Qed.

(** The margin of motions. *)
Definition margin_of (s : screen_state) (d : line) : Z :=
  halve_margin d (if 0 <? q_emulation_right_margin s then q_emulation_right_margin s else WIDTH s - 1).

Lemma halve_margin_le d m : m < 256 -> halve_margin d m < 256.
Proof.
  intros Hm. unfold halve_margin. destruct (double_width d); [|done].
  pose proof (Z.quot_le_mono (m + 1) 256 2 ltac:(lia) ltac:(lia)) as H. change (Z.quot 256 2) with 128 in H. lia.
Qed.

Lemma margin_lt s d : config_ok s -> margin_of s d < 256.
Proof.
  intros Hc. pose proof (cfg_margin _ Hc). pose proof (cfg_width _ Hc). apply halve_margin_le.
  destruct (0 <? q_emulation_right_margin s); lia.
Qed.

Lemma wp_motion_margin s ds d (Q : Z -> screen_state -> Prop) :
  on_screen s ds -> ds !! row_index s ds = Some d -> Q (margin_of s d) s -> wp motion_margin s Q.
Proof.
  intros [Hs _ _] Hd HQ. destruct (sh_holds _ _ _ Hs) as [ls Hls]. unfold motion_margin.
  apply wp_bind, (wp_done _ _ _ _ _ (current_at s ls ds _ d Hls Hd)), wp_gets. exact HQ.
Qed.

Lemma reaches_row s t ds x y w :
  reaches s t ds x y w -> row_index t ds = (top_of s ds + Z.to_nat y)%nat.
Proof. intros [Hf _ _ Hy _]. unfold row_index. by rewrite Hy, (top_of_frame _ _ ds Hf). Qed.

Lemma wp_cursor_right s ds count honor (Q : unit -> screen_state -> Prop) :
  on_screen s ds ->
  (forall t d d', ds !! row_index s ds = Some d -> line_ok d' -> double_width d' = double_width d ->
     reaches s t (<[row_index s ds := d']> ds)
     (if outside honor (q_status s) || (margin_of s d <=? cursor_x (q_status s)) then cursor_x (q_status s)
      else Z.min (margin_of s d) (cursor_x (q_status s) + Z.of_nat (Z.to_nat count)))
     (cursor_y (q_status s)) (wrap_after count (vt100_wrap_line_flag s)) -> Q tt t) ->
  wp (cursor_right count honor) s Q.
Proof.
  intros H HQ. unfold cursor_right. apply wp_bind, (wp_leave_margin s ds); [done|]. intros t0 Ht0.
  destruct (os_line _ _ H) as (d & Hd & Hok). pose proof (os_x _ _ H) as Hx.
  pose proof (margin_lt s d (os_config _ _ H)) as Hm.
  set (w := wrap_after count (vt100_wrap_line_flag s)) in *. set (r := row_index s ds) in *.
  assert (Hr0 : row_index t0 ds = r).
  { unfold r, row_index. rewrite (re_y _ _ _ _ _ _ Ht0). by rewrite (top_of_frame _ _ ds (re_frame _ _ _ _ _ _ Ht0)). }
  apply wp_bind, (wp_motion_margin t0 ds d); [apply Ht0|by rewrite Hr0|].
  assert (Hm0 : margin_of t0 d = margin_of s d).
  { change (margin_of (frame t0) d = margin_of (frame s) d). by rewrite (re_frame _ _ _ _ _ _ Ht0). }
  rewrite Hm0. set (m := margin_of s d) in *.
  set (x := fun k : nat => if outside honor (q_status s) || (m <=? cursor_x (q_status s)) then cursor_x (q_status s)
                           else Z.min m (cursor_x (q_status s) + Z.of_nat k)).
  set (I := fun k t => exists d', line_ok d' /\ double_width d' = double_width d /\ reaches s t (<[r := d']> ds) (x k) (cursor_y (q_status s)) w).
  eapply wp_mono.
  { apply (wp_times _ _ _ I).
    - exists d. split; [done|]. split; [done|]. rewrite list_insert_id by done.
      assert (x 0%nat = cursor_x (q_status s)) as ->; [|done].
      unfold x. destruct (outside _ _), (Z.leb_spec m (cursor_x (q_status s))); cbn; lia.
    - intros k t Hk (d1 & Hok1 & Hdw1 & Ht). unfold cursor_right_step. apply wp_bind, wp_get. cbv beta zeta.
      pose proof Ht as [Hf Hos Hx' Hy' Hw'].
      fold (outside honor (q_status t)). rewrite (outside_frame honor _ _ Hf Hy').
      unfold I, x in *. destruct (outside honor (q_status s)) eqn:Eo.
      { apply wp_ret. by exists d1. }
      cbn [orb] in *. rewrite Hx'. apply wp_bind, wp_when; intros Hlt.
      + apply Z.ltb_lt in Hlt.
        assert (Hin : (m <=? cursor_x (q_status s)) = false).
        { apply Z.leb_gt. destruct (Z.leb_spec m (cursor_x (q_status s))); lia. }
        rewrite Hin in *.
        assert (Hrt : row_index t (<[r := d1]> ds) = r).
        { unfold r, row_index. rewrite Hy', (top_of_frame _ _ _ Hf). f_equal. apply top_of_length, length_insert. }
        assert (Hrl : (r < length ds)%nat) by by apply lookup_lt_Some in Hd.
        assert (Hd1 : <[r := d1]> ds !! row_index t (<[r := d1]> ds) = Some d1)
          by (rewrite Hrt; by apply list_lookup_insert_eq).
        pose proof (os_shows _ _ Hos) as Hsh. destruct (sh_holds _ _ _ Hsh) as [ls Hls].
        assert (Hcp : q_scrollback_current (buffer t) = ls !! r).
        { rewrite (holds_current _ _ _ _ Hls), Hrt. done. }
        rewrite Hcp. apply wp_bind. rewrite Hrt in Hd1.
        apply (wp_done _ _ _ _ _ (deref_line t ls _ _ r d1 Hls Hd1)).
        change (line_length (relink ?p ?n d1)) with (line_length d1).
        pose proof (ok_length _ Hok1) as Hl1.
        set (xk := Z.min m (cursor_x (q_status s) + Z.of_nat k)) in *.
        assert (Hacts : exists d2, line_ok d2 /\ double_width d2 = double_width d1 /\ acts t (ls !! r, before (ls) r, ls !! S r)
           (whenM (line_length d1 <=? xk)
             (set_color (ls !! r) (line_length d1) (q_current_color t);;
              set_char (ls !! r) (line_length d1) 32;;
              update (ls !! r) (fun l => l <| line_length ::= Z.succ |>))) d1 d2).
        { destruct (Z.leb_spec (line_length d1) xk); cbn [whenM].
          - exists (extend_data (q_current_color t) d1). split; [apply extend_data_ok; [done|lia]|]. split; [done|].
            apply acts_extend; [done|lia].
          - exists d1. split; [done|]. split; [done|apply acts_ret]. }
        destruct Hacts as (d2 & Hok2 & Hdw2 & Ha).
        destruct (Ha (buffer t) ls _ _ r Hls) as (b & E & Hb); [done|done|]. rewrite buffer_same in E.
        apply wp_bind, (wp_done _ _ _ _ _ E), wp_modify, wp_ret. exists d2. split; [done|]. split; [by rewrite Hdw2|].
        rewrite list_insert_insert_eq in Hb.
        assert (Hb' : reaches s (t <| buffer := b |>) (<[r := d2]> ds) xk (cursor_y (q_status s)) w).
        { apply (reaches_intro s _ _ r); [exact Hf| |exact Hx'|exact Hy'|exact Hw'| |apply (os_y _ _ H)|lia].
          - rewrite Hrt in Hb. eapply (shows_buffer t (<[r := d1]> ds)); [exact Hsh|exact Hb|].
            by rewrite !length_insert.
          - unfold r, row_index. f_equal. symmetry. apply top_of_length, length_insert. }
        replace (Z.min m (cursor_x (q_status s) + Z.of_nat (S k)))
          with (Z.succ (cursor_x (q_status (t <| buffer := b |>)))) by (cbn; lia).
        apply (reaches_status _ _ _ _ _ _ (Z.succ (cursor_x (q_status (t <| buffer := b |>)))) Hb').
        cbn. lia.
      + apply Z.ltb_ge in Hlt. apply wp_ret. exists d1. split; [done|]. split; [done|].
        destruct (Z.leb_spec m (cursor_x (q_status s))); [done|].
        replace (Z.min m (cursor_x (q_status s) + Z.of_nat (S k)))
          with (Z.min m (cursor_x (q_status s) + Z.of_nat k)) by lia. done. }
  intros [] t (d' & Hok' & Hdw & Ht). by apply (HQ t d d').
Qed.

(** ** Addressing *)

Definition at_column (s : screen_state) (x : Z) : screen_state :=
  s <| q_status ::= fun q => q <| cursor_x := x |> |>.

Definition position_column (s : screen_state) (d : line) (col : Z) : Z :=
  let x := Z.min col (WIDTH s - 1) in
  if (0 <? q_emulation_right_margin s) && (q_emulation_right_margin s <? x) then margin_of s d else x.

Definition position_row (s : screen_state) (row : Z) : Z :=
  Z.min (rows s - 1) (if origin_mode (q_status s) then row + scroll_region_top (q_status s) else row).

Lemma position_column_bound s d col : config_ok s -> 0 <= col -> 0 <= position_column s d col < 256.
Proof.
  intros Hc Hcol. pose proof (cfg_width _ Hc). pose proof (margin_lt s d Hc). unfold position_column. cbv zeta.
  destruct (Z.ltb_spec 0 (q_emulation_right_margin s)) as [Hm|Hm]; cbn [andb]; [|lia].
  destruct (Z.ltb_spec (q_emulation_right_margin s) (Z.min col (WIDTH s - 1))); [|lia].
  split; [|done]. unfold margin_of. rewrite (proj2 (Z.ltb_lt 0 _)) by done. unfold halve_margin.
  destruct (double_width d); [|lia]. pose proof (Z.quot_le_mono 2 (q_emulation_right_margin s + 1) 2 ltac:(lia) ltac:(lia)) as Hq.
  change (Z.quot 2 2) with 1 in Hq. lia.
Qed.

Lemma wp_cursor_position s ds d row col (Q : unit -> screen_state -> Prop) :
  on_screen s ds -> ds !! row_index s ds = Some d -> 0 <= row -> 0 <= col ->
  let x := position_column s d col in let y := position_row s row in
  (forall t, reaches s t (down_data (at_column s x) y ds) x y false -> Q tt t) ->
  wp (cursor_position row col) s Q.
Proof.
  intros H Hd Hrow Hcol x y HQ. pose proof (os_config _ _ H) as Hc. unfold cursor_position.
  apply wp_bind, wp_assert; [by apply Z.leb_le|]. apply wp_bind, wp_assert; [by apply Z.leb_le|].
  apply wp_bind, (wp_motion_margin s ds d); [done|done|]. apply wp_bind, wp_get. cbv beta zeta.
  fold (position_column s d col). fold x.
  pose proof (position_column_bound s d col Hc Hcol) as Hx. fold x in Hx.
  apply wp_bind, wp_modify. change (s <| q_status ::= _ |>) with (at_column s x). set (s1 := at_column s x) in *.
  pose proof (reaches_status s ds _ _ _ s x (reaches_refl s ds H) Hx) as H1. fold (at_column s x) in H1. fold s1 in H1.
  pose proof (re_screen _ _ _ _ _ _ H1) as Hos1. pose proof (os_y _ _ H) as Hy0.
  set (row' := if origin_mode (q_status s) then row + scroll_region_top (q_status s) else row) in *.
  assert (Hrow' : 0 <= row') by (unfold row'; pose proof (cfg_region_top _ Hc); destruct (origin_mode _); lia).
  set (y0 := cursor_y (q_status s)) in *.
  assert (Hfin : forall t y1 w, reaches s1 t (down_data s1 y1 ds) x y1 w -> y1 = y ->
            wp (set_wrap_flag false) t Q).
  { intros t y1 w Ht ->. apply wp_modify, HQ. eapply set_wrap_flag_reaches, reaches_trans; [exact H1|exact Ht]. }
  assert (Hsame : forall y1, y1 <= y0 -> down_data s1 y1 ds = ds).
  { intros y1 Hy1. unfold down_data. apply extend_padded_enough.
    pose proof (shows_cur _ _ _ (os_shows _ _ H)) as Hcur. unfold row_index in Hcur. fold y0 in Hcur.
    change (top_of s1 ds) with (top_of s ds). lia. }
  change (cursor_y (q_status s)) with y0. apply wp_bind.
  destruct (Z.ltb_spec y0 row') as [Hlt|Hge].
  - apply (wp_cursor_down s1 ds (row' - y0) false); [done|]. cbv zeta. intros t Ht.
    eapply Hfin; [exact Ht|]. unfold down_to. change (cursor_y (q_status s1)) with y0.
    change (rows s1) with (rows s). rewrite (proj2 (Z.ltb_ge (rows s - 1) y0)) by lia.
    unfold y, position_row. fold row'. lia.
  - apply wp_when; intros Hlt.
    + apply Z.ltb_lt in Hlt. apply (wp_cursor_up s1 ds (y0 - row') false); [done|]. cbv zeta. intros t Ht.
      change (cursor_y (q_status s1)) with y0 in Ht. unfold up_to in Ht.
      rewrite (proj2 (Z.ltb_ge y0 0)) in Ht by lia.
      rewrite <- (Hsame (Z.max 0 (y0 - Z.of_nat (Z.to_nat (y0 - row'))))) in Ht by lia.
      eapply Hfin; [exact Ht|]. unfold y, position_row. fold row'. lia.
    + apply Z.ltb_ge in Hlt. pose proof (reaches_refl s1 ds Hos1) as H2.
      rewrite <- (Hsame y0) in H2 by lia. eapply Hfin; [exact H2|]. unfold y, position_row. fold row'. lia.
Qed.

(** ** Line ends *)

Lemma wp_lines_drawn s ds m (g : screen_state -> list line -> list line) (Q : unit -> screen_state -> Prop) :
  on_screen s ds ->
  (forall Q' : unit -> screen_state -> Prop,
     (forall b n, shows (drawn s b n) (g s ds) (row_index s ds) -> Q' tt (drawn s b n)) -> wp m s Q') ->
  top_of s (g s ds) = top_of s ds ->
  (forall t, reaches s t (g s ds) (cursor_x (q_status s)) (cursor_y (q_status s)) (vt100_wrap_line_flag s) -> Q tt t) ->
  wp m s Q.
Proof.
  intros H Hm Ht HQ. apply Hm. intros b n Hs. apply HQ. by apply (reaches_drawn s ds).
Qed.

Lemma length_rows_data s g r1 r2 ds :
  length (rows_data s g r1 r2 ds) = Nat.max (length ds) (top_of s ds + Z.to_nat (r2 + 1)).
Proof. unfold rows_data. by rewrite length_on_range, length_extended. Qed.

Lemma top_of_max s (ds ds' : list line) m :
  length ds' = Nat.max (length ds) m -> (m <= top_of s ds + nrows s)%nat -> top_of s ds' = top_of s ds.
Proof. intros Hl Hm. unfold top_of in *. rewrite Hl. lia. Qed.

Lemma top_of_rows_data s g r1 r2 ds :
  r2 < rows s -> top_of s (rows_data s g r1 r2 ds) = top_of s ds.
Proof.
  intros Hr. eapply top_of_max; [apply length_rows_data|]. unfold nrows. lia.
Qed.

Lemma top_of_blank_rows s left right r1 r2 ds :
  r2 < rows s -> top_of s (blank_rows s left right r1 r2 ds) = top_of s ds.
Proof. intros Hr. unfold blank_rows. destruct (_ || _); [done|by apply top_of_rows_data]. Qed.

Lemma top_of_scroll_up s top left bottom right count ds :
  0 <= top -> bottom < rows s -> 0 <= count ->
  top_of s (scroll_up_data s top left bottom right count ds) = top_of s ds.
Proof.
  intros Ht Hb Hc. unfold scroll_up_data. destruct (Z.leb_spec bottom top); cbn [orb]; [done|].
  destruct (right <=? left); [done|]. destruct (Z.leb_spec (bottom + 1 - top) count); [by apply top_of_blank_rows|].
  cbv zeta. rewrite top_of_blank_rows by done. rewrite (top_of_length s (extend s ds (S (top_of s ds + Z.to_nat top + Z.to_nat count)))).
  - apply (top_of_max _ _ _ _ (length_extended _ _ _)). unfold nrows. lia.
  - apply length_copy_up_data.
Qed.

Lemma top_of_scroll_down s top left bottom right count ds :
  0 <= top -> bottom < rows s -> 0 <= count ->
  top_of s (scroll_down_data s top left bottom right count ds) = top_of s ds.
Proof.
  intros Ht Hb Hc. unfold scroll_down_data. destruct (Z.leb_spec bottom top); cbn [orb]; [done|].
  destruct (right <=? left); [done|]. destruct (Z.leb_spec (bottom + 1 - top) count); [by apply top_of_blank_rows|].
  cbv zeta. rewrite top_of_blank_rows by lia. rewrite (top_of_length s (extend s ds (S (top_of s ds + Z.to_nat bottom)))).
  - apply (top_of_max _ _ _ _ (length_extended _ _ _)). unfold nrows. lia.
  - apply length_copy_down_data.
Qed.

Lemma wp_scroll_up s ds top left bottom right count (Q : unit -> screen_state -> Prop) :
  on_screen s ds -> 0 <= top -> bottom < rows s -> 0 <= left -> right <= 256 -> 0 <= count ->
  (forall t, reaches s t (scroll_up_data s top left bottom right count ds) (cursor_x (q_status s))
               (cursor_y (q_status s)) (vt100_wrap_line_flag s) -> Q tt t) ->
  wp (rectangle_scroll_up top left bottom right count) s Q.
Proof.
  intros H ? ? ? ? ? HQ.
  apply (wp_lines_drawn s ds _ (fun s ds => scroll_up_data s top left bottom right count ds)); [done| | |done].
  - intros Q' HQ'. by apply (wp_rectangle_scroll_up s ds _ _ _ _ _ _ _ (os_shows _ _ H)).
  - by apply top_of_scroll_up.
Qed.

Lemma wp_scroll_down s ds top left bottom right count (Q : unit -> screen_state -> Prop) :
  on_screen s ds -> 0 <= top -> bottom < rows s -> 0 <= left -> right <= 256 -> 0 <= count ->
  (forall t, reaches s t (scroll_down_data s top left bottom right count ds) (cursor_x (q_status s))
               (cursor_y (q_status s)) (vt100_wrap_line_flag s) -> Q tt t) ->
  wp (rectangle_scroll_down top left bottom right count) s Q.
Proof.
  intros H ? ? ? ? ? HQ.
  apply (wp_lines_drawn s ds _ (fun s ds => scroll_down_data s top left bottom right count ds)); [done| | |done].
  - intros Q' HQ'. by apply (wp_rectangle_scroll_down s ds _ _ _ _ _ _ _ (os_shows _ _ H)).
  - by apply top_of_scroll_down.
Qed.

(** The rows that a line feed marks dirty. *)
Lemma mark_dirty_spec n : forall s ls ds cur k p,
  holds (buffer s) ls ds cur -> (k < length ds)%nat -> p = ls !! k ->
  exists b, mark_dirty n p s = Done (tt, s <| buffer := b |>) /\
            holds b ls (on_range dirtied (S k - n) (Nat.min n (S k)) ds) cur.
Proof.
  induction n as [|n IH]; intros s ls ds cur k p H Hk ->.
  { exists (buffer s). rewrite buffer_same, on_range_zero. by split. }
  destruct (lookup_lt_nat ds k Hk) as [d Hd]. destruct (holds_address _ _ _ _ _ _ H Hd) as [a Ha].
  cbn [mark_dirty]. rewrite Ha, <- Ha.
  pose proof (acts_update s (ls !! k) (before ls k) (ls !! S k) dirtied d eq_refl ltac:(by intros [])) as A.
  destruct (A _ _ _ _ k H) as (b & E & Hb); [done|done|]. rewrite buffer_same in E.
  rewrite (bind_done _ _ _ _ _ E).
  assert (Hd' : <[k := dirtied d]> ds !! k = Some (dirtied d)) by (by apply list_lookup_insert_eq).
  destruct (holds_deref _ _ _ _ _ _ _ (s <| buffer := b |>) Hb eq_refl Hd' (buffer_set s b)) as [Ed _].
  rewrite (bind_done _ _ _ _ _ Ed). change (prev (relink ?p ?n ?e)) with p.
  destruct k as [|k]; cbn [before].
  - exists b. split; [by destruct n|]. replace (1 - S n)%nat with 0%nat by lia.
    replace (Nat.min (S n) 1) with 1%nat by lia.
    rewrite <- (on_range_step dirtied 0 0 ds d Hd), on_range_zero. exact Hb.
  - pose proof (IH (s <| buffer := b |>) ls (<[S k := dirtied d]> ds) cur k (ls !! k)) as D.
    destruct (D Hb) as (b2 & E2 & Hb2); [rewrite length_insert; lia|done|].
    exists b2. split; [exact E2|].
    assert (Heq : on_range dirtied (S k - n) (Nat.min n (S k)) (<[S k := dirtied d]> ds) =
                  on_range dirtied (S (S k) - S n) (Nat.min (S n) (S (S k))) ds).
    { apply list_eq. intros i. rewrite !lookup_on_range.
      destruct (decide (i = S k)) as [->|Hne].
      - rewrite list_lookup_insert_eq by done. rewrite Hd. unfold fmap, option_fmap, option_map.
        rewrite (decide_False (P := (S k - n <= S k < S k - n + Nat.min n (S k))%nat)) by lia.
        by rewrite decide_True by lia.
      - rewrite list_lookup_insert_ne by done. destruct (ds !! i); [|done].
        unfold fmap, option_fmap, option_map.
        destruct (decide (S k - n <= i < S k - n + Nat.min n (S k))%nat),
          (decide (S (S k) - S n <= i < S (S k) - S n + Nat.min (S n) (S (S k)))%nat); lia || done. }
    by rewrite Heq in Hb2.
Qed.

(** A line feed at the bottom of a screen without a region: a line is added, and is
    as long as the column of the cursor. *)
Definition feed_line (s : screen_state) : line :=
  (blank s) <| line_length := if reverse_video (q_status s) then WIDTH s else cursor_x (q_status s) |>.
Definition dirty_rows (s : screen_state) (ds : list line) : list line :=
  let n := Z.to_nat (rows s - 1) in on_range dirtied (length ds - n) (Nat.min n (length ds)) ds.
Definition feed_data (s : screen_state) (ds : list line) : list line :=
  dirty_rows s (without (full s (length ds)) (pushed s (length ds)) ds ++ [feed_line s]).

(** The whole screen is the scrolling region. *)
Definition no_region (s : screen_state) : bool :=
  (scroll_region_bottom (q_status s) =? rows s - 1) && (scroll_region_top (q_status s) =? 0).

(** What a line feed does to the lines and to the row. *)
Definition linefeed_data (s : screen_state) (ds : list line) : list line :=
  let q := q_status s in
  if cursor_y q <? scroll_region_bottom q then extend s ds (S (S (row_index s ds)))
  else if no_region s then feed_data s ds
  else scroll_up_data s (scroll_region_top q) 0 (scroll_region_bottom q) 256 1 ds.
Definition linefeed_row (q : q_status_struct) : Z :=
  if cursor_y q <? scroll_region_bottom q then cursor_y q + 1 else cursor_y q.

Lemma wp_next_row s ds (Q : unit -> screen_state -> Prop) :
  on_screen s ds -> cursor_y (q_status s) < rows s - 1 ->
  (forall t, reaches s t (extend s ds (S (S (row_index s ds)))) (cursor_x (q_status s))
               (cursor_y (q_status s) + 1) (vt100_wrap_line_flag s) -> Q tt t) ->
  wp (on_status (fun q => q <| cursor_y ::= Z.succ |>);; to_next_line) s Q.
Proof.
  intros H Hlt HQ. pose proof (row_below _ _ H Hlt) as Hrow. destruct H as [Hs Hy Hx].
  assert (Hcur : row_index s ds = (top_of s ds + Z.to_nat (cursor_y (q_status s)))%nat) by done.
  set (cur := row_index s ds) in *.
  set (s1 := s <| q_status ::= fun q => q <| cursor_y ::= Z.succ |> |>).
  assert (Hs1 : shows s1 ds cur) by (by apply (shows_frame s)).
  apply wp_bind, wp_modify. fold s1. apply (wp_to_next_line s1 ds cur); [done|].
  intros b n Hb. apply HQ.
  assert (Hadv : advance s1 ds cur = (extend s ds (S (S cur)), S cur)).
  { unfold advance. destruct Hrow as [Hin|[Hend Hroom]].
    - rewrite (proj2 (Nat.ltb_lt _ _) Hin). by rewrite extend_enough by lia.
    - rewrite (proj2 (Nat.ltb_ge _ _)) by lia. rewrite (grow_extend s1 ds cur Hs1 Hroom).
      change (extend s1) with (extend s). rewrite Hend. f_equal. rewrite length_extended. lia. }
  rewrite Hadv in Hb. cbn [fst snd] in Hb.
  apply (reaches_intro s _ _ (S cur)); [done|done|done|cbn; lia|done| |lia..].
  rewrite top_of_extend; [lia|]. destruct Hrow as [|[]]; lia.
Qed.

Lemma row_last s ds :
  on_screen s ds -> cursor_y (q_status s) = rows s - 1 ->
  S (row_index s ds) = length ds /\ (nrows s <= length ds)%nat.
Proof.
  intros [Hs Hy Hx] Hl. pose proof (shows_cur _ _ _ Hs) as Hcur. unfold row_index, top_of, nrows in *. lia.
Qed.

Lemma length_feed s ds l :
  config_ok s -> ds <> [] -> length (without (full s (length ds)) (pushed s (length ds)) ds ++ [l]) = length (grow s ds).
Proof. intros Hc Hne. unfold grow. rewrite !length_app. done. Qed.

Lemma length_dirty_rows s ds : length (dirty_rows s ds) = length ds.
Proof. apply length_on_range. Qed.

Lemma wp_feed s ds (Q : unit -> screen_state -> Prop) :
  on_screen s ds -> cursor_y (q_status s) = rows s - 1 ->
  (forall t, reaches s t (feed_data s ds) (cursor_x (q_status s)) (cursor_y (q_status s))
               (vt100_wrap_line_flag s) -> Q tt t) ->
  wp (to_next_line;;
      p ← pointer q_scrollback_current;
      update p (fun l => l <| line_length := if reverse_video (q_status s) then WIDTH s else cursor_x (q_status s) |>);;
      position ← pointer q_scrollback_position;
      mark_dirty (Z.to_nat (rows s - 1)) position) s Q.
Proof.
  intros H Hl HQ. destruct (row_last _ _ H Hl) as [Hlast Hrows]. destruct H as [Hs Hy Hx].
  pose proof (sh_config _ _ _ Hs) as Hc. pose proof (cfg_width _ Hc) as HW.
  assert (Hne : ds <> []) by (intros ->; cbn in Hlast; lia).
  apply wp_bind, (wp_to_next_line s ds (row_index s ds)); [done|]. intros b n Hb.
  unfold advance in Hb. rewrite (proj2 (Nat.ltb_ge _ _)) in Hb by lia. cbn [fst snd] in Hb.
  set (len := length (grow s ds)) in *.
  assert (Hlen : len = if full s (length ds) then length ds else S (length ds)) by by apply length_grow.
  assert (Hlen1 : (1 <= len)%nat /\ (nrows s <= len)%nat) by (destruct (full s (length ds)); lia).
  destruct (sh_holds _ _ _ Hb) as [ls Hls].
  assert (Hd : grow s ds !! pred len = Some (blank s)).
  { unfold grow. rewrite lookup_app_r; rewrite length_without by (apply pushed_lt; [done|lia]).
    - assert (pred len - (if full s (length ds) then pred (length ds) else length ds) = 0)%nat as ->; [|done].
      destruct (full s (length ds)); lia.
    - destruct (full s (length ds)); lia. }
  set (L := if reverse_video (q_status s) then WIDTH s else cursor_x (q_status s)) in *.
  assert (Hok : line_ok (feed_line s)).
  { pose proof (blank_ok s Hc) as []. split; [done|done|]. cbn. fold L. unfold L. destruct (reverse_video _); lia. }
  apply wp_bind, wp_gets, wp_bind.
  change (q_scrollback_current (buffer (drawn s b n))) with (q_scrollback_current b).
  assert (Hls' : holds b ls (grow s ds) (pred len)) by exact Hls.
  pose proof (acts_update_to (drawn s b n) (ls !! pred len) (before ls (pred len)) (ls !! S (pred len))
    (fun l => l <| line_length := L |>) (blank s) (feed_line s) eq_refl eq_refl Hok) as A.
  destruct (A b ls _ _ (pred len) Hls') as (b1 & E1 & Hb1); [done|done|].
  rewrite (holds_current _ _ _ _ Hls').
  change ((drawn s b n) <| buffer := b |>) with (drawn s b n) in E1.
  change ((drawn s b n) <| buffer := b1 |>) with (drawn s b1 n) in E1.
  apply (wp_done _ _ _ _ _ E1), wp_bind, wp_gets.
  change (q_scrollback_position (buffer (drawn s b1 n))) with (q_scrollback_position b1).
  set (ds1 := <[pred len := feed_line s]> (grow s ds)) in *.
  assert (Hds1 : ds1 = without (full s (length ds)) (pushed s (length ds)) ds ++ [feed_line s]).
  { unfold ds1, grow. assert (pred len = length (without (full s (length ds)) (pushed s (length ds)) ds) + 0)%nat as ->.
    { rewrite length_without by (apply pushed_lt; [done|lia]). destruct (full s (length ds)); lia. }
    by rewrite insert_app_r. }
  assert (Hl1 : length ds1 = len) by (unfold ds1; by rewrite length_insert).
  destruct (mark_dirty_spec (Z.to_nat (rows s - 1)) (drawn s b1 n) ls ds1 (pred len) (pred len) (q_scrollback_position b1) Hb1)
    as (b2 & E2 & Hb2).
  { lia. }
  { rewrite (holds_position _ _ _ _ Hb1), last_lookup, (holds_length _ _ _ _ Hb1), Hl1. done. }
  apply (wp_done _ _ _ _ _ E2), HQ.
  replace (S (pred len)) with (length ds1) in Hb2 by lia.
  assert (Hfd : feed_data s ds = dirty_rows s ds1) by (unfold feed_data; by rewrite Hds1).
  rewrite Hfd. unfold dirty_rows. cbv zeta.
  apply (reaches_intro s _ _ (pred len)); [done| |done|done|done| |done|done].
  - eapply (shows_buffer (drawn s b1 n) ds1 (pred len)); [|exact Hb2|apply length_on_range].
    apply (shows_buffer (drawn s b n) (grow s ds) (pred len) b1 ls); [exact Hb|exact Hb1|done].
  - rewrite (top_of_length s ds1) by apply length_on_range. unfold top_of. rewrite Hl1, Hl. unfold nrows in *. lia.
Qed.

(** What the data functions read: the frame and the cursor. *)
Definition with_cursor (x y : Z) (s : screen_state) : screen_state :=
  s <| q_status ::= fun q => q <| cursor_x := x |> <| cursor_y := y |> |>.
Definition core (s : screen_state) : screen_state :=
  with_cursor (cursor_x (q_status s)) (cursor_y (q_status s)) (frame s).

Lemma silent_core s t : silent s t -> core t = core s.
Proof. intros [Hf _ _ Hx Hy _]. unfold core. rewrite Hf, Hx, Hy. reflexivity. Qed.

Lemma linefeed_data_core s ds : linefeed_data (core s) ds = linefeed_data s ds.
Proof. reflexivity. Qed.

(** cursor_linefeed() *)
Lemma wp_cursor_linefeed s ds (new_line_mode : bool) (Q : unit -> screen_state -> Prop) :
  on_screen s ds ->
  (forall t, reaches s t (linefeed_data s ds) (if new_line_mode then 0 else cursor_x (q_status s))
               (linefeed_row (q_status s)) false -> Q tt t) ->
  wp (cursor_linefeed new_line_mode) s Q.
Proof.
  intros H HQ. unfold cursor_linefeed. apply wp_bind, wp_gets. cbv beta.
  apply wp_bind, (quiet_use _ _ _ (capture_feed_quiet s)). intros [] t Ht.
  pose proof (reaches_silent _ _ _ _ _ _ _ (reaches_refl s ds H) Ht) as Hst.
  pose proof (re_screen _ _ _ _ _ _ Hst) as Hos. apply wp_bind, wp_get. cbv beta zeta.
  assert (Hrest : forall u w, reaches t u (linefeed_data t ds) (cursor_x (q_status t)) (linefeed_row (q_status t)) w ->
    wp (whenM new_line_mode (on_status (fun q => q <| cursor_x := 0 |>));;
        set_wrap_flag false;; tell_script 0x0A) u Q).
  { intros u w Hu.
    assert (Hds : linefeed_data t ds = linefeed_data s ds).
    { rewrite <- (linefeed_data_core t), (silent_core _ _ Ht). apply linefeed_data_core. }
    assert (Hrow : linefeed_row (q_status t) = linefeed_row (q_status s)).
    { unfold linefeed_row. destruct (region_frame _ _ (silent_frame _ _ Ht)) as [_ ->]. by rewrite (silent_y _ _ Ht). }
    rewrite Hds, Hrow, (silent_x _ _ Ht) in Hu.
    pose proof (reaches_trans _ _ _ _ _ _ _ _ _ _ _ Hst Hu) as Hsu.
    assert (Hlast : forall v, reaches s v (linefeed_data s ds) (if new_line_mode then 0 else cursor_x (q_status s))
               (linefeed_row (q_status s)) w -> wp (set_wrap_flag false;; tell_script 0x0A) v Q).
    { intros v Hv. apply wp_bind, wp_modify.
      apply (quiet_use _ _ _ (tell_script_quiet _ _)). intros [] v' Hv'. apply HQ.
      eapply reaches_silent; [|exact Hv']. by eapply set_wrap_flag_reaches. }
    apply wp_bind. destruct new_line_mode; cbn [whenM].
    - apply (wp_set_x s (linefeed_data s ds) u _ _ _ 0 _ Hsu); [lia|]. intros v Hv. by apply Hlast.
    - apply wp_ret. by apply Hlast. }
  pose proof (os_config _ _ Hos) as Hc. pose proof (cfg_region _ Hc) as HR. pose proof (os_y _ _ Hos) as Hy.
  apply wp_bind. unfold linefeed_data, linefeed_row in Hrest. cbv zeta in Hrest.
  destruct (Z.ltb_spec (cursor_y (q_status t)) (scroll_region_bottom (q_status t))) as [Hlt|Hge].
  - apply (wp_next_row t ds); [done|lia|]. intros u Hu. by eapply Hrest.
  - change (HEIGHT t - STATUS_HEIGHT t - 1) with (rows t - 1). fold (no_region t).
    destruct (no_region t) eqn:En.
    + unfold no_region in En. apply andb_prop in En as [En _]. apply Z.eqb_eq in En.
      apply (wp_feed t ds); [done|lia|]. intros u Hu. by eapply Hrest.
    + unfold scrolling_region_scroll_up. apply (wp_scroll_up t ds); [done|apply Hc|lia|lia|unfold Q_MAX_LINE_LENGTH; lia|lia|].
      intros u Hu. by eapply Hrest.
Qed.

(** cursor_carriage_return() *)
Lemma wp_cursor_carriage_return s ds (Q : unit -> screen_state -> Prop) :
  on_screen s ds ->
  (let lf := line_feed_on_cr (q_status s) in
   forall t, reaches s t (if lf then linefeed_data (at_column s 0) ds else ds) 0
               (if lf then linefeed_row (q_status s) else cursor_y (q_status s)) false -> Q tt t) ->
  wp cursor_carriage_return s Q.
Proof.
  intros H HQ. unfold cursor_carriage_return. cbv zeta in HQ. apply wp_bind, wp_modify.
  change (s <| q_status ::= _ |>) with (at_column s 0).
  pose proof (reaches_status s ds _ _ _ s 0 (reaches_refl s ds H) ltac:(lia)) as H1. fold (at_column s 0) in H1.
  pose proof (re_screen _ _ _ _ _ _ H1) as Hos. apply wp_bind, wp_gets.
  change (line_feed_on_cr (q_status (at_column s 0))) with (line_feed_on_cr (q_status s)).
  assert (Hrest : forall t w, reaches s t (if line_feed_on_cr (q_status s) then linefeed_data (at_column s 0) ds else ds) 0
     (if line_feed_on_cr (q_status s) then linefeed_row (q_status s) else cursor_y (q_status s)) w ->
     wp (set_wrap_flag false;; tell_script 0x0D) t Q).
  { intros t w Ht. apply wp_bind, wp_modify.
    apply (quiet_use _ _ _ (tell_script_quiet _ _)). intros [] u Hu. apply HQ.
    eapply reaches_silent; [|exact Hu]. by eapply set_wrap_flag_reaches. }
  apply wp_bind. destruct (line_feed_on_cr (q_status s)); cbn [whenM].
  - apply (wp_cursor_linefeed (at_column s 0) ds); [done|]. intros t Ht. eapply Hrest.
    eapply reaches_trans; [exact H1|exact Ht].
  - apply wp_ret. by eapply Hrest.
Qed.

(** wrap_current_line(): the next row, or a scroll at the bottom of the screen. *)
Definition wrap_data (s : screen_state) (ds : list line) : list line :=
  if cursor_y (q_status s) <? rows s - 1 then extend s ds (S (S (row_index s ds))) else grow s ds.

Lemma wp_wrap_current_line s ds (Q : unit -> screen_state -> Prop) :
  on_screen s ds ->
  (forall t, reaches s t (wrap_data s ds) 0 (Z.min (rows s - 1) (cursor_y (q_status s) + 1))
               (vt100_wrap_line_flag s) -> Q tt t) ->
  wp wrap_current_line s Q.
Proof.
  intros H HQ. unfold wrap_current_line. pose proof H as [Hs Hy Hx].
  apply wp_bind, (wp_to_next_line s ds (row_index s ds)); [done|]. intros b n Hb.
  apply wp_bind, wp_get. cbv beta. set (t := drawn s b n) in *.
  change (HEIGHT t - STATUS_HEIGHT t - 1) with (rows s - 1). change (cursor_y (q_status t)) with (cursor_y (q_status s)).
  assert (Hrest : forall u, reaches s u (wrap_data s ds) (cursor_x (q_status s)) (Z.min (rows s - 1) (cursor_y (q_status s) + 1))
            (vt100_wrap_line_flag s) -> wp (on_status (fun q => q <| cursor_x := 0 |>);; capture_line_end) u Q).
  { intros u Hu. apply wp_bind. apply (wp_set_x s _ u _ _ _ 0 _ Hu); [lia|]. intros v Hv.
    apply (quiet_use _ _ _ (capture_line_end_quiet v)). intros [] v' Hv'. apply HQ. by eapply reaches_silent. }
  pose proof (sh_config _ _ _ Hs) as Hc.
  unfold wrap_data, advance in *. apply wp_bind, wp_when; intros Hlt; rewrite Hlt in Hrest.
  - apply Z.ltb_lt in Hlt. destruct (row_below _ _ H Hlt) as [Hin|[Hend Hroom]].
    + rewrite (proj2 (Nat.ltb_lt _ _) Hin) in Hb. apply wp_modify, Hrest.
      rewrite extend_enough by lia.
      apply (reaches_intro s _ _ (S (row_index s ds))); [done| |done|cbn; lia|done|unfold row_index; lia|lia|done].
      by apply (shows_frame t).
    + rewrite (proj2 (Nat.ltb_ge _ _)) in Hb by lia. cbn [fst snd] in Hb.
      rewrite (grow_extend _ _ _ Hs Hroom), <- Hend in Hb. apply wp_modify, Hrest.
      rewrite length_extended in Hb.
      apply (reaches_intro s _ _ (S (row_index s ds))); [done| |done|cbn; lia|done| |lia|done].
      * apply (shows_frame t); [|done..].
        by replace (pred (Nat.max (length ds) (S (S (row_index s ds))))) with (S (row_index s ds)) in Hb by lia.
      * rewrite top_of_extend by lia. unfold row_index. lia.
  - apply Z.ltb_ge in Hlt. destruct (row_last s ds H ltac:(lia)) as [Hlast Hrows].
    rewrite (proj2 (Nat.ltb_ge _ _)) in Hb by lia. cbn [fst snd] in Hb. apply wp_ret, Hrest.
    assert (Hne : ds <> []) by (intros ->; cbn in Hlast; lia).
    assert (Hl : (nrows s <= length (grow s ds))%nat) by (rewrite length_grow by done; destruct (full s _); lia).
    apply (reaches_intro s _ _ (pred (length (grow s ds)))); [done|exact Hb|done|cbn; lia|done| |lia|done].
    unfold top_of, nrows in *. lia.
Qed.

End ScreenDraw.
End ScreenDraw.
