(* ===== verification/ScreenPrint.v ===== *)
(** print_character() on the list of lines, and the safety of every drawing
    operation. *)

From Stdlib Require Import ZArith Lia List Bool.
From stdpp Require Import base list numbers gmap strings.
From S2P Require Import Prelude Stdio States Colors Screen ScreenList ScreenState ScreenLine ScreenSpec ScreenScroll ScreenCursor ScreenDraw.
Import Colors Screen ScreenList ScreenState ScreenLine ScreenSpec ScreenScroll ScreenCursor ScreenDraw.

Module ScreenPrint.

Section ScreenPrint.
Context {C : Curses}.

(** ** Printing *)

Definition print_margin (s : screen_state) (d : line) : Z := halve_margin d (emulation_margin s).

Lemma print_margin_lt s d : config_ok s -> print_margin s d < 256.
Proof.
  intros Hc. pose proof (cfg_margin _ Hc). pose proof (cfg_width _ Hc). apply halve_margin_le.
  unfold emulation_margin. destruct (emulation (q_status s)), (assume_80_columns (q_status s)),
    (atascii_has_wide_font (q_status s)), (petscii_has_wide_font (q_status s)),
    (Z.ltb_spec 0 (q_emulation_right_margin s)); lia.
Qed.

(** At the margin with wrapping on. *)
Definition at_margin (s : screen_state) (d : line) : bool :=
  (cursor_x (q_status s) =? print_margin s d) && line_wrap (q_status s).
(** The VT100 wraps before it prints the character after the one in the margin; the
    other emulations wrap after that one. *)
Definition wraps_first (s : screen_state) (d : line) : bool :=
  at_margin s d && vt100_like (emulation (q_status s)) && vt100_wrap_line_flag s.
Definition wraps_last (s : screen_state) (d : line) : bool :=
  at_margin s d && negb (vt100_like (emulation (q_status s))).
Definition flag_after (s : screen_state) (d : line) : bool :=
  if at_margin s d && vt100_like (emulation (q_status s)) then negb (vt100_wrap_line_flag s)
  else if cursor_x (q_status s) <? print_margin s d then false else vt100_wrap_line_flag s.

(** The character stored at the cursor. *)
Definition put_at (s : screen_state) (character : Z) (ds : list line) : list line :=
  alter (put_data s character) (row_index s ds) ds.

Definition right_of (m x : Z) : Z := if m <? x + 1 then x else x + 1.

(** The check for the margin. *)
Lemma wp_check_wrap s t ds d (Q : bool -> screen_state -> Prop) :
  on_screen t ds -> silent s t ->
  (forall u, (if wraps_first s d
              then reaches t u (wrap_data t ds) 0 (Z.min (rows t - 1) (cursor_y (q_status t) + 1)) false
              else reaches t u ds (cursor_x (q_status t)) (cursor_y (q_status t)) (flag_after s d)) ->
     Q (wraps_last s d) u) ->
  wp (check_wrap (print_margin s d)) t Q.
Proof.
  intros H Hst HQ. pose proof Hst as [Hf _ _ Hx _ Hw].
  assert (Hlw : line_wrap (q_status t) = line_wrap (q_status s))
    by (change (line_wrap (q_status (frame t)) = line_wrap (q_status (frame s))); by rewrite Hf).
  assert (Hem : emulation (q_status t) = emulation (q_status s))
    by (change (emulation (q_status (frame t)) = emulation (q_status (frame s))); by rewrite Hf).
  unfold check_wrap. apply wp_bind, wp_get. cbv beta zeta. rewrite Hem, Hlw, Hw, Hx.
  unfold wraps_first, wraps_last, flag_after, at_margin in HQ.
  pose proof (reaches_refl t ds H) as Hr. rewrite Hw in Hr. rewrite Hx in *.
  set (m := print_margin s d) in *.
  destruct (Z.eqb_spec (cursor_x (q_status s)) m) as [Heq|Hne]; cbn [andb] in HQ.
  - assert (Hlt : (cursor_x (q_status s) <? m) = false) by (apply Z.ltb_ge; lia). rewrite Hlt in HQ.
    destruct (vt100_like (emulation (q_status s))); cbn [andb negb] in HQ.
    + rewrite andb_true_r, andb_false_r in HQ. apply wp_bind, wp_when; intros Hl; rewrite Hl in HQ; cbn [andb] in HQ.
      * apply wp_if; intros Hv; rewrite Hv in HQ.
        -- apply wp_bind, wp_modify.
           pose proof (set_wrap_flag_reaches _ _ _ _ _ _ false Hr) as Hr1.
           apply (wp_wrap_current_line _ ds); [apply Hr1|]. intros u Hu. apply wp_ret, HQ.
           eapply reaches_trans; [exact Hr1|]. exact Hu.
        -- apply wp_modify, wp_ret, HQ. by eapply set_wrap_flag_reaches.
      * apply wp_ret, HQ. exact Hr.
    + apply wp_ret. rewrite andb_true_r, andb_false_r in HQ. cbn [andb] in HQ. apply HQ. exact Hr.
  - apply wp_bind, wp_when; intros Hl.
    + apply Z.leb_le in Hl. rewrite (proj2 (Z.ltb_lt _ _)) in HQ by lia. apply wp_modify, wp_ret, HQ.
      by eapply set_wrap_flag_reaches.
    + apply Z.leb_gt in Hl. rewrite (proj2 (Z.ltb_ge _ _)) in HQ by lia. apply wp_ret, HQ. exact Hr.
Qed.

Lemma reaches_core s t ds x y w : reaches s t ds x y w -> core t = core (with_cursor x y s).
Proof.
  intros [Hf _ Hx Hy _]. unfold core. rewrite Hf, Hx, Hy. reflexivity.
Qed.

(** Putting a character. *)
Lemma wp_put_glyph s ds d character (Q : unit -> screen_state -> Prop) :
  on_screen s ds -> ds !! row_index s ds = Some d -> cursor_x (q_status s) <= line_length d ->
  (forall t, reaches s t (put_at s character ds) (cursor_x (q_status s)) (cursor_y (q_status s))
               (vt100_wrap_line_flag s) -> Q tt t) ->
  wp (put_cell character) s Q.
Proof.
  intros H Hd Hl HQ. pose proof (shows_line _ _ _ _ _ (os_shows _ _ H) Hd) as Hok. pose proof (os_x _ _ H) as Hx.
  apply (wp_on_line s ds d (put_data s character d)); [done|done| |].
  - apply acts_put; [done|done|lia].
  - intros t Ht. apply HQ. unfold put_at. by rewrite (alter_insert _ _ _ _ Hd).
Qed.

Lemma right_of_bound m x : m < 256 -> 0 <= x < 256 -> 0 <= right_of m x < 256.
Proof. intros Hm Hx. unfold right_of. destruct (Z.ltb_spec m (x + 1)); lia. Qed.

(** The steps after the character is stored. *)
Lemma wp_after_put s t ds x y w m (wrap changed : bool) character (Q : unit -> screen_state -> Prop) :
  reaches s t ds x y w -> m < 256 ->
  (forall u, (if wrap then reaches t u (wrap_data t ds) 0 (Z.min (rows t - 1) (y + 1)) w
              else reaches s u ds (if w then x else right_of m x) y w) -> Q tt u) ->
  wp (modify (fun s => s <| old_color := q_current_color s |>);;
      capture_character changed character;;
      s ← get;
      whenM (negb (vt100_wrap_line_flag s))
        (on_status (fun q => q <| cursor_x ::= fun x => if m <? x + 1 then x else x + 1 |>));;
      whenM wrap wrap_current_line) t Q.
Proof.
  intros Ht Hm HQ. pose proof (os_x _ _ (re_screen _ _ _ _ _ _ Ht)) as Hx. rewrite (re_x _ _ _ _ _ _ Ht) in Hx.
  apply wp_bind, wp_modify. set (t1 := t <| old_color := _ |>).
  assert (Hs1 : silent t t1) by done.
  pose proof (reaches_silent _ _ _ _ _ _ _ Ht Hs1) as Ht1.
  apply wp_bind, (quiet_use _ _ _ (capture_character_quiet changed character t1 ds _ (os_shows _ _ (re_screen _ _ _ _ _ _ Ht1)))).
  intros [] t2 Hs2. pose proof (reaches_silent _ _ _ _ _ _ _ Ht1 Hs2) as Ht2.
  apply wp_bind, wp_get. cbv beta. rewrite (re_wrap _ _ _ _ _ _ Ht2).
  assert (Hx2 : exists t3, wp (whenM (negb w) (on_status (fun q => q <| cursor_x ::= fun x => if m <? x + 1 then x else x + 1 |>))) t2
    (fun _ u => u = t3) /\ reaches s t3 ds (if w then x else right_of m x) y w).
  { destruct w; cbn [negb whenM].
    - exists t2. split; [by apply wp_ret|done].
    - eexists. split; [by apply wp_modify|].
      assert (Hx2 : right_of m x = right_of m (cursor_x (q_status t2))) by (by rewrite (re_x _ _ _ _ _ _ Ht2)).
      rewrite Hx2. apply (reaches_status s ds x y false t2 _ Ht2).
      apply (right_of_bound m); [done|]. by rewrite (re_x _ _ _ _ _ _ Ht2). }
  destruct Hx2 as (t3 & E & Ht3). apply wp_bind. eapply wp_mono; [exact E|]. intros [] u ->.
  destruct wrap; cbn [whenM].
  - apply (wp_wrap_current_line t3 ds); [apply Ht3|]. intros u Hu. apply HQ.
    assert (Hf3 : frame t3 = frame t) by (by rewrite (re_frame _ _ _ _ _ _ Ht3), (re_frame _ _ _ _ _ _ Ht)).
    rewrite (re_y _ _ _ _ _ _ Ht3), (re_wrap _ _ _ _ _ _ Ht3), (rows_frame _ _ Hf3) in Hu.
    assert (Hwd : wrap_data t3 ds = wrap_data t ds).
    { unfold wrap_data, row_index. rewrite (re_y _ _ _ _ _ _ Ht3), (re_y _ _ _ _ _ _ Ht), (rows_frame _ _ Hf3), (top_of_frame _ _ _ Hf3).
      assert (forall l k, extend t3 l k = extend t l k) as ->.
      { intros l k. change (extend (frame t3) l k = extend (frame t) l k). by rewrite Hf3. }
      assert (grow t3 ds = grow t ds) as ->; [|done].
      change (grow (frame t3) ds = grow (frame t) ds). by rewrite Hf3. }
    rewrite Hwd in Hu. destruct Hu as [Hf Hs' Hx' Hy' Hw']. split; [congruence|done..].
  - apply wp_ret, HQ. done.
Qed.

Lemma put_at_core s character ds : put_at (core s) character ds = put_at s character ds.
Proof. reflexivity. Qed.

Lemma wrap_data_core s ds : wrap_data (core s) ds = wrap_data s ds.
Proof. reflexivity. Qed.

(** The conditions for wrapping read only the frame and the cursor. *)
Lemma wrap_conditions s t d d' :
  core t = core s -> vt100_wrap_line_flag t = vt100_wrap_line_flag s -> double_width d' = double_width d ->
  print_margin t d' = print_margin s d /\ wraps_first t d' = wraps_first s d /\
  flag_after t d' = flag_after s d /\ wraps_last t d' = wraps_last s d.
Proof.
  intros Hc Hw Hd.
  assert (Hm : print_margin t d' = print_margin s d).
  { unfold print_margin, halve_margin. rewrite Hd.
    change (emulation_margin t) with (emulation_margin (core t)). by rewrite Hc. }
  assert (Ha : at_margin t d' = at_margin s d).
  { unfold at_margin. rewrite Hm. change (q_status t) with (q_status t).
    change ((cursor_x (q_status (core t)) =? print_margin s d) && line_wrap (q_status (core t)) =
            (cursor_x (q_status (core s)) =? print_margin s d) && line_wrap (q_status (core s))). by rewrite Hc. }
  assert (He : emulation (q_status t) = emulation (q_status s))
    by (change (emulation (q_status (core t)) = emulation (q_status (core s))); by rewrite Hc).
  assert (Hx : cursor_x (q_status t) = cursor_x (q_status s))
    by (change (cursor_x (q_status (core t)) = cursor_x (q_status (core s))); by rewrite Hc).
  unfold wraps_first, flag_after, wraps_last. by rewrite Hm, Ha, He, Hw, Hx.
Qed.

(** The rest of print_character() on a line that reaches to the cursor. *)
Definition stored (s : screen_state) (d : line) (character : Z) (ds : list line) : list line * Z * Z * bool :=
  let m := print_margin s d in
  let x := cursor_x (q_status s) in let y := cursor_y (q_status s) in
  let y1 := Z.min (rows s - 1) (y + 1) in
  if wraps_first s d then
    (put_at (with_cursor 0 y1 s) character (wrap_data s ds), right_of m 0, y1, false)
  else
    let ds1 := put_at s character ds in
    let w := flag_after s d in
    if wraps_last s d then (wrap_data s ds1, 0, y1, w)
    else (ds1, if w then x else right_of m x, y, w).

Lemma not_both_wraps s d : wraps_first s d = true -> wraps_last s d = false.
Proof.
  unfold wraps_first, wraps_last. destruct (vt100_like _); [intros _; apply andb_false_r|].
  by rewrite andb_false_r.
Qed.

Lemma wp_print_at s ds d character (Q : unit -> screen_state -> Prop) :
  on_screen s ds -> ds !! row_index s ds = Some d -> cursor_x (q_status s) <= line_length d ->
  (forall t ds' x y w, stored s d character ds = (ds', x, y, w) -> reaches s t ds' x y w -> Q tt t) ->
  wp (print_at (print_margin s d) character) s Q.
Proof.
  intros H Hd Hl HQ. pose proof (print_margin_lt s d (os_config _ _ H)) as Hm.
  unfold print_at. apply wp_bind, (wp_check_wrap s s ds d); [done|done|]. intros u Hu.
  unfold stored in HQ. cbv zeta in HQ. destruct (wraps_first s d) eqn:Ewf.
  - rewrite (not_both_wraps _ _ Ewf).
    destruct (os_line _ _ (re_screen _ _ _ _ _ _ Hu)) as (d1 & Hd1 & Hok1).
    apply wp_bind, (wp_put_glyph u (wrap_data s ds) d1);
      [apply Hu|done|rewrite (re_x _ _ _ _ _ _ Hu); pose proof (ok_length _ Hok1); lia|].
    intros v Hv. rewrite (re_x _ _ _ _ _ _ Hu), (re_y _ _ _ _ _ _ Hu), (re_wrap _ _ _ _ _ _ Hu) in Hv.
    rewrite <- put_at_core, (reaches_core _ _ _ _ _ _ Hu), put_at_core in Hv.
    apply wp_bind, wp_get. cbv beta zeta.
    eapply (wp_after_put s v _ 0 _ false _ false _ character _ (reaches_trans _ _ _ _ _ _ _ _ _ _ _ Hu Hv) Hm).
    intros z Hz. eapply HQ; [reflexivity|exact Hz].
  - assert (Hrow : row_index u ds = row_index s ds) by (by rewrite (reaches_row _ _ _ _ _ _ Hu)).
    apply wp_bind, (wp_put_glyph u ds d); [apply Hu|by rewrite Hrow|by rewrite (re_x _ _ _ _ _ _ Hu)|].
    intros v Hv. rewrite (re_x _ _ _ _ _ _ Hu), (re_y _ _ _ _ _ _ Hu), (re_wrap _ _ _ _ _ _ Hu) in Hv.
    rewrite <- put_at_core, (reaches_core _ _ _ _ _ _ Hu) in Hv.
    change (put_at (core (with_cursor (cursor_x (q_status s)) (cursor_y (q_status s)) s)) character ds)
      with (put_at s character ds) in Hv.
    pose proof (reaches_trans _ _ _ _ _ _ _ _ _ _ _ Hu Hv) as Hsv.
    apply wp_bind, wp_get. cbv beta zeta.
    eapply (wp_after_put s v _ _ _ _ _ (wraps_last s d) _ character _ Hsv Hm). intros z Hz.
    destruct (wraps_last s d); (eapply HQ; [reflexivity|]); [|exact Hz].
    rewrite (rows_frame _ _ (re_frame _ _ _ _ _ _ Hsv)), <- wrap_data_core, (reaches_core _ _ _ _ _ _ Hsv) in Hz.
    eapply reaches_trans; [exact Hsv|exact Hz].
Qed.

(** [stored] reads the frame, the cursor and the wrap flag. *)
Lemma stored_reaches s t d d' character ds ds' :
  reaches s t ds' (cursor_x (q_status s)) (cursor_y (q_status s)) (vt100_wrap_line_flag s) ->
  double_width d' = double_width d -> stored t d' character ds = stored s d character ds.
Proof.
  intros Ht Hdw. assert (Hcore : core t = core s) by (rewrite (reaches_core _ _ _ _ _ _ Ht); reflexivity).
  destruct (wrap_conditions s t d d' Hcore (re_wrap _ _ _ _ _ _ Ht) Hdw) as (Hpm & Hwf & Hfa & Hwl).
  unfold stored. rewrite Hpm, Hwf, Hfa, Hwl.
  assert (Hp : forall c l, put_at t c l = put_at s c l) by (intros c l; by rewrite <- put_at_core, Hcore).
  assert (Hw : forall l, wrap_data t l = wrap_data s l) by (intros l; by rewrite <- wrap_data_core, Hcore).
  rewrite Hp, !Hw, (re_x _ _ _ _ _ _ Ht), (re_y _ _ _ _ _ _ Ht), (rows_frame _ _ (re_frame _ _ _ _ _ _ Ht)).
  rewrite <- (put_at_core (with_cursor _ _ t)), <- (put_at_core (with_cursor _ _ s)).
  assert (Hcc : forall a b, core (with_cursor a b t) = core (with_cursor a b s)).
  { intros a b. change (with_cursor a b (frame t) = with_cursor a b (frame s)). by rewrite (re_frame _ _ _ _ _ _ Ht). }
  by rewrite Hcc.
Qed.

Lemma wp_print_visible s ds d character (Q : unit -> screen_state -> Prop) :
  on_screen s ds -> ds !! row_index s ds = Some d -> cursor_x (q_status s) <= line_length d ->
  (forall t ds' x y w, stored s d character (alter dirtied (row_index s ds) ds) = (ds', x, y, w) ->
     reaches s t ds' x y w -> Q tt t) ->
  wp (print_visible character) s Q.
Proof.
  intros H Hd Hl HQ. pose proof (shows_line _ _ _ _ _ (os_shows _ _ H) Hd) as Hok.
  set (ds0 := alter dirtied (row_index s ds) ds) in *.
  assert (Hd0 : ds0 !! row_index s ds = Some (dirtied d)) by (unfold ds0; by rewrite list_lookup_alter_eq, Hd).
  unfold print_visible. apply wp_bind.
  apply (wp_on_line s ds d (dirtied d)); [done|done|by apply acts_mark_dirty|]. intros t0 Ht0.
  rewrite <- (alter_insert dirtied _ _ _ Hd) in Ht0. fold ds0 in Ht0.
  apply wp_bind, (quiet_use _ _ _ (tell_script_quiet character t0)). intros [] t Hst.
  pose proof (reaches_silent _ _ _ _ _ _ _ Ht0 Hst) as Ht.
  pose proof (re_screen _ _ _ _ _ _ Ht) as Hos. destruct (sh_holds _ _ _ (os_shows _ _ Hos)) as [ls Hls].
  assert (Hrow : row_index t ds0 = row_index s ds).
  { rewrite (reaches_row _ _ _ _ _ _ Ht). unfold row_index. f_equal. apply top_of_length, length_alter. }
  assert (Hdt : ds0 !! row_index t ds0 = Some (dirtied d)) by (by rewrite Hrow).
  apply wp_bind, (wp_done _ _ _ _ _ (current_at t ls ds0 _ _ Hls Hdt)), wp_bind, wp_gets. cbv beta.
  change (halve_margin (relink ?p ?n (dirtied d)) (emulation_margin t)) with (print_margin t (dirtied d)).
  apply (wp_print_at t ds0 (dirtied d)); [done|done|by rewrite (re_x _ _ _ _ _ _ Ht)|].
  intros u ds' x y w Heq Hu. apply (HQ u ds' x y w); [|eapply reaches_trans; [exact Ht|exact Hu]].
  by rewrite <- Heq, (stored_reaches s t d (dirtied d) _ _ ds0 Ht eq_refl).
Qed.

(** print_visible() after the line of the cursor became [d1]. *)
Lemma wp_print_from s t ds ds1 d d1 c (Q : unit -> screen_state -> Prop) :
  length ds1 = length ds ->
  reaches s t ds1 (cursor_x (q_status s)) (cursor_y (q_status s)) (vt100_wrap_line_flag s) ->
  ds1 !! row_index s ds = Some d1 -> double_width d1 = double_width d -> cursor_x (q_status s) <= line_length d1 ->
  (forall u ds' x y w, stored s d c (alter dirtied (row_index s ds) ds1) = (ds', x, y, w) -> reaches s u ds' x y w -> Q tt u) ->
  wp (print_visible c) t Q.
Proof.
  intros Hlen Ht Hd1 Hdw Hl HQ.
  assert (Hrow : row_index t ds1 = row_index s ds).
  { rewrite (reaches_row _ _ _ _ _ _ Ht). unfold row_index. f_equal. by apply top_of_length. }
  apply (wp_print_visible t ds1 d1); [apply Ht|by rewrite Hrow|by rewrite (re_x _ _ _ _ _ _ Ht)|].
  intros u ds' x y w Heq Hu. rewrite Hrow, (stored_reaches s t d d1 _ _ ds1 Ht Hdw) in Heq.
  eapply HQ; [exact Heq|]. eapply reaches_trans; [exact Ht|exact Hu].
Qed.

(** print_character(): the line is first padded to the cursor. *)
Lemma wp_print_character s ds d character (Q : unit -> screen_state -> Prop) :
  on_screen s ds -> ds !! row_index s ds = Some d ->
  let ds1 := <[row_index s ds := pad_data (console s) (cursor_x (q_status s)) d]> ds in
  (forall t, reaches s t ds1 (cursor_x (q_status s)) (cursor_y (q_status s)) (vt100_wrap_line_flag s) ->
     character = 7 \/ (character = 0 /\ display_null (q_status s) = false) -> Q tt t) ->
  (forall t c ds' x y w, character <> 7 -> c = (if character =? 0 then 32 else character) ->
     stored s d c (alter dirtied (row_index s ds) ds1) = (ds', x, y, w) -> reaches s t ds' x y w -> Q tt t) ->
  wp (print_character character) s Q.
Proof.
  intros H Hd ds1 HQ1 HQ2. pose proof (shows_line _ _ _ _ _ (os_shows _ _ H) Hd) as Hok. pose proof (os_x _ _ H) as Hx.
  destruct (pad_data_spec (console s) (cursor_x (q_status s)) d Hok ltac:(lia)) as (Hok1 & Hl1 & (_ & Hdw & _) & _).
  set (d1 := pad_data (console s) (cursor_x (q_status s)) d) in *.
  assert (Hpad : wp (p ← pointer q_scrollback_current; pad_line p (cursor_x (q_status s))) s
    (fun _ t => reaches s t ds1 (cursor_x (q_status s)) (cursor_y (q_status s)) (vt100_wrap_line_flag s))).
  { apply (wp_on_line s ds d d1); [done|done| |done].
    apply (acts_at_current s (fun p => pad_line p (cursor_x (q_status s)))). intros p q n.
    apply acts_pad_line; [done|lia]. }
  assert (Hdone : forall t, reaches s t ds1 (cursor_x (q_status s)) (cursor_y (q_status s)) (vt100_wrap_line_flag s) ->
    wp (modify (fun s => if old_color s =? 0xdeadbeef then s <| old_color := q_current_color s |> else s);;
        if character =? 0x07 then emit Beep
        else if character =? 0x00 then
          shown ← status display_null;
          whenM shown (print_visible 32)
        else print_visible character) t Q).
  { intros t Ht. apply wp_bind, wp_modify.
    match goal with |- wp _ ?u _ => set (t1 := u) end.
    assert (Hst : silent t t1) by (unfold t1; cbv beta; destruct (old_color t =? 0xdeadbeef); done).
    pose proof (reaches_silent _ _ _ _ _ _ _ Ht Hst) as Ht1. clearbody t1.
    assert (Hvis : forall c, character <> 7 -> c = (if character =? 0 then 32 else character) -> wp (print_visible c) t1 Q).
    { intros c H7 Hc. apply (wp_print_from s t1 ds ds1 d d1 c); [by unfold ds1; rewrite length_insert|done| |done|lia|by intros; eapply HQ2].
      unfold ds1. rewrite list_lookup_insert_eq; [done|]. by apply lookup_lt_Some in Hd. }
    destruct (Z.eqb_spec character 7) as [->|H7].
    - apply wp_modify, HQ1; [|by left]. apply (reaches_silent _ _ _ _ _ _ _ Ht1). done.
    - destruct (Z.eqb_spec character 0) as [H0|H0].
      + apply wp_bind, wp_gets, wp_when; intros Hn; [by apply Hvis|]. apply HQ1; [done|].
        right. split; [done|]. rewrite <- Hn.
        change (display_null (q_status (frame s)) = display_null (q_status (frame t1))).
        by rewrite (re_frame _ _ _ _ _ _ Ht1).
      + by apply Hvis. }
  apply wp_bind, wp_gets, wp_bind, wp_gets, wp_bind. eapply wp_mono; [exact Hpad|]. intros [] t Ht. by apply Hdone.
Qed.

End ScreenPrint.
End ScreenPrint.
