(* ===== verification/ScreenCommand.v ===== *)
(** Every sequence of drawing operations: none of them indexes outside a line, follows
    a null or freed pointer, or loops for ever, and the current line stays the one in
    the row of the cursor. *)

From Stdlib Require Import ZArith Lia List Bool.
From stdpp Require Import base list numbers gmap strings.
From S2P Require Import Prelude Stdio States Colors Screen ScreenList ScreenState ScreenLine ScreenSpec ScreenScroll ScreenCursor ScreenDraw ScreenPrint.
Import Colors Screen ScreenList ScreenState ScreenLine ScreenSpec ScreenScroll ScreenCursor ScreenDraw ScreenPrint.

Module ScreenCommand.

(** What the emulations ask of the screen. *)
Inductive command :=
| Print (character : Z)
| Up (count : Z) (honor : bool)
| Down (count : Z) (honor : bool)
| Left (count : Z) (honor : bool)
| Right (count : Z) (honor : bool)
| Position (row col : Z)
| Linefeed (new_line_mode : bool)
| Carriage_return
| Formfeed
| Fill (start end_ character : Z) (honor : bool)
| Erase_screen (start_row start_col end_row end_col : Z) (honor : bool)
| Scroll_up (top left bottom right count : Z)
| Scroll_down (top left bottom right count : Z)
| Delete (count : Z)
| Insert (count : Z)
| Double_width (on : bool)
| Double_height (height : Z)
| Single_width (start_row end_row : Z)
| Invert.

Section ScreenCommand.
Context {C : Curses}.

Definition run (c : command) : SM unit :=
  match c with
  | Print character => print_character character
  | Up count honor => cursor_up count honor
  | Down count honor => cursor_down count honor
  | Left count honor => cursor_left count honor
  | Right count honor => cursor_right count honor
  | Position row col => cursor_position row col
  | Linefeed new_line_mode => cursor_linefeed new_line_mode
  | Carriage_return => cursor_carriage_return
  | Formfeed => cursor_formfeed
  | Fill start end_ character honor => fill_line_with_character start end_ character honor
  | Erase_screen r1 c1 r2 c2 honor => erase_screen r1 c1 r2 c2 honor
  | Scroll_up r1 c1 r2 c2 count => rectangle_scroll_up r1 c1 r2 c2 count
  | Scroll_down r1 c1 r2 c2 count => rectangle_scroll_down r1 c1 r2 c2 count
  | Delete count => delete_character count
  | Insert count => insert_blanks count
  | Double_width on => set_double_width on
  | Double_height height => set_double_height height
  | Single_width r1 r2 => set_single_width r1 r2
  | Invert => invert_scrollback_colors
  end.

(** The arguments that the code does not check. *)
Definition in_bounds (s : screen_state) (c : command) : Prop :=
  match c with
  | Position row col => 0 <= row /\ 0 <= col
  | Fill start end_ _ _ => 0 <= start /\ end_ < 256
  | Erase_screen _ _ r2 c2 _ => r2 < rows s /\ c2 < 256
  | Scroll_up r1 c1 r2 c2 count | Scroll_down r1 c1 r2 c2 count =>
      0 <= r1 /\ r2 < rows s /\ 0 <= c1 /\ c2 <= 256 /\ 0 <= count
  | Insert count => 0 <= count /\ cursor_x (q_status s) + count <= 256
  | Single_width _ r2 => r2 < rows s
  | _ => True
  end.

(** Some list of lines is on the screen, the current line in the cursor's row. *)
Definition visible (s : screen_state) : Prop := exists ds, on_screen s ds.

Definition keeps (m : SM unit) (s : screen_state) : Prop := wp m s (fun _ t => frame t = frame s /\ visible t).

Lemma keeps_reaches s t ds x y w : reaches s t ds x y w -> frame t = frame s /\ visible t.
Proof. intros [Hf Hs _ _ _]. split; [done|by exists ds]. Qed.

(** The end of a proof of [keeps]: some lines are reached. *)
Ltac by_reaches := intros; eapply keeps_reaches; eassumption.

(** An operation on the current line. *)
Lemma keeps_line s ds m :
  on_screen s ds -> (forall d, line_ok d -> exists d', acts_current s m d d') -> keeps m s.
Proof.
  intros H Hm. destruct (os_line _ _ H) as (d & Hd & Hok). destruct (Hm d Hok) as [d' Hd'].
  apply (wp_on_line s ds d d'); [done..|by_reaches].
Qed.

(** An operation that neither scrolls nor moves the cursor. *)
Lemma keeps_rows s ds m g r1 r2 :
  on_screen s ds -> 0 <= r1 <= r2 -> r2 < rows s ->
  (forall b n d, line_ok d -> acts_current (drawn s b n) m d (g d)) -> keeps (on_rows r1 r2 m) s.
Proof.
  intros H H1 H2 Hm. apply (wp_lines_drawn s ds _ (fun s => rows_data s g r1 r2)); [done| | |by_reaches].
  - intros Q HQ. by apply (wp_on_rows s ds (row_index s ds) m g _ _ _ (os_shows _ _ H)).
  - by apply top_of_rows_data.
Qed.

Lemma keeps_erase s ds r1 c1 r2 c2 honor :
  on_screen s ds -> r2 < rows s -> c2 < 256 -> keeps (erase_screen r1 c1 r2 c2 honor) s.
Proof.
  intros H Hr Hc. pose proof (os_config _ _ H) as Hcfg. unfold erase_screen, keeps.
  apply wp_if; intros E; [apply wp_ret; split; [done|by exists ds]|].
  repeat (apply orb_false_elim in E as [E ?]). rewrite !Z.ltb_ge in *.
  apply (keeps_rows s ds _ (fill_data s c1 c2 32 honor)); [done|lia|done|].
  intros b n d Hd. apply (acts_fill (drawn s b n)); [done|lia|done|apply Hcfg].
Qed.

Lemma keeps_feeds s ds (xs : list Z) :
  on_screen s ds -> keeps (forM xs (fun _ => cursor_linefeed false)) s.
Proof.
  revert s ds. induction xs as [|x xs IH]; intros s ds H; cbn [forM].
  - apply wp_ret. split; [done|by exists ds].
  - apply wp_bind, (wp_cursor_linefeed s ds); [done|]. intros t [Hf Ht _ _ _].
    eapply wp_mono; [by eapply IH|]. intros _ u [Hu Hv]. split; [congruence|done].
Qed.

Lemma keeps_formfeed s ds : on_screen s ds -> keeps cursor_formfeed s.
Proof.
  intros H. unfold cursor_formfeed. apply wp_bind, wp_get, wp_bind.
  eapply wp_mono; [by eapply keeps_feeds|]. intros [] t [Hf [ds1 Ht]]. pose proof (os_config _ _ Ht) as Hc.
  apply wp_bind, wp_get, wp_bind.
  eapply wp_mono; [apply (keeps_erase t ds1); [done|unfold rows; lia|pose proof (cfg_width _ Hc); lia]|].
  intros [] u [Hf' [ds2 Hu]]. destruct (os_line _ _ Hu) as (d & Hd & _).
  apply (wp_cursor_position u ds2 d); [done|done|lia|lia|]. intros v Hv.
  destruct (keeps_reaches _ _ _ _ _ _ Hv). split; [congruence|done].
Qed.

Definition inverted (s : screen_state) (d : line) : line :=
  let d1 := d <| dirty := true |> <| reverse_color ::= negb |> in
  if line_length d <? WIDTH s then fill_data s (line_length d) (WIDTH s - 1) 32 false d1 else d1.

Lemma acts_invert s d :
  line_ok d -> 1 <= WIDTH s <= 256 -> acts_current s invert_row d (inverted s d).
Proof.
  intros Hok HW. set (d1 := d <| dirty := true |> <| reverse_color ::= negb |>).
  assert (Hok1 : line_ok d1) by by destruct Hok.
  pose proof (acts_update_current s (fun l => l <| dirty := true |> <| reverse_color ::= negb |>) d
    (fun _ _ => eq_refl) Hok1) as A.
  assert (B : acts_current s (if line_length d <? WIDTH s then erase_line (line_length d) (WIDTH s - 1) false else mret tt)
     d1 (inverted s d)).
  { unfold inverted. fold d1. destruct (Z.ltb_spec (line_length d) (WIDTH s)) as [Hl|Hl]; [|apply acts_current_ret].
    apply acts_fill; [done|pose proof (ok_length _ Hok); lia|lia|done]. }
  intros b ls ds k H Hd. destruct (A b ls ds k H Hd) as (b1 & E1 & Hb1). fold d1 in Hb1.
  assert (Hd1 : <[k := d1]> ds !! k = Some d1) by (apply list_lookup_insert_eq; by apply lookup_lt_Some in Hd).
  destruct (B b1 ls _ k Hb1 Hd1) as (b2 & E2 & Hb2). rewrite list_insert_insert_eq in Hb2.
  exists b2. split; [|done].
  assert (Hp : q_scrollback_current b1 = q_scrollback_current b)
    by (by rewrite (holds_current _ _ _ _ Hb1), (holds_current _ _ _ _ H)).
  assert (E0 : forall (k : option positive -> SM unit) t,
    (p ← pointer q_scrollback_current; k p) t = k (q_scrollback_current (buffer t)) t) by done.
  unfold invert_row. rewrite E0 in E1 |- *. rewrite (bind_done _ _ _ _ _ E1).
  change (q_scrollback_current (buffer (s <| buffer := b |>))) with (q_scrollback_current b).
  rewrite <- Hp, (holds_current _ _ _ _ Hb1).
  destruct (holds_deref _ _ _ _ k _ _ (s <| buffer := b1 |>) Hb1 eq_refl Hd1 (buffer_set s b1)) as [E _].
  rewrite (bind_done _ _ _ _ _ E). exact E2.
Qed.

Lemma invert_on_rows s : invert_scrollback_colors s = on_rows 0 (rows s - 1) invert_row s.
Proof.
  unfold invert_scrollback_colors, on_rows, rows. rewrite (bind_done _ _ _ _ _ (eq_refl : get s = Done (s, s))).
  cbv zeta. change (HEIGHT s - STATUS_HEIGHT s - 1 + 1 - 0) with (HEIGHT s - STATUS_HEIGHT s - 1 + 1 + - 0).
  rewrite Z.add_0_r. reflexivity.
Qed.

Lemma keeps_invert s ds : on_screen s ds -> keeps invert_scrollback_colors s.
Proof.
  intros H. unfold keeps, wp. rewrite invert_on_rows. pose proof (cfg_rows _ (os_config _ _ H)).
  apply (keeps_rows s ds _ (inverted s)); [done|lia|lia|].
  intros b n d Hd. apply (acts_invert (drawn s b n)); [done|apply (os_config _ _ H)].
Qed.

Lemma keeps_print s ds character : on_screen s ds -> keeps (print_character character) s.
Proof.
  intros H. destruct (os_line _ _ H) as (d & Hd & _).
  apply (wp_print_character s ds d); [done|done|by_reaches|by_reaches].
Qed.

Lemma keeps_fill s ds start end_ character honor :
  on_screen s ds -> 0 <= start -> end_ < 256 -> keeps (fill_line_with_character start end_ character honor) s.
Proof.
  intros H Hs He. pose proof (os_config _ _ H) as Hc. destruct (Z.ltb_spec end_ start) as [Hlt|Hge].
  - unfold fill_line_with_character. rewrite (proj2 (Z.ltb_lt _ _)) by done.
    apply wp_ret. split; [done|by exists ds].
  - apply (keeps_line s ds); [done|]. intros d Hok. eexists. apply acts_fill; [done|lia|lia|apply Hc].
Qed.

(** The attributes of a line. *)
Definition with_width (on : bool) (height : Z) (d : line) : line :=
  d <| double_width := on |> <| double_height := height |>.

Lemma acts_with_width s on height d :
  line_ok d -> acts_current s (p ← pointer q_scrollback_current; update p (with_width on height)) d (with_width on height d).
Proof. intros Hd. apply acts_update_current; [done|by destruct Hd]. Qed.

Lemma keeps_single_width s ds r1 r2 : on_screen s ds -> r2 < rows s -> keeps (set_single_width r1 r2) s.
Proof.
  intros H Hr. unfold set_single_width. apply wp_if; intros E; [apply wp_ret; split; [done|by exists ds]|].
  repeat (apply orb_false_elim in E as [E ?]). rewrite !Z.ltb_ge in *.
  apply (keeps_rows s ds _ (with_width false 0)); [done|lia|done|].
  intros b n d Hd. exact (acts_with_width (drawn s b n) false 0 d Hd).
Qed.

Lemma keeps_run s ds c : on_screen s ds -> in_bounds s c -> keeps (run c) s.
Proof.
  intros H Hb. destruct (os_line _ _ H) as (d & Hd & Hok). pose proof (os_x _ _ H) as Hx.
  destruct c; cbn [run in_bounds] in *.
  - by eapply keeps_print.
  - apply (wp_cursor_up s ds); [exact H|by_reaches].
  - apply (wp_cursor_down s ds); [exact H|by_reaches].
  - apply (wp_cursor_left s ds); [exact H|by_reaches].
  - apply (wp_cursor_right s ds); [exact H|by_reaches].
  - apply (wp_cursor_position s ds d); [exact H|exact Hd|lia|lia|by_reaches].
  - apply (wp_cursor_linefeed s ds); [exact H|by_reaches].
  - apply (wp_cursor_carriage_return s ds); [exact H|by_reaches].
  - by eapply keeps_formfeed.
  - destruct Hb. apply (keeps_fill s ds); [exact H|assumption..].
  - destruct Hb. apply (keeps_erase s ds); [exact H|assumption..].
  - apply (wp_scroll_up s ds); [exact H|lia..|by_reaches].
  - apply (wp_scroll_down s ds); [exact H|lia..|by_reaches].
  - apply (keeps_line s ds); [exact H|]. intros e He. eexists. by apply acts_delete_character.
  - apply (keeps_line s ds); [exact H|]. intros e He. eexists. apply acts_insert_blanks; [done|done|lia|lia].
  - apply (keeps_line s ds); [exact H|]. intros e He. eexists. exact (acts_with_width s on 0 e He).
  - apply (keeps_line s ds); [exact H|]. intros e He. eexists. exact (acts_with_width s true height e He).
  - apply (keeps_single_width s ds); [exact H|exact Hb].
  - by eapply keeps_invert.
Qed.

(** One operation with its arguments in bounds. *)
Inductive draws (s t : screen_state) : Prop :=
| Draw c : in_bounds s c -> run c s = Done (tt, t) -> draws s t.

Lemma draws_keep s t : rtc draws s t -> visible s -> frame t = frame s /\ visible t.
Proof.
  induction 1 as [s|s t u [c Hb E] _ IH]; intros Hv; [done|]. destruct Hv as [ds Hv].
  destruct (run_wp _ _ _ _ _ E (keeps_run _ _ _ Hv Hb)) as [Hf Ht].
  destruct (IH Ht) as [Hf' Hu]. split; [congruence|done].
Qed.

End ScreenCommand.
End ScreenCommand.
