(* ===== verification/ScreenOpen.v ===== *)
(** The first screen: from an empty buffer console_refresh() makes one on which the
    invariant of drawing holds. *)

From Stdlib Require Import ZArith Lia List Bool.
From stdpp Require Import base list numbers gmap strings.
From S2P Require Import Prelude Stdio States Colors Codepage Screen ScreenList ScreenState ScreenLine ScreenSpec ScreenScroll ScreenCursor ScreenCommand.
Import Colors Codepage Screen ScreenList ScreenState ScreenLine ScreenSpec ScreenScroll ScreenCursor ScreenCommand.

Module ScreenOpen.

Section ScreenOpen.
Context {C : Curses}.

(** No line yet; the lines that scroll away will be kept. *)
Record fresh (s : screen_state) : Prop := {
  fr_config : config_ok s;
  fr_buffer : buffer s = no_lines;
  fr_lines : scrollback_lines (q_status s) = 0;
  fr_kept : scrollback_enabled (q_status s) = true
}.

(** The first line. *)
Lemma first_line_shows s :
  fresh s -> exists b n, new_scrollback_line s = Done (tt, drawn s b n) /\ shows (drawn s b n) [blank s] 0.
Proof.
  intros [Hc Hb Hn Hk]. pose proof (cfg_rows _ Hc). pose proof (cfg_max _ Hc).
  set (b := {| store_of := {[1%positive := blank s]}; brk := 2%positive; q_scrollback_buffer := Some 1%positive;
               q_scrollback_last := Some 1%positive; q_scrollback_current := Some 1%positive;
               q_scrollback_position := Some 1%positive |}).
  assert (Hholds : holds b [1%positive] [blank s] 0).
  { split; try done.
    - apply NoDup_singleton.
    - intros [|k] a d; [|done]. intros [= <-] [= <-]. split; [|by apply blank_ok]. apply lookup_singleton_eq.
    - intros a [l Hl]. unfold b in Hl. cbn in Hl. apply lookup_singleton_Some in Hl as [<- _]. left.
    - intros a Ha. apply list_elem_of_singleton in Ha as ->. done.
    - cbn. lia. }
  exists b, 1. split.
  2: { split; [by apply config_drawn|by exists [1%positive]|done|cbn; lia|].
       change (scrollback_enabled (q_status (drawn s b 1))) with (scrollback_enabled (q_status s)). by rewrite Hk. }
  set (s1 := s <| buffer := b |>).
  assert (E : new_scrollback_line s =
    (full ← roll_over;
     if full : bool then
       enabled ← status scrollback_enabled;
       if enabled : bool then drop_first_line else drop_top_line None
     else on_status (fun q => q <| scrollback_lines ::= fun n => u32 (n + 1) |>)) s1).
  { assert (Es : s = s <| buffer := no_lines |>) by (rewrite <- Hb; by destruct s).
    rewrite Es at 1. unfold new_scrollback_line, blank_line, full_attr, Xmalloc, first_line, on_buffer, modify, gets, get.
    unfold mbind, M_bind, mret, M_ret. unfold s1, b, blank. clear.
    change (emulation (q_status (s <| buffer := no_lines |>))) with (emulation (q_status s)).
    destruct (bool_decide (emulation (q_status s) = Q_EMUL_DEBUG)); reflexivity. }
  rewrite E, (bind_done _ _ _ _ _ (roll_over_spec s1 0 (config_buffer s b Hc) Hn)).
  assert (Hfull : full s1 0 = false).
  { unfold full. change (scrollback_enabled (q_status s1)) with (scrollback_enabled (q_status s)). rewrite Hk.
    apply orb_false_intro; [|done]. apply Z.leb_gt. change (q_scrollback_max s1) with (q_scrollback_max s). lia. }
  rewrite Hfull. assert (Hu : u32 (scrollback_lines (q_status s) + 1) = 1) by by rewrite Hn.
  exact (f_equal (fun n => Done (tt, drawn s b n)) Hu).
Qed.

(** The lines so far: none, or some with the first one current. *)
Definition opening (s : screen_state) (ds : list line) : Prop := (ds = [] /\ fresh s) \/ shows s ds 0.

Lemma wp_opening s ds (Q : unit -> screen_state -> Prop) :
  opening s ds -> (length ds < nrows s)%nat ->
  (forall b n, shows (drawn s b n) (ds ++ [blank s]) 0 -> Q tt (drawn s b n)) ->
  wp new_scrollback_line s Q.
Proof.
  intros [[-> Hf]|Hs] Hl HQ.
  - destruct (first_line_shows s Hf) as (b & n & E & Hb). apply (wp_done _ _ _ _ _ E). by apply HQ.
  - destruct (sh_holds _ _ _ Hs) as [ls Hls].
    destruct (new_line_short s ls ds 0 Hs Hls Hl) as (b & n & a & E & _ & Hb).
    apply (wp_done _ _ _ _ _ E), HQ. unfold extend in Hb.
    by replace (S (length ds) - length ds)%nat with 1%nat in Hb by lia.
Qed.

Definition header_data (s : screen_state) (text : list Z) (d : line) : line :=
  foldl (fun d x => on_cell (fun _ => (x.2, scrollback_full_attr (q_text_colors s) Q_COLOR_CONSOLE)) x.1 d)
    (d <| line_length := Z.of_nat (length text) |>) (zip (seqZ 0 (Z.of_nat (length text))) text).

Lemma acts_header s p q n text d :
  line_ok d -> (length text <= 256)%nat ->
  acts s (p, q, n)
    (update p (fun l => l <| line_length := Z.of_nat (length text) |>);;
     forM (zip (seqZ 0 (Z.of_nat (length text))) text) (fun '(i, character) =>
       set_char p i character;; color ← full_attr Q_COLOR_CONSOLE; set_color p i color))
    d (header_data s text d).
Proof.
  intros Hok Hl. eapply acts_seq.
  { apply (acts_update_to s p q n (fun l => l <| line_length := Z.of_nat (length text) |>)); [reflexivity|done|].
    destruct Hok. split; [done|done|]. cbn. lia. }
  apply (acts_forM s p q n _ _ (fun x d => on_cell (fun _ => (x.2, scrollback_full_attr (q_text_colors s) Q_COLOR_CONSOLE)) x.1 d)).
  intros [i c] e Hin. apply elem_of_zip_l in Hin. apply elem_of_seqZ in Hin.
  eapply acts_seq; [apply acts_set_char; lia|]. apply acts_gets; [done|]. apply acts_set_color. lia.
Qed.

Lemma wp_header s ds text (Q : unit -> screen_state -> Prop) :
  opening s ds -> (length ds < nrows s)%nat -> (length text <= 256)%nat ->
  (forall b n d, shows (drawn s b n) (ds ++ [d]) 0 -> Q tt (drawn s b n)) ->
  wp (header_line text) s Q.
Proof.
  intros H Hl Ht HQ. unfold header_line. apply wp_bind, (wp_opening s ds); [done|done|]. intros b n Hb.
  apply wp_bind, wp_gets. destruct (sh_holds _ _ _ Hb) as [ls Hls].
  assert (Hlast : q_scrollback_last (buffer (drawn s b n)) = ls !! length ds).
  { rewrite (holds_last _ _ _ _ Hls), last_lookup, (holds_length _ _ _ _ Hls), length_app. cbn. f_equal. lia. }
  assert (Hd : (ds ++ [blank s]) !! length ds = Some (blank s)) by by rewrite lookup_app_r, Nat.sub_diag.
  assert (Hok : line_ok (blank s)) by by eapply shows_line.
  rewrite Hlast.
  pose proof (acts_header (drawn s b n) (ls !! length ds) (before ls (length ds)) (ls !! S (length ds)) text _ Hok Ht) as A.
  destruct (A (buffer (drawn s b n)) ls _ 0%nat (length ds) Hls) as (b' & E & Hb'); [done|done|].
  change ((drawn s b n) <| buffer := buffer (drawn s b n) |>) with (drawn s b n) in E.
  apply (wp_done _ _ _ _ _ E). change ((drawn s b n) <| buffer := b' |>) with (drawn s b' n).
  apply (HQ b' n (header_data (drawn s b n) text (blank s))).
  apply (shows_buffer (drawn s b n) (ds ++ [blank s]) 0 b' ls); [done| |by rewrite !length_app].
  by rewrite insert_app_r_alt, Nat.sub_diag in Hb'.
Qed.

Lemma opening_shows s ds : shows s ds 0 -> opening s ds.
Proof. by right. Qed.

Lemma wp_initial_line s ds (row : Z) (Q : unit -> screen_state -> Prop) :
  opening s ds -> (length ds < nrows s)%nat -> row = Z.of_nat (length ds) ->
  (forall t, frame t = frame s -> on_screen t (ds ++ [blank s]) -> cursor_x (q_status t) = 0 ->
     cursor_y (q_status t) = row -> Q tt t) ->
  wp (initial_line row) s Q.
Proof.
  intros H Hl Hr HQ. unfold initial_line. apply wp_bind, (wp_opening s ds); [done|done|]. intros b n Hb.
  destruct (sh_holds _ _ _ Hb) as [ls Hls]. change (buffer (drawn s b n)) with b in Hls.
  assert (Hlen : length ls = S (length ds)) by (rewrite (holds_length _ _ _ _ Hls), length_app; cbn; lia).
  assert (Hlast : q_scrollback_last b = ls !! length ds).
  { rewrite (holds_last _ _ _ _ Hls), last_lookup, Hlen. done. }
  set (b1 := b <| q_scrollback_current := ls !! length ds |>).
  assert (Hb1 : holds b1 ls (ds ++ [blank s]) (length ds)).
  { apply (holds_move _ _ _ _ _ _ Hls); [done|]. apply lookup_lt_is_Some. lia. }
  assert (Hb2 : b <| q_scrollback_current := q_scrollback_last b |>
                  <| q_scrollback_position := q_scrollback_last b |> = b1).
  { assert (Hp : q_scrollback_position b = q_scrollback_last b)
      by (by rewrite (holds_position _ _ _ _ Hls), (holds_last _ _ _ _ Hls)).
    unfold b1. rewrite Hlast in Hp |- *. clear -Hp. destruct b as [st br fi la cu po]. cbn in Hp. subst po. reflexivity. }
  apply wp_bind, wp_modify, wp_bind, wp_modify, wp_modify.
  match goal with |- Q tt ?u => set (t := u) end.
  assert (Ht : t = (drawn s b1 n) <| q_status ::= fun q => q <| cursor_y := row |> <| cursor_x := 0 |> |>).
  { rewrite <- Hb2. reflexivity. }
  clearbody t. subst t. apply HQ; [done| |done|done].
  pose proof (sh_config _ _ _ Hb) as Hc. pose proof (cfg_rows _ Hc). pose proof (cfg_width _ Hc).
  assert (Hs1 : shows (drawn s b1 n) (ds ++ [blank s]) (length ds)) by by apply (shows_buffer _ _ _ b1 ls _ _ Hb Hb1).
  split.
  - unfold row_index. assert (Hi : (top_of s (ds ++ [blank s]) + Z.to_nat row = length ds)%nat).
    { unfold top_of. rewrite length_app. cbn. lia. }
    match goal with |- shows ?u _ _ => change (shows u (ds ++ [blank s]) (top_of s (ds ++ [blank s]) + Z.to_nat row)) end.
    rewrite Hi. by apply (shows_frame (drawn s b1 n)).
  - cbn. change (0 <= row < rows s). unfold nrows in Hl. lia.
  - cbn. lia.
Qed.

(** The first screen. *)
Lemma wp_first_screen s (xterm_mode : bool) compiled written terminal (Q : unit -> screen_state -> Prop) :
  fresh s -> (if xterm_mode then True else 6 <= rows s) ->
  Forall (fun text => (length text <= 256)%nat) [compiled; written; terminal] ->
  (forall t, frame t = frame s -> visible t -> cursor_x (q_status t) = 0 ->
     cursor_y (q_status t) = (if xterm_mode then 0 else 5) -> Q tt t) ->
  wp (first_screen xterm_mode compiled written terminal) s Q.
Proof.
  intros Hf Hrows Htext HQ. pose proof (cfg_rows _ (fr_config _ Hf)). pose proof (cfg_width _ (fr_config _ Hf)).
  assert (Hopen : opening s []) by by left. unfold first_screen. destruct xterm_mode.
  - apply (wp_initial_line s []); [done|cbn; unfold nrows; lia|done|]. intros t Ht Hv Hx Hy. apply HQ; [done|by eexists|done|done].
  - rewrite !Forall_cons in Htext. destruct Htext as (H1 & H2 & H3 & _). cbv zeta.
    assert (Hn : (6 <= nrows s)%nat) by (unfold nrows; lia).
    apply wp_bind, (wp_header s []); [done|cbn; lia|by rewrite length_map|]. intros b1 n1 d1 D1.
    apply wp_bind, (wp_header (drawn s b1 n1) [d1]);
      [by right|change (nrows (drawn s b1 n1)) with (nrows s); cbn; lia|by rewrite length_map|].
    intros b2 n2 d2 D2. rewrite drawn_drawn in *.
    apply wp_bind, (wp_opening (drawn s b2 n2) [d1; d2]);
      [by right|change (nrows (drawn s b2 n2)) with (nrows s); cbn; lia|].
    intros b3 n3 D3. rewrite drawn_drawn in *. set (d3 := blank _) in *. clearbody d3.
    apply wp_bind, (wp_header (drawn s b3 n3) [d1; d2; d3]);
      [by right|change (nrows (drawn s b3 n3)) with (nrows s); cbn; lia|by rewrite length_map|].
    intros b4 n4 d4 D4. rewrite drawn_drawn in *. apply wp_bind, wp_gets.
    apply wp_bind, (wp_header (drawn s b4 n4) [d1; d2; d3; d4]);
      [by right|change (nrows (drawn s b4 n4)) with (nrows s); cbn; lia
      |rewrite length_replicate; change (WIDTH (drawn s b4 n4)) with (WIDTH s); lia|].
    intros b5 n5 d5 D5. rewrite drawn_drawn in *.
    apply (wp_initial_line (drawn s b5 n5) [d1; d2; d3; d4; d5]);
      [by right|change (nrows (drawn s b5 n5)) with (nrows s); cbn; lia|done|].
    intros t Ht Hv Hx Hy. apply HQ; [done|by eexists|done|done].
Qed.

End ScreenOpen.
End ScreenOpen.
