(* ===== verification/ScreenText.v ===== *)
(** What drawing does to the cells: characters, fills, and the rows that scroll. *)

From Stdlib Require Import ZArith Lia List Bool.
From stdpp Require Import base list numbers gmap strings.
From S2P Require Import Prelude Stdio States Colors Screen ScreenList ScreenState ScreenLine ScreenSpec ScreenScroll ScreenCursor ScreenDraw ScreenPrint.
Import Colors Screen ScreenList ScreenState ScreenLine ScreenSpec ScreenScroll ScreenCursor ScreenDraw ScreenPrint.

Module ScreenText.

Section ScreenText.
Context {C : Curses}.

(** ** Text *)

(** A character over the cell at the cursor of a line that reaches to it. *)
Lemma put_data_cells s con character d :
  line_ok d -> insert_mode (q_status s) = false -> 0 <= cursor_x (q_status s) < 256 ->
  cursor_x (q_status s) <= line_length d ->
  let d' := put_data s character d in
  line_ok d' /\ double_width d' = double_width d /\
  forall j, 0 <= j -> cell con d' j =
    if j =? cursor_x (q_status s) then (character, q_current_color s) else cell con d j.
Proof.
  intros Hok Hi Hx Hl. unfold put_data. rewrite Hi. set (x := cursor_x (q_status s)) in *. cbv zeta.
  set (h := fun _ : Z * Z => (character, q_current_color s)).
  destruct (Z.ltb_spec x (line_length d)) as [Hlt|Hge].
  - split; [by apply on_cell_ok|]. split; [done|]. intros j Hj. unfold cell.
    change (line_length (on_cell h x d)) with (line_length d). rewrite raw_on_cell by done.
    destruct (Z.eqb_spec j x) as [->|Hne]; [|done]. by rewrite (proj2 (Z.ltb_lt _ _)).
  - assert (Hx' : line_length d = x) by lia. rewrite Hx'.
    destruct (on_cell_ok h x d Hok) as [H1 H2 _].
    split; [split; [done|done|cbn; lia]|]. split; [done|]. intros j Hj. unfold cell.
    set (d1 := (on_cell h x d) <| line_length := x + 1 |>).
    assert (Hr : raw d1 j = raw (on_cell h x d) j) by done. assert (Hl1 : line_length d1 = x + 1) by done.
    rewrite Hr, Hl1, raw_on_cell, Hx' by done.
    destruct (Z.eqb_spec j x) as [->|Hne]; [by rewrite (proj2 (Z.ltb_lt _ _)) by lia|].
    destruct (Z.ltb_spec j (x + 1)), (Z.ltb_spec j x); done || lia.
Qed.

Lemma row_index_length s (ds ds' : list line) : length ds' = length ds -> row_index s ds' = row_index s ds.
Proof. intros Hl. unfold row_index. f_equal. by apply top_of_length. Qed.

(** Printing before the margin. *)
Lemma wp_print_char s ds d character (Q : unit -> screen_state -> Prop) :
  on_screen s ds -> ds !! row_index s ds = Some d -> insert_mode (q_status s) = false ->
  character <> 7 -> character <> 0 -> cursor_x (q_status s) < print_margin s d ->
  (forall t d', line_ok d' -> double_width d' = double_width d ->
     (forall j, 0 <= j -> cell (console s) d' j =
        if j =? cursor_x (q_status s) then (character, q_current_color s) else cell (console s) d j) ->
     reaches s t (<[row_index s ds := d']> ds) (cursor_x (q_status s) + 1) (cursor_y (q_status s)) false -> Q tt t) ->
  wp (print_character character) s Q.
Proof.
  intros H Hd Hi H7 H0 Hm HQ. pose proof (shows_line _ _ _ _ _ (os_shows _ _ H) Hd) as Hok. pose proof (os_x _ _ H) as Hx.
  apply (wp_print_character s ds d); [done|done| |]; [by intros t _ [|[]]|].
  intros t c ds' x y w _ Hc Hst Ht. rewrite (proj2 (Z.eqb_neq _ _) H0) in Hc. subst c.
  destruct (pad_data_spec (console s) (cursor_x (q_status s)) d Hok ltac:(lia)) as (Hok1 & Hl1 & (_ & Hdw & _) & Hcell).
  set (d1 := pad_data (console s) (cursor_x (q_status s)) d) in *.
  assert (Hlt : (row_index s ds < length ds)%nat) by by apply lookup_lt_Some in Hd.
  unfold stored, wraps_first, wraps_last, flag_after, at_margin in Hst.
  rewrite (proj2 (Z.eqb_neq _ _)) in Hst by lia. cbn [andb] in Hst.
  rewrite (proj2 (Z.ltb_lt _ _) Hm) in Hst. injection Hst as <- <- <- <-.
  assert (Hr : right_of (print_margin s d) (cursor_x (q_status s)) = cursor_x (q_status s) + 1).
  { unfold right_of. by rewrite (proj2 (Z.ltb_ge _ _)) by lia. }
  rewrite Hr in Ht. unfold put_at in Ht.
  assert (Hd1 : <[row_index s ds := d1]> ds !! row_index s ds = Some d1) by by rewrite list_lookup_insert_eq.
  rewrite (alter_insert dirtied _ _ _ Hd1), list_insert_insert_eq in Ht.
  rewrite (row_index_length s ds) in Ht by apply length_insert.
  rewrite (alter_insert (put_data s character) _ _ (dirtied d1)), list_insert_insert_eq in Ht
    by by rewrite list_lookup_insert_eq.
  destruct (put_data_cells s (console s) character (dirtied d1)) as (Hok2 & Hdw2 & Hcell2);
    [by destruct Hok1|done|done|change (line_length (dirtied d1)) with (line_length d1); lia|].
  apply (HQ t (put_data s character (dirtied d1))); [done|exact (eq_trans Hdw2 (eq_sym Hdw))| |exact Ht].
  intros j Hj. rewrite Hcell2 by done. destruct (j =? cursor_x (q_status s)); [done|]. by apply Hcell.
Qed.

(** Characters typed one after the other. *)
Definition typed (cs : list Z) : SM unit := forM cs print_character.

Lemma wp_typed cs : forall s ds d (Q : unit -> screen_state -> Prop),
  on_screen s ds -> ds !! row_index s ds = Some d -> insert_mode (q_status s) = false ->
  Forall (fun c => c <> 7 /\ c <> 0) cs ->
  cursor_x (q_status s) + Z.of_nat (length cs) <= print_margin s d ->
  (forall t d' w, line_ok d' ->
     (forall j, 0 <= j -> cell (console s) d' j =
        match cs !! Z.to_nat (j - cursor_x (q_status s)) with
        | Some c => if cursor_x (q_status s) <=? j then (c, q_current_color s) else cell (console s) d j
        | None => cell (console s) d j
        end) ->
     reaches s t (<[row_index s ds := d']> ds) (cursor_x (q_status s) + Z.of_nat (length cs)) (cursor_y (q_status s)) w ->
     Q tt t) ->
  wp (typed cs) s Q.
Proof.
  induction cs as [|c cs IH]; intros s ds d Q H Hd Hi Hcs Hm HQ.
  - apply wp_ret, (HQ s d (vt100_wrap_line_flag s)); [by eapply shows_line; [apply H|]|done|].
    rewrite list_insert_id by done. cbn. rewrite Z.add_0_r. by apply reaches_refl.
  - apply Forall_cons in Hcs as [[H7 H0] Hcs]. cbn [length] in Hm.
    unfold typed. cbn [forM]. apply wp_bind, (wp_print_char s ds d); [done|done|done|done|done|lia|].
    intros t d1 Hok1 Hdw1 Hc1 Ht. pose proof (re_screen _ _ _ _ _ _ Ht) as Hos. pose proof (re_frame _ _ _ _ _ _ Ht) as Hf.
    assert (Hrow : row_index t (<[row_index s ds := d1]> ds) = row_index s ds).
    { rewrite (reaches_row _ _ _ _ _ _ Ht). unfold row_index. f_equal. apply top_of_length, length_insert. }
    assert (Hcon : console t = console s) by (change (console (frame t) = console (frame s)); by rewrite Hf).
    assert (Hcol : q_current_color t = q_current_color s)
      by (change (q_current_color (frame t) = q_current_color (frame s)); by rewrite Hf).
    assert (Hins : insert_mode (q_status t) = false)
      by (rewrite <- Hi; change (insert_mode (q_status (frame t)) = insert_mode (q_status (frame s))); by rewrite Hf).
    assert (Hpm : print_margin t d1 = print_margin s d).
    { unfold print_margin, halve_margin. rewrite Hdw1.
      change (emulation_margin t) with (emulation_margin (frame t)). by rewrite Hf. }
    eapply (IH t _ d1); [done| |done|done|rewrite Hpm, (re_x _ _ _ _ _ _ Ht); lia|].
    { rewrite Hrow, list_lookup_insert_eq; [done|]. by apply lookup_lt_Some in Hd. }
    intros u d2 w Hok2 Hc2 Hu. rewrite Hrow, list_insert_insert_eq, (re_x _ _ _ _ _ _ Ht), (re_y _ _ _ _ _ _ Ht) in Hu.
    rewrite (re_x _ _ _ _ _ _ Ht), Hcon, Hcol in Hc2.
    apply (HQ u d2 w); [done| |].
    + intros j Hj. rewrite Hc2 by done. set (x := cursor_x (q_status s)) in *.
      destruct (Z.leb_spec x j) as [Hxj|Hxj].
      * destruct (Z.eqb_spec j x) as [->|Hne].
        -- rewrite Z.sub_diag, (proj2 (Z.leb_gt (x + 1) x)) by lia.
           change ((c :: cs) !! Z.to_nat 0) with (Some c). cbv iota.
           rewrite Hc1, Z.eqb_refl by done. by destruct (cs !! _).
        -- replace (Z.to_nat (j - x)) with (S (Z.to_nat (j - (x + 1)))) by lia. cbn [lookup list_lookup].
           rewrite (proj2 (Z.leb_le (x + 1) j)) by lia.
           change ((c :: cs) !! S (Z.to_nat (j - (x + 1)))) with (cs !! Z.to_nat (j - (x + 1))).
           destruct (cs !! _); [done|].
           rewrite Hc1 by done. by rewrite (proj2 (Z.eqb_neq _ _) Hne).
      * rewrite (proj2 (Z.leb_gt (x + 1) j)) by lia. rewrite Hc1 by done.
        rewrite (proj2 (Z.eqb_neq j x)) by lia.
        by destruct (cs !! _), ((c :: cs) !! _).
    + eapply reaches_trans; [exact Ht|].
      cbn [length]. replace (cursor_x (q_status s) + Z.of_nat (S (length cs)))
        with (cursor_x (q_status s) + 1 + Z.of_nat (length cs)) by lia. exact Hu.
Qed.

(** ** Fills *)

(** The cells that a fill leaves on the screen.  The length of the line counts the last
    cell of the fill unless the line ended just before it. *)
Lemma fill_data_cells s start end_ character honor d :
  line_ok d -> 0 <= start <= end_ -> end_ < WIDTH s -> WIDTH s <= 256 ->
  Z.max (line_length d) start <> end_ -> (honor = true -> end_ < line_length d) ->
  forall j, 0 <= j < WIDTH s ->
  cell (console s) (fill_data s start end_ character honor d) j =
  if (start <=? j) && (j <=? end_) then erase_cell s character honor (cell (console s) d j) else cell (console s) d j.
Proof.
  intros Hok Hse He HW Hne Hhon j Hj.
  destruct (fill_data_spec s start end_ character honor d Hok Hse ltac:(lia) ltac:(lia)) as (_ & Hl & Hraw & _).
  destruct (pad_data_spec (console s) start d Hok ltac:(lia)) as (_ & Hpl & _ & Hpad).
  set (d' := fill_data s start end_ character honor d) in *. set (d1 := pad_data (console s) start d) in *.
  pose proof (ok_length _ Hok) as Hlen. pose proof (Hpad j ltac:(lia)) as Hp. unfold cell at 1 in Hp. rewrite Hpl in Hp.
  unfold cell at 1. rewrite Hraw, Hl by lia. cbv zeta.
  destruct (Z.leb_spec start j), (Z.leb_spec j end_); cbn [andb].
  - rewrite (proj2 (Z.ltb_lt _ _)) by (destruct (Z.ltb_spec (Z.max (line_length d) start) end_); lia).
    destruct (Z.ltb_spec j (Z.max (line_length d) start)); [by rewrite <- Hp|].
    unfold erase_cell, protected_cell. destruct honor; [specialize (Hhon eq_refl); lia|done].
  - rewrite <- Hp. destruct (Z.ltb_spec (Z.max (line_length d) start) end_).
    + rewrite (proj2 (Z.ltb_ge _ _)) by lia. by rewrite (proj2 (Z.ltb_ge j (Z.max (line_length d) start))) by lia.
    + destruct (Z.ltb_spec j (Z.max (line_length d) start));
        [by rewrite (proj2 (Z.ltb_lt _ _)) by lia|by rewrite (proj2 (Z.ltb_ge _ _)) by lia].
  - rewrite <- Hp. rewrite (proj2 (Z.ltb_lt j (Z.max (line_length d) start))) by lia.
    by rewrite (proj2 (Z.ltb_lt _ _)) by (destruct (Z.ltb_spec (Z.max (line_length d) start) end_); lia).
  - lia.
Qed.

(** ** Rows that scroll *)

(** The line that a copy leaves at the place of [d]. *)
Definition copied (con left right : Z) (pad : line -> line -> bool) (d m : line) : line :=
  overlay left right (if pad d m then pad_data con right d else d) m.

Lemma copy_step_insert con left right pad i j ds d m :
  i <> j -> ds !! i = Some d -> ds !! j = Some m ->
  copy_step con left right pad i j ds = <[i := copied con left right pad d m]> ds.
Proof.
  intros Hne Hd Hm. unfold copy_step, copied. rewrite Hd, Hm. cbv zeta. destruct (pad d m).
  - rewrite list_lookup_insert_eq by by apply lookup_lt_Some in Hd.
    by rewrite list_lookup_insert_ne, Hm, list_insert_insert_eq by done.
  - by rewrite Hd, Hm.
Qed.

(** Each line of the copied range becomes a copy of the one [j - i] below it. *)
Lemma copy_up_lookup con left right n : forall i j ds k,
  (i < j)%nat -> (j + n <= length ds)%nat ->
  copy_up_data con left right n i j ds !! k =
  if decide (i <= k < i + n)%nat
  then d ← ds !! k; m ← ds !! (k + (j - i))%nat; Some (copied con left right pad_up d m)
  else ds !! k.
Proof.
  induction n as [|n IH]; intros i j ds k Hij Hl; [by rewrite decide_False by lia|]. cbn [copy_up_data].
  destruct (lookup_lt_nat ds i) as [d Hd]; [lia|]. destruct (lookup_lt_nat ds j) as [m Hm]; [lia|].
  rewrite (copy_step_insert _ _ _ _ _ _ _ d m); [|lia|done|done]. rewrite length_insert.
  set (ds1 := <[i := copied con left right pad_up d m]> ds).
  assert (Hrest : (if (S j <? length ds)%nat then copy_up_data con left right n (S i) (S j) ds1 else ds1)
                  = copy_up_data con left right n (S i) (S j) ds1).
  { destruct (Nat.ltb_spec (S j) (length ds)); [done|]. by assert (n = 0%nat) as -> by lia. }
  rewrite Hrest, IH by (rewrite ?length_insert; unfold ds1; rewrite ?length_insert; lia). unfold ds1.
  replace (S j - S i)%nat with (j - i)%nat by lia.
  destruct (decide (k = i)) as [->|Hne].
  - rewrite decide_False, decide_True by lia. rewrite list_lookup_insert_eq by lia. rewrite Hd.
    cbn. replace (i + (j - i))%nat with j by lia. by rewrite Hm.
  - destruct (decide (S i <= k < S i + n)%nat).
    + rewrite decide_True by lia. by rewrite !list_lookup_insert_ne by lia.
    + rewrite decide_False by lia. by rewrite list_lookup_insert_ne by done.
Qed.

Lemma copy_down_lookup con left right n : forall i j ds k,
  (j < i)%nat -> (i < length ds)%nat -> (n <= S j)%nat ->
  copy_down_data con left right n i j ds !! k =
  if decide (i - n < k <= i)%nat
  then d ← ds !! k; m ← ds !! (k - (i - j))%nat; Some (copied con left right (pad_down left) d m)
  else ds !! k.
Proof.
  induction n as [|n IH]; intros i j ds k Hij Hl Hn; [by rewrite decide_False by lia|]. cbn [copy_down_data].
  destruct (lookup_lt_nat ds i) as [d Hd]; [lia|]. destruct (lookup_lt_nat ds j) as [m Hm]; [lia|].
  rewrite (copy_step_insert _ _ _ _ _ _ _ d m); [|lia|done|done].
  set (ds1 := <[i := copied con left right (pad_down left) d m]> ds).
  destruct (decide (n = 0)%nat) as [->|Hn0].
  { cbn [copy_down_data]. unfold ds1. destruct (decide (k = i)) as [->|Hne].
    - rewrite decide_True by lia. rewrite list_lookup_insert_eq by lia. rewrite Hd.
      replace (i - (i - j))%nat with j by lia. by rewrite Hm.
    - rewrite decide_False by lia. by rewrite list_lookup_insert_ne by done. }
  rewrite IH by (unfold ds1; rewrite ?length_insert; lia). unfold ds1.
  replace (pred i - pred j)%nat with (i - j)%nat by lia.
  destruct (decide (k = i)) as [->|Hne].
  - rewrite decide_False, decide_True by lia. rewrite list_lookup_insert_eq by lia. rewrite Hd.
    cbn. replace (i - (i - j))%nat with j by lia. by rewrite Hm.
  - destruct (decide (pred i - n < k <= pred i)%nat).
    + rewrite decide_True by lia. by rewrite !list_lookup_insert_ne by lia.
    + rewrite decide_False by lia. by rewrite list_lookup_insert_ne by done.
Qed.

(** Row [r] of the screen. *)
Definition row (s : screen_state) (ds : list line) (r : Z) : option line := ds !! (top_of s ds + Z.to_nat r)%nat.

(** [left] to [right] - 1 erased to the colour of the emulation. *)
Definition erased (s : screen_state) (left right : Z) (d : line) : line := fill_data s left (right - 1) 32 false d.

Lemma row_blank_rows s left right r1 r2 ds r :
  0 <= r1 <= r2 -> left < right -> (top_of s ds + Z.to_nat r2 < length ds)%nat -> 0 <= r ->
  row s (blank_rows s left right r1 r2 ds) r =
  if (r1 <=? r) && (r <=? r2) then erased s left right <$> row s ds r else row s ds r.
Proof.
  intros Hr Hlr Hlen H0. unfold row, blank_rows.
  rewrite (proj2 (Z.ltb_ge r2 r1)), (proj2 (Z.ltb_ge (right - 1) left)) by lia. cbn [orb].
  assert (Hx : rows_data s (erased s left right) r1 r2 ds =
    on_range (erased s left right) (top_of s ds + Z.to_nat r1) (Z.to_nat (r2 + 1 - r1)) ds).
  { unfold rows_data. by rewrite extend_enough by lia. }
  fold (erased s left right). change (fill_data s left (right - 1) 32 false) with (erased s left right).
  rewrite Hx, lookup_on_range, (top_of_length s ds (on_range _ _ _ ds)) by apply length_on_range.
  set (k := (top_of s ds + Z.to_nat r)%nat).
  assert (Hk : bool_decide (top_of s ds + Z.to_nat r1 <= k < top_of s ds + Z.to_nat r1 + Z.to_nat (r2 + 1 - r1))%nat
               = (r1 <=? r) && (r <=? r2)).
  { apply eq_true_iff_eq. rewrite bool_decide_eq_true, andb_true_iff, !Z.leb_le. unfold k. lia. }
  destruct (ds !! k) as [d|] eqn:Ed; [|by destruct (_ && _)]. cbn.
  rewrite <- Hk. case_bool_decide; [by rewrite decide_True|by rewrite decide_False].
Qed.

(** rectangle_scroll_up() on rows that have lines. *)
Lemma row_scroll_up s top left bottom right count ds r :
  0 <= top -> left < right -> 0 < count < bottom + 1 - top -> (top_of s ds + Z.to_nat bottom < length ds)%nat -> 0 <= r ->
  row s (scroll_up_data s top left bottom right count ds) r =
  if (top <=? r) && (r <=? bottom - count)
  then d ← row s ds r; m ← row s ds (r + count); Some (copied (console s) left right pad_up d m)
  else if (bottom - count <? r) && (r <=? bottom) then erased s left right <$> row s ds r
  else row s ds r.
Proof.
  intros Ht Hlr Hc Hlen Hr. unfold scroll_up_data.
  rewrite (proj2 (Z.leb_gt bottom top)), (proj2 (Z.leb_gt right left)), (proj2 (Z.leb_gt (bottom + 1 - top) count)) by lia.
  cbn [orb]. cbv zeta. rewrite extend_enough by lia.
  set (n := Z.to_nat (bottom + 1 - top - count)).
  set (ds2 := copy_up_data _ _ _ _ _ _ _).
  assert (Hl2 : length ds2 = length ds) by apply length_copy_up_data.
  assert (Htop : top_of s ds2 = top_of s ds) by by apply top_of_length.
  rewrite row_blank_rows by (rewrite ?Htop, ?Hl2; lia). unfold row. rewrite Htop. unfold ds2.
  rewrite copy_up_lookup by lia.
  replace (top_of s ds + Z.to_nat r + (top_of s ds + Z.to_nat top + Z.to_nat count - (top_of s ds + Z.to_nat top)))%nat
    with (top_of s ds + Z.to_nat (r + count))%nat by lia.
  destruct (Z.leb_spec top r), (Z.leb_spec r (bottom - count)); cbn [andb].
  - rewrite (proj2 (Z.leb_gt (top + (bottom + 1 - top - count)) r)) by lia. cbn [andb]. by rewrite decide_True by lia.
  - rewrite decide_False by lia. rewrite (proj2 (Z.leb_le (top + (bottom + 1 - top - count)) r)) by lia.
    rewrite (proj2 (Z.ltb_lt (bottom - count) r)) by lia. done.
  - rewrite decide_False by lia. rewrite (proj2 (Z.leb_gt (top + (bottom + 1 - top - count)) r)) by lia.
    rewrite (proj2 (Z.ltb_ge (bottom - count) r)) by lia. done.
  - rewrite decide_False by lia. rewrite (proj2 (Z.leb_gt (top + (bottom + 1 - top - count)) r)) by lia.
    rewrite (proj2 (Z.ltb_ge (bottom - count) r)) by lia. done.
Qed.

Lemma row_scroll_down s top left bottom right count ds r :
  0 <= top -> left < right -> 0 < count < bottom + 1 - top -> (top_of s ds + Z.to_nat bottom < length ds)%nat -> 0 <= r ->
  row s (scroll_down_data s top left bottom right count ds) r =
  if (top + count <=? r) && (r <=? bottom)
  then d ← row s ds r; m ← row s ds (r - count); Some (copied (console s) left right (pad_down left) d m)
  else if (top <=? r) && (r <? top + count) then erased s left right <$> row s ds r
  else row s ds r.
Proof.
  intros Ht Hlr Hc Hlen Hr. unfold scroll_down_data.
  rewrite (proj2 (Z.leb_gt bottom top)), (proj2 (Z.leb_gt right left)), (proj2 (Z.leb_gt (bottom + 1 - top) count)) by lia.
  cbn [orb]. cbv zeta. rewrite extend_enough by lia.
  set (n := Z.to_nat (bottom + 1 - top - count)).
  set (ds2 := copy_down_data _ _ _ _ _ _ _).
  assert (Hl2 : length ds2 = length ds) by apply length_copy_down_data.
  assert (Htop : top_of s ds2 = top_of s ds) by by apply top_of_length.
  rewrite row_blank_rows by (rewrite ?Htop, ?Hl2; lia). unfold row. rewrite Htop. unfold ds2.
  rewrite copy_down_lookup by lia.
  destruct (Z.leb_spec (top + count) r), (Z.leb_spec r bottom); cbn [andb].
  - rewrite (proj2 (Z.leb_gt r (top + count - 1))) by lia. rewrite andb_false_r. rewrite decide_True by lia.
    by replace (top_of s ds + Z.to_nat r - (top_of s ds + Z.to_nat bottom - (top_of s ds + Z.to_nat bottom - Z.to_nat count)))%nat
      with (top_of s ds + Z.to_nat (r - count))%nat by lia.
  - rewrite decide_False by lia. rewrite (proj2 (Z.leb_gt r (top + count - 1))) by lia.
    rewrite (proj2 (Z.ltb_ge r (top + count))) by lia. by rewrite !andb_false_r.
  - rewrite decide_False by lia. rewrite (proj2 (Z.leb_le r (top + count - 1))) by lia.
    rewrite (proj2 (Z.ltb_lt r (top + count))) by lia. by rewrite !andb_true_r.
  - rewrite decide_False by lia. rewrite (proj2 (Z.leb_le r (top + count - 1))) by lia.
    rewrite (proj2 (Z.ltb_lt r (top + count))) by lia. by rewrite !andb_true_r.
Qed.

(** A whole row copied: the cells, the length and the attributes of the source. *)
Definition same_text (d m : line) : Prop :=
  line_length d = line_length m /\ double_width d = double_width m /\ double_height d = double_height m /\
  reverse_color d = reverse_color m /\ forall j, 0 <= j < 256 -> raw d j = raw m j.

Lemma copied_whole con pad d m : line_ok d -> line_ok m -> same_text (copied con 0 256 pad d m) m.
Proof.
  intros Hd Hm. unfold copied. set (d1 := if pad d m then _ else _).
  assert (Hd1 : line_ok d1) by (unfold d1; destruct (pad d m); [apply pad_data_spec; done|done]).
  repeat split. intros j Hj. rewrite raw_overlay by (done || lia).
  by rewrite (proj2 (Z.leb_le 0 j)), (proj2 (Z.ltb_lt j 256)) by lia.
Qed.

End ScreenText.
End ScreenText.
