(* ===== verification/ScreenProps.v ===== *)
(** The properties of the screen and its scrollback buffer. *)

From Stdlib Require Import ZArith Lia List Bool.
From stdpp Require Import base list numbers gmap strings relations.
From S2P Require Import Prelude Stdio States Colors Codepage Screen ScreenList ScreenState ScreenLine ScreenSpec ScreenScroll ScreenCursor ScreenDraw ScreenPrint ScreenCommand ScreenOpen ScreenText.
Import Colors Codepage Screen ScreenList ScreenState ScreenLine ScreenSpec ScreenScroll ScreenCursor ScreenDraw ScreenPrint ScreenCommand ScreenOpen ScreenText.

(** ** Where drawing goes wrong

    Arguments that the code does not check, and the states in which lines are lost. *)

Module ScreenFault.

Section ScreenFault.
Context {C : Curses}.

Lemma bind_fault {S A B} (m : M S A) (k : A -> M S B) s w : m s = Fault w -> (m ≫= k) s = Fault w.
Proof. unfold mbind, M_bind. by intros ->. Qed.

Lemma forM_app {A} (l1 l2 : list A) (f : A -> SM unit) s : forM (l1 ++ l2) f s = (forM l1 f;; forM l2 f) s.
Proof.
  revert s. induction l1 as [|x l1 IH]; intros s; [done|]. cbn [forM app]. unfold mbind, M_bind in *.
  destruct (f x s) as [[[] t]| |]; [apply IH|done|done].
Qed.

(** The line at the cursor, read. *)
Lemma current_line s ds d :
  on_screen s ds -> ds !! row_index s ds = Some d ->
  exists ls, holds (buffer s) ls ds (row_index s ds) /\
    q_scrollback_current (buffer s) = ls !! row_index s ds /\
    deref (ls !! row_index s ds) s = Done (relink (before ls (row_index s ds)) (ls !! S (row_index s ds)) d, s).
Proof.
  intros H Hd. destruct (sh_holds _ _ _ (os_shows _ _ H)) as [ls Hls]. exists ls.
  split_and!; [done|by apply Hls|]. by apply (deref_line s ls ds (row_index s ds)).
Qed.

(** A cell outside the line. *)
Lemma set_char_faults s ls ds cur k d i v :
  holds (buffer s) ls ds cur -> ds !! k = Some d -> 256 <= i -> set_char (ls !! k) i v s = Fault OutOfBounds.
Proof.
  intros H Hd Hi. destruct (holds_address _ _ _ _ _ _ H Hd) as [a Ha].
  destruct (holds_lines _ _ _ _ H _ _ _ Ha Hd) as [_ Hok].
  unfold set_char. rewrite (bind_done _ _ _ _ _ (deref_line s ls ds cur k d H Hd)).
  apply bind_fault. unfold store, memcpy. change (chars (relink ?p ?n d)) with (chars d).
  rewrite (ok_chars _ Hok). cbn [length]. rewrite (proj2 (Z.leb_gt (i + Z.of_nat 1) _)) by lia. by rewrite andb_false_r.
Qed.

(** fill_line_with_character() past the end of the line. *)
Lemma fill_faults s ds start end_ character :
  on_screen s ds -> 0 <= start <= 256 -> 256 <= end_ ->
  fill_line_with_character start end_ character false s = Fault OutOfBounds.
Proof.
  intros H Hs He. destruct (os_line _ _ H) as (d & Hd & Hok). pose proof (os_config _ _ H) as Hc.
  destruct (current_line s ds d H Hd) as (ls & Hls & Hcur & _). set (k := row_index s ds) in *.
  unfold fill_line_with_character. rewrite (proj2 (Z.ltb_ge end_ start)) by lia.
  assert (Hp : forall (m : option positive -> SM unit),
    (p ← pointer q_scrollback_current; m p) s = m (ls !! k) s) by (intros m; rewrite <- Hcur; done).
  rewrite Hp. set (p := ls !! k).
  assert (Hstep : forall m d1 d2 b, acts s (place_of ls k) m d1 d2 -> holds b ls (<[k := d1]> ds) k ->
    exists b', m (s <| buffer := b |>) = Done (tt, s <| buffer := b' |>) /\ holds b' ls (<[k := d2]> ds) k).
  { intros m d1 d2 b Hm Hb. destruct (Hm b ls _ k k Hb) as (b' & E & Hb'); [done| |].
    - apply list_lookup_insert_eq. by apply lookup_lt_Some in Hd.
    - exists b'. split; [done|]. by rewrite list_insert_insert_eq in Hb'. }
  assert (H0 : holds (buffer s) ls (<[k := d]> ds) k) by by rewrite list_insert_id.
  set (d1 := d <| dirty := true |>). assert (Hok1 : line_ok d1) by by destruct Hok.
  destruct (Hstep (update p (fun l => l <| dirty := true |>)) d d1 (buffer s)) as (b1 & E1 & H1); [|done|].
  { apply (acts_update s p _ _ (fun l => l <| dirty := true |>)); [done|by intros]. }
  rewrite buffer_same in E1. rewrite (bind_done _ _ _ _ _ E1).
  destruct (pad_data_spec (console s) start d1 Hok1 ltac:(lia)) as (Hok2 & Hl2 & _).
  set (d2 := pad_data (console s) start d1) in *.
  destruct (Hstep (pad_line p start) d1 d2 b1) as (b2 & E2 & H2); [apply acts_pad_line; [done|lia]|done|].
  rewrite (bind_done _ _ _ _ _ E2).
  assert (Hd2 : <[k := d2]> ds !! k = Some d2) by (apply list_lookup_insert_eq; by apply lookup_lt_Some in Hd).
  assert (H2' : holds (buffer (s <| buffer := b2 |>)) ls (<[k := d2]> ds) k) by exact H2.
  rewrite (bind_done _ _ _ _ _ (deref_line (s <| buffer := b2 |>) ls _ k k d2 H2' Hd2)).
  unfold for_up. rewrite (seqZ_nil (line_length (relink _ _ d2)) (start - _)) by (cbn; lia).
  cbn [forM]. rewrite (bind_done _ _ _ _ _ (eq_refl : (mret tt : SM unit) (s <| buffer := b2 |>) = Done (tt, s <| buffer := b2 |>))).
  apply bind_fault. replace (end_ + 1 - start) with ((256 - start) + (end_ - 255)) by lia.
  rewrite seqZ_app, forM_app by lia.
  destruct (Hstep (for_up start 256 (fill_cell p character false)) d2 _ b2
    (acts_fill_range s _ _ _ character false start 256 d2 Hok2 ltac:(lia) ltac:(lia)) H2) as (b3 & E3 & H3).
  unfold for_up in E3. rewrite (bind_done _ _ _ _ _ E3).
  rewrite seqZ_cons by lia. cbn [forM]. apply bind_fault.
  unfold fill_cell. rewrite (bind_done _ _ _ _ _ (eq_refl : (mret false : SM bool) (s <| buffer := b3 |>) = Done (false, s <| buffer := b3 |>))). cbn [negb whenM].
  apply bind_fault. eapply (set_char_faults (s <| buffer := b3 |>)); [exact H3| |lia].
  apply list_lookup_insert_eq. by apply lookup_lt_Some in Hd.
Qed.

(** insert_blanks() of more cells than there are after the cursor. *)
Lemma insert_faults s ds count :
  on_screen s ds -> 256 < cursor_x (q_status s) + count -> insert_blanks count s = Fault OutOfBounds.
Proof.
  intros H Hc. destruct (os_line _ _ H) as (d & Hd & Hok). pose proof (os_x _ _ H) as Hx.
  destruct (current_line s ds d H Hd) as (ls & Hls & Hcur & E).
  unfold insert_blanks, insert_cells. apply bind_fault.
  assert (Hp : forall (m : option positive -> SM unit),
    (p ← pointer q_scrollback_current; m p) s = m (ls !! row_index s ds) s) by (intros m; rewrite <- Hcur; done).
  rewrite Hp, (bind_done _ _ _ _ _ E), (bind_done _ _ _ _ _ (eq_refl : get s = Done (s, s))). cbv zeta.
  apply bind_fault. unfold memmove, Q_MAX_LINE_LENGTH.
  rewrite (proj2 (Z.leb_gt 0 (256 - cursor_x (q_status s) - count))) by lia. by rewrite !andb_false_r.
Qed.

(** The blanks of insert_blanks() all go to the cell at the cursor: the cells after it
    keep what they had. *)
Lemma raw_blanks x color k d j :
  line_ok d -> 0 <= x < 256 -> 0 <= j ->
  raw (Nat.iter k (blank_data x color) d) j = if (0 <? k)%nat && (j =? x) then (32, color) else raw d j.
Proof.
  intros Hok Hx Hj. induction k as [|k IH]; [done|]. rewrite Nat.iter_succ.
  assert (Hr : raw (blank_data x color (Nat.iter k (blank_data x color) d)) j
    = raw (on_cell (fun _ => (32, color)) x (Nat.iter k (blank_data x color) d)) j) by done.
  rewrite Hr, raw_on_cell by (try apply iter_blank_ok; done).
  destruct (Z.eqb_spec j x) as [->|Hne]; [done|]. rewrite IH. rewrite !andb_false_r. done.
Qed.

Lemma raw_insert_data x count color d j :
  line_ok d -> 0 <= x < 256 -> 0 < count -> x + count <= 256 -> 0 <= j < 256 ->
  raw (insert_data x count color d) j =
  if j =? x then (32, color) else if x + count <=? j then raw d (j - count) else raw d j.
Proof.
  intros Hok Hx Hc Hm Hj.
  assert (Hr : raw (insert_data x count color d) j
    = raw (Nat.iter (Z.to_nat count) (blank_data x color) (move_cells (x + count) x (256 - x - count) d)) j) by done.
  assert (Hfit : fits (x + count) x (256 - x - count)) by (unfold fits; lia).
  rewrite Hr, raw_blanks by (try apply move_cells_ok; done || lia).
  rewrite (proj2 (Nat.ltb_lt 0 (Z.to_nat count))) by lia. cbn [andb]. destruct (j =? x); [done|].
  rewrite raw_move_cells by (done || lia). replace (x + count + (256 - x - count)) with 256 by lia.
  rewrite (proj2 (Z.ltb_lt j 256)), andb_true_r by lia.
  destruct (x + count <=? j); [|done]. f_equal. lia.
Qed.

End ScreenFault.
End ScreenFault.

(** ** The properties *)

Import ScreenFault.

Module ScreenProps.

(** ** A concrete terminal *)

(** The attributes of ncurses. *)
Definition ncurses : Curses := {|
  A_NORMAL := 0; A_UNDERLINE := 0x20000; A_REVERSE := 0x40000; A_BLINK := 0x80000; A_BOLD := 0x200000;
  A_PROTECT := 0x1000000; A_DIM := 0x100000; A_INVIS := 0x800000; A_COLOR := 0xff00;
  COLOR_PAIR := fun n => Z.land (Z.shiftl n 8) 0xff00;
  PAIR_NUMBER := fun a => Z.shiftr (Z.land a 0xff00) 8 |}.

(** An empty terminal of 8 columns and 4 rows, with a status line. *)
Definition terminal (emul : Q_EMULATION) (kept : bool) : screen_state := {|
  q_status := {|
    emulation := emul; scrollback_lines := 0; cursor_x := 0; cursor_y := 0; scroll_region_top := 0;
    scroll_region_bottom := 3; origin_mode := false; insert_mode := false; line_wrap := true;
    reverse_video := false; display_null := false; line_feed_on_cr := false; assume_80_columns := false;
    atascii_has_wide_font := false; petscii_has_wide_font := false; scrollback_enabled := kept;
    status_visible := true; quicklearn := false; capture := false; capture_type := Q_CAPTURE_TYPE_NORMAL;
    capture_x := 0; capture_flush_time := 0 |};
  buffer := no_lines; vt100_wrap_line_flag := false; old_color := 0; q_current_color := 0x3800;
  q_emulation_right_margin := -1; q_scrollback_max := 6; q_program_state := Q_STATE_CONSOLE;
  q_in_handle_resize := false; WIDTH := 8; HEIGHT := 5; STATUS_HEIGHT := 1;
  q_text_colors := fun _ => {| bold := false; fg := 7; bg := 0 |};
  now := 0; capture_file := []; events := [] |}.

Definition result (m : SM unit) (s : screen_state) : screen_state :=
  match m s with Done (_, t) => t | _ => s end.

(** The terminal on its first line. *)
Definition opened (emul : Q_EMULATION) : screen_state :=
  result (first_screen (C := ncurses) true [] [] []) (terminal emul true).

Lemma terminal_fresh emul : @fresh ncurses (terminal emul true).
Proof. split; [|done..]. split; cbn; vm_compute; intuition congruence. Qed.

Lemma opened_visible emul : @visible ncurses (opened emul).
Proof.
  assert (H : wp (first_screen (C := ncurses) true [] [] []) (terminal emul true) (fun _ t => @visible ncurses t)).
  { apply (wp_first_screen (C := ncurses)); [apply terminal_fresh|done|repeat (apply Forall_cons; split; [cbn; lia|]); by apply Forall_nil|]. by intros. }
  unfold opened, result. unfold wp in H. by destruct (first_screen _ _ _ _ _) as [[]| |].
Qed.

Section ScreenProps.
Context {C : Curses}.

(** ** Safety *)

(** C32: the first screen is set up without a fault, and the invariant of drawing holds
    on it: the lines form a doubly linked list, the current line is the one in the row of
    the cursor, the cursor is on the screen and every line has 256 cells. *)
Theorem first_screen_is_drawable s xterm_mode compiled written terminal :
  fresh s -> (if xterm_mode : bool then True else 6 <= rows s) ->
  Forall (fun text => (length text <= 256)%nat) [compiled; written; terminal] ->
  exists t, first_screen xterm_mode compiled written terminal s = Done (tt, t) /\ visible t /\ frame t = frame s.
Proof.
  intros Hf Hr Ht.
  assert (H : wp (first_screen xterm_mode compiled written terminal) s (fun _ t => visible t /\ frame t = frame s))
    by (apply wp_first_screen; [done..|]; by intros).
  destruct (wp_run _ _ _ H) as ([] & t & E & Hv). by exists t.
Qed.

(** C5: from a drawable screen, whatever was drawn before, the next operation, with
    its arguments inside the screen, ends: it indexes no cell outside a line, follows no
    null or freed pointer, and loops for no more than its fuel; what it leaves is drawable again. *)
Theorem drawing_never_faults s t c :
  visible s -> rtc draws s t -> in_bounds t c ->
  exists u, run c t = Done (tt, u) /\ visible u /\ frame u = frame s.
Proof.
  intros Hs Hd Hb. destruct (draws_keep _ _ Hd Hs) as [Hf [ds Ht]].
  destruct (wp_run _ _ _ (keeps_run t ds c Ht Hb)) as ([] & u & E & Hfu & Hu). exists u. split_and!; [done|done|congruence].
Qed.

(** C33: no line leaks and the buffer is bounded: the lines allocated are those counted
    by [scrollback_lines], at most [q_scrollback_max]. *)
Theorem scrollback_is_bounded s t :
  visible s -> rtc draws s t ->
  Z.of_nat (size (store_of (buffer t))) = scrollback_lines (q_status t) /\
  scrollback_lines (q_status t) <= q_scrollback_max t.
Proof.
  intros Hs Hd. destruct (draws_keep _ _ Hd Hs) as [_ [ds [Ht _ _]]].
  destruct (sh_holds _ _ _ Ht) as [ls H]. rewrite (sh_lines _ _ _ Ht). split; [|apply Ht].
  f_equal. rewrite <- (holds_length _ _ _ _ H), <- (size_list_to_set (C := gset positive) ls) by apply H.
  rewrite <- size_dom. f_equal. apply set_eq. intros a. rewrite elem_of_dom, elem_of_list_to_set.
  split; [apply H|]. intros [k Hk]%list_elem_of_lookup.
  destruct (holds_data _ _ _ _ _ _ H Hk) as [d Hdk].
  destruct (holds_lines _ _ _ _ H _ _ _ Hk Hdk) as [-> _]. done.
Qed.

(** ** What is drawn *)

(** C34: in replace mode, characters other than NUL and BEL typed before the right margin fill the cells from the cursor on, in
    order and in the current colour; every other cell of the line and every other line
    stay as they were, and the cursor ends after the last one. *)
Theorem typed_text_is_stored s ds d cs :
  on_screen s ds -> ds !! row_index s ds = Some d -> insert_mode (q_status s) = false ->
  Forall (fun c => c <> 7 /\ c <> 0) cs ->
  cursor_x (q_status s) + Z.of_nat (length cs) <= print_margin s d ->
  let x := cursor_x (q_status s) in
  exists t d', typed cs s = Done (tt, t) /\ on_screen t (<[row_index s ds := d']> ds) /\
    (forall i c, cs !! i = Some c -> cell (console s) d' (x + Z.of_nat i) = (c, q_current_color s)) /\
    (forall j, 0 <= j < x \/ x + Z.of_nat (length cs) <= j -> cell (console s) d' j = cell (console s) d j) /\
    cursor_x (q_status t) = x + Z.of_nat (length cs) /\ cursor_y (q_status t) = cursor_y (q_status s).
Proof.
  intros H Hd Hi Hcs Hm x. pose proof (os_x _ _ H) as Hx. fold x in Hx.
  assert (Hwp : wp (typed cs) s (fun _ t => exists d', on_screen t (<[row_index s ds := d']> ds) /\
    (forall i c, cs !! i = Some c -> cell (console s) d' (x + Z.of_nat i) = (c, q_current_color s)) /\
    (forall j, 0 <= j < x \/ x + Z.of_nat (length cs) <= j -> cell (console s) d' j = cell (console s) d j) /\
    cursor_x (q_status t) = x + Z.of_nat (length cs) /\ cursor_y (q_status t) = cursor_y (q_status s))).
  { apply (wp_typed cs s ds d); [done..|]. intros t d' w Hok Hc Ht. exists d'.
    split; [apply Ht|]. split; [|split; [|split; [apply Ht|apply Ht]]].
    - intros i c Hic. rewrite Hc by lia. fold x. replace (Z.to_nat (x + Z.of_nat i - x)) with i by lia.
      rewrite Hic. by rewrite (proj2 (Z.leb_le _ _)) by lia.
    - intros j Hj. rewrite Hc by lia. fold x. destruct (cs !! Z.to_nat (j - x)) eqn:E; [|done].
      destruct (Z.leb_spec x j); [|done]. apply lookup_lt_Some in E. lia. }
  destruct (wp_run _ _ _ Hwp) as ([] & t & E & d' & Ht). by exists t, d'.
Qed.

(** cursor addressing puts the cursor at the column asked for, no further than the
    last one, and in the row asked for, counted from the top of the scrolling region in
    origin mode, no further than the last one; the lines stay as they were, and just the
    rows down to the new one that were missing are appended. *)
Theorem cursor_position_addresses s ds row col :
  on_screen s ds -> 0 <= row -> 0 <= col -> q_emulation_right_margin s <= 0 ->
  let y := Z.min (rows s - 1) (if origin_mode (q_status s) then row + scroll_region_top (q_status s) else row) in
  exists t more, cursor_position row col s = Done (tt, t) /\ on_screen t (ds ++ more) /\
    length (ds ++ more) = Nat.max (length ds) (S (top_of s ds + Z.to_nat y)) /\
    cursor_x (q_status t) = Z.min col (WIDTH s - 1) /\ cursor_y (q_status t) = y /\
    vt100_wrap_line_flag t = false.
Proof.
  intros H Hr Hc Hm y. destruct (os_line _ _ H) as (d & Hd & _).
  assert (Hx : position_column s d col = Z.min col (WIDTH s - 1)).
  { unfold position_column. by rewrite (proj2 (Z.ltb_ge _ _)) by lia. }
  assert (Hwp : wp (cursor_position row col) s (fun _ t => exists more, on_screen t (ds ++ more) /\
    length (ds ++ more) = Nat.max (length ds) (S (top_of s ds + Z.to_nat y)) /\
    cursor_x (q_status t) = Z.min col (WIDTH s - 1) /\ cursor_y (q_status t) = y /\ vt100_wrap_line_flag t = false)).
  { apply (wp_cursor_position s ds d); [done..|]. fold (position_row s row) in y. fold y. rewrite Hx. intros t Ht.
    unfold down_data, extend_padded in Ht. eexists. split; [apply Ht|].
    split; [rewrite length_app, length_replicate; unfold at_column, top_of, nrows, rows; cbn; lia|].
    split_and!; apply Ht. }
  destruct (wp_run _ _ _ Hwp) as ([] & t & E & more & Ht). by exists t, more.
Qed.

(** filling part of a line sets just the cells asked for to the character in the
    erase colour, but for the protected ones when they are honoured; the other cells and
    the other lines are left alone.  (When the line ends just before the last cell of the
    fill that cell is stored but not shown, see the findings.) *)
Theorem fill_sets_the_cells s ds d start end_ character honor :
  on_screen s ds -> ds !! row_index s ds = Some d -> 0 <= start <= end_ -> end_ < WIDTH s ->
  Z.max (line_length d) start <> end_ -> (honor = true -> end_ < line_length d) ->
  exists t d', fill_line_with_character start end_ character honor s = Done (tt, t) /\
    on_screen t (<[row_index s ds := d']> ds) /\
    cursor_x (q_status t) = cursor_x (q_status s) /\ cursor_y (q_status t) = cursor_y (q_status s) /\
    forall j, 0 <= j < WIDTH s ->
      cell (console s) d' j =
      if (start <=? j) && (j <=? end_) && negb (protected_cell honor (cell (console s) d j))
      then (character, erase_color s) else cell (console s) d j.
Proof.
  intros H Hd Hse He Hne Hhon. pose proof (cfg_width _ (os_config _ _ H)) as HW.
  pose proof (shows_line _ _ _ _ _ (os_shows _ _ H) Hd) as Hok. set (d' := fill_data s start end_ character honor d).
  assert (Hwp : wp (fill_line_with_character start end_ character honor) s (fun _ t =>
    on_screen t (<[row_index s ds := d']> ds) /\
    cursor_x (q_status t) = cursor_x (q_status s) /\ cursor_y (q_status t) = cursor_y (q_status s))).
  { apply (wp_on_line s ds d d'); [done|done|apply acts_fill; [done|done|lia|done]|].
    intros t Ht. split_and!; apply Ht. }
  destruct (wp_run _ _ _ Hwp) as ([] & t & E & Ht & Hx & Hy). exists t, d'. split_and!; [done..|].
  intros j Hj. unfold d'. rewrite fill_data_cells by (done || lia). unfold erase_cell.
  destruct (_ && (j <=? end_)); [|done]. by destruct (protected_cell _ _).
Qed.

(** C35: scrolling a region, all of whose rows exist, up by [count] moves the text of each row of it [count] rows
    up, blanks the [count] rows at the bottom, and leaves every other row and the cursor
    alone. *)
Theorem scroll_up_moves_rows s ds top bottom count :
  on_screen s ds -> 0 <= top -> bottom < rows s -> 0 < count < bottom + 1 - top ->
  (top_of s ds + Z.to_nat bottom < length ds)%nat ->
  exists t ds', scrolling_region_scroll_up top bottom count s = Done (tt, t) /\ on_screen t ds' /\
    cursor_x (q_status t) = cursor_x (q_status s) /\ cursor_y (q_status t) = cursor_y (q_status s) /\
    (forall r d m, top <= r <= bottom - count -> row s ds r = Some d -> row s ds (r + count) = Some m ->
       exists d', row s ds' r = Some d' /\ same_text d' m) /\
    (forall r d, bottom - count < r <= bottom -> row s ds r = Some d ->
       row s ds' r = Some (erased s 0 Q_MAX_LINE_LENGTH d)) /\
    (forall r, 0 <= r < top \/ bottom < r -> row s ds' r = row s ds r).
Proof.
  intros H Ht Hb Hc Hl. set (ds' := scroll_up_data s top 0 bottom 256 count ds).
  assert (Hwp : wp (scrolling_region_scroll_up top bottom count) s (fun _ t => on_screen t ds' /\
    cursor_x (q_status t) = cursor_x (q_status s) /\ cursor_y (q_status t) = cursor_y (q_status s))).
  { apply (wp_scroll_up s ds); [done|done|done|lia|done|lia|]. intros t Hr. split_and!; apply Hr. }
  destruct (wp_run _ _ _ Hwp) as ([] & t & E & Hos & Hx & Hy).
  assert (Hrow : forall r, 0 <= r -> row s ds' r = _) by (intros r Hr; apply row_scroll_up; lia || done).
  exists t, ds'. split_and!; [done..| | |].
  - intros r d m Hr Hd Hm. exists (copied (console s) 0 256 pad_up d m).
    rewrite Hrow, (proj2 (Z.leb_le _ _)), (proj2 (Z.leb_le r _)) by lia. cbn [andb]. rewrite Hd, Hm.
    split; [done|]. apply copied_whole; eapply shows_line; [apply H|exact Hd|apply H|exact Hm].
  - intros r d Hr Hd. rewrite Hrow, (proj2 (Z.leb_gt r _)), andb_false_r, (proj2 (Z.ltb_lt _ r)), (proj2 (Z.leb_le r _)) by lia.
    cbn [andb]. by rewrite Hd.
  - intros r [Hr|Hr].
    + rewrite Hrow, (proj2 (Z.leb_gt top r)), (proj2 (Z.ltb_ge _ r)) by lia. done.
    + rewrite Hrow, (proj2 (Z.leb_gt r (bottom - count))), (proj2 (Z.leb_gt r bottom)), !andb_false_r by lia. done.
Qed.

(** C36: a line feed in the last row of a screen without a scrolling region, the scrollback enabled, adds a line
    below and keeps the text of all the others; just when the buffer holds
    [q_scrollback_max] lines does the oldest one go. *)
Theorem linefeed_keeps_history s ds new_line_mode :
  on_screen s ds -> scrollback_enabled (q_status s) = true -> no_region s = true ->
  cursor_y (q_status s) = rows s - 1 ->
  let kept := if q_scrollback_max s <=? Z.of_nat (length ds) then tail ds else ds in
  exists t ds', cursor_linefeed new_line_mode s = Done (tt, t) /\ on_screen t ds' /\
    length ds' = S (length kept) /\
    (forall k d, kept !! k = Some d -> exists d', ds' !! k = Some d' /\ same_text d' d) /\
    cursor_y (q_status t) = cursor_y (q_status s) /\
    cursor_x (q_status t) = (if new_line_mode then 0 else cursor_x (q_status s)).
Proof.
  intros H Hk Hn Hy kept. set (ds' := feed_data s ds).
  assert (Hbot : (cursor_y (q_status s) <? scroll_region_bottom (q_status s)) = false).
  { apply Z.ltb_ge. pose proof (cfg_region _ (os_config _ _ H)). lia. }
  assert (Hwp : wp (cursor_linefeed new_line_mode) s (fun _ t => on_screen t ds' /\
    cursor_y (q_status t) = cursor_y (q_status s) /\
    cursor_x (q_status t) = (if new_line_mode then 0 else cursor_x (q_status s)))).
  { apply (wp_cursor_linefeed s ds); [done|]. unfold linefeed_data, linefeed_row. cbv zeta. rewrite Hbot, Hn.
    intros t Ht. split_and!; apply Ht. }
  destruct (wp_run _ _ _ Hwp) as ([] & t & E & Hos & Hyt & Hxt). exists t, ds'.
  assert (Hkept : without (full s (length ds)) (pushed s (length ds)) ds = kept).
  { unfold full, pushed, kept. rewrite Hk, orb_false_r. destruct (_ <=? _); [|done]. by destruct ds. }
  assert (Hl : length ds' = S (length kept)).
  { unfold ds', feed_data. rewrite Hkept, length_dirty_rows, length_app. cbn. lia. }
  split_and!; [done..| |done|done]. intros k d Hd.
  assert (Hin : (kept ++ [feed_line s]) !! k = Some d) by (rewrite lookup_app_l; [done|by eapply lookup_lt_Some]).
  unfold ds', feed_data, dirty_rows. cbv zeta. rewrite Hkept, lookup_on_range, Hin. cbn.
  eexists. split; [done|]. by destruct (decide _).
Qed.

(** ** Where it goes wrong *)

(** nothing bounds the end of a fill: past the 256th cell it writes beyond the line.
    The erase-character sequence of the VT100 (ESC [ Pn X) passes its argument on. *)
Theorem fill_past_the_line_faults s start end_ character :
  visible s -> 0 <= start <= 256 -> 256 <= end_ ->
  fill_line_with_character start end_ character false s = Fault OutOfBounds.
Proof. intros [ds H]. by apply (fill_faults s ds). Qed.

(** insert_blanks() writes all its blanks to the cell of the cursor: the cells that
    it opened after that one keep what they showed, and the text from the cursor on is
    shown twice. *)
Theorem insert_blanks_repeats_text s ds d count :
  on_screen s ds -> ds !! row_index s ds = Some d -> 0 < count -> cursor_x (q_status s) + count <= 256 ->
  let x := cursor_x (q_status s) in
  exists t d', insert_blanks count s = Done (tt, t) /\ on_screen t (<[row_index s ds := d']> ds) /\
    raw d' x = (32, q_current_color s) /\
    (forall j, x < j < x + count -> raw d' j = raw d j) /\
    (forall j, x <= j -> j + count < 256 -> raw d' (j + count) = raw d j).
Proof.
  intros H Hd Hc Hm x. pose proof (os_x _ _ H) as Hx. fold x in Hx, Hm.
  pose proof (shows_line _ _ _ _ _ (os_shows _ _ H) Hd) as Hok. set (d' := insert_data x count (q_current_color s) d).
  assert (Hwp : wp (insert_blanks count) s (fun _ t => on_screen t (<[row_index s ds := d']> ds))).
  { apply (wp_on_line s ds d d'); [done|done|apply acts_insert_blanks; [done|done|lia|done]|]. intros t Ht. apply Ht. }
  destruct (wp_run _ _ _ Hwp) as ([] & t & E & Ht). exists t, d'. unfold d'.
  split_and!; [done|done|by rewrite raw_insert_data, Z.eqb_refl by (done || lia)| |]; intros j Hj.
  - rewrite raw_insert_data, (proj2 (Z.eqb_neq _ _)), (proj2 (Z.leb_gt _ _)) by (done || lia). done.
  - intros Hjc. rewrite raw_insert_data, (proj2 (Z.eqb_neq _ _)), (proj2 (Z.leb_le _ _)) by (done || lia). f_equal. lia.
Qed.

End ScreenProps.

(** ** Concrete screens *)

#[local] Existing Instance ncurses.

(** A terminal after some operations. *)
Definition after (cs : list command) (s : screen_state) : screen_state :=
  foldl (fun s c => result (run c) s) s cs.

Lemma visible_after cs s : Forall (fun c => forall s, in_bounds s c) cs -> visible s -> visible (after cs s).
Proof.
  revert s. induction cs as [|c cs IH]; intros s Hcs [ds Hs]; [by exists ds|].
  apply Forall_cons in Hcs as [Hc Hcs]. apply IH; [done|].
  pose proof (keeps_run s ds c Hs (Hc s)) as H. unfold result, keeps, wp in *.
  by destruct (run c s) as [[[] t]| |], H.
Qed.

(** Four lines, A to D; and the same without the lines that scroll away being kept. *)
Definition four : screen_state :=
  after [Print 65; Linefeed true; Print 66; Linefeed true; Print 67; Linefeed true; Print 68] (opened Q_EMUL_ANSI).

Lemma four_visible : visible four.
Proof. apply visible_after; [repeat (apply Forall_cons; split; [done|]); by apply Forall_nil|apply opened_visible]. Qed.

Lemma four_lines : scrollback_lines (q_status four) = 4.
Proof. vm_compute. reflexivity. Qed.

Lemma four_on_screen : exists ds, on_screen four ds /\ length ds = 4%nat.
Proof.
  destruct four_visible as [ds H]. exists ds. split; [exact H|].
  pose proof (eq_trans (eq_sym four_lines) (sh_lines _ _ _ (os_shows _ _ H))) as Hl. lia.
Qed.

#[local] Opaque four.

Definition forgetful : screen_state := result (on_status (fun q => q <| scrollback_enabled := false |>)) four.

(** when the lines that scroll away are not kept and the buffer holds just the lines
    of the screen, a line feed frees the first line and leaves [q_scrollback_buffer]
    pointing at it; clearing the buffer then reads freed memory. *)
Theorem disabled_scrollback_dangles :
  let t := result (cursor_linefeed false) forgetful in
  exists a, q_scrollback_buffer (buffer t) = Some a /\ store_of (buffer t) !! a = None /\
    clear_scrollback t = Fault UseAfterFree.
Proof. exists 1%positive. vm_compute. auto. Qed.

(** The line in row [y]. *)
Definition line_at (s : screen_state) (y : Z) : option positive :=
  match (top ← find_top_scrollback_line; line_below (Z.to_nat y) top) s with Done (p, _) => p | _ => None end.

(** with more lines than the screen shows, hiding the status line and showing it
    again moves the cursor a row down, but not the current line: what is typed then
    appears in the row above the cursor.  Making the window smaller leaves a negative row
    when the cursor is far enough up. *)
Theorem resizing_loses_the_row :
  let s := result (cursor_linefeed true;; typed [69];; cursor_up 2 false) four in
  let t := result (set_status_line false;; set_status_line true) s in
  line_at s (cursor_y (q_status s)) = q_scrollback_current (buffer s) /\
  cursor_y (q_status t) = cursor_y (q_status s) + 1 /\
  q_scrollback_current (buffer t) = q_scrollback_current (buffer s) /\
  line_at t (cursor_y (q_status t)) <> q_scrollback_current (buffer t) /\
  cursor_y (q_status (result (handle_resize 3 8) (result (cursor_up 3 false) four))) = -2.
Proof. vm_compute. repeat split; congruence. Qed.

(** Two lines only on the screen of four rows. *)
Definition two : screen_state :=
  result (typed [65];; cursor_linefeed true;; typed [66]) (opened Q_EMUL_ANSI).

(** a scroll of rows of which the last ones have no line yet stops after the last
    line: the last text is shown in two rows. *)
Theorem scroll_of_missing_rows_repeats :
  let t := result (scrolling_region_scroll_up 0 3 1) two in
  (fun p => match deref p two with Done (l, _) => take 1 (chars l) | _ => [] end) <$> [line_at two 0; line_at two 1] = [[65]; [66]] /\
  (fun p => match deref p t with Done (l, _) => take 1 (chars l) | _ => [] end) <$> [line_at t 0; line_at t 1] = [[66]; [66]].
Proof. vm_compute. auto. Qed.

(** ** Witnesses *)

Definition tall : screen_state := (terminal Q_EMUL_VT100 true) <| HEIGHT := 9 |> <| q_scrollback_max := 20 |>.

Lemma first_screen_is_drawable_witness :
  exists t, first_screen false [81] [82] [83] tall = Done (tt, t) /\
            visible t /\ frame t = frame tall.
Proof.
  apply first_screen_is_drawable; [|vm_compute; congruence|repeat (apply Forall_cons; split; [cbn; lia|]); by apply Forall_nil].
  split; [|done..]. split; cbn; vm_compute; intuition congruence.
Defined.

Lemma opened_draws : rtc draws (opened Q_EMUL_ANSI) (result (print_character 65) (opened Q_EMUL_ANSI)).
Proof. apply rtc_once, (Draw _ _ (Print 65)); [done|]. vm_compute. reflexivity. Qed.

Lemma drawing_never_faults_witness :
  exists u, run (Scroll_up 0 0 3 256 1) (result (print_character 65) (opened Q_EMUL_ANSI)) = Done (tt, u) /\
            visible u /\ frame u = frame (opened Q_EMUL_ANSI).
Proof.
  apply (drawing_never_faults (opened Q_EMUL_ANSI)); [apply opened_visible|apply opened_draws|].
  vm_compute. intuition congruence.
Defined.

Lemma scrollback_is_bounded_witness :
  let t := result (print_character 65) (opened Q_EMUL_ANSI) in
  Z.of_nat (size (store_of (buffer t))) = scrollback_lines (q_status t) /\
  scrollback_lines (q_status t) <= q_scrollback_max t.
Proof. apply (scrollback_is_bounded (opened Q_EMUL_ANSI)); [apply opened_visible|apply opened_draws]. Defined.

(** The line at the cursor of the four. *)
Lemma four_line : exists ds d, on_screen four ds /\ length ds = 4%nat /\ ds !! row_index four ds = Some d /\
  line_length d = 1 /\ double_width d = false.
Proof.
  destruct four_on_screen as (ds & H & Hl). destruct (os_line _ _ H) as (d & Hd & _).
  exists ds, d. split_and!; [done..| |].
  all: destruct (sh_holds _ _ _ (os_shows _ _ H)) as [ls Hls];
    pose proof (current_at four ls ds _ d Hls Hd) as E;
    assert (E' : match current four with Done (l, _) => (line_length l, double_width l) | _ => (0, true) end = (1, false))
      by (vm_compute; reflexivity);
    rewrite E in E'; by injection E'.
Qed.

Lemma printable : Forall (fun c => c <> 7 /\ c <> 0) [72; 105].
Proof. repeat (apply Forall_cons; split; [done|]). by apply Forall_nil. Qed.

Lemma typed_text_is_stored_witness :
  exists ds d t d', on_screen four ds /\ ds !! row_index four ds = Some d /\
    typed [72; 105] four = Done (tt, t) /\ on_screen t (<[row_index four ds := d']> ds) /\
    cell (console four) d' 1 = (72, q_current_color four) /\ cell (console four) d' 2 = (105, q_current_color four) /\
    cursor_x (q_status t) = 3.
Proof.
  destruct four_line as (ds & d & H & _ & Hd & Hl & Hw).
  assert (Hx : cursor_x (q_status four) = 1) by (vm_compute; reflexivity).
  destruct (typed_text_is_stored four ds d [72; 105]) as (t & d' & E & Ht & Hc & _ & Hxt & _); [done|done|vm_compute; reflexivity| | |].
  - exact printable.
  - rewrite Hx. unfold print_margin, halve_margin. rewrite Hw.
    assert (Hm : emulation_margin four = 7) by (vm_compute; reflexivity). rewrite Hm. cbn. lia.
  - exists ds, d, t, d'. rewrite Hx in *. split_and!; [done..|apply (Hc 0%nat); done|apply (Hc 1%nat); done|done].
Defined.

Lemma cursor_position_addresses_witness :
  exists ds t, on_screen four ds /\ cursor_position 1 99 four = Done (tt, t) /\
    cursor_x (q_status t) = 7 /\ cursor_y (q_status t) = 1.
Proof.
  destruct four_on_screen as (ds & H & Hl).
  destruct (cursor_position_addresses four ds 1 99) as (t & more & E & _ & _ & Hx & Hy & _);
    [done|lia|lia|vm_compute; congruence|].
  exists ds, t. split; [exact H|]. split; [exact E|]. rewrite Hx, Hy. split; vm_compute; reflexivity.
Defined.

Lemma fill_sets_the_cells_witness :
  exists ds t, on_screen four ds /\ fill_line_with_character 2 4 46 false four = Done (tt, t).
Proof.
  destruct four_line as (ds & d & H & _ & Hd & Hl & Hw).
  destruct (fill_sets_the_cells four ds d 2 4 46 false) as (t & d' & E & _);
    [done|done|lia|vm_compute; reflexivity|rewrite Hl; lia|done|].
  exists ds, t. split; [exact H|exact E].
Defined.

Lemma scroll_up_moves_rows_witness :
  exists ds t, on_screen four ds /\ scrolling_region_scroll_up 0 3 1 four = Done (tt, t).
Proof.
  destruct four_on_screen as (ds & H & Hl).
  destruct (scroll_up_moves_rows four ds 0 3 1) as (t & ds' & E & _);
    [done|lia|vm_compute; reflexivity|lia|unfold top_of; rewrite Hl; change (nrows four) with 4%nat; lia|].
  exists ds, t. split; [exact H|exact E].
Defined.

Lemma linefeed_keeps_history_witness :
  exists ds t ds', on_screen four ds /\ cursor_linefeed true four = Done (tt, t) /\ on_screen t ds' /\ length ds' = 5%nat.
Proof.
  destruct four_on_screen as (ds & H & Hl).
  destruct (linefeed_keeps_history four ds true) as (t & ds' & E & Ht & Hl' & _);
    [done|vm_compute; reflexivity|vm_compute; reflexivity|vm_compute; reflexivity|].
  rewrite Hl in Hl'. exists ds, t, ds'. split; [exact H|]. split; [exact E|]. split; [exact Ht|].
  assert (Hm : q_scrollback_max four <=? Z.of_nat 4 = false) by (vm_compute; reflexivity).
  by rewrite Hm, Hl in Hl'.
Defined.

Lemma fill_past_the_line_faults_witness : fill_line_with_character 1 9999 32 false four = Fault OutOfBounds.
Proof.
  apply fill_past_the_line_faults; [|lia|lia]. destruct four_on_screen as (ds & H & _). exists ds. exact H.
Defined.

Lemma insert_blanks_repeats_text_witness :
  exists ds d t d', on_screen four ds /\ ds !! row_index four ds = Some d /\ insert_blanks 2 four = Done (tt, t) /\
    raw d' 2 = raw d 2.
Proof.
  destruct four_line as (ds & d & H & _ & Hd & _ & _).
  assert (Hx : cursor_x (q_status four) = 1) by (vm_compute; reflexivity).
  destruct (insert_blanks_repeats_text four ds d 2) as (t & d' & E & _ & _ & Hr & _); [done|done|lia|rewrite Hx; lia|].
  exists ds, d, t, d'. split; [exact H|]. split; [exact Hd|]. split; [exact E|]. apply Hr. rewrite Hx. lia.
Defined.

End ScreenProps.
