(* ===== verification/Emulation.v ===== *)
(** emulation.c: the state that the terminal emulations share, what they ask of the
    screen and of the connection, and the TTY emulation.

    The state of every emulation is here, as the statics of the C files are side by
    side in the program; the operations of each are in the file of its name. *)

From Stdlib Require Import ZArith Lia List Bool.
From Stdlib Require Import Ascii.
From stdpp Require Import base list numbers gmap strings.
From S2P Require Import Prelude Stdio States Utf8 Codepage Colors Screen.
Import Codepage Colors Screen.

Module Emulation.

(** ** Data *)

(** vt100.c *)
Inductive SCAN_STATE :=
| SCAN_GROUND | SCAN_ESCAPE | SCAN_ESCAPE_INTERMEDIATE | SCAN_CSI_ENTRY | SCAN_CSI_PARAM
| SCAN_CSI_INTERMEDIATE | SCAN_CSI_IGNORE | SCAN_DCS_ENTRY | SCAN_DCS_INTERMEDIATE
| SCAN_DCS_PARAM | SCAN_DCS_PASSTHROUGH | SCAN_DCS_IGNORE | SCAN_SOSPMAPC_STRING
| SCAN_OSC_STRING | SCAN_VT52_DIRECT_CURSOR_ADDRESS.
#[global] Instance SCAN_STATE_eq_dec : EqDecision SCAN_STATE.
Proof. solve_decision. Defined.

Inductive VT100_CHARACTER_SET :=
| CHARSET_US | CHARSET_UK | CHARSET_DRAWING | CHARSET_ROM | CHARSET_ROM_SPECIAL
| CHARSET_VT52_GRAPHICS | CHARSET_DEC_SUPPLEMENTAL | CHARSET_NRC_DUTCH | CHARSET_NRC_FINNISH
| CHARSET_NRC_FRENCH | CHARSET_NRC_FRENCH_CA | CHARSET_NRC_GERMAN | CHARSET_NRC_ITALIAN
| CHARSET_NRC_NORWEGIAN | CHARSET_NRC_SPANISH | CHARSET_NRC_SWEDISH | CHARSET_NRC_SWISS.

Inductive SINGLESHIFT := SS_NONE | SS2 | SS3.
#[global] Instance SINGLESHIFT_eq_dec : EqDecision SINGLESHIFT.
Proof. solve_decision. Defined.

Inductive LOCKSHIFT_MODE :=
| LOCKSHIFT_NONE | LOCKSHIFT_G1_GR | LOCKSHIFT_G2_GR | LOCKSHIFT_G2_GL | LOCKSHIFT_G3_GR
| LOCKSHIFT_G3_GL.

(** input.h, emulation.h *)
Inductive XTERM_MOUSE_PROTOCOL :=
| XTERM_MOUSE_OFF | XTERM_MOUSE_X10 | XTERM_MOUSE_NORMAL | XTERM_MOUSE_BUTTONEVENT | XTERM_MOUSE_ANYEVENT.
Inductive XTERM_MOUSE_ENCODING :=
| XTERM_MOUSE_ENCODING_X10 | XTERM_MOUSE_ENCODING_UTF8 | XTERM_MOUSE_ENCODING_SGR.
Inductive Q_KEYPAD_MODE := Q_KEYPAD_MODE_APPLICATION | Q_KEYPAD_MODE_NUMERIC.

(** struct vt100_state.  A row of [params] is the C string in it; [tab_stops] and
    [tab_stops_n] are one list, empty for NULL; the UTF-8 decoder is [utf8]. *)
Record vt100_state := {
  singleshift : SINGLESHIFT;
  vt52_mode : bool;
  dec_private_mode_flag : bool;
  shift_out : bool;
  saved_origin_mode : bool;
  columns_132 : bool;
  overridden_line_wrap : bool;
  g0_charset : VT100_CHARACTER_SET;
  g1_charset : VT100_CHARACTER_SET;
  saved_cursor_x : Z;
  saved_cursor_y : Z;
  tab_stops : list Z;
  saved_attributes : Z;
  saved_attributes_is_default_color : bool;
  saved_g0_charset : VT100_CHARACTER_SET;
  saved_g1_charset : VT100_CHARACTER_SET;
  s8c1t_mode : bool;
  printer_controller_mode : bool;
  g2_charset : VT100_CHARACTER_SET;
  g3_charset : VT100_CHARACTER_SET;
  gr_charset : VT100_CHARACTER_SET;
  saved_g2_charset : VT100_CHARACTER_SET;
  saved_g3_charset : VT100_CHARACTER_SET;
  saved_gr_charset : VT100_CHARACTER_SET;
  saved_linewrap : bool;
  saved_lockshift_gl : LOCKSHIFT_MODE;
  saved_lockshift_gr : LOCKSHIFT_MODE;
  lockshift_gl : LOCKSHIFT_MODE;
  lockshift_gr : LOCKSHIFT_MODE;
  utf8 : Utf8.decoder;
  rep_ch : Z;
  params : list (list Z);
  params_n : Z
}.
#[export] Instance eta_vt100_state : Eta vt100_state := fun v =>
  {| singleshift := singleshift v; vt52_mode := vt52_mode v;
     dec_private_mode_flag := dec_private_mode_flag v; shift_out := shift_out v;
     saved_origin_mode := saved_origin_mode v; columns_132 := columns_132 v;
     overridden_line_wrap := overridden_line_wrap v; g0_charset := g0_charset v;
     g1_charset := g1_charset v; saved_cursor_x := saved_cursor_x v;
     saved_cursor_y := saved_cursor_y v; tab_stops := tab_stops v;
     saved_attributes := saved_attributes v;
     saved_attributes_is_default_color := saved_attributes_is_default_color v;
     saved_g0_charset := saved_g0_charset v; saved_g1_charset := saved_g1_charset v;
     s8c1t_mode := s8c1t_mode v; printer_controller_mode := printer_controller_mode v;
     g2_charset := g2_charset v; g3_charset := g3_charset v; gr_charset := gr_charset v;
     saved_g2_charset := saved_g2_charset v; saved_g3_charset := saved_g3_charset v;
     saved_gr_charset := saved_gr_charset v; saved_linewrap := saved_linewrap v;
     saved_lockshift_gl := saved_lockshift_gl v; saved_lockshift_gr := saved_lockshift_gr v;
     lockshift_gl := lockshift_gl v; lockshift_gr := lockshift_gr v; utf8 := utf8 v;
     rep_ch := rep_ch v; params := params v; params_n := params_n v |}.

(** The fields of [q_status] that only the emulations use. *)
Record emulation_flags := {
  codepage : Q_CODEPAGE;
  visible_cursor : bool;
  full_duplex : bool;
  bracketed_paste_mode : bool;
  hold_screen_mode : bool;
  hard_backspace : bool;
  vt100_color : bool;
  vt52_color : bool;
  led_1 : bool;
  led_2 : bool;
  led_3 : bool;
  led_4 : bool;
  ansi_animate : bool;
  ansi_music : bool;
  avatar_color : bool;
  avatar_ansi_fallback : bool;
  petscii_color : bool;
  petscii_ansi_fallback : bool;
  petscii_is_c64 : bool;
  petscii_use_unicode : bool
}.
#[export] Instance eta_emulation_flags : Eta emulation_flags := fun f =>
  {| codepage := codepage f; visible_cursor := visible_cursor f; full_duplex := full_duplex f;
     bracketed_paste_mode := bracketed_paste_mode f; hold_screen_mode := hold_screen_mode f;
     hard_backspace := hard_backspace f; vt100_color := vt100_color f; vt52_color := vt52_color f;
     led_1 := led_1 f; led_2 := led_2 f; led_3 := led_3 f; led_4 := led_4 f;
     ansi_animate := ansi_animate f; ansi_music := ansi_music f; avatar_color := avatar_color f;
     avatar_ansi_fallback := avatar_ansi_fallback f; petscii_color := petscii_color f;
     petscii_ansi_fallback := petscii_ansi_fallback f; petscii_is_c64 := petscii_is_c64 f;
     petscii_use_unicode := petscii_use_unicode f |}.

(** The two statics with which the emulations of ansi.c, vt52.c, avatar.c and petscii.c
    read an SGR sequence: [count], the pointer into [q_emul_buffer] as an index, -1 for
    NULL, and [attributes]. *)
Record csi_counter := { count : Z; attributes : Z }.
#[export] Instance eta_csi_counter : Eta csi_counter := fun c => {| count := count c; attributes := attributes c |}.
Definition no_counter : csi_counter := {| count := -1; attributes := 0 |}.

(** vt52.c: its states, and the variables of the file. *)
Inductive VT52_SCAN_STATE :=
| VT52_SCAN_NONE | VT52_SCAN_ESC | VT52_SCAN_Y_1 | VT52_SCAN_Y_2 | VT52_SCAN_CSI
| VT52_SCAN_CSI_PARAM.

Record vt52_state := {
  vt52_scan_state : VT52_SCAN_STATE;
  graphics_mode : bool;
  q_vt52_alternate_keypad_mode : bool;
  vt52_counter : csi_counter
}.
#[export] Instance eta_vt52_state : Eta vt52_state := fun v =>
  {| vt52_scan_state := vt52_scan_state v; graphics_mode := graphics_mode v;
     q_vt52_alternate_keypad_mode := q_vt52_alternate_keypad_mode v; vt52_counter := vt52_counter v |}.

(** ansi.c *)
Inductive ANSI_SCAN_STATE :=
| ANSI_SCAN_NONE | ANSI_SCAN_ESC | ANSI_SCAN_START_SEQUENCE | ANSI_SCAN_COUNT | ANSI_SCAN_COUNT_TWO
| ANSI_SCAN_COUNT_MANY | ANSI_SCAN_MUSIC.

Record ansi_state := {
  ansi_scan_state : ANSI_SCAN_STATE;
  ansi_saved_cursor_x : Z;
  ansi_saved_cursor_y : Z;
  rep_character : Z;
  private_mode_flag : bool;
  ansi_dec_private_mode_flag : bool;
  discard_mode_flag : bool;
  music_buffer : list Z;
  music_buffer_n : Z;
  old_character_color : Z;
  ansi_counter : csi_counter
}.
#[export] Instance eta_ansi_state : Eta ansi_state := fun v =>
  {| ansi_scan_state := ansi_scan_state v; ansi_saved_cursor_x := ansi_saved_cursor_x v;
     ansi_saved_cursor_y := ansi_saved_cursor_y v; rep_character := rep_character v;
     private_mode_flag := private_mode_flag v; ansi_dec_private_mode_flag := ansi_dec_private_mode_flag v;
     discard_mode_flag := discard_mode_flag v; music_buffer := music_buffer v;
     music_buffer_n := music_buffer_n v; old_character_color := old_character_color v;
     ansi_counter := ansi_counter v |}.

(** The bytes that avatar.c and petscii.c give to the ANSI emulation. *)
Record ansi_fallback := { ansi_buffer : list Z; ansi_buffer_n : Z; ansi_buffer_i : Z }.
#[export] Instance eta_ansi_fallback : Eta ansi_fallback := fun f =>
  {| ansi_buffer := ansi_buffer f; ansi_buffer_n := ansi_buffer_n f; ansi_buffer_i := ansi_buffer_i f |}.

Definition no_fallback : ansi_fallback := {| ansi_buffer := replicate 128 0; ansi_buffer_n := 0; ansi_buffer_i := 0 |}.

(** avatar.c; [v_y_chars] is empty for NULL. *)
Inductive AVATAR_SCAN_STATE :=
| AVATAR_SCAN_NONE | AVATAR_SCAN_V | AVATAR_SCAN_H_1 | AVATAR_SCAN_H_2 | AVATAR_SCAN_A_1 | AVATAR_SCAN_Y_1
| AVATAR_SCAN_Y_2 | AVATAR_SCAN_Y_EMIT | AVATAR_SCAN_V_Y_1 | AVATAR_SCAN_V_Y_2 | AVATAR_SCAN_V_Y_3
| AVATAR_SCAN_V_Y_EMIT | AVATAR_SCAN_V_M_1 | AVATAR_SCAN_V_M_2 | AVATAR_SCAN_V_M_3 | AVATAR_SCAN_V_M_4
| AVATAR_SCAN_V_JK_1 | AVATAR_SCAN_V_JK_2 | AVATAR_SCAN_V_JK_3 | AVATAR_SCAN_V_JK_4 | AVATAR_SCAN_V_JK_5
| AVATAR_SCAN_ESC | AVATAR_SCAN_CSI | AVATAR_SCAN_CSI_PARAM | AVATAR_SCAN_ANSI_FALLBACK
| AVATAR_DUMP_UNKNOWN_SEQUENCE.

Record avatar_state := {
  avatar_scan_state : AVATAR_SCAN_STATE;
  y_char : Z;
  y_count : Z;
  v_y_chars : list Z;
  v_y_chars_i : Z;
  v_y_chars_n : Z;
  v_jk_scrollup : bool;
  v_jk_numlines : Z;
  v_jk_upper : Z;
  v_jk_left : Z;
  v_jk_lower : Z;
  v_jk_right : Z;
  avatar_fallback : ansi_fallback;
  avatar_counter : csi_counter
}.
#[export] Instance eta_avatar_state : Eta avatar_state := fun v =>
  {| avatar_scan_state := avatar_scan_state v; y_char := y_char v; y_count := y_count v;
     v_y_chars := v_y_chars v; v_y_chars_i := v_y_chars_i v; v_y_chars_n := v_y_chars_n v;
     v_jk_scrollup := v_jk_scrollup v; v_jk_numlines := v_jk_numlines v; v_jk_upper := v_jk_upper v;
     v_jk_left := v_jk_left v; v_jk_lower := v_jk_lower v; v_jk_right := v_jk_right v;
     avatar_fallback := avatar_fallback v; avatar_counter := avatar_counter v |}.

(** petscii.c *)
Inductive PETSCII_SCAN_STATE :=
| PETSCII_SCAN_NONE | PETSCII_SCAN_ESC | PETSCII_SCAN_CSI | PETSCII_SCAN_CSI_PARAM
| PETSCII_SCAN_ANSI_FALLBACK | PETSCII_DUMP_UNKNOWN_SEQUENCE.

Record petscii_state := {
  petscii_scan_state : PETSCII_SCAN_STATE;
  uppercase : bool;
  reverse : bool;
  petscii_fallback : ansi_fallback;
  petscii_counter : csi_counter
}.
#[export] Instance eta_petscii_state : Eta petscii_state := fun v =>
  {| petscii_scan_state := petscii_scan_state v; uppercase := uppercase v; reverse := reverse v;
     petscii_fallback := petscii_fallback v; petscii_counter := petscii_counter v |}.

(** atascii.c, struct atari_state; the tab stops are a list, empty for NULL. *)
Record atascii_state := {
  atascii_reverse : bool;
  print_control_char : bool;
  atascii_tab_stops : list Z
}.
#[export] Instance eta_atascii_state : Eta atascii_state := fun v =>
  {| atascii_reverse := atascii_reverse v; print_control_char := print_control_char v;
     atascii_tab_stops := atascii_tab_stops v |}.

(** What an emulation does that is not drawing: answers to the other side, the cursor
    of the window turned on or off, the reports of the mouse, a refresh of the window in
    the middle of the input, and music. *)
Inductive emulation_event :=
| Sent (data : list Z)
| Cursor (on : bool)
| Mouse_listener (on : bool)
| Refresh
| Play_ansi_music (notes : list Z).

(** [q_emul_repeat_state_buffer] is the buffer with its count, empty for NULL. *)
Record emul_state := {
  screen : screen_state;
  flags : emulation_flags;
  q_emul_buffer : list Z;
  q_emul_buffer_n : Z;
  q_emul_buffer_i : Z;
  q_emul_repeat_state_buffer : list Z;
  last_state : Q_EMULATION_STATUS;
  q_connection_bytes_received : Z;
  local_echo_count : Z;
  scan_state : SCAN_STATE;
  state : vt100_state;
  q_vt100_arrow_keys : Q_EMULATION;
  q_vt100_new_line_mode : bool;
  is_default_color : bool;
  q_vt100_keypad_mode : Q_EMULATION * Q_KEYPAD_MODE;
  q_linux_beep_frequency : Z;
  q_linux_beep_duration : Z;
  q_xterm_mouse_protocol : XTERM_MOUSE_PROTOCOL;
  q_xterm_mouse_encoding : XTERM_MOUSE_ENCODING;
  previous_aixterm_color : Z;
  vt52_statics : vt52_state;
  ansi_statics : ansi_state;
  avatar_statics : avatar_state;
  petscii_statics : petscii_state;
  atascii_statics : atascii_state;
  answerback : list Z;
  log : list emulation_event
}.
#[export] Instance eta_emul_state : Eta emul_state := fun s =>
  {| screen := screen s; flags := flags s; q_emul_buffer := q_emul_buffer s;
     q_emul_buffer_n := q_emul_buffer_n s; q_emul_buffer_i := q_emul_buffer_i s;
     q_emul_repeat_state_buffer := q_emul_repeat_state_buffer s;
     last_state := last_state s; q_connection_bytes_received := q_connection_bytes_received s;
     local_echo_count := local_echo_count s;
     scan_state := scan_state s; state := state s; q_vt100_arrow_keys := q_vt100_arrow_keys s;
     q_vt100_new_line_mode := q_vt100_new_line_mode s; is_default_color := is_default_color s;
     q_vt100_keypad_mode := q_vt100_keypad_mode s;
     q_linux_beep_frequency := q_linux_beep_frequency s;
     q_linux_beep_duration := q_linux_beep_duration s;
     q_xterm_mouse_protocol := q_xterm_mouse_protocol s;
     q_xterm_mouse_encoding := q_xterm_mouse_encoding s;
     previous_aixterm_color := previous_aixterm_color s; vt52_statics := vt52_statics s;
     ansi_statics := ansi_statics s; avatar_statics := avatar_statics s;
     petscii_statics := petscii_statics s; atascii_statics := atascii_statics s;
     answerback := answerback s; log := log s |}.

Definition EM := M emul_state.

(** ** Access *)

(** An operation of the screen. *)
Definition draw {A} (m : SM A) : EM A := zoom screen (fun t s => s <| screen := t |>) m.

(** Fields of [q_status], of [struct vt100_state], of the flags. *)
Definition status {A} (f : q_status_struct -> A) : EM A := gets (fun s => f (q_status (screen s))).
Definition on_status (f : q_status_struct -> q_status_struct) : EM unit :=
  modify (fun s => s <| screen ::= fun t => t <| q_status ::= f |> |>).
Definition vt {A} (f : vt100_state -> A) : EM A := gets (fun s => f (state s)).
Definition on_vt (f : vt100_state -> vt100_state) : EM unit := modify (fun s => s <| state ::= f |>).
Definition on_flags (f : emulation_flags -> emulation_flags) : EM unit := modify (fun s => s <| flags ::= f |>).

Definition on_vt52 (f : vt52_state -> vt52_state) : EM unit := modify (fun s => s <| vt52_statics ::= f |>).
Definition on_ansi (f : ansi_state -> ansi_state) : EM unit := modify (fun s => s <| ansi_statics ::= f |>).
Definition on_avatar (f : avatar_state -> avatar_state) : EM unit := modify (fun s => s <| avatar_statics ::= f |>).
Definition on_petscii (f : petscii_state -> petscii_state) : EM unit := modify (fun s => s <| petscii_statics ::= f |>).
Definition on_atascii (f : atascii_state -> atascii_state) : EM unit := modify (fun s => s <| atascii_statics ::= f |>).

Definition set_color_to (c : Z) : EM unit :=
  modify (fun s => s <| screen ::= fun t => t <| q_current_color := c |> |>).
Definition set_right_margin (m : Z) : EM unit :=
  modify (fun s => s <| screen ::= fun t => t <| q_emulation_right_margin := m |> |>).
Definition set_scan_state (q : SCAN_STATE) : EM unit := modify (fun s => s <| scan_state := q |>).

(** qodem_write(q_child_tty_fd, data, length, Q_TRUE) *)
Definition qodem_write (data : list Z) : EM unit := modify (fun s => s <| log ::= fun l => l ++ [Sent data] |>).
(** q_cursor_on(), q_cursor_off() *)
Definition q_cursor (on : bool) : EM unit := modify (fun s => s <| log ::= fun l => l ++ [Cursor on] |>).
Definition enquire : EM unit := s ← get; qodem_write (answerback s).

(** The byte of a character literal, and a switch on a byte. *)
Definition chr (c : Ascii.ascii) : Z := Z.of_N (Ascii.N_of_ascii c).

Arguments chr (c)%_char_scope.
Definition on {A} (c : Ascii.ascii) (a : A) : Ascii.ascii * A := (c, a).
Arguments on {A} (c)%_char_scope a.

Fixpoint switch {A} (b : Z) (cases : list (Ascii.ascii * A)) (default : A) : A :=
  match cases with
  | [] => default
  | (c, a) :: cases => if b =? chr c then a else switch b cases default
  end.

Definition C_ESC : Z := 0x1B.
Definition within (lo hi b : Z) : bool := (lo <=? b) && (b <=? hi).

(** The bottom row above the status line. *)
Definition last_row (s : screen_state) : Z := HEIGHT s - STATUS_HEIGHT s - 1.

(** *** Groups of emulations *)

Definition is_vt10x (e : Q_EMULATION) : bool :=
  match e with Q_EMUL_VT100 | Q_EMUL_VT102 => true | _ => false end.
Definition is_vtxxx (e : Q_EMULATION) : bool :=
  match e with Q_EMUL_VT100 | Q_EMUL_VT102 | Q_EMUL_VT220 => true | _ => false end.
Definition is_vt220 (e : Q_EMULATION) : bool := bool_decide (e = Q_EMUL_VT220).
Definition is_xterm (e : Q_EMULATION) : bool :=
  match e with Q_EMUL_XTERM | Q_EMUL_XTERM_UTF8 => true | _ => false end.
Definition is_linux (e : Q_EMULATION) : bool :=
  match e with Q_EMUL_LINUX | Q_EMUL_LINUX_UTF8 => true | _ => false end.
Definition is_utf8 (e : Q_EMULATION) : bool :=
  match e with Q_EMUL_LINUX_UTF8 | Q_EMUL_XTERM_UTF8 => true | _ => false end.
Definition is_vga (e : Q_EMULATION) : bool :=
  match e with Q_EMUL_LINUX | Q_EMUL_XTERM => true | _ => false end.
(** VT220 and Xterm with 8-bit controls. *)
Definition is_c1 (e : Q_EMULATION) : bool :=
  match e with Q_EMUL_VT220 | Q_EMUL_XTERM => true | _ => false end.

(** [m] in some emulations only. *)
Definition in_emulation (p : Q_EMULATION -> bool) (m : EM unit) : EM unit :=
  e ← status emulation; whenM (p e) m.

Definition map_char (ch : Z) : EM Z :=
  s ← get; mret (codepage_map_char (codepage (flags s)) (emulation (q_status (screen s))) ch).

(** iscntrl() of a byte, in the C locale and in those of UTF-8. *)
Definition iscntrl (b : Z) : bool := (b <? 0x20) || (b =? 0x7F).
(** q_isdigit() *)
Definition q_isdigit (b : Z) : bool := within 0x30 0x39 b.

(** *** The buffer of a sequence *)

(** save_char() of ansi.c, vt52.c, avatar.c and petscii.c *)
Definition save_char (keep_char : Z) : EM unit :=
  s ← get;
  b ← store (q_emul_buffer s) (q_emul_buffer_n s) keep_char;
  modify (fun s => s <| q_emul_buffer := b |> <| q_emul_buffer_n ::= Z.succ |>).

Definition clear_buffer : EM unit :=
  modify (fun s => s <| q_emul_buffer_n := 0 |> <| q_emul_buffer_i := 0 |> <| q_emul_buffer := replicate 128 0 |>).

(** ** Loops *)

(** [for (i = lo; i < hi; i++)] *)
Fixpoint each {A} (l : list A) (f : A -> EM unit) : EM unit :=
  match l with [] => mret tt | a :: l => f a;; each l f end.
Definition loop (lo hi : Z) (f : Z -> EM unit) : EM unit := each (seqZ lo (hi - lo)) f.

(** ** Results *)

(** The result of an emulation and [*to_screen]. *)
Definition result : Type := Q_EMULATION_STATUS * Z.
Definition no_char_yet : result := (Q_EMUL_FSM_NO_CHAR_YET, 1).

(** ** Control characters and the TTY emulation *)

Section Emulation.
Context {C : Curses}.

Definition console_color : EM Z :=
  gets (fun s => Z.lor A_NORMAL (scrollback_full_attr (q_text_colors (screen s)) Q_COLOR_CONSOLE_TEXT)).

(** [while (cursor_x < limit) { print_character(' '); if (cursor_x % 8 == 0) break; }] *)
Fixpoint print_tab_to (limit : Z) (fuel : nat) : SM unit :=
  match fuel with
  | O => diverge
  | S fuel =>
    x ← Screen.status cursor_x;
    if x <? limit then
      print_character 32;;
      x ← Screen.status cursor_x;
      if Z.rem x 8 =? 0 then mret tt else print_tab_to limit fuel
    else mret tt
  end.
Definition print_tab : nat -> SM unit := print_tab_to 80.

(** The characters that generic_handle_control_char() and tty() treat alike; [fuel]
    bounds the loop of a tab. *)
Definition generic_control (fuel : nat) (formfeed : SM unit) (control_char : Z) (other : EM unit) : EM unit :=
  if control_char =? 0x05 then enquire
  else if control_char =? 0x07 then draw (Screen.emit Beep)
  else if control_char =? 0x08 then draw (cursor_left 1 false)
  else if control_char =? 0x09 then draw (print_tab fuel)
  else if control_char =? 0x0A then draw (cursor_linefeed false)
  else if control_char =? 0x0B then draw (cursor_linefeed false)
  else if control_char =? 0x0C then draw formfeed
  else if control_char =? 0x0D then draw cursor_carriage_return
  else other.

Definition generic_handle_control_char (fuel : nat) (control_char : Z) : EM unit :=
  generic_control fuel cursor_formfeed control_char
    (draw (print_character (cp437_chars !!! Z.to_nat control_char))).

(** An underscore over a character underlines it. *)
Definition tty_underline : EM bool :=
  l ← draw current;
  x ← status cursor_x;
  c ← load (chars l) x;
  if c =? 32 then mret false
  else
    a ← load (colors l) x;
    p ← draw (pointer q_scrollback_current);
    draw (set_color p x (Z.lor a A_UNDERLINE));;
    on_status (fun q => q <| cursor_x ::= Z.succ |>);;
    mret true.

Definition tty_controls : list Z := [0x05; 0x07; 0x08; 0x09; 0x0A; 0x0B; 0x0C; 0x0D; 0x0E; 0x0F].

Definition tty (fuel : nat) (from_modem : Z) : EM result :=
  if bool_decide (from_modem ∈ tty_controls) then
    generic_control fuel (cursor_linefeed false) from_modem (mret tt);;
    mret no_char_yet
  else
    e ← status emulation;
    done ← (if (from_modem =? chr "_") && bool_decide (e = Q_EMUL_TTY) then tty_underline else mret false);
    if done : bool then mret no_char_yet
    else c ← map_char from_modem; mret (Q_EMUL_FSM_ONE_CHAR, c).

End Emulation.
End Emulation.
