(* ===== verification/Vt100.v ===== *)
(** vt100.c: the VT100, VT102, VT220, Linux and Xterm emulations: their operations and
    the state machine that takes one byte from the other side. *)

From Stdlib Require Import ZArith Lia List Bool Ascii.
From stdpp Require Import base list numbers gmap strings.
From S2P Require Import Prelude Stdio States Utf8 Codepage Colors Screen Emulation.
Import Codepage Colors Screen Emulation.

Module Vt100.

Definition VT100_PARAM_LENGTH : Z := 16.
Definition VT100_PARAM_MAX : Z := 16.
Definition DEFAULT_BEEP_FREQUENCY : Z := 750.
Definition DEFAULT_BEEP_DURATION : Z := 250.

(** ** Character sets *)

Definition map_character_charset (e : Q_EMULATION) (vt100_char : Z) (gl_charset gr_charset : VT100_CHARACTER_SET) : EM Z :=
  assertM ((vt100_char <? 0x80) || is_vt220 e);;
  let lookup_char := if 0x80 <=? vt100_char then Z.land vt100_char 0x7F else vt100_char in
  let table :=
    match (if 0x80 <=? vt100_char then gr_charset else gl_charset) with
    | CHARSET_DRAWING => dec_special_graphics_chars
    | CHARSET_UK => dec_uk_chars
    | CHARSET_NRC_DUTCH => dec_nl_chars
    | CHARSET_NRC_FINNISH => dec_fi_chars
    | CHARSET_NRC_FRENCH => dec_fr_chars
    | CHARSET_NRC_FRENCH_CA => dec_fr_CA_chars
    | CHARSET_NRC_GERMAN => dec_de_chars
    | CHARSET_NRC_ITALIAN => dec_it_chars
    | CHARSET_NRC_NORWEGIAN => dec_no_chars
    | CHARSET_NRC_SPANISH => dec_es_chars
    | CHARSET_NRC_SWEDISH => dec_sv_chars
    | CHARSET_NRC_SWISS => dec_swiss_chars
    | CHARSET_DEC_SUPPLEMENTAL => dec_supplemental_chars
    | CHARSET_VT52_GRAPHICS => vt52_special_graphics_chars
    | CHARSET_US | CHARSET_ROM | CHARSET_ROM_SPECIAL => dec_us_chars
    end in
  load table lookup_char.

(** The set in GL and the set in GR that the locking shifts of a VT220 select. *)
Definition shifted_gl (v : vt100_state) : EM VT100_CHARACTER_SET :=
  match lockshift_gl v with
  | LOCKSHIFT_G1_GR | LOCKSHIFT_G2_GR | LOCKSHIFT_G3_GR => raise Aborted
  | LOCKSHIFT_G2_GL => mret (g2_charset v)
  | LOCKSHIFT_G3_GL => mret (g3_charset v)
  | LOCKSHIFT_NONE => mret (g0_charset v)
  end.

Definition shifted_gr (v : vt100_state) : EM VT100_CHARACTER_SET :=
  match lockshift_gr v with
  | LOCKSHIFT_G2_GL | LOCKSHIFT_G3_GL => raise Aborted
  | LOCKSHIFT_G1_GR => mret (g1_charset v)
  | LOCKSHIFT_G2_GR => mret (g2_charset v)
  | LOCKSHIFT_G3_GR => mret (g3_charset v)
  | LOCKSHIFT_NONE => mret CHARSET_DEC_SUPPLEMENTAL
  end.

Definition map_character (vt100_char : Z) : EM Z :=
  e ← status emulation;
  v ← vt id;
  if is_vga e && (0x80 <=? vt100_char) then map_char vt100_char
  else if vt52_mode v then
    map_character_charset e vt100_char (if shift_out v then g1_charset v else g0_charset v) CHARSET_US
  else if shift_out v then map_character_charset e vt100_char (g1_charset v) (gr_charset v)
  else
    gl ← match singleshift v with
         | SS_NONE => mret (g0_charset v)
         | SS2 => on_vt (fun v => v <| singleshift := SS_NONE |>);; mret (g2_charset v)
         | SS3 => on_vt (fun v => v <| singleshift := SS_NONE |>);; mret (g3_charset v)
         end;
    if is_vt220 e then
      gl ← shifted_gl v; gr ← shifted_gr v; map_character_charset e vt100_char gl gr
    else map_character_charset e vt100_char gl (gr_charset v).

(** ** Parameters and the collect buffer *)

Definition clear_params : EM unit :=
  on_vt (fun v => v <| params := replicate 16 [] |> <| params_n := -1 |> <| dec_private_mode_flag := false |>);;
  modify (fun s => s <| q_emul_buffer_n := 0 |> <| q_emul_buffer_i := 0 |> <| q_emul_buffer := replicate 128 0 |>).

Definition collect (keep_char : Z) : EM unit :=
  s ← get;
  b ← store (q_emul_buffer s) (q_emul_buffer_n s) keep_char;
  modify (fun s => s <| q_emul_buffer := b |> <| q_emul_buffer_n ::= Z.succ |>);;
  whenM (keep_char =? chr "?") (on_vt (fun v => v <| dec_private_mode_flag := true |>)).

(** A digit that does not fit is dropped, and so are the digits of a parameter past
    the last. *)
Definition param (from_modem : Z) : EM unit :=
  on_vt (fun v => if params_n v <? 0 then v <| params_n := 0 |> else v);;
  whenM (within (chr "0") (chr "9") from_modem)
    (on_vt (fun v =>
       if params_n v <? VT100_PARAM_MAX then
         v <| params ::= alter (fun row =>
                if Z.of_nat (length row) <? VT100_PARAM_LENGTH - 1 then row ++ [from_modem] else row)
              (Z.to_nat (params_n v)) |>
       else v));;
  whenM (from_modem =? chr ";") (on_vt (fun v => v <| params_n ::= Z.succ |>)).

(** atoi() of glibc, which truncates what strtol() returns. *)
Definition atoi (s : list Z) : Z := i32 (atol s).

(** [state.params[i]] *)
Definition param_text (i : Z) : EM (list Z) :=
  v ← vt id;
  match (if i <? 0 then None else params v !! Z.to_nat i) with
  | Some row => mret row
  | None => raise OutOfBounds
  end.
Definition param_value (i : Z) : EM Z := row ← param_text i; mret (atoi row).

(** The first parameter, or a default when there is none. *)
Definition first_param (default : Z) : EM Z :=
  n ← vt params_n; if 0 <=? n then param_value 0 else mret default.

(** A count: at least one. *)
Definition count_param : EM Z := i ← first_param 1; mret (if i <=? 0 then 1 else i).

(** Most sequences do nothing after '?'. *)
Definition unless_private (m : EM unit) : EM unit :=
  private ← vt dec_private_mode_flag; if private : bool then mret tt else m.

(** ** Tab stops *)

(** [for (i = 0; (i * 8) < WIDTH; i++)] *)
Definition reset_tab_stops : EM unit :=
  s ← get;
  on_vt (fun v => v <| tab_stops := (fun i => i * 8) <$> seqZ 0 ((WIDTH (screen s) + 7) / 8) |>).

Fixpoint next_tab_stop (stops : list Z) (x : Z) : option Z :=
  match stops with
  | [] => None
  | stop :: stops => if x <? stop then Some stop else next_tab_stop stops x
  end.

Fixpoint insert_tab_stop (x : Z) (stops : list Z) : list Z :=
  match stops with
  | [] => [x]
  | stop :: stops' =>
    if stop =? x then stops else if x <? stop then x :: stops else stop :: insert_tab_stop x stops'
  end.

Fixpoint remove_tab_stop (x : Z) (stops : list Z) : list Z :=
  match stops with
  | [] => []
  | stop :: stops' =>
    if x <? stop then stops else if stop =? x then stops' else stop :: remove_tab_stop x stops'
  end.

Section Vt100.
Context {C : Curses}.

Definition advance_to_next_tab_stop : EM unit :=
  s ← get;
  let x := cursor_x (q_status (screen s)) in
  match next_tab_stop (tab_stops (state s)) x with
  | Some stop => draw (cursor_right (stop - x) false)
  | None => draw (cursor_right (WIDTH (screen s) - 1 - x) false)
  end.

(** HTS, TBC *)
Definition hts : EM unit :=
  x ← status cursor_x; on_vt (fun v => v <| tab_stops ::= insert_tab_stop x |>).

Definition tbc : EM unit :=
  i ← param_value 0;
  unless_private
    (if i =? 0 then x ← status cursor_x; on_vt (fun v => v <| tab_stops ::= remove_tab_stop x |>)
     else whenM (i =? 3) (on_vt (fun v => v <| tab_stops := [] |>))).

(** ** Reset *)

Definition reset_margin : EM unit :=
  e ← status emulation;
  set_right_margin (if is_linux e || is_xterm e then -1 else 79).

Definition vt100_reset : EM unit :=
  set_scan_state SCAN_GROUND;;
  clear_params;;
  reset_margin;;
  modify (fun s => s <| q_vt100_new_line_mode := false |> <| q_vt100_arrow_keys := Q_EMUL_ANSI |>
    <| q_vt100_keypad_mode ::= fun k => (k.1, Q_KEYPAD_MODE_NUMERIC) |> <| is_default_color := false |>
    <| q_linux_beep_frequency := DEFAULT_BEEP_FREQUENCY |> <| q_linux_beep_duration := DEFAULT_BEEP_DURATION |>
    <| q_xterm_mouse_protocol := XTERM_MOUSE_OFF |> <| q_xterm_mouse_encoding := XTERM_MOUSE_ENCODING_X10 |>);;
  reset_tab_stops;;
  on_status (fun q => q <| insert_mode := false |>);;
  on_flags (fun f => f <| visible_cursor := true |>);;
  s ← get;
  on_vt (fun v => v
    <| saved_cursor_x := -1 |> <| saved_cursor_y := -1 |>
    <| g0_charset := CHARSET_US |> <| g1_charset := CHARSET_DRAWING |>
    <| saved_attributes := q_current_color (screen s) |> <| saved_attributes_is_default_color := false |>
    <| saved_origin_mode := false |> <| saved_g0_charset := CHARSET_US |> <| saved_g1_charset := CHARSET_DRAWING |>
    <| shift_out := false |> <| vt52_mode := false |> <| dec_private_mode_flag := false |>
    <| columns_132 := false |> <| overridden_line_wrap := false |>
    <| singleshift := SS_NONE |> <| s8c1t_mode := false |> <| printer_controller_mode := false |>
    <| g2_charset := CHARSET_US |> <| g3_charset := CHARSET_US |> <| gr_charset := CHARSET_DEC_SUPPLEMENTAL |>
    <| lockshift_gl := LOCKSHIFT_NONE |> <| lockshift_gr := LOCKSHIFT_NONE |>
    <| saved_lockshift_gl := LOCKSHIFT_NONE |> <| saved_lockshift_gr := LOCKSHIFT_NONE |>
    <| saved_g2_charset := CHARSET_US |> <| saved_g3_charset := CHARSET_US |>
    <| saved_gr_charset := CHARSET_DEC_SUPPLEMENTAL |>
    <| saved_linewrap := line_wrap (q_status (screen s)) |>
    <| utf8 ::= fun d => {| Utf8.d_state := 0; Utf8.d_char := Utf8.d_char d |} |>).

Definition erase_display (honor_protected : bool) : EM unit :=
  s ← get; draw (erase_screen 0 0 (last_row (screen s)) (WIDTH (screen s) - 1) honor_protected).

(** RIS, DECSTR *)
Definition ris : EM unit := vt100_reset;; q_cursor true;; erase_display false.
Definition decstr : EM unit := ris.

(** ** Saving the cursor *)

(** DECRC *)
Definition decrc : EM unit :=
  v ← vt id;
  if negb (saved_cursor_x v =? -1) then
    draw (cursor_position (saved_cursor_y v) (saved_cursor_x v));;
    set_color_to (saved_attributes v);;
    modify (fun s => s <| is_default_color := saved_attributes_is_default_color v |>);;
    on_status (fun q => q <| origin_mode := saved_origin_mode v |>);;
    on_vt (fun v => v <| g0_charset := saved_g0_charset v |> <| g1_charset := saved_g1_charset v |>);;
    in_emulation is_vt220
      (on_vt (fun v => v <| g2_charset := saved_g2_charset v |> <| g3_charset := saved_g3_charset v |>
         <| lockshift_gl := saved_lockshift_gl v |> <| lockshift_gr := saved_lockshift_gr v |>
         <| gr_charset := saved_gr_charset v |>);;
       on_status (fun q => q <| line_wrap := saved_linewrap v |>))
  else
    draw (cursor_position 0 0);;
    c ← console_color;
    set_color_to c;;
    on_status (fun q => q <| origin_mode := false |>);;
    on_vt (fun v => v <| g0_charset := CHARSET_US |> <| g1_charset := CHARSET_DRAWING |>
      <| g2_charset := CHARSET_US |> <| g3_charset := CHARSET_US |> <| gr_charset := CHARSET_DEC_SUPPLEMENTAL |>
      <| lockshift_gl := LOCKSHIFT_NONE |> <| lockshift_gr := LOCKSHIFT_NONE |>).

(** DECSC *)
Definition decsc : EM unit :=
  s ← get;
  let q := q_status (screen s) in
  on_vt (fun v => v
    <| saved_cursor_x := cursor_x q |> <| saved_cursor_y := cursor_y q |>
    <| saved_attributes := q_current_color (screen s) |> <| saved_origin_mode := origin_mode q |>
    <| saved_g0_charset := g0_charset v |> <| saved_g1_charset := g1_charset v |>
    <| saved_g2_charset := g2_charset v |> <| saved_g3_charset := g3_charset v |>
    <| saved_gr_charset := gr_charset v |> <| saved_lockshift_gl := lockshift_gl v |>
    <| saved_lockshift_gr := lockshift_gr v |> <| saved_linewrap := line_wrap q |>).

(** The save and restore of ANSI.SYS: the cursor alone. *)
Definition save_cursor : EM unit :=
  unless_private
    (q ← status id;
     on_vt (fun v => v <| saved_cursor_x := cursor_x q |> <| saved_cursor_y := cursor_y q |>)).
Definition restore_cursor : EM unit :=
  v ← vt id;
  whenM (negb (dec_private_mode_flag v) && negb (saved_cursor_x v =? -1))
    (draw (cursor_position (saved_cursor_y v) (saved_cursor_x v))).

(** ** Toggles *)

(** DECCOLM *)
Definition deccolm (value : bool) : EM unit :=
  on_vt (fun v => v <| columns_132 := value |>);;
  (if value then set_right_margin 131 else reset_margin);;
  erase_display false;;
  s ← get;
  on_status (fun q => q <| scroll_region_top := 0 |> <| scroll_region_bottom := last_row (screen s) |>);;
  draw (cursor_position 0 0).

(** DECANM: enter the VT52 mode. *)
Definition enter_vt52_mode : EM unit :=
  on_vt (fun v => v <| vt52_mode := true |> <| g0_charset := CHARSET_US |> <| g1_charset := CHARSET_DRAWING |>
                    <| shift_out := false |>);;
  modify (fun s => s <| q_vt100_arrow_keys := Q_EMUL_VT52 |>
                     <| q_vt100_keypad_mode ::= fun k => (Q_EMUL_VT52, k.2) |>);;
  in_emulation (fun e => is_vt220 e || is_xterm e)
    (on_vt (fun v => v <| s8c1t_mode := false |> <| singleshift := SS_NONE |>)).

(** DECSCNM *)
Definition decscnm (value : bool) : EM unit :=
  reversed ← status reverse_video;
  whenM (xorb value reversed)
    (draw (if value then invert_scrollback_colors else deinvert_scrollback_colors));;
  on_status (fun q => q <| reverse_video := value |>).

(** DECOM, DECAWM *)
Definition decom (value : bool) : EM unit :=
  on_status (fun q => q <| origin_mode := value |>);;
  draw (cursor_position 0 0).
Definition decawm (value : bool) : EM unit :=
  wrap ← status line_wrap;
  whenM (xorb value wrap) (on_vt (fun v => v <| overridden_line_wrap := true |>));;
  on_status (fun q => q <| line_wrap := value |>).

Definition mouse_protocol (value : bool) (p : XTERM_MOUSE_PROTOCOL) : EM unit :=
  modify (fun s => s <| q_xterm_mouse_protocol := if value then p else XTERM_MOUSE_OFF |>).
Definition mouse_encoding (value : bool) (p : XTERM_MOUSE_ENCODING) : EM unit :=
  modify (fun s => s <| q_xterm_mouse_encoding := if value then p else XTERM_MOUSE_ENCODING_X10 |>).

(** The toggles after '?'. *)
Definition private_toggle (value : bool) (x : Z) : EM unit :=
  if x =? 1 then modify (fun s => s <| q_vt100_arrow_keys := if value then Q_EMUL_VT100 else Q_EMUL_ANSI |>)
  else if x =? 2 then whenM (negb value) enter_vt52_mode
  else if x =? 3 then deccolm value
  else if x =? 5 then decscnm value
  else if x =? 6 then decom value
  else if x =? 7 then decawm value
  else if x =? 25 then
    in_emulation (fun e => is_vt220 e || is_linux e || is_xterm e)
      (on_flags (fun f => f <| visible_cursor := value |>);; q_cursor value)
  else in_emulation is_xterm
    (if x =? 1000 then mouse_protocol value XTERM_MOUSE_NORMAL
     else if x =? 1002 then mouse_protocol value XTERM_MOUSE_BUTTONEVENT
     else if x =? 1003 then mouse_protocol value XTERM_MOUSE_ANYEVENT
     else if x =? 1005 then mouse_encoding value XTERM_MOUSE_ENCODING_UTF8
     else if x =? 1006 then mouse_encoding value XTERM_MOUSE_ENCODING_SGR
     else if x =? 1047 then draw cursor_formfeed
     else if x =? 1048 then (if value then decsc else decrc)
     else if x =? 1049 then (if value then decsc;; draw cursor_formfeed else draw cursor_formfeed;; decrc)
     else whenM (x =? 2004) (on_flags (fun f => f <| bracketed_paste_mode := value |>))).

(** The others: IRM, SRM, LNM. *)
Definition ansi_toggle (value : bool) (x : Z) : EM unit :=
  if x =? 4 then on_status (fun q => q <| insert_mode := value |>)
  else if x =? 12 then on_flags (fun f => f <| full_duplex := value |>)
  else whenM (x =? 20) (modify (fun s => s <| q_vt100_new_line_mode := value |>)).

Definition set_toggle (value : bool) : EM unit :=
  n ← vt params_n;
  loop 0 (n + 1) (fun i =>
    x ← param_value i;
    private ← vt dec_private_mode_flag;
    if private : bool then private_toggle value x else ansi_toggle value x).

(** ** Printer *)

Definition printer_functions : EM unit :=
  unless_private
    (i ← first_param 0;
     if i =? 4 then on_vt (fun v => v <| printer_controller_mode := false |>)
     else whenM (i =? 5) (on_vt (fun v => v <| printer_controller_mode := true |>))).

(** ** Lines *)

Definition decswl : EM unit := draw (set_double_width false).
Definition decdwl : EM unit := draw (set_double_width true).
Definition dechdl (top_half : bool) : EM unit :=
  draw (set_double_width true);; draw (set_double_height (if top_half then 1 else 2)).

Definition keypad_mode (m : Q_KEYPAD_MODE) : EM unit :=
  modify (fun s => s <| q_vt100_keypad_mode ::= fun k => (k.1, m) |>).
Definition deckpam : EM unit := keypad_mode Q_KEYPAD_MODE_APPLICATION.
Definition deckpnm : EM unit := keypad_mode Q_KEYPAD_MODE_NUMERIC.

(** At the bottom of the region the region scrolls up, at its top it scrolls down. *)
Definition scroll_at_bottom : EM unit :=
  q ← status id;
  whenM (cursor_y q =? scroll_region_bottom q)
    (draw (scrolling_region_scroll_up (scroll_region_top q) (scroll_region_bottom q) 1)).
Definition scroll_at_top : EM unit :=
  q ← status id;
  whenM (cursor_y q =? scroll_region_top q)
    (draw (scrolling_region_scroll_down (scroll_region_top q) (scroll_region_bottom q) 1)).

(** IND, RI, NEL *)
Definition ind : EM unit := unless_private (scroll_at_bottom;; draw (cursor_down 1 true)).
Definition ri : EM unit := unless_private (scroll_at_top;; draw (cursor_up 1 true)).
Definition nel : EM unit :=
  unless_private
    (scroll_at_bottom;; draw (cursor_down 1 true);; on_status (fun q => q <| cursor_x := 0 |>)).

(** DECALN: a line of E's, and the next row. *)
Definition full_line : SM unit :=
  s ← get;
  for_up 0 (WIDTH s) (fun j =>
    p ← pointer q_scrollback_current;
    set_char p j (chr "E");; c ← full_attr Q_COLOR_CONSOLE_TEXT; set_color p j c);;
  p ← pointer q_scrollback_current;
  update p (fun l => l <| line_length := WIDTH s |>).
Definition fill_row : SM unit := full_line;; cursor_down 1 false.

Definition decaln : EM unit :=
  s ← get;
  let q := q_status (screen s) in
  draw (cursor_position 0 0);;
  draw (for_up 0 (last_row (screen s) + 1) (fun _ => fill_row));;
  draw (cursor_position (cursor_y q) (cursor_x q)).

(** ** The cursor *)

(** CUD, CUF, CUB, CUU *)
Definition cud : EM unit := unless_private (i ← count_param; draw (cursor_down i true)).
Definition cuf : EM unit := unless_private (i ← count_param; draw (cursor_right i true)).
Definition cub : EM unit := unless_private (i ← count_param; draw (cursor_left i true)).
Definition cuu : EM unit := unless_private (i ← count_param; draw (cursor_up i true)).

(** CUP, HVP *)
Definition cup : EM unit :=
  unless_private
    (n ← vt params_n;
     if n <? 0 then draw (cursor_position 0 0)
     else if n =? 0 then row ← param_value 0; draw (cursor_position (Z.max 0 (row - 1)) 0)
     else
       row ← param_value 0; col ← param_value 1;
       draw (cursor_position (Z.max 0 (row - 1)) (Z.max 0 (col - 1)))).
Definition hvp : EM unit := cup.

(** CNL, CPL *)
Definition to_column_0 : EM unit := x ← status cursor_x; draw (cursor_left x true).
Definition cnl : EM unit := unless_private (i ← count_param; draw (cursor_down i true);; to_column_0).
Definition cpl : EM unit := unless_private (i ← count_param; draw (cursor_up i true);; to_column_0).

(** CHA, VPA *)
Definition cha : EM unit :=
  unless_private (i ← first_param 1; y ← status cursor_y; draw (cursor_position y (i - 1))).
Definition vpa : EM unit :=
  unless_private (i ← first_param 1; x ← status cursor_x; draw (cursor_position (i - 1) x)).

(** CHT, CBT *)
Definition cht : EM unit := unless_private (i ← count_param; loop 0 i (fun _ => advance_to_next_tab_stop)).

(** The stop that CBT goes to: the last one left of [x], 0 when it is the first. *)
Fixpoint tabs_before (stops : list Z) (x : Z) : list Z :=
  match stops with
  | [] => []
  | stop :: stops => if x <=? stop then [] else stop :: tabs_before stops x
  end.
Definition previous_tab_stop (stops : list Z) (x : Z) : Z :=
  match tabs_before stops x with
  | [] | [_] => 0
  | l => default 0 (last l)
  end.
Definition cbt : EM unit :=
  unless_private
    (i ← count_param;
     loop 0 i (fun _ =>
       s ← get;
       let q := q_status (screen s) in
       draw (cursor_position (cursor_y q) (previous_tab_stop (tab_stops (state s)) (cursor_x q))))).

(** DECSTBM *)
Definition margin_param (i : Z) (empty : Z) : EM Z :=
  row ← param_text i; mret (if (length row =? 0)%nat then empty else atoi row - 1).

Definition decstbm : EM unit :=
  unless_private
    (s ← get;
     n ← vt params_n;
     let bottom := last_row (screen s) in
     let on_screen i := within 0 (HEIGHT (screen s) - 1) i in
     let region top bottom := on_status (fun q => q <| scroll_region_top := top |> <| scroll_region_bottom := bottom |>) in
     (if n <? 0 then region 0 bottom
      else if n =? 0 then
        i ← margin_param 0 0;
        whenM (on_screen i) (on_status (fun q => q <| scroll_region_top := i |>));;
        on_status (fun q => q <| scroll_region_bottom := bottom |>)
      else
        i ← margin_param 0 0; j ← margin_param 1 bottom;
        if on_screen i && on_screen j && (i <? j) then region i j else region 0 bottom);;
     on_status (fun q => if bottom <? scroll_region_bottom q then q <| scroll_region_bottom := bottom |> else q);;
     on_status (fun q => if scroll_region_bottom q <? scroll_region_top q
                         then q <| scroll_region_top := scroll_region_bottom q |> else q);;
     draw (cursor_position 0 0)).

(** ** Erasing, inserting, deleting *)

(** After '?' the emulations from VT220 on leave protected cells alone. *)
Definition honors_protected : EM bool :=
  e ← status emulation; private ← vt dec_private_mode_flag;
  mret ((is_vt220 e || is_xterm e) && private).

(** ED *)
Definition ed : EM unit :=
  honor ← honors_protected;
  i ← first_param 0;
  s ← get;
  let t := screen s in
  let q := q_status t in
  let bottom := last_row t in
  let right_ := WIDTH t - 1 in
  if i =? 0 then
    whenM (cursor_y q <? bottom)
      (draw (erase_screen (cursor_y q + 1) 0 bottom right_ honor);;
       draw (set_single_width (cursor_y q + 1) bottom));;
    draw (erase_line (cursor_x q) right_ honor);;
    draw (set_double_width false)
  else if i =? 1 then
    draw (erase_screen 0 0 (cursor_y q - 1) right_ honor);;
    draw (erase_line 0 (cursor_x q) honor);;
    draw (set_single_width 0 (cursor_y q));;
    draw (set_double_width false)
  else whenM (i =? 2)
    (draw (erase_screen 0 0 bottom right_ honor);;
     draw (set_single_width 0 bottom)).

(** ECH; the sum is computed in [int]. *)
Definition ech : EM unit :=
  unless_private
    (i ← first_param 0;
     let i := if i =? 0 then 1 else i in
     x ← status cursor_x;
     draw (erase_line x (i32 (x + i) - 1) false)).

(** EL *)
Definition el : EM unit :=
  honor ← honors_protected;
  i ← first_param 0;
  s ← get;
  let x := cursor_x (q_status (screen s)) in
  let right_ := WIDTH (screen s) - 1 in
  if i =? 0 then draw (erase_line x right_ honor)
  else if i =? 1 then draw (erase_line 0 x honor)
  else whenM (i =? 2) (draw (erase_line 0 right_ honor)).

Definition in_region (q : q_status_struct) : bool :=
  (scroll_region_top q <=? cursor_y q) && (cursor_y q <=? scroll_region_bottom q).

(** IL, DL *)
Definition il : EM unit :=
  unless_private
    (i ← first_param 1; q ← status id;
     whenM (in_region q) (draw (scrolling_region_scroll_down (cursor_y q) (scroll_region_bottom q) i))).
Definition dl : EM unit :=
  unless_private
    (i ← first_param 1; q ← status id;
     whenM (in_region q) (draw (scrolling_region_scroll_up (cursor_y q) (scroll_region_bottom q) i))).

(** DCH, ICH *)
Definition dch : EM unit := unless_private (i ← first_param 1; draw (delete_character i)).
Definition ich : EM unit := unless_private (i ← first_param 1; draw (insert_blanks i)).

(** SU, SD *)
Definition su : EM unit :=
  unless_private
    (i ← count_param; q ← status id;
     draw (scrolling_region_scroll_up (scroll_region_top q) (scroll_region_bottom q) i)).
Definition sd : EM unit :=
  unless_private
    (i ← count_param; q ← status id;
     draw (scrolling_region_scroll_down (scroll_region_top q) (scroll_region_bottom q) i)).

(** REP *)
Definition rep : EM unit :=
  unless_private
    (i ← count_param; c ← vt rep_ch; loop 0 i (fun _ => draw (print_character c))).

(** DECSCA, DECSCL *)
Definition decsca : EM unit :=
  unless_private
    (i ← first_param 0;
     c ← gets (fun s => q_current_color (screen s));
     if (i =? 0) || (i =? 2) then set_color_to (Z.land c (Z.lnot A_PROTECT))
     else whenM (i =? 1) (set_color_to (Z.lor c A_PROTECT))).

Definition decscl : EM unit :=
  unless_private
    (n ← vt params_n;
     i ← (if 0 <? n then param_value 0 else mret 0);
     j ← (if 1 <? n then param_value 1 else mret 0);
     if i =? 61 then
       on_vt (fun v => v <| g0_charset := CHARSET_US |> <| g1_charset := CHARSET_DRAWING |> <| s8c1t_mode := false |>)
     else whenM (i =? 62)
       (if (j =? 0) || (j =? 2) then on_vt (fun v => v <| s8c1t_mode := true |>)
        else whenM (j =? 1) (on_vt (fun v => v <| s8c1t_mode := false |>)))).

(** DECLL *)
Definition leds_off (f : emulation_flags) : emulation_flags :=
  f <| led_1 := false |> <| led_2 := false |> <| led_3 := false |> <| led_4 := false |>.
Definition set_led (j : Z) (f : emulation_flags) : emulation_flags :=
  if j =? 0 then leds_off f
  else if j =? 1 then f <| led_1 := true |>
  else if j =? 2 then f <| led_2 := true |>
  else if j =? 3 then f <| led_3 := true |>
  else if j =? 4 then f <| led_4 := true |>
  else f.
Definition decll : EM unit :=
  unless_private
    (n ← vt params_n;
     if n <? 0 then on_flags leds_off
     else loop 0 (n + 1) (fun i => j ← param_value i; on_flags (set_led j))).

(** ** SGR

    The loop of sgr() works on the current colour and three flags, a [pen]; the
    static [previous_aixterm_color] is one of them. *)

Record pen := {
  color : Z;
  default_color : bool;
  real_bold : bool;
  aixterm : Z
}.
#[export] Instance eta_pen : Eta pen := fun p =>
  {| color := color p; default_color := default_color p; real_bold := real_bold p; aixterm := aixterm p |}.

Definition turn_on (mask : Z) (p : pen) : pen := p <| color ::= fun c => Z.lor c mask |>.
Definition turn_off (mask : Z) (p : pen) : pen := p <| color ::= fun c => Z.land c (Z.lnot mask) |>.

(** What the loop reads and does not change. *)
Record sgr_context := {
  sgr_emulation : Q_EMULATION;
  sgr_vt100_color : bool;
  sgr_text_colors : Q_COLOR -> q_text_color_struct
}.

(** The bright colours of Xterm: bold, and not bold any more. *)
Definition sgr_bright (x : sgr_context) (j : Z) (p : pen) : pen :=
  if negb (is_xterm (sgr_emulation x)) then p
  else if within 90 97 j || within 100 107 j then
    (turn_on A_BOLD p) <| aixterm := j |> <| real_bold := true |> <| default_color := false |>
  else if within 90 97 (aixterm p) && within 30 37 j then
    (turn_off A_BOLD p) <| real_bold := false |> <| default_color := false |> <| aixterm := 0 |>
  else p.

Definition sgr_attribute (x : sgr_context) (j : Z) (p : pen) : pen :=
  if j =? 0 then
    p <| default_color := true |> <| real_bold := false |>
      <| color := Z.lor A_NORMAL (scrollback_full_attr (sgr_text_colors x) Q_COLOR_CONSOLE_TEXT) |>
  else if j =? 1 then (turn_on A_BOLD p) <| default_color := false |> <| real_bold := true |>
  else if j =? 4 then turn_on A_UNDERLINE p
  else if j =? 5 then turn_on A_BLINK p
  else if j =? 7 then turn_on A_REVERSE p
  else if j =? 8 then (if is_xterm (sgr_emulation x) then turn_on A_INVIS p else p)
  else p.

Definition sgr_not_attribute (x : sgr_context) (j : Z) (p : pen) : pen :=
  let e := sgr_emulation x in
  if negb (is_vt220 e || is_linux e || is_xterm e) then p
  else if (j =? 21) || (j =? 22) then (turn_off A_BOLD p) <| real_bold := false |>
  else if j =? 24 then turn_off A_UNDERLINE p
  else if j =? 25 then turn_off A_BLINK p
  else if j =? 27 then turn_off A_REVERSE p
  else p.

(** 38 of the Linux console and 39: the foreground of the console's text. *)
Definition sgr_default_foreground (x : sgr_context) (underline : bool) (p : pen) : pen :=
  let p := if bold (sgr_text_colors x Q_COLOR_CONSOLE_TEXT) then turn_on A_BOLD p else p in
  let p := if underline then turn_on A_UNDERLINE p else turn_off A_UNDERLINE p in
  p <| default_color := true |> <| real_bold := false |>.

(** The foreground and the background, and the rest of the pen; [None] is the return
    from the whole of sgr(). *)
Definition sgr_colors (x : sgr_context) (j : Z) (p : pen) (foreground background : Z) : option (pen * Z * Z) :=
  let e := sgr_emulation x in
  let text := sgr_text_colors x Q_COLOR_CONSOLE_TEXT in
  if within 30 37 j then Some (p <| default_color := false |>, j - 30, background)
  else if within 40 47 j then Some (p <| default_color := false |>, foreground, j - 40)
  else if j =? 38 then
    if is_xterm e then None
    else if is_linux e then Some (sgr_default_foreground x true p, fg text, background)
    else Some (p, foreground, background)
  else if j =? 39 then
    if is_linux e || is_xterm e then Some (sgr_default_foreground x false p, fg text, background)
    else Some (p, foreground, background)
  else if j =? 48 then if is_xterm e then None else Some (p, foreground, background)
  else if j =? 49 then Some (p <| default_color := true |>, foreground, bg text)
  else if within 90 97 j && is_xterm e then Some (p, j - 90, background)
  else Some (p, foreground, background).

Definition sgr_color (x : sgr_context) (j : Z) (p : pen) : option pen :=
  let e := sgr_emulation x in
  if negb (sgr_vt100_color x || is_linux e || is_xterm e) then Some p
  else
    let curses_color := color_from_attr (color p) in
    let foreground := i16 (Z.shiftr (Z.land curses_color 0x38) 3) in
    let background := i16 (Z.land curses_color 0x07) in
    match sgr_colors x j p foreground background with
    | None => None
    | Some (p, foreground, background) =>
      let curses_color := i16 (Z.lor (Z.shiftl foreground 3) background) in
      let p := p <| color ::= fun c => Z.lor (Z.land c NO_COLOR_MASK) (color_to_attr curses_color) |> in
      Some (if real_bold p then turn_on A_BOLD p
            else if default_color p then p else turn_off A_BOLD p)
    end.

(** One parameter; whether the loop goes on. *)
Definition sgr_param (x : sgr_context) (j : Z) (p : pen) : pen * bool :=
  let p := sgr_not_attribute x j (sgr_attribute x j (sgr_bright x j p)) in
  match sgr_color x j p with Some p => (p, true) | None => (p, false) end.

Fixpoint sgr_params (x : sgr_context) (js : list Z) (p : pen) : pen :=
  match js with
  | [] => p
  | j :: js => let '(p, go_on) := sgr_param x j p in if go_on then sgr_params x js p else p
  end.

Definition current_pen : EM pen :=
  s ← get;
  let c := q_current_color (screen s) in
  mret {| color := c; default_color := is_default_color s;
          real_bold := has c A_BOLD &&
            negb (is_default_color s && bold (q_text_colors (screen s) Q_COLOR_CONSOLE_TEXT));
          aixterm := previous_aixterm_color s |}.
Definition set_pen (p : pen) : EM unit :=
  set_color_to (color p);;
  modify (fun s => s <| is_default_color := default_color p |> <| previous_aixterm_color := aixterm p |>).

(** The values of the parameters [lo] to [lo + n - 1]. *)
Fixpoint param_values (n : nat) (lo : Z) : EM (list Z) :=
  match n with
  | O => mret []
  | S n => j ← param_value lo; js ← param_values n (lo + 1); mret (j :: js)
  end.

Definition sgr : EM unit :=
  unless_private
    (s ← get;
     c ← (if 0 <? q_emul_buffer_n s then load (q_emul_buffer s) 0 else mret 0);
     if c =? chr ">" then mret tt
     else if params_n (state s) <? 0 then
       c ← console_color;
       set_color_to c;;
       modify (fun s => s <| is_default_color := true |> <| previous_aixterm_color := 0 |>)
     else
       p ← current_pen;
       js ← param_values (Z.to_nat (params_n (state s) + 1)) 0;
       set_pen (sgr_params {| sgr_emulation := emulation (q_status (screen s));
                              sgr_vt100_color := vt100_color (flags s);
                              sgr_text_colors := q_text_colors (screen s) |} js p)).

(** ** Reports *)

(** ESC [ or, with 8-bit controls, CSI. *)
Definition csi (s8c1t : bool) (text : list Z) : list Z := if s8c1t then 0x9B :: text else C_ESC :: chr "[" :: text.
(** "%u" *)
Definition print_u (z : Z) : list Z := print_base 10 (u32 z).

(** DECREQTPARM *)
Definition decreqtparm : EM unit :=
  unless_private
    (i ← first_param 0;
     e ← status emulation;
     v ← vt id;
     whenM ((i =? 0) || (i =? 1))
       (qodem_write (csi (is_vt220 e && s8c1t_mode v) (print_u (i + 2) ++ str ";1;1;128;128;1;0x")))).

(** DSR *)
Definition dsr : EM unit :=
  i ← first_param 0;
  s ← get;
  let q := q_status (screen s) in
  let e := emulation q in
  let v := state s in
  let report := csi ((is_vt220 e || is_xterm e) && s8c1t_mode v) in
  let row := if origin_mode q then cursor_y q - scroll_region_top q else cursor_y q in
  if i =? 5 then qodem_write (report (str "0n"))
  else if i =? 6 then
    qodem_write (report (print_u (row + 1) ++ str ";" ++ print_u (cursor_x q + 1) ++ str "R"))
  else whenM (dec_private_mode_flag v)
    (if i =? 15 then qodem_write (report (str "?13n"))
     else if i =? 25 then qodem_write (report (str "?21n"))
     else whenM (i =? 26) (qodem_write (report (str "?27;1n")))).

(** The answer to DA and DECID; sizeof counts the byte that ends the string. *)
Definition device_type : EM unit :=
  e ← status emulation;
  v ← vt id;
  match e with
  | Q_EMUL_VT100 => qodem_write (csi false (str "?1;2c") ++ [0])
  | Q_EMUL_VT102 | Q_EMUL_LINUX | Q_EMUL_LINUX_UTF8 => qodem_write (csi false (str "?6c") ++ [0])
  | Q_EMUL_VT220 | Q_EMUL_XTERM | Q_EMUL_XTERM_UTF8 =>
      qodem_write (csi (s8c1t_mode v) (str "?62;1;6c") ++ [0])
  | _ => mret tt
  end.

(** DA: the flag of '>' or '=', and the digit after it. *)
Definition digit_value (c : Z) : Z := if within (chr "0") (chr "9") c then c - chr "0" else 0.

Definition da : EM unit :=
  s ← get;
  let n := q_emul_buffer_n s in
  c ← (if 0 <? n then load (q_emul_buffer s) 0 else mret 0);
  d ← (if 1 <? n then load (q_emul_buffer s) 1 else mret 0);
  let e := emulation (q_status (screen s)) in
  let i := digit_value d in
  if 0 <? n then
    whenM (i =? 0)
      (if c =? chr ">" then
         whenM (is_vt220 e || is_xterm e) (qodem_write (csi (s8c1t_mode (state s)) (str ">1;10;0c")))
       else whenM ((c =? chr "=") && is_xterm e)
         (qodem_write (C_ESC :: str "P!|00010203" ++ [C_ESC; chr "\"])))
  else device_type.

(** ** Control characters and operating system controls *)

Definition handle_control_char (control_char : Z) : EM unit :=
  new_line ← gets q_vt100_new_line_mode;
  let shift (out : bool) := on_vt (fun v => v <| shift_out := out |> <| lockshift_gl := LOCKSHIFT_NONE |>) in
  if control_char =? 0x00 then
    shown ← status display_null; whenM shown (draw (print_character 32))
  else if control_char =? 0x05 then enquire
  else if control_char =? 0x07 then draw (Screen.emit Beep)
  else if control_char =? 0x08 then draw (cursor_left 1 false)
  else if control_char =? 0x09 then advance_to_next_tab_stop
  else if (control_char =? 0x0A) || (control_char =? 0x0B) || (control_char =? 0x0C) then
    draw (cursor_linefeed new_line)
  else if control_char =? 0x0D then draw cursor_carriage_return
  else if control_char =? 0x0E then shift true
  else if control_char =? 0x0F then shift false
  else if control_char =? 0x84 then ind
  else if control_char =? 0x85 then nel
  else if control_char =? 0x88 then hts
  else if control_char =? 0x8D then ri
  else if control_char =? 0x8E then on_vt (fun v => v <| singleshift := SS2 |>)
  else whenM (control_char =? 0x8F) (on_vt (fun v => v <| singleshift := SS3 |>)).

(** Back to the ground state. *)
Definition to_ground : EM unit := clear_params;; set_scan_state SCAN_GROUND.

(** A byte of an operating system control; the Linux console has two that end by
    themselves. *)
Definition osc_put (xterm_char : Z) : EM unit :=
  s ← get;
  b ← store (q_emul_buffer s) (q_emul_buffer_n s) xterm_char;
  modify (fun s => s <| q_emul_buffer := b |> <| q_emul_buffer_n ::= Z.succ |>);;
  in_emulation is_linux
    (s ← get;
     first ← load (q_emul_buffer s) 0;
     whenM ((first =? chr "R") || ((first =? chr "P") && (8 <=? q_emul_buffer_n s))) to_ground).

(** Titles are for the windows of PDCurses only. *)
Definition osc : EM unit :=
  s ← get;
  whenM (2 <? q_emul_buffer_n s)
    (let n := if q_emul_buffer_n s =? 128 then q_emul_buffer_n s - 1 else q_emul_buffer_n s in
     b ← store (q_emul_buffer s) n 0;
     modify (fun s => s <| q_emul_buffer := b |> <| q_emul_buffer_n := n |>)).

(** CSI ... ] of the Linux console *)
Definition linux_csi : EM unit :=
  unless_private
    (n ← vt params_n;
     whenM (0 <=? n)
       (i ← param_value 0;
        j ← (if 1 <=? n then param_value 1 else mret 0);
        if i =? 10 then modify (fun s => s <| q_linux_beep_frequency := j |>)
        else whenM (i =? 11) (modify (fun s => s <| q_linux_beep_duration := j |>)))).

End Vt100.
End Vt100.
