(* ===== verification/Vt100Machine.v ===== *)
(** vt100.c: the state machine [vt100] itself, one definition for each of its states. *)

From Stdlib Require Import ZArith Lia List Bool Ascii.
From stdpp Require Import base list numbers gmap strings.
From S2P Require Import Prelude Stdio States Utf8 Codepage Colors Screen Emulation Vt100.
Import Codepage Colors Screen Emulation Vt100.

Module Vt100Machine.

(** How the switch on the state ends: the byte is consumed, a character is ready, or
    nothing in the state took it. *)
Inductive scanned := Discard | Printable (c : Z) | Fell_off.

Section Vt100Machine.
Context {C : Curses}.

Definition discard (m : EM unit) : EM scanned := m;; mret Discard.
Definition go_to (q : SCAN_STATE) : EM scanned := discard (set_scan_state q).
Definition ignore : EM scanned := mret Discard.

(** Dispatch, then back to the ground state. *)
Definition dispatch (m : EM unit) : EM scanned := discard (m;; to_ground).

(** The characters that the states of a sequence execute. *)
Definition executes (e : Q_EMULATION) (b : Z) : bool := (b <=? 0x1F) || (is_vtxxx e && within 0x80 0x9F b).
Definition or_execute (b : Z) (m : EM scanned) : EM scanned :=
  e ← status emulation;
  if executes e b then discard (handle_control_char b) else m.

(** ** The ground state *)

Definition print_it (b : Z) : EM scanned :=
  c ← map_character b;
  on_vt (fun v => v <| rep_ch := c |>);;
  mret (Printable c).

Definition scan_ground (b : Z) : EM scanned :=
  or_execute b
    (e ← status emulation;
     printer ← vt printer_controller_mode;
     if within 0x20 0x7F b then (if is_vt220 e && printer then ignore else print_it b)
     else if (0xA0 <=? b) && is_c1 e then (if printer : bool then ignore else print_it b)
     else mret Fell_off).

(** ** Escape sequences *)

(** DECANM: back to ANSI. *)
Definition leave_vt52_mode : EM unit :=
  on_vt (fun v => v <| vt52_mode := false |> <| g0_charset := CHARSET_US |> <| g1_charset := CHARSET_DRAWING |>
    <| s8c1t_mode := false |> <| singleshift := SS_NONE |>
    <| lockshift_gl := LOCKSHIFT_NONE |> <| lockshift_gr := LOCKSHIFT_NONE |>);;
  modify (fun s => s <| q_vt100_arrow_keys := Q_EMUL_VT100 |>
                     <| q_vt100_keypad_mode ::= fun k => (Q_EMUL_VT100, k.2) |>).

Definition vt52_erase_below : EM unit :=
  s ← get;
  let t := screen s in
  let q := q_status t in
  draw (erase_line (cursor_x q) (WIDTH t - 1) false);;
  draw (erase_screen (cursor_y q + 1) 0 (last_row t) (WIDTH t - 1) false).

Definition vt52_erase_line : EM unit :=
  s ← get; draw (erase_line (cursor_x (q_status (screen s))) (WIDTH (screen s) - 1) false).

(** The final bytes 0x30 to 0x4F, in VT52 mode or not. *)
Definition escape_dispatch (vt52 : bool) (b : Z) : EM unit :=
  switch b
    [on "7" decsc; on "8" decrc;
     on "<" (whenM vt52 leave_vt52_mode);
     on "=" deckpam; on ">" deckpnm;
     on "A" (whenM vt52 (draw (cursor_up 1 false)));
     on "B" (whenM vt52 (draw (cursor_down 1 false)));
     on "C" (whenM vt52 (draw (cursor_right 1 false)));
     on "D" (if vt52 then draw (cursor_left 1 false) else ind);
     on "E" (whenM (negb vt52) nel);
     on "F" (whenM vt52 (on_vt (fun v => v <| g0_charset := CHARSET_VT52_GRAPHICS |>)));
     on "G" (whenM vt52 (on_vt (fun v => v <| g0_charset := CHARSET_US |>)));
     on "H" (if vt52 then draw (cursor_position 0 0) else hts);
     on "I" (whenM vt52 ri);
     on "J" (whenM vt52 vt52_erase_below);
     on "K" (whenM vt52 vt52_erase_line);
     on "M" (whenM (negb vt52) ri);
     on "N" (whenM (negb vt52) (in_emulation is_c1 (on_vt (fun v => v <| singleshift := SS2 |>))));
     on "O" (whenM (negb vt52) (in_emulation is_c1 (on_vt (fun v => v <| singleshift := SS3 |>))))]
    (mret tt).

Definition from_vt220 (m : EM unit) : EM unit := in_emulation (fun e => is_vt220 e || is_xterm e) m.

(** The final bytes 0x60 to 0x7E. *)
Definition lockshift_dispatch (b : Z) : EM unit :=
  let gl m := from_vt220 (on_vt (fun v => v <| lockshift_gl := m |> <| shift_out := false |>)) in
  let gr m := from_vt220 (on_vt (fun v => v <| lockshift_gr := m |> <| shift_out := false |>)) in
  switch b
    [on "c" ris; on "n" (gl LOCKSHIFT_G2_GL); on "o" (gl LOCKSHIFT_G3_GL);
     on "|" (gr LOCKSHIFT_G3_GR); on "}" (gr LOCKSHIFT_G2_GR); on "~" (gr LOCKSHIFT_G1_GR)]
    (mret tt).

(** DECID *)
Definition decid (vt52 : bool) : EM unit :=
  if vt52 then qodem_write [C_ESC; chr "/"; chr "Z"] else device_type.

Definition scan_escape (b : Z) : EM scanned :=
  or_execute b
    (vt52 ← vt vt52_mode;
     if within 0x20 0x2F b then discard (collect b;; set_scan_state SCAN_ESCAPE_INTERMEDIATE)
     else if within 0x30 0x4F b then dispatch (escape_dispatch vt52 b)
     else if within 0x51 0x57 b then dispatch (mret tt)
     else if b =? 0x59 then
       (if vt52 : bool then go_to SCAN_VT52_DIRECT_CURSOR_ADDRESS else dispatch (mret tt))
     else if b =? 0x5A then dispatch (decid vt52)
     else if b =? 0x5C then dispatch (mret tt)
     else if vt52 : bool then dispatch (mret tt)
     else if within 0x60 0x7E b then dispatch (lockshift_dispatch b)
     else if b =? 0x7F then ignore
     else if b =? 0x5B then go_to SCAN_CSI_ENTRY
     else if b =? 0x5D then go_to SCAN_OSC_STRING
     else if b =? 0x50 then go_to SCAN_DCS_ENTRY
     else if (b =? 0x58) || (b =? 0x5E) || (b =? 0x5F) then go_to SCAN_SOSPMAPC_STRING
     else mret Fell_off).

(** *** Designating character sets *)

(** The final byte of a set: the set, whether only the emulations from VT220 on put it
    into G0 and G1, and whether it can go to G2 and G3. *)
Definition designations : list (Ascii.ascii * (VT100_CHARACTER_SET * bool * bool)) :=
  [on "0" (CHARSET_DRAWING, false, true); on "1" (CHARSET_ROM, false, false);
   on "2" (CHARSET_ROM_SPECIAL, false, false); on "4" (CHARSET_NRC_DUTCH, true, true);
   on "5" (CHARSET_NRC_FINNISH, true, true); on "6" (CHARSET_NRC_NORWEGIAN, true, true);
   on "7" (CHARSET_NRC_SWEDISH, true, true); on "<" (CHARSET_DEC_SUPPLEMENTAL, true, true);
   on "=" (CHARSET_NRC_SWISS, true, true); on "A" (CHARSET_UK, false, true);
   on "B" (CHARSET_US, false, true); on "C" (CHARSET_NRC_FINNISH, true, true);
   on "E" (CHARSET_NRC_NORWEGIAN, true, true); on "H" (CHARSET_NRC_SWEDISH, true, true);
   on "K" (CHARSET_NRC_GERMAN, true, true); on "Q" (CHARSET_NRC_FRENCH_CA, true, true);
   on "R" (CHARSET_NRC_FRENCH, true, true); on "Y" (CHARSET_NRC_ITALIAN, true, true);
   on "Z" (CHARSET_NRC_SPANISH, true, true)].

Definition designate (e : Q_EMULATION) (collected : Z) (d : VT100_CHARACTER_SET * bool * bool)
    (v : vt100_state) : vt100_state :=
  let '(c, from_vt220, to_g2) := d in
  let vt220 := is_vt220 e || is_xterm e in
  if (collected =? chr "(") && (vt220 || negb from_vt220) then v <| g0_charset := c |>
  else if (collected =? chr ")") && (vt220 || negb from_vt220) then v <| g1_charset := c |>
  else if (collected =? chr "*") && vt220 && to_g2 then v <| g2_charset := c |>
  else if (collected =? chr "+") && vt220 && to_g2 then v <| g3_charset := c |>
  else v.

(** The sequences with '#' and with a blank. *)
Definition line_attribute (b : Z) : EM unit :=
  switch b [on "3" (dechdl true); on "4" (dechdl false); on "5" decswl; on "6" decdwl; on "8" decaln] (mret tt).
Definition eight_bit_controls (b : Z) : EM unit :=
  let mode on := from_vt220 (on_vt (fun v => v <| s8c1t_mode := on |>)) in
  switch b [on "F" (mode false); on "G" (mode true)] (mret tt).

Definition intermediate_dispatch (b : Z) : EM unit :=
  s ← get;
  if q_emul_buffer_n s =? 1 then
    collected ← load (q_emul_buffer s) 0;
    whenM (collected =? chr "#") (line_attribute b);;
    whenM (collected =? chr " ") (eight_bit_controls b);;
    match switch b (map (fun d => (d.1, Some d.2)) designations) None with
    | Some d => on_vt (designate (emulation (q_status (screen s))) collected d)
    | None => mret tt
    end
  else mret tt.

Definition scan_escape_intermediate (b : Z) : EM scanned :=
  or_execute b
    (if within 0x20 0x2F b then discard (collect b)
     else if within 0x30 0x7E b then dispatch (intermediate_dispatch b)
     else if b <=? 0x7F then ignore
     else if b =? 0x9C then dispatch (mret tt)
     else mret Fell_off).

(** ** Control sequences *)

Definition linux_or_xterm (m : EM unit) : EM unit := in_emulation (fun e => is_linux e || is_xterm e) m.

(** The final bytes of a control sequence without intermediate bytes. *)
Definition csi_dispatch (b : Z) : EM unit :=
  switch b
    [on "@" ich; on "A" cuu; on "B" cud; on "C" cuf; on "D" cub;
     on "E" (linux_or_xterm cnl); on "F" (linux_or_xterm cpl); on "G" (linux_or_xterm cha);
     on "H" cup; on "I" (in_emulation is_xterm cht); on "J" ed; on "K" el; on "L" il; on "M" dl;
     on "P" dch; on "S" (in_emulation is_xterm su); on "T" (in_emulation is_xterm sd);
     on "X" (in_emulation (fun e => is_vt220 e || is_linux e || is_xterm e) ech);
     on "Z" (linux_or_xterm cbt); on "]" (linux_or_xterm linux_csi); on "`" (linux_or_xterm cha);
     on "a" (linux_or_xterm cuf); on "b" (in_emulation is_xterm rep); on "c" da;
     on "d" (linux_or_xterm vpa); on "e" (linux_or_xterm cud); on "f" hvp; on "g" tbc;
     on "h" (set_toggle true); on "i" (from_vt220 printer_functions); on "l" (set_toggle false);
     on "m" sgr; on "n" dsr; on "q" decll; on "r" decstbm;
     on "s" (linux_or_xterm save_cursor); on "u" (linux_or_xterm restore_cursor); on "x" decreqtparm]
    (mret tt).

Definition is_param (b : Z) : bool := within (chr "0") (chr "9") b || (b =? chr ";").

Definition scan_csi_entry (b : Z) : EM scanned :=
  or_execute b
    (if within 0x20 0x2F b then discard (collect b;; set_scan_state SCAN_CSI_INTERMEDIATE)
     else if is_param b then discard (param b;; set_scan_state SCAN_CSI_PARAM)
     else if within 0x3C 0x3F b then discard (collect b;; set_scan_state SCAN_CSI_PARAM)
     else if within 0x40 0x7E b then dispatch (csi_dispatch b)
     else if b <=? 0x7F then ignore
     else if b =? 0x9C then dispatch (mret tt)
     else mret Fell_off).

Definition scan_csi_param (b : Z) : EM scanned :=
  or_execute b
    (if within 0x20 0x2F b then discard (collect b;; set_scan_state SCAN_CSI_INTERMEDIATE)
     else if is_param b then discard (param b)
     else if b =? 0x3A then go_to SCAN_CSI_IGNORE
     else if within 0x3C 0x3F b then go_to SCAN_CSI_IGNORE
     else if within 0x40 0x7E b then dispatch (csi_dispatch b)
     else if b <=? 0x7F then ignore
     else mret Fell_off).

(** The last byte collected is [c]. *)
Definition collected_last (c : Z) : EM bool :=
  s ← get; last ← load (q_emul_buffer s) (q_emul_buffer_n s - 1); mret (last =? c).

(** DECSCL, DECSTR, DECSCA *)
Definition csi_p : EM unit :=
  from_vt220
    (quote ← collected_last 34;
     whenM quote decscl;;
     in_emulation is_xterm (bang ← collected_last (chr "!"); whenM bang decstr)).
Definition csi_q : EM unit := from_vt220 (quote ← collected_last 34; whenM quote decsca).

Definition scan_csi_intermediate (b : Z) : EM scanned :=
  or_execute b
    (if within 0x20 0x2F b then discard (collect b)
     else if within 0x30 0x3F b then go_to SCAN_CSI_IGNORE
     else if within 0x40 0x7E b then dispatch (switch b [on "p" csi_p; on "q" csi_q] (mret tt))
     else if b <=? 0x7F then ignore
     else mret Fell_off).

Definition scan_csi_ignore (b : Z) : EM scanned :=
  or_execute b
    (if within 0x20 0x2F b then discard (collect b)
     else if within 0x40 0x7E b then dispatch (mret tt)
     else if b <=? 0x7F then ignore
     else mret Fell_off).

(** ** Strings *)

(** The ends of a string: ST with eight bits, the first byte of ST with seven, the
    second one after it; [finish] is what the string does. *)
Definition or_string_end (finish : EM unit) (b : Z) (m : EM scanned) : EM scanned :=
  if b =? C_ESC then discard (collect b)
  else
    s ← get;
    st ← (if (b =? 0x5C) && (0 <? q_emul_buffer_n s) then collected_last C_ESC else mret false);
    if st : bool then dispatch finish else m.
Definition or_terminated (b : Z) (m : EM scanned) : EM scanned :=
  if b =? 0x9C then dispatch (mret tt) else or_string_end (mret tt) b m.

Definition string_control (b : Z) : bool := (b <=? 0x17) || (b =? 0x19) || within 0x1C 0x1F b.

Definition scan_dcs_entry (b : Z) : EM scanned :=
  or_terminated b
    (if within 0x20 0x2F b then discard (collect b;; set_scan_state SCAN_DCS_INTERMEDIATE)
     else if is_param b then discard (param b;; set_scan_state SCAN_DCS_PARAM)
     else if within 0x3C 0x3F b then discard (collect b;; set_scan_state SCAN_DCS_PARAM)
     else if string_control b || (b =? 0x7F) then ignore
     else if b =? 0x3F then go_to SCAN_DCS_IGNORE
     else if within 0x40 0x7E b then go_to SCAN_DCS_PASSTHROUGH
     else mret Fell_off).

Definition scan_dcs_intermediate (b : Z) : EM scanned :=
  or_terminated b
    (if within 0x30 0x3F b then go_to SCAN_DCS_IGNORE
     else if within 0x40 0x7E b then go_to SCAN_DCS_PASSTHROUGH
     else if string_control b || (b =? 0x7F) then ignore
     else mret Fell_off).

Definition scan_dcs_param (b : Z) : EM scanned :=
  or_terminated b
    (if within 0x20 0x2F b then discard (collect b;; set_scan_state SCAN_DCS_INTERMEDIATE)
     else if is_param b then discard (param b)
     else if string_control b || (b =? 0x7F) then ignore
     else if b =? 0x3F then go_to SCAN_DCS_IGNORE
     else if within 0x3C 0x3F b then go_to SCAN_DCS_IGNORE
     else if within 0x40 0x7E b then go_to SCAN_DCS_PASSTHROUGH
     else mret Fell_off).

Definition scan_dcs_passthrough (b : Z) : EM scanned :=
  or_terminated b
    (if string_control b || within 0x20 0x7E b || (b =? 0x7F) then ignore else mret Fell_off).

(** SCAN_DCS_IGNORE and SCAN_SOSPMAPC_STRING look at the bytes to ignore first. *)
Definition scan_ignored_string (b : Z) : EM scanned :=
  if (b <=? 0x17) || (b =? 0x19) || within 0x1C 0x7F b then ignore
  else or_terminated b (mret Fell_off).

Definition scan_osc_string (b : Z) : EM scanned :=
  if (b =? 0x9C) || (b <=? 0x07) then dispatch osc
  else if string_control b then ignore
  else if within 0x20 0x7F b then discard (osc_put b)
  else or_string_end osc b (mret Fell_off).

(** ESC Y l c *)
Definition scan_vt52_direct_cursor_address (b : Z) : EM scanned :=
  s ← get;
  if q_emul_buffer_n s =? 0 then discard (collect b)
  else if q_emul_buffer_n s =? 1 then
    l ← load (q_emul_buffer s) 0;
    dispatch (draw (cursor_position (l - 32) (b - 32)))
  else ignore.

(** ** The whole machine *)

Definition scan (b : Z) : EM scanned :=
  q ← gets scan_state;
  match q with
  | SCAN_GROUND => scan_ground b
  | SCAN_ESCAPE => scan_escape b
  | SCAN_ESCAPE_INTERMEDIATE => scan_escape_intermediate b
  | SCAN_CSI_ENTRY => scan_csi_entry b
  | SCAN_CSI_PARAM => scan_csi_param b
  | SCAN_CSI_INTERMEDIATE => scan_csi_intermediate b
  | SCAN_CSI_IGNORE => scan_csi_ignore b
  | SCAN_DCS_ENTRY => scan_dcs_entry b
  | SCAN_DCS_INTERMEDIATE => scan_dcs_intermediate b
  | SCAN_DCS_PARAM => scan_dcs_param b
  | SCAN_DCS_PASSTHROUGH => scan_dcs_passthrough b
  | SCAN_DCS_IGNORE | SCAN_SOSPMAPC_STRING => scan_ignored_string b
  | SCAN_OSC_STRING => scan_osc_string b
  | SCAN_VT52_DIRECT_CURSOR_ADDRESS => scan_vt52_direct_cursor_address b
  end.

(** The decoder of the UTF-8 emulations; whether the byte goes on. *)
Definition decode_utf8 (b : Z) : EM bool :=
  e ← status emulation;
  if negb (is_utf8 e) then mret true
  else
    d ← vt utf8;
    let '(d, c) := Utf8.take_byte d b in
    on_vt (fun v => v <| utf8 := d |>);;
    mret (bool_decide (is_Some c)).

Definition in_dcs (q : SCAN_STATE) : bool :=
  match q with
  | SCAN_DCS_ENTRY | SCAN_DCS_INTERMEDIATE | SCAN_DCS_IGNORE | SCAN_DCS_PARAM | SCAN_DCS_PASSTHROUGH => true
  | _ => false
  end.

(** The bytes with a meaning in every state; whether the byte is consumed. *)
Definition anywhere (b : Z) : EM bool :=
  e ← status emulation;
  q ← gets scan_state;
  let glyphs := bool_decide (q = SCAN_GROUND) && is_vga e in
  if (b =? 0x18) || (b =? 0x1A) then
    (if glyphs then draw (print_character (cp437_chars !!! 0x18%nat)) else to_ground);;
    mret true
  else if (b =? 0x19) && glyphs then draw (print_character (cp437_chars !!! 0x19%nat));; mret true
  else if (b =? C_ESC) && negb (in_dcs q) then set_scan_state SCAN_ESCAPE;; mret true
  else if is_c1 e && (b =? 0x9B) then set_scan_state SCAN_CSI_ENTRY;; mret true
  else if is_c1 e && (b =? 0x9D) then set_scan_state SCAN_OSC_STRING;; mret true
  else if is_c1 e && (b =? 0x90) then set_scan_state SCAN_DCS_ENTRY;; mret true
  else if is_c1 e && ((b =? 0x98) || (b =? 0x9E) || (b =? 0x9F)) then
    set_scan_state SCAN_SOSPMAPC_STRING;; mret true
  else mret (b =? 0x7F).

(** A byte that no state took: a glyph or a code point, or nothing. *)
Definition fall_off (b : Z) : EM result :=
  e ← status emulation;
  if is_vga e || is_utf8 e then
    c ← (if is_vga e then map_char b else vt (fun v => Utf8.d_char (utf8 v)));
    on_vt (fun v => v <| rep_ch := c |>);;
    to_ground;;
    mret (Q_EMUL_FSM_ONE_CHAR, c)
  else mret no_char_yet.

Definition vt100 (from_modem1 : Z) : EM result :=
  e ← status emulation;
  let b := if is_vt10x e then Z.land from_modem1 0x7F else from_modem1 in
  whole ← decode_utf8 b;
  if negb whole then mret no_char_yet
  else
    consumed ← anywhere b;
    if consumed : bool then mret no_char_yet
    else
      r ← scan b;
      match r with
      | Discard => mret no_char_yet
      | Printable c => mret (Q_EMUL_FSM_ONE_CHAR, c)
      | Fell_off => fall_off b
      end.

End Vt100Machine.
End Vt100Machine.
