(* ===== verification/EmulationInv.v ===== *)
(** What every operation of an emulation keeps true, and the rules by which an
    operation is shown to keep it: the screen stays drawable, the parameters and the
    collect buffer keep their size, saved positions and tab stops stay on the screen,
    the locking shifts are ones that map_character() accepts. *)

From Stdlib Require Import ZArith Lia List Bool Ascii.
From stdpp Require Import base list numbers gmap strings.
From S2P Require Import Prelude Stdio States Utf8 Codepage Colors Screen ScreenList ScreenState ScreenLine ScreenSpec ScreenCursor ScreenCommand Emulation Vt100.
Import Codepage Colors Screen ScreenList ScreenState ScreenLine ScreenSpec ScreenCursor ScreenCommand Emulation Vt100.

Module EmulationInv.

(** ** curses *)

(** The laws of a curses library: the pair of an attribute is in the bits of A_COLOR,
    which none of the other attributes uses. *)
Class CursesLaws (C : Curses) := {
  pair_of_color_pair n a : 0 <= n < 64 -> Z.land a A_COLOR = 0 -> PAIR_NUMBER (Z.lor (COLOR_PAIR n) a) = n;
  pair_bits_color n m : Z.land (COLOR_PAIR n) (Z.lnot (Z.lor A_COLOR m)) = 0;
  pair_in_color a b : Z.land a A_COLOR = Z.land b A_COLOR -> PAIR_NUMBER a = PAIR_NUMBER b;
  normal_no_color : Z.land A_NORMAL A_COLOR = 0;
  bold_no_color : Z.land A_BOLD A_COLOR = 0;
  underline_no_color : Z.land A_UNDERLINE A_COLOR = 0;
  blink_no_color : Z.land A_BLINK A_COLOR = 0;
  reverse_no_color : Z.land A_REVERSE A_COLOR = 0;
  invis_no_color : Z.land A_INVIS A_COLOR = 0;
  protect_no_color : Z.land A_PROTECT A_COLOR = 0
}.

(** ** The invariant *)

Definition gl_ok (m : LOCKSHIFT_MODE) : bool :=
  match m with LOCKSHIFT_NONE | LOCKSHIFT_G2_GL | LOCKSHIFT_G3_GL => true | _ => false end.
Definition gr_ok (m : LOCKSHIFT_MODE) : bool :=
  match m with LOCKSHIFT_NONE | LOCKSHIFT_G1_GR | LOCKSHIFT_G2_GR | LOCKSHIFT_G3_GR => true | _ => false end.

(** The entry of colors.cfg for text has colours of curses. *)
Definition text_ok (colors : Q_COLOR -> q_text_color_struct) : Prop :=
  0 <= fg (colors Q_COLOR_CONSOLE_TEXT) < 8 /\ 0 <= bg (colors Q_COLOR_CONSOLE_TEXT) < 8.

Create HintDb stays.

Section EmulationInv.
Context {C : Curses}.

Definition color_ok (c : Z) : Prop := 0 <= PAIR_NUMBER c < 64.

Record vt_ok (v : vt100_state) : Prop := {
  vo_params : length (params v) = 16%nat;
  vo_n : -1 <= params_n v;
  vo_saved : saved_cursor_x v = -1 \/ (0 <= saved_cursor_x v /\ 0 <= saved_cursor_y v);
  vo_color : color_ok (saved_attributes v);
  vo_gl : gl_ok (lockshift_gl v) = true;
  vo_gr : gr_ok (lockshift_gr v) = true;
  vo_saved_gl : gl_ok (saved_lockshift_gl v) = true;
  vo_saved_gr : gr_ok (saved_lockshift_gr v) = true;
  vo_tabs : Forall (fun stop => 0 <= stop) (tab_stops v)
}.

(** The size of the screen and the emulation, which do not change. *)
Record setup := { s_rows : Z; s_width : Z; s_emulation : Q_EMULATION }.
Definition setup_of (t : screen_state) : setup :=
  {| s_rows := rows t; s_width := WIDTH t; s_emulation := emulation (q_status t) |}.

Record screen_ok (g : setup) (t : screen_state) : Prop := {
  so_visible : visible t;
  so_text : text_ok (q_text_colors t);
  so_setup : setup_of t = g
}.

(** [n] bounds the bytes collected. *)
Record emul_ok (g : setup) (n : Z) (s : emul_state) : Prop := {
  eo_screen : screen_ok g (screen s);
  eo_vt : vt_ok (state s);
  eo_buffer : length (q_emul_buffer s) = 128%nat;
  eo_collected : 0 <= q_emul_buffer_n s <= n
}.

Lemma emul_ok_le g n n' s : emul_ok g n s -> n <= n' -> emul_ok g n' s.
Proof. intros []; split; [done..|lia]. Qed.

(** *** The screen *)

Lemma setup_frame t t' : frame t' = frame t -> setup_of t' = setup_of t.
Proof. intros Hf. change (setup_of (frame t') = setup_of (frame t)). by rewrite Hf. Qed.

Lemma screen_ok_frame g t t' : screen_ok g t -> frame t' = frame t -> visible t' -> screen_ok g t'.
Proof.
  intros [Hv Ht Hg] Hf Hv'. split; [done| |by rewrite (setup_frame t)].
  change (text_ok (q_text_colors (frame t'))). by rewrite Hf.
Qed.

Lemma screen_ok_config g t : screen_ok g t -> config_ok t.
Proof. intros [[ds H] _ _]. by eapply os_config. Qed.

Lemma screen_ok_cursor g t :
  screen_ok g t -> 0 <= cursor_x (q_status t) < 256 /\ 0 <= cursor_y (q_status t) < rows t.
Proof. intros [[ds []] _ _]. done. Qed.

(** A change of modes, colours, margins or the scrolling region. *)
Record same_lines (t t' : screen_state) : Prop := {
  sl_buffer : buffer t' = buffer t;
  sl_lines : scrollback_lines (q_status t') = scrollback_lines (q_status t);
  sl_rows : rows t' = rows t;
  sl_max : q_scrollback_max t' = q_scrollback_max t;
  sl_kept : scrollback_enabled (q_status t') = scrollback_enabled (q_status t);
  sl_y : cursor_y (q_status t') = cursor_y (q_status t)
}.

Lemma visible_same t t' :
  visible t -> same_lines t t' -> config_ok t' -> 0 <= cursor_x (q_status t') < 256 -> visible t'.
Proof.
  intros [ds [[Hc Hh Hl Hm Hk] Hy Hx]] [Eb El Er Em Ek Ey] Hc' Hx'. exists ds.
  assert (En : nrows t' = nrows t) by (unfold nrows; by rewrite Er).
  split; [|by rewrite Ey, Er|done]. split; [done| | | |].
  - unfold row_index, top_of. rewrite En, Ey, Eb. done.
  - by rewrite El.
  - by rewrite Em.
  - by rewrite Ek, En.
Qed.

(** ** Steps that keep it *)

Section Steps.
Context (g : setup) (n : Z).

Definition stays {A} (m : EM A) (s : emul_state) : Prop :=
  emul_ok g n s -> wp m s (fun _ t => emul_ok g n t).

Lemma stays_ret {A} (a : A) s : stays (mret a) s.
Proof. by intros H. Qed.

Lemma stays_seq {A B} (m : EM A) (k : A -> EM B) s :
  stays m s -> (forall a t, stays (k a) t) -> stays (m ≫= k) s.
Proof. intros Hm Hk H. apply wp_bind. eapply wp_mono; [by apply Hm|]. intros a t Ht. by apply Hk. Qed.

Lemma stays_gets {A B} (f : emul_state -> A) (k : A -> EM B) s :
  (emul_ok g n s -> stays (k (f s)) s) -> stays (gets f ≫= k) s.
Proof. intros Hk H. by apply Hk. Qed.

Lemma stays_get {B} (k : emul_state -> EM B) s :
  (emul_ok g n s -> stays (k s) s) -> stays (get ≫= k) s.
Proof. intros Hk H. by apply Hk. Qed.

Lemma stays_modify f s : (emul_ok g n s -> emul_ok g n (f s)) -> stays (modify f) s.
Proof. intros Hf H. by apply Hf. Qed.

Lemma stays_when (b : bool) m s : (b = true -> stays m s) -> stays (whenM b m) s.
Proof. destruct b; cbn; [auto|]. intros _. apply (stays_ret tt). Qed.

Lemma stays_if {A} (b : bool) (m m' : EM A) s :
  (b = true -> stays m s) -> (b = false -> stays m' s) -> stays (if b then m else m') s.
Proof. destruct b; auto. Qed.

Lemma stays_in_emulation p m s : stays m s -> stays (in_emulation p m) s.
Proof. intros Hm. apply stays_gets. intros _. by apply stays_when. Qed.

Lemma stays_unless_private m s : stays m s -> stays (unless_private m) s.
Proof. intros Hm. apply stays_gets. intros _. apply stays_if; [intros _; apply stays_ret|done]. Qed.

Lemma stays_each {A} (l : list A) f s : (forall a t, a ∈ l -> stays (f a) t) -> stays (each l f) s.
Proof.
  revert s. induction l as [|a l IH]; intros s Hf; [apply (stays_ret tt)|]. cbn [each].
  apply stays_seq; [apply Hf; left|]. intros [] t. apply IH. intros b u Hb. apply Hf. by right.
Qed.

Lemma stays_loop lo hi f s : (forall i t, lo <= i < hi -> stays (f i) t) -> stays (loop lo hi f) s.
Proof. intros Hf. apply stays_each. intros i t Hi. apply elem_of_seqZ in Hi. apply Hf. lia. Qed.

Lemma stays_switch {A} (b : Z) (cases : list (Ascii.ascii * EM A)) (d : EM A) s :
  Forall (fun c => b = chr c.1 -> stays c.2 s) cases -> stays d s -> stays (switch b cases d) s.
Proof.
  intros Hc Hd. induction cases as [|[c m] cases IH]; [done|]. cbn [switch].
  apply Forall_cons in Hc as [Hm Hc]. apply stays_if; [|auto].
  intros E. apply Hm. cbn. lia.
Qed.

(** *** Drawing *)

Lemma wp_draw {A} (m : SM A) s (Q : A -> emul_state -> Prop) :
  wp m (screen s) (fun a t => Q a (s <| screen := t |>)) -> wp (draw m) s Q.
Proof. unfold wp, draw, zoom. by destruct (m (screen s)) as [[a t]| |]. Qed.

Lemma stays_draw (m : SM unit) s :
  (forall ds, screen_ok g (screen s) -> on_screen (screen s) ds -> keeps m (screen s)) -> stays (draw m) s.
Proof.
  intros Hm H. destruct (eo_screen _ _ _ H) as [[ds Hds] Ht Hg]. apply wp_draw.
  eapply wp_mono; [apply (Hm ds); [by split; [exists ds|..]|done]|]. intros [] t [Hf Hv].
  destruct H. split; [|done..]. by apply (screen_ok_frame g (screen s)).
Qed.

Lemma stays_command (c : command) s :
  (screen_ok g (screen s) -> in_bounds (screen s) c) -> stays (draw (run c)) s.
Proof. intros Hb. apply stays_draw. intros ds Hs H. apply (keeps_run _ ds); auto. Qed.

Lemma stays_run (c : command) m s :
  run c = m -> (screen_ok g (screen s) -> in_bounds (screen s) c) -> stays (draw m) s.
Proof. intros <-. apply stays_command. Qed.

Lemma stays_beep s : stays (draw (Screen.emit Beep)) s.
Proof.
  apply stays_draw. intros ds _ H. apply wp_modify. split; [done|]. exists ds.
  destruct H as [Hs Hy Hx]. split; [|done..]. apply (shows_frame _ _ _ _ Hs); done.
Qed.

(** *** The other fields *)

Lemma stays_log e s : stays (modify (fun s => s <| log ::= fun l => l ++ [e] |>)) s.
Proof. apply stays_modify. intros []. by split. Qed.

Lemma stays_on_vt f s : (vt_ok (state s) -> vt_ok (f (state s))) -> stays (on_vt f) s.
Proof. intros Hf. apply stays_modify. intros []. split; [done|by apply Hf|done..]. Qed.

Lemma stays_on_flags f s : stays (on_flags f) s.
Proof. apply stays_modify. intros []. by split. Qed.

Lemma stays_scan_state q s : stays (set_scan_state q) s.
Proof. apply stays_modify. intros []. by split. Qed.

(** Everything but the screen, the structure and the buffer. *)
Lemma stays_statics f s :
  screen (f s) = screen s -> state (f s) = state s -> q_emul_buffer (f s) = q_emul_buffer s ->
  q_emul_buffer_n (f s) = q_emul_buffer_n s -> stays (modify f) s.
Proof. intros E1 E2 E3 E4. apply stays_modify. intros []. by split; rewrite ?E1, ?E2, ?E3, ?E4. Qed.

(** A change of the screen's configuration. *)
Lemma emul_ok_screen f s :
  emul_ok g n s -> (config_ok (screen s) -> config_ok (f (screen s))) ->
  same_lines (screen s) (f (screen s)) -> q_text_colors (f (screen s)) = q_text_colors (screen s) ->
  setup_of (f (screen s)) = setup_of (screen s) -> 0 <= cursor_x (q_status (f (screen s))) < 256 ->
  emul_ok g n (s <| screen ::= f |>).
Proof.
  intros [Hs Hv Hb Hn] Hc Hl Ht Hg Hx. pose proof (screen_ok_config _ _ Hs) as Hcfg.
  destruct Hs as [V T G]. split; [|done..]. split.
  - apply (visible_same (screen s)); [done|done|by apply Hc|done].
  - change (text_ok (q_text_colors (f (screen s)))). by rewrite Ht.
  - change (setup_of (f (screen s)) = g). by rewrite Hg.
Qed.

Lemma stays_color c s : color_ok c -> stays (set_color_to c) s.
Proof.
  intros Hc. apply stays_modify. intros H. pose proof (screen_ok_cursor _ _ (eo_screen _ _ _ H)) as [Hx _].
  apply emul_ok_screen; [done| |by split|done|done|done]. intros []. by split.
Qed.

Lemma stays_right_margin m s : m < 256 -> stays (set_right_margin m) s.
Proof.
  intros Hm. apply stays_modify. intros H. pose proof (screen_ok_cursor _ _ (eo_screen _ _ _ H)) as [Hx _].
  apply emul_ok_screen; [done| |by split|done|done|done]. intros []. by split.
Qed.

(** What a change of a mode leaves alone. *)
Definition mode_of (q : q_status_struct) : q_status_struct :=
  q <| origin_mode := false |> <| insert_mode := false |> <| line_wrap := false |> <| reverse_video := false |>.

Lemma stays_mode f s : (forall q, mode_of (f q) = mode_of q) -> stays (on_status f) s.
Proof.
  intros Hf. apply stays_modify. intros H. pose proof (screen_ok_cursor _ _ (eo_screen _ _ _ H)) as [Hx _].
  set (q := q_status (screen s)) in *. pose proof (Hf q) as Hq.
  assert (E : forall A (p : q_status_struct -> A), (forall q, p (mode_of q) = p q) -> p (f q) = p q).
  { intros A p Hp. by rewrite <- (Hp (f q)), Hq. }
  apply (emul_ok_screen (fun t => t <| q_status ::= f |>)); [done| | |done| |].
  - intros []. split; cbn; fold q; rewrite ?(E _ scroll_region_top), ?(E _ scroll_region_bottom), ?(E _ status_visible);
      try done.
  - split; cbn; fold q; try done; by rewrite E.
  - unfold setup_of. cbn. fold q. by rewrite (E _ emulation).
  - cbn. fold q. by rewrite E.
Qed.

End Steps.
End EmulationInv.

(** A drawing operation as a command. *)
Ltac as_command :=
  lazymatch goal with
  | |- EmulationInv.stays _ _ (draw ?m) _ =>
    lazymatch m with
    | print_character ?c => apply (stays_run _ _ (Print c)); [reflexivity|]
    | cursor_up ?a ?b => apply (stays_run _ _ (Up a b)); [reflexivity|]
    | cursor_down ?a ?b => apply (stays_run _ _ (Down a b)); [reflexivity|]
    | cursor_left ?a ?b => apply (stays_run _ _ (Left a b)); [reflexivity|]
    | cursor_right ?a ?b => apply (stays_run _ _ (Right a b)); [reflexivity|]
    | cursor_position ?a ?b => apply (stays_run _ _ (Position a b)); [reflexivity|]
    | cursor_linefeed ?a => apply (stays_run _ _ (Linefeed a)); [reflexivity|]
    | cursor_carriage_return => apply (stays_run _ _ Carriage_return); [reflexivity|]
    | cursor_formfeed => apply (stays_run _ _ Formfeed); [reflexivity|]
    | erase_line ?a ?b ?h => apply (stays_run _ _ (Fill a b 32 h)); [reflexivity|]
    | erase_screen ?a ?b ?c ?d ?h => apply (stays_run _ _ (Erase_screen a b c d h)); [reflexivity|]
    | scrolling_region_scroll_up ?a ?b ?c => apply (stays_run _ _ (Scroll_up a 0 b 256 c)); [reflexivity|]
    | scrolling_region_scroll_down ?a ?b ?c => apply (stays_run _ _ (Scroll_down a 0 b 256 c)); [reflexivity|]
    | delete_character ?a => apply (stays_run _ _ (Delete a)); [reflexivity|]
    | insert_blanks ?a => apply (stays_run _ _ (Insert a)); [reflexivity|]
    | set_double_width ?a => apply (stays_run _ _ (Double_width a)); [reflexivity|]
    | set_double_height ?a => apply (stays_run _ _ (Double_height a)); [reflexivity|]
    | set_single_width ?a ?b => apply (stays_run _ _ (Single_width a b)); [reflexivity|]
    | invert_scrollback_colors => apply (stays_run _ _ Invert); [reflexivity|]
    | deinvert_scrollback_colors => apply (stays_run _ _ Invert); [reflexivity|]
    | Screen.emit Beep => apply stays_beep
    end
  end; try (intros _; cbn [in_bounds]; first [exact I|lia]).

(** [status id] and [vt id] read the whole record. *)
Ltac no_id := repeat match goal with |- context [id ?x] => change (id x) with x end.

(** One step of an operation. *)
Ltac stay_step :=
  lazymatch goal with
  | |- EmulationInv.stays _ _ (mret _) _ => apply stays_ret
  | |- EmulationInv.stays _ _ (unless_private _) _ => apply stays_unless_private
  | |- EmulationInv.stays _ _ (in_emulation _ _) _ => apply stays_in_emulation
  | |- EmulationInv.stays _ _ (Emulation.status _ ≫= _) _ => apply stays_gets; intros ?; no_id
  | |- EmulationInv.stays _ _ (vt _ ≫= _) _ => apply stays_gets; intros ?; no_id
  | |- EmulationInv.stays _ _ (gets _ ≫= _) _ => apply stays_gets; intros ?; no_id
  | |- EmulationInv.stays _ _ (get ≫= _) _ => apply stays_get; intros ?; cbv zeta
  | |- EmulationInv.stays _ _ (whenM _ _) _ => apply stays_when; intros ?
  | |- EmulationInv.stays _ _ (if _ then _ else _) _ => apply stays_if; intros ?
  | |- EmulationInv.stays _ _ (qodem_write _) _ => apply stays_log
  | |- EmulationInv.stays _ _ (q_cursor _) _ => apply stays_log
  | |- EmulationInv.stays _ _ (on_flags _) _ => apply stays_on_flags
  | |- EmulationInv.stays _ _ (set_scan_state _) _ => apply stays_scan_state
  | |- EmulationInv.stays _ _ (on_vt _) _ => apply stays_on_vt
  | |- EmulationInv.stays _ _ (Emulation.on_status _) _ => apply stays_mode; done
  | |- EmulationInv.stays _ _ (set_right_margin _) _ => apply stays_right_margin
  | |- EmulationInv.stays _ _ (modify _) _ => apply stays_statics; done
  | |- EmulationInv.stays _ _ (draw _) _ => as_command
  | |- EmulationInv.stays _ _ (_ ≫= _) _ => apply stays_seq; [|intros ? ?]
  end.
Ltac stay := repeat stay_step; auto with stays.

End EmulationInv.
