(* ===== verification/Vt100Safe.v ===== *)
(** The operations of vt100.c keep the invariant, whatever the parameters, but for those
    that pass a parameter on without a check: these need it in range. *)

From Stdlib Require Import ZArith Lia List Bool Ascii.
From stdpp Require Import base list numbers gmap strings.
From S2P Require Import Prelude Stdio States Utf8 Codepage Colors Screen ScreenList ScreenState ScreenLine ScreenSpec ScreenCursor ScreenCommand Emulation Vt100 Vt100Machine EmulationInv.
Import Codepage Colors Screen ScreenList ScreenState ScreenLine ScreenSpec ScreenCursor ScreenCommand Emulation Vt100 Vt100Machine EmulationInv.

Module Vt100Safe.

Section Vt100Safe.
Context {C : Curses} {L : CursesLaws C}.
Context (g : setup) (n : Z).

Notation stays := (stays g n).

(** ** Parameters *)

Lemma stays_clear_params s : 0 <= n -> stays clear_params s.
Proof.
  intros Hn. apply stays_seq.
  - apply stays_on_vt. intros []. by split.
  - intros _ t. apply stays_modify. intros []. split; [done|done|done|cbn; lia].
Qed.

Lemma stays_param b s : stays (param b) s.
Proof.
  unfold param. stay.
  - intros []. destruct (Z.ltb_spec (params_n (state s)) 0); by split.
  - intros []. destruct (params_n _ <? VT100_PARAM_MAX); [|by split]. split; try done.
    cbn. by rewrite length_alter.
  - intros []. split; try done. cbn. lia.
Qed.

Lemma wp_param_text s i (Q : list Z -> emul_state -> Prop) :
  vt_ok (state s) -> 0 <= i < 16 -> (forall row, Q row s) -> wp (param_text i) s Q.
Proof.
  intros Hv Hi HQ. unfold param_text. apply wp_bind, wp_gets. change (id (state s)) with (state s). rewrite (proj2 (Z.ltb_ge _ _)) by lia.
  destruct (params (state s) !! Z.to_nat i) as [row|] eqn:E; [by apply wp_ret|].
  apply lookup_ge_None in E. pose proof (vo_params _ Hv). lia.
Qed.

Lemma stays_param_text {A} i (k : list Z -> EM A) s :
  0 <= i < 16 -> (forall row, stays (k row) s) -> stays (param_text i ≫= k) s.
Proof. intros Hi Hk H. apply wp_bind, wp_param_text; [apply H|done|]. intros row. by apply Hk. Qed.

Lemma stays_param_value {A} i (k : Z -> EM A) s :
  0 <= i < 16 -> (forall v, stays (k v) s) -> stays (param_value i ≫= k) s.
Proof.
  intros Hi Hk H. apply wp_bind. unfold param_value. apply wp_bind, wp_param_text; [apply H|done|].
  intros row. apply wp_ret. by apply Hk.
Qed.

Lemma stays_first_param {A} d (k : Z -> EM A) s :
  (forall v, stays (k v) s) -> stays (first_param d ≫= k) s.
Proof.
  intros Hk H. apply wp_bind. unfold first_param. apply wp_bind, wp_gets, wp_if; intros E.
  - unfold param_value. apply wp_bind, wp_param_text; [apply H|lia|]. intros row. apply wp_ret. by apply Hk.
  - apply wp_ret. by apply Hk.
Qed.

Lemma stays_count_param {A} (k : Z -> EM A) s :
  (forall i, 1 <= i -> stays (k i) s) -> stays (count_param ≫= k) s.
Proof.
  intros Hk H. apply wp_bind. unfold count_param. apply wp_bind.
  unfold first_param. apply wp_bind, wp_gets, wp_if; intros E.
  - unfold param_value. apply wp_bind, wp_param_text; [apply H|lia|]. intros row. apply wp_ret, wp_ret. apply Hk; [|done].
    destruct (Z.leb_spec (atoi row) 0); lia.
  - apply wp_ret, wp_ret. by apply Hk.
Qed.

(** ** Tab stops *)

Lemma stays_reset_tab_stops s : stays reset_tab_stops s.
Proof.
  unfold reset_tab_stops. stay. intros []. split; try done. cbn.
  apply Forall_fmap, Forall_forall. intros i Hi. apply elem_of_seqZ in Hi. cbn. lia.
Qed.

Lemma insert_tab_stop_ok x stops :
  0 <= x -> Forall (fun stop => 0 <= stop) stops -> Forall (fun stop => 0 <= stop) (insert_tab_stop x stops).
Proof.
  intros Hx. induction 1 as [|stop stops Hs Hss IH]; [by repeat constructor|]. cbn.
  destruct (stop =? x); [by constructor|]. destruct (x <? stop); by repeat constructor.
Qed.

Lemma remove_tab_stop_ok x stops :
  Forall (fun stop => 0 <= stop) stops -> Forall (fun stop => 0 <= stop) (remove_tab_stop x stops).
Proof.
  induction 1 as [|stop stops Hs Hss IH]; [done|]. cbn.
  destruct (x <? stop); [by constructor|]. destruct (stop =? x); [done|by constructor].
Qed.

Lemma stays_tabs s : stays advance_to_next_tab_stop s.
Proof. unfold advance_to_next_tab_stop. apply stays_get. intros _. destruct (next_tab_stop _ _); stay. Qed.

Lemma cursor_of s : emul_ok g n s ->
  0 <= cursor_x (q_status (screen s)) < 256 /\ 0 <= cursor_y (q_status (screen s)) < rows (screen s).
Proof. intros H. apply (screen_ok_cursor g), H. Qed.

Lemma config_of s : emul_ok g n s -> config_ok (screen s).
Proof. intros H. apply (screen_ok_config g), H. Qed.

Lemma stays_hts s : stays hts s.
Proof.
  unfold hts. stay. intros []. split; try done. cbn. apply insert_tab_stop_ok; [|done].
  by apply (cursor_of s).
Qed.

Lemma stays_tbc s : stays tbc s.
Proof.
  unfold tbc. apply stays_param_value; [lia|]. intros v. stay; intros []; split; try done. cbn.
  by apply remove_tab_stop_ok.
Qed.

(** ** Colours *)

Lemma has_color c a : Z.land a A_COLOR = 0 -> Z.land (Z.lor c a) A_COLOR = Z.land c A_COLOR.
Proof. intros Ha. by rewrite Z.land_lor_distr_l, Ha, Z.lor_0_r. Qed.

Lemma color_on c a : Z.land a A_COLOR = 0 -> color_ok c -> color_ok (Z.lor c a).
Proof. intros Ha Hc. unfold color_ok. by rewrite (pair_in_color _ c) by (by apply has_color). Qed.

Lemma color_off c a : Z.land a A_COLOR = 0 -> color_ok c -> color_ok (Z.land c (Z.lnot a)).
Proof.
  intros Ha Hc. unfold color_ok. rewrite (pair_in_color _ c); [done|].
  apply Z.bits_inj'. intros i Hi. rewrite !Z.land_spec, Z.lnot_spec by done.
  assert (Hb : Z.testbit (Z.land a A_COLOR) i = false) by (rewrite Ha; apply Z.bits_0).
  rewrite Z.land_spec in Hb. destruct (Z.testbit c i), (Z.testbit a i), (Z.testbit A_COLOR i); done.
Qed.

Lemma color_pair_ok f b a :
  0 <= f < 8 -> 0 <= b < 8 -> Z.land a A_COLOR = 0 ->
  PAIR_NUMBER (Z.lor (color_to_attr (i16 (Z.lor (Z.shiftl f 3) b))) a) = 8 * f + b.
Proof.
  intros Hf Hb Ha.
  assert (E : Z.lor (Z.shiftl f 3) b = 8 * f + b).
  { assert (H : f = 0 \/ f = 1 \/ f = 2 \/ f = 3 \/ f = 4 \/ f = 5 \/ f = 6 \/ f = 7) by lia.
    assert (H' : b = 0 \/ b = 1 \/ b = 2 \/ b = 3 \/ b = 4 \/ b = 5 \/ b = 6 \/ b = 7) by lia.
    destruct_or!; subst; done. }
  rewrite E. unfold color_to_attr. assert (Ei : i16 (8 * f + b) = 8 * f + b).
  { unfold i16. rewrite Z.mod_small by lia. lia. }
  rewrite Ei. apply pair_of_color_pair; [lia|done].
Qed.

Lemma console_color_ok (colors : Q_COLOR -> q_text_color_struct) a :
  text_ok colors -> Z.land a A_COLOR = 0 ->
  color_ok (Z.lor a (scrollback_full_attr colors Q_COLOR_CONSOLE_TEXT)).
Proof.
  intros [Hf Hb] Ha. unfold color_ok, scrollback_full_attr, screen_color.
  rewrite Z.lor_comm, <- Z.lor_assoc, color_pair_ok; [lia|done|done|].
  rewrite Z.land_lor_distr_l, Ha, Z.lor_0_r. unfold screen_attr.
  destruct (bold _); [|apply normal_no_color].
  by rewrite Z.land_lor_distr_l, normal_no_color, bold_no_color.
Qed.

Lemma stays_console_color s : stays (c ← console_color; set_color_to c) s.
Proof.
  apply stays_gets. intros H. apply stays_color, console_color_ok; [apply H|apply normal_no_color].
Qed.

(** *** SGR *)

Lemma color_field_range c : 0 <= i16 (Z.shiftr (Z.land c 0x38) 3) < 8 /\ 0 <= i16 (Z.land c 0x07) < 8.
Proof.
  assert (Hb : 0 <= Z.land c 0x07 < 8).
  { change 0x07 with (Z.ones 3). rewrite Z.land_ones by lia. by apply Z.mod_pos_bound. }
  assert (Hf : 0 <= Z.shiftr (Z.land c 0x38) 3 < 8).
  { rewrite Z.shiftr_land. change (Z.shiftr 0x38 3) with (Z.ones 3). rewrite Z.land_ones by lia.
    by apply Z.mod_pos_bound. }
  assert (Hi : forall z, 0 <= z < 8 -> i16 z = z).
  { intros z Hz. unfold i16. rewrite Z.mod_small by lia. lia. }
  by rewrite !Hi.
Qed.

Definition pen_ok (p : pen) : Prop := color_ok (color p).

Lemma turn_on_ok a p : Z.land a A_COLOR = 0 -> pen_ok p -> pen_ok (turn_on a p).
Proof. apply color_on. Qed.
Lemma turn_off_ok a p : Z.land a A_COLOR = 0 -> pen_ok p -> pen_ok (turn_off a p).
Proof. apply color_off. Qed.

Lemma no_color_rest c : Z.land (Z.land c NO_COLOR_MASK) A_COLOR = 0.
Proof. unfold NO_COLOR_MASK. by rewrite <- Z.land_assoc, (Z.land_comm (Z.lnot _)), Z.land_lnot_diag, Z.land_0_r. Qed.

Lemma sgr_bright_ok x j p : pen_ok p -> pen_ok (sgr_bright x j p).
Proof.
  intros Hp. unfold sgr_bright. destruct (negb _); [done|].
  destruct (_ || _); [by apply (turn_on_ok A_BOLD p bold_no_color)|].
  destruct (_ && _); [by apply (turn_off_ok A_BOLD p bold_no_color)|done].
Qed.

Lemma sgr_attribute_ok x j p : text_ok (sgr_text_colors x) -> pen_ok p -> pen_ok (sgr_attribute x j p).
Proof.
  intros Ht Hp. unfold sgr_attribute.
  destruct (j =? 0); [by apply (console_color_ok _ _ Ht), normal_no_color|].
  destruct (j =? 1); [by apply (turn_on_ok A_BOLD p bold_no_color)|].
  destruct (j =? 4); [by apply turn_on_ok; [apply underline_no_color|]|].
  destruct (j =? 5); [by apply turn_on_ok; [apply blink_no_color|]|].
  destruct (j =? 7); [by apply turn_on_ok; [apply reverse_no_color|]|].
  destruct (j =? 8); [|done]. destruct (is_xterm _); [|done]. by apply turn_on_ok; [apply invis_no_color|].
Qed.

Lemma sgr_not_attribute_ok x j p : pen_ok p -> pen_ok (sgr_not_attribute x j p).
Proof.
  intros Hp. unfold sgr_not_attribute. destruct (negb _); [done|].
  destruct (_ || _); [by apply (turn_off_ok A_BOLD p bold_no_color)|].
  destruct (j =? 24); [by apply turn_off_ok; [apply underline_no_color|]|].
  destruct (j =? 25); [by apply turn_off_ok; [apply blink_no_color|]|].
  destruct (j =? 27); [by apply turn_off_ok; [apply reverse_no_color|]|done].
Qed.

Lemma sgr_default_foreground_color x u p :
  Z.land (color (sgr_default_foreground x u p)) A_COLOR = Z.land (color p) A_COLOR.
Proof.
  unfold sgr_default_foreground.
  assert (Hoff : forall c a, Z.land a A_COLOR = 0 -> Z.land (Z.land c (Z.lnot a)) A_COLOR = Z.land c A_COLOR).
  { intros c a Ha. rewrite <- Z.land_assoc, (Z.land_comm (Z.lnot a)), Z.land_assoc.
    rewrite <- Z.ldiff_land. apply Z.bits_inj'. intros i Hi. rewrite Z.ldiff_spec, Z.land_spec.
    assert (Hb : Z.testbit (Z.land a A_COLOR) i = false) by (rewrite Ha; apply Z.bits_0).
    rewrite Z.land_spec in Hb. destruct (Z.testbit c i), (Z.testbit a i), (Z.testbit A_COLOR i); done. }
  destruct (bold _), u; cbn.
  - by rewrite !has_color by (apply underline_no_color || apply bold_no_color).
  - by rewrite Hoff, has_color by (apply underline_no_color || apply bold_no_color).
  - by rewrite has_color by apply underline_no_color.
  - by rewrite Hoff by apply underline_no_color.
Qed.

Lemma sgr_colors_range x j p f b p' f' b' :
  text_ok (sgr_text_colors x) -> 0 <= f < 8 -> 0 <= b < 8 -> sgr_colors x j p f b = Some (p', f', b') ->
  0 <= f' < 8 /\ 0 <= b' < 8.
Proof.
  intros [Htf Htb] Hf Hb. unfold sgr_colors, within.
  repeat (match goal with |- context [if ?c then _ else _] => destruct c eqn:? end; try done);
    intros [= <- <- <-]; lia.
Qed.

Lemma sgr_color_ok x j p p' :
  text_ok (sgr_text_colors x) -> pen_ok p -> sgr_color x j p = Some p' -> pen_ok p'.
Proof.
  intros Ht Hp. unfold sgr_color. destruct (negb _); [by intros [= <-]|].
  destruct (color_field_range (color_from_attr (color p))) as [Hf Hb].
  destruct (sgr_colors _ _ _ _ _) as [[[p1 f] b]|] eqn:E; [|done].
  destruct (sgr_colors_range _ _ _ _ _ _ _ _ Ht Hf Hb E) as [Hf' Hb']. intros [= <-].
  assert (Hq : pen_ok (p1 <| color ::= fun c => Z.lor (Z.land c NO_COLOR_MASK)
                              (color_to_attr (i16 (Z.lor (Z.shiftl f 3) b))) |>)).
  { change (color_ok (Z.lor (Z.land (color p1) NO_COLOR_MASK) (color_to_attr (i16 (Z.lor (Z.shiftl f 3) b))))).
    unfold color_ok. rewrite Z.lor_comm, color_pair_ok by (done || apply no_color_rest). lia. }
  destruct (real_bold _); [by apply turn_on_ok; [apply bold_no_color|]|].
  destruct (default_color _); [done|by apply turn_off_ok; [apply bold_no_color|]].
Qed.

Lemma sgr_param_ok x j p : text_ok (sgr_text_colors x) -> pen_ok p -> pen_ok (sgr_param x j p).1.
Proof.
  intros Ht Hp. unfold sgr_param.
  assert (H : pen_ok (sgr_not_attribute x j (sgr_attribute x j (sgr_bright x j p))))
    by by apply sgr_not_attribute_ok, sgr_attribute_ok, sgr_bright_ok.
  destruct (sgr_color _ _ _) as [p'|] eqn:E; [|done]. by eapply sgr_color_ok.
Qed.

Lemma sgr_params_ok x js p : text_ok (sgr_text_colors x) -> pen_ok p -> pen_ok (sgr_params x js p).
Proof.
  intros Ht. revert p. induction js as [|j js IH]; intros p Hp; [done|]. cbn [sgr_params].
  pose proof (sgr_param_ok x j p Ht Hp) as H. destruct (sgr_param x j p) as [p' [|]]; [by apply IH|done].
Qed.

Lemma wp_param_values k lo s (Q : list Z -> emul_state -> Prop) :
  vt_ok (state s) -> 0 <= lo -> lo + Z.of_nat k <= 16 -> (forall js, Q js s) -> wp (param_values k lo) s Q.
Proof.
  intros Hv. revert lo Q. induction k as [|k IH]; intros lo Q Hlo Hk HQ; [by apply wp_ret|]. cbn [param_values].
  apply wp_bind. unfold param_value. apply wp_bind, wp_param_text; [done|lia|]. intros row. apply wp_ret.
  apply wp_bind, IH; [lia|lia|]. intros js. by apply wp_ret.
Qed.

Lemma stays_set_pen p s : pen_ok p -> stays (set_pen p) s.
Proof. intros Hp. unfold set_pen. apply stays_seq; [by apply stays_color|]. intros ? ?. stay. Qed.

Lemma stays_sgr s : params_n (state s) <= 15 -> stays sgr s.
Proof.
  intros Hn. unfold sgr. apply stays_unless_private, stays_get. intros H.
  assert (Hload : forall Q : Z -> EM unit, (forall c, wp (Q c) s (fun _ t => emul_ok g n t)) ->
    wp ((if 0 <? q_emul_buffer_n s then load (q_emul_buffer s) 0 else mret 0) ≫= Q) s (fun _ t => emul_ok g n t)).
  { intros Q HQ. apply wp_bind, wp_if; intros _; [|by apply wp_ret].
    destruct (q_emul_buffer s) as [|c buf] eqn:E; [pose proof (eo_buffer _ _ _ H) as Hb; by rewrite E in Hb|].
    by apply (wp_load _ _ c). }
  intros _. apply Hload. intros c. apply wp_if; intros _; [by apply wp_ret|]. apply wp_if; intros E.
  - apply stays_gets; [|done]. intros _. apply stays_seq.
    + apply stays_color, console_color_ok; [apply H|apply normal_no_color].
    + intros ? ?. stay.
  - unfold current_pen. apply wp_bind, wp_bind, wp_get, wp_ret, wp_bind.
    apply wp_param_values; [apply H|lia|lia|]. intros js. apply stays_set_pen; [|done].
    apply sgr_params_ok; [apply H|]. destruct (eo_screen _ _ _ H) as [[ds Hds] _ _].
    apply (cfg_color _ (os_config _ _ Hds)).
Qed.

End Vt100Safe.
End Vt100Safe.
