(* ===== verification/Vt100Ops.v ===== *)
(** Each operation of vt100.c keeps the invariant; those whose parameter goes to the
    screen unchecked keep it while the parameter is in range. *)

From Stdlib Require Import ZArith Lia List Bool Ascii.
From stdpp Require Import base list numbers gmap strings.
From S2P Require Import Prelude Stdio States Utf8 Codepage Colors Screen ScreenList ScreenState ScreenLine ScreenSpec ScreenCursor ScreenDraw ScreenCommand Emulation Vt100 Vt100Machine EmulationInv Vt100Safe.
Import Codepage Colors Screen ScreenList ScreenState ScreenLine ScreenSpec ScreenCursor ScreenDraw ScreenCommand Emulation Vt100 Vt100Machine EmulationInv Vt100Safe.

Module Vt100Ops.

Section Vt100Ops.
Context {C : Curses} {L : CursesLaws C}.
Context (g : setup) (n : Z).

Notation stays := (stays g n).

(** The bottom row and the width are those of the setup. *)
Lemma last_row_of s : emul_ok g n s -> last_row (screen s) = s_rows g - 1.
Proof. intros H. destruct (eo_screen _ _ _ H) as [_ _ <-]. done. Qed.
Lemma width_of s : emul_ok g n s -> WIDTH (screen s) = s_width g.
Proof. intros H. destruct (eo_screen _ _ _ H) as [_ _ <-]. done. Qed.
Lemma setup_bounds s : emul_ok g n s -> 2 <= s_rows g /\ 1 <= s_width g <= 256.
Proof.
  intros H. pose proof (config_of _ _ _ H) as Hc. destruct (eo_screen _ _ _ H) as [_ _ <-].
  split; apply Hc.
Qed.
Lemma region_of s : emul_ok g n s ->
  0 <= scroll_region_top (q_status (screen s)) <= scroll_region_bottom (q_status (screen s)) /\
  scroll_region_bottom (q_status (screen s)) < s_rows g.
Proof.
  intros H. pose proof (config_of _ _ _ H) as Hc. destruct (eo_screen _ _ _ H) as [_ _ <-].
  pose proof (cfg_region_top _ Hc). pose proof (cfg_region _ Hc). cbn. lia.
Qed.

(** A drawing operation whose arguments are in range because of the state it starts from. *)
Lemma stays_command_in c s :
  (emul_ok g n s -> in_bounds (screen s) c) -> stays (draw (run c)) s.
Proof. intros Hb H. apply stays_command; [intros _; by apply Hb|done]. Qed.

Lemma stays_erase_screen r1 c1 r2 c2 honor s :
  (emul_ok g n s -> r2 < s_rows g /\ c2 < 256) -> stays (draw (erase_screen r1 c1 r2 c2 honor)) s.
Proof.
  intros Hb. apply (stays_command_in (Erase_screen r1 c1 r2 c2 honor)). intros H. cbn.
  destruct (eo_screen _ _ _ H) as [_ _ E]. change (rows (screen s)) with (s_rows (setup_of (screen s))).
  rewrite E. by apply Hb.
Qed.

Lemma stays_single_width r1 r2 s : (emul_ok g n s -> r2 < s_rows g) -> stays (draw (set_single_width r1 r2)) s.
Proof.
  intros Hb. apply (stays_command_in (Single_width r1 r2)). intros H. cbn.
  destruct (eo_screen _ _ _ H) as [_ _ E]. change (rows (screen s)) with (s_rows (setup_of (screen s))).
  rewrite E. by apply Hb.
Qed.

Lemma stays_scroll_up top bottom count s :
  (emul_ok g n s -> 0 <= top /\ bottom < s_rows g /\ 0 <= count) ->
  stays (draw (scrolling_region_scroll_up top bottom count)) s.
Proof.
  intros Hb. apply (stays_command_in (Scroll_up top 0 bottom 256 count)). intros H. cbn.
  destruct (eo_screen _ _ _ H) as [_ _ E]. change (rows (screen s)) with (s_rows (setup_of (screen s))).
  rewrite E. destruct (Hb H) as (? & ? & ?). lia.
Qed.

Lemma stays_scroll_down top bottom count s :
  (emul_ok g n s -> 0 <= top /\ bottom < s_rows g /\ 0 <= count) ->
  stays (draw (scrolling_region_scroll_down top bottom count)) s.
Proof.
  intros Hb. apply (stays_command_in (Scroll_down top 0 bottom 256 count)). intros H. cbn.
  destruct (eo_screen _ _ _ H) as [_ _ E]. change (rows (screen s)) with (s_rows (setup_of (screen s))).
  rewrite E. destruct (Hb H) as (? & ? & ?). lia.
Qed.

(** ** Reset, save and restore *)

Lemma stays_erase_display honor s : stays (erase_display honor) s.
Proof.
  unfold erase_display. apply stays_get. intros H. apply stays_erase_screen. intros _.
  rewrite (last_row_of _ H), (width_of _ H). pose proof (setup_bounds _ H). lia.
Qed.

Lemma stays_reset_margin s : stays reset_margin s.
Proof. unfold reset_margin. stay. destruct (_ || _); lia. Qed.

Lemma stays_vt100_reset s : 0 <= n -> stays vt100_reset s.
Proof.
  intros Hn. unfold vt100_reset. apply stays_seq; [stay|intros _ t1].
  apply stays_seq; [by apply stays_clear_params|intros _ t2].
  apply stays_seq; [apply stays_reset_margin|intros _ t3].
  apply stays_seq; [apply stays_statics; done|intros _ t4].
  apply stays_seq; [apply stays_reset_tab_stops|intros _ t5].
  apply stays_seq; [stay|intros _ t6]. apply stays_seq; [stay|intros _ t7].
  apply stays_get. intros H. apply stays_on_vt. intros []. split; try done.
  - cbn. by left.
  - exact (cfg_color _ (config_of _ _ _ H)).
Qed.

Lemma stays_ris s : 0 <= n -> stays ris s.
Proof.
  intros Hn. unfold ris. apply stays_seq; [by apply stays_vt100_reset|intros _ t1].
  apply stays_seq; [stay|intros _ t2]. apply stays_erase_display.
Qed.

Lemma stays_decrc s : stays decrc s.
Proof.
  unfold decrc. apply stays_gets. intros H. change (id (state s)) with (state s). set (v := state s).
  assert (Hv : vt_ok v) by apply H. clearbody v. apply stays_if; intros E.
  - destruct (vo_saved _ Hv) as [Hx|[Hx Hy]]; [lia|].
    apply stays_seq; [stay|intros _ t1].
    apply stays_seq; [apply stays_color, Hv|intros _ t2]. apply stays_seq; [stay|intros _ t3].
    apply stays_seq; [stay|intros _ t4]. apply stays_seq; [stay; intros []; by split|intros _ t5].
    stay. intros []. split; try done; apply Hv.
  - apply stays_seq; [stay|intros _ t1]. apply stays_gets. intros H1.
    apply stays_seq; [apply stays_color, console_color_ok; [apply H1|apply normal_no_color]|intros _ t2].
    stay. intros []. by split.
Qed.

Lemma stays_decsc s : stays decsc s.
Proof.
  unfold decsc. apply stays_get. intros H. stay. intros []. pose proof (cursor_of _ _ _ H) as [Hx Hy].
  split; try done; [cbn; right; lia|]. exact (cfg_color _ (config_of _ _ _ H)).
Qed.

Lemma stays_save_cursor s : stays save_cursor s.
Proof.
  unfold save_cursor. apply stays_unless_private, stays_gets. intros H. stay. intros [].
  pose proof (cursor_of _ _ _ H) as [Hx Hy]. split; try done. cbn. right. lia.
Qed.

Lemma stays_restore_cursor s : stays restore_cursor s.
Proof.
  unfold restore_cursor. apply stays_gets. intros H. change (id (state s)) with (state s).
  destruct (vo_saved _ (eo_vt _ _ _ H)) as [Hx|[Hx Hy]]; apply stays_when; intros E; [lia|]. stay.
Qed.

(** ** Toggles *)

(** A new scrolling region. *)
Lemma emul_ok_region top bottom s :
  0 <= top -> top <= bottom < s_rows g -> emul_ok g n s ->
  emul_ok g n (s <| screen ::= fun t => t <| q_status ::= fun q => q <| scroll_region_top := top |> <| scroll_region_bottom := bottom |> |> |>).
Proof.
  intros Ht Hb H. pose proof (cursor_of _ _ _ H) as [Hx _].
  assert (Hr : s_rows g = rows (screen s)) by (destruct (eo_screen _ _ _ H) as [_ _ <-]; done).
  apply (emul_ok_screen _ _ (fun t => t <| q_status ::= fun q => q <| scroll_region_top := top |> <| scroll_region_bottom := bottom |> |>));
    [done| |by split|done|done|done].
  intros []. split; try done. change (top <= bottom < rows (screen s)). lia.
Qed.

Lemma stays_deccolm value s : stays (deccolm value) s.
Proof.
  unfold deccolm. apply stays_seq; [stay; intros []; by split|intros _ t1].
  apply stays_seq; [apply stays_if; intros _; [stay; lia|apply stays_reset_margin]|intros _ t2].
  apply stays_seq; [apply stays_erase_display|intros _ t3]. apply stays_get. intros H.
  apply stays_seq; [|intros _ t4; stay]. apply stays_modify. intros _.
  rewrite (last_row_of _ H). apply emul_ok_region; [lia| |done]. pose proof (setup_bounds _ H). lia.
Qed.

Lemma stays_enter_vt52_mode s : stays enter_vt52_mode s.
Proof. unfold enter_vt52_mode. stay; intros []; by split. Qed.

Lemma stays_decscnm value s : stays (decscnm value) s.
Proof. unfold decscnm. stay. destruct value; stay. Qed.

Lemma stays_alternate_screen (value : bool) s :
  stays (if value then decsc;; draw cursor_formfeed else draw cursor_formfeed;; decrc : EM unit) s.
Proof.
  destruct value.
  - apply stays_seq; [apply stays_decsc|intros _ t]. stay.
  - apply stays_seq; [stay|intros _ t]. apply stays_decrc.
Qed.

Lemma stays_private_toggle value x s : stays (private_toggle value x) s.
Proof.
  unfold private_toggle, decom, decawm, mouse_protocol, mouse_encoding.
  destruct (x =? 1); [stay|]. destruct (x =? 2); [apply stays_when; intros _; apply stays_enter_vt52_mode|].
  destruct (x =? 3); [apply stays_deccolm|]. destruct (x =? 5); [apply stays_decscnm|].
  destruct (x =? 6); [stay|]. destruct (x =? 7); [stay; intros []; by split|]. destruct (x =? 25); [stay|].
  apply stays_in_emulation. destruct (x =? 1000); [stay|]. destruct (x =? 1002); [stay|].
  destruct (x =? 1003); [stay|]. destruct (x =? 1005); [stay|]. destruct (x =? 1006); [stay|].
  destruct (x =? 1047); [stay|].
  destruct (x =? 1048); [destruct value; [apply stays_decsc|apply stays_decrc]|].
  destruct (x =? 1049); [apply stays_alternate_screen|]. stay.
Qed.

Lemma stays_ansi_toggle value x s : stays (ansi_toggle value x) s.
Proof. unfold ansi_toggle. stay. Qed.

Lemma stays_set_toggle value s : params_n (state s) <= 15 -> stays (set_toggle value) s.
Proof.
  intros Hn. unfold set_toggle. apply stays_gets. intros _. apply stays_loop. intros i t Hi. cbn beta in Hi.
  apply stays_param_value; [lia|]. intros x. apply stays_gets. intros _.
  apply stays_if; intros _; [apply stays_private_toggle|apply stays_ansi_toggle].
Qed.

Lemma stays_printer_functions s : stays printer_functions s.
Proof.
  unfold printer_functions. apply stays_unless_private, stays_first_param. intros i. stay; intros []; by split.
Qed.

(** ** Lines *)

Lemma stays_scroll_at_bottom s : stays scroll_at_bottom s.
Proof.
  unfold scroll_at_bottom. apply stays_gets. intros H. no_id. apply stays_when. intros _.
  apply stays_scroll_up. intros _. pose proof (region_of _ H). lia.
Qed.

Lemma stays_scroll_at_top s : stays scroll_at_top s.
Proof.
  unfold scroll_at_top. apply stays_gets. intros H. no_id. apply stays_when. intros _.
  apply stays_scroll_down. intros _. pose proof (region_of _ H). lia.
Qed.

Lemma stays_column_0 s : stays (Emulation.on_status (fun q => q <| cursor_x := 0 |>)) s.
Proof.
  apply stays_modify. intros H.
  apply (emul_ok_screen _ _ (fun t => t <| q_status ::= fun q => q <| cursor_x := 0 |> |>)); [done| |by split|done|done|cbn; lia].
  intros []. by split.
Qed.

Lemma stays_ind s : stays ind s.
Proof. unfold ind. apply stays_unless_private, stays_seq; [apply stays_scroll_at_bottom|intros _ t]. stay. Qed.

Lemma stays_ri s : stays ri s.
Proof. unfold ri. apply stays_unless_private, stays_seq; [apply stays_scroll_at_top|intros _ t]. stay. Qed.

Lemma stays_nel s : stays nel s.
Proof.
  unfold nel. apply stays_unless_private, stays_seq; [apply stays_scroll_at_bottom|intros _ t].
  apply stays_seq; [stay|intros _ u]. apply stays_column_0.
Qed.

(** *** DECALN *)

Definition full_cell (s : screen_state) (j : Z) (d : line) : line :=
  put_color j (scrollback_full_attr (q_text_colors s) Q_COLOR_CONSOLE_TEXT) (put_char j (chr "E") d).
Definition full_row (s : screen_state) (d : line) : line :=
  (foldl (fun d j => full_cell s j d) d (seqZ 0 (WIDTH s))) <| line_length := WIDTH s |>.

Lemma acts_full_cell s j d :
  0 <= j < 256 ->
  acts_current s (p ← pointer q_scrollback_current;
                  set_char p j (chr "E");; c ← full_attr Q_COLOR_CONSOLE_TEXT; set_color p j c)
    d (full_cell s j d).
Proof.
  intros Hj. apply (acts_at_current s (fun p => set_char p j (chr "E");; c ← full_attr Q_COLOR_CONSOLE_TEXT; set_color p j c)).
  intros p q k. eapply acts_seq; [by apply acts_set_char|]. apply acts_gets; [done|]. by apply acts_set_color.
Qed.

Lemma acts_current_forM s {A} (xs : list A) (f : A -> SM unit) (h : A -> line -> line) d :
  (forall x d, x ∈ xs -> acts_current s (f x) d (h x d)) ->
  acts_current s (forM xs f) d (foldl (fun d x => h x d) d xs).
Proof.
  revert d. induction xs as [|x xs IH]; intros d Hf; [apply acts_current_ret|]. cbn [forM foldl].
  eapply acts_current_seq; [apply Hf; left|]. apply IH. intros y e Hy. apply Hf. by right.
Qed.

Lemma full_cells_ok s js d :
  line_ok d -> Forall (fun j => 0 <= j < 256) js -> line_ok (foldl (fun d j => full_cell s j d) d js).
Proof.
  intros Hd H. revert d Hd. induction H as [|j js Hj Hjs IH]; intros d Hd; [done|]. cbn [foldl].
  apply IH. by destruct Hd; split; cbn; rewrite ?length_insert.
Qed.

Lemma acts_full_line s d :
  line_ok d -> 1 <= WIDTH s <= 256 ->
  acts_current s full_line d (full_row s d).
Proof.
  intros Hd HW.
  assert (Hcells : Forall (fun j => 0 <= j < 256) (seqZ 0 (WIDTH s - 0))).
  { apply Forall_forall. intros j Hj. apply elem_of_seqZ in Hj. lia. }
  assert (A : acts_current s (for_up 0 (WIDTH s) (fun j => p ← pointer q_scrollback_current;
       set_char p j (chr "E");; c ← full_attr Q_COLOR_CONSOLE_TEXT; set_color p j c);;
     p ← pointer q_scrollback_current; update p (fun l => l <| line_length := WIDTH s |>)) d
     ((foldl (fun d j => full_cell s j d) d (seqZ 0 (WIDTH s - 0))) <| line_length := WIDTH s |>)).
  { eapply acts_current_seq.
    - apply acts_current_forM. intros j e Hj. apply acts_full_cell. by apply (proj1 (Forall_forall _ _) Hcells).
    - apply (acts_update_current s (fun l => l <| line_length := WIDTH s |>)); [done|].
      pose proof (full_cells_ok s _ _ Hd Hcells) as Hok. destruct Hok. split; [done|done|cbn; lia]. }
  rewrite Z.sub_0_r in A. exact A.
Qed.

Lemma keeps_fill_row s ds : on_screen s ds -> keeps fill_row s.
Proof.
  intros H. destruct (os_line _ _ H) as (d & Hd & Hok). unfold fill_row. apply wp_bind.
  apply (wp_on_line s ds d (full_row s d)); [done|done|apply acts_full_line; [done|apply (os_config _ _ H)]|].
  intros t [Hf Ht _ _ _]. apply (wp_cursor_down t (<[row_index s ds := full_row s d]> ds)); [exact Ht|].
  intros u Hu. destruct (keeps_reaches _ _ _ _ _ _ Hu) as [Hf' Hv]. split; [congruence|done].
Qed.

Lemma stays_draw_rows xs s : stays (draw (forM xs (fun _ : Z => fill_row))) s.
Proof.
  apply stays_draw. intros ds _ H. revert ds H. generalize (screen s). clear s.
  induction xs as [|x xs IH]; intros t ds H; cbn [forM].
  - apply wp_ret. split; [done|by exists ds].
  - apply wp_bind. eapply wp_mono; [by eapply keeps_fill_row|]. intros [] u [Hf [ds' Hu]].
    eapply wp_mono; [by eapply IH|]. intros _ v [Hf' Hv]. split; [congruence|done].
Qed.

Lemma stays_decaln s : stays decaln s.
Proof.
  unfold decaln. apply stays_get. intros H. cbv zeta. pose proof (cursor_of _ _ _ H).
  apply stays_seq; [stay|intros _ t]. apply stays_seq; [apply stays_draw_rows|intros _ u]. stay.
Qed.

(** ** The cursor *)

Lemma stays_cud s : stays cud s.
Proof. unfold cud. apply stays_unless_private, stays_count_param. intros i Hi. stay. Qed.
Lemma stays_cuf s : stays cuf s.
Proof. unfold cuf. apply stays_unless_private, stays_count_param. intros i Hi. stay. Qed.
Lemma stays_cub s : stays cub s.
Proof. unfold cub. apply stays_unless_private, stays_count_param. intros i Hi. stay. Qed.
Lemma stays_cuu s : stays cuu s.
Proof. unfold cuu. apply stays_unless_private, stays_count_param. intros i Hi. stay. Qed.

Lemma stays_cup s : stays cup s.
Proof.
  unfold cup. apply stays_unless_private, stays_gets. intros _. apply stays_if; intros E1; [stay|].
  apply stays_if; intros E2.
  - apply stays_param_value; [lia|]. intros row. stay.
  - apply stays_param_value; [lia|]. intros row. apply stays_param_value; [lia|]. intros col. stay.
Qed.

Lemma stays_to_column_0 s : stays to_column_0 s.
Proof. unfold to_column_0. stay. Qed.

Lemma stays_cnl s : stays cnl s.
Proof.
  unfold cnl. apply stays_unless_private, stays_count_param. intros i Hi.
  apply stays_seq; [stay|intros _ t]. apply stays_to_column_0.
Qed.
Lemma stays_cpl s : stays cpl s.
Proof.
  unfold cpl. apply stays_unless_private, stays_count_param. intros i Hi.
  apply stays_seq; [stay|intros _ t]. apply stays_to_column_0.
Qed.

Lemma stays_cht s : stays cht s.
Proof.
  unfold cht. apply stays_unless_private, stays_count_param. intros i Hi.
  apply stays_loop. intros k t Hk. apply stays_tabs.
Qed.

Lemma previous_tab_stop_ok stops x :
  Forall (fun stop => 0 <= stop) stops -> 0 <= previous_tab_stop stops x.
Proof.
  intros H. unfold previous_tab_stop.
  assert (Hb : Forall (fun stop => 0 <= stop) (tabs_before stops x)).
  { induction H as [|stop stops Hs Hss IH]; [done|]. cbn. destruct (x <=? stop); by constructor. }
  destruct (tabs_before stops x) as [|a [|b l]]; [done..|].
  destruct (last (a :: b :: l)) as [z|] eqn:E; [|done]. cbn.
  apply last_Some_elem_of in E. by apply (proj1 (Forall_forall _ _) Hb).
Qed.

Lemma stays_cbt s : stays cbt s.
Proof.
  unfold cbt. apply stays_unless_private, stays_count_param. intros i Hi.
  apply stays_loop. intros k t Hk. apply stays_get. intros H. cbv zeta.
  pose proof (cursor_of _ _ _ H). pose proof (previous_tab_stop_ok _ (cursor_x (q_status (screen t))) (vo_tabs _ (eo_vt _ _ _ H))).
  stay.
Qed.

(** The value that [first_param d] gives in a state. *)
Definition first_value (d : Z) (s : emul_state) : Z :=
  if 0 <=? params_n (state s) then atoi (params (state s) !!! 0%nat) else d.

Lemma stays_first_value {A} d (k : Z -> EM A) s :
  stays (k (first_value d s)) s -> stays (first_param d ≫= k) s.
Proof.
  intros Hk H. apply wp_bind. unfold first_param, first_value in *. apply wp_bind, wp_gets.
  destruct (0 <=? params_n (state s)); [|apply wp_ret; by apply Hk].
  unfold param_value, param_text. apply wp_bind, wp_bind, wp_gets. no_id.
  pose proof (vo_params _ (eo_vt _ _ _ H)) as Hl. rewrite (proj2 (Z.ltb_ge _ _)) by lia.
  change (Z.to_nat 0) with 0%nat. destruct (params (state s)) as [|row rows]; [done|].
  apply wp_ret, wp_ret. by apply Hk.
Qed.

(** CHA and VPA fail an assertion on a parameter 0. *)
Lemma stays_cha s : 1 <= first_value 1 s -> stays cha s.
Proof.
  intros Hi. unfold cha. apply stays_unless_private, stays_first_value, stays_gets. intros H.
  pose proof (cursor_of _ _ _ H). stay.
Qed.
Lemma stays_vpa s : 1 <= first_value 1 s -> stays vpa s.
Proof.
  intros Hi. unfold vpa. apply stays_unless_private, stays_first_value, stays_gets. intros H.
  pose proof (cursor_of _ _ _ H). stay.
Qed.

(** *** DECSTBM *)

Definition clamped_bottom (bottom b : Z) : Z := if bottom <? b then bottom else b.
Definition clamped_top (bottom b t : Z) : Z := if clamped_bottom bottom b <? t then clamped_bottom bottom b else t.

Lemma status_twice s f h :
  (s <| screen ::= fun t => t <| q_status ::= f |> |>) <| screen ::= fun t => t <| q_status ::= h |> |> =
  s <| screen ::= fun t => t <| q_status ::= fun q => h (f q) |> |>.
Proof. reflexivity. Qed.

Lemma status_ext s f h :
  f (q_status (screen s)) = h (q_status (screen s)) ->
  s <| screen ::= fun t => t <| q_status ::= f |> |> = s <| screen ::= fun t => t <| q_status ::= h |> |>.
Proof. intros E. unfold field_update. by rewrite E. Qed.

Lemma clamped_region last top bottom q :
  let q1 := q <| scroll_region_top := top |> <| scroll_region_bottom := bottom |> in
  let q2 := if last <? scroll_region_bottom q1 then q1 <| scroll_region_bottom := last |> else q1 in
  (if scroll_region_bottom q2 <? scroll_region_top q2
   then q2 <| scroll_region_top := scroll_region_bottom q2 |> else q2) =
  q <| scroll_region_top := clamped_top last bottom top |> <| scroll_region_bottom := clamped_bottom last bottom |>.
Proof.
  cbv zeta. unfold clamped_top, clamped_bottom. change (scroll_region_bottom (_ <| scroll_region_bottom := bottom |>)) with bottom.
  destruct (last <? bottom).
  - change (scroll_region_bottom (_ <| scroll_region_bottom := last |>)) with last.
    change (scroll_region_top _) with top at 1. by destruct (last <? top).
  - change (scroll_region_bottom _) with bottom at 1. change (scroll_region_top _) with top at 1.
    by destruct (bottom <? top).
Qed.

(** The two clamps after any region that is not above the screen. *)
Lemma wp_clamps s s1 top bottom :
  emul_ok g n s -> 0 <= top -> 0 <= bottom ->
  s1 = s <| screen ::= fun t => t <| q_status ::= fun q => q <| scroll_region_top := top |> <| scroll_region_bottom := bottom |> |> |> ->
  wp (Emulation.on_status (fun q => if s_rows g - 1 <? scroll_region_bottom q then q <| scroll_region_bottom := s_rows g - 1 |> else q);;
      Emulation.on_status (fun q => if scroll_region_bottom q <? scroll_region_top q
                          then q <| scroll_region_top := scroll_region_bottom q |> else q);;
      draw (cursor_position 0 0)) s1 (fun _ u => emul_ok g n u).
Proof.
  intros H Ht Hb ->. pose proof (setup_bounds _ H) as [HR _].
  pose proof (emul_ok_region (clamped_top (s_rows g - 1) bottom top) (clamped_bottom (s_rows g - 1) bottom) s) as Hr.
  apply wp_bind, wp_modify, wp_bind, wp_modify.
  match goal with |- wp _ ?u _ => assert (E : u = s <| screen ::= fun t => t <| q_status ::= fun q =>
    q <| scroll_region_top := clamped_top (s_rows g - 1) bottom top |>
      <| scroll_region_bottom := clamped_bottom (s_rows g - 1) bottom |> |> |>) end.
  { rewrite !status_twice. apply status_ext. apply clamped_region. }
  rewrite E. refine (_ (Hr _ _ H)).
  - intros Hu. assert (S : stays (draw (cursor_position 0 0)) (s <| screen ::= fun t => t <| q_status ::= fun q =>
      q <| scroll_region_top := clamped_top (s_rows g - 1) bottom top |>
        <| scroll_region_bottom := clamped_bottom (s_rows g - 1) bottom |> |> |>)) by stay.
    exact (S Hu).
  - unfold clamped_top, clamped_bottom. repeat case_match; lia.
  - unfold clamped_top, clamped_bottom. repeat case_match; lia.
Qed.

Lemma wp_margin_param i d s (Q : Z -> emul_state -> Prop) :
  emul_ok g n s -> 0 <= i < 16 -> (forall v, Q v s) -> wp (margin_param i d) s Q.
Proof.
  intros H Hi HQ. unfold margin_param. apply wp_bind, wp_param_text; [apply H|done|].
  intros row. by apply wp_ret.
Qed.

Lemma stays_decstbm s : stays decstbm s.
Proof.
  unfold decstbm. apply stays_unless_private, stays_get. intros H. apply stays_gets. intros _. cbv zeta.
  rewrite (last_row_of _ H). pose proof (setup_bounds _ H) as [HR _]. pose proof (region_of _ H) as [[Ht _] _].
  set (rest := fun _ : unit => _).
  assert (Hrest : forall s1 top bottom, 0 <= top -> 0 <= bottom ->
    s1 = s <| screen ::= fun t => t <| q_status ::= fun q => q <| scroll_region_top := top |> <| scroll_region_bottom := bottom |> |> |> ->
    wp (rest tt) s1 (fun _ u => emul_ok g n u)).
  { intros s1 top bottom H1 H2 E. exact (wp_clamps s s1 top bottom H H1 H2 E). }
  clearbody rest. intros _. apply wp_bind, wp_if; intros E1; [|apply wp_if; intros E2].
  - apply wp_modify, (Hrest _ 0 (s_rows g - 1)); [lia|lia|reflexivity].
  - apply wp_bind, wp_margin_param; [done|lia|]. intros i. apply wp_bind, wp_when; intros E3; unfold within in E3.
    + apply wp_modify, wp_modify, (Hrest _ i (s_rows g - 1)); [lia|lia|]. apply status_twice.
    + apply wp_modify, (Hrest _ (scroll_region_top (q_status (screen s))) (s_rows g - 1)); [lia|lia|].
      apply status_ext. by destruct (q_status (screen s)).
  - apply wp_bind, wp_margin_param; [done|lia|]. intros i. apply wp_bind, wp_margin_param; [done|lia|]. intros j.
    apply wp_if; unfold within; intros E3; apply wp_modify.
    + apply (Hrest _ i j); [lia|lia|reflexivity].
    + apply (Hrest _ 0 (s_rows g - 1)); [lia|lia|reflexivity].
Qed.

(** ** Erasing, inserting, deleting *)

Lemma stays_honors_protected {A} (k : bool -> EM A) s :
  (forall honor, stays (k honor) s) -> stays (honors_protected ≫= k) s.
Proof. intros Hk H. by apply Hk. Qed.

Lemma stays_ed s : stays ed s.
Proof.
  unfold ed. apply stays_honors_protected. intros honor. apply stays_first_param. intros i.
  apply stays_get. intros H. cbv zeta. rewrite (last_row_of _ H), (width_of _ H).
  pose proof (setup_bounds _ H) as [HR HW]. pose proof (cursor_of _ _ _ H) as [Hx Hy].
  assert (Hr : rows (screen s) = s_rows g) by (destruct (eo_screen _ _ _ H) as [_ _ <-]; done).
  apply stays_if; intros _; [|apply stays_if; intros _; [|apply stays_when; intros _]].
  - apply stays_seq; [apply stays_when; intros _|intros _ t].
    + apply stays_seq; [|intros _ t]; [apply stays_erase_screen|apply stays_single_width]; intros _; lia.
    + stay.
  - apply stays_seq; [apply stays_erase_screen; intros _; lia|intros _ t].
    apply stays_seq; [stay|intros _ u]. apply stays_seq; [apply stays_single_width; intros _; lia|intros _ v]. stay.
  - apply stays_seq; [apply stays_erase_screen|intros _ t; apply stays_single_width]; intros _; lia.
Qed.

(** ECH writes past the line unless its last column is in it. *)
Lemma stays_ech s :
  (let i := first_value 0 s in i32 (cursor_x (q_status (screen s)) + (if i =? 0 then 1 else i)) <= 256) ->
  stays ech s.
Proof.
  cbv zeta. intros Hi. unfold ech. apply stays_unless_private, stays_first_value. cbv zeta.
  apply stays_gets. intros H. pose proof (cursor_of _ _ _ H). stay.
Qed.

Lemma stays_el s : stays el s.
Proof.
  unfold el. apply stays_honors_protected. intros honor. apply stays_first_param. intros i.
  apply stays_get. intros H. cbv zeta. rewrite (width_of _ H). pose proof (setup_bounds _ H) as [_ HW].
  pose proof (cursor_of _ _ _ H) as [Hx _]. stay.
Qed.

(** A negative count of IL and DL walks off the list of lines. *)
Lemma stays_il s : 0 <= first_value 1 s -> stays il s.
Proof.
  intros Hi. unfold il. apply stays_unless_private, stays_first_value, stays_gets. intros H. no_id.
  pose proof (cursor_of _ _ _ H) as [_ Hy]. pose proof (region_of _ H).
  apply stays_when. intros _. apply stays_scroll_down. intros _. lia.
Qed.
Lemma stays_dl s : 0 <= first_value 1 s -> stays dl s.
Proof.
  intros Hi. unfold dl. apply stays_unless_private, stays_first_value, stays_gets. intros H. no_id.
  pose proof (cursor_of _ _ _ H) as [_ Hy]. pose proof (region_of _ H).
  apply stays_when. intros _. apply stays_scroll_up. intros _. lia.
Qed.

Lemma stays_dch s : stays dch s.
Proof. unfold dch. apply stays_unless_private, stays_first_param. intros i. stay. Qed.

(** ICH needs room for the blanks. *)
Lemma stays_ich s :
  0 <= first_value 1 s -> cursor_x (q_status (screen s)) + first_value 1 s <= 256 -> stays ich s.
Proof. intros Hi Hx. unfold ich. apply stays_unless_private, stays_first_value. stay. Qed.

Lemma stays_su s : stays su s.
Proof.
  unfold su. apply stays_unless_private, stays_count_param. intros i Hi. apply stays_gets. intros H. no_id.
  pose proof (region_of _ H). apply stays_scroll_up. intros _. lia.
Qed.
Lemma stays_sd s : stays sd s.
Proof.
  unfold sd. apply stays_unless_private, stays_count_param. intros i Hi. apply stays_gets. intros H. no_id.
  pose proof (region_of _ H). apply stays_scroll_down. intros _. lia.
Qed.

Lemma stays_rep s : stays rep s.
Proof.
  unfold rep. apply stays_unless_private, stays_count_param. intros i Hi. apply stays_gets. intros _.
  apply stays_loop. intros k t _. stay.
Qed.

(** ** Modes and reports *)

Lemma stays_decsca s : stays decsca s.
Proof.
  unfold decsca. apply stays_unless_private, stays_first_param. intros i. apply stays_gets. intros H.
  pose proof (cfg_color _ (config_of _ _ _ H)) as Hc.
  apply stays_if; intros _; [apply stays_color, color_off; [apply protect_no_color|done]|].
  apply stays_when. intros _. apply stays_color, color_on; [apply protect_no_color|done].
Qed.

Lemma stays_decscl s : stays decscl s.
Proof.
  unfold decscl. apply stays_unless_private, stays_gets. intros _ H.
  assert (Hload : forall (b : bool) i (k : Z -> EM unit), 0 <= i < 16 -> (forall j, wp (k j) s (fun _ t => emul_ok g n t)) ->
    wp ((if b then param_value i else mret 0) ≫= k) s (fun _ t => emul_ok g n t)).
  { intros b i k Hi Hk. apply wp_bind. destruct b; [|by apply wp_ret].
    unfold param_value. apply wp_bind, wp_param_text; [apply H|done|]. intros row. by apply wp_ret. }
  apply Hload; [lia|]. intros i. apply Hload; [lia|]. intros j. revert H.
  refine (_ : stays _ s). stay; intros []; by split.
Qed.

Lemma stays_decll s : params_n (state s) <= 15 -> stays decll s.
Proof.
  intros Hn. unfold decll. apply stays_unless_private, stays_gets. intros _. apply stays_if; intros _; [stay|].
  apply stays_loop. intros i t Hi. apply stays_param_value; [lia|]. intros j. stay.
Qed.

Lemma stays_decreqtparm s : stays decreqtparm s.
Proof. unfold decreqtparm. apply stays_unless_private, stays_first_param. intros i. stay. Qed.

Lemma stays_dsr s : stays dsr s.
Proof. unfold dsr. apply stays_first_param. intros i. stay. Qed.

Lemma stays_device_type s : stays device_type s.
Proof. unfold device_type. stay. destruct (emulation _); stay. Qed.

Lemma wp_load_buffer s (b : bool) i (Q : Z -> emul_state -> Prop) :
  emul_ok g n s -> 0 <= i < 128 -> (forall c, Q c s) ->
  wp (if b then load (q_emul_buffer s) i else mret 0) s Q.
Proof.
  intros H Hi HQ. destruct b; [|by apply wp_ret].
  destruct (lookup_lt_is_Some_2 (q_emul_buffer s) (Z.to_nat i)) as [c Hc]; [rewrite (eo_buffer _ _ _ H); lia|].
  apply (wp_load _ _ c); [lia|done|done].
Qed.

Lemma stays_da s : stays da s.
Proof.
  unfold da. apply stays_get. intros H. cbv zeta. intros _.
  apply wp_bind, wp_load_buffer; [done|lia|]. intros c. apply wp_bind, wp_load_buffer; [done|lia|]. intros d.
  revert H. refine (_ : stays _ s). stay. apply stays_device_type.
Qed.

Lemma stays_linux_csi s : stays linux_csi s.
Proof.
  unfold linux_csi. apply stays_unless_private, stays_gets. intros _. apply stays_when. intros _.
  apply stays_param_value; [lia|]. intros i H.
  apply wp_bind, wp_if; intros E; [unfold param_value; apply wp_bind, wp_param_text; [apply H|lia|]; intros row|].
  - apply wp_ret. revert H. refine (_ : stays _ s). stay.
  - apply wp_ret. revert H. refine (_ : stays _ s). stay.
Qed.

Lemma stays_handle_control_char b s : stays (handle_control_char b) s.
Proof.
  unfold handle_control_char, enquire. apply stays_gets. intros _. cbv zeta.
  destruct (b =? 0); [stay|]. destruct (b =? 5); [stay|]. destruct (b =? 7); [stay|]. destruct (b =? 8); [stay|].
  destruct (b =? 9); [apply stays_tabs|]. destruct (_ || _); [stay|]. destruct (b =? 13); [stay|].
  destruct (b =? 14); [stay; intros []; by split|]. destruct (b =? 15); [stay; intros []; by split|].
  destruct (b =? 0x84); [apply stays_ind|]. destruct (b =? 0x85); [apply stays_nel|].
  destruct (b =? 0x88); [apply stays_hts|]. destruct (b =? 0x8D); [apply stays_ri|].
  destruct (b =? 0x8E); stay; intros []; by split.
Qed.

(** ** Characters *)

Lemma table_total (c : VT100_CHARACTER_SET) (i : Z) :
  0 <= i < 128 ->
  is_Some ((match c with
    | CHARSET_DRAWING => dec_special_graphics_chars | CHARSET_UK => dec_uk_chars
    | CHARSET_NRC_DUTCH => dec_nl_chars | CHARSET_NRC_FINNISH => dec_fi_chars
    | CHARSET_NRC_FRENCH => dec_fr_chars | CHARSET_NRC_FRENCH_CA => dec_fr_CA_chars
    | CHARSET_NRC_GERMAN => dec_de_chars | CHARSET_NRC_ITALIAN => dec_it_chars
    | CHARSET_NRC_NORWEGIAN => dec_no_chars | CHARSET_NRC_SPANISH => dec_es_chars
    | CHARSET_NRC_SWEDISH => dec_sv_chars | CHARSET_NRC_SWISS => dec_swiss_chars
    | CHARSET_DEC_SUPPLEMENTAL => dec_supplemental_chars
    | CHARSET_VT52_GRAPHICS => vt52_special_graphics_chars
    | CHARSET_US | CHARSET_ROM | CHARSET_ROM_SPECIAL => dec_us_chars
    end) !! Z.to_nat i).
Proof.
  intros Hi. apply lookup_lt_is_Some. apply Nat.lt_le_trans with 128%nat; [lia|].
  destruct c; vm_compute; lia.
Qed.

Lemma wp_map_character_charset e b gl gr s (Q : Z -> emul_state -> Prop) :
  is_byte b -> (b < 0x80 \/ is_vt220 e = true) -> (forall c, Q c s) -> wp (map_character_charset e b gl gr) s Q.
Proof.
  intros Hb He HQ. unfold map_character_charset. unfold is_byte in Hb. apply wp_bind, wp_assert.
  { destruct He as [He|He]; [|rewrite He; apply orb_true_r]. by rewrite (proj2 (Z.ltb_lt _ _)). }
  cbv zeta. set (i := if 0x80 <=? b then Z.land b 0x7F else b). set (c := if 0x80 <=? b then gr else gl).
  assert (Hi : 0 <= i < 128).
  { unfold i. destruct (Z.leb_spec 0x80 b); [|lia]. change 0x7F with (Z.ones 7). rewrite Z.land_ones by lia.
    apply Z.mod_pos_bound. lia. }
  destruct (table_total c i Hi) as [v Hv]. apply (wp_load _ _ v); [lia|exact Hv|done].
Qed.

Lemma stays_map_character_charset b gl gr s :
  is_byte b -> (b < 0x80 \/ is_vt220 (s_emulation g) = true) ->
  stays (map_character_charset (s_emulation g) b gl gr) s.
Proof. intros Hb He H. by apply wp_map_character_charset. Qed.

Lemma emulation_of s : emul_ok g n s -> emulation (q_status (screen s)) = s_emulation g.
Proof. intros H. by destruct (eo_screen _ _ _ H) as [_ _ <-]. Qed.

Lemma stays_map_character b s :
  is_byte b -> (b < 0x80 \/ is_vt220 (s_emulation g) = true \/ is_vga (s_emulation g) = true) ->
  stays (map_character b) s.
Proof.
  intros Hb He. unfold map_character. apply stays_gets. intros H. rewrite (emulation_of _ H).
  apply stays_gets. intros _. no_id. apply stays_if; intros E1; [intros Hs; exact Hs|].
  assert (He' : b < 0x80 \/ is_vt220 (s_emulation g) = true).
  { destruct He as [He|[He|He]]; [by left|by right|]. rewrite He in E1. cbn in E1. left. lia. }
  apply stays_if; intros E2; [by apply stays_map_character_charset|].
  apply stays_if; intros E3; [by apply stays_map_character_charset|].
  pose proof (eo_vt _ _ _ H) as Hv. set (v := state s) in *. clearbody v. apply stays_seq.
  { destruct (singleshift v); [apply stays_ret|..];
      (apply stays_seq; [apply stays_on_vt; intros []; by split|intros _ t; apply stays_ret]). }
  intros gl t. apply stays_if; intros E4; [|by apply stays_map_character_charset].
  unfold shifted_gl, shifted_gr. pose proof (vo_gl _ Hv) as Hgl. pose proof (vo_gr _ Hv) as Hgr.
  apply stays_seq; [destruct (lockshift_gl v); first [apply stays_ret|discriminate Hgl]|intros c u].
  apply stays_seq; [destruct (lockshift_gr v); first [apply stays_ret|discriminate Hgr]|intros c' u'].
  by apply stays_map_character_charset.
Qed.

End Vt100Ops.

(** The lemma of an operation, by its name. *)
Ltac stay_op :=
  lazymatch goal with
  | |- EmulationInv.stays _ _ hts _ => apply stays_hts
  | |- EmulationInv.stays _ _ tbc _ => apply stays_tbc
  | |- EmulationInv.stays _ _ decrc _ => apply stays_decrc
  | |- EmulationInv.stays _ _ decsc _ => apply stays_decsc
  | |- EmulationInv.stays _ _ save_cursor _ => apply stays_save_cursor
  | |- EmulationInv.stays _ _ restore_cursor _ => apply stays_restore_cursor
  | |- EmulationInv.stays _ _ printer_functions _ => apply stays_printer_functions
  | |- EmulationInv.stays _ _ ind _ => apply stays_ind
  | |- EmulationInv.stays _ _ ri _ => apply stays_ri
  | |- EmulationInv.stays _ _ nel _ => apply stays_nel
  | |- EmulationInv.stays _ _ decaln _ => apply stays_decaln
  | |- EmulationInv.stays _ _ cud _ => apply stays_cud
  | |- EmulationInv.stays _ _ cuf _ => apply stays_cuf
  | |- EmulationInv.stays _ _ cub _ => apply stays_cub
  | |- EmulationInv.stays _ _ cuu _ => apply stays_cuu
  | |- EmulationInv.stays _ _ cup _ => apply stays_cup
  | |- EmulationInv.stays _ _ cnl _ => apply stays_cnl
  | |- EmulationInv.stays _ _ cpl _ => apply stays_cpl
  | |- EmulationInv.stays _ _ cht _ => apply stays_cht
  | |- EmulationInv.stays _ _ cbt _ => apply stays_cbt
  | |- EmulationInv.stays _ _ decstbm _ => apply stays_decstbm
  | |- EmulationInv.stays _ _ ed _ => apply stays_ed
  | |- EmulationInv.stays _ _ el _ => apply stays_el
  | |- EmulationInv.stays _ _ dch _ => apply stays_dch
  | |- EmulationInv.stays _ _ su _ => apply stays_su
  | |- EmulationInv.stays _ _ sd _ => apply stays_sd
  | |- EmulationInv.stays _ _ rep _ => apply stays_rep
  | |- EmulationInv.stays _ _ decsca _ => apply stays_decsca
  | |- EmulationInv.stays _ _ decscl _ => apply stays_decscl
  | |- EmulationInv.stays _ _ decreqtparm _ => apply stays_decreqtparm
  | |- EmulationInv.stays _ _ dsr _ => apply stays_dsr
  | |- EmulationInv.stays _ _ device_type _ => apply stays_device_type
  | |- EmulationInv.stays _ _ da _ => apply stays_da
  | |- EmulationInv.stays _ _ linux_csi _ => apply stays_linux_csi
  | |- EmulationInv.stays _ _ enter_vt52_mode _ => apply stays_enter_vt52_mode
  | |- EmulationInv.stays _ _ hvp _ => apply stays_cup
  | |- EmulationInv.stays _ _ (draw _) _ => as_command
  | |- EmulationInv.stays _ _ (mret _) _ => apply stays_ret
  | |- EmulationInv.stays _ _ (on_vt _) _ => apply stays_on_vt; intros []; by split
  | |- EmulationInv.stays _ _ (in_emulation _ _) _ => apply stays_in_emulation; stay_op
  | |- EmulationInv.stays _ _ (whenM _ _) _ => apply stays_when; intros _; stay_op
  | |- EmulationInv.stays _ _ (if _ then _ else _) _ => apply stays_if; intros _; stay_op
  | |- _ => idtac
  end.

End Vt100Ops.
