(* ===== verification/Vt100Total.v ===== *)
(** The state machine of vt100.c keeps the invariant on every byte, unless the byte ends
    a sequence whose parameters the code passes on without a check. *)

From Stdlib Require Import ZArith Lia List Bool Ascii.
From stdpp Require Import base list numbers gmap strings.
From S2P Require Import Prelude Stdio States Utf8 Codepage Colors Screen ScreenList ScreenSpec ScreenCommand Emulation Vt100 Vt100Machine EmulationInv Vt100Safe Vt100Ops.
Import Codepage Colors Screen ScreenList ScreenSpec ScreenCommand Emulation Vt100 Vt100Machine EmulationInv Vt100Safe Vt100Ops.

Module Vt100Total.

(** The byte as the machine sees it. *)
Definition seen (e : Q_EMULATION) (b : Z) : Z := if is_vt10x e then Z.land b 0x7F else b.

(** The parameters of the sequences that are not checked: ICH and ECH stay on the line,
    CHA, HPA and VPA are at least 1, IL and DL not negative, and the sequences that read
    every parameter have at most sixteen. *)
Definition params_in_range (b : Z) (s : emul_state) : bool :=
  let x := cursor_x (q_status (screen s)) in
  let i := first_value 1 s in
  let few := params_n (state s) <=? 15 in
  switch b
    [on "@" ((0 <=? i) && (x + i <=? 256));
     on "G" (1 <=? i); on "`" (1 <=? i); on "d" (1 <=? i);
     on "L" (0 <=? i); on "M" (0 <=? i);
     on "X" (let i := first_value 0 s in i32 (x + (if i =? 0 then 1 else i)) <=? 256);
     on "h" few; on "l" few; on "m" few; on "q" few]
    true.

(** A byte that ends a sequence finds its arguments in range: also the byte that DECSCL,
    DECSTR and DECSCA look back at, and the row and column of the VT52. *)
Definition in_range (b : Z) (s : emul_state) : bool :=
  match scan_state s with
  | SCAN_CSI_ENTRY | SCAN_CSI_PARAM => params_in_range b s
  | SCAN_CSI_INTERMEDIATE => negb ((b =? chr "p") || (b =? chr "q")) || (0 <? q_emul_buffer_n s)
  | SCAN_VT52_DIRECT_CURSOR_ADDRESS =>
      negb (q_emul_buffer_n s =? 1) || ((32 <=? q_emul_buffer s !!! 0%nat) && (32 <=? b))
  | _ => true
  end.

Section Vt100Total.
Context {C : Curses} {L : CursesLaws C}.
Context (g : setup).

Notation stays := (stays g 127).

(** ** The collect buffer *)

Lemma wp_store_buffer s i v (Q : list Z -> emul_state -> Prop) :
  emul_ok g 127 s -> 0 <= i < 128 ->
  (forall b, length b = 128%nat -> Q b s) -> wp (store (q_emul_buffer s) i v) s Q.
Proof.
  intros H Hi HQ. eapply wp_done; [apply store_at; rewrite (eo_buffer _ _ _ H); lia|].
  apply HQ. by rewrite length_insert, (eo_buffer _ _ _ H).
Qed.

Lemma stays_collect b s : q_emul_buffer_n s <= 126 -> stays (collect b) s.
Proof.
  intros Hn. unfold collect. apply stays_get. intros H _. pose proof (eo_collected _ _ _ H) as Hc.
  apply wp_bind, wp_store_buffer; [done|lia|]. intros buf Hbuf. apply wp_bind, wp_modify.
  assert (H1 : emul_ok g 127 (s <| q_emul_buffer := buf |> <| q_emul_buffer_n ::= Z.succ |>)).
  { destruct H. split; [done|done|done|cbn; lia]. }
  revert H1. refine (_ : stays _ _). stay. intros []. by split.
Qed.

Lemma stays_to_ground s : stays to_ground s.
Proof. unfold to_ground. apply stays_seq; [by apply stays_clear_params|intros _ t]. stay. Qed.

Lemma stays_osc s : stays osc s.
Proof.
  unfold osc. apply stays_get. intros H. apply stays_when. intros E. cbv zeta. intros _.
  pose proof (eo_collected _ _ _ H) as Hc. rewrite (proj2 (Z.eqb_neq _ _)) by lia.
  apply wp_bind, wp_store_buffer; [done|lia|]. intros buf Hbuf. apply wp_modify. destruct H. by split.
Qed.

Lemma stays_osc_put b s : q_emul_buffer_n s <= 126 -> stays (osc_put b) s.
Proof.
  intros Hn. unfold osc_put. apply stays_get. intros H _. pose proof (eo_collected _ _ _ H) as Hc.
  apply wp_bind, wp_store_buffer; [done|lia|]. intros buf Hbuf. apply wp_bind, wp_modify.
  assert (H1 : emul_ok g 127 (s <| q_emul_buffer := buf |> <| q_emul_buffer_n ::= Z.succ |>)).
  { destruct H. split; [done|done|done|cbn; lia]. }
  revert H1. refine (_ : stays _ _). apply stays_in_emulation, stays_get. intros H1 _.
  apply wp_bind, (wp_load_buffer g 127 _ true); [done|lia|]. intros c. revert H1. refine (_ : stays _ _).
  apply stays_when. intros _. apply stays_to_ground.
Qed.

Lemma wp_collected_last c s (Q : bool -> emul_state -> Prop) :
  emul_ok g 127 s -> 0 < q_emul_buffer_n s -> (forall b, Q b s) -> wp (collected_last c) s Q.
Proof.
  intros H Hn HQ. unfold collected_last. apply wp_bind, wp_get. pose proof (eo_collected _ _ _ H) as Hc.
  apply wp_bind, (wp_load_buffer g 127 _ true); [done|lia|]. intros d. by apply wp_ret.
Qed.

(** ** Ends of a state *)

Lemma stays_discard m s : stays m s -> stays (discard m) s.
Proof. intros Hm. apply stays_seq; [done|intros _ t]. apply stays_ret. Qed.

Lemma stays_dispatch m s : stays m s -> stays (dispatch m) s.
Proof. intros Hm. apply stays_discard, stays_seq; [done|intros _ t]. apply stays_to_ground. Qed.

Lemma stays_go_to q s : stays (go_to q) s.
Proof. apply stays_discard, stays_scan_state. Qed.

Lemma stays_or_execute b m s : stays m s -> stays (or_execute b m) s.
Proof.
  intros Hm. apply stays_gets. intros _. apply stays_if; intros _; [|done].
  apply stays_discard, stays_handle_control_char.
Qed.

(** Collect, then another state. *)
Lemma stays_collect_then b q s : q_emul_buffer_n s <= 126 -> stays (discard (collect b;; set_scan_state q)) s.
Proof.
  intros Hn. apply stays_discard, stays_seq; [by apply stays_collect|intros _ t]. apply stays_scan_state.
Qed.
Lemma stays_param_then b q s : stays (discard (param b;; set_scan_state q)) s.
Proof. apply stays_discard, stays_seq; [apply stays_param|intros _ t]. apply stays_scan_state. Qed.

(** ** Ground and escape *)

Lemma stays_print_it b s :
  is_byte b -> (b < 0x80 \/ is_vt220 (s_emulation g) = true \/ is_vga (s_emulation g) = true) ->
  stays (print_it b) s.
Proof.
  intros Hb He. unfold print_it. apply stays_seq; [by apply stays_map_character|intros c t].
  apply stays_seq; [stay; intros []; by split|intros _ u]. apply stays_ret.
Qed.

Lemma stays_scan_ground b s : is_byte b -> stays (scan_ground b) s.
Proof.
  intros Hb. unfold scan_ground. apply stays_or_execute, stays_gets. intros H. rewrite (emulation_of _ _ _ H).
  apply stays_gets. intros _. unfold within. unfold is_byte in Hb.
  apply stays_if; intros E1; [apply stays_if; intros E2; [apply stays_ret|apply stays_print_it; [done|lia]]|].
  apply stays_if; intros E2; [|apply stays_ret]. apply stays_if; intros E3; [apply stays_ret|].
  apply stays_print_it; [done|right]. apply andb_prop in E2 as [_ E2]. unfold is_vt220.
  destruct (s_emulation g); try discriminate E2; [by left|by right].
Qed.

Ltac each_case := repeat (apply Forall_cons; split; [cbn [fst snd on]; intros ?|]); [..|by apply Forall_nil].

Lemma stays_escape_dispatch vt52 b s : stays (escape_dispatch vt52 b) s.
Proof.
  unfold escape_dispatch. apply stays_switch; [each_case|apply stays_ret]. all: stay_op.
  - unfold leave_vt52_mode. stay; intros []; by split.
  - unfold deckpam, keypad_mode. stay.
  - unfold deckpnm, keypad_mode. stay.
  - unfold vt52_erase_below. apply stays_get. intros H1. cbv zeta. rewrite (last_row_of _ _ _ H1), (width_of _ _ _ H1).
    pose proof (setup_bounds _ _ _ H1). pose proof (cursor_of _ _ _ H1).
    apply stays_seq; [stay|intros _ t]. apply stays_erase_screen. intros _. lia.
  - unfold vt52_erase_line. apply stays_get. intros H1. rewrite (width_of _ _ _ H1).
    pose proof (setup_bounds _ _ _ H1). pose proof (cursor_of _ _ _ H1). stay.
Qed.

Lemma stays_lockshift_dispatch b s : stays (lockshift_dispatch b) s.
Proof.
  unfold lockshift_dispatch, from_vt220. apply stays_switch; [each_case|apply stays_ret].
  - by apply stays_ris.
  - stay; intros []; by split.
  - stay; intros []; by split.
  - stay; intros []; by split.
  - stay; intros []; by split.
  - stay; intros []; by split.
Qed.

Lemma stays_decid vt52 s : stays (decid vt52) s.
Proof. unfold decid. apply stays_if; intros _; [stay|apply stays_device_type]. Qed.

Lemma stays_scan_escape b s : q_emul_buffer_n s <= 126 -> stays (scan_escape b) s.
Proof.
  intros Hn. unfold scan_escape. apply stays_or_execute, stays_gets. intros _.
  destruct (within 0x20 0x2F b); [by apply stays_collect_then|].
  destruct (within 0x30 0x4F b); [apply stays_dispatch, stays_escape_dispatch|].
  destruct (within 0x51 0x57 b); [apply stays_dispatch, stays_ret|].
  destruct (b =? 0x59); [apply stays_if; intros _; [apply stays_go_to|apply stays_dispatch, stays_ret]|].
  destruct (b =? 0x5A); [apply stays_dispatch, stays_decid|].
  destruct (b =? 0x5C); [apply stays_dispatch, stays_ret|].
  apply stays_if; intros _; [apply stays_dispatch, stays_ret|].
  destruct (within 0x60 0x7E b); [apply stays_dispatch, stays_lockshift_dispatch|].
  destruct (b =? 0x7F); [apply stays_ret|].
  destruct (b =? 0x5B); [apply stays_go_to|]. destruct (b =? 0x5D); [apply stays_go_to|].
  destruct (b =? 0x50); [apply stays_go_to|]. destruct (_ || _); [apply stays_go_to|apply stays_ret].
Qed.

(** ** Intermediate bytes *)

Lemma designate_ok e c d v : vt_ok v -> vt_ok (designate e c d v).
Proof.
  intros Hv. unfold designate. destruct d as [[cs a] b]. destruct Hv.
  repeat (match goal with |- vt_ok (if ?c then _ else _) => destruct c end; [by split|]). by split.
Qed.

Lemma stays_line_attribute b s : stays (line_attribute b) s.
Proof.
  unfold line_attribute. apply stays_switch; [each_case|apply stays_ret].
  all: unfold dechdl, decswl, decdwl; stay. apply stays_decaln.
Qed.

Lemma stays_eight_bit_controls b s : stays (eight_bit_controls b) s.
Proof.
  unfold eight_bit_controls, from_vt220. apply stays_switch; [each_case|apply stays_ret].
  all: stay; intros []; by split.
Qed.

Lemma stays_intermediate_dispatch b s : stays (intermediate_dispatch b) s.
Proof.
  unfold intermediate_dispatch. apply stays_get. intros H. apply stays_if; intros E; [|apply stays_ret].
  intros _. apply wp_bind, (wp_load_buffer g 127 _ true); [done|lia|]. intros c. revert H. refine (_ : stays _ _).
  apply stays_seq; [apply stays_when; intros _; apply stays_line_attribute|intros _ t].
  apply stays_seq; [apply stays_when; intros _; apply stays_eight_bit_controls|intros _ u].
  destruct (switch _ _ _) as [d|]; [|apply stays_ret]. apply stays_on_vt. apply designate_ok.
Qed.

Lemma stays_scan_escape_intermediate b s : q_emul_buffer_n s <= 126 -> stays (scan_escape_intermediate b) s.
Proof.
  intros Hn. unfold scan_escape_intermediate. apply stays_or_execute.
  destruct (within 0x20 0x2F b); [by apply stays_discard, stays_collect|].
  destruct (within 0x30 0x7E b); [apply stays_dispatch, stays_intermediate_dispatch|].
  destruct (b <=? 0x7F); [apply stays_ret|]. destruct (b =? 0x9C); [apply stays_dispatch|]; apply stays_ret.
Qed.

(** ** Control sequences *)

Lemma stays_csi_dispatch b s : params_in_range b s = true -> stays (csi_dispatch b) s.
Proof.
  intros Hr. unfold csi_dispatch, linux_or_xterm, from_vt220.
  apply stays_switch; [each_case|apply stays_ret]. all: subst b; stay_op.
  all: first [change ((0 <=? first_value 1 s) && (cursor_x (q_status (screen s)) + first_value 1 s <=? 256) = true) in Hr
             |change ((1 <=? first_value 1 s) = true) in Hr
             |change ((0 <=? first_value 1 s) = true) in Hr
             |change ((params_n (state s) <=? 15) = true) in Hr|idtac].
  - apply stays_ich; lia.
  - apply stays_cha. lia.
  - apply stays_il. lia.
  - apply stays_dl. lia.
  - apply stays_ech. by apply Z.leb_le.
  - apply stays_cha. lia.
  - apply stays_vpa. lia.
  - apply stays_set_toggle. lia.
  - apply stays_set_toggle. lia.
  - apply stays_sgr. lia.
  - apply stays_decll. lia.
Qed.

Lemma stays_scan_csi_entry b s :
  q_emul_buffer_n s <= 126 -> params_in_range b s = true -> stays (scan_csi_entry b) s.
Proof.
  intros Hn Hr. unfold scan_csi_entry. apply stays_or_execute.
  destruct (within 0x20 0x2F b); [by apply stays_collect_then|].
  destruct (is_param b); [apply stays_param_then|].
  destruct (within 0x3C 0x3F b); [by apply stays_collect_then|].
  destruct (within 0x40 0x7E b); [by apply stays_dispatch, stays_csi_dispatch|].
  destruct (b <=? 0x7F); [apply stays_ret|]. destruct (b =? 0x9C); [apply stays_dispatch|]; apply stays_ret.
Qed.

Lemma stays_scan_csi_param b s :
  q_emul_buffer_n s <= 126 -> params_in_range b s = true -> stays (scan_csi_param b) s.
Proof.
  intros Hn Hr. unfold scan_csi_param. apply stays_or_execute.
  destruct (within 0x20 0x2F b); [by apply stays_collect_then|].
  destruct (is_param b); [apply stays_discard, stays_param|].
  destruct (b =? 0x3A); [apply stays_go_to|]. destruct (within 0x3C 0x3F b); [apply stays_go_to|].
  destruct (within 0x40 0x7E b); [by apply stays_dispatch, stays_csi_dispatch|].
  destruct (b <=? 0x7F); apply stays_ret.
Qed.

Lemma wp_both {A} (m : EM A) s (Q1 Q2 : A -> emul_state -> Prop) :
  wp m s Q1 -> wp m s Q2 -> wp m s (fun a t => Q1 a t /\ Q2 a t).
Proof. unfold wp. by destruct (m s) as [[a t]| |]. Qed.

(** DECSCL leaves the collect buffer alone. *)
Lemma wp_decscl s :
  emul_ok g 127 s -> wp decscl s (fun _ t => emul_ok g 127 t /\ q_emul_buffer_n t = q_emul_buffer_n s).
Proof.
  intros H. apply wp_both; [by apply stays_decscl|]. unfold decscl.
  assert (Hload : forall (b : bool) i (k : Z -> EM unit), 0 <= i < 16 ->
    (forall j, wp (k j) s (fun _ t => q_emul_buffer_n t = q_emul_buffer_n s)) ->
    wp ((if b then param_value i else mret 0) ≫= k) s (fun _ t => q_emul_buffer_n t = q_emul_buffer_n s)).
  { intros b i k Hi Hk. apply wp_bind. destruct b; [|by apply wp_ret].
    unfold param_value. apply wp_bind, wp_param_text; [apply H|done|]. intros row. by apply wp_ret. }
  unfold unless_private. apply wp_bind, wp_gets, wp_if; intros _; [by apply wp_ret|]. apply wp_bind, wp_gets.
  apply Hload; [lia|]. intros i. apply Hload; [lia|]. intros j.
  apply wp_if; intros _; [by apply wp_modify|]. apply wp_when; intros _; [|done].
  apply wp_if; intros _; [by apply wp_modify|]. apply wp_when; intros _; [by apply wp_modify|done].
Qed.

Lemma stays_csi_p s : 0 < q_emul_buffer_n s -> stays csi_p s.
Proof.
  intros Hn. unfold csi_p, from_vt220. apply stays_in_emulation. intros H.
  assert (Hbang : forall t, 0 < q_emul_buffer_n t ->
    stays (in_emulation is_xterm (bang ← collected_last (chr "!"); whenM bang decstr)) t).
  { intros t Ht. apply stays_in_emulation. intros Hok. apply wp_bind, wp_collected_last; [done|done|].
    intros b. revert Hok. refine (_ : stays _ _). apply stays_when. intros _. by apply stays_ris. }
  apply wp_bind, wp_collected_last; [done|done|]. intros b. apply wp_bind, wp_when; intros _; [|by apply Hbang].
  eapply wp_mono; [by apply wp_decscl|]. intros _ t [Ht E]. apply Hbang; [lia|done].
Qed.

Lemma stays_csi_q s : 0 < q_emul_buffer_n s -> stays csi_q s.
Proof.
  intros Hn. unfold csi_q, from_vt220. apply stays_in_emulation. intros H.
  apply wp_bind, wp_collected_last; [done|done|]. intros b. revert H. refine (_ : stays _ _).
  apply stays_when. intros _. by apply stays_decsca.
Qed.

Lemma stays_scan_csi_intermediate b s :
  q_emul_buffer_n s <= 126 -> negb ((b =? chr "p") || (b =? chr "q")) || (0 <? q_emul_buffer_n s) = true ->
  stays (scan_csi_intermediate b) s.
Proof.
  intros Hn Hr. unfold scan_csi_intermediate. apply stays_or_execute.
  destruct (within 0x20 0x2F b); [by apply stays_discard, stays_collect|].
  destruct (within 0x30 0x3F b); [apply stays_go_to|].
  destruct (within 0x40 0x7E b); [apply stays_dispatch|destruct (b <=? 0x7F); apply stays_ret].
  apply stays_switch; [each_case|apply stays_ret].
  - apply stays_csi_p. subst b. apply Z.ltb_lt, Hr.
  - apply stays_csi_q. subst b. apply Z.ltb_lt, Hr.
Qed.

Lemma stays_scan_csi_ignore b s : q_emul_buffer_n s <= 126 -> stays (scan_csi_ignore b) s.
Proof.
  intros Hn. unfold scan_csi_ignore. apply stays_or_execute.
  destruct (within 0x20 0x2F b); [by apply stays_discard, stays_collect|].
  destruct (within 0x40 0x7E b); [apply stays_dispatch|destruct (b <=? 0x7F)]; apply stays_ret.
Qed.

(** ** Strings *)

Lemma stays_or_string_end finish b m s :
  q_emul_buffer_n s <= 126 -> (forall t, stays finish t) -> stays m s -> stays (or_string_end finish b m) s.
Proof.
  intros Hn Hf Hm. unfold or_string_end. apply stays_if; intros _; [by apply stays_discard, stays_collect|].
  apply stays_get. intros H _. apply wp_bind, wp_if; intros E.
  - apply wp_collected_last; [done|lia|]. intros b'. revert H. refine (_ : stays _ _).
    apply stays_if; intros _; [by apply stays_dispatch|done].
  - apply wp_ret. by apply Hm.
Qed.

Lemma stays_or_terminated b m s : q_emul_buffer_n s <= 126 -> stays m s -> stays (or_terminated b m) s.
Proof.
  intros Hn Hm. unfold or_terminated. apply stays_if; intros _; [apply stays_dispatch, stays_ret|].
  apply stays_or_string_end; [done|intros t; apply stays_ret|done].
Qed.

Lemma stays_scan_dcs_entry b s : q_emul_buffer_n s <= 126 -> stays (scan_dcs_entry b) s.
Proof.
  intros Hn. apply stays_or_terminated; [done|].
  destruct (within 0x20 0x2F b); [by apply stays_collect_then|]. destruct (is_param b); [apply stays_param_then|].
  destruct (within 0x3C 0x3F b); [by apply stays_collect_then|]. destruct (_ || _); [apply stays_ret|].
  destruct (b =? 0x3F); [apply stays_go_to|]. destruct (within 0x40 0x7E b); [apply stays_go_to|apply stays_ret].
Qed.

Lemma stays_scan_dcs_intermediate b s : q_emul_buffer_n s <= 126 -> stays (scan_dcs_intermediate b) s.
Proof.
  intros Hn. apply stays_or_terminated; [done|]. destruct (within 0x30 0x3F b); [apply stays_go_to|].
  destruct (within 0x40 0x7E b); [apply stays_go_to|]. destruct (_ || _); apply stays_ret.
Qed.

Lemma stays_scan_dcs_param b s : q_emul_buffer_n s <= 126 -> stays (scan_dcs_param b) s.
Proof.
  intros Hn. apply stays_or_terminated; [done|].
  destruct (within 0x20 0x2F b); [by apply stays_collect_then|]. destruct (is_param b); [apply stays_discard, stays_param|].
  destruct (_ || _); [apply stays_ret|]. destruct (b =? 0x3F); [apply stays_go_to|].
  destruct (within 0x3C 0x3F b); [apply stays_go_to|]. destruct (within 0x40 0x7E b); [apply stays_go_to|apply stays_ret].
Qed.

Lemma stays_scan_dcs_passthrough b s : q_emul_buffer_n s <= 126 -> stays (scan_dcs_passthrough b) s.
Proof. intros Hn. apply stays_or_terminated; [done|]. apply stays_if; intros _; apply stays_ret. Qed.

Lemma stays_scan_ignored_string b s : q_emul_buffer_n s <= 126 -> stays (scan_ignored_string b) s.
Proof.
  intros Hn. unfold scan_ignored_string. apply stays_if; intros _; [apply stays_ret|].
  apply stays_or_terminated; [done|apply stays_ret].
Qed.

Lemma stays_scan_osc_string b s : q_emul_buffer_n s <= 126 -> stays (scan_osc_string b) s.
Proof.
  intros Hn. unfold scan_osc_string. apply stays_if; intros _; [apply stays_dispatch, stays_osc|].
  apply stays_if; intros _; [apply stays_ret|]. apply stays_if; intros _; [by apply stays_discard, stays_osc_put|].
  apply stays_or_string_end; [done|apply stays_osc|apply stays_ret].
Qed.

Lemma stays_vt52_address b s :
  q_emul_buffer_n s <= 126 ->
  negb (q_emul_buffer_n s =? 1) || ((32 <=? q_emul_buffer s !!! 0%nat) && (32 <=? b)) = true ->
  stays (scan_vt52_direct_cursor_address b) s.
Proof.
  intros Hn Hr. unfold scan_vt52_direct_cursor_address. apply stays_get. intros H.
  apply stays_if; intros E1; [by apply stays_discard, stays_collect|]. apply stays_if; intros E2; [|apply stays_ret].
  rewrite E2 in Hr. cbn [negb orb] in Hr. apply andb_prop in Hr as [H1 H2]. intros _.
  pose proof (eo_buffer _ _ _ H) as Hb. destruct (q_emul_buffer s) as [|c buf] eqn:E; [done|].
  apply wp_bind, (wp_load _ _ c); [lia|done|]. change ((c :: buf) !!! 0%nat) with c in H1.
  assert (S : stays (dispatch (draw (cursor_position (c - 32) (b - 32)))) s) by (apply stays_dispatch; stay).
  exact (S H).
Qed.

(** ** The whole machine *)

Lemma stays_scan b s :
  is_byte b -> q_emul_buffer_n s <= 126 -> in_range b s = true -> stays (scan b) s.
Proof.
  intros Hb Hn Hr. unfold scan. apply stays_gets. intros _. unfold in_range in Hr. destruct (scan_state s).
  - by apply stays_scan_ground.
  - by apply stays_scan_escape.
  - by apply stays_scan_escape_intermediate.
  - by apply stays_scan_csi_entry.
  - by apply stays_scan_csi_param.
  - by apply stays_scan_csi_intermediate.
  - by apply stays_scan_csi_ignore.
  - by apply stays_scan_dcs_entry.
  - by apply stays_scan_dcs_intermediate.
  - by apply stays_scan_dcs_param.
  - by apply stays_scan_dcs_passthrough.
  - by apply stays_scan_ignored_string.
  - by apply stays_scan_ignored_string.
  - by apply stays_scan_osc_string.
  - by apply stays_vt52_address.
Qed.

(** The steps before the switch leave the parameters and the buffer of a byte that goes
    on. *)
Definition untouched (s t : emul_state) : Prop :=
  screen t = screen s /\ scan_state t = scan_state s /\ q_emul_buffer t = q_emul_buffer s /\
  q_emul_buffer_n t = q_emul_buffer_n s /\ params (state t) = params (state s) /\
  params_n (state t) = params_n (state s).

Lemma in_range_untouched b s t : untouched s t -> in_range b t = in_range b s.
Proof.
  intros (E1 & E2 & E3 & E4 & E5 & E6).
  unfold in_range, params_in_range, first_value. by rewrite E1, E2, E3, E4, E5, E6.
Qed.

Lemma wp_decode_utf8 b s :
  emul_ok g 127 s -> wp (decode_utf8 b) s (fun _ t => emul_ok g 127 t /\ untouched s t).
Proof.
  intros H. unfold decode_utf8. apply wp_bind, wp_gets, wp_if; intros _; [by apply wp_ret|].
  apply wp_bind, wp_gets. destruct (Utf8.take_byte _ _) as [d c]. apply wp_bind, wp_modify, wp_ret.
  split; [|done]. destruct H as [H1 H2 H3 H4]. split; [done| |done|done]. destruct H2. by split.
Qed.

Lemma wp_anywhere b s :
  emul_ok g 127 s -> wp (anywhere b) s (fun consumed t => emul_ok g 127 t /\ (consumed = false -> t = s)).
Proof.
  intros H. unfold anywhere. apply wp_bind, wp_gets, wp_bind, wp_gets. cbv zeta.
  assert (Hc : forall m : EM unit, stays m s -> wp (m;; mret true) s (fun consumed t => emul_ok g 127 t /\ (consumed = false -> t = s))).
  { intros m Hm. apply wp_bind. eapply wp_mono; [by apply Hm|]. intros a t Ht. by apply wp_ret. }
  repeat (apply wp_if; intros _; [apply Hc|]).
  - destruct (_ && _); [stay|apply stays_to_ground].
  - stay.
  - apply stays_scan_state.
  - apply stays_scan_state.
  - apply stays_scan_state.
  - apply stays_scan_state.
  - apply stays_scan_state.
  - by apply wp_ret.
Qed.

Lemma stays_fall_off b s : stays (fall_off b) s.
Proof.
  unfold fall_off. apply stays_gets. intros _. apply stays_if; intros _; [|apply stays_ret].
  apply stays_seq; [apply stays_if; intros _ Hs; exact Hs|intros c t].
  apply stays_seq; [stay; intros []; by split|intros _ u].
  apply stays_seq; [apply stays_to_ground|intros _ v]. apply stays_ret.
Qed.

Lemma seen_byte e b : is_byte b -> is_byte (seen e b).
Proof.
  intros Hb. unfold seen. destruct (is_vt10x e); [|done]. unfold is_byte in *.
  change 0x7F with (Z.ones 7). rewrite Z.land_ones by lia. pose proof (Z.mod_pos_bound b (2 ^ 7)). lia.
Qed.

(** One byte through the machine. *)
Lemma wp_vt100 b s :
  emul_ok g 126 s -> is_byte b -> in_range (seen (s_emulation g) b) s = true ->
  wp (vt100 b) s (fun _ t => emul_ok g 127 t).
Proof.
  intros Hs Hb Hr. assert (H : emul_ok g 127 s) by (eapply emul_ok_le; [done|lia]).
  pose proof (eo_collected _ _ _ Hs) as Hn.
  unfold vt100. apply wp_bind, wp_gets. cbv zeta. rewrite (emulation_of _ _ _ H).
  change (if is_vt10x (s_emulation g) then Z.land b 0x7F else b) with (seen (s_emulation g) b).
  pose proof (seen_byte (s_emulation g) b Hb) as Hb'. set (b' := seen _ b) in *. clearbody b'.
  apply wp_bind. eapply wp_mono; [by apply wp_decode_utf8|]. intros whole t [Ht Hu].
  apply wp_if; intros _; [by apply wp_ret|]. apply wp_bind.
  eapply wp_mono; [by apply wp_anywhere|]. intros consumed u [Hok Hsame].
  destruct consumed; [by apply wp_ret|]. rewrite (Hsame eq_refl) in *. clear Hsame Hok u.
  assert (Hn' : q_emul_buffer_n t <= 126) by (destruct Hu as (_ & _ & _ & -> & _); lia).
  assert (Hr' : in_range b' t = true) by (by rewrite (in_range_untouched _ s)).
  apply wp_bind. eapply wp_mono; [by apply stays_scan|]. intros r v Hv.
  destruct r; [by apply wp_ret..|by apply stays_fall_off].
Qed.

End Vt100Total.
End Vt100Total.
