(* ===== verification/Ansi.v ===== *)
(** ansi.c: the ANSI emulation, one definition for each state of its scanner; the
    functions that read the parameters of a sequence out of the buffer. *)

From Stdlib Require Import ZArith Lia List Bool Ascii.
From stdpp Require Import base list numbers gmap strings.
From S2P Require Import Prelude Stdio States Utf8 Codepage Colors Screen Emulation Vt100.
Import Codepage Colors Screen Emulation Vt100.

Module Ansi.

Definition ANSI_RESPONSE_LENGTH : nat := 16.
Definition ANSI_MUSIC_BUFFER_SIZE : Z := 1024.

Section Ansi.
Context {C : Curses}.

Definition ansi_scan (q : ANSI_SCAN_STATE) : EM unit := on_ansi (fun v => v <| ansi_scan_state := q |>).

Definition ansi_reset : EM unit :=
  s ← get;
  on_ansi (fun v => v
    <| ansi_scan_state := ANSI_SCAN_NONE |>
    <| ansi_saved_cursor_x := cursor_x (q_status (screen s)) |>
    <| ansi_saved_cursor_y := cursor_y (q_status (screen s)) |>
    <| old_character_color := q_current_color (screen s) |>
    <| private_mode_flag := false |> <| ansi_dec_private_mode_flag := false |> <| discard_mode_flag := false |>).

Definition clear_state : EM unit :=
  on_ansi (fun v => v <| private_mode_flag := false |> <| ansi_dec_private_mode_flag := false |>
                      <| discard_mode_flag := false |>);;
  clear_buffer;;
  ansi_scan ANSI_SCAN_NONE.

(** ** Parameters

    A pointer into the buffer is an index; a function that moves it returns the new one.
    [strlen(count) == 0] is a NUL at the pointer. *)

Definition peek (count : Z) : EM Z := s ← get; load (q_emul_buffer s) count.

(** At most [n] digits. *)
Fixpoint digits_from (n : nat) (count : Z) : EM (list Z * Z) :=
  match n with
  | O => mret ([], count)
  | S n =>
    c ← peek count;
    if q_isdigit c then '(ch, count) ← digits_from n (count + 1); mret (c :: ch, count)
    else mret ([], count)
  end.

Definition ansi_ps (count : Z) : EM (Z * Z) :=
  c ← peek count;
  if q_isdigit c then
    '(ch, count) ← digits_from 6 count;
    c ← peek count;
    mret (if q_isdigit c then -1 else atoi ch, count)
  else mret (-1, count).

(** A row or a column: one less, 0 at least. *)
Definition position_of (ps : Z) : Z := if ps =? -1 then -1 else Z.max 0 (ps - 1).

(** The loop of ansi_position(); [None] is the return of Q_FALSE. *)
Fixpoint position_loop (fuel : nat) (new_row new_col count : Z) : EM (option (Z * Z) * Z) :=
  match fuel with
  | O => diverge
  | S fuel =>
    if negb (count <? 128) then mret (Some (new_row, new_col), count)
    else if negb (new_row =? -1) && negb (new_col =? -1) then mret (None, count)
    else
      c ← peek count;
      if (new_row =? -1) && (c =? chr ";") then position_loop fuel 0 new_col (count + 1)
      else
        '(new_row, count) ←
          (if new_row =? -1 then '(ps, count) ← ansi_ps count; mret (position_of ps, count)
           else mret (new_row, count));
        if new_row =? -1 then mret (None, count)
        else
          c ← peek count;
          '(new_col, count) ←
            (if c =? 0 then mret (0, count)
             else if negb (c =? chr ";") then mret (-1, count)
             else '(ps, count) ← ansi_ps (count + 1); mret (position_of ps, count));
          if new_col =? -1 then mret (None, count)
          else
            c ← peek (count + 1);
            if c =? 0 then mret (Some (new_row, new_col), count + 1)
            else position_loop fuel new_row new_col (count + 1)
  end.

Definition ansi_position (count : Z) : EM (bool * Z) :=
  '(p, count) ← position_loop 3 (-1) (-1) count;
  match p with
  | Some (new_row, new_col) => draw (cursor_position new_row new_col);; mret (true, count)
  | None => mret (false, count)
  end.

(** The loop of the functions with one parameter: [empty] is its value before a ';',
    [adjust] what they make of the number. *)
Fixpoint parameter_loop (fuel : nat) (empty : Z) (adjust : Z -> Z) (value count : Z) : EM (option Z * Z) :=
  match fuel with
  | O => diverge
  | S fuel =>
    if negb (count <? 128) then mret (Some value, count)
    else if negb (value =? -1) then mret (None, count)
    else
      c ← peek count;
      if c =? chr ";" then parameter_loop fuel empty adjust empty (count + 1)
      else
        '(ps, count) ← ansi_ps count;
        if (ps =? -1) || (adjust ps <? 0) then mret (None, count)
        else
          c ← peek count;
          if c =? 0 then mret (Some (adjust ps), count)
          else if negb (c =? chr ";") then mret (None, count)
          else
            c ← peek (count + 2);
            if c =? 0 then mret (Some (adjust ps), count + 2)
            else parameter_loop fuel empty adjust (adjust ps) (count + 2)
  end.

Definition with_parameter (empty : Z) (adjust : Z -> Z) (count : Z) (use : Z -> EM unit) : EM (bool * Z) :=
  '(value, count) ← parameter_loop 2 empty adjust (-1) count;
  match value with
  | Some value => use value;; mret (true, count)
  | None => mret (false, count)
  end.

(** [while (cursor_x < 79) ...], which is the loop of a tab with another bound *)
Definition tab_79 (fuel : nat) : EM unit := draw (print_tab_to 79 fuel).

Definition insert_lines (i : Z) : EM unit :=
  q ← status id; draw (scrolling_region_scroll_down (cursor_y q) (scroll_region_bottom q) i).
Definition delete_lines (i : Z) : EM unit :=
  q ← status id; draw (scrolling_region_scroll_up (cursor_y q) (scroll_region_bottom q) i).
Definition to_row (row : Z) : EM unit := x ← status cursor_x; draw (cursor_position row x).
Definition to_column (col : Z) : EM unit := y ← status cursor_y; draw (cursor_position y col).
Definition print_rep : EM unit := s ← get; draw (print_character (rep_character (ansi_statics s))).

Definition ansi_ich (count : Z) : EM (bool * Z) := with_parameter 1 id count (fun i => draw (insert_blanks i)).
Definition ansi_dch (count : Z) : EM (bool * Z) := with_parameter 1 id count (fun i => draw (delete_character i)).
Definition ansi_il (count : Z) : EM (bool * Z) := with_parameter 1 id count insert_lines.
Definition ansi_dl (count : Z) : EM (bool * Z) := with_parameter 1 id count delete_lines.
Definition ansi_vpa (count : Z) : EM (bool * Z) := with_parameter 0 Z.pred count to_row.
Definition ansi_cha (count : Z) : EM (bool * Z) := with_parameter 0 Z.pred count to_column.
Definition ansi_cht (fuel : nat) (count : Z) : EM (bool * Z) :=
  with_parameter 1 Z.pred count (fun i => loop 0 i (fun _ => tab_79 fuel)).
Definition ansi_rep (count : Z) : EM (bool * Z) := with_parameter 1 id count (fun i => loop 0 i (fun _ => print_rep)).

Definition ansi_set_mode (set_mode : bool) (count : Z) : EM (bool * Z) :=
  with_parameter 0 id count (fun new_mode =>
    s ← get;
    let v := ansi_statics s in
    whenM ((new_mode =? 7) && (private_mode_flag v || ansi_dec_private_mode_flag v))
      (on_status (fun q => q <| line_wrap := set_mode |>))).

(** ** Colours *)

Record ansi_pen := { output : Z; foreground : Z; background : Z }.
#[export] Instance eta_ansi_pen : Eta ansi_pen := fun p =>
  {| output := output p; foreground := foreground p; background := background p |}.

Definition add (mask : Z) (p : ansi_pen) : ansi_pen := p <| output ::= fun c => Z.lor c mask |>.
Definition remove (mask : Z) (p : ansi_pen) : ansi_pen := p <| output ::= fun c => Z.land c (Z.lnot mask) |>.
Definition text_bold (text : q_text_color_struct) (p : ansi_pen) : ansi_pen := if bold text then add A_BOLD p else p.

(** The switch of ansi_color(); [text] is q_text_colors[Q_COLOR_CONSOLE_TEXT]. *)
Definition ansi_sgr (text : q_text_color_struct) (ps : Z) (p : ansi_pen) : ansi_pen :=
  if ps =? 0 then text_bold text {| output := A_NORMAL; foreground := fg text; background := bg text |}
  else if ps =? 1 then add A_BOLD p
  else if ps =? 2 then add A_DIM p
  else if ps =? 4 then add A_UNDERLINE p
  else if ps =? 5 then add A_BLINK p
  else if ps =? 7 then add A_REVERSE p
  else if (ps =? 21) || (ps =? 22) then remove (Z.lor A_DIM A_BOLD) p
  else if ps =? 24 then remove A_UNDERLINE p
  else if ps =? 25 then remove A_BLINK p
  else if ps =? 27 then remove A_REVERSE p
  else if within 30 37 ps then p <| foreground := ps - 30 |>
  else if ps =? 38 then add A_UNDERLINE (text_bold text (p <| foreground := fg text |>))
  else if ps =? 39 then remove A_UNDERLINE (text_bold text (p <| foreground := fg text |>))
  else if within 40 47 ps then p <| background := ps - 40 |>
  else if ps =? 49 then remove A_UNDERLINE (p <| background := bg text |>)
  else p.

Definition put_color (p : ansi_pen) : Z :=
  Z.lor (output p) (color_to_attr (i16 (Z.lor (Z.shiftl (foreground p) 3) (background p)))).

Fixpoint color_loop (fuel : nat) (text : q_text_color_struct) (count : Z) (p : ansi_pen) : EM (bool * csi_counter) :=
  match fuel with
  | O => diverge
  | S fuel =>
    if negb (count <? 128) then mret (false, {| count := count; attributes := output p |})
    else
      '(ps, count) ← ansi_ps count;
      if ps =? -1 then mret (false, {| count := count; attributes := output p |})
      else
        let p := ansi_sgr text ps p in
        c ← peek count;
        if negb (c =? chr ";") then mret (true, {| count := count; attributes := put_color p |})
        else color_loop fuel text (count + 1) p
  end.

(** ansi_color(output, count); the buffer has room for 64 parameters. *)
Definition ansi_color (c : csi_counter) : EM (bool * csi_counter) :=
  s ← get;
  let curses_color := color_from_attr (q_current_color (screen s)) in
  color_loop 128 (q_text_colors (screen s) Q_COLOR_CONSOLE_TEXT) (count c)
    {| output := Z.land (attributes c) NO_COLOR_MASK;
       foreground := i16 (Z.shiftr (Z.land curses_color 0x38) 3);
       background := i16 (Z.land curses_color 0x07) |}.

(** An SGR with parameters, as ansi(), vt52(), avatar() and petscii() handle it; [keep]
    stores the statics. *)
Definition text_attributes (c : csi_counter) (keep : csi_counter -> EM unit) : EM bool :=
  '(ok, c) ← ansi_color c;
  keep c;;
  whenM ok (set_color_to (attributes c));;
  mret ok.

(** All attributes off: an SGR without parameters. *)
Definition default_attributes : EM unit := c ← console_color; set_color_to c.

(** ** States

    [None] stands for the end of the switch, where the sequence is not known. *)

Definition keep_counter (c : csi_counter) : EM unit := on_ansi (fun v => v <| ansi_counter := c |>).

Definition more (m : EM unit) : EM (option result) := m;; mret (Some no_char_yet).
Definition finish (m : EM unit) : EM (option result) := m;; clear_state;; mret (Some no_char_yet).
Definition save_and (b : Z) (q : ANSI_SCAN_STATE) : EM (option result) := more (save_char b;; ansi_scan q).
Definition finish_if (ok : bool) : EM (option result) := if ok then finish (mret tt) else mret None.

Definition scan_none (fuel : nat) (b : Z) : EM (option result) :=
  if b =? C_ESC then
    more (save_char b;; ansi_scan ANSI_SCAN_ESC;;
          s ← get;
          on_ansi (fun v => v <| ansi_counter ::= fun c => c <| attributes := q_current_color (screen s) |> |>))
  else if iscntrl b then more (generic_handle_control_char fuel b)
  else
    c ← map_char b;
    on_ansi (fun v => v <| rep_character := c |>);;
    s ← get;
    let color := q_current_color (screen s) in
    whenM (ansi_animate (flags s) && negb (old_character_color (ansi_statics s) =? color))
      (modify (fun s => s <| log ::= fun l => l ++ [Refresh] |>);;
       on_ansi (fun v => v <| old_character_color := color |>));;
    mret (Some (Q_EMUL_FSM_ONE_CHAR, c)).

(** "\033[?1;2c", of which 3 bytes are sent. *)
Definition identify : EM unit := qodem_write (take 3 (C_ESC :: str "[?1;2c")).

Definition scan_esc (b : Z) : EM (option result) :=
  if b =? chr "[" then save_and b ANSI_SCAN_START_SEQUENCE
  else if b =? chr "Z" then finish identify
  else if b =? C_ESC then more (mret tt)
  else mret None.

Definition erase_line_below : EM unit :=
  l ← draw current; x ← status cursor_x; draw (erase_line x (line_length l) false).
Definition erase_screen_below : EM unit :=
  s ← get;
  let t := screen s in
  draw (erase_screen (cursor_y (q_status t)) (cursor_x (q_status t)) (last_row t) (WIDTH t - 1) false).

Definition start_count (b : Z) (q : ANSI_SCAN_STATE) : EM (option result) :=
  s ← get;
  on_ansi (fun v => v <| ansi_counter ::= fun c => c <| count := q_emul_buffer_n s |> |>);;
  save_and b q.

Definition start_music (b : Z) : EM (option result) :=
  f ← gets flags;
  if negb (ansi_music f) then finish (delete_lines 1)
  else
    more (on_ansi (fun v => v <| music_buffer := b :: replicate 1023 0 |> <| music_buffer_n := 1 |>);;
          ansi_scan ANSI_SCAN_MUSIC).

Definition scan_start_sequence (fuel : nat) (b : Z) : EM (option result) :=
  if q_isdigit b then start_count b ANSI_SCAN_COUNT
  else switch b
    [on "K" (finish erase_line_below);
     on "J" (finish erase_screen_below);
     on "m" (finish default_attributes);
     on "A" (finish (draw (cursor_up 1 false)));
     on "B" (finish (draw (cursor_down 1 false)));
     on "C" (finish (draw (cursor_right 1 false)));
     on "D" (finish (draw (cursor_left 1 false)));
     on "H" (finish (draw (cursor_position 0 0)));
     on "f" (finish (draw (cursor_position 0 0)));
     on ";" (start_count b ANSI_SCAN_COUNT_TWO);
     on "c" (finish identify);
     on "s" (finish (q ← status id;
               on_ansi (fun v => v <| ansi_saved_cursor_x := cursor_x q |> <| ansi_saved_cursor_y := cursor_y q |>)));
     on "u" (finish (s ← get;
               draw (cursor_position (ansi_saved_cursor_y (ansi_statics s)) (ansi_saved_cursor_x (ansi_statics s)))));
     on "I" (finish (tab_79 fuel));
     on "@" (finish (draw (insert_blanks 1)));
     on "d" (finish (to_row 0));
     on "G" (finish (to_column 0));
     on "L" (finish (insert_lines 1));
     on "P" (finish (draw (delete_character 1)));
     on "b" (finish print_rep);
     on "M" (start_music b);
     on "=" (more (on_ansi (fun v => v <| private_mode_flag := true |>)));
     on "?" (more (on_ansi (fun v => v <| ansi_dec_private_mode_flag := true |>)));
     on " " (more (on_ansi (fun v => v <| discard_mode_flag := true |>)));
     on "!" (finish (mret tt))]
    (mret None).

(** The parameter of a sequence that has just one. *)
Definition number (use : Z -> EM unit) : EM (option result) :=
  s ← get;
  let c := ansi_counter (ansi_statics s) in
  '(i, n) ← ansi_ps (count c);
  keep_counter (c <| count := n |>);;
  if i =? -1 then mret None else finish (use i).

Definition parsed (op : Z -> EM (bool * Z)) : EM (option result) :=
  s ← get;
  let c := ansi_counter (ansi_statics s) in
  '(ok, n) ← op (count c);
  keep_counter (c <| count := n |>);;
  finish_if ok.

Definition select_attributes : EM (option result) :=
  s ← get; ok ← text_attributes (ansi_counter (ansi_statics s)) keep_counter; finish_if ok.

Definition erase_in_line (i : Z) : EM unit :=
  if i =? 0 then erase_line_below
  else if i =? 1 then x ← status cursor_x; draw (erase_line 0 x false)
  else whenM (i =? 2) (l ← draw current; draw (erase_line 0 (line_length l) false)).

Definition erase_in_display (i : Z) : EM unit :=
  if i =? 0 then erase_screen_below
  else if i =? 1 then q ← status id; draw (erase_screen 0 0 (cursor_y q) (cursor_x q) false)
  else whenM (i =? 2) (draw cursor_formfeed).

(** snprintf() into response_buffer *)
Definition report_position : EM unit :=
  s ← get;
  c ← (if q_emul_buffer_n s =? 3 then load (q_emul_buffer s) 2 else mret 0);
  q ← status id;
  whenM (c =? chr "6")
    (qodem_write (take (ANSI_RESPONSE_LENGTH - 1)
       (C_ESC :: chr "[" :: print_u (cursor_y q + 1) ++ str ";" ++ print_u (cursor_x q + 1) ++ str "R"))).

Definition discarded (b : Z) : EM (option result) :=
  s ← get;
  if (b =? chr "D") && discard_mode_flag (ansi_statics s) then finish (mret tt) else mret None.

Definition scan_count (fuel : nat) (b : Z) : EM (option result) :=
  if q_isdigit b then more (save_char b)
  else switch b
    [on "K" (number erase_in_line);
     on "J" (number erase_in_display);
     on "A" (number (fun i => draw (cursor_up i false)));
     on "B" (number (fun i => draw (cursor_down i false)));
     on "C" (number (fun i => draw (cursor_right i false)));
     on "D" (number (fun i => draw (cursor_left i false)));
     on ";" (save_and b ANSI_SCAN_COUNT_TWO);
     on "H" (parsed ansi_position);
     on "f" (parsed ansi_position);
     on "m" select_attributes;
     on "n" (finish report_position);
     on "@" (parsed ansi_ich);
     on "I" (parsed (ansi_cht fuel));
     on "d" (parsed ansi_vpa);
     on "G" (parsed ansi_cha);
     on "L" (parsed ansi_il);
     on "M" (parsed ansi_dl);
     on "P" (parsed ansi_dch);
     on "b" (parsed ansi_rep);
     on "h" (parsed (ansi_set_mode true));
     on "l" (parsed (ansi_set_mode false));
     on " " (more (on_ansi (fun v => v <| discard_mode_flag := true |>)));
     on "!" (finish (mret tt))]
    (mret None).

Definition scan_count_two (b : Z) : EM (option result) :=
  if q_isdigit b then more (save_char b)
  else switch b
    [on ";" (save_and b ANSI_SCAN_COUNT_MANY);
     on "H" (parsed ansi_position);
     on "f" (parsed ansi_position);
     on "m" select_attributes;
     on " " (more (on_ansi (fun v => v <| discard_mode_flag := true |>)))]
    (discarded b).

Definition scan_count_many (b : Z) : EM (option result) :=
  if q_isdigit b || (b =? chr ";") then more (save_char b)
  else if b =? chr "m" then select_attributes
  else mret None.

Definition scan_music (b : Z) : EM (option result) :=
  s ← get;
  let v := ansi_statics s in
  if (b =? 0x0E) || (b =? 0x0D) then
    finish (modify (fun s => s <| log ::= fun l =>
              l ++ [Refresh; Play_ansi_music (take (Z.to_nat (music_buffer_n v)) (music_buffer v))] |>))
  else
    buf ← store (music_buffer v) (music_buffer_n v) b;
    on_ansi (fun v => v <| music_buffer := buf |> <| music_buffer_n ::= Z.succ |>);;
    if ANSI_MUSIC_BUFFER_SIZE <=? music_buffer_n v + 1 then finish (mret tt) else more (mret tt).

(** The end of ansi() and of vt52(): the first character of an unknown sequence. *)
Definition unknown_sequence (b : Z) (to_none : EM unit) : EM result :=
  save_char b;;
  s ← get;
  c ← load (q_emul_buffer s) (q_emul_buffer_i s);
  modify (fun s => s <| q_emul_buffer_i ::= Z.succ |>);;
  to_none;;
  if q_emul_buffer_n s =? 1 then
    modify (fun s => s <| q_emul_buffer_i := 0 |> <| q_emul_buffer_n := 0 |>);;
    mret (Q_EMUL_FSM_ONE_CHAR, c)
  else mret (Q_EMUL_FSM_MANY_CHARS, c).

Definition scan_ansi (fuel : nat) (b : Z) : EM (option result) :=
  s ← get;
  match ansi_scan_state (ansi_statics s) with
  | ANSI_SCAN_NONE => scan_none fuel b
  | ANSI_SCAN_ESC => scan_esc b
  | ANSI_SCAN_START_SEQUENCE => scan_start_sequence fuel b
  | ANSI_SCAN_COUNT => scan_count fuel b
  | ANSI_SCAN_COUNT_TWO => scan_count_two b
  | ANSI_SCAN_COUNT_MANY => scan_count_many b
  | ANSI_SCAN_MUSIC => scan_music b
  end.

Definition ansi (fuel : nat) (from_modem : Z) : EM result :=
  r ← scan_ansi fuel from_modem;
  match r with
  | Some r => mret r
  | None => unknown_sequence from_modem (ansi_scan ANSI_SCAN_NONE)
  end.

End Ansi.
End Ansi.
