(* ===== verification/Vt52.v ===== *)
(** vt52.c: the DEC VT52 emulation. *)

From Stdlib Require Import ZArith Lia List Bool Ascii.
From stdpp Require Import base list numbers gmap strings.
From S2P Require Import Prelude Stdio States Utf8 Codepage Colors Screen Emulation Vt100 Ansi.
Import Codepage Colors Screen Emulation Ansi.

Module Vt52.

(** codepage.h *)
Definition BLANK : nat := 0x20.
Definition BOX : nat := 0xFE.
Definition HATCH : nat := 0xB0.
Definition DEGREE : nat := 0xF8.
Definition PLUSMINUS : nat := 0xF1.
Definition RIGHTARROW : nat := 0x1A.
Definition DOWNARROW : nat := 0x19.
Definition SINGLE_BAR : nat := 0xC4.

(** The graphics characters from '^' to '~'. *)
Definition vt52_graphics_chars : list Z :=
  let glyph n := cp437_chars !!! n in
  [glyph BLANK; glyph BLANK; glyph BLANK; glyph BOX; 0x215F; glyph HATCH; glyph HATCH; glyph HATCH;
   glyph DEGREE; glyph PLUSMINUS; glyph RIGHTARROW; 0x2026; 0x00F7; glyph DOWNARROW; 0x23BA; 0x23BA;
   0x23BB; 0x23BB; glyph SINGLE_BAR; glyph SINGLE_BAR; 0x23BC; 0x23BC; 0x2080; 0x2081; 0x2082; 0x2083;
   0x2084; 0x2085; 0x2086; 0x2087; 0x2088; 0x2089; 0x00B6].

Definition map_character (graphics_mode : bool) (vt52_char : Z) : Z :=
  if graphics_mode && within (chr "^") (chr "~") vt52_char
  then vt52_graphics_chars !!! Z.to_nat (vt52_char - chr "^") else vt52_char.

Section Vt52.
Context {C : Curses}.

Definition vt52_scan (q : VT52_SCAN_STATE) : EM unit := on_vt52 (fun v => v <| vt52_scan_state := q |>).

Definition vt52_reset : EM unit :=
  on_vt52 (fun v => v <| vt52_scan_state := VT52_SCAN_NONE |> <| graphics_mode := false |>
                      <| q_vt52_alternate_keypad_mode := false |>).

Definition clear_state : EM unit := clear_buffer;; vt52_scan VT52_SCAN_NONE.

Definition finish (m : EM unit) : EM (option result) := m;; clear_state;; mret (Some no_char_yet).
Definition save_and (b : Z) (q : VT52_SCAN_STATE) : EM (option result) := more (save_char b;; vt52_scan q).

(** The loop of a tab. *)
Fixpoint right_to_tab (fuel : nat) : SM unit :=
  match fuel with
  | O => diverge
  | S fuel =>
    x ← Screen.status cursor_x;
    if x <? 80 then
      cursor_right 1 false;;
      x ← Screen.status cursor_x;
      if Z.rem x 8 =? 0 then mret tt else right_to_tab fuel
    else mret tt
  end.

Definition scan_none (fuel : nat) (b : Z) : EM (option result) :=
  if b =? C_ESC then save_and b VT52_SCAN_ESC
  else if b =? 0x05 then finish enquire
  else if b =? 0x08 then finish (draw (cursor_left 1 false))
  else if b =? 0x09 then finish (draw (right_to_tab fuel))
  else if b =? 0x7F then finish (mret tt)
  else if iscntrl b then finish (mret tt)
  else s ← get; mret (Some (Q_EMUL_FSM_ONE_CHAR, map_character (graphics_mode (vt52_statics s)) b)).

Definition scan_y_2 (b : Z) : EM (option result) :=
  s ← get;
  row ← load (q_emul_buffer s) 2;
  finish (draw (cursor_position (Z.max 0 (row - 32)) (Z.max 0 (b - 32)))).

Definition reverse_linefeed : EM unit :=
  y ← status cursor_y; draw (if y =? 0 then scroll_down 1 else cursor_up 1 false).

Definition hold_screen (on : bool) : EM unit := on_flags (fun f => f <| hold_screen_mode := on |>).
Definition set_graphics (on : bool) : EM unit := on_vt52 (fun v => v <| graphics_mode := on |>).
Definition set_keypad (on : bool) : EM unit := on_vt52 (fun v => v <| q_vt52_alternate_keypad_mode := on |>).

Definition scan_esc (b : Z) : EM (option result) :=
  f ← gets flags;
  switch b
    [on "A" (finish (draw (cursor_up 1 false)));
     on "B" (finish (draw (cursor_down 1 false)));
     on "C" (finish (draw (cursor_right 1 false)));
     on "D" (finish (draw (cursor_left 1 false)));
     on "E" (finish (draw cursor_formfeed));
     on "F" (finish (set_graphics true));
     on "G" (finish (set_graphics false));
     on "H" (finish (draw (cursor_position 0 0)));
     on "I" (finish reverse_linefeed);
     on "J" (finish erase_screen_below);
     on "K" (finish erase_line_below);
     on "Y" (save_and b VT52_SCAN_Y_1);
     on "Z" (finish (qodem_write [C_ESC; chr "/"; chr "K"]));
     on "=" (finish (set_keypad true));
     on ">" (finish (set_keypad false));
     on "[" (if vt52_color f then save_and b VT52_SCAN_CSI else finish (hold_screen true));
     on "\" (finish (hold_screen false))]
    (mret None).

Definition keep_counter (c : csi_counter) : EM unit := on_vt52 (fun v => v <| vt52_counter := c |>).

(** What is no SGR was the hold of the screen, and the byte is read again. *)
Definition scan_csi (fuel : nat) (b : Z) : EM (option result) :=
  if q_isdigit b then
    s ← get;
    on_vt52 (fun v => v <| vt52_counter ::= fun c => c <| count := q_emul_buffer_n s |> |>);;
    save_and b VT52_SCAN_CSI_PARAM
  else if b =? chr "m" then finish default_attributes
  else hold_screen true;; clear_state;; scan_none fuel b.

Definition scan_csi_param (b : Z) : EM (option result) :=
  if q_isdigit b || (b =? chr ";") then save_and b VT52_SCAN_CSI_PARAM
  else if b =? chr "m" then
    s ← get;
    ok ← text_attributes (vt52_counter (vt52_statics s)) keep_counter;
    if ok : bool then finish (mret tt) else mret None
  else mret None.

Definition scan_vt52 (fuel : nat) (b : Z) : EM (option result) :=
  s ← get;
  match vt52_scan_state (vt52_statics s) with
  | VT52_SCAN_NONE => scan_none fuel b
  | VT52_SCAN_Y_1 => save_and b VT52_SCAN_Y_2
  | VT52_SCAN_Y_2 => scan_y_2 b
  | VT52_SCAN_ESC => scan_esc b
  | VT52_SCAN_CSI => scan_csi fuel b
  | VT52_SCAN_CSI_PARAM => scan_csi_param b
  end.

Definition vt52 (fuel : nat) (from_modem : Z) : EM result :=
  let from_modem2 := Z.land from_modem 0x7F in
  r ← scan_vt52 fuel from_modem2;
  match r with
  | Some r => mret r
  | None => unknown_sequence from_modem2 (vt52_scan VT52_SCAN_NONE)
  end.

End Vt52.
End Vt52.
