(* ===== verification/Atascii.v ===== *)
(** atascii.c: the ATASCII emulation. *)

From Stdlib Require Import ZArith Lia List Bool Ascii.
From stdpp Require Import base list numbers gmap strings.
From S2P Require Import Prelude Stdio States Utf8 Codepage Colors Screen Emulation Vt100.
Import Codepage Colors Screen Emulation.

Module Atascii.

Section Atascii.
Context {C : Curses}.

Definition advance_to_next_tab_stop : EM unit :=
  s ← get;
  let x := cursor_x (q_status (screen s)) in
  match Vt100.next_tab_stop (atascii_tab_stops (atascii_statics s)) x with
  | Some stop => draw (cursor_right (stop - x) false)
  | None => draw (cursor_right (WIDTH (screen s) - 1 - x) false)
  end.

Definition reset_tab_stops : EM unit :=
  s ← get;
  on_atascii (fun v => v <| atascii_tab_stops := (fun i => i * 8) <$> seqZ 0 ((WIDTH (screen s) + 7) / 8) |>).

Definition set_tab_stop : EM unit :=
  x ← status cursor_x; on_atascii (fun v => v <| atascii_tab_stops ::= Vt100.insert_tab_stop x |>).
Definition clear_tab_stop : EM unit :=
  x ← status cursor_x; on_atascii (fun v => v <| atascii_tab_stops ::= Vt100.remove_tab_stop x |>).

Definition atascii_reset : EM unit :=
  on_atascii (fun v => v <| atascii_reverse := false |> <| print_control_char := false |>);;
  reset_tab_stops.

Definition erase_all : EM unit :=
  s ← get;
  draw (erase_screen 0 0 (last_row (screen s)) (WIDTH (screen s) - 1) false);;
  draw (cursor_position 0 0).

(** The control characters, and what each does. *)
Definition controls : list (Z * EM unit) :=
  [(0x1C, draw (cursor_up 1 false));
   (0x1D, draw (cursor_down 1 false));
   (0x1E, draw (cursor_left 1 false));
   (0x1F, draw (cursor_right 1 false));
   (0x7D, erase_all);
   (0x7E, draw (cursor_left 1 false);; draw (delete_character 1));
   (0x7F, advance_to_next_tab_stop);
   (0x9B, draw (cursor_linefeed true));
   (0x9C, s ← get; draw (erase_line (cursor_x (q_status (screen s))) (WIDTH (screen s) - 1) false));
   (0x9D, s ← get; draw (scrolling_region_scroll_down (cursor_y (q_status (screen s))) (last_row (screen s)) 1));
   (0x9E, clear_tab_stop);
   (0x9F, set_tab_stop);
   (0xFD, draw (Screen.emit Beep));
   (0xFE, draw (delete_character 1));
   (0xFF, draw (insert_blanks 1))].

Fixpoint control (b : Z) (l : list (Z * EM unit)) : option (EM unit) :=
  match l with
  | [] => None
  | (c, m) :: l => if b =? c then Some m else control b l
  end.

Definition atascii_handle_control_char (control_char : Z) : EM bool :=
  match control control_char controls with
  | Some m => m;; mret true
  | None => mret false
  end.

Definition is_control (b : Z) : bool := let b := Z.land b 0x7F in (b <? 0x20) || (b =? 0x7F).

Definition set_print_control (on : bool) : EM unit := on_atascii (fun v => v <| print_control_char := on |>).

(** A byte that is printed: its high bit is the reverse video. *)
Definition print_byte (b : Z) : EM result :=
  set_print_control false;;
  s ← get;
  let c := q_current_color (screen s) in
  set_color_to (if negb (Z.land b 0x80 =? 0) then Z.lor c A_REVERSE else Z.land c (Z.lnot A_REVERSE));;
  mret (Q_EMUL_FSM_ONE_CHAR, atascii_chars !!! Z.to_nat (Z.land b 0x7F)).

Definition atascii (from_modem : Z) : EM result :=
  wide ← status atascii_has_wide_font;
  whenM (negb wide) (draw (set_double_width true));;
  s ← get;
  if print_control_char (atascii_statics s) then print_byte from_modem
  else if from_modem =? C_ESC then set_print_control true;; mret no_char_yet
  else
    consumed ← atascii_handle_control_char from_modem;
    if consumed : bool then mret no_char_yet
    else if is_control from_modem then mret no_char_yet
    else print_byte from_modem.

End Atascii.
End Atascii.
