(* ===== verification/Avatar.v ===== *)
(** avatar.c: the AVATAR emulation, and the way it and petscii.c hand a sequence they do
    not know to the ANSI emulation. *)

From Stdlib Require Import ZArith Lia List Bool Ascii.
From stdpp Require Import base list numbers gmap strings.
From S2P Require Import Prelude Stdio States Utf8 Codepage Colors Screen Emulation Vt100 Ansi.
Import Codepage Colors Screen Emulation Ansi.

Module Avatar.

(** ** The ANSI fallback

    [fallback] and [put] are the statics [ansi_buffer], [ansi_buffer_n] and
    [ansi_buffer_i] of the file, [to_none], [to_dump] and [to_fallback] set its state. *)

Section Fallback.
Context {C : Curses}.
Context (fallback : emul_state -> ansi_fallback) (put : ansi_fallback -> EM unit).
Context (to_none to_dump to_fallback : EM unit).

(** [while (rc == Q_EMUL_FSM_NO_CHAR_YET)] *)
Fixpoint fallback_loop (turns fuel : nat) : EM result :=
  match turns with
  | O => diverge
  | S turns =>
    s ← get;
    let f := fallback s in
    b ← load (ansi_buffer f) (ansi_buffer_i f);
    rc ← ansi fuel b;
    let waits := bool_decide (rc.1 = Q_EMUL_FSM_NO_CHAR_YET) in
    whenM (negb waits) to_none;;
    let i := ansi_buffer_i f + 1 in
    if i =? ansi_buffer_n f then put (f <| ansi_buffer_n := 0 |> <| ansi_buffer_i := 0 |>);; mret rc
    else put (f <| ansi_buffer_i := i |>);; if waits then fallback_loop turns fuel else mret rc
  end.

(** SCAN_ANSI_FALLBACK; the buffer has 128 bytes. *)
Definition scan_ansi_fallback (fuel : nat) (from_modem : Z) : EM result :=
  s ← get;
  let f := fallback s in
  whenM (ansi_buffer_n f =? 0)
    (assertM (ansi_buffer_i f =? 0);;
     buf ← store (ansi_buffer f) 0 from_modem;
     put (f <| ansi_buffer := buf |> <| ansi_buffer_n := 1 |>));;
  rc ← fallback_loop 129 fuel;
  whenM (bool_decide (rc.1 = Q_EMUL_FSM_MANY_CHARS)) to_dump;;
  mret rc.

(** The next character of the buffer. *)
Definition next_of_buffer : EM Z :=
  s ← get;
  b ← load (q_emul_buffer s) (q_emul_buffer_i s);
  c ← map_char b;
  modify (fun s => s <| q_emul_buffer_i ::= Z.succ |>);;
  mret c.

(** DUMP_UNKNOWN_SEQUENCE *)
Definition dump_unknown_sequence : EM result :=
  s ← get;
  assertM (0 <? q_emul_buffer_n s);;
  c ← next_of_buffer;
  s ← get;
  if q_emul_buffer_i s =? q_emul_buffer_n s then
    clear_buffer;; to_none;; mret (Q_EMUL_FSM_ONE_CHAR, c)
  else mret (Q_EMUL_FSM_MANY_CHARS, c).

(** What follows the switch: the sequence is not known. *)
Definition after_switch (ansi_too : bool) (fuel : nat) (from_modem : Z) : EM result :=
  if ansi_too then
    to_fallback;;
    s ← get;
    buf ← memcpy (ansi_buffer (fallback s)) 0 (take (Z.to_nat (q_emul_buffer_n s)) (q_emul_buffer s));
    put {| ansi_buffer := buf; ansi_buffer_n := q_emul_buffer_n s; ansi_buffer_i := 0 |};;
    modify (fun s => s <| q_emul_buffer_i := 0 |> <| q_emul_buffer_n := 0 |>);;
    assertM (0 <? q_emul_buffer_n s);;
    scan_ansi_fallback fuel from_modem
  else
    to_dump;;
    c ← next_of_buffer;
    s ← get;
    if q_emul_buffer_n s =? 1 then
      modify (fun s => s <| q_emul_buffer_i := 0 |> <| q_emul_buffer_n := 0 |>);;
      mret (Q_EMUL_FSM_ONE_CHAR, c)
    else mret (Q_EMUL_FSM_MANY_CHARS, c).

End Fallback.

(** ** AVATAR *)

Section Avatar.
Context {C : Curses}.

Definition avatar_scan (q : AVATAR_SCAN_STATE) : EM unit := on_avatar (fun v => v <| avatar_scan_state := q |>).

Definition avatar_reset : EM unit :=
  on_avatar (fun v => v <| avatar_scan_state := AVATAR_SCAN_NONE |> <| v_y_chars := [] |>
                        <| v_y_chars_i := 0 |> <| v_y_chars_n := 0 |>).

Definition set_insert (on : bool) : EM unit := on_status (fun q => q <| insert_mode := on |>).

Definition free_pattern (v : avatar_state) : avatar_state :=
  if (length (v_y_chars v) =? 0)%nat then v
  else v <| v_y_chars := [] |> <| v_y_chars_i := 0 |> <| v_y_chars_n := 0 |>.

Definition clear_state : EM unit :=
  set_insert false;; clear_buffer;; avatar_scan AVATAR_SCAN_NONE;; on_avatar free_pattern.

(** clear_state(), but for the insert mode. *)
Definition clear_state_inserting : EM unit :=
  insert ← status insert_mode; clear_state;; whenM insert (set_insert true).

Definition pc_to_curses_map : list Z :=
  [Q_COLOR_BLACK; Q_COLOR_BLUE; Q_COLOR_GREEN; Q_COLOR_CYAN; Q_COLOR_RED; Q_COLOR_MAGENTA; Q_COLOR_YELLOW;
   Q_COLOR_WHITE].

(** A PC attribute: blink, 3 bits of background, bold, 3 bits of foreground. *)
Definition pc_attribute (b : Z) : Z :=
  let fg := pc_to_curses_map !!! Z.to_nat (Z.land b 0x07) in
  let bg := pc_to_curses_map !!! Z.to_nat (Z.land (Z.shiftr b 4) 0x07) in
  let attr := if negb (Z.land b 0x08 =? 0) then Z.lor A_NORMAL A_BOLD else A_NORMAL in
  let attr := if negb (Z.land b 0x80 =? 0) then Z.lor attr A_BLINK else attr in
  Z.lor attr (color_to_attr (i16 (Z.lor (Z.shiftl fg 3) bg))).
Definition avatar_set_color (from_modem : Z) : EM unit := set_color_to (pc_attribute from_modem).

Definition finish (m : EM unit) : EM (option result) := m;; clear_state;; mret (Some no_char_yet).
Definition save_and (b : Z) (q : AVATAR_SCAN_STATE) : EM (option result) := more (save_char b;; avatar_scan q).

Definition scan_none (fuel : nat) (b : Z) : EM (option result) :=
  if b =? C_ESC then save_and b AVATAR_SCAN_ESC
  else if b =? 0x16 then save_and b AVATAR_SCAN_V
  else if b =? 0x0C then finish (draw cursor_formfeed;; default_attributes)
  else if b =? 0x19 then save_and b AVATAR_SCAN_Y_1
  else if iscntrl b then more (generic_handle_control_char fuel b)
  else c ← map_char b; mret (Some (Q_EMUL_FSM_ONE_CHAR, c)).

Definition scan_h_2 (b : Z) : EM (option result) :=
  s ← get;
  row ← load (q_emul_buffer s) 2;
  finish (draw (cursor_position (Z.max 0 (row - 1)) (Z.max 0 (b - 1)))).

(** SCAN_Y_EMIT: at most [y_count] control characters, then one that is printed. *)
Fixpoint emit_run (turns fuel : nat) : EM result :=
  match turns with
  | O => diverge
  | S turns =>
    s ← get;
    let v := avatar_statics s in
    if y_count v =? 0 then clear_state_inserting;; mret no_char_yet
    else
      on_avatar (fun v => v <| y_count ::= Z.pred |>);;
      if iscntrl (y_char v) then generic_handle_control_char fuel (y_char v);; emit_run turns fuel
      else c ← map_char (y_char v); mret (Q_EMUL_FSM_MANY_CHARS, c)
  end.
Definition scan_y_emit (fuel : nat) : EM (option result) :=
  s ← get; r ← emit_run (S (Z.to_nat (y_count (avatar_statics s)))) fuel; mret (Some r).

Definition keep_and (b : Z) (f : avatar_state -> avatar_state) (q : AVATAR_SCAN_STATE) : EM (option result) :=
  more (on_avatar f;; save_char b;; avatar_scan q).

Definition less_one (i : Z) : Z := if 0 <? i then i - 1 else i.

Definition scan_v_jk_5 (b : Z) : EM (option result) :=
  on_avatar (fun v => v <| v_jk_right := b |>);;
  s ← get;
  let v := avatar_statics s in
  let n := v_jk_numlines v in
  if (n =? 0) || (HEIGHT (screen s) - STATUS_HEIGHT (screen s) <? n) then
    finish (draw (erase_screen 0 0 (last_row (screen s)) (WIDTH (screen s) - 1) false))
  else
    let upper := less_one (v_jk_upper v) in
    let left_ := less_one (v_jk_left v) in
    let lower := less_one (v_jk_lower v) in
    let right_ := less_one (v_jk_right v) in
    on_avatar (fun v => v <| v_jk_upper := upper |> <| v_jk_left := left_ |>
                          <| v_jk_lower := lower |> <| v_jk_right := right_ |>);;
    finish (draw (if v_jk_scrollup v then rectangle_scroll_up upper left_ lower right_ n
                  else rectangle_scroll_down upper left_ lower right_ n)).

(** A pattern of [b] bytes. *)
Definition scan_v_y_1 (b : Z) : EM (option result) :=
  more (save_char b;;
        on_avatar (fun v => v <| v_y_chars_n := b |> <| v_y_chars := replicate (Z.to_nat (b + 1)) 0 |>
                              <| v_y_chars_i := 0 |> <| avatar_scan_state := AVATAR_SCAN_V_Y_2 |>)).

Definition scan_v_y_2 (b : Z) : EM (option result) :=
  save_char b;;
  s ← get;
  let v := avatar_statics s in
  chars ← store (v_y_chars v) (v_y_chars_i v) b;
  more (on_avatar (fun v => v <| v_y_chars := chars |> <| v_y_chars_i ::= Z.succ |>);;
        whenM (v_y_chars_i v + 1 =? v_y_chars_n v) (avatar_scan AVATAR_SCAN_V_Y_3)).

(** SCAN_V_Y_EMIT: the pattern as often as asked for. *)
Definition scan_v_y_emit : EM (option result) :=
  s ← get;
  let v := avatar_statics s in
  let pattern := take (Z.to_nat (v_y_chars_n v)) (v_y_chars v) in
  modify (fun s => s <| q_emul_repeat_state_buffer := concat (replicate (Z.to_nat (y_count v)) pattern) |>);;
  on_avatar (fun v => v <| y_count := Z.min 0 (y_count v) |> <| v_y_chars := [] |>);;
  clear_state_inserting;;
  mret (Some (Q_EMUL_FSM_REPEAT_STATE, 1)).

(** ^V^M and ^V^L: rows of a character. *)
Definition scan_v_m_4 (b : Z) : EM (option result) :=
  s ← get;
  assertM (5 <=? q_emul_buffer_n s);;
  let old_color := q_current_color (screen s) in
  let old := q_status (screen s) in
  loop 0 b (fun _ =>
    s ← get;
    color ← load (q_emul_buffer s) 3;
    avatar_set_color color;;
    x ← status cursor_x;
    columns ← load (q_emul_buffer s) 4;
    character ← load (q_emul_buffer s) 2;
    draw (fill_line_with_character x (x + columns) character false);;
    set_color_to old_color;;
    y ← status cursor_y;
    whenM (y <=? last_row (screen s)) (draw (cursor_down 1 false)));;
  set_color_to old_color;;
  finish (draw (cursor_position (cursor_y old) (cursor_x old))).

(** ^J and ^K *)
Definition start_scroll (b : Z) : EM (option result) :=
  more (on_avatar (fun v => v <| v_jk_scrollup := b =? 0x0A |>);;
        save_char b;; save_char 32;; avatar_scan AVATAR_SCAN_V_JK_1).

Definition scan_v (b : Z) : EM (option result) :=
  if b =? 0x01 then save_and b AVATAR_SCAN_A_1
  else if b =? 0x02 then
    finish (s ← get; set_color_to (Z.lor (q_current_color (screen s)) A_BLINK))
  else if b =? 0x03 then finish (draw (cursor_up 1 false))
  else if b =? 0x04 then finish (draw (cursor_down 1 false))
  else if b =? 0x05 then finish (draw (cursor_left 1 false))
  else if b =? 0x06 then finish (draw (cursor_right 1 false))
  else if b =? 0x07 then
    finish (s ← get; draw (erase_line (cursor_x (q_status (screen s))) (WIDTH (screen s) - 1) false))
  else if b =? 0x08 then save_and b AVATAR_SCAN_H_1
  else if b =? 0x09 then more (clear_state;; set_insert true)
  else if (b =? 0x0A) || (b =? 0x0B) then start_scroll b
  else if b =? 0x0C then more (save_char b;; save_char 32;; avatar_scan AVATAR_SCAN_V_M_2)
  else if b =? 0x0D then save_and b AVATAR_SCAN_V_M_1
  else if b =? 0x0E then finish (draw (delete_character 1))
  else if b =? 0x10 then finish (mret tt)
  else if b =? 0x19 then save_and b AVATAR_SCAN_V_Y_1
  else mret None.

Definition keep_counter (c : csi_counter) : EM unit := on_avatar (fun v => v <| avatar_counter := c |>).

Definition scan_esc (b : Z) : EM (option result) :=
  save_char b;;
  f ← gets flags;
  if (b =? chr "[") && avatar_color f then more (avatar_scan AVATAR_SCAN_CSI) else mret None.

Definition scan_csi (b : Z) : EM (option result) :=
  save_char b;;
  if q_isdigit b then
    s ← get;
    keep_counter ((avatar_counter (avatar_statics s)) <| count := q_emul_buffer_n s - 1 |>);;
    more (avatar_scan AVATAR_SCAN_CSI_PARAM)
  else if b =? chr "m" then finish default_attributes
  else mret None.

Definition scan_csi_param (b : Z) : EM (option result) :=
  save_char b;;
  if q_isdigit b || (b =? chr ";") then more (mret tt)
  else if b =? chr "m" then
    s ← get;
    ok ← text_attributes (avatar_counter (avatar_statics s)) keep_counter;
    if ok : bool then finish (mret tt) else mret None
  else mret None.

Definition put_fallback (f : ansi_fallback) : EM unit := on_avatar (fun v => v <| avatar_fallback := f |>).
Definition to_none : EM unit := avatar_scan AVATAR_SCAN_NONE.
Definition to_dump : EM unit := avatar_scan AVATAR_DUMP_UNKNOWN_SEQUENCE.
Definition to_fallback : EM unit := avatar_scan AVATAR_SCAN_ANSI_FALLBACK.

Definition scan_avatar (fuel : nat) (b : Z) : EM (option result) :=
  s ← get;
  match avatar_scan_state (avatar_statics s) with
  | AVATAR_SCAN_ANSI_FALLBACK =>
      r ← scan_ansi_fallback (fun s => avatar_fallback (avatar_statics s)) put_fallback to_none to_dump fuel b;
      mret (Some r)
  | AVATAR_SCAN_NONE => scan_none fuel b
  | AVATAR_SCAN_A_1 => finish (avatar_set_color b)
  | AVATAR_SCAN_H_1 => save_and b AVATAR_SCAN_H_2
  | AVATAR_SCAN_H_2 => scan_h_2 b
  | AVATAR_SCAN_Y_1 => save_char b;; more (on_avatar (fun v => v <| y_char := b |>);; avatar_scan AVATAR_SCAN_Y_2)
  | AVATAR_SCAN_Y_2 => on_avatar (fun v => v <| y_count := b |>);; avatar_scan AVATAR_SCAN_Y_EMIT;; scan_y_emit fuel
  | AVATAR_SCAN_Y_EMIT => scan_y_emit fuel
  | AVATAR_SCAN_V_JK_1 => keep_and b (fun v => v <| v_jk_numlines := b |>) AVATAR_SCAN_V_JK_2
  | AVATAR_SCAN_V_JK_2 => keep_and b (fun v => v <| v_jk_upper := b |>) AVATAR_SCAN_V_JK_3
  | AVATAR_SCAN_V_JK_3 => keep_and b (fun v => v <| v_jk_left := b |>) AVATAR_SCAN_V_JK_4
  | AVATAR_SCAN_V_JK_4 => keep_and b (fun v => v <| v_jk_lower := b |>) AVATAR_SCAN_V_JK_5
  | AVATAR_SCAN_V_JK_5 => scan_v_jk_5 b
  | AVATAR_SCAN_V_Y_1 => scan_v_y_1 b
  | AVATAR_SCAN_V_Y_2 => scan_v_y_2 b
  | AVATAR_SCAN_V_Y_3 =>
      on_avatar (fun v => v <| y_count := b |> <| v_y_chars_i := 0 |>);; avatar_scan AVATAR_SCAN_V_Y_EMIT;; scan_v_y_emit
  | AVATAR_SCAN_V_Y_EMIT => scan_v_y_emit
  | AVATAR_SCAN_V_M_1 => save_and b AVATAR_SCAN_V_M_2
  | AVATAR_SCAN_V_M_2 => save_and b AVATAR_SCAN_V_M_3
  | AVATAR_SCAN_V_M_3 => save_and b AVATAR_SCAN_V_M_4
  | AVATAR_SCAN_V_M_4 => scan_v_m_4 b
  | AVATAR_SCAN_V => scan_v b
  | AVATAR_SCAN_ESC => scan_esc b
  | AVATAR_SCAN_CSI => scan_csi b
  | AVATAR_SCAN_CSI_PARAM => scan_csi_param b
  | AVATAR_DUMP_UNKNOWN_SEQUENCE => r ← dump_unknown_sequence to_none; mret (Some r)
  end.

Definition avatar (fuel : nat) (from_modem : Z) : EM result :=
  r ← scan_avatar fuel from_modem;
  match r with
  | Some r => mret r
  | None =>
    s ← get;
    after_switch (fun s => avatar_fallback (avatar_statics s)) put_fallback to_none to_dump to_fallback
      (avatar_ansi_fallback (flags s)) fuel from_modem
  end.

End Avatar.
End Avatar.
