(* ===== verification/Petscii.v ===== *)
(** petscii.c: the PETSCII emulation of the Commodore 64 and 128. *)

From Stdlib Require Import ZArith Lia List Bool Ascii.
From stdpp Require Import base list numbers gmap strings.
From S2P Require Import Prelude Stdio States Utf8 Codepage Colors Screen Emulation Vt100 Ansi Avatar.
Import Codepage Colors Screen Emulation Ansi.

Module Petscii.

(** ** Characters

    The 32 control characters of either half have none. *)

Definition no_chars : list Z := replicate 32 0.

Definition c64_uppercase_normal_chars : list Z :=
  no_chars ++
  [0x0020; 0xE021; 0xE022; 0xE023; 0xE024; 0xE025; 0xE026; 0xE027;
   0xE028; 0xE029; 0xE02A; 0xE02B; 0xE02C; 0xE02D; 0xE02E; 0xE02F;
   0xE030; 0xE031; 0xE032; 0xE033; 0xE034; 0xE035; 0xE036; 0xE037;
   0xE038; 0xE039; 0xE03A; 0xE03B; 0xE03C; 0xE03D; 0xE03E; 0xE03F;
   0xE040; 0xE041; 0xE042; 0xE043; 0xE044; 0xE045; 0xE046; 0xE047;
   0xE048; 0xE049; 0xE04A; 0xE04B; 0xE04C; 0xE04D; 0xE04E; 0xE04F;
   0xE050; 0xE051; 0xE052; 0xE053; 0xE054; 0xE055; 0xE056; 0xE057;
   0xE058; 0xE059; 0xE05A; 0xE05B; 0xE05C; 0xE05D; 0xE05E; 0xE05F;
   0xE060; 0xE061; 0xE062; 0xE063; 0xE064; 0xE065; 0xE066; 0xE067;
   0xE068; 0xE069; 0xE06A; 0xE06B; 0xE06C; 0xE06D; 0xE06E; 0xE06F;
   0xE070; 0xE071; 0xE072; 0xE073; 0xE074; 0xE075; 0xE076; 0xE077;
   0xE078; 0xE079; 0xE07A; 0xE07B; 0xE07C; 0xE07D; 0xE07E; 0xE07F] ++
  no_chars ++
  [0x0020; 0xE0A1; 0xE0A2; 0xE0A3; 0xE0A4; 0xE0A5; 0xE0A6; 0xE0A7;
   0xE0A8; 0xE0A9; 0xE0AA; 0xE0AB; 0xE0AC; 0xE0AD; 0xE0AE; 0xE0AF;
   0xE0B0; 0xE0B1; 0xE0B2; 0xE0B3; 0xE0B4; 0xE0B5; 0xE0B6; 0xE0B7;
   0xE0B8; 0xE0B9; 0xE0BA; 0xE0BB; 0xE0BC; 0xE0BD; 0xE0BE; 0xE0BF;
   0xE0C0; 0xE0C1; 0xE0C2; 0xE0C3; 0xE0C4; 0xE0C5; 0xE0C6; 0xE0C7;
   0xE0C8; 0xE0C9; 0xE0CA; 0xE0CB; 0xE0CC; 0xE0CD; 0xE0CE; 0xE0CF;
   0xE0D0; 0xE0D1; 0xE0D2; 0xE0D3; 0xE0D4; 0xE0D5; 0xE0D6; 0xE0D7;
   0xE0D8; 0xE0D9; 0xE0DA; 0xE0DB; 0xE0DC; 0xE0DD; 0xE0DE; 0xE0DF;
   0xE0E0; 0xE0E1; 0xE0E2; 0xE0E3; 0xE0E4; 0xE0E5; 0xE0E6; 0xE0E7;
   0xE0E8; 0xE0E9; 0xE0EA; 0xE0EB; 0xE0EC; 0xE0ED; 0xE0EE; 0xE0EF;
   0xE0F0; 0xE0F1; 0xE0F2; 0xE0F3; 0xE0F4; 0xE0F5; 0xE0F6; 0xE0F7;
   0xE0F8; 0xE0F9; 0xE0FA; 0xE0FB; 0xE0FC; 0xE0FD; 0xE0FE; 0xE0FF].

Definition c64_uppercase_reverse_chars : list Z :=
  no_chars ++
  [0xE220; 0xE221; 0xE222; 0xE223; 0xE224; 0xE225; 0xE226; 0xE227;
   0xE228; 0xE229; 0xE22A; 0xE22B; 0xE22C; 0xE22D; 0xE22E; 0xE22F;
   0xE230; 0xE231; 0xE232; 0xE233; 0xE234; 0xE235; 0xE236; 0xE237;
   0xE238; 0xE239; 0xE23A; 0xE23B; 0xE23C; 0xE23D; 0xE23E; 0xE23F;
   0xE240; 0xE241; 0xE242; 0xE243; 0xE244; 0xE245; 0xE246; 0xE247;
   0xE248; 0xE249; 0xE24A; 0xE24B; 0xE24C; 0xE24D; 0xE24E; 0xE24F;
   0xE250; 0xE251; 0xE252; 0xE253; 0xE254; 0xE255; 0xE256; 0xE257;
   0xE258; 0xE259; 0xE25A; 0xE25B; 0xE25C; 0xE25D; 0xE25E; 0xE25F;
   0xE260; 0xE261; 0xE262; 0xE263; 0xE264; 0xE265; 0xE266; 0xE267;
   0xE268; 0xE269; 0xE26A; 0xE26B; 0xE26C; 0xE26D; 0xE26E; 0xE26F;
   0xE270; 0xE271; 0xE272; 0xE273; 0xE274; 0xE275; 0xE276; 0xE277;
   0xE278; 0xE279; 0xE27A; 0xE27B; 0xE27C; 0xE27D; 0xE27E; 0xE27F] ++
  no_chars ++
  [0xE2A0; 0xE2A1; 0xE2A2; 0xE2A3; 0xE2A4; 0xE2A5; 0xE2A6; 0xE2A7;
   0xE2A8; 0xE2A9; 0xE2AA; 0xE2AB; 0xE2AC; 0xE2AD; 0xE2AE; 0xE2AF;
   0xE2B0; 0xE2B1; 0xE2B2; 0xE2B3; 0xE2B4; 0xE2B5; 0xE2B6; 0xE2B7;
   0xE2B8; 0xE2B9; 0xE2BA; 0xE2BB; 0xE2BC; 0xE2BD; 0xE2BE; 0xE2BF;
   0xE2C0; 0xE2C1; 0xE2C2; 0xE2C3; 0xE2C4; 0xE2C5; 0xE2C6; 0xE2C7;
   0xE2C8; 0xE2C9; 0xE2CA; 0xE2CB; 0xE2CC; 0xE2CD; 0xE2CE; 0xE2CF;
   0xE2D0; 0xE2D1; 0xE2D2; 0xE2D3; 0xE2D4; 0xE2D5; 0xE2D6; 0xE2D7;
   0xE2D8; 0xE2D9; 0xE2DA; 0xE2DB; 0xE2DC; 0xE2DD; 0xE2DE; 0xE2DF;
   0xE2E0; 0xE2E1; 0xE2E2; 0xE2E3; 0xE2E4; 0xE2E5; 0xE2E6; 0xE2E7;
   0xE2E8; 0xE2E9; 0xE2EA; 0xE2EB; 0xE2EC; 0xE2ED; 0xE2EE; 0xE2EF;
   0xE2F0; 0xE2F1; 0xE2F2; 0xE2F3; 0xE2F4; 0xE2F5; 0xE2F6; 0xE2F7;
   0xE2F8; 0xE2F9; 0xE2FA; 0xE2FB; 0xE2FC; 0xE2FD; 0xE2FE; 0xE2FF].

Definition c64_lowercase_normal_chars : list Z :=
  no_chars ++
  [0x0020; 0xE121; 0xE122; 0xE123; 0xE124; 0xE125; 0xE126; 0xE127;
   0xE128; 0xE129; 0xE12A; 0xE12B; 0xE12C; 0xE12D; 0xE12E; 0xE12F;
   0xE130; 0xE131; 0xE132; 0xE133; 0xE134; 0xE135; 0xE136; 0xE137;
   0xE138; 0xE139; 0xE13A; 0xE13B; 0xE13C; 0xE13D; 0xE13E; 0xE13F;
   0xE140; 0xE141; 0xE142; 0xE143; 0xE144; 0xE145; 0xE146; 0xE147;
   0xE148; 0xE149; 0xE14A; 0xE14B; 0xE14C; 0xE14D; 0xE14E; 0xE14F;
   0xE150; 0xE151; 0xE152; 0xE153; 0xE154; 0xE155; 0xE156; 0xE157;
   0xE158; 0xE159; 0xE15A; 0xE15B; 0xE15C; 0xE15D; 0xE15E; 0xE15F;
   0xE160; 0xE161; 0xE162; 0xE163; 0xE164; 0xE165; 0xE166; 0xE167;
   0xE168; 0xE169; 0xE16A; 0xE16B; 0xE16C; 0xE16D; 0xE16E; 0xE16F;
   0xE170; 0xE171; 0xE172; 0xE173; 0xE174; 0xE175; 0xE176; 0xE177;
   0xE178; 0xE179; 0xE17A; 0xE17B; 0xE17C; 0xE17D; 0xE17E; 0xE17F] ++
  no_chars ++
  [0x0020; 0xE1A1; 0xE1A2; 0xE1A3; 0xE1A4; 0xE1A5; 0xE1A6; 0xE1A7;
   0xE1A8; 0xE1A9; 0xE1AA; 0xE1AB; 0xE1AC; 0xE1AD; 0xE1AE; 0xE1AF;
   0xE1B0; 0xE1B1; 0xE1B2; 0xE1B3; 0xE1B4; 0xE1B5; 0xE1B6; 0xE1B7;
   0xE1B8; 0xE1B9; 0xE1BA; 0xE1BB; 0xE1BC; 0xE1BD; 0xE1BE; 0xE1BF;
   0xE1C0; 0xE1C1; 0xE1C2; 0xE1C3; 0xE1C4; 0xE1C5; 0xE1C6; 0xE1C7;
   0xE1C8; 0xE1C9; 0xE1CA; 0xE1CB; 0xE1CC; 0xE1CD; 0xE1CE; 0xE1CF;
   0xE1D0; 0xE1D1; 0xE1D2; 0xE1D3; 0xE1D4; 0xE1D5; 0xE1D6; 0xE1D7;
   0xE1D8; 0xE1D9; 0xE1DA; 0xE1DB; 0xE1DC; 0xE1DD; 0xE1DE; 0xE1DF;
   0xE1E0; 0xE1E1; 0xE1E2; 0xE1E3; 0xE1E4; 0xE1E5; 0xE1E6; 0xE1E7;
   0xE1E8; 0xE1E9; 0xE1EA; 0xE1EB; 0xE1EC; 0xE1ED; 0xE1EE; 0xE1EF;
   0xE1F0; 0xE1F1; 0xE1F2; 0xE1F3; 0xE1F4; 0xE1F5; 0xE1F6; 0xE1F7;
   0xE1F8; 0xE1F9; 0xE1FA; 0xE1FB; 0xE1FC; 0xE1FD; 0xE1FE; 0xE1FF].

Definition c64_lowercase_reverse_chars : list Z :=
  no_chars ++
  [0xE320; 0xE321; 0xE322; 0xE323; 0xE324; 0xE325; 0xE326; 0xE327;
   0xE328; 0xE329; 0xE32A; 0xE32B; 0xE32C; 0xE32D; 0xE32E; 0xE32F;
   0xE330; 0xE331; 0xE332; 0xE333; 0xE334; 0xE335; 0xE336; 0xE337;
   0xE338; 0xE339; 0xE33A; 0xE33B; 0xE33C; 0xE33D; 0xE33E; 0xE33F;
   0xE340; 0xE341; 0xE342; 0xE343; 0xE344; 0xE345; 0xE346; 0xE347;
   0xE348; 0xE349; 0xE34A; 0xE34B; 0xE34C; 0xE34D; 0xE34E; 0xE34F;
   0xE350; 0xE351; 0xE352; 0xE353; 0xE354; 0xE355; 0xE356; 0xE357;
   0xE358; 0xE359; 0xE35A; 0xE35B; 0xE35C; 0xE35D; 0xE35E; 0xE35F;
   0xE360; 0xE361; 0xE362; 0xE363; 0xE364; 0xE365; 0xE366; 0xE367;
   0xE368; 0xE369; 0xE36A; 0xE36B; 0xE36C; 0xE36D; 0xE36E; 0xE36F;
   0xE370; 0xE371; 0xE372; 0xE373; 0xE374; 0xE375; 0xE376; 0xE377;
   0xE378; 0xE379; 0xE37A; 0xE37B; 0xE37C; 0xE37D; 0xE37E; 0xE37F] ++
  no_chars ++
  [0xE3A0; 0xE3A1; 0xE3A2; 0xE3A3; 0xE3A4; 0xE3A5; 0xE3A6; 0xE3A7;
   0xE3A8; 0xE3A9; 0xE3AA; 0xE3AB; 0xE3AC; 0xE3AD; 0xE3AE; 0xE3AF;
   0xE3B0; 0xE3B1; 0xE3B2; 0xE3B3; 0xE3B4; 0xE3B5; 0xE3B6; 0xE3B7;
   0xE3B8; 0xE3B9; 0xE3BA; 0xE3BB; 0xE3BC; 0xE3BD; 0xE3BE; 0xE3BF;
   0xE3C0; 0xE3C1; 0xE3C2; 0xE3C3; 0xE3C4; 0xE3C5; 0xE3C6; 0xE3C7;
   0xE3C8; 0xE3C9; 0xE3CA; 0xE3CB; 0xE3CC; 0xE3CD; 0xE3CE; 0xE3CF;
   0xE3D0; 0xE3D1; 0xE3D2; 0xE3D3; 0xE3D4; 0xE3D5; 0xE3D6; 0xE3D7;
   0xE3D8; 0xE3D9; 0xE3DA; 0xE3DB; 0xE3DC; 0xE3DD; 0xE3DE; 0xE3DF;
   0xE3E0; 0xE3E1; 0xE3E2; 0xE3E3; 0xE3E4; 0xE3E5; 0xE3E6; 0xE3E7;
   0xE3E8; 0xE3E9; 0xE3EA; 0xE3EB; 0xE3EC; 0xE3ED; 0xE3EE; 0xE3EF;
   0xE3F0; 0xE3F1; 0xE3F2; 0xE3F3; 0xE3F4; 0xE3F5; 0xE3F6; 0xE3F7;
   0xE3F8; 0xE3F9; 0xE3FA; 0xE3FB; 0xE3FC; 0xE3FD; 0xE3FE; 0xE3FF].

Definition c64_uppercase_unicode_chars : list Z :=
  no_chars ++
  [0x0020; 0x0021; 0x0022; 0x0023; 0x0024; 0x0025; 0x0026; 0x0027;
   0x0028; 0x0029; 0x002A; 0x002B; 0x002C; 0x002D; 0x002E; 0x002F;
   0x0030; 0x0031; 0x0032; 0x0033; 0x0034; 0x0035; 0x0036; 0x0037;
   0x0038; 0x0039; 0x003A; 0x003B; 0x003C; 0x003D; 0x003E; 0x003F;
   0x0040; 0x0041; 0x0042; 0x0043; 0x0044; 0x0045; 0x0046; 0x0047;
   0x0048; 0x0049; 0x004A; 0x004B; 0x004C; 0x004D; 0x004E; 0x004F;
   0x0050; 0x0051; 0x0052; 0x0053; 0x0054; 0x0055; 0x0056; 0x0057;
   0x0058; 0x0059; 0x005A; 0x005B; 0x00A3; 0x005D; 0x2191; 0x2190;
   0x2500; 0x2660; 0x2502; 0x2500; 0xE064; 0xE065; 0xE066; 0xE067;
   0xE068; 0x256E; 0x2570; 0x256F; 0xE06C; 0x2572; 0x2571; 0xE06F;
   0xE070; 0x2022; 0xE072; 0x2665; 0xE074; 0x256D; 0x2573; 0x25CB;
   0x2663; 0xE079; 0x2666; 0x253C; 0xE07C; 0x2502; 0x03C0; 0x25E5] ++
  no_chars ++
  [0x0020; 0x258C; 0x2584; 0x2594; 0x2581; 0x258E; 0x2592; 0xE0A7;
   0xE0A8; 0x25E4; 0xE0AA; 0x251C; 0x2597; 0x2514; 0x2510; 0x2582;
   0x250C; 0x2534; 0x252C; 0x2524; 0x258E; 0x258D; 0xE0B6; 0xE0B7;
   0xE0B8; 0x2583; 0xE0BA; 0x2596; 0x259C; 0x2518; 0x2598; 0x259A;
   0x2500; 0x2660; 0x2502; 0x2500; 0xE0C4; 0xE0C5; 0xE0C6; 0xE0C7;
   0xE0C8; 0x256E; 0x2570; 0x256F; 0xE0CC; 0x2572; 0x2571; 0xE0CF;
   0xE0D0; 0x2022; 0xE0D2; 0x2665; 0xE0D4; 0x256D; 0x2573; 0x25CB;
   0x2663; 0xE0D9; 0x2666; 0x253C; 0xE0DC; 0x2502; 0x03C0; 0x25E5;
   0x0020; 0x258C; 0x2584; 0x2594; 0x2581; 0x258E; 0x2592; 0xE0E7;
   0xE0E8; 0x25E4; 0xE0EA; 0x251C; 0x2597; 0x2514; 0x2510; 0x2582;
   0x250C; 0x2534; 0x252C; 0x2524; 0x258E; 0x258D; 0xE0F6; 0xE0F7;
   0xE0F8; 0x2583; 0xE0FA; 0x2596; 0x259C; 0x2518; 0x2598; 0x03C0].

Definition c64_lowercase_unicode_chars : list Z :=
  no_chars ++
  [0x0020; 0x0021; 0x0022; 0x0023; 0x0024; 0x0025; 0x0026; 0x0027;
   0x0028; 0x0029; 0x002A; 0x002B; 0x002C; 0x002D; 0x002E; 0x002F;
   0x0030; 0x0031; 0x0032; 0x0033; 0x0034; 0x0035; 0x0036; 0x0037;
   0x0038; 0x0039; 0x003A; 0x003B; 0x003C; 0x003D; 0x003E; 0x003F;
   0x0060; 0x0061; 0x0062; 0x0063; 0x0064; 0x0065; 0x0066; 0x0067;
   0x0068; 0x0069; 0x006A; 0x006B; 0x006C; 0x006D; 0x006E; 0x006F;
   0x0070; 0x0071; 0x0072; 0x0073; 0x0074; 0x0075; 0x0076; 0x0077;
   0x0078; 0x0079; 0x007A; 0x005B; 0x00A3; 0x005D; 0x2191; 0x2190;
   0x2500; 0x0041; 0x0042; 0x0043; 0x0044; 0x0045; 0x0046; 0x0047;
   0x0048; 0x0049; 0x004A; 0x004B; 0x004C; 0x004D; 0x004E; 0x004F;
   0x0050; 0x0051; 0x0052; 0x0053; 0x0054; 0x0055; 0x0056; 0x0057;
   0x0058; 0x0059; 0x005A; 0x253C; 0xE17C; 0x2502; 0xE17E; 0xE17F] ++
  no_chars ++
  [0x0020; 0x258C; 0x2584; 0x2594; 0x2581; 0x258E; 0x2592; 0xE1A7;
   0xE1A8; 0xE1A9; 0xE1AA; 0x251C; 0x2597; 0x2514; 0x2510; 0x2582;
   0x250C; 0x2534; 0x252C; 0x2524; 0x258E; 0x258D; 0xE1B6; 0xE1B7;
   0xE1B8; 0x2583; 0x2713; 0x2596; 0x259C; 0x2518; 0x2598; 0x259A;
   0x2500; 0x0041; 0x0042; 0x0043; 0x0044; 0x0045; 0x0046; 0x0047;
   0x0048; 0x0049; 0x004A; 0x004B; 0x004C; 0x004D; 0x004E; 0x004F;
   0x0050; 0x0051; 0x0052; 0x0053; 0x0054; 0x0055; 0x0056; 0x0057;
   0x0058; 0x0059; 0x005A; 0x253C; 0xE17C; 0x2502; 0xE17E; 0xE17F;
   0x2663; 0xE179; 0x2666; 0x253C; 0xE17C; 0x2502; 0xE1DE; 0xE1DF;
   0x0020; 0x258C; 0x2584; 0x2594; 0x2581; 0x258E; 0x2592; 0xE1E7;
   0xE1E8; 0xE1E9; 0xE1EA; 0x251C; 0x2597; 0x2514; 0x2510; 0x2582;
   0x250C; 0x2534; 0x252C; 0x2524; 0x258E; 0x258D; 0xE1F6; 0xE1F7;
   0xE1F8; 0x2583; 0x2713; 0x2596; 0x259C; 0x2518; 0x2598; 0xE1FF].

(** The font of the machine, or what Unicode has of it. *)
Definition petscii_char (unicode upper reversed : bool) (b : Z) : Z :=
  let table :=
    if unicode then (if upper then c64_uppercase_unicode_chars else c64_lowercase_unicode_chars)
    else if upper then (if reversed then c64_uppercase_reverse_chars else c64_uppercase_normal_chars)
    else (if reversed then c64_lowercase_reverse_chars else c64_lowercase_normal_chars) in
  table !!! Z.to_nat b.

Section Petscii.
Context {C : Curses}.

Definition petscii_scan (q : PETSCII_SCAN_STATE) : EM unit := on_petscii (fun v => v <| petscii_scan_state := q |>).

Definition petscii_reset : EM unit :=
  on_petscii (fun v => v <| petscii_scan_state := PETSCII_SCAN_NONE |> <| uppercase := false |> <| reverse := false |>).

Definition clear_state : EM unit :=
  on_status (fun q => q <| insert_mode := false |>);; clear_buffer;; petscii_scan PETSCII_SCAN_NONE.

(** ** Control characters

    Each sets a colour or does something; the colour is put together after either. *)

Definition bright (c : Z) (attributes : Z) : Z * Z := (c, Z.lor attributes A_BOLD).
Definition dark (c : Z) (attributes : Z) : Z * Z := (c, Z.land attributes (Z.lnot A_BOLD)).
Definition same (c : Z) (attributes : Z) : Z * Z := (c, attributes).

Definition petscii_colors : list (Z * (Z -> Z * Z)) :=
  [(0x05, bright Q_COLOR_WHITE); (0x1C, same Q_COLOR_RED); (0x1E, same Q_COLOR_GREEN); (0x1F, same Q_COLOR_BLUE);
   (0x81, bright Q_COLOR_RED); (0x90, same Q_COLOR_BLACK); (0x95, dark Q_COLOR_YELLOW);
   (0x96, bright Q_COLOR_MAGENTA); (0x97, bright Q_COLOR_BLACK); (0x98, dark Q_COLOR_WHITE);
   (0x99, bright Q_COLOR_GREEN); (0x9A, bright Q_COLOR_BLUE); (0x9B, dark Q_COLOR_WHITE);
   (0x9C, dark Q_COLOR_MAGENTA); (0x9E, bright Q_COLOR_YELLOW); (0x9F, dark Q_COLOR_CYAN)].

Fixpoint color_of (b : Z) (l : list (Z * (Z -> Z * Z))) : option (Z -> Z * Z) :=
  match l with
  | [] => None
  | (c, f) :: l => if b =? c then Some f else color_of b l
  end.

Definition set_uppercase (on : bool) : EM unit := on_petscii (fun v => v <| uppercase := on |>).
Definition set_reverse (on : bool) : EM unit := on_petscii (fun v => v <| reverse := on |>).

(** Right of column 39 and left of column 0 are the next line and the last one. *)
Definition petscii_right : EM unit :=
  x ← status cursor_x; draw (if x =? 39 then cursor_linefeed true else cursor_right 1 false).
Definition petscii_left : EM unit :=
  q ← status id;
  draw (if (cursor_x q =? 0) && (0 <? cursor_y q) then cursor_position (cursor_y q - 1) 39 else cursor_left 1 false).

Definition petscii_clear : EM unit :=
  s ← get;
  draw (erase_screen 0 0 (last_row (screen s)) (WIDTH (screen s) - 1) false);;
  draw (cursor_position 0 0).

Definition petscii_action (fuel : nat) (b : Z) : EM unit :=
  f ← gets flags;
  let c128 m := whenM (negb (petscii_is_c64 f)) m in
  if b =? 0x07 then c128 (draw (Screen.emit Beep))
  else if b =? 0x09 then c128 (draw (print_tab fuel))
  else if b =? 0x0A then c128 (draw (cursor_linefeed false))
  else if b =? 0x0D then draw (cursor_linefeed true)
  else if b =? 0x0E then set_uppercase false
  else if b =? 0x11 then draw (cursor_linefeed false)
  else if b =? 0x12 then set_reverse true
  else if b =? 0x13 then draw (cursor_position 0 0)
  else if b =? 0x14 then draw (delete_character 1)
  else if b =? 0x1D then petscii_right
  else if b =? 0x8E then set_uppercase true
  else if b =? 0x91 then draw (cursor_up 1 false)
  else if b =? 0x92 then set_reverse false
  else if b =? 0x93 then petscii_clear
  else if b =? 0x94 then draw (insert_blanks 1)
  else whenM (b =? 0x9D) petscii_left.

Definition petscii_handle_control_char (fuel : nat) (control_char : Z) : EM unit :=
  s ← get;
  let attributes := Z.land (q_current_color (screen s)) NO_COLOR_MASK in
  let curses_color := color_from_attr (q_current_color (screen s)) in
  let foreground := i16 (Z.shiftr (Z.land curses_color 0x38) 3) in
  let background := i16 (Z.land curses_color 0x07) in
  let '(foreground, attributes) :=
    match color_of control_char petscii_colors with
    | Some f => f attributes
    | None => (foreground, attributes)
    end in
  petscii_action fuel control_char;;
  set_color_to (Z.lor attributes (color_to_attr (i16 (Z.lor (Z.shiftl foreground 3) background)))).

(** ** The scanner *)

Definition finish (m : EM unit) : EM (option result) := m;; clear_state;; mret (Some no_char_yet).

Definition keep_counter (c : csi_counter) : EM unit := on_petscii (fun v => v <| petscii_counter := c |>).

Definition scan_esc (b : Z) : EM (option result) :=
  save_char b;;
  f ← gets flags;
  if (b =? chr "[") && petscii_color f then more (petscii_scan PETSCII_SCAN_CSI) else mret None.

Definition scan_csi (b : Z) : EM (option result) :=
  save_char b;;
  if q_isdigit b then
    s ← get;
    keep_counter ((petscii_counter (petscii_statics s)) <| count := q_emul_buffer_n s - 1 |>);;
    more (petscii_scan PETSCII_SCAN_CSI_PARAM)
  else if b =? chr "m" then finish default_attributes
  else mret None.

Definition scan_csi_param (b : Z) : EM (option result) :=
  save_char b;;
  if q_isdigit b || (b =? chr ";") then more (mret tt)
  else if b =? chr "m" then
    s ← get;
    ok ← text_attributes (petscii_counter (petscii_statics s)) keep_counter;
    if ok : bool then finish (mret tt) else mret None
  else mret None.

Definition scan_none (fuel : nat) (b : Z) : EM (option result) :=
  s ← get;
  let f := flags s in
  let v := petscii_statics s in
  if (b =? C_ESC) && (petscii_color f || petscii_ansi_fallback f) then
    more (save_char b;; petscii_scan PETSCII_SCAN_ESC)
  else if (b <? 0x20) || ((0x80 <=? b) && (b <? 0xA0)) then more (petscii_handle_control_char fuel b)
  else
    whenM (petscii_use_unicode f)
      (let c := q_current_color (screen s) in
       set_color_to (if reverse v then Z.lor c A_REVERSE else Z.land c (Z.lnot A_REVERSE)));;
    mret (Some (Q_EMUL_FSM_ONE_CHAR, petscii_char (petscii_use_unicode f) (uppercase v) (reverse v) b)).

Definition put_fallback (f : ansi_fallback) : EM unit := on_petscii (fun v => v <| petscii_fallback := f |>).
Definition to_none : EM unit := petscii_scan PETSCII_SCAN_NONE.
Definition to_dump : EM unit := petscii_scan PETSCII_DUMP_UNKNOWN_SEQUENCE.
Definition to_fallback : EM unit := petscii_scan PETSCII_SCAN_ANSI_FALLBACK.

Definition scan_petscii (fuel : nat) (b : Z) : EM (option result) :=
  s ← get;
  match petscii_scan_state (petscii_statics s) with
  | PETSCII_SCAN_ANSI_FALLBACK =>
      r ← Avatar.scan_ansi_fallback (fun s => petscii_fallback (petscii_statics s)) put_fallback to_none to_dump fuel b;
      mret (Some r)
  | PETSCII_DUMP_UNKNOWN_SEQUENCE => r ← Avatar.dump_unknown_sequence to_none; mret (Some r)
  | PETSCII_SCAN_ESC => scan_esc b
  | PETSCII_SCAN_CSI => scan_csi b
  | PETSCII_SCAN_CSI_PARAM => scan_csi_param b
  | PETSCII_SCAN_NONE => scan_none fuel b
  end.

Definition petscii (fuel : nat) (from_modem : Z) : EM result :=
  wide ← status petscii_has_wide_font;
  whenM (negb wide) (draw (set_double_width true));;
  r ← scan_petscii fuel from_modem;
  match r with
  | Some r => mret r
  | None =>
    s ← get;
    Avatar.after_switch (fun s => petscii_fallback (petscii_statics s)) put_fallback to_none to_dump to_fallback
      (petscii_ansi_fallback (flags s)) fuel from_modem
  end.

End Petscii.
End Petscii.
