(* ===== verification/Debug.v ===== *)
(** emulation.c: the debugging emulation, a hexadecimal dump of what comes in. *)

From Stdlib Require Import ZArith Lia List Bool Ascii.
From stdpp Require Import base list numbers gmap strings.
From S2P Require Import Prelude Stdio States Utf8 Codepage Colors Screen Emulation.
Import Codepage Colors Screen Emulation.

Module Debug.

(** ["%0<width>x"] *)
Fixpoint hex_digits (fuel : nat) (n : Z) (acc : list Z) : list Z :=
  match fuel with
  | O => acc
  | S fuel =>
    let d := n mod 16 in
    let acc := (if d <? 10 then 48 + d else 87 + d) :: acc in
    if n / 16 =? 0 then acc else hex_digits fuel (n / 16) acc
  end.
Definition print_hex (width : nat) (n : Z) : list Z :=
  let ds := hex_digits 16 n [] in replicate (width - length ds) 48 ++ ds.

Section Debug.
Context {C : Curses}.

(** [while (cursor_x < new_col) print_character(' ')] *)
Fixpoint advance_loop (fuel : nat) (new_col : Z) : SM unit :=
  match fuel with
  | O => diverge
  | S fuel =>
    x ← Screen.status cursor_x;
    if x <? new_col then print_character 32;; advance_loop fuel new_col else mret tt
  end.
Definition advance_to (fuel : nat) (new_col : Z) : SM unit :=
  if new_col <? 0 then mret tt else advance_loop fuel new_col.

Definition print_text (l : list Z) : SM unit := forM l print_character.

(** The sum that both functions below take of the two counters. *)
Definition bytes_seen (s : emul_state) : Z := u64 (q_connection_bytes_received s + u64 (local_echo_count s)).

(** A cell of the current line. *)
Definition put_char (i v : Z) : SM unit := p ← pointer q_scrollback_current; set_char p i v.
Definition put_color (i v : Z) : SM unit := p ← pointer q_scrollback_current; set_color p i v.

(** snprintf() into 15 bytes. *)
Definition print_byte_offset : EM unit :=
  s ← get;
  draw (print_text (take 14 (str " " ++ print_hex 8 (bytes_seen s) ++ str " | ")));;
  s ← get;
  let color := q_current_color (screen s) in
  draw (for_up 0 (WIDTH (screen s)) (fun i => put_color i color);;
        put_char 60 (chr "|");;
        put_color 60 color).

Definition print_printable_chars (fuel : nat) : EM unit :=
  draw (advance_to fuel 60;; print_character (chr "|");; print_character 32);;
  loop 0 16 (fun i =>
    l ← draw current;
    color ← load (colors l) (i + 62);
    set_color_to color;;
    c ← load (chars l) (i + 62);
    draw (print_character c);;
    default ← console_color;
    set_color_to default).

Definition header : list Z :=
  str " OFFSET   | BYTES                                           | CHARACTERS ".

Definition debug_reset : EM unit :=
  e ← status emulation;
  whenM (bool_decide (e = Q_EMUL_DEBUG))
    (c ← console_color;
     set_color_to c;;
     on_flags (fun f => f <| full_duplex := true |>);;
     on_status (fun q => q <| line_feed_on_cr := false |>);;
     draw (cursor_linefeed true;; print_text header;; cursor_linefeed true);;
     modify (fun s => s <| local_echo_count := 0 |>);;
     print_byte_offset).

Definition debug_finish (fuel : nat) : EM unit :=
  print_printable_chars fuel;; draw (cursor_linefeed true).

Definition debug_print_character (fuel : nat) (ch : Z) (q_color : Q_COLOR) : EM unit :=
  s ← get;
  let offset := u64 (bytes_seen s - 1) mod 16 in
  draw (advance_to fuel (offset * 3 + 12));;
  let color := scrollback_full_attr (q_text_colors (screen s)) q_color in
  set_color_to color;;
  draw (print_text (take 2 (print_hex 2 ch)));;
  c ← map_char ch;
  draw (put_char (62 + offset) c;;
        put_color (62 + offset) color;;
        p ← pointer q_scrollback_current;
        Screen.update p (fun l => l <| line_length := 62 + offset + 1 |>));;
  default ← console_color;
  set_color_to default;;
  if offset =? 15 then
    print_printable_chars fuel;; draw (cursor_linefeed true);; print_byte_offset
  else if offset =? 7 then draw (print_character (chr "-"))
  else draw (print_character 32).

Definition debug_local_echo (fuel : nat) (ch : Z) : EM unit :=
  modify (fun s => s <| local_echo_count ::= fun n => i32 (n + 1) |>);;
  debug_print_character fuel ch Q_COLOR_DEBUG_ECHO.

Definition debug_emulator (fuel : nat) (from_modem : Z) : EM result :=
  debug_print_character fuel from_modem Q_COLOR_CONSOLE_TEXT;;
  mret no_char_yet.

End Debug.
End Debug.
