(* ===== verification/Terminal.v ===== *)
(** emulation.c and console.c: one byte from the other side goes through the emulation
    that is selected, and what comes out is printed. *)

From Stdlib Require Import ZArith Lia List Bool Ascii.
From stdpp Require Import base list numbers gmap strings.
From S2P Require Import Prelude Stdio States Utf8 Codepage Colors Screen Emulation Vt100 Vt100Machine Ansi Vt52 Atascii Avatar Petscii Debug.
Import Codepage Colors Screen Emulation Vt100 Vt100Machine.

Module Terminal.

Section Terminal.
Context {C : Curses}.
Context (fuel : nat).

(** The emulations that see every byte. *)
Definition handles_newlines (e : Q_EMULATION) : bool :=
  match e with
  | Q_EMUL_VT100 | Q_EMUL_VT102 | Q_EMUL_VT220 | Q_EMUL_LINUX | Q_EMUL_LINUX_UTF8 | Q_EMUL_XTERM
  | Q_EMUL_XTERM_UTF8 | Q_EMUL_AVATAR | Q_EMUL_PETSCII | Q_EMUL_ATASCII | Q_EMUL_DEBUG => true
  | _ => false
  end.

Definition set_last_state (q : Q_EMULATION_STATUS) : EM unit := modify (fun s => s <| last_state := q |>).

(** The switch on the emulation. *)
Definition emulate (b : Z) : EM result :=
  e ← status emulation;
  match e with
  | Q_EMUL_VT100 | Q_EMUL_VT102 | Q_EMUL_VT220 | Q_EMUL_LINUX | Q_EMUL_LINUX_UTF8 | Q_EMUL_XTERM
  | Q_EMUL_XTERM_UTF8 => vt100 b
  | Q_EMUL_TTY => tty fuel b
  | Q_EMUL_ANSI => Ansi.ansi fuel b
  | Q_EMUL_VT52 => Vt52.vt52 fuel b
  | Q_EMUL_AVATAR => Avatar.avatar fuel b
  | Q_EMUL_PETSCII => Petscii.petscii fuel b
  | Q_EMUL_ATASCII => Atascii.atascii b
  | Q_EMUL_DEBUG => Debug.debug_emulator fuel b
  end.

(** The next character of an unknown sequence. *)
Definition dump : EM result :=
  s ← get;
  if q_emul_buffer_n s =? 0 then set_last_state Q_EMUL_FSM_NO_CHAR_YET;; mret (Q_EMUL_FSM_NO_CHAR_YET, 0)
  else
    b ← load (q_emul_buffer s) (q_emul_buffer_i s);
    c ← map_char b;
    modify (fun s => s <| q_emul_buffer_i ::= Z.succ |>);;
    s ← get;
    whenM (q_emul_buffer_i s =? q_emul_buffer_n s) clear_buffer;;
    mret (Q_EMUL_FSM_MANY_CHARS, c).

(** The bytes of a repeated sequence; one of them can put another sequence in their
    place.  A sequence has at most 255 times 255 bytes. *)
Fixpoint repeat_from (turns : nat) (i : nat) : EM unit :=
  match turns with
  | O => diverge
  | S turns =>
    s ← get;
    match q_emul_repeat_state_buffer s !! i with
    | None => mret tt
    | Some b =>
      '(q, c) ← emulate b;
      set_last_state q;;
      whenM (bool_decide (q = Q_EMUL_FSM_ONE_CHAR)) (c ← map_char (u8 c); draw (print_character c));;
      repeat_from turns (S i)
    end
  end.

Definition repeat_state : EM result :=
  repeat_from (Z.to_nat (255 * 255 + 1)) 0;;
  modify (fun s => s <| q_emul_repeat_state_buffer := [] |>);;
  set_last_state Q_EMUL_FSM_NO_CHAR_YET;;
  mret no_char_yet.

Definition terminal_emulator (from_modem : Z) : EM result :=
  s ← get;
  whenM (127 <=? u64 (q_emul_buffer_n s)) (clear_buffer;; set_last_state Q_EMUL_FSM_NO_CHAR_YET);;
  s ← get;
  let e := emulation (q_status (screen s)) in
  if bool_decide (last_state s = Q_EMUL_FSM_MANY_CHARS) then
    match e with
    | Q_EMUL_AVATAR | Q_EMUL_PETSCII | Q_EMUL_ATASCII =>
        r ← emulate from_modem; set_last_state r.1;; mret r
    | _ => dump
    end
  else
    modify (fun s => s <| q_connection_bytes_received ::= fun n => u64 (n + 1) |>);;
    if negb (handles_newlines e) && (from_modem =? 0x0D) then draw cursor_carriage_return;; mret no_char_yet
    else if negb (handles_newlines e) && (from_modem =? 0x0A) then draw (cursor_linefeed false);; mret no_char_yet
    else
      r ← emulate from_modem;
      set_last_state r.1;;
      if bool_decide (r.1 = Q_EMUL_FSM_REPEAT_STATE) then repeat_state else mret r.

(** [for (;;)] of console_process_incoming_data(): print what the emulation returns, and
    go on while there is more; at most [n] times. *)
Fixpoint print_emulated (n : nat) (r : result) : EM unit :=
  match n with
  | O => diverge
  | S n =>
    match r.1 with
    | Q_EMUL_FSM_ONE_CHAR => draw (print_character r.2)
    | Q_EMUL_FSM_NO_CHAR_YET => mret tt
    | _ => draw (print_character r.2);; r ← terminal_emulator 255; print_emulated n r
    end
  end.

(** A byte that no other part of console_process_incoming_data() wants. *)
Definition console_byte (b : Z) : EM unit := r ← terminal_emulator b; print_emulated fuel r.

Definition console_bytes (l : list Z) : EM unit := each l console_byte.

(** ** Selecting an emulation *)

(** The statics before any reset. *)
Definition initial_vt100 : vt100_state := {|
  singleshift := SS_NONE; vt52_mode := false; dec_private_mode_flag := false; shift_out := false;
  saved_origin_mode := false; columns_132 := false; overridden_line_wrap := false;
  g0_charset := CHARSET_US; g1_charset := CHARSET_DRAWING; saved_cursor_x := -1; saved_cursor_y := -1;
  tab_stops := []; saved_attributes := -1; saved_attributes_is_default_color := false;
  saved_g0_charset := CHARSET_US; saved_g1_charset := CHARSET_DRAWING; s8c1t_mode := false;
  printer_controller_mode := false; g2_charset := CHARSET_US; g3_charset := CHARSET_US;
  gr_charset := CHARSET_DEC_SUPPLEMENTAL; saved_g2_charset := CHARSET_US; saved_g3_charset := CHARSET_US;
  saved_gr_charset := CHARSET_DEC_SUPPLEMENTAL; saved_linewrap := false;
  saved_lockshift_gl := LOCKSHIFT_NONE; saved_lockshift_gr := LOCKSHIFT_NONE;
  lockshift_gl := LOCKSHIFT_NONE; lockshift_gr := LOCKSHIFT_NONE;
  utf8 := {| Utf8.d_state := 0; Utf8.d_char := 0 |}; rep_ch := 0;
  params := replicate 16 []; params_n := 0 |}.

Definition initial (t : screen_state) (f : emulation_flags) (enq_answerback : list Z) : emul_state := {|
  screen := t; flags := f; q_emul_buffer := replicate 128 0; q_emul_buffer_n := 0; q_emul_buffer_i := 0;
  q_emul_repeat_state_buffer := []; last_state := Q_EMUL_FSM_NO_CHAR_YET; q_connection_bytes_received := 0;
  local_echo_count := 0;
  scan_state := SCAN_GROUND; state := initial_vt100; q_vt100_arrow_keys := Q_EMUL_TTY;
  q_vt100_new_line_mode := false; is_default_color := false;
  q_vt100_keypad_mode := (Q_EMUL_VT100, Q_KEYPAD_MODE_NUMERIC);
  q_linux_beep_frequency := DEFAULT_BEEP_FREQUENCY; q_linux_beep_duration := DEFAULT_BEEP_DURATION;
  q_xterm_mouse_protocol := XTERM_MOUSE_OFF; q_xterm_mouse_encoding := XTERM_MOUSE_ENCODING_X10;
  previous_aixterm_color := 0;
  vt52_statics := {| vt52_scan_state := VT52_SCAN_NONE; graphics_mode := false;
    q_vt52_alternate_keypad_mode := false; vt52_counter := no_counter |};
  ansi_statics := {| ansi_scan_state := ANSI_SCAN_NONE; ansi_saved_cursor_x := 0; ansi_saved_cursor_y := 0;
    rep_character := 0; private_mode_flag := false; ansi_dec_private_mode_flag := false;
    discard_mode_flag := false; music_buffer := replicate 1024 0; music_buffer_n := 0;
    old_character_color := 0; ansi_counter := no_counter |};
  avatar_statics := {| avatar_scan_state := AVATAR_SCAN_NONE; y_char := 0; y_count := 0; v_y_chars := [];
    v_y_chars_i := 0; v_y_chars_n := 0; v_jk_scrollup := false; v_jk_numlines := 0; v_jk_upper := 0;
    v_jk_left := 0; v_jk_lower := 0; v_jk_right := 0; avatar_fallback := no_fallback;
    avatar_counter := no_counter |};
  petscii_statics := {| petscii_scan_state := PETSCII_SCAN_NONE; uppercase := false; reverse := false;
    petscii_fallback := no_fallback; petscii_counter := no_counter |};
  atascii_statics := {| atascii_reverse := false; print_control_char := false; atascii_tab_stops := [] |};
  answerback := enq_answerback; log := [] |}.

Definition hard_backspace_of (e : Q_EMULATION) : bool :=
  match e with
  | Q_EMUL_LINUX | Q_EMUL_LINUX_UTF8 | Q_EMUL_VT220 | Q_EMUL_XTERM | Q_EMUL_XTERM_UTF8 => false
  | _ => true
  end.

Definition reset_others : EM unit :=
  Ansi.ansi_reset;; Vt52.vt52_reset;; Avatar.avatar_reset;; Petscii.petscii_reset;; Atascii.atascii_reset.

Definition reset_emulators (xterm_mouse_reporting bracketed_paste : bool) : EM unit :=
  modify (fun s => s <| q_emul_repeat_state_buffer := [] |>);;
  c ← console_color;
  set_color_to c;;
  reset_others;;
  vt100_reset;;
  Debug.debug_reset;;
  set_right_margin (-1);;
  s ← get;
  on_status (fun q => q <| scroll_region_top := 0 |> <| scroll_region_bottom := last_row (screen s) |>
                        <| reverse_video := false |> <| origin_mode := false |>);;
  e ← status emulation;
  on_flags (fun f => f <| hard_backspace := hard_backspace_of e |>);;
  whenM (bool_decide (e = Q_EMUL_PETSCII))
    (set_color_to (Z.lor (color_to_attr (Z.lor (Z.shiftl Q_COLOR_WHITE 3) Q_COLOR_BLACK)) A_BOLD));;
  modify (fun s => s <| log ::= fun l => l ++ [Mouse_listener (xterm_mouse_reporting && is_xterm e)] |>);;
  on_flags (fun f => f <| bracketed_paste_mode := bracketed_paste |>).

Definition reset_emulation (xterm_mouse_reporting bracketed_paste : bool) : EM unit :=
  clear_buffer;;
  set_last_state Q_EMUL_FSM_NO_CHAR_YET;;
  reset_emulators xterm_mouse_reporting bracketed_paste.

End Terminal.
End Terminal.
