(* ===== verification/TerminalSafe.v ===== *)
(** The emulations of vt100.c behind terminal_emulator() and the console: a stream of
    bytes from the other side. *)

From Stdlib Require Import ZArith Lia List Bool Ascii.
From stdpp Require Import base list numbers gmap strings.
From S2P Require Import Prelude Stdio States Utf8 Codepage Colors Screen ScreenList ScreenState ScreenSpec ScreenCommand Emulation Vt100 Vt100Machine EmulationInv Vt100Safe Vt100Ops Vt100Total Ansi Vt52 Atascii Avatar Petscii Debug Terminal.
Import Codepage Colors Screen ScreenList ScreenState ScreenSpec ScreenCommand Emulation Vt100 Vt100Machine EmulationInv Vt100Safe Vt100Ops Vt100Total Terminal.

Module TerminalSafe.

(** The emulations of vt100.c. *)
Definition by_vt100 (e : Q_EMULATION) : bool := is_vtxxx e || is_linux e || is_xterm e.

(** One character or none. *)
Definition plain (q : Q_EMULATION_STATUS) : Prop := q = Q_EMUL_FSM_NO_CHAR_YET \/ q = Q_EMUL_FSM_ONE_CHAR.

Section Results.
Context {C : Curses}.

(** What [m] returns when it returns. *)
Definition returns {A} (P : A -> Prop) (m : EM A) : Prop := forall s a t, m s = Done (a, t) -> P a.

Lemma returns_ret {A} (P : A -> Prop) a : P a -> returns P (mret a).
Proof. intros Ha s b t. by intros [= <- _]. Qed.

Lemma returns_seq {A B} (P : B -> Prop) (m : EM A) (k : A -> EM B) :
  (forall a, returns P (k a)) -> returns P (m ≫= k).
Proof.
  intros Hk s b u. unfold mbind, M_bind. destruct (m s) as [[a t]| |]; [|done..]. apply Hk.
Qed.

Lemma returns_if {A} (P : A -> Prop) (b : bool) m m' :
  returns P m -> returns P m' -> returns P (if b then m else m').
Proof. by destruct b. Qed.

Lemma vt100_returns b : returns (fun r => plain r.1) (vt100 b).
Proof.
  assert (Hno : returns (fun r => plain r.1) (mret no_char_yet)) by (apply returns_ret; by left).
  unfold vt100. apply returns_seq; intros e. cbv zeta. apply returns_seq; intros whole.
  apply returns_if; [done|]. apply returns_seq; intros consumed. apply returns_if; [done|].
  apply returns_seq; intros [|c|]; [done|apply returns_ret; by right|]. unfold fall_off.
  apply returns_seq; intros e'. apply returns_if; [|done].
  do 3 (apply returns_seq; intros ?). apply returns_ret. by right.
Qed.

Lemma wp_knowing {A} (P : A -> Prop) (m : EM A) s (Q : A -> emul_state -> Prop) :
  returns P m -> wp m s Q -> wp m s (fun a t => P a /\ Q a t).
Proof.
  intros Hm H. destruct (wp_run _ _ _ H) as (a & t & E & HQ). apply (wp_done _ _ _ _ _ E). split; [by eapply Hm|done].
Qed.

End Results.

Section TerminalSafe.
Context {C : Curses} {L : CursesLaws C}.
Context (fuel : nat).

(** The state in which the emulation sees the next byte: what does not fit any more has
    been thrown away. *)
Definition junked (s : emul_state) : emul_state :=
  if 127 <=? q_emul_buffer_n s
  then s <| q_emul_buffer_n := 0 |> <| q_emul_buffer_i := 0 |> <| q_emul_buffer := replicate 128 0 |>
         <| last_state := Q_EMUL_FSM_NO_CHAR_YET |>
  else s.

(** Every byte that ends a sequence finds its arguments in range, up to the first byte
    that does not. *)
Fixpoint well_ranged (l : list Z) (s : emul_state) : bool :=
  match l with
  | [] => true
  | b :: l =>
    in_range (seen (emulation (q_status (screen s))) b) (junked s) &&
    match console_byte fuel b s with Done (_, t) => well_ranged l t | _ => true end
  end.

(** A state between two bytes. *)
Record waiting (g : setup) (s : emul_state) : Prop := {
  wt_ok : emul_ok g 127 s;
  wt_last : plain (last_state s)
}.

Section Bytes.
Context (g : setup).

Lemma junked_ok s : waiting g s -> emul_ok g 126 (junked s) /\ plain (last_state (junked s)).
Proof.
  intros [[Hs Hv Hb Hn] Hl]. unfold junked. destruct (Z.leb_spec 127 (q_emul_buffer_n s)).
  - split; [|by left]. split; [done|done|done|cbn; lia].
  - split; [|done]. split; [done..|lia].
Qed.

Lemma wp_junk {A} (k : unit -> EM A) s Q :
  waiting g s -> wp (k tt) (junked s) Q ->
  wp (whenM (127 <=? u64 (q_emul_buffer_n s)) (clear_buffer;; set_last_state Q_EMUL_FSM_NO_CHAR_YET) ≫= k) s Q.
Proof.
  intros [H _] HQ. pose proof (eo_collected _ _ _ H). rewrite u64_id by lia. unfold junked in HQ.
  apply wp_bind, wp_when; intros E; rewrite E in HQ; exact HQ.
Qed.

Lemma stays_bytes_received n s :
  Vt100Total.untouched s (s <| q_connection_bytes_received ::= fun k => u64 (k + 1) |>) /\
  (emul_ok g n s -> emul_ok g n (s <| q_connection_bytes_received ::= fun k => u64 (k + 1) |>)).
Proof. split; [done|]. intros []. by split. Qed.

(** An emulation that sees every byte and has at most one character for it. *)
Lemma wp_plain_emulator b s :
  handles_newlines (s_emulation g) = true -> waiting g s ->
  (forall u, Vt100Total.untouched (junked s) u -> emul_ok g 126 u ->
     wp (emulate fuel b) u (fun r v => plain r.1 /\ emul_ok g 127 v)) ->
  wp (terminal_emulator fuel b) s (fun r t => plain r.1 /\ waiting g t).
Proof.
  intros Hg Hs He. destruct (junked_ok s Hs) as [Hj Hl]. unfold terminal_emulator.
  apply wp_bind, wp_get, wp_junk; [done|]. set (t := junked s) in *. clearbody t.
  apply wp_bind, wp_get. cbv zeta. rewrite (emulation_of _ _ _ Hj).
  rewrite bool_decide_eq_false_2 by (by destruct Hl as [->| ->]).
  destruct (stays_bytes_received 126 t) as [Hu Hk]. apply wp_bind, wp_modify.
  set (u := t <| q_connection_bytes_received ::= _ |>) in *. specialize (Hk Hj). clearbody u.
  rewrite Hg. cbn [negb andb]. apply wp_bind.
  eapply wp_mono; [by apply He|]. intros r v [Hp Hv]. apply wp_bind, wp_modify.
  rewrite bool_decide_eq_false_2 by (by destruct Hp as [->| ->]). apply wp_ret.
  split; [done|]. split; [|done]. destruct Hv. by split.
Qed.

(** The console prints that character. *)
Lemma wp_plain_console b s :
  (0 < fuel)%nat ->
  wp (terminal_emulator fuel b) s (fun r t => plain r.1 /\ waiting g t) ->
  wp (console_byte fuel b) s (fun _ t => waiting g t).
Proof.
  intros Hf He. unfold console_byte. apply wp_bind.
  eapply wp_mono; [exact He|]. intros [q c] t [Hp [Ht Hl]]. cbn [fst] in Hp.
  destruct fuel as [|n]; [lia|]. cbn [print_emulated fst snd]. destruct Hp as [->| ->]; [by split|].
  assert (E : wp (draw (print_character c)) t (fun _ u => emul_ok g 127 u /\ last_state u = last_state t)).
  { apply wp_both.
    - revert Ht. refine (_ : EmulationInv.stays g 127 _ _). as_command.
    - destruct (eo_screen _ _ _ Ht) as [[ds Hds] _ _]. apply wp_draw.
      eapply wp_mono; [exact (keeps_run _ ds (Print c) Hds I)|]. done. }
  eapply wp_mono; [exact E|]. intros _ u [Hu Eu]. split; [done|by rewrite Eu].
Qed.

(** *** The emulations of vt100.c *)

Context (Hg : by_vt100 (s_emulation g) = true).

Lemma emulate_vt100 b s : emul_ok g 126 s -> emulate fuel b s = vt100 b s.
Proof.
  intros H. unfold emulate.
  rewrite (bind_done _ _ s (s_emulation g) s) by (unfold Emulation.status, gets; by rewrite (emulation_of _ _ _ H)).
  revert Hg. by destruct (s_emulation g).
Qed.

Lemma wp_console_byte b s :
  (0 < fuel)%nat -> waiting g s -> is_byte b -> in_range (seen (s_emulation g) b) (junked s) = true ->
  wp (console_byte fuel b) s (fun _ t => waiting g t).
Proof.
  intros Hf Hs Hb Hr. apply wp_plain_console; [done|]. apply wp_plain_emulator; [|done|].
  - revert Hg. by destruct (s_emulation g).
  - intros u Hu Hok. unfold wp. rewrite (emulate_vt100 _ _ Hok). apply wp_knowing; [apply vt100_returns|].
    apply wp_vt100; [done|done|]. by rewrite (in_range_untouched _ (junked s)).
Qed.

Lemma wp_console_bytes l s :
  (0 < fuel)%nat -> waiting g s -> bytes l -> well_ranged l s = true ->
  wp (console_bytes fuel l) s (fun _ t => waiting g t).
Proof.
  intros Hf. revert s. induction l as [|b l IH]; intros s Hs Hl Hr; [exact Hs|].
  apply Forall_cons in Hl as [Hb Hl]. cbn [well_ranged] in Hr.
  rewrite (emulation_of _ _ _ (wt_ok _ _ Hs)) in Hr. apply andb_prop in Hr as [Hr Hrest].
  destruct (wp_run _ _ _ (wp_console_byte b s Hf Hs Hb Hr)) as ([] & t & E & Ht). rewrite E in Hrest.
  unfold console_bytes. cbn [each]. apply wp_bind, (wp_done _ _ _ _ _ E). by apply IH.
Qed.

End Bytes.

(** ** After a reset *)

(** The resets of the other emulations change the statics of their files only. *)
Lemma stays_reset_others g n s : EmulationInv.stays g n reset_others s.
Proof.
  unfold reset_others, Ansi.ansi_reset, Vt52.vt52_reset, Avatar.avatar_reset, Petscii.petscii_reset,
    Atascii.atascii_reset, Atascii.reset_tab_stops.
  repeat (apply stays_seq; [first [apply stays_get; intros _|idtac]; by apply stays_statics|intros ? ?]).
  apply stays_get. intros _. by apply stays_statics.
Qed.

(** A reset does not look at the attributes that DECSC saved. *)

Definition with_saved (a : Z) (s : emul_state) : emul_state :=
  s <| state ::= fun v => v <| saved_attributes := a |> |>.

Definition blind (a : Z) {A} (m : EM A) : Prop :=
  forall s, m (with_saved a s) = match m s with
                                 | Done (x, t) => Done (x, with_saved a t)
                                 | Fault w => Fault w
                                 | Diverge => Diverge
                                 end.

Lemma blind_seq a {A B} (m : EM A) (k : A -> EM B) :
  blind a m -> (forall x, blind a (k x)) -> blind a (m ≫= k).
Proof.
  intros Hm Hk s. unfold mbind, M_bind. rewrite Hm. destruct (m s) as [[x t]| |]; [apply Hk|done..].
Qed.

Lemma blind_modify a f : (forall s, f (with_saved a s) = with_saved a (f s)) -> blind a (modify f).
Proof. intros Hf s. unfold modify. by rewrite Hf. Qed.

Lemma blind_gets a {A} (f : emul_state -> A) : (forall s, f (with_saved a s) = f s) -> blind a (gets f).
Proof. intros Hf s. unfold gets. by rewrite Hf. Qed.

Lemma blind_get a {B} (k : emul_state -> EM B) :
  (forall s, k (with_saved a s) = k s) -> (forall s, blind a (k s)) -> blind a (get ≫= k).
Proof. intros H Hk s. change (k (with_saved a s) (with_saved a s) = match k s s with Done (x, t) => Done (x, with_saved a t) | Fault w => Fault w | Diverge => Diverge end). by rewrite H, Hk. Qed.

(** What sets them before it reads them. *)
Definition ignores (a : Z) {A} (m : EM A) : Prop := forall s, m (with_saved a s) = m s.

Lemma ignores_after a {A B} (m : EM A) (k : A -> EM B) :
  blind a m -> (forall x, ignores a (k x)) -> ignores a (m ≫= k).
Proof. intros Hm Hk s. unfold mbind, M_bind. rewrite Hm. destruct (m s) as [[x t]| |]; [apply Hk|done..]. Qed.

Lemma ignores_first a {A B} (m : EM A) (k : A -> EM B) : ignores a m -> ignores a (m ≫= k).
Proof. intros Hm s. unfold mbind, M_bind. by rewrite Hm. Qed.

Lemma blind_set_color a c : blind a (set_color_to c).
Proof. by apply blind_modify. Qed.

Lemma vt100_reset_ignores a : ignores a vt100_reset.
Proof.
  unfold vt100_reset.
  apply ignores_after; [by apply blind_modify|intros _].
  apply ignores_after; [apply blind_seq; [by apply blind_modify|intros _; by apply blind_modify]|intros _].
  apply ignores_after; [apply blind_seq; [by apply blind_gets|intros e; by apply blind_modify]|intros _].
  apply ignores_after; [by apply blind_modify|intros _].
  apply ignores_after; [apply blind_get; [done|intros t; by apply blind_modify]|intros _].
  apply ignores_after; [by apply blind_modify|intros _].
  apply ignores_after; [by apply blind_modify|intros _].
  intros s. reflexivity.
Qed.

Lemma reset_others_blind a : blind a reset_others.
Proof.
  unfold reset_others, Ansi.ansi_reset, Vt52.vt52_reset, Avatar.avatar_reset, Petscii.petscii_reset,
    Atascii.atascii_reset, Atascii.reset_tab_stops.
  apply blind_seq; [by apply blind_get; [|intros t; apply blind_modify]|intros _].
  do 4 (apply blind_seq; [by apply blind_modify|intros _]).
  by apply blind_get; [|intros t; apply blind_modify].
Qed.

Lemma reset_emulation_ignores m p a : ignores a (reset_emulation m p).
Proof.
  unfold reset_emulation, reset_emulators. do 3 (apply ignores_after; [by apply blind_modify|intros _]).
  apply ignores_after; [by apply blind_gets|intros c].
  apply ignores_after; [by apply blind_modify|intros _].
  apply ignores_after; [apply reset_others_blind|intros _].
  apply ignores_first, vt100_reset_ignores.
Qed.

Lemma emul_ok_after_reset g n bottom s :
  0 <= bottom < s_rows g -> emul_ok g n s ->
  emul_ok g n (s <| screen ::= fun t => t <| q_status ::= fun q =>
    q <| scroll_region_top := 0 |> <| scroll_region_bottom := bottom |>
      <| reverse_video := false |> <| origin_mode := false |> |> |>).
Proof.
  intros Hb H. apply (emul_ok_region _ _ 0 bottom) in H; [|lia..].
  pose (f := fun q : q_status_struct => q <| scroll_region_top := 0 |> <| scroll_region_bottom := bottom |>).
  pose (h := fun q : q_status_struct => q <| reverse_video := false |> <| origin_mode := false |>).
  assert (Hh : EmulationInv.stays g n (on_status h) (s <| screen ::= fun t => t <| q_status ::= f |> |>)) by by apply stays_mode.
  specialize (Hh H). unfold on_status, wp, modify in Hh. rewrite status_twice in Hh. exact Hh.
Qed.

(** A reset draws for the debugging emulation only. *)
Lemma debug_reset_skipped s : emulation (q_status (screen s)) <> Q_EMUL_DEBUG -> Debug.debug_reset s = Done (tt, s).
Proof.
  intros He. unfold Debug.debug_reset, mbind, M_bind, Emulation.status, gets. by rewrite bool_decide_eq_false_2.
Qed.

Lemma stays_reset_emulators g m p s :
  s_emulation g <> Q_EMUL_DEBUG -> EmulationInv.stays g 127 (reset_emulators m p) s.
Proof.
  intros Hg. unfold reset_emulators. apply stays_seq; [by apply stays_statics|intros _ t3].
  apply stays_gets. intros H3. apply stays_seq; [apply stays_color, console_color_ok; [apply H3|apply normal_no_color]|intros _ t4].
  apply stays_seq; [apply stays_reset_others|intros _ t5]. apply stays_seq; [by apply stays_vt100_reset|intros _ t6].
  apply stays_seq; [intros H6; apply (wp_done _ _ _ _ _ (debug_reset_skipped t6 ltac:(by rewrite (emulation_of _ _ _ H6)))), H6|intros _ t6'].
  apply stays_seq; [by apply stays_right_margin|intros _ t7]. apply stays_get. intros H7.
  apply stays_seq.
  { apply stays_modify. intros _. rewrite (last_row_of _ _ _ H7). pose proof (setup_bounds _ _ _ H7).
    apply emul_ok_after_reset; [lia|done]. }
  intros _ t8. apply stays_gets. intros H8. apply stays_seq; [apply stays_on_flags|intros _ t9].
  apply stays_seq; [|intros _ t10; apply stays_seq; [apply stays_log|intros _ t11; apply stays_on_flags]].
  apply stays_when. intros _. apply stays_color. unfold color_ok, color_to_attr.
  rewrite pair_of_color_pair; [vm_compute; intuition congruence|done|apply bold_no_color].
Qed.

(** Only terminal_emulator() and the first lines of a reset set [last_state]. *)
Definition still {A} (m : EM A) : Prop :=
  forall s, match m s with Done (_, t) => last_state t = last_state s | _ => True end.

Lemma still_seq {A B} (m : EM A) (k : A -> EM B) : still m -> (forall a, still (k a)) -> still (m ≫= k).
Proof.
  intros Hm Hk s. unfold mbind, M_bind. specialize (Hm s). destruct (m s) as [[a t]| |]; [|done..].
  specialize (Hk a t). destruct (k a t) as [[b u]| |]; [|done..]. by rewrite Hk.
Qed.

Lemma still_modify f : (forall s, last_state (f s) = last_state s) -> still (modify f).
Proof. intros Hf s. apply Hf. Qed.

Lemma still_gets {A B} (f : emul_state -> A) (k : A -> EM B) : (forall a, still (k a)) -> still (gets f ≫= k).
Proof. intros Hk. by apply still_seq. Qed.

Lemma still_when (b : bool) m : still m -> still (whenM b m).
Proof. by destruct b. Qed.

Lemma wp_still {A} (m : EM A) s (P : emul_state -> Prop) :
  still m -> wp m s (fun _ t => P t) -> wp m s (fun _ t => P t /\ last_state t = last_state s).
Proof. intros Hm H. specialize (Hm s). unfold wp in *. by destruct (m s) as [[a t]| |]. Qed.

Lemma still_draw (m : SM unit) : still (draw m).
Proof. intros s. unfold draw, zoom. by destruct (m (screen s)) as [[[] t]| |]. Qed.

Ltac still :=
  repeat lazymatch goal with
  | |- still vt100_reset => assumption
  | |- still Debug.debug_reset => assumption
  | |- still (draw _) => apply still_draw
  | |- still (whenM _ _) => apply still_when
  | |- still (gets _ ≫= _) => apply still_gets; intros ?
  | |- still (Emulation.status _ ≫= _) => apply still_gets; intros ?
  | |- still (get ≫= _) => apply (still_gets id); intros ?
  | |- still (_ ≫= _) => apply still_seq; [|intros ?]
  | |- still _ => apply still_modify; intros ?; reflexivity
  end.

Lemma still_vt100_reset : still vt100_reset.
Proof. unfold vt100_reset, clear_params, reset_margin, reset_tab_stops, set_scan_state. still. Qed.

Lemma still_debug_reset : still Debug.debug_reset.
Proof. unfold Debug.debug_reset, Debug.print_byte_offset, console_color. still. Qed.

Lemma still_reset_emulators m p : still (reset_emulators m p).
Proof. pose proof still_vt100_reset. pose proof still_debug_reset. unfold reset_emulators, console_color. still. Qed.

Lemma initial_ok t f a :
  visible t -> text_ok (q_text_colors t) ->
  emul_ok (setup_of t) 127 (with_saved (COLOR_PAIR 0) (initial t f a)).
Proof.
  intros Hv Ht. split; [by split| |done|cbn; lia]. split; cbn; try done; try lia.
  unfold color_ok. rewrite <- (Z.lor_0_r (COLOR_PAIR 0)), pair_of_color_pair; [lia|lia|done].
Qed.

Lemma wp_clear_buffer g s :
  emul_ok g 127 s -> wp clear_buffer s (fun _ t => emul_ok g 127 t).
Proof. intros []. apply wp_modify. split; [done|done|done|cbn; lia]. Qed.

Lemma wp_set_last_state g q s :
  emul_ok g 127 s -> wp (set_last_state q) s (fun _ t => emul_ok g 127 t /\ last_state t = q).
Proof. intros []. apply wp_modify. split; [by split|done]. Qed.

Lemma wp_reset_emulation g m p s :
  s_emulation g <> Q_EMUL_DEBUG -> emul_ok g 127 s -> wp (reset_emulation m p) s (fun _ t => waiting g t).
Proof.
  intros Hg H. unfold reset_emulation. apply wp_bind. eapply wp_mono; [by apply (wp_clear_buffer g)|]. intros ? s1 H1.
  apply wp_bind. eapply wp_mono; [by apply (wp_set_last_state g)|]. intros ? s2 [H2 E2].
  eapply wp_mono; [apply wp_still; [apply still_reset_emulators|by apply (stays_reset_emulators g)]|].
  intros ? t [Ht E]. split; [done|]. rewrite E, E2. by left.
Qed.

Lemma wp_ignores a {A} (m : EM A) s (Q : A -> emul_state -> Prop) :
  ignores a m -> wp m (with_saved a s) Q -> wp m s Q.
Proof. intros Hm. unfold wp. by rewrite Hm. Qed.

Lemma waiting_after_reset m p t f a :
  visible t -> text_ok (q_text_colors t) -> emulation (q_status t) <> Q_EMUL_DEBUG ->
  wp (reset_emulation m p) (initial t f a) (fun _ s => waiting (setup_of t) s).
Proof.
  intros Hv Ht Hd. apply (wp_ignores (COLOR_PAIR 0)); [apply reset_emulation_ignores|].
  apply wp_reset_emulation; [exact Hd|by apply initial_ok].
Qed.

End TerminalSafe.
End TerminalSafe.

(** ** ATASCII

    The emulation keeps the invariant of the screen on every byte. *)

Module AtasciiSafe.
Import Atascii TerminalSafe.

Section AtasciiSafe.
Context {C : Curses} {L : CursesLaws C}.

Section Steps.
Context (g : setup) (n : Z).
Notation stays := (stays g n).

(** The statics of the file are not part of the invariant. *)
Lemma stays_on_atascii f s : stays (on_atascii f) s.
Proof. by apply stays_statics. Qed.

Lemma stays_insert_one s : stays (draw (insert_blanks 1)) s.
Proof. apply (stays_command_in g n (Insert 1)). intros H. pose proof (cursor_of g n _ H). cbn. lia. Qed.

Lemma stays_to_right s : stays (s ← get; draw (erase_line (cursor_x (q_status (screen s))) (WIDTH (screen s) - 1) false)) s.
Proof.
  apply stays_get. intros H. rewrite (width_of _ _ _ H). pose proof (setup_bounds _ _ _ H).
  pose proof (cursor_of _ _ _ H). stay.
Qed.

Lemma stays_insert_line s :
  stays (s ← get; draw (scrolling_region_scroll_down (cursor_y (q_status (screen s))) (last_row (screen s)) 1)) s.
Proof.
  apply stays_get. intros H. rewrite (last_row_of _ _ _ H). pose proof (cursor_of _ _ _ H).
  apply stays_scroll_down. intros _. lia.
Qed.

Lemma stays_erase_all s : stays erase_all s.
Proof.
  unfold erase_all. apply stays_get. intros H. rewrite (last_row_of _ _ _ H), (width_of _ _ _ H).
  pose proof (setup_bounds _ _ _ H). apply stays_seq; [|intros _ t; stay].
  apply stays_erase_screen. intros _. lia.
Qed.

Lemma stays_tab s : stays Atascii.advance_to_next_tab_stop s.
Proof.
  unfold Atascii.advance_to_next_tab_stop. apply stays_get. intros _. destruct (Vt100.next_tab_stop _ _); stay.
Qed.

Lemma stays_handle_control c s : stays (atascii_handle_control_char c) s.
Proof.
  unfold atascii_handle_control_char.
  assert (H : Forall (fun p => forall s, stays p.2 s) controls).
  { unfold controls. repeat (apply Forall_cons; split; [cbn [snd]; intros t|]); [..|by apply Forall_nil].
    all: first [apply stays_insert_line|apply stays_to_right|apply stays_insert_one|apply stays_erase_all
               |apply stays_tab|unfold set_tab_stop, clear_tab_stop; apply stays_gets; intros _; apply stays_on_atascii|idtac].
    all: stay. }
  induction controls as [|[b m] l IH]; [apply stays_ret|]. apply Forall_cons in H as [Hm Hl].
  cbn [control]. destruct (c =? b); [|by apply IH]. apply stays_seq; [apply Hm|intros _ t]. apply stays_ret.
Qed.

Lemma stays_print_byte b s : stays (print_byte b) s.
Proof.
  unfold print_byte, set_print_control. apply stays_seq; [apply stays_on_atascii|intros _ t].
  apply stays_get. intros H. cbv zeta. apply stays_seq; [|intros _ u; apply stays_ret].
  apply stays_color. pose proof (cfg_color _ (config_of _ _ _ H)).
  destruct (negb _); [apply color_on|apply color_off]; first [apply reverse_no_color|done].
Qed.

Lemma stays_atascii b s : stays (atascii b) s.
Proof.
  unfold atascii, set_print_control. apply stays_gets. intros _.
  apply stays_seq; [apply stays_when; intros _; stay|intros _ t]. apply stays_get. intros _.
  apply stays_if; intros _; [apply stays_print_byte|]. apply stays_if; intros _.
  - apply stays_seq; [apply stays_on_atascii|intros _ u]. apply stays_ret.
  - apply stays_seq; [apply stays_handle_control|intros consumed u].
    apply stays_if; intros _; [apply stays_ret|]. apply stays_if; intros _; [apply stays_ret|apply stays_print_byte].
Qed.

End Steps.

Lemma atascii_returns b : returns (fun r => plain r.1) (atascii b).
Proof.
  assert (Hno : returns (fun r => plain r.1) (mret no_char_yet)) by (apply returns_ret; by left).
  assert (Hp : returns (fun r => plain r.1) (print_byte b)).
  { unfold print_byte. do 3 (apply returns_seq; intros ?). apply returns_ret. by right. }
  unfold atascii. do 3 (apply returns_seq; intros ?). apply returns_if; [done|].
  apply returns_if; [by apply returns_seq|]. apply returns_seq; intros consumed.
  apply returns_if; [done|]. by apply returns_if.
Qed.

Section Bytes.
Context (fuel : nat) (g : setup).
Context (Hf : (0 < fuel)%nat) (Hg : s_emulation g = Q_EMUL_ATASCII).

Lemma wp_atascii_byte b s :
  waiting g s -> wp (console_byte fuel b) s (fun _ t => waiting g t).
Proof.
  intros Hs. apply wp_plain_console; [done|]. apply wp_plain_emulator; [by rewrite Hg|done|].
  intros u _ Hu. unfold emulate. apply wp_bind, wp_gets. rewrite (emulation_of _ _ _ Hu), Hg.
  apply wp_knowing; [apply atascii_returns|].
  eapply wp_mono; [by apply (stays_atascii g 126)|]. intros ? t Ht. by apply (emul_ok_le g 126).
Qed.

Lemma wp_atascii_bytes l s :
  waiting g s -> wp (console_bytes fuel l) s (fun _ t => waiting g t).
Proof.
  revert s. induction l as [|b l IH]; intros s Hs; [exact Hs|].
  unfold console_bytes. cbn [each]. apply wp_bind. eapply wp_mono; [by apply wp_atascii_byte|].
  intros ? t Ht. by apply IH.
Qed.

End Bytes.
End AtasciiSafe.
End AtasciiSafe.
