(* ===== verification/TerminalParse.v ===== *)
(** The parser of vt100.c as a whole: what a control sequence that is sent with its
    parameters makes the emulation do. *)

From Stdlib Require Import ZArith Lia List Bool Ascii.
From stdpp Require Import base list numbers gmap strings.
From S2P Require Import Prelude Stdio States Utf8 Codepage Colors Screen ScreenList Emulation Vt100 Vt100Machine EmulationInv Vt100Total Terminal TerminalSafe.
Import Codepage Colors Screen ScreenList Emulation Vt100 Vt100Machine EmulationInv Vt100Total Terminal TerminalSafe.

Module TerminalParse.

(** ** Between two sequences *)

Record quiet (s : emul_state) : Prop := {
  qt_ground : scan_state s = SCAN_GROUND;
  qt_params : params (state s) = replicate 16 [];
  qt_none : params_n (state s) = -1;
  qt_public : dec_private_mode_flag (state s) = false;
  qt_ansi : vt52_mode (state s) = false;
  qt_empty : q_emul_buffer_n s = 0;
  qt_last : plain (last_state s)
}.

(** An emulation of vt100.c that takes bytes one by one. *)
Definition bytewise (e : Q_EMULATION) : bool := by_vt100 e && negb (is_utf8 e).
Definition emulation_is (s : emul_state) : Q_EMULATION := emulation (q_status (screen s)).

(** One more byte. *)
Definition counted (k : Z) (s : emul_state) : emul_state :=
  s <| q_connection_bytes_received ::= fun n => u64 (n + k) |>.

Definition show {C : Curses} (r : result) : EM unit :=
  whenM (bool_decide (r.1 = Q_EMUL_FSM_ONE_CHAR)) (draw (print_character r.2)).

(** Reads and writes of the state, in sequence. *)
Lemma run_get {B} (k : emul_state -> EM B) s : (get ≫= k) s = k s s.
Proof. done. Qed.
Lemma run_gets {A B} (f : emul_state -> A) (k : A -> EM B) s : (gets f ≫= k) s = k (f s) s.
Proof. done. Qed.
Lemma run_status {A B} (f : q_status_struct -> A) (k : A -> EM B) s :
  (Emulation.status f ≫= k) s = k (f (q_status (screen s))) s.
Proof. done. Qed.
Lemma run_vt {A B} (f : vt100_state -> A) (k : A -> EM B) s : (vt f ≫= k) s = k (f (state s)) s.
Proof. done. Qed.
Lemma run_modify {B} f (k : unit -> EM B) s : (modify f ≫= k) s = k tt (f s).
Proof. done. Qed.
Lemma run_ret {A B} (a : A) (k : A -> EM B) s : (mret a ≫= k) s = k a s.
Proof. done. Qed.
Ltac run := repeat (first [rewrite run_get|rewrite run_gets|rewrite run_status|rewrite run_vt|rewrite run_modify|rewrite run_ret]; cbv beta).

Section Machine.
Context {C : Curses}.

(** ** One byte through the machine *)

Definition finish (b : Z) (r : scanned) : EM result :=
  match r with
  | Discard => mret no_char_yet
  | Printable c => mret (Q_EMUL_FSM_ONE_CHAR, c)
  | Fell_off => fall_off b
  end.

Lemma seen_low e b : 0 <= b < 128 -> (if is_vt10x e then Z.land b 0x7F else b) = b.
Proof.
  intros Hb. destruct (is_vt10x e); [|done]. change 0x7F with (Z.ones 7).
  rewrite Z.land_ones by lia. apply Z.mod_small. lia.
Qed.

Lemma decode_nothing b s : is_utf8 (emulation_is s) = false -> decode_utf8 b s = Done (true, s).
Proof. intros He. unfold decode_utf8. rewrite run_status. unfold emulation_is in He. by rewrite He. Qed.

Lemma anywhere_passes b s : 0x20 <= b < 0x7F -> anywhere b s = Done (false, s).
Proof.
  intros Hb. unfold anywhere. run. cbv zeta. unfold C_ESC.
  rewrite !(proj2 (Z.eqb_neq b _)) by lia. cbn [orb andb]. by rewrite !andb_false_r.
Qed.

Lemma bytewise_parts s :
  bytewise (emulation_is s) = true -> by_vt100 (emulation_is s) = true /\ is_utf8 (emulation_is s) = false.
Proof. unfold bytewise. intros [H1 H2]%andb_prop. split; [done|]. by apply negb_true_iff. Qed.

Lemma vt100_passes b s :
  bytewise (emulation_is s) = true -> 0x20 <= b < 0x7F -> vt100 b s = (scan b ≫= finish b) s.
Proof.
  intros [_ He]%bytewise_parts Hb. unfold vt100. rewrite run_status. cbv zeta. rewrite seen_low by lia.
  rewrite (bind_done _ _ _ _ _ (decode_nothing b s He)). cbn [negb].
  by rewrite (bind_done _ _ _ _ _ (anywhere_passes b s Hb)).
Qed.

Lemma vt100_escape s :
  bytewise (emulation_is s) = true -> scan_state s = SCAN_GROUND ->
  vt100 C_ESC s = Done (no_char_yet, s <| scan_state := SCAN_ESCAPE |>).
Proof.
  intros [_ He]%bytewise_parts Hg. unfold vt100. rewrite run_status. cbv zeta. rewrite seen_low by (unfold C_ESC; lia).
  rewrite (bind_done _ _ _ _ _ (decode_nothing C_ESC s He)). cbn [negb].
  assert (E : anywhere C_ESC s = Done (true, s <| scan_state := SCAN_ESCAPE |>)).
  { unfold anywhere. run. by rewrite Hg. }
  by rewrite (bind_done _ _ _ _ _ E).
Qed.

Lemma executes_not e b : 0x20 <= b < 0x80 -> executes e b = false.
Proof.
  intros Hb. unfold executes, within. rewrite (proj2 (Z.leb_gt _ _)) by lia.
  rewrite (proj2 (Z.leb_gt 0x80 _)) by lia. cbn. apply andb_false_r.
Qed.

Lemma or_execute_not b m s : 0x20 <= b < 0x80 -> or_execute b m s = m s.
Proof. intros Hb. unfold or_execute. rewrite run_status. by rewrite executes_not. Qed.

Lemma vt100_bracket s :
  bytewise (emulation_is s) = true -> scan_state s = SCAN_ESCAPE -> vt52_mode (state s) = false ->
  vt100 (chr "[") s = Done (no_char_yet, s <| scan_state := SCAN_CSI_ENTRY |>).
Proof.
  intros He Hs Hv. rewrite vt100_passes by (done || (change (chr "[") with 91; lia)).
  assert (E : scan (chr "[") s = Done (Discard, s <| scan_state := SCAN_CSI_ENTRY |>)).
  { unfold scan. rewrite run_gets, Hs. unfold scan_escape.
    rewrite or_execute_not by (change (chr "[") with 91; lia). rewrite run_vt. by rewrite Hv. }
  by rewrite (bind_done _ _ _ _ _ E).
Qed.

(** *** Parameters *)

Definition param_vt (b : Z) (v : vt100_state) : vt100_state :=
  let v := if params_n v <? 0 then v <| params_n := 0 |> else v in
  let v :=
    if within (chr "0") (chr "9") b then
      if params_n v <? VT100_PARAM_MAX then
        v <| params ::= alter (fun row =>
               if Z.of_nat (length row) <? VT100_PARAM_LENGTH - 1 then row ++ [b] else row)
             (Z.to_nat (params_n v)) |>
      else v
    else v in
  if b =? chr ";" then v <| params_n ::= Z.succ |> else v.

Lemma param_eq b s : param b s = Done (tt, s <| state ::= param_vt b |>).
Proof.
  unfold param, on_vt. rewrite run_modify. unfold param_vt.
  destruct (within (chr "0") (chr "9") b), (b =? chr ";"); cbn [whenM]; rewrite ?run_modify, ?run_ret; reflexivity.
Qed.

Definition in_csi (q : SCAN_STATE) : Prop := q = SCAN_CSI_ENTRY \/ q = SCAN_CSI_PARAM.

Lemma is_param_range b : is_param b = true -> 48 <= b <= 59.
Proof.
  unfold is_param, within. change (chr "0") with 48. change (chr "9") with 57. change (chr ";") with 59. lia.
Qed.

Lemma vt100_param b s :
  bytewise (emulation_is s) = true -> in_csi (scan_state s) -> is_param b = true ->
  vt100 b s = Done (no_char_yet, s <| state ::= param_vt b |> <| scan_state := SCAN_CSI_PARAM |>).
Proof.
  intros He Hs Hb. pose proof (is_param_range _ Hb). rewrite vt100_passes by (done || lia).
  assert (E : scan b s = Done (Discard, s <| state ::= param_vt b |> <| scan_state := SCAN_CSI_PARAM |>)).
  { unfold scan. rewrite run_gets.
    assert (Hw : within 0x20 0x2F b = false) by (unfold within; lia).
    destruct Hs as [Hs|Hs]; rewrite Hs; [unfold scan_csi_entry|unfold scan_csi_param];
      rewrite or_execute_not by lia; rewrite Hw, Hb; unfold discard.
    - unfold mbind, M_bind. by rewrite param_eq.
    - rewrite (bind_done _ _ _ _ _ (param_eq b s)). destruct s. cbn in Hs. subst. done. }
  by rewrite (bind_done _ _ _ _ _ E).
Qed.

(** ** Parameters of a sequence *)

(** What reading a sequence changes. *)
Definition reads (n : Z) (v : vt100_state) (q : SCAN_STATE) (s : emul_state) : emul_state :=
  s <| q_connection_bytes_received := n |> <| state := v |> <| scan_state := q |>
    <| last_state := Q_EMUL_FSM_NO_CHAR_YET |>.

Lemma reads_reads n v q n' v' q' s : reads n v q (reads n' v' q' s) = reads n v q s.
Proof. reflexivity. Qed.

Definition received (s : emul_state) (k : Z) : Z := u64 (q_connection_bytes_received s + k).

Lemma received_reads n v q s k : received (reads n v q s) k = u64 (n + k).
Proof. reflexivity. Qed.

(** Parameters have been read. *)
Definition params_vt (l : list Z) (v : vt100_state) : vt100_state := foldl (fun v b => param_vt b v) v l.
Definition read_params (l : list Z) (s : emul_state) : emul_state :=
  reads (received s (Z.of_nat (length l))) (params_vt l (state s)) SCAN_CSI_PARAM s.

Lemma u64_add a b : u64 (u64 a + b) = u64 (a + b).
Proof. unfold u64. by rewrite Zplus_mod_idemp_l. Qed.

Lemma read_params_reads l n v q s :
  read_params l (reads n v q s) = reads (u64 (n + Z.of_nat (length l))) (params_vt l v) SCAN_CSI_PARAM s.
Proof. reflexivity. Qed.

Lemma read_params_cons b l s : read_params l (read_params [b] s) = read_params (b :: l) s.
Proof.
  unfold read_params at 2. rewrite read_params_reads. unfold read_params, received. rewrite u64_add.
  replace (q_connection_bytes_received s + Z.of_nat (length [b]) + Z.of_nat (length l))
    with (q_connection_bytes_received s + Z.of_nat (length (b :: l))) by (cbn [length]; lia).
  reflexivity.
Qed.

(** *** What the parameters are *)

(** "%d;%d;...;%d" *)
Fixpoint csi_text (js : list Z) : list Z :=
  match js with
  | [] => []
  | [j] => print_base 10 j
  | j :: js => print_base 10 j ++ chr ";" :: csi_text js
  end.

Definition with_rows (rows : list (list Z)) (n : Z) (v : vt100_state) : vt100_state :=
  v <| params := rows |> <| params_n := n |>.
Definition with_params (js : list Z) : vt100_state -> vt100_state :=
  with_rows ((print_base 10 <$> js) ++ replicate (16 - length js) []) (Z.of_nat (length js) - 1).

Lemma with_rows_again rows n rows' n' v : with_rows rows n (with_rows rows' n' v) = with_rows rows n v.
Proof. reflexivity. Qed.
Lemma with_rows_same v : with_rows (params v) (params_n v) v = v.
Proof. by destruct v. Qed.

Definition is_digit (b : Z) : Prop := within (chr "0") (chr "9") b = true.

Lemma digit_not_semicolon b : is_digit b -> b =? chr ";" = false.
Proof. unfold is_digit, within. change (chr "0") with 48. change (chr "9") with 57. change (chr ";") with 59. lia. Qed.

Lemma digits_fill ds v k row :
  params_n v = Z.of_nat k -> (k < 16)%nat -> params v !! k = Some row -> (length row + length ds <= 15)%nat ->
  Forall is_digit ds ->
  params_vt ds v = with_rows (<[k := row ++ ds]> (params v)) (params_n v) v.
Proof.
  intros Hn Hk Hrow Hlen Hds. revert v row Hn Hrow Hlen. induction Hds as [|b ds Hb Hds IH]; intros v row Hn Hrow Hlen.
  - rewrite app_nil_r, list_insert_id by done. by rewrite with_rows_same.
  - change (params_vt (b :: ds) v) with (params_vt ds (param_vt b v)).
    assert (E : param_vt b v = with_rows (<[k := row ++ [b]]> (params v)) (params_n v) v).
    { unfold param_vt. rewrite Hn, (proj2 (Z.ltb_ge (Z.of_nat k) 0)) by lia. cbv zeta. rewrite Hn. rewrite Hb.
      rewrite (proj2 (Z.ltb_lt (Z.of_nat k) _)) by (unfold VT100_PARAM_MAX; lia). rewrite digit_not_semicolon by done.
      rewrite Nat2Z.id, <- Hn. unfold with_rows, field_update. cbn [length] in Hlen. f_equal.
      rewrite (alter_insert _ _ _ row) by done.
      by rewrite (proj2 (Z.ltb_lt (Z.of_nat (length row)) _)) by (unfold VT100_PARAM_LENGTH; lia). }
    rewrite E, (IH _ (row ++ [b])); [|done| |].
    + rewrite with_rows_again.
      change (params (with_rows ?p _ _)) with p. change (params_n (with_rows _ ?n _)) with n.
      by rewrite list_insert_insert_eq, <- app_assoc.
    + apply list_lookup_insert_eq. by eapply lookup_lt_Some.
    + rewrite length_app. cbn [length] in *. lia.
Qed.

Lemma printed_digits j : Forall is_digit (print_base 10 j).
Proof.
  destruct (print_base_cons 10 j ltac:(lia)) as (c & l & _ & _ & H). eapply Forall_impl; [exact H|].
  intros b Hb. cbv beta in Hb. unfold is_digit, within. change (chr "0") with 48. change (chr "9") with 57. lia.
Qed.

Lemma printed_length j : 0 <= j < 10 ^ 15 -> (length (print_base 10 j) <= 15)%nat.
Proof. intros Hj. unfold print_base. pose proof (length_print_digits 10 64 15 j [] ltac:(lia) Hj ltac:(lia)) as H. cbn [length] in H. lia. Qed.

(** One more parameter. *)
Lemma semicolon_next v k :
  params_n v = Z.of_nat k -> param_vt (chr ";") v = with_rows (params v) (Z.of_nat (S k)) v.
Proof.
  intros Hn. unfold param_vt. rewrite Hn, (proj2 (Z.ltb_ge (Z.of_nat k) 0)) by lia. cbv zeta.
  change (within (chr "0") (chr "9") (chr ";")) with false. change (chr ";" =? chr ";") with true. cbv iota.
  rewrite Nat2Z.inj_succ, <- Hn. by destruct v.
Qed.

Definition fits (j : Z) : Prop := 0 <= j < 10 ^ 15.

Lemma params_of_text js : forall v rows,
  js <> [] -> Forall fits js -> (length rows + length js <= 16)%nat ->
  params v = rows ++ replicate (16 - length rows) [] -> params_n v = Z.of_nat (length rows) ->
  params_vt (csi_text js) v =
    with_rows (rows ++ (print_base 10 <$> js) ++ replicate (16 - length rows - length js) [])
      (Z.of_nat (length rows + length js) - 1) v.
Proof.
  induction js as [|j js IH]; intros v rows Hne Hj Hl Hp Hn; [done|]. apply Forall_cons in Hj as [Hj Hjs].
  cbn [length] in Hl.
  assert (Hrow : params v !! length rows = Some []).
  { rewrite Hp, lookup_app_r, Nat.sub_diag by done. apply lookup_replicate. split; [done|lia]. }
  assert (Hfill : params_vt (print_base 10 j) v =
                  with_rows ((rows ++ [print_base 10 j]) ++ replicate (15 - length rows) []) (Z.of_nat (length rows)) v).
  { rewrite (digits_fill _ v (length rows) []); [|done|lia|done|cbn; apply printed_length, Hj|apply printed_digits].
    rewrite Hn, Hp, insert_app_r_alt, Nat.sub_diag, <- app_assoc by done.
    by replace (16 - length rows)%nat with (S (15 - length rows)) by lia. }
  destruct js as [|j' js].
  - cbn [csi_text]. rewrite Hfill. cbn [length fmap list_fmap]. rewrite <- app_assoc. f_equal; [|lia].
    cbn [app]. do 3 f_equal. lia.
  - change (csi_text (j :: j' :: js)) with (print_base 10 j ++ chr ";" :: csi_text (j' :: js)).
    unfold params_vt. rewrite foldl_app. fold (params_vt (print_base 10 j) v). rewrite Hfill.
    set (w := with_rows _ _ v). change (params_vt (csi_text (j' :: js)) (param_vt (chr ";") w) =
      with_rows (rows ++ (print_base 10 <$> j :: j' :: js) ++ replicate (16 - length rows - S (S (length js))) [])
        (Z.of_nat (length rows + S (S (length js))) - 1) v).
    rewrite (semicolon_next w (length rows)) by done.
    rewrite (IH _ (rows ++ [print_base 10 j])); [|done|done|..]; rewrite ?length_app; cbn [length] in *.
    + unfold w. rewrite !with_rows_again, !fmap_cons, <- app_assoc. cbn [app length].
      f_equal; [do 5 f_equal; lia|lia].
    + lia.
    + change (params (with_rows ?p _ _)) with p. unfold w. change (params (with_rows ?p _ _)) with p.
      f_equal. f_equal. lia.
    + change (params_n (with_rows _ ?n _)) with n. lia.
Qed.

Lemma params_arrive js v :
  js <> [] -> Forall fits js -> (length js <= 16)%nat -> params v = replicate 16 [] -> params_n v = -1 ->
  params_vt (csi_text js) v = with_params js v.
Proof.
  intros Hne Hj Hl Hp Hn.
  assert (E : exists b l, csi_text js = b :: l).
  { destruct js as [|j js]; [done|]. destruct (print_base_cons 10 j ltac:(lia)) as (c & l & E & _).
    cbn [csi_text]. destruct js; rewrite E; eauto. }
  assert (Hs : params_vt (csi_text js) v = params_vt (csi_text js) (v <| params_n := 0 |>)).
  { destruct E as (b & l & ->). unfold params_vt. cbn [foldl]. f_equal. unfold param_vt. by rewrite Hn. }
  rewrite Hs, (params_of_text js _ []); [|done..]. cbn [length app]. by rewrite Nat.sub_0_r.
Qed.

(** ** A whole control sequence *)

(** ESC [ j ; ... ; j f *)
Definition csi_bytes (js : list Z) (f : Z) : list Z := C_ESC :: chr "[" :: csi_text js ++ [f].

(** The state in which the final byte finds the parameters. *)
Definition arrived (js : list Z) (s : emul_state) : emul_state :=
  reads (received s (Z.of_nat (length (csi_bytes js 0))))
    (if js then state s else with_params js (state s)) (if js then SCAN_CSI_ENTRY else SCAN_CSI_PARAM) s.

Lemma csi_text_params js : Forall (fun b => is_param b = true) (csi_text js).
Proof.
  assert (Hd : forall j, Forall (fun b => is_param b = true) (print_base 10 j)).
  { intros j. eapply Forall_impl; [apply printed_digits|]. intros b Hb. unfold is_param. by rewrite Hb. }
  induction js as [|j [|j' js] IH]; [by apply Forall_nil|exact (Hd j)|].
  change (csi_text (j :: j' :: js)) with (print_base 10 j ++ chr ";" :: csi_text (j' :: js)).
  apply Forall_app. split; [apply Hd|]. by apply Forall_cons.
Qed.

Lemma csi_text_nil js : csi_text js = [] -> js = [].
Proof.
  destruct js as [|j [|j' js]]; [done|..]; destruct (print_base_cons 10 j ltac:(lia)) as (c & l & E & _).
  - cbn [csi_text]. by rewrite E.
  - change (csi_text (j :: j' :: js)) with (print_base 10 j ++ chr ";" :: csi_text (j' :: js)). by rewrite E.
Qed.

(** The final byte. *)
Lemma scan_final f s :
  0x40 <= f <= 0x7E -> in_csi (scan_state s) -> scan f s = (discard (csi_dispatch f;; to_ground)) s.
Proof.
  intros Hf Hs. unfold scan. rewrite run_gets.
  assert (H1 : within 0x20 0x2F f = false) by (unfold within; lia).
  assert (H2 : is_param f = false) by (destruct (is_param f) eqn:E; [apply is_param_range in E; lia|done]).
  assert (H3 : within 0x3C 0x3F f = false) by (unfold within; lia).
  assert (H4 : within 0x40 0x7E f = true) by (unfold within; lia).
  assert (H5 : (f =? 0x3A) = false) by lia.
  destruct Hs as [->| ->]; [unfold scan_csi_entry|unfold scan_csi_param]; rewrite or_execute_not by lia;
    by rewrite H1, H2, ?H5, H3, H4.
Qed.

End Machine.

Section Console.
Context {C : Curses}.
Context (fuel : nat).
Context (Hfuel : (0 < fuel)%nat).

(** ** One byte through the console *)

Lemma print_plain r : plain r.1 -> print_emulated fuel fuel r = show r.
Proof. destruct fuel as [|n]; [lia|]. destruct r as [q c]. cbn. by intros [->| ->]. Qed.

Lemma console_byte_eq b s :
  by_vt100 (emulation_is s) = true -> 0 <= q_emul_buffer_n s <= 126 -> plain (last_state s) ->
  console_byte fuel b s = (r ← vt100 b; set_last_state r.1;; show r) (counted 1 s).
Proof.
  intros He Hn Hl. unfold console_byte, terminal_emulator, emulation_is in *.
  assert (E : terminal_emulator fuel b s = (r ← vt100 b; set_last_state r.1;; mret r) (counted 1 s)).
  { unfold terminal_emulator. run. rewrite u64_id by lia. destruct (Z.leb_spec 127 (q_emul_buffer_n s)); [lia|].
    cbn [whenM]. run. cbv zeta. rewrite bool_decide_eq_false_2 by (by destruct Hl as [->| ->]).
    run. replace (negb (handles_newlines _)) with false by (revert He; by destruct (emulation _)).
    cbn [andb]. run. change (s <| q_connection_bytes_received ::= fun n => u64 (n + 1) |>) with (counted 1 s).
    assert (Ev : emulate fuel b (counted 1 s) = vt100 b (counted 1 s)).
    { unfold emulate. run. change (emulation (q_status (screen (counted 1 s)))) with (emulation (q_status (screen s))).
      revert He. by destruct (emulation _). }
    unfold mbind, M_bind. rewrite Ev. destruct (vt100 b (counted 1 s)) as [[r t]| |] eqn:E; [|done..].
    pose proof (vt100_returns b _ _ _ E) as Hr. cbv beta in Hr.
    rewrite bool_decide_eq_false_2 by (by destruct Hr as [->| ->]). done. }
  unfold mbind at 1, M_bind at 1. unfold terminal_emulator in E. rewrite E.
  unfold mbind, M_bind. destruct (vt100 b (counted 1 s)) as [[r t]| |] eqn:Ev; [|done..].
  pose proof (vt100_returns b _ _ _ Ev) as Hr. cbn. by rewrite print_plain.
Qed.

(** *** Any emulation *)

(** An emulation that is given every byte, or a byte that is no end of line. *)
Lemma terminal_plain b s :
  0 <= q_emul_buffer_n s <= 126 -> plain (last_state s) ->
  handles_newlines (emulation_is s) = true \/ (b <> 0x0D /\ b <> 0x0A) ->
  terminal_emulator fuel b s =
    (r ← emulate fuel b; set_last_state r.1;;
     if bool_decide (r.1 = Q_EMUL_FSM_REPEAT_STATE) then repeat_state fuel else mret r) (counted 1 s).
Proof.
  clear Hfuel. intros Hn Hl Hb. unfold terminal_emulator. run. rewrite u64_id, (proj2 (Z.leb_gt 127 _)) by lia. cbn [whenM].
  run. cbv zeta. rewrite bool_decide_eq_false_2 by (by destruct Hl as [->| ->]). run.
  fold (emulation_is s). destruct Hb as [->|[H1 H2]]; [done|].
  by rewrite (proj2 (Z.eqb_neq _ _) H1), (proj2 (Z.eqb_neq _ _) H2), !andb_false_r.
Qed.

(** What a byte of which nothing is shown leaves. *)
Lemma wp_console_silent b s (Q : unit -> emul_state -> Prop) :
  0 <= q_emul_buffer_n s <= 126 -> plain (last_state s) ->
  handles_newlines (emulation_is s) = true \/ (b <> 0x0D /\ b <> 0x0A) ->
  wp (emulate fuel b) (counted 1 s)
    (fun r t => r = no_char_yet /\ Q tt (t <| last_state := Q_EMUL_FSM_NO_CHAR_YET |>)) ->
  wp (console_byte fuel b) s Q.
Proof.
  intros Hn Hl He H. unfold console_byte. apply wp_bind. unfold wp. rewrite terminal_plain by done.
  apply wp_bind. eapply wp_mono; [exact H|]. intros ? t [-> Ht]. apply wp_bind, wp_modify.
  rewrite bool_decide_eq_false_2 by done. apply wp_ret. destruct fuel as [|n]; [lia|]. exact Ht.
Qed.

(** ** Streams *)

(** A byte of which nothing is shown. *)
Lemma console_byte_quiet b s t :
  bytewise (emulation_is s) = true -> 0 <= q_emul_buffer_n s <= 126 -> plain (last_state s) ->
  vt100 b (counted 1 s) = Done (no_char_yet, t) ->
  console_byte fuel b s = Done (tt, t <| last_state := Q_EMUL_FSM_NO_CHAR_YET |>).
Proof.
  intros [He _]%bytewise_parts Hn Hl E. rewrite console_byte_eq by done.
  rewrite (bind_done _ _ _ _ _ E). done.
Qed.

Lemma console_bytes_cons b l s t :
  console_byte fuel b s = Done (tt, t) ->
  console_bytes fuel (b :: l) s = console_bytes fuel l t.
Proof. intros E. unfold console_bytes. cbn [each]. by rewrite (bind_done _ _ _ _ _ E). Qed.

Lemma console_param b s :
  is_param b = true -> bytewise (emulation_is s) = true -> in_csi (scan_state s) -> 0 <= q_emul_buffer_n s <= 126 ->
  plain (last_state s) -> console_byte fuel b s = Done (tt, read_params [b] s).
Proof.
  intros Hb He Hs Hn Hl. erewrite console_byte_quiet; [|done..|by apply vt100_param]. reflexivity.
Qed.

Lemma console_params l s :
  l <> [] -> Forall (fun b => is_param b = true) l ->
  bytewise (emulation_is s) = true -> in_csi (scan_state s) -> 0 <= q_emul_buffer_n s <= 126 -> plain (last_state s) ->
  console_bytes fuel l s = Done (tt, read_params l s).
Proof.
  intros Hne Hl. revert s Hne. induction Hl as [|b l Hb Hl IH]; intros s Hne He Hs Hn Hp; [done|]. clear Hne.
  rewrite (console_bytes_cons _ _ _ (read_params [b] s)) by by apply console_param.
  destruct l as [|b' l']; [done|]. rewrite <- (read_params_cons b (b' :: l')). apply IH; [done|exact He|by right|exact Hn|by left].
Qed.

Lemma console_final f s :
  bytewise (emulation_is s) = true -> 0x40 <= f <= 0x7E -> in_csi (scan_state s) ->
  0 <= q_emul_buffer_n s <= 126 -> plain (last_state s) ->
  console_byte fuel f s = (csi_dispatch f;; to_ground;; set_last_state Q_EMUL_FSM_NO_CHAR_YET) (counted 1 s).
Proof.
  intros He Hf Hs Hn Hl. destruct (bytewise_parts s He) as [He' _]. rewrite console_byte_eq by done.
  unfold mbind, M_bind. rewrite vt100_passes by (done || lia). unfold mbind at 1, M_bind at 1.
  rewrite (scan_final f (counted 1 s)) by (done || lia).
  unfold discard, mbind, M_bind. destruct (csi_dispatch f _) as [[[] t]| |]; [|done..].
  by destruct (to_ground t) as [[[] u]| |].
Qed.

Lemma console_bytes_app l l' s t :
  console_bytes fuel l s = Done (tt, t) ->
  console_bytes fuel (l ++ l') s = console_bytes fuel l' t.
Proof.
  revert s. induction l as [|b l IH]; intros s; [by intros [= ->]|].
  unfold console_bytes. cbn [each app]. unfold mbind, M_bind.
  destruct (console_byte fuel b s) as [[[] u]| |]; [|done..]. apply IH.
Qed.

Lemma console_escape s :
  quiet s -> bytewise (emulation_is s) = true ->
  console_byte fuel C_ESC s = Done (tt, reads (received s 1) (state s) SCAN_ESCAPE s).
Proof.
  intros [] He. erewrite console_byte_quiet; [|done|lia|done|by apply vt100_escape]. reflexivity.
Qed.

Lemma console_bracket n s :
  quiet s -> bytewise (emulation_is s) = true ->
  console_byte fuel (chr "[") (reads n (state s) SCAN_ESCAPE s) =
    Done (tt, reads (u64 (n + 1)) (state s) SCAN_CSI_ENTRY s).
Proof.
  intros [] He. erewrite console_byte_quiet; [|exact He| |by left|apply vt100_bracket; [exact He|done|done]]; [reflexivity|].
  change (q_emul_buffer_n (reads _ _ _ s)) with (q_emul_buffer_n s). lia.
Qed.

Lemma csi_arrives js f s :
  quiet s -> bytewise (emulation_is s) = true -> (length js <= 16)%nat -> Forall fits js -> 0x40 <= f <= 0x7E ->
  console_bytes fuel (csi_bytes js f) s =
    (csi_dispatch f;; to_ground;; set_last_state Q_EMUL_FSM_NO_CHAR_YET) (arrived js s).
Proof.
  intros Hq He Hl Hj Hf. pose proof (qt_empty _ Hq) as Hn. unfold csi_bytes.
  rewrite (console_bytes_cons _ _ _ _ (console_escape s Hq He)).
  rewrite (console_bytes_cons _ _ _ _ (console_bracket _ s Hq He)).
  set (t := reads _ (state s) SCAN_CSI_ENTRY s).
  assert (G : forall o : outcome (unit * emul_state),
    match o with Done (a, u) => each [] (console_byte fuel) u | Fault w => Fault w | Diverge => Diverge end = o)
    by (by intros [[[] u]| |]).
  assert (Hlast : forall u, emulation_is u = emulation_is s -> in_csi (scan_state u) -> q_emul_buffer_n u = 0 -> plain (last_state u) ->
    console_bytes fuel [f] u = (csi_dispatch f;; to_ground;; set_last_state Q_EMUL_FSM_NO_CHAR_YET) (counted 1 u)).
  { intros u E1 E2 E3 E4. unfold console_bytes. cbn [each]. unfold mbind at 1, M_bind at 1.
    rewrite console_final by (rewrite ?E1; done || lia). apply G. }
  destruct (decide (js = [])) as [->|Hne].
  - cbn [csi_text app]. rewrite Hlast; [|reflexivity|by left|exact Hn|by left].
    f_equal. unfold t. change (counted 1 (reads ?n ?v ?q s)) with (reads (u64 (n + 1)) v q s).
    unfold arrived, received. rewrite !u64_add, <- !Z.add_assoc, u64_add, <- Z.add_assoc. reflexivity.
  - rewrite (console_bytes_app _ _ _ (read_params (csi_text js) t)).
    + rewrite Hlast; [|reflexivity|by right|exact Hn|by left]. f_equal. unfold t. rewrite read_params_reads.
      change (counted 1 (reads ?n ?v ?q s)) with (reads (u64 (n + 1)) v q s).
      unfold arrived. destruct js as [|j js]; [done|]. rewrite params_arrive by (done || apply Hq). f_equal.
      unfold received. rewrite !u64_add, <- !Z.add_assoc, u64_add. f_equal. unfold csi_bytes. cbn [length]. rewrite length_app. cbn [length]. lia.
    + apply console_params; [|apply csi_text_params|exact He|by left|exact (ltac:(lia) : 0 <= q_emul_buffer_n s <= 126)|by left].
      by intros E%csi_text_nil.
Qed.

(** ** A string that is not ended *)

(** What does not fit any more is thrown away before anything else. *)
Lemma console_byte_junked b s :
  0 <= q_emul_buffer_n s <= 127 -> console_byte fuel b s = console_byte fuel b (junked s).
Proof.
  intros Hn. unfold console_byte. assert (E : terminal_emulator fuel b s = terminal_emulator fuel b (junked s)).
  { unfold terminal_emulator. rewrite !run_get. unfold junked. destruct (Z.leb_spec 127 (q_emul_buffer_n s)) as [H|H].
    - rewrite u64_id by lia. rewrite (proj2 (Z.leb_le 127 (q_emul_buffer_n s))) by lia.
      change (127 <=? u64 (q_emul_buffer_n (s <| q_emul_buffer_n := 0 |> <| q_emul_buffer_i := 0 |>
        <| q_emul_buffer := replicate 128 0 |> <| last_state := Q_EMUL_FSM_NO_CHAR_YET |>))) with false. reflexivity.
    - reflexivity. }
  unfold mbind, M_bind. by rewrite E.
Qed.

(** The state in which a device control string is ignored. *)
Record ignoring (s : emul_state) : Prop := {
  ig_state : scan_state s = SCAN_DCS_IGNORE;
  ig_n : 0 <= q_emul_buffer_n s <= 127;
  ig_buffer : length (q_emul_buffer s) = 128%nat;
  ig_last : plain (last_state s)
}.

(** Bytes that are no CAN and no SUB. *)
Definition seven_bits (b : Z) : Prop := 0 <= b < 0x80 /\ b <> 0x18 /\ b <> 0x1A.

Lemma collect_escape s :
  0 <= q_emul_buffer_n s < Z.of_nat (length (q_emul_buffer s)) ->
  collect C_ESC s = Done (tt, s <| q_emul_buffer := <[Z.to_nat (q_emul_buffer_n s) := C_ESC]> (q_emul_buffer s) |>
                                <| q_emul_buffer_n ::= Z.succ |>).
Proof. intros Hn. unfold collect. rewrite run_get. by rewrite (bind_done _ _ _ _ _ (store_at _ _ _ s Hn)). Qed.

Lemma vt100_ignores b s :
  bytewise (emulation_is s) = true -> scan_state s = SCAN_DCS_IGNORE -> 0 <= q_emul_buffer_n s <= 126 ->
  length (q_emul_buffer s) = 128%nat -> seven_bits b ->
  exists t, vt100 b s = Done (no_char_yet, t) /\ scan_state t = SCAN_DCS_IGNORE /\ screen t = screen s /\
    q_emul_buffer_n s <= q_emul_buffer_n t <= q_emul_buffer_n s + 1 /\ length (q_emul_buffer t) = 128%nat.
Proof.
  intros [_ He]%bytewise_parts Hs Hn Hb (Hr & H18 & H1A). unfold vt100. rewrite run_status. cbv zeta. rewrite seen_low by lia.
  rewrite (bind_done _ _ _ _ _ (decode_nothing b s He)). cbn [negb].
  assert (Ha : anywhere b s = Done (b =? 0x7F, s)).
  { unfold anywhere. run. cbv zeta. rewrite Hs. cbn [in_dcs negb andb]. rewrite !andb_false_r.
    rewrite (proj2 (Z.eqb_neq b 0x18)), (proj2 (Z.eqb_neq b 0x1A)) by lia. cbn [orb].
    rewrite (proj2 (Z.eqb_neq b 0x9B)), (proj2 (Z.eqb_neq b 0x9D)), (proj2 (Z.eqb_neq b 0x90)),
      (proj2 (Z.eqb_neq b 0x98)), (proj2 (Z.eqb_neq b 0x9E)), (proj2 (Z.eqb_neq b 0x9F)) by lia.
    cbn [orb]. by rewrite !andb_false_r. }
  rewrite (bind_done _ _ _ _ _ Ha). destruct (b =? 0x7F); [by exists s; split_and!; try done; lia|].
  assert (Es : scan b s = scan_ignored_string b s) by (unfold scan; rewrite run_gets, Hs; reflexivity).
  unfold scan_ignored_string in Es. destruct (_ || _) eqn:Ei.
  { rewrite (bind_done _ _ _ _ _ Es). exists s. split_and!; try done; lia. }
  assert (E27 : b = C_ESC) by (unfold within in Ei; unfold C_ESC; lia). subst b.
  change (or_terminated C_ESC (mret Fell_off)) with (discard (collect C_ESC)) in Es. unfold discard in Es.
  rewrite (bind_done _ _ _ _ _ (collect_escape s ltac:(lia))) in Es. rewrite (bind_done _ _ _ _ _ Es).
  eexists. split; [reflexivity|]. split; [exact Hs|]. split; [reflexivity|].
  split; [change (q_emul_buffer_n s <= Z.succ (q_emul_buffer_n s) <= q_emul_buffer_n s + 1); lia|].
  change (length (<[Z.to_nat (q_emul_buffer_n s) := C_ESC]> (q_emul_buffer s)) = 128%nat). by rewrite length_insert.
Qed.

Lemma ignores_for_ever l s :
  ignoring s -> bytewise (emulation_is s) = true -> Forall seven_bits l ->
  exists t, console_bytes fuel l s = Done (tt, t) /\ ignoring t /\ screen t = screen s.
Proof.
  intros Hi He Hl. revert s Hi He. induction Hl as [|b l Hb Hl IH]; intros s Hi He; [by exists s|].
  assert (Hj : ignoring (junked s) /\ q_emul_buffer_n (junked s) <= 126 /\ screen (junked s) = screen s).
  { destruct Hi as [H1 H2 H3 H4]. unfold junked. destruct (Z.leb_spec 127 (q_emul_buffer_n s)).
    - split; [split; [done|cbn; lia|done|by left]|]. split; [cbn; lia|done].
    - split; [by split|]. split; [lia|done]. }
  destruct Hj as ([H1 H2 H3 H4] & H5 & H6). assert (He1 : bytewise (emulation_is (junked s)) = true) by (unfold emulation_is; by rewrite H6).
  assert (Hr : 0 <= q_emul_buffer_n (junked s) <= 126) by lia.
  destruct (vt100_ignores b (counted 1 (junked s)) He1 H1 Hr H3 Hb) as (t & Et & Ht1 & Ht2 & Ht3 & Ht4).
  assert (E : console_byte fuel b s = Done (tt, t <| last_state := Q_EMUL_FSM_NO_CHAR_YET |>)).
  { rewrite console_byte_junked by apply Hi. apply console_byte_quiet; [done|lia|done|done]. }
  change (q_emul_buffer_n (counted 1 (junked s))) with (q_emul_buffer_n (junked s)) in Ht3.
  destruct (IH (t <| last_state := Q_EMUL_FSM_NO_CHAR_YET |>)) as (u & Eu & Hu & Es).
  - split; [done|change (0 <= q_emul_buffer_n t <= 127); lia|done|by left].
  - unfold emulation_is. change (screen (t <| last_state := Q_EMUL_FSM_NO_CHAR_YET |>)) with (screen t). rewrite Ht2. exact He1.
  - exists u. split; [by rewrite (console_bytes_cons _ _ _ _ E)|]. split; [done|]. rewrite Es.
    exact (eq_trans Ht2 H6).
Qed.

End Console.
End TerminalParse.
