(* ===== verification/Vt100Sgr.v ===== *)
(** SGR as a function of its parameters: the colours it sets, what it leaves alone, what
    it forgets. *)

From Stdlib Require Import ZArith Lia List Bool Ascii.
From stdpp Require Import base list numbers gmap strings.
From S2P Require Import Prelude Stdio States Codepage Colors Screen Emulation Vt100 EmulationInv Vt100Safe.
Import Codepage Colors Screen Emulation Vt100 EmulationInv Vt100Safe.

Module Vt100Sgr.

Section Vt100Sgr.
Context {C : Curses} {L : CursesLaws C}.

(** ** Colours *)

(** The emulations that have colours. *)
Definition colored (x : sgr_context) : Prop :=
  sgr_vt100_color x || is_linux (sgr_emulation x) || is_xterm (sgr_emulation x) = true.

(** Every attribute but the colours and bold. *)
Definition other_attributes (c : Z) : Z := Z.land c (Z.lnot (Z.lor A_COLOR A_BOLD)).

Lemma land_masked c a m : Z.land a m = 0 -> Z.land (Z.land c (Z.lnot a)) m = Z.land c m.
Proof.
  intros Ha. apply Z.bits_inj'. intros i Hi. rewrite !Z.land_spec, Z.lnot_spec by done.
  assert (Hb : Z.testbit (Z.land a m) i = false) by (rewrite Ha; apply Z.bits_0).
  rewrite Z.land_spec in Hb. destruct (Z.testbit c i), (Z.testbit a i), (Z.testbit m i); done.
Qed.

Lemma lor_masked c a m : Z.land a m = 0 -> Z.land (Z.lor c a) m = Z.land c m.
Proof. intros Ha. by rewrite Z.land_lor_distr_l, Ha, Z.lor_0_r. Qed.

Lemma masked_part a b : Z.land b (Z.lnot (Z.lor a b)) = 0.
Proof.
  apply Z.bits_inj'. intros i Hi. rewrite Z.land_spec, Z.lnot_spec, Z.lor_spec, Z.bits_0 by done.
  destruct (Z.testbit a i), (Z.testbit b i); done.
Qed.

(** Bold turned on or off. *)
Definition only_bold (p q : pen) : Prop :=
  Z.land (color q) A_COLOR = Z.land (color p) A_COLOR /\ other_attributes (color q) = other_attributes (color p).

Lemma bold_on p : only_bold p (turn_on A_BOLD p).
Proof. split; [apply lor_masked, bold_no_color|apply lor_masked, masked_part]. Qed.
Lemma bold_off p : only_bold p (turn_off A_BOLD p).
Proof. split; [apply land_masked, bold_no_color|apply land_masked, masked_part]. Qed.
Lemma only_bold_refl p : only_bold p p.
Proof. done. Qed.
Lemma only_bold_trans p q r : only_bold p q -> only_bold q r -> only_bold p r.
Proof. intros [E1 E2] [E3 E4]. split; congruence. Qed.

Definition is_color (j : Z) : Prop := 30 <= j <= 37 \/ 40 <= j <= 47.

(** The parameter of a colour is one of no attribute. *)
Lemma color_no_attribute x j p :
  is_color j -> only_bold p (sgr_not_attribute x j (sgr_attribute x j (sgr_bright x j p))).
Proof.
  intros Hj. assert (E1 : sgr_attribute x j (sgr_bright x j p) = sgr_bright x j p).
  { unfold sgr_attribute. by rewrite !(proj2 (Z.eqb_neq j _)) by (destruct Hj; lia). }
  rewrite E1. assert (E2 : sgr_not_attribute x j (sgr_bright x j p) = sgr_bright x j p).
  { unfold sgr_not_attribute. rewrite !(proj2 (Z.eqb_neq j _)) by (destruct Hj; lia). by destruct (negb _). }
  rewrite E2. unfold sgr_bright. destruct (negb _); [done|].
  destruct (_ || _); [exact (bold_on p)|]. destruct (_ && _); [exact (bold_off p)|done].
Qed.

Lemma i16_small n : 0 <= n < 64 -> i16 n = n.
Proof. intros Hn. unfold i16. rewrite Z.mod_small by lia. lia. Qed.

Lemma fields_of n : 0 <= n < 64 ->
  i16 (Z.shiftr (Z.land (i16 n) 0x38) 3) = n / 8 /\ i16 (Z.land (i16 n) 0x07) = n mod 8.
Proof.
  intros Hn. rewrite (i16_small n) by done.
  assert (E1 : Z.shiftr (Z.land n 0x38) 3 = n / 8).
  { rewrite Z.shiftr_land. change (Z.shiftr 0x38 3) with (Z.ones 3). rewrite Z.land_ones, Z.shiftr_div_pow2 by lia.
    change (2 ^ 3) with 8. apply Z.mod_small. split; [apply Z.div_pos|apply Z.div_lt_upper_bound]; lia. }
  assert (E2 : Z.land n 0x07 = n mod 8) by (change 0x07 with (Z.ones 3); by rewrite Z.land_ones by lia).
  rewrite E1, E2. split; apply i16_small.
  - split; [apply Z.div_pos|apply Z.div_lt_upper_bound]; lia.
  - pose proof (Z.mod_pos_bound n 8). lia.
Qed.

(** What one parameter of a colour makes of the colour pair. *)
Definition paired (n j : Z) : Z := if j <=? 37 then 8 * (j - 30) + n mod 8 else 8 * (n / 8) + (j - 40).

Lemma paired_range n j : 0 <= n < 64 -> is_color j -> 0 <= paired n j < 64.
Proof.
  intros Hn Hj. pose proof (Z.mod_pos_bound n 8). pose proof (Z.div_pos n 8). pose proof (Z.div_lt_upper_bound n 8 8).
  unfold paired. destruct (Z.leb_spec j 37); destruct Hj; lia.
Qed.

Lemma sgr_color_param x j p :
  colored x -> is_color j -> pen_ok p ->
  exists q, sgr_param x j p = (q, true) /\ pen_ok q /\
    PAIR_NUMBER (color q) = paired (PAIR_NUMBER (color p)) j /\ other_attributes (color q) = other_attributes (color p).
Proof.
  intros Hx Hj Hp. unfold sgr_param. set (p1 := sgr_not_attribute _ _ _).
  destruct (color_no_attribute x j p Hj) as [Hc Ho]. fold p1 in Hc, Ho.
  set (n := PAIR_NUMBER (color p)) in *. assert (Hn : 0 <= n < 64) by exact Hp.
  assert (En : PAIR_NUMBER (color p1) = n) by by apply pair_in_color.
  unfold sgr_color. replace (negb _) with false by (symmetry; by apply negb_false_iff). unfold color_from_attr. rewrite En.
  destruct (fields_of n Hn) as [-> ->].
  pose proof (Z.mod_pos_bound n 8). pose proof (Z.div_pos n 8). pose proof (Z.div_lt_upper_bound n 8 8).
  set (f := if j <=? 37 then j - 30 else n / 8). set (b := if j <=? 37 then n mod 8 else j - 40).
  assert (Hf : 0 <= f < 8) by (unfold f; destruct (Z.leb_spec j 37); destruct Hj; lia).
  assert (Hb : 0 <= b < 8) by (unfold b; destruct (Z.leb_spec j 37); destruct Hj; lia).
  assert (E : sgr_colors x j p1 (n / 8) (n mod 8) = Some (p1 <| default_color := false |>, f, b)).
  { unfold sgr_colors, f, b, within. destruct (Z.leb_spec j 37).
    - by replace ((30 <=? j) && true) with true by (destruct Hj; lia).
    - replace ((30 <=? j) && false) with false by lia. by replace ((40 <=? j) && (j <=? 47)) with true by (destruct Hj; lia). }
  rewrite E. set (p2 := p1 <| default_color := false |> <| color ::= _ |>).
  assert (Ec2 : color p2 = Z.lor (Z.land (color p1) NO_COLOR_MASK) (color_to_attr (i16 (Z.lor (Z.shiftl f 3) b)))) by done.
  assert (Ep2 : PAIR_NUMBER (color p2) = 8 * f + b).
  { rewrite Ec2, Z.lor_comm. apply color_pair_ok; [done|done|apply no_color_rest]. }
  assert (Eo2 : other_attributes (color p2) = other_attributes (color p)).
  { rewrite <- Ho, Ec2. unfold other_attributes. rewrite Z.land_lor_distr_l.
    replace (Z.land (color_to_attr _) _) with 0; [rewrite Z.lor_0_r|].
    - unfold NO_COLOR_MASK. apply land_masked. rewrite Z.lor_comm. apply masked_part.
    - symmetry. apply pair_bits_color. }
  exists (if real_bold p2 then turn_on A_BOLD p2 else if default_color p2 then p2 else turn_off A_BOLD p2).
  set (q := if real_bold p2 then _ else _).
  assert (Hq : only_bold p2 q) by (unfold q; destruct (real_bold p2); [apply bold_on|]; destruct (default_color p2); [done|apply bold_off]).
  destruct Hq as [Hq1 Hq2]. assert (Eq : PAIR_NUMBER (color q) = 8 * f + b) by (rewrite <- Ep2; by apply pair_in_color).
  split; [done|]. split; [unfold pen_ok, color_ok; lia|]. split; [|congruence].
  rewrite Eq. unfold paired, f, b. by destruct (j <=? 37).
Qed.

(** Several colours: the last foreground and the last background count. *)
Lemma sgr_color_params x js p :
  colored x -> Forall is_color js -> pen_ok p ->
  PAIR_NUMBER (color (sgr_params x js p)) = foldl paired (PAIR_NUMBER (color p)) js /\
  other_attributes (color (sgr_params x js p)) = other_attributes (color p).
Proof.
  intros Hx Hjs. revert p. induction Hjs as [|j js Hj Hjs IH]; intros p Hp; [done|].
  destruct (sgr_color_param x j p Hx Hj Hp) as (q & E & Hq & Ec & Eo). cbn [sgr_params]. rewrite E.
  destruct (IH q Hq) as [E1 E2]. rewrite E1, E2, Ec. done.
Qed.

(** *** Bold *)

(** A bright foreground of Xterm is the last thing that was set. *)
Definition bright (x : sgr_context) (p : pen) : bool := is_xterm (sgr_emulation x) && within 90 97 (aixterm p).

(** A colour leaves bold as the pen remembers it, but a dark foreground after a bright
    one takes bold and the memory away. *)
Definition bold_after (x : sgr_context) (p : pen) (js : list Z) : bool :=
  real_bold p && negb (bright x p && existsb (within 30 37) js).

Lemma color_memory x j p :
  is_color j -> let q := sgr_not_attribute x j (sgr_attribute x j (sgr_bright x j p)) in
  real_bold q = bold_after x p [j] /\ bright x q = bright x p && negb (within 30 37 j).
Proof.
  intros Hj. assert (E1 : forall p, sgr_attribute x j p = p).
  { intros r. unfold sgr_attribute. by rewrite !(proj2 (Z.eqb_neq j _)) by (destruct Hj; lia). }
  assert (E2 : forall p, sgr_not_attribute x j p = p).
  { intros r. unfold sgr_not_attribute. rewrite !(proj2 (Z.eqb_neq j _)) by (destruct Hj; lia). by destruct (negb _). }
  cbv zeta. rewrite E1, E2. unfold bold_after, bright, sgr_bright. cbn [existsb]. rewrite orb_false_r.
  assert (E3 : within 90 97 j || within 100 107 j = false) by (unfold within; destruct Hj; lia). rewrite E3.
  destruct (is_xterm _) eqn:Ex; cbn [negb andb]; [|by rewrite andb_true_r].
  destruct (within 90 97 (aixterm p)) eqn:Ea; cbn [andb negb]; [|by rewrite andb_true_r, Ea].
  destruct (within 30 37 j); cbn [negb]; [|by rewrite andb_true_r, Ea].
  by rewrite andb_false_r.
Qed.

Lemma bold_bit_on c : Z.land (Z.lor c A_BOLD) A_BOLD = A_BOLD.
Proof. apply Z.bits_inj'. intros i Hi. rewrite Z.land_spec, Z.lor_spec. by destruct (Z.testbit c i), (Z.testbit A_BOLD i). Qed.
Lemma bold_bit_off c : Z.land (Z.land c (Z.lnot A_BOLD)) A_BOLD = 0.
Proof. by rewrite <- Z.land_assoc, (Z.land_comm (Z.lnot _)), Z.land_lnot_diag, Z.land_0_r. Qed.

Lemma sgr_color_bold x j p :
  colored x -> is_color j -> let q := fst (sgr_param x j p) in
  real_bold q = bold_after x p [j] /\ bright x q = bright x p && negb (within 30 37 j) /\
  Z.land (color q) A_BOLD = if real_bold q then A_BOLD else 0.
Proof.
  intros Hx Hj. unfold sgr_param. destruct (color_memory x j p Hj) as [Er Eb].
  set (p1 := sgr_not_attribute _ _ _) in *. unfold sgr_color. replace (negb _) with false by (symmetry; by apply negb_false_iff).
  assert (E : forall f b, exists f' b', sgr_colors x j p1 f b = Some (p1 <| default_color := false |>, f', b')).
  { intros f b. unfold sgr_colors. destruct (within 30 37 j) eqn:E1; [eauto|].
    assert (E2 : within 40 47 j = true) by (unfold within in *; destruct Hj; lia). rewrite E2. eauto. }
  match goal with |- context [sgr_colors x j p1 ?f ?b] => destruct (E f b) as (f' & b' & ->) end.
  cbv zeta. set (p2 := p1 <| default_color := false |> <| color ::= _ |>).
  change (real_bold p2) with (real_bold p1). change (default_color p2) with false. cbv iota.
  destruct (real_bold p1) eqn:E1; cbn [fst].
  - change (real_bold (turn_on A_BOLD p2)) with (real_bold p1). change (bright x (turn_on A_BOLD p2)) with (bright x p1).
    rewrite E1. split; [done|]. split; [done|]. apply bold_bit_on.
  - change (real_bold (turn_off A_BOLD p2)) with (real_bold p1). change (bright x (turn_off A_BOLD p2)) with (bright x p1).
    rewrite E1. split; [done|]. split; [done|]. apply bold_bit_off.
Qed.

(** Bold after several colours. *)
Lemma sgr_color_params_bold x js p :
  colored x -> Forall is_color js -> js <> [] -> pen_ok p ->
  Z.land (color (sgr_params x js p)) A_BOLD = if bold_after x p js then A_BOLD else 0.
Proof.
  intros Hx Hjs. revert p. induction Hjs as [|j js Hj Hjs IH]; intros p Hne Hp; [done|]. cbn [sgr_params].
  destruct (sgr_color_param x j p Hx Hj Hp) as (q & E & Hq & _).
  destruct (sgr_color_bold x j p Hx Hj) as (E1 & E2 & E3). rewrite E in *. cbn [fst] in *.
  assert (Eb : bold_after x q js = bold_after x p (j :: js)).
  { unfold bold_after in *. rewrite E1, E2. cbn [existsb].
    destruct (real_bold p), (bright x p), (within 30 37 j), (existsb _ js); done. }
  destruct js as [|k js]; [|rewrite <- Eb; by apply IH].
  cbn [sgr_params]. by rewrite E3, E1.
Qed.

(** ** What a reset forgets *)

(** Pens that differ in the memory of the bright colours alone. *)
Definition alike (p q : pen) : Prop :=
  color p = color q /\ default_color p = default_color q /\ real_bold p = real_bold q.

Lemma alike_on a p q : alike p q -> alike (turn_on a p) (turn_on a q).
Proof. intros (E1 & E2 & E3). unfold turn_on. split; [|done]. cbn. by rewrite E1. Qed.
Lemma alike_off a p q : alike p q -> alike (turn_off a p) (turn_off a q).
Proof. intros (E1 & E2 & E3). unfold turn_off. split; [|done]. cbn. by rewrite E1. Qed.
Lemma alike_default d p q : alike p q -> alike (p <| default_color := d |>) (q <| default_color := d |>).
Proof. intros (E1 & E2 & E3). by split. Qed.
Lemma alike_bold r p q : alike p q -> alike (p <| real_bold := r |>) (q <| real_bold := r |>).
Proof. intros (E1 & E2 & E3). by split. Qed.
Hint Resolve alike_on alike_off alike_default alike_bold : alike.

Lemma alike_if (c : bool) p q p' q' : alike p q -> alike p' q' -> alike (if c then p else p') (if c then q else q').
Proof. by destruct c. Qed.
Hint Resolve alike_if : alike.

Lemma alike_attribute x j p q : alike p q -> alike (sgr_attribute x j p) (sgr_attribute x j q).
Proof.
  intros H. unfold sgr_attribute. apply alike_if; [by split|]. repeat (apply alike_if; auto with alike).
Qed.

Lemma alike_not_attribute x j p q : alike p q -> alike (sgr_not_attribute x j p) (sgr_not_attribute x j q).
Proof. intros H. unfold sgr_not_attribute. cbv zeta. repeat (apply alike_if; auto with alike). Qed.

Lemma alike_default_foreground x u p q :
  alike p q -> alike (sgr_default_foreground x u p) (sgr_default_foreground x u q).
Proof. intros H. unfold sgr_default_foreground. cbv zeta. apply alike_bold, alike_default. repeat (apply alike_if; auto with alike). Qed.

Lemma alike_colors x j f b p q :
  is_xterm (sgr_emulation x) = false -> alike p q ->
  exists p' q' f' b', sgr_colors x j p f b = Some (p', f', b') /\ sgr_colors x j q f b = Some (q', f', b') /\ alike p' q'.
Proof.
  intros Hx H. unfold sgr_colors. cbv zeta. rewrite Hx.
  repeat match goal with |- context [if ?c then _ else _] => destruct c end; eauto 10 using alike_default, alike_default_foreground.
Qed.

Lemma alike_color x j p q :
  is_xterm (sgr_emulation x) = false -> alike p q ->
  exists p' q', sgr_color x j p = Some p' /\ sgr_color x j q = Some q' /\ alike p' q'.
Proof.
  intros Hx H. unfold sgr_color. cbv zeta. destruct (negb _); [eauto|].
  assert (E : color p = color q) by apply H. rewrite <- E.
  destruct (alike_colors x j (i16 (Z.shiftr (Z.land (color_from_attr (color p)) 56) 3)) (i16 (Z.land (color_from_attr (color p)) 7)) p q Hx H)
    as (p' & q' & f & b & -> & -> & (E1 & E2 & E3)).
  eexists _, _. split; [reflexivity|]. split; [reflexivity|].
  set (p2 := p' <| color ::= _ |>). set (q2 := q' <| color ::= _ |>).
  assert (H2 : alike p2 q2) by (unfold p2, q2; split; [cbn; by rewrite E1|done]).
  replace (real_bold q2) with (real_bold p2) by apply H2. replace (default_color q2) with (default_color p2) by apply H2.
  auto with alike.
Qed.

Lemma alike_param x j p q :
  is_xterm (sgr_emulation x) = false -> alike p q ->
  exists p' q', sgr_param x j p = (p', true) /\ sgr_param x j q = (q', true) /\ alike p' q'.
Proof.
  intros Hx H. unfold sgr_param. assert (Hb : forall p, sgr_bright x j p = p) by (intros r; unfold sgr_bright; by rewrite Hx).
  rewrite !Hb. destruct (alike_color x j (sgr_not_attribute x j (sgr_attribute x j p)) (sgr_not_attribute x j (sgr_attribute x j q)) Hx)
    as (p' & q' & -> & -> & H'); [by apply alike_not_attribute, alike_attribute|eauto].
Qed.

Lemma alike_params x js p q :
  is_xterm (sgr_emulation x) = false -> alike p q -> alike (sgr_params x js p) (sgr_params x js q).
Proof.
  intros Hx. revert p q. induction js as [|j js IH]; intros p q H; [done|]. cbn [sgr_params].
  destruct (alike_param x j p q Hx H) as (p' & q' & -> & -> & H'). by apply IH.
Qed.

Lemma params_after x js ks p :
  is_xterm (sgr_emulation x) = false -> sgr_params x (js ++ ks) p = sgr_params x ks (sgr_params x js p).
Proof.
  intros Hx. revert p. induction js as [|j js IH]; intros p; [done|]. cbn [sgr_params app].
  destruct (alike_param x j p p Hx ltac:(by split)) as (p' & q' & -> & _). apply IH.
Qed.

(** Parameter 0 makes all pens alike. *)
Lemma reset_alike x p q : is_xterm (sgr_emulation x) = false -> alike (sgr_params x [0] p) (sgr_params x [0] q).
Proof.
  intros Hx. cbn [sgr_params]. unfold sgr_param.
  assert (Hb : forall p, sgr_bright x 0 p = p) by (intros r; unfold sgr_bright; by rewrite Hx). rewrite !Hb.
  destruct (alike_color x 0 (sgr_not_attribute x 0 (sgr_attribute x 0 p)) (sgr_not_attribute x 0 (sgr_attribute x 0 q)) Hx)
    as (p' & q' & -> & -> & H'); [by apply alike_not_attribute|done].
Qed.

Lemma reset_forgets x js ks p q :
  is_xterm (sgr_emulation x) = false -> alike (sgr_params x (js ++ 0 :: ks) p) (sgr_params x (0 :: ks) q).
Proof.
  intros Hx. rewrite params_after by done. change (0 :: ks) with ([0] ++ ks). rewrite !(params_after x [0] ks) by done.
  apply alike_params; [done|]. by apply reset_alike.
Qed.

End Vt100Sgr.
End Vt100Sgr.
