(* ===== verification/Vt100Tabs.v ===== *)
(** The tab stops of vt100.c: a sorted list that stands for a set of columns. *)

From Stdlib Require Import ZArith Lia List Bool Ascii Sorted.
From stdpp Require Import base list numbers gmap strings.
From S2P Require Import Prelude Stdio States Codepage Colors Screen ScreenList ScreenState ScreenSpec ScreenCursor ScreenDraw ScreenCommand Emulation Vt100 EmulationInv.
Import Codepage Colors Screen ScreenList ScreenState ScreenSpec ScreenCursor ScreenDraw ScreenCommand Emulation Vt100 EmulationInv.

Module Vt100Tabs.

Definition sorted : list Z -> Prop := StronglySorted Z.lt.
Definition columns (s : emul_state) : gset Z := list_to_set (tab_stops (state s)).

Lemma sorted_cons y stops : sorted (y :: stops) <-> sorted stops /\ Forall (Z.lt y) stops.
Proof. split; [intros H; by inversion H|intros []; by constructor]. Qed.

Lemma insert_elem x y stops : y ∈ insert_tab_stop x stops <-> y = x \/ y ∈ stops.
Proof.
  induction stops as [|z stops IH]; cbn [insert_tab_stop]; [set_solver|].
  destruct (Z.eqb_spec z x) as [->|Hne]; [set_solver|]. destruct (x <? z); set_solver.
Qed.

Lemma insert_sorted x stops : sorted stops -> sorted (insert_tab_stop x stops).
Proof.
  induction stops as [|z stops IH]; intros H; cbn [insert_tab_stop]; [by repeat constructor|].
  destruct (Z.eqb_spec z x) as [->|Hne]; [done|]. apply sorted_cons in H as [H Hz].
  destruct (Z.ltb_spec x z).
  - apply sorted_cons. split; [by apply sorted_cons|]. apply Forall_cons. split; [done|].
    eapply Forall_impl; [exact Hz|]. intros y. cbv beta. lia.
  - apply sorted_cons. split; [by apply IH|]. apply Forall_forall. intros y [->|Hy]%insert_elem; [lia|].
    by apply (proj1 (Forall_forall _ _) Hz).
Qed.

Lemma remove_elem x y stops : sorted stops -> y ∈ remove_tab_stop x stops <-> y ≠ x /\ y ∈ stops.
Proof.
  induction stops as [|z stops IH]; intros H; cbn [remove_tab_stop]; [set_solver|].
  apply sorted_cons in H as [H Hz]. rewrite Forall_forall in Hz. destruct (Z.ltb_spec x z).
  - split; [intros Hy; split; [|done]|by intros []]. apply elem_of_cons in Hy as [->|Hy]; [lia|]. specialize (Hz y Hy). lia.
  - destruct (Z.eqb_spec z x) as [->|Hne].
    + split; [intros Hy; split; [|by right]; specialize (Hz y Hy); lia|]. intros [Hne Hy]. by apply elem_of_cons in Hy as [->|Hy].
    + specialize (IH H). set_solver.
Qed.

Lemma remove_sorted x stops : sorted stops -> sorted (remove_tab_stop x stops).
Proof.
  induction stops as [|z stops IH]; intros H; cbn [remove_tab_stop]; [done|]. pose proof H as H0.
  apply sorted_cons in H as [H Hz]. destruct (x <? z); [done|]. destruct (z =? x); [done|].
  apply sorted_cons. split; [by apply IH|]. apply Forall_forall. intros y [_ Hy]%remove_elem; [|done].
  by apply (proj1 (Forall_forall _ _) Hz).
Qed.

(** The least stop behind a column. *)
Lemma next_least stops x : sorted stops ->
  match next_tab_stop stops x with
  | Some n => n ∈ stops /\ x < n /\ forall m, m ∈ stops -> x < m -> n <= m
  | None => forall m, m ∈ stops -> m <= x
  end.
Proof.
  induction stops as [|z stops IH]; intros H; cbn [next_tab_stop]; [set_solver|].
  apply sorted_cons in H as [H Hz]. rewrite Forall_forall in Hz. destruct (Z.ltb_spec x z) as [Hx|Hx].
  - split; [by left|]. split; [done|]. intros m [->|Hm]%elem_of_cons _; [lia|]. specialize (Hz m Hm). lia.
  - specialize (IH H). destruct (next_tab_stop stops x) as [n|].
    + destruct IH as (Hn & Hxn & Hl). split; [by right|]. split; [done|].
      intros m [->|Hm]%elem_of_cons Hlt; [lia|]. by apply Hl.
    + intros m [->|Hm]%elem_of_cons; [done|by apply IH].
Qed.

Section Vt100Tabs.
Context {C : Curses}.

Lemma hts_adds s :
  sorted (tab_stops (state s)) ->
  exists t, hts s = Done (tt, t) /\ sorted (tab_stops (state t)) /\ columns t = columns s ∪ {[ cursor_x (q_status (screen s)) ]}.
Proof.
  intros H. eexists. split; [reflexivity|]. split; [by apply insert_sorted|].
  apply set_eq. intros y. unfold columns. cbn [state tab_stops field_update].
  change (y ∈ (list_to_set (insert_tab_stop (cursor_x (q_status (screen s))) (tab_stops (state s))) : gset Z) <->
          y ∈ columns s ∪ {[ cursor_x (q_status (screen s)) ]}).
  rewrite elem_of_list_to_set, insert_elem, elem_of_union, elem_of_singleton. unfold columns. rewrite elem_of_list_to_set. tauto.
Qed.

(** One tab, on a line of single width without a margin inside the screen. *)
Lemma tab_advances s ds d :
  sorted (tab_stops (state s)) -> Forall (fun stop => stop < WIDTH (screen s)) (tab_stops (state s)) ->
  on_screen (screen s) ds -> ds !! row_index (screen s) ds = Some d -> double_width d = false ->
  q_emulation_right_margin (screen s) <= 0 ->
  let x := cursor_x (q_status (screen s)) in x < WIDTH (screen s) ->
  exists t, advance_to_next_tab_stop s = Done (tt, t) /\ tab_stops (state t) = tab_stops (state s) /\
    visible (screen t) /\ cursor_y (q_status (screen t)) = cursor_y (q_status (screen s)) /\
    ((cursor_x (q_status (screen t)) ∈ columns s /\ x < cursor_x (q_status (screen t)) /\
      forall y, y ∈ columns s -> x < y -> cursor_x (q_status (screen t)) <= y) \/
     ((forall y, y ∈ columns s -> y <= x) /\ cursor_x (q_status (screen t)) = WIDTH (screen s) - 1)).
Proof.
  intros Hs Hw Hds Hd Hdw Hm x Hx.
  assert (Em : forall e, ds !! row_index (screen s) ds = Some e -> margin_of (screen s) e = WIDTH (screen s) - 1).
  { intros e He. assert (e = d) as -> by congruence. unfold margin_of, halve_margin. rewrite Hdw.
    by rewrite (proj2 (Z.ltb_ge 0 _)) by done. }
  assert (Hgo : forall y, x <= y < WIDTH (screen s) ->
    wp (draw (cursor_right (y - x) false)) s (fun _ t => tab_stops (state t) = tab_stops (state s) /\ visible (screen t) /\
      cursor_y (q_status (screen t)) = cursor_y (q_status (screen s)) /\ cursor_x (q_status (screen t)) = y)).
  { intros y Hy. apply wp_draw, (wp_cursor_right _ ds); [done|]. intros t e e' He _ _ Ht. rewrite (Em e He) in Ht. fold x in Ht.
    split; [done|]. split; [by eexists; apply Ht|]. split; [exact (re_y _ _ _ _ _ _ Ht)|].
    refine (eq_trans (re_x _ _ _ _ _ _ Ht) _). unfold outside. cbn [andb orb].
    destruct (Z.leb_spec (WIDTH (screen s) - 1) x); lia. }
  pose proof (next_least _ x Hs) as Hn. unfold advance_to_next_tab_stop.
  assert (Hwp : wp advance_to_next_tab_stop s (fun _ t => tab_stops (state t) = tab_stops (state s) /\ visible (screen t) /\
    cursor_y (q_status (screen t)) = cursor_y (q_status (screen s)) /\
    ((cursor_x (q_status (screen t)) ∈ columns s /\ x < cursor_x (q_status (screen t)) /\
      forall y, y ∈ columns s -> x < y -> cursor_x (q_status (screen t)) <= y) \/
     ((forall y, y ∈ columns s -> y <= x) /\ cursor_x (q_status (screen t)) = WIDTH (screen s) - 1)))).
  { unfold advance_to_next_tab_stop. apply wp_bind, wp_get. cbv zeta. fold x. unfold columns.
    destruct (next_tab_stop (tab_stops (state s)) x) as [n|].
    - destruct Hn as (Hin & Hxn & Hl). pose proof (proj1 (Forall_forall _ _) Hw n Hin) as Hnw. cbv beta in Hnw.
      eapply wp_mono; [apply Hgo; lia|]. intros _ t (E1 & E2 & E3 & E4). split_and!; [done..|]. left. rewrite E4.
      split; [by apply elem_of_list_to_set|]. split; [done|]. intros y Hy%elem_of_list_to_set. by apply Hl.
    - replace (WIDTH (screen s) - 1 - x) with ((WIDTH (screen s) - 1) - x) by lia.
      eapply wp_mono; [apply Hgo; lia|]. intros _ t (E1 & E2 & E3 & E4). split_and!; [done..|]. right.
      split; [intros y Hy%elem_of_list_to_set; by apply Hn|done]. }
  destruct (wp_run _ _ _ Hwp) as ([] & t & E & Ht). exists t. split; [exact E|done].
Qed.

End Vt100Tabs.
End Vt100Tabs.
