(* ===== verification/AnsiParse.v ===== *)
(** How the ANSI emulation reads a sequence: bytes are collected in the buffer of the
    sequence, and the parameters are read out of it when the final byte has come. *)

From Stdlib Require Import ZArith Lia List Bool Ascii.
From stdpp Require Import base list numbers gmap strings.
From S2P Require Import Prelude Stdio States Codepage Colors Screen Emulation Vt100 Vt100Machine EmulationInv Vt100Safe Vt100Sgr Ansi Terminal TerminalSafe TerminalParse.
Import Codepage Colors Screen Emulation Vt100 Vt100Machine EmulationInv Vt100Safe Vt100Sgr Terminal TerminalSafe TerminalParse.

Module AnsiParse.

#[global] Instance ansi_scan_state_eq_dec : EqDecision ANSI_SCAN_STATE.
Proof. solve_decision. Defined.

Section AnsiParse.
Context {C : Curses}.

Section Numbers.

(** ** Numbers in the buffer *)

Definition padded_with (l : list Z) : list Z := l ++ replicate (128 - length l) 0.

Lemma padded_split a b : padded_with (a ++ b) = a ++ (b ++ replicate (128 - length a - length b) 0).
Proof. unfold padded_with. rewrite length_app, <- app_assoc. do 3 f_equal. lia. Qed.

Lemma peek_at a c rest s : q_emul_buffer s = a ++ c :: rest -> Ansi.peek (Z.of_nat (length a)) s = Done (c, s).
Proof.
  intros Hb. unfold Ansi.peek. rewrite run_get. unfold load. rewrite (proj2 (Z.ltb_ge _ _)) by lia.
  by rewrite Hb, Nat2Z.id, lookup_app_r, Nat.sub_diag by done.
Qed.

Lemma digit_is b : is_digit b -> q_isdigit b = true.
Proof. done. Qed.

Lemma digits_read ds : forall n a c rest s,
  Forall is_digit ds -> (length ds <= n)%nat -> q_isdigit c = false -> q_emul_buffer s = a ++ ds ++ c :: rest ->
  Ansi.digits_from n (Z.of_nat (length a)) s = Done ((ds, Z.of_nat (length a + length ds)), s).
Proof.
  induction ds as [|d ds IH]; intros n a c rest s Hds Hn Hc Hb.
  - rewrite Nat.add_0_r. destruct n as [|n]; [done|]. cbn [Ansi.digits_from].
    rewrite (bind_done _ _ _ _ _ (peek_at a c rest s Hb)). by rewrite Hc.
  - apply Forall_cons in Hds as [Hd Hds]. destruct n as [|n]; [cbn in Hn; lia|]. cbn [Ansi.digits_from].
    rewrite (bind_done _ _ _ _ _ (peek_at a d (ds ++ c :: rest) s Hb)), (digit_is d Hd).
    assert (E := IH n (a ++ [d]) c rest s Hds ltac:(cbn in Hn; lia) Hc ltac:(by rewrite <- app_assoc)).
    rewrite length_app in E. cbn [length] in E.
    replace (Z.of_nat (length a) + 1) with (Z.of_nat (length a + 1)) by lia. rewrite (bind_done _ _ _ _ _ E).
    unfold mret, M_ret. do 3 f_equal. cbn [length]. lia.
Qed.

(** A parameter has at most six digits. *)
Lemma printed_six j : 0 <= j < 10 ^ 6 -> (length (print_base 10 j) <= 6)%nat.
Proof. intros Hj. pose proof (length_print_digits 10 64 6 j [] ltac:(lia) Hj ltac:(lia)) as H. cbn [length] in H. exact H. Qed.

(** The number at an index, and the index after it. *)
Lemma ps_read j a c rest s :
  0 <= j < 10 ^ 6 -> q_isdigit c = false -> q_emul_buffer s = a ++ print_base 10 j ++ c :: rest ->
  Ansi.ansi_ps (Z.of_nat (length a)) s = Done ((j, Z.of_nat (length a + length (print_base 10 j))), s).
Proof.
  intros Hj Hc Hb. unfold Ansi.ansi_ps.
  destruct (print_base_cons 10 j ltac:(lia)) as (d & l & E & _). pose proof (printed_digits j) as Hds.
  assert (Hd : is_digit d) by (rewrite E in Hds; by apply Forall_cons in Hds as [Hd _]).
  rewrite (bind_done _ _ _ _ _ (peek_at a d (l ++ c :: rest) s ltac:(by rewrite Hb, E))), (digit_is d Hd).
  rewrite (bind_done _ _ _ _ _ (digits_read _ 6 a c rest s Hds (printed_six j Hj) Hc Hb)).
  assert (Hp := peek_at (a ++ print_base 10 j) c rest s ltac:(by rewrite <- app_assoc)). rewrite length_app in Hp.
  rewrite (bind_done _ _ _ _ _ Hp), Hc. unfold mret, M_ret, atoi. rewrite atol_print, i32_id by lia. done.
Qed.

(** ** Colours *)

Definition sgr_all (text : q_text_color_struct) (js : list Z) (p : Ansi.ansi_pen) : Ansi.ansi_pen :=
  foldl (fun p j => Ansi.ansi_sgr text j p) p js.

Lemma color_loop_read text js : forall fuel a rest p s,
  js <> [] -> (length js <= fuel)%nat -> Forall (fun j => 0 <= j < 10 ^ 6) js ->
  q_emul_buffer s = a ++ csi_text js ++ 0 :: rest -> (length a + length (csi_text js) < 128)%nat ->
  Ansi.color_loop fuel text (Z.of_nat (length a)) p s =
    Done ((true, {| count := Z.of_nat (length a + length (csi_text js)); attributes := Ansi.put_color (sgr_all text js p) |}), s).
Proof.
  induction js as [|j js IH]; intros fuel a rest p s Hne Hf Hj Hb Hl; [done|]. clear Hne.
  apply Forall_cons in Hj as [Hj Hjs]. destruct fuel as [|fuel]; [cbn in Hf; lia|]. cbn [Ansi.color_loop].
  rewrite (proj2 (Z.ltb_lt _ 128)) by lia. cbn [negb].
  assert (Hread : forall c tail, q_isdigit c = false -> q_emul_buffer s = a ++ print_base 10 j ++ c :: tail ->
    Ansi.ansi_ps (Z.of_nat (length a)) s = Done ((j, Z.of_nat (length (a ++ print_base 10 j))), s) /\
    Ansi.peek (Z.of_nat (length (a ++ print_base 10 j))) s = Done (c, s)).
  { intros c tail Hc E. rewrite length_app at 1. split; [by apply (ps_read j a c tail)|].
    apply (peek_at _ c tail). by rewrite <- app_assoc. }
  destruct js as [|j' js].
  - cbn [csi_text] in *. destruct (Hread 0 rest eq_refl Hb) as [E1 E2]. rewrite (bind_done _ _ _ _ _ E1).
    rewrite (proj2 (Z.eqb_neq j (-1))) by lia. cbv zeta. rewrite (bind_done _ _ _ _ _ E2).
    change (negb (0 =? chr ";")) with true. cbv iota. by rewrite length_app.
  - change (csi_text (j :: j' :: js)) with (print_base 10 j ++ chr ";" :: csi_text (j' :: js)) in *.
    rewrite <- app_assoc in Hb. destruct (Hread (chr ";") (csi_text (j' :: js) ++ 0 :: rest) eq_refl Hb) as [E1 E2].
    rewrite (bind_done _ _ _ _ _ E1), (proj2 (Z.eqb_neq j (-1))) by lia. cbv zeta. rewrite (bind_done _ _ _ _ _ E2).
    change (negb (chr ";" =? chr ";")) with false. cbv iota.
    rewrite length_app in Hl. cbn [length] in Hl, Hf.
    assert (E := IH fuel (a ++ print_base 10 j ++ [chr ";"]) rest (Ansi.ansi_sgr text j p) s ltac:(done) ltac:(cbn; lia) Hjs).
    replace (Z.of_nat (length (a ++ print_base 10 j)) + 1) with (Z.of_nat (length (a ++ print_base 10 j ++ [chr ";"])))
      by (rewrite !length_app; cbn; lia).
    rewrite E; [| |rewrite !length_app; cbn [length]; lia].
    + do 4 f_equal. rewrite !length_app. cbn [length]. lia.
    + rewrite Hb, <- !app_assoc. done.
Qed.

(** ** A row and a column *)

Lemma position_read row col a rest s :
  1 <= row < 10 ^ 6 -> 1 <= col < 10 ^ 6 ->
  q_emul_buffer s = a ++ csi_text [row; col] ++ 0 :: 0 :: rest -> (length a < 128)%nat ->
  exists n, Ansi.position_loop 3 (-1) (-1) (Z.of_nat (length a)) s = Done ((Some (row - 1, col - 1), n), s).
Proof.
  intros Hr Hc Hb Hl. cbn [csi_text] in Hb. rewrite <- app_assoc in Hb. cbn [app] in Hb.
  cbn [Ansi.position_loop]. rewrite (proj2 (Z.ltb_lt _ 128)) by lia. change (negb true) with false.
  change (negb (-1 =? -1) && negb (-1 =? -1)) with false. change (-1 =? -1) with true. cbv iota.
  destruct (print_base_cons 10 row ltac:(lia)) as (d & l & Ed & Hd & _).
  rewrite (bind_done _ _ _ _ _ (peek_at a d (l ++ chr ";" :: print_base 10 col ++ 0 :: 0 :: rest) s ltac:(by rewrite Hb, Ed))).
  replace (true && (d =? chr ";")) with false by (change (chr ";") with 59; lia).
  assert (E1 : (('(ps, count) ← Ansi.ansi_ps (Z.of_nat (length a)); mret (Ansi.position_of ps, count)) : EM (Z * Z)) s =
    Done ((row - 1, Z.of_nat (length (a ++ print_base 10 row))), s)).
  { rewrite (bind_done _ _ _ _ _ (ps_read row a (chr ";") _ s ltac:(lia) eq_refl Hb)). rewrite length_app.
    unfold Ansi.position_of. rewrite (proj2 (Z.eqb_neq row _)), Z.max_r by lia. done. }
  rewrite (bind_done _ _ _ _ _ E1). rewrite (proj2 (Z.eqb_neq (row - 1) _)) by lia.
  set (b := a ++ print_base 10 row) in *.
  assert (Hb' : q_emul_buffer s = b ++ chr ";" :: print_base 10 col ++ 0 :: 0 :: rest) by (unfold b; by rewrite <- app_assoc).
  rewrite (bind_done _ _ _ _ _ (peek_at b _ _ s Hb')). change (chr ";" =? 0) with false. change (negb (chr ";" =? chr ";")) with false. cbv iota.
  assert (E2 : (('(ps, count) ← Ansi.ansi_ps (Z.of_nat (length b) + 1); mret (Ansi.position_of ps, count)) : EM (Z * Z)) s =
    Done ((col - 1, Z.of_nat (length (b ++ [chr ";"] ++ print_base 10 col))), s)).
  { replace (Z.of_nat (length b) + 1) with (Z.of_nat (length (b ++ [chr ";"]))) by (rewrite length_app; cbn; lia).
    rewrite (bind_done _ _ _ _ _ (ps_read col (b ++ [chr ";"]) 0 (0 :: rest) s ltac:(lia) eq_refl ltac:(by rewrite <- app_assoc))).
    unfold Ansi.position_of. rewrite (proj2 (Z.eqb_neq col _)), Z.max_r by lia. unfold mret, M_ret. do 3 f_equal.
    rewrite !length_app. cbn [length]. lia. }
  rewrite (bind_done _ _ _ _ _ E2), (proj2 (Z.eqb_neq (col - 1) _)) by lia.
  set (e := b ++ [chr ";"] ++ print_base 10 col) in *.
  replace (Z.of_nat (length e) + 1) with (Z.of_nat (length (e ++ [0]))) by (rewrite length_app; cbn; lia).
  rewrite (bind_done _ _ _ _ _ (peek_at (e ++ [0]) 0 rest s ltac:(unfold e; by rewrite Hb', <- !app_assoc))).
  eexists. reflexivity.
Qed.

End Numbers.

(** ** Bytes into the buffer *)

Section Console.
Context (fuel : nat).
Context (Hfuel : (0 < fuel)%nat).

(** The scanner in the state [q] with the bytes [l] collected, since [s0]. *)
Record ansi_in (q : ANSI_SCAN_STATE) (l : list Z) (s0 s : emul_state) : Prop := {
  an_emulation : emulation_is s = Q_EMUL_ANSI;
  an_state : ansi_scan_state (ansi_statics s) = q;
  an_buffer : q_emul_buffer s = padded_with l;
  an_n : q_emul_buffer_n s = Z.of_nat (length l);
  an_last : plain (last_state s);
  an_screen : screen s = screen s0;
  an_flags : flags s = flags s0
}.

(** Its statics while parameters arrive. *)
Record collecting (q : ANSI_SCAN_STATE) (l : list Z) (s0 s : emul_state) : Prop := {
  co_in : ansi_in q l s0 s;
  co_count : count (ansi_counter (ansi_statics s)) = 2;
  co_attributes : attributes (ansi_counter (ansi_statics s)) = q_current_color (screen s0)
}.

Definition ansi_quiet (s : emul_state) : Prop := ansi_in ANSI_SCAN_NONE [] s s.

Lemma padded_store l b : (length l < 128)%nat -> blit (padded_with l) (length l) [b] = padded_with (l ++ [b]).
Proof.
  intros Hl. unfold blit, padded_with. rewrite take_app_length, length_app, <- app_assoc. cbn [length app]. f_equal. f_equal.
  rewrite drop_app_ge by lia. rewrite drop_replicate. f_equal. lia.
Qed.

Lemma wp_collect b l s (Q : unit -> emul_state -> Prop) :
  q_emul_buffer s = padded_with l -> q_emul_buffer_n s = Z.of_nat (length l) -> (length l < 128)%nat ->
  Q tt (s <| q_emul_buffer := padded_with (l ++ [b]) |> <| q_emul_buffer_n ::= Z.succ |>) -> wp (save_char b) s Q.
Proof.
  intros Hb Hn Hl HQ. unfold save_char. apply wp_bind, wp_get, wp_bind. unfold store. rewrite Hb, Hn.
  apply wp_memcpy; [lia|unfold padded_with; rewrite length_app, length_replicate; cbn [length]; lia|].
  rewrite Nat2Z.id, padded_store by done. by apply wp_modify.
Qed.

Lemma wp_ansi_more b q l s0 s m (Q : unit -> emul_state -> Prop) :
  ansi_in q l s0 s -> (length l <= 126)%nat -> b <> 0x0D /\ b <> 0x0A ->
  Ansi.scan_ansi fuel b (counted 1 s) = Ansi.more m (counted 1 s) ->
  wp m (counted 1 s) (fun _ t => Q tt (t <| last_state := Q_EMUL_FSM_NO_CHAR_YET |>)) ->
  wp (console_byte fuel b) s Q.
Proof.
  intros Hs Hl Hb E H. pose proof Hs as [He _ _ Hn Hp _ _].
  apply wp_console_silent; [done|lia|done|by right|]. unfold emulate. apply wp_bind, wp_gets.
  change (emulation (q_status (screen (counted 1 s)))) with (emulation_is s). rewrite He.
  unfold Ansi.ansi. apply wp_bind. unfold wp. rewrite E. unfold Ansi.more. apply wp_bind.
  eapply wp_mono; [exact H|]. intros [] t Ht. apply wp_ret, wp_ret. by split.
Qed.

(** The step of a scanner that is in a known state. *)
Ltac at_ansi H :=
  unfold Ansi.scan_ansi; rewrite run_get;
  match goal with |- context [ansi_statics (counted 1 ?s)] => change (ansi_statics (counted 1 s)) with (ansi_statics s) end;
  rewrite (an_state _ _ _ _ H).

Lemma ansi_escape s :
  ansi_quiet s -> wp (console_byte fuel C_ESC) s (fun _ t => ansi_in ANSI_SCAN_ESC [C_ESC] s t /\
    attributes (ansi_counter (ansi_statics t)) = q_current_color (screen s)).
Proof.
  intros Hs. eapply (wp_ansi_more _ _ _ _ _ _ _ Hs); [cbn; lia|done|at_ansi Hs; reflexivity|].
  pose proof Hs as [He Hq Hb Hn Hp _ _]. apply wp_bind, (wp_collect _ []); [done|done|cbn; lia|].
  apply wp_bind, wp_modify, wp_bind, wp_get, wp_modify. split; [|done]. split; try done; [|by left].
  cbn. rewrite Hn. done.
Qed.

Lemma ansi_bracket s0 s :
  ansi_in ANSI_SCAN_ESC [C_ESC] s0 s -> attributes (ansi_counter (ansi_statics s)) = q_current_color (screen s0) ->
  wp (console_byte fuel (chr "[")) s (fun _ t => ansi_in ANSI_SCAN_START_SEQUENCE [C_ESC; chr "["] s0 t /\
    attributes (ansi_counter (ansi_statics t)) = q_current_color (screen s0)).
Proof.
  intros Hs Ha. eapply (wp_ansi_more _ _ _ _ _ _ _ Hs); [cbn; lia|done|at_ansi Hs; reflexivity|].
  pose proof Hs as [He Hq Hb Hn Hp Hsc Hfl]. apply wp_bind, (wp_collect _ [C_ESC]); [done|done|cbn; lia|].
  apply wp_modify. split; [|done]. split; try done; [|by left]. cbn. by rewrite Hn.
Qed.

Lemma ansi_first_digit d s0 s :
  is_digit d -> ansi_in ANSI_SCAN_START_SEQUENCE [C_ESC; chr "["] s0 s ->
  attributes (ansi_counter (ansi_statics s)) = q_current_color (screen s0) ->
  wp (console_byte fuel d) s (fun _ t => collecting ANSI_SCAN_COUNT [C_ESC; chr "["; d] s0 t).
Proof.
  intros Hd Hs Ha. pose proof (digit_is d Hd) as Hq'. unfold is_digit, within in Hd. change (chr "0") with 48 in Hd. change (chr "9") with 57 in Hd.
  pose proof Hs as [He Hq Hb Hn Hp Hsc Hfl].
  eapply (wp_ansi_more _ _ _ _ _ (s' ← get;
    on_ansi (fun v => v <| ansi_counter ::= fun c => c <| count := q_emul_buffer_n s' |> |>);;
    save_char d;; Ansi.ansi_scan ANSI_SCAN_COUNT) _ Hs); [cbn; lia|lia| |].
  - at_ansi Hs. unfold Ansi.scan_start_sequence. rewrite Hq'. unfold Ansi.start_count, Ansi.save_and, Ansi.more.
    rewrite run_get. unfold mbind, M_bind, get, on_ansi, modify. cbv beta. by destruct (save_char d _) as [[[] t]| |].
  - apply wp_bind, wp_get, wp_bind, wp_modify, wp_bind, (wp_collect _ [C_ESC; chr "["]); [done|done|cbn; lia|].
    apply wp_modify. split; [|done|done]. split; try done; [|by left]. cbn. by rewrite Hn.
Qed.

(** The state of the scanner after a byte of the parameters. *)
Definition next_count (q : ANSI_SCAN_STATE) (b : Z) : ANSI_SCAN_STATE :=
  if b =? chr ";" then match q with ANSI_SCAN_COUNT => ANSI_SCAN_COUNT_TWO | _ => ANSI_SCAN_COUNT_MANY end else q.

Definition in_count (q : ANSI_SCAN_STATE) : Prop :=
  q = ANSI_SCAN_COUNT \/ q = ANSI_SCAN_COUNT_TWO \/ q = ANSI_SCAN_COUNT_MANY.

Lemma next_in_count q b : in_count q -> in_count (next_count q b).
Proof. intros Hq. unfold next_count. destruct (b =? chr ";"); [|done]. destruct Hq as [->|[->| ->]]; [right; by left|by right; right..]. Qed.

Lemma param_cases b : is_param b = true -> (q_isdigit b = true /\ b =? chr ";" = false) \/ b = chr ";".
Proof.
  unfold is_param, q_isdigit, within. change (chr "0") with 48. change (chr "9") with 57. change (chr ";") with 59.
  intros H. destruct (Z.eqb_spec b 59); [by right|left]. split; [|done]. lia.
Qed.

Lemma scan_param q b l s0 s :
  in_count q -> is_param b = true -> ansi_in q l s0 s ->
  Ansi.scan_ansi fuel b (counted 1 s) =
    (if bool_decide (next_count q b = q) then Ansi.more (save_char b)
     else Ansi.save_and b (next_count q b)) (counted 1 s).
Proof.
  intros Hq Hb Hs. at_ansi Hs. destruct Hq as [->|[->| ->]]; destruct (param_cases b Hb) as [[Hd Hn]| ->].
  1, 3: unfold next_count; rewrite Hn, bool_decide_eq_true_2 by done; unfold Ansi.scan_count, Ansi.scan_count_two; by rewrite Hd.
  1, 2: reflexivity.
  - unfold next_count. rewrite Hn, bool_decide_eq_true_2 by done. unfold Ansi.scan_count_many. by rewrite Hd.
  - reflexivity.
Qed.

Lemma ansi_param q b l s0 s :
  in_count q -> is_param b = true -> collecting q l s0 s -> (length l <= 126)%nat ->
  wp (console_byte fuel b) s (fun _ t => collecting (next_count q b) (l ++ [b]) s0 t).
Proof.
  intros Hq Hb [Hs Hc Ha] Hl. pose proof (is_param_range b Hb) as Hr. pose proof Hs as [He Hst Hbuf Hn Hp Hsc Hfl].
  assert (Hin : forall t, ansi_scan_state (ansi_statics t) = next_count q b ->
    ansi_counter (ansi_statics t) = ansi_counter (ansi_statics s) -> screen t = screen s -> flags t = flags s ->
    q_emul_buffer t = padded_with (l ++ [b]) -> q_emul_buffer_n t = Z.of_nat (length l) + 1 ->
    collecting (next_count q b) (l ++ [b]) s0 (t <| last_state := Q_EMUL_FSM_NO_CHAR_YET |>)).
  { intros t E1 E2 E3 E4 E5 E6. split; [|cbn; by rewrite E2..].
    split; [unfold emulation_is; cbn; rewrite E3; exact He|done|done| |by left|cbn; congruence|cbn; congruence].
    cbn. rewrite E6, length_app. cbn [length]. lia. }
  pose proof (scan_param q b l s0 s Hq Hb Hs) as E. destruct (bool_decide (next_count q b = q)) eqn:Ed.
  - apply bool_decide_eq_true in Ed. eapply (wp_ansi_more _ _ _ _ _ _ _ Hs); [lia|lia|exact E|].
    apply (wp_collect _ l); [done|done|lia|]. apply Hin; try done; [by rewrite Ed|]. cbn. lia.
  - eapply (wp_ansi_more _ _ _ _ _ _ _ Hs); [lia|lia|exact E|]. apply wp_bind, (wp_collect _ l); [done|done|lia|].
    apply wp_modify. apply Hin; try done. cbn. lia.
Qed.

Lemma ansi_params bs : forall q l s0 s,
  in_count q -> Forall (fun b => is_param b = true) bs -> collecting q l s0 s -> (length l + length bs <= 127)%nat ->
  wp (console_bytes fuel bs) s (fun _ t => collecting (foldl next_count q bs) (l ++ bs) s0 t).
Proof.
  induction bs as [|b bs IH]; intros q l s0 s Hq Hb Hs Hl; [apply wp_ret; by rewrite app_nil_r|].
  apply Forall_cons in Hb as [Hb Hbs]. cbn [length] in Hl. unfold console_bytes. cbn [each foldl].
  apply wp_bind. eapply wp_mono; [apply (ansi_param q b l s0 s Hq Hb Hs); lia|]. intros [] t Ht. cbv beta in Ht.
  rewrite cons_middle, app_assoc. apply IH; [by apply next_in_count|done|done|]. rewrite length_app. cbn [length]. lia.
Qed.

(** A sequence up to its final byte. *)
Lemma ansi_collects js s :
  js <> [] -> ansi_quiet s -> (length (csi_text js) <= 124)%nat ->
  wp (console_bytes fuel (C_ESC :: chr "[" :: csi_text js)) s (fun _ t =>
    collecting (foldl next_count ANSI_SCAN_COUNT (csi_text js)) (C_ESC :: chr "[" :: csi_text js) s t).
Proof.
  intros Hne Hs Hl. assert (Hd : exists d bs, csi_text js = d :: bs /\ is_digit d).
  { destruct js as [|j js]; [done|]. destruct (print_base_cons 10 j ltac:(lia)) as (d & l & E & _).
    pose proof (printed_digits j) as Hds. rewrite E in Hds. apply Forall_cons in Hds as [Hd _].
    destruct js as [|j' js]; cbn [csi_text]; rewrite E; by eexists _, _. }
  destruct Hd as (d & bs & E & Hd). pose proof (csi_text_params js) as Hps. rewrite E in *. apply Forall_cons in Hps as [_ Hbs].
  cbn [length] in Hl. unfold console_bytes. cbn [each foldl].
  replace (next_count ANSI_SCAN_COUNT d) with ANSI_SCAN_COUNT by (unfold next_count; by rewrite digit_not_semicolon).
  apply wp_bind. eapply wp_mono; [by apply ansi_escape|]. intros [] s1 [H1 A1].
  apply wp_bind. eapply wp_mono; [by apply (ansi_bracket s)|]. intros [] s2 [H2 A2].
  apply wp_bind. eapply wp_mono; [by apply (ansi_first_digit d s)|]. intros [] s3 H3.
  apply (ansi_params bs ANSI_SCAN_COUNT [C_ESC; chr "["; d] s s3); [by left|done|done|cbn; lia].
Qed.

(** ** Final bytes *)

Lemma counts_in bs : in_count (foldl next_count ANSI_SCAN_COUNT bs).
Proof.
  assert (H : forall q, in_count q -> in_count (foldl next_count q bs)).
  { induction bs as [|b bs IH]; intros q Hq; [done|]. by apply IH, next_in_count. }
  apply H. by left.
Qed.

Lemma wp_ansi_final b l q s0 s m (Q : unit -> emul_state -> Prop) :
  ansi_in q l s0 s -> (length l <= 126)%nat -> b <> 0x0D /\ b <> 0x0A ->
  Ansi.scan_ansi fuel b (counted 1 s) = m (counted 1 s) ->
  wp m (counted 1 s) (fun r t => r = Some no_char_yet /\ Q tt (t <| last_state := Q_EMUL_FSM_NO_CHAR_YET |>)) ->
  wp (console_byte fuel b) s Q.
Proof.
  intros Hs Hl Hb E H. pose proof Hs as [He _ _ Hn Hp _ _].
  apply wp_console_silent; [done|lia|done|by right|]. unfold emulate. apply wp_bind, wp_gets.
  change (emulation (q_status (screen (counted 1 s)))) with (emulation_is s). rewrite He.
  unfold Ansi.ansi. apply wp_bind. unfold wp. rewrite E.
  eapply wp_mono; [exact H|]. intros r t [-> Ht]. apply wp_ret. by split.
Qed.

(** The statics and the buffer of a new sequence. *)
Lemma ansi_cleared t :
  emulation_is t = Q_EMUL_ANSI -> wp Ansi.clear_state t (fun _ u => ansi_quiet (u <| last_state := Q_EMUL_FSM_NO_CHAR_YET |>) /\
    screen u = screen t /\ flags u = flags t).
Proof.
  intros He. unfold Ansi.clear_state. apply wp_bind, wp_modify, wp_bind, wp_modify, wp_modify.
  split; [|done]. split; try done. by left.
Qed.

Definition pen_of_color (c : Z) : Ansi.ansi_pen :=
  let curses_color := color_from_attr c in
  {| Ansi.output := Z.land c NO_COLOR_MASK; Ansi.foreground := i16 (Z.shiftr (Z.land curses_color 0x38) 3);
     Ansi.background := i16 (Z.land curses_color 0x07) |}.

Definition sgr_color_of (text : q_text_color_struct) (js : list Z) (c : Z) : Z :=
  Ansi.put_color (sgr_all text js (pen_of_color c)).

Lemma csi_text_length js : (length js <= length (csi_text js))%nat.
Proof.
  induction js as [|j js IH]; [done|]. destruct (print_base_cons 10 j ltac:(lia)) as (d & l & E & _).
  destruct js as [|j' js]; cbn [csi_text length] in *; rewrite ?length_app, E; cbn [length]; [lia|]. cbn [length] in IH. lia.
Qed.

Lemma ansi_final_m js s0 s :
  js <> [] -> Forall (fun j => 0 <= j < 10 ^ 6) js -> (length (csi_text js) <= 124)%nat ->
  collecting (foldl next_count ANSI_SCAN_COUNT (csi_text js)) (C_ESC :: chr "[" :: csi_text js) s0 s ->
  wp (console_byte fuel (chr "m")) s (fun _ t => ansi_quiet t /\ flags t = flags s0 /\
    screen t = (screen s0) <| q_current_color :=
      sgr_color_of (q_text_colors (screen s0) Q_COLOR_CONSOLE_TEXT) js (q_current_color (screen s0)) |>).
Proof.
  intros Hne Hj Hl [Hs Hc Ha]. pose proof Hs as [He Hq Hb Hn Hp Hsc Hf].
  apply (wp_ansi_final _ _ _ _ _ Ansi.select_attributes _ Hs); [cbn [length]; lia|done| |].
  { at_ansi Hs. destruct (counts_in (csi_text js)) as [->|[->| ->]]; reflexivity. }
  unfold Ansi.select_attributes. apply wp_bind, wp_get. change (ansi_statics (counted 1 s)) with (ansi_statics s).
  unfold Ansi.text_attributes. rewrite <- (app_nil_r (C_ESC :: _)) in Hb.
  assert (E : Ansi.ansi_color (ansi_counter (ansi_statics s)) (counted 1 s) =
    Done ((true, {| count := Z.of_nat (2 + length (csi_text js)); attributes :=
      sgr_color_of (q_text_colors (screen s0) Q_COLOR_CONSOLE_TEXT) js (q_current_color (screen s0)) |}), counted 1 s)).
  { unfold Ansi.ansi_color. rewrite run_get. cbv zeta. change (screen (counted 1 s)) with (screen s). rewrite Hsc, Hc, Ha.
    unfold sgr_color_of, pen_of_color.
    apply (color_loop_read _ js 128 [C_ESC; chr "["] (replicate (125 - length (csi_text js)) 0)); [done| |done| |cbn [length]; lia].
    - pose proof (csi_text_length js). lia.
    - change (q_emul_buffer (counted 1 s)) with (q_emul_buffer s). rewrite Hb, app_nil_r. unfold padded_with.
      cbn [length app]. do 3 f_equal. replace (128 - S (S (length (csi_text js))))%nat with (S (125 - length (csi_text js))) by lia. done. }
  apply wp_bind, wp_bind, (wp_done _ _ _ _ _ E). cbv beta iota.
  apply wp_bind, wp_modify. cbn [whenM attributes]. apply wp_bind, wp_modify, wp_ret. cbn [Ansi.finish_if].
  unfold Ansi.finish. apply wp_bind, wp_ret, wp_bind. eapply wp_mono; [apply ansi_cleared|].
  - exact He.
  - intros [] u (Hu & Es & Ef). apply wp_ret. split; [done|]. split; [done|]. split; [refine (eq_trans Ef _); exact Hf|].
    refine (eq_trans Es _). cbn. by rewrite Hsc.
Qed.

Lemma digits_keep_count ds q : Forall is_digit ds -> foldl next_count q ds = q.
Proof.
  intros Hds. revert q. induction Hds as [|d ds Hd Hds IH]; intros q; [done|]. cbn [foldl].
  unfold next_count at 2. rewrite (digit_not_semicolon d Hd). apply IH.
Qed.

Lemma two_numbers_count i j : foldl next_count ANSI_SCAN_COUNT (csi_text [i; j]) = ANSI_SCAN_COUNT_TWO.
Proof.
  cbn [csi_text]. rewrite foldl_app. cbn [foldl].
  rewrite !digits_keep_count by apply printed_digits. done.
Qed.

Lemma ansi_final_H row col s0 s t :
  1 <= row < 10 ^ 6 -> 1 <= col < 10 ^ 6 ->
  collecting ANSI_SCAN_COUNT_TWO (C_ESC :: chr "[" :: csi_text [row; col]) s0 s ->
  cursor_position (row - 1) (col - 1) (screen s0) = Done (tt, t) -> emulation (q_status t) = Q_EMUL_ANSI ->
  wp (console_byte fuel (chr "H")) s (fun _ u => ansi_quiet u /\ flags u = flags s0 /\ screen u = t).
Proof.
  intros Hr Hc [Hs Hn Ha] Et Het. pose proof Hs as [He Hq Hb Hnn Hp Hsc Hf].
  assert (Hl : (length (csi_text [row; col]) <= 13)%nat).
  { cbn [csi_text]. rewrite length_app. cbn [length]. pose proof (printed_six row). pose proof (printed_six col). lia. }
  apply (wp_ansi_final _ _ _ _ _ (Ansi.parsed Ansi.ansi_position) _ Hs); [cbn [length]; lia|done|at_ansi Hs; reflexivity|].
  destruct (position_read row col [C_ESC; chr "["] (replicate (124 - length (csi_text [row; col])) 0) (counted 1 s) Hr Hc) as [n E].
  { change (q_emul_buffer (counted 1 s)) with (q_emul_buffer s). rewrite Hb. unfold padded_with. cbn [length app]. do 3 f_equal.
    replace (128 - S (S (length (csi_text [row; col]))))%nat with (S (S (124 - length (csi_text [row; col])))) by lia. done. }
  { cbn. lia. }
  unfold Ansi.parsed. apply wp_bind, wp_get. change (ansi_statics (counted 1 s)) with (ansi_statics s). rewrite Hn.
  unfold Ansi.ansi_position. apply wp_bind, wp_bind. change (Z.of_nat (length [C_ESC; chr "["])) with 2 in E.
  apply (wp_done _ _ _ _ _ E). cbv beta iota. rewrite <- Hsc in Et. apply wp_bind, wp_draw.
  apply (wp_done _ _ _ _ _ Et), wp_ret. apply wp_bind, wp_modify. cbn [Ansi.finish_if]. unfold Ansi.finish.
  apply wp_bind, wp_ret, wp_bind. eapply wp_mono; [apply ansi_cleared; exact Het|].
  intros [] u (Hu & Es & Ef). apply wp_ret. split; [done|]. split; [done|]. split; [|exact Es]. refine (eq_trans Ef _). exact Hf.
Qed.

End Console.
(** *** Colours alone *)

Section Pairs.
Context {L : CursesLaws C}.

Definition fields_ok (p : Ansi.ansi_pen) : Prop :=
  0 <= Ansi.foreground p < 8 /\ 0 <= Ansi.background p < 8.
Definition pair_of (p : Ansi.ansi_pen) : Z := 8 * Ansi.foreground p + Ansi.background p.

Lemma sgr_color_step text j p :
  is_color j -> fields_ok p ->
  fields_ok (Ansi.ansi_sgr text j p) /\ Ansi.output (Ansi.ansi_sgr text j p) = Ansi.output p /\
  pair_of (Ansi.ansi_sgr text j p) = paired (pair_of p) j.
Proof.
  intros Hj [Hf Hb]. unfold Ansi.ansi_sgr.
  repeat (rewrite (proj2 (Z.eqb_neq j _)) by (destruct Hj; lia)). cbn [orb].
  assert (Ep : pair_of p / 8 = Ansi.foreground p /\ pair_of p mod 8 = Ansi.background p).
  { unfold pair_of. split; [symmetry; apply (Z.div_unique _ 8 _ (Ansi.background p))|symmetry; apply (Z.mod_unique _ 8 (Ansi.foreground p))]; lia. }
  destruct Ep as [E1 E2]. unfold paired. rewrite E1, E2. unfold within. destruct Hj as [Hj|Hj].
  - replace ((30 <=? j) && (j <=? 37)) with true by lia. rewrite (proj2 (Z.leb_le j 37)) by lia.
    split; [|done]. unfold fields_ok. cbn. lia.
  - replace ((30 <=? j) && (j <=? 37)) with false by lia. rewrite (proj2 (Z.leb_gt j 37)) by lia.
    replace ((40 <=? j) && (j <=? 47)) with true by lia.
    split; [|done]. unfold fields_ok. cbn. lia.
Qed.

Lemma sgr_color_steps text js : forall p,
  Forall is_color js -> fields_ok p ->
  fields_ok (sgr_all text js p) /\ Ansi.output (sgr_all text js p) = Ansi.output p /\
  pair_of (sgr_all text js p) = foldl paired (pair_of p) js.
Proof.
  induction js as [|j js IH]; intros p Hj Hp; [done|]. apply Forall_cons in Hj as [Hj Hjs].
  destruct (sgr_color_step text j p Hj Hp) as (H1 & H2 & H3).
  destruct (IH (Ansi.ansi_sgr text j p) Hjs H1) as (G1 & G2 & G3). cbn [sgr_all foldl].
  split; [exact G1|]. split; [exact (eq_trans G2 H2)|]. rewrite <- H3. exact G3.
Qed.

Lemma sgr_color_pair text js c :
  Forall is_color js -> color_ok c ->
  PAIR_NUMBER (sgr_color_of text js c) = foldl paired (PAIR_NUMBER c) js /\
  Z.land (sgr_color_of text js c) NO_COLOR_MASK = Z.land c NO_COLOR_MASK.
Proof.
  intros Hj Hc. unfold sgr_color_of. set (p := pen_of_color c).
  destruct (fields_of (PAIR_NUMBER c) Hc) as [E1 E2].
  pose proof (Z.mod_pos_bound (PAIR_NUMBER c) 8). pose proof (Z.div_pos (PAIR_NUMBER c) 8).
  pose proof (Z.div_lt_upper_bound (PAIR_NUMBER c) 8 8). pose proof (Z.div_mod (PAIR_NUMBER c) 8).
  unfold color_ok in Hc.
  assert (Hf : fields_ok p) by (unfold fields_ok, p, pen_of_color, color_from_attr; cbn; rewrite E1, E2; lia).
  assert (Ep : pair_of p = PAIR_NUMBER c) by (unfold pair_of, p, pen_of_color, color_from_attr; cbn; rewrite E1, E2; lia).
  destruct (sgr_color_steps text js p Hj Hf) as ([F1 F2] & G2 & G3). rewrite Ep in G3. rewrite <- G3.
  assert (Eo : Ansi.output p = Z.land c NO_COLOR_MASK) by done. rewrite Eo in G2. unfold Ansi.put_color. rewrite G2. split.
  - rewrite Z.lor_comm. apply color_pair_ok; [done|done|apply no_color_rest].
  - rewrite Z.land_lor_distr_l, <- Z.land_assoc, Z.land_diag. unfold NO_COLOR_MASK, color_to_attr.
    pose proof (pair_bits_color (i16 (Z.lor (Z.shiftl (Ansi.foreground (sgr_all text js p)) 3)
      (Ansi.background (sgr_all text js p)))) 0) as Hb.
    rewrite Z.lor_0_r in Hb. by rewrite Hb, Z.lor_0_r.
Qed.

End Pairs.

End AnsiParse.
End AnsiParse.
