(* ===== verification/TerminalText.v ===== *)
(** Text through the emulations of vt100.c: what a state between two sequences does with
    characters, as they are or in UTF-8. *)

From Stdlib Require Import ZArith Lia List Bool Ascii.
From stdpp Require Import base list numbers gmap strings.
From S2P Require Import Prelude Stdio States Utf8 Utf8Props Codepage Colors Screen ScreenList ScreenState ScreenSpec ScreenCommand ScreenText Emulation Vt100 Vt100Machine EmulationInv Vt100Total Terminal TerminalSafe TerminalParse.
Import Codepage Colors Screen ScreenList ScreenState ScreenSpec ScreenCommand ScreenText Emulation Vt100 Vt100Machine EmulationInv Vt100Total Terminal TerminalSafe TerminalParse.

Module TerminalText.

(** Ready for text: ASCII in G0, nothing shifted, no half of a character read. *)
Record ready (s : emul_state) : Prop := {
  rd_quiet : quiet s;
  rd_utf8 : Utf8.d_state (utf8 (state s)) = 0;
  rd_g0 : g0_charset (state s) = CHARSET_US;
  rd_in : shift_out (state s) = false;
  rd_single : singleshift (state s) = SS_NONE;
  rd_gl : lockshift_gl (state s) = LOCKSHIFT_NONE;
  rd_gr : lockshift_gr (state s) = LOCKSHIFT_NONE;
  rd_printer : printer_controller_mode (state s) = false
}.

(** A character that the emulation [e] prints: not a control character, and ASCII unless
    [e] reads UTF-8. *)
Definition printable (e : Q_EMULATION) (c : Z) : Prop :=
  Utf8.scalar c /\ 0x20 <= c /\ c <> 0x7F /\ (is_utf8 e = false -> c < 0x80).

(** The byte changes the state of the decoder. *)
Definition d_state_moves (d : Utf8.decoder) (b : Z) : Prop := Utf8.d_state d <> Utf8.d_state (Utf8.utf8_decode d b).

Section TerminalText.
Context {C : Curses}.
Context (fuel : nat).
Context (Hfuel : (0 < fuel)%nat).

(** ** ASCII *)

Lemma us_is_ascii : forallb (fun c => (c <? 0x20) || (0x7F <=? c) || (dec_us_chars !!! Z.to_nat c =? c)) (seqZ 0 128) = true.
Proof. by vm_compute. Qed.

Lemma us_ascii c (s : emul_state) : 0x20 <= c < 0x7F -> load dec_us_chars c s = Done (c, s).
Proof.
  intros Hc. pose proof us_is_ascii as H. rewrite forallb_forall in H.
  specialize (H c ltac:(apply list_elem_of_In, elem_of_seqZ; lia)).
  assert (Hl : is_Some (dec_us_chars !! Z.to_nat c)) by (apply lookup_lt_is_Some; vm_compute (length _); lia).
  destruct Hl as [d Hd]. assert (E : d = c).
  { rewrite (list_lookup_total_correct _ _ _ Hd) in H. lia. }
  unfold load. rewrite (proj2 (Z.ltb_ge _ _)), Hd by lia. by rewrite E.
Qed.

Lemma map_ascii c s : ready s -> 0x20 <= c < 0x7F -> map_character c s = Done (c, s).
Proof.
  intros [[] _ Hg0 Hin Hss Hgl Hgr _] Hc. unfold map_character. rewrite run_status, run_vt. change (id ?v) with v.
  rewrite (proj2 (Z.leb_gt 0x80 c)), andb_false_r by lia. rewrite qt_ansi0, Hin, Hss, run_ret.
  assert (Ht : forall e gr, map_character_charset e c CHARSET_US gr s = Done (c, s)).
  { intros e gr. unfold map_character_charset. rewrite (proj2 (Z.ltb_lt c 0x80)) by lia. cbn [orb assertM].
    rewrite run_ret, (proj2 (Z.leb_gt 0x80 c)) by lia. by apply us_ascii. }
  rewrite Hg0. destruct (is_vt220 _); [|apply Ht]. unfold shifted_gl, shifted_gr. rewrite Hgl, Hgr, !run_ret, Hg0. apply Ht.
Qed.

Definition repeats (c : Z) (s : emul_state) : emul_state := s <| state ::= fun v => v <| rep_ch := c |> |>.

Lemma scan_ascii c s :
  ready s -> by_vt100 (emulation_is s) = true -> 0x20 <= c < 0x7F -> scan c s = Done (Printable c, repeats c s).
Proof.
  intros Hr He Hc. unfold scan. rewrite run_gets, (qt_ground _ (rd_quiet _ Hr)). unfold scan_ground.
  rewrite or_execute_not by lia. rewrite run_status, run_vt, (rd_printer _ Hr), andb_false_r.
  replace (within 0x20 0x7F c) with true by (unfold within; lia). unfold print_it.
  by rewrite (bind_done _ _ _ _ _ (map_ascii c s Hr Hc)).
Qed.

(** ** UTF-8 *)

Definition with_utf8 (d : Utf8.decoder) (s : emul_state) : emul_state := s <| state ::= fun v => v <| utf8 := d |> |>.

Lemma decode_byte b d c s :
  is_utf8 (emulation_is s) = true -> Utf8.take_byte (utf8 (state s)) b = (d, c) ->
  decode_utf8 b s = Done (bool_decide (is_Some c), with_utf8 d s).
Proof. intros He E. unfold decode_utf8. rewrite run_status. unfold emulation_is in He. rewrite He. cbn [negb]. rewrite run_vt. by rewrite E. Qed.

Lemma utf8_family s : is_utf8 (emulation_is s) = true ->
  by_vt100 (emulation_is s) = true /\ is_vt10x (emulation_is s) = false /\ is_vtxxx (emulation_is s) = false /\
  is_c1 (emulation_is s) = false /\ is_vga (emulation_is s) = false.
Proof. by destruct (emulation_is s). Qed.

(** Not the last byte of a character. *)
Lemma vt100_part b d s :
  is_utf8 (emulation_is s) = true -> Utf8.take_byte (utf8 (state s)) b = (d, None) ->
  vt100 b s = Done (no_char_yet, with_utf8 d s).
Proof.
  intros He E. destruct (utf8_family s He) as (_ & H7 & _). unfold vt100. rewrite run_status. cbv zeta.
  unfold emulation_is in H7. rewrite H7. by rewrite (bind_done _ _ _ _ _ (decode_byte b d None s He E)).
Qed.

(** A byte after which a character is complete. *)
Lemma vt100_whole b d c s :
  is_utf8 (emulation_is s) = true -> Utf8.take_byte (utf8 (state s)) b = (d, Some c) ->
  anywhere b (with_utf8 d s) = Done (false, with_utf8 d s) ->
  vt100 b s = (scan b ≫= finish b) (with_utf8 d s).
Proof.
  intros He E Ha. destruct (utf8_family s He) as (_ & H7 & _). unfold vt100. rewrite run_status. cbv zeta.
  unfold emulation_is in H7. rewrite H7. rewrite (bind_done _ _ _ _ _ (decode_byte b d (Some c) s He E)).
  rewrite bool_decide_eq_true_2 by done. cbn [negb]. by rewrite (bind_done _ _ _ _ _ Ha).
Qed.

Lemma anywhere_high b s : 0x80 <= b -> is_c1 (emulation_is s) = false -> anywhere b s = Done (false, s).
Proof.
  intros Hb He. unfold anywhere. run. cbv zeta. unfold emulation_is in He. rewrite He. cbn [andb]. unfold C_ESC.
  by rewrite (proj2 (Z.eqb_neq b 0x18)), (proj2 (Z.eqb_neq b 0x1A)), (proj2 (Z.eqb_neq b 0x19)),
    (proj2 (Z.eqb_neq b 0x1B)), (proj2 (Z.eqb_neq b 0x7F)) by lia.
Qed.

(** Where the state has nothing for a byte from 0x80 on, the code point is printed. *)
Lemma scan_high b s :
  0x80 <= b -> is_utf8 (emulation_is s) = true -> scan_state s = SCAN_GROUND -> scan b s = Done (Fell_off, s).
Proof.
  intros Hb He Hg. destruct (utf8_family s He) as (_ & _ & Hv & Hc & _). unfold emulation_is in *.
  unfold scan. rewrite run_gets, Hg. unfold scan_ground, or_execute. rewrite run_status. unfold executes.
  rewrite Hv, (proj2 (Z.leb_gt b 0x1F)) by lia. cbn [andb orb]. rewrite run_status, run_vt, Hc, andb_false_r.
  replace (within 0x20 0x7F b) with false by (unfold within; lia). done.
Qed.

Definition spoken (c : Z) (s : emul_state) : emul_state :=
  repeats c s <| state ::= fun v => v <| params := replicate 16 [] |> <| params_n := -1 |> <| dec_private_mode_flag := false |> |>
    <| q_emul_buffer_n := 0 |> <| q_emul_buffer_i := 0 |> <| q_emul_buffer := replicate 128 0 |> <| scan_state := SCAN_GROUND |>.

Lemma fall_off_utf8 b s :
  is_utf8 (emulation_is s) = true ->
  fall_off b s = Done ((Q_EMUL_FSM_ONE_CHAR, Utf8.d_char (utf8 (state s))), spoken (Utf8.d_char (utf8 (state s))) s).
Proof.
  intros He. destruct (utf8_family s He) as (_ & _ & _ & _ & Hg). unfold emulation_is in *.
  unfold fall_off. rewrite run_status, He, Hg. cbn [orb]. reflexivity.
Qed.

(** ** Characters through the console *)

(** One character has been printed. *)
Definition said (c : Z) (s s' : emul_state) : Prop :=
  ready s' /\ emulation_is s' = emulation_is s /\ print_character c (screen s) = Done (tt, screen s') /\
  visible (screen s').

Lemma console_says b c s t :
  by_vt100 (emulation_is s) = true -> 0 <= q_emul_buffer_n s <= 126 -> plain (last_state s) -> visible (screen s) ->
  vt100 b (counted 1 s) = Done ((Q_EMUL_FSM_ONE_CHAR, c), t) -> screen t = screen s ->
  (forall u, ready (t <| last_state := Q_EMUL_FSM_ONE_CHAR |> <| screen := u |>)) ->
  exists s', console_byte fuel b s = Done (tt, s') /\ said c s s'.
Proof.
  intros He Hn Hl [ds Hds] Ev Et Hr. destruct (wp_run _ _ _ (keeps_run (screen s) ds (Print c) Hds I)) as ([] & u & Ec & Hf & Hv).
  exists (t <| last_state := Q_EMUL_FSM_ONE_CHAR |> <| screen := u |>). split.
  - rewrite console_byte_eq by done. rewrite (bind_done _ _ _ _ _ Ev). unfold set_last_state. rewrite run_modify.
    unfold show. cbn [fst snd]. rewrite bool_decide_eq_true_2 by done. cbn [whenM]. unfold draw, zoom.
    change (screen (t <| last_state := Q_EMUL_FSM_ONE_CHAR |>)) with (screen t). rewrite Et.
    change (run (Print c) (screen s)) with (print_character c (screen s)) in Ec. by rewrite Ec.
  - split; [apply Hr|]. split; [|by split]. unfold emulation_is.
    change (s_emulation (setup_of u) = s_emulation (setup_of (screen s))). by rewrite (setup_frame (screen s) u Hf).
Qed.

Lemma take_whole d b c :
  Utf8.d_state (Utf8.utf8_decode d b) = 0 -> Utf8.d_char (Utf8.utf8_decode d b) = c ->
  Utf8.take_byte d b = ({| Utf8.d_state := 0; Utf8.d_char := c |}, Some c).
Proof.
  intros Hs Hc. unfold Utf8.take_byte. destruct (Utf8.utf8_decode d b) as [x y]. cbn in Hs, Hc. subst.
  by rewrite andb_false_r.
Qed.

Lemma says_ascii c s :
  ready s -> by_vt100 (emulation_is s) = true -> visible (screen s) -> 0x20 <= c < 0x7F ->
  exists s', console_byte fuel c s = Done (tt, s') /\ said c s s'.
Proof.
  intros Hr He Hv Hc. destruct Hr as [Hq Hd Hg0 Hin Hss Hgl Hgr Hp].
  assert (Hr' : forall d, Utf8.d_state d = 0 -> ready (with_utf8 d (counted 1 s)))
    by (intros d Hd'; destruct Hq; split; [by split|done..]).
  assert (Hd' : Utf8.take_byte (utf8 (state s)) c = ({| Utf8.d_state := 0; Utf8.d_char := c |}, Some c)).
  { assert (E : Utf8.decode_one (utf8 (state s)) [c] = Some c).
    { rewrite fresh_one by done. pose proof (decode_encode c) as H. unfold Utf8.scalar in H.
      rewrite encode_arith, (proj2 (Z.leb_le c 0x7F)) in H by lia. apply H. lia. }
    cbn [Utf8.decode_one] in E. destruct (Z.eqb_spec (Utf8.d_state (Utf8.utf8_decode (utf8 (state s)) c)) Utf8.UTF8_ACCEPT) as [E0|].
    - apply take_whole; [exact E0|congruence].
    - by destruct (_ =? _). }
  destruct (is_utf8 (emulation_is s)) eqn:Eu.
  - set (d := {| Utf8.d_state := 0; Utf8.d_char := c |}) in *.
    eapply (console_says c c s (repeats c (with_utf8 d (counted 1 s)))); [done|destruct Hq; lia|by destruct Hq|done| |done|].
    + rewrite (vt100_whole c d c) by (done || apply anywhere_passes; lia).
      by rewrite (bind_done _ _ _ _ _ (scan_ascii c _ (Hr' d eq_refl) He Hc)).
    + intros u. destruct Hq. split; [split; try done; by right|done..].
  - eapply (console_says c c s (repeats c (counted 1 s))); [done|destruct Hq; lia|by destruct Hq|done| |done|].
    + assert (Hb : bytewise (emulation_is (counted 1 s)) = true) by (change (emulation_is (counted 1 s)) with (emulation_is s); unfold bytewise; by rewrite He, Eu).
      rewrite vt100_passes by (done || lia). assert (Hr1 : ready (counted 1 s)) by (destruct Hq; split; [by split|done..]).
      by rewrite (bind_done _ _ _ _ _ (scan_ascii c _ Hr1 He Hc)).
    + intros u. destruct Hq. split; [split; try done; by right|done..].
Qed.

Lemma take_part d b :
  d_state_moves d b -> Utf8.d_state (Utf8.utf8_decode d b) <> 0 -> Utf8.take_byte d b = (Utf8.utf8_decode d b, None).
Proof.
  intros Hm Hs. unfold Utf8.take_byte, Utf8.UTF8_ACCEPT. rewrite (proj2 (Z.eqb_neq _ _) Hm). cbn [andb].
  by rewrite (proj2 (Z.eqb_neq _ _) Hs).
Qed.

Lemma says_high l : forall s c,
  is_utf8 (emulation_is s) = true -> Utf8.d_state (utf8 (state s)) ∈ Utf8.states -> Utf8.d_state (utf8 (state s)) <> 1 ->
  bytes l -> Forall (fun b => 0x80 <= b) l -> Utf8.decode_one (utf8 (state s)) l = Some c ->
  ready (with_utf8 Utf8.start s) -> visible (screen s) ->
  exists s', console_bytes fuel l s = Done (tt, s') /\ said c s s'.
Proof.
  induction l as [|b l IH]; intros s c He Hs H1 Hl Hh Hd Hr Hv; [done|].
  apply Forall_cons in Hl as [Hb Hl]. apply Forall_cons in Hh as [Hb' Hh].
  destruct (utf8_family s He) as (He' & _ & _ & Hc1 & _). destruct Hr as [Hq _ Hg0 Hin Hss Hgl Hgr Hp].
  assert (Hn0 : q_emul_buffer_n s = 0) by exact (qt_empty _ Hq). assert (Hl0 : plain (last_state s)) by exact (qt_last _ Hq).
  destruct (Utf8.decode_state _ b Hs Hb) as [En Hn]. cbn [Utf8.decode_one] in Hd.
  destruct (Z.eqb_spec (Utf8.d_state (Utf8.utf8_decode (utf8 (state s)) b)) Utf8.UTF8_ACCEPT) as [E|E].
  - destruct l; [|done]. injection Hd as Hd. pose proof (take_whole _ _ _ E Hd) as Ht. set (d := {| Utf8.d_state := 0; Utf8.d_char := c |}) in *.
    destruct (console_says b c s (spoken c (with_utf8 d (counted 1 s)))) as (s' & Es & Hsaid);
      [done|lia|done|done| |done| |].
    + rewrite (vt100_whole b d c) by (done || by apply anywhere_high).
      rewrite (bind_done _ _ _ _ _ (scan_high b (with_utf8 d (counted 1 s)) Hb' He (qt_ground _ Hq))).
      exact (fall_off_utf8 b (with_utf8 d (counted 1 s)) He).
    + intros u. destruct Hq. split; [split; try done; by right|done..].
    + exists s'. split; [|done]. by rewrite (console_bytes_cons _ _ _ _ _ Es).
  - destruct (Z.eqb_spec (Utf8.d_state (Utf8.utf8_decode (utf8 (state s)) b)) Utf8.UTF8_REJECT) as [E1|E1]; [done|].
    assert (Hm : d_state_moves (utf8 (state s)) b).
    { unfold d_state_moves. rewrite En. rewrite En in E, E1. intros E2.
      destruct (Z.eq_dec (Utf8.d_state (utf8 (state s))) 0) as [E0|E0]; [unfold Utf8.UTF8_ACCEPT in E; congruence|].
      apply (next_moves (Utf8.d_state (utf8 (state s))) b); [done|done| |congruence].
      apply list_elem_of_In in Hs. unfold Utf8.states in Hs. cbn [In] in Hs. lia. }
    pose proof (take_part _ _ Hm E) as Ht. set (d := Utf8.utf8_decode (utf8 (state s)) b) in *.
    set (s1 := with_utf8 d (counted 1 s) <| last_state := Q_EMUL_FSM_NO_CHAR_YET |>).
    assert (E2 : console_byte fuel b s = Done (tt, s1)).
    { rewrite console_byte_eq by (done || lia).
      rewrite (bind_done _ _ _ _ _ (vt100_part b d (counted 1 s) He Ht)). done. }
    destruct (IH s1 c) as (s' & E3 & Hsaid); [done| |exact E1|done|done|exact Hd| |done|].
    + change (Utf8.d_state d ∈ Utf8.states). by rewrite En.
    + destruct Hq. split; [split; try done; by left|done..].
    + exists s'. split; [|exact Hsaid]. by rewrite (console_bytes_cons _ _ _ _ _ E2).
Qed.

(** ** Text *)

Lemma encode_high c : Utf8.scalar c -> 0x80 <= c -> Forall (fun b => 0x80 <= b) (Utf8.utf8_encode c).
Proof.
  intros [Hc _] Hh. rewrite encode_arith by done. rewrite (proj2 (Z.leb_gt c 0x7F)) by lia.
  pose proof (Z.div_pos c 64). pose proof (Z.div_pos c 4096). pose proof (Z.div_pos c 262144).
  pose proof (Z.mod_pos_bound c 64). pose proof (Z.mod_pos_bound (c / 64) 64). pose proof (Z.mod_pos_bound (c / 4096) 64).
  destruct (c <=? 0x7FF); [|destruct (c <=? 0xFFFF)]; repeat (apply Forall_cons; split; [lia|]); by apply Forall_nil.
Qed.

Lemma says c s :
  ready s -> by_vt100 (emulation_is s) = true -> visible (screen s) -> printable (emulation_is s) c ->
  exists s', console_bytes fuel (Utf8.utf8_encode c) s = Done (tt, s') /\ said c s s'.
Proof.
  intros Hr He Hv (Hc & Hlo & Hdel & Hhi). destruct (Z.lt_ge_cases c 0x80) as [Hl|Hl].
  - rewrite encode_arith, (proj2 (Z.leb_le c 0x7F)) by (destruct Hc; lia).
    destruct (says_ascii c s Hr He Hv) as (s' & E & Hs); [lia|]. exists s'. split; [|done].
    by rewrite (console_bytes_cons _ _ _ _ _ E).
  - destruct (is_utf8 (emulation_is s)) eqn:Eu; [|lia]. pose proof (rd_utf8 _ Hr) as Hd.
    apply says_high; [done|rewrite Hd; by apply Utf8Props.a_state|by rewrite Hd|by apply bytes_encode|by apply encode_high| | |done].
    + rewrite fresh_one by done. by apply decode_encode.
    + destruct Hr as [[]]. split; [by split|done..].
Qed.

Lemma says_text cs : forall s,
  ready s -> by_vt100 (emulation_is s) = true -> visible (screen s) -> Forall (printable (emulation_is s)) cs ->
  exists s', console_bytes fuel (encode_text cs) s = Done (tt, s') /\
    typed cs (screen s) = Done (tt, screen s') /\ ready s' /\ emulation_is s' = emulation_is s /\ visible (screen s').
Proof.
  induction cs as [|c cs IH]; intros s Hr He Hv Hcs; [by exists s|]. apply Forall_cons in Hcs as [Hc Hcs].
  destruct (says c s Hr He Hv Hc) as (s1 & E1 & Hr1 & Ee1 & Et1 & Hv1).
  destruct (IH s1) as (s' & E' & Et' & Hr' & Ee' & Hv'); [done|by rewrite Ee1|done|by rewrite Ee1|].
  exists s'. split; [|split; [|split; [done|split; [by rewrite Ee'|done]]]].
  - unfold encode_text. cbn [flat_map]. by rewrite (console_bytes_app _ _ _ _ _ E1).
  - unfold typed. cbn [forM]. rewrite (bind_done _ _ _ _ _ Et1). exact Et'.
Qed.

(** ** After a reset *)

Lemma vt100_reset_ready s : plain (last_state s) -> wp vt100_reset s (fun _ t => ready t /\ emulation_is t = emulation_is s).
Proof.
  intros Hl. unfold vt100_reset, clear_params, reset_margin, reset_tab_stops.
  repeat first [apply wp_bind|apply wp_modify|apply wp_gets|apply wp_get].
  split; [|reflexivity]. split; [split; try reflexivity; exact Hl|reflexivity..].
Qed.

(** A step that leaves the statics of vt100.c alone. *)
Lemma wp_steady f (k : unit -> EM unit) s :
  (forall t, ready t -> ready (f t)) -> ready s ->
  (forall t, ready t -> wp (k tt) t (fun _ t => ready t)) -> wp (modify f ≫= k) s (fun _ t => ready t).
Proof. intros Hf Hs Hk. apply wp_bind, wp_modify, Hk, Hf, Hs. Qed.

Ltac same_statics := intros ? [[]]; split; [by split|done..].

Lemma reset_ready m p s :
  emulation_is s <> Q_EMUL_DEBUG -> wp (reset_emulation m p) s (fun _ t => ready t).
Proof.
  intros He. unfold reset_emulation. apply wp_bind, wp_modify, wp_bind, wp_modify. set (s1 := _ <| last_state := _ |>).
  assert (H1 : plain (last_state s1)) by by left. assert (He1 : emulation_is s1 <> Q_EMUL_DEBUG) by exact He. clearbody s1. clear s He. unfold reset_emulators.
  apply wp_bind, wp_modify, wp_bind, wp_gets, wp_bind, wp_modify, wp_bind, wp_modify.
  apply wp_bind. eapply wp_mono; [apply vt100_reset_ready; exact H1|]. intros [] t [Ht Et].
  apply wp_bind, (wp_done _ _ _ _ _ (debug_reset_skipped t ltac:(unfold emulation_is in *; by rewrite Et))). clear Et.
  apply wp_steady; [same_statics|done|]. clear t Ht. intros t Ht.
  apply wp_bind, wp_get, wp_steady; [same_statics|done|]. clear t Ht. intros t Ht.
  apply wp_bind, wp_gets, wp_steady; [same_statics|done|].
  generalize (emulation (q_status (screen t))) as e. clear t Ht. intros e t Ht.
  assert (Hlast : forall u, ready u -> wp (on_flags (fun f => f <| bracketed_paste_mode := p |>)) u (fun _ t => ready t))
    by (intros u [[]]; split; [by split|done..]).
  assert (Hset : forall c, ready (t <| screen ::= fun t => t <| q_current_color := c |> |>))
    by (intros c; destruct Ht as [[]]; split; [by split|done..]).
  apply wp_bind, wp_when; intros _; [apply wp_modify|]; apply wp_steady; [same_statics|apply Hset|exact Hlast|same_statics|exact Ht|exact Hlast].
Qed.

End TerminalText.
End TerminalText.
