(* ===== verification/EmulationProps.v ===== *)
(** The properties of the terminal emulations of vt100.c. *)

From Stdlib Require Import ZArith Lia List Bool Ascii.
From stdpp Require Import base list numbers gmap strings sorting.
From S2P Require Import Prelude Stdio States Utf8 Utf8Props Codepage Colors Screen ScreenList ScreenState ScreenLine ScreenSpec ScreenCursor ScreenDraw ScreenCommand ScreenText ScreenProps Emulation Vt100 Vt100Machine EmulationInv Vt100Safe Vt100Ops Vt100Total Terminal TerminalSafe TerminalParse TerminalText Vt100Sgr Vt100Tabs.
Import Codepage Colors Screen ScreenList ScreenState ScreenLine ScreenSpec ScreenCursor ScreenDraw ScreenCommand ScreenText Emulation Vt100 Vt100Machine EmulationInv Vt100Safe Vt100Ops Vt100Total Terminal TerminalSafe TerminalParse TerminalText Vt100Sgr Vt100Tabs.

Module EmulationProps.

(** ** A concrete terminal *)

Lemma ncurses_pair n a : 0 <= n < 64 -> Z.land a 0xff00 = 0 ->
  Z.shiftr (Z.land (Z.lor (Z.land (Z.shiftl n 8) 0xff00) a) 0xff00) 8 = n.
Proof.
  intros Hn Ha. rewrite Z.land_lor_distr_l, Ha, Z.lor_0_r, <- Z.land_assoc, Z.land_diag.
  rewrite Z.shiftr_land, Z.shiftr_shiftl_l by lia. change (Z.shiftr 0xff00 8) with (Z.ones 8).
  rewrite Z.shiftl_0_r, Z.land_ones by lia. apply Z.mod_small. lia.
Qed.

#[global] Instance ncurses_laws : CursesLaws ScreenProps.ncurses.
Proof.
  split; cbn [A_NORMAL A_UNDERLINE A_REVERSE A_BLINK A_BOLD A_PROTECT A_INVIS A_COLOR COLOR_PAIR PAIR_NUMBER ScreenProps.ncurses];
    try done.
  - exact ncurses_pair.
  - intros n m. rewrite <- Z.land_assoc, Z.lor_comm. by rewrite masked_part, Z.land_0_r.
  - by intros a b ->.
Qed.

Definition default_flags : emulation_flags := {|
  codepage := Q_CODEPAGE_CP437; visible_cursor := true; full_duplex := true; bracketed_paste_mode := false;
  hold_screen_mode := false; hard_backspace := false; vt100_color := true; vt52_color := true;
  led_1 := false; led_2 := false; led_3 := false; led_4 := false; ansi_animate := false; ansi_music := true;
  avatar_color := true; avatar_ansi_fallback := true; petscii_color := true; petscii_ansi_fallback := true;
  petscii_is_c64 := true; petscii_use_unicode := true |}.

(** The 8 by 4 terminal with an emulation that has just been selected. *)
Definition selected (e : Q_EMULATION) : emul_state :=
  match reset_emulation (C := ScreenProps.ncurses) false false (initial (ScreenProps.opened e) default_flags (str "qodem")) with
  | Done (_, s) => s
  | _ => initial (ScreenProps.opened e) default_flags []
  end.

(** What a stream does to it. *)
Definition shown (e : Q_EMULATION) (l : list Z) : outcome (unit * emul_state) :=
  console_bytes (C := ScreenProps.ncurses) 1 l (selected e).

(** Parameters given one by one. *)
Ltac small := repeat (apply Forall_cons; split; [lia|]); by apply Forall_nil.

Section EmulationProps.
Context {C : Curses} {L : CursesLaws C}.
Context (fuel : nat).

(** C4: from a screen that can be drawn on, selecting one of the emulations of vt100.c
    leaves it ready for text, and then any stream of bytes is taken to its end: no failed assertion, no
    access outside the collect buffer, the parameters or a line, no loop without end;
    the invariant of the screen and of the emulation holds after it.  The only streams
    excluded are those in which a sequence ends with arguments that the code passes on
    unchecked ([well_ranged]). *)
Theorem emulation_safe t f a mouse paste l :
  (0 < fuel)%nat -> visible t -> text_ok (q_text_colors t) -> by_vt100 (emulation (q_status t)) = true -> bytes l ->
  exists s, reset_emulation mouse paste (initial t f a) = Done (tt, s) /\ waiting (setup_of t) s /\ ready s /\
    (well_ranged fuel l s = true ->
     exists s', console_bytes fuel l s = Done (tt, s') /\ waiting (setup_of t) s').
Proof.
  intros Hf Hv Ht He Hl. assert (Hd : emulation (q_status t) <> Q_EMUL_DEBUG) by (intros E; by rewrite E in He).
  destruct (wp_run _ _ _ (wp_both _ _ _ _ (waiting_after_reset mouse paste t f a Hv Ht Hd) (reset_ready mouse paste (initial t f a) Hd))) as ([] & s & E & Hs & Hq).
  exists s. split; [done|]. split; [done|]. split; [done|]. intros Hr.
  destruct (wp_run _ _ _ (wp_console_bytes fuel (setup_of t) He l s Hf Hs Hl Hr)) as ([] & s' & E' & Hs').
  by exists s'.
Qed.

Lemma arrived_param js s i j :
  Forall (fun j => 0 <= j < 2 ^ 31) js -> js !! i = Some j -> param_value (Z.of_nat i) (arrived js s) = Done (j, arrived js s).
Proof.
  intros Hj Hi. assert (Hp : params (state (arrived js s)) !! i = Some (print_base 10 j)).
  { destruct js as [|j0 js]; [done|]. change (params (state (arrived (j0 :: js) s)))
      with ((print_base 10 <$> j0 :: js) ++ replicate (16 - length (j0 :: js)) []).
    apply lookup_app_l_Some. by rewrite list_lookup_fmap, Hi. }
  assert (Ht : param_text (Z.of_nat i) (arrived js s) = Done (print_base 10 j, arrived js s)).
  { unfold param_text. rewrite run_vt. change (id ?v) with v. rewrite (proj2 (Z.ltb_ge _ _)) by lia.
    by rewrite Nat2Z.id, Hp. }
  unfold param_value. rewrite (bind_done _ _ _ _ _ Ht).
  unfold atoi. rewrite Forall_lookup in Hj. pose proof (Hj _ _ Hi) as Hx. cbv beta in Hx.
  rewrite atol_print, i32_id by lia. done.
Qed.

Lemma arrived_none js s : quiet s -> params_n (state (arrived js s)) = Z.of_nat (length js) - 1.
Proof. intros Hq. destruct js; [exact (qt_none _ Hq)|reflexivity]. Qed.

Lemma sequence_runs js f s :
  (0 < fuel)%nat -> quiet s -> bytewise (emulation_is s) = true ->
  (length js <= 16)%nat -> Forall (fun j => 0 <= j < 2 ^ 31) js -> 0x40 <= f <= 0x7E ->
  console_bytes fuel (csi_bytes js f) s =
    (csi_dispatch f;; to_ground;; set_last_state Q_EMUL_FSM_NO_CHAR_YET) (arrived js s).
Proof.
  intros Hf Hq He Hl Hj Hr. apply csi_arrives; [done..| |done].
  eapply Forall_impl; [exact Hj|]. intros j Hx. unfold fits. cbv beta in Hx. lia.
Qed.

(** C13: a control sequence with its parameters printed in decimal, from a state between
    two sequences, is the operation of its final byte and the way back to the ground
    state, on a state that is as before but for the parser's: parameter number i is the
    i-th number that was sent ([arrived]). *)
Theorem csi_sequence_arrives js f s :
  (0 < fuel)%nat -> quiet s -> bytewise (emulation_is s) = true ->
  (length js <= 16)%nat -> Forall (fun j => 0 <= j < 2 ^ 31) js -> 0x40 <= f <= 0x7E ->
  console_bytes fuel (csi_bytes js f) s =
    (csi_dispatch f;; to_ground;; set_last_state Q_EMUL_FSM_NO_CHAR_YET) (arrived js s) /\
  params_n (state (arrived js s)) = Z.of_nat (length js) - 1 /\
  forall i j, js !! i = Some j -> param_value (Z.of_nat i) (arrived js s) = Done (j, arrived js s).
Proof.
  intros Hf Hq He Hl Hj Hr. split; [|split].
  - by apply sequence_runs.
  - by apply arrived_none.
  - intros i j. by apply arrived_param.
Qed.

(** *** The way back to the ground state *)

Definition grounded (s : emul_state) : emul_state :=
  s <| state ::= fun v => v <| params := replicate 16 [] |> <| params_n := -1 |> <| dec_private_mode_flag := false |> |>
    <| q_emul_buffer_n := 0 |> <| q_emul_buffer_i := 0 |> <| q_emul_buffer := replicate 128 0 |>
    <| scan_state := SCAN_GROUND |> <| last_state := Q_EMUL_FSM_NO_CHAR_YET |>.

Lemma ends_grounded s : (to_ground;; set_last_state Q_EMUL_FSM_NO_CHAR_YET) s = Done (tt, grounded s).
Proof. reflexivity. Qed.

Lemma run_first_param {B} d js s (k : Z -> EM B) :
  Forall (fun j => 0 <= j < 2 ^ 31) js -> quiet s ->
  (first_param d ≫= k) (arrived js s) = k (if js is j :: _ then j else d) (arrived js s).
Proof.
  intros Hj Hq. unfold first_param, mbind at 2.
  assert (E : first_param d (arrived js s) = Done (if js is j :: _ then j else d, arrived js s)).
  { unfold first_param. rewrite run_vt, (arrived_none js s Hq). destruct js as [|j js]; [done|].
    rewrite (proj2 (Z.leb_le _ _)) by (cbn [length]; lia). exact (arrived_param (j :: js) s 0 j Hj eq_refl). }
  exact (bind_done _ _ _ _ _ E).
Qed.

Lemma run_public {B} (m : EM unit) (k : unit -> EM B) s :
  dec_private_mode_flag (state s) = false -> (unless_private m ≫= k) s = (m ≫= k) s.
Proof. intros Hp. unfold unless_private, mbind, M_bind, vt, gets. by rewrite Hp. Qed.

Lemma arrived_public js s : quiet s -> dec_private_mode_flag (state (arrived js s)) = false.
Proof. intros Hq. destruct js; exact (qt_public _ Hq). Qed.

Lemma report_arrives s row col (k : unit -> EM unit) :
  quiet s -> row = cursor_y (q_status (screen s)) + 1 -> col = cursor_x (q_status (screen s)) + 1 ->
  0 <= row < 2 ^ 31 -> 0 <= col < 2 ^ 31 ->
  origin_mode (q_status (screen s)) = false -> s8c1t_mode (state s) = false ->
  (dsr ≫= k) (arrived [6] s) =
    k tt (arrived [6] s <| log ::= fun l => l ++ [Sent (csi_bytes [row; col] (chr "R"))] |>).
Proof.
  intros Hq Hrow Hcol Hr Hc Ho H8. unfold mbind at 1, M_bind at 1. unfold dsr at 1.
  rewrite (run_first_param 0 [6] s) by (small || done). rewrite run_get. cbv zeta.
  change (screen (arrived [6] s)) with (screen s). change (s8c1t_mode (state (arrived [6] s))) with (s8c1t_mode (state s)).
  rewrite Ho, H8, andb_false_r. change (6 =? 5) with false. change (6 =? 6) with true. cbv iota.
  rewrite <- Hrow, <- Hcol. unfold qodem_write, modify. unfold print_u. rewrite !u32_id by lia. 
  unfold csi, csi_bytes. cbn [csi_text]. rewrite <- app_assoc. reflexivity.
Qed.

Lemma cup_arrives row col s (Q : unit -> emul_state -> Prop) :
  quiet s -> 1 <= row < 2 ^ 31 -> 1 <= col < 2 ^ 31 ->
  wp (cursor_position (row - 1) (col - 1)) (screen s)
    (fun _ t => Q tt (arrived [row; col] s <| screen := t |>)) ->
  wp cup (arrived [row; col] s) Q.
Proof.
  intros Hq Hr Hc HQ. assert (Hj : Forall (fun j => 0 <= j < 2 ^ 31) [row; col]) by small.
  unfold cup, unless_private. apply wp_bind, wp_gets. rewrite arrived_public by done. apply wp_bind, wp_gets.
  rewrite arrived_none by done. change (Z.of_nat (length [row; col]) - 1) with 1. change (1 <? 0) with false.
  change (1 =? 0) with false. cbv iota.
  apply wp_bind, (wp_done _ _ _ _ _ (arrived_param _ s 0 row Hj eq_refl)).
  apply wp_bind, (wp_done _ _ _ _ _ (arrived_param _ s 1 col Hj eq_refl)).
  rewrite !Z.max_r by lia. apply wp_draw. eapply wp_mono; [exact HQ|]. by intros [] t.
Qed.

(** C38: the answer to a request for the cursor position, sent back with the final byte of
    a cursor movement, brings the cursor to where it was; on the terminal that asked or
    on any other whose screen has that column and that row; neither is in origin mode, and
    the answer is sent in its 7-bit form. *)
Theorem cursor_report_moves_back s u :
  (0 < fuel)%nat -> quiet s -> quiet u -> bytewise (emulation_is s) = true -> bytewise (emulation_is u) = true ->
  visible (screen s) -> visible (screen u) -> s8c1t_mode (state s) = false ->
  origin_mode (q_status (screen s)) = false -> origin_mode (q_status (screen u)) = false ->
  let x := cursor_x (q_status (screen s)) in let y := cursor_y (q_status (screen s)) in
  x < WIDTH (screen u) -> y < rows (screen u) ->
  (q_emulation_right_margin (screen u) <= 0 \/ x <= q_emulation_right_margin (screen u)) ->
  exists s' u', console_bytes fuel (csi_bytes [6] (chr "n")) s = Done (tt, s') /\
    log s' = log s ++ [Sent (csi_bytes [y + 1; x + 1] (chr "R"))] /\
    console_bytes fuel (csi_bytes [y + 1; x + 1] (chr "H")) u = Done (tt, u') /\
    cursor_x (q_status (screen u')) = x /\ cursor_y (q_status (screen u')) = y /\ quiet u'.
Proof.
  intros Hf Hs Hu Hes Heu [ds Hds] [du Hdu] H8 Hos Hou x y Hx Hy Hm.
  pose proof (os_x _ _ Hds) as Bx. pose proof (os_y _ _ Hds) as By. fold x in Bx. fold y in By.
  pose proof (cfg_rows _ (os_config _ _ Hds)). pose proof (cfg_height _ (os_config _ _ Hds)).
  pose proof (cfg_status_height _ (os_config _ _ Hds)).
  assert (Hrows : rows (screen s) < 2 ^ 31) by (unfold rows; lia).
  opose proof* (sequence_runs [6] (chr "n") s) as E1; [done..|cbn; lia|small|done|].
  change (csi_dispatch (chr "n")) with dsr in E1.
  rewrite (report_arrives s (y + 1) (x + 1)), ends_grounded in E1 by (done || lia).
  opose proof* (sequence_runs [y + 1; x + 1] (chr "H") u) as E2; [done..|cbn; lia|small|done|].
  change (csi_dispatch (chr "H")) with cup in E2.
  assert (Hwp : wp (cup;; to_ground;; set_last_state Q_EMUL_FSM_NO_CHAR_YET) (arrived [y + 1; x + 1] u)
    (fun _ u' => cursor_x (q_status (screen u')) = x /\ cursor_y (q_status (screen u')) = y /\ quiet u')).
  { apply wp_bind, cup_arrives; [done|lia|lia|]. replace (y + 1 - 1) with y by lia. replace (x + 1 - 1) with x by lia.
    destruct (os_line _ _ Hdu) as (d & Hd & _). apply (wp_cursor_position _ du d); [done|done|lia|lia|].
    cbv zeta. intros t Ht. eapply wp_done; [apply ends_grounded|].
    split; [|split]; [refine (eq_trans (re_x _ _ _ _ _ _ Ht) _)|refine (eq_trans (re_y _ _ _ _ _ _ Ht) _)|].
    - unfold position_column. rewrite Z.min_l by lia. destruct (andb_false_iff (0 <? q_emulation_right_margin (screen u)) (q_emulation_right_margin (screen u) <? x)) as [_ ->]; [done|]. lia.
    - unfold position_row. rewrite Hou. lia.
    - split; try done; [apply Hu|by left]. }
  destruct (wp_run _ _ _ Hwp) as ([] & u' & E3 & Hu').
  eexists _, u'. split; [exact E1|]. split; [reflexivity|]. by rewrite E2.
Qed.

(** *** Text *)

(** C14: text without control characters, sent as it is if it is ASCII or in UTF-8 to the
    emulations that read UTF-8, is printed on the screen character by character, and
    the emulation is ready for more; nothing that text can hold starts a sequence, and
    no byte of a character is lost or shown on its own. *)
Theorem text_is_printed cs s :
  (0 < fuel)%nat -> ready s -> by_vt100 (emulation_is s) = true -> visible (screen s) ->
  Forall (printable (emulation_is s)) cs ->
  exists s', console_bytes fuel (encode_text cs) s = Done (tt, s') /\
    typed cs (screen s) = Done (tt, screen s') /\ ready s'.
Proof.
  intros Hf Hr He Hv Hcs. destruct (says_text fuel Hf cs s Hr He Hv Hcs) as (s' & E & Et & Hr' & _). by exists s'.
Qed.

(** *** Colours *)

Definition pen_of (s : emul_state) : pen :=
  let c := q_current_color (screen s) in
  {| color := c; default_color := is_default_color s;
     real_bold := has c A_BOLD && negb (is_default_color s && bold (q_text_colors (screen s) Q_COLOR_CONSOLE_TEXT));
     aixterm := previous_aixterm_color s |}.
Definition context_of (s : emul_state) : sgr_context :=
  {| sgr_emulation := emulation_is s; sgr_vt100_color := vt100_color (flags s);
     sgr_text_colors := q_text_colors (screen s) |}.

Lemma values_arrive js s : forall ks i,
  Forall (fun j => 0 <= j < 2 ^ 31) js -> drop i js = ks ->
  param_values (length ks) (Z.of_nat i) (arrived js s) = Done (ks, arrived js s).
Proof.
  intros ks. induction ks as [|k ks IH]; intros i Hj Hd; [done|]. cbn [length param_values].
  assert (Hk : js !! i = Some k) by (rewrite <- (Nat.add_0_r i), <- lookup_drop, Hd; done).
  rewrite (bind_done _ _ _ _ _ (arrived_param js s i k Hj Hk)).
  replace (Z.of_nat i + 1) with (Z.of_nat (S i)) by lia.
  rewrite (bind_done _ _ _ _ _ (IH (S i) Hj ltac:(by rewrite <- Nat.add_1_r, <- drop_drop, Hd))). done.
Qed.

(** SGR with parameters is [sgr_params] of the pen. *)
Lemma sgr_arrives js s :
  quiet s -> js <> [] -> Forall (fun j => 0 <= j < 2 ^ 31) js ->
  sgr (arrived js s) = set_pen (sgr_params (context_of s) js (pen_of s)) (arrived js s).
Proof.
  intros Hq Hne Hj. unfold sgr, unless_private. rewrite run_vt, (arrived_public js s Hq), run_get.
  change (q_emul_buffer_n (arrived js s)) with (q_emul_buffer_n s). rewrite (qt_empty _ Hq). cbn [Z.ltb Z.compare].
  rewrite run_ret. change (0 =? chr ">") with false. cbv iota. rewrite (arrived_none js s Hq).
  destruct js as [|j js]; [done|]. rewrite (proj2 (Z.ltb_ge _ _)) by (cbn [length]; lia).
  assert (Ep : current_pen (arrived (j :: js) s) = Done (pen_of s, arrived (j :: js) s)) by reflexivity.
  rewrite (bind_done _ _ _ _ _ Ep). replace (Z.to_nat _) with (length (j :: js)) by lia.
  rewrite (bind_done _ _ _ _ _ (values_arrive (j :: js) s (j :: js) 0 Hj eq_refl)). reflexivity.
Qed.

(** C15: SGR with colours as parameters, in the emulations that have colours, sets the
    colour pair to the last foreground and the last background that it was given, keeps
    the colour that was not given, and leaves every other attribute but bold, and the
    rest of the screen, alone.  Bold stays as it was with two exceptions, and both are
    exact: the bold of the console's default colour goes, and so does all bold when a
    dark foreground follows a bright one of Xterm. *)
Theorem sgr_sets_the_colors js s :
  (0 < fuel)%nat -> quiet s -> bytewise (emulation_is s) = true -> colored (context_of s) ->
  0 <= PAIR_NUMBER (q_current_color (screen s)) < 64 ->
  js <> [] -> (length js <= 16)%nat -> Forall is_color js ->
  exists s', console_bytes fuel (csi_bytes js (chr "m")) s = Done (tt, s') /\ quiet s' /\
    PAIR_NUMBER (q_current_color (screen s')) = foldl paired (PAIR_NUMBER (q_current_color (screen s))) js /\
    other_attributes (q_current_color (screen s')) = other_attributes (q_current_color (screen s)) /\
    Z.land (q_current_color (screen s')) A_BOLD = (if bold_after (context_of s) (pen_of s) js then A_BOLD else 0) /\
    screen s' = (screen s) <| q_current_color := q_current_color (screen s') |>.
Proof.
  intros Hf Hq He Hx Hp Hne Hl Hc.
  assert (Hj : Forall (fun j => 0 <= j < 2 ^ 31) js) by (eapply Forall_impl; [exact Hc|]; intros j [Hj|Hj]; lia).
  opose proof* (sequence_runs js (chr "m") s) as E; [done..|].
  change (csi_dispatch (chr "m")) with sgr in E. unfold mbind at 1, M_bind at 1 in E. rewrite (sgr_arrives js s Hq Hne Hj) in E.
  destruct (sgr_color_params (context_of s) js (pen_of s) Hx Hc Hp) as [E1 E2].
  pose proof (sgr_color_params_bold (context_of s) js (pen_of s) Hx Hc Hne Hp) as E3.
  set (p := sgr_params _ _ _) in *. unfold set_pen, set_color_to in E. rewrite run_modify in E. unfold modify in E.
  rewrite ends_grounded in E. eexists. split; [exact E|].
  split; [|split; [exact E1|split; [exact E2|split; [exact E3|reflexivity]]]].
  split; try done; [|by left]. destruct js; exact (qt_ansi _ Hq).
Qed.

(** *** Tab stops *)

(** C37: the tab stops are a set of columns: HTS adds the column of the cursor, TBC takes
    it away or empties the set, and a tab moves the cursor to the least column of the
    set behind it, or to the last one. *)
Theorem tab_stops_are_a_set s :
  (0 < fuel)%nat -> quiet s -> bytewise (emulation_is s) = true -> sorted (tab_stops (state s)) ->
  let x := cursor_x (q_status (screen s)) in
  (exists t, hts s = Done (tt, t) /\ sorted (tab_stops (state t)) /\ columns t = columns s ∪ {[ x ]}) /\
  (exists t, console_bytes fuel (csi_bytes [0] (chr "g")) s = Done (tt, t) /\
     sorted (tab_stops (state t)) /\ columns t = columns s ∖ {[ x ]}) /\
  (exists t, console_bytes fuel (csi_bytes [3] (chr "g")) s = Done (tt, t) /\ columns t = ∅) /\
  forall ds d, Forall (fun stop => stop < WIDTH (screen s)) (tab_stops (state s)) ->
    on_screen (screen s) ds -> ds !! row_index (screen s) ds = Some d -> double_width d = false ->
    q_emulation_right_margin (screen s) <= 0 -> x < WIDTH (screen s) ->
    exists t, advance_to_next_tab_stop s = Done (tt, t) /\ cursor_y (q_status (screen t)) = cursor_y (q_status (screen s)) /\
      let x' := cursor_x (q_status (screen t)) in
      (x' ∈ columns s /\ x < x' /\ forall y, y ∈ columns s -> x < y -> x' <= y) \/
      ((forall y, y ∈ columns s -> y <= x) /\ x' = WIDTH (screen s) - 1).
Proof.
  intros Hf Hq He Hs x. split; [by apply hts_adds|].
  assert (Hgo : forall i, 0 <= i < 2 ^ 31 -> console_bytes fuel (csi_bytes [i] (chr "g")) s =
    (tbc;; to_ground;; set_last_state Q_EMUL_FSM_NO_CHAR_YET) (arrived [i] s)).
  { intros i Hi. opose proof* (sequence_runs [i] (chr "g") s) as E; [done..|cbn; lia|small|done|]. exact E. }
  assert (Htbc : forall i, 0 <= i < 2 ^ 31 -> tbc (arrived [i] s) =
    (if i =? 0 then on_vt (fun v => v <| tab_stops ::= remove_tab_stop x |>)
     else whenM (i =? 3) (on_vt (fun v => v <| tab_stops := [] |>))) (arrived [i] s)).
  { intros i Hi. unfold tbc. rewrite (bind_done _ _ _ _ _ (arrived_param [i] s 0 i ltac:(small) eq_refl)).
    unfold unless_private. rewrite run_vt, (arrived_public [i] s Hq). destruct (i =? 0); reflexivity. }
  split; [|split].
  - rewrite Hgo by lia. unfold mbind at 1, M_bind at 1. rewrite Htbc by lia. cbn [Z.eqb]. unfold on_vt, modify.
    rewrite ends_grounded. eexists. split; [reflexivity|]. split; [by apply remove_sorted|].
    apply set_eq. intros y. change (y ∈ (list_to_set (remove_tab_stop x (tab_stops (state s))) : gset Z) <-> y ∈ columns s ∖ {[ x ]}).
    rewrite elem_of_list_to_set, remove_elem by done. unfold columns.
    rewrite elem_of_difference, elem_of_list_to_set, elem_of_singleton. tauto.
  - rewrite Hgo by lia. unfold mbind at 1, M_bind at 1. rewrite Htbc by lia. cbn [Z.eqb Pos.eqb whenM]. unfold on_vt, modify.
    rewrite ends_grounded. eexists. split; [reflexivity|]. done.
  - intros ds d Hw Hds Hd Hdw Hm Hx. destruct (tab_advances s ds d Hs Hw Hds Hd Hdw Hm Hx) as (t & E & _ & _ & Ey & Hc). by exists t.
Qed.

(** *** Defects *)

(** C40: no 7-bit string terminator ends a device control string that is ignored: whatever
    arrives after it, CAN and SUB excepted, nothing reaches the screen any more. *)
Theorem ignored_string_never_ends l s :
  (0 < fuel)%nat -> ignoring s -> bytewise (emulation_is s) = true -> Forall seven_bits l ->
  exists t, console_bytes fuel l s = Done (tt, t) /\ scan_state t = SCAN_DCS_IGNORE /\ screen t = screen s.
Proof.
  intros Hf Hi He Hl. destruct (ignores_for_ever fuel Hf l s Hi He Hl) as (t & E & Ht & Es). exists t. split; [done|].
  by destruct Ht.
Qed.

(** the column 0, which other terminals take for 1, fails the assertion of
    cursor_position(): four bytes from the other side stop the program. *)
Theorem column_zero_aborts s :
  (0 < fuel)%nat -> quiet s -> bytewise (emulation_is s) = true -> is_linux (emulation_is s) || is_xterm (emulation_is s) = true ->
  console_bytes fuel (csi_bytes [0] (chr "G")) s = Fault AssertFailed.
Proof.
  intros Hf Hq He Hl. opose proof* (sequence_runs [0] (chr "G") s) as E; [done..|cbn; lia|small|done|].
  rewrite E. change (csi_dispatch (chr "G")) with (linux_or_xterm cha). unfold mbind at 1, M_bind at 1.
  assert (Ec : linux_or_xterm cha (arrived [0] s) = Fault AssertFailed); [|by rewrite Ec].
  unfold linux_or_xterm, in_emulation. rewrite run_status.
  change (emulation (q_status (screen (arrived [0] s)))) with (emulation_is s). rewrite Hl. cbn [whenM].
  unfold cha, unless_private. rewrite run_vt, (arrived_public [0] s Hq), (run_first_param 1 [0] s) by (small || done).
  rewrite run_status. reflexivity.
Qed.

(** A parameter past the sixteenth is read outside the array. *)
Lemma seventeen_parameters_fault s :
  length (params (state s)) = 16%nat -> 16 <= params_n (state s) -> dec_private_mode_flag (state s) = false ->
  q_emul_buffer_n s = 0 -> sgr s = Fault OutOfBounds.
Proof.
  intros Hl Hn Hp Hb. unfold sgr, unless_private. rewrite run_vt, Hp, run_get, Hb. cbn [Z.ltb Z.compare].
  rewrite run_ret. change (0 =? chr ">") with false. cbv iota. rewrite (proj2 (Z.ltb_ge _ _)) by lia.
  assert (Ep : current_pen s = Done (pen_of s, s)) by reflexivity. rewrite (bind_done _ _ _ _ _ Ep).
  assert (Hv : forall n i, 0 <= i <= 16 -> 16 < i + Z.of_nat n -> param_values n i s = Fault OutOfBounds).
  { induction n as [|n IH]; intros i Hi Hin; [lia|]. cbn [param_values].
    assert (Hv : param_value i s = if i <? 16 then Done (atoi (params (state s) !!! Z.to_nat i), s) else Fault OutOfBounds).
    { unfold param_value, param_text, mbind, M_bind, vt, gets, id. rewrite (proj2 (Z.ltb_ge i 0)) by lia.
      destruct (Z.ltb_spec i 16).
      - destruct (lookup_lt_is_Some_2 (params (state s)) (Z.to_nat i)) as [row E]; [lia|].
        by rewrite E, (list_lookup_total_correct _ _ _ E).
      - by rewrite lookup_ge_None_2 by lia. }
    unfold mbind, M_bind. rewrite Hv. destruct (Z.ltb_spec i 16); [|done]. by rewrite IH by lia. }
  unfold mbind at 1, M_bind at 1. rewrite Hv by lia. done.
Qed.

End EmulationProps.

(** ** Concrete streams *)


#[local] Existing Instance ScreenProps.ncurses.

Lemma opened_emulation e : emulation (q_status (ScreenProps.opened e)) = e.
Proof. by destruct e; vm_compute. Qed.

Lemma opened_no_debugging e : e <> Q_EMUL_DEBUG -> emulation (q_status (ScreenProps.opened e)) <> Q_EMUL_DEBUG.
Proof. by rewrite opened_emulation. Qed.

Lemma selected_reset e :
  e <> Q_EMUL_DEBUG ->
  exists u, reset_emulation false false (initial (ScreenProps.opened e) default_flags (str "qodem")) = Done (u, selected e).
Proof.
  intros He. pose proof (opened_no_debugging e He) as Hd.
  destruct (wp_run _ _ _ (reset_ready false false (initial (ScreenProps.opened e) default_flags (str "qodem")) Hd)) as ([] & s & E & _).
  exists tt. unfold selected. by rewrite E.
Qed.

Lemma selected_ready e : e <> Q_EMUL_DEBUG -> ready (selected e).
Proof.
  intros He. destruct (selected_reset e He) as [u E].
  exact (run_wp _ _ _ _ _ E (reset_ready false false (initial (ScreenProps.opened e) default_flags (str "qodem")) (opened_no_debugging e He))).
Qed.

Lemma opened_text_ok e : text_ok (q_text_colors (ScreenProps.opened e)).
Proof. split; destruct e; vm_compute; intuition congruence. Qed.

Lemma selected_waiting e : e <> Q_EMUL_DEBUG -> waiting (setup_of (ScreenProps.opened e)) (selected e).
Proof.
  intros He. destruct (selected_reset e He) as [u E]. refine (run_wp _ _ _ _ _ E (waiting_after_reset false false _ _ _ _ _ _)).
  - apply ScreenProps.opened_visible.
  - apply opened_text_ok.
  - by apply opened_no_debugging.
Qed.

(** The state after a stream. *)
Definition after (e : Q_EMULATION) (l : list Z) : emul_state :=
  match shown e l with Done (_, s) => s | _ => selected e end.

Lemma after_waiting e l :
  by_vt100 (emulation (q_status (ScreenProps.opened e))) = true -> bytes l ->
  well_ranged 1 l (selected e) = true -> waiting (setup_of (ScreenProps.opened e)) (after e l).
Proof.
  intros He Hl Hr. assert (Hd : e <> Q_EMUL_DEBUG) by (intros ->; by rewrite opened_emulation in He).
  pose proof (wp_console_bytes 1 (setup_of (ScreenProps.opened e)) He l (selected e) ltac:(lia) (selected_waiting e Hd) Hl Hr) as H.
  unfold after, shown, wp in *. by destruct (console_bytes _ _ _) as [[]| |].
Qed.

Lemma waiting_visible g s : waiting g s -> visible (screen s).
Proof. intros [[[Hv _ _] _ _ _] _]. done. Qed.

(** A red on blue word on the Linux console. *)
Lemma emulation_safe_witness :
  exists s', shown Q_EMUL_LINUX (csi_bytes [31; 44] (chr "m") ++ str "qodem") = Done (tt, s') /\
    waiting (setup_of (ScreenProps.opened Q_EMUL_LINUX)) s'.
Proof.
  destruct (emulation_safe 1 (ScreenProps.opened Q_EMUL_LINUX) default_flags (str "qodem") false false
              (csi_bytes [31; 44] (chr "m") ++ str "qodem")) as (s & E & _ & _ & H).
  - lia.
  - apply ScreenProps.opened_visible.
  - apply opened_text_ok.
  - reflexivity.
  - apply bytes_by_eval. reflexivity.
  - assert (Es : s = selected Q_EMUL_LINUX) by (unfold selected; by rewrite E). subst s. apply H. vm_compute. reflexivity.
Defined.

Lemma csi_sequence_arrives_witness :
  shown Q_EMUL_LINUX (csi_bytes [2; 14] (chr "H")) =
    (csi_dispatch (chr "H");; to_ground;; set_last_state Q_EMUL_FSM_NO_CHAR_YET) (arrived [2; 14] (selected Q_EMUL_LINUX)) /\
  param_value 1 (arrived [2; 14] (selected Q_EMUL_LINUX)) = Done (14, arrived [2; 14] (selected Q_EMUL_LINUX)).
Proof.
  destruct (csi_sequence_arrives 1 [2; 14] (chr "H") (selected Q_EMUL_LINUX)) as (E & _ & Hp).
  - lia.
  - by apply selected_ready.
  - reflexivity.
  - cbn. lia.
  - small.
  - done.
  - split; [exact E|]. exact (Hp 1%nat 14 eq_refl).
Defined.

(** The cursor in row 2, column 3. *)
Definition moved : emul_state := after Q_EMUL_LINUX (csi_bytes [2; 3] (chr "H")).

Lemma moved_waiting : waiting (setup_of (ScreenProps.opened Q_EMUL_LINUX)) moved.
Proof. apply after_waiting; [reflexivity|apply bytes_by_eval; reflexivity|vm_compute; reflexivity]. Qed.

Lemma moved_quiet : quiet moved.
Proof. split; try (vm_compute; reflexivity). left. vm_compute. reflexivity. Qed.

Lemma cursor_report_moves_back_witness :
  exists s' u', console_bytes 1 (csi_bytes [6] (chr "n")) moved = Done (tt, s') /\
    log s' = log moved ++ [Sent (csi_bytes [2; 3] (chr "R"))] /\
    shown Q_EMUL_XTERM (csi_bytes [2; 3] (chr "H")) = Done (tt, u') /\
    cursor_x (q_status (screen u')) = 2 /\ cursor_y (q_status (screen u')) = 1 /\ quiet u'.
Proof.
  assert (Ex : cursor_x (q_status (screen moved)) = 2) by (vm_compute; reflexivity).
  assert (Ey : cursor_y (q_status (screen moved)) = 1) by (vm_compute; reflexivity).
  assert (Ew : WIDTH (screen (selected Q_EMUL_XTERM)) = 8) by (vm_compute; reflexivity).
  assert (Er : rows (screen (selected Q_EMUL_XTERM)) = 4) by (vm_compute; reflexivity).
  assert (Em : q_emulation_right_margin (screen (selected Q_EMUL_XTERM)) = -1) by (vm_compute; reflexivity).
  unfold shown.
  destruct (cursor_report_moves_back 1 moved (selected Q_EMUL_XTERM)) as (s' & u' & H).
  - lia.
  - apply moved_quiet.
  - by apply selected_ready.
  - vm_compute. reflexivity.
  - vm_compute. reflexivity.
  - exact (waiting_visible _ _ moved_waiting).
  - exact (waiting_visible _ _ (selected_waiting Q_EMUL_XTERM ltac:(done))).
  - vm_compute. reflexivity.
  - vm_compute. reflexivity.
  - vm_compute. reflexivity.
  - rewrite Ex, Ew. lia.
  - rewrite Ey, Er. lia.
  - left. rewrite Em. lia.
  - rewrite Ex, Ey in H. exists s', u'. exact H.
Defined.

Lemma text_is_printed_witness :
  exists s', shown Q_EMUL_XTERM_UTF8 (encode_text [0x41; 0xE9; 0x20AC]) = Done (tt, s') /\
    typed [0x41; 0xE9; 0x20AC] (screen (selected Q_EMUL_XTERM_UTF8)) = Done (tt, screen s') /\ ready s'.
Proof.
  unfold shown. destruct (text_is_printed 1 [0x41; 0xE9; 0x20AC] (selected Q_EMUL_XTERM_UTF8)) as (s' & H).
  - lia.
  - by apply selected_ready.
  - vm_compute. reflexivity.
  - exact (waiting_visible _ _ (selected_waiting Q_EMUL_XTERM_UTF8 ltac:(done))).
  - assert (E : emulation_is (selected Q_EMUL_XTERM_UTF8) = Q_EMUL_XTERM_UTF8) by (vm_compute; reflexivity). rewrite E.
    repeat (apply Forall_cons; split; [split; [split; lia|split; [lia|split; [lia|by intros]]]|]); by apply Forall_nil.
  - exists s'. exact H.
Defined.

Lemma sgr_sets_the_colors_witness :
  exists s', shown Q_EMUL_LINUX (csi_bytes [31; 44] (chr "m")) = Done (tt, s') /\ quiet s' /\
    PAIR_NUMBER (q_current_color (screen s')) = 12 /\
    other_attributes (q_current_color (screen s')) = other_attributes (q_current_color (screen (selected Q_EMUL_LINUX))) /\
    Z.land (q_current_color (screen s')) A_BOLD = 0 /\
    screen s' = (screen (selected Q_EMUL_LINUX)) <| q_current_color := q_current_color (screen s') |>.
Proof.
  unfold shown.
  assert (E : foldl paired (PAIR_NUMBER (q_current_color (screen (selected Q_EMUL_LINUX)))) [31; 44] = 12) by (vm_compute; reflexivity).
  destruct (sgr_sets_the_colors 1 [31; 44] (selected Q_EMUL_LINUX)) as (s' & H).
  - lia.
  - by apply selected_ready.
  - vm_compute. reflexivity.
  - vm_compute. reflexivity.
  - vm_compute. intuition congruence.
  - done.
  - cbn. lia.
  - apply Forall_cons. split; [left; lia|]. apply Forall_cons. split; [right; lia|]. by apply Forall_nil.
  - rewrite E in H. exists s'. exact H.
Defined.

(** A stop that was set in column 5. *)
Definition with_stop : emul_state := after Q_EMUL_LINUX (csi_bytes [1; 6] (chr "H") ++ [C_ESC; chr "H"]).

Lemma with_stop_quiet : quiet with_stop.
Proof. split; try (vm_compute; reflexivity). left. vm_compute. reflexivity. Qed.

Lemma tab_stops_are_a_set_witness :
  tab_stops (state with_stop) = [0; 5] /\
  exists t, console_bytes 1 (csi_bytes [0] (chr "g")) with_stop = Done (tt, t) /\
    sorted (tab_stops (state t)) /\ columns t = columns with_stop ∖ {[ 5 ]}.
Proof.
  assert (E : tab_stops (state with_stop) = [0; 5]) by (vm_compute; reflexivity). split; [exact E|].
  destruct (tab_stops_are_a_set 1 with_stop) as (_ & H & _).
  - lia.
  - apply with_stop_quiet.
  - vm_compute. reflexivity.
  - rewrite E. repeat constructor.
  - exact H.
Defined.

(** ESC P ? ? *)
Definition swallowed : emul_state := after Q_EMUL_VT102 [C_ESC; chr "P"; chr "?"; chr "?"].

Lemma ignored_string_never_ends_witness :
  exists t, console_bytes 1 (C_ESC :: 92 :: str "lost") swallowed = Done (tt, t) /\
    scan_state t = SCAN_DCS_IGNORE /\ screen t = screen swallowed.
Proof.
  destruct (ignored_string_never_ends 1 (C_ESC :: 92 :: str "lost") swallowed) as (t & H).
  - lia.
  - split; [vm_compute; reflexivity|vm_compute; intuition congruence|vm_compute; reflexivity|left; vm_compute; reflexivity].
  - vm_compute. reflexivity.
  - repeat (apply Forall_cons; split; [vm_compute; intuition congruence|]); by apply Forall_nil.
  - exists t. exact H.
Defined.

Lemma column_zero_aborts_witness : shown Q_EMUL_LINUX (csi_bytes [0] (chr "G")) = Fault AssertFailed.
Proof.
  assert (H1 : bytewise (emulation_is (selected Q_EMUL_LINUX)) = true) by (vm_compute; reflexivity).
  assert (H2 : is_linux (emulation_is (selected Q_EMUL_LINUX)) || is_xterm (emulation_is (selected Q_EMUL_LINUX)) = true) by (vm_compute; reflexivity).
  unfold shown. exact (column_zero_aborts 1 (selected Q_EMUL_LINUX) ltac:(lia) (rd_quiet _ (selected_ready Q_EMUL_LINUX ltac:(done))) H1 H2).
Defined.

(** *** Defects, on this terminal *)

(** A single shift of the VT220 is used up and has no effect: line drawing in G2, SS2,
    'q' shows what 'q' shows. *)
Lemma single_shift_lost :
  let g2 := [C_ESC; chr "*"; chr "0"] in
  screen (after Q_EMUL_VT220 (g2 ++ [C_ESC; chr "N"; chr "q"])) = screen (after Q_EMUL_VT220 (g2 ++ [chr "q"])).
Proof. vm_compute. reflexivity. Qed.

(** A bright foreground survives SGR 0: the bold that comes after it is taken away by
    the next dark foreground. *)
Lemma bright_outlives_the_reset :
  let bold_red := csi_bytes [0] (chr "m") ++ csi_bytes [1; 31] (chr "m") in
  has (q_current_color (screen (after Q_EMUL_XTERM bold_red))) A_BOLD = true /\
  has (q_current_color (screen (after Q_EMUL_XTERM (csi_bytes [91] (chr "m") ++ bold_red)))) A_BOLD = false.
Proof. split; vm_compute; reflexivity. Qed.

(** Without parameters the memory is cleared, and bold stays. *)
Lemma empty_reset_forgets_bright :
  has (q_current_color (screen (after Q_EMUL_XTERM (csi_bytes [91] (chr "m") ++ csi_bytes [] (chr "m") ++ csi_bytes [1; 31] (chr "m"))))) A_BOLD = true.
Proof. vm_compute. reflexivity. Qed.

End EmulationProps.
