(* ===== verification/EmulatorsProps.v ===== *)
(** The properties of the emulations of atascii.c, vt52.c, avatar.c and ansi.c. *)

From Stdlib Require Import ZArith Lia List Bool Ascii.
From stdpp Require Import base list numbers gmap strings.
From S2P Require Import Prelude Stdio States Utf8 Codepage Colors Screen ScreenList ScreenState ScreenLine ScreenSpec ScreenScroll ScreenCursor ScreenDraw ScreenCommand ScreenText ScreenProps Emulation Vt100 EmulationInv Vt100Safe Vt100Sgr Ansi Vt52 Atascii Avatar Terminal TerminalSafe TerminalParse AnsiParse EmulationProps.
Import Codepage Colors Screen ScreenList ScreenState ScreenLine ScreenSpec ScreenScroll ScreenCursor ScreenDraw ScreenCommand ScreenText Emulation EmulationInv Vt100Safe Vt100Sgr Terminal TerminalSafe TerminalParse AnsiParse AtasciiSafe EmulationProps.

Module EmulatorsProps.

(** A state between two bytes, with nothing collected. *)
Record idle (s : emul_state) : Prop := {
  id_empty : q_emul_buffer_n s = 0;
  id_buffer : q_emul_buffer s = replicate 128 0;
  id_index : q_emul_buffer_i s = 0;
  id_last : plain (last_state s)
}.

Section Emulators.
Context {C : Curses}.
Context (fuel : nat).

(** ** VT52: a tab in the last columns *)

(** The cursor and the margin are in the same eight columns, and the margin is not their first. *)
Definition at_last_stop (s : screen_state) : Prop :=
  exists ds d, on_screen s ds /\ ds !! row_index s ds = Some d /\
    cursor_x (q_status s) <= margin_of s d < 80 /\
    8 * (margin_of s d / 8) <= cursor_x (q_status s) /\ margin_of s d mod 8 <> 0.

Lemma right_stays s :
  at_last_stop s ->
  wp (cursor_right 1 false) s (fun _ t => at_last_stop t /\ cursor_x (q_status t) mod 8 <> 0).
Proof.
  intros (ds & d & Hs & Hd & Hx & Hlo & Hm). apply (wp_cursor_right s ds); [done|].
  intros t e d' He Hok Hdw Ht. assert (e = d) as -> by congruence. clear He.
  set (r := row_index s ds) in *.
  assert (Hr : row_index t (<[r := d']> ds) = r).
  { rewrite (reaches_row _ _ _ _ _ _ Ht). unfold r, row_index. f_equal. apply top_of_length, length_insert. }
  assert (Hmt : margin_of t d' = margin_of s d).
  { unfold margin_of, halve_margin. rewrite Hdw.
    change (q_emulation_right_margin t) with (q_emulation_right_margin (frame t)).
    change (WIDTH t) with (WIDTH (frame t)). by rewrite (re_frame _ _ _ _ _ _ Ht). }
  assert (Hd' : <[r := d']> ds !! r = Some d') by (apply list_lookup_insert_eq; by apply lookup_lt_Some in Hd).
  pose proof (re_x _ _ _ _ _ _ Ht) as Ex. cbn [outside andb orb] in Ex.
  set (m := margin_of s d) in *. set (x := cursor_x (q_status s)) in *.
  pose proof (Z.div_mod m 8 ltac:(lia)) as Em. pose proof (Z.mod_pos_bound m 8 ltac:(lia)) as Bm.
  assert (Hxt : cursor_x (q_status t) = if m <=? x then x else x + 1).
  { rewrite Ex. destruct (Z.leb_spec m x); [done|]. lia. }
  clear Ex. split.
  - exists (<[r := d']> ds), d'. split; [apply Ht|]. rewrite Hr, Hmt, Hxt. split; [done|].
    fold m. destruct (Z.leb_spec m x); lia.
  - rewrite Hxt. intros E. pose proof (Z.div_mod (if m <=? x then x else x + 1) 8 ltac:(lia)).
    destruct (Z.leb_spec m x); lia.
Qed.

Lemma right_to_tab_diverges k : forall s, at_last_stop s -> Vt52.right_to_tab k s = Diverge.
Proof.
  induction k as [|k IH]; intros s Hs; [done|]. cbn [Vt52.right_to_tab].
  destruct Hs as (ds & d & Hos & Hd & Hx & Hlo & Hm).
  destruct (wp_run _ _ _ (right_stays s ltac:(by exists ds, d))) as ([] & t & E & Ht & Hmod).
  unfold mbind at 1, M_bind at 1. unfold Screen.status at 1, gets at 1.
  rewrite (proj2 (Z.ltb_lt _ _)) by lia. rewrite (bind_done _ _ _ _ _ E).
  unfold mbind, M_bind, Screen.status, gets. destruct Ht as (ds' & d1 & Hos' & Hrest).
  rewrite Z.rem_mod_nonneg by (pose proof (os_x _ _ Hos'); lia). rewrite (proj2 (Z.eqb_neq _ _) Hmod).
  apply IH. by exists ds', d1.
Qed.

(** C39: with the VT52 emulation, a tab that arrives while the cursor is right of the last
    tab stop of a line whose margin is none never ends: the cursor stays at the margin,
    and the loop waits for a column divisible by 8 or for the column 80. *)
Theorem tab_at_the_margin_never_ends s :
  idle s -> emulation_is s = Q_EMUL_VT52 -> vt52_scan_state (vt52_statics s) = VT52_SCAN_NONE ->
  at_last_stop (screen s) -> console_byte fuel 0x09 s = Diverge.
Proof.
  intros Hs He Hq Ht. unfold console_byte. unfold mbind at 1, M_bind at 1.
  rewrite terminal_plain by (apply Hs || (by right) || (rewrite (id_empty _ Hs); lia)). unfold mbind at 1, M_bind at 1. unfold emulate. rewrite run_status.
  change (emulation (q_status (screen (counted 1 s)))) with (emulation_is s). rewrite He.
  unfold Vt52.vt52. change (Z.land 0x09 0x7F) with 0x09. unfold Vt52.scan_vt52, mbind at 1, M_bind at 1. rewrite run_get.
  change (vt52_statics (counted 1 s)) with (vt52_statics s). rewrite Hq.
  change (Vt52.scan_none fuel 0x09) with (Vt52.finish (draw (Vt52.right_to_tab fuel))).
  assert (E : draw (Vt52.right_to_tab fuel) (counted 1 s) = Diverge).
  { unfold draw, zoom. change (screen (counted 1 s)) with (screen s). by rewrite right_to_tab_diverges. }
  unfold Vt52.finish, mbind, M_bind. by rewrite E.
Qed.

(** ** AVATAR *)

(** The scanner in the state [q] with [k] bytes collected. *)
Record avatar_in (q : AVATAR_SCAN_STATE) (k : Z) (s : emul_state) : Prop := {
  ai_emulation : emulation_is s = Q_EMUL_AVATAR;
  ai_state : avatar_scan_state (avatar_statics s) = q;
  ai_n : q_emul_buffer_n s = k;
  ai_buffer : length (q_emul_buffer s) = 128%nat;
  ai_last : plain (last_state s)
}.

(** The step of a scanner that is in a known state. *)
Ltac at_state H :=
  unfold Avatar.scan_avatar; rewrite run_get;
  match goal with |- context [avatar_statics (counted 1 ?s)] => change (avatar_statics (counted 1 s)) with (avatar_statics s) end;
  rewrite (ai_state _ _ _ H); reflexivity.

Lemma wp_save_char b s (Q : unit -> emul_state -> Prop) :
  length (q_emul_buffer s) = 128%nat -> 0 <= q_emul_buffer_n s < 128 ->
  (forall buf, length buf = 128%nat -> Q tt (s <| q_emul_buffer := buf |> <| q_emul_buffer_n ::= Z.succ |>)) ->
  wp (save_char b) s Q.
Proof.
  intros Hb Hn HQ. unfold save_char. apply wp_bind, wp_get, wp_bind. unfold store. apply wp_memcpy; [lia|cbn [length]; lia|].
  apply wp_modify, HQ. rewrite length_blit; [done|]. cbn. lia.
Qed.

Lemma wp_avatar q k b s (Q : result -> emul_state -> Prop) :
  avatar_in q k s -> wp (Avatar.avatar fuel b) s Q -> wp (emulate fuel b) s Q.
Proof.
  intros Hs H. unfold emulate. apply wp_bind, wp_gets. fold (emulation_is s). by rewrite (ai_emulation _ _ _ Hs).
Qed.

(** A byte that the scanner keeps. *)
Lemma wp_avatar_kept q k b s m (Q : unit -> emul_state -> Prop) :
  (0 < fuel)%nat -> avatar_in q k s -> 0 <= k <= 126 ->
  Avatar.scan_avatar fuel b (counted 1 s) = Ansi.more m (counted 1 s) ->
  wp m (counted 1 s) (fun _ t => Q tt (t <| last_state := Q_EMUL_FSM_NO_CHAR_YET |>)) ->
  wp (console_byte fuel b) s Q.
Proof.
  intros Hf Hs Hk E H. pose proof (ai_n _ _ _ Hs) as Hn. apply wp_console_silent; [done|lia|apply Hs|left; by rewrite (ai_emulation _ _ _ Hs)|].
  apply (wp_avatar q k); [by destruct Hs|]. unfold Avatar.avatar. apply wp_bind. unfold wp. rewrite E.
  unfold Ansi.more. apply wp_bind. eapply wp_mono; [exact H|]. intros [] t Ht. apply wp_ret, wp_ret. by split.
Qed.

Lemma wp_avatar_scan q (s : emul_state) (Q : unit -> emul_state -> Prop) :
  Q tt (s <| avatar_statics ::= fun v => v <| avatar_scan_state := q |> |>) -> wp (Avatar.avatar_scan q) s Q.
Proof. intros H. by apply wp_modify. Qed.

(** A byte that is stored, and the state after it. *)
Lemma wp_save_and b q q' k s f (Q : unit -> emul_state -> Prop) :
  (0 < fuel)%nat -> avatar_in q k s -> 0 <= k <= 126 ->
  Avatar.scan_avatar fuel b (counted 1 s) = Ansi.more (save_char b;; on_avatar f) (counted 1 s) ->
  (forall v, avatar_scan_state (f v) = q') ->
  (forall t, avatar_in q' (k + 1) t -> avatar_statics t = f (avatar_statics s) -> screen t = screen s ->
     flags t = flags s -> Q tt t) ->
  wp (console_byte fuel b) s Q.
Proof.
  intros Hf Hs Hk E Hq HQ. apply (wp_avatar_kept q k b s _ _ Hf Hs Hk E). pose proof Hs as [He _ Hn Hb _].
  apply wp_bind, wp_save_char; [done|change (q_emul_buffer_n (counted 1 s)) with (q_emul_buffer_n s); lia|].
  intros buf Hbuf. apply wp_modify. apply HQ; [|done..].
  split; [done|apply Hq| |done|by left]. cbn. lia.
Qed.

(** AVATAR's "repeat pattern" with the length 0 writes its pattern past the end of the
    buffer it has allocated: the index is compared with the length after it has passed it. *)
Theorem avatar_pattern_overflows c1 c2 s :
  (0 < fuel)%nat -> avatar_in AVATAR_SCAN_NONE 0 s ->
  console_bytes fuel [0x16; 0x19; 0; c1; c2] s = Fault OutOfBounds.
Proof.
  intros Hf Hs.
  assert (H : wp (console_bytes fuel [0x16; 0x19; 0; c1]) s (fun _ t =>
    avatar_in AVATAR_SCAN_V_Y_2 4 t /\ v_y_chars (avatar_statics t) = [c1] /\ v_y_chars_i (avatar_statics t) = 1)).
  { unfold console_bytes. cbn [each].
    apply wp_bind. eapply (wp_save_and _ _ AVATAR_SCAN_V); [done|exact Hs|lia|at_state Hs|done|].
    intros s1 H1 _ _ _.
    apply wp_bind. eapply (wp_save_and _ _ AVATAR_SCAN_V_Y_1); [done|exact H1|lia|at_state H1|done|].
    intros s2 H2 _ _ _.
    apply wp_bind. eapply (wp_save_and _ _ AVATAR_SCAN_V_Y_2); [done|exact H2|lia|at_state H2|done|].
    intros s3 H3 E3 _ _. apply wp_bind.
    apply wp_console_silent; [done|rewrite (ai_n _ _ _ H3); lia|apply H3|left; by rewrite (ai_emulation _ _ _ H3)|].
    apply (wp_avatar AVATAR_SCAN_V_Y_2 3); [by destruct H3|]. unfold Avatar.avatar. apply wp_bind.
    unfold wp. rewrite (ltac:(at_state H3) : Avatar.scan_avatar fuel c1 (counted 1 s3) = Avatar.scan_v_y_2 c1 (counted 1 s3)).
    pose proof H3 as [He _ Hn Hb _]. unfold Avatar.scan_v_y_2. apply wp_bind, wp_save_char; [done|cbn; lia|].
    intros buf Hbuf. apply wp_bind, wp_get. cbv zeta.
    change (avatar_statics ((counted 1 s3) <| q_emul_buffer := buf |> <| q_emul_buffer_n ::= Z.succ |>)) with (avatar_statics s3).
    rewrite E3. cbn [v_y_chars v_y_chars_i]. apply wp_bind. apply wp_memcpy; [done|done|].
    unfold Ansi.more. apply wp_bind, wp_bind, wp_modify, wp_ret, wp_ret, wp_ret. split; [done|].
    split; [|split; [reflexivity|cbn; by rewrite E3]]. split; [done| | |done|by left]; cbn; [by rewrite E3|lia]. }
  destruct (wp_run _ _ _ H) as ([] & t & E & Ht & Hc & Hi). 
  change [0x16; 0x19; 0; c1; c2] with ([0x16; 0x19; 0; c1] ++ [c2]). rewrite (console_bytes_app _ _ _ _ _ E).
  pose proof Ht as [He _ Hn Hb Hl].
  assert (Ea : Avatar.avatar fuel c2 (counted 1 t) = Fault OutOfBounds).
  { unfold Avatar.avatar. unfold mbind at 1, M_bind at 1.
    rewrite (ltac:(at_state Ht) : Avatar.scan_avatar fuel c2 (counted 1 t) = Avatar.scan_v_y_2 c2 (counted 1 t)).
    assert (Hw : wp (save_char c2) (counted 1 t) (fun _ u => avatar_statics u = avatar_statics t)).
    { apply wp_save_char; [done|cbn; lia|]. by intros buf _. }
    destruct (wp_run _ _ _ Hw) as ([] & u & Eu & Hu). unfold Avatar.scan_v_y_2. rewrite (bind_done _ _ _ _ _ Eu), run_get.
    cbv zeta. rewrite Hu, Hc, Hi. reflexivity. }
  unfold console_bytes. cbn [each]. unfold console_byte at 1. unfold mbind, M_bind.
  rewrite terminal_plain by (done || lia || (left; by rewrite He)). unfold mbind, M_bind, emulate.
  rewrite run_status. change (emulation (q_status (screen (counted 1 t)))) with (emulation_is t). rewrite He. by rewrite Ea.
Qed.

(** *** Runs *)

(** A run of the character [c], with [k] of it left. *)
Record in_run (c : Z) (k : nat) (s : emul_state) : Prop := {
  ir_scanner : emulation_is s = Q_EMUL_AVATAR;
  ir_state : avatar_scan_state (avatar_statics s) = AVATAR_SCAN_Y_EMIT;
  ir_char : y_char (avatar_statics s) = c;
  ir_count : y_count (avatar_statics s) = Z.of_nat k;
  ir_n : 0 <= q_emul_buffer_n s <= 126
}.

Definition shown_as (s : emul_state) (c : Z) : Z := codepage_map_char (codepage (flags s)) Q_EMUL_AVATAR c.

Lemma same_insert (t : screen_state) (b : bool) :
  insert_mode (q_status t) = b -> t <| q_status ::= fun q => q <| insert_mode := b |> |> = t.
Proof. intros <-. by destruct t as [[]]. Qed.

(** The end of a run. *)
Lemma run_ends s :
  exists t, Avatar.clear_state_inserting s = Done (tt, t) /\ screen t = screen s /\ flags t = flags s /\
    avatar_scan_state (avatar_statics t) = AVATAR_SCAN_NONE /\ q_emul_buffer_n t = 0 /\
    length (q_emul_buffer t) = 128%nat.
Proof.
  unfold Avatar.clear_state_inserting. rewrite run_status.
  set (u := s <| screen ::= fun t => t <| q_status ::= fun q => q <| insert_mode := false |> |> |>
    <| q_emul_buffer_n := 0 |> <| q_emul_buffer_i := 0 |> <| q_emul_buffer := replicate 128 0 |>
    <| avatar_statics ::= fun v => v <| avatar_scan_state := AVATAR_SCAN_NONE |> |> <| avatar_statics ::= Avatar.free_pattern |>).
  assert (E : Avatar.clear_state s = Done (tt, u)) by reflexivity. rewrite (bind_done _ _ _ _ _ E).
  assert (Hq : avatar_scan_state (avatar_statics u) = AVATAR_SCAN_NONE).
  { unfold u. cbn. unfold Avatar.free_pattern. by destruct (_ =? _)%nat. }
  destruct (insert_mode (q_status (screen s))) eqn:Ei; cbn [whenM].
  - eexists. split; [reflexivity|]. split; [|by repeat split].
    exact (same_insert (screen s) true Ei).
  - eexists. split; [reflexivity|]. split; [|by repeat split].
    exact (same_insert (screen s) false Ei).
Qed.

(** One round of the scanner in a run. *)
Lemma run_round c k s turns :
  in_run c k s -> iscntrl c = false ->
  Avatar.emit_run (S turns) fuel s =
    match k with
    | O => (Avatar.clear_state_inserting;; mret no_char_yet) s
    | S _ => Done ((Q_EMUL_FSM_MANY_CHARS, shown_as s c), s <| avatar_statics ::= fun v => v <| y_count ::= Z.pred |> |>)
    end.
Proof.
  intros [He Hq Hc Hk Hn] Hp. cbn [Avatar.emit_run]. rewrite run_get. cbv zeta. rewrite Hk, Hc, Hp.
  destruct k as [|k]; [done|]. rewrite (proj2 (Z.eqb_neq _ _)) by lia.
  unfold on_avatar. rewrite run_modify. unfold map_char. unfold mbind, M_bind, get, mret, M_ret.
  unfold shown_as. rewrite <- He. reflexivity.
Qed.

Lemma run_emulates c k b s :
  in_run c k s -> iscntrl c = false ->
  emulate fuel b s =
    match k with
    | O => (Avatar.clear_state_inserting;; mret no_char_yet) s
    | S _ => Done ((Q_EMUL_FSM_MANY_CHARS, shown_as s c), s <| avatar_statics ::= fun v => v <| y_count ::= Z.pred |> |>)
    end.
Proof.
  intros Hs Hp. pose proof Hs as [He Hq Hc Hk Hn]. unfold emulate. rewrite run_status. fold (emulation_is s). rewrite He.
  unfold Avatar.avatar, Avatar.scan_avatar. unfold mbind at 1, M_bind at 1. rewrite run_get, Hq.
  unfold Avatar.scan_y_emit. rewrite run_get. unfold mbind at 1, M_bind at 1. rewrite Hk, Nat2Z.id, (run_round c k s k Hs Hp).
  destruct k as [|k]; [|done]. unfold mbind, M_bind. by destruct (Avatar.clear_state_inserting s) as [[[] t]| |].
Qed.

Lemma run_asks c k s :
  in_run c k s -> iscntrl c = false -> last_state s = Q_EMUL_FSM_MANY_CHARS ->
  terminal_emulator fuel 255 s =
    match k with
    | O => (Avatar.clear_state_inserting;; set_last_state Q_EMUL_FSM_NO_CHAR_YET;; mret no_char_yet) s
    | S _ => Done ((Q_EMUL_FSM_MANY_CHARS, shown_as s c),
                   s <| avatar_statics ::= fun v => v <| y_count ::= Z.pred |> |> <| last_state := Q_EMUL_FSM_MANY_CHARS |>)
    end.
Proof.
  intros Hs Hp Hl. pose proof Hs as [He _ _ _ Hn]. unfold terminal_emulator. rewrite run_get.
  rewrite u64_id, (proj2 (Z.leb_gt 127 _)) by lia. cbn [whenM]. rewrite run_ret, run_get. cbv zeta.
  rewrite Hl, bool_decide_eq_true_2 by done. fold (emulation_is s). rewrite He.
  unfold mbind at 1, M_bind at 1. rewrite (run_emulates c k) by done. destruct k as [|k]; [|done].
  unfold mbind, M_bind. by destruct (Avatar.clear_state_inserting s) as [[[] t]| |].
Qed.

(** A state in a run whose screen can be drawn on. *)
Record running (c : Z) (k : nat) (s : emul_state) : Prop := {
  ru_run : in_run c k s;
  ru_last : last_state s = Q_EMUL_FSM_MANY_CHARS;
  ru_visible : visible (screen s);
  ru_buffer : length (q_emul_buffer s) = 128%nat
}.

Lemma run_shows c k s :
  running c k s ->
  exists u, draw (print_character (shown_as s c)) s = Done (tt, u) /\
    print_character (shown_as s c) (screen s) = Done (tt, screen u) /\ running c k u /\ flags u = flags s.
Proof.
  intros [[He Hq Hc Hk Hn] Hl [ds Hds] Hb].
  destruct (wp_run _ _ _ (keeps_run (screen s) ds (Print (shown_as s c)) Hds I)) as ([] & t & Et & Hf & Hv).
  cbn [ScreenCommand.run] in Et. exists (s <| screen := t |>). unfold draw, zoom. rewrite Et. split; [done|]. split; [done|]. split; [|done].
  split; [|done..]. split; [|done..]. unfold emulation_is in *. cbn.
  change (emulation (q_status t)) with (emulation (q_status (frame t))). rewrite Hf. exact He.
Qed.

(** What the console makes of the first character and of the [k] that are left. *)
Lemma run_printed c : iscntrl c = false -> forall k m s,
  (k + 2 <= m)%nat -> running c k s ->
  exists s', print_emulated fuel m (Q_EMUL_FSM_MANY_CHARS, shown_as s c) s = Done (tt, s') /\
    typed (replicate (S k) (shown_as s c)) (screen s) = Done (tt, screen s') /\
    avatar_in AVATAR_SCAN_NONE 0 s' /\ flags s' = flags s /\ visible (screen s').
Proof.
  intros Hp k. induction k as [|k IH]; intros m s Hm Hs; (destruct m as [|m]; [lia|]);
    destruct (run_shows c _ s Hs) as (u & Ed & Et & Hu & Eu); destruct Hu as [Hr Hl Hv Hb];
    cbn [print_emulated fst snd]; rewrite (bind_done _ _ _ _ _ Ed);
    pose proof (run_asks _ _ _ Hr Hp Hl) as Ea; cbv iota in Ea.
  - destruct (run_ends u) as (t & Ee & Es & Ef & Hq & Hn & Hlen). rewrite (bind_done _ _ _ _ _ Ee) in Ea.
    rewrite (bind_done _ _ _ _ _ Ea). destruct m as [|m]; [lia|]. eexists. split; [reflexivity|].
    change (screen (t <| last_state := Q_EMUL_FSM_NO_CHAR_YET |>)) with (screen t).
    change (flags (t <| last_state := Q_EMUL_FSM_NO_CHAR_YET |>)) with (flags t). rewrite Es, <- Eu, Ef.
    split; [unfold typed; cbn [replicate forM]; by rewrite (bind_done _ _ _ _ _ Et)|]. split; [|done].
    split; [|done|done|done|by left]. unfold emulation_is. cbn. rewrite Es. apply Hr.
  - set (v := u <| avatar_statics ::= fun v => v <| y_count ::= Z.pred |> |> <| last_state := Q_EMUL_FSM_MANY_CHARS |>) in *.
    rewrite (bind_done _ _ _ _ _ Ea). destruct (IH m v) as (s' & E & Ht & Ha & Hf & Hvis); [lia| |].
    + split; [|done..]. destruct Hr as [He Hq Hc Hk Hn]. split; [done..| |done]. cbn. rewrite Hk. lia.
    + assert (Ec : shown_as v c = shown_as s c) by (unfold shown_as; by change (flags v) with (flags u); rewrite Eu).
      assert (Ec' : shown_as u c = shown_as s c) by (unfold shown_as; by rewrite Eu).
      rewrite Ec in E, Ht. rewrite Ec'. exists s'. split; [exact E|].
      split; [|by rewrite <- Eu]. change (replicate (S (S k)) (shown_as s c)) with (shown_as s c :: replicate (S k) (shown_as s c)).
      unfold typed. cbn [forM]. by rewrite (bind_done _ _ _ _ _ Et).
Qed.

(** The character on its own. *)
Lemma avatar_says c s :
  (0 < fuel)%nat -> iscntrl c = false -> avatar_in AVATAR_SCAN_NONE 0 s -> visible (screen s) ->
  exists t, console_byte fuel c s = Done (tt, t) /\
    print_character (shown_as s c) (screen s) = Done (tt, screen t) /\
    avatar_in AVATAR_SCAN_NONE 0 t /\ flags t = flags s /\ visible (screen t).
Proof.
  intros Hf Hp Hs [ds Hds]. pose proof Hs as [He Hq Hn Hb Hl].
  destruct (wp_run _ _ _ (keeps_run (screen s) ds (Print (shown_as s c)) Hds I)) as ([] & t & Et & Hft & Hv).
  cbn [ScreenCommand.run] in Et.
  assert (Ea : emulate fuel c (counted 1 s) = Done ((Q_EMUL_FSM_ONE_CHAR, shown_as s c), counted 1 s)).
  { unfold emulate. rewrite run_status. change (emulation (q_status (screen (counted 1 s)))) with (emulation_is s). rewrite He.
    unfold Avatar.avatar, Avatar.scan_avatar. unfold mbind at 1, M_bind at 1. rewrite run_get.
    change (avatar_statics (counted 1 s)) with (avatar_statics s). rewrite Hq. unfold Avatar.scan_none.
    assert (Hc : 0x20 <= c) by (unfold iscntrl in Hp; lia). unfold C_ESC.
    rewrite (proj2 (Z.eqb_neq c 0x1B)), (proj2 (Z.eqb_neq c 0x16)), (proj2 (Z.eqb_neq c 0x0C)),
      (proj2 (Z.eqb_neq c 0x19)), Hp by lia.
    unfold map_char. unfold shown_as. rewrite <- He. reflexivity. }
  unfold console_byte. unfold mbind at 1, M_bind at 1. rewrite terminal_plain by (lia || done || (left; by rewrite He)).
  rewrite (bind_done _ _ _ _ _ Ea). destruct fuel as [|m]; [lia|].
  set (u := counted 1 s <| last_state := Q_EMUL_FSM_ONE_CHAR |>).
  exists (u <| screen := t |>). split; [|split; [exact Et|split; [|done]]].
  - change (draw (print_character (shown_as s c)) u = Done (tt, u <| screen := t |>)).
    unfold draw, zoom. change (screen u) with (screen s). by rewrite Et.
  - split; [|done|done|done|by right]. unfold emulation_is in *. cbn.
    change (emulation (q_status t)) with (emulation (q_status (frame t))). rewrite Hft. exact He.
Qed.

Lemma avatar_says_many c k : forall s,
  (0 < fuel)%nat -> iscntrl c = false -> avatar_in AVATAR_SCAN_NONE 0 s -> visible (screen s) ->
  exists t, console_bytes fuel (replicate k c) s = Done (tt, t) /\
    typed (replicate k (shown_as s c)) (screen s) = Done (tt, screen t) /\ avatar_in AVATAR_SCAN_NONE 0 t.
Proof.
  induction k as [|k IH]; intros s Hf Hp Hs Hv; [by exists s|].
  destruct (avatar_says c s Hf Hp Hs Hv) as (u & Eu & Et & Hu & Ef & Hvu).
  destruct (IH u Hf Hp Hu Hvu) as (t & Ec & Ety & Ht). exists t. cbn [replicate].
  rewrite (console_bytes_cons _ _ _ _ _ Eu). split; [done|]. split; [|done].
  unfold typed in *. cbn [forM]. rewrite (bind_done _ _ _ _ _ Et).
  replace (shown_as s c) with (shown_as u c) by (unfold shown_as; by rewrite Ef). exact Ety.
Qed.

(** The count of a run starts it. *)
Lemma run_starts n s :
  avatar_in AVATAR_SCAN_Y_2 2 s ->
  emulate fuel n (counted 1 s) =
    emulate fuel n
      (counted 1 s <| avatar_statics ::= fun v => v <| y_count := n |> <| avatar_scan_state := AVATAR_SCAN_Y_EMIT |> |>).
Proof.
  intros Hs. unfold emulate. rewrite !run_status.
  change (emulation (q_status (screen (counted 1 s)))) with (emulation_is s).
  change (emulation (q_status (screen (counted 1 s <| avatar_statics ::= _ |>)))) with (emulation_is s).
  rewrite (ai_emulation _ _ _ Hs). unfold Avatar.avatar. unfold mbind at 1 3, M_bind at 1 3.
  rewrite (ltac:(at_state Hs) : Avatar.scan_avatar fuel n (counted 1 s) =
    (on_avatar (fun v => v <| y_count := n |>);; Avatar.avatar_scan AVATAR_SCAN_Y_EMIT;; Avatar.scan_y_emit fuel) (counted 1 s)).
  reflexivity.
Qed.

(** ^Y and the character. *)
Lemma run_begins c s :
  (0 < fuel)%nat -> avatar_in AVATAR_SCAN_NONE 0 s ->
  wp (console_bytes fuel [0x19; c]) s (fun _ u => avatar_in AVATAR_SCAN_Y_2 2 u /\
    y_char (avatar_statics u) = c /\ screen u = screen s /\ flags u = flags s).
Proof.
  intros Hf Hs. unfold console_bytes. cbn [each]. apply wp_bind.
  eapply (wp_save_and _ _ AVATAR_SCAN_Y_1); [done|exact Hs|lia|at_state Hs|done|]. intros s1 H1 _ Es Efl.
  apply wp_bind. eapply (wp_save_and _ _ AVATAR_SCAN_Y_2 _ _ (fun v => v <| y_char := c |> <| avatar_scan_state := AVATAR_SCAN_Y_2 |>));
    [done|exact H1|lia| |done|].
  - rewrite (ltac:(at_state H1) : Avatar.scan_avatar fuel c (counted 1 s1) =
      (save_char c;; Ansi.more (on_avatar (fun v => v <| y_char := c |>);; Avatar.avatar_scan AVATAR_SCAN_Y_2)) (counted 1 s1)).
    unfold Ansi.more. unfold mbind, M_bind. by destruct (save_char c (counted 1 s1)) as [[[] u]| |].
  - intros s2 H2 E2 Es2 Ef2. split; [done|]. split; [by rewrite E2|]. by rewrite Es2, Ef2.
Qed.

(** The count, and all that is printed for it. *)
Lemma run_console c n u :
  (Z.to_nat n + 2 <= fuel)%nat -> 0 <= n -> iscntrl c = false ->
  avatar_in AVATAR_SCAN_Y_2 2 u -> y_char (avatar_statics u) = c -> visible (screen u) ->
  exists s', console_byte fuel n u = Done (tt, s') /\ avatar_in AVATAR_SCAN_NONE 0 s' /\
    typed (replicate (Z.to_nat n) (shown_as u c)) (screen u) = Done (tt, screen s').
Proof.
  intros Hf Hn Hp Hu Hc Hv. pose proof Hu as [He _ Hn2 Hb Hl].
  set (v := counted 1 u <| avatar_statics ::= fun v => v <| y_count := n |> <| avatar_scan_state := AVATAR_SCAN_Y_EMIT |> |>).
  assert (Hr : in_run c (Z.to_nat n) v) by (split; [exact He|done|exact Hc|cbn; lia|cbn; lia]).
  unfold console_byte. unfold mbind at 1, M_bind at 1. rewrite terminal_plain by (lia || done || (left; by rewrite He)).
  unfold mbind at 1, M_bind at 1. rewrite (run_starts n u Hu). fold v. rewrite (run_emulates c (Z.to_nat n)) by done.
  destruct (Z.to_nat n) as [|k] eqn:Ek.
  - destruct (run_ends v) as (t & Ee & Est & Eft & Hq & Hn0 & Hlen). rewrite (bind_done _ _ _ _ _ Ee).
    destruct fuel as [|m]; [lia|]. eexists. split; [reflexivity|]. split.
    + split; [|exact Hq|exact Hn0|exact Hlen|by left]. unfold emulation_is. cbn. rewrite Est. exact He.
    + cbn. by rewrite Est.
  - set (w := v <| avatar_statics ::= fun v => v <| y_count ::= Z.pred |> |> <| last_state := Q_EMUL_FSM_MANY_CHARS |>).
    assert (Hw : running c k w).
    { split; [|done|exact Hv|exact Hb]. destruct Hr as [G1 G2 G3 G4 G5]. split; [done..| |done]. cbn. lia. }
    destruct (run_printed c Hp k fuel w ltac:(lia) Hw) as (s' & Es' & Hty & Ha & _ & _). by exists s'.
Qed.

(** C18: a run of AVATAR, ^Y with a character and a count, shows what the character sent that
    often shows, and leaves the scanner ready for more. *)
Theorem avatar_run_is_its_text c n s :
  (Z.to_nat n + 2 <= fuel)%nat -> 0 <= n -> iscntrl c = false ->
  avatar_in AVATAR_SCAN_NONE 0 s -> visible (screen s) ->
  exists s' t', console_bytes fuel [0x19; c; n] s = Done (tt, s') /\
    console_bytes fuel (replicate (Z.to_nat n) c) s = Done (tt, t') /\
    screen s' = screen t' /\ avatar_in AVATAR_SCAN_NONE 0 s' /\
    typed (replicate (Z.to_nat n) (codepage_map_char (codepage (flags s)) Q_EMUL_AVATAR c)) (screen s) = Done (tt, screen s').
Proof.
  intros Hf Hn Hp Hs Hv. assert (Hf0 : (0 < fuel)%nat) by lia.
  destruct (avatar_says_many c (Z.to_nat n) s Hf0 Hp Hs Hv) as (t' & Et & Ety & _).
  destruct (wp_run _ _ _ (run_begins c s Hf0 Hs)) as ([] & u & E & Hu & Hc & Es & Efl).
  destruct (run_console c n u Hf Hn Hp Hu Hc ltac:(by rewrite Es)) as (s' & Eb & Ha & Hty).
  rewrite Es in Hty. unfold shown_as in Hty, Ety. rewrite Efl in Hty. exists s', t'.
  change [0x19; c; n] with ([0x19; c] ++ [n]). rewrite (console_bytes_app _ _ _ _ _ E).
  split; [by rewrite (console_bytes_cons _ _ _ _ _ Eb)|]. split; [done|]. split; [|done]. congruence.
Qed.

(** *** A sequence that is not known *)

(** Without the ANSI fallback a byte that no command starts with after ^V fails the assertion of the
    next byte, whatever it is: the buffer it should be in is empty. *)
Lemma unknown_command_aborts b s :
  (0 < fuel)%nat -> avatar_in AVATAR_DUMP_UNKNOWN_SEQUENCE 0 s ->
  console_byte fuel b s = Fault AssertFailed.
Proof.
  intros Hf Hs. pose proof Hs as [He Hq Hn Hb Hl]. unfold console_byte. unfold mbind at 1, M_bind at 1.
  rewrite terminal_plain by (lia || done || (left; by rewrite He)). unfold mbind at 1, M_bind at 1, emulate. rewrite run_status.
  change (emulation (q_status (screen (counted 1 s)))) with (emulation_is s). rewrite He. unfold Avatar.avatar, mbind at 1, M_bind at 1.
  rewrite (ltac:(at_state Hs) : Avatar.scan_avatar fuel b (counted 1 s) =
    (r ← Avatar.dump_unknown_sequence Avatar.to_none; mret (Some r)) (counted 1 s)).
  unfold Avatar.dump_unknown_sequence, mbind, M_bind, get. by rewrite (Hn : q_emul_buffer_n (counted 1 s) = 0).
Qed.

(** ** ANSI *)

Lemma ansi_sequence js f s (Q : unit -> emul_state -> Prop) :
  (0 < fuel)%nat -> ansi_quiet s -> js <> [] -> (length (csi_text js) <= 124)%nat ->
  (forall t, collecting (foldl next_count ANSI_SCAN_COUNT (csi_text js)) (C_ESC :: chr "[" :: csi_text js) s t ->
     wp (console_byte fuel f) t Q) ->
  wp (console_bytes fuel (csi_bytes js f)) s Q.
Proof.
  intros Hf Hs Hne Hl H. unfold csi_bytes.
  destruct (wp_run _ _ _ (ansi_collects fuel Hf js s Hne Hs Hl)) as ([] & t & E & Ht).
  change (C_ESC :: chr "[" :: csi_text js ++ [f]) with ((C_ESC :: chr "[" :: csi_text js) ++ [f]).
  unfold wp. rewrite (console_bytes_app _ _ _ _ _ E). unfold console_bytes. cbn [each]. apply wp_bind.
  eapply wp_mono; [by apply H|]. intros [] u Hu. by apply wp_ret.
Qed.

(** C17: SGR in the ANSI emulation reads its parameters out of the bytes it has collected, each in
    turn: the current colour becomes what they make of it, nothing else on the screen changes and
    the scanner is ready for more.  With colours as parameters the colour pair becomes that of the
    last foreground and the last background, as in the emulations of vt100.c, and all other
    attributes stay. *)
Theorem ansi_sgr_sets_the_colors {L : CursesLaws C} js s :
  (0 < fuel)%nat -> ansi_quiet s -> js <> [] -> (length (csi_text js) <= 124)%nat ->
  Forall (fun j => 0 <= j < 10 ^ 6) js ->
  exists s', console_bytes fuel (csi_bytes js (chr "m")) s = Done (tt, s') /\ ansi_quiet s' /\
    let c := q_current_color (screen s) in let c' := q_current_color (screen s') in
    screen s' = (screen s) <| q_current_color := c' |> /\
    c' = Ansi.put_color (foldl (fun p j => Ansi.ansi_sgr (q_text_colors (screen s) Q_COLOR_CONSOLE_TEXT) j p) (pen_of_color c) js) /\
    (Forall is_color js -> color_ok c ->
     PAIR_NUMBER c' = foldl paired (PAIR_NUMBER c) js /\ Z.land c' NO_COLOR_MASK = Z.land c NO_COLOR_MASK).
Proof.
  intros Hf Hs Hne Hl Hj.
  destruct (wp_run _ _ _ (ansi_sequence js (chr "m") s _ Hf Hs Hne Hl (fun t Ht => ansi_final_m fuel Hf js s t Hne Hj Hl Ht)))
    as ([] & s' & E & Hq & _ & Es).
  assert (Ec : q_current_color (screen s') = sgr_color_of (q_text_colors (screen s) Q_COLOR_CONSOLE_TEXT) js (q_current_color (screen s)))
    by (by rewrite Es).
  exists s'. split; [done|]. split; [done|]. cbv zeta. split; [by rewrite Ec|]. split; [exact Ec|].
  intros Hcol Hok. rewrite Ec. by apply sgr_color_pair.
Qed.

(** C19: cursor addressing in the ANSI emulation puts the cursor in the row and the column that
    were printed into the sequence, the last ones of the screen if there are fewer. *)
Theorem ansi_moves_the_cursor row col s :
  (0 < fuel)%nat -> ansi_quiet s -> visible (screen s) -> 1 <= row < 10 ^ 6 -> 1 <= col < 10 ^ 6 ->
  exists s', console_bytes fuel (csi_bytes [row; col] (chr "H")) s = Done (tt, s') /\ ansi_quiet s' /\
    cursor_position (row - 1) (col - 1) (screen s) = Done (tt, screen s') /\ visible (screen s') /\
    (origin_mode (q_status (screen s)) = false -> q_emulation_right_margin (screen s) <= 0 ->
     cursor_x (q_status (screen s')) = Z.min (col - 1) (WIDTH (screen s) - 1) /\
     cursor_y (q_status (screen s')) = Z.min (row - 1) (rows (screen s) - 1)).
Proof.
  intros Hf Hs [ds Hds] Hr Hc. destruct (os_line _ _ Hds) as (d & Hd & _).
  assert (Hwp : wp (cursor_position (row - 1) (col - 1)) (screen s) (fun _ t => frame t = frame (screen s) /\ visible t /\
    cursor_x (q_status t) = position_column (screen s) d (col - 1) /\ cursor_y (q_status t) = position_row (screen s) (row - 1))).
  { apply (wp_cursor_position _ ds d); [done|done|lia|lia|]. cbv zeta. intros t Ht.
    split; [apply Ht|]. split; [by eexists; apply Ht|]. split; apply Ht. }
  destruct (wp_run _ _ _ Hwp) as ([] & t & Et & Hft & Hv & Ex & Ey).
  assert (He : emulation (q_status t) = Q_EMUL_ANSI).
  { change (emulation (q_status (frame t)) = Q_EMUL_ANSI). rewrite Hft. apply (an_emulation _ _ _ _ Hs). }
  assert (Hl : (length (csi_text [row; col]) <= 124)%nat).
  { cbn [csi_text]. rewrite length_app. cbn [length]. pose proof (printed_six row). pose proof (printed_six col). lia. }
  destruct (wp_run _ _ _ (ansi_sequence [row; col] (chr "H") s (fun _ u => ansi_quiet u /\ flags u = flags s /\ screen u = t) Hf Hs
    ltac:(done) Hl ltac:(rewrite two_numbers_count; intros u Hu; by apply (ansi_final_H fuel Hf row col s u t)))) as ([] & s' & E & Hq & _ & Es).
  exists s'. rewrite Es. split; [done|]. split; [done|]. split; [done|]. split; [done|]. intros Ho Hm. rewrite Ex, Ey.
  unfold position_column, position_row. rewrite Ho, (proj2 (Z.ltb_ge 0 _)) by done. cbn [andb]. split; [done|]. apply Z.min_comm.
Qed.

(** ** ATASCII *)

(** C16: with the ATASCII emulation any stream of bytes is taken to its end from a screen that can
    be drawn on, and the invariant of the screen and of the emulation holds after it. *)
Theorem atascii_safe {L : CursesLaws C} t f a mouse paste l :
  (0 < fuel)%nat -> visible t -> text_ok (q_text_colors t) -> emulation (q_status t) = Q_EMUL_ATASCII ->
  exists s s', reset_emulation mouse paste (initial t f a) = Done (tt, s) /\ waiting (setup_of t) s /\
    console_bytes fuel l s = Done (tt, s') /\ waiting (setup_of t) s'.
Proof.
  intros Hf Hv Ht He.
  destruct (wp_run _ _ _ (waiting_after_reset mouse paste t f a Hv Ht ltac:(by rewrite He))) as ([] & s & E & Hs).
  destruct (wp_run _ _ _ (wp_atascii_bytes fuel (setup_of t) Hf He l s Hs)) as ([] & s' & E' & Hs').
  by exists s, s'.
Qed.

End Emulators.

(** ** Concrete streams *)

#[local] Existing Instance ScreenProps.ncurses.

Lemma selected_avatar : avatar_in AVATAR_SCAN_NONE 0 (selected Q_EMUL_AVATAR).
Proof. split; try (vm_compute; reflexivity). left. vm_compute. reflexivity. Qed.

Lemma selected_ansi : ansi_quiet (selected Q_EMUL_ANSI).
Proof. split; try (vm_compute; reflexivity). left. vm_compute. reflexivity. Qed.

Lemma selected_visible e : e <> Q_EMUL_DEBUG -> visible (screen (selected e)).
Proof. intros He. exact (waiting_visible _ _ (selected_waiting e He)). Qed.

(** A clear screen, text in reverse video and a bell. *)
Lemma atascii_safe_witness :
  exists s s', reset_emulation false false (initial (ScreenProps.opened Q_EMUL_ATASCII) default_flags []) = Done (tt, s) /\
    waiting (setup_of (ScreenProps.opened Q_EMUL_ATASCII)) s /\
    console_bytes 1 [0x7D; 0xC1; 0xC2; 0x9B; 0xFD] s = Done (tt, s') /\
    waiting (setup_of (ScreenProps.opened Q_EMUL_ATASCII)) s'.
Proof.
  destruct (atascii_safe 1 (ScreenProps.opened Q_EMUL_ATASCII) default_flags [] false false
              [0x7D; 0xC1; 0xC2; 0x9B; 0xFD]) as (s & s' & H).
  - lia.
  - apply ScreenProps.opened_visible.
  - apply opened_text_ok.
  - reflexivity.
  - exists s, s'. exact H.
Defined.

Lemma tab_at_the_margin_never_ends_witness :
  console_byte 1000 0x09 (selected Q_EMUL_VT52) = Diverge.
Proof.
  apply (tab_at_the_margin_never_ends 1000 (selected Q_EMUL_VT52)).
  - split; try (vm_compute; reflexivity). left. vm_compute. reflexivity.
  - vm_compute. reflexivity.
  - vm_compute. reflexivity.
  - destruct (selected_visible Q_EMUL_VT52 ltac:(done)) as [ds Hds]. destruct (os_line _ _ Hds) as (d & Hd & _).
    exists ds, d. split; [exact Hds|]. split; [exact Hd|]. unfold margin_of, halve_margin.
    assert (Em : q_emulation_right_margin (screen (selected Q_EMUL_VT52)) = -1) by (vm_compute; reflexivity).
    assert (Ew : WIDTH (screen (selected Q_EMUL_VT52)) = 8) by (vm_compute; reflexivity).
    assert (Ex : cursor_x (q_status (screen (selected Q_EMUL_VT52))) = 0) by (vm_compute; reflexivity).
    rewrite Em, Ew, Ex. destruct (double_width d); vm_compute; intuition congruence.
Defined.

Lemma avatar_pattern_overflows_witness :
  shown Q_EMUL_AVATAR [0x16; 0x19; 0; 65; 66] = Fault OutOfBounds.
Proof.
  unfold shown. apply (avatar_pattern_overflows 1 65 66 (selected Q_EMUL_AVATAR)); [lia|apply selected_avatar].
Defined.

Lemma avatar_run_is_its_text_witness :
  exists s' t', console_bytes 5 [0x19; 65; 3] (selected Q_EMUL_AVATAR) = Done (tt, s') /\
    console_bytes 5 [65; 65; 65] (selected Q_EMUL_AVATAR) = Done (tt, t') /\
    screen s' = screen t' /\ avatar_in AVATAR_SCAN_NONE 0 s'.
Proof.
  destruct (avatar_run_is_its_text 5 65 3 (selected Q_EMUL_AVATAR)) as (s' & t' & E & E' & Es & Hs & _).
  - lia.
  - lia.
  - reflexivity.
  - apply selected_avatar.
  - by apply selected_visible.
  - exists s', t'. split; [exact E|]. split; [exact E'|]. split; [exact Es|exact Hs].
Defined.

Lemma ansi_sgr_sets_the_colors_witness :
  exists s', shown Q_EMUL_ANSI (csi_bytes [31; 44] (chr "m")) = Done (tt, s') /\ ansi_quiet s' /\
    PAIR_NUMBER (q_current_color (screen s')) = 12.
Proof.
  unfold shown. destruct (ansi_sgr_sets_the_colors 1 [31; 44] (selected Q_EMUL_ANSI)) as (s' & E & Hq & H).
  - lia.
  - apply selected_ansi.
  - done.
  - vm_compute. lia.
  - small.
  - exists s'. split; [exact E|]. split; [exact Hq|]. cbv zeta in H. destruct H as (_ & _ & H). destruct H as [H _].
    + apply Forall_cons. split; [left; lia|]. apply Forall_cons. split; [right; lia|]. by apply Forall_nil.
    + vm_compute. intuition congruence.
    + rewrite H. vm_compute. reflexivity.
Defined.

Lemma ansi_moves_the_cursor_witness :
  exists s', shown Q_EMUL_ANSI (csi_bytes [2; 14] (chr "H")) = Done (tt, s') /\ ansi_quiet s' /\
    cursor_x (q_status (screen s')) = 7 /\ cursor_y (q_status (screen s')) = 1.
Proof.
  unfold shown. destruct (ansi_moves_the_cursor 1 2 14 (selected Q_EMUL_ANSI)) as (s' & E & Hq & _ & _ & H).
  - lia.
  - apply selected_ansi.
  - by apply selected_visible.
  - lia.
  - lia.
  - exists s'. split; [exact E|]. split; [exact Hq|].
    assert (Ew : WIDTH (screen (selected Q_EMUL_ANSI)) = 8) by (vm_compute; reflexivity).
    assert (Er : rows (screen (selected Q_EMUL_ANSI)) = 4) by (vm_compute; reflexivity).
    assert (Eo : origin_mode (q_status (screen (selected Q_EMUL_ANSI))) = false) by (vm_compute; reflexivity).
    assert (Em : q_emulation_right_margin (screen (selected Q_EMUL_ANSI)) = -1) by (vm_compute; reflexivity).
    rewrite Ew, Er, Em in H. destruct (H Eo ltac:(lia)) as [Hx Hy]. split; [exact Hx|exact Hy].
Defined.

(** *** Defects, on this terminal *)

(** Without the ANSI fallback, ^V x and any other byte stop the program. *)
Definition no_fallback_flags : emulation_flags := default_flags <| avatar_ansi_fallback := false |>.

Lemma unknown_command_stops :
  (reset_emulation false false;; console_bytes 1 [0x16; 120; 65])
    (initial (ScreenProps.opened Q_EMUL_AVATAR) no_fallback_flags []) = Fault AssertFailed.
Proof. vm_compute. reflexivity. Qed.

(** With it, the command that follows the one that is not known is lost: ^V^D does not move the cursor. *)
Lemma fallback_takes_the_next :
  cursor_y (q_status (screen (EmulationProps.after Q_EMUL_AVATAR [0x16; 4]))) = 1 /\
  cursor_y (q_status (screen (EmulationProps.after Q_EMUL_AVATAR [0x16; 120; 0x16; 4]))) = 0.
Proof. split; vm_compute; reflexivity. Qed.

(** A pattern goes through the codepage twice: 0x9B, a cent sign, is shown as U+00F3. *)
Lemma pattern_is_mapped_twice :
  let first_of e := match current (screen e) with Done (l, _) => chars l !! 0%nat | _ => None end in
  first_of (EmulationProps.after Q_EMUL_AVATAR [0x9B]) = Some 0xA2 /\
  first_of (EmulationProps.after Q_EMUL_AVATAR [0x16; 0x19; 1; 0x9B; 1]) = Some 0xF3.
Proof. split; vm_compute; reflexivity. Qed.

(** ^V^M adds its columns to that of the cursor, and the sum is not checked. *)
Lemma clear_area_overflows :
  shown Q_EMUL_AVATAR [0x16; 6; 0x16; 6; 0x16; 0x0D; 65; 7; 255; 1] = Fault OutOfBounds.
Proof. vm_compute. reflexivity. Qed.

(** *** The debugging emulation, on a screen of 80 columns *)

Definition wide_screen : screen_state :=
  ScreenProps.result (first_screen true [] [] []) ((ScreenProps.terminal Q_EMUL_DEBUG true) <| WIDTH := 80 |>).

(** The first columns of the current line and of the one before it. *)
Definition last_rows : SM (list Z * list Z) :=
  l ← current; l' ← deref (prev l); mret (take 80 (chars l'), take 80 (chars l)).

Lemma dump_of_text :
  match (reset_emulation false false;; console_bytes 80 (str "Qodem, a terminal");; draw last_rows)
          (initial wide_screen default_flags []) with Done (rows, _) => Some rows | _ => None end =
  Some (str " 00000000 | 51 6f 64 65 6d 2c 20 61-20 74 65 72 6d 69 6e 61 | Qodem, a termina  ",
        str " 00000010 | 6c                                              | l                 ").
Proof. vm_compute. reflexivity. Qed.

(** The first column of a sequence left out is refused: CSI ; 5 H does not move the cursor. *)
Lemma omitted_row_refused :
  let s := screen (EmulationProps.after Q_EMUL_ANSI (C_ESC :: chr "[" :: str ";5H")) in
  let t := screen (EmulationProps.after Q_EMUL_ANSI (C_ESC :: chr "[" :: str "1;5H")) in
  cursor_x (q_status t) = 4 /\ cursor_x (q_status s) <> 4.
Proof. split; vm_compute; [reflexivity|discriminate]. Qed.

(** The bytes of an identification that go out. *)
Lemma identification_is_cut :
  log (EmulationProps.after Q_EMUL_ANSI (C_ESC :: chr "[" :: str "c")) = log (selected Q_EMUL_ANSI) ++ [Sent [C_ESC; 91; 63]].
Proof. vm_compute. reflexivity. Qed.

End EmulatorsProps.
