(* ===== verification/Telnet.v ===== *)
(** netclient.c: the telnet and rlogin channels, and qodem_write() of qodem.c over
    the telnet one.

    The socket is a script of what the next calls of send() do; once the script
    is used up a call takes everything.  What the kernel has taken is [wire].  A
    buffer and its length are one list of bytes; a write past the end of an array
    of the C code is a fault. *)

From Stdlib Require Import ZArith Lia List Bool.
From stdpp Require Import base list numbers strings.
From S2P Require Import Prelude Stdio States.

Module Telnet.

(** ** Data *)

(** The negotiation states of netclient.c. *)
Inductive STATE := INIT | SENT_OPTIONS | SENT_LOGIN | ESTABLISHED.
#[global] Instance STATE_eq_dec : EqDecision STATE.
Proof. solve_decision. Defined.

Definition Q_BUFFER_SIZE : Z := 4096.
Definition SUBNEG_BUFFER_MAX : Z := 128.

Definition C_NUL : Z := 0x00.
Definition C_LF : Z := 0x0A.
Definition C_CR : Z := 0x0D.

Definition TELNET_SE : Z := 240.
Definition TELNET_SB : Z := 250.
Definition TELNET_WILL : Z := 251.
Definition TELNET_WONT : Z := 252.
Definition TELNET_DO : Z := 253.
Definition TELNET_DONT : Z := 254.
Definition TELNET_IAC : Z := 255.

(** errno.h *)
Definition EAGAIN : Z := 11.

Record telnet_state := {
  echo_mode : bool;
  binary_mode : bool;
  go_ahead : bool;
  do_naws : bool;
  do_term_type : bool;
  do_term_speed : bool;
  do_environment : bool;
  iac : bool;
  dowill : bool;
  dowill_type : Z;
  subneg_end : bool;
  is_eof : bool;
  eof_msg : bool;
  read_cr : bool;
  write_rc : Z;
  write_last_errno : Z;
  write_last_error : bool;
  write_cr : bool
}.
#[export] Instance eta_telnet_state : Eta telnet_state := fun v =>
  {| echo_mode := echo_mode v; binary_mode := binary_mode v; go_ahead := go_ahead v;
     do_naws := do_naws v; do_term_type := do_term_type v; do_term_speed := do_term_speed v;
     do_environment := do_environment v; iac := iac v; dowill := dowill v;
     dowill_type := dowill_type v; subneg_end := subneg_end v; is_eof := is_eof v;
     eof_msg := eof_msg v; read_cr := read_cr v; write_rc := write_rc v;
     write_last_errno := write_last_errno v; write_last_error := write_last_error v;
     write_cr := write_cr v |}.

(** What a call of send() does: it takes up to [n] bytes, or fails. *)
Inductive send_result := Sent (n : Z) | Send_failed (e : Z).
(** What a call of recv() finds. *)
Inductive recv_result := Received (l : list Z) | End_of_file | Recv_failed (e : Z).

Record net_state := {
  state : STATE;
  connected : bool;
  nvt : telnet_state;
  subneg_buffer : list Z;
  read_buffer : list Z;
  write_buffer : list Z;
  errno : Z;
  sends : list send_result;
  wire : list Z;
  q_program_state : Q_PROGRAM_STATE;
  emulation : Q_EMULATION;
  iso8859_lang : cstring;
  utf8_lang : cstring;
  lines : Z;
  columns : Z
}.
#[export] Instance eta_net_state : Eta net_state := fun s =>
  {| state := state s; connected := connected s; nvt := nvt s; subneg_buffer := subneg_buffer s;
     read_buffer := read_buffer s; write_buffer := write_buffer s; errno := errno s;
     sends := sends s; wire := wire s; q_program_state := q_program_state s;
     emulation := emulation s; iso8859_lang := iso8859_lang s; utf8_lang := utf8_lang s;
     lines := lines s; columns := columns s |}.

Definition NM := M net_state.

Definition on_nvt (f : telnet_state -> telnet_state) : NM unit := modify (fun s => s <| nvt ::= f |>).
Definition get_nvt : NM telnet_state := gets nvt.

(** [reset_nvt()] leaves [dowill_type] alone. *)
Definition reset_nvt (v : telnet_state) : telnet_state :=
  {| echo_mode := false; binary_mode := false; go_ahead := true; do_naws := false;
     do_term_type := false; do_term_speed := false; do_environment := false;
     iac := false; dowill := false; dowill_type := dowill_type v; subneg_end := false;
     is_eof := false; eof_msg := false; read_cr := false; write_rc := 0;
     write_last_errno := 0; write_last_error := false; write_cr := false |}.

(** ** The socket *)

(** [send(fd, data, n, 0)] *)
Definition send (data : list Z) : NM Z :=
  s ← get;
  match sends s with
  | [] => modify (fun s => s <| wire ::= fun w => w ++ data |>);; mret (Z.of_nat (length data))
  | Sent n :: rest =>
    let k := Z.max 0 (Z.min n (Z.of_nat (length data))) in
    modify (fun s => s <| sends := rest |> <| wire ::= fun w => w ++ take (Z.to_nat k) data |>);; mret k
  | Send_failed e :: rest => modify (fun s => s <| sends := rest |> <| errno := e |>);; mret (-1)
  end.

(** The loop of [raw_write]; [buf] never advances. *)
Fixpoint raw_loop (fuel : nat) (buf : list Z) (count original : Z) : NM Z :=
  match fuel with
  | O => diverge
  | S fuel =>
    rc ← send (take (Z.to_nat count) buf);
    if rc <=? 0 then
      e ← gets errno;
      if e =? EAGAIN then (if 0 <? count then raw_loop fuel buf count original else mret original)
      else mret rc
    else
      let count := count - rc in
      if 0 <? count then raw_loop fuel buf count original else mret original
  end.

Definition raw_write (buf : list Z) : NM Z :=
  s ← get;
  let count := Z.of_nat (length buf) in
  raw_loop (length (sends s) + 2) buf count count.

(** ** Options *)

Definition telnet_respond (response option : Z) : NM unit :=
  raw_write [TELNET_IAC; response; option];; mret tt.
Definition telnet_will (option : Z) : NM unit := telnet_respond TELNET_WILL option.
Definition telnet_wont (option : Z) : NM unit := telnet_respond TELNET_WONT option.
Definition telnet_do (option : Z) : NM unit := telnet_respond TELNET_DO option.
Definition telnet_dont (option : Z) : NM unit := telnet_respond TELNET_DONT option.

Definition telnet_refuse (remote_query option : Z) : NM unit :=
  if remote_query =? TELNET_DO then telnet_wont option else telnet_dont option.

Definition telnet_send_subneg_response (option : Z) (response : list Z) : NM unit :=
  assertM (Z.of_nat (length response) <=? SUBNEG_BUFFER_MAX);;
  raw_write ([TELNET_IAC; TELNET_SB; option] ++ response ++ [TELNET_IAC; TELNET_SE]);;
  mret tt.

Definition telnet_send_terminal_speed : NM unit :=
  telnet_send_subneg_response 32 ([0] ++ str "38400,38400").

Definition emulation_term (e : Q_EMULATION) : cstring :=
  match e with
  | Q_EMUL_ANSI => str "ansi"
  | Q_EMUL_AVATAR => str "avatar"
  | Q_EMUL_VT52 => str "vt52"
  | Q_EMUL_VT100 => str "vt100"
  | Q_EMUL_VT102 => str "vt102"
  | Q_EMUL_VT220 => str "vt220"
  | Q_EMUL_TTY => str "dumb"
  | Q_EMUL_LINUX | Q_EMUL_LINUX_UTF8 => str "linux"
  | Q_EMUL_PETSCII => str "commodore"
  | Q_EMUL_ATASCII => str "atari-old"
  | Q_EMUL_XTERM | Q_EMUL_XTERM_UTF8 => str "xterm"
  | Q_EMUL_DEBUG => []
  end.

(** The two options of the configuration file are fields of the state. *)
Definition emulation_lang (s : net_state) : cstring :=
  match emulation s with
  | Q_EMUL_XTERM_UTF8 | Q_EMUL_LINUX_UTF8 => utf8_lang s
  | Q_EMUL_PETSCII | Q_EMUL_ATASCII => str "C"
  | _ => iso8859_lang s
  end.

Definition telnet_send_terminal_type : NM unit :=
  s ← get;
  telnet_send_subneg_response 24 ([0] ++ emulation_term (emulation s)).

(** snprintf() keeps room for the terminator: a string that ends at the last byte
    of [response] loses its last character. *)
Definition terminated (response : list Z) : list Z :=
  if Z.of_nat (length response) =? SUBNEG_BUFFER_MAX
  then take (Z.to_nat (SUBNEG_BUFFER_MAX - 1)) response ++ [C_NUL] else response.

Definition telnet_send_environment : NM unit :=
  s ← get;
  let response := [0] ++ [0] ++ str "TERM" ++ [1] ++ emulation_term (emulation s) ++
                  [0] ++ str "LANG" ++ [1] ++ emulation_lang s in
  telnet_send_subneg_response 39 (terminated response).

Definition telnet_send_options : NM unit :=
  v ← get_nvt;
  whenM (negb (binary_mode v)) (telnet_do 0;; telnet_will 0);;
  whenM (go_ahead v) (telnet_do 3;; telnet_will 3);;
  s ← get;
  if decide (q_program_state s = Q_STATE_HOST) then telnet_dont 1;; telnet_will 1
  else
    whenM (negb (do_naws v)) (telnet_will 31);;
    whenM (negb (do_term_type v)) (telnet_will 24);;
    whenM (negb (do_environment v)) (telnet_will 39).

(** A byte of the window size; 255 goes out twice. *)
Definition naws_byte (b : Z) : list Z := if b =? TELNET_IAC then [b; b] else [b].
Definition telnet_send_naws (lines columns : Z) : NM unit :=
  raw_write ([TELNET_IAC; TELNET_SB; 31] ++
    naws_byte (u8 (Z.quot columns 256)) ++ naws_byte (u8 (Z.rem columns 256)) ++
    naws_byte (u8 (Z.quot lines 256)) ++ naws_byte (u8 (Z.rem lines 256)) ++
    [TELNET_IAC; TELNET_SE]);;
  mret tt.

(** [fd] is the descriptor of the terminal, [-1] when there is none. *)
Definition telnet_resize_screen (fd lines columns : Z) : NM unit :=
  s ← get;
  if negb (connected s) then mret tt
  else if negb (do_naws (nvt s)) then mret tt
  else assertM (negb (fd =? -1));; telnet_send_naws lines columns.

(** The second byte is SEND. *)
Definition asked (l : list Z) : bool := match l with _ :: b :: _ => b =? 1 | _ => false end.
Definition handle_subneg : NM unit :=
  b ← gets subneg_buffer;
  match b with
  | [] => mret tt
  | option :: _ =>
    if option =? 24 then whenM (asked b) telnet_send_terminal_type
    else if option =? 32 then whenM (asked b) telnet_send_terminal_speed
    else if option =? 39 then whenM (asked b) telnet_send_environment
    else mret tt
  end.

(** ** Reading *)

(** [subneg_buffer[subneg_buffer_n] = ch; subneg_buffer_n++] *)
Definition subneg_push (ch : Z) : NM unit :=
  b ← gets subneg_buffer;
  if Z.of_nat (length b) <? SUBNEG_BUFFER_MAX
  then modify (fun s => s <| subneg_buffer := b ++ [ch] |>)
  else raise OutOfBounds.

(** Inside a subnegotiation, up to IAC SE. *)
Definition subneg_byte (ch : Z) : NM unit :=
  v ← get_nvt;
  if ch =? TELNET_SE then
    whenM (iac v) (on_nvt (fun v => v <| iac := false |> <| subneg_end := false |>);; handle_subneg)
  else if ch =? TELNET_IAC then
    if iac v then subneg_push TELNET_IAC else on_nvt (fun v => v <| iac := true |>)
  else subneg_push ch.

(** The four answers to an option the code knows. *)
Definition agree (flag : bool -> telnet_state -> telnet_state) (ch : Z) : NM unit :=
  v ← get_nvt;
  if dowill_type v =? TELNET_WILL then on_nvt (flag true)
  else if dowill_type v =? TELNET_DO then telnet_will ch;; on_nvt (flag true)
  else on_nvt (flag false).

Definition agree_naws (ch : Z) : NM unit :=
  v ← get_nvt;
  s ← get;
  if dowill_type v =? TELNET_WILL then
    telnet_will ch;; on_nvt (fun v => v <| do_naws := true |>);; telnet_send_naws (lines s) (columns s)
  else if dowill_type v =? TELNET_DO then
    on_nvt (fun v => v <| do_naws := true |>);; telnet_send_naws (lines s) (columns s)
  else on_nvt (fun v => v <| do_naws := false |>).

Definition option_byte (ch : Z) : NM unit :=
  v ← get_nvt;
  if ch =? 0 then agree (fun b v => v <| binary_mode := b |>) ch
  else if ch =? 1 then agree (fun b v => v <| echo_mode := b |>) ch
  else if ch =? 3 then agree (fun b v => v <| go_ahead := negb b |>) ch
  else if ch =? 24 then agree (fun b v => v <| do_term_type := b |>) ch
  else if ch =? 31 then agree_naws ch
  else if ch =? 32 then agree (fun b v => v <| do_term_speed := b |>) ch
  else if ch =? 39 then agree (fun b v => v <| do_environment := b |>) ch
  else telnet_refuse (dowill_type v) ch.

(** The byte after IAC. *)
Definition command_byte (ch : Z) : NM unit :=
  if ch =? TELNET_SB then
    on_nvt (fun v => v <| subneg_end := true |>);; modify (fun s => s <| subneg_buffer := [] |>)
  else if (ch =? TELNET_WILL) || (ch =? TELNET_WONT) || (ch =? TELNET_DO) || (ch =? TELNET_DONT) then
    on_nvt (fun v => v <| dowill := true |> <| dowill_type := ch |>)
  else mret tt.

(** CR, LF and NUL in ASCII mode; the bytes for the caller. *)
Definition text_byte (ch : Z) : NM (list Z) :=
  v ← get_nvt;
  if binary_mode v then mret [ch]
  else if ch =? C_LF then
    if read_cr v then on_nvt (fun v => v <| read_cr := false |>);; mret [C_CR; C_LF] else mret [C_LF]
  else if ch =? C_NUL then
    if read_cr v then on_nvt (fun v => v <| read_cr := false |>);; mret [C_CR] else mret []
  else if ch =? C_CR then
    if read_cr v then mret [C_CR; C_NUL] else on_nvt (fun v => v <| read_cr := true |>);; mret []
  else if read_cr v then on_nvt (fun v => v <| read_cr := false |>);; mret [C_CR; ch]
  else mret [ch].

(** One byte of the read buffer. *)
Definition read_byte (ch : Z) : NM (list Z) :=
  v ← get_nvt;
  if subneg_end v then subneg_byte ch;; mret []
  else if dowill v then option_byte ch;; on_nvt (fun v => v <| dowill := false |>);; mret []
  else if ch =? TELNET_IAC then
    if iac v then on_nvt (fun v => v <| iac := false |>);; mret [TELNET_IAC]
    else on_nvt (fun v => v <| iac := true |>);; mret []
  else if iac v then command_byte ch;; on_nvt (fun v => v <| iac := false |>);; mret []
  else text_byte ch.

(** The loop over the read buffer; [out] is what the caller's buffer of [max]
    bytes holds. *)
Fixpoint read_loop (max : Z) (l out : list Z) : NM (list Z) :=
  match l with
  | [] => mret out
  | ch :: l =>
    xs ← read_byte ch;
    let out := out ++ xs in
    if Z.of_nat (length out) <=? max then read_loop max l out else raise OutOfBounds
  end.

(** _("Connection closed.\r\n") *)
Definition closed_message : list Z := str "Connection closed." ++ [C_CR; C_LF].

(** The recv() at the head of both reads: [Some rc] returns from the function. *)
Definition fill_read_buffer (count : Z) (found : recv_result) : NM (option Z) :=
  s ← get;
  if is_eof (nvt s) then mret None
  else
    let max_read := Z.min (Q_BUFFER_SIZE - Z.of_nat (length (read_buffer s))) count in
    match found with
    | Recv_failed e =>
      modify (fun s => s <| errno := e |>);;
      mret (match read_buffer s with [] => Some (-1) | _ => None end)
    | End_of_file => on_nvt (fun v => v <| is_eof := true |>);; mret None
    | Received l =>
      match take (Z.to_nat max_read) l with
      | [] => on_nvt (fun v => v <| is_eof := true |>);; mret None
      | l => modify (fun s => s <| read_buffer ::= fun b => b ++ l |>);; mret None
      end
    end.

(** After an end of file: [true] when the final end has been told. *)
Definition drop_connection (message : bool) : NM bool :=
  s ← get;
  match read_buffer s with
  | [] =>
    if eof_msg (nvt s) then modify (fun s => s <| connected := false |>);; mret true
    else
      whenM (is_eof (nvt s)) (whenM message (modify (fun s => s <| read_buffer := closed_message |>));;
                              on_nvt (fun v => v <| eof_msg := true |>));;
      mret false
  | _ => mret false
  end.

(** The negotiation starts with the first read or write. *)
Definition negotiate : NM unit :=
  s ← get;
  if decide (state s = INIT) then telnet_send_options;; modify (fun s => s <| state := SENT_OPTIONS |>)
  else mret tt.

(** The bytes for the caller, or -1 and EAGAIN when there are none. *)
Definition hand_over (out : list Z) : NM (Z * list Z) :=
  modify (fun s => s <| read_buffer := [] |>);;
  match out with
  | [] => modify (fun s => s <| errno := EAGAIN |>);; mret (-1, [])
  | _ => mret (Z.of_nat (length out), out)
  end.

(** [telnet_read(fd, buf, count)]: the result and the bytes stored in [buf]. *)
Definition telnet_read (count : Z) (found : recv_result) : NM (Z * list Z) :=
  negotiate;;
  if count =? 0 then mret (0, [])
  else
    failed ← fill_read_buffer count found;
    match failed with
    | Some rc => mret (rc, [])
    | None =>
      s ← get;
      over ← drop_connection (negb (bool_decide (q_program_state s = Q_STATE_HOST)));
      if over : bool then mret (0, [])
      else
        l ← gets read_buffer;
        out ← read_loop count l [];
        hand_over out
    end.

(** ** Writing *)

(** [write_buffer[write_buffer_n] = ch; write_buffer_n++] for each byte. *)
Definition put (l : list Z) : NM unit :=
  b ← gets write_buffer;
  if Z.of_nat (length b) + Z.of_nat (length l) <=? Q_BUFFER_SIZE
  then modify (fun s => s <| write_buffer := b ++ l |>)
  else raise OutOfBounds.

(** One byte of the caller's; the result says to flush. *)
Definition write_byte (ch : Z) : NM bool :=
  v ← get_nvt;
  if binary_mode v then
    if ch =? TELNET_IAC then put [TELNET_IAC; TELNET_IAC];; mret true
    else put [ch];; mret false
  else if ch =? C_CR then
    whenM (write_cr v) (put [C_CR; C_NUL]);;
    on_nvt (fun v => v <| write_cr := true |>);; mret (write_cr v)
  else if ch =? C_LF then
    (if write_cr v then put [C_CR; C_LF] else put [ch]);;
    on_nvt (fun v => v <| write_cr := false |>);; mret (write_cr v)
  else if ch =? TELNET_IAC then
    whenM (write_cr v) (put [C_CR; C_NUL]);;
    put [TELNET_IAC; TELNET_IAC];;
    on_nvt (fun v => v <| write_cr := false |>);; mret true
  else put [ch];; mret false.

(** The while loop: the bytes it leaves, and whether it goes to [write_flush]. *)
Fixpoint write_loop (l : list Z) : NM (list Z * bool) :=
  match l with
  | [] => mret ([], false)
  | ch :: rest =>
    b ← gets write_buffer;
    if Q_BUFFER_SIZE - Z.of_nat (length b) <? 4 then mret (l, false)
    else
      flush ← write_byte ch;
      if flush : bool then mret (rest, true) else write_loop rest
  end.

(** The block at [write_flush]: [Some rc] returns from the function. *)
Definition write_flush (i sent : Z) : NM (option Z) :=
  b ← gets write_buffer;
  rc ← send b;
  on_nvt (fun v => v <| write_rc := rc |>);;
  if rc <=? 0 then
    e ← gets errno;
    on_nvt (fun v => v <| write_last_errno := e |>);;
    if e =? EAGAIN then
      on_nvt (fun v => v <| write_last_error := false |>);;
      mret (Some (if 0 <? sent then sent else -1))
    else if 0 <? sent then
      on_nvt (fun v => v <| write_last_error := true |>);; mret (Some sent)
    else
      on_nvt (fun v => v <| write_last_error := false |>);; mret (Some rc)
  else
    modify (fun s => s <| write_buffer := drop (Z.to_nat rc) b |>);;
    mret None.

(** The bare CR at the end of what the console or the host sends. *)
Definition write_last_cr : NM unit :=
  s ← get;
  whenM (write_cr (nvt s) &&
         (bool_decide (q_program_state s = Q_STATE_CONSOLE) || bool_decide (q_program_state s = Q_STATE_HOST)))
    (put [C_CR];; on_nvt (fun v => v <| write_cr := false |>)).

(** From [write_flush] to the end; [l] is what is left of the caller's [count] bytes. *)
Fixpoint write_from (fuel : nat) (flush : bool) (count : Z) (l : list Z) (sent : Z) : NM Z :=
  match fuel with
  | O => diverge
  | S fuel =>
    let i := count - Z.of_nat (length l) in
    failed ← (if flush then write_flush i sent else mret None);
    match failed with
    | Some rc => mret rc
    | None =>
      let sent := if flush then i else sent in
      '(l, again) ← write_loop l;
      if again : bool then write_from fuel true count l sent
      else
        write_last_cr;;
        b ← gets write_buffer;
        match b with
        | [] => mret sent
        | _ => write_from fuel true count l sent
        end
    end
  end.

Definition telnet_write (buf : list Z) : NM Z :=
  negotiate;;
  s ← get;
  if write_last_error (nvt s) then
    modify (fun s => s <| errno := write_last_errno (nvt s) |>);;
    on_nvt (fun v => v <| write_last_error := false |>);;
    mret (write_rc (nvt s))
  else
    match buf with
    | [] => mret 0
    | _ =>
      let flush := match write_buffer s with [] => false | _ => true end in
      write_from (length (sends s) + 2 * length buf + 3) flush (Z.of_nat (length buf)) buf 0
    end.

(** ** rlogin *)

(** [rlogin_resize_screen] *)
Definition rlogin_resize_screen (lines columns : Z) : NM unit :=
  raw_write [0xFF; 0xFF; 115; 115;
    u8 (Z.quot lines 256); u8 (Z.rem lines 256); u8 (Z.quot columns 256); u8 (Z.rem columns 256);
    u8 (Z.quot (columns * 9) 256); u8 (Z.rem (columns * 9) 256);
    u8 (Z.quot (lines * 16) 256); u8 (Z.rem (lines * 16) 256)];;
  mret tt.

(** The urgent byte: 0x80 asks for the size of the window. *)
Definition rlogin_urgent (found : option Z) : NM unit :=
  match found with
  | Some ch =>
    if ch =? 0x80 then
      s ← get;
      rlogin_resize_screen (lines s) (columns s);;
      modify (fun s => s <| state := ESTABLISHED |>)
    else mret tt
  | None => mret tt
  end;;
  modify (fun s => s <| errno := EAGAIN |>).

(** [memcpy(buf, read_buffer, read_buffer_n)] into the caller's [max] bytes. *)
Definition copy_out (max : Z) (l : list Z) : NM (list Z) :=
  if Z.of_nat (length l) <=? max then mret l else raise OutOfBounds.

(** [rlogin_read(fd, buf, count, oob)] *)
Definition rlogin_read (count : Z) (oob : bool) (urgent : option Z) (found : recv_result) : NM (Z * list Z) :=
  if count =? 0 then mret (0, [])
  else
    s ← get;
    if negb (is_eof (nvt s)) && oob then rlogin_urgent urgent;; mret (-1, [])
    else
      failed ← fill_read_buffer count found;
      match failed with
      | Some rc => mret (rc, [])
      | None =>
        over ← drop_connection true;
        if over : bool then mret (0, [])
        else
          l ← gets read_buffer;
          out ← copy_out count l;
          hand_over out
      end.

Definition rlogin_write (buf : list Z) : NM Z := send buf.

(** ** qodem_write() of qodem.c over telnet *)

(** [translate_8bit_out] of translate.c: [map_to] is a table of 256 bytes. *)
Definition translate_8bit_out (map_to : list Z) (ch : Z) : Z := map_to !!! Z.to_nat ch.

(** [write_buffer + begin], [data_n] bytes of it: what follows the data in the
    array is not initialised. *)
Definition slice (data : list Z) (begin : Z) : NM (list Z) :=
  if begin =? 0 then mret data else raise Indeterminate.

(** The loop at [do_write]; [n] bytes are still to go. *)
Fixpoint write_sync (fuel : nat) (data : list Z) (begin n : Z) : NM Z :=
  match fuel with
  | O => diverge
  | S fuel =>
    l ← slice data begin;
    rc ← telnet_write l;
    e ← gets errno;
    if rc =? 0 then write_sync fuel data begin n
    else if 0 <? rc then
      let n := n - rc in
      let begin := begin + n in
      if 0 <? n then write_sync fuel data begin n else mret rc
    else if e =? EAGAIN then write_sync fuel data begin n
    else mret rc
  end.

(** [qodem_write(fd, data, data_n, sync)] on a telnet connection. *)
Definition qodem_write (map_to : list Z) (data : list Z) (sync : bool) : NM Z :=
  match data with
  | [] => mret 0
  | _ =>
    if sync then
      if Q_BUFFER_SIZE <? Z.of_nat (length data) then raise OutOfBounds
      else
        s ← get;
        write_sync (length (sends s) + 2) (translate_8bit_out map_to <$> data) 0 (Z.of_nat (length data))
    else telnet_write data
  end.

End Telnet.
