(* ===== verification/TelnetWrite.v ===== *)
(** telnet_write(): it ends, stays in its buffer, and what it takes goes over the
    line in order. *)

From Stdlib Require Import ZArith Lia List Bool.
From stdpp Require Import base list numbers strings.
From S2P Require Import Prelude Stdio States Telnet.
Import Telnet.

(** ** The stream *)

(** What the telnet channel makes of a byte. *)
Definition escape (l : list Z) : list Z := flat_map (fun c => if c =? TELNET_IAC then [c; c] else [c]) l.

Lemma escape_app l l' : escape (l ++ l') = escape l ++ escape l'.
Proof. apply flat_map_app. Qed.

Lemma escape_one c : escape [c] = if c =? TELNET_IAC then [c; c] else [c].
Proof. unfold escape. cbn [flat_map]. apply app_nil_r. Qed.

(** Lines: every CR is followed by an LF.  [cr] says that a CR went before. *)
Fixpoint text (cr : bool) (l : list Z) : bool :=
  match l with
  | [] => negb cr
  | c :: l => (if cr then c =? C_LF else true) && text (c =? C_CR) l
  end.

(** What has been taken from the caller: on the wire, in the buffer, or a CR that
    waits for the next byte. *)
Definition waiting (cr : bool) : list Z := if cr then [C_CR] else [].
Definition stream (s : net_state) : list Z := wire s ++ write_buffer s ++ waiting (write_cr (nvt s)).

(** The rest of the state that writing depends on. *)
Record same_line (s s' : net_state) : Prop := {
  sl_mode : binary_mode (nvt s') = binary_mode (nvt s);
  sl_program : q_program_state s' = q_program_state s
}.
Lemma same_line_refl s : same_line s s.
Proof. done. Qed.
Lemma same_line_trans s1 s2 s3 : same_line s1 s2 -> same_line s2 s3 -> same_line s1 s3.
Proof. intros [] []. split; congruence. Qed.

(** A CR that waits keeps two bytes free. *)
Definition fits (s : net_state) : Prop :=
  Z.of_nat (length (write_buffer s)) <= Q_BUFFER_SIZE /\
  (write_cr (nvt s) = true -> Z.of_nat (length (write_buffer s)) <= Q_BUFFER_SIZE - 2).

(** What the channel carries without change: any bytes in binary mode, lines in
    ASCII mode. *)
Definition carried (s : net_state) (l : list Z) : Prop :=
  if binary_mode (nvt s) then write_cr (nvt s) = false else text (write_cr (nvt s)) l = true.

(** ** One byte *)

Lemma wp_put l s (Q : unit -> net_state -> Prop) :
  Z.of_nat (length (write_buffer s)) + Z.of_nat (length l) <= Q_BUFFER_SIZE ->
  Q tt (s <| write_buffer := write_buffer s ++ l |>) -> wp (put l) s Q.
Proof.
  intros Hr HQ. unfold put. apply wp_bind, wp_gets. rewrite (proj2 (Z.leb_le _ _) Hr). by apply wp_modify.
Qed.

(** A byte that is taken: what it adds to the buffer and how the flag changes. *)
Definition step_out (binary cr : bool) (ch : Z) : list Z * bool * bool :=
  if binary then (if ch =? TELNET_IAC then ([TELNET_IAC; TELNET_IAC], cr, true) else ([ch], cr, false))
  else if ch =? C_CR then (if cr then [C_CR; C_NUL] else [], true, cr)
  else if ch =? C_LF then (if cr then [C_CR; C_LF] else [ch], false, cr)
  else if ch =? TELNET_IAC then ((if cr then [C_CR; C_NUL] else []) ++ [TELNET_IAC; TELNET_IAC], false, true)
  else ([ch], cr, false).

Lemma wp_write_byte ch s (Q : bool -> net_state -> Prop) :
  Z.of_nat (length (write_buffer s)) <= Q_BUFFER_SIZE - 4 ->
  let '(out, cr, flush) := step_out (binary_mode (nvt s)) (write_cr (nvt s)) ch in
  (forall s', same_line s s' -> sends s' = sends s -> wire s' = wire s -> write_buffer s' = write_buffer s ++ out ->
     write_cr (nvt s') = cr -> Q flush s') ->
  wp (write_byte ch) s Q.
Proof.
  intros Hr. unfold step_out, write_byte. destruct (binary_mode (nvt s)) eqn:Hb.
  - destruct (ch =? TELNET_IAC) eqn:E; intros HQ; apply wp_bind, wp_gets; rewrite Hb, ?E;
      (apply wp_bind, wp_put; [cbn [length]; lia|]; apply wp_ret; by apply HQ).
  - destruct (ch =? C_CR) eqn:E1; [|destruct (ch =? C_LF) eqn:E2; [|destruct (ch =? TELNET_IAC) eqn:E3]];
      intros HQ; apply wp_bind, wp_gets; rewrite Hb, ?E1, ?E2, ?E3;
      destruct (write_cr (nvt s)) eqn:Hc; cbn [whenM app] in *.
    all: repeat first [apply wp_bind; first [apply wp_put; [cbn; rewrite ?length_app; cbn [length]; lia|] | apply wp_modify | apply wp_ret] | apply wp_ret].
    all: apply HQ; try done; cbn; rewrite ?app_nil_r, <- ?app_assoc; done.
Qed.

Lemma step_carried binary cr ch l out cr' flush :
  step_out binary cr ch = (out, cr', flush) ->
  (if binary then cr = false else text cr (ch :: l) = true) ->
  (if binary then cr' = false else text cr' l = true) /\ out ++ waiting cr' = waiting cr ++ escape [ch].
Proof.
  unfold step_out. rewrite escape_one. destruct binary.
  - intros E ->. destruct (Z.eqb_spec ch TELNET_IAC) as [->|]; by injection E as <- <- <-.
  - cbn [text]. intros E [H1 H2]%andb_prop. destruct (Z.eqb_spec ch C_CR) as [->|N1].
    + destruct cr; [done|]. injection E as <- <- <-. by split.
    + destruct (Z.eqb_spec ch C_LF) as [->|N2]; [destruct cr; by injection E as <- <- <-|].
      destruct cr; [done|]. destruct (Z.eqb_spec ch TELNET_IAC) as [->|N3]; by injection E as <- <- <-.
Qed.

Lemma step_fits binary cr ch out cr' flush n :
  step_out binary cr ch = (out, cr', flush) -> n <= Q_BUFFER_SIZE - 4 ->
  n + Z.of_nat (length out) <= Q_BUFFER_SIZE /\ (cr' = true -> n + Z.of_nat (length out) <= Q_BUFFER_SIZE - 2).
Proof.
  unfold step_out. intros E Hn. destruct binary, cr, (ch =? C_CR), (ch =? C_LF), (ch =? TELNET_IAC);
    injection E as <- <- <-; cbn [length app]; lia.
Qed.

Lemma step_flushes binary cr ch out cr' : step_out binary cr ch = (out, cr', true) -> out <> [].
Proof.
  unfold step_out. intros E. destruct binary, cr, (ch =? C_CR), (ch =? C_LF), (ch =? TELNET_IAC); by injection E as <- <-.
Qed.

(** ** The loop *)

(** The loop took [p]: the buffer, the flag and the stream afterwards. *)
Record looped (s : net_state) (p l' : list Z) (again : bool) (s' : net_state) : Prop := {
  lp_line : same_line s s';
  lp_sends : sends s' = sends s;
  lp_wire : wire s' = wire s;
  lp_fits : fits s';
  lp_again : again = true -> p <> [] /\ write_buffer s' <> [];
  lp_stop : again = false -> l' <> [] -> Q_BUFFER_SIZE - 4 < Z.of_nat (length (write_buffer s'));
  lp_none : p = [] -> s' = s;
  lp_stream : carried s (p ++ l') -> carried s' l' /\ stream s' = stream s ++ escape p
}.

Lemma wp_write_loop l s : fits s ->
  wp (write_loop l) s (fun '(l', again) s' => exists p, l = p ++ l' /\ looped s p l' again s').
Proof.
  revert s. induction l as [|ch l IH]; intros s Hf.
  { apply wp_ret. exists []. split; [done|]. split; try done. intros H. split; [exact H|by rewrite app_nil_r]. }
  cbn [write_loop]. apply wp_bind, wp_gets. destruct (Z.ltb_spec (Q_BUFFER_SIZE - Z.of_nat (length (write_buffer s))) 4) as [Hb|Hb].
  { apply wp_ret. exists []. split; [done|]. split; try done; [intros; lia|]. intros H. split; [exact H|by rewrite app_nil_r]. }
  apply wp_bind. pose proof (wp_write_byte ch s) as Hw.
  destruct (step_out (binary_mode (nvt s)) (write_cr (nvt s)) ch) as [[out cr'] flush] eqn:E.
  apply Hw; [lia|]. clear Hw. intros s1 L1 S1 W1 B1 C1.
  assert (F1 : fits s1).
  { destruct (step_fits _ _ _ _ _ _ (Z.of_nat (length (write_buffer s))) E) as [G1 G2]; [lia|].
    unfold fits. rewrite B1, C1, length_app. split; [lia|]. intros H. specialize (G2 H). lia. }
  assert (R1 : forall m, carried s (ch :: m) -> carried s1 m /\ stream s1 = stream s ++ escape [ch]).
  { intros m H. unfold carried in *. rewrite (sl_mode _ _ L1), C1.
    destruct (step_carried _ _ _ m _ _ _ E H) as [H1 H2]. split; [exact H1|].
    unfold stream. rewrite W1, B1, C1, <- !app_assoc. by rewrite H2. }
  destruct flush.
  - apply wp_ret. exists [ch]. split; [done|]. split; try done; [|apply R1]. intros _. split; [done|].
    rewrite B1. intros [_ ->]%app_eq_nil. by apply step_flushes in E.
  - eapply wp_mono; [by apply IH|]. intros [l' again] s2 (p & -> & [P1 P2 P3 P4 P5 P6 P7 P8]). exists (ch :: p). split; [done|].
    split; try done; [by eapply same_line_trans|congruence|congruence|by intros [_ ?]%P5|]. intros H. destruct (R1 _ H) as [H1 H2].
    destruct (P8 H1) as [H3 H4]. split; [done|]. by rewrite H4, H2, <- app_assoc, <- escape_app.
Qed.

(** ** The flush *)

Definition takes (r : send_result) : Prop := match r with Sent n => 0 < n | Send_failed _ => False end.

(** One call of [send] from [s] with [data]. *)
Record sending (s : net_state) (data : list Z) (rc : Z) (s' : net_state) : Prop := {
  sd_rc : rc <= Z.of_nat (length data);
  sd_wire : wire s' = wire s ++ take (Z.to_nat rc) data;
  sd_rest : nvt s' = nvt s /\ write_buffer s' = write_buffer s /\ q_program_state s' = q_program_state s;
  sd_sends : (sends s = [] /\ sends s' = [] /\ rc = Z.of_nat (length data)) \/
             exists r, sends s = r :: sends s' /\ (takes r -> data <> [] -> 0 < rc)
}.

Lemma wp_send data s (Q : Z -> net_state -> Prop) :
  (forall rc s', sending s data rc s' -> Q rc s') -> wp (send data) s Q.
Proof.
  intros HQ. unfold send. apply wp_bind, wp_get. destruct (sends s) as [|[n|e] rest] eqn:Es.
  - apply wp_bind, wp_modify, wp_ret, HQ. split; try done; [|by left]. cbn. by rewrite Nat2Z.id, firstn_all.
  - cbv zeta. apply wp_bind, wp_modify, wp_ret, HQ. split; try done; [lia|]. right. exists (Sent n). split; [done|].
    cbn. intros Hn Hd. destruct data; [done|]. cbn [length]. lia.
  - apply wp_bind, wp_modify, wp_ret, HQ. split; try done; [lia|cbn; by rewrite app_nil_r|]. right. by exists (Send_failed e).
Qed.

(** What a flush leaves: nothing is lost, and either it returns or the call took
    something. *)
Record flushed (s : net_state) (sent : Z) (r : option Z) (s' : net_state) : Prop := {
  fl_line : same_line s s';
  fl_cr : write_cr (nvt s') = write_cr (nvt s);
  fl_fits : fits s';
  fl_stream : stream s' = stream s;
  fl_rc : forall rc, r = Some rc -> rc <= Z.max sent 0;
  fl_sends : (sends s = [] /\ sends s' = [] /\ r = None /\ write_buffer s' = []) \/
             exists x, sends s = x :: sends s' /\ (takes x -> r = None)
}.

Lemma wp_write_flush i sent s : fits s -> write_buffer s <> [] ->
  wp (write_flush i sent) s (fun r s' => flushed s sent r s').
Proof.
  intros Hf Hne. unfold write_flush. apply wp_bind, wp_gets, wp_bind, wp_send. intros rc s1 [Hrc Hw (Hn & Hb & Hp) Hs].
  apply wp_bind, wp_modify. destruct (Z.leb_spec rc 0) as [H0|H0].
  - assert (Hx : exists x, sends s = x :: sends s1 /\ ~ takes x).
    { destruct Hs as [(_ & _ & E)|(x & E & H)]; [destruct (write_buffer s); [done|cbn [length] in E; lia]|].
      exists x. split; [done|]. intros Ht. specialize (H Ht Hne). lia. }
    assert (Hst : wire s1 ++ write_buffer s1 ++ waiting (write_cr (nvt s1)) = stream s).
    { rewrite Hw, Hb, Hn. replace (Z.to_nat rc) with 0%nat by lia. by rewrite take_0, app_nil_r. }
    assert (Hf1 : fits s1) by (unfold fits; by rewrite Hb, Hn).
    assert (Hl : same_line s s1) by (split; [by rewrite Hn|done]).
    destruct Hx as (x & Hx & Hnt).
    apply wp_bind, wp_gets, wp_bind, wp_modify. destruct (_ =? EAGAIN); [|destruct (Z.ltb_spec 0 sent)];
      (apply wp_bind, wp_modify, wp_ret; split; [split; [exact (sl_mode _ _ Hl)|exact (sl_program _ _ Hl)]|by cbn; rewrite Hn|exact Hf1|exact Hst|
        intros rc' [=]; subst; try destruct (Z.ltb_spec 0 sent); lia|right; by exists x]).
  - apply wp_bind, wp_modify, wp_ret. destruct Hf as [F1 F2].
    split; [split; cbn; by rewrite ?Hn|cbn; by rewrite Hn| | |done|].
    + unfold fits. cbn. rewrite Hn, length_drop. split; [lia|]. intros H. specialize (F2 H). lia.
    + unfold stream. cbn. rewrite Hn, Hw, <- !app_assoc. f_equal. rewrite app_assoc. by rewrite take_drop.
    + destruct Hs as [(E1 & E2 & E3)|(x & E & _)]; [|right; by exists x]. left. cbn. rewrite E2, E3, Nat2Z.id, drop_all. done.
Qed.

(** ** The last CR *)

Lemma wp_write_last_cr s l : fits s ->
  wp write_last_cr s (fun _ s' =>
    same_line s s' /\ sends s' = sends s /\ fits s' /\ stream s' = stream s /\
    (s' = s \/ write_cr (nvt s) = true /\ write_cr (nvt s') = false /\ write_buffer s' <> []) /\ (carried s l -> carried s' l)).
Proof.
  intros Hf. unfold write_last_cr. apply wp_bind, wp_get, wp_when.
  - intros [Hc _]%andb_prop. pose proof (proj2 Hf Hc) as Hr. apply wp_bind, wp_put; [cbn [length]; lia|]. apply wp_modify.
    split; [done|]. split; [done|]. split.
    { unfold fits. cbn. rewrite length_app. cbn [length]. split; [lia|done]. }
    split; [unfold stream; cbn; rewrite Hc, app_nil_r; done|]. split; [right; split_and!; [done|done|by intros [_ [=]]%app_eq_nil]|].
    unfold carried. cbn. rewrite Hc. destruct (binary_mode (nvt s)); [done|]. destruct l as [|c l]; [done|].
    cbn [text]. by intros [_ ->]%andb_prop.
  - intros _. repeat split; try done; [apply Hf..|by left].
Qed.

(** ** The whole of it *)

(** What is true after the bytes [l] were offered: some [p] of them were taken,
    the result counts no more than these, and they are on the stream. *)
Definition wrote (s : net_state) (count : Z) (l : list Z) (rc : Z) (s' : net_state) : Prop :=
  same_line s s' /\ fits s' /\
  exists p l', l = p ++ l' /\ rc <= count - Z.of_nat (length l') /\
    (carried s l -> carried s' l' /\ stream s' = stream s ++ escape p /\
       (Forall takes (sends s) -> rc = count /\ l' = [] /\ write_buffer s' = [])).

Definition flag (cr : bool) : nat := if cr then 1 else 0.
Definition measure (s : net_state) (l : list Z) : nat :=
  (length (sends s) + 2 * length l + flag (write_cr (nvt s)) + 1)%nat.

Lemma flag_bound s : (flag (write_cr (nvt s)) <= 1)%nat.
Proof. destruct (write_cr (nvt s)); cbn; lia. Qed.

(** More was written after a first part. *)
Lemma wrote_more s count p l rc s1 s' :
  same_line s s1 -> (Forall takes (sends s) -> Forall takes (sends s1)) ->
  (carried s (p ++ l) -> carried s1 l /\ stream s1 = stream s ++ escape p) ->
  wrote s1 count l rc s' -> wrote s count (p ++ l) rc s'.
Proof.
  intros L1 T1 C1 (L2 & F2 & q & l' & -> & Hrc & H). split; [by eapply same_line_trans|]. split; [done|].
  exists (p ++ q), l'. split; [by rewrite app_assoc|]. split; [done|]. intros Hc.
  destruct (C1 Hc) as [H1 H2]. destruct (H H1) as (H3 & H4 & H5). split; [done|].
  split; [by rewrite H4, H2, escape_app, app_assoc|]. intros Ht. by apply H5, T1.
Qed.

(** Nothing is left when a turn ends with an empty buffer. *)
Lemma turn_done s p l' s' :
  looped s p l' false s' -> write_buffer s' = [] -> l' = [] /\ (carried s (p ++ l') -> p = []).
Proof.
  intros [L S W F _ H1 _ H2] Hb.
  assert (Hl : l' = []). { destruct l'; [done|]. specialize (H1 eq_refl ltac:(done)). rewrite Hb in H1. done. }
  split; [done|]. subst l'. intros Hc. destruct (H2 Hc) as [Hc' Hs].
  assert (Hcr : write_cr (nvt s') = false).
  { unfold carried in Hc'. destruct (binary_mode (nvt s')); [done|]. cbn in Hc'. by destruct (write_cr (nvt s')). }
  unfold stream in Hs. rewrite W, Hb, Hcr in Hs. cbn [waiting app] in Hs. rewrite <- !app_assoc in Hs.
  apply app_inv_head in Hs. symmetry in Hs. apply app_eq_nil in Hs as [_ Hs]. apply app_eq_nil in Hs as [_ Hs].
  destruct p as [|c p]; [done|]. unfold escape in Hs. cbn [flat_map] in Hs. by destruct (c =? TELNET_IAC).
Qed.

Lemma wp_write_from fuel : forall flush count l sent s,
  (measure s l <= fuel)%nat -> fits s -> 0 <= sent <= count - Z.of_nat (length l) ->
  (if flush : bool then write_buffer s <> [] else l <> [] /\ write_buffer s = []) ->
  wp (write_from fuel flush count l sent) s (fun rc s' => wrote s count l rc s').
Proof.
  induction fuel as [|fuel IH]; intros flush count l sent s Hm Hf Hs Hstart; [unfold measure in Hm; lia|].
  cbn [write_from]. apply wp_bind.
  (* after the flush *)
  assert (Hflush : wp (if flush then write_flush (count - Z.of_nat (length l)) sent else mret None) s (fun r s1 =>
    same_line s s1 /\ write_cr (nvt s1) = write_cr (nvt s) /\ fits s1 /\ stream s1 = stream s /\
    (Forall takes (sends s) -> Forall takes (sends s1) /\ r = None) /\ (forall rc, r = Some rc -> rc <= Z.max sent 0) /\
    ((length (sends s1) < length (sends s))%nat \/ (length (sends s1) <= length (sends s))%nat /\ write_buffer s1 = []))).
  { destruct flush; [|apply wp_ret; split_and!; try done; right; by destruct Hstart].
    eapply wp_mono; [by apply wp_write_flush|]. intros r s1 [F1 F2 F3 F4 F5 F6]. do 4 (split; [done|]).
    destruct F6 as [(E1 & E2 & -> & E4)|(x & E & H)].
    - rewrite E1, E2. repeat split; try done. by right.
    - rewrite E. split; [|split; [done|left; cbn; lia]]. intros [Hx Hr]%Forall_cons. by split; [|apply H]. }
  eapply wp_mono; [exact Hflush|]. clear Hflush. intros r s1 (L1 & C1 & F1 & S1 & T1 & R1 & D1).
  assert (Hkeep : carried s l -> carried s1 l /\ stream s1 = stream s ++ escape []).
  { intros H. rewrite app_nil_r. split; [|done]. unfold carried in *. by rewrite (sl_mode _ _ L1), C1. }
  destruct r as [rc|].
  { apply wp_ret. specialize (R1 rc eq_refl). split; [done|]. split; [done|]. exists [], l. split; [done|]. split; [lia|].
    intros [Hc E]%Hkeep. split; [done|]. split; [done|]. intros [_ [=]]%T1. }
  (* the loop, the last CR, and either the end or another turn *)
  set (sent1 := if flush then count - Z.of_nat (length l) else sent) in *.
  assert (Hsent : 0 <= sent1 <= count - Z.of_nat (length l)) by (unfold sent1; destruct flush; lia).
  apply wp_bind. eapply wp_mono; [by apply wp_write_loop|]. intros [l' again] s2 (p & -> & P).
  rewrite length_app in *.
  assert (Hk : carried s (p ++ l') -> carried s2 l' /\ stream s2 = stream s ++ escape p).
  { intros [Hc E]%Hkeep. destruct (lp_stream _ _ _ _ _ P Hc) as [H1 H2]. by rewrite H2, S1. }
  assert (Hl2 : same_line s s2) by (eapply same_line_trans; [done|apply P]).
  assert (Ht2 : Forall takes (sends s) -> Forall takes (sends s2)) by (rewrite (lp_sends _ _ _ _ _ P); by intros [H _]%T1).
  pose proof (lp_sends _ _ _ _ _ P) as Hsd.
  destruct again.
  - destruct (lp_again _ _ _ _ _ P eq_refl) as [Hp Hne].
    eapply wp_mono; [apply (IH true count l' sent1 s2)|]; [|apply P|lia|exact Hne|].
    + unfold measure in *. rewrite length_app in Hm. rewrite Hsd. destruct p; [done|]. cbn [length] in Hm.
      pose proof (flag_bound s2). lia.
    + intros rc s' H. by apply (wrote_more _ _ _ _ _ _ _ Hl2 Ht2 Hk).
  - apply wp_bind. eapply wp_mono; [apply (wp_write_last_cr s2 l'), P|].
    intros [] s3 (L3 & D3 & F3 & S3 & E3 & C3). apply wp_bind, wp_gets.
    assert (Hl3 : same_line s s3) by (by eapply same_line_trans).
    assert (Hk3 : carried s (p ++ l') -> carried s3 l' /\ stream s3 = stream s ++ escape p).
    { intros [H1 H2]%Hk. by rewrite S3, H2; auto. }
    destruct (write_buffer s3) as [|x b] eqn:Eb.
    + apply wp_ret. split; [done|]. split; [done|]. exists p, l'. split; [done|]. split; [lia|].
      intros Hc. destruct (Hk3 Hc) as [H1 H2]. split; [done|]. split; [done|]. intros Ht.
      destruct E3 as [->|(_ & _ & E3)]; [|done].
      destruct (turn_done _ _ _ _ P Eb) as [-> Hp]. specialize (Hp (proj1 (Hkeep Hc))). subst p.
      unfold sent1. destruct flush; [cbn; split_and!; [lia|done|done]|by destruct Hstart].
    + eapply wp_mono; [apply (IH true count l' sent1 s3)|]; [|done|lia|by rewrite Eb|].
      * pose proof (flag_bound s3) as Hb3. unfold measure in *. rewrite length_app in Hm. rewrite D3, Hsd.
        destruct p as [|c p]; [|cbn [length] in Hm; lia]. pose proof (lp_none _ _ _ _ _ P eq_refl) as ->. cbn [length] in Hm.
        destruct E3 as [->|(E3 & E4 & _)].
        -- rewrite C1. destruct D1 as [D1|[_ D1]]; [lia|by rewrite D1 in Eb].
        -- rewrite <- C1, E3 in Hm. rewrite E4. cbn [flag] in *. lia.
      * intros rc s' H. by apply (wrote_more _ _ _ _ _ _ _ Hl3 ltac:(by rewrite D3) Hk3).
Qed.

(** ** Negotiation *)

(** Only the socket has changed. *)
Definition socket_only (s s' : net_state) : Prop :=
  exists x w e, (Forall takes (sends s) -> Forall takes x) /\ s' = s <| sends := x |> <| wire := w |> <| errno := e |>.

Lemma socket_only_refl s : socket_only s s.
Proof. exists (sends s), (wire s), (errno s). split; [done|]. by destruct s. Qed.
Lemma socket_only_trans s1 s2 s3 : socket_only s1 s2 -> socket_only s2 s3 -> socket_only s1 s3.
Proof. intros (x & w & e & H & ->) (x' & w' & e' & H' & ->). exists x', w', e'. split; [auto|]. by destruct s1. Qed.

Lemma socket_only_nvt s s' : socket_only s s' -> nvt s' = nvt s.
Proof. by intros (x & w & e & _ & ->). Qed.

Lemma wp_send_only data s (Q : Z -> net_state -> Prop) :
  (forall rc s', socket_only s s' -> (rc = Z.of_nat (length data) \/ (length (sends s') < length (sends s))%nat) -> Q rc s') ->
  wp (send data) s Q.
Proof.
  intros HQ. unfold send. apply wp_bind, wp_get. destruct (sends s) as [|[n|e] rest] eqn:Es; cbv zeta; apply wp_bind, wp_modify, wp_ret, HQ.
  - exists [], (wire s ++ data), (errno s). split; [done|]. destruct s; cbn in *; by rewrite Es.
  - by left.
  - match goal with |- socket_only s (_ <| wire ::= ?f |>) => exists rest, (f (wire s)), (errno s) end. split; [by rewrite Es; intros [??]%Forall_cons|]. by destruct s.
  - right. cbn. lia.
  - exists rest, (wire s), e. split; [by rewrite Es; intros [??]%Forall_cons|]. by destruct s.
  - right. cbn. lia.
Qed.

Lemma wp_raw_loop fuel : forall buf count original s (Q : Z -> net_state -> Prop),
  (length (sends s) + 1 <= fuel)%nat -> count <= Z.of_nat (length buf) ->
  (forall rc s', socket_only s s' -> Q rc s') -> wp (raw_loop fuel buf count original) s Q.
Proof.
  induction fuel as [|fuel IH]; intros buf count original s Q Hf Hc HQ; [lia|]. cbn [raw_loop]. apply wp_bind, wp_send_only.
  intros rc s1 H1 Hrc. rewrite length_take in *.
  assert (Hagain : 0 < count -> 0 < count - rc -> wp (raw_loop fuel buf (if rc <=? 0 then count else count - rc) original) s1 Q).
  { intros H0 H2. apply IH; [lia|destruct (Z.leb_spec rc 0); lia|]. intros rc' s' H3. apply HQ. by eapply socket_only_trans. }
  destruct (Z.leb_spec rc 0) as [H0|H0].
  - apply wp_bind, wp_gets. destruct (_ =? EAGAIN); [|by apply wp_ret, HQ].
    destruct (Z.ltb_spec 0 count) as [H2|H2]; [by apply Hagain; lia|by apply wp_ret, HQ].
  - destruct (Z.ltb_spec 0 (count - rc)) as [H2|H2]; [by apply Hagain; lia|by apply wp_ret, HQ].
Qed.

Lemma wp_raw_write buf s (Q : Z -> net_state -> Prop) :
  (forall rc s', socket_only s s' -> Q rc s') -> wp (raw_write buf) s Q.
Proof. intros HQ. unfold raw_write. apply wp_bind, wp_get. apply wp_raw_loop; [lia|lia|done]. Qed.

Lemma wp_respond r o s (Q : unit -> net_state -> Prop) :
  (forall s', socket_only s s' -> Q tt s') -> wp (telnet_respond r o) s Q.
Proof. intros HQ. unfold telnet_respond. apply wp_bind, wp_raw_write. intros rc s' H. by apply wp_ret, HQ. Qed.

(** A computation that touches the socket only. *)
Definition quiet (m : NM unit) : Prop := forall s, wp m s (fun _ s' => socket_only s s').

Lemma quiet_respond r o : quiet (telnet_respond r o).
Proof. intros s. by apply wp_respond. Qed.
Lemma quiet_ret : quiet (mret tt).
Proof. intros s. apply wp_ret, socket_only_refl. Qed.
Lemma quiet_seq m m' : quiet m -> quiet m' -> quiet (m;; m').
Proof.
  intros H H' s. apply wp_bind. eapply wp_mono; [apply H|]. intros [] s1 H1. eapply wp_mono; [apply H'|].
  intros [] s2 H2. by eapply socket_only_trans.
Qed.
Lemma quiet_when b m : quiet m -> quiet (whenM b m).
Proof. intros H. destruct b; [done|apply quiet_ret]. Qed.
Lemma quiet_get (k : net_state -> NM unit) : (forall s, quiet (k s)) -> quiet (s ← get; k s).
Proof. intros H s. apply wp_bind, wp_get, H. Qed.
Lemma quiet_gets {A} (f : net_state -> A) (k : A -> NM unit) : (forall a, quiet (k a)) -> quiet (a ← gets f; k a).
Proof. intros H s. apply wp_bind, wp_gets, H. Qed.
Create HintDb quiet.
#[export] Hint Resolve quiet_respond quiet_ret quiet_seq quiet_when quiet_get quiet_gets : quiet.

Lemma quiet_options : quiet telnet_send_options.
Proof.
  unfold telnet_send_options, telnet_do, telnet_will, telnet_dont. apply quiet_gets. intros v.
  apply quiet_seq; [auto with quiet|]. apply quiet_seq; [auto with quiet|]. apply quiet_get. intros s.
  destruct (decide _); auto 6 with quiet.
Qed.

Lemma wp_negotiate s (Q : unit -> net_state -> Prop) :
  (forall s', nvt s' = nvt s -> write_buffer s' = write_buffer s -> state s' <> INIT -> (state s <> INIT -> s' = s) -> Q tt s') ->
  wp negotiate s Q.
Proof.
  intros HQ. unfold negotiate. apply wp_bind, wp_get. destruct (decide (state s = INIT)); [|by apply wp_ret, HQ].
  apply wp_bind. eapply wp_mono; [apply quiet_options|]. intros [] s1 (x & w & e' & _ & ->). by apply wp_modify, HQ.
Qed.

(** ** What the write promises *)

Lemma wp_telnet_write buf s : fits s ->
  wp (telnet_write buf) s (fun rc s' => fits s' /\
    (state s <> INIT -> write_last_error (nvt s) = false -> buf <> [] -> wrote s (Z.of_nat (length buf)) buf rc s')).
Proof.
  intros Hf. unfold telnet_write. apply wp_bind, wp_negotiate. intros s1 N1 B1 _ S1. apply wp_bind, wp_get.
  assert (Hf1 : fits s1) by (unfold fits; by rewrite N1, B1).
  destruct (write_last_error (nvt s1)) eqn:E.
  { apply wp_bind, wp_modify, wp_bind, wp_modify, wp_ret. split; [exact Hf1|]. intros _ H. by rewrite N1, H in E. }
  destruct buf as [|c buf]; [by apply wp_ret|].
  eapply wp_mono; [apply wp_write_from|].
  - unfold measure. pose proof (flag_bound s1). lia.
  - done.
  - lia.
  - by destruct (write_buffer s1).
  - intros rc s' H. split; [apply H|]. intros H1 _ _. by rewrite (S1 H1) in H.
Qed.
