(* ===== verification/TelnetRead.v ===== *)
(** telnet_read(): the stream of the other side's telnet_write() comes back, small
    reads are safe, and what goes past the ends of the buffers. *)

From Stdlib Require Import ZArith Lia List Bool.
From stdpp Require Import base list numbers strings.
From S2P Require Import Prelude Stdio States Telnet TelnetWrite.
Import Telnet.

(** ** The data stream *)

(** No option, no subnegotiation under way. *)
Definition plain_data (s : net_state) : Prop := subneg_end (nvt s) = false /\ dowill (nvt s) = false.

(** Lines without NUL. *)
Definition lines_of (cr : bool) (l : list Z) : bool := text cr l && forallb (fun c => negb (c =? C_NUL)) l.

(** [w] is what is left on the line of the stream for the data [d]. *)
Definition decoding (s : net_state) (w d : list Z) : Prop :=
  plain_data s /\
  (if iac (nvt s) then exists d', d = TELNET_IAC :: d' /\ w = TELNET_IAC :: escape d' else w = escape d) /\
  (if binary_mode (nvt s) then read_cr (nvt s) = false else lines_of (read_cr (nvt s)) d = true).

(** Only the protocol flags have changed. *)
Definition nvt_only (s s' : net_state) : Prop := exists v, s' = s <| nvt := v |> /\ is_eof v = is_eof (nvt s) /\ binary_mode v = binary_mode (nvt s).
Lemma nvt_only_refl s : nvt_only s s.
Proof. exists (nvt s). by destruct s. Qed.
Lemma nvt_only_trans s1 s2 s3 : nvt_only s1 s2 -> nvt_only s2 s3 -> nvt_only s1 s3.
Proof. intros (v & -> & E1 & E2) (v' & -> & E3 & E4). exists v'. split; [by destruct s1|]. cbn in *. split; congruence. Qed.

Lemma escape_cons c l : escape (c :: l) = (if c =? TELNET_IAC then [c; c] else [c]) ++ escape l.
Proof. done. Qed.

(** One byte: what is handed over, and what is still to come. *)
Lemma wp_read_stream_byte ch w d s : decoding s (ch :: w) d ->
  wp (read_byte ch) s (fun xs s' => nvt_only s s' /\ exists d1 d', d = d1 ++ d' /\ decoding s' w d' /\
    (length d1 <= 1)%nat /\ xs ++ waiting (read_cr (nvt s')) = waiting (read_cr (nvt s)) ++ d1).
Proof.
  intros ([P1 P2] & Hd & Ht). unfold read_byte. apply wp_bind, wp_gets. rewrite P1, P2.
  destruct (iac (nvt s)) eqn:Ei.
  - destruct Hd as (d' & -> & [= -> ->]). cbn [Z.eqb Pos.eqb TELNET_IAC]. apply wp_bind, wp_modify, wp_ret.
    split; [by eexists|]. exists [TELNET_IAC], d'. split; [done|].
    unfold decoding, plain_data. cbn. unfold lines_of in *. cbn in Ht.
    destruct (binary_mode (nvt s)); [rewrite Ht; by split_and!|]. destruct (read_cr (nvt s)); [done|]. by split_and!.
  - destruct d as [|c d]; [done|]. rewrite escape_cons in Hd. destruct (Z.eqb_spec c TELNET_IAC) as [->|Hc].
    + injection Hd as -> ->. cbn [Z.eqb Pos.eqb TELNET_IAC]. apply wp_bind, wp_modify, wp_ret.
      split; [by eexists|]. exists [], (TELNET_IAC :: d). split; [done|]. split; [|by rewrite app_nil_r; split; [cbn; lia|]].
      split; [done|]. split; [by exists d|exact Ht].
    + injection Hd as -> ->. rewrite (proj2 (Z.eqb_neq _ _) Hc). unfold text_byte. apply wp_bind, wp_gets.
      destruct (binary_mode (nvt s)) eqn:Eb.
      { apply wp_ret. split; [apply nvt_only_refl|]. exists [c], d. split; [done|]. rewrite Ht. split; [|done].
        split; [done|]. by rewrite Ei, Eb. }
      unfold lines_of in Ht. cbn [text forallb] in Ht. apply andb_prop in Ht as [[Ht1 Ht2]%andb_prop [Ht3 Ht4]%andb_prop].
      apply negb_true_iff in Ht3. rewrite Ht3.
      assert (Hl : lines_of (c =? C_CR) d = true) by (unfold lines_of; by rewrite Ht2).
      destruct (c =? C_LF) eqn:E1; [|destruct (c =? C_CR) eqn:E2]; destruct (read_cr (nvt s)) eqn:E3; try done.
      all: repeat first [apply wp_bind, wp_modify|apply wp_ret]; (split; [first [apply nvt_only_refl|by eexists]|]).
      all: exists [c], d; (split; [done|]); unfold decoding, plain_data; cbn; rewrite ?P1, ?P2, ?Ei, ?Eb, ?E3.
      all: try (apply Z.eqb_eq in E1; subst c); try (apply Z.eqb_eq in E2; subst c); try rewrite E2 in Hl; by split_and!.
Qed.

Lemma wp_read_chunk max : forall c w d out s,
  decoding s (c ++ w) d -> (length out + length (waiting (read_cr (nvt s))) + length c <= Z.to_nat max)%nat ->
  wp (read_loop max c out) s (fun out' s' => nvt_only s s' /\ exists d1 d', d = d1 ++ d' /\ decoding s' w d' /\
    out' ++ waiting (read_cr (nvt s')) = out ++ waiting (read_cr (nvt s)) ++ d1).
Proof.
  induction c as [|ch c IH]; intros w d out s Hd Hl.
  { apply wp_ret. split; [apply nvt_only_refl|]. exists [], d. split; [done|]. split; [done|]. by rewrite app_nil_r. }
  cbn [read_loop]. apply wp_bind. eapply wp_mono; [by apply wp_read_stream_byte|].
  intros xs s1 (N1 & d1 & d' & -> & D1 & L1 & E1). pose proof (f_equal length E1) as El. rewrite !length_app in El. cbn [length] in Hl.
  rewrite (proj2 (Z.leb_le _ _)) by (rewrite length_app; lia).
  eapply wp_mono; [apply (IH w d')|]; [done|rewrite length_app; lia|].
  intros out' s2 (N2 & d2 & d'' & -> & D2 & E2). split; [by eapply nvt_only_trans|].
  exists (d1 ++ d2), d''. split; [by rewrite app_assoc|]. split; [done|]. by rewrite E2, <- app_assoc, (app_assoc xs), E1, <- app_assoc.
Qed.

(** A read up to its loop. *)
Lemma read_head count l s :
  state s <> INIT -> read_buffer s = [] -> is_eof (nvt s) = false -> l <> [] ->
  Z.of_nat (length l) <= count <= Q_BUFFER_SIZE ->
  exists b, telnet_read count (Received l) s = (read_loop count l [] ≫= hand_over) (s <| read_buffer := b |>).
Proof.
  intros H1 H2 H3 Hne Hl. unfold telnet_read.
  assert (E : negotiate s = Done (tt, s)) by (unfold negotiate; rewrite (bind_done get _ s s s eq_refl); by rewrite decide_False).
  rewrite (bind_done _ _ _ _ _ E). destruct l as [|c l]; [done|]. rewrite (proj2 (Z.eqb_neq _ _)) by (cbn in *; lia).
  set (s1 := s <| read_buffer := read_buffer s ++ c :: l |>).
  assert (F : fill_read_buffer count (Received (c :: l)) s = Done (None, s1)).
  { unfold fill_read_buffer. rewrite (bind_done get _ s s s eq_refl), H3, H2. rewrite take_ge by (cbn [length] in *; lia). done. }
  rewrite (bind_done _ _ _ _ _ F).
  assert (B1 : read_buffer s1 = c :: l) by (change (read_buffer s ++ c :: l = c :: l); by rewrite H2).
  rewrite (bind_done get _ s1 s1 s1 eq_refl).
  assert (G : forall m, drop_connection m s1 = Done (false, s1)) by (intros m; unfold drop_connection; rewrite (bind_done get _ s1 s1 s1 eq_refl); by rewrite B1).
  rewrite (bind_done _ _ _ _ _ (G _)), (bind_done (gets read_buffer) _ s1 (c :: l) s1) by (unfold gets; by rewrite B1).
  by exists (read_buffer s ++ c :: l).
Qed.

(** A reader between two reads. *)
Definition reading (s : net_state) : Prop := state s <> INIT /\ read_buffer s = [] /\ is_eof (nvt s) = false.

Lemma wp_telnet_read_data count c w d s :
  reading s -> decoding s (c ++ w) d -> c <> [] -> Z.of_nat (length c) < count <= Q_BUFFER_SIZE ->
  wp (telnet_read count (Received c)) s (fun '(_, out) s' => reading s' /\ binary_mode (nvt s') = binary_mode (nvt s) /\
    exists d1 d', d = d1 ++ d' /\ decoding s' w d' /\
    out ++ waiting (read_cr (nvt s')) = waiting (read_cr (nvt s)) ++ d1).
Proof.
  intros (H1 & H2 & H3) Hd Hc Hn. unfold telnet_read. apply wp_bind, wp_negotiate. intros s0 _ _ _ E. rewrite (E H1). clear s0 E.
  rewrite (proj2 (Z.eqb_neq _ _)) by lia. apply wp_bind. unfold fill_read_buffer. apply wp_bind, wp_get.
  rewrite H3, H2. cbn [length app]. rewrite take_ge by lia. destruct c as [|ch c]; [done|]. apply wp_bind, wp_modify, wp_ret.
  apply wp_bind, wp_get, wp_bind. unfold drop_connection. apply wp_bind, wp_get.
  match goal with |- wp _ ?t _ => set (s1 := t) end.
  assert (B1 : read_buffer s1 = ch :: c) by (change (read_buffer s ++ ch :: c = ch :: c); by rewrite H2).
  rewrite B1. apply wp_ret, wp_bind, wp_gets. rewrite B1.
  apply wp_bind. eapply wp_mono; [apply (wp_read_chunk count (ch :: c) w d [] s1)|]; [done| |].
  { change (nvt s1) with (nvt s). cbn [length]. destruct (read_cr (nvt s)); cbn [waiting length] in *; lia. }
  intros out s2 ((v & -> & V1 & V2) & d1 & d' & -> & D' & E). unfold hand_over. apply wp_bind, wp_modify.
  change (nvt s1) with (nvt s) in *. cbn [app] in E.
  assert (G : forall e, reading (s1 <| nvt := v |> <| read_buffer := [] |> <| errno := e |>) /\ reading (s1 <| nvt := v |> <| read_buffer := [] |>)).
  { intros e. unfold reading. cbn. rewrite V1. done. }
  destruct out as [|x out].
  - apply wp_bind, wp_modify, wp_ret. cbv beta iota. split; [apply (G EAGAIN)|]. split; [done|]. exists d1, d'. split; [done|]. split; [exact D'|exact E].
  - apply wp_ret. cbv beta iota. split; [apply (G 0)|]. split; [done|]. exists d1, d'. split; [done|]. split; [exact D'|exact E].
Qed.

(** Reading a stream in pieces. *)
Fixpoint receive (count : Z) (chunks : list (list Z)) (s : net_state) : outcome (list Z * net_state) :=
  match chunks with
  | [] => Done ([], s)
  | c :: chunks =>
    match telnet_read count (Received c) s with
    | Done ((_, out), s) =>
      match receive count chunks s with
      | Done (l, s) => Done (out ++ l, s)
      | x => x
      end
    | Fault w => Fault w
    | Diverge => Diverge
    end
  end.

Lemma receive_data count chunks : forall d s,
  Forall (fun c => c <> [] /\ Z.of_nat (length c) < count) chunks -> count <= Q_BUFFER_SIZE ->
  reading s -> decoding s (concat chunks) d ->
  exists l s' rest, receive count chunks s = Done (l, s') /\ reading s' /\ decoding s' [] rest /\
    l ++ waiting (read_cr (nvt s')) ++ rest = waiting (read_cr (nvt s)) ++ d.
Proof.
  induction chunks as [|c chunks IH]; intros d s Hc Hn Hr Hd; [by exists [], s, d|].
  apply Forall_cons in Hc as [[Hc1 Hc2] Hc]. cbn [concat] in Hd.
  destruct (wp_run _ _ _ (wp_telnet_read_data count c (concat chunks) d s Hr Hd Hc1 (conj Hc2 Hn)))
    as ([rc out] & s1 & E & R1 & _ & d1 & d' & -> & D1 & E1).
  destruct (IH d' s1 Hc Hn R1 D1) as (l & s' & rest & E2 & R2 & D2 & E3). exists (out ++ l), s', rest.
  cbn [receive]. rewrite E, E2. split; [done|]. split; [done|]. split; [done|].
  by rewrite <- app_assoc, E3, app_assoc, E1, <- app_assoc.
Qed.
