(* ===== verification/TelnetProps.v ===== *)
(** The properties of the telnet channel. *)

From Stdlib Require Import ZArith Lia List Bool.
From stdpp Require Import base list numbers strings.
From S2P Require Import Prelude Stdio States Telnet TelnetWrite TelnetRead.
Import Telnet.

(** ** States *)

(** An idle end of a connection in binary or ASCII mode. *)
Record idle (binary : bool) (s : net_state) : Prop := {
  id_state : state s <> INIT;
  id_mode : binary_mode (nvt s) = binary;
  id_read : read_buffer s = [] /\ is_eof (nvt s) = false;
  id_plain : plain_data s /\ iac (nvt s) = false;
  id_cr : read_cr (nvt s) = false /\ write_cr (nvt s) = false;
  id_write : write_buffer s = [] /\ write_last_error (nvt s) = false
}.

(** Fresh states for examples: [reset_nvt], options negotiated or not. *)
Definition zero_nvt : telnet_state := reset_nvt
  {| echo_mode := false; binary_mode := false; go_ahead := false; do_naws := false;
     do_term_type := false; do_term_speed := false; do_environment := false;
     iac := false; dowill := false; dowill_type := 0; subneg_end := false;
     is_eof := false; eof_msg := false; read_cr := false; write_rc := 0;
     write_last_errno := 0; write_last_error := false; write_cr := false |}.
Definition fresh (p : Q_PROGRAM_STATE) : net_state :=
  {| state := INIT; connected := true; nvt := zero_nvt; subneg_buffer := []; read_buffer := [];
     write_buffer := []; errno := 0; sends := []; wire := []; q_program_state := p;
     emulation := Q_EMUL_XTERM; iso8859_lang := str "C"; utf8_lang := str "en_US.UTF-8"; lines := 24; columns := 80 |}.
Definition settled (binary : bool) (script : list send_result) : net_state :=
  (fresh Q_STATE_CONSOLE) <| state := SENT_OPTIONS |> <| sends := script |> <| nvt ::= fun v => v <| binary_mode := binary |> |>.

(** ** The channel *)

(** C3: the telnet channel carries data: with both ends in binary mode, or both in
    ASCII mode and lines of text, one [telnet_write] takes all of the data however
    little each send() takes, and however the bytes are cut into reads that
    [telnet_read] has room for, the other end's reads return exactly the data. *)
Theorem telnet_channel binary data w r count :
  idle binary w -> idle binary r -> Forall takes (sends w) -> wire w = [] -> data <> [] -> count <= Q_BUFFER_SIZE ->
  (binary = false -> lines_of false data = true) ->
  exists w', telnet_write data w = Done (Z.of_nat (length data), w') /\
    forall chunks, concat chunks = wire w' -> Forall (fun c => c <> [] /\ Z.of_nat (length c) < count) chunks ->
      exists r', receive count chunks r = Done (data, r').
Proof.
  intros [W1 W2 _ _ [_ W5] [W6 W7]] [R1 R2 [R3 R4] [R5 R6] [R7 _] _] Ht Hwire Hne Hn Hl.
  assert (Hf : fits w) by (unfold fits; rewrite W6, W5; done).
  destruct (wp_run _ _ _ (wp_telnet_write data w Hf)) as (rc & w' & E & _ & H).
  destruct (H W1 W7 Hne) as (L & _ & p & l' & -> & _ & Hc).
  assert (Hcar : carried w (p ++ l')).
  { unfold carried. rewrite W2, W5. destruct binary; [done|]. by specialize (Hl eq_refl) as [? _]%andb_prop. }
  destruct (Hc Hcar) as (Hcar' & Hs & H'). destruct (H' Ht) as (-> & -> & Hb). rewrite app_nil_r in *.
  exists w'. split; [exact E|]. intros chunks Hch Hall.
  assert (Hw' : wire w' = escape p).
  { unfold carried in Hcar'. rewrite (sl_mode _ _ L), W2 in Hcar'. unfold stream in Hs. rewrite Hwire, W6, W5, Hb in Hs.
    cbn [waiting app] in Hs. rewrite <- Hs. destruct (write_cr (nvt w')); [by destruct binary|]. by rewrite app_nil_r. }
  destruct (receive_data count chunks p r) as (l & r' & rest & E' & _ & [_ [D1 D2]] & Hl'); [done|done|done| |].
  { rewrite Hch, Hw'. split; [done|]. rewrite R6, R2, R7. split; [done|]. by destruct binary; auto. }
  exists r'. rewrite E'. do 2 f_equal. rewrite R7 in Hl'. cbn [waiting app] in Hl'.
  assert (Hrest : rest = []).
  { destruct (iac (nvt r')); [by destruct D1 as (? & _ & ?)|]. destruct rest as [|c rest]; [done|].
    rewrite escape_cons in D1. by destruct (c =? TELNET_IAC). }
  rewrite <- Hl', Hrest, app_nil_r. destruct (binary_mode (nvt r')); [by rewrite D2, app_nil_r|].
  rewrite Hrest in D2. destruct (read_cr (nvt r')); [done|]. by rewrite app_nil_r.
Qed.

Lemma telnet_channel_witness :
  exists w', telnet_write [72; 255; 13; 0; 10] (settled true [Sent 2; Sent 1]) = Done (5, w') /\
    forall chunks, concat chunks = wire w' -> Forall (fun c => c <> [] /\ Z.of_nat (length c) < 100) chunks ->
      exists r', receive 100 chunks (settled true []) = Done ([72; 255; 13; 0; 10], r').
Proof.
  apply (telnet_channel true [72; 255; 13; 0; 10] (settled true [Sent 2; Sent 1]) (settled true []) 100); try done.
  by repeat constructor.
Defined.

(** C21: whatever is written and whatever send() does, a call of [telnet_write]
    returns and stays inside the write buffer.  When the session is connected, no
    error of send() is pending and the data is [carried] (binary mode, or lines that
    end in CR LF), the bytes it takes are a prefix of the data and join the stream in
    order, escaped, and it never reports more bytes than it took.  A lone CR is out of
    it: [cr_overtaken]. *)
Theorem telnet_write_safe buf s :
  fits s -> buf <> [] ->
  exists rc s', telnet_write buf s = Done (rc, s') /\ fits s' /\
    (state s <> INIT -> write_last_error (nvt s) = false -> carried s buf ->
     exists taken rest, buf = taken ++ rest /\ rc <= Z.of_nat (length taken) /\ stream s' = stream s ++ escape taken).
Proof.
  intros Hf Hne. destruct (wp_run _ _ _ (wp_telnet_write buf s Hf)) as (rc & s' & E & Hf' & H).
  exists rc, s'. split; [done|]. split; [done|]. intros H1 H2 Hc. destruct (H H1 H2 Hne) as (_ & _ & p & l' & -> & Hrc & Hs).
  exists p, l'. destruct (Hs Hc) as (_ & Hs' & _). rewrite length_app in Hrc. split_and!; [done|lia|done].
Qed.

Lemma telnet_write_safe_witness :
  let s := settled true [Sent 1; Send_failed EAGAIN] in
  exists rc s', telnet_write [1; 255; 2] s = Done (rc, s') /\ fits s' /\
    (state s <> INIT -> write_last_error (nvt s) = false -> carried s [1; 255; 2] ->
     exists taken rest, [1; 255; 2] = taken ++ rest /\ rc <= Z.of_nat (length taken) /\ stream s' = stream s ++ escape taken).
Proof. intros s. by apply (telnet_write_safe [1; 255; 2] s). Defined.

(** ** Ordinary bytes *)

(** A byte that the writer passes on as it is. *)
Definition ordinary (binary : bool) (c : Z) : bool :=
  negb (c =? TELNET_IAC) && (binary || negb (c =? C_CR) && negb (c =? C_LF)).

Lemma put_nil s : s <| write_buffer ::= fun b => b ++ [] |> = s.
Proof. destruct s. unfold field_update. cbn. by rewrite app_nil_r. Qed.
Lemma put_put s l l' : s <| write_buffer := write_buffer s ++ l |> <| write_buffer ::= fun b => b ++ l' |> = s <| write_buffer ::= fun b => b ++ l ++ l' |>.
Proof. destruct s. unfold field_update. cbn. by rewrite <- app_assoc. Qed.

Lemma write_ordinary binary l : forall s (Q : _ -> net_state -> Prop),
  binary_mode (nvt s) = binary -> forallb (ordinary binary) l = true ->
  Z.of_nat (length (write_buffer s)) + Z.of_nat (length l) <= Q_BUFFER_SIZE - 3 ->
  Q ([], false) (s <| write_buffer ::= fun b => b ++ l |>) -> wp (write_loop l) s Q.
Proof.
  induction l as [|c l IH]; intros s Q Hb Ho Hl HQ.
  - apply wp_ret. by rewrite put_nil in HQ.
  - cbn [forallb] in Ho. apply andb_prop in Ho as [Hc Ho]. apply andb_prop in Hc as [H1%negb_true_iff H2]. cbn [length] in Hl.
    cbn [write_loop]. apply wp_bind, wp_gets. rewrite (proj2 (Z.ltb_ge _ _)) by lia. apply wp_bind.
    unfold write_byte. apply wp_bind, wp_gets. rewrite Hb, H1.
    assert (Hstep : wp (put [c];; mret false) s (fun flush s' => wp (if flush : bool then mret (l, true) else write_loop l) s' Q)).
    { apply wp_bind, wp_put; [cbn [length]; lia|]. apply wp_ret, IH; [done|done|cbn; rewrite length_app; cbn; lia|]. by rewrite put_put. }
    destruct binary; [done|]. cbn [orb] in H2. by apply andb_prop in H2 as [->%negb_true_iff ->%negb_true_iff].
Qed.

(** A flush that takes everything. *)
Lemma write_flush_all i sent s (Q : _ -> net_state -> Prop) :
  sends s = [] -> write_buffer s <> [] ->
  Q None (s <| wire ::= fun w => w ++ write_buffer s |> <| nvt ::= fun v => v <| write_rc := Z.of_nat (length (write_buffer s)) |> |>
            <| write_buffer := [] |>) ->
  wp (write_flush i sent) s Q.
Proof.
  intros Hs Hb HQ. unfold write_flush, send. apply wp_bind, wp_gets, wp_bind, wp_bind, wp_get. rewrite Hs.
  apply wp_bind, wp_modify, wp_ret, wp_bind, wp_modify.
  destruct (Z.leb_spec (Z.of_nat (length (write_buffer s))) 0); [destruct (write_buffer s); [done|cbn in *; lia]|].
  apply wp_bind, wp_modify, wp_ret. by rewrite Nat2Z.id, drop_all.
Qed.

Lemma write_no_cr s (Q : _ -> net_state -> Prop) : write_cr (nvt s) = false -> Q tt s -> wp write_last_cr s Q.
Proof. intros Hc HQ. unfold write_last_cr. apply wp_bind, wp_get. by rewrite Hc. Qed.

Lemma wp_settled s (Q : _ -> net_state -> Prop) : state s <> INIT -> Q tt s -> wp negotiate s Q.
Proof. intros H HQ. unfold negotiate. apply wp_bind, wp_get. by rewrite decide_False. Qed.

(** The last turn: the buffer goes out and nothing is left. *)
Lemma write_last_turn fuel count sent s (Q : _ -> net_state -> Prop) :
  (0 < fuel)%nat -> sends s = [] -> write_buffer s <> [] -> write_cr (nvt s) = false ->
  (forall s', wire s' = wire s ++ write_buffer s -> Q count s') ->
  wp (write_from fuel true count [] sent) s Q.
Proof.
  intros Hf Hs Hb Hc HQ. destruct fuel as [|fuel]; [lia|]. cbn [write_from length]. apply wp_bind, write_flush_all; [done|done|].
  apply wp_bind, wp_ret, wp_bind, write_no_cr; [done|]. apply wp_bind, wp_gets. cbn. rewrite Z.sub_0_r. by apply wp_ret, HQ.
Qed.

(** ** Data written twice *)

(** The first call: the data is taken into the buffer, send() says EAGAIN, and the
    caller is told that nothing was taken. *)
Lemma write_refused d s (Q : Z -> net_state -> Prop) :
  idle true s -> sends s = [Send_failed EAGAIN] -> d <> [] -> Z.of_nat (length d) <= Q_BUFFER_SIZE - 4 ->
  forallb (ordinary true) d = true ->
  (forall s', state s' <> INIT -> binary_mode (nvt s') = true -> write_cr (nvt s') = false -> write_last_error (nvt s') = false ->
     write_buffer s' = d -> sends s' = [] -> wire s' = wire s -> errno s' = EAGAIN -> Q (-1) s') ->
  wp (telnet_write d) s Q.
Proof.
  intros [W1 W2 _ _ [_ W5] [W6 W7]] Hs Hd Hl Ho HQ. unfold telnet_write. apply wp_bind, wp_settled; [done|].
  apply wp_bind, wp_get. rewrite W7, W6, Hs. destruct d as [|c d]; [done|]. cbn [length Nat.add write_from].
  apply wp_bind, wp_ret, wp_bind, (write_ordinary true); [done|done|rewrite W6; cbn [length] in *; lia|].
  apply wp_bind, write_no_cr; [done|]. apply wp_bind, wp_gets.
  match goal with |- wp _ ?t _ => set (s1 := t) end.
  assert (B1 : write_buffer s1 = c :: d) by (change (write_buffer s ++ c :: d = c :: d); by rewrite W6). rewrite B1.
  cbn [Nat.add Nat.mul write_from]. apply wp_bind. unfold write_flush, send. apply wp_bind, wp_gets, wp_bind, wp_bind, wp_get.
  change (sends s1) with (sends s). rewrite Hs. apply wp_bind, wp_modify, wp_ret, wp_bind, wp_modify.
  cbn [Z.leb Z.compare]. apply wp_bind, wp_gets, wp_bind, wp_modify.
  match goal with |- wp (if ?b then _ else _) _ _ => change b with true end. apply wp_bind, wp_modify, wp_ret, wp_ret.
  apply HQ; try done.
Qed.

(** The second call, with the same data: the buffer goes out first. *)
Lemma write_again d s (Q : Z -> net_state -> Prop) :
  state s <> INIT -> binary_mode (nvt s) = true -> write_cr (nvt s) = false -> write_last_error (nvt s) = false ->
  write_buffer s = d -> sends s = [] -> d <> [] -> Z.of_nat (length d) <= Q_BUFFER_SIZE - 4 -> forallb (ordinary true) d = true ->
  (forall s', wire s' = wire s ++ d ++ d -> Q (Z.of_nat (length d)) s') ->
  wp (telnet_write d) s Q.
Proof.
  intros W1 W2 W5 W7 W6 Hs Hd Hl Ho HQ. unfold telnet_write. apply wp_bind, wp_settled; [done|].
  apply wp_bind, wp_get. rewrite W7, Hs. destruct d as [|c d]; [done|]. rewrite W6. cbn [length Nat.add].
  cbn [Nat.mul Nat.add write_from]. apply wp_bind, write_flush_all; [done|by rewrite W6|].
  match goal with |- wp _ ?t _ => set (s1 := t) end.
  apply wp_bind, (write_ordinary true); [done|done|change (write_buffer s1) with (@nil Z); cbn [length] in *; lia|].
  apply wp_bind, write_no_cr; [done|].
  match goal with |- wp _ ?t _ => set (s2 := t) end.
  assert (B2 : write_buffer s2 = c :: d) by done. apply wp_bind, wp_gets. rewrite B2.
  apply (write_last_turn _ _ _ s2); [lia|done|by rewrite B2|done|]. intros s' Hw. apply HQ.
  rewrite Hw, B2. change (wire s2) with (wire s ++ write_buffer s). by rewrite W6, <- app_assoc.
Qed.

(** one EAGAIN from send() and the data goes over the line twice: [telnet_write]
    keeps what it could not send and reports that nothing was taken, so that the
    loop of [qodem_write] offers the same bytes again. *)
Theorem eagain_sends_twice map_to data s :
  let d := translate_8bit_out map_to <$> data in
  idle true s -> sends s = [Send_failed EAGAIN] -> data <> [] -> Z.of_nat (length data) <= Q_BUFFER_SIZE - 4 ->
  forallb (ordinary true) d = true ->
  exists s', qodem_write map_to data true s = Done (Z.of_nat (length data), s') /\ wire s' = wire s ++ d ++ d.
Proof.
  intros d Hi Hs Hd Hl Ho. assert (Hld : length d = length data) by apply length_fmap.
  assert (H : wp (qodem_write map_to data true) s (fun rc s' => rc = Z.of_nat (length data) /\ wire s' = wire s ++ d ++ d)).
  { unfold qodem_write. destruct data as [|c data]; [done|]. rewrite (proj2 (Z.ltb_ge _ _)) by lia. apply wp_bind, wp_get.
    rewrite Hs. fold d. rewrite <- Hld. clearbody d.
    cbn [length] in Hld, Hl. cbn [length Nat.add write_sync].
    apply wp_bind, wp_ret, wp_bind, write_refused; [done|done|by destruct d|lia|done|].
    intros s1 G1 G2 G3 G4 G5 G6 G7 G8. apply wp_bind, wp_gets. rewrite G8. cbn [Z.eqb Z.ltb Z.compare Pos.eqb EAGAIN].
    apply wp_bind, wp_ret, wp_bind, write_again; [done..|by destruct d|lia|done|].
    intros s2 Hw. apply wp_bind, wp_gets. destruct (Z.eqb_spec (Z.of_nat (length d)) 0); [lia|].
    destruct (Z.ltb_spec 0 (Z.of_nat (length d))); [|lia]. rewrite Z.sub_diag. apply wp_ret. by rewrite Hw, G7. }
  apply wp_run in H as (rc & s' & E & -> & Hw). by exists s'.
Qed.

Lemma eagain_sends_twice_witness :
  let map_to := all_bytes in
  exists s', qodem_write map_to [104; 105] true (settled true [Send_failed EAGAIN]) = Done (2, s') /\
    wire s' = [104; 105; 104; 105].
Proof. intros map_to. apply (eagain_sends_twice map_to [104; 105] (settled true [Send_failed EAGAIN])); by vm_compute. Defined.

(** ** A carriage return overtaken *)

(** in ASCII mode a CR that is followed by ordinary text is held back until the
    end of the call: the text goes out first and the CR after it. *)
Theorem cr_overtaken l s :
  idle false s -> q_program_state s = Q_STATE_CONSOLE -> sends s = [] ->
  l <> [] -> Z.of_nat (length l) <= Q_BUFFER_SIZE - 4 -> forallb (ordinary false) l = true ->
  exists s', telnet_write (C_CR :: l) s = Done (1 + Z.of_nat (length l), s') /\ wire s' = wire s ++ l ++ [C_CR].
Proof.
  intros [W1 W2 _ _ [_ W5] [W6 W7]] Hp Hs Hne Hl Ho.
  assert (H : wp (telnet_write (C_CR :: l)) s (fun rc s' => rc = 1 + Z.of_nat (length l) /\ wire s' = wire s ++ l ++ [C_CR])).
  { unfold telnet_write. apply wp_bind, wp_settled; [done|]. apply wp_bind, wp_get. rewrite W7, Hs, W6.
    cbn [length Nat.add Nat.mul write_from]. apply wp_bind, wp_ret. cbn [write_loop]. apply wp_bind, wp_bind, wp_gets. rewrite W6.
    cbn [length Z.of_nat]. change (Q_BUFFER_SIZE - 0 <? 4) with false. apply wp_bind. unfold write_byte. apply wp_bind, wp_gets.
    rewrite W2, W5. change (C_CR =? C_CR) with true. cbn [whenM]. apply wp_bind, wp_ret, wp_bind, wp_modify, wp_ret.
    apply (write_ordinary false); [done|done|change (write_buffer _) with (write_buffer s); rewrite W6; cbn [length]; lia|].
    apply wp_bind. unfold write_last_cr. apply wp_bind, wp_get.
    match goal with |- wp _ ?t _ => set (s1 := t) end.
    change (q_program_state s1) with (q_program_state s). rewrite Hp. cbn [write_cr]. change (write_cr (nvt s1)) with true. cbn [andb orb whenM].
    rewrite bool_decide_true by done. cbn [andb orb whenM].
    assert (B1 : write_buffer s1 = l) by (change (write_buffer s ++ l = l); by rewrite W6).
    apply wp_bind, wp_put; [rewrite B1; cbn [length]; lia|]. apply wp_modify, wp_bind, wp_gets.
    match goal with |- wp _ ?t _ => set (s2 := t) end.
    assert (B2 : write_buffer s2 = l ++ [C_CR]) by (change (write_buffer s1 ++ [C_CR] = l ++ [C_CR]); by rewrite B1). rewrite B2.
    assert (Hb : l ++ [C_CR] <> []) by (by intros [_ [=]]%app_eq_nil). destruct (l ++ [C_CR]) as [|c b] eqn:Eb; [done|].
    apply (write_last_turn _ _ _ s2); [lia|done|by rewrite B2|done|]. intros s' Hw. split; [lia|]. by rewrite Hw, B2. }
  apply wp_run in H as (rc & s' & E & -> & Hw). by exists s'.
Qed.

Lemma cr_overtaken_witness :
  exists s', telnet_write [C_CR; 108; 115] (settled false []) = Done (3, s') /\ wire s' = [108; 115; C_CR].
Proof. by apply (cr_overtaken [108; 115] (settled false [])). Defined.

(** ** Negotiations that never end *)

(** One end reads what is on the line; the result is what it answers. *)
Definition read_turn (input : list Z) (s : net_state) : outcome (list Z * net_state) :=
  match telnet_read Q_BUFFER_SIZE (match input with [] => Recv_failed EAGAIN | _ => Received input end) (s <| wire := [] |>) with
  | Done (_, s) => Done (wire s, s)
  | Fault w => Fault w
  | Diverge => Diverge
  end.

(** Rounds of two ends that read in turn; [flight] is on the way to the first. *)
Fixpoint converse (n : nat) (c h : net_state) (flight : list Z) : outcome (net_state * net_state * list Z) :=
  match n with
  | O => Done (c, h, flight)
  | S n =>
    match read_turn flight c with
    | Done (out, c) =>
      match read_turn out h with
      | Done (back, h) => converse n c h back
      | Fault w => Fault w
      | Diverge => Diverge
      end
    | Fault w => Fault w
    | Diverge => Diverge
    end
  end.

Lemma converse_add n k c h flight c' h' flight' :
  converse n c h flight = Done (c', h', flight') -> converse (n + k) c h flight = converse k c' h' flight'.
Proof.
  revert c h flight. induction n as [|n IH]; intros c h flight H; [by injection H as -> -> ->|]. cbn [converse Nat.add] in *.
  destruct (read_turn flight c) as [[out c1]| |]; [|done..]. destruct (read_turn out h) as [[back h1]| |]; [|done..]. by apply IH.
Qed.

(** A round that comes back to where it was is repeated for ever. *)
Lemma converse_loop k c h flight : converse 1 c h flight = Done (c, h, flight) -> converse k c h flight = Done (c, h, flight).
Proof.
  intros H. induction k as [|k IH]; [done|]. change (S k) with (1 + k)%nat. by rewrite (converse_add 1 k _ _ _ _ _ _ H).
Qed.

(** Once [n] rounds lead to such a round, the line carries [flight'] for ever. *)
Lemma converse_settles n c h flight flight' k :
  match converse n c h flight with
  | Done (c', h', fl) => fl = flight' /\ converse 1 c' h' fl = Done (c', h', fl)
  | _ => False
  end ->
  exists c' h', converse (n + k) c h flight = Done (c', h', flight').
Proof.
  destruct (converse n c h flight) as [[[c' h'] fl]| |] eqn:E; [|done..]. intros [-> H]. exists c', h'.
  rewrite (converse_add n k _ _ _ _ _ _ E). by apply converse_loop.
Qed.

(** WILL NAWS and the size of an 80x24 screen. *)
Definition will_naws : list Z := [TELNET_IAC; TELNET_WILL; 31; TELNET_IAC; TELNET_SB; 31; 0; 80; 0; 24; TELNET_IAC; TELNET_SE].

(** a Qodem that calls a Qodem in host mode never stops negotiating: each
    answers the other's WILL NAWS with a WILL NAWS of its own, round after round,
    though neither has anything to say. *)
Theorem naws_never_quiet n :
  exists c h, converse (3 + n) (fresh Q_STATE_CONSOLE) (fresh Q_STATE_HOST) [] = Done (c, h, will_naws).
Proof. apply converse_settles. by vm_compute. Qed.

(** ** Past the ends of the buffers *)

(** An ordinary byte of ASCII mode for the reader. *)
Definition printable (c : Z) : bool := negb (c =? TELNET_IAC) && negb (c =? C_CR) && negb (c =? C_LF) && negb (c =? C_NUL).

Lemma read_printable c s :
  plain_data s -> iac (nvt s) = false -> binary_mode (nvt s) = false -> printable c = true ->
  read_byte c s = Done (if read_cr (nvt s) then [C_CR; c] else [c], if read_cr (nvt s) then s <| nvt ::= fun v => v <| read_cr := false |> |> else s).
Proof.
  intros [P1 P2] Hi Hb Hc. unfold printable in Hc.
  apply andb_prop in Hc as [[[H1%negb_true_iff H2%negb_true_iff]%andb_prop H3%negb_true_iff]%andb_prop H4%negb_true_iff].
  unfold read_byte. rewrite (bind_done get_nvt _ s (nvt s) s eq_refl), P1, P2, H1, Hi.
  unfold text_byte. rewrite (bind_done get_nvt _ s (nvt s) s eq_refl), Hb, H3, H4, H2. by destruct (read_cr (nvt s)).
Qed.

Lemma read_loop_printable max l : forall out s,
  plain_data s -> iac (nvt s) = false -> binary_mode (nvt s) = false -> read_cr (nvt s) = false -> forallb printable l = true ->
  max < Z.of_nat (length out + length l) -> l <> [] -> read_loop max l out s = Fault OutOfBounds.
Proof.
  induction l as [|c l IH]; intros out s P Hi Hb Hr Hl Hm Hne; [done|]. cbn [forallb length] in *. apply andb_prop in Hl as [Hc Hl].
  cbn [read_loop]. rewrite (bind_done _ _ _ _ _ (read_printable c s P Hi Hb Hc)), Hr.
  destruct (Z.leb_spec (Z.of_nat (length (out ++ [c]))) max) as [H|H]; [|done]. rewrite length_app in H. cbn [length] in H.
  destruct l as [|c' l]; [cbn in Hm; lia|]. apply IH; [done..|rewrite length_app; cbn [length] in *; lia|done].
Qed.

(** a read that starts with a CR held over from the one before and finds as many
    characters as the caller has room for writes one byte past the caller's
    buffer. *)
Theorem pending_cr_overflows l s :
  state s <> INIT -> read_buffer s = [] -> is_eof (nvt s) = false -> plain_data s -> iac (nvt s) = false ->
  binary_mode (nvt s) = false -> read_cr (nvt s) = true ->
  l <> [] -> Z.of_nat (length l) <= Q_BUFFER_SIZE -> forallb printable l = true ->
  telnet_read (Z.of_nat (length l)) (Received l) s = Fault OutOfBounds.
Proof.
  intros H1 H2 H3 P Hi Hb Hr Hne Hl Hp. destruct (read_head (Z.of_nat (length l)) l s H1 H2 H3 Hne) as (b & E); [lia|].
  rewrite E. set (s1 := s <| read_buffer := b |>). destruct l as [|c l]; [done|].
  cbn [forallb] in Hp. apply andb_prop in Hp as [Hc Hp]. unfold mbind, M_bind at 1. cbn [read_loop].
  rewrite (bind_done _ _ _ _ _ (read_printable c s1 P Hi Hb Hc)). change (read_cr (nvt s1)) with (read_cr (nvt s)).
  rewrite Hr. cbn [app]. destruct (Z.leb_spec (Z.of_nat (length [C_CR; c])) (Z.of_nat (length (c :: l)))) as [H|H]; [|done].
  destruct l as [|c' l]; [cbn in H; lia|].
  rewrite read_loop_printable; [done|done|done|done|done|done|cbn [length]; lia|done].
Qed.

Lemma pending_cr_overflows_witness :
  let s := (settled false []) <| nvt ::= fun v => v <| read_cr := true |> |> in
  telnet_read 2 (Received [65; 66]) s = Fault OutOfBounds.
Proof. intros s. by apply (pending_cr_overflows [65; 66] s). Defined.

(** ** Partial sends *)

(** when send() takes only a part of an answer, [raw_write] goes on from the
    start of its buffer instead of from where it was: the other side gets the
    first bytes again in place of the last ones. *)
Theorem raw_write_repeats buf k s :
  sends s = [Sent k] -> 0 < k < Z.of_nat (length buf) ->
  exists s', raw_write buf s = Done (Z.of_nat (length buf), s') /\
    wire s' = wire s ++ take (Z.to_nat k) buf ++ take (Z.to_nat (Z.of_nat (length buf) - k)) buf.
Proof.
  intros Hs Hk. set (n := Z.of_nat (length buf)) in *.
  assert (H : wp (raw_write buf) s (fun rc s' => rc = n /\ wire s' = wire s ++ take (Z.to_nat k) buf ++ take (Z.to_nat (n - k)) buf)).
  { unfold raw_write. apply wp_bind, wp_get. rewrite Hs. fold n. cbn [length Nat.add raw_loop].
    unfold send at 1. apply wp_bind, wp_bind, wp_get. rewrite Hs. cbv zeta. apply wp_bind, wp_modify, wp_ret.
    rewrite length_take, (Nat.min_r _ (length buf)) by lia. rewrite Z.min_l, Z.max_r by lia. fold n.
    rewrite (proj2 (Z.leb_gt _ _)), (proj2 (Z.ltb_lt _ _)) by lia.
    unfold send. apply wp_bind, wp_bind, wp_get. cbn [sends]. match goal with |- context [sends ?t] => change (sends t) with (@nil send_result) end.
    apply wp_bind, wp_modify, wp_ret. rewrite length_take, Nat.min_l by lia. rewrite Z2Nat.id by lia.
    rewrite (proj2 (Z.leb_gt _ _)) by lia. rewrite Z.sub_diag. apply wp_ret. split; [done|].
    match goal with |- wire ?t = _ => change (wire t) with ((wire s ++ take (Z.to_nat k) (take (Z.to_nat n) buf)) ++ take (Z.to_nat (n - k)) buf) end.
    rewrite take_take, Nat.min_l by lia. by rewrite <- app_assoc. }
  apply wp_run in H as (rc & s' & E & -> & Hw). by exists s'.
Qed.

Lemma raw_write_repeats_witness :
  exists s', raw_write [TELNET_IAC; TELNET_WILL; 31] (settled true [Sent 1]) = Done (3, s') /\
    wire s' = [TELNET_IAC; TELNET_IAC; TELNET_WILL].
Proof. by apply (raw_write_repeats [TELNET_IAC; TELNET_WILL; 31] 1 (settled true [Sent 1])). Defined.

(** When a part of the data was taken, [qodem_write] goes on at the number of bytes
    that are left and offers the full length again: it reads past the data. *)
Lemma partial_write_reads_past :
  qodem_write all_bytes [1; 255; 2] true (settled true [Sent 3; Send_failed EAGAIN]) = Fault Indeterminate.
Proof. by vm_compute. Qed.

(** The message of a closed connection is copied into the caller's buffer whatever
    its size. *)
Lemma closed_message_overflows :
  rlogin_read 19 false None End_of_file (settled true []) = Fault OutOfBounds.
Proof. by vm_compute. Qed.
