(* ===== verification/TelnetSafety.v ===== *)
(** telnet_read() on arbitrary input: when it is safe, and where a subnegotiation
    leaves its buffer. *)

From Stdlib Require Import ZArith Lia List Bool.
From stdpp Require Import base list numbers strings.
From S2P Require Import Prelude Stdio States Telnet TelnetWrite TelnetRead TelnetProps.
Import Telnet.

(** ** Where a byte falls *)

(** The part of the state that says what a byte is, and the length of the
    subnegotiation so far. *)
Record place := { in_subneg : bool; after_iac : bool; in_option : bool; subneg_n : Z }.
Definition place_of (s : net_state) : place :=
  {| in_subneg := subneg_end (nvt s); after_iac := iac (nvt s); in_option := dowill (nvt s);
     subneg_n := Z.of_nat (length (subneg_buffer s)) |}.

(** The place after a byte; [None] when a subnegotiation is too long. *)
Definition grow (t : place) : option place :=
  if subneg_n t <? SUBNEG_BUFFER_MAX
  then Some {| in_subneg := in_subneg t; after_iac := after_iac t; in_option := in_option t; subneg_n := subneg_n t + 1 |}
  else None.
Definition advance (t : place) (ch : Z) : option place :=
  if in_subneg t then
    if ch =? TELNET_SE then
      Some (if after_iac t then {| in_subneg := false; after_iac := false; in_option := in_option t; subneg_n := subneg_n t |} else t)
    else if ch =? TELNET_IAC then
      if after_iac t then grow t
      else Some {| in_subneg := true; after_iac := true; in_option := in_option t; subneg_n := subneg_n t |}
    else grow t
  else if in_option t then Some {| in_subneg := false; after_iac := after_iac t; in_option := false; subneg_n := subneg_n t |}
  else if ch =? TELNET_IAC then
    Some {| in_subneg := false; after_iac := negb (after_iac t); in_option := false; subneg_n := subneg_n t |}
  else if after_iac t then
    if ch =? TELNET_SB then Some {| in_subneg := true; after_iac := false; in_option := false; subneg_n := 0 |}
    else Some {| in_subneg := false; after_iac := false;
                 in_option := (ch =? TELNET_WILL) || (ch =? TELNET_WONT) || (ch =? TELNET_DO) || (ch =? TELNET_DONT);
                 subneg_n := subneg_n t |}
  else Some t.

(** No subnegotiation of the input is longer than the buffer. *)
Fixpoint contained (t : place) (l : list Z) : bool :=
  match l with
  | [] => true
  | ch :: l => match advance t ch with Some t => contained t l | None => false end
  end.

(** The answers fit as well. *)
Definition short_lang (s : net_state) : Prop := Z.of_nat (length (emulation_lang s)) <= 100.

(** ** Answers *)

(** What the socket cannot change. *)
Definition same_env (s s' : net_state) : Prop :=
  emulation s' = emulation s /\ iso8859_lang s' = iso8859_lang s /\ utf8_lang s' = utf8_lang s.
Lemma same_env_refl s : same_env s s.
Proof. done. Qed.
Lemma same_env_trans s1 s2 s3 : same_env s1 s2 -> same_env s2 s3 -> same_env s1 s3.
Proof. unfold same_env. intros (?&?&?) (?&?&?). split_and!; congruence. Qed.
Lemma same_env_lang s s' : same_env s s' -> short_lang s -> short_lang s'.
Proof. unfold short_lang, emulation_lang. by intros (-> & -> & ->). Qed.
Lemma socket_only_env s s' : socket_only s s' -> same_env s s'.
Proof. by intros (x & w & e & _ & ->). Qed.

(** Nothing but the socket and the flags of the protocol: the place is kept. *)
Definition stays (s s' : net_state) : Prop := same_env s s' /\ place_of s' = place_of s.
Lemma stays_trans s1 s2 s3 : stays s1 s2 -> stays s2 s3 -> stays s1 s3.
Proof. intros [H1 H2] [H3 H4]. split; [by eapply same_env_trans|congruence]. Qed.
Lemma socket_only_stays s s' : socket_only s s' -> stays s s'.
Proof. by intros (x & w & e & _ & ->). Qed.

Lemma quiet_raw buf : quiet (raw_write buf;; mret tt).
Proof. intros s. apply wp_bind, wp_raw_write. intros _ s' H. by apply wp_ret. Qed.

Lemma wp_subneg_response option response s :
  Z.of_nat (length response) <= SUBNEG_BUFFER_MAX ->
  wp (telnet_send_subneg_response option response) s (fun _ s' => socket_only s s').
Proof.
  intros H. unfold telnet_send_subneg_response. apply wp_bind, wp_assert; [by apply Z.leb_le|]. apply quiet_raw.
Qed.

Lemma length_term e : Z.of_nat (length (emulation_term e)) <= 9.
Proof. by destruct e. Qed.

Lemma length_terminated l : length (terminated l) = length l.
Proof.
  unfold terminated. destruct (Z.eqb_spec (Z.of_nat (length l)) SUBNEG_BUFFER_MAX) as [E|]; [|done].
  unfold SUBNEG_BUFFER_MAX in *. rewrite length_app, length_take. cbn [length]. lia.
Qed.

Lemma wp_handle_subneg s : short_lang s -> wp handle_subneg s (fun _ s' => socket_only s s').
Proof.
  intros Hl. unfold handle_subneg. apply wp_bind, wp_gets. destruct (subneg_buffer s) as [|option b]; [apply wp_ret, socket_only_refl|].
  pose proof (length_term (emulation s)) as Ht. unfold short_lang in Hl.
  destruct (option =? 24); [|destruct (option =? 32); [|destruct (option =? 39)]]; [| | |apply wp_ret, socket_only_refl].
  all: destruct (asked _); cbn [whenM]; [|apply wp_ret, socket_only_refl].
  - unfold telnet_send_terminal_type. apply wp_bind, wp_get, wp_subneg_response. rewrite length_app. cbn [length]. unfold SUBNEG_BUFFER_MAX. lia.
  - by apply wp_subneg_response.
  - unfold telnet_send_environment. apply wp_bind, wp_get, wp_subneg_response. rewrite length_terminated, !length_app. cbn [length].
    change (length (str "TERM")) with 4%nat. change (length (str "LANG")) with 4%nat. unfold SUBNEG_BUFFER_MAX. lia.
Qed.

(** ** One byte *)

Lemma wp_agree flag ch s :
  (forall b v, subneg_end (flag b v) = subneg_end v /\ iac (flag b v) = iac v /\ dowill (flag b v) = dowill v) ->
  wp (agree flag ch) s (fun _ s' => stays s s').
Proof.
  intros Hf. unfold agree. apply wp_bind, wp_gets.
  assert (H : forall b s1, socket_only s s1 -> stays s (s1 <| nvt ::= flag b |>)).
  { intros b s1 H1. apply (stays_trans s s1); [by apply socket_only_stays|]. split; [done|]. unfold place_of. cbn.
    by destruct (Hf b (nvt s1)) as (-> & -> & ->). }
  destruct (_ =? TELNET_WILL); [|destruct (_ =? TELNET_DO)].
  - apply wp_modify, H, socket_only_refl.
  - apply wp_bind. eapply wp_mono; [apply quiet_respond|]. intros [] s1 H1. by apply wp_modify, H.
  - apply wp_modify, H, socket_only_refl.
Qed.

Lemma wp_agree_naws ch s : wp (agree_naws ch) s (fun _ s' => stays s s').
Proof.
  unfold agree_naws. apply wp_bind, wp_gets, wp_bind, wp_get.
  assert (H : forall s1 s2 l c, stays s s1 -> nvt s2 = (nvt s1) <| do_naws := true |> -> same_env s1 s2 -> subneg_buffer s2 = subneg_buffer s1 ->
    wp (telnet_send_naws l c) s2 (fun _ s' => stays s s')).
  { intros s1 s2 l c H1 H2 H3 H4. eapply wp_mono; [apply quiet_raw|]. intros [] s3 H5. apply (stays_trans s s1); [done|].
    apply (stays_trans s1 s2); [|by apply socket_only_stays]. split; [done|]. unfold place_of. by rewrite H2, H4. }
  destruct (_ =? TELNET_WILL); [|destruct (_ =? TELNET_DO)].
  - apply wp_bind. eapply wp_mono; [apply quiet_respond|]. intros [] s1 H1%socket_only_stays. apply wp_bind, wp_modify. by apply (H s1).
  - apply wp_bind, wp_modify. by apply (H s).
  - by apply wp_modify.
Qed.

Lemma wp_option_byte ch s : wp (option_byte ch) s (fun _ s' => stays s s').
Proof.
  unfold option_byte. apply wp_bind, wp_gets.
  repeat lazymatch goal with
  | |- wp (if _ then agree _ _ else _) _ _ => apply wp_if; intros _; [by apply wp_agree|]
  | |- wp (if _ then agree_naws _ else _) _ _ => apply wp_if; intros _; [apply wp_agree_naws|]
  end.
  unfold telnet_refuse, telnet_wont, telnet_dont. destruct (_ =? TELNET_DO).
  all: eapply wp_mono; [apply quiet_respond|]; intros [] s1 H; by apply socket_only_stays.
Qed.

(** What one byte may do. *)
Definition moves (s : net_state) (t : place) (xs : list Z) (s' : net_state) : Prop :=
  same_env s s' /\ place_of s' = t /\ (length xs <= 2)%nat.

Lemma wp_subneg_push ch s (Q : unit -> net_state -> Prop) :
  Z.of_nat (length (subneg_buffer s)) < SUBNEG_BUFFER_MAX -> Q tt (s <| subneg_buffer := subneg_buffer s ++ [ch] |>) ->
  wp (subneg_push ch) s Q.
Proof. intros H HQ. unfold subneg_push. apply wp_bind, wp_gets. rewrite (proj2 (Z.ltb_lt _ _) H). by apply wp_modify. Qed.

Lemma place_pushed s ch : place_of (s <| subneg_buffer := subneg_buffer s ++ [ch] |>) =
  {| in_subneg := in_subneg (place_of s); after_iac := after_iac (place_of s); in_option := in_option (place_of s);
     subneg_n := subneg_n (place_of s) + 1 |}.
Proof. unfold place_of. cbn. f_equal. rewrite length_app. cbn. lia. Qed.

Lemma wp_subneg_byte ch s t :
  short_lang s -> subneg_end (nvt s) = true -> advance (place_of s) ch = Some t ->
  wp (subneg_byte ch) s (fun _ s' => moves s t [] s').
Proof.
  intros Hl He Ha. unfold advance in Ha. cbn [in_subneg place_of] in Ha. rewrite He in Ha. cbn [after_iac place_of] in Ha.
  assert (Hpush : forall c, grow (place_of s) = Some t -> wp (subneg_push c) s (fun _ s' => moves s t [] s')).
  { intros c E. unfold grow in E. destruct (Z.ltb_spec (subneg_n (place_of s)) SUBNEG_BUFFER_MAX); [|done]. injection E as <-.
    apply wp_subneg_push; [done|]. split; [done|]. split; [apply place_pushed|cbn; lia]. }
  unfold subneg_byte. apply wp_bind, wp_gets. destruct (ch =? TELNET_SE).
  - injection Ha as <-. destruct (iac (nvt s)) eqn:Ei; cbn [whenM].
    + apply wp_bind, wp_modify. eapply wp_mono; [by apply wp_handle_subneg|]. intros [] s1 H.
      apply socket_only_stays in H as [H1 H2]. split; [done|]. split; [by rewrite H2|cbn; lia].
    + apply wp_ret. split; [done|]. split; [done|cbn; lia].
  - destruct (ch =? TELNET_IAC); [|by apply Hpush]. destruct (iac (nvt s)) eqn:Ei; [by apply Hpush|]. injection Ha as <-.
    apply wp_modify. split; [done|]. split; [unfold place_of; cbn; by rewrite He|cbn; lia].
Qed.

Lemma wp_text_byte ch s : wp (text_byte ch) s (fun xs s' => moves s (place_of s) xs s').
Proof.
  unfold text_byte. apply wp_bind, wp_gets.
  repeat lazymatch goal with |- wp (if _ then _ else _) _ _ => apply wp_if; intros _ end.
  all: repeat first [apply wp_bind, wp_modify|apply wp_ret]; split; [done|split; [done|cbn; lia]].
Qed.

Lemma wp_read_byte ch s t :
  short_lang s -> advance (place_of s) ch = Some t -> wp (read_byte ch) s (fun xs s' => moves s t xs s').
Proof.
  intros Hl Ha. unfold read_byte. apply wp_bind, wp_gets. destruct (subneg_end (nvt s)) eqn:Es.
  { apply wp_bind. eapply wp_mono; [by apply (wp_subneg_byte ch s t)|]. intros [] s1 H. by apply wp_ret. }
  unfold advance in Ha. cbn [in_subneg place_of in_option after_iac] in Ha. rewrite Es in Ha. destruct (dowill (nvt s)) eqn:Ed.
  { injection Ha as <-. apply wp_bind. eapply wp_mono; [apply wp_option_byte|]. intros [] s1 [H1 H2]. apply wp_bind, wp_modify, wp_ret.
    split; [done|]. split; [|cbn; lia]. unfold place_of in *. cbn. injection H2 as -> -> _ ->. by rewrite Es. }
  destruct (ch =? TELNET_IAC).
  { injection Ha as <-. destruct (iac (nvt s)) eqn:Ei; apply wp_bind, wp_modify, wp_ret;
      (split; [done|]; split; [|cbn; lia]); unfold place_of; cbn; by rewrite Es, Ed. }
  destruct (iac (nvt s)) eqn:Ei.
  - unfold command_byte. apply wp_bind. destruct (ch =? TELNET_SB).
    + injection Ha as <-. apply wp_bind, wp_modify, wp_modify, wp_bind, wp_modify, wp_ret. split; [done|]. split; [|cbn; lia].
      unfold place_of. cbn. by rewrite Ed.
    + injection Ha as <-. destruct (_ || _); [apply wp_modify|apply wp_ret]; apply wp_bind, wp_modify, wp_ret;
        (split; [done|]; split; [|cbn; lia]); unfold place_of; cbn; by rewrite ?Es, ?Ed.
  - injection Ha as <-. apply wp_text_byte.
Qed.

(** ** The input *)

Lemma wp_read_loop max l : forall out s,
  short_lang s -> contained (place_of s) l = true -> Z.of_nat (length out) + 2 * Z.of_nat (length l) <= max ->
  wp (read_loop max l out) s (fun out' s' => short_lang s' /\ (length out' <= length out + 2 * length l)%nat).
Proof.
  induction l as [|ch l IH]; intros out s Hl Hc Hm; [apply wp_ret; by split; [|lia]|].
  cbn [contained] in Hc. destruct (advance (place_of s) ch) as [t|] eqn:Ea; [|done]. cbn [read_loop length] in *.
  apply wp_bind. eapply wp_mono; [by apply (wp_read_byte ch s t)|]. intros xs s1 (H1 & H2 & H3).
  rewrite (proj2 (Z.leb_le _ _)) by (rewrite length_app; lia).
  eapply wp_mono; [apply IH|]; [by eapply same_env_lang|by rewrite H2|rewrite length_app; lia|].
  intros out' s2 [H4 H5]. split; [done|]. rewrite length_app in H5. lia.
Qed.

(** The byte that does not fit. *)
Lemma read_too_long ch s : advance (place_of s) ch = None -> read_byte ch s = Fault OutOfBounds.
Proof.
  unfold advance. cbn [in_subneg place_of in_option after_iac]. intros Ha.
  assert (Hg : grow (place_of s) = None -> forall c, subneg_push c s = Fault OutOfBounds).
  { unfold grow, subneg_push. cbn [subneg_n place_of]. intros Hg c. rewrite (bind_done _ _ s (subneg_buffer s) s eq_refl).
    by destruct (_ <? _). }
  unfold read_byte. rewrite (bind_done get_nvt _ s (nvt s) s eq_refl). destruct (subneg_end (nvt s)).
  - unfold subneg_byte, mbind, M_bind. cbv beta. change (get_nvt s) with (@Done (telnet_state * net_state) (nvt s, s)). cbv iota beta.
    destruct (ch =? TELNET_SE); [done|]. destruct (ch =? TELNET_IAC); [destruct (iac (nvt s)); [|done]|]; by rewrite Hg.
  - destruct (dowill (nvt s)); [done|]. destruct (ch =? TELNET_IAC); [done|]. destruct (iac (nvt s)); [by destruct (ch =? TELNET_SB)|done].
Qed.

Lemma read_loop_too_long max l : forall out s,
  short_lang s -> contained (place_of s) l = false -> Z.of_nat (length out) + 2 * Z.of_nat (length l) <= max ->
  read_loop max l out s = Fault OutOfBounds.
Proof.
  induction l as [|ch l IH]; intros out s Hl Hc Hm; [done|]. cbn [contained read_loop length] in *.
  destruct (advance (place_of s) ch) as [t|] eqn:Ea; [|by unfold mbind, M_bind; rewrite (read_too_long ch s Ea)].
  destruct (wp_run _ _ _ (wp_read_byte ch s t Hl Ea)) as (xs & s1 & E & H1 & H2 & H3).
  rewrite (bind_done _ _ _ _ _ E). rewrite (proj2 (Z.leb_le _ _)) by (rewrite length_app; lia).
  apply IH; [by eapply same_env_lang|by rewrite H2|rewrite length_app; lia].
Qed.

(** C9: whatever the other side sends, a read that has twice the room of its input
    returns, stays in every buffer and fails no assertion, exactly as long as no
    subnegotiation grows past 128 bytes; the first that does is written past the
    end of the buffer it is collected in. *)
Theorem telnet_read_safe count l s :
  state s <> INIT -> read_buffer s = [] -> is_eof (nvt s) = false -> l <> [] ->
  2 * Z.of_nat (length l) <= count <= Q_BUFFER_SIZE -> short_lang s ->
  if contained (place_of s) l
  then exists rc out s', telnet_read count (Received l) s = Done (rc, out, s') /\ (length out <= 2 * length l)%nat
  else telnet_read count (Received l) s = Fault OutOfBounds.
Proof.
  intros H1 H2 H3 Hne Hc Hl. destruct (read_head count l s H1 H2 H3 Hne) as (b & E); [lia|]. rewrite E. set (s1 := s <| read_buffer := b |>).
  change (place_of s) with (place_of s1). change (short_lang s1) in Hl. destruct (contained (place_of s1) l) eqn:Hk.
  - assert (H : wp (read_loop count l [] ≫= hand_over) s1 (fun '(_, out) _ => (length out <= 2 * length l)%nat)).
    { apply wp_bind. eapply wp_mono; [apply wp_read_loop; [done|done|cbn [length]; lia]|]. intros out s2 [_ Ho]. unfold hand_over.
      apply wp_bind, wp_modify. destruct out; [apply wp_bind, wp_modify|]; apply wp_ret; cbn [length] in *; lia. }
    destruct (wp_run _ _ _ H) as ([rc out] & s' & E' & Ho). by exists rc, out, s'.
  - unfold mbind, M_bind. rewrite (read_loop_too_long count l [] s1 Hl Hk); [done|cbn [length]; lia].
Qed.

Lemma telnet_read_safe_witness :
  let s := settled false [] in
  exists rc out s', telnet_read 20 (Received [65; TELNET_IAC; TELNET_DO; 31; 66]) s = Done (rc, out, s') /\ (length out <= 10)%nat.
Proof. intros s. by apply (telnet_read_safe 20 [65; TELNET_IAC; TELNET_DO; 31; 66] s). Defined.
