(* ===== verification/Kermit.v ===== *)
(** kermit.c: session parameters, the data field codec and the packet layer of
    the Kermit protocol.

    The state is the file's static variables with the output buffer of the
    current call; KermitMachine holds the windows, the state machine and the
    entry points. *)

From Stdlib Require Import ZArith Lia List Bool Ascii.
From stdpp Require Import base list numbers gmap strings.
From S2P Require Import Prelude Crc Stdio Strptime Protocols.
Import Strptime.

Module Kermit.

(** ** Data types *)

Definition C_SOH : Z := 0x01.
Definition C_LF : Z := 0x0A.
Definition C_CR : Z := 0x0D.
Definition SP : Z := 32.

Definition KERMIT_BLOCK_SIZE : Z := 1024.
Definition DIALOG_MESSAGE_SIZE : Z := 128.

Inductive PACKET_TYPE :=
| P_KSINIT | P_KACK | P_KNAK | P_KDATA | P_KFILE | P_KEOF | P_KBREAK | P_KERROR | P_KSERVINIT
| P_KTEXT | P_KRINIT | P_KATTRIBUTES | P_KCOMMAND | P_KKERMIT_COMMAND | P_KGENERIC_COMMAND
| P_KRESERVED1 | P_KRESERVED2.

(** [packet_type_chars]: the type and its character. *)
Definition packet_type_chars : list (PACKET_TYPE * Z) :=
  [(P_KSINIT, 83); (P_KACK, 89); (P_KNAK, 78); (P_KDATA, 68); (P_KFILE, 70); (P_KEOF, 90);
   (P_KBREAK, 66); (P_KERROR, 69); (P_KSERVINIT, 73); (P_KTEXT, 88); (P_KRINIT, 82);
   (P_KATTRIBUTES, 65); (P_KCOMMAND, 67); (P_KKERMIT_COMMAND, 75); (P_KGENERIC_COMMAND, 71);
   (P_KRESERVED1, 84); (P_KRESERVED2, 81)].

Inductive STATE :=
| INIT | COMPLETE | ABORT
| KM_S | KM_SF | KM_SA | KM_SDW | KM_SZ | KM_SB
| KM_R | KM_RF | KM_RDW.

Inductive K_ACCESS := K_ACCESS_NEW | K_ACCESS_SUPERSEDE | K_ACCESS_APPEND | K_ACCESS_WARN.

#[global] Instance PACKET_TYPE_eq_dec : EqDecision PACKET_TYPE.
Proof. solve_decision. Defined.
#[global] Instance STATE_eq_dec : EqDecision STATE.
Proof. solve_decision. Defined.
#[global] Instance K_ACCESS_eq_dec : EqDecision K_ACCESS.
Proof. solve_decision. Defined.

Record session_parameters := {
  MARK : Z; MAXL : Z; TIME : Z; NPAD : Z; PADC : Z; EOL : Z; QCTL : Z; QBIN : Z; CHKT : Z; REPT : Z;
  CAPAS : Z; WINDO : Z; MAXLX1 : Z; MAXLX2 : Z; WHATAMI : Z;
  attributes : bool; windowing : bool; long_packets : bool; streaming : bool;
  WINDO_in : Z; WINDO_out : Z
}.
#[export] Instance eta_parms : Eta session_parameters := fun p =>
  {| MARK := MARK p; MAXL := MAXL p; TIME := TIME p; NPAD := NPAD p; PADC := PADC p; EOL := EOL p;
     QCTL := QCTL p; QBIN := QBIN p; CHKT := CHKT p; REPT := REPT p; CAPAS := CAPAS p;
     WINDO := WINDO p; MAXLX1 := MAXLX1 p; MAXLX2 := MAXLX2 p; WHATAMI := WHATAMI p;
     attributes := attributes p; windowing := windowing p; long_packets := long_packets p;
     streaming := streaming p; WINDO_in := WINDO_in p; WINDO_out := WINDO_out p |}.

Record KERMIT_STATUS := {
  state : STATE;
  check_type : Z;
  sequence_number : Z;
  sending : bool;
  file_name : option cstring;
  file_size : Z;
  file_size_k : Z;
  file_modtime : Z;
  file_position : Z;
  file_stream : option FILE;
  file_protection : Z;
  outstanding_bytes : Z;
  status_block_size : Z;
  access : K_ACCESS;
  timeout_begin : Z;
  timeout_max : Z;
  timeout_count : Z;
  first_R : bool;
  first_S : bool;
  first_SB : bool;
  sent_nak : bool;
  skip_file : bool;
  text_mode : bool;
  seven_bit_only : bool;
  do_resend : bool;
  is_first_data_packet : bool;
  file_fullname : cstring
}.
#[export] Instance eta_status : Eta KERMIT_STATUS := fun s =>
  {| state := state s; check_type := check_type s; sequence_number := sequence_number s;
     sending := sending s; file_name := file_name s; file_size := file_size s;
     file_size_k := file_size_k s; file_modtime := file_modtime s;
     file_position := file_position s; file_stream := file_stream s;
     file_protection := file_protection s; outstanding_bytes := outstanding_bytes s;
     status_block_size := status_block_size s; access := access s;
     timeout_begin := timeout_begin s; timeout_max := timeout_max s;
     timeout_count := timeout_count s; first_R := first_R s; first_S := first_S s;
     first_SB := first_SB s; sent_nak := sent_nak s; skip_file := skip_file s;
     text_mode := text_mode s; seven_bit_only := seven_bit_only s; do_resend := do_resend s;
     is_first_data_packet := is_first_data_packet s; file_fullname := file_fullname s |}.

(** [type] is [None] for the value -1 that [packet_type] returns. *)
Record kermit_packet := {
  parsed_ok : bool;
  seq : Z;
  type : option PACKET_TYPE;
  plength : Z;
  long_packet : bool;
  pdata : list Z;
  data_n : Z;
  data_max : Z
}.
#[export] Instance eta_packet : Eta kermit_packet := fun p =>
  {| parsed_ok := parsed_ok p; seq := seq p; type := type p; plength := plength p;
     long_packet := long_packet p; pdata := pdata p; data_n := data_n p; data_max := data_max p |}.

(** A slot of a window; [sl_data] is the block its pointer owns. *)
Record kermit_packet_serial := {
  sl_seq : Z;
  try_count : Z;
  acked : bool;
  sl_type : option PACKET_TYPE;
  sl_data : option (list Z);
  sl_data_n : Z
}.
#[export] Instance eta_serial : Eta kermit_packet_serial := fun p =>
  {| sl_seq := sl_seq p; try_count := try_count p; acked := acked p; sl_type := sl_type p;
     sl_data := sl_data p; sl_data_n := sl_data_n p |}.

(** The buffer packets are appended to: the array, the bytes in use. *)
Record outbuf := { ob : list Z; ob_n : Z }.
#[export] Instance eta_outbuf : Eta outbuf := fun b => {| ob := ob b; ob_n := ob_n b |}.

(** What the protocol reads of the program around it: the options in
    [q_status], whether the line is serial with less than eight data bits, and
    the two functions of the C library that know the time zone, localtime() and
    mktime(); localtime() of the time of a file is taken not to fail. *)
Record environment := {
  kermit_long_packets : bool;
  kermit_streaming : bool;
  kermit_robust_filename : bool;
  kermit_uploads_force_binary : bool;
  kermit_downloads_convert_text : bool;
  kermit_resend : bool;
  seven_bit_line : bool;
  localtime : Z -> tm;
  mktime : tm -> Z
}.

Record kermit_state := {
  shared : common;
  env : environment;
  status : KERMIT_STATUS;
  local_parms : session_parameters;
  remote_parms : session_parameters;
  session_parms : session_parameters;
  upload_file_list : option (list file_info);
  upload_file_list_i : nat;
  download_path : option cstring;
  input_packet : kermit_packet;
  output_packet : kermit_packet;
  packet_buffer : list Z;
  packet_buffer_n : Z;
  input_window : option (list kermit_packet_serial);
  input_window_begin : Z;
  input_window_i : Z;
  input_window_n : Z;
  output_window : option (list kermit_packet_serial);
  output_window_begin : Z;
  output_window_i : Z;
  output_window_n : Z;
  ctrl_c_count : Z;
  output : outbuf
}.
#[export] Instance eta_kermit : Eta kermit_state := fun s =>
  {| shared := shared s; env := env s; status := status s; local_parms := local_parms s;
     remote_parms := remote_parms s; session_parms := session_parms s;
     upload_file_list := upload_file_list s; upload_file_list_i := upload_file_list_i s;
     download_path := download_path s; input_packet := input_packet s;
     output_packet := output_packet s; packet_buffer := packet_buffer s;
     packet_buffer_n := packet_buffer_n s; input_window := input_window s;
     input_window_begin := input_window_begin s; input_window_i := input_window_i s;
     input_window_n := input_window_n s; output_window := output_window s;
     output_window_begin := output_window_begin s; output_window_i := output_window_i s;
     output_window_n := output_window_n s; ctrl_c_count := ctrl_c_count s; output := output s |}.

Definition initial_status : KERMIT_STATUS :=
  {| state := INIT; check_type := 1; sequence_number := 0; sending := false; file_name := None;
     file_size := 0; file_size_k := 0; file_modtime := 0; file_position := 0; file_stream := None;
     file_protection := 0; outstanding_bytes := 0; status_block_size := KERMIT_BLOCK_SIZE;
     access := K_ACCESS_WARN; timeout_begin := 0; timeout_max := 5; timeout_count := 0;
     first_R := false; first_S := false; first_SB := false; sent_nak := false; skip_file := false;
     text_mode := false; seven_bit_only := false; do_resend := false;
     is_first_data_packet := false; file_fullname := [] |}.

Definition zero_parms : session_parameters :=
  {| MARK := 0; MAXL := 0; TIME := 0; NPAD := 0; PADC := 0; EOL := 0; QCTL := 0; QBIN := 0;
     CHKT := 0; REPT := 0; CAPAS := 0; WINDO := 0; MAXLX1 := 0; MAXLX2 := 0; WHATAMI := 0;
     attributes := false; windowing := false; long_packets := false; streaming := false;
     WINDO_in := 0; WINDO_out := 0 |}.
Definition zero_packet : kermit_packet :=
  {| parsed_ok := false; seq := 0; type := Some P_KSINIT; plength := 0; long_packet := false;
     pdata := []; data_n := 0; data_max := 0 |}.
Definition zero_slot : kermit_packet_serial :=
  {| sl_seq := 0; try_count := 0; acked := false; sl_type := Some P_KSINIT; sl_data := None;
     sl_data_n := 0 |}.
Definition empty_outbuf (n : Z) : outbuf := {| ob := replicate (Z.to_nat n) 0; ob_n := 0 |}.

(** The static variables as the program starts. *)
Definition statics (c : common) (e : environment) (room : Z) : kermit_state :=
  {| shared := c; env := e; status := initial_status; local_parms := zero_parms;
     remote_parms := zero_parms; session_parms := zero_parms; upload_file_list := None;
     upload_file_list_i := 0; download_path := None; input_packet := zero_packet;
     output_packet := zero_packet; packet_buffer := replicate 2048 0; packet_buffer_n := 0;
     input_window := None; input_window_begin := 0; input_window_i := 0; input_window_n := 0;
     output_window := None; output_window_begin := 0; output_window_i := 0; output_window_n := 0;
     ctrl_c_count := 0; output := empty_outbuf room |}.

Definition K (A : Type) : Type := M kermit_state A.

(** ** Access *)

Definition lift {A} (m : M common A) : K A := zoom shared (fun c s => s <| shared := c |>) m.
Definition on_stats (f : q_transfer_stats_struct -> q_transfer_stats_struct) : K unit :=
  lift (stats f).
Definition last_msg (m : message) : K unit := lift (set_transfer_stats_last_message m).
Definition say (s : string) : K unit := last_msg (s, []).
Definition dirty : K unit := lift (modify (fun c => c <| q_screen_dirty := true |>)).
Definition on_status (f : KERMIT_STATUS -> KERMIT_STATUS) : K unit :=
  modify (fun s => s <| status ::= f |>).
Definition on_input (f : kermit_packet -> kermit_packet) : K unit :=
  modify (fun s => s <| input_packet ::= f |>).
Definition on_output (f : kermit_packet -> kermit_packet) : K unit :=
  modify (fun s => s <| output_packet ::= f |>).
Definition set_state (v : STATE) : K unit := on_status (fun st => st <| state := v |>).
Definition get_disk : K disk := gets (fun s => the_disk (shared s)).
Definition set_disk (d : disk) : K unit := lift (modify (fun c => c <| the_disk := d |>)).

(** [output_packet.data[off ..] = xs] *)
Definition put_data (off : Z) (xs : list Z) : K unit :=
  p ← gets output_packet;
  buf ← memcpy (pdata p) off xs;
  on_output (fun p => p <| pdata := buf |>).

(** [output_packet] made ready: flag, type, sequence number and data. *)
Definition make_packet (t : PACKET_TYPE) (n : Z) (xs : list Z) : K unit :=
  on_output (fun p => p <| parsed_ok := true |> <| type := Some t |> <| seq := n |>);;
  put_data 0 xs;;
  on_output (fun p => p <| data_n := Z.of_nat (length xs) |>).

(** ** Packet types *)

(** [packet_type] *)
Fixpoint find_type (type_char : Z) (l : list (PACKET_TYPE * Z)) : option PACKET_TYPE :=
  match l with
  | [] => None
  | (t, c) :: l => if c =? type_char then Some t else find_type type_char l
  end.
Definition packet_type (type_char : Z) : option PACKET_TYPE := find_type type_char packet_type_chars.

(** [packet_type_chars[t].packet_char] *)
Fixpoint find_char (t : PACKET_TYPE) (l : list (PACKET_TYPE * Z)) : Z :=
  match l with
  | [] => 0
  | (t', c) :: l => if decide (t' = t) then c else find_char t l
  end.
Definition packet_char (t : PACKET_TYPE) : Z := find_char t packet_type_chars.

(** ** Defaults *)

(** [set_default_session_parameters], on the options and the line. *)
Definition set_default_session_parameters (e : environment) (seven_bit : bool) : session_parameters :=
  {| MARK := C_SOH; MAXL := 80; TIME := 5; NPAD := 0; PADC := 0; EOL := C_CR; QCTL := 35;
     QBIN := if seven_bit then 38 else 89;
     CHKT := 51; REPT := 126;
     CAPAS := Z.lor (Z.lor (Z.lor 0x10 0x08) 0x04) (if kermit_long_packets e then 0x02 else 0);
     WINDO := 30; WINDO_in := 1; WINDO_out := 1;
     MAXLX1 := KERMIT_BLOCK_SIZE / 95; MAXLX2 := KERMIT_BLOCK_SIZE mod 95;
     attributes := true; windowing := true;
     long_packets := kermit_long_packets e;
     streaming := kermit_streaming e;
     WHATAMI := if kermit_streaming e then 0x28 else 0 |}.

(** ** Checks *)

(** A byte as the check functions see it. *)
Definition channel (seven_bit : bool) (b : Z) : Z := if seven_bit then Z.land b 0x7F else b.

Definition compute_checksum (seven_bit : bool) (ptr : list Z) : Z :=
  let sum := fold_left (fun sum b => u8 (sum + channel seven_bit b)) ptr 0 in
  u8 (Z.land (sum + Z.land sum 0xC0 / 0x40) 0x3F).

Definition compute_checksum2 (seven_bit : bool) (ptr : list Z) : Z :=
  Z.land (fold_left (fun sum b => i16 (sum + channel seven_bit b)) ptr 0) 0x0FFF.

(** ** Stopping *)

Definition kermit_stop (save_partial : bool) : K unit :=
  st ← gets status;
  (if save_partial || sending st then mret tt
   else match file_stream st with
        | None => mret tt
        | Some _ =>
          name ← nonnull (file_name st);
          d ← get_disk;
          if decide (is_Some (d_files d !! name))
          then set_disk (d <| d_files ::= delete name |>)
          else lift (emit (Ev_notify "Error deleting file"))
        end);;
  on_status (fun st => st <| file_stream := None |> <| file_name := None |>);;
  modify (fun s => s <| download_path := None |>).

(** protocols.c: [stop_file_transfer].  The batch upload list is freed, so
    [upload_file_list] dangles. *)
Definition stop_file_transfer (new_state : Q_TRANSFER_STATE) : K unit :=
  q ← gets (fun s => q_transfer_stats (shared s));
  whenM (bool_decide (qts_protocol q = Q_PROTOCOL_KERMIT)) (kermit_stop true);;
  lift (finish_file_transfer new_state);;
  modify (fun s => s <| upload_file_list := None |>).

(** ** Statistics *)

Definition stats_new_file (name : cstring) (filesize : Z) : K unit :=
  on_stats (fun q => q <| blocks_transfer := 0 |> <| bytes_transfer := 0 |> <| error_count := 0 |>);;
  say "";;
  on_stats (fun q => q
    <| bytes_total := u64 filesize |>
    <| blocks := u64 (u64 (Z.quot filesize KERMIT_BLOCK_SIZE) +
                      (if 0 <? Z.rem filesize KERMIT_BLOCK_SIZE then 1 else 0)) |>);;
  lift (set_transfer_stats_filename (basename name));;
  lift (set_transfer_stats_pathname (Some (dirname name)));;
  on_stats (fun q => q <| qts_state := Q_TRANSFER_STATE_TRANSFER |>);;
  dirty;;
  t ← lift time;
  on_stats (fun q => q <| file_start_time := t |>);;
  st ← gets status;
  lift (emit (Ev_log (if sending st then "UPLOAD: sending file %s/%s, %d bytes"
                      else "DOWNLOAD: receiving file %s/%s, %d bytes")%string)).

(** The divisions by [session_parms.MAXL] trap when it is zero. *)
Definition stats_increment_blocks : K unit :=
  s ← get;
  let st := status s in
  let maxl := MAXL (session_parms s) in
  if maxl =? 0 then raise Aborted
  else
    on_stats (fun q => q
      <| block_size := u64 (status_block_size st) |>
      <| blocks_transfer := u64 (Z.quot (file_position st) maxl +
                                 (if 0 <? Z.rem (file_position st) maxl then 1 else 0)) |>
      <| blocks := file_size st / maxl |>);;
    dirty.

Definition stats_increment_errors (m : message) : K unit :=
  last_msg m;;
  on_stats (fun q => q <| error_count ::= fun z => u64 (z + 1) |>).

(** ** Packets of the protocol layer *)

Definition error_packet (m : string) : K unit :=
  n ← gets (fun s => sequence_number (status s));
  make_packet P_KERROR (n mod 64) (str m).

(** [state = ABORT; set message; stop; error packet], the way out of most
    errors. *)
Definition abort_with (msg : string) (remote : string) : K unit :=
  set_state ABORT;;
  say msg;;
  stop_file_transfer Q_TRANSFER_STATE_ABORT;;
  error_packet remote.

(** The same with the message set first. *)
Definition sequence_error : K unit :=
  say "PACKET SEQUENCE ERROR";;
  set_state ABORT;;
  stop_file_transfer Q_TRANSFER_STATE_ABORT;;
  error_packet "Wrong packet in sequence".

Definition ack_packet_param (param : list Z) : K unit :=
  st ← gets status;
  assertM (negb (sending st));;
  n ← gets (fun s => seq (input_packet s));
  make_packet P_KACK n param.

Definition reset_timer : K unit :=
  t ← lift time;
  on_status (fun st => st <| timeout_begin := t |>).

Definition check_timeout : K bool :=
  now ← lift time;
  s ← get;
  let st := status s in
  if streaming (session_parms s) && bool_decide (state st = KM_RDW \/ state st = KM_SDW) then
    reset_timer;; mret false
  else if TIME (session_parms s) <=? now - timeout_begin st then
    on_status (fun st => st <| timeout_count ::= fun z => i32 (z + 1) |>);;
    st ← gets status;
    (if timeout_max st <=? timeout_count st then
       stats_increment_errors ("TOO MANY TIMEOUTS, TRANSFER CANCELLED"%string, []);;
       stop_file_transfer Q_TRANSFER_STATE_ABORT;;
       set_state ABORT;;
       error_packet "Too many timeouts"
     else stats_increment_errors ("TIMEOUT"%string, []));;
    reset_timer;;
    mret true
  else mret false.

(** ** Opening the file to receive *)

(** [sprintf(status.file_fullname, ..)] into its [FILENAME_SIZE] bytes. *)
Definition set_fullname (name : list Z) : K unit :=
  if Z.of_nat (length name) <? FILENAME_SIZE
  then on_status (fun st => st <| file_fullname := name |>)
  else raise OutOfBounds.

Definition io_error : K unit := abort_with "DISK I/O ERROR" "Disk I/O error".

(** The loop that looks for a name that is not taken: [true] when found,
    [false] when it returned an error. *)
Fixpoint find_new_name (fuel i : nat) (base : list Z) : K bool :=
  match fuel with
  | O => diverge
  | S fuel =>
    set_fullname (base ++ [46] ++ print_04d i);;
    d ← get_disk;
    name ← gets (fun s => file_fullname (status s));
    match stat d name with
    | Stat_enoent => on_status (fun st => st <| file_position := 0 |>);; mret true
    | Stat_error => io_error;; mret false
    | Stat_ok _ => find_new_name fuel (S i) base
    end
  end.

(** What to do with a file that exists: whether a new name is needed. *)
Definition existing_file (size : Z) : K bool :=
  st ← gets status;
  let fsize := if 0 <? file_size st then file_size st
               else if 0 <? file_size_k st then u32 (file_size_k st * 1024) else 0 in
  match access st with
  | K_ACCESS_NEW | K_ACCESS_SUPERSEDE => mret true
  | K_ACCESS_WARN =>
    if do_resend st then on_status (fun st => st <| file_position := size |>);; mret false
    else mret true
  | K_ACCESS_APPEND =>
    on_status (fun st => st <| file_position := size |>);;
    if fsize <? size then on_status (fun st => st <| file_position := 0 |>);; mret true
    else whenM (0 <? fsize) (say "APPEND");; mret false
  end.

(** The name under which the file is opened: [None] after an error, otherwise
    whether the file exists already. *)
Definition choose_name (base : list Z) : K (option bool) :=
  set_fullname base;;
  d ← get_disk;
  match stat d base with
  | Stat_error => io_error;; mret None
  | Stat_enoent =>
    on_status (fun st => st <| file_position := 0 |>);; say "FILE HEADER";; mret (Some false)
  | Stat_ok size =>
    new ← existing_file size;
    if new : bool then
      ok ← find_new_name (S (base.size (d_files d))) 0 base;
      mret (if ok : bool then Some false else None)
    else mret (Some true)
  end.

(** The answer to an Attributes packet. *)
Definition answer_attributes : K unit :=
  s ← get;
  whenM (bool_decide (type (input_packet s) = Some P_KATTRIBUTES))
    (if do_resend (status s) then
       let number := print_base 10 (u64 (file_position (status s))) in
       ack_packet_param ([49; Z.of_nat (length number) + 32] ++ number)
     else ack_packet_param (str "Y")).

Definition open_receive_file : K bool :=
  st ← gets status;
  assertM (bool_decide (file_stream st = None));;
  if do_resend st && text_mode st then ack_packet_param (str "N+");; mret false
  else
    path ← gets download_path; path ← nonnull path;
    name ← nonnull (file_name st);
    exists_ ← choose_name (path ++ [SLASH] ++ name);
    match exists_ with
    | None => mret false
    | Some file_exists =>
      d ← get_disk;
      full ← gets (fun s => file_fullname (status s));
      let opened :=
        if file_exists : bool
        then match fopen_update d full with Some f => Some (d, f) | None => None end
        else fopen_wb d full in
      match opened with
      | None => abort_with "CANNOT CREATE FILE" "Disk I/O error: cannot create file";; mret false
      | Some (d, f) =>
        set_disk d;;
        on_status (fun st => st <| file_stream := Some (snd (fseek_end d f 0)) |>);;
        answer_attributes;;
        st ← gets status;
        (if file_modtime st =? -1
         then t ← lift time; on_status (fun st => st <| file_modtime := t |>)
         else mret tt);;
        stats_new_file full
          (i32 (if (0 <? file_size_k st) && (file_size st <=? 0)
                then u32 (file_size_k st * 1024) else file_size st));;
        on_stats (fun q => q <| bytes_transfer := u64 (file_position st) |>);;
        mret true
      end
    end.

(** ** Bytes *)

Definition kermit_tochar (b : Z) : Z := u8 (b + 32).
Definition kermit_unchar (ch : Z) : Z := u8 (ch - 32).
Definition kermit_ctl (b : Z) : Z := Z.lxor b 0x40.

(** A control character in seven bits: those that can not go over the line. *)
Definition is_ctl7 (ch7bit : Z) : bool := (ch7bit <? 0x20) || (ch7bit =? 0x7F).

(** ** Decoding the data field

    The parameters of [decode_data_field] that do not change in its loop:
    [dn_raw] is the case without prefixes (Send-Init, its ACK, Attributes),
    [dn_strip] the removal of CRs. *)
Record decoder := { dn_rept : Z; dn_qbin : Z; dn_qctl : Z; dn_raw : bool; dn_strip : bool }.

(** Its variables; [d_pending] is [output_ch] while [do_output_ch] holds. *)
Record decoding := {
  d_ctrl : bool; d_8bit : bool; d_rept : bool; d_count : Z; d_pending : option Z; d_out : list Z
}.
#[export] Instance eta_decoding : Eta decoding := fun d =>
  {| d_ctrl := d_ctrl d; d_8bit := d_8bit d; d_rept := d_rept d; d_count := d_count d;
     d_pending := d_pending d; d_out := d_out d |}.

Definition start_decoding : decoding :=
  {| d_ctrl := false; d_8bit := false; d_rept := false; d_count := 1; d_pending := None; d_out := [] |}.

(** [repeat_count] copies go to the output. *)
Definition emit_copies (p : decoder) (ch : Z) (d : decoding) : decoding :=
  d <| d_out ::= fun out => out ++ (if dn_strip p && (ch =? C_CR) then []
                                    else replicate (Z.to_nat (d_count d)) ch) |>
    <| d_count := 1 |>.

(** Output a previously-escaped character. *)
Definition flush_pending (p : decoder) (d : decoding) : decoding :=
  match d_pending d with
  | Some ch => emit_copies p ch d <| d_pending := None |>
  | None => d
  end.

(** The characters with a meaning of their own. *)
Definition on_rept (p : decoder) (d : decoding) : decoding :=
  if d_ctrl d && d_8bit d then
    d <| d_pending := Some (Z.lor (dn_rept p) 0x80) |>
      <| d_ctrl := false |> <| d_8bit := false |> <| d_rept := false |>
  else if d_ctrl d then
    d <| d_pending := Some (dn_rept p) |> <| d_ctrl := false |> <| d_rept := false |>
  else if d_rept d then d <| d_count := kermit_unchar (dn_rept p) |> <| d_rept := false |>
  else d <| d_rept := true |>.

Definition on_qctl (p : decoder) (d : decoding) : decoding :=
  if d_8bit d && d_ctrl d then
    d <| d_pending := Some (Z.lor (dn_qctl p) 0x80) |> <| d_ctrl := false |> <| d_8bit := false |>
  else if d_ctrl d then d <| d_pending := Some (dn_qctl p) |> <| d_ctrl := false |>
  else d <| d_ctrl := true |>.

(** [None]: two prefixes for the eighth bit in a row. *)
Definition on_qbin (p : decoder) (d : decoding) : option decoding :=
  if d_8bit d && negb (d_ctrl d) then None
  else if d_8bit d && d_ctrl d then
    Some (d <| d_pending := Some (Z.lor (dn_qbin p) 0x80) |> <| d_ctrl := false |> <| d_8bit := false |>)
  else if d_ctrl d then Some (d <| d_pending := Some (dn_qbin p) |> <| d_ctrl := false |>)
  else Some (d <| d_8bit := true |>).

Definition on_regular (p : decoder) (ch : Z) (d : decoding) : decoding :=
  let ch := if d_ctrl d && is_ctl7 (Z.land (kermit_ctl ch) 0x7F) then kermit_ctl ch else ch in
  let ch := if d_8bit d then Z.lor ch 0x80 else ch in
  emit_copies p ch (d <| d_ctrl := false |> <| d_8bit := false |>).

(** One turn of the loop. *)
Definition decode_char (p : decoder) (ch : Z) (d : decoding) : option decoding :=
  let d := flush_pending p d in
  if dn_raw p then Some (d <| d_out ::= fun out => out ++ [ch] |>)
  else if negb (dn_rept p =? SP) && (ch =? dn_rept p) then Some (on_rept p d)
  else if d_rept d then Some (d <| d_count := kermit_unchar ch |> <| d_rept := false |>)
  else if ch =? dn_qctl p then Some (on_qctl p d)
  else if negb (dn_qbin p =? SP) && (ch =? dn_qbin p) then on_qbin p d
  else Some (on_regular p ch d).

(** The loop: the last state, and whether it got to the end of its input. *)
Fixpoint decode_loop (p : decoder) (input : list Z) (d : decoding) : decoding * bool :=
  match input with
  | [] => (d, true)
  | ch :: input =>
    match decode_char p ch d with
    | Some d => decode_loop p input d
    | None => (flush_pending p d, false)
    end
  end.

(** [*output_max] after [n] bytes were written: the buffer doubles when full. *)
Fixpoint grown (fuel : nat) (max n : Z) : Z :=
  match fuel with
  | O => max
  | S fuel => if n <=? max then max else grown fuel (u32 (max * 2)) n
  end.

(** The decoded bytes in [input_packet.data]; memory that [Xrealloc] adds is
    zero here, the code never reads it. *)
Definition put_decoded (out : list Z) : K unit :=
  p ← gets input_packet;
  let max := grown 32 (data_max p) (Z.of_nat (length out)) in
  buf ← memcpy (extend (Z.to_nat max) (pdata p)) 0 out;
  on_input (fun p => p <| pdata := buf |> <| data_max := max |>).

(** [decode_data_field(type, input, input_n, &input_packet.data, ..)], its only
    call: [avail] are the bytes from [input] to the end of the array it points
    into. *)
Definition decode_data_field (t : option PACKET_TYPE) (avail : list Z) (input_n : Z) : K bool :=
  st ← gets status;
  whenM (bool_decide (t = Some P_KDATA) && bool_decide (state st = KM_RDW) &&
         bool_decide (file_stream st = None))
    (open_receive_file;; mret tt);;
  s ← get;
  let p := {|
    dn_rept := REPT (session_parms s); dn_qbin := QBIN (session_parms s);
    dn_qctl := QCTL (remote_parms s);
    dn_raw := ((seq (input_packet s) =? 0) && bool_decide (t = Some P_KACK \/ t = Some P_KSINIT)) ||
              bool_decide (t = Some P_KATTRIBUTES);
    dn_strip := bool_decide (t = Some P_KDATA) && bool_decide (state (status s) = KM_RDW) &&
                text_mode (status s) |} in
  let '(d, ok) := decode_loop p (take (Z.to_nat input_n) avail) start_decoding in
  if ok : bool then
    if Z.of_nat (length avail) <? input_n then raise OutOfBounds
    else
      let out := d_out (flush_pending p d) in
      put_decoded out;;
      on_input (fun p => p <| data_n := Z.of_nat (length out) |>);;
      mret true
  else put_decoded (d_out d);; mret false.

(** ** Encoding the data field *)

(** The parameters that do not change in the loop of [encode_data_field].
    [en_B] is the 'B' check; [en_raw] the case without prefixes; [en_max] is
    [data_max]. *)
Record encoder := {
  en_rept : Z; en_qbin : Z; en_qctl : Z; en_B : bool; en_raw : bool; en_text : bool;
  en_max : Z; en_maxl : Z
}.

(** One copy of a character. *)
Definition encode_copy (p : encoder) (ch : Z) : list Z :=
  let ch7bit := Z.land ch 0x7F in
  let need_qbin := negb (en_qbin p =? SP) && negb (Z.land ch 0x80 =? 0) in
  let quoted := (negb (en_rept p =? SP) && (ch7bit =? en_rept p)) ||
                (negb (en_qbin p =? SP) && (ch7bit =? en_qbin p)) || (ch7bit =? en_qctl p) in
  let ch_is_ctl := negb quoted && is_ctl7 ch7bit in
  let output_ch := if need_qbin then ch7bit else ch in
  (if need_qbin then [en_qbin p] else []) ++
  (if quoted || ch_is_ctl then [en_qctl p] else []) ++
  [if ch_is_ctl then kermit_ctl output_ch else output_ch].

Definition encode_one_byte (p : encoder) (ch : Z) (repeat_count : Z) : list Z :=
  if (3 <? repeat_count) || (en_B p && (ch =? SP))
  then [en_rept p; kermit_tochar (u8 repeat_count)] ++ encode_copy p ch
  else concat (replicate (Z.to_nat repeat_count) (encode_copy p ch)).

(** The variables of the loop.  [e_first] holds until the first character; [e_used]
    counts the bytes taken from the source, [e_crlf] is [crlf]. *)
Record encoding := {
  e_out : list Z; e_last : Z; e_count : Z; e_first : bool; e_crlf : bool; e_used : Z
}.
#[export] Instance eta_encoding : Eta encoding := fun e =>
  {| e_out := e_out e; e_last := e_last e; e_count := e_count e; e_first := e_first e;
     e_crlf := e_crlf e; e_used := e_used e |}.
Definition start_encoding : encoding :=
  {| e_out := []; e_last := 0; e_count := 0; e_first := true; e_crlf := false; e_used := 0 |}.

(** No more room in the destination; both limits are subtractions in
    [unsigned int]. *)
Definition field_full (p : encoder) (e : encoding) : bool :=
  let data_n := Z.of_nat (length (e_out e)) in
  (u32 (en_max p - 5) <=? data_n) || (en_text p && (u32 (en_maxl p - 5 - 2) <=? data_n)).

(** The end of a turn: count a repetition or put out the last character. *)
Definition feed (p : encoder) (ch : Z) (e : encoding) : encoding :=
  let e := if e_first e then e <| e_last := ch |> <| e_first := false |> <| e_count := 0 |> else e in
  if (e_last e =? ch) && (e_count e <? 94) then e <| e_count ::= Z.add 1 |>
  else e <| e_out ::= fun out => out ++ encode_one_byte p (e_last e) (e_count e) |>
         <| e_count := 1 |> <| e_last := ch |>.

(** The loop over the bytes left in the source.  A LF in a text file takes two
    turns, the second one without a byte from the source.  The result tells
    whether the source ended. *)
Fixpoint encode_loop (p : encoder) (src : list Z) (e : encoding) : encoding * bool :=
  if field_full p e then (e, false)
  else
    match src with
    | [] => (e, true)
    | ch :: src =>
      let e := e <| e_used ::= Z.add 1 |> in
      if en_raw p then encode_loop p src (e <| e_out ::= fun out => out ++ [ch] |>)
      else if en_text p && (ch =? C_CR) then encode_loop p src e
      else if en_text p && (ch =? C_LF) then
        let e := feed p C_CR (e <| e_crlf := true |>) in
        if field_full p e then (e, false)
        else encode_loop p src (feed p C_LF (e <| e_crlf := false |>))
      else encode_loop p src (feed p ch e)
    end.

(** What follows the loop. *)
Definition finish_field (p : encoder) (e : encoding) : list Z :=
  e_out e ++
  (if 0 <? e_count e then encode_one_byte p (e_last e) (e_count e) else []) ++
  (if en_text p && e_crlf e then encode_one_byte p C_LF 1 else []).

(** [encode_data_field(output_packet.type, output_packet.data, ..)], its only
    call: the encoded bytes.  File data comes from the stream, which is read
    byte by byte from [file_position] on; [fread] returns a [size_t], so the
    branch for a negative count is never taken. *)
Definition encode_data_field : K (list Z) :=
  s ← get;
  let p := output_packet s in
  let st := status s in
  let sess := session_parms s in
  let from_file := bool_decide (type p = Some P_KDATA) && bool_decide (state st = KM_SDW) in
  let en := {|
    en_rept := REPT sess; en_qbin := QBIN sess; en_qctl := QCTL (local_parms s);
    en_B := check_type st =? 12;
    en_raw := bool_decide (type p = Some P_KSINIT) ||
              ((sequence_number st =? 0) && bool_decide (type p = Some P_KACK)) ||
              bool_decide (type p = Some P_KATTRIBUTES);
    en_text := text_mode st;
    en_max := if long_packet p then u32 (MAXLX1 sess * 95 + MAXLX2 sess - 9) else MAXL sess;
    en_maxl := MAXL sess |} in
  if from_file : bool then
    f ← nonnull (file_stream st);
    let d := the_disk (shared s) in
    let f := fseek_set f (file_position st) in
    let src := fst (fread d f (length (f_data d f))) in
    let '(e, ended) := encode_loop en src start_encoding in
    let f := snd (fread d f (Z.to_nat (e_used e))) in
    let f := if ended : bool then snd (fread d f 1) else f in
    let out := finish_field en e in
    on_status (fun st => st <| file_stream := Some f |> <| outstanding_bytes := e_used e |>
                            <| status_block_size := Z.of_nat (length out) |>);;
    mret out
  else
    let '(e, _) := encode_loop en (take (Z.to_nat (data_n p)) (pdata p)) start_encoding in
    on_status (fun st => st <| outstanding_bytes ::= Z.add (e_used e) |>);;
    mret (finish_field en e).

(** ** Send-Init

    [process_send_init] on the data of the packet: each field replaces its
    default unless it is missing or blank. *)

Definition field (data : list Z) (i : nat) (set : Z -> session_parameters -> session_parameters)
    (p : session_parameters) : session_parameters :=
  match data !! i with
  | Some c => if c =? SP then p else set c p
  | None => p
  end.

Definition bit (v mask : Z) : bool := negb (Z.land v mask =? 0).

(** The capability bytes from [data[9]] on: only the first one counts; returns
    what follows the last one. *)
Fixpoint capas_loop (first : bool) (data : list Z) (p : session_parameters) :
    session_parameters * list Z :=
  match data with
  | [] => (p, [])
  | c :: data =>
    let capas := kermit_unchar c in
    let p := if first then
               p <| CAPAS := capas |> <| attributes := bit capas 0x08 |>
                 <| windowing := bit capas 0x04 |> <| long_packets := bit capas 0x02 |>
             else p in
    if bit capas 0x01 then capas_loop false data p else (p, data)
  end.

(** The bytes after the capabilities: WINDO, MAXLX1, MAXLX2, four checkpoint
    bytes, WHATAMI; what follows is only read for the debug log. *)
Definition extended_fields (rest : list Z) (p : session_parameters) : session_parameters :=
  let set (i : nat) f p := match rest !! i with Some c => f (kermit_unchar c) p | None => p end in
  set 7%nat (fun v p => if bit v 0x08 then p <| streaming := true |> else p)
    (set 2%nat (fun v p => p <| MAXLX2 := v |>)
       (set 1%nat (fun v p => p <| MAXLX1 := v |>)
          (set 0%nat (fun v p => p <| WINDO := v |>) p))).

(** The defaults of a bare Kermit. *)
Definition bare_parms (defaults : session_parameters) : session_parameters :=
  defaults <| MARK := C_SOH |> <| MAXL := 80 |> <| TIME := 5 |> <| NPAD := 0 |> <| PADC := 0 |>
    <| EOL := C_CR |> <| QCTL := 35 |> <| QBIN := SP |> <| CHKT := 49 |> <| REPT := SP |>
    <| CAPAS := 0 |> <| WHATAMI := 0 |> <| WINDO := 0 |> <| MAXLX1 := 0 |> <| MAXLX2 := 0 |>
    <| attributes := false |> <| windowing := false |> <| long_packets := false |>
    <| streaming := false |>.

(** If long packets are supported there is a default of 500 and a maximum. *)
Definition long_defaults (p : session_parameters) : session_parameters :=
  if long_packets p then
    let p := if (MAXLX1 p =? 0) && (MAXLX2 p =? 0)
             then p <| MAXLX1 := 500 / 95 |> <| MAXLX2 := 500 mod 95 |> else p in
    if KERMIT_BLOCK_SIZE <? MAXLX1 p * 95 + MAXLX2 p
    then p <| MAXLX1 := KERMIT_BLOCK_SIZE / 95 |> <| MAXLX2 := KERMIT_BLOCK_SIZE mod 95 |>
    else p
  else p.

Definition parse_send_init (defaults : session_parameters) (data : list Z) : option session_parameters :=
  let p := field data 0 (fun c p => p <| MAXL := kermit_unchar c |>) (bare_parms defaults) in
  if 94 <? MAXL p then None
  else
    let p := field data 1 (fun c p => p <| TIME := kermit_unchar c |>) p in
    let p := field data 2 (fun c p => p <| NPAD := kermit_unchar c |>) p in
    let p := field data 3 (fun c p => p <| PADC := kermit_ctl c |>) p in
    let p := field data 4 (fun c p => p <| EOL := kermit_unchar c |>) p in
    let p := field data 5 (fun c p => p <| QCTL := c |>) p in
    let p := field data 6 (fun c p => p <| QBIN := c |>) p in
    let p := field data 7 (fun c p => p <| CHKT := c |>) p in
    let p := field data 8 (fun c p => p <| REPT := c |>) p in
    let '(p, rest) := capas_loop true (drop 9 data) p in
    Some (long_defaults (extended_fields rest p)).

(** The bytes of [input_packet.data] up to [data_n]. *)
Definition packet_bytes (p : kermit_packet) : list Z := take (Z.to_nat (data_n p)) (pdata p).

Definition process_send_init : K bool :=
  s ← get;
  match parse_send_init (set_default_session_parameters (env s) (seven_bit_only (status s)))
          (packet_bytes (input_packet s)) with
  | Some p => modify (fun s => s <| remote_parms := p |>);; mret true
  | None => mret false
  end.

(** A valid prefix character. *)
Definition valid_prefix (c : Z) : bool :=
  ((33 <=? c) && (c <=? 62)) || ((96 <=? c) && (c <=? 126)).

Definition negotiate_qbin (local remote session qctl : Z) : Z :=
  let q := if remote =? 89 then (if valid_prefix local then local else session)
           else if remote =? 78 then SP
           else if valid_prefix remote then remote else session in
  let q := if q =? 89 then SP else q in
  if remote =? qctl then SP else q.

Definition negotiate_rept (local remote qctl qbin : Z) : Z :=
  let r := if local =? remote then remote else SP in
  if (remote =? qctl) || (remote =? qbin) then SP else r.

(** The windowing part; the flag tells whether the windows are allocated. *)
Definition negotiate_windows (l r p : session_parameters) : session_parameters * bool :=
  if eqb (windowing l) (windowing r) then
    let w := if WINDO r <? WINDO l then WINDO r else WINDO l in
    let p := if w <? 2 then p <| WINDO := 0 |> <| windowing := false |> <| WINDO_out := 1 |>
             else p <| WINDO := w |> <| WINDO_in := w |> <| WINDO_out := w |> in
    let '(p, alloc) :=
      if streaming p then (p <| windowing := false |>, false)
      else if windowing l then (p <| windowing := true |> <| CAPAS ::= fun c => Z.lor c 0x04 |>, true)
      else (p <| windowing := false |>, false) in
    (if windowing p then p else p <| WINDO_in := 1 |> <| WINDO_out := 1 |>, alloc)
  else (p <| windowing := false |>, false).

(** The negotiated parameters, from the old ones. *)
Definition negotiate (l r p : session_parameters) : session_parameters * bool :=
  let p := p <| MAXL := if MAXL l <? MAXL r then MAXL l else MAXL r |> <| TIME := TIME l |>
             <| NPAD := NPAD r |> <| PADC := PADC r |> <| EOL := EOL r |> <| QCTL := QCTL l |> in
  let p := p <| QBIN ::= fun q => negotiate_qbin (QBIN l) (QBIN r) q (QCTL l) |> in
  let p := p <| CHKT := if CHKT l =? CHKT r then CHKT r else 49 |> in
  let p := p <| REPT := negotiate_rept (REPT l) (REPT r) (QCTL l) (QBIN p) |> in
  let p := if eqb (attributes l) (attributes r)
           then p <| attributes := attributes l |> <| CAPAS := Z.lor 0x10 0x08 |>
           else p <| attributes := false |> <| CAPAS := 0 |> in
  let p := if eqb (long_packets l) (long_packets r)
           then p <| long_packets := long_packets l |>
                  <| CAPAS ::= fun c => if long_packets l then Z.lor c 0x02 else c |>
           else p <| long_packets := false |> in
  let p := if eqb (streaming l) (streaming r)
           then p <| streaming := streaming l |>
                  <| WHATAMI ::= fun w => if streaming l then 0x28 else w |>
           else p <| streaming := false |> <| WHATAMI := 0 |> in
  negotiate_windows l r p.

Definition zero_slots (n : Z) : list kermit_packet_serial := replicate (Z.to_nat n) zero_slot.

(** The resend flag is tested between the attributes and the long packets,
    which do not touch its bit of CAPAS. *)
Definition negotiate_send_init : K unit :=
  s ← get;
  let '(p, alloc) := negotiate (local_parms s) (remote_parms s) (session_parms s) in
  modify (fun s => s <| session_parms := p |>);;
  on_status (fun st => st <| check_type := if CHKT p =? 66 then 12 else CHKT p - 48 |>);;
  whenM (eqb (attributes (local_parms s)) (attributes (remote_parms s)))
    (on_status (fun st => st <| do_resend := true |>));;
  whenM alloc
    (assertM (bool_decide (is_Some (input_window s)));;
     assertM (bool_decide (is_Some (output_window s)));;
     modify (fun s => s
       <| input_window := Some (zero_slots (WINDO_in p)) |>
       <| output_window := Some (zero_slots (WINDO_out p)) |>
       <| input_window_n := 0 |> <| input_window_i := 0 |> <| input_window_begin := 0 |>)).

(** The data of a Send-Init and of its ACK, from the local and the session
    parameters. *)
Definition init_data (l p : session_parameters) : list Z :=
  [kermit_tochar (MAXL p); kermit_tochar (TIME p); kermit_tochar (NPAD l); kermit_ctl (PADC l);
   kermit_tochar (EOL l); QCTL l; QBIN p; CHKT p; REPT p; kermit_tochar (CAPAS p);
   kermit_tochar (WINDO p); kermit_tochar (MAXLX1 p); kermit_tochar (MAXLX2 p);
   48; 95; 95; 95; kermit_tochar (WHATAMI p)].

Definition ack_send_init : K unit :=
  on_status (fun st => st <| sequence_number := 0 |>);;
  s ← get;
  make_packet P_KACK 0 (init_data (local_parms s) (session_parms s)).

(** ** Window slots

    A window is a ring of [size] slots; [begin] is the oldest one in use and [i]
    the next free one. *)

Definition get_slot (w : option (list kermit_packet_serial)) (i : Z) : K kermit_packet_serial :=
  l ← nonnull w;
  if i <? 0 then raise OutOfBounds
  else match l !! Z.to_nat i with Some x => mret x | None => raise OutOfBounds end.

Definition upd_slot (w : option (list kermit_packet_serial)) (i : Z)
    (f : kermit_packet_serial -> kermit_packet_serial) : option (list kermit_packet_serial) :=
  alter f (Z.to_nat i) <$> w.

(** A slot of the input or output window; writing outside is undefined. *)
Definition in_slot (i : Z) : K kermit_packet_serial := w ← gets input_window; get_slot w i.
Definition out_slot (i : Z) : K kermit_packet_serial := w ← gets output_window; get_slot w i.
Definition on_in_slot (i : Z) (f : kermit_packet_serial -> kermit_packet_serial) : K unit :=
  in_slot i;; modify (fun s => s <| input_window ::= fun w => upd_slot w i f |>).
Definition on_out_slot (i : Z) (f : kermit_packet_serial -> kermit_packet_serial) : K unit :=
  out_slot i;; modify (fun s => s <| output_window ::= fun w => upd_slot w i f |>).

(** [i++; i %= size] *)
Definition ring_next (size i : Z) : K Z :=
  if size =? 0 then raise Aborted else mret ((i + 1) mod size).

(** [i = begin; do { if (p(slot i)) break; i++; i %= size; } while (i != stop)]:
    where it stopped. *)
Fixpoint ring_find (fuel : nat) (slot : Z -> K kermit_packet_serial)
    (p : kermit_packet_serial -> bool) (size stop i : Z) : K (option Z) :=
  match fuel with
  | O => diverge
  | S fuel =>
    x ← slot i;
    if p x then mret (Some i)
    else
      i ← ring_next size i;
      if i =? stop then mret None else ring_find fuel slot p size stop i
  end.
(** A ring is walked once. *)
Definition ring_fuel (size : Z) : nat := S (Z.to_nat size).

(** [seq_end_i]: the slot before [input_window_i]. *)
Definition input_end : K Z :=
  s ← get;
  let e := input_window_i s - 1 in
  mret (if e <? 0 then WINDO_in (session_parms s) - 1 else e).

(** Write a slot's data to the file and count it. *)
Definition write_slot (i : Z) : K unit :=
  x ← in_slot i;
  f ← gets (fun s => file_stream (status s)); f ← nonnull f;
  data ← (if sl_data_n x =? 0 then mret [] else nonnull (sl_data x));
  d ← get_disk;
  let '(_, d, f) := fwrite d f (take (Z.to_nat (sl_data_n x)) data) in
  set_disk d;;
  on_status (fun st => st <| file_stream := Some f |>
                          <| file_position ::= Z.add (sl_data_n x) |>);;
  st ← gets status;
  on_stats (fun q => q <| bytes_transfer := u64 (file_position st) |>);;
  stats_increment_blocks.

(** Roll off the oldest slot of the input window. *)
Definition roll_off : K unit :=
  s ← get;
  on_in_slot (input_window_begin s) (fun x => x <| sl_data := None |>);;
  b ← ring_next (WINDO_in (session_parms s)) (input_window_begin s);
  modify (fun s => s <| input_window_begin := b |> <| input_window_n ::= fun n => u32 (n - 1) |>).

Definition advance_input_i : K unit :=
  s ← get;
  i ← ring_next (WINDO_in (session_parms s)) (input_window_i s);
  modify (fun s => s <| input_window_i := i |> <| input_window_n ::= fun n => u32 (n + 1) |>).

Definition window_next_packet_seq (sq : Z) : K bool :=
  s ← get;
  if input_window_n s =? 0 then mret true
  else
    e ← input_end;
    x ← in_slot e;
    mret (sq =? (sl_seq x + 1) mod 64).

(** ** Packets of the receiver *)

Definition ack_packet (really : bool) : K unit :=
  s ← get;
  assertM (negb (sending (status s)));;
  if skip_file (status s) then
    on_status (fun st => st <| skip_file := false |>);;
    make_packet P_KACK (seq (input_packet s)) (str "X")
  else whenM (negb (streaming (session_parms s)) || really)
         (make_packet P_KACK (seq (input_packet s)) []).

Definition ack_file_packet : K unit :=
  s ← get;
  name ← nonnull (file_name (status s));
  make_packet P_KACK (seq (input_packet s)) name.

(** The sequence number [nak_packet] asks for. *)
Definition nak_seq : K Z :=
  s ← get;
  if 0 <? input_window_n s then
    let w := WINDO_in (session_parms s) in
    o ← ring_find (ring_fuel w) in_slot (fun x => negb (acked x)) w
          (input_window_i s) (input_window_begin s);
    match o with
    | Some i => x ← in_slot i; mret (sl_seq x)
    | None =>
      let e := input_window_i s - 1 in
      x ← in_slot (if e <? 0 then input_window_n s - 1 else e);
      mret (i32 (sl_seq x + 1))
    end
  else mret (i32 (sequence_number (status s) + 1)).

(** The part of [nak_packet] that saves the packet to the input window. *)
Definition nak_window : K unit :=
  s ← get;
  let sq := seq (input_packet s) in
  next ← window_next_packet_seq sq;
  if negb next then mret tt
  else
    b ← in_slot (input_window_begin s);
    let full := input_window_n s =? WINDO_in (session_parms s) in
    if full && negb (acked b) then on_output (fun p => p <| parsed_ok := false |>)
    else
      assertM (0 <? WINDO_in (session_parms s));;
      whenM (acked b && full)
        (whenM (bool_decide (sl_type b = Some P_KDATA)) (write_slot (input_window_begin s));;
         roll_off;;
         s ← get;
         on_in_slot (input_window_i s) (fun x => x
           <| sl_type := type (input_packet s) |> <| sl_seq := sq |> <| try_count := 1 |>
           <| acked := false |>);;
         x ← in_slot (input_window_i s);
         assertM (bool_decide (sl_data x = None));;
         on_in_slot (input_window_i s) (fun x => x <| sl_data_n := 0 |>);;
         advance_input_i).

Definition nak_packet : K unit :=
  s ← get;
  assertM (negb (sending (status s)));;
  sq ← nak_seq;
  let sq := if (sequence_number (status s) =? 0) && (seq (input_packet s) =? 0) then 0 else sq in
  make_packet P_KNAK sq [];;
  stats_increment_errors ("NAK - SEQ %u"%string, [sq]);;
  whenM (windowing (session_parms s)) nak_window.

(** ** Payloads *)

(** [input_packet.data[input_packet.data_n] = 0] *)
Definition terminate_data : K unit :=
  p ← gets input_packet;
  buf ← store (pdata p) (data_n p) 0;
  on_input (fun p => p <| pdata := buf |>).

Definition islower (c : Z) : bool := (97 <=? c) && (c <=? 122).
Definition isupper (c : Z) : bool := (65 <=? c) && (c <=? 90).
Definition isalnum (c : Z) : bool := islower c || isupper c || ((48 <=? c) && (c <=? 57)).
Definition tolower (c : Z) : Z := if isupper c then c + 32 else c.
Definition toupper (c : Z) : Z := if islower c then c - 32 else c.

Definition process_file_header : K bool :=
  terminate_data;;
  p ← gets input_packet;
  let name := packet_bytes p in
  let name := if existsb islower name then name else tolower <$> name in
  on_input (fun p => p <| pdata ::= fun b => blit b 0 name |>);;
  p ← gets input_packet;
  on_status (fun st => st <| file_name := Some (c_str (pdata p)) |> <| file_size := 0 |>
    <| file_size_k := 0 |> <| file_protection := 0xFFFF |> <| file_modtime := -1 |>);;
  mret true.

(** The text of an Error packet is the format of [set_transfer_stats_last_message],
    which prints into [DIALOG_MESSAGE_SIZE] bytes. *)
Definition process_error_packet : K unit :=
  terminate_data;;
  p ← gets input_packet;
  set_state ABORT;;
  let text := c_str (pdata p) in
  (if bool_decide (37 ∈ text) then raise Indeterminate
   else if DIALOG_MESSAGE_SIZE <=? Z.of_nat (length text) then raise OutOfBounds
   else last_msg ("%s"%string, text));;
  stop_file_transfer Q_TRANSFER_STATE_ABORT.

(** The formats of a date, in the order they are tried: "%C%y%m%d %H:%M:%S",
    "%y%m%d %H:%M:%S", "%C%y%m%d %H:%M", "%y%m%d %H:%M", "%C%y%m%d" and "%y%m%d". *)
Definition date_formats : list (list conversion) :=
  let day := [Year_of_century; Month; Day] in
  let clock := [White; Hour; Literal 58; Minute] in
  let seconds := [Literal 58; Second] in
  [Century :: day ++ clock ++ seconds; day ++ clock ++ seconds; Century :: day ++ clock; day ++ clock;
   Century :: day; day].

(** The first format that fits: [got_file_time], and [file_time] with what all the
    calls have written. *)
Fixpoint first_format (formats : list (list conversion)) (buffer : cstring) (file_time : tm_variable) :
    bool * tm_variable :=
  match formats with
  | [] => (false, file_time)
  | fmt :: formats =>
    let '(rc, file_time) := strptime buffer fmt file_time in
    if rc then (true, file_time) else first_format formats buffer file_time
  end.

(** The local variables of [process_attributes] that outlive an attribute. *)
Record attribute_locals := { kermit_protection : Z; file_time : tm_variable }.
#[export] Instance eta_attribute_locals : Eta attribute_locals := fun v =>
  {| kermit_protection := kermit_protection v; file_time := file_time v |}.
Definition initial_locals : attribute_locals := {| kermit_protection := 0; file_time := tm_unset |}.

(** One attribute: its type, the characters announced and [input_packet.data[i]],
    the character behind the length, which need not belong to them.  [mktime] reads
    all members of [file_time]. *)
Definition on_attribute (atype : Z) (value : list Z) (c : Z) (v : attribute_locals) : K attribute_locals :=
  e ← gets env;
  let buffer := c_str value in
  if atype =? 33 then
    on_status (fun st => st <| file_size_k := u32 (i32 (atol buffer)) |>);; mret v
  else if atype =? 34 then
    whenM (bool_decide (head value = Some 65) && kermit_downloads_convert_text e)
      (on_status (fun st => st <| text_mode := true |>));;
    mret v
  else if atype =? 35 then
    let '(got_file_time, ft) := first_format date_formats buffer (file_time v) in
    (if (got_file_time : bool) then
       match tm_value (-1) ft with
       | Some t => on_status (fun st => st <| file_modtime := mktime e t |>)
       | None => raise Indeterminate
       end
     else t ← lift time; on_status (fun st => st <| file_modtime := t |>));;
    mret (v <| file_time := ft |>)
  else if atype =? 41 then
    (if c =? 78 then on_status (fun st => st <| access := K_ACCESS_NEW |>)
     else if c =? 83 then on_status (fun st => st <| access := K_ACCESS_SUPERSEDE |>)
     else if c =? 65 then on_status (fun st => st <| access := K_ACCESS_APPEND |>)
     else whenM (c =? 87) (on_status (fun st => st <| access := K_ACCESS_WARN |>)));;
    mret v
  else if atype =? 43 then
    whenM (c =? 82) (on_status (fun st => st <| do_resend := true |>));;
    mret v
  else if atype =? 44 then
    on_status (fun st => st <| file_protection := u32 (i32 (strtol8 buffer)) |>);;
    mret v
  else if atype =? 45 then mret (v <| kermit_protection := kermit_unchar c |>)
  else if atype =? 49 then
    on_status (fun st => st <| file_size := u32 (i32 (atol buffer)) |>);; mret v
  else mret v.

Definition attribute_error (m : string) : K unit :=
  say m;;
  set_state ABORT;;
  stop_file_transfer Q_TRANSFER_STATE_ABORT;;
  error_packet "Error parsing packet".

(** The loop over the attributes, [l] what is left of the data: the local variables,
    or [None] after an error. *)
Fixpoint attributes_loop (fuel : nat) (l : list Z) (v : attribute_locals) : K (option attribute_locals) :=
  match l with
  | [] => mret (Some v)
  | [_] => attribute_error "ERROR PARSING ATTRIBUTE PACKET";; mret None
  | atype :: len :: l =>
    match fuel with
    | O => diverge
    | S fuel =>
      let n := Z.to_nat (kermit_unchar len) in
      if (length l <? n)%nat then attribute_error "ERROR PARSING PACKET";; mret None
      else
        v ← on_attribute atype (take n l) (default 0 (head l)) v;
        attributes_loop fuel (drop n l) v
    end
  end.

(** The protection made of the Kermit format.  Both reading and executing look
    at the bit 0x01. *)
Definition translate_protection (kp : Z) : Z :=
  let p := 384 in
  let p := if bit kp 0x01 then Z.lor p 36 else p in
  let p := if bit kp 0x02 then Z.lor p 18 else p in
  if bit kp 0x01 then Z.lor p 73 else p.

Definition process_attributes : K bool :=
  terminate_data;;
  p ← gets input_packet;
  r ← attributes_loop (length (pdata p)) (packet_bytes p) initial_locals;
  match r with
  | None => mret false
  | Some v =>
    st ← gets status;
    whenM ((file_protection st =? 0xFFFF) && negb (kermit_protection v =? -1))
      (on_status (fun st => st <| file_protection := translate_protection (kermit_protection v) |>));;
    mret true
  end.

(** ** Reading a packet *)

(** The first [MARK] among the bytes: its position. *)
Fixpoint find_mark (mark : Z) (l : list Z) : option nat :=
  match l with
  | [] => None
  | b :: l => if b =? mark then Some O else S <$> find_mark mark l
  end.

(** Tell the other side to re-send and discard the input. *)
Definition reject : K (bool * Z) :=
  s ← get;
  whenM (negb (sending (status s))) nak_packet;;
  mret (true, packet_buffer_n s).

(** [count] bytes of the array from [lo] on, for a check function; [count] is
    an [int]. *)
Definition slice (buf : list Z) (lo count : Z) : K (list Z) :=
  let count := i32 count in
  if count <=? 0 then mret []
  else if Z.of_nat (length buf) <? lo + count then raise OutOfBounds
  else mret (take (Z.to_nat count) (drop (Z.to_nat lo) buf)).

(** The check characters of a message. *)
Definition check_chars (seven_bit : bool) (ctype : Z) (l : list Z) : list Z :=
  if ctype =? 1 then [kermit_tochar (compute_checksum seven_bit l)]
  else if ctype =? 2 then
    let c := compute_checksum2 seven_bit l in
    [kermit_tochar (Z.land (Z.shiftr c 6) 0x3F); kermit_tochar (Z.land c 0x3F)]
  else if ctype =? 12 then
    let c := compute_checksum2 seven_bit l in
    [kermit_tochar (Z.land (Z.shiftr c 6) 0x3F + 1); kermit_tochar (Z.land c 0x3F + 1)]
  else if ctype =? 3 then
    let c := kermit_compute_crc16 seven_bit l in
    [kermit_tochar (Z.land (Z.shiftr c 12) 0x0F); kermit_tochar (Z.land (Z.shiftr c 6) 0x3F);
     kermit_tochar (Z.land c 0x3F)]
  else [].

(** Whether the check characters from [at_] on are those of the message. *)
Definition check_good (seven_bit : bool) (ctype : Z) (l buf : list Z) (at_ : Z) : K bool :=
  if ctype =? 1 then
    c ← load buf at_;
    mret (kermit_tochar (compute_checksum seven_bit l) =? c)
  else if ctype =? 2 then
    c1 ← load buf at_; c2 ← load buf (at_ + 1);
    mret (compute_checksum2 seven_bit l =?
          Z.lor (Z.shiftl (kermit_unchar c1) 6) (kermit_unchar c2))
  else if ctype =? 12 then
    c1 ← load buf at_; c2 ← load buf (at_ + 1);
    mret (compute_checksum2 seven_bit l =?
          Z.lor (Z.shiftl (kermit_unchar c1 - 1) 6) (kermit_unchar c2 - 1))
  else if ctype =? 3 then
    c1 ← load buf at_; c2 ← load buf (at_ + 1); c3 ← load buf (at_ + 2);
    mret (u16 (kermit_compute_crc16 seven_bit l) =?
          Z.lor (Z.lor (Z.shiftl (kermit_unchar c1) 12) (Z.shiftl (kermit_unchar c2) 6))
                (kermit_unchar c3))
  else mret true.

(** HCHECK of an extended header. *)
Definition hcheck (l : list Z) : Z :=
  let sum := u16 (fold_left Z.add l 0) in
  Z.land (sum + Z.land sum 192 / 64) 63.

(** The number of check characters. *)
Definition check_length (ctype : Z) : Z := if ctype =? 12 then 2 else ctype.

(** The type of check of a packet, [len] its LEN byte. *)
Definition input_check_type (st : KERMIT_STATUS) (t : option PACKET_TYPE) (len : Z) : Z :=
  match t with
  | Some P_KSINIT => 1
  | Some P_KNAK => let c := len - 2 in if (c <? 1) || (3 <? c) then 1 else c
  | _ => check_type st
  end.

(** A packet whose check is good: process the data payload. *)
Definition process_payload : K unit :=
  s ← get;
  let set_ok (b : bool) := on_input (fun p => p <| parsed_ok := b |>) in
  match type (input_packet s) with
  | Some P_KSINIT => ok ← process_send_init; set_ok ok
  | Some P_KFILE => ok ← process_file_header; set_ok ok
  | Some P_KATTRIBUTES => ok ← process_attributes; set_ok ok
  | Some P_KERROR => process_error_packet
  | Some P_KRESERVED1 | Some P_KRESERVED2 =>
    say "ERROR - WRONG PACKET TYPE";;
    set_state ABORT;;
    stop_file_transfer Q_TRANSFER_STATE_ABORT;;
    set_ok false;;
    error_packet "Improper packet type"
  | Some P_KNAK =>
    whenM (sending (status s) && streaming (session_parms s) &&
           bool_decide (state (status s) = KM_SDW \/ state (status s) = KM_SZ))
      (say "ERROR - NAK WHILE STREAMING";;
       set_state ABORT;;
       stop_file_transfer Q_TRANSFER_STATE_ABORT;;
       set_ok false;;
       error_packet "NAK while streaming")
  | _ => mret tt
  end.

(** The packet once its header is read: [lo] is the position of LEN, [begin] that
    of the data, [head] the bytes between LEN and the data that its length
    covers. *)
Definition decode_body (lo begin len head : Z) : K (bool * Z) :=
  s ← get;
  let st := status s in
  let p := input_packet s in
  let buf := packet_buffer s in
  let ctype := input_check_type st (type p) len in
  let data_length := u32 (plength p - head - check_length ctype) in
  let covered := u32 (data_length + head + 1) in
  l ← slice buf lo covered;
  ok ← check_good (seven_bit_only st) ctype l buf (lo + covered);
  if negb ok then reject
  else
    ok ← decode_data_field (type p) (drop (Z.to_nat begin) buf) data_length;
    if negb ok then on_input (fun p => p <| parsed_ok := false |>);; reject
    else
      on_input (fun p => p <| parsed_ok := true |>);;
      process_payload;;
      mret (true, begin + plength p - head).

(** The extended header, [lo] the position of LEN: [None] when the packet is
    bad. *)
Definition extended_header (lo : Z) : K bool :=
  s ← get;
  let buf := packet_buffer s in
  lenx1 ← load buf (lo + 3);
  lenx2 ← load buf (lo + 4);
  let n := kermit_unchar lenx1 * 95 + kermit_unchar lenx2 in
  on_input (fun p => p <| plength := n |>);;
  if MAXLX1 (session_parms s) * 95 + MAXLX2 (session_parms s) <? n then mret false
  else
    on_input (fun p => p <| plength := n + 5 |>);;
    given ← load buf (lo + 5);
    l ← slice buf lo 5;
    mret (kermit_unchar given =? hcheck l).

(** From LEN on, [lo] its position. *)
Definition decode_packet (lo : Z) : K (bool * Z) :=
  s ← get;
  let buf := packet_buffer s in
  let n := packet_buffer_n s in
  let sess := session_parms s in
  len ← load buf lo;
  let len := kermit_unchar len in
  let long := len =? 0 in
  on_input (fun p => p <| plength := len |>);;
  if long && negb (long_packets sess) then reject
  else
    whenM long (on_input (fun p => p <| long_packet := true |>));;
    if (len =? 1) || (len =? 2) || (negb long && (MAXL sess <? len)) then reject
    else if u32 (n - (lo + 1)) <? (if long then 5 else len) then mret (false, lo - 1)
    else
      sq ← load buf (lo + 1);
      let sq := kermit_unchar sq in
      on_input (fun p => p <| seq := sq |>);;
      if 63 <? sq then reject
      else
        t ← load buf (lo + 2);
        on_input (fun p => p <| type := packet_type t |>);;
        if long then
          ok ← extended_header lo;
          if negb ok then reject
          else
            p ← gets input_packet;
            if u32 (n - (lo + 6)) <? u32 (plength p - 5) then mret (false, lo - 1)
            else decode_body lo (lo + 6) len 5
        else decode_body lo (lo + 3) len 2.

(** [decode_input_bytes(packet_buffer, packet_buffer_n, &discard)], its only
    call: the result and [discard]. *)
Definition decode_input_bytes : K (bool * Z) :=
  s ← get;
  let n := packet_buffer_n s in
  if n <? 5 then mret (false, 0)
  else
    on_input (fun p => p <| parsed_ok := false |> <| seq := 0 |> <| type := Some P_KSINIT |>
      <| plength := 0 |> <| long_packet := false |>
      <| pdata := replicate (Z.to_nat (data_max p)) 0 |> <| data_n := 0 |>);;
    match find_mark (MARK (session_parms s)) (take (Z.to_nat n) (packet_buffer s)) with
    | None => mret (false, n)
    | Some m => decode_packet (Z.of_nat m + 1)
    end.

(** ** Writing a packet *)

(** [memcpy(output + *output_n + off, xs, n)] *)
Definition poke (off : Z) (xs : list Z) : K unit :=
  b ← gets output;
  buf ← memcpy (ob b) (ob_n b + off) xs;
  modify (fun s => s <| output ::= fun b => b <| ob := buf |> |>).

(** The type of check of a packet that goes out. *)
Definition output_check_type (st : KERMIT_STATUS) (t : PACKET_TYPE) : Z :=
  match t with
  | P_KSINIT | P_KNAK => 1
  | P_KACK => if sequence_number st =? 0 then 1 else check_type st
  | _ => check_type st
  end.

(** The bytes from LEN to the last one the check covers; the lengths of an
    extended header count three check characters. *)
Definition packet_header (long : bool) (sq : Z) (type_char : Z) (ctype : Z) (field : list Z) : list Z :=
  let data_length := Z.of_nat (length field) in
  let sq := kermit_tochar (u8 sq) in
  if long then
    let l := [kermit_tochar 0; sq; type_char; kermit_tochar (u8 ((data_length + 3) / 95));
              kermit_tochar (u8 ((data_length + 3) mod 95))] in
    l ++ [kermit_tochar (u8 (hcheck l))]
  else [kermit_tochar (u8 (data_length + 2 + check_length ctype)); sq; type_char].

(** [encode_output_packet(output + *output_n, output_n, ..)] *)
Definition encode_output_packet : K unit :=
  s ← get;
  let p := output_packet s in
  if negb (parsed_ok p) then mret tt
  else
    match type p with
    | None => raise OutOfBounds
    | Some t =>
      let long := bool_decide (t = P_KDATA) && long_packets (session_parms s) in
      on_output (fun p => p <| long_packet := long |>);;
      let ctype := output_check_type (status s) t in
      field ← encode_data_field;
      let l := packet_header long (seq p) (packet_char t) ctype field ++ field in
      let check := check_chars (seven_bit_only (status s)) ctype l in
      poke 0 (MARK (session_parms s) :: l ++ check);;
      let packet_length := Z.of_nat (length l) - 1 + check_length ctype in
      poke (packet_length + 2) [EOL (session_parms s)];;
      on_output (fun p => p <| parsed_ok := false |>);;
      whenM ((streaming (session_parms s) || windowing (session_parms s)) &&
             bool_decide (t = P_KDATA))
        (on_status (fun st => st <| file_position ::= Z.add (outstanding_bytes st) |>);;
         st ← gets status;
         on_stats (fun q => q <| bytes_transfer := u64 (file_position st) |>);;
         stats_increment_blocks);;
      modify (fun s => s <| output ::= fun b => b <| ob_n ::= fun n => n + (packet_length + 3) |> |>)
    end.

(** ** Packets of the sender *)

(** One character of a robust file name. *)
Definition common_form (ch : Z) : Z :=
  if islower ch then toupper ch else if isalnum ch then ch else 95.

(** The position of the last period. *)
Fixpoint last_period (l : list Z) (i : nat) : option nat :=
  match l with
  | [] => None
  | c :: l => match last_period l (S i) with
              | Some j => Some j
              | None => if c =? 46 then Some i else None
              end
  end.

Definition robust_name (name : list Z) : list Z :=
  let l := common_form <$> name in
  match last_period name 0 with Some j => <[j := 46]> l | None => l end.

Definition send_file_header : K unit :=
  s ← get;
  name ← nonnull (file_name (status s));
  let robust := kermit_robust_filename (env s) in
  make_packet P_KFILE (sequence_number (status s) mod 64) (if robust then robust_name name else name);;
  whenM robust
    (p ← gets output_packet;
     c ← load (pdata p) 0;
     whenM (c =? 46)
       (if data_n p <? 1 then raise OutOfBounds
        else on_output (fun p => p <| pdata ::= fun b => blit b 0 (take (Z.to_nat (data_n p - 1)) (drop 1 b)) |>
                                   <| data_n ::= fun n => n - 1 |>));;
     p ← gets output_packet;
     c ← load (pdata p) (data_n p - 1);
     whenM (c =? 46)
       (on_output (fun p => p <| pdata ::= fun b => blit b (Z.to_nat (data_n p - 1)) [0] |>
                              <| data_n ::= fun n => n - 1 |>))).

(** An attribute: its type, the length of its value and the value. *)
Definition attribute (atype : Z) (value : list Z) : list Z :=
  [atype; kermit_tochar (u8 (Z.of_nat (length value)))] ++ value.

(** The Kermit form of a file protection. *)
Definition to_kermit_protection (prot : Z) : Z :=
  Z.lor (Z.lor (if bit prot 0x01 then 0x04 else 0) (if bit prot 0x02 then 0x02 else 0))
        (if bit prot 0x04 then 0x01 else 0).

Definition file_attributes (e : environment) (st : KERMIT_STATUS) (resend : bool) : list Z :=
  (if text_mode st then attribute 34 [65] else attribute 34 [66; 56]) ++
  attribute 49 (print_base 10 (file_size st)) ++
  attribute 35 (strftime (localtime e (file_modtime st))) ++
  attribute 44 (print_base 8 (Z.land (file_protection st) 0x1FF)) ++
  attribute 45 [kermit_tochar (to_kermit_protection (file_protection st))] ++
  (if resend then attribute 43 [82] else []).

Definition send_file_attributes : K unit :=
  s ← get;
  let resend := bit (CAPAS (session_parms s)) 0x10 && kermit_resend (env s) in
  make_packet P_KATTRIBUTES (sequence_number (status s) mod 64)
    (file_attributes (env s) (status s) resend);;
  whenM resend (on_status (fun st => st <| do_resend := true |>)).

Definition send_file_data : K bool :=
  st ← gets status;
  f ← nonnull (file_stream st);
  if f_eof f then mret false
  else make_packet P_KDATA (sequence_number st mod 64) [];; mret true.

Definition send_eof : K unit :=
  st ← gets status;
  on_status (fun st => st <| skip_file := false |>);;
  make_packet P_KEOF (sequence_number st mod 64) (if skip_file st then str "D" else []).

Definition send_eot : K unit :=
  n ← gets (fun s => sequence_number (status s));
  make_packet P_KBREAK (n mod 64) [].

(** [upload_file_list[upload_file_list_i]]; the list ends with a null name. *)
Definition upload_entry : K (option file_info) :=
  l ← gets upload_file_list;
  l ← nonnull l;
  i ← gets upload_file_list_i;
  if (i <? length l)%nat then mret (l !! i)
  else if (i =? length l)%nat then mret None
  else raise OutOfBounds.

(** Whether the first 1024 bytes of a file are all ASCII. *)
Definition looks_like_text (l : list Z) : bool := forallb (fun b => Z.land b 0x80 =? 0) (take 1024 l).

Definition setup_for_next_file : K bool :=
  on_status (fun st => st <| file_stream := None |> <| file_name := None |>);;
  e ← upload_entry;
  match e with
  | None =>
    on_stats (fun q => q <| batch_bytes_transfer := batch_bytes_total q |>);;
    dirty;;
    set_state KM_SB;;
    mret true
  | Some e =>
    on_status (fun st => st <| file_modtime := st_mtime e |> <| file_size := u32 (st_size e) |>
                            <| file_protection := st_mode e |>);;
    d ← get_disk;
    match fopen_rb d (fi_name e) with
    | None =>
      set_state ABORT;;
      stop_file_transfer Q_TRANSFER_STATE_ABORT;;
      say "DISK I/O ERROR";;
      error_packet "Disk I/O error";;
      mret false
    | Some f =>
      opts ← gets env;
      let text := negb (kermit_uploads_force_binary opts) && looks_like_text (fst (fread d f 1024)) in
      on_status (fun st => st <| file_stream := Some f |> <| text_mode := text |>
                              <| file_name := Some (basename (fi_name e)) |>);;
      stats_new_file (fi_name e) (i32 (st_size e));;
      on_status (fun st => st <| file_position := 0 |>);;
      st ← gets (fun s => state (status s));
      whenM (negb (bool_decide (st = ABORT)))
        (on_stats (fun q => q <| qts_state := Q_TRANSFER_STATE_TRANSFER |>);;
         say "FILE HEADER";;
         send_file_header;;
         set_state KM_SF);;
      mret true
    end
  end.

End Kermit.
