(* ===== verification/KermitMachine.v ===== *)
(** kermit.c: the windows, the state machine and the entry points of the Kermit
    protocol. *)

From Stdlib Require Import ZArith Lia List Bool.
From stdpp Require Import base list numbers gmap strings.
From S2P Require Import Prelude Crc Stdio Protocols Kermit.
Import Kermit.

Module Machine.

Definition clear_input : K unit := on_input (fun p => p <| parsed_ok := false |>).
(** The packet that came in, if there is one. *)
Definition arrived : K (option (option PACKET_TYPE)) :=
  p ← gets input_packet;
  mret (if parsed_ok p then Some (type p) else None).
Definition log (f : string) : K unit := lift (emit (Ev_log f)).
Definition next_seq : K unit :=
  on_status (fun st => st <| sequence_number ::= fun n => u64 (n + 1) |>).
(** [stop_file_transfer(END); time(&end_time); play_sequence(..)] *)
Definition success (music : event) : K unit :=
  set_state COMPLETE;;
  say "SUCCESS";;
  stop_file_transfer Q_TRANSFER_STATE_END;;
  t ← lift time;
  on_stats (fun q => q <| end_time := t |>);;
  lift (emit music).

(** ** Input window *)

(** [window_save_all]: [fuel] bounds the slots in use. *)
Fixpoint save_all (fuel : nat) : K bool :=
  s ← get;
  if input_window_n s =? 0 then mret true
  else
    match fuel with
    | O => diverge
    | S fuel =>
      x ← in_slot (input_window_begin s);
      if negb (acked x) then mret false
      else
        whenM (bool_decide (sl_type x = Some P_KDATA)) (write_slot (input_window_begin s));;
        roll_off;;
        save_all fuel
    end.
Definition window_save_all : K bool :=
  n ← gets input_window_n;
  save_all (Z.to_nat n).

(** A slot of the input window filled with the packet that came in. *)
Definition fill_slot (i : Z) (tries : kermit_packet_serial -> Z) : K unit :=
  p ← gets input_packet;
  on_in_slot i (fun x => x <| sl_data := Some (packet_bytes p) |> <| sl_data_n := data_n p |>
    <| sl_seq := seq p |> <| sl_type := type p |> <| acked := true |> <| try_count := tries x |>).

(** The loop that leaves a gap of NAKs up to the packet that came in. *)
Fixpoint fill_gap (fuel : nat) (seq_end : Z) : K unit :=
  match fuel with
  | O => diverge
  | S fuel =>
    s ← get;
    if negb (seq_end =? seq (input_packet s)) && (input_window_n s <? WINDO_in (session_parms s)) then
      on_in_slot (input_window_i s) (fun x => x <| sl_seq := seq_end |> <| acked := false |>);;
      x ← in_slot (input_window_i s);
      assertM (bool_decide (sl_data x = None));;
      on_in_slot (input_window_i s) (fun x => x <| sl_data_n := 0 |>);;
      advance_input_i;;
      fill_gap fuel ((seq_end + 1) mod 64)
    else mret tt
  end.

(** Case 2 of [find_input_slot]: a packet was lost. *)
Definition lost_packet_case (seq_end : Z) : K unit :=
  sq ← gets (fun s => seq (input_packet s));
  on_input (fun p => p <| seq := (seq_end + 1) mod 64 |>);;
  nak_packet;;
  on_input (fun p => p <| seq := sq |>);;
  window_save_all;;
  e ← input_end;
  x ← in_slot e;
  n ← gets (fun s => WINDO_in (session_parms s));
  fill_gap (ring_fuel n) ((sl_seq x + 1) mod 64);;
  s ← get;
  whenM (input_window_n s <? WINDO_in (session_parms s))
    (x ← in_slot (input_window_i s);
     assertM (bool_decide (sl_data x = None));;
     fill_slot (input_window_i s) try_count;;
     advance_input_i).

(** Whether [sq] lies in the range of Case 2. *)
Definition is_lost (seq_end ws sq : Z) : bool :=
  ((seq_end + 2 <? ws) && (seq_end + 2 <=? sq) && (sq <=? ws)) ||
  ((ws <? seq_end + 2) && ((seq_end + 2 <=? sq) || (sq <=? ws))).

(** Case 1: the packet that follows the window. *)
Definition next_packet_case : K unit :=
  s ← get;
  b ← in_slot (input_window_begin s);
  whenM (bool_decide (sl_type b = Some P_KDATA) && acked b) (write_slot (input_window_begin s));;
  whenM (acked b && (input_window_n s =? WINDO_in (session_parms s))) roll_off.

Definition find_input_slot : K (option Z) :=
  s ← get;
  let sq := seq (input_packet s) in
  assertM (parsed_ok (input_packet s));;
  if input_window_n s =? 0 then mret (Some (input_window_i s))
  else
    e ← input_end;
    x ← in_slot e;
    let w := WINDO_in (session_parms s) in
    let seq_end := i32 (sl_seq x) in
    if sq =? (seq_end + 1) mod 64 then next_packet_case;; mret (Some (input_window_i s))
    else if is_lost seq_end (u32 (seq_end + w) mod 64) sq then lost_packet_case seq_end;; mret None
    else
      ring_find (ring_fuel w) in_slot (fun x => sl_seq x =? sq) w
        (input_window_i s) (input_window_begin s).

Definition save_input_packet : K unit :=
  s ← get;
  if negb (parsed_ok (input_packet s)) || sending (status s) then mret tt
  else
    o ← find_input_slot;
    match o with
    | None => clear_input
    | Some i =>
      fill_slot i (fun _ => 0);;
      s ← get;
      let full := input_window_n s =? WINDO_in (session_parms s) in
      whenM full (assertM (input_window_i s =? input_window_begin s));;
      whenM (i =? input_window_i s)
        ((if input_window_n s <? WINDO_in (session_parms s) then advance_input_i
          else assertM (i =? input_window_begin s));;
         next_seq)
    end.

(** ** Output window *)

Definition find_output_slot : K (option Z) :=
  s ← get;
  let sq := seq (input_packet s) in
  let w := WINDO_out (session_parms s) in
  assertM (parsed_ok (input_packet s));;
  if 1 <? output_window_n s then
    ring_find (ring_fuel w) out_slot (fun x => sl_seq x =? sq) w
      (output_window_i s) (output_window_begin s)
  else if output_window_n s =? 1 then
    x ← out_slot (output_window_begin s);
    mret (if sl_seq x =? sq then Some (output_window_begin s) else None)
  else mret None.

(** The loop that frees the output window after a NAK beyond it. *)
Fixpoint drop_output (fuel : nat) (i : Z) : K unit :=
  match fuel with
  | O => diverge
  | S fuel =>
    s ← get;
    x ← out_slot i;
    assertM (bool_decide (is_Some (sl_data x)));;
    on_out_slot i (fun x => x <| sl_data := None |>);;
    i ← ring_next (WINDO_out (session_parms s)) i;
    modify (fun s => s <| output_window_n ::= fun n => u32 (n - 1) |>);;
    if i =? output_window_i s then mret tt else drop_output fuel i
  end.

(** [memcpy(output + *output_n, data, n); *output_n += n] *)
Definition resend (i : Z) : K unit :=
  x ← out_slot i;
  data ← (if sl_data_n x =? 0 then mret [] else nonnull (sl_data x));
  let data := take (Z.to_nat (sl_data_n x)) data in
  poke 0 data;;
  on_out_slot i (fun x => x <| try_count ::= fun n => u32 (n + 1) |>);;
  modify (fun s => s <| output ::= fun b => b <| ob_n ::= Z.add (sl_data_n x) |> |>).

Definition check_for_repeat : K unit :=
  s ← get;
  let p := input_packet s in
  let st := status s in
  if negb (parsed_ok p) then mret tt
  else if streaming (session_parms s) && bool_decide (state st = KM_RDW \/ state st = KM_SDW) then mret tt
  else
    o ← find_output_slot;
    match o with
    | None =>
      whenM (sending st && ((seq p =? (sequence_number st + 1) mod 64) &&
                            bool_decide (type p = Some P_KNAK)))
        (whenM (0 <? output_window_n s)
           (drop_output (ring_fuel (WINDO_out (session_parms s))) (output_window_begin s));;
         modify (fun s => s <| output_window_i := 0 |> <| output_window_begin := 0 |>);;
         on_input (fun p => p <| type := Some P_KACK |> <| seq := sequence_number st mod 64 |>
                              <| data_n := 0 |>))
    | Some i =>
      if negb (sending st) then resend i;; clear_input
      else
        match type p with
        | Some P_KACK => on_out_slot i (fun x => x <| acked := true |>)
        | Some P_KNAK =>
          stats_increment_errors ("NAK - SEQ %u"%string, [seq p]);;
          resend i;; clear_input
        | _ => sequence_error;; clear_input
        end
    end.

(** [move_windows]: [fuel] bounds the slots in use. *)
Fixpoint shrink_output (fuel : nat) : K unit :=
  s ← get;
  if output_window_n s =? 0 then mret tt
  else
    match fuel with
    | O => diverge
    | S fuel =>
      x ← out_slot (output_window_begin s);
      if acked x then
        modify (fun s => s <| output_window_n ::= fun n => u32 (n - 1) |>);;
        on_out_slot (output_window_begin s) (fun x => x <| sl_data := None |>);;
        b ← ring_next (WINDO_out (session_parms s)) (output_window_begin s);
        modify (fun s => s <| output_window_begin := b |>);;
        shrink_output fuel
      else mret tt
    end.
Definition move_windows : K unit :=
  s ← get;
  whenM (sending (status s)) (shrink_output (Z.to_nat (output_window_n s))).

(** Re-send the most recent packet, or drop a NAK. *)
Definition handle_timeout : K unit :=
  s ← get;
  let set_seq (n : Z) := on_input (fun p => p <| seq := i32 n |>) in
  if negb (sending (status s)) then
    (if 0 <? input_window_n s then
       let w := WINDO_in (session_parms s) in
       o ← ring_find (ring_fuel w) in_slot (fun x => negb (acked x)) w
             (input_window_i s) (input_window_begin s);
       let i := match o with
                | Some i => i
                | None => let i := input_window_i s - 1 in if i <? 0 then w else i
                end in
       x ← in_slot i;
       set_seq (sl_seq x)
     else set_seq (sequence_number (status s)));;
    nak_packet
  else
    whenM (windowing (session_parms s) && (0 <? output_window_n s))
      (let w := WINDO_out (session_parms s) in
       o ← ring_find (ring_fuel w) out_slot (fun x => negb (acked x)) w
             (output_window_i s) (output_window_begin s);
       match o with
       | Some i => resend i
       | None => raise Aborted
       end).

(** ** Receiving

    Each handler returns [true] when it is done with the input. *)

Definition receive_R : K bool :=
  st ← gets status;
  whenM (first_R st)
    (say "WAITING FOR SEND-INIT...";; on_status (fun st => st <| first_R := false |>));;
  a ← arrived;
  match a with
  | None => mret true
  | Some (Some P_KSINIT) =>
    say "ACK SEND-INIT";;
    negotiate_send_init;;
    ack_send_init;;
    clear_input;;
    say "WAITING FOR FILE HEADER...";;
    set_state KM_RF;;
    mret true
  | Some _ => sequence_error;; mret true
  end.

Definition receive_RF : K bool :=
  a ← arrived;
  match a with
  | None => mret true
  | Some (Some P_KFILE) =>
    say "FILE HEADER";;
    ack_file_packet;;
    clear_input;;
    say "WAITING FOR ATTRIBUTES OR FILE DATA...";;
    set_state KM_RDW;;
    mret true
  | Some (Some P_KBREAK) =>
    clear_input;;
    say "END OF TRANSMISSION";;
    ack_packet true;;
    success Ev_music_download;;
    mret true
  | Some _ => sequence_error;; mret true
  end.

(** The end of a received file: protection, closing, times. *)
Definition close_received : K unit :=
  on_stats (fun q => q <| qts_state := Q_TRANSFER_STATE_FILE_DONE |>);;
  st ← gets status;
  f ← nonnull (file_stream st);
  whenM (negb (file_protection st =? 0xFFFF)) (lift (emit (Ev_chmod (f_name f) (file_protection st))));;
  lift (emit (Ev_utime (file_fullname st) (file_modtime st)));;
  assertM (bool_decide (is_Some (file_name st)));;
  on_status (fun st => st <| file_name := None |> <| file_stream := None |>);;
  ack_packet true;;
  clear_input;;
  say "WAITING FOR FILE HEADER...";;
  set_state KM_RF.

Definition receive_RDW : K bool :=
  a ← arrived;
  match a with
  | None => mret true
  | Some (Some P_KEOF) =>
    s ← get;
    if (0 <? data_n (input_packet s)) && bool_decide (head (pdata (input_packet s)) = Some 68) then
      say "SKIP FILE";;
      log "DOWNLOAD FILE COMPLETE (PARTIAL): protocol %s, filename %s, filesize %d\n";;
      close_received;;
      mret false
    else
      saved ← (if windowing (session_parms s) then window_save_all else mret true);
      if negb saved then nak_packet;; clear_input;; mret false
      else
        say "EOF";;
        log "DOWNLOAD FILE COMPLETE: protocol %s, filename %s, filesize %d\n";;
        close_received;;
        mret false
  | Some (Some P_KDATA) =>
    say "DATA";;
    n ← gets (fun s => plength (input_packet s));
    on_status (fun st => st <| status_block_size := n |>);;
    st ← gets status;
    on_stats (fun q => q <| bytes_transfer := u64 (file_position st) |>);;
    stats_increment_blocks;;
    ack_packet false;;
    clear_input;;
    mret true
  | Some (Some P_KATTRIBUTES) =>
    say "ATTRIBUTES";;
    f ← gets (fun s => file_stream (status s));
    whenM (bool_decide (f = None)) (open_receive_file;; mret tt);;
    clear_input;;
    mret true
  | Some _ => sequence_error;; mret true
  end.

(** One turn of the loop of [kermit_receive]. *)
Definition receive_turn : K bool :=
  st ← gets (fun s => state (status s));
  match st with
  | INIT => on_status (fun st => st <| state := KM_R |> <| text_mode := false |>);; mret false
  | KM_R => receive_R
  | KM_RF => receive_RF
  | KM_RDW => receive_RDW
  | KM_S | KM_SF | KM_SA | KM_SDW | KM_SZ | KM_SB => raise Aborted
  | ABORT | COMPLETE => mret true
  end.

Fixpoint until_done (fuel : nat) (turn : K bool) : K unit :=
  match fuel with
  | O => diverge
  | S fuel => done ← turn; if done : bool then mret tt else until_done fuel turn
  end.

(** A handler that is not done has taken the packet or left its state; four
    turns are the most. *)
Definition turns : nat := 5.
Definition kermit_receive : K unit := until_done turns receive_turn.

(** ** Sending *)

Definition send_init_packet : K unit :=
  ack_send_init;;
  on_output (fun p => p <| type := Some P_KSINIT |>).

Definition send_S : K bool :=
  st ← gets status;
  whenM (first_S st)
    (say "SENDING SEND-INIT...";;
     send_init_packet;;
     on_status (fun st => st <| first_S := false |>));;
  a ← arrived;
  match a with
  | None => mret true
  | Some (Some P_KNAK) => send_init_packet;; clear_input;; mret true
  | Some (Some P_KACK) =>
    process_send_init;;
    negotiate_send_init;;
    clear_input;;
    next_seq;;
    say "FILE HEADER";;
    send_file_header;;
    set_state KM_SF;;
    mret false
  | Some _ => sequence_error;; mret true
  end.

(** The end of the file: the EOF packet. *)
Definition enter_SZ : K unit := say "EOF";; send_eof;; set_state KM_SZ.

Definition send_SF : K bool :=
  a ← arrived;
  match a with
  | None => mret true
  | Some (Some P_KACK) =>
    clear_input;;
    next_seq;;
    p ← gets session_parms;
    (if attributes p then
       say "ATTRIBUTES";;
       send_file_attributes;;
       set_state KM_SA
     else
       say "DATA";;
       more ← send_file_data;
       if more : bool then set_state KM_SDW else enter_SZ);;
    mret false
  | Some _ => sequence_error;; mret true
  end.

Definition send_SA : K bool :=
  a ← arrived;
  match a with
  | None => mret true
  | Some (Some P_KACK) =>
    clear_input;;
    on_output (fun p => p <| parsed_ok := false |>);;
    on_status (fun st => st <| is_first_data_packet := true |>);;
    s ← get;
    let p := input_packet s in
    whenM (do_resend (status s) && (0 <? data_n p) && bool_decide (head (pdata p) = Some 49))
      (let pos := Z.max 0 (atol (c_str (drop 2 (pdata p)))) in
       f ← nonnull (file_stream (status s));
       on_status (fun st => st <| file_position := pos |> <| file_stream := Some (fseek_set f pos) |>
                               <| outstanding_bytes := 0 |>));;
    whenM (negb (streaming (session_parms s) || windowing (session_parms s))) next_seq;;
    say "DATA";;
    set_state KM_SDW;;
    mret false
  | Some _ => sequence_error;; mret true
  end.

Definition send_SD_next_packet : K unit :=
  s ← get;
  let sess := session_parms s in
  if streaming sess && parsed_ok (output_packet s) then mret tt
  else
    whenM (streaming sess || windowing sess) next_seq;;
    st ← gets status;
    if (file_position st =? file_size st) || skip_file st then enter_SZ
    else
      more ← send_file_data;
      if more : bool then mret tt else enter_SZ.

Definition send_SDW : K bool :=
  a ← arrived;
  match a with
  | None =>
    s ← get;
    whenM (streaming (session_parms s) || windowing (session_parms s) ||
           is_first_data_packet (status s))
      (on_status (fun st => st <| is_first_data_packet := false |>);;
       send_SD_next_packet);;
    mret true
  | Some (Some P_KACK) =>
    clear_input;;
    p ← gets input_packet;
    whenM ((0 <? data_n p) && bool_decide (head (pdata p) = Some 88 \/ head (pdata p) = Some 90))
      (say "SKIP FILE";;
       log "UPLOAD FILE COMPLETE (PARTIAL): protocol %s, filename %s, transferred %d\n";;
       on_status (fun st => st <| skip_file := true |>));;
    s ← get;
    if windowing (session_parms s) && bool_decide (is_Some (output_window s)) then
      send_SD_next_packet;; mret true
    else
      whenM (negb (streaming (session_parms s) || windowing (session_parms s)))
        (next_seq;;
         on_status (fun st => st <| file_position ::= Z.add (outstanding_bytes st) |>);;
         st ← gets status;
         on_stats (fun q => q <| bytes_transfer := u64 (file_position st) |>);;
         stats_increment_blocks);;
      send_SD_next_packet;;
      mret false
  | Some _ => sequence_error;; mret true
  end.

Definition send_SZ : K bool :=
  a ← arrived;
  match a with
  | None => mret true
  | Some (Some P_KACK) =>
    clear_input;;
    s ← get;
    if windowing (session_parms s) && bool_decide (is_Some (output_window s)) && (0 <? output_window_n s)
    then mret true
    else
      next_seq;;
      on_stats (fun q => q <| batch_bytes_transfer ::= fun z => u64 (z + file_size (status s)) |>
                           <| qts_state := Q_TRANSFER_STATE_FILE_DONE |>);;
      nonnull (file_stream (status s));;
      log "UPLOAD FILE COMPLETE: protocol %s, filename %s, filesize %d\n";;
      assertM (bool_decide (is_Some (file_name (status s))));;
      on_status (fun st => st <| file_name := None |> <| file_stream := None |>);;
      modify (fun s => s <| upload_file_list_i ::= S |>);;
      setup_for_next_file;;
      mret false
  | Some _ => sequence_error;; mret true
  end.

Definition send_SB : K bool :=
  st ← gets status;
  whenM (first_SB st)
    (say "SENDING EOT...";; send_eot;; on_status (fun st => st <| first_SB := false |>));;
  a ← arrived;
  match a with
  | None => mret true
  | Some (Some P_KACK) => clear_input;; success Ev_music_upload;; mret false
  | Some _ => sequence_error;; mret true
  end.

Definition send_turn : K bool :=
  st ← gets (fun s => state (status s));
  match st with
  | INIT => set_state KM_S;; mret false
  | KM_S => send_S
  | KM_SF => send_SF
  | KM_SA => send_SA
  | KM_SDW => send_SDW
  | KM_SZ => send_SZ
  | KM_SB => send_SB
  | KM_R | KM_RF | KM_RDW => raise Aborted
  | ABORT | COMPLETE => mret true
  end.
Definition kermit_send : K unit := until_done turns send_turn.

(** ** Main loop *)

(** The ^C bytes in a row; only short inputs are looked at. *)
Definition count_ctrl_c (input : list Z) (count : Z) : Z :=
  if (length input <? 10)%nat
  then fold_left (fun n b => if b =? 0x03 then i32 (n + 1) else 0) input count
  else count.

Definition look_for_ctrl_c (input : list Z) : K unit :=
  modify (fun s => s <| ctrl_c_count ::= count_ctrl_c input |>);;
  n ← gets ctrl_c_count;
  whenM (3 <=? n)
    (set_state ABORT;;
     stop_file_transfer Q_TRANSFER_STATE_ABORT;;
     say "ABORTED BY REMOTE SIDE";;
     error_packet "Aborted by remote side").

(** Add the input to [packet_buffer]; what does not fit is returned. *)
Definition buffer_input (input : list Z) : K (list Z) :=
  s ← get;
  let room := Z.to_nat (Z.of_nat (length (packet_buffer s)) - packet_buffer_n s) in
  let now := take room input in
  buf ← memcpy (packet_buffer s) (packet_buffer_n s) now;
  modify (fun s => s <| packet_buffer := buf |>
                     <| packet_buffer_n ::= Z.add (Z.of_nat (length now)) |>);;
  mret (drop room input).

(** Take the bytes off the stream. *)
Definition discard_bytes (discard : Z) : K unit :=
  s ← get;
  whenM (0 <? discard)
    (assertM (discard <=? packet_buffer_n s);;
     modify (fun s => s
       <| packet_buffer ::= fun b =>
            blit b 0 (drop (Z.to_nat discard) (take (Z.to_nat (packet_buffer_n s)) b)) |>
       <| packet_buffer_n ::= fun n => n - discard |>)).

Definition output_window_full (s : kermit_state) : bool :=
  (output_window_n s =? WINDO_out (session_parms s)) && sending (status s) &&
  negb (streaming (session_parms s)).

(** NPAD *)
Definition pad_output : K unit :=
  s ← get;
  let n := NPAD (remote_parms s) in
  whenM ((0 <? n) && parsed_ok (output_packet s))
    (poke 0 (replicate (Z.to_nat n) (PADC (remote_parms s)));;
     modify (fun s => s <| output ::= fun b => b <| ob_n ::= Z.add n |> |>)).

(** Save the packet that went out to the output window, unless it is a NAK. *)
Definition save_output_packet (start : Z) : K unit :=
  s ← get;
  let p := output_packet s in
  let n := ob_n (output s) in
  let i := output_window_i s in
  let w := WINDO_out (session_parms s) in
  whenM (negb (start =? n) && negb (bool_decide (type p = Some P_KNAK)))
    (whenM (sending (status s)) (assertM (output_window_n s <? w));;
     let data := take (Z.to_nat (n - start)) (drop (Z.to_nat start) (ob (output s))) in
     on_out_slot i (fun _ => {| sl_seq := u32 (seq p); try_count := 1; acked := false;
                                sl_type := type p; sl_data := Some data; sl_data_n := n - start |});;
     if sending (status s) && negb (streaming (session_parms s)) then
       j ← ring_next w i;
       modify (fun s => s <| output_window_n ::= fun n => u32 (n + 1) |> <| output_window_i := j |>)
     else
       on_out_slot i (fun x => x <| acked := true |>);;
       modify (fun s => s <| output_window_n := 1 |>)).

(** One turn of the loop, after the checks for room: what is left of the input
    and whether a packet was taken, or [None] when the output window is full. *)
Definition main_turn (toss : bool) (input : list Z) : K (option (list Z * bool)) :=
  look_for_ctrl_c input;;
  input ← buffer_input (if toss then [] else input);
  '(had, discard) ← decode_input_bytes;
  discard_bytes discard;;
  check_for_repeat;;
  save_input_packet;;
  move_windows;;
  s ← get;
  if output_window_full s then mret None
  else
    (if sending (status s) then kermit_send else kermit_receive);;
    pad_output;;
    start ← gets (fun s => ob_n (output s));
    encode_output_packet;;
    save_output_packet start;;
    mret (Some (input, had)).

Definition no_room (output_max needed : Z) (s : kermit_state) : bool :=
  u32 (output_max - ob_n (output s)) <? needed.

Fixpoint main_loop (fuel : nat) (output_max needed : Z) (toss : bool) (input : list Z) (had : bool) :
    K unit :=
  match fuel with
  | O => diverge
  | S fuel =>
    s ← get;
    if no_room output_max needed s then assertM (sending (status s))
    else if output_window_full s && bool_decide (input = []) && negb had then mret tt
    else
      r ← main_turn toss input;
      match r with
      | None => mret tt
      | Some (input, had) =>
        if negb (bool_decide (input = [])) || had
        then main_loop fuel output_max needed toss input had
        else mret tt
      end
  end.

(** Every turn but the last takes bytes from the input or from
    [packet_buffer]. *)
Definition main_fuel (s : kermit_state) (input : list Z) : nat :=
  Z.to_nat (packet_buffer_n s) + 2 * length input + 3.

Definition free_space_needed (s : kermit_state) : Z :=
  let p := session_parms s in
  u32 ((if long_packets p then MAXLX1 p * 95 + MAXLX2 p else MAXL p) + NPAD (remote_parms s) + 10).

(** The first call: a NAK to speed things up, the input thrown away. *)
Definition first_call : K bool :=
  s ← get;
  let st := status s in
  if (sequence_number st =? 0) && negb (sent_nak st) then
    whenM (bool_decide (state st = INIT) && negb (sending st)) nak_packet;;
    on_status (fun st => st <| sent_nak := true |>);;
    mret true
  else mret false.

(** [kermit(input, input_n, output, output_n, output_max)] *)
Definition kermit (input : list Z) (out : outbuf) (output_max : Z) : K unit :=
  modify (fun s => s <| output := out |>);;
  assertM (KERMIT_BLOCK_SIZE * 2 <? output_max);;
  s ← get;
  if bool_decide (state (status s) = ABORT \/ state (status s) = COMPLETE) then mret tt
  else
    let needed := free_space_needed s in
    toss ← first_call;
    (if bool_decide (input = [])
     then timeout ← check_timeout; whenM timeout handle_timeout
     else reset_timer);;
    s ← get;
    (if no_room output_max needed s ||
        (output_window_full s && bool_decide (input = []) && (packet_buffer_n s <? 5))
     then mret tt
     else main_loop (main_fuel s input) output_max needed toss input true);;
    s ← get;
    whenM (0 <? ob_n (output s)) reset_timer;;
    clear_input.

(** ** Start and stop *)

(** Freeing the output window of the last transfer.  The loop has no step: it
    frees the slot it starts at and ends only when the ring had come round. *)
Definition free_output_window : K unit :=
  s ← get;
  match output_window s with
  | None => mret tt
  | Some _ =>
    whenM (0 <? output_window_n s)
      (let w := WINDO_out (session_parms s) in
       if w =? 0 then raise Aborted
       else
         let i := output_window_begin s mod w in
         out_slot i;;
         if i =? output_window_i s then mret tt else diverge)
  end.

Definition free_input_window : K unit :=
  s ← get;
  match input_window s with
  | None => mret tt
  | Some _ =>
    whenM (0 <? input_window_n s)
      (let w := WINDO_in (session_parms s) in
       ring_find (ring_fuel w) in_slot (fun _ => false) w
         (input_window_i s) (input_window_begin s);;
       mret tt)
  end.

Definition fresh_packet : kermit_packet :=
  zero_packet <| pdata := replicate (Z.to_nat KERMIT_BLOCK_SIZE) 0 |> <| data_max := KERMIT_BLOCK_SIZE |>.

Definition kermit_start (file_list : option (list file_info)) (pathname : cstring) (send : bool) : K bool :=
  assertM (eqb send (bool_decide (is_Some file_list)));;
  set_state ABORT;;
  modify (fun s => s <| upload_file_list := file_list |> <| upload_file_list_i := 0%nat |>);;
  on_status (fun st => st <| sending := send |>);;
  ok ← (if send then setup_for_next_file
        else
          on_stats (fun q => q <| bytes_total := 0 |>);;
          modify (fun s => s <| download_path := Some pathname |>);;
          lift (set_transfer_stats_filename []);;
          lift (set_transfer_stats_pathname (Some pathname));;
          mret true);
  if negb ok then mret false
  else
    e ← gets env;
    on_status (fun st => st <| state := INIT |> <| check_type := 1 |> <| sequence_number := 0 |>
      <| first_R := true |> <| first_S := true |> <| first_SB := true |> <| sent_nak := false |>
      <| skip_file := false |> <| seven_bit_only := seven_bit_line e |> <| do_resend := false |>
      <| is_first_data_packet := false |>);;
    free_input_window;;
    free_output_window;;
    modify (fun s => s <| input_window := Some [zero_slot] |> <| output_window := Some [zero_slot] |>
      <| input_window_begin := 0 |> <| input_window_i := 0 |> <| input_window_n := 0 |>
      <| output_window_begin := 0 |> <| output_window_i := 0 |> <| output_window_n := 0 |>);;
    say "";;
    modify (fun s => s <| packet_buffer_n := 0 |> <| input_packet := fresh_packet |>
                       <| output_packet := fresh_packet |>);;
    reset_timer;;
    on_status (fun st => st <| timeout_count := 0 |>);;
    st ← gets status;
    let p := set_default_session_parameters e (seven_bit_only st) in
    modify (fun s => s <| local_parms := p |> <| session_parms := p |>);;
    mret true.

Definition kermit_skip_file : K unit := on_status (fun st => st <| skip_file := true |>).

End Machine.
