(* ===== verification/KermitCodec.v ===== *)
(** The data field of Kermit packets: what [encode_data_field] writes is what
    [decode_data_field] reads, with prefixes, repeat counts and the conversion
    of text, and how long it gets. *)

From Stdlib Require Import ZArith Lia List Bool.
From stdpp Require Import base list numbers gmap strings.
From S2P Require Import Prelude Crc Stdio Protocols Kermit.
Import Kermit.

(** ** Parameters the two sides agree on *)

(** The prefixes are printable, not letters, and differ; the eighth bit may go
    without one. *)
Record good_prefixes (rept qbin qctl : Z) : Prop := {
  gp_rept : valid_prefix rept = true;
  gp_qctl : valid_prefix qctl = true;
  gp_qbin : qbin = SP \/ valid_prefix qbin = true;
  gp_rq : rept <> qctl;
  gp_rb : rept <> qbin;
  gp_qb : qctl <> qbin
}.

(** The decoder of one side and the encoder of the other. *)
Record peers (en : encoder) (de : decoder) : Prop := {
  pe_rept : dn_rept de = en_rept en;
  pe_qbin : dn_qbin de = en_qbin en;
  pe_qctl : dn_qctl de = en_qctl en;
  pe_good : good_prefixes (en_rept en) (en_qbin en) (en_qctl en);
  pe_raw : en_raw en = false;
  pe_raw' : dn_raw de = false
}.

(** What is left of decoded bytes when CRs are stripped. *)
Definition stripped (de : decoder) (l : list Z) : list Z :=
  List.filter (fun c => negb (dn_strip de && (c =? C_CR))) l.

Lemma stripped_app de l1 l2 : stripped de (l1 ++ l2) = stripped de l1 ++ stripped de l2.
Proof. apply List.filter_app. Qed.

Lemma stripped_replicate de n c :
  stripped de (replicate n c) = if dn_strip de && (c =? C_CR) then [] else replicate n c.
Proof.
  unfold stripped. induction n as [|n IH]; cbn; [by destruct (_ && _)|].
  rewrite IH. by destruct (_ && _).
Qed.

(** ** Running the decoder *)

(** The decoder between two characters, with prefixes seen and without. *)
Definition prefixed (c e : bool) (k : Z) (out : list Z) : decoding :=
  {| d_ctrl := c; d_8bit := e; d_rept := false; d_count := k; d_pending := None; d_out := out |}.
Definition at_rest (k : Z) (out : list Z) : decoding := prefixed false false k out.

(** The bytes decoded from an input, once the pending one is out. *)
Definition decoded (de : decoder) (input : list Z) (d : decoding) : option (list Z) :=
  let '(d, ok) := decode_loop de input d in
  if ok : bool then Some (d_out (flush_pending de d)) else None.

Lemma flush_flush de d : flush_pending de (flush_pending de d) = flush_pending de d.
Proof. unfold flush_pending at 2 3. by destruct d as [? ? ? ? [c|] ?]. Qed.

Lemma decoded_flush de input d : decoded de input (flush_pending de d) = decoded de input d.
Proof.
  unfold decoded. destruct input as [|c input]; cbn [decode_loop].
  - by rewrite flush_flush.
  - unfold decode_char. by rewrite flush_flush.
Qed.

Lemma decoded_cons de c input d d' :
  decode_char de c d = Some d' -> decoded de (c :: input) d = decoded de input d'.
Proof. intros H. unfold decoded. cbn [decode_loop]. by rewrite H. Qed.

(** ** One character *)

Definition high (ch : Z) : bool := negb (Z.land ch 0x80 =? 0).
Definition low7 (ch : Z) : Z := Z.land ch 0x7F.

(** The facts about bytes the codec rests on. *)
Definition byte_facts (ch : Z) : bool :=
  (0 <=? low7 ch) && (low7 ch <? 128) &&
  (if high ch then (128 <=? ch) && (Z.lor (low7 ch) 0x80 =? ch) else low7 ch =? ch) &&
  (kermit_ctl (kermit_ctl ch) =? ch) && (kermit_ctl (kermit_ctl (low7 ch)) =? low7 ch) &&
  (low7 (low7 ch) =? low7 ch) &&
  (if is_ctl7 (low7 ch)
   then negb (valid_prefix (kermit_ctl ch)) && negb (valid_prefix (kermit_ctl (low7 ch)))
   else true) &&
  (if valid_prefix (low7 ch) then negb (is_ctl7 (low7 (kermit_ctl ch))) else true).

Lemma byte_facts_all ch : is_byte ch -> byte_facts ch = true.
Proof. apply (all_bytes_spec byte_facts). vm_compute. reflexivity. Qed.

Lemma valid_prefix_range c : valid_prefix c = true -> 33 <= c < 127 /\ c <> SP.
Proof. unfold valid_prefix, SP. lia. Qed.

Section copy.
Context (en : encoder) (de : decoder) (Hp : peers en de).

(** A character that the decoder takes as it is. *)
Lemma decode_regular y b c k out :
  valid_prefix y = false \/ 128 <= y \/
    (y <> en_rept en /\ y <> en_qctl en /\ (en_qbin en = SP \/ y <> en_qbin en)) ->
  (if c && is_ctl7 (low7 (kermit_ctl y)) then kermit_ctl y else y) = b ->
  forall e, decode_char de y (prefixed c e k out) =
  Some (at_rest 1 (out ++ stripped de (replicate (Z.to_nat k) (if e : bool then Z.lor b 0x80 else b)))).
Proof.
  destruct Hp as [Er Eb Eq [Gr Gq Gb _ _ _] _ Hraw]. intros Hy Hb e.
  assert (Hn : y <> en_rept en /\ y <> en_qctl en /\ (en_qbin en = SP \/ y <> en_qbin en)).
  { pose proof (valid_prefix_range _ Gr). pose proof (valid_prefix_range _ Gq).
    destruct Hy as [Hy|[Hy|Hy]]; [..|exact Hy].
    - split; [congruence|]. split; [congruence|]. destruct Gb; [by left|right; congruence].
    - split; [lia|]. split; [lia|]. destruct Gb as [Gb|Gb]; [by left|right].
      pose proof (valid_prefix_range _ Gb). lia. }
  destruct Hn as (N1 & N2 & N3). unfold decode_char. cbn [flush_pending at_rest d_pending].
  change (flush_pending _ _) with (prefixed c e k out).
  rewrite Hraw, Er, Eb, Eq, (proj2 (Z.eqb_neq _ _) N1), (proj2 (Z.eqb_neq _ _) N2), andb_false_r.
  assert (negb (en_qbin en =? SP) && (y =? en_qbin en) = false) as ->.
  { destruct N3 as [->|N3]; [done|]. by rewrite (proj2 (Z.eqb_neq _ _) N3), andb_false_r. }
  change (d_rept (prefixed c e k out)) with false. cbv iota. unfold on_regular.
  change (d_ctrl (prefixed c e k out)) with c. change (d_8bit (prefixed c e k out)) with e.
  change (Z.land (kermit_ctl y) 127) with (low7 (kermit_ctl y)). rewrite Hb.
  unfold emit_copies. cbn [d_out d_count]. rewrite stripped_replicate. reflexivity.
Qed.

(** A prefix character behind the control prefix is taken literally. *)
Lemma decode_quoted y k out e :
  (y = en_rept en \/ (en_qbin en <> SP /\ y = en_qbin en) \/ y = en_qctl en) ->
  exists d, decode_char de y (prefixed true e k out) = Some d /\
  flush_pending de d =
  at_rest 1 (out ++ stripped de (replicate (Z.to_nat k) (if e : bool then Z.lor y 0x80 else y))).
Proof.
  destruct Hp as [Er Eb Eq [Gr Gq Gb Nrq Nrb Nqb] _ Hraw]. intros Hy.
  pose proof (valid_prefix_range _ Gr) as [_ Sr].
  unfold decode_char.
  change (flush_pending de (prefixed true e k out)) with (prefixed true e k out).
  rewrite Hraw, Er, Eb, Eq, (proj2 (Z.eqb_neq _ _) Sr). cbn [negb andb].
  assert (Hfin : forall v, flush_pending de
      {| d_ctrl := false; d_8bit := false; d_rept := false; d_count := k;
         d_pending := Some v; d_out := out |} = at_rest 1 (out ++ stripped de (replicate (Z.to_nat k) v))).
  { intros v. unfold flush_pending, emit_copies. cbn [d_pending d_out d_count].
    by rewrite stripped_replicate. }
  destruct Hy as [->|[[Hs ->]| ->]].
  - rewrite Z.eqb_refl. eexists. split; [reflexivity|]. unfold on_rept. cbn [d_ctrl d_8bit].
    rewrite Er. destruct e; cbn; apply Hfin.
  - rewrite (proj2 (Z.eqb_neq _ _) (not_eq_sym Nrb)), (proj2 (Z.eqb_neq _ _) (not_eq_sym Nqb)).
    rewrite (proj2 (Z.eqb_neq _ _) Hs), Z.eqb_refl. cbn [negb andb].
    change (d_rept (prefixed true e k out)) with false. cbv iota. unfold on_qbin. rewrite Eb.
    destruct e; cbn; (eexists; split; [reflexivity|apply Hfin]).
  - rewrite (proj2 (Z.eqb_neq _ _) (not_eq_sym Nrq)), Z.eqb_refl.
    change (d_rept (prefixed true e k out)) with false. cbv iota. eexists. split; [reflexivity|].
    unfold on_qctl. cbn [d_ctrl d_8bit]. rewrite Eq. destruct e; cbn; apply Hfin.
Qed.

(** The prefix characters themselves. *)
Lemma decode_qbin_prefix k out :
  en_qbin en <> SP -> decode_char de (en_qbin en) (at_rest k out) = Some (prefixed false true k out).
Proof.
  destruct Hp as [Er Eb Eq [Gr Gq Gb Nrq Nrb Nqb] _ Hraw]. intros Hs.
  unfold decode_char. change (flush_pending de (at_rest k out)) with (at_rest k out).
  rewrite Hraw, Er, Eb, Eq, (proj2 (Z.eqb_neq _ _) (not_eq_sym Nrb)),
    (proj2 (Z.eqb_neq _ _) (not_eq_sym Nqb)), (proj2 (Z.eqb_neq _ _) Hs), Z.eqb_refl, andb_false_r.
  reflexivity.
Qed.

Lemma decode_qctl_prefix e k out :
  decode_char de (en_qctl en) (prefixed false e k out) = Some (prefixed true e k out).
Proof.
  destruct Hp as [Er Eb Eq [Gr Gq Gb Nrq Nrb Nqb] _ Hraw].
  unfold decode_char. change (flush_pending de (prefixed false e k out)) with (prefixed false e k out).
  rewrite Hraw, Er, Eq, (proj2 (Z.eqb_neq _ _) (not_eq_sym Nrq)), Z.eqb_refl, andb_false_r.
  unfold on_qctl. change (d_rept (prefixed false e k out)) with false.
  change (d_8bit (prefixed false e k out)) with e. change (d_ctrl (prefixed false e k out)) with false.
  rewrite andb_false_r. reflexivity.
Qed.

(** A repeat count. *)
Lemma decode_repeat n out rest :
  1 <= n <= 94 ->
  decoded de (en_rept en :: kermit_tochar (u8 n) :: rest) (at_rest 1 out) = decoded de rest (at_rest n out).
Proof.
  destruct Hp as [Er Eb Eq [Gr Gq Gb Nrq Nrb Nqb] _ Hraw]. intros Hn.
  pose proof (valid_prefix_range _ Gr) as [_ Sr].
  assert (Hu : kermit_unchar (kermit_tochar (u8 n)) = n).
  { unfold kermit_unchar, kermit_tochar. rewrite (u8_id n), (u8_id (n + 32)) by (unfold is_byte; lia).
    rewrite u8_id by (unfold is_byte; lia). lia. }
  set (counting := {| d_ctrl := false; d_8bit := false; d_rept := true; d_count := 1;
                      d_pending := None; d_out := out |}).
  rewrite (decoded_cons de _ _ _ counting).
  2:{ unfold decode_char. change (flush_pending de (at_rest 1 out)) with (at_rest 1 out).
      rewrite Hraw, Er, Z.eqb_refl, (proj2 (Z.eqb_neq _ _) Sr). reflexivity. }
  apply decoded_cons. unfold decode_char.
  change (flush_pending de counting) with counting.
  rewrite Hraw, Er, (proj2 (Z.eqb_neq _ _) Sr). cbn [negb andb].
  destruct (Z.eqb_spec (kermit_tochar (u8 n)) (en_rept en)) as [E|E].
  - unfold on_rept. rewrite Er, <- E, Hu. reflexivity.
  - change (d_rept counting) with true. cbv iota. rewrite Hu. reflexivity.
Qed.

(** The character an encoded copy stands for. *)
Lemma decode_copy ch k out rest :
  is_byte ch ->
  decoded de (encode_copy en ch ++ rest) (at_rest k out) =
  decoded de rest (at_rest 1 (out ++ stripped de (replicate (Z.to_nat k) ch))).
Proof.
  pose proof Hp as [_ _ _ [Gr Gq Gb _ _ _] _ _]. intros Hch.
  pose proof (byte_facts_all ch Hch) as F. unfold byte_facts in F.
  rewrite !andb_true_iff in F. destruct F as [[[[[[[F1 F2] F3] F4] F5] F6] F7] F8].
  unfold encode_copy. fold (high ch) (low7 ch).
  set (qb := negb (en_qbin en =? SP) && high ch).
  set (quoted := (negb (en_rept en =? SP) && (low7 ch =? en_rept en)) ||
     (negb (en_qbin en =? SP) && (low7 ch =? en_qbin en)) || (low7 ch =? en_qctl en)).
  assert (Hqb : decoded de ((if qb then [en_qbin en] else []) ++
      ((if quoted || negb quoted && is_ctl7 (low7 ch) then [en_qctl en] else []) ++
       [if negb quoted && is_ctl7 (low7 ch) then kermit_ctl (if qb then low7 ch else ch)
        else if qb then low7 ch else ch]) ++ rest) (at_rest k out) =
    decoded de (((if quoted || negb quoted && is_ctl7 (low7 ch) then [en_qctl en] else []) ++
       [if negb quoted && is_ctl7 (low7 ch) then kermit_ctl (if qb then low7 ch else ch)
        else if qb then low7 ch else ch]) ++ rest) (prefixed false qb k out)).
  { destruct qb eqn:E; [|done]. cbn [app]. apply decoded_cons. apply decode_qbin_prefix.
    unfold qb in E. apply andb_prop in E as [E _]. intros H. by rewrite H in E. }
  rewrite <- app_assoc, Hqb. clear Hqb.
  set (x := if qb then low7 ch else ch).
  assert (Hx : (x = low7 ch /\ (if qb then Z.lor x 0x80 else x) = ch) \/
               (x = ch /\ qb = false /\ 128 <= ch /\ en_qbin en = SP)).
  { unfold x, qb in *. destruct (high ch); rewrite ?andb_true_r, ?andb_false_r;
      [|left; rewrite (proj1 (Z.eqb_eq _ _) F3); done].
    apply andb_prop in F3 as [F3 F3']. destruct (Z.eqb_spec (en_qbin en) SP); cbn [negb].
    - right. lia.
    - left. split; [done|]. lia. }
  destruct quoted eqn:Q; cbn [negb andb orb].
  - cbn [app]. rewrite (decoded_cons de _ _ _ _ (decode_qctl_prefix qb k out)).
    assert (Hq : low7 ch = en_rept en \/ (en_qbin en <> SP /\ low7 ch = en_qbin en) \/ low7 ch = en_qctl en).
    { unfold quoted in Q. rewrite !orb_true_iff, !andb_true_iff, !negb_true_iff in Q. lia. }
    destruct Hx as [[Ex Hv]|(Ex & Eqb & Hhi & Hsp)].
    + rewrite <- Ex in Hq. destruct (decode_quoted x k out qb Hq) as (d & Hd & Hfl).
      rewrite (decoded_cons de _ _ _ _ Hd), <- decoded_flush, Hfl, Hv. done.
    + assert (valid_prefix (low7 ch) = true) as Hvp by (destruct Hq as [->|[[? _]| ->]]; done).
      rewrite Hvp in F8. rewrite Ex, Eqb.
      apply decoded_cons. apply (decode_regular ch ch true k out); [by right; left|].
      apply negb_true_iff in F8. by rewrite F8.
  - destruct (is_ctl7 (low7 ch)) eqn:C; cbn [app].
    + rewrite (decoded_cons de _ _ _ _ (decode_qctl_prefix qb k out)).
      apply andb_prop in F7 as [F7 F7']. apply negb_true_iff in F7, F7'.
      assert (low7 x = low7 ch /\ kermit_ctl (kermit_ctl x) = x /\ valid_prefix (kermit_ctl x) = false)
        as (E1 & E2 & E3).
      { destruct Hx as [[-> _]|[-> _]]; (split; [lia|]); (split; [lia|done]). }
      apply decoded_cons. erewrite (decode_regular (kermit_ctl x) x true k out); [|by left|].
      * f_equal. f_equal. f_equal. f_equal. destruct Hx as [[_ ->]|(-> & -> & _)]; done.
      * by rewrite E2, E1, C.
    + apply decoded_cons. rewrite (decode_regular x x false k out).
      * f_equal. f_equal. f_equal. f_equal. destruct Hx as [[_ ->]|(-> & -> & _)]; done.
      * right. destruct Hx as [[-> _]|(-> & _ & Hhi & _)]; [right|by left].
        unfold quoted in Q. rewrite !orb_false_iff, !andb_false_iff, !negb_false_iff in Q.
        pose proof (valid_prefix_range _ Gr) as [_ Sr]. lia.
      * done.
Qed.

(** A character with its count. *)
Lemma decode_copies n ch out rest :
  is_byte ch ->
  decoded de (concat (replicate n (encode_copy en ch)) ++ rest) (at_rest 1 out) =
  decoded de rest (at_rest 1 (out ++ stripped de (replicate n ch))).
Proof.
  intros Hch. revert out. induction n as [|n IH]; intros out.
  - cbn. by rewrite app_nil_r.
  - cbn [replicate concat]. rewrite <- app_assoc, decode_copy, IH by done.
    change (replicate (Z.to_nat 1) ch) with [ch]. rewrite <- app_assoc, <- stripped_app. done.
Qed.

Lemma decode_one_byte n ch out rest :
  is_byte ch -> 1 <= n <= 94 ->
  decoded de (encode_one_byte en ch n ++ rest) (at_rest 1 out) =
  decoded de rest (at_rest 1 (out ++ stripped de (replicate (Z.to_nat n) ch))).
Proof.
  intros Hch Hn. unfold encode_one_byte. destruct (_ || _).
  - rewrite <- app_assoc. cbn [app]. by rewrite decode_repeat, decode_copy.
  - by apply decode_copies.
Qed.

(** ** The loop

    [fed e l]: the characters given to [feed] so far are [l]; those of the
    pending run are not put out yet. *)
Definition pending_run (e : encoding) : list Z :=
  if 0 <? e_count e then replicate (Z.to_nat (e_count e)) (e_last e) else [].

Record fed (e : encoding) (l : list Z) : Prop := {
  fe_out : exists done_, l = done_ ++ pending_run e /\
    forall rest, decoded de (e_out e ++ rest) (at_rest 1 []) = decoded de rest (at_rest 1 (stripped de done_));
  fe_count : 0 <= e_count e <= 94;
  fe_first : e_first e = true -> e_count e = 0;
  fe_started : e_first e = false -> 1 <= e_count e;
  fe_last : is_byte (e_last e)
}.

Lemma fed_start : fed start_encoding [].
Proof.
  split; [|cbn; lia|done|done|unfold is_byte; cbn; lia].
  exists []. split; [done|]. intros rest. done.
Qed.

Lemma feed_fed ch e l : is_byte ch -> fed e l -> fed (feed en ch e) (l ++ [ch]).
Proof.
  intros Hch [(done_ & Hl & Hout) Hc Hf Hs Hlast]. unfold feed.
  destruct (e_first e) eqn:Ef.
  - specialize (Hf eq_refl). unfold pending_run in Hl. rewrite Hf in Hl. cbn in Hl.
    rewrite app_nil_r in Hl. subst done_.
    change (e_last (e <| e_last := ch |> <| e_first := false |> <| e_count := 0 |>)) with ch.
    change (e_count (e <| e_last := ch |> <| e_first := false |> <| e_count := 0 |>)) with 0.
    rewrite Z.eqb_refl. cbn [andb Z.ltb Z.compare].
    split; [|cbn; lia|done|cbn; lia|done]. exists l. split; [done|]. apply Hout.
  - specialize (Hs eq_refl). assert (Hp1 : pending_run e = replicate (Z.to_nat (e_count e)) (e_last e)).
    { unfold pending_run. destruct (Z.ltb_spec 0 (e_count e)); [done|lia]. }
    destruct (Z.eqb_spec (e_last e) ch) as [El|El], (Z.ltb_spec (e_count e) 94) as [Lt|Ge]; cbn [andb].
    1: { split; [|cbn; lia|cbn; congruence|cbn; lia|done]. exists done_. split; [|done].
         rewrite Hl, Hp1, <- app_assoc. f_equal. unfold pending_run. cbn [e_count e_last field_update].
         change (e_count (e <| e_count ::= Z.add 1 |>)) with (1 + e_count e).
         change (e_last (e <| e_count ::= Z.add 1 |>)) with (e_last e).
         destruct (Z.ltb_spec 0 (1 + e_count e)); [|lia].
         replace (Z.to_nat (1 + e_count e)) with (S (Z.to_nat (e_count e))) by lia.
         by rewrite replicate_S_end, El. }
    all: split; [|cbn; lia|cbn; congruence|cbn; lia|done].
    all: exists l; split; [done|]; intros rest.
    all: change (e_out _) with (e_out e ++ encode_one_byte en (e_last e) (e_count e)).
    all: rewrite <- app_assoc, Hout, decode_one_byte by (done || lia).
    all: by rewrite Hl, Hp1, stripped_app.
Qed.

(** The bytes a source byte stands for in a text file. *)
Definition text_byte (ch : Z) : list Z :=
  if ch =? C_CR then [] else if ch =? C_LF then [C_CR; C_LF] else [ch].
Definition canonical (l : list Z) : list Z :=
  if en_text en then flat_map text_byte l else l.

Lemma canonical_app l1 l2 : canonical (l1 ++ l2) = canonical l1 ++ canonical l2.
Proof. unfold canonical. destruct (en_text en); [apply flat_map_app|done]. Qed.

(** Where the loop stands: [used] bytes of the source gone; a LF that is still to
    come is not fed. *)
Record stands (e : encoding) (used : list Z) : Prop := {
  sd_fed : exists l, fed e l /\ l ++ (if e_crlf e then [C_LF] else []) = canonical used;
  sd_used : e_used e = Z.of_nat (length used);
  sd_crlf : e_crlf e = true -> en_text en = true
}.

Lemma fed_same e e' l :
  e_out e' = e_out e -> e_last e' = e_last e -> e_count e' = e_count e -> e_first e' = e_first e ->
  fed e l -> fed e' l.
Proof.
  intros E1 E2 E3 E4 [(d & Hl & Ho) Hc Hf Hs Hb].
  split; rewrite ?E2, ?E3, ?E4; try done. exists d. rewrite E1. unfold pending_run.
  rewrite E2, E3. by split.
Qed.

Lemma feed_fields ch e :
  e_crlf (feed en ch e) = e_crlf e /\ e_used (feed en ch e) = e_used e.
Proof. unfold feed. destruct (e_first e); destruct (_ && _); done. Qed.

Lemma encode_loop_stands src : bytes src -> forall e used,
  stands e used -> e_crlf e = false ->
  let '(e', ended) := encode_loop en src e in
  exists now rest, src = now ++ rest /\ stands e' (used ++ now) /\ (ended = true -> rest = []).
Proof.
  destruct Hp as [_ _ _ _ Hraw _].
  induction src as [|ch src IH]; intros Hb e used Hst Hc; cbn [encode_loop].
  { destruct (field_full en e); exists [], []; rewrite !app_nil_r; by split_and!. }
  destruct (field_full en e).
  { exists [], (ch :: src). rewrite app_nil_r. split; [done|]. by split. }
  apply Forall_cons_iff in Hb as [Hch Hb].
  assert (Hgo : forall e1, stands e1 (used ++ [ch]) -> e_crlf e1 = false ->
    let '(e', ended) := encode_loop en src e1 in
    exists now rest, ch :: src = now ++ rest /\ stands e' (used ++ now) /\ (ended = true -> rest = [])).
  { intros e1 H1 H2. specialize (IH Hb e1 _ H1 H2). destruct (encode_loop en src e1) as [e' ended].
    destruct IH as (now & rest & -> & Hs & He). exists (ch :: now), rest.
    rewrite <- app_assoc in Hs. done. }
  rewrite Hraw. destruct Hst as [(l & Hfed & Hl) Hu _]. rewrite Hc in Hl. rewrite app_nil_r in Hl.
  set (e0 := e <| e_used ::= Z.add 1 |>).
  assert (Hf0 : fed e0 l) by (by apply (fed_same e)).
  assert (Hc0 : e_crlf e0 = false) by done.
  assert (Hu0 : e_used e0 = Z.of_nat (length (used ++ [ch]))).
  { change (e_used e0) with (1 + e_used e). rewrite Hu, length_app. cbn. lia. }
  assert (Hcan : canonical (used ++ [ch]) = l ++ (if en_text en then text_byte ch else [ch])).
  { rewrite canonical_app, <- Hl. unfold canonical. destruct (en_text en); [|done].
    cbn. by rewrite app_nil_r. }
  destruct (en_text en && (ch =? C_CR)) eqn:E1.
  { apply andb_prop in E1 as [Et Ecr]. apply Hgo; [|done]. split; [|done|].
    - exists l. split; [done|]. rewrite Hc0, Hcan, Et. unfold text_byte. by rewrite Ecr.
    - rewrite Hc0. done. }
  destruct (en_text en && (ch =? C_LF)) eqn:E2.
  - apply andb_prop in E2 as [Et Elf]. rewrite Et in E1, Hcan. cbn [andb] in E1.
    unfold text_byte in Hcan. rewrite E1, Elf in Hcan.
    set (e1 := feed en C_CR (e0 <| e_crlf := true |>)).
    assert (Hf1 : fed e1 (l ++ [C_CR])).
    { apply feed_fed; [by unfold is_byte, C_CR|]. by apply (fed_same e0). }
    destruct (feed_fields C_CR (e0 <| e_crlf := true |>)) as [Ec1 Eu1]. fold e1 in Ec1, Eu1.
    destruct (field_full en e1).
    + exists [ch], src. split; [done|]. split; [|done]. split.
      * exists (l ++ [C_CR]). split; [done|]. rewrite Ec1, Hcan, <- app_assoc. done.
      * rewrite Eu1. done.
      * done.
    + set (e2 := feed en C_LF (e1 <| e_crlf := false |>)).
      destruct (feed_fields C_LF (e1 <| e_crlf := false |>)) as [Ec2 Eu2]. fold e2 in Ec2, Eu2.
      apply Hgo; [|done]. split.
      * exists ((l ++ [C_CR]) ++ [C_LF]). split.
        -- apply feed_fed; [by unfold is_byte, C_LF|]. by apply (fed_same e1).
        -- rewrite Ec2, Hcan, <- !app_assoc. reflexivity.
      * rewrite Eu2. change (e_used (e1 <| e_crlf := false |>)) with (e_used e1). by rewrite Eu1.
      * by rewrite Ec2.
  - destruct (feed_fields ch e0) as [Ec1 Eu1]. apply Hgo; [|by rewrite Ec1]. split.
    + exists (l ++ [ch]). split; [by apply feed_fed|]. rewrite Ec1, Hc0, Hcan, app_nil_r.
      f_equal. destruct (en_text en); [|done]. cbn [andb] in E1, E2. unfold text_byte. by rewrite E1, E2.
    + by rewrite Eu1.
    + by rewrite Ec1, Hc0.
Qed.

(** The whole field. *)
Lemma decode_finish e used :
  stands e used ->
  decoded de (finish_field en e) (at_rest 1 []) = Some (stripped de (canonical used)).
Proof.
  intros [(l & [(d & Hl & Hout) Hc Hf Hs Hb] & Hcan) _ Htext]. unfold finish_field. rewrite Hout.
  assert (Hrun : forall rest,
    decoded de ((if 0 <? e_count e then encode_one_byte en (e_last e) (e_count e) else []) ++ rest)
      (at_rest 1 (stripped de d)) = decoded de rest (at_rest 1 (stripped de l))).
  { intros rest. rewrite Hl, stripped_app. unfold pending_run.
    destruct (Z.ltb_spec 0 (e_count e)); [rewrite decode_one_byte by (done || lia); done|].
    cbn. by rewrite app_nil_r. }
  rewrite Hrun, <- Hcan, stripped_app. destruct (e_crlf e) eqn:Ec.
  - rewrite (Htext eq_refl). cbn [andb]. rewrite <- (app_nil_r (encode_one_byte en C_LF 1)).
    rewrite decode_one_byte by (unfold is_byte, C_LF; lia). done.
  - rewrite andb_false_r. cbn. by rewrite app_nil_r.
Qed.

(** What the field carries: the bytes used. *)
Lemma decode_encode_field src :
  bytes src ->
  let '(e, _) := encode_loop en src start_encoding in
  decoded de (finish_field en e) start_decoding =
  Some (stripped de (canonical (take (Z.to_nat (e_used e)) src))).
Proof.
  intros Hb. pose proof (encode_loop_stands src Hb start_encoding []) as H.
  destruct (encode_loop en src start_encoding) as [e ended].
  destruct H as (now & rest & -> & Hst & _); [|done|].
  - split; [|done|done]. exists []. split; [apply fed_start|]. unfold canonical. by destruct (en_text en).
  - cbn [app] in Hst. rewrite (sd_used _ _ Hst), Nat2Z.id, take_app_length. by apply decode_finish.
Qed.

End copy.

(** ** The length of a field *)

Section bounds.
Context (p : encoder).
Let len (e : encoding) : Z := Z.of_nat (length (e_out e)).

Lemma length_encode_copy ch : (length (encode_copy p ch) <= 3)%nat.
Proof.
  unfold encode_copy. rewrite !length_app. destruct (_ && _), (_ || _ && _); cbn; lia.
Qed.

Lemma length_encode_one_byte ch n :
  en_B p = false -> 0 <= n ->
  Z.of_nat (length (encode_one_byte p ch n)) <= (if n <=? 1 then 3 else 9).
Proof.
  intros HB Hn. pose proof (length_encode_copy ch) as H. unfold encode_one_byte. rewrite HB, orb_false_r.
  destruct (Z.ltb_spec 3 n).
  - cbn [length app]. destruct (Z.leb_spec n 1); lia.
  - destruct (Z.to_nat n) as [|[|[|[|k]]]] eqn:E; [..|lia]; cbn [replicate concat];
      rewrite ?length_app; cbn [length]; destruct (Z.leb_spec n 1); lia.
Qed.

(** The loop fills the field up to [N] bytes or a little more. *)
Context (N : Z) (HB : en_B p = false).
Context (HN : forall e, field_full p e = false -> len e < N).

Record bounded (e : encoding) : Prop := {
  bd_out : len e < N \/ (len e < N + 9 /\ e_count e <= 1);
  bd_count : 0 <= e_count e;
  bd_crlf : e_crlf e = true -> en_text p = true
}.

Lemma feed_bounded ch e : len e < N -> bounded e -> bounded (feed p ch e).
Proof.
  intros Hlt [_ Hc Ht]. pose proof (length_encode_one_byte (e_last e) (e_count e) HB Hc) as L.
  assert (L9 : Z.of_nat (length (encode_one_byte p (e_last e) (e_count e))) <= 9)
    by (destruct (_ <=? _); lia).
  unfold feed. destruct (e_first e).
  - change (e_last (e <| e_last := ch |> <| e_first := false |> <| e_count := 0 |>)) with ch.
    change (e_count (e <| e_last := ch |> <| e_first := false |> <| e_count := 0 |>)) with 0.
    rewrite Z.eqb_refl. cbn [andb Z.ltb Z.compare]. split; [by left|done|done].
  - destruct (_ && _).
    + split; [by left|cbn; lia|done].
    + split; [right|cbn; lia|done]. split; [|cbn; lia].
      unfold len. cbn. rewrite length_app. unfold len in Hlt. lia.
Qed.

Context (Hraw : en_raw p = false).

Lemma encode_loop_bounded src : forall e, bounded e -> bounded (fst (encode_loop p src e)).
Proof.
  induction src as [|ch src IH]; intros e He; cbn [encode_loop].
  { by destruct (field_full p e). }
  destruct (field_full p e) eqn:F; [done|]. pose proof (HN e F) as Hlt. destruct He as [Ho Hc Ht].
  assert (Hf : forall c b e', len e' < N -> e_count e' = e_count e -> (b = true -> en_text p = true) ->
    e_crlf e' = b -> bounded (feed p c e')).
  { intros c b e' H1 H2 H3 H4. apply feed_bounded; [done|]. split; [by left|by rewrite H2|by rewrite H4]. }
  rewrite Hraw. destruct (en_text p && (ch =? C_CR)); [apply IH; by split|].
  destruct (en_text p && (ch =? C_LF)) eqn:T.
  - apply andb_prop in T as [T _].
    set (e0 := e <| e_used ::= Z.add 1 |> <| e_crlf := true |>).
    assert (H1 : bounded (feed p C_CR e0)) by (by apply (Hf C_CR true)).
    set (e1 := feed p C_CR e0) in *. destruct (field_full p e1) eqn:F1; [done|].
    apply IH, feed_bounded; [exact (HN e1 F1)|]. destruct H1 as [O1 C1 _]. by split.
  - apply IH. apply (Hf ch (e_crlf e)); done.
Qed.

Lemma finish_field_length e :
  bounded e -> Z.of_nat (length (finish_field p e)) <= N + 11 + (if en_text p then 3 else 0).
Proof.
  intros [Ho Hc Ht]. unfold finish_field. rewrite !length_app.
  pose proof (length_encode_one_byte (e_last e) (e_count e) HB Hc) as L.
  pose proof (length_encode_one_byte C_LF 1 HB ltac:(lia)) as L'. cbn in L'. unfold len in Ho.
  destruct (0 <? e_count e), (Z.leb_spec (e_count e) 1), (en_text p), (e_crlf e); cbn [andb length]; lia.
Qed.

Lemma field_length src :
  0 < N ->
  Z.of_nat (length (finish_field p (fst (encode_loop p src start_encoding)))) <=
  N + 11 + (if en_text p then 3 else 0).
Proof. intros. apply finish_field_length, encode_loop_bounded. split; [by left|done|done]. Qed.

End bounds.

(** The loop takes at least one byte when there is room for any. *)
Lemma encode_loop_used p src : forall e, e_used e <= e_used (fst (encode_loop p src e)).
Proof.
  induction src as [|ch src IH]; intros e; cbn [encode_loop].
  { by destruct (field_full p e). }
  assert (Hf : forall c e', e_used e <= e_used e' -> e_used e <= e_used (fst (encode_loop p src (feed p c e')))).
  { intros c e' H. pose proof (IH (feed p c e')) as I. pose proof (feed_fields p c e') as [_ U]. lia. }
  destruct (field_full p e); [done|]. destruct (en_raw p).
  { eapply Z.le_trans; [|apply IH]. cbn. lia. }
  destruct (_ && _). { eapply Z.le_trans; [|apply IH]. cbn. lia. }
  destruct (_ && _).
  - pose proof (feed_fields p C_CR (e <| e_used ::= Z.add 1 |> <| e_crlf := true |>)) as [_ U].
    change (e_used (e <| e_used ::= Z.add 1 |> <| e_crlf := true |>)) with (1 + e_used e) in U.
    destruct (field_full p _); [cbn; lia|]. apply Hf. cbn. lia.
  - apply Hf. cbn. lia.
Qed.

Lemma encode_loop_progress p ch src e :
  field_full p e = false -> e_used e < e_used (fst (encode_loop p (ch :: src) e)).
Proof.
  intros F. cbn [encode_loop]. rewrite F. clear F.
  assert (Hf : forall c e', e_used e < e_used e' -> e_used e < e_used (fst (encode_loop p src (feed p c e')))).
  { intros c e' H. pose proof (encode_loop_used p src (feed p c e')) as I.
    pose proof (feed_fields p c e') as [_ U]. lia. }
  destruct (en_raw p).
  { eapply Z.lt_le_trans; [|apply encode_loop_used]. cbn. lia. }
  destruct (_ && _). { eapply Z.lt_le_trans; [|apply encode_loop_used]. cbn. lia. }
  destruct (_ && _).
  - pose proof (feed_fields p C_CR (e <| e_used ::= Z.add 1 |> <| e_crlf := true |>)) as [_ U].
    change (e_used (e <| e_used ::= Z.add 1 |> <| e_crlf := true |>)) with (1 + e_used e) in U.
    destruct (field_full p _); [cbn; lia|]. apply Hf. cbn. lia.
  - apply Hf. cbn. lia.
Qed.

(** ** Full fields *)

(** A character is pending unless none came yet. *)
Definition pending (e : encoding) : Prop :=
  1 <= e_count e \/ (e_first e = true /\ e_out e = [] /\ e_count e = 0).

Lemma feed_pending p ch e : pending e -> pending (feed p ch e).
Proof.
  unfold pending, feed. intros H. left. destruct (e_first e) eqn:F.
  - change (e_last (e <| e_last := ch |> <| e_first := false |> <| e_count := 0 |>)) with ch.
    change (e_count (e <| e_last := ch |> <| e_first := false |> <| e_count := 0 |>)) with 0.
    rewrite Z.eqb_refl. cbn. lia.
  - destruct H as [H|[H _]]; [|done]. destruct (_ && _); cbn; lia.
Qed.

Lemma encode_loop_pending p src : en_raw p = false -> forall e, pending e ->
  pending (fst (encode_loop p src e)) /\
  (snd (encode_loop p src e) = false -> field_full p (fst (encode_loop p src e)) = true).
Proof.
  intros Hraw. induction src as [|ch src IH]; intros e He; cbn [encode_loop].
  { destruct (field_full p e) eqn:F; [by split|]. by split. }
  destruct (field_full p e) eqn:F; [by split|]. rewrite Hraw.
  destruct (_ && _); [by apply IH|]. destruct (_ && _).
  - destruct (field_full p (feed p C_CR _)) eqn:F1; cbn [fst snd].
    + split; [|done]. by apply feed_pending.
    + apply IH, feed_pending. apply (feed_pending p C_CR). done.
  - by apply IH, feed_pending.
Qed.

Lemma length_encode_one_byte_pos p ch n :
  1 <= n -> 1 <= Z.of_nat (length (encode_one_byte p ch n)).
Proof.
  intros H. unfold encode_one_byte. destruct (_ || _); [cbn; lia|].
  destruct (Z.to_nat n) as [|k] eqn:E; [lia|]. cbn [replicate concat]. rewrite length_app.
  unfold encode_copy. rewrite !length_app. cbn. lia.
Qed.

(** A field that ends because it is full has more than the limit in it. *)
Lemma full_field_length p src :
  en_raw p = false -> en_text p = false -> 5 < en_max p < 2 ^ 32 ->
  snd (encode_loop p src start_encoding) = false ->
  en_max p - 4 <= Z.of_nat (length (finish_field p (fst (encode_loop p src start_encoding)))).
Proof.
  intros Hraw Ht Hm He.
  destruct (encode_loop_pending p src Hraw start_encoding) as [Hp Hfull]; [by right|].
  specialize (Hfull He). set (e := fst _) in *. unfold field_full in Hfull.
  rewrite Ht, orb_false_r, Z.leb_le, u32_id in Hfull by lia.
  assert (H1 : 1 <= e_count e).
  { destruct Hp as [Hp|(_ & Ho & _)]; [done|]. rewrite Ho in Hfull. cbn in Hfull. lia. }
  pose proof (length_encode_one_byte_pos p (e_last e) (e_count e) H1) as L.
  unfold finish_field. rewrite !length_app, (proj2 (Z.ltb_lt _ _)) by lia. lia.
Qed.
