(* ===== verification/KermitPacket.v ===== *)
(** The packet layer of Kermit: what [encode_output_packet] puts on the line and
    that [decode_input_bytes] takes it off. *)

From Stdlib Require Import ZArith Lia List Bool.
From stdpp Require Import base list numbers gmap strings.
From S2P Require Import Prelude Crc Stdio Strptime Protocols Kermit KermitCodec.
Import Strptime Kermit.

(** ** Symbolic execution *)

Declare Reduction kproj := cbv beta iota zeta delta
  [field_update eta eta_kermit eta_status eta_parms eta_packet eta_serial eta_outbuf eta_common eta_stats
   eta_disk eta_FILE
   shared env status local_parms remote_parms session_parms upload_file_list upload_file_list_i
   download_path input_packet output_packet packet_buffer packet_buffer_n input_window
   input_window_begin input_window_i input_window_n output_window output_window_begin
   output_window_i output_window_n ctrl_c_count output
   state check_type sequence_number sending file_name file_size file_size_k file_modtime
   file_position file_stream file_protection outstanding_bytes status_block_size access
   timeout_begin timeout_max timeout_count first_R first_S first_SB sent_nak skip_file text_mode
   seven_bit_only do_resend is_first_data_packet file_fullname
   MARK MAXL TIME NPAD PADC EOL QCTL QBIN CHKT REPT CAPAS WINDO MAXLX1 MAXLX2 WHATAMI attributes
   windowing long_packets streaming WINDO_in WINDO_out
   parsed_ok seq type plength long_packet pdata data_n data_max
   sl_seq try_count acked sl_type sl_data sl_data_n ob ob_n
   q_transfer_stats q_screen_dirty the_disk clock ticks events
   batch_upload_file_list q_download_location q_state_download
   qts_state qts_protocol protocol_name qts_filename pathname last_message
   bytes_total bytes_transfer blocks block_size blocks_transfer error_count
   batch_bytes_total batch_bytes_transfer batch_start_time file_start_time end_time
   d_files d_unreadable d_readonly d_nostat d_space f_name f_pos f_eof f_err].
Ltac ksimpl := lazymatch goal with |- ?g => let g' := eval kproj in g in change g' end.
Ltac ksimpl_in H :=
  lazymatch type of H with ?g => let g' := eval kproj in g in change g' in H end.

Lemma wp_klift {A} (m : M common A) s (Q : A -> kermit_state -> Prop) :
  wp m (shared s) (fun a c => Q a (s <| shared := c |>)) -> wp (lift m) s Q.
Proof. unfold wp, lift, zoom. by destruct (m (shared s)) as [[]| |]. Qed.

(** ** Small arithmetic *)

Lemma tochar_id b : 0 <= b <= 94 -> kermit_tochar b = b + 32.
Proof. intros. unfold kermit_tochar. apply u8_id. unfold is_byte. lia. Qed.

Lemma unchar_tochar b : is_byte b -> kermit_unchar (kermit_tochar b) = b.
Proof.
  unfold is_byte, kermit_unchar, kermit_tochar, u8. intros. rewrite Zminus_mod_idemp_l.
  replace (b + 32 - 32) with b by lia. apply Z.mod_small. lia.
Qed.

Lemma tochar_byte b : is_byte (kermit_tochar b).
Proof. apply u8_byte. Qed.

(** A number put together from its low six bits and the rest. *)
Lemma six_bits c : 0 <= c -> c = Z.lor (Z.shiftl (Z.shiftr c 6) 6) (Z.land c 0x3F).
Proof.
  intros Hc. change 0x3F with (Z.ones 6). rewrite Z.land_ones by lia.
  bitwise. rewrite testbit_mod_pow2 by lia. rewrite Z.shiftl_spec by lia.
  destruct (Z.ltb_spec i 6).
  - rewrite (Z.testbit_neg_r _ (i - 6)) by lia. done.
  - rewrite Z.shiftr_spec by lia. replace (i - 6 + 6) with i by lia. by rewrite orb_false_r.
Qed.

Lemma land_3f c : 0 <= Z.land c 0x3F < 64.
Proof. change 64 with (2 ^ 6). apply land_bound; lia. Qed.

Lemma shiftr_small c k w : 0 <= k -> 0 <= c < 2 ^ (k + w) -> 0 <= w -> 0 <= Z.shiftr c k < 2 ^ w.
Proof.
  intros Hk Hc Hw. rewrite Z.shiftr_div_pow2 by done. rewrite Z.pow_add_r in Hc by lia.
  split; [apply Z.div_pos; lia|]. apply Z.div_lt_upper_bound; lia.
Qed.

Lemma checksum2_range sb l : 0 <= compute_checksum2 sb l < 2 ^ 12.
Proof. unfold compute_checksum2. apply land_bound; lia. Qed.

Lemma twelve_bits c :
  0 <= c < 2 ^ 12 -> c = Z.lor (Z.shiftl (Z.land (Z.shiftr c 6) 0x3F) 6) (Z.land c 0x3F).
Proof.
  intros Hc. rewrite (six_bits c) at 1 by lia. do 2 f_equal.
  change 0x3F with (Z.ones 6). rewrite Z.land_ones by lia. symmetry. apply Z.mod_small.
  apply shiftr_small; lia.
Qed.

(** The three characters of a CRC, read back; the [short] may be negative. *)
Lemma sixteen_bits z :
  u16 z = Z.lor (Z.lor (Z.shiftl (Z.land (Z.shiftr z 12) 0x0F) 12)
                       (Z.shiftl (Z.land (Z.shiftr z 6) 0x3F) 6)) (Z.land z 0x3F).
Proof.
  unfold u16. change 0x3F with (Z.ones 6). change 0x0F with (Z.ones 4).
  rewrite !Z.land_ones by lia. bitwise.
  rewrite !Z.shiftl_spec by lia. rewrite !testbit_mod_pow2 by lia.
  destruct (Z.ltb_spec i 6), (Z.ltb_spec i 12), (Z.ltb_spec i 16); try lia;
    rewrite ?(Z.testbit_neg_r _ (i - 12)), ?(Z.testbit_neg_r _ (i - 6)) by lia;
    rewrite ?Z.shiftr_spec by lia;
    destruct (Z.ltb_spec (i - 12) 4), (Z.ltb_spec (i - 6) 6); try lia;
    rewrite ?andb_false_l, ?andb_true_l, ?orb_false_r, ?orb_false_l; try done;
    repeat match goal with |- context [Z.testbit _ ?x] => progress replace x with i by lia end; done.
Qed.

(** ** The check characters *)

Definition known_check (ct : Z) : Prop := ct = 1 \/ ct = 2 \/ ct = 3 \/ ct = 12.

Lemma length_check_chars sb ct l :
  known_check ct -> Z.of_nat (length (check_chars sb ct l)) = check_length ct.
Proof. by intros [-> | [-> | [-> | ->]]]. Qed.

Lemma wp_load_app xs y ys buf i {S} (s : S) (Q : Z -> S -> Prop) :
  buf = xs ++ y :: ys -> i = Z.of_nat (length xs) -> Q y s -> wp (load buf i) s Q.
Proof.
  intros -> -> HQ. eapply (wp_load _ _ y); [lia| |done]. rewrite Nat2Z.id.
  by apply list_lookup_middle.
Qed.

(** A check that was computed is found good. *)
Lemma wp_check_good sb ct l A tail at_ s (Q : bool -> kermit_state -> Prop) :
  known_check ct -> at_ = Z.of_nat (length A) ->
  Q true s -> wp (check_good sb ct l (A ++ check_chars sb ct l ++ tail) at_) s Q.
Proof.
  intros Hct Hat HQ. unfold check_good, check_chars.
  pose proof (land_3f) as L. pose proof (checksum2_range sb l) as C.
  assert (L4 : forall c, 0 <= Z.land c 0x0F < 16)
    by (intros c; change 16 with (2 ^ 4); apply land_bound; lia).
  assert (B : forall c, 0 <= c < 250 -> is_byte c) by (unfold is_byte; lia).
  destruct Hct as [-> | [-> | [-> | ->]]]; cbn [Z.eqb Pos.eqb app].
  - apply wp_bind. eapply (wp_load_app A); [done|done|]. apply wp_ret. by rewrite Z.eqb_refl.
  - apply wp_bind. eapply (wp_load_app A); [done|done|].
    apply wp_bind. eapply (wp_load_app (A ++ [_])); [by rewrite <- app_assoc|rewrite length_app; cbn; lia|].
    apply wp_ret. set (c := compute_checksum2 sb l) in *.
    rewrite !unchar_tochar by (apply B; pose proof (L (Z.shiftr c 6)); pose proof (L c); lia).
    by rewrite <- (twelve_bits c), Z.eqb_refl.
  - apply wp_bind. eapply (wp_load_app A); [done|done|].
    apply wp_bind. eapply (wp_load_app (A ++ [_])); [by rewrite <- app_assoc|rewrite length_app; cbn; lia|].
    apply wp_bind. eapply (wp_load_app (A ++ [_; _])); [by rewrite <- app_assoc|rewrite length_app; cbn; lia|].
    apply wp_ret. set (c := kermit_compute_crc16 sb l) in *.
    rewrite !unchar_tochar by (apply B; pose proof (L (Z.shiftr c 6)); pose proof (L c);
      pose proof (L4 (Z.shiftr c 12)); lia).
    by rewrite <- sixteen_bits, Z.eqb_refl.
  - apply wp_bind. eapply (wp_load_app A); [done|done|].
    apply wp_bind. eapply (wp_load_app (A ++ [_])); [by rewrite <- app_assoc|rewrite length_app; cbn; lia|].
    apply wp_ret. set (c := compute_checksum2 sb l) in *.
    rewrite !unchar_tochar by (apply B; pose proof (L (Z.shiftr c 6)); pose proof (L c); lia).
    rewrite !Z.add_simpl_r. by rewrite <- (twelve_bits c), Z.eqb_refl.
Qed.

(** ** The decoder run on a packet *)

(** A state with another input packet. *)
Definition with_packet (s : kermit_state) (p : kermit_packet) : kermit_state := s <| input_packet := p |>.

Lemma wp_on_input f s p (Q : unit -> kermit_state -> Prop) :
  Q tt (with_packet s (f p)) -> wp (on_input f) (with_packet s p) Q.
Proof. intros H. exact H. Qed.

Lemma wp_on_input_here f s (Q : unit -> kermit_state -> Prop) :
  Q tt (with_packet s (f (input_packet s))) -> wp (on_input f) s Q.
Proof. intros H. exact H. Qed.

(** The parameters of the decoder for a packet. *)
Definition decoder_of (s : kermit_state) (sq : Z) (t : option PACKET_TYPE) : decoder :=
  {| dn_rept := REPT (session_parms s); dn_qbin := QBIN (session_parms s);
     dn_qctl := QCTL (remote_parms s);
     dn_raw := ((sq =? 0) && bool_decide (t = Some P_KACK \/ t = Some P_KSINIT)) ||
               bool_decide (t = Some P_KATTRIBUTES);
     dn_strip := bool_decide (t = Some P_KDATA) && bool_decide (state (status s) = KM_RDW) &&
                 text_mode (status s) |}.

(** No file has to be opened first. *)
Definition no_open (s : kermit_state) (t : option PACKET_TYPE) : Prop :=
  t = Some P_KDATA -> state (status s) = KM_RDW -> file_stream (status s) <> None.

Lemma grown_ge f max n : n <= 2 ^ 31 -> Z.of_nat f <= 32 -> 2 ^ (32 - Z.of_nat f) <= max -> n <= grown f max n.
Proof.
  intros Hn. revert max. induction f as [|f IH]; intros max Hf Hm; cbn [grown].
  - change (2 ^ (32 - Z.of_nat 0)) with (2 * 2 ^ 31) in Hm. lia.
  - destruct (Z.leb_spec n max); [done|].
    rewrite u32_id; [|lia]. apply IH; [lia|].
    replace (32 - Z.of_nat f) with (32 - Z.of_nat (S f) + 1) by lia.
    rewrite Z.pow_add_r by lia. lia.
Qed.

#[local] Opaque grown.

Lemma length_extend n l : length (extend n l) = Nat.max n (length l).
Proof. unfold extend. rewrite length_app, length_replicate. lia. Qed.

(** The packet with its decoded data. *)
Definition filled (out : list Z) (p : kermit_packet) : kermit_packet :=
  let max := grown 32 (data_max p) (Z.of_nat (length out)) in
  p <| pdata := blit (extend (Z.to_nat max) (pdata p)) 0 out |> <| data_max := max |>
    <| data_n := Z.of_nat (length out) |>.

Lemma filled_bytes out p : packet_bytes (filled out p) = out.
Proof.
  unfold packet_bytes, filled, blit. ksimpl. rewrite Nat2Z.id, take_0, app_nil_l. apply take_app_length.
Qed.

Lemma wp_put_decoded out s p (Q : unit -> kermit_state -> Prop) :
  1 <= data_max p -> Z.of_nat (length out) <= 2 ^ 31 ->
  Q tt (with_packet s (p <| pdata := pdata (filled out p) |> <| data_max := data_max (filled out p) |>)) ->
  wp (put_decoded out) (with_packet s p) Q.
Proof.
  intros Hm Hl HQ. unfold put_decoded. apply wp_bind, wp_gets.
  change (input_packet (with_packet s p)) with p. cbv zeta.
  apply wp_bind, wp_memcpy; [lia| |].
  - rewrite length_extend. pose proof (grown_ge 32 (data_max p) (Z.of_nat (length out)) Hl). lia.
  - apply wp_on_input. exact HQ.
Qed.

Lemma wp_decode_data_field t field tail out s p (Q : bool -> kermit_state -> Prop) :
  no_open s t -> 1 <= data_max p -> Z.of_nat (length out) <= 2 ^ 31 ->
  decoded (decoder_of s (seq p) t) field start_decoding = Some out ->
  Q true (with_packet s (filled out p)) ->
  wp (decode_data_field t (field ++ tail) (Z.of_nat (length field))) (with_packet s p) Q.
Proof.
  intros Hno Hm Hl Hd HQ. unfold decode_data_field. apply wp_bind, wp_gets, wp_bind.
  change (status (with_packet s p)) with (status s).
  apply wp_when; intros Hc.
  { exfalso. rewrite !andb_true_iff, !bool_decide_eq_true in Hc. destruct Hc as [[H1 H2] H3].
    by apply (Hno H1 H2). }
  apply wp_bind, wp_get. cbv zeta.
  change (input_packet (with_packet s p)) with p. change (session_parms (with_packet s p)) with (session_parms s).
  change (remote_parms (with_packet s p)) with (remote_parms s).
  change (status (with_packet s p)) with (status s). fold (decoder_of s (seq p) t).
  rewrite Nat2Z.id, take_app_length. unfold decoded in Hd.
  destruct (decode_loop (decoder_of s (seq p) t) field start_decoding) as [d ok].
  destruct ok; [|discriminate]. injection Hd as Hd. rewrite Hd.
  rewrite (proj2 (Z.ltb_ge _ _)) by (rewrite length_app; lia).
  apply wp_bind, wp_put_decoded; [done|done|].
  apply wp_bind, wp_on_input, wp_ret. exact HQ.
Qed.

Lemma wp_slice A l tail lo s (Q : list Z -> kermit_state -> Prop) :
  lo = Z.of_nat (length A) -> l <> [] -> Z.of_nat (length l) < 2 ^ 31 ->
  Q l s -> wp (slice (A ++ l ++ tail) lo (Z.of_nat (length l))) s Q.
Proof.
  intros -> Hne Hl HQ. unfold slice. rewrite i32_id by lia.
  destruct l as [|x l]; [done|]. rewrite (proj2 (Z.leb_gt _ _)) by (cbn; lia).
  rewrite (proj2 (Z.ltb_ge _ _)) by (rewrite !length_app; lia).
  rewrite !Nat2Z.id, drop_app_length, take_app_length. exact HQ.
Qed.

(** The payload of a packet of type [t], sequence number and data as decoded. *)
Lemma wp_decode_body s p A hdr field tail t ct len head out (Q : bool * Z -> kermit_state -> Prop) :
  let sb := seven_bit_only (status s) in
  let l := hdr ++ field in
  packet_buffer s = A ++ l ++ check_chars sb ct l ++ tail ->
  Z.of_nat (length l) < 2 ^ 31 ->
  Z.of_nat (length hdr) = head + 1 -> 1 <= head ->
  type p = t -> input_check_type (status s) t len = ct -> known_check ct ->
  plength p = head + Z.of_nat (length field) + check_length ct ->
  no_open s t -> 1 <= data_max p -> Z.of_nat (length out) <= 2 ^ 31 ->
  decoded (decoder_of s (seq p) t) field start_decoding = Some out ->
  wp (process_payload;; mret (true, Z.of_nat (length A) + head + 1 + plength p - head))
     (with_packet s (filled out p <| parsed_ok := true |>)) Q ->
  wp (decode_body (Z.of_nat (length A)) (Z.of_nat (length A) + head + 1) len head) (with_packet s p) Q.
Proof.
  intros sb l Hbuf Hl Hhdr Hhead Ht Hct Hknown Hlen Hno Hm Ho Hd HQ. unfold decode_body.
  apply wp_bind, wp_get. cbv zeta.
  change (input_packet (with_packet s p)) with p. change (status (with_packet s p)) with (status s).
  change (packet_buffer (with_packet s p)) with (packet_buffer s). fold sb.
  rewrite Ht, Hct, Hlen. assert (Hll : length l = (length hdr + length field)%nat) by apply length_app.
  replace (head + Z.of_nat (length field) + check_length ct - head - check_length ct)
    with (Z.of_nat (length field)) by lia.
  rewrite (u32_id (Z.of_nat (length field))) by lia.
  replace (Z.of_nat (length field) + head + 1) with (Z.of_nat (length l)) by lia.
  rewrite (u32_id (Z.of_nat (length l))) by lia. rewrite Hbuf.
  apply wp_bind, wp_slice; [done|destruct l; cbn in *; [lia|done]|done|].
  apply wp_bind. rewrite (app_assoc A l). apply wp_check_good; [done|rewrite length_app; lia|].
  cbn [negb]. rewrite <- app_assoc. unfold l at 1. rewrite <- (app_assoc hdr), (app_assoc A hdr).
  replace (Z.to_nat (Z.of_nat (length A) + head + 1)) with (length (A ++ hdr)) by (rewrite length_app; lia).
  rewrite drop_app_length.
  apply wp_bind, (wp_decode_data_field _ _ _ out); [done|done|done|done|].
  cbn [negb]. apply wp_bind, wp_on_input.
  rewrite Hlen in HQ. exact HQ.
Qed.

(** ** A packet on the line *)

Record frame := { fr_long : bool; fr_seq : Z; fr_type : PACKET_TYPE; fr_check : Z; fr_field : list Z }.

(** The bytes its check covers, and all of them. *)
Definition fr_header (f : frame) : list Z :=
  packet_header (fr_long f) (fr_seq f) (packet_char (fr_type f)) (fr_check f) (fr_field f).
Definition fr_covered (f : frame) : list Z := fr_header f ++ fr_field f.
Definition fr_bytes (sb : bool) (f : frame) : list Z :=
  fr_covered f ++ check_chars sb (fr_check f) (fr_covered f).

(** The value of its LEN byte, and that of the length fields. *)
Definition fr_len (f : frame) : Z :=
  if fr_long f then 0 else Z.of_nat (length (fr_field f)) + 2 + check_length (fr_check f).
Definition fr_head (f : frame) : Z := if fr_long f then 5 else 2.
Definition fr_plength (f : frame) : Z :=
  fr_head f + Z.of_nat (length (fr_field f)) + check_length (fr_check f).

(** What the receiver has to have agreed to. *)
Record acceptable (s : kermit_state) (f : frame) : Prop := {
  ac_seq : 0 <= fr_seq f <= 63;
  ac_check : known_check (fr_check f);
  ac_same_check : input_check_type (status s) (Some (fr_type f)) (fr_len f) = fr_check f;
  ac_short : fr_long f = false -> fr_len f <= MAXL (session_parms s) <= 94;
  ac_long : fr_long f = true ->
    long_packets (session_parms s) = true /\ fr_check f = 3 /\
    Z.of_nat (length (fr_field f)) + 3 <= MAXLX1 (session_parms s) * 95 + MAXLX2 (session_parms s) < 24320
}.

Lemma packet_type_char t : packet_type (packet_char t) = Some t.
Proof. by destruct t. Qed.

Lemma length_fr_header f : Z.of_nat (length (fr_header f)) = fr_head f + 1.
Proof. unfold fr_header, packet_header, fr_head. by destruct (fr_long f). Qed.

Lemma length_fr_bytes sb f :
  known_check (fr_check f) -> Z.of_nat (length (fr_bytes sb f)) = fr_plength f + 1.
Proof.
  intros H. unfold fr_bytes, fr_covered. rewrite !length_app, !Nat2Z.inj_add, length_fr_header.
  rewrite length_check_chars by done. unfold fr_plength. lia.
Qed.

Lemma find_mark_app mark pre l : mark ∉ pre -> find_mark mark (pre ++ mark :: l) = Some (length pre).
Proof.
  induction pre as [|b pre IH]; cbn [find_mark app length]; intros H.
  - by rewrite Z.eqb_refl.
  - apply not_elem_of_cons in H as [H1 H2]. rewrite (proj2 (Z.eqb_neq _ _)) by congruence.
    by rewrite IH.
Qed.

(** The input packet once its fields are read, [p] the one before. *)
Definition read_packet (f : frame) (p : kermit_packet) : kermit_packet :=
  {| parsed_ok := false; seq := fr_seq f; type := Some (fr_type f); plength := fr_plength f;
     long_packet := fr_long f; pdata := replicate (Z.to_nat (data_max p)) 0; data_n := 0;
     data_max := data_max p |}.

Lemma acceptable_lengths s f :
  acceptable s f -> 0 <= Z.of_nat (length (fr_field f)) /\ 1 <= check_length (fr_check f) <= 3.
Proof. intros [_ [-> | [-> | [-> | ->]]] _ _ _]; (split; [lia|done]). Qed.

Section arrival.
Context (s : kermit_state) (f : frame) (pre chk rest : list Z).
Context (Hacc : acceptable s f) (Hpre : MARK (session_parms s) ∉ pre).
Context (Hchk : Z.of_nat (length chk) = check_length (fr_check f)).
Let bs := fr_covered f ++ chk.
Context (Hbuf : packet_buffer s = (pre ++ [MARK (session_parms s)]) ++ bs ++ rest).
Context (Hn : Z.of_nat (length (pre ++ [MARK (session_parms s)] ++ bs)) <= packet_buffer_n s < 2 ^ 31).

(** The position of LEN. *)
Let lo : Z := Z.of_nat (length (pre ++ [MARK (session_parms s)])).

Lemma arrival_load i v p (Q : Z -> kermit_state -> Prop) :
  fr_header f !! i = Some v -> Q v (with_packet s p) ->
  wp (load (packet_buffer s) (lo + Z.of_nat i)) (with_packet s p) Q.
Proof.
  intros Hv HQ. apply (wp_load _ _ v); [lia| |done]. rewrite Hbuf.
  replace (Z.to_nat (lo + Z.of_nat i)) with (length (pre ++ [MARK (session_parms s)]) + i)%nat by lia.
  rewrite lookup_app_r by lia. rewrite Nat.add_comm, Nat.add_sub. unfold bs, fr_covered.
  rewrite <- !app_assoc. by rewrite lookup_app_l by (by eapply lookup_lt_Some).
Qed.

Lemma arrival_length : Z.of_nat (length bs) = fr_plength f + 1.
Proof.
  unfold bs, fr_covered. rewrite !length_app, !Nat2Z.inj_add, length_fr_header, Hchk.
  unfold fr_plength. lia.
Qed.

Lemma arrival_left : lo + fr_plength f + 1 <= packet_buffer_n s.
Proof.
  pose proof arrival_length as L. unfold lo. rewrite !length_app in *. lia.
Qed.


(** Stepping through the reads, each with the field it gets. *)
Ltac read_field i :=
  apply wp_bind; apply (arrival_load s f pre rest Hbuf i _ _ _ eq_refl).

Lemma unchar_u8 b : is_byte b -> kermit_unchar (kermit_tochar (u8 b)) = b.
Proof. intros H. by rewrite (u8_id b H), unchar_tochar. Qed.

Lemma wp_decode_short p (Q : bool * Z -> kermit_state -> Prop) :
  fr_long f = false -> parsed_ok p = false -> long_packet p = false -> data_n p = 0 ->
  pdata p = replicate (Z.to_nat (data_max p)) 0 ->
  wp (decode_body lo (lo + fr_head f + 1) (fr_len f) (fr_head f)) (with_packet s (read_packet f p)) Q ->
  wp (decode_packet lo) (with_packet s p) Q.
Proof.
  intros Hlong Hp1 Hp2 Hp3 Hp4 HQ.
  pose proof arrival_left as Hleft. pose proof (acceptable_lengths _ _ Hacc) as [Hdl Hcl].
  pose proof (ac_short _ _ Hacc Hlong) as Hmax. pose proof (ac_seq _ _ Hacc) as Hseq.
  assert (Hlen : fr_len f = fr_plength f) by (unfold fr_len, fr_plength, fr_head; rewrite Hlong; lia).
  assert (Hh : fr_header f = [kermit_tochar (u8 (fr_len f)); kermit_tochar (u8 (fr_seq f)); packet_char (fr_type f)])
    by (unfold fr_header, packet_header, fr_len; by rewrite Hlong).
  assert (Hge : 3 <= fr_len f) by (unfold fr_len; rewrite Hlong; lia).
  unfold decode_packet. apply wp_bind, wp_get. cbv zeta.
  change (packet_buffer (with_packet s p)) with (packet_buffer s).
  apply wp_bind. rewrite <- (Z.add_0_r lo) at 1.
  apply (arrival_load 0 (kermit_tochar (u8 (fr_len f)))); [by rewrite Hh|].
  rewrite unchar_u8 by (unfold is_byte; lia).
  apply wp_bind, wp_on_input. rewrite (proj2 (Z.eqb_neq (fr_len f) 0)) by lia. cbn [andb negb].
  apply wp_bind, wp_when; [done|intros _].
  change (session_parms (with_packet s p)) with (session_parms s).
  change (packet_buffer_n (with_packet s p)) with (packet_buffer_n s).
  rewrite (proj2 (Z.eqb_neq (fr_len f) 1)), (proj2 (Z.eqb_neq (fr_len f) 2)) by lia.
  rewrite (proj2 (Z.ltb_ge (MAXL (session_parms s)) (fr_len f))) by lia. cbn [andb orb].
  rewrite (u32_id (packet_buffer_n s - (lo + 1))) by (unfold lo in *; lia).
  rewrite (proj2 (Z.ltb_ge _ (fr_len f))) by lia.
  apply wp_bind, (arrival_load 1 (kermit_tochar (u8 (fr_seq f)))); [by rewrite Hh|].
  rewrite unchar_u8 by (unfold is_byte; lia).
  apply wp_bind, wp_on_input. rewrite (proj2 (Z.ltb_ge 63 (fr_seq f))) by lia.
  apply wp_bind, (arrival_load 2 (packet_char (fr_type f))); [by rewrite Hh|].
  rewrite packet_type_char. apply wp_bind, wp_on_input.
  assert (Hr : p <| plength := fr_len f |> <| seq := fr_seq f |> <| type := Some (fr_type f) |> = read_packet f p).
  { destruct p. unfold read_packet. ksimpl. ksimpl_in Hp1. ksimpl_in Hp2. ksimpl_in Hp3. ksimpl_in Hp4.
    by rewrite Hlen, Hlong, Hp1, Hp2, Hp3, Hp4. }
  rewrite Hr. clear Hr. unfold fr_head in HQ. rewrite Hlong in HQ.
  replace (lo + 3) with (lo + 2 + 1) by lia. exact HQ.
Qed.

Lemma wp_decode_long p (Q : bool * Z -> kermit_state -> Prop) :
  fr_long f = true -> parsed_ok p = false -> data_n p = 0 -> pdata p = replicate (Z.to_nat (data_max p)) 0 ->
  wp (decode_body lo (lo + fr_head f + 1) (fr_len f) (fr_head f)) (with_packet s (read_packet f p)) Q ->
  wp (decode_packet lo) (with_packet s p) Q.
Proof.
  intros Hlong Hp1 Hp3 Hp4 HQ.
  pose proof arrival_left as Hleft. pose proof (acceptable_lengths _ _ Hacc) as [Hdl _].
  destruct (ac_long _ _ Hacc Hlong) as (Hlp & H3 & Hmax). pose proof (ac_seq _ _ Hacc) as Hseq.
  set (L := Z.of_nat (length (fr_field f))) in *.
  set (l5 := [kermit_tochar 0; kermit_tochar (u8 (fr_seq f)); packet_char (fr_type f);
              kermit_tochar (u8 ((L + 3) / 95)); kermit_tochar (u8 ((L + 3) mod 95))]).
  assert (Hh : fr_header f = l5 ++ [kermit_tochar (u8 (hcheck l5))])
    by (unfold fr_header, packet_header; by rewrite Hlong).
  assert (Hp : fr_plength f = L + 8) by (unfold fr_plength, fr_head; rewrite Hlong, H3; unfold check_length; cbn; lia).
  assert (Hdiv : 0 <= (L + 3) / 95 < 256) by (split; [apply Z.div_pos|apply Z.div_lt_upper_bound]; lia).
  assert (Hmod : 0 <= (L + 3) mod 95 < 95) by (apply Z.mod_pos_bound; lia).
  unfold decode_packet. apply wp_bind, wp_get. cbv zeta.
  change (packet_buffer (with_packet s p)) with (packet_buffer s).
  apply wp_bind. rewrite <- (Z.add_0_r lo) at 1.
  apply (arrival_load 0 (kermit_tochar 0)); [by rewrite Hh|].
  change (kermit_unchar (kermit_tochar 0)) with 0. cbn [Z.eqb orb andb negb].
  apply wp_bind, wp_on_input.
  change (session_parms (with_packet s p)) with (session_parms s). rewrite Hlp.
  change (packet_buffer_n (with_packet s p)) with (packet_buffer_n s).
  apply wp_bind, wp_on_input.
  rewrite (u32_id (packet_buffer_n s - (lo + 1))) by (unfold lo in *; lia).
  rewrite (proj2 (Z.ltb_ge _ 5)) by lia.
  apply wp_bind, (arrival_load 1 (kermit_tochar (u8 (fr_seq f)))); [by rewrite Hh|].
  rewrite unchar_u8 by (unfold is_byte; lia).
  apply wp_bind, wp_on_input. rewrite (proj2 (Z.ltb_ge 63 (fr_seq f))) by lia.
  apply wp_bind, (arrival_load 2 (packet_char (fr_type f))); [by rewrite Hh|].
  rewrite packet_type_char. apply wp_bind, wp_on_input.
  apply wp_bind. unfold extended_header. apply wp_bind, wp_get. cbv zeta.
  match goal with |- wp _ (with_packet s ?q) _ =>
    change (packet_buffer (with_packet s q)) with (packet_buffer s);
    change (session_parms (with_packet s q)) with (session_parms s)
  end.
  apply wp_bind, (arrival_load 3 (kermit_tochar (u8 ((L + 3) / 95)))); [by rewrite Hh|].
  apply wp_bind, (arrival_load 4 (kermit_tochar (u8 ((L + 3) mod 95)))); [by rewrite Hh|].
  rewrite !unchar_u8 by (unfold is_byte; lia).
  assert (Hn3 : (L + 3) / 95 * 95 + (L + 3) mod 95 = L + 3) by (rewrite Z.mul_comm; symmetry; apply Z.div_mod; lia).
  rewrite Hn3. apply wp_bind, wp_on_input.
  rewrite (proj2 (Z.ltb_ge _ (L + 3))) by lia.
  apply wp_bind, wp_on_input.
  apply wp_bind, (arrival_load 5 (kermit_tochar (u8 (hcheck l5)))); [by rewrite Hh|].
  assert (Hhc : is_byte (hcheck l5)).
  { unfold hcheck. pose proof (land_3f (u16 (fold_left Z.add l5 0) +
      Z.land (u16 (fold_left Z.add l5 0)) 192 / 64)) as B. unfold is_byte. change 63 with 0x3F. lia. }
  rewrite unchar_u8 by done.
  assert (Hbuf' : packet_buffer s = (pre ++ [MARK (session_parms s)]) ++ l5 ++
            ([kermit_tochar (u8 (hcheck l5))] ++ fr_field f ++ chk ++ rest)).
  { rewrite Hbuf. unfold bs, fr_covered. rewrite Hh, <- !app_assoc. done. }
  apply wp_bind. rewrite Hbuf'. change 5 with (Z.of_nat (length l5)).
  apply wp_slice; [done|done|done|]. rewrite Z.eqb_refl. apply wp_ret. cbn [negb].
  change (Z.of_nat (length l5)) with 5. apply wp_bind, wp_gets.
  match goal with |- wp _ (with_packet s ?q) _ => assert (Hr : q = read_packet f p) end.
  { destruct p. unfold read_packet. ksimpl. ksimpl_in Hp1. ksimpl_in Hp3. ksimpl_in Hp4.
    rewrite Hp, Hlong, Hp1, Hp3, Hp4. f_equal. lia. }
  rewrite Hr. clear Hr.
  change (plength (input_packet (with_packet s (read_packet f p)))) with (fr_plength f).
  rewrite (u32_id (packet_buffer_n s - (lo + 6))) by (unfold lo in *; lia).
  rewrite (u32_id (fr_plength f - 5)) by lia. rewrite (proj2 (Z.ltb_ge _ (fr_plength f - 5))) by lia.
  unfold fr_head, fr_len in HQ. rewrite Hlong in HQ.
  replace (lo + 6) with (lo + 5 + 1) by lia. exact HQ.
Qed.

(** The whole header: a packet that arrives is read up to its check. *)
Lemma wp_decode_header (Q : bool * Z -> kermit_state -> Prop) :
  packet_buffer_n s <= Z.of_nat (length (packet_buffer s)) ->
  wp (decode_body lo (lo + fr_head f + 1) (fr_len f) (fr_head f))
     (with_packet s (read_packet f (input_packet s))) Q ->
  wp decode_input_bytes s Q.
Proof.
  intros Hsize HQ. unfold decode_input_bytes. apply wp_bind, wp_get. cbv zeta.
  pose proof arrival_left as Hleft. pose proof (acceptable_lengths _ _ Hacc) as [Hdl Hcl].
  assert (5 <= packet_buffer_n s) as H5.
  { unfold fr_plength, fr_head, lo in Hleft. rewrite length_app in Hleft. cbn in Hleft. destruct (fr_long f); lia. }
  rewrite (proj2 (Z.ltb_ge _ 5)) by done.
  apply wp_bind, wp_on_input_here.
  assert (Hm' : find_mark (MARK (session_parms s)) (take (Z.to_nat (packet_buffer_n s)) (packet_buffer s)) =
                Some (length pre)).
  { assert (Hlt : (length (pre ++ [MARK (session_parms s)]) <= Z.to_nat (packet_buffer_n s))%nat)
      by (unfold lo in Hleft; pose proof arrival_length; lia).
    rewrite Hbuf, take_app_ge by done. rewrite <- app_assoc. by apply find_mark_app. }
  rewrite Hm'. replace (Z.of_nat (length pre) + 1) with lo by (unfold lo; rewrite length_app; cbn; lia).
  destruct (fr_long f) eqn:E; [eapply wp_decode_long|eapply wp_decode_short]; done.
Qed.

End arrival.

(** A good packet. *)
Lemma wp_decode_input_bytes s f pre rest out (Q : bool * Z -> kermit_state -> Prop) :
  let bs := fr_bytes (seven_bit_only (status s)) f in
  acceptable s f -> MARK (session_parms s) ∉ pre ->
  packet_buffer s = (pre ++ [MARK (session_parms s)]) ++ bs ++ rest ->
  Z.of_nat (length (pre ++ [MARK (session_parms s)] ++ bs)) <= packet_buffer_n s < 2 ^ 31 ->
  packet_buffer_n s <= Z.of_nat (length (packet_buffer s)) ->
  no_open s (Some (fr_type f)) -> 1 <= data_max (input_packet s) -> Z.of_nat (length out) <= 2 ^ 31 ->
  decoded (decoder_of s (fr_seq f) (Some (fr_type f))) (fr_field f) start_decoding = Some out ->
  wp (process_payload;; mret (true, Z.of_nat (length (pre ++ [MARK (session_parms s)])) + fr_plength f + 1))
     (with_packet s (filled out (read_packet f (input_packet s)) <| parsed_ok := true |>)) Q ->
  wp decode_input_bytes s Q.
Proof.
  intros bs Hacc Hpre Hbuf Hn Hsize Hno Hm Ho Hd HQ. unfold bs, fr_bytes in Hbuf, Hn.
  assert (Hchk : Z.of_nat (length (check_chars (seven_bit_only (status s)) (fr_check f) (fr_covered f))) =
                 check_length (fr_check f)) by (apply length_check_chars, Hacc).
  pose proof (arrival_left s f pre _ Hchk Hn) as Hleft.
  apply (wp_decode_header s f pre _ rest Hacc Hpre Hchk Hbuf Hn _ Hsize).
  pose proof (length_fr_header f) as Hfh.
  apply (wp_decode_body s (read_packet f (input_packet s)) (pre ++ [MARK (session_parms s)]) (fr_header f) (fr_field f) rest
           (Some (fr_type f)) (fr_check f) (fr_len f) (fr_head f) out); try done.
  - fold (fr_covered f). by rewrite Hbuf, <- !app_assoc.
  - fold (fr_covered f). unfold fr_covered. rewrite length_app, Nat2Z.inj_add. unfold fr_plength in Hleft.
    pose proof (acceptable_lengths s f Hacc). lia.
  - unfold fr_head. destruct (fr_long f); lia.
  - apply (ac_same_check _ _ Hacc).
  - apply (ac_check _ _ Hacc).
  - change (plength (read_packet f (input_packet s))) with (fr_plength f).
    replace (Z.of_nat (length (pre ++ [MARK (session_parms s)])) + fr_head f + 1 + fr_plength f - fr_head f)
      with (Z.of_nat (length (pre ++ [MARK (session_parms s)])) + fr_plength f + 1) by lia. exact HQ.
Qed.

(** ** A packet put on the line *)

Definition from_file (s : kermit_state) : bool :=
  bool_decide (type (output_packet s) = Some P_KDATA) && bool_decide (state (status s) = KM_SDW).

(** The bytes the next packet can carry. *)
Definition source_bytes (s : kermit_state) : list Z :=
  if from_file s then
    match file_stream (status s) with
    | Some f => drop (Z.to_nat (file_position (status s))) (f_data (the_disk (shared s)) f)
    | None => []
    end
  else take (Z.to_nat (data_n (output_packet s))) (pdata (output_packet s)).

(** The encoder of [encode_data_field]. *)
Definition encoder_of (s : kermit_state) (long : bool) : encoder :=
  let p := output_packet s in
  let st := status s in
  let sess := session_parms s in
  {| en_rept := REPT sess; en_qbin := QBIN sess; en_qctl := QCTL (local_parms s);
     en_B := check_type st =? 12;
     en_raw := bool_decide (type p = Some P_KSINIT) ||
               ((sequence_number st =? 0) && bool_decide (type p = Some P_KACK)) ||
               bool_decide (type p = Some P_KATTRIBUTES);
     en_text := text_mode st;
     en_max := if long then u32 (MAXLX1 sess * 95 + MAXLX2 sess - 9) else MAXL sess;
     en_maxl := MAXL sess |}.
Definition encoded (s : kermit_state) (long : bool) : encoding :=
  fst (encode_loop (encoder_of s long) (source_bytes s) start_encoding).

(** The file of the sender can be read. *)
Definition readable (s : kermit_state) : Prop :=
  from_file s = true -> exists f, file_stream (status s) = Some f /\
    f_name f ∉ d_unreadable (the_disk (shared s)).

(** The state but for the fields that change. *)
Record same_terms (s s' : kermit_state) : Prop := {
  sm_output : output s' = output s;
  sm_packet : output_packet s' = output_packet s;
  sm_session : session_parms s' = session_parms s;
  sm_seven : seven_bit_only (status s') = seven_bit_only (status s)
}.

Lemma wp_encode_data_field s long (Q : list Z -> kermit_state -> Prop) :
  readable s -> long_packet (output_packet s) = long ->
  (forall s', same_terms s s' -> Q (finish_field (encoder_of s long) (encoded s long)) s') ->
  wp encode_data_field s Q.
Proof.
  intros Hr <- HQ. unfold encode_data_field. apply wp_bind, wp_get. cbv zeta.
  fold (from_file s) (encoder_of s (long_packet (output_packet s))).
  unfold encoded, source_bytes in HQ. destruct (from_file s) eqn:Hf.
  - destruct (Hr Hf) as (f & Hfs & Hread). rewrite Hfs in HQ |- *. apply wp_bind, (wp_nonnull _ f); [done|].
    set (d := the_disk (shared s)) in *. set (pos := file_position (status s)) in *.
    assert (Hsrc : fst (fread d (fseek_set f pos) (length (f_data d (fseek_set f pos)))) =
                   drop (Z.to_nat pos) (f_data d f)).
    { unfold fread. rewrite decide_False by done. cbn [fst].
      change (f_pos (fseek_set f pos)) with pos. change (f_data d (fseek_set f pos)) with (f_data d f).
      apply firstn_all2. rewrite length_drop. lia. }
    rewrite Hsrc. destruct (encode_loop _ _ _) as [e ended]. cbn [fst] in HQ.
    apply wp_bind. apply wp_modify. apply wp_ret. apply HQ. done.
  - destruct (encode_loop _ _ _) as [e ended]. cbn [fst] in HQ.
    apply wp_bind, wp_modify, wp_ret. apply HQ. done.
Qed.

(** Two writes one behind the other. *)
Lemma blit_snoc buf n xs y :
  (n + length xs < length buf)%nat ->
  take (n + length xs + 1) (blit (blit buf n xs) (n + length xs) [y]) = take n buf ++ xs ++ [y].
Proof.
  intros H. assert (E : take (n + length xs) (blit buf n xs) = take n buf ++ xs).
  { unfold blit. rewrite app_assoc.
    assert (Hl : (n + length xs)%nat = length (take n buf ++ xs))
      by (rewrite length_app, length_take; lia).
    rewrite Hl. apply take_app_length. }
  unfold blit at 1. rewrite E, app_assoc.
  assert (Hl : (n + length xs + 1)%nat = length ((take n buf ++ xs) ++ [y]))
    by (rewrite !length_app, length_take; cbn; lia).
  rewrite app_assoc, Hl, take_app_length. by rewrite <- app_assoc.
Qed.

(** The packet that goes out. *)
Definition out_long (s : kermit_state) (t : PACKET_TYPE) : bool :=
  bool_decide (t = P_KDATA) && long_packets (session_parms s).
Definition out_frame (s : kermit_state) (t : PACKET_TYPE) : frame :=
  let long := out_long s t in
  {| fr_long := long; fr_seq := seq (output_packet s); fr_type := t;
     fr_check := output_check_type (status s) t;
     fr_field := finish_field (encoder_of s long) (encoded s long) |}.
Definition out_bytes (s : kermit_state) (t : PACKET_TYPE) : list Z :=
  MARK (session_parms s) :: fr_bytes (seven_bit_only (status s)) (out_frame s t) ++ [EOL (session_parms s)].

(** What has been written so far. *)
Definition written (s : kermit_state) : list Z := take (Z.to_nat (ob_n (output s))) (ob (output s)).

Definition with_output (s : kermit_state) (b : outbuf) : kermit_state := s <| output := b |>.

Lemma wp_out_poke off xs s (Q : unit -> kermit_state -> Prop) :
  0 <= ob_n (output s) + off ->
  ob_n (output s) + off + Z.of_nat (length xs) <= Z.of_nat (length (ob (output s))) ->
  Q tt (with_output s {| ob := blit (ob (output s)) (Z.to_nat (ob_n (output s) + off)) xs;
                         ob_n := ob_n (output s) |}) ->
  wp (poke off xs) s Q.
Proof.
  intros H1 H2 HQ. unfold poke. apply wp_bind, wp_gets, wp_bind, wp_memcpy; [done|done|].
  apply wp_modify. exact HQ.
Qed.

(** What [encode_output_packet] tells the statistics about data. *)
Lemma wp_count_data (b : bool) s (Q : unit -> kermit_state -> Prop) :
  MAXL (session_parms s) <> 0 ->
  (forall s', output s' = output s -> output_packet s' = output_packet s -> Q tt s') ->
  wp (whenM b
        (on_status (fun st => st <| file_position ::= Z.add (outstanding_bytes st) |>);;
         st ← gets status;
         on_stats (fun q => q <| bytes_transfer := u64 (file_position st) |>);;
         stats_increment_blocks)) s Q.
Proof.
  intros Hm HQ. apply wp_when; intros _; [|by apply HQ].
  apply wp_bind, wp_modify, wp_bind, wp_gets, wp_bind. apply wp_klift, wp_modify.
  unfold stats_increment_blocks. apply wp_bind, wp_get. cbv zeta.
  match goal with |- wp (if MAXL (session_parms ?x) =? 0 then _ else _) _ _ =>
    change (MAXL (session_parms x)) with (MAXL (session_parms s)) end.
  rewrite (proj2 (Z.eqb_neq _ _) Hm). apply wp_bind, wp_klift, wp_modify, wp_klift, wp_modify.
  by apply HQ.
Qed.

Lemma wp_encode_output_packet s t (Q : unit -> kermit_state -> Prop) :
  parsed_ok (output_packet s) = true -> type (output_packet s) = Some t -> readable s ->
  known_check (output_check_type (status s) t) -> MAXL (session_parms s) <> 0 ->
  0 <= ob_n (output s) ->
  ob_n (output s) + Z.of_nat (length (out_bytes s t)) <= Z.of_nat (length (ob (output s))) ->
  (forall s', written s' = written s ++ out_bytes s t -> parsed_ok (output_packet s') = false -> Q tt s') ->
  wp encode_output_packet s Q.
Proof.
  intros Hok Ht Hr Hk Hmaxl H0 Hroom HQ. unfold encode_output_packet.
  apply wp_bind, wp_get. cbv zeta. rewrite Hok, Ht. cbn [negb]. fold (out_long s t).
  apply wp_bind, wp_modify. set (s1 := s <| output_packet ::= _ |>).
  change (output_check_type (status s) t) with (fr_check (out_frame s t)) in *.
  apply wp_bind, (wp_encode_data_field s1 (out_long s t)); [exact Hr|reflexivity|].
  intros s2 [E1 E2 E3 E4].
  change (finish_field (encoder_of s1 (out_long s t)) (encoded s1 (out_long s t)))
    with (fr_field (out_frame s t)).
  change (packet_header (out_long s t) (seq (output_packet s)) (packet_char t) (fr_check (out_frame s t))
            (fr_field (out_frame s t)) ++ fr_field (out_frame s t)) with (fr_covered (out_frame s t)).
  set (f := out_frame s t) in *. set (sb := seven_bit_only (status s)).
  pose proof (length_fr_bytes sb f Hk) as Hfb.
  assert (Hpl : Z.of_nat (length (fr_covered f)) - 1 + check_length (fr_check f) = fr_plength f).
  { unfold fr_covered, fr_plength. rewrite length_app, Nat2Z.inj_add, length_fr_header. lia. }
  rewrite Hpl. fold (fr_bytes sb f). set (xs := MARK (session_parms s) :: fr_bytes sb f).
  assert (Hxs : Z.of_nat (length xs) = fr_plength f + 2) by (unfold xs; cbn [length]; lia).
  assert (Hob : out_bytes s t = xs ++ [EOL (session_parms s)]) by done.
  rewrite Hob, length_app in Hroom. cbn [length] in Hroom.
  change (output s1) with (output s) in E1.
  apply wp_bind, wp_out_poke; rewrite ?E1; [lia|lia|].
  set (b1 := blit (ob (output s)) (Z.to_nat (ob_n (output s) + 0)) xs).
  assert (Hb1 : length b1 = length (ob (output s))) by (apply length_blit; lia).
  change (session_parms s1) with (session_parms s) in E3.
  apply wp_bind, wp_out_poke; cbn [with_output]; change (output (with_output s2 ?b)) with b; cbn [ob ob_n];
    [lia|rewrite Hb1; cbn [length]; lia|].
  set (b2 := blit b1 _ _). apply wp_bind, wp_modify, wp_bind, wp_count_data; [by rewrite <- E3 in Hmaxl|].
  intros s3 F1 F2. apply wp_modify. apply HQ; [|exact (f_equal parsed_ok F2)].
  unfold written. match goal with |- context [s3 <| output ::= ?g |>] =>
    change (output (s3 <| output ::= g |>)) with (g (output s3)) end.
  rewrite F1. match goal with |- context [output (?x <| output_packet ::= ?g |>)] =>
    change (output (x <| output_packet ::= g |>)) with {| ob := b2; ob_n := ob_n (output s) |} end.
  match goal with |- take ?n ?l = _ =>
    change (take (Z.to_nat (ob_n (output s) + (fr_plength f + 3))) b2 = written s ++ out_bytes s t) end.
  unfold written, b2, b1. rewrite Hob, Z.add_0_r.
  replace (Z.to_nat (ob_n (output s) + (fr_plength f + 2))) with (Z.to_nat (ob_n (output s)) + length xs)%nat by lia.
  replace (Z.to_nat (ob_n (output s) + (fr_plength f + 3))) with (Z.to_nat (ob_n (output s)) + length xs + 1)%nat by lia.
  apply blit_snoc. lia.
Qed.

(** A CRC that does not match is noticed. *)
Lemma wp_check_bad sb l l' A tail at_ s (Q : bool -> kermit_state -> Prop) :
  at_ = Z.of_nat (length A) -> u16 (kermit_compute_crc16 sb l) <> u16 (kermit_compute_crc16 sb l') ->
  Q false s -> wp (check_good sb 3 l (A ++ check_chars sb 3 l' ++ tail) at_) s Q.
Proof.
  intros Hat Hne HQ. unfold check_good, check_chars.
  pose proof (land_3f) as L.
  assert (L4 : forall c, 0 <= Z.land c 0x0F < 16)
    by (intros c; change 16 with (2 ^ 4); apply land_bound; lia).
  assert (B : forall c, 0 <= c < 250 -> is_byte c) by (unfold is_byte; lia).
  cbn [Z.eqb Pos.eqb app].
  apply wp_bind. eapply (wp_load_app A); [done|done|].
  apply wp_bind. eapply (wp_load_app (A ++ [_])); [by rewrite <- app_assoc|rewrite length_app; cbn; lia|].
  apply wp_bind. eapply (wp_load_app (A ++ [_; _])); [by rewrite <- app_assoc|rewrite length_app; cbn; lia|].
  apply wp_ret. set (c := kermit_compute_crc16 sb l') in *.
  rewrite !unchar_tochar by (apply B; pose proof (L (Z.shiftr c 6)); pose proof (L c);
    pose proof (L4 (Z.shiftr c 12)); lia).
  rewrite <- sixteen_bits. by rewrite (proj2 (Z.eqb_neq _ _) Hne).
Qed.

(** The body of a packet whose CRC does not match is turned down. *)
Lemma wp_decode_body_bad s p A l l' tail len head t (Q : bool * Z -> kermit_state -> Prop) :
  packet_buffer s = A ++ l ++ check_chars (seven_bit_only (status s)) 3 l' ++ tail ->
  l <> [] -> Z.of_nat (length l) < 2 ^ 31 -> 
  type p = t -> input_check_type (status s) t len = 3 ->
  plength p = Z.of_nat (length l) - 1 + 3 -> 1 <= head < Z.of_nat (length l) ->
  u16 (kermit_compute_crc16 (seven_bit_only (status s)) l) <> u16 (kermit_compute_crc16 (seven_bit_only (status s)) l') ->
  wp reject (with_packet s p) Q ->
  wp (decode_body (Z.of_nat (length A)) (Z.of_nat (length A) + head + 1) len head) (with_packet s p) Q.
Proof.
  intros Hbuf Hne Hl Ht Hct Hlen Hhead Hcrc HQ. unfold decode_body.
  apply wp_bind, wp_get. cbv zeta.
  change (input_packet (with_packet s p)) with p. change (status (with_packet s p)) with (status s).
  change (packet_buffer (with_packet s p)) with (packet_buffer s).
  rewrite Ht, Hct, Hlen. change (check_length 3) with 3.
  rewrite (u32_id (_ - head - 3)) by lia.
  replace (Z.of_nat (length l) - 1 + 3 - head - 3 + head + 1) with (Z.of_nat (length l)) by lia.
  rewrite (u32_id (Z.of_nat (length l))) by lia. rewrite Hbuf.
  apply wp_bind, wp_slice; [done|done|done|].
  apply wp_bind. rewrite (app_assoc A l). apply wp_check_bad; [rewrite length_app; lia|done|].
  exact HQ.
Qed.

(** The CRCs of messages that differ in two neighbouring bytes. *)
Lemma kermit_crc_burst pre post a a' b b' :
  bytes pre -> bytes post -> bytes [a; a'] -> bytes [b; b'] -> [a; a'] <> [b; b'] ->
  u16 (kermit_compute_crc16 false (pre ++ [a; a'] ++ post)) <>
  u16 (kermit_compute_crc16 false (pre ++ [b; b'] ++ post)).
Proof.
  intros Hp Hq Ha Hb Hne.
  rewrite !kermit_compute_crc16_code by (rewrite !bytes_app; done).
  assert (Hid : forall l, kermit_channel false <$> l = l) by (intros l; apply list_fmap_id).
  rewrite !Hid. apply code_burst; [unfold in_width; lia|done..].
Qed.

Lemma fr_header_bytes f : 0 <= fr_seq f <= 63 -> bytes (fr_header f).
Proof.
  intros Hs. assert (Ht : is_byte (packet_char (fr_type f))) by (destruct (fr_type f); by unfold is_byte).
  unfold fr_header, packet_header. destruct (fr_long f).
  - rewrite bytes_app. split; repeat (apply bytes_cons; [first [apply tochar_byte|exact Ht]|]); apply bytes_nil.
  - repeat (apply bytes_cons; [first [apply tochar_byte|exact Ht]|]); apply bytes_nil.
Qed.

(** ** A session to look at *)

Definition sample_env : environment :=
  {| kermit_long_packets := true; kermit_streaming := true; kermit_robust_filename := false;
     kermit_uploads_force_binary := false; kermit_downloads_convert_text := true;
     kermit_resend := false; seven_bit_line := false;
     localtime := fun t => {| tm_sec := t mod 60; tm_min := t / 60 mod 60; tm_hour := t / 3600; tm_mday := 1; tm_mon := 0;
                              tm_year := 70; tm_isdst := 0 |};
     mktime := fun t => 3600 * tm_hour t + 60 * tm_min t + tm_sec t |}.
Definition sample_disk : disk := plain_disk {[ str "f" := [1; 2; 35; 35; 35; 35; 35; 200] ]} 10000.
Definition sample_parms (long : bool) : session_parameters :=
  (set_default_session_parameters sample_env false) <| QBIN := SP |> <| windowing := false |> <| streaming := long |>
    <| long_packets := long |>.

(** A packet whose buffer can hold 64 bytes. *)
Definition sample_packet : kermit_packet :=
  (zero_packet) <| pdata := replicate 64 0 |> <| data_max := 64 |>.

(** In the middle of a file: the sender with a Data packet to fill, and the
    receiver. *)
Definition sample_sender (long : bool) : kermit_state :=
  (statics (initial_common sample_disk (fun _ => 0)) sample_env 4096)
    <| session_parms := sample_parms long |> <| local_parms := sample_parms long |>
    <| remote_parms := sample_parms long |>
    <| output := empty_outbuf 200 |>
    <| status ::= (fun st => st <| state := KM_SDW |> <| check_type := 3 |> <| sending := true |>
         <| sequence_number := 3 |> <| file_stream := Some (opened (str "f")) |>) |>
    <| output_packet := (sample_packet) <| parsed_ok := true |> <| type := Some P_KDATA |> <| seq := 3 |> |>.
Definition sample_receiver (long : bool) (line : list Z) : kermit_state :=
  (sample_sender long)
    <| status ::= (fun st => st <| state := KM_RDW |> <| sending := false |>) |>
    <| output_packet := sample_packet |> <| input_packet := sample_packet |>
    <| packet_buffer := line ++ replicate 100 0 |> <| packet_buffer_n := Z.of_nat (length line) |>.

(** Closed goals about the samples. *)
Ltac evaluate := vm_compute; first [reflexivity | discriminate | (split; (reflexivity || discriminate))].
