(* ===== verification/KermitProps.v ===== *)
(** The properties of the Kermit codec, packets and parameters. *)

From Stdlib Require Import ZArith Lia List Bool.
From stdpp Require Import base list numbers gmap strings.
From S2P Require Import Prelude Crc Stdio Protocols Kermit KermitMachine KermitCodec KermitPacket.
Import Kermit Machine.

(** ** A file cut into packets *)

(** The data fields of a file: [send_file_data] and [encode_data_field] again and
    again, each time from the byte after the last one used. *)
Fixpoint fields (fuel : nat) (p : encoder) (src : list Z) : list (list Z) :=
  match fuel, src with
  | S fuel, _ :: _ =>
    let e := fst (encode_loop p src start_encoding) in
    finish_field p e :: fields fuel p (drop (Z.to_nat (e_used e)) src)
  | _, _ => []
  end.

(** C6: A file is cut into data fields from which the receiver gets the file
    back: every field decodes, and the decoded pieces make up the canonical form
    of the file (CRLF line ends for a text file, the bytes themselves for a
    binary one), whatever the prefixes, the repetitions and the places where the
    fields end; one turn per byte is enough to get to the end. *)
Theorem file_in_packets (en : encoder) (de : decoder) (src : list Z) :
  peers en de -> bytes src -> field_full en start_encoding = false ->
  exists pieces,
    Forall2 (fun f piece => decoded de f start_decoding = Some piece) (fields (length src) en src) pieces /\
    concat pieces = stripped de (canonical en src).
Proof.
  intros Hp Hb Hroom. remember (length src) as n eqn:Hn.
  assert (Hle : (length src <= n)%nat) by lia. clear Hn.
  revert src Hb Hle. induction n as [|n IH]; intros src Hb Hle; destruct src as [|ch src]; cbn [length] in Hle;
    try lia; cbn [fields].
  1, 2: exists []; unfold canonical; by destruct (en_text en).
  pose proof (decode_encode_field en de Hp (ch :: src) Hb) as Hd.
  pose proof (encode_loop_progress en ch src start_encoding Hroom) as Hu. cbn [start_encoding e_used] in Hu.
  destruct (encode_loop en (ch :: src) start_encoding) as [e ended]. cbn [fst] in *.
  set (k := Z.to_nat (e_used e)) in *.
  destruct (IH (drop k (ch :: src))) as (pieces & H1 & H2).
  { by apply bytes_drop. }
  { rewrite length_drop. cbn [length]. lia. }
  exists (stripped de (canonical en (take k (ch :: src))) :: pieces). split; [by constructor|].
  cbn [concat]. rewrite H2, <- stripped_app, <- canonical_app, take_drop. done.
Qed.

(** ** Packets *)

(** The sender has a packet to send and room to put it in. *)
Record ready_to_send (s : kermit_state) (t : PACKET_TYPE) : Prop := {
  rd_ok : parsed_ok (output_packet s) = true;
  rd_type : type (output_packet s) = Some t;
  rd_file : readable s;
  rd_check : known_check (output_check_type (status s) t);
  rd_maxl : MAXL (session_parms s) <> 0;
  rd_out : 0 <= ob_n (output s);
  rd_room : ob_n (output s) + Z.of_nat (length (out_bytes s t)) <= Z.of_nat (length (ob (output s)));
  rd_bytes : bytes (source_bytes s);
  rd_small : Z.of_nat (length (source_bytes s)) <= 2 ^ 30
}.

(** What the two sides have to agree on for a packet of type [t]. *)
Record agree (sa sb : kermit_state) (t : PACKET_TYPE) : Prop := {
  ag_mark : MARK (session_parms sb) = MARK (session_parms sa);
  ag_seven : seven_bit_only (status sb) = seven_bit_only (status sa);
  ag_codec : peers (encoder_of sa (out_long sa t)) (decoder_of sb (seq (output_packet sa)) (Some t));
  ag_accept : acceptable sb (out_frame sa t);
  ag_open : no_open sb (Some t);
  ag_buffer : 1 <= data_max (input_packet sb)
}.

(** The bytes a packet takes from its source, as they arrive. *)
Definition carried (sa sb : kermit_state) (t : PACKET_TYPE) : list Z :=
  let en := encoder_of sa (out_long sa t) in
  stripped (decoder_of sb (seq (output_packet sa)) (Some t))
    (canonical en (take (Z.to_nat (e_used (encoded sa (out_long sa t)))) (source_bytes sa))).

Lemma length_canonical en l : (length (canonical en l) <= 2 * length l)%nat.
Proof.
  unfold canonical. destruct (en_text en); [|lia]. induction l as [|c l IH]; [done|].
  cbn [flat_map]. rewrite length_app. cbn [length].
  assert (length (text_byte c) <= 2)%nat by (unfold text_byte; repeat case_match; cbn; lia). lia.
Qed.

Lemma length_stripped de l : (length (stripped de l) <= length l)%nat.
Proof. apply List.filter_length_le. Qed.

(** C11: A packet of data, an acknowledgement or an end mark, of an [acceptable]
    length, that [encode_output_packet] appends to the output is read by
    [decode_input_bytes] on the other side, behind any noise without a MARK and
    in front of anything: type, sequence number and the bytes taken from the
    file come out, and the count of bytes used ends at its check. *)
Theorem packet_roundtrip (t : PACKET_TYPE) (sa sb : kermit_state) (pre rest : list Z) :
  In t [P_KDATA; P_KACK; P_KEOF; P_KBREAK] ->
  ready_to_send sa t -> agree sa sb t ->
  MARK (session_parms sa) ∉ pre ->
  packet_buffer sb = pre ++ out_bytes sa t ++ rest ->
  Z.of_nat (length (pre ++ out_bytes sa t)) <= packet_buffer_n sb <= Z.of_nat (length (packet_buffer sb)) ->
  packet_buffer_n sb < 2 ^ 31 ->
  (exists sa', encode_output_packet sa = Done (tt, sa') /\ written sa' = written sa ++ out_bytes sa t) /\
  (exists sb', decode_input_bytes sb = Done ((true, Z.of_nat (length (pre ++ out_bytes sa t)) - 1), sb') /\
    parsed_ok (input_packet sb') = true /\ type (input_packet sb') = Some t /\
    seq (input_packet sb') = seq (output_packet sa) /\ packet_bytes (input_packet sb') = carried sa sb t).
Proof.
  intros Ht [R1 R2 R3 R4 R5 R6 R7 R8 R9] [A1 A2 A3 A4 A5 A6] Hpre Hbuf Hn Hn'. split.
  - edestruct (wp_run encode_output_packet sa (fun _ s' => written s' = written sa ++ out_bytes sa t))
      as ([] & s' & Hrun & Hw); [|by exists s'].
    by apply (wp_encode_output_packet sa t).
  - pose proof (decode_encode_field _ _ A3 _ R8) as Hd.
    fold (encoded sa (out_long sa t)) in Hd.
    destruct (encode_loop _ _ _) as [e ended] eqn:He.
    assert (Hee : encoded sa (out_long sa t) = e) by (unfold encoded; by rewrite He).
    rewrite <- Hee in Hd. fold (carried sa sb t) in Hd.
    assert (Hlen : Z.of_nat (length (carried sa sb t)) <= 2 ^ 31).
    { unfold carried. pose proof (length_stripped (decoder_of sb (seq (output_packet sa)) (Some t))) as L1.
      pose proof (length_canonical (encoder_of sa (out_long sa t))) as L2.
      set (u := take _ (source_bytes sa)). assert (length u <= length (source_bytes sa))%nat
        by (unfold u; rewrite length_take; lia).
      specialize (L1 (canonical (encoder_of sa (out_long sa t)) u)). specialize (L2 u). lia. }
    edestruct (wp_run decode_input_bytes sb (fun r s' => r = (true, Z.of_nat (length (pre ++ out_bytes sa t)) - 1) /\
      parsed_ok (input_packet s') = true /\ type (input_packet s') = Some t /\
      seq (input_packet s') = seq (output_packet sa) /\ packet_bytes (input_packet s') = carried sa sb t))
      as (r & s' & Hrun & -> & Hpost); [|by exists s'].
    assert (Hbs : fr_bytes (seven_bit_only (status sb)) (out_frame sa t) ++ [EOL (session_parms sa)] ++ rest =
                  drop 1 (out_bytes sa t ++ rest)).
    { unfold out_bytes. rewrite A2. cbn [drop app]. by rewrite <- app_assoc. }
    pose proof (length_fr_bytes (seven_bit_only (status sb)) (out_frame sa t) R4) as Hfb.
    assert (Hob : Z.of_nat (length (out_bytes sa t)) = fr_plength (out_frame sa t) + 3).
    { unfold out_bytes. rewrite <- A2. cbn [length]. rewrite length_app. cbn. lia. }
    rewrite length_app, Nat2Z.inj_add, Hob in Hn |- *.
    apply (wp_decode_input_bytes sb (out_frame sa t) pre ([EOL (session_parms sa)] ++ rest) (carried sa sb t));
      try done.
    + by rewrite A1.
    + rewrite Hbuf, Hbs, A1. rewrite <- app_assoc. done.
    + rewrite !length_app. cbn [length]. lia.
    + lia.
    + rewrite length_app. cbn [length].
      replace (Z.of_nat (length pre + 1) + fr_plength (out_frame sa t) + 1)
        with (Z.of_nat (length pre) + (fr_plength (out_frame sa t) + 3) - 1) by lia.
      set (s2 := with_packet _ _).
      assert (Hp : process_payload s2 = Done (tt, s2)).
      { unfold process_payload. rewrite (bind_done get _ s2 s2 s2) by done. cbv zeta.
        change (type (input_packet s2)) with (Some t).
        by destruct Ht as [<- | [<- | [<- | [<- | []]]]]. }
      apply wp_bind, (wp_done _ _ _ _ _ Hp), wp_ret.
      split_and!; try done. change (packet_bytes (input_packet s2)) with
        (packet_bytes (filled (carried sa sb t) (read_packet (out_frame sa t) (input_packet sb)))).
      apply filled_bytes.
Qed.

(** The limit a long packet's field is built to. *)
Lemma long_encoder_limit sess :
  14 < MAXLX1 sess * 95 + MAXLX2 sess < 2 ^ 31 ->
  u32 (u32 (MAXLX1 sess * 95 + MAXLX2 sess - 9) - 5) = MAXLX1 sess * 95 + MAXLX2 sess - 14.
Proof. intros H. rewrite (u32_id (_ - 9)) by lia. rewrite u32_id by lia. lia. Qed.

(** The packets [encode_data_field] fills never get longer than the other
    side accepts when long packets are on: the length field of the packet stays
    within the MAXLX that was agreed on, in spite of the prefixes and the
    repetition that is still pending when the field is full. *)
Theorem long_packet_fits (s : kermit_state) :
  let sess := session_parms s in
  long_packets sess = true -> type (output_packet s) = Some P_KDATA ->
  check_type (status s) <> 12 ->
  14 < MAXLX1 sess * 95 + MAXLX2 sess < 2 ^ 31 ->
  (text_mode (status s) = true -> 7 < MAXL sess /\ MAXL sess + 10 <= MAXLX1 sess * 95 + MAXLX2 sess) ->
  fr_long (out_frame s P_KDATA) = true /\
  Z.of_nat (length (fr_field (out_frame s P_KDATA))) + 3 <= MAXLX1 sess * 95 + MAXLX2 sess.
Proof.
  intros sess Hlong Ht Hct Hx Htext.
  assert (Hl : out_long s P_KDATA = true) by (unfold out_long; fold sess; by rewrite Hlong).
  split; [exact Hl|]. unfold out_frame. cbn [fr_field]. rewrite Hl. unfold encoded.
  set (en := encoder_of s true).
  assert (HB : en_B en = false) by (by apply Z.eqb_neq).
  assert (Hraw : en_raw en = false).
  { unfold en, encoder_of. cbn [en_raw]. rewrite Ht. cbn. by rewrite andb_false_r. }
  assert (Hmax : en_max en = u32 (MAXLX1 sess * 95 + MAXLX2 sess - 9)) by done.
  pose proof (long_encoder_limit sess Hx) as Hlim.
  destruct (text_mode (status s)) eqn:T.
  - destruct (Htext eq_refl) as [M1 M2].
    pose proof (field_length en (MAXL sess - 7) HB) as L. change (en_text en) with (text_mode (status s)) in L.
    rewrite T in L. enough (Z.of_nat (length (finish_field en (fst (encode_loop en (source_bytes s) start_encoding)))) <=
      MAXL sess - 7 + 11 + 3) by lia.
    apply L; [|done|lia]. intros e He. unfold field_full in He. apply orb_false_elim in He as [_ He].
    change (en_text en) with (text_mode (status s)) in He. rewrite T in He. cbn [andb] in He.
    change (en_maxl en) with (MAXL sess) in He. rewrite Z.leb_gt, u32_id in He by lia. lia.
  - pose proof (field_length en (MAXLX1 sess * 95 + MAXLX2 sess - 14) HB) as L.
    change (en_text en) with (text_mode (status s)) in L. rewrite T in L.
    enough (Z.of_nat (length (finish_field en (fst (encode_loop en (source_bytes s) start_encoding)))) <=
      MAXLX1 sess * 95 + MAXLX2 sess - 14 + 11 + 0) by lia.
    apply L; [|done|lia]. intros e He. unfold field_full in He. apply orb_false_elim in He as [He _].
    rewrite Hmax, Hlim, Z.leb_gt in He. done.
Qed.

(** A step that only computes a result. *)
Lemma load_at buf i v (s : kermit_state) :
  0 <= i -> buf !! Z.to_nat i = Some v -> load buf i s = Done (v, s).
Proof. intros Hi Hv. unfold load. by rewrite (proj2 (Z.ltb_ge _ _) Hi), Hv. Qed.

(** A packet whose LEN is out of range is turned down. *)
Lemma long_len_rejected s pre len rest :
  MARK (session_parms s) ∉ pre ->
  packet_buffer s = (pre ++ [MARK (session_parms s)]) ++ kermit_tochar len :: rest ->
  Z.of_nat (length pre) + 5 <= packet_buffer_n s ->
  is_byte len -> len <> 0 -> MAXL (session_parms s) < len ->
  exists p, parsed_ok p = false /\ decode_input_bytes s = reject (with_packet s p).
Proof.
  intros Hpre Hbuf Hn Hb H0 Hlen. unfold decode_input_bytes.
  rewrite (bind_done get _ s s s) by done. cbv zeta. rewrite (proj2 (Z.ltb_ge _ 5)) by lia.
  set (p0 := (input_packet s) <| parsed_ok := false |> <| seq := 0 |> <| type := Some P_KSINIT |>
      <| plength := 0 |> <| long_packet := false |>
      <| pdata := replicate (Z.to_nat (data_max (input_packet s))) 0 |> <| data_n := 0 |>).
  rewrite (bind_done _ _ _ tt (with_packet s p0)) by done.
  assert (Hm : find_mark (MARK (session_parms s)) (take (Z.to_nat (packet_buffer_n s)) (packet_buffer s)) =
               Some (length pre)).
  { rewrite Hbuf, take_app_ge by (rewrite length_app; cbn; lia). rewrite <- app_assoc. by apply find_mark_app. }
  rewrite Hm. unfold decode_packet.
  rewrite (bind_done get _ (with_packet s p0) (with_packet s p0) (with_packet s p0)) by done. cbv zeta.
  change (packet_buffer (with_packet s p0)) with (packet_buffer s).
  change (session_parms (with_packet s p0)) with (session_parms s).
  rewrite (bind_done _ _ _ (kermit_tochar len) (with_packet s p0)).
  2:{ apply load_at; [lia|]. rewrite Hbuf. apply list_lookup_middle. rewrite length_app. cbn. lia. }
  rewrite unchar_tochar by done.
  rewrite (bind_done _ _ _ tt (with_packet s ((p0) <| plength := len |>))) by done.
  rewrite (proj2 (Z.eqb_neq _ _) H0), (proj2 (Z.ltb_lt _ _) Hlen). cbn [andb negb orb].
  rewrite (bind_done _ _ _ tt (with_packet s ((p0) <| plength := len |>))) by done.
  rewrite orb_true_r. exists (p0 <| plength := len |>). by split.
Qed.

(** Without long packets a binary file longer than one packet cannot be sent
    to another copy of the program: a data field that is full makes a packet of
    at least [MAXL + 1], with a check of three characters, and
    [decode_input_bytes] refuses what is longer than [MAXL]. *)
Theorem full_short_packet_refused (sa sb : kermit_state) (pre rest : list Z) :
  let sess := session_parms sa in
  let f := out_frame sa P_KDATA in
  long_packets sess = false -> type (output_packet sa) = Some P_KDATA ->
  text_mode (status sa) = false -> check_type (status sa) = 3 -> 5 < MAXL sess <= 94 ->
  snd (encode_loop (encoder_of sa false) (source_bytes sa) start_encoding) = false ->
  MARK (session_parms sb) = MARK sess -> MAXL (session_parms sb) = MAXL sess ->
  MARK sess ∉ pre -> packet_buffer sb = pre ++ out_bytes sa P_KDATA ++ rest ->
  Z.of_nat (length (pre ++ out_bytes sa P_KDATA)) <= packet_buffer_n sb ->
  MAXL sess < fr_len f /\
  exists p, parsed_ok p = false /\ decode_input_bytes sb = reject (with_packet sb p).
Proof.
  intros sess f Hlong Ht Htext Hct Hm Hfull Hmark Hmaxl Hpre Hbuf Hn.
  assert (Hl : out_long sa P_KDATA = false) by (unfold out_long; fold sess; by rewrite Hlong).
  set (en := encoder_of sa false) in *.
  assert (Hraw : en_raw en = false).
  { unfold en, encoder_of. cbn [en_raw]. rewrite Ht. cbn. by rewrite andb_false_r. }
  assert (HB : en_B en = false) by (change (check_type (status sa) =? 12 = false); by rewrite Hct).
  assert (Hck : fr_check f = 3) by exact Hct.
  assert (Hfl : fr_len f = Z.of_nat (length (finish_field en (fst (encode_loop en (source_bytes sa) start_encoding)))) + 5).
  { unfold fr_len. rewrite Hck. change (fr_long f) with (out_long sa P_KDATA). unfold f, out_frame. cbn [fr_field].
    unfold encoded. rewrite Hl. fold en. change (check_length 3) with 3. lia. }
  pose proof (full_field_length en (source_bytes sa) Hraw Htext) as Hlow.
  change (en_max en) with (MAXL sess) in Hlow. specialize (Hlow ltac:(lia) Hfull).
  pose proof (field_length en (MAXL sess - 5) HB) as Hup. change (en_text en) with (text_mode (status sa)) in Hup.
  rewrite Htext in Hup.
  assert (Hup' : Z.of_nat (length (finish_field en (fst (encode_loop en (source_bytes sa) start_encoding)))) <=
    MAXL sess - 5 + 11 + 0).
  { apply Hup; [|done|lia]. intros e He. unfold field_full in He. apply orb_false_elim in He as [He _].
    change (en_max en) with (MAXL sess) in He. rewrite u32_id, Z.leb_gt in He by lia. done. }
  split; [lia|].
  assert (Hle : Z.of_nat (length (fr_field f)) + 2 + check_length (fr_check f) = fr_len f).
  { unfold fr_len. change (fr_long f) with (out_long sa P_KDATA). by rewrite Hl. }
  assert (Hbs : out_bytes sa P_KDATA = MARK sess :: kermit_tochar (fr_len f) ::
    tail (fr_bytes (seven_bit_only (status sa)) f) ++ [EOL sess]).
  { unfold out_bytes. fold f sess. unfold fr_bytes, fr_covered, fr_header, packet_header.
    change (fr_long f) with (out_long sa P_KDATA). rewrite Hl. cbn [app tail].
    by rewrite Hle, (u8_id (fr_len f)) by (unfold is_byte; lia). }
  assert (Hob : Z.of_nat (length (out_bytes sa P_KDATA)) = fr_plength f + 3).
  { unfold out_bytes. cbn [length]. rewrite length_app. fold f.
    pose proof (length_fr_bytes (seven_bit_only (status sa)) f) as L. rewrite Hck in L.
    specialize (L ltac:(right; right; by left)). cbn. lia. }
  rewrite length_app, Nat2Z.inj_add, Hob in Hn. rewrite Hbs in Hbuf.
  assert (fr_plength f = fr_len f) by (unfold fr_plength, fr_len, fr_head;
    change (fr_long f) with (out_long sa P_KDATA); rewrite Hl; lia).
  eapply (long_len_rejected sb pre (fr_len f)); rewrite ?Hmark, ?Hmaxl; try done; [|lia|unfold is_byte; lia|lia|lia].
  rewrite Hbuf, <- !app_assoc. done.
Qed.

(** Damage in two neighbouring bytes of the data field of a packet with a
    CRC never gets a packet accepted: [decode_input_bytes] ends exactly as
    [reject] does (a NAK from the receiver, the input thrown away), with the
    packet not marked as good. *)
Theorem packet_damage_rejected (sb : kermit_state) (f g : frame) (x y : list Z) (a a' b b' : Z)
    (pre rest : list Z) (r : bool * Z) (s' : kermit_state) :
  fr_field f = x ++ [a; a'] ++ y -> g = {| fr_long := fr_long f; fr_seq := fr_seq f; fr_type := fr_type f;
    fr_check := 3; fr_field := x ++ [b; b'] ++ y |} ->
  fr_check f = 3 -> bytes (fr_field f) -> bytes [b; b'] -> [a; a'] <> [b; b'] ->
  acceptable sb g -> seven_bit_only (status sb) = false -> MARK (session_parms sb) ∉ pre ->
  packet_buffer sb = (pre ++ [MARK (session_parms sb)]) ++ (fr_covered g ++ check_chars false 3 (fr_covered f)) ++ rest ->
  Z.of_nat (length pre) + fr_plength g + 2 <= packet_buffer_n sb < 2 ^ 31 ->
  packet_buffer_n sb <= Z.of_nat (length (packet_buffer sb)) ->
  reject (with_packet sb (read_packet g (input_packet sb))) = Done (r, s') ->
  decode_input_bytes sb = Done (r, s') /\ parsed_ok (read_packet g (input_packet sb)) = false.
Proof.
  intros Hf Hg H3 Hbf Hbb Hne Hacc H7 Hpre Hbuf Hn Hsize Hrej. split; [|done].
  assert (Hh : fr_header g = fr_header f).
  { unfold fr_header. rewrite Hg, Hf, H3. cbn [fr_long fr_seq fr_type fr_check fr_field].
    unfold packet_header. rewrite !length_app. done. }
  assert (Hg3 : fr_check g = 3) by (by rewrite Hg).
  assert (Hchk : Z.of_nat (length (check_chars false 3 (fr_covered f))) = check_length (fr_check g))
    by (by rewrite Hg3).
  assert (Hcov : Z.of_nat (length (fr_covered g)) = fr_head g + 1 + Z.of_nat (length (fr_field g)))
    by (unfold fr_covered; rewrite length_app, Nat2Z.inj_add, length_fr_header; lia).
  assert (Hpl : fr_plength g = Z.of_nat (length (fr_covered g)) - 1 + 3)
    by (unfold fr_plength; rewrite Hcov, Hg3; change (check_length 3) with 3; lia).
  assert (Hlen : Z.of_nat (length (pre ++ [MARK (session_parms sb)] ++ fr_covered g ++ check_chars false 3 (fr_covered f)))
                 <= packet_buffer_n sb < 2 ^ 31).
  { rewrite !length_app, !Nat2Z.inj_add, Hchk, Hg3. change (check_length 3) with 3. cbn [length]. lia. }
  assert (Hq : wp decode_input_bytes sb (fun r1 s1 => (r1, s1) = (r, s'))).
  { apply (wp_decode_header sb g pre (check_chars false 3 (fr_covered f)) rest Hacc Hpre Hchk Hbuf Hlen _ Hsize).
    assert (Hhd : fr_head g = 5 \/ fr_head g = 2) by (unfold fr_head; destruct (fr_long g); lia).
    apply (wp_decode_body_bad sb _ (pre ++ [MARK (session_parms sb)]) (fr_covered g) (fr_covered f) rest
             (fr_len g) (fr_head g) (Some (fr_type g))).
    - rewrite H7, Hbuf, <- !app_assoc. done.
    - intros E. rewrite E in Hcov. cbn in Hcov. lia.
    - lia.
    - done.
    - rewrite <- Hg3. apply (ac_same_check _ _ Hacc).
    - exact Hpl.
    - lia.
    - rewrite H7. unfold fr_covered. rewrite Hh, Hf. rewrite Hg. cbn [fr_field].
      pose proof (fr_header_bytes f) as B. pose proof (ac_seq _ _ Hacc) as Hs. rewrite Hg in Hs.
      rewrite Hf, !bytes_app in Hbf. destruct Hbf as (B1 & B2 & B3).
      rewrite !(app_assoc (fr_header f)). apply kermit_crc_burst; try done.
      rewrite bytes_app. by split; [apply B|].
    - eapply wp_done; [exact Hrej|done]. }
  destruct (wp_run _ _ _ Hq) as (r1 & s1 & Hrun & Heq). rewrite Hrun. by f_equal.
Qed.

(** ** Parameters *)

(** What the negotiation guarantees whatever the other side asked for. *)
Record well_formed (l p : session_parameters) : Prop := {
  wf_qctl : QCTL p = QCTL l;
  wf_qbin : QBIN p = SP \/ (valid_prefix (QBIN p) = true /\ QBIN p <> QCTL l);
  wf_rept : REPT p = SP \/ (REPT p = REPT l /\ REPT p <> QBIN p /\ REPT p <> QCTL l);
  wf_check : CHKT p = 49 \/ CHKT p = CHKT l;
  wf_maxl : MAXL p <= MAXL l;
  wf_in : 1 <= WINDO_in p <= 30;
  wf_out : 1 <= WINDO_out p <= 30;
  wf_one_mode : streaming p = true -> windowing p = false;
  wf_plain : windowing p = false -> streaming p = false -> WINDO_in p = 1
}.

Lemma qbin_choice local remote :
  local = 89 \/ local = 38 ->
  let q := negotiate_qbin local remote local 35 in
  q = SP \/ (valid_prefix q = true /\ q <> 35).
Proof.
  unfold negotiate_qbin, valid_prefix, SP. intros [-> | ->]; cbv zeta; repeat case_match; lia.
Qed.

Lemma rept_choice local remote qctl qbin :
  let q := negotiate_rept local remote qctl qbin in
  q = SP \/ (q = local /\ q <> qbin /\ q <> qctl).
Proof. unfold negotiate_rept, SP. cbv zeta. repeat case_match; lia. Qed.

(** The windowing part leaves the other parameters alone. *)
Lemma negotiate_windows_others l r p :
  let p' := fst (negotiate_windows l r p) in
  QCTL p' = QCTL p /\ QBIN p' = QBIN p /\ REPT p' = REPT p /\ CHKT p' = CHKT p /\ MAXL p' = MAXL p /\
  streaming p' = streaming p.
Proof.
  unfold negotiate_windows. destruct (eqb _ _); [|by split_and!].
  set (w := if WINDO r <? WINDO l then WINDO r else WINDO l). clearbody w. set (wl := windowing l). clearbody wl.
  destruct p as [? ? ? ? ? ? ? ? ? ? ? ? ? ? ? ? ? ? str ? ?].
  destruct (w <? 2), str, wl; by split_and!.
Qed.

Lemma negotiate_windows_sizes l r p :
  windowing l = true -> WINDO l = 30 -> WINDO_in p = 1 -> WINDO_out p = 1 ->
  let p' := fst (negotiate_windows l r p) in
  1 <= WINDO_in p' <= 30 /\ 1 <= WINDO_out p' <= 30 /\
  (streaming p = true -> windowing p' = false) /\
  (windowing p' = false -> WINDO_in p' = 1).
Proof.
  intros Hwin Hw Hin Hout. unfold negotiate_windows. rewrite Hwin, Hw.
  set (w := if WINDO r <? 30 then WINDO r else 30).
  assert (w <= 30) by (unfold w; case_match; lia). clearbody w.
  destruct p as [? ? ? ? ? ? ? ? ? ? ? ? ? ? ? ? ? ? str ? ?]. ksimpl_in Hin. ksimpl_in Hout. subst.
  destruct (eqb _ _); [|ksimpl; cbn [fst]; ksimpl; split_and!; try done; lia].
  destruct (Z.ltb_spec w 2), str; ksimpl; cbn [fst]; ksimpl; split_and!; try done; lia.
Qed.

(** C23: Whatever parameters the other side sends, negotiating them with the
    defaults leaves prefixes that are printable and differ from each other, a
    check of type 1 or 3, packets no longer than the local limit, windows of 1 to
    30 slots, and never streaming and windows at the same time. *)
Theorem negotiation_well_formed (e : environment) (seven_bit : bool) (r : session_parameters) :
  let l := set_default_session_parameters e seven_bit in
  well_formed l (fst (negotiate l r l)).
Proof.
  intros l. unfold negotiate. cbv zeta. set (p := if eqb (streaming l) _ then _ else _).
  assert (Hp : QCTL p = QCTL l /\ QBIN p = negotiate_qbin (QBIN l) (QBIN r) (QBIN l) 35 /\
    REPT p = negotiate_rept (REPT l) (REPT r) 35 (QBIN p) /\
    CHKT p = (if CHKT l =? CHKT r then CHKT r else 49) /\
    MAXL p = (if MAXL l <? MAXL r then MAXL l else MAXL r) /\ WINDO_in p = 1 /\ WINDO_out p = 1).
  { unfold p. destruct (eqb (attributes l) _), (eqb (long_packets l) _), (eqb (streaming l) _); by split_and!. }
  clearbody p. destruct Hp as (H1 & H2 & H3 & H4 & H5 & H6 & H7).
  destruct (negotiate_windows_others l r p) as (E1 & E2 & E3 & E4 & E5 & E6).
  destruct (negotiate_windows_sizes l r p eq_refl eq_refl H6 H7) as (S1 & S2 & S3 & S4).
  pose proof (qbin_choice (QBIN l) (QBIN r)) as Q. pose proof (rept_choice (REPT l) (REPT r) 35 (QBIN p)) as R.
  cbv zeta in *. rewrite <- H2 in Q. rewrite <- H3 in R.
  split; rewrite ?E1, ?E2, ?E3, ?E4, ?E5, ?E6; try done.
  - apply Q. unfold l. destruct seven_bit; [by right|by left].
  - rewrite H4. destruct (Z.eqb_spec (CHKT l) (CHKT r)); [right|left]; congruence.
  - rewrite H5. destruct (Z.ltb_spec (MAXL l) (MAXL r)); lia.
  - intros Hw _. by apply S4.
Qed.

(** C22: Two copies of the program that open a session, whatever their options,
    come to the same parameters: the Send-Init is parsed, negotiated and
    acknowledged by the one, the acknowledgement is parsed and negotiated by the
    other, and both hold the same set, which has the CRC, good prefixes for the
    sender's control prefix, and each extension exactly when both sides offer
    it. *)
Theorem negotiation_agrees (e1 e2 : environment) (b1 b2 : bool) :
  let l := set_default_session_parameters e1 b1 in
  let r := set_default_session_parameters e2 b2 in
  exists pl pr p windows,
    parse_send_init r (init_data l l) = Some pl /\ negotiate r pl r = (p, windows) /\
    parse_send_init l (init_data r p) = Some pr /\ negotiate l pr l = (p, windows) /\
    QCTL pl = QCTL l /\ QCTL pr = QCTL r /\ good_prefixes (REPT p) (QBIN p) (QCTL l) /\
    CHKT p = 51 /\ MAXL p = 80 /\ QBIN p = (if b1 || b2 then 38 else SP) /\
    long_packets p = (kermit_long_packets e1 && kermit_long_packets e2) /\
    streaming p = (kermit_streaming e1 && kermit_streaming e2) /\
    windowing p = negb (streaming p) /\ windows = windowing p.
Proof.
  intros l r.
  assert (G1 : good_prefixes 126 38 35) by (split; [done|done|by right|lia|lia|lia]).
  assert (G2 : good_prefixes 126 SP 35) by (split; [done|done|by left|lia|unfold SP; lia|unfold SP; lia]).
  unfold l, r, set_default_session_parameters.
  destruct (kermit_long_packets e1), (kermit_streaming e1), (kermit_long_packets e2), (kermit_streaming e2), b1, b2;
    (do 4 eexists; split; [vm_compute; reflexivity|]; split; [vm_compute; reflexivity|];
     split; [vm_compute; reflexivity|]; split; [vm_compute; reflexivity|];
     split_and!; try reflexivity; assumption).
Qed.

(** ** Instances *)

Definition sample_prefixes : encoder :=
  {| en_rept := 126; en_qbin := 38; en_qctl := 35; en_B := false; en_raw := false; en_text := true;
     en_max := 30; en_maxl := 30 |}.
Definition sample_decoder : decoder :=
  {| dn_rept := 126; dn_qbin := 38; dn_qctl := 35; dn_raw := false; dn_strip := false |}.

Lemma sample_good : good_prefixes 126 38 35.
Proof. split; [done|done|by right|lia|lia|lia]. Qed.
Lemma sample_good_plain : good_prefixes 126 SP 35.
Proof. split; [done|done|by left|lia|unfold SP; lia|unfold SP; lia]. Qed.

Lemma file_in_packets_witness :
  let src := str "~~~~#" ++ [10; 200; 13; 7; 7; 7; 7] ++ str "a long line of ordinary text" in
  exists pieces,
    Forall2 (fun f piece => decoded sample_decoder f start_decoding = Some piece)
      (fields (length src) sample_prefixes src) pieces /\
    concat pieces = stripped sample_decoder (canonical sample_prefixes src).
Proof.
  apply file_in_packets; [|by apply bytes_by_eval|reflexivity].
  split; try reflexivity. apply sample_good.
Defined.

Lemma sample_ready : ready_to_send (sample_sender true) P_KDATA.
Proof.
  constructor; [evaluate|evaluate| | |evaluate|evaluate|evaluate| |evaluate].
  - intros _. exists (opened (str "f")). split; [vm_compute; reflexivity|apply not_elem_of_empty].
  - right; right; left. evaluate.
  - apply bytes_by_eval. evaluate.
Qed.

Lemma sample_agree line : agree (sample_sender true) (sample_receiver true line) P_KDATA.
Proof.
  constructor; [evaluate|evaluate| | | |evaluate].
  - constructor; [evaluate|evaluate|evaluate|apply sample_good_plain|evaluate|evaluate].
  - constructor; [evaluate| |evaluate|discriminate| ].
    + right; right; left. evaluate.
    + intros _. split; [evaluate|split; evaluate].
  - intros _ _. discriminate.
Qed.

Lemma packet_roundtrip_witness :
  let sa := sample_sender true in let line := [0; 13] ++ out_bytes sa P_KDATA in let sb := sample_receiver true line in
  (exists sa', encode_output_packet sa = Done (tt, sa') /\ written sa' = written sa ++ out_bytes sa P_KDATA) /\
  (exists sb', decode_input_bytes sb = Done ((true, Z.of_nat (length ([0; 13] ++ out_bytes sa P_KDATA)) - 1), sb') /\
    parsed_ok (input_packet sb') = true /\ type (input_packet sb') = Some P_KDATA /\
    seq (input_packet sb') = seq (output_packet sa) /\ packet_bytes (input_packet sb') = carried sa sb P_KDATA).
Proof.
  intros sa line sb.
  apply (packet_roundtrip P_KDATA sa sb [0; 13] (replicate 100 0));
    [by left|apply sample_ready|apply sample_agree| |evaluate|evaluate|evaluate].
  apply not_elem_of_cons; split; [done|]. apply not_elem_of_cons; split; [done|apply not_elem_of_nil].
Defined.

Lemma long_packet_fits_witness :
  let s := sample_sender true in let sess := session_parms s in
  fr_long (out_frame s P_KDATA) = true /\
  Z.of_nat (length (fr_field (out_frame s P_KDATA))) + 3 <= MAXLX1 sess * 95 + MAXLX2 sess.
Proof. apply (long_packet_fits (sample_sender true)); [evaluate|evaluate|evaluate|evaluate|discriminate]. Defined.

(** A file that does not fit in one packet. *)
Definition sample_long_file : kermit_state :=
  (sample_sender false) <| shared := initial_common (plain_disk {[ str "f" := all_bytes ]} 10000) (fun _ => 0) |>.

Lemma full_short_packet_refused_witness :
  let sa := sample_long_file in let line := out_bytes sa P_KDATA in let sb := sample_receiver false line in
  MAXL (session_parms sa) < fr_len (out_frame sa P_KDATA) /\
  exists p, parsed_ok p = false /\ decode_input_bytes sb = reject (with_packet sb p).
Proof.
  intros sa line sb. apply (full_short_packet_refused sa sb [] (replicate 100 0));
    first [evaluate|apply not_elem_of_nil].
Defined.

Definition sample_frame (field : list Z) : frame :=
  {| fr_long := true; fr_seq := 3; fr_type := P_KDATA; fr_check := 3; fr_field := field |}.

Lemma packet_damage_rejected_witness :
  let f := sample_frame [65; 66; 67; 68] in let g := sample_frame [65; 1; 2; 68] in
  let sb := sample_receiver true ([1] ++ fr_covered g ++ check_chars false 3 (fr_covered f)) in
  exists r s', reject (with_packet sb (read_packet g (input_packet sb))) = Done (r, s') /\
    decode_input_bytes sb = Done (r, s') /\ parsed_ok (read_packet g (input_packet sb)) = false.
Proof.
  intros f g sb. destruct (reject (with_packet sb (read_packet g (input_packet sb)))) as [[r s']| |] eqn:E;
    [|exfalso; revert E; vm_compute; discriminate..].
  exists r, s'. split; [reflexivity|].
  apply (packet_damage_rejected sb f g [65] [68] 66 67 1 2 [] (replicate 100 0) r s');
    [evaluate|evaluate|evaluate|apply bytes_by_eval; evaluate|apply bytes_by_eval; evaluate|discriminate| |
     evaluate|apply not_elem_of_nil|evaluate|evaluate|evaluate|exact E].
  constructor; [evaluate|right; right; left; evaluate|evaluate|discriminate|
    intros _; split; [evaluate|split; evaluate]].
Defined.
