(* ===== verification/KermitFile.v ===== *)
(** The files of a Kermit receiver: what [open_receive_file] opens, what becomes
    of the files that were there, and what [kermit_stop] removes. *)

From Stdlib Require Import ZArith Lia List Bool.
From stdpp Require Import base list numbers gmap sets strings.
From S2P Require Import Prelude Crc Stdio Protocols Kermit KermitCodec KermitPacket.
Import Kermit.

(** ** Steps that leave the files alone *)

Record aside (s s' : kermit_state) : Prop := {
  as_disk : the_disk (shared s') = the_disk (shared s);
  as_status : status s' = status s;
  as_output : output_packet s' = output_packet s;
  as_input : input_packet s' = input_packet s
}.

Lemma aside_shared s c : the_disk c = the_disk (shared s) -> aside s (s <| shared := c |>).
Proof. by split. Qed.

Lemma aside_trans s1 s2 s3 : aside s1 s2 -> aside s2 s3 -> aside s1 s3.
Proof. intros [] []. split; congruence. Qed.

Lemma wp_on_stats_aside f s : wp (on_stats f) s (fun _ s' => aside s s').
Proof. apply wp_klift, wp_modify, aside_shared. done. Qed.

Lemma wp_say_aside m s : wp (say m) s (fun _ s' => aside s s').
Proof. apply wp_klift, wp_modify, aside_shared. done. Qed.

Lemma wp_dirty_aside s : wp dirty s (fun _ s' => aside s s').
Proof. apply wp_klift, wp_modify, aside_shared. done. Qed.

(** Sequencing them. *)
Lemma wp_aside_bind {A B} (m : K A) (k : A -> K B) s Q :
  wp m s (fun _ s' => aside s s') -> (forall a s', aside s s' -> wp (k a) s' Q) -> wp (m ≫= k) s Q.
Proof. intros Hm Hk. apply wp_bind. eapply wp_mono; [exact Hm|]. intros a s' Ha. by apply Hk. Qed.

Lemma wp_finish_aside t s : wp (lift (finish_file_transfer t)) s (fun _ s' => aside s s').
Proof. apply wp_klift. by split. Qed.

Lemma wp_time_aside s : wp (lift time) s (fun _ s' => aside s s').
Proof. apply wp_klift. by split. Qed.

Lemma wp_stats_new_file_aside name n s : wp (stats_new_file name n) s (fun _ s' => aside s s').
Proof. 
  unfold stats_new_file.
  apply wp_aside_bind; [apply wp_on_stats_aside|intros _ s1 H1].
  apply wp_aside_bind; [apply wp_say_aside|intros _ s2 H2].
  apply wp_aside_bind; [apply wp_on_stats_aside|intros _ s3 H3].
  apply wp_aside_bind; [apply wp_klift; by split|intros _ s4 H4].
  apply wp_aside_bind; [apply wp_klift; by split|intros _ s5 H5].
  apply wp_aside_bind; [apply wp_on_stats_aside|intros _ s6 H6].
  apply wp_aside_bind; [apply wp_dirty_aside|intros _ s7 H7].
  apply wp_aside_bind; [apply wp_time_aside|intros t s8 H8].
  apply wp_aside_bind; [apply wp_on_stats_aside|intros _ s9 H9].
  apply wp_bind, wp_gets, (wp_mono _ _ (fun _ s' => aside s9 s')); [apply wp_klift; by split|].
  intros _ s10 H10. eauto 20 using aside_trans.
Qed.

(** A packet made ready touches only the output packet. *)
Record packet_made (s s' : kermit_state) : Prop := {
  pm_disk : the_disk (shared s') = the_disk (shared s);
  pm_status : status s' = status s;
  pm_input : input_packet s' = input_packet s
}.

Lemma wp_make_packet t n xs s :
  (length xs <= length (pdata (output_packet s)))%nat -> wp (make_packet t n xs) s (fun _ s' => packet_made s s').
Proof.
  intros Hl. unfold make_packet. apply wp_bind, wp_modify, wp_bind. unfold put_data.
  apply wp_bind, wp_gets, wp_bind, wp_memcpy; [done|exact ltac:(cbn; lia)|].
  apply wp_modify, wp_modify. by split.
Qed.

Lemma wp_kermit_stop_kept s :
  wp (kermit_stop true) s (fun _ s' => the_disk (shared s') = the_disk (shared s) /\ output_packet s' = output_packet s).
Proof. unfold kermit_stop. apply wp_bind, wp_gets, wp_bind, wp_ret, wp_bind, wp_modify, wp_modify. done. Qed.

Lemma wp_stop_file_transfer_kept t s :
  wp (stop_file_transfer t) s
     (fun _ s' => the_disk (shared s') = the_disk (shared s) /\ output_packet s' = output_packet s).
Proof.
  unfold stop_file_transfer. apply wp_bind, wp_gets, wp_bind.
  apply (wp_mono _ _ (fun _ s' => the_disk (shared s') = the_disk (shared s) /\ output_packet s' = output_packet s)).
  { apply wp_when; [intros _; apply wp_kermit_stop_kept|done]. }
  intros _ s1 [D1 O1]. apply wp_aside_bind; [apply wp_finish_aside|intros _ s2 [D2 _ O2 _]].
  apply wp_modify. change (the_disk (shared s2) = the_disk (shared s) /\ output_packet s2 = output_packet s).
  by rewrite D2, O2.
Qed.

(** The way out of an error keeps the files. *)
Lemma wp_abort_with msg remote s :
  (length (str remote) <= length (pdata (output_packet s)))%nat ->
  wp (abort_with msg remote) s (fun _ s' => the_disk (shared s') = the_disk (shared s)).
Proof.
  intros Hl. unfold abort_with, set_state. apply wp_bind, wp_modify.
  apply wp_aside_bind; [apply wp_say_aside|intros _ s1 [D1 _ O1 _]].
  apply wp_bind. eapply wp_mono; [apply wp_stop_file_transfer_kept|]. intros _ s2 [D2 O2].
  unfold error_packet. apply wp_bind, wp_gets.
  eapply wp_mono; [apply wp_make_packet; by rewrite O2, O1|]. intros _ s3 [D3 _ _]. by rewrite D3, D2, D1.
Qed.

(** ** Choosing the name *)

Record naming (s s' : kermit_state) : Prop := {
  nm_disk : the_disk (shared s') = the_disk (shared s);
  nm_output : output_packet s' = output_packet s;
  nm_input : input_packet s' = input_packet s;
  nm_sending : sending (status s') = sending (status s);
  nm_resend : do_resend (status s') = do_resend (status s)
}.

Lemma naming_refl s : naming s s.
Proof. by split. Qed.
Lemma naming_trans s1 s2 s3 : naming s1 s2 -> naming s2 s3 -> naming s1 s3.
Proof. intros [] []. split; congruence. Qed.
Lemma aside_naming s s' : aside s s' -> naming s s'.
Proof. intros [A1 A2 A3 A4]. by split; rewrite ?A2. Qed.
#[local] Hint Resolve naming_refl naming_trans aside_naming : core.

(** Room for the messages of the errors and the answers. *)
Definition roomy (s : kermit_state) : Prop := (64 <= length (pdata (output_packet s)))%nat.

(** A name, where the file is to begin, and whether it exists. *)
Definition chosen (s s' : kermit_state) (exists_ : bool) : Prop :=
  naming s s' /\
  match d_files (the_disk (shared s)) !! file_fullname (status s') with
  | None => exists_ = false /\ file_position (status s') = 0
  | Some data => exists_ = true /\ file_position (status s') = Z.of_nat (length data)
  end.

Lemma wp_set_fullname name s (Q : unit -> kermit_state -> Prop) :
  (length name < 256)%nat -> 
  (forall s', naming s s' -> file_fullname (status s') = name -> status s' = (status s) <| file_fullname := name |> -> Q tt s') ->
  wp (set_fullname name) s Q.
Proof.
  intros Hl HQ. unfold set_fullname. change FILENAME_SIZE with 256.
  rewrite (proj2 (Z.ltb_lt _ _)) by lia. apply wp_modify. by apply HQ.
Qed.

Lemma wp_io_error s :
  roomy s -> wp io_error s (fun _ s' => the_disk (shared s') = the_disk (shared s)).
Proof. unfold roomy. intros H. apply wp_abort_with. etransitivity; [|exact H]. cbn. lia. Qed.

Lemma wp_find_new_name base fuel : forall i s,
  roomy s -> (length base + 21 < 256)%nat ->
  let files := d_files (the_disk (shared s)) in
  Z.of_nat (size files) < 2 ^ 63 -> (i + fuel = S (size files))%nat ->
  (forall j, (j < i)%nat -> is_Some (files !! numbered base j)) ->
  wp (find_new_name fuel i base) s (fun ok s' =>
    the_disk (shared s') = the_disk (shared s) /\ (ok = true -> chosen s s' false)).
Proof.
  induction fuel as [|fuel IH]; intros i s Hr Hb files Hsize Hi Htaken.
  { exfalso. pose proof (names_run_out files base i) as H. assert (i <= size files)%nat by (apply H; [lia|done]). lia. }
  cbn [find_new_name]. apply wp_bind. change (base ++ [46] ++ print_04d i) with (numbered base i).
  apply wp_set_fullname; [pose proof (length_numbered base i); lia|].
  intros s1 N1 F1 St1. apply wp_bind. unfold get_disk. apply wp_gets, wp_bind, wp_gets. rewrite F1.
  unfold stat. pose proof (nm_disk _ _ N1) as D1. rewrite D1. fold files.
  destruct (decide _).
  { apply wp_bind. eapply wp_mono; [apply wp_io_error; unfold roomy; by rewrite (nm_output _ _ N1)|].
    intros u s2 D2. apply wp_ret. split; [by rewrite D2|done]. }
  destruct (files !! numbered base i) eqn:E.
  - eapply wp_mono; [apply (IH (S i) s1)|].
    + unfold roomy. by rewrite (nm_output _ _ N1).
    + done.
    + by rewrite D1.
    + rewrite D1. fold files. lia.
    + intros j Hj. rewrite D1. fold files. destruct (decide (j = i)) as [->|]; [by eexists|apply Htaken; lia].
    + intros ok s2 [D2 C2]. split; [by rewrite D2|]. intros Hok. destruct (C2 Hok) as [N2 C].
      split; [by eapply naming_trans|]. by rewrite D1 in C.
  - apply wp_bind, wp_modify, wp_ret. split; [exact D1|]. intros _. split.
    + eapply naming_trans; [exact N1|]. by split.
    + change (file_fullname (status (s1 <| status ::= (fun st => st <| file_position := 0 |>) |>)))
        with (file_fullname (status s1)).
      change (file_position (status (s1 <| status ::= (fun st => st <| file_position := 0 |>) |>))) with 0.
      rewrite F1. fold files. by rewrite E.
Qed.

Lemma wp_existing_file size s :
  0 <= size ->
  wp (existing_file size) s (fun new s' =>
    naming s s' /\ file_fullname (status s') = file_fullname (status s) /\
    (new = false -> file_position (status s') = size)).
Proof.
  intros Hs. unfold existing_file. apply wp_bind, wp_gets. cbv zeta.
  destruct (access (status s)).
  - by apply wp_ret.
  - by apply wp_ret.
  - apply wp_bind, wp_modify. set (s1 := s <| status ::= _ |>).
    assert (N1 : naming s s1) by by split.
    destruct (_ <? _).
    + apply wp_bind, wp_modify, wp_ret. split; [|done]. eapply naming_trans; [exact N1|]. by split.
    + apply wp_bind. eapply (wp_mono _ _ (fun _ s' => aside s1 s')).
      { apply wp_when; [intros _; apply wp_say_aside|by split]. }
      intros u s2 A2. apply wp_ret. rewrite (as_status _ _ A2). split_and!; [|done|done].
      eapply naming_trans; [exact N1|by apply aside_naming].
  - destruct (do_resend _); [|by apply wp_ret]. apply wp_bind, wp_modify, wp_ret. by split.
Qed.

Lemma wp_choose_name (base : cstring) s :
  roomy s -> (length base + 21 < 256)%nat -> Z.of_nat (size (d_files (the_disk (shared s)))) < 2 ^ 63 ->
  wp (choose_name base) s (fun o s' =>
    the_disk (shared s') = the_disk (shared s) /\ (forall b, o = Some b -> chosen s s' b)).
Proof.
  intros Hr Hb Hsize. unfold choose_name. apply wp_bind, wp_set_fullname; [lia|].
  intros s1 N1 F1 St1. unfold get_disk. apply wp_bind, wp_gets. unfold stat. rewrite (nm_disk _ _ N1).
  destruct (decide _).
  { apply wp_bind. eapply wp_mono; [apply wp_io_error; unfold roomy; by rewrite (nm_output _ _ N1)|].
    intros u s2 D2. apply wp_ret. split; [by rewrite D2, (nm_disk _ _ N1)|done]. }
  destruct (d_files (the_disk (shared s)) !! base) as [data|] eqn:E.
  - apply wp_bind. eapply wp_mono; [apply wp_existing_file; lia|]. intros new s2 (N2 & F2 & P2).
    assert (N12 : naming s s2) by (by eapply naming_trans).
    destruct new.
    + apply wp_bind. rewrite <- (nm_disk _ _ N12).
      eapply wp_mono; [apply (wp_find_new_name base _ 0 s2)|]; rewrite ?(nm_disk _ _ N12); try done.
      * unfold roomy. by rewrite (nm_output _ _ N12).
      * intros j Hj. lia.
      * intros ok s3 [D3 C3]. apply wp_ret. pose proof (nm_disk _ _ N12) as D12.
        split; [congruence|]. intros b Hok. destruct ok; [|done]. injection Hok as <-. destruct (C3 eq_refl) as [N3 C].
        split; [by eapply naming_trans|]. by rewrite D12 in C.
    + apply wp_ret. split; [by rewrite (nm_disk _ _ N12)|]. intros b [= <-]. split; [done|].
      rewrite F2, F1, E. split; [done|by apply P2].
  - apply wp_bind, wp_modify. set (s2 := s1 <| status ::= _ |>).
    apply wp_aside_bind; [apply wp_say_aside|intros u s3 A3]. apply wp_ret.
    pose proof (aside_naming _ _ A3) as N3.
    assert (N13 : naming s s3) by (eapply naming_trans; [exact N1|eapply naming_trans; [|exact N3]; by split]).
    split; [by rewrite (nm_disk _ _ N13)|]. intros b [= <-]. split; [done|].
    rewrite (as_status _ _ A3). change (file_fullname (status s2)) with (file_fullname (status s1)).
    by rewrite F1, E.
Qed.

Lemma wp_answer_attributes s :
  roomy s -> sending (status s) = false ->
  wp answer_attributes s (fun _ s' => packet_made s s').
Proof.
  intros Hr Hs. unfold answer_attributes. apply wp_bind, wp_get, wp_when; [intros _|by split].
  assert (A : forall l, (length l <= 64)%nat -> wp (ack_packet_param l) s (fun _ s' => packet_made s s')).
  { intros l Hl. unfold ack_packet_param. apply wp_bind, wp_gets, wp_bind, wp_assert; [by rewrite Hs|].
    apply wp_bind, wp_gets, wp_make_packet. unfold roomy in Hr. lia. }
  destruct (do_resend _); [|apply A; cbn; lia]. apply A. rewrite length_app. cbn [length].
  pose proof (length_print_digits 10 64 20 (u64 (file_position (status s))) [] ltac:(lia)) as L. cbn [length] in L.
  assert (H : 0 <= u64 (file_position (status s)) < 2 ^ 64) by (apply Z.mod_pos_bound; lia).
  assert (2 ^ 64 <= 10 ^ Z.of_nat 20) by (vm_compute; congruence).
  unfold print_base. specialize (L ltac:(lia) ltac:(lia)). lia.
Qed.

(** The state of a receiver that is about to open a file: a name that fits, and
    room for the answers. *)
Record may_open (s : kermit_state) (path name : list Z) : Prop := {
  mo_closed : file_stream (status s) = None;
  mo_receiving : sending (status s) = false;
  mo_path : download_path s = Some path;
  mo_name : file_name (status s) = Some name;
  mo_fits : (length (path ++ [SLASH] ++ name) + 21 < 256)%nat;
  mo_files : Z.of_nat (size (d_files (the_disk (shared s)))) < 2 ^ 63;
  mo_roomy : roomy s
}.

(** What [open_receive_file] promises. *)
Definition opened_safely (files files' : gmap cstring (list Z)) (st : KERMIT_STATUS) (ok : bool) : Prop :=
  (forall n data, files !! n = Some data -> files' !! n = Some data) /\
  (ok = true -> exists f data, file_stream st = Some f /\ files' !! f_name f = Some data /\
     f_pos f = Z.of_nat (length data) /\ file_position st = Z.of_nat (length data) /\
     ((files !! f_name f = None /\ data = []) \/ files !! f_name f = Some data)).

(** The steps behind a successful [fopen]. *)
Lemma wp_opened s0 s f full n d (Q : bool -> kermit_state -> Prop) :
  roomy s -> sending (status s) = false ->
  (forall s', d_files (the_disk (shared s')) = d_files d ->
     file_stream (status s') = Some (snd (fseek_end d f 0)) -> file_position (status s') = file_position (status s) ->
     Q true s') ->
  s0 = s <| status ::= (fun st => st <| file_stream := Some (snd (fseek_end d f 0)) |>) |> ->
  the_disk (shared s) = d ->
  wp (answer_attributes;;
      st ← gets status;
      (if file_modtime st =? -1
       then t ← lift time; on_status (fun st => st <| file_modtime := t |>)
       else mret tt);;
      stats_new_file full (n st);;
      on_stats (fun q => q <| bytes_transfer := u64 (file_position st) |>);;
      mret true) s0 Q.
Proof.
  intros Hr Hs HQ -> Hd. apply wp_bind. eapply wp_mono; [by apply wp_answer_attributes|].
  intros u s1 [D1 St1 I1]. apply wp_bind, wp_gets, wp_bind.
  apply (wp_mono _ _ (fun _ s2 => the_disk (shared s2) = the_disk (shared s1) /\
     file_stream (status s2) = file_stream (status s1) /\ file_position (status s2) = file_position (status s1))).
  { destruct (_ =? -1); [|by apply wp_ret].
    apply wp_aside_bind; [apply wp_time_aside|intros t s2 [A1 A2 _ _]]. apply wp_modify.
    change (the_disk (shared s2) = the_disk (shared s1) /\ file_stream (status s2) = file_stream (status s1) /\
            file_position (status s2) = file_position (status s1)). by rewrite A1, A2. }
  intros u' s2 (D2 & F2 & P2).
  apply wp_aside_bind; [apply wp_stats_new_file_aside|intros _ s3 [D3 St3 _ _]].
  apply wp_aside_bind; [apply wp_on_stats_aside|intros _ s4 [D4 St4 _ _]].
  apply wp_ret. apply HQ.
  - rewrite D4, D3, D2, D1. by rewrite <- Hd.
  - by rewrite St4, St3, F2, St1.
  - by rewrite St4, St3, P2, St1.
Qed.

(** C20: [open_receive_file] always comes to an end, and whatever the collision
    policy it never harms a file that is there: every file keeps its bytes.
    When it succeeds, the stream stands at the end of its file, and
    [file_position] says so: at 0 in a file that did not exist before, or behind
    the bytes of the one that did. *)
Theorem open_receive_file_safe (s : kermit_state) (path name : list Z) :
  may_open s path name ->
  exists ok s', open_receive_file s = Done (ok, s') /\
    opened_safely (d_files (the_disk (shared s))) (d_files (the_disk (shared s'))) (status s') ok.
Proof.
  intros [Hc Hs Hp Hn Hfit Hfiles Hr]. apply wp_run. unfold open_receive_file.
  assert (Hkeep : forall s', the_disk (shared s') = the_disk (shared s) ->
    opened_safely (d_files (the_disk (shared s))) (d_files (the_disk (shared s'))) (status s') false)
    by (intros s' ->; by split).
  apply wp_bind, wp_gets, wp_bind, wp_assert; [by rewrite Hc|]. destruct (_ && _).
  { apply wp_bind. unfold ack_packet_param. apply wp_bind, wp_gets, wp_bind, wp_assert; [by rewrite Hs|].
    apply wp_bind, wp_gets. eapply wp_mono; [apply wp_make_packet; unfold roomy in Hr; cbn; lia|].
    intros u s1 [D1 _ _]. apply wp_ret. by apply Hkeep. }
  apply wp_bind, wp_gets, wp_bind. rewrite Hp. apply (wp_nonnull _ path); [done|].
  apply wp_bind, (wp_nonnull _ name); [done|]. apply wp_bind.
  eapply wp_mono; [by apply wp_choose_name|]. intros [b|] s1 [D1 C1]; [|by apply wp_ret, Hkeep].
  destruct (C1 b eq_refl) as [[_ O1 _ S1 _] C]. unfold get_disk. apply wp_bind, wp_gets, wp_bind, wp_gets.
  assert (Hr1 : roomy s1) by (unfold roomy; by rewrite O1). rewrite D1 in *.
  set (full := file_fullname (status s1)) in *. set (d := the_disk (shared s)) in *.
  assert (Habort : wp (abort_with "CANNOT CREATE FILE" "Disk I/O error: cannot create file";; mret false) s1
    (fun ok s' => opened_safely (d_files d) (d_files (the_disk (shared s'))) (status s') ok)).
  { apply wp_bind. eapply wp_mono; [apply wp_abort_with; unfold roomy in Hr1; cbn; lia|].
    intros u s2 D2. apply wp_ret. apply Hkeep. by rewrite D2. }
  destruct (d_files d !! full) as [data|] eqn:E; destruct C as [-> P1].
  - unfold fopen_update, fopen_rb. destruct (decide _); [exact Habort|]. rewrite E.
    apply wp_bind, wp_klift, wp_modify, wp_bind, wp_modify.
    set (s2 := s1 <| shared := _ |>).
    eapply (wp_opened _ s2 (opened full) full _ d); [exact Hr1|by rewrite <- S1 in Hs| |reflexivity|reflexivity].
    intros s' D' F' P'. rewrite D'. split; [done|]. intros _. eexists _, data. split; [exact F'|].
    unfold fseek_end, f_size, f_data. cbn [opened f_name]. rewrite E. cbn [default from_option id].
    rewrite (proj2 (Z.ltb_ge _ 0)) by lia. cbn [snd]. split; [exact E|]. split; [cbn; lia|].
    split; [by rewrite P'|by right].
  - unfold fopen_wb. destruct (decide _); [exact Habort|]. set (d2 := d <| d_files ::= _ |>).
    apply wp_bind, wp_klift, wp_modify, wp_bind, wp_modify.
    set (s2 := s1 <| shared := _ |>).
    eapply (wp_opened _ s2 (opened full) full _ d2); [exact Hr1|by rewrite <- S1 in Hs| |reflexivity|reflexivity].
    intros s' D' F' P'. rewrite D'. change (d_files d2) with (<[full := []]> (d_files d)).
    split; [intros m x Hx; rewrite lookup_insert_ne; congruence|].
    intros _. eexists _, []. split; [exact F'|]. unfold fseek_end, f_size, f_data.
    cbn [opened f_name]. change (d_files d2) with (<[full := []]> (d_files d)). rewrite lookup_insert_eq.
    cbn. split; [by rewrite lookup_insert_eq|]. split; [done|]. split; [by rewrite P'|by left].
Qed.

Lemma open_receive_file_safe_witness :
  let s := (sample_receiver false []) <| download_path := Some (str "d") |>
    <| status ::= (fun st => st <| file_stream := None |> <| file_name := Some (str "f") |>) |>
    <| shared := initial_common (plain_disk {[ str "d/f" := [1; 2; 3]; str "d/f.0000" := [4] ]} 100) (fun _ => 0) |> in
  exists ok s', open_receive_file s = Done (ok, s') /\
    opened_safely (d_files (the_disk (shared s))) (d_files (the_disk (shared s'))) (status s') ok.
Proof.
  intros s. apply (open_receive_file_safe s (str "d") (str "f")).
  constructor; [evaluate|evaluate|evaluate|evaluate|apply Nat.ltb_lt; evaluate|evaluate|
    apply Nat.leb_le; evaluate].
Defined.
