(* ===== verification/KermitAttributes.v ===== *)
(** The file attributes of Kermit: what the sender's packet says the receiver
    gets back. *)

From Stdlib Require Import ZArith Lia List Bool.
From stdpp Require Import base list numbers gmap strings.
From S2P Require Import Prelude Crc Stdio Strptime Protocols Kermit KermitCodec KermitPacket.
Import Strptime Kermit.

(** ** The loop over the attributes *)

Lemma attributes_loop_nil fuel kp : attributes_loop fuel [] kp = mret (Some kp).
Proof. by destruct fuel. Qed.

Lemma wp_attribute fuel t v rest kp s (Q : option attribute_locals -> kermit_state -> Prop) :
  (length v < 256)%nat ->
  wp (on_attribute t v (default 0 (head (v ++ rest))) kp) s
     (fun kp' s' => wp (attributes_loop fuel rest kp') s' Q) ->
  wp (attributes_loop (S fuel) (attribute t v ++ rest) kp) s Q.
Proof.
  intros Hl H. unfold attribute. cbn [app attributes_loop].
  assert (E : Z.to_nat (kermit_unchar (kermit_tochar (u8 (Z.of_nat (length v))))) = length v).
  { rewrite u8_id, unchar_tochar by (unfold is_byte; lia). lia. }
  cbv zeta. rewrite E.
  rewrite (proj2 (Nat.ltb_ge _ _)) by (rewrite length_app; lia).
  rewrite take_app_length, drop_app_length. by apply wp_bind.
Qed.

(** What one attribute does. *)
Lemma wp_attribute_size fuel n rest kp s (Q : option attribute_locals -> kermit_state -> Prop) :
  0 <= n < 2 ^ 31 -> (length (print_base 10 n) < 256)%nat ->
  wp (attributes_loop fuel rest kp) (s <| status ::= (fun st => st <| file_size := n |>) |>) Q ->
  wp (attributes_loop (S fuel) (attribute 49 (print_base 10 n) ++ rest) kp) s Q.
Proof.
  intros Hn Hl H. apply wp_attribute; [done|]. unfold on_attribute. apply wp_bind, wp_gets. cbn [Z.eqb Pos.eqb].
  destruct (print_base_digits 10 n ltac:(lia)) as (c & l & _ & _ & Hz).
  rewrite (c_str_id _ Hz), atol_print, i32_id, u32_id by lia. apply wp_bind, wp_modify, wp_ret. exact H.
Qed.

Lemma wp_attribute_protection fuel n rest kp s (Q : option attribute_locals -> kermit_state -> Prop) :
  0 <= n < 2 ^ 31 -> (length (print_base 8 n) < 256)%nat ->
  wp (attributes_loop fuel rest kp) (s <| status ::= (fun st => st <| file_protection := n |>) |>) Q ->
  wp (attributes_loop (S fuel) (attribute 44 (print_base 8 n) ++ rest) kp) s Q.
Proof.
  intros Hn Hl H. apply wp_attribute; [done|]. unfold on_attribute. apply wp_bind, wp_gets. cbn [Z.eqb Pos.eqb].
  destruct (print_base_digits 8 n ltac:(lia)) as (c & l & _ & _ & Hz).
  rewrite (c_str_id _ Hz), strtol8_print, i32_id, u32_id by lia. apply wp_bind, wp_modify, wp_ret. exact H.
Qed.

(** The first format reads a date as the sender prints it. *)
Lemma first_format_date d v :
  calendar d ->
  exists ft, first_format date_formats (strftime d) v = (true, ft) /\ tm_value (-1) ft = Some (d <| tm_isdst := -1 |>).
Proof.
  intros Hd. unfold date_formats. cbn [first_format app].
  change [Century; Year_of_century; Month; Day; White; Hour; Literal 58; Minute; Literal 58; Second] with date_and_time.
  rewrite (strptime_strftime d v Hd). eexists. split; reflexivity.
Qed.

Lemma wp_attribute_time fuel d rest kp s (Q : option attribute_locals -> kermit_state -> Prop) :
  calendar d ->
  (forall kp', wp (attributes_loop fuel rest kp')
     (s <| status ::= (fun st => st <| file_modtime := mktime (env s) (d <| tm_isdst := -1 |>) |>) |>) Q) ->
  wp (attributes_loop (S fuel) (attribute 35 (strftime d) ++ rest) kp) s Q.
Proof.
  intros Hd H. destruct (strftime_plain d Hd) as [Hl Hz]. apply wp_attribute; [lia|].
  unfold on_attribute. apply wp_bind, wp_gets. cbn [Z.eqb Pos.eqb]. rewrite (c_str_id _ Hz).
  destruct (first_format_date d (file_time kp) Hd) as (ft & -> & E). cbv zeta iota beta. rewrite E.
  apply wp_bind, wp_modify, wp_ret. apply H.
Qed.

Lemma wp_attribute_text fuel v rest kp s (Q : option attribute_locals -> kermit_state -> Prop) :
  (length v < 256)%nat ->
  (forall s', env s' = env s -> input_packet s' = input_packet s ->
     status s' = (status s) <| text_mode ::= orb (bool_decide (head v = Some 65) && kermit_downloads_convert_text (env s)) |> ->
     wp (attributes_loop fuel rest kp) s' Q) ->
  wp (attributes_loop (S fuel) (attribute 34 v ++ rest) kp) s Q.
Proof.
  intros Hl H. apply wp_attribute; [done|]. unfold on_attribute. apply wp_bind, wp_gets. cbn [Z.eqb Pos.eqb].
  apply wp_bind, wp_when; intros E; [apply wp_modify|]; apply wp_ret; apply H; try done; rewrite E.
  - match goal with |- context [status (s <| status ::= ?f |>)] =>
      change (status (s <| status ::= f |>)) with (f (status s)) end. by destruct (status s).
  - by destruct (status s).
Qed.

(** The numbers are short. *)
Lemma decimal_short n : 0 <= n < 2 ^ 31 -> (length (print_base 10 n) < 256)%nat.
Proof.
  intros Hn. pose proof (length_print_digits 10 64 10 n [] ltac:(lia)) as L. cbn [length] in L.
  assert (2 ^ 31 < 10 ^ Z.of_nat 10) by (vm_compute; reflexivity). unfold print_base. specialize (L ltac:(lia) ltac:(lia)). lia.
Qed.
Lemma octal_short n : 0 <= n < 2 ^ 9 -> (length (print_base 8 n) < 256)%nat.
Proof.
  intros Hn. pose proof (length_print_digits 8 64 3 n [] ltac:(lia)) as L. cbn [length] in L.
  unfold print_base. specialize (L ltac:(change (8 ^ Z.of_nat 3) with (2 ^ 9); lia) ltac:(lia)). lia.
Qed.

(** The last two attributes: the protection in Kermit's form, of which the status
    knows nothing yet, and the wish to append. *)
Lemma wp_attribute_last k c (resend : bool) v s (Q : option attribute_locals -> kermit_state -> Prop) :
  (forall v', Q (Some v') (s <| status ::= (fun st => st <| do_resend ::= orb resend |>) |>)) ->
  wp (attributes_loop (S (S k)) (attribute 45 [c] ++ (if resend then attribute 43 [82] else [])) v) s Q.
Proof.
  intros H. apply wp_attribute; [cbn; lia|]. unfold on_attribute at 1. apply wp_bind, wp_gets. cbn [Z.eqb Pos.eqb]. apply wp_ret.
  destruct resend.
  - rewrite <- (app_nil_r (attribute 43 [82])). apply wp_attribute; [cbn; lia|].
    unfold on_attribute at 1. apply wp_bind, wp_gets. cbn [Z.eqb Pos.eqb head app default from_option].
    apply wp_bind, wp_modify, wp_ret. rewrite attributes_loop_nil. apply wp_ret. apply H.
  - rewrite attributes_loop_nil. apply wp_ret.
    assert (E : s <| status ::= (fun st => st <| do_resend ::= orb false |>) |> = s) by (by destruct s as [? ? []]).
    rewrite <- E. apply H.
Qed.

(** The status of a receiver that was told all of it. *)
Definition informed (st : KERMIT_STATUS) (mtime : Z) (convert resend : bool) (old : KERMIT_STATUS) : KERMIT_STATUS :=
  old <| text_mode ::= orb (text_mode st && convert) |> <| file_size := file_size st |> <| file_modtime := mtime |>
    <| file_protection := Z.land (file_protection st) 0x1FF |> <| do_resend ::= orb resend |>.

Lemma wp_file_attributes k ea st resend v s (Q : option attribute_locals -> kermit_state -> Prop) :
  let date := localtime ea (file_modtime st) in
  0 <= file_size st < 2 ^ 31 -> calendar date ->
  (forall v' s', status s' = informed st (mktime (env s) (date <| tm_isdst := -1 |>))
       (kermit_downloads_convert_text (env s)) resend (status s) -> Q (Some v') s') ->
  wp (attributes_loop (6 + k) (file_attributes ea st resend) v) s Q.
Proof.
  intros date Hsize Hdate HQ. unfold file_attributes. cbn [Nat.add].
  assert (Hprot : 0 <= Z.land (file_protection st) 0x1FF < 2 ^ 9) by (apply (land_bound _ 0x1FF 9); lia).
  assert (Htext : (if text_mode st then attribute 34 [65] else attribute 34 [66; 56]) =
    attribute 34 (if text_mode st then [65] else [66; 56])) by (by destruct (text_mode st)).
  rewrite Htext. apply wp_attribute_text; [destruct (text_mode st); cbn; lia|]. intros s2 E2 I2 S2.
  apply wp_attribute_size; [done|by apply decimal_short|]. apply wp_attribute_time; [exact Hdate|]. intros locals.
  apply wp_attribute_protection; [lia|by apply octal_short|]. apply wp_attribute_last. intros v'. apply HQ.
  match goal with |- status (s2 <| status ::= ?f |> <| status ::= ?g |> <| status ::= ?h |> <| status ::= ?i |>) = _ =>
    change (status (s2 <| status ::= f |> <| status ::= g |> <| status ::= h |> <| status ::= i |>)) with (i (h (g (f (status s2))))) end.
  rewrite S2. change (env (s2 <| status ::= _ |>)) with (env s2). rewrite E2. unfold informed. by destruct (text_mode st).
Qed.

(** C31: What the Attributes packet of the sender says arrives: after
    [process_attributes] the receiver has the size of a file below 2 GB, the nine
    bits of its protection, and the moment at which the receiver's clock shows the
    date and time that the sender's shows for the modification time (mktime() of the
    fields of localtime(), daylight saving left open: the same moment where mktime()
    of the receiver undoes localtime() of the sender); it is in text mode if the
    sender announced text and conversion is on, and appends if the sender asked for
    it; the packet is never refused.  The year is one of four digits. *)
Theorem attributes_roundtrip (ea : environment) (st : KERMIT_STATUS) (resend : bool) (sb : kermit_state) :
  let date := localtime ea (file_modtime st) in
  packet_bytes (input_packet sb) = file_attributes ea st resend ->
  0 <= data_n (input_packet sb) < Z.of_nat (length (pdata (input_packet sb))) ->
  0 <= file_size st < 2 ^ 31 -> calendar date ->
  exists s', process_attributes sb = Done (true, s') /\
    file_size (status s') = file_size st /\ file_modtime (status s') = mktime (env sb) (date <| tm_isdst := -1 |>) /\
    file_protection (status s') = Z.land (file_protection st) 0x1FF /\
    text_mode (status s') = (text_mode st && kermit_downloads_convert_text (env sb)) || text_mode (status sb) /\
    do_resend (status s') = resend || do_resend (status sb).
Proof.
  intros date Hp Hn Hsize Hdate.
  set (told := informed st (mktime (env sb) (date <| tm_isdst := -1 |>)) (kermit_downloads_convert_text (env sb)) resend (status sb)).
  destruct (wp_run process_attributes sb (fun ok s' => ok = true /\ status s' = told)) as (ok & s' & Hrun & -> & Hs).
  2: { exists s'. split; [done|]. by rewrite Hs. }
  unfold process_attributes, terminate_data. apply wp_bind, wp_bind, wp_gets, wp_bind, wp_memcpy; [lia|cbn; lia|].
  apply wp_modify. set (s1 := sb <| input_packet ::= _ |>). apply wp_bind, wp_gets.
  assert (Hb : packet_bytes (input_packet s1) = file_attributes ea st resend).
  { rewrite <- Hp. unfold packet_bytes. change (data_n (input_packet s1)) with (data_n (input_packet sb)).
    change (pdata (input_packet s1)) with (blit (pdata (input_packet sb)) (Z.to_nat (data_n (input_packet sb))) [0]).
    apply take_blit. lia. }
  assert (Hfuel : exists k, length (pdata (input_packet s1)) = (6 + k)%nat).
  { apply (f_equal length) in Hb. unfold packet_bytes, file_attributes, attribute in Hb.
    rewrite length_take, !length_app in Hb. cbn [length] in Hb.
    exists (length (pdata (input_packet s1)) - 6)%nat. destruct (text_mode st); cbn [length app] in Hb; lia. }
  destruct Hfuel as [k ->]. rewrite Hb. apply wp_bind, wp_file_attributes; [done|done|]. intros v' s' Hs.
  apply wp_bind, wp_gets. rewrite Hs. change (file_protection (informed _ _ _ _ _)) with (Z.land (file_protection st) 0x1FF).
  assert (Hprot : 0 <= Z.land (file_protection st) 0x1FF < 2 ^ 9) by (apply (land_bound _ 0x1FF 9); lia).
  rewrite (proj2 (Z.eqb_neq _ 0xFFFF)) by lia. by apply wp_bind, wp_ret, wp_ret.
Qed.

(** A date without seconds, or without a time, fits one of the later formats, which
    write no seconds: mktime() then reads a member that nothing has set. *)
Theorem date_without_seconds (c : Z) (s : kermit_state) :
  on_attribute 35 (str "20200101 10:30") c initial_locals s = Fault Indeterminate /\
  on_attribute 35 (str "20200101") c initial_locals s = Fault Indeterminate /\
  on_attribute 35 (str "200101") c initial_locals s = Fault Indeterminate.
Proof. by vm_compute. Qed.

(** In the Kermit form of a protection, which is all a file gets from a system
    that sends no native one, the execute permissions of the received file are
    the read permission of others: what was readable becomes executable, and what
    was only executable does not. *)
Theorem world_readable_becomes_executable (prot : Z) :
  Z.land (translate_protection (to_kermit_protection prot)) 73 = if bit prot 0x04 then 73 else 0.
Proof.
  unfold to_kermit_protection. destruct (bit prot 0x01), (bit prot 0x02), (bit prot 0x04); reflexivity.
Qed.

Lemma attributes_roundtrip_witness :
  let st := (status (sample_sender false)) <| file_size := 1234 |> <| file_modtime := 77 |>
    <| file_protection := 33188 |> <| text_mode := true |> in
  let data := file_attributes sample_env st true in
  let sb := (sample_receiver false []) <| input_packet ::= (fun p => p <| pdata := data ++ [0] |>
    <| data_n := Z.of_nat (length data) |>) |> in
  exists s', process_attributes sb = Done (true, s') /\
    file_size (status s') = file_size st /\ file_modtime (status s') = 77 /\
    file_protection (status s') = Z.land (file_protection st) 0x1FF /\
    text_mode (status s') = (text_mode st && kermit_downloads_convert_text (env sb)) || text_mode (status sb) /\
    do_resend (status s') = true || do_resend (status sb).
Proof.
  intros st data sb. apply (attributes_roundtrip sample_env st true sb);
    [evaluate|evaluate|evaluate|]. split; evaluate.
Defined.
