(* ===== verification/KermitWindow.v ===== *)
(** The input window of Kermit as a queue: the ring of slots that the receiver
    fills and writes out, related to the list of packets it stands for. *)

From Stdlib Require Import ZArith Lia List Bool.
From stdpp Require Import base list numbers gmap strings.
From S2P Require Import Prelude Crc Stdio Protocols Kermit KermitMachine KermitCodec KermitPacket.
Import Kermit Machine.

(** ** Rings *)

Section ring.
Context {A : Type}.
Implicit Types l : list A.

(** The [n] elements from position [b] on, around the end. *)
Definition turned (b : nat) (l : list A) : list A := drop b l ++ take b l.
Definition ring_list (l : list A) (b n : nat) : list A := take n (turned b l).

Lemma length_turned b l : length (turned b l) = length l.
Proof. unfold turned. rewrite length_app, length_drop, length_take. lia. Qed.

Lemma ring_list_head l b n x :
  l !! b = Some x -> ring_list l b (S n) = x :: take n (drop (S b) l ++ take b l).
Proof. intros H. unfold ring_list, turned. by rewrite (drop_S l x b H). Qed.

(** Taking the oldest element out. *)
Lemma ring_list_pop l b n x f :
  l !! b = Some x -> (S n <= length l)%nat ->
  ring_list l b (S n) = x :: ring_list (alter f b l) (if decide (S b = length l) then 0%nat else S b) n.
Proof.
  intros Hx Hn. rewrite (ring_list_head _ _ _ x) by done. f_equal.
  apply list_elem_of_split_length in Hx as (l1 & l2 & -> & ->).
  rewrite alter_app_r_alt, Nat.sub_diag by done. cbn [alter list_alter].
  rewrite length_app in *. cbn [length] in *.
  replace (S (length l1)) with (length (l1 ++ [x])) by (rewrite length_app; cbn; lia).
  change (l1 ++ x :: l2) with (l1 ++ [x] ++ l2). rewrite (app_assoc l1), drop_app_length.
  rewrite <- app_assoc, take_app_length.
  destruct (decide _) as [E|E]; unfold ring_list, turned.
  - rewrite length_app in E. cbn in E. destruct l2; [|cbn in E; lia].
    rewrite take_0, drop_0, app_nil_r. cbn [app]. rewrite take_app_le by (cbn in Hn; lia). done.
  - replace (length (l1 ++ [x])) with (length (l1 ++ [f x])) by (rewrite !length_app; done).
    change (l1 ++ f x :: l2) with (l1 ++ [f x] ++ l2). rewrite (app_assoc l1), drop_app_length, take_app_length.
    rewrite app_assoc, (take_app_le _ [f x]); [done|]. rewrite length_app. lia.
Qed.

(** Putting one in. *)
Lemma turned_insert l b n y :
  (b < length l)%nat -> (n < length l)%nat ->
  turned b (<[(if decide (b + n < length l) then b + n else b + n - length l)%nat := y]> l) = <[n := y]> (turned b l).
Proof.
  intros Hb Hn. unfold turned. destruct (decide _) as [H|H].
  - rewrite drop_insert_ge, take_insert_ge by lia. replace (b + n - b)%nat with n by lia.
    rewrite insert_app_l; [done|]. rewrite length_drop. lia.
  - rewrite drop_insert_lt, take_insert_lt by lia.
    rewrite insert_app_r_alt by (rewrite length_drop; lia). rewrite length_drop. do 2 f_equal. lia.
Qed.

Lemma ring_list_push l b n y :
  (b < length l)%nat -> (n < length l)%nat ->
  ring_list (<[(if decide (b + n < length l) then b + n else b + n - length l)%nat := y]> l) b (S n) =
  ring_list l b n ++ [y].
Proof.
  intros Hb Hn. unfold ring_list. rewrite turned_insert by done.
  rewrite (take_S_r _ _ y) by (apply list_lookup_insert_eq; by rewrite length_turned).
  by rewrite take_insert_ge.
Qed.
End ring.

(** ** The window as a queue *)

#[local] Notation slot := kermit_packet_serial.

(** The position [n] behind [b] in a ring of [size]. *)
Definition ring_at (size b n : nat) : nat := if decide (b + n < size)%nat then (b + n)%nat else (b + n - size)%nat.

(** The window holds the ring [l], of which [n] slots from [b] on are in use. *)
Record window_of (s : kermit_state) (l : list slot) (b n : nat) : Prop := {
  wo_slots : input_window s = Some l;
  wo_begin : input_window_begin s = Z.of_nat b;
  wo_n : input_window_n s = Z.of_nat n;
  wo_i : input_window_i s = Z.of_nat (ring_at (length l) b n);
  wo_size : WINDO_in (session_parms s) = Z.of_nat (length l);
  wo_b : (b < length l)%nat;
  wo_le : (n <= length l)%nat;
  wo_small : (length l <= 94)%nat
}.

(** The packets in it, the oldest first. *)
Definition queue (s : kermit_state) : list slot :=
  match input_window s with
  | Some l => ring_list l (Z.to_nat (input_window_begin s)) (Z.to_nat (input_window_n s))
  | None => []
  end.

Lemma window_queue s l b n : window_of s l b n -> queue s = ring_list l b n.
Proof. intros [H1 H2 H3 _ _ _ _ _]. unfold queue. by rewrite H1, H2, H3, !Nat2Z.id. Qed.

Lemma ring_next_at L b n :
  (b < L)%nat -> (n < L)%nat ->
  (Z.of_nat (ring_at L b n) + 1) mod Z.of_nat L = Z.of_nat (ring_at L b (S n)).
Proof.
  intros Hb Hn. unfold ring_at. destruct (decide (b + n < L)%nat), (decide (b + S n < L)%nat); try lia.
  - rewrite Z.mod_small by lia. lia.
  - replace (Z.of_nat (b + n) + 1) with (Z.of_nat L) by lia. rewrite Z.mod_same by lia. lia.
  - rewrite Z.mod_small by lia. lia.
Qed.

Lemma wp_in_slot s l i x (Q : slot -> kermit_state -> Prop) :
  input_window s = Some l -> l !! i = Some x -> Q x s -> wp (in_slot (Z.of_nat i)) s Q.
Proof.
  intros Hl Hx HQ. unfold in_slot, get_slot. apply wp_bind, wp_gets. rewrite Hl.
  apply wp_bind, (wp_nonnull _ l); [done|]. rewrite (proj2 (Z.ltb_ge _ 0)) by lia.
  rewrite Nat2Z.id, Hx. by apply wp_ret.
Qed.

Lemma wp_on_in_slot s l i x f (Q : unit -> kermit_state -> Prop) :
  input_window s = Some l -> l !! i = Some x ->
  Q tt (s <| input_window := Some (alter f i l) |>) -> wp (on_in_slot (Z.of_nat i) f) s Q.
Proof.
  intros Hl Hx HQ. unfold on_in_slot. apply wp_bind. apply (wp_in_slot s l i x); [done|done|].
  apply wp_modify.
  assert (E : upd_slot (input_window s) (Z.of_nat i) f = Some (alter f i l))
    by (unfold upd_slot; rewrite Hl, Nat2Z.id; done).
  change (Q tt (s <| input_window := upd_slot (input_window s) (Z.of_nat i) f |>)). by rewrite E.
Qed.

Lemma wp_ring_next size i s (Q : Z -> kermit_state -> Prop) :
  size <> 0 -> Q ((i + 1) mod size) s -> wp (ring_next size i) s Q.
Proof. intros H HQ. unfold ring_next. rewrite (proj2 (Z.eqb_neq _ _) H). by apply wp_ret. Qed.

(** ** The file behind it *)

(** The file of the receiver: its stream stands at the end of [content]. *)
Definition at_end (s : kermit_state) (content : list Z) : Prop :=
  exists f, file_stream (status s) = Some f /\ d_files (the_disk (shared s)) !! f_name f = Some content /\
    f_pos f = Z.of_nat (length content).

(** [bs] was appended to the file; the rest of the session is the same. *)
Record appended (bs : list Z) (s s' : kermit_state) : Prop := {
  ap_file : forall content, at_end s content -> at_end s' (content ++ bs);
  ap_space : d_space (the_disk (shared s')) = d_space (the_disk (shared s)) - Z.of_nat (length bs);
  ap_position : file_position (status s') = file_position (status s) + Z.of_nat (length bs);
  ap_sending : sending (status s') = sending (status s);
  ap_seq : sequence_number (status s') = sequence_number (status s);
  ap_session : session_parms s' = session_parms s;
  ap_input : input_packet s' = input_packet s
}.

Lemma grows_nil s s' :
  shared s' = shared s -> status s' = status s -> session_parms s' = session_parms s ->
  input_packet s' = input_packet s -> appended [] s s'.
Proof.
  intros H1 H2 H3 H4. split; rewrite ?H1, ?H2; try done; cbn; try lia.
  intros content (f & A1 & A2 & A3). exists f. by rewrite H1, H2, app_nil_r.
Qed.

Lemma grows_trans bs1 bs2 s1 s2 s3 :
  appended bs1 s1 s2 -> appended bs2 s2 s3 -> appended (bs1 ++ bs2) s1 s3.
Proof.
  intros [A1 A2 A3 A4 A5 A6 A7] [B1 B2 B3 B4 B5 B6 B7].
  split; try congruence; rewrite ?length_app; try lia.
  intros content H. rewrite app_assoc. by apply B1, A1.
Qed.

(** The data of a slot. *)
Definition slot_data (x : slot) : list Z := take (Z.to_nat (sl_data_n x)) (default [] (sl_data x)).
Definition good_slot (x : slot) : Prop :=
  exists data, sl_data x = Some data /\ sl_data_n x = Z.of_nat (length data).
Lemma good_slot_data x data : sl_data x = Some data -> sl_data_n x = Z.of_nat (length data) -> slot_data x = data.
Proof. intros H1 H2. unfold slot_data. rewrite H1, H2, Nat2Z.id. apply firstn_all. Qed.

Lemma wp_write_slot s l i x content :
  input_window s = Some l -> l !! i = Some x -> good_slot x -> at_end s content ->
  Z.of_nat (length (slot_data x)) <= d_space (the_disk (shared s)) -> MAXL (session_parms s) <> 0 ->
  wp (write_slot (Z.of_nat i)) s (fun _ s' => appended (slot_data x) s s' /\
    input_window s' = input_window s /\ input_window_begin s' = input_window_begin s /\
    input_window_i s' = input_window_i s /\ input_window_n s' = input_window_n s).
Proof.
  intros Hl Hx (data & Hd & Hdn) (f & Hf & Hc & Hpos) Hroom Hm.
  pose proof (good_slot_data x data Hd Hdn) as Hsd. rewrite Hsd in *.
  unfold write_slot. apply wp_bind, (wp_in_slot s l i x); [done|done|].
  apply wp_bind, wp_gets. rewrite Hf. apply wp_bind, (wp_nonnull _ f); [done|].
  apply wp_bind. apply (wp_mono _ _ (fun v s' => v = data /\ s' = s)).
  { destruct (Z.eqb_spec (sl_data_n x) 0) as [E|E].
    - apply wp_ret. split; [|done]. destruct data; [done|cbn in Hdn; lia].
    - by apply (wp_nonnull _ data). }
  intros v s1 [-> ->]. unfold get_disk. apply wp_bind, wp_gets.
  rewrite Hdn, Nat2Z.id, firstn_all. rewrite (fwrite_append _ _ content) by done.
  set (d2 := (the_disk (shared s)) <| d_files ::= _ |> <| d_space ::= _ |>).
  set (f2 := f <| f_pos := _ |>).
  apply wp_bind, wp_klift, wp_modify, wp_bind, wp_modify, wp_bind, wp_gets.
  set (s2 := s <| shared := _ |> <| status ::= _ |>).
  apply wp_bind, wp_klift, wp_modify. set (s3 := s2 <| shared := _ |>).
  unfold stats_increment_blocks. apply wp_bind, wp_get. cbv zeta.
  change (MAXL (session_parms s3)) with (MAXL (session_parms s)). rewrite (proj2 (Z.eqb_neq _ _) Hm).
  apply wp_bind, wp_klift, wp_modify, wp_klift, wp_modify.
  split; [|done]. split; try done.
  - intros content' (f' & F1 & F2 & F3). rewrite Hf in F1. injection F1 as <-. rewrite Hc in F2. injection F2 as <-.
    exists f2. split; [reflexivity|]. split; [|reflexivity].
    change (<[f_name f := content ++ data]> (d_files (the_disk (shared s))) !! f_name f = Some (content ++ data)).
    apply lookup_insert_eq.
  - change (Z.of_nat (length data) + file_position (status s) = file_position (status s) + Z.of_nat (length data)). lia.
Qed.

(** ** Rolling off and putting in *)

Lemma wp_roll_off s l b n x :
  window_of s l b (S n) -> l !! b = Some x ->
  wp roll_off s (fun _ s' => appended [] s s' /\ input_window_i s' = input_window_i s /\
    exists l', length l' = length l /\ window_of s' l' (if decide (S b = length l) then 0%nat else S b) n /\
      ring_list l b (S n) = x :: ring_list l' (if decide (S b = length l) then 0%nat else S b) n).
Proof.
  intros [W1 W2 W3 W4 W5 W6 W7 W8] Hx. unfold roll_off. apply wp_bind, wp_get. rewrite W2.
  apply wp_bind, (wp_on_in_slot s l b x); [done|done|].
  set (f := fun y : slot => y <| sl_data := None |>). set (l' := alter f b l).
  rewrite W5.
  apply wp_bind, wp_ring_next; [lia|]. apply wp_modify. split; [by apply grows_nil|].
  split; [done|]. exists l'. assert (Hlen : length l' = length l) by apply length_alter.
  split; [done|]. split; [|by apply ring_list_pop].
  assert (Hnext : (Z.of_nat b + 1) mod Z.of_nat (length l) =
                  Z.of_nat (if decide (S b = length l) then 0%nat else S b)).
  { destruct (decide (S b = length l)) as [E|E].
    - replace (Z.of_nat b + 1) with (Z.of_nat (length l)) by lia. rewrite Z.mod_same by lia. done.
    - rewrite Z.mod_small by lia. lia. }
  split; rewrite ?Hlen; try done.
  - change (u32 (input_window_n s - 1) = Z.of_nat n). rewrite W3, u32_id by lia. lia.
  - change (input_window_i s = Z.of_nat (ring_at (length l) (if decide (S b = length l) then 0%nat else S b) n)).
    rewrite W4. unfold ring_at. repeat destruct (decide _); lia.
  - destruct (decide _); lia.
  - lia.
Qed.

(** A slot filled behind the last one and the window advanced. *)
Lemma wp_queue_push (s : kermit_state) (f : slot -> slot) (m : K unit) (l : list slot) b n x :
  window_of s l b n -> (n < length l)%nat -> l !! ring_at (length l) b n = Some x ->
  (forall s0 Q, (forall s1, input_window s1 = Some (alter f (ring_at (length l) b n) l) ->
     input_window_begin s1 = input_window_begin s0 -> input_window_i s1 = input_window_i s0 ->
     input_window_n s1 = input_window_n s0 -> appended [] s0 s1 -> Q tt s1) ->
     s0 = s -> wp m s0 Q) ->
  wp (m;; advance_input_i) s (fun _ s' => appended [] s s' /\
    exists l', length l' = length l /\ window_of s' l' b (S n) /\ queue s' = queue s ++ [f x]).
Proof.
  intros Hw Hn Hx Hm. pose proof (window_queue _ _ _ _ Hw) as Hq.
  destruct Hw as [W1 W2 W3 W4 W5 W6 W7 W8]. apply wp_bind. apply Hm; [|done].
  intros s1 E1 E2 E3 E4 A1. unfold advance_input_i. apply wp_bind, wp_get.
  pose proof (ap_session _ _ _ A1) as Es. rewrite Es, W5, E3, W4.
  apply wp_bind, wp_ring_next; [lia|]. rewrite ring_next_at by lia. apply wp_modify.
  set (s2 := s1 <| input_window_i := _ |> <| input_window_n ::= _ |>).
  split; [eapply (grows_trans [] []); [exact A1|by apply grows_nil]|].
  set (l' := alter f (ring_at (length l) b n) l). exists l'.
  assert (Hlen : length l' = length l) by apply length_alter. split; [done|].
  assert (W : window_of s2 l' b (S n)).
  { split; rewrite ?Hlen; [exact E1|by rewrite <- W2, <- E2| |done| |done|lia|done].
    - change (u32 (input_window_n s1 + 1) = Z.of_nat (S n)). rewrite E4, W3, u32_id by lia. lia.
    - change (WINDO_in (session_parms s1) = Z.of_nat (length l)). by rewrite Es. }
  split; [done|]. rewrite (window_queue _ _ _ _ W), Hq. unfold l'.
  assert (Ha : alter f (ring_at (length l) b n) l = <[ring_at (length l) b n := f x]> l).
  { rewrite list_insert_alter. apply list_eq. intros k. destruct (decide (k = ring_at (length l) b n)) as [->|].
    - by rewrite !list_lookup_alter, Hx.
    - by rewrite !list_lookup_alter_ne. }
  rewrite Ha. unfold ring_at. by apply ring_list_push.
Qed.

(** ** Writing the window out *)

(** The packets at the front that have arrived, and the rest. *)
Fixpoint arrived_front (q : list slot) : list slot :=
  match q with x :: q => if acked x then x :: arrived_front q else [] | [] => [] end.
Fixpoint still_waiting (q : list slot) : list slot :=
  match q with x :: q' => if acked x then still_waiting q' else q | [] => [] end.

(** The bytes of the file in a slot, and in a queue. *)
Definition file_bytes (x : slot) : list Z :=
  if bool_decide (sl_type x = Some P_KDATA) then slot_data x else [].
Definition queue_bytes (q : list slot) : list Z := concat (file_bytes <$> q).

(** A slot with data that has arrived has its bytes. *)
Definition sound (x : slot) : Prop := acked x = true -> sl_type x = Some P_KDATA -> good_slot x.

Lemma queue_bytes_cons x q : queue_bytes (x :: q) = file_bytes x ++ queue_bytes q.
Proof. done. Qed.

(** The window empty, or what is left of it. *)
Definition holds (s : kermit_state) (q : list slot) : Prop :=
  exists l b, window_of s l b (length q) /\ ring_list l b (length q) = q.

Lemma holds_queue s q : holds s q -> queue s = q.
Proof. intros (l & b & W & H). by rewrite (window_queue _ _ _ _ W). Qed.

Lemma window_holds s l b n : window_of s l b n -> holds s (ring_list l b n).
Proof.
  intros W. assert (E : length (ring_list l b n) = n).
  { unfold ring_list. rewrite length_take, length_turned. pose proof (wo_le _ _ _ _ W). lia. }
  exists l, b. by rewrite E.
Qed.

Lemma holds_head s x q :
  holds s (x :: q) -> exists l b, window_of s l b (S (length q)) /\ l !! b = Some x /\ ring_list l b (S (length q)) = x :: q.
Proof.
  intros (l & b & W & H). exists l, b. cbn [length] in *. split; [done|]. split; [|done].
  pose proof (wo_b _ _ _ _ W) as Hb. destruct (lookup_lt_is_Some_2 l b Hb) as [y Hy].
  rewrite (ring_list_head l b _ y Hy) in H. by injection H as -> _.
Qed.

Lemma wp_roll_off_holds s x q :
  holds s (x :: q) ->
  wp roll_off s (fun _ s' => appended [] s s' /\ input_window_i s' = input_window_i s /\ holds s' q).
Proof.
  intros (l & b & W & Hx & E)%holds_head. eapply wp_mono; [by eapply wp_roll_off|].
  intros u s' (A & I & l' & _ & W' & E'). split; [done|]. split; [done|]. rewrite E in E'. injection E' as Eq.
  exists l', (if decide (S b = length l) then 0%nat else S b). by split.
Qed.

(** The slot of the oldest packet. *)
Lemma holds_begin s x q :
  holds s (x :: q) -> exists l b, input_window s = Some l /\ input_window_begin s = Z.of_nat b /\ l !! b = Some x.
Proof. intros (l & b & [W1 W2 _ _ _ _ _ _] & Hx & _)%holds_head. eauto. Qed.

Lemma holds_n s q : holds s q -> input_window_n s = Z.of_nat (length q).
Proof. intros (l & b & [_ _ W3 _ _ _ _ _] & _). done. Qed.

(** Writing the oldest packet and rolling it off. *)
Lemma wp_save_one (b : bool) s x q content :
  holds s (x :: q) -> (b = true -> good_slot x) ->
  at_end s content -> Z.of_nat (length (slot_data x)) <= d_space (the_disk (shared s)) -> MAXL (session_parms s) <> 0 ->
  wp (whenM b (write_slot (input_window_begin s))) s (fun _ s' =>
    appended (if b then slot_data x else []) s s' /\ input_window_i s' = input_window_i s /\ holds s' (x :: q)).
Proof.
  intros H Hg Hf Hroom Hm. apply wp_when; [|intros ->; split; [by apply grows_nil|by split]].
  intros Hb. specialize (Hg Hb). subst b.
  destruct (holds_begin _ _ _ H) as (l & b & Hl & -> & Hx).
  eapply wp_mono; [by eapply wp_write_slot|]. intros u s' (A & E1 & E2 & E3 & E4). split; [done|]. split; [done|].
  destruct H as (l0 & b0 & [W1 W2 W3 W4 W5 W6 W7 W8] & Hr). exists l0, b0. split; [|done].
  split; rewrite ?E1, ?E2, ?E3, ?E4, ?(ap_session _ _ _ A); done.
Qed.

Lemma wp_save_all q : forall s content,
  holds s q -> Forall sound q -> at_end s content ->
  Z.of_nat (length (concat (slot_data <$> q))) <= d_space (the_disk (shared s)) -> MAXL (session_parms s) <> 0 ->
  wp (save_all (length q)) s (fun ok s' =>
    ok = forallb acked q /\ holds s' (still_waiting q) /\ appended (queue_bytes (arrived_front q)) s s').
Proof.
  induction q as [|x q IH]; intros s content H Hs Hf Hroom Hm; cbn [save_all length].
  - apply wp_bind, wp_get. rewrite (holds_n _ _ H). apply wp_ret.
    split; [done|]. split; [done|by apply grows_nil].
  - apply wp_bind, wp_get. rewrite (holds_n _ _ H). cbn [length].
    rewrite (proj2 (Z.eqb_neq _ 0)) by lia.
    destruct (holds_begin _ _ _ H) as (l & b & Hl & Hb & Hx).
    apply wp_bind. rewrite Hb at 1. apply (wp_in_slot s l b x); [done|done|].
    cbn [forallb still_waiting arrived_front fmap list_fmap concat] in *.
    rewrite length_app in Hroom.
    apply Forall_cons_iff in Hs as [Hx' Hs].
    destruct (acked x) eqn:E; cbn [negb andb].
    + apply wp_bind. eapply wp_mono; [eapply (wp_save_one _ s x q content); try done; [|lia]|].
      { intros Ht. apply bool_decide_eq_true in Ht. by apply Hx'. }
      intros u1 s1 (A1 & _ & H1). apply wp_bind. eapply wp_mono; [by eapply wp_roll_off_holds|].
      intros u2 s2 (A2 & _ & H2). pose proof (grows_trans _ _ _ _ _ A1 A2) as A12. rewrite app_nil_r in A12.
      fold (file_bytes x) in A12.
      eapply wp_mono; [apply (IH s2 (content ++ file_bytes x)); try done|].
      * by apply (ap_file _ _ _ A12).
      * rewrite (ap_space _ _ _ A12). unfold file_bytes. destruct (bool_decide _); cbn; lia.
      * by rewrite (ap_session _ _ _ A12).
      * intros ok s3 (Hok & H3 & A3). split; [done|]. split; [done|]. rewrite queue_bytes_cons.
        by eapply grows_trans.
    + apply wp_ret. split; [done|]. split; [done|by apply grows_nil].
Qed.

(** C12: The input window is a queue of packets: [window_save_all] writes the data
    of the packets that have arrived, in order and up to the first one that has
    not, to the end of the file, takes exactly those out of the window, and tells
    whether none is missing. *)
Theorem window_save_all_flushes (s : kermit_state) (q : list kermit_packet_serial) (content : list Z) :
  holds s q -> Forall sound q -> at_end s content ->
  Z.of_nat (length (concat (slot_data <$> q))) <= d_space (the_disk (shared s)) -> MAXL (session_parms s) <> 0 ->
  exists s', window_save_all s = Done (forallb acked q, s') /\
    queue s' = still_waiting q /\ at_end s' (content ++ queue_bytes (arrived_front q)).
Proof.
  intros H Hs Hf Hroom Hm.
  destruct (wp_run window_save_all s (fun ok s' => ok = forallb acked q /\ queue s' = still_waiting q /\
    at_end s' (content ++ queue_bytes (arrived_front q)))) as (ok & s' & Hrun & -> & Hq & Ha); [|by exists s'].
  unfold window_save_all. apply wp_bind, wp_gets. rewrite (holds_n _ _ H), Nat2Z.id.
  eapply wp_mono; [by eapply wp_save_all|]. intros ok s' (-> & H' & A). split; [done|].
  split; [by apply holds_queue|by apply (ap_file _ _ _ A)].
Qed.

(** ** A packet in order *)

Lemma turned_lookup {A} (l : list A) b k :
  (b < length l)%nat -> (k < length l)%nat -> turned b l !! k = l !! ring_at (length l) b k.
Proof.
  intros Hb Hk. unfold turned, ring_at. destruct (decide _) as [H|H].
  - rewrite lookup_app_l by (rewrite length_drop; lia). by rewrite lookup_drop.
  - rewrite lookup_app_r by (rewrite length_drop; lia). rewrite length_drop.
    rewrite lookup_take_lt by lia. f_equal. lia.
Qed.

(** The slot before [input_window_i] is the youngest packet. *)
Lemma wp_input_end s q x (Q : Z -> kermit_state -> Prop) :
  holds s (q ++ [x]) ->
  (forall l i, input_window s = Some l -> l !! i = Some x -> Q (Z.of_nat i) s) -> wp input_end s Q.
Proof.
  intros (l & b & [W1 W2 W3 W4 W5 W6 W7 W8] & Hr) HQ. unfold input_end. apply wp_bind, wp_get. apply wp_ret.
  rewrite W4, W5. rewrite length_app in *. cbn [length] in *.
  assert (E : (if Z.of_nat (ring_at (length l) b (length q + 1)) - 1 <? 0 then Z.of_nat (length l) - 1
               else Z.of_nat (ring_at (length l) b (length q + 1)) - 1) = Z.of_nat (ring_at (length l) b (length q))).
  { unfold ring_at. destruct (Z.ltb_spec (Z.of_nat (if decide (b + (length q + 1) < length l)%nat then (b + (length q + 1))%nat
      else (b + (length q + 1) - length l)%nat) - 1) 0); repeat destruct (decide _); lia. }
  cbv zeta. rewrite E. apply (HQ l); [done|]. rewrite <- turned_lookup by lia.
  assert (L : ring_list l b (length q + 1) !! length q = Some x).
  { rewrite Hr. by apply list_lookup_middle. }
  unfold ring_list in L. by rewrite lookup_take_lt in L by lia.
Qed.

(** The packet that came in, as a slot. *)
Definition filled_with (p : kermit_packet) (x y : slot) : Prop :=
  sl_data y = Some (packet_bytes p) /\ sl_data_n y = data_n p /\ sl_seq y = seq p /\ sl_type y = type p /\
  acked y = true.

Lemma wp_fill_push (tries : slot -> Z) s q :
  holds s q -> (length q < Z.to_nat (WINDO_in (session_parms s)))%nat ->
  exists i, input_window_i s = Z.of_nat i /\
  wp (fill_slot (Z.of_nat i) tries;; advance_input_i) s (fun _ s' =>
    appended [] s s' /\ exists x y, filled_with (input_packet s) x y /\ holds s' (q ++ [y])).
Proof.
  intros (l & b & W & Hr) Hn. pose proof W as [W1 W2 W3 W4 W5 W6 W7 W8]. rewrite W5, Nat2Z.id in Hn.
  exists (ring_at (length l) b (length q)). split; [done|].
  assert (Hi : (ring_at (length l) b (length q) < length l)%nat)
    by (unfold ring_at; destruct (decide _); lia).
  destruct (lookup_lt_is_Some_2 l _ Hi) as [x Hx].
  set (f := fun z : slot => z <| sl_data := Some (packet_bytes (input_packet s)) |> <| sl_data_n := data_n (input_packet s) |>
    <| sl_seq := seq (input_packet s) |> <| sl_type := type (input_packet s) |> <| acked := true |> <| try_count := tries z |>).
  eapply wp_mono; [apply (wp_queue_push s f _ l b (length q) x W Hn Hx)|].
  - intros s0 Q HQ ->. unfold fill_slot. apply wp_bind, wp_gets. apply (wp_on_in_slot s l _ x); [done|done|].
    apply HQ; try done. by apply grows_nil.
  - intros u s' (A & l' & Hl' & W' & Eq). split; [done|]. exists x, (f x). split; [done|].
    rewrite (window_queue _ _ _ _ W), Hr in Eq. rewrite <- Eq, (window_queue _ _ _ _ W').
    by apply (window_holds _ _ _ (S (length q))).
Qed.

Lemma wp_unbind {A B} (m : K A) (k : A -> K B) s Q :
  wp (m ≫= k) s Q -> wp m s (fun a s' => wp (k a) s' Q).
Proof. unfold wp, mbind, M_bind. by destruct (m s) as [[]| |]. Qed.

Lemma wp_and {A} (m : K A) s (Q1 Q2 : A -> kermit_state -> Prop) :
  wp m s Q1 -> wp m s Q2 -> wp m s (fun a s' => Q1 a s' /\ Q2 a s').
Proof. unfold wp. by destruct (m s) as [[]| |]. Qed.

Lemma wp_fill_fields tries i s l x :
  input_window s = Some l -> l !! i = Some x ->
  wp (fill_slot (Z.of_nat i) tries) s (fun _ s1 => appended [] s s1 /\
    input_window_i s1 = input_window_i s /\ input_window_n s1 = input_window_n s /\
    input_window_begin s1 = input_window_begin s).
Proof.
  intros Hl Hx. unfold fill_slot. apply wp_bind, wp_gets. apply (wp_on_in_slot s l _ x); [done|done|].
  split; [by apply grows_nil|done].
Qed.

(** What the main part of [save_input_packet] does with the slot it was given. *)
Lemma wp_save_at s q i :
  holds s q -> (length q < Z.to_nat (WINDO_in (session_parms s)))%nat -> i = input_window_i s ->
  wp (fill_slot i (fun _ => 0);;
      s ← get;
      let full := input_window_n s =? WINDO_in (session_parms s) in
      whenM full (assertM (input_window_i s =? input_window_begin s));;
      whenM (i =? input_window_i s)
        ((if input_window_n s <? WINDO_in (session_parms s) then advance_input_i
          else assertM (i =? input_window_begin s));;
         next_seq)) s
    (fun _ s' => (exists x y, filled_with (input_packet s) x y /\ holds s' (q ++ [y])) /\
       (forall content, at_end s content -> at_end s' content) /\
       d_space (the_disk (shared s')) = d_space (the_disk (shared s)) /\ session_parms s' = session_parms s).
Proof.
  intros H Hn Hi. destruct (wp_fill_push (fun _ => 0) s q H Hn) as (j & Hj & Hpush). subst i.
  apply wp_unbind in Hpush. rewrite <- Hj in Hpush.
  apply wp_bind.
  assert (Hfields : wp (fill_slot (input_window_i s) (fun _ => 0)) s (fun _ s1 => appended [] s s1 /\
    input_window_i s1 = input_window_i s /\ input_window_n s1 = input_window_n s /\
    input_window_begin s1 = input_window_begin s)).
  { destruct H as (l & b & [W1 W2 W3 W4 W5 W6 W7 W8] & Hr). rewrite W5, Nat2Z.id in Hn.
    assert (Hi : (ring_at (length l) b (length q) < length l)%nat) by (unfold ring_at; destruct (decide _); lia).
    destruct (lookup_lt_is_Some_2 l _ Hi) as [x Hx].
    pose proof (wp_fill_fields (fun _ => 0) _ s l x W1 Hx) as F. by rewrite <- W4 in F. }
  pose proof (holds_n _ _ H) as Hqn.
  eapply wp_mono; [exact (wp_and _ _ _ _ Hpush Hfields)|]. cbv beta. intros u s1 [Hp (A & E1 & E2 & E3)].
  apply wp_bind, wp_get. cbv zeta. rewrite (ap_session _ _ _ A), E1, E2, Hqn.
  rewrite (proj2 (Z.eqb_neq (Z.of_nat (length q)) (WINDO_in (session_parms s)))) by lia.
  apply wp_bind, wp_when; [done|intros _]. rewrite Z.eqb_refl. apply wp_when; [intros _|done].
  rewrite (proj2 (Z.ltb_lt (Z.of_nat (length q)) (WINDO_in (session_parms s)))) by lia.
  apply wp_bind. eapply wp_mono; [exact Hp|]. cbv beta. intros u2 s2 [A2 (x & y & Hf & H2)].
  unfold next_seq. apply wp_modify. split; [|split; [|split]].
  - exists x, y. split; [done|]. destruct H2 as (l & b & [W1 W2 W3 W4 W5 W6 W7 W8] & Hr). exists l, b. by split.
  - intros content Hc. pose proof (ap_file _ _ _ A2 content Hc) as (f & F1 & F2 & F3).
    rewrite app_nil_r in F2, F3. by exists f.
  - rewrite <- (Z.sub_0_r (d_space (the_disk (shared s)))). exact (ap_space _ _ _ A2).
  - exact (ap_session _ _ _ A2).
Qed.

(** A packet that may be saved next: good, for the receiver, and with the number
    after that of the youngest packet. *)
Record next_packet (s : kermit_state) (q : list slot) : Prop := {
  np_ok : parsed_ok (input_packet s) = true;
  np_receiving : sending (status s) = false;
  np_data : 0 <= data_n (input_packet s) <= Z.of_nat (length (pdata (input_packet s)));
  np_seq : forall q0 y, q = q0 ++ [y] -> 0 <= sl_seq y <= 63 /\ seq (input_packet s) = (sl_seq y + 1) mod 64
}.

(** The data of the oldest packet. *)
Definition head_bytes (q : list slot) : list Z := match q with x :: _ => file_bytes x | [] => [] end.
(** The queue once there is room: a full one loses its oldest packet. *)
Definition made_room (s : kermit_state) (q : list slot) : list slot :=
  if Z.of_nat (length q) =? WINDO_in (session_parms s) then tail q else q.

Lemma wp_next_packet_case s q content :
  holds s q -> q <> [] -> Forall (fun x => acked x = true) q -> Forall sound q -> at_end s content ->
  Z.of_nat (length (concat (slot_data <$> q))) <= d_space (the_disk (shared s)) -> MAXL (session_parms s) <> 0 ->
  wp next_packet_case s (fun _ s' => appended (head_bytes q) s s' /\ input_window_i s' = input_window_i s /\
    holds s' (made_room s q)).
Proof.
  intros H Hne Ha Hs Hf Hroom Hm. destruct q as [|x q]; [done|].
  apply Forall_cons_iff in Ha as [Hax _]. apply Forall_cons_iff in Hs as [Hsx _].
  unfold next_packet_case. apply wp_bind, wp_get.
  destruct (holds_begin _ _ _ H) as (l & b & Hl & Hb & Hx). apply wp_bind. rewrite Hb at 1.
  apply (wp_in_slot s l b x); [done|done|]. rewrite Hax, andb_true_r. cbn [andb].
  apply wp_bind. eapply wp_mono; [eapply (wp_save_one _ s x q content); try done|].
  { intros Ht. apply bool_decide_eq_true in Ht. by apply Hsx. }
  { cbn [fmap list_fmap concat] in Hroom. rewrite length_app in Hroom. lia. }
  intros u s1 (A1 & I1 & H1). unfold made_room. rewrite (holds_n _ _ H). cbn [head_bytes]. unfold file_bytes.
  apply wp_when; intros E; rewrite E; [|done].
  eapply wp_mono; [by eapply wp_roll_off_holds|]. intros u2 s2 (A2 & I2 & H2). split; [|split; [congruence|exact H2]].
  pose proof (grows_trans _ _ _ _ _ A1 A2) as A12. by rewrite app_nil_r in A12.
Qed.

Lemma length_made_room s q : holds s q -> (length (made_room s q) < Z.to_nat (WINDO_in (session_parms s)))%nat.
Proof.
  intros (l & b & [W1 W2 W3 W4 W5 W6 W7 W8] & _). unfold made_room. rewrite W5, Nat2Z.id.
  destruct (Z.eqb_spec (Z.of_nat (length q)) (Z.of_nat (length l))); [|lia]. destruct q; cbn in *; lia.
Qed.

(** The slot it goes to and what was written on the way. *)
Lemma wp_find_input_slot s q content :
  holds s q -> next_packet s q -> Forall (fun x => acked x = true) q -> Forall sound q -> at_end s content ->
  Z.of_nat (length (concat (slot_data <$> q))) <= d_space (the_disk (shared s)) -> MAXL (session_parms s) <> 0 ->
  wp find_input_slot s (fun o s' => o = Some (input_window_i s') /\ appended (head_bytes q) s s' /\
    holds s' (made_room s q)).
Proof.
  intros H [N1 N2 N3 N4] Ha Hs Hf Hroom Hm. unfold find_input_slot. apply wp_bind, wp_get. cbv zeta.
  apply wp_bind, wp_assert; [done|]. rewrite (holds_n _ _ H).
  destruct q as [|y q _] using rev_ind.
  { cbn [length Z.of_nat Z.eqb]. apply wp_ret. split; [done|]. split; [by apply grows_nil|].
    unfold made_room. cbn [tail]. by destruct (_ =? _). }
  rewrite (proj2 (Z.eqb_neq _ 0)) by (rewrite length_app; cbn; lia).
  destruct (N4 _ _ eq_refl) as [Hy Hseq].
  apply wp_bind. apply (wp_input_end s q y); [done|]. intros l i Hl Hi.
  apply wp_bind, (wp_in_slot s l i y); [done|done|].
  rewrite (i32_id (sl_seq y)) by lia. rewrite Hseq, Z.eqb_refl.
  apply wp_bind. eapply wp_mono; [eapply wp_next_packet_case; try done; by destruct q|].
  cbv beta. intros u s' (A & I & H'). apply wp_ret. by rewrite I.
Qed.

(** The whole function on a packet in order. *)
Lemma wp_save_in_order s q content :
  holds s q -> next_packet s q -> Forall (fun x => acked x = true) q -> Forall sound q -> at_end s content ->
  Z.of_nat (length (concat (slot_data <$> q))) <= d_space (the_disk (shared s)) -> MAXL (session_parms s) <> 0 ->
  wp save_input_packet s (fun _ s' => exists y, acked y = true /\ good_slot y /\ sl_type y = type (input_packet s) /\
    slot_data y = packet_bytes (input_packet s) /\ sl_seq y = seq (input_packet s) /\
    holds s' (made_room s q ++ [y]) /\ at_end s' (content ++ head_bytes q) /\
    d_space (the_disk (shared s')) = d_space (the_disk (shared s)) - Z.of_nat (length (head_bytes q)) /\
    session_parms s' = session_parms s).
Proof.
  intros H N Ha Hs Hf Hroom Hm. pose proof N as [N1 N2 N3 _]. unfold save_input_packet.
  apply wp_bind, wp_get. rewrite N1, N2. cbn [negb orb].
  apply wp_bind. eapply wp_mono; [by eapply wp_find_input_slot|]. cbv beta.
  intros o s1 (-> & A1 & H1).
  assert (Hlt : (length (made_room s q) < Z.to_nat (WINDO_in (session_parms s1)))%nat)
    by (rewrite (ap_session _ _ _ A1); by apply length_made_room).
  eapply wp_mono; [by apply (wp_save_at s1 (made_room s q))|]. cbv beta.
  intros u s2 ((x & y & (F1 & F2 & F3 & F4 & F5) & H2) & Hc & Hsp & Hse).
  rewrite (ap_input _ _ _ A1) in F1, F2, F3, F4.
  assert (Hlen : data_n (input_packet s) = Z.of_nat (length (packet_bytes (input_packet s)))).
  { unfold packet_bytes. rewrite length_take. lia. }
  exists y. split; [done|]. split; [exists (packet_bytes (input_packet s)); by rewrite F1, F2|].
  split; [done|]. split; [apply good_slot_data; by rewrite ?F1, ?F2|]. split; [done|]. split; [done|].
  split; [apply Hc; by apply (ap_file _ _ _ A1)|]. split; [by rewrite Hsp, (ap_space _ _ _ A1)|].
  by rewrite Hse, (ap_session _ _ _ A1).
Qed.

(** The receiver has got [total]: part of it is in the file, the rest in the
    window, where every packet has arrived. *)
Definition received (s : kermit_state) (q : list slot) (total : list Z) : Prop :=
  exists content, holds s q /\ Forall (fun x => acked x = true) q /\ Forall sound q /\ at_end s content /\
    total = content ++ queue_bytes q.

Lemma queue_bytes_app q1 q2 : queue_bytes (q1 ++ q2) = queue_bytes q1 ++ queue_bytes q2.
Proof. unfold queue_bytes. by rewrite fmap_app, concat_app. Qed.

(** Packets in order reach the file: saving the next one adds its bytes to
    what the receiver has got, and nothing else, whether the window has room or
    its oldest packet has to be written and rolled off. *)
Theorem save_next_packet (s : kermit_state) (q : list kermit_packet_serial) (total : list Z) :
  received s q total -> next_packet s q ->
  Z.of_nat (length q) = WINDO_in (session_parms s) \/ head_bytes q = [] ->
  Z.of_nat (length (concat (slot_data <$> q))) <= d_space (the_disk (shared s)) -> MAXL (session_parms s) <> 0 ->
  exists s' q', save_input_packet s = Done (tt, s') /\
    received s' q' (total ++ if bool_decide (type (input_packet s) = Some P_KDATA)
                             then packet_bytes (input_packet s) else []).
Proof.
  intros (content & H & Ha & Hs & Hf & ->) N Hgood Hroom Hm.
  destruct (wp_run _ _ _ (wp_save_in_order s q content H N Ha Hs Hf Hroom Hm))
    as ([] & s' & Hrun & y & Y1 & Y2 & Y3 & Y4 & Y5 & H' & Hf' & _).
  exists s', (made_room s q ++ [y]). split; [done|]. exists (content ++ head_bytes q).
  assert (Hin : forall P : slot -> Prop, Forall P q -> P y -> Forall P (made_room s q ++ [y])).
  { intros P Hp Hy. apply Forall_app. split; [|by constructor]. unfold made_room.
    destruct (_ =? _); [|done]. destruct Hp; [done|by cbn]. }
  split; [done|]. split; [by apply Hin|]. split; [apply Hin; [done|by intros _ _]|]. split; [done|].
  rewrite queue_bytes_app, <- !app_assoc. f_equal.
  assert (Hy : queue_bytes [y] = if bool_decide (type (input_packet s) = Some P_KDATA) then packet_bytes (input_packet s) else []).
  { unfold queue_bytes. cbn. rewrite app_nil_r. unfold file_bytes. by rewrite Y3, Y4. }
  rewrite Hy, app_assoc. f_equal. unfold made_room. destruct Hgood as [E|E].
  - rewrite E, Z.eqb_refl. destruct q; [done|]. cbn [tail head_bytes]. by rewrite queue_bytes_cons.
  - rewrite E. destruct (_ =? _); [|done]. destruct q as [|x q]; [done|].
    cbn [tail head_bytes] in *. by rewrite queue_bytes_cons, E.
Qed.

(** After a loss the window is not full and its oldest packet holds data; the
    next packet in order then has that data written without taking it out of the
    window, so that the file gets it twice. *)
Theorem oldest_packet_written_twice (s : kermit_state) (x : kermit_packet_serial) (q : list kermit_packet_serial)
    (content : list Z) :
  holds s (x :: q) -> Forall (fun x => acked x = true) (x :: q) -> Forall sound (x :: q) -> at_end s content ->
  next_packet s (x :: q) -> Z.of_nat (length (x :: q)) < WINDO_in (session_parms s) ->
  sl_type x = Some P_KDATA ->
  2 * Z.of_nat (length (concat (slot_data <$> x :: q))) + Z.of_nat (length (packet_bytes (input_packet s))) <=
    d_space (the_disk (shared s)) -> MAXL (session_parms s) <> 0 ->
  exists s1 s2 rest, save_input_packet s = Done (tt, s1) /\ window_save_all s1 = Done (true, s2) /\
    at_end s2 (content ++ slot_data x ++ slot_data x ++ rest).
Proof.
  intros H Ha Hs Hf N Hlt Hx Hroom Hm. assert (Hhead : head_bytes (x :: q) = slot_data x)
    by (cbn; unfold file_bytes; by rewrite Hx).
  destruct (wp_run _ _ _ (wp_save_in_order s (x :: q) content H N Ha Hs Hf ltac:(lia) Hm))
    as ([] & s1 & Hrun & y & Y1 & Y2 & Y3 & Y4 & Y5 & H1 & Hf1 & Hsp & Hse).
  unfold made_room in H1. rewrite (proj2 (Z.eqb_neq _ _)) in H1 by lia. rewrite Hhead in *.
  set (q1 := (x :: q) ++ [y]) in *.
  assert (Ha1 : forallb acked q1 = true).
  { apply List.forallb_forall, List.Forall_forall. unfold q1. apply Forall_app. split; [done|by constructor]. }
  assert (Hroom1 : Z.of_nat (length (concat (slot_data <$> q1))) <= d_space (the_disk (shared s1))).
  { rewrite Hsp. unfold q1. rewrite fmap_app, concat_app. cbn [fmap list_fmap concat] in *.
    rewrite !length_app in *. rewrite Y4. cbn [length]. lia. }
  assert (Hs1 : Forall sound q1) by (apply Forall_app; split; [done|constructor; [by intros _ _|done]]).
  unfold window_save_all.
  destruct (wp_run _ _ _ (wp_save_all q1 s1 _ H1 Hs1 Hf1 Hroom1 ltac:(by rewrite Hse)))
    as (ok & s2 & Hrun2 & Hok & _ & A2).
  exists s1, s2, (queue_bytes (tail (arrived_front q1))).
  split; [done|]. split.
  { rewrite (bind_done _ _ s1 (input_window_n s1) s1) by done. rewrite (holds_n _ _ H1), Nat2Z.id.
    rewrite Hrun2. by rewrite Hok, Ha1. }
  pose proof (ap_file _ _ _ A2 _ Hf1) as Hend.
  assert (E : queue_bytes (arrived_front q1) = slot_data x ++ queue_bytes (tail (arrived_front q1))).
  { unfold q1. apply Forall_cons_iff in Ha as [Hax _]. cbn [app arrived_front]. rewrite Hax. cbn [tail].
    rewrite queue_bytes_cons. f_equal. unfold file_bytes. by rewrite Hx. }
  by rewrite E, <- !app_assoc in Hend.
Qed.

(** ** Instances *)

(** Two packets of a file in a window, the third one comes in. *)
Definition sample_slot (n : Z) (data : list Z) (ok : bool) : kermit_packet_serial :=
  zero_slot <| sl_seq := n |> <| acked := ok |> <| sl_type := Some P_KDATA |> <| sl_data := Some data |>
    <| sl_data_n := Z.of_nat (length data) |>.
Definition sample_window (slots : list kermit_packet_serial) : kermit_state :=
  (sample_receiver false []) <| input_window := Some slots |> <| input_window_begin := 0 |>
    <| input_window_i := Z.of_nat (ring_at (length slots) 0 2) |> <| input_window_n := 2 |>
    <| session_parms ::= (fun p => p <| WINDO_in := Z.of_nat (length slots) |>) |>
    <| shared := initial_common (plain_disk {[ str "f" := [] ]} 100) (fun _ => 0) |>
    <| input_packet ::= (fun p => p <| parsed_ok := true |> <| seq := 3 |> <| type := Some P_KDATA |> <| data_n := 5 |>) |>.

Lemma sample_holds x y rest :
  (length rest <= 2)%nat -> holds (sample_window (x :: y :: rest)) [x; y].
Proof.
  intros H. exists (x :: y :: rest), 0%nat. split; [|reflexivity].
  constructor; try reflexivity; cbn [length]; lia.
Qed.

Lemma sample_at_end slots : at_end (sample_window slots) [].
Proof. exists (opened (str "f")). split; [reflexivity|]. split; [vm_compute; reflexivity|reflexivity]. Qed.

Lemma sample_sound a b : Forall sound [sample_slot 1 a true; sample_slot 2 b true].
Proof. repeat constructor; intros _ _; [by exists a|by exists b]. Qed.

Lemma sample_next slots : next_packet (sample_window slots) [sample_slot 1 [1; 2] true; sample_slot 2 [3] true].
Proof.
  constructor; [reflexivity|reflexivity|evaluate|].
  intros q0 y H. change [sample_slot 1 [1; 2] true; sample_slot 2 [3] true]
    with ([sample_slot 1 [1; 2] true] ++ [sample_slot 2 [3] true]) in H.
  apply app_inj_tail in H as [_ <-]. split; [evaluate|reflexivity].
Qed.

Lemma window_save_all_flushes_witness :
  let x := sample_slot 1 [1; 2] true in let y := sample_slot 2 [3] false in
  let s := sample_window [x; y; zero_slot] in
  exists s', window_save_all s = Done (forallb acked [x; y], s') /\
    queue s' = still_waiting [x; y] /\ at_end s' ([] ++ queue_bytes (arrived_front [x; y])).
Proof.
  intros x y s. apply (window_save_all_flushes s [x; y] []); [apply sample_holds; cbn; lia| |apply sample_at_end|evaluate|evaluate].
  constructor; [intros _ _; by exists [1; 2]|]. constructor; [intros H; discriminate H|constructor].
Defined.

Lemma save_next_packet_witness :
  let x := sample_slot 1 [1; 2] true in let y := sample_slot 2 [3] true in
  let s := sample_window [x; y] in
  exists s' q', save_input_packet s = Done (tt, s') /\
    received s' q' ([1; 2; 3] ++ if bool_decide (type (input_packet s) = Some P_KDATA)
                             then packet_bytes (input_packet s) else []).
Proof.
  intros x y s. apply (save_next_packet s [x; y] [1; 2; 3]); [|apply sample_next|left; reflexivity|evaluate|evaluate].
  exists []. split; [apply sample_holds; cbn; lia|]. split; [repeat constructor|].
  split; [apply sample_sound|]. split; [apply sample_at_end|reflexivity].
Defined.

Lemma oldest_packet_written_twice_witness :
  let x := sample_slot 1 [1; 2] true in let y := sample_slot 2 [3] true in
  let s := sample_window [x; y; zero_slot] in
  exists s1 s2 rest, save_input_packet s = Done (tt, s1) /\ window_save_all s1 = Done (true, s2) /\
    at_end s2 ([] ++ slot_data x ++ slot_data x ++ rest).
Proof.
  intros x y s. apply (oldest_packet_written_twice s x [y] []);
    [apply sample_holds; cbn; lia|repeat constructor|apply sample_sound|apply sample_at_end|apply sample_next|
     evaluate|reflexivity|evaluate|evaluate].
Defined.
