(* ===== verification/KermitLimits.v ===== *)
(** The limits of the Kermit implementation: timeouts, the text of an Error
    packet, a packet that is shorter than its check, runs without a repeat
    prefix, and windows left over from the last transfer. *)

From Stdlib Require Import ZArith Lia List Bool.
From stdpp Require Import base list numbers gmap strings.
From S2P Require Import Prelude Crc Stdio Protocols Kermit KermitMachine KermitCodec KermitPacket KermitFile.
Import Kermit Machine.

(** A receiver whose peer has been silent for the fifth time, and codecs of a
    session without prefixes. *)
Definition overdue : kermit_state :=
  (sample_receiver false []) <| shared ::= (fun c => c <| clock := fun _ => 100 |>) |>
    <| output_packet := sample_packet |> <| status ::= (fun st => st <| timeout_count := 4 |>) |>.
Definition bare_encoder : encoder :=
  {| en_rept := SP; en_qbin := SP; en_qctl := 35; en_B := false; en_raw := false; en_text := false;
     en_max := 94; en_maxl := 94 |}.
Definition bare_decoder : decoder :=
  {| dn_rept := SP; dn_qbin := SP; dn_qctl := 35; dn_raw := false; dn_strip := false |}.

(** ** Timeouts *)

Lemma wp_stop_state t s :
  wp (stop_file_transfer t) s (fun _ s' => qts_state (q_transfer_stats (shared s')) = t /\
    output_packet s' = output_packet s /\ timeout_count (status s') = timeout_count (status s)).
Proof.
  unfold stop_file_transfer. apply wp_bind, wp_gets, wp_bind.
  apply (wp_mono _ _ (fun _ s' => output_packet s' = output_packet s /\
    timeout_count (status s') = timeout_count (status s))).
  { apply wp_when; [intros _|done]. unfold kermit_stop. apply wp_bind, wp_gets, wp_bind, wp_ret, wp_bind, wp_modify, wp_modify.
    done. }
  intros u s1 [O1 T1]. apply wp_bind.
  apply (wp_mono _ _ (fun _ s' => qts_state (q_transfer_stats (shared s')) = t /\
    output_packet s' = output_packet s1 /\ timeout_count (status s') = timeout_count (status s1))).
  { apply wp_klift. by split. }
  intros u2 s2 (Q2 & O2 & T2). apply wp_modify. rewrite <- O1, <- T1, <- O2, <- T2. by split_and!.
Qed.

(** A packet is ready. *)
Lemma wp_packet_ready t n xs s :
  (length xs <= length (pdata (output_packet s)))%nat ->
  wp (make_packet t n xs) s (fun _ s' => shared s' = shared s /\ status s' = status s /\
    type (output_packet s') = Some t /\ parsed_ok (output_packet s') = true).
Proof.
  intros Hl. unfold make_packet, put_data. apply wp_bind, wp_modify, wp_bind.
  apply wp_bind, wp_gets, wp_bind, wp_memcpy; [done|exact ltac:(cbn; lia)|]. apply wp_modify, wp_modify. done.
Qed.

(** A call that finds the timer run out counts one more timeout and restarts
    the timer; at [timeout_max] it ends the transfer: the state is ABORT, for the
    statistics too, and an Error packet is ready for the other side.  Nothing sets
    the count back in the course of a transfer. *)
Theorem check_timeout_counts (s : kermit_state) :
  let st := status s in
  let now := clock (shared s) (ticks (shared s)) in
  streaming (session_parms s) = false -> TIME (session_parms s) <= now - timeout_begin st ->
  0 <= timeout_count st < 2 ^ 31 - 1 -> (64 <= length (pdata (output_packet s)))%nat ->
  exists s', check_timeout s = Done (true, s') /\ timeout_count (status s') = timeout_count st + 1 /\
    if timeout_max st <=? timeout_count st + 1
    then state (status s') = ABORT /\ qts_state (q_transfer_stats (shared s')) = Q_TRANSFER_STATE_ABORT /\
         type (output_packet s') = Some P_KERROR /\ parsed_ok (output_packet s') = true
    else state (status s') = state st /\ output_packet s' = output_packet s.
Proof.
  intros st now Hstr Htime Hcount Hroom.
  set (Q := fun s' : kermit_state => timeout_count (status s') = timeout_count st + 1 /\
    if timeout_max st <=? timeout_count st + 1
    then state (status s') = ABORT /\ qts_state (q_transfer_stats (shared s')) = Q_TRANSFER_STATE_ABORT /\
         type (output_packet s') = Some P_KERROR /\ parsed_ok (output_packet s') = true
    else state (status s') = state st /\ output_packet s' = output_packet s).
  destruct (wp_run check_timeout s (fun b s' => b = true /\ Q s')) as (b & s' & Hrun & -> & HQ); [|by exists s'].
  assert (Hreset : forall s', Q s' -> wp (reset_timer;; mret true) s' (fun b s' => b = true /\ Q s')).
  { intros s' HQ. unfold reset_timer, time. apply wp_bind, wp_bind, wp_klift, wp_bind, wp_gets, wp_bind, wp_modify, wp_ret.
    apply wp_modify, wp_ret. split; [done|]. exact HQ. }
  unfold check_timeout, time.
  apply wp_bind, wp_klift, wp_bind, wp_gets, wp_bind, wp_modify, wp_ret, wp_bind, wp_get. cbv zeta. fold now.
  set (s1 := s <| shared := _ |>).
  change (session_parms s1) with (session_parms s). change (status s1) with st. rewrite Hstr. cbn [andb].
  rewrite (proj2 (Z.leb_le _ _) Htime). apply wp_bind, wp_modify, wp_bind, wp_gets.
  set (s2 := s1 <| status ::= _ |>).
  assert (Hc : timeout_count (status s2) = timeout_count st + 1).
  { change (timeout_count (status s2)) with (i32 (timeout_count st + 1)). apply i32_id. lia. }
  change (timeout_max (status s2)) with (timeout_max st). rewrite Hc. apply wp_bind.
  apply (wp_mono _ _ (fun _ s' => Q s')); [|intros u s'; apply Hreset].
  unfold Q. destruct (timeout_max st <=? timeout_count st + 1).
  - unfold stats_increment_errors, last_msg. apply wp_bind, wp_bind, wp_klift. apply wp_bind, wp_modify, wp_modify.
    apply wp_klift, wp_modify. set (s3 := s2 <| shared := _ |> <| shared := _ |>).
    apply wp_bind. eapply wp_mono; [apply wp_stop_state|]. intros u1 s4 (Q4 & O4 & T4).
    apply wp_bind, wp_modify. unfold error_packet. apply wp_bind, wp_gets.
    eapply wp_mono; [apply wp_packet_ready|].
    { change (length (str "Too many timeouts") <= length (pdata (output_packet s4)))%nat. rewrite O4.
      change (output_packet s3) with (output_packet s). cbn. lia. }
    intros u2 s5 (S5 & St5 & Ty5 & P5). rewrite S5, St5. split; [|by split_and!].
    change (timeout_count (status s4) = timeout_count st + 1). rewrite T4. exact Hc.
  - unfold stats_increment_errors, last_msg. apply wp_bind, wp_klift. apply wp_bind, wp_modify, wp_modify.
    apply wp_klift, wp_modify. by split.
Qed.

Lemma check_timeout_counts_witness : exists s', check_timeout overdue = Done (true, s') /\
  state (status s') = ABORT /\ type (output_packet s') = Some P_KERROR.
Proof.
  destruct (check_timeout_counts overdue) as (s' & Hrun & _ & H); [done|by evaluate|by evaluate|cbn; lia|].
  exists s'. split; [exact Hrun|]. destruct H as (H1 & _ & H2 & _). by split.
Defined.

(** ** Error packets *)

(** The text of an Error packet is copied into a message of 128 bytes without
    a look at its length: with 128 characters or more the copy runs over the end,
    and so does the terminator when the data fills the buffer of the packet. *)
Theorem error_text_overflows (s : kermit_state) (text : list Z) :
  packet_bytes (input_packet s) = text -> Forall (fun c => c <> 0) text -> 37 ∉ text ->
  0 <= data_n (input_packet s) <= Z.of_nat (length (pdata (input_packet s))) ->
  128 <= Z.of_nat (length text) \/ data_n (input_packet s) = Z.of_nat (length (pdata (input_packet s))) ->
  process_error_packet s = Fault OutOfBounds.
Proof.
  intros Htext Hz Hp Hn Hlong. unfold process_error_packet, terminate_data, store.
  set (p := input_packet s) in *.
  destruct (decide (data_n p = Z.of_nat (length (pdata p)))) as [E|E].
  { unfold mbind, M_bind, gets. fold p. unfold memcpy. cbn [length].
    rewrite (proj2 (Z.leb_gt (data_n p + Z.of_nat 1) _)) by lia. by rewrite andb_false_r. }
  destruct Hlong as [Hlong|]; [|done].
  assert (Hstr : c_str (blit (pdata p) (Z.to_nat (data_n p)) [0]) = text).
  { unfold blit. unfold packet_bytes in Htext. rewrite Htext. generalize (drop (Z.to_nat (data_n p) + length [0]) (pdata p)) as r.
    intros r. clear -Hz. induction Hz as [|c l Hc _ IH]; [done|]. cbn [app c_str] in *.
    by rewrite (proj2 (Z.eqb_neq _ _) Hc), IH. }
  set (buf := blit (pdata p) (Z.to_nat (data_n p)) [0]) in *.
  assert (Hterm : (p ← gets input_packet; buf ← memcpy (pdata p) (data_n p) [0];
                   on_input (fun p => p <| pdata := buf |>)) s = Done (tt, with_packet s (p <| pdata := buf |>))).
  { rewrite (bind_done _ _ s p s) by done. rewrite (bind_done _ _ s buf s); [done|].
    unfold memcpy. cbn [length]. by rewrite (proj2 (Z.leb_le _ _)), (proj2 (Z.leb_le _ _)) by lia. }
  rewrite (bind_done _ _ _ _ _ Hterm). set (s1 := with_packet s (p <| pdata := buf |>)).
  rewrite (bind_done (gets input_packet) _ s1 (p <| pdata := buf |>) s1) by done.
  set (s2 := s1 <| status ::= (fun st => st <| state := ABORT |>) |>).
  rewrite (bind_done (set_state ABORT) _ s1 tt s2) by done. cbv zeta.
  change (pdata (p <| pdata := buf |>)) with buf. rewrite Hstr.
  rewrite bool_decide_eq_false_2 by done. change DIALOG_MESSAGE_SIZE with 128.
  by rewrite (proj2 (Z.leb_le _ _) Hlong).
Qed.

Lemma error_text_overflows_witness :
  process_error_packet ((sample_receiver false [])
    <| input_packet := (sample_packet) <| pdata := replicate 200 65 |> <| data_n := 128 |> |>) = Fault OutOfBounds.
Proof.
  apply (error_text_overflows _ (replicate 128 65)); [by vm_compute| | |cbn; lia|by left].
  - apply Forall_replicate. lia.
  - apply (bool_decide_unpack _). by vm_compute.
Defined.

(** ** A packet shorter than its check *)

(** Without a prefix for the eighth bit every input decodes. *)
Lemma decode_loop_ok de l : forall d, dn_qbin de = SP -> snd (decode_loop de l d) = true.
Proof.
  induction l as [|c l IH]; intros d Hq; [done|]. cbn [decode_loop].
  assert (H : exists d', decode_char de c d = Some d').
  { unfold decode_char. rewrite Hq, Z.eqb_refl. cbn [negb andb].
    destruct (dn_raw de); [by eexists|]. destruct (_ && _); [by eexists|].
    destruct (d_rept _); [by eexists|]. destruct (_ =? _); by eexists. }
  destruct H as [d' ->]. by apply IH.
Qed.

(** The check characters of a LEN of 3. *)
Definition runt : list Z := [35; 33; 46; 57].

(** A packet whose LEN is 3 when the check has three characters has a data
    length of minus two: as an unsigned number it is beyond the end of the
    buffer, and [decode_input_bytes], once it has found the CRC of the one
    byte LEN to be right, reads past the array.  Five bytes from the other side
    do it. *)
Theorem short_packet_overrun (s : kermit_state) (rest : list Z) :
  packet_buffer s = MARK (session_parms s) :: runt ++ rest ->
  5 <= packet_buffer_n s < 2 ^ 31 -> Z.of_nat (length (packet_buffer s)) < 2 ^ 31 ->
  3 <= MAXL (session_parms s) -> check_type (status s) = 3 -> QBIN (session_parms s) = SP ->
  decode_input_bytes s = Fault OutOfBounds.
Proof.
  intros Hbuf Hn Hlen Hm Hct Hq. unfold decode_input_bytes.
  rewrite (bind_done get _ s s s) by done. cbv zeta. rewrite (proj2 (Z.ltb_ge _ 5)) by lia.
  set (p0 := (input_packet s) <| parsed_ok := false |> <| seq := 0 |> <| type := Some P_KSINIT |>
      <| plength := 0 |> <| long_packet := false |>
      <| pdata := replicate (Z.to_nat (data_max (input_packet s))) 0 |> <| data_n := 0 |>).
  rewrite (bind_done _ _ _ tt (with_packet s p0)) by done.
  assert (Hmark : find_mark (MARK (session_parms s)) (take (Z.to_nat (packet_buffer_n s)) (packet_buffer s)) = Some 0%nat).
  { rewrite Hbuf. destruct (Z.to_nat (packet_buffer_n s)) eqn:E; [lia|]. cbn [take find_mark].
    by rewrite Z.eqb_refl. }
  rewrite Hmark. change (Z.of_nat 0 + 1) with 1. unfold decode_packet.
  rewrite (bind_done get _ (with_packet s p0) (with_packet s p0) (with_packet s p0)) by done. cbv zeta.
  change (packet_buffer (with_packet s p0)) with (packet_buffer s).
  change (session_parms (with_packet s p0)) with (session_parms s).
  change (packet_buffer_n (with_packet s p0)) with (packet_buffer_n s).
  assert (Hload : forall (i : nat) v (s' : kermit_state), (MARK (session_parms s) :: runt) !! i = Some v ->
    load (packet_buffer s) (Z.of_nat i) s' = Done (v, s')).
  { intros i v s' Hi. unfold load. rewrite (proj2 (Z.ltb_ge _ 0)) by lia. rewrite Nat2Z.id, Hbuf.
    change (MARK (session_parms s) :: runt ++ rest) with ((MARK (session_parms s) :: runt) ++ rest).
    by rewrite lookup_app_l, Hi by (by eapply lookup_lt_Some). }
  rewrite (bind_done (load _ 1) _ _ _ _ (Hload 1%nat 35 _ eq_refl)).
  change (kermit_unchar 35) with 3. cbn [Z.eqb Pos.eqb andb negb orb].
  set (p1 := p0 <| plength := 3 |>).
  rewrite (bind_done _ _ _ tt (with_packet s p1)) by done.
  rewrite (bind_done (whenM false _) _ _ tt (with_packet s p1)) by done.
  rewrite (proj2 (Z.ltb_ge (MAXL (session_parms s)) 3)) by lia.
  rewrite (u32_id (packet_buffer_n s - (1 + 1))) by lia. rewrite (proj2 (Z.ltb_ge _ 3)) by lia.
  change (1 + 1) with (Z.of_nat 2). rewrite (bind_done _ _ _ _ _ (Hload 2%nat 33 _ eq_refl)).
  change (kermit_unchar 33) with 1. set (p2 := p1 <| seq := 1 |>).
  rewrite (bind_done _ _ _ tt (with_packet s p2)) by done. cbn [Z.ltb Z.compare Pos.compare Pos.compare_cont].
  change (1 + 2) with (Z.of_nat 3). rewrite (bind_done _ _ _ _ _ (Hload 3%nat 46 _ eq_refl)).
  change (packet_type 46) with (@None PACKET_TYPE). set (p3 := p2 <| type := None |>).
  rewrite (bind_done _ _ _ tt (with_packet s p3)) by done. unfold decode_body.
  rewrite (bind_done get _ (with_packet s p3) (with_packet s p3) (with_packet s p3)) by done. cbv zeta.
  change (packet_buffer (with_packet s p3)) with (packet_buffer s).
  change (input_packet (with_packet s p3)) with p3. change (status (with_packet s p3)) with (status s).
  change (type p3) with (@None PACKET_TYPE). change (plength p3) with 3.
  cbn [input_check_type]. rewrite Hct. change (check_length 3) with 3.
  change (u32 (3 - 2 - 3)) with 4294967294. change (u32 (4294967294 + 2 + 1)) with 1.
  rewrite (bind_done (slice _ _ _) _ _ [35] (with_packet s p3)).
  2:{ unfold slice. change (i32 1) with 1. cbn [Z.leb Z.compare].
      rewrite (proj2 (Z.ltb_ge _ _)) by (rewrite Hbuf; cbn [length app runt]; lia). by rewrite Hbuf. }
  rewrite (bind_done (check_good _ _ _ _ _) _ _ true (with_packet s p3)).
  2:{ unfold check_good. cbn [Z.eqb Pos.eqb]. change (1 + 1) with (Z.of_nat 2).
      rewrite (bind_done _ _ _ _ _ (Hload 2%nat 33 _ eq_refl)).
      change (Z.of_nat 2 + 1) with (Z.of_nat 3). rewrite (bind_done _ _ _ _ _ (Hload 3%nat 46 _ eq_refl)).
      change (Z.of_nat 2 + 2) with (Z.of_nat 4). rewrite (bind_done _ _ _ _ _ (Hload 4%nat 57 _ eq_refl)).
      by destruct (seven_bit_only (status s)). }
  cbn [negb]. unfold decode_data_field at 1.
  unfold mbind, M_bind, gets, get, whenM. cbn [bool_decide andb].
  rewrite bool_decide_eq_false_2 by done. cbn [andb].
  cbv zeta. unfold mret, M_ret. cbv beta iota.
  match goal with |- context [decode_loop ?a ?b ?c] => destruct (decode_loop a b c) as [d ok] eqn:E end.
  assert (ok = true) as ->.
  { apply (f_equal snd) in E. cbn [snd] in E. rewrite <- E. apply decode_loop_ok. exact Hq. }
  rewrite (proj2 (Z.ltb_lt _ 4294967294)); [done|]. rewrite length_drop. lia.
Qed.

Lemma short_packet_overrun_witness :
  decode_input_bytes (sample_receiver false (1 :: runt)) = Fault OutOfBounds.
Proof. apply (short_packet_overrun _ (replicate 100 0)); vm_compute; repeat split; discriminate || reflexivity. Defined.

(** ** Windows left over *)

Lemma bind_diverge {A B} (m : K A) (k : A -> K B) s : m s = Diverge -> (m ≫= k) s = Diverge.
Proof. unfold mbind, M_bind. by intros ->. Qed.

(** After an upload that was cut off with more than one packet in the output
    window, the next transfer never starts: the loop of [kermit_start] that frees
    the slots does not move on from the first one. *)
Theorem kermit_start_hangs (s : kermit_state) (path : cstring) (l : list kermit_packet_serial) :
  output_window s = Some l -> input_window_n s = 0 -> 0 < output_window_n s ->
  WINDO_out (session_parms s) = Z.of_nat (length l) -> 0 <= output_window_begin s < Z.of_nat (length l) ->
  output_window_begin s <> output_window_i s ->
  kermit_start None path false s = Diverge.
Proof.
  intros Hl Hin Hn Hw Hb Hne. unfold kermit_start.
  rewrite (bind_done (assertM _) _ s tt s) by done.
  set (s1 := s <| status ::= (fun st => st <| state := ABORT |>) |>).
  rewrite (bind_done (set_state ABORT) _ s tt s1) by done.
  set (s2 := s1 <| upload_file_list := None |> <| upload_file_list_i := 0%nat |>).
  rewrite (bind_done (modify _) _ s1 tt s2) by done.
  set (s3 := s2 <| status ::= (fun st => st <| sending := false |>) |>).
  rewrite (bind_done (on_status _) _ s2 tt s3) by done.
  cbv iota.
  destruct (wp_run (on_stats (fun q => q <| bytes_total := 0 |>);;
          modify (fun s => s <| download_path := Some path |>);;
          lift (set_transfer_stats_filename []);;
          lift (set_transfer_stats_pathname (Some path));;
          mret true : K bool) s3 (fun ok s' => ok = true /\ output_window s' = output_window s /\
            input_window_n s' = 0 /\ output_window_n s' = output_window_n s /\
            session_parms s' = session_parms s /\ output_window_begin s' = output_window_begin s /\
            output_window_i s' = output_window_i s /\ input_window s' = input_window s))
    as (ok & s4 & Hrun & -> & E1 & E2 & E3 & E4 & E5 & E6 & E7).
  { apply wp_bind, wp_klift, wp_modify, wp_bind, wp_modify, wp_bind, wp_klift, wp_modify, wp_bind, wp_klift, wp_modify, wp_ret.
    done. }
  rewrite (bind_done _ _ _ _ _ Hrun). cbn [negb].
  rewrite (bind_done (gets env) _ s4 (env s4) s4) by done.
  match goal with |- (on_status ?f ≫= _) _ = _ => set (s5 := s4 <| status ::= f |>);
    rewrite (bind_done (on_status f) _ s4 tt s5) by done end.
  rewrite (bind_done free_input_window _ s5 tt s5).
  2:{ unfold free_input_window. rewrite (bind_done get _ s5 s5 s5) by done.
      change (input_window s5) with (input_window s4). change (input_window_n s5) with (input_window_n s4).
      rewrite E2. by destruct (input_window s4). }
  apply bind_diverge. unfold free_output_window. rewrite (bind_done get _ s5 s5 s5) by done.
  change (output_window s5) with (output_window s4). change (output_window_n s5) with (output_window_n s4).
  change (session_parms s5) with (session_parms s4). change (output_window_begin s5) with (output_window_begin s4).
  change (output_window_i s5) with (output_window_i s4). rewrite E1, E3, E4, E5, E6, Hl, Hw.
  rewrite (proj2 (Z.ltb_lt _ _) Hn). cbn [whenM]. rewrite (proj2 (Z.eqb_neq _ 0)) by lia. cbv zeta.
  rewrite (Z.mod_small (output_window_begin s)) by lia.
  destruct (lookup_lt_is_Some_2 l (Z.to_nat (output_window_begin s)) ltac:(lia)) as [x Hx].
  rewrite (bind_done (out_slot _) _ s5 x s5).
  2:{ unfold out_slot, get_slot. rewrite (bind_done (gets output_window) _ s5 (Some l) s5).
      2:{ unfold gets. change (output_window s5) with (output_window s4). by rewrite E1, Hl. }
      rewrite (bind_done (nonnull _) _ s5 l s5) by done.
      rewrite (proj2 (Z.ltb_ge _ 0)) by lia. by rewrite Hx. }
  by rewrite (proj2 (Z.eqb_neq _ _) Hne).
Qed.

Lemma kermit_start_hangs_witness :
  kermit_start None (str "/") false ((sample_sender false)
    <| output_window := Some [zero_slot; zero_slot] |> <| output_window_n := 1 |> <| output_window_i := 1 |>
    <| session_parms ::= (fun p => p <| WINDO_out := 2 |>) |>) = Diverge.
Proof. apply (kermit_start_hangs _ _ [zero_slot; zero_slot]); vm_compute; repeat split; discriminate || reflexivity. Defined.

(** ** Runs without a repeat prefix *)

(** When no repeat prefix was agreed on, [encode_one_byte] still writes a run
    of more than three bytes as a prefix, a count and the byte, with a blank for
    the prefix; the other side reads the three bytes as they are, so that the run
    is lost. *)
Theorem runs_without_prefix_lost (en : encoder) (de : decoder) (ch n : Z) :
  en_rept en = SP -> dn_rept de = SP -> en_qbin en = SP -> dn_qbin de = SP -> en_qctl en = 35 -> dn_qctl de = 35 ->
  en_B en = false -> dn_raw de = false -> dn_strip de = false -> 65 <= ch <= 90 -> 3 < n <= 94 ->
  decoded de (encode_one_byte en ch n) start_decoding = Some [32; n + 32; ch].
Proof.
  intros E1 D1 E2 D2 E3 D3 EB DR DS Hch Hn.
  assert (L7 : forall c, 0 <= c < 128 -> Z.land c 0x7F = c).
  { intros c Hc. change 0x7F with (Z.ones 7). rewrite Z.land_ones by lia. by apply Z.mod_small. }
  assert (H80 : Z.land ch 0x80 = 0).
  { assert (B : forallb (fun c => negb ((65 <=? c) && (c <=? 90)) || (Z.land c 0x80 =? 0)) all_bytes = true)
      by (vm_compute; reflexivity).
    pose proof (all_bytes_spec (fun c => negb ((65 <=? c) && (c <=? 90)) || (Z.land c 0x80 =? 0)) B ch
      ltac:(unfold is_byte; lia)) as H. cbv beta in H. lia. }
  assert (Henc : encode_one_byte en ch n = [SP; n + 32; ch]).
  { unfold encode_one_byte, encode_copy. rewrite E1, E2, E3, (proj2 (Z.ltb_lt 3 n)) by lia.
    cbn [orb]. rewrite L7 by lia. rewrite Z.eqb_refl. cbn [negb andb orb].
    rewrite (proj2 (Z.eqb_neq ch 35)) by lia. unfold is_ctl7.
    rewrite (proj2 (Z.ltb_ge ch 32)), (proj2 (Z.eqb_neq ch 127)) by lia. cbn [negb andb orb app].
    unfold kermit_tochar. rewrite (u8_id n), (u8_id (n + 32)) by (unfold is_byte; lia). done. }
  assert (Hreg : forall c l out, 32 <= c < 128 -> c <> 35 ->
    decoded de (c :: l) (at_rest 1 out) = decoded de l (at_rest 1 (out ++ [c]))).
  { intros c l out Hc Hne. apply decoded_cons. unfold decode_char.
    change (flush_pending de (at_rest 1 out)) with (at_rest 1 out).
    rewrite DR, D1, D2, D3, Z.eqb_refl, (proj2 (Z.eqb_neq _ _) Hne). cbn [negb andb].
    change (d_rept (at_rest 1 out)) with false. cbv iota. unfold on_regular, emit_copies. rewrite DS.
    reflexivity. }
  rewrite Henc. change start_decoding with (at_rest 1 []).
  rewrite !Hreg by (unfold SP; lia). reflexivity.
Qed.

Lemma runs_without_prefix_lost_witness :
  decoded bare_decoder (encode_one_byte bare_encoder 65 5) start_decoding = Some [32; 37; 65].
Proof. apply (runs_without_prefix_lost bare_encoder bare_decoder 65 5); vm_compute; repeat split; discriminate || reflexivity. Defined.
